(* ===== verification/_CoqProject ===== *)
-Q . S2P
Prelude.v
Config.v
Arena.v
Tpcc.v
Page.v
TableSpace.v
Catalog.v
Schema.v
FileIO.v
SharedDisk.v
Lru.v
Buffer.v
Index.v
IndexText.v
LockTable.v
Serial.v
RowStore.v
YcsbLoad.v
RowMvcc.v
RowMvccInv.v
RowMvccState.v
RowMvccServe.v
Mvcc.v
MvccCorrect.v
MvccLive.v
MvccSerial.v
GlobalLock.v
PageLock.v
Txn.v
TxnCorrect.v
Thread.v
YcsbTxn.v
YcsbQuery.v
QueryQueue.v
YcsbCorrect.v
InstSerial.v
RowOcc.v
Occ.v
OccRow.v
OccCentral.v
TpccConst.v
TpccQuery.v
TpccTxn.v
TpccLoad.v
TpccLoaded.v
TpccWarehouse.v
GenDb.v
InstanceStart.v
Stats.v
Parser.v
ProtoWire.v
ProtoVarint.v
ProtoMsg.v
ProtoSample.v
LockProto.v
DiskProto.v
Messages.v
LockRpc.v
DiskRpc.v
Startup.v
Util.v
Instances.v
