(* ===== verification/Prelude.v ===== *)
(** * db2: a verification of the storage and transaction engine

    db2 is a multi-instance database in C++.  Instances run transactions of the
    YCSB benchmark on rows that live in pages; a lock service passes the
    ownership of pages between instances, and a shared disk stores them.  This
    library is a shallow embedding of the engine: every operation is an
    executable function over explicit state, and the theorems are about these
    functions.

    ** Parts and files

    - [Prelude], [Config]: machine integers, byte buffers and the result monad;
      the constants of [config.h], the enumerations and their encodings
      ([common/global.h], [common/myhelper.cpp],
      [global_lock_service_helper.cpp]).
    - Storage.  [Page] ([page.cpp]), [TableSpace] ([tablespace.cpp]), [Catalog]
      ([catalog.cpp], [table.cpp], [row_item.cpp]), [Schema]
      ([workload::init_schema] in [wl.cpp]), [FileIO] ([file_io.cpp],
      [memory_io.cpp]), [SharedDisk] ([shared_disk_service.cpp]: handlers,
      stubs and their composition), [Lru] ([lru.cpp]), [Buffer] ([buffer.cpp],
      [lru_index.cpp]), [Index] and [IndexText] (the binary and the text file of
      [index.cpp]), [LockTable] ([lock_table.cpp]), [RowStore] (reading and
      writing rows, [row_handler.cpp]), [YcsbLoad] (the table loader,
      [ycsb_wl.cpp]), [GenDb] (the program [gen_db.cpp]), [InstanceStart] (the
      storage part of [ManagerInstance::Init]).
    - Concurrency control of a row.  [RowMvcc] is [row_mvcc.cpp]; [RowMvccInv],
      [RowMvccState] and [RowMvccServe] are the invariant and what the helpers
      do to it; [Mvcc] describes each request, [MvccCorrect] the life of a row
      under all threads, [MvccLive] the end of waiting, [MvccSerial] the order
      in which transactions see each other.  [Serial] defines histories and
      serial executions for all of them.
    - Optimistic concurrency control, the scheme that is not configured.
      [RowOcc] is [row_occ.cpp], [Occ] is [occ.cpp]; [OccRow] and [OccCentral]
      are the interleavings of its two ways of validating a transaction.
    - Ownership of pages.  [GlobalLock] is [global_lock.cpp] with the RPC layer
      of [global_lock_service.cpp]; [PageLock] is the protocol around one page
      as a step relation over the threads of several instances; [Startup] is the
      start of the cluster ([main_instance.cpp], [main_lock_service.cpp]).
    - Transactions.  [Txn] and [TxnCorrect] ([txn.cpp], [GetRow] and
      [ReturnRow] of [row_handler.cpp], timestamps of [manager_instance.cpp]),
      [InstSerial] (the order of the transactions of an instance), [Instances]
      (transactions of several instances on one table),
      [Thread] ([thread.cpp]), [YcsbTxn] and [YcsbCorrect] ([ycsb_txn.cpp]),
      [YcsbQuery] ([ycsb_query.cpp]), [QueryQueue] ([query.cpp]), [Arena]
      ([arena.cpp]).
    - TPC-C, which the build leaves out.  [Tpcc] holds the helpers of
      [tpcc_helper.cpp], [TpccConst] the columns of [tpcc_const.h], [TpccQuery]
      the queries of [tpcc_query.cpp], [TpccTxn] payment and new-order of
      [tpcc_txn.cpp], [TpccLoad] the table loaders of [tpcc_wl.cpp];
      [TpccLoaded] and [TpccWarehouse] show what the loaders leave behind.
    - Messages.  [ProtoWire] holds the inline functions of the protobuf headers
      that the generated code is compiled from, [ProtoVarint] the reference
      encoding of integers, [ProtoMsg] the parse loop and what a message class is,
      [ProtoSample] a library to compute with.  [LockProto] and [DiskProto] are the
      classes, the service and the stub of [global_lock_service.pb.cc] and
      [shared_disk_service.pb.cc]; [Messages] is what holds for all of them;
      [LockRpc] and [DiskRpc] are handlers and clients over the wire.
    - Around it.  [Stats] holds the counters of [mystats.cpp], what a thread adds
      to them, and the result files of [parse_result.cpp]; [Parser] the command
      lines of [parser.cpp] and [parser_host.cpp]; [Util] the timer of [profiler.h]
      and the key order of [numbercomparator.h].

    ** How the code is represented

    Objects are records with the members of the class; a method takes the object
    and returns it changed.  Machine integers are integers of type [Z] with the
    wrap-around written out ([u64], [u32], [i32]).  A result is [Ret] with a
    value, [Wait] where the code blocks on a condition that another thread has
    to establish, or [Fault] with its cause: a failed assertion, an access out
    of bounds, a null or freed pointer, a function that returns no value, a
    division by zero.  Indeterminate memory is an argument ([junk]).  Where
    objects are shared by pointer (page nodes, row objects) there is a heap.

    Components meet at interfaces: [Disk] and [DiskSpec] (a page store; the
    page files and the shared disk client are instances), [RowStore] and
    [RowStoreSpec] (rows by key; the row handler over any page store is an
    instance), [Heap] and [HeapSpec] (the allocator below the arena), [Double]
    (the floating-point numbers of the Zipf distribution), [RowAPI] and
    [RowLaws] (rows with typed columns, for TPC-C), [RowInit] and [IndexAPI]
    with their laws (new rows and indexes, for the loader of TPC-C), [Protobuf] and
    [ProtobufLaws] (the functions that the protobuf headers only declare), [Message]
    and [MessageSpec] (the functions of a message class, and the table of fields they
    come from; all 26 classes are instances).  The JSON library is a pair of
    functions.

    A pointer into the bytes of a message is the rest of the memory, so that reading
    behind it is a fault; the output stream counts the bytes that may still be
    written.  An RPC channel serializes the request, parses it at the server, calls
    the method of the index and returns the reply in the same way.

    Interleavings are step relations: [alloc_step] of [TableSpace], [step] of
    [LockTable], [mvcc_step], [ends] and [hist_step] of the rows, [inst_step] of
    the instance, [page_step] of [PageLock], [start_step] of [Startup], [occ_step]
    and [central_step] of the optimistic schemes.  An operation under a mutex or
    latch is one step.

    ** What the theorems show

    - Rows: no request a transaction may make fails in any reachable state;
      reads see committed values and the right version; a commit stores exactly
      its bytes; after a read no older write commits; waiting ends.  A row is
      serializable in timestamp order: each read that stands saw the newest
      commit below its timestamp.  So is an instance over all its rows: the
      committed transactions, run one after the other by timestamp, give the
      same reads and the same table.  Several instances together are not: an
      instance does not read a row again that it has in memory, and there is an
      execution in which a reader sees half of a transaction.
    - Transactions: commit and abort are all or nothing over the rows of a
      transaction; a YCSB transaction on rows no newer transaction has used
      commits and stamps exactly the rows it writes; a worker thread neither
      loses nor duplicates queries, and its query array is long enough.
    - Optimistic validation: per-row validation is serializable in the order of
      end timestamps and never deadlocks; central validation is serializable in
      the order of entering, for transactions that start with the current
      transaction number and do not read what they write, and none of its
      critical sections fails.  Each function is a run of the steps of its
      system.
    - TPC-C: generating a query ends and the query is well formed; payment and
      new-order change exactly the columns they should; the tables of a loaded
      warehouse are consistent and its indexes have all that payment and new-order
      look up.  [tpcc_wl::init_table] as a whole overruns an array.
    - Pages: with two ordering guards that the code does not enforce a page has
      one owner and no write is lost; without them there are executions with two
      owners and with a lost write.  A transfer through the lock service carries
      the content of the page.  Lock nodes exclude writers, except for readers of
      invalid pages.  No instance runs transactions before all are registered, and
      the start completes, if the servers come up within the two seconds they have.
    - Storage: the buffer pool refines a page memory in any order of eviction;
      pages, rows, indexes, table spaces and schemas survive their round trips;
      a table that was loaded is read back row by row through index, pool and
      page files; a generated database passes its own check, and an instance that
      starts on it sees every row.
    - Messages: all 26 are received as they were sent, with the fields of later
      versions; their sizes are exact and nothing is written or read out of
      bounds, whatever bytes arrive; messages one behind the other are merged.  The
      optimised integer routines are the reference ones.  Every call of the lock
      service and of the shared disk over the wire is the direct call, nested calls
      and faults included.
    - Around it: what a thread has counted is what its transactions took, the
      totals are the sums over threads and instances, and a command line sets
      exactly what it names; a timer shows the sum of its intervals, and decimal keys
      are ordered by value.
    - Theorems whose names speak of faults, races or lost updates are executions
      in which the code does not do what it means to; the others hold under the
      hypotheses they state, and each has an instance at a concrete state.

    ** Fuel

    Loops that are not structural take fuel, and a theorem shows that it is
    enough: the length of the file for the index readers, one step per line for
    the schema reader, two more than the number of nodes for list traversals,
    twenty digits for a 64-bit number, [MAX_ROW_PER_TXN] rounds for a scan (one
    more does not fit into the access array), more than 2^47 draws for another
    warehouse (the generator has then returned both values of its highest and of
    its lowest bit), one round per item for the removal of duplicates, nine rounds
    for the bytes of a 64-bit integer behind the first, one more than the number of
    bytes for the fields of a message.

    ** What is left out

    Console output, the clock and the distribution of latencies; how the RPC
    library and the system start servers and threads; the JSON library and the conversion of text to floating
    point, whose results are arguments; [ManagerInstance::Init] and the generator as
    a whole, which go through [Index::DeSerialize] and [Index::Serialize] and
    their invalid iterator (their parts are modelled); the row and index classes
    of TPC-C, which are not in the repository; earlier variants of the services
    that are not built; the arenas, descriptors and reflection of the messages,
    groups inside them (only kept as unknown fields), and the other headers of
    third-party libraries; the transport below a channel.

    ** This file

    Shared notation, machine integers, byte buffers, the result monad and the
    automation used by every component. *)

From Stdlib Require Export Strings.Byte ZArith Lia.
From stdpp Require Export base numbers list gmap strings pretty tactics.

#[export] Set Default Proof Using "Type".
Open Scope Z_scope.

Declare Scope db2_scope.
Delimit Scope db2_scope with db2.
Open Scope db2_scope.

Create HintDb db2.

(** ** Machine integers

    Fixed-width integers are integers of type [Z]; an operation that can wrap
    in the source is followed by the conversion to its width. *)

Definition UINT64_MAX : Z := 2 ^ 64 - 1.

Definition u64 (z : Z) : Z := z mod 2 ^ 64.

Definition u32 (z : Z) : Z := z mod 2 ^ 32.

Definition i32 (z : Z) : Z := (z + 2 ^ 31) mod 2 ^ 32 - 2 ^ 31.

Definition i64 (z : Z) : Z := (z + 2 ^ 63) mod 2 ^ 64 - 2 ^ 63.

Definition is_u64 (z : Z) : Prop := 0 <= z < 2 ^ 64.

Definition is_u32 (z : Z) : Prop := 0 <= z < 2 ^ 32.

Lemma u64_id (z : Z) : is_u64 z -> u64 z = z.
Proof. intros. by apply Z.mod_small. Qed.

Lemma u32_id (z : Z) : is_u32 z -> u32 z = z.
Proof. intros. by apply Z.mod_small. Qed.

Lemma u64_range (z : Z) : is_u64 (u64 z).
Proof. by apply Z.mod_pos_bound. Qed.

Lemma u32_range (z : Z) : is_u32 (u32 z).
Proof. by apply Z.mod_pos_bound. Qed.

Lemma i32_id (z : Z) : - 2 ^ 31 <= z < 2 ^ 31 -> i32 z = z.
Proof. intros. unfold i32. rewrite Z.mod_small; lia. Qed.

Lemma i32_range (z : Z) : - 2 ^ 31 <= i32 z < 2 ^ 31.
Proof. unfold i32. pose proof (Z.mod_pos_bound (z + 2 ^ 31) (2 ^ 32)). lia. Qed.

Lemma i64_id (z : Z) : - 2 ^ 63 <= z < 2 ^ 63 -> i64 z = z.
Proof. intros. unfold i64. rewrite Z.mod_small; lia. Qed.

#[export] Hint Resolve u64_range u32_range : db2.

(** ** Results of a call

    [Ret a]: the call returns [a].  [Wait]: the calling thread is blocked on a
    condition that does not hold in the current state.  [Fault f]: the process
    stops (a failed [assert]) or its behaviour is undefined. *)

Inductive fault :=
  | Assert
  | OutOfBounds
  | NullDeref
  | UseAfterFree
  | NoReturn
  | DivByZero
  | OutOfFuel.

Inductive res (A : Type) :=
  | Ret (a : A)
  | Wait
  | Fault (f : fault).
Arguments Ret {A} a.
Arguments Wait {A}.
Arguments Fault {A} f.

#[export] Instance fault_eq_dec : EqDecision fault.
Proof. solve_decision. Defined.

#[export] Instance res_eq_dec {A} `{EqDecision A} : EqDecision (res A).
Proof. solve_decision. Defined.

#[export] Instance res_ret : MRet res := fun A a => Ret a.

#[export] Instance res_bind : MBind res := fun A B f m =>
  match m with
  | Ret a => f a
  | Wait => Wait
  | Fault e => Fault e
  end.

Notation "'assert!' b ; k" := (if b then k else Fault Assert)
  (at level 100, b at level 99, k at level 200, right associativity) : db2_scope.

(** Reading through a pointer or an array cell. *)
Definition deref {A} (o : option A) : res A :=
  match o with
  | Some a => Ret a
  | None => Fault NullDeref
  end.

Definition at_ {A} (o : option A) : res A :=
  match o with
  | Some a => Ret a
  | None => Fault OutOfBounds
  end.

(** [for (i = 0; i < n; i++) body]: [n] iterations over a state. *)
Fixpoint iterate {S} (n : nat) (body : S -> res S) (s : S) : res S :=
  match n with
  | O => Ret s
  | Datatypes.S n => s' ← body s; iterate n body s'
  end.

(** A loop over the elements of a list that threads a state. *)
Fixpoint foldM {S A} (f : S -> A -> res S) (s : S) (l : list A) : res S :=
  match l with
  | [] => Ret s
  | a :: l => s' ← f s a; foldM f s' l
  end.

Section Res.
Context {A B : Type}.

Lemma bind_Ret (m : res A) (f : A -> res B) (b : B) :
  m ≫= f = Ret b <-> exists a, m = Ret a /\ f a = Ret b.
Proof. destruct m; naive_solver. Qed.

Lemma bind_Ret_intro (m : res A) (f : A -> res B) (a : A) :
  m = Ret a -> m ≫= f = f a.
Proof. by intros ->. Qed.

Lemma deref_Ret (o : option A) (a : A) : deref o = Ret a <-> o = Some a.
Proof. destruct o; naive_solver. Qed.

Lemma at_Ret (o : option A) (a : A) : at_ o = Ret a <-> o = Some a.
Proof. destruct o; naive_solver. Qed.
End Res.

Lemma iterate_add {S} (n m : nat) (body : S -> res S) (s : S) :
  iterate (n + m) body s = iterate n body s ≫= iterate m body.
Proof.
  revert s. induction n as [|n IH]; intros s; simpl; [done|].
  destruct (body s); simpl; auto.
Qed.

(** An invariant of the body is an invariant of the loop. *)
Lemma iterate_inv {S} (P : nat -> S -> Prop) (body : S -> res S) (n : nat) (s : S) :
  P n s ->
  (forall k s, P (Datatypes.S k) s -> exists s', body s = Ret s' /\ P k s') ->
  exists s', iterate n body s = Ret s' /\ P O s'.
Proof.
  intros H Hbody. revert s H. induction n as [|n IH]; intros s H; simpl; [eauto|].
  destruct (Hbody _ _ H) as (s' & -> & H'). simpl. eauto.
Qed.

Lemma foldM_app {S A} (f : S -> A -> res S) (s : S) (l1 l2 : list A) :
  foldM f s (l1 ++ l2) = foldM f s l1 ≫= fun s' => foldM f s' l2.
Proof.
  revert s. induction l1 as [|a l1 IH]; intros s; simpl; [done|].
  destruct (f s a); simpl; auto.
Qed.

Lemma foldM_inv {S A} (P : list A -> S -> Prop) (f : S -> A -> res S) (l : list A) (s : S) :
  P l s ->
  (forall a l s, P (a :: l) s -> exists s', f s a = Ret s' /\ P l s') ->
  exists s', foldM f s l = Ret s' /\ P [] s'.
Proof.
  intros H Hstep. revert s H. induction l as [|a l IH]; intros s H; simpl; [eauto|].
  destruct (Hstep _ _ _ H) as (s' & -> & H'). simpl. eauto.
Qed.

(** ** Automation *)

(** Turn boolean tests of the code into propositions. *)
Ltac bool_props :=
  repeat match goal with
  | H : (_ && _)%bool = true |- _ => apply andb_true_iff in H as [? ?]
  | H : (_ || _)%bool = false |- _ => apply orb_false_iff in H as [? ?]
  | H : (_ && _)%bool = false |- _ => apply andb_false_iff in H
  | H : (_ || _)%bool = true |- _ => apply orb_true_iff in H
  | H : negb _ = true |- _ => apply negb_true_iff in H
  | H : negb _ = false |- _ => apply negb_false_iff in H
  | H : (_ =? _)%Z = true |- _ => apply Z.eqb_eq in H
  | H : (_ =? _)%Z = false |- _ => apply Z.eqb_neq in H
  | H : (_ <? _)%Z = true |- _ => apply Z.ltb_lt in H
  | H : (_ <? _)%Z = false |- _ => apply Z.ltb_ge in H
  | H : (_ <=? _)%Z = true |- _ => apply Z.leb_le in H
  | H : (_ <=? _)%Z = false |- _ => apply Z.leb_gt in H
  | H : (_ >? _)%Z = true |- _ => rewrite Z.gtb_ltb in H
  | H : (_ >? _)%Z = false |- _ => rewrite Z.gtb_ltb in H
  | H : (_ >=? _)%Z = true |- _ => rewrite Z.geb_leb in H
  | H : (_ >=? _)%Z = false |- _ => rewrite Z.geb_leb in H
  | H : bool_decide _ = true |- _ => apply bool_decide_eq_true in H
  | H : bool_decide _ = false |- _ => apply bool_decide_eq_false in H
  | H : Is_true _ |- _ => apply Is_true_true in H
  end.

(** Invert a hypothesis saying that a monadic program returned. *)
Ltac res_inv :=
  repeat match goal with
  | H : mbind _ ?m = Ret _ |- _ =>
      let a := fresh "a" in apply bind_Ret in H as (a & ? & H)
  | H : deref _ = Ret _ |- _ => apply deref_Ret in H
  | H : at_ _ = Ret _ |- _ => apply at_Ret in H
  | H : Ret _ = Ret _ |- _ => injection H as H
  | H : Fault _ = Ret _ |- _ => discriminate H
  | H : Wait = Ret _ |- _ => discriminate H
  | H : (if ?b then _ else Fault _) = Ret _ |- _ =>
      destruct b eqn:?; [|discriminate H]
  | H : (if ?b then Fault _ else _) = Ret _ |- _ =>
      destruct b eqn:?; [discriminate H|]
  | H : (if ?b then Wait else _) = Ret _ |- _ =>
      destruct b eqn:?; [discriminate H|]
  | H : (if ?b then _ else Wait) = Ret _ |- _ =>
      destruct b eqn:?; [|discriminate H]
  | p : (_ * _)%type |- _ => destruct p; simpl in *
  end; simplify_eq/=.

(** Run a guard of the goal that [lia] decides. *)
Ltac guard_true :=
  match goal with
  | |- context [if ?b then _ else _] =>
      let H := fresh "Hg" in
      assert (b = true) as H by (rewrite ?andb_true_iff, ?orb_true_iff, ?negb_true_iff,
        ?Z.eqb_eq, ?Z.eqb_neq, ?Z.ltb_lt, ?Z.ltb_ge, ?Z.leb_le, ?Z.leb_gt; lia);
      rewrite H; clear H
  end.

(** ** Byte buffers

    A buffer is a list of bytes.  [slice off n buf] is the [n] bytes from
    offset [off], [splice off src buf] overwrites the bytes of [buf] from
    offset [off] with [src]. *)

Abbreviation bytes := (list Byte.byte).

#[export] Instance byte_eq_dec : EqDecision Byte.byte := Byte.byte_eq_dec.

Definition slice {A} (off n : nat) (buf : list A) : list A := take n (drop off buf).

Definition splice {A} (off : nat) (src buf : list A) : list A :=
  take off buf ++ src ++ drop (off + length src) buf.

(** [memcpy(&dst[doff], &src[soff], count)], with its bounds. *)
Definition memcpy (dst : bytes) (doff : Z) (src : bytes) (soff count : Z) : res bytes :=
  if (0 <=? doff) && (0 <=? soff) && (0 <=? count)
     && (doff + count <=? Z.of_nat (length dst))
     && (soff + count <=? Z.of_nat (length src))
  then Ret (splice (Z.to_nat doff) (slice (Z.to_nat soff) (Z.to_nat count) src) dst)
  else Fault OutOfBounds.

Section Slices.
Context {A : Type}.
Implicit Types l src : list A.

Lemma length_slice (off n : nat) l :
  (off + n <= length l)%nat -> length (slice off n l) = n.
Proof. intros. unfold slice. rewrite length_take, length_drop. lia. Qed.

Lemma slice_all l : slice 0 (length l) l = l.
Proof. unfold slice. rewrite drop_0. by rewrite firstn_all. Qed.

Lemma slice_all' l (n : nat) : n = length l -> slice 0 n l = l.
Proof. intros ->. apply slice_all. Qed.

Lemma splice_all l src : length src = length l -> splice 0 src l = src.
Proof.
  intros H. unfold splice. rewrite take_0. simpl. rewrite H, drop_all. apply app_nil_r.
Qed.

Lemma length_splice (off : nat) src l :
  (off + length src <= length l)%nat -> length (splice off src l) = length l.
Proof.
  intros. unfold splice. rewrite !length_app, length_take, length_drop. lia.
Qed.

Lemma lookup_slice (off n i : nat) l :
  (i < n)%nat -> slice off n l !! i = l !! (off + i)%nat.
Proof. intros. unfold slice. rewrite lookup_take_lt by done. apply lookup_drop. Qed.

Lemma lookup_splice_lt (off i : nat) src l :
  (i < off)%nat -> (off <= length l)%nat -> splice off src l !! i = l !! i.
Proof.
  intros. unfold splice. rewrite lookup_app_l by (rewrite length_take; lia).
  by rewrite lookup_take_lt.
Qed.

Lemma lookup_splice_mid (off i : nat) src l :
  (off <= i < off + length src)%nat -> (off <= length l)%nat ->
  splice off src l !! i = src !! (i - off)%nat.
Proof.
  intros. unfold splice. rewrite lookup_app_r by (rewrite length_take; lia).
  rewrite lookup_app_l by (rewrite length_take; lia).
  f_equal. rewrite length_take. lia.
Qed.

Lemma lookup_splice_ge (off i : nat) src l :
  (off + length src <= i)%nat -> (off <= length l)%nat ->
  splice off src l !! i = l !! i.
Proof.
  intros. unfold splice. rewrite app_assoc.
  rewrite lookup_app_r by (rewrite length_app, length_take; lia).
  rewrite lookup_drop, length_app, length_take. f_equal. lia.
Qed.

(** Reading back what was written. *)
Lemma slice_splice_same (off : nat) src l :
  (off + length src <= length l)%nat -> slice off (length src) (splice off src l) = src.
Proof.
  intros H. apply list_eq. intros i.
  destruct (decide (i < length src)%nat) as [Hi|Hi].
  - rewrite lookup_slice by done. rewrite lookup_splice_mid by lia. f_equal. lia.
  - rewrite !lookup_ge_None_2; [done|lia|].
    unfold slice. rewrite length_take. lia.
Qed.

(** A write does not disturb a disjoint range. *)
Lemma slice_splice_disjoint (off n off' : nat) src l :
  (off' + length src <= length l)%nat ->
  (off + n <= off' \/ off' + length src <= off)%nat ->
  slice off n (splice off' src l) = slice off n l.
Proof.
  intros Hlen Hd. apply list_eq. intros i.
  destruct (decide (i < n)%nat) as [Hi|Hi].
  - rewrite !lookup_slice by done.
    destruct Hd; [apply lookup_splice_lt|apply lookup_splice_ge]; lia.
  - rewrite !lookup_ge_None_2; [done| |]; unfold slice; rewrite length_take; lia.
Qed.

(** A sub-range of what was written. *)
Lemma slice_splice_sub (off n off' : nat) src l :
  (off' + length src <= length l)%nat ->
  (off' <= off)%nat -> (off + n <= off' + length src)%nat ->
  slice off n (splice off' src l) = slice (off - off') n src.
Proof.
  intros Hlen H1 H2. apply list_eq. intros i.
  destruct (decide (i < n)%nat) as [Hi|Hi].
  - rewrite !lookup_slice by done. rewrite lookup_splice_mid by lia. f_equal. lia.
  - rewrite !lookup_ge_None_2; [done| |]; unfold slice; rewrite length_take; lia.
Qed.

Lemma slice_slice (off n off' n' : nat) l :
  (off + n <= n')%nat -> slice off n (slice off' n' l) = slice (off' + off) n l.
Proof.
  intros H. apply list_eq. intros i.
  destruct (decide (i < n)%nat) as [Hi|Hi].
  - rewrite !lookup_slice by lia. f_equal. lia.
  - rewrite !lookup_ge_None_2; [done| |]; unfold slice; rewrite length_take; lia.
Qed.
End Slices.

Lemma memcpy_Ret (dst src : bytes) (doff soff count : Z) :
  0 <= doff -> 0 <= soff -> 0 <= count ->
  doff + count <= Z.of_nat (length dst) -> soff + count <= Z.of_nat (length src) ->
  memcpy dst doff src soff count
  = Ret (splice (Z.to_nat doff) (slice (Z.to_nat soff) (Z.to_nat count) src) dst).
Proof. intros. unfold memcpy. by guard_true. Qed.

Lemma memcpy_inv (dst src out : bytes) (doff soff count : Z) :
  memcpy dst doff src soff count = Ret out ->
  0 <= doff /\ 0 <= soff /\ 0 <= count
  /\ doff + count <= Z.of_nat (length dst) /\ soff + count <= Z.of_nat (length src)
  /\ out = splice (Z.to_nat doff) (slice (Z.to_nat soff) (Z.to_nat count) src) dst.
Proof. unfold memcpy. intros. res_inv. bool_props. naive_solver. Qed.

(** ** Little-endian integers *)

Definition byte_of_Z (z : Z) : Byte.byte :=
  default Byte.x00 (Byte.of_N (Z.to_N (z mod 256))).

Definition Z_of_byte (b : Byte.byte) : Z := Z.of_N (Byte.to_N b).

Fixpoint le_encode (n : nat) (z : Z) : bytes :=
  match n with
  | O => []
  | S n => byte_of_Z z :: le_encode n (z / 256)
  end.

Fixpoint le_decode (bs : bytes) : Z :=
  match bs with
  | [] => 0
  | b :: bs => Z_of_byte b + 256 * le_decode bs
  end.

Lemma Z_of_byte_of_Z (z : Z) : Z_of_byte (byte_of_Z z) = z mod 256.
Proof.
  unfold Z_of_byte, byte_of_Z.
  pose proof (Z.mod_pos_bound z 256 ltac:(lia)) as Hz.
  destruct (Byte.of_N _) as [b|] eqn:E; simpl.
  - apply Byte.to_of_N in E. rewrite E. lia.
  - apply Byte.of_N_None_iff in E. lia.
Qed.

Lemma length_le_encode (n : nat) (z : Z) : length (le_encode n z) = n.
Proof. revert z. induction n as [|n IH]; intros z; simpl; [done|]. by rewrite IH. Qed.

Lemma le_decode_encode (n : nat) (z : Z) :
  le_decode (le_encode n z) = z mod 256 ^ Z.of_nat n.
Proof.
  revert z. induction n as [|n IH]; intros z; cbn [le_encode le_decode].
  - by rewrite Z.pow_0_r, Z.mod_1_r.
  - rewrite IH, Z_of_byte_of_Z, Nat2Z.inj_succ, Z.pow_succ_r by lia.
    rewrite Z.rem_mul_r by lia. lia.
Qed.

Lemma Z_of_byte_range (b : Byte.byte) : 0 <= Z_of_byte b < 256.
Proof. unfold Z_of_byte. pose proof (Byte.to_N_bounded b). lia. Qed.

Lemma byte_of_Z_of_byte (b : Byte.byte) (z : Z) : byte_of_Z (Z_of_byte b + 256 * z) = b.
Proof.
  unfold byte_of_Z. rewrite (Z.mul_comm 256), Z_mod_plus_full.
  rewrite Z.mod_small by apply Z_of_byte_range.
  unfold Z_of_byte. by rewrite N2Z.id, Byte.of_to_N.
Qed.

Lemma le_encode_decode (bs : bytes) : le_encode (length bs) (le_decode bs) = bs.
Proof.
  induction bs as [|b bs IH]; [done|]. cbn [length le_encode le_decode].
  rewrite byte_of_Z_of_byte. f_equal.
  rewrite (Z.mul_comm 256), Z_div_plus_full by lia.
  rewrite Z.div_small by apply Z_of_byte_range. apply IH.
Qed.

Lemma le_decode_range (bs : bytes) : 0 <= le_decode bs < 256 ^ Z.of_nat (length bs).
Proof.
  induction bs as [|b bs IH]; [simpl; lia|]. cbn [length le_decode].
  rewrite Nat2Z.inj_succ, Z.pow_succ_r by lia. pose proof (Z_of_byte_range b). lia.
Qed.

(** The eight bytes of a [uint64_t] as [memcpy] moves them. *)
Definition bytes_of_u64 (z : Z) : bytes := le_encode 8 z.

Definition u64_of_bytes (bs : bytes) : Z := le_decode bs.

Lemma length_bytes_of_u64 (z : Z) : length (bytes_of_u64 z) = 8%nat.
Proof. apply length_le_encode. Qed.

Lemma u64_of_bytes_of_u64 (z : Z) : is_u64 z -> u64_of_bytes (bytes_of_u64 z) = z.
Proof.
  intros H. unfold u64_of_bytes, bytes_of_u64. rewrite le_decode_encode.
  apply Z.mod_small. exact H.
Qed.

Lemma bytes_of_u64_of_bytes (bs : bytes) :
  length bs = 8%nat -> bytes_of_u64 (u64_of_bytes bs) = bs.
Proof. intros H. unfold bytes_of_u64, u64_of_bytes. rewrite <- H. apply le_encode_decode. Qed.

Lemma u64_of_bytes_range (bs : bytes) : length bs = 8%nat -> is_u64 (u64_of_bytes bs).
Proof.
  intros H. unfold u64_of_bytes, is_u64. pose proof (le_decode_range bs) as Hr.
  rewrite H in Hr. exact Hr.
Qed.

Lemma bytes_of_u64_inj (x y : Z) :
  is_u64 x -> is_u64 y -> bytes_of_u64 x = bytes_of_u64 y -> x = y.
Proof.
  intros Hx Hy H. apply (f_equal u64_of_bytes) in H.
  by rewrite !u64_of_bytes_of_u64 in H.
Qed.

#[global] Opaque bytes_of_u64 u64_of_bytes.

(** Loading and storing a [uint64_t] at a byte offset of a buffer. *)
Definition load_u64 (buf : bytes) (off : Z) : res Z :=
  if (0 <=? off) && (off + 8 <=? Z.of_nat (length buf))
  then Ret (u64_of_bytes (slice (Z.to_nat off) 8 buf))
  else Fault OutOfBounds.

Definition store_u64 (buf : bytes) (off v : Z) : res bytes :=
  memcpy buf off (bytes_of_u64 v) 0 8.

Lemma store_u64_Ret (buf : bytes) (off v : Z) :
  0 <= off -> off + 8 <= Z.of_nat (length buf) ->
  store_u64 buf off v = Ret (splice (Z.to_nat off) (bytes_of_u64 v) buf).
Proof.
  intros. unfold store_u64.
  rewrite memcpy_Ret by (rewrite ?length_bytes_of_u64; lia).
  by rewrite slice_all' by (by rewrite length_bytes_of_u64).
Qed.

Lemma load_u64_Ret (buf : bytes) (off : Z) :
  0 <= off -> off + 8 <= Z.of_nat (length buf) ->
  load_u64 buf off = Ret (u64_of_bytes (slice (Z.to_nat off) 8 buf)).
Proof. intros. unfold load_u64. by guard_true. Qed.

(** A word read where the same word was last written. *)
Lemma load_splice_same (buf : bytes) (off v : Z) :
  0 <= off -> off + 8 <= Z.of_nat (length buf) -> is_u64 v ->
  load_u64 (splice (Z.to_nat off) (bytes_of_u64 v) buf) off = Ret v.
Proof.
  intros. rewrite load_u64_Ret;
    rewrite ?length_splice; rewrite ?length_bytes_of_u64; try lia.
  rewrite <- (length_bytes_of_u64 v) at 1.
  rewrite slice_splice_same by (rewrite length_bytes_of_u64; lia).
  by rewrite u64_of_bytes_of_u64.
Qed.

(** A word read from a range that a write does not touch. *)
Lemma load_splice_disjoint (buf src : bytes) (off : Z) (off' : nat) :
  (off' + length src <= length buf)%nat -> 0 <= off ->
  off + 8 <= Z.of_nat off' \/ Z.of_nat (off' + length src) <= off ->
  load_u64 (splice off' src buf) off = load_u64 buf off.
Proof.
  intros. unfold load_u64. rewrite length_splice by done.
  case_match; [|done]. bool_props. do 2 f_equal.
  apply slice_splice_disjoint; lia.
Qed.

(** ** Prefixes of buffers *)

Section Prefixes.
Context {A : Type}.
Implicit Types l src : list A.

(** Writing right after a prefix extends the prefix. *)
Lemma take_splice (off : nat) src l :
  (off + length src <= length l)%nat ->
  take (off + length src) (splice off src l) = take off l ++ src.
Proof.
  intros H. unfold splice. rewrite app_assoc.
  rewrite take_app_le by (rewrite length_app, length_take; lia).
  apply firstn_all2. rewrite length_app, length_take. lia.
Qed.

Lemma slice_take (off n k : nat) l :
  (off + n <= k)%nat -> slice off n l = slice off n (take k l).
Proof.
  intros H. unfold slice. rewrite skipn_firstn_comm, take_take. f_equal. lia.
Qed.

Lemma slice_app_mid (a b c : list A) : slice (length a) (length b) (a ++ b ++ c) = b.
Proof. unfold slice. rewrite drop_app_length. apply take_app_length. Qed.

Lemma splice_splice (off : nat) (a b l : list A) :
  (off + length a + length b <= length l)%nat ->
  splice (off + length a) b (splice off a l) = splice off (a ++ b) l.
Proof.
  intros H. unfold splice at 1. rewrite take_splice by lia.
  unfold splice. rewrite <- !app_assoc. f_equal. f_equal. f_equal.
  rewrite length_app, app_assoc. rewrite drop_app_ge by (rewrite length_app, length_take; lia).
  rewrite length_app, length_take, drop_drop. f_equal. lia.
Qed.
End Prefixes.

(** A word read in the middle of a buffer. *)
Lemma load_u64_app (a b : bytes) (v : Z) :
  is_u64 v -> load_u64 (a ++ bytes_of_u64 v ++ b) (Z.of_nat (length a)) = Ret v.
Proof.
  intros Hv. rewrite load_u64_Ret; [|lia|].
  - rewrite Nat2Z.id, <- (length_bytes_of_u64 v) at 1.
    rewrite slice_app_mid. by rewrite u64_of_bytes_of_u64.
  - rewrite !length_app, length_bytes_of_u64. lia.
Qed.

(** Writing back the word that is there changes nothing. *)
Lemma splice_load (buf : bytes) (off v : Z) :
  load_u64 buf off = Ret v -> splice (Z.to_nat off) (bytes_of_u64 v) buf = buf.
Proof.
  unfold load_u64. destruct ((0 <=? off) && (off + 8 <=? Z.of_nat (length buf))) eqn:E; [|done].
  bool_props. intros [= <-].
  rewrite bytes_of_u64_of_bytes by (rewrite length_slice; lia).
  unfold splice, slice. rewrite length_take, length_drop.
  replace (Nat.min 8 (length buf - Z.to_nat off)) with 8%nat by lia.
  rewrite <- drop_drop, take_drop. apply take_drop.
Qed.

Lemma load_u64_range (buf : bytes) (off v : Z) : load_u64 buf off = Ret v -> is_u64 v.
Proof.
  unfold load_u64. destruct ((0 <=? off) && (off + 8 <=? Z.of_nat (length buf))) eqn:E; [|done].
  bool_props. intros [= <-]. apply u64_of_bytes_range. rewrite length_slice; lia.
Qed.

Lemma load_u64_total (buf : bytes) (off : Z) :
  0 <= off -> off + 8 <= Z.of_nat (length buf) -> exists v, load_u64 buf off = Ret v.
Proof. intros. rewrite load_u64_Ret by done. eauto. Qed.

(** ** Strings *)

Lemma length_append (s t : string) :
  String.length (s +:+ t) = (String.length s + String.length t)%nat.
Proof. induction s as [|a s IH]; simpl; [done|by rewrite IH]. Qed.

Lemma append_assoc (a b c : string) : (a +:+ b) +:+ c = a +:+ (b +:+ c).
Proof.
  induction a as [|d a IH]; [done|].
  change (String d ((a +:+ b) +:+ c) = String d (a +:+ (b +:+ c))). by rewrite IH.
Qed.
