(* ===== verification/Config.v ===== *)
(** * db2: configuration, enumerations and their encodings

    The constants of [config.h], the enumerations of [common/global.h] and
    [common/lock_table/lock_table.h], the integer encodings of
    [common/myhelper.cpp] and the RPC encodings of
    [global_lock_service_helper.cpp]. *)

From S2P Require Import Prelude.

(** ** Constants *)

(** [src/config.h:234-234 MY_PAGE_SIZE] *)
Definition MY_PAGE_SIZE : Z := 1024 * 16.

(** [src/config.h:233-233 FILE_SIZE] *)
Definition FILE_SIZE : Z := 1024 * 16 * 1024 * 100.

(** [src/config.h:235-235 ITEM_NUM_PER_FILE] *)
Definition ITEM_NUM_PER_FILE : Z := 1024 * 100.

(** [src/config.h:231-231 DB_PREFIX] *)
Definition DB_PREFIX : string := "../db/".

(** [src/config.h:232-232 DB_SUFIX] *)
Definition DB_SUFIX : string := ".table".

(** [src/config.h:7-7 THREAD_CNT] *)
Definition THREAD_CNT : Z := 4.

(** [src/config.h:8-8 PROCESS_CNT] *)
Definition PROCESS_CNT : Z := 2.

(** [src/config.h:56-56 ABORT_BUFFER_SIZE] *)
Definition ABORT_BUFFER_SIZE : Z := 10.

(** [src/config.h:113-113 MAX_ROW_PER_TXN] *)
Definition MAX_ROW_PER_TXN : Z := 64.

(** [src/config.h:115-115 MAX_TXN_PER_PART] *)
Definition MAX_TXN_PER_PART : Z := 1000.

(** [src/config.h:154-154 LASTNAME_LEN] *)
Definition LASTNAME_LEN : Z := 16.

(** [src/config.h:156-156 DIST_PER_WARE] *)
Definition DIST_PER_WARE : Z := 10.

#[global] Opaque MY_PAGE_SIZE FILE_SIZE ITEM_NUM_PER_FILE.

Lemma MY_PAGE_SIZE_eq : MY_PAGE_SIZE = 16384.
Proof. reflexivity. Qed.

Lemma ITEM_NUM_PER_FILE_eq : ITEM_NUM_PER_FILE = 102400.
Proof. reflexivity. Qed.

(** ** Enumerations *)

(** [src/common/global.h:91-91 RC] *)
Inductive RC :=
  | RCOK
  | Commit
  | Abort
  | WAIT
  | ERROR
  | FINISH
  | TIME_OUT.

(** [src/common/global.h:113-113 access_t] *)
Inductive access_t :=
  | RD
  | WR
  | XP
  | SCAN.

(** [src/common/global.h:117-117 TsType] *)
Inductive TsType :=
  | R_REQ
  | W_REQ
  | P_REQ
  | XP_REQ.

(** The constructors [O], [P], [S], [X] of the source carry a prefix here.
    [src/common/lock_table/lock_table.h:15-20 LockMode] *)
Inductive LockMode :=
  | LM_O
  | LM_P
  | LM_S
  | LM_X.

#[export] Instance RC_eq_dec : EqDecision RC.
Proof. solve_decision. Defined.

#[export] Instance access_t_eq_dec : EqDecision access_t.
Proof. solve_decision. Defined.

#[export] Instance TsType_eq_dec : EqDecision TsType.
Proof. solve_decision. Defined.

#[export] Instance LockMode_eq_dec : EqDecision LockMode.
Proof. solve_decision. Defined.

(** ** Integer encodings (class [MyHelper])

    A call that runs off the end of its [if] cascade returns no value. *)

(** [src/common/myhelper.cpp:8-15 MyHelper::RCToInt] *)
Definition RCToInt (rc : RC) : res Z :=
  if bool_decide (RCOK = rc) then Ret 0 else
  if bool_decide (Commit = rc) then Ret 1 else
  if bool_decide (Abort = rc) then Ret 2 else
  if bool_decide (WAIT = rc) then Ret 3 else
  if bool_decide (ERROR = rc) then Ret 4 else
  if bool_decide (FINISH = rc) then Ret 5 else
  Fault NoReturn.

(** [src/common/myhelper.cpp:17-24 MyHelper::IntToRC] *)
Definition IntToRC (i : Z) : res RC :=
  if 0 =? i then Ret RCOK else
  if 1 =? i then Ret Commit else
  if 2 =? i then Ret Abort else
  if 3 =? i then Ret WAIT else
  if 4 =? i then Ret ERROR else
  if 5 =? i then Ret FINISH else
  Fault NoReturn.

(** [src/common/myhelper.cpp:26-31 MyHelper::AccessToInt] *)
Definition AccessToInt (type : access_t) : res Z :=
  if bool_decide (RD = type) then Ret 0 else
  if bool_decide (WR = type) then Ret 1 else
  if bool_decide (XP = type) then Ret 2 else
  if bool_decide (SCAN = type) then Ret 3 else
  Fault NoReturn.

(** [src/common/myhelper.cpp:33-38 MyHelper::IntToAccess] *)
Definition IntToAccess (i : Z) : res access_t :=
  if 0 =? i then Ret RD else
  if 1 =? i then Ret WR else
  if 2 =? i then Ret XP else
  if 3 =? i then Ret SCAN else
  Fault NoReturn.

(** [src/common/myhelper.cpp:40-45 MyHelper::TsTypeToInt] *)
Definition TsTypeToInt (ts_type : TsType) : res Z :=
  if bool_decide (R_REQ = ts_type) then Ret 0 else
  if bool_decide (W_REQ = ts_type) then Ret 1 else
  if bool_decide (P_REQ = ts_type) then Ret 2 else
  if bool_decide (XP_REQ = ts_type) then Ret 3 else
  Fault NoReturn.

(** [src/common/myhelper.cpp:47-52 MyHelper::IntToTsType] *)
Definition IntToTsType (i : Z) : res TsType :=
  if 0 =? i then Ret R_REQ else
  if 1 =? i then Ret W_REQ else
  if 2 =? i then Ret P_REQ else
  if 3 =? i then Ret XP_REQ else
  Fault NoReturn.

(** ** RPC encodings (class [GlobalLockServiceHelper]) *)

(** The protobuf enumerations, by their wire numbers.
    [src/global_lock_service/brpc/global_lock_service.pb.h:113-120 RpcLockMode] *)
Inductive RpcLockMode :=
  | Rpc_O
  | Rpc_P
  | Rpc_S
  | Rpc_X.

(** [src/global_lock_service/brpc/global_lock_service.pb.h:140-150 RpcRC] *)
Inductive RpcRC :=
  | Rpc_RCOK
  | Rpc_Commit
  | Rpc_Abort
  | Rpc_WAIT
  | Rpc_ERROR
  | Rpc_FINISH
  | Rpc_TIME_OUT.

#[export] Instance RpcLockMode_eq_dec : EqDecision RpcLockMode.
Proof. solve_decision. Defined.

#[export] Instance RpcRC_eq_dec : EqDecision RpcRC.
Proof. solve_decision. Defined.

(** [src/global_lock_service/brpc/global_lock_service_helper.cpp:11-16 GlobalLockServiceHelper::SerializeLockMode] *)
Definition SerializeLockMode (mode : LockMode) : res RpcLockMode :=
  if bool_decide (LM_O = mode) then Ret Rpc_O else
  if bool_decide (LM_S = mode) then Ret Rpc_S else
  if bool_decide (LM_P = mode) then Ret Rpc_P else
  if bool_decide (LM_X = mode) then Ret Rpc_X else
  Fault NoReturn.

(** [src/global_lock_service/brpc/global_lock_service_helper.cpp:18-26 GlobalLockServiceHelper::SerializeRC] *)
Definition SerializeRC (rc : RC) : res RpcRC :=
  if bool_decide (RCOK = rc) then Ret Rpc_RCOK else
  if bool_decide (Commit = rc) then Ret Rpc_Commit else
  if bool_decide (Abort = rc) then Ret Rpc_Abort else
  if bool_decide (WAIT = rc) then Ret Rpc_WAIT else
  if bool_decide (ERROR = rc) then Ret Rpc_ERROR else
  if bool_decide (FINISH = rc) then Ret Rpc_FINISH else
  if bool_decide (TIME_OUT = rc) then Ret Rpc_TIME_OUT else
  Fault NoReturn.

(** [src/global_lock_service/brpc/global_lock_service_helper.cpp:28-33 GlobalLockServiceHelper::DeSerializeLockMode] *)
Definition DeSerializeLockMode (mode : RpcLockMode) : res LockMode :=
  if bool_decide (Rpc_O = mode) then Ret LM_O else
  if bool_decide (Rpc_S = mode) then Ret LM_S else
  if bool_decide (Rpc_P = mode) then Ret LM_P else
  if bool_decide (Rpc_X = mode) then Ret LM_X else
  Fault NoReturn.

(** [src/global_lock_service/brpc/global_lock_service_helper.cpp:35-43 GlobalLockServiceHelper::DeSerializeRC] *)
Definition DeSerializeRC (rpcRc : RpcRC) : res RC :=
  if bool_decide (Rpc_RCOK = rpcRc) then Ret RCOK else
  if bool_decide (Rpc_Commit = rpcRc) then Ret Commit else
  if bool_decide (Rpc_Abort = rpcRc) then Ret Abort else
  if bool_decide (Rpc_WAIT = rpcRc) then Ret WAIT else
  if bool_decide (Rpc_ERROR = rpcRc) then Ret ERROR else
  if bool_decide (Rpc_FINISH = rpcRc) then Ret FINISH else
  if bool_decide (Rpc_TIME_OUT = rpcRc) then Ret TIME_OUT else
  Fault NoReturn.

(** ** Round trips *)

(** The RPC encodings are total and lossless in both directions. *)
Theorem rpc_enum_round_trip (rc : RC) (mode : LockMode) (rpc : RpcRC) (rmode : RpcLockMode) :
  SerializeRC rc ≫= DeSerializeRC = Ret rc
  /\ DeSerializeRC rpc ≫= SerializeRC = Ret rpc
  /\ SerializeLockMode mode ≫= DeSerializeLockMode = Ret mode
  /\ DeSerializeLockMode rmode ≫= SerializeLockMode = Ret rmode.
Proof. destruct rc, mode, rpc, rmode; repeat split. Qed.

(** The integer encodings of [MyHelper] are lossless on the values they
    cover; [RC::TIME_OUT] is the one value of the three enumerations that
    has no encoding: the call returns no value. *)
Theorem int_enum_round_trip (rc : RC) (a : access_t) (t : TsType) :
  (RCToInt rc ≫= IntToRC = if bool_decide (rc = TIME_OUT) then Fault NoReturn else Ret rc)
  /\ AccessToInt a ≫= IntToAccess = Ret a
  /\ TsTypeToInt t ≫= IntToTsType = Ret t.
Proof. destruct rc, a, t; repeat split. Qed.
