(* ===== verification/Arena.v ===== *)
(** * db2: the arena allocator ([util/arena.h], [util/arena.cpp])

    Each query thread allocates its queries and requests from an [Arena], which
    cuts them from blocks obtained with [new char[n]].  The heap behind [new] is
    an interface; the arena is shown to hand out disjoint ranges of memory that
    it owns. *)

From S2P Require Import Prelude Config.

(** ** The heap *)

(** A range of addresses: its start and its length. *)
Definition range : Type := Z * Z.

Definition disjoint_ranges (r s : range) : Prop := r.1 + r.2 <= s.1 \/ s.1 + s.2 <= r.1.

Definition within (r s : range) : Prop := s.1 <= r.1 /\ r.1 + r.2 <= s.1 + s.2.

(** [new char[n]] gives the address of a new block and [delete[]] takes the
    block back. *)
Class Heap (H : Type) := {
  new_ : Z -> H -> Z * H;
  delete_ : Z -> H -> res H;
}.

(** A new block is apart from the blocks in use, does not start at address 0 and is aligned for any type. *)
Class HeapSpec (H : Type) `{Heap H} := {
  heap_wf : H -> Prop;
  used : H -> list range;
  new_spec : forall n h, heap_wf h -> 0 < n -> let '(p, h') := new_ n h in
    heap_wf h' /\ used h' = (p, n) :: used h /\ Forall (disjoint_ranges (p, n)) (used h)
    /\ 0 < p /\ p `mod` 16 = 0;
  delete_spec : forall p n h, heap_wf h -> (p, n) ∈ used h -> exists h', delete_ p h = Ret h'
    /\ heap_wf h' /\ (p, n) :: used h' ≡ₚ used h;
}.

(** ** The arena *)

(** [blocks_] keeps the size of each block with its address.
    [src/util/arena.h:50-61 alloc_ptr_] *)
Record Arena := mkArena {
  alloc_ptr_ : Z;
  alloc_bytes_remaining_ : Z;
  blocks_ : list range;
  memory_usage_ : Z;
}.

(** [src/util/arena.cpp:10-10 kBlockSize] *)
Definition kBlockSize : Z := 4096.

(** [src/util/arena.cpp:12-20 Arena::Arena] *)
Definition new_Arena : Arena := mkArena 0 0 [] 0.

(** [src/util/arena.h:36-38 MemoryUsage] *)
Definition MemoryUsage (a : Arena) : Z := memory_usage_ a.

Section Arena.
Context {H : Type} `{Heap H}.

(** [src/util/arena.cpp:73-79 Arena::AllocateNewBlock] *)
Definition AllocateNewBlock (block_bytes : Z) (a : Arena) (h : H) : Z * Arena * H :=
  let '(result, h) := new_ block_bytes h in
  (result, mkArena (alloc_ptr_ a) (alloc_bytes_remaining_ a) (blocks_ a ++ [(result, block_bytes)])
             (u64 (memory_usage_ a + (block_bytes + 8))), h).

(** [src/util/arena.cpp:33-49 Arena::AllocateFallback] *)
Definition AllocateFallback (bytes : Z) (a : Arena) (h : H) : Z * Arena * H :=
  if kBlockSize / 4 <? bytes then AllocateNewBlock bytes a h
  else
    let '(p, a, h) := AllocateNewBlock kBlockSize a h in
    (p, mkArena (p + bytes) (u64 (kBlockSize - bytes)) (blocks_ a) (memory_usage_ a), h).

(** [src/util/arena.h:70-83 Arena::Allocate] *)
Definition Allocate (bytes : Z) (a : Arena) (h : H) : res (Z * Arena * H) :=
  assert! 0 <? bytes;
  if bytes <=? alloc_bytes_remaining_ a then
    Ret (alloc_ptr_ a, mkArena (alloc_ptr_ a + bytes) (u64 (alloc_bytes_remaining_ a - bytes))
                         (blocks_ a) (memory_usage_ a), h)
  else Ret (AllocateFallback bytes a h).

(** [src/util/arena.cpp:53-70 Arena::AllocateAligned] *)
Definition AllocateAligned (bytes : Z) (a : Arena) (h : H) : res (Z * Arena * H) :=
  let align := 8 in
  assert! Z.land align (align - 1) =? 0;
  let current_mod := Z.land (alloc_ptr_ a) (align - 1) in
  let slop := if current_mod =? 0 then 0 else align - current_mod in
  let needed := u64 (bytes + slop) in
  let '(result, a, h) :=
    if needed <=? alloc_bytes_remaining_ a then
      (alloc_ptr_ a + slop, mkArena (alloc_ptr_ a + needed) (u64 (alloc_bytes_remaining_ a - needed))
                              (blocks_ a) (memory_usage_ a), h)
    else AllocateFallback bytes a h in
  assert! Z.land result (align - 1) =? 0;
  Ret (result, a, h).

(** [src/util/arena.cpp:22-27 Arena::~Arena] *)
Definition destroy_Arena (a : Arena) (h : H) : res H :=
  foldM (fun h b => delete_ b.1 h) h (blocks_ a).

(** ** Disjointness *)

(** No two of the ranges overlap. *)
Fixpoint apart (l : list range) : Prop :=
  match l with
  | [] => True
  | r :: l => Forall (disjoint_ranges r) l /\ apart l
  end.

Lemma within_disjoint (r s t : range) : within r s -> disjoint_ranges s t -> disjoint_ranges r t.
Proof. unfold within, disjoint_ranges. lia. Qed.

Lemma disjoint_sym (r s : range) : disjoint_ranges r s -> disjoint_ranges s r.
Proof. unfold disjoint_ranges. lia. Qed.

Lemma within_trans (r s t : range) : within r s -> within s t -> within r t.
Proof. unfold within. lia. Qed.

Lemma within_refl (r : range) : within r r.
Proof. unfold within. lia. Qed.

Lemma within_all_disjoint (r s : range) (l : list range) :
  within r s -> Forall (disjoint_ranges s) l -> Forall (disjoint_ranges r) l.
Proof. intros Hw Hl. eapply list.Forall_impl; [exact Hl|]. intros t. by apply within_disjoint. Qed.

(** ** Invariant *)

Definition free_range (a : Arena) : range := (alloc_ptr_ a, alloc_bytes_remaining_ a).

Definition usage (bs : list range) : Z := foldr (fun b acc => b.2 + 8 + acc) 0 bs.

Context `{!HeapSpec H}.
(** The heap's blocks before the arena was made. *)
Context (before : list range).

(** The arena owns its blocks; the ranges handed out and the unused rest of the
    current block lie within them and do not overlap. *)
Record arena_inv (a : Arena) (h : H) (given : list range) : Prop := {
  ai_heap : heap_wf h;
  ai_before : Forall (fun b => Forall (disjoint_ranges b) before) (blocks_ a);
  ai_blocks : used h ≡ₚ blocks_ a ++ before;
  ai_sizes : Forall (fun b => 0 < b.2) (blocks_ a);
  ai_rest : 0 <= alloc_bytes_remaining_ a <= kBlockSize;
  ai_free : free_range a = (0, 0) \/ exists b, b ∈ blocks_ a /\ within (free_range a) b;
  ai_given : Forall (fun r => exists b, b ∈ blocks_ a /\ within r b) given;
  ai_apart : apart (free_range a :: given);
  ai_usage : memory_usage_ a = u64 (usage (blocks_ a));
}.

Lemma usage_app (bs : list range) (b : range) : usage (bs ++ [b]) = usage bs + (b.2 + 8).
Proof. induction bs as [|c bs IH]; simpl; [lia|]. rewrite IH. lia. Qed.

(** A range cut from the current block. *)
Lemma cut_inv (a : Arena) (h : H) (given : list range) (bytes slop : Z) :
  arena_inv a h given -> 0 < bytes -> 0 <= slop -> bytes + slop <= alloc_bytes_remaining_ a ->
  arena_inv (mkArena (alloc_ptr_ a + (bytes + slop))
               (u64 (alloc_bytes_remaining_ a - (bytes + slop))) (blocks_ a) (memory_usage_ a))
    h ((alloc_ptr_ a + slop, bytes) :: given).
Proof using Type.
  intros [Hh Hbf Hb Hs Hr Hf Hg (Ha & Ha') Hu] Hpos Hslop Hfit. unfold kBlockSize in *.
  rewrite u64_id by (unfold is_u64; lia).
  destruct Hf as [Hf|(b & Hin & Hw)]; [injection Hf as ? ?; lia|].
  assert (within (alloc_ptr_ a + slop, bytes) (free_range a)) as H1
    by (unfold within, free_range in *; simpl in *; lia).
  assert (within (alloc_ptr_ a + (bytes + slop), alloc_bytes_remaining_ a - (bytes + slop))
            (free_range a)) as H2 by (unfold within, free_range in *; simpl in *; lia).
  split; simpl; try done; [unfold kBlockSize; lia| | |].
  - right. exists b. split; [done|]. by apply (within_trans _ (free_range a)).
  - constructor; [|done]. exists b. split; [done|]. by apply (within_trans _ (free_range a)).
  - split; [constructor|split; [|done]].
    + unfold disjoint_ranges. simpl. lia.
    + by apply (within_all_disjoint _ (free_range a)).
    + by apply (within_all_disjoint _ (free_range a)).
Qed.

(** What lies in a new block is apart from what was handed out before. *)
Lemma fresh_disjoint (a : Arena) (h : H) (given : list range) (nb r : range) :
  arena_inv a h given -> Forall (disjoint_ranges nb) (used h) -> 0 < nb.1 -> within r nb ->
  Forall (disjoint_ranges r) (free_range a :: given).
Proof using Type.
  intros Hi Hfresh Hp Hw.
  assert (forall s, (exists b, b ∈ blocks_ a /\ within s b) -> disjoint_ranges r s) as Hold.
  { intros s (b & Hin & Hs). apply (within_disjoint _ nb); [done|].
    apply disjoint_sym, (within_disjoint _ b); [done|]. apply disjoint_sym.
    rewrite list.Forall_forall in Hfresh. apply Hfresh. rewrite (ai_blocks _ _ _ Hi).
    apply elem_of_app. by left. }
  constructor.
  - destruct (ai_free _ _ _ Hi) as [->|Hf]; [|by apply Hold].
    unfold disjoint_ranges, within in *. simpl. lia.
  - eapply list.Forall_impl; [apply (ai_given _ _ _ Hi)|]. exact Hold.
Qed.

Lemma new_block_inv (a : Arena) (h : H) (given : list range) (bytes : Z) :
  arena_inv a h given -> 0 < bytes < 2 ^ 62 ->
  let '(p, a', h') := AllocateNewBlock bytes a h in
  alloc_ptr_ a' = alloc_ptr_ a /\ alloc_bytes_remaining_ a' = alloc_bytes_remaining_ a
  /\ heap_wf h' /\ Forall (fun b => Forall (disjoint_ranges b) before) (blocks_ a')
  /\ used h' ≡ₚ blocks_ a' ++ before /\ Forall (fun b => 0 < b.2) (blocks_ a')
  /\ memory_usage_ a' = u64 (usage (blocks_ a')) /\ blocks_ a' = blocks_ a ++ [(p, bytes)]
  /\ Forall (disjoint_ranges (p, bytes)) (used h) /\ 0 < p /\ p `mod` 16 = 0.
Proof using Type.
  intros Hi Hn. unfold AllocateNewBlock. pose proof (new_spec bytes h (ai_heap _ _ _ Hi)) as Hnew.
  destruct (new_ bytes h) as [p h']. destruct Hnew as (Hh & Hu & Hd & Hp & Hal); [lia|]. simpl.
  split_and!; try done.
  - apply list.Forall_app. split; [apply (ai_before _ _ _ Hi)|]. constructor; [|done].
    rewrite (ai_blocks _ _ _ Hi) in Hd. by apply list.Forall_app in Hd as [_ ?].
  - rewrite Hu, (ai_blocks _ _ _ Hi), <- app_assoc. simpl. by rewrite Permutation_middle.
  - apply list.Forall_app. split; [apply (ai_sizes _ _ _ Hi)|]. constructor; [simpl; lia|done].
  - rewrite (ai_usage _ _ _ Hi), usage_app. unfold u64. by rewrite Zplus_mod_idemp_l.
Qed.

Lemma given_app (bs : list range) (b : range) (given : list range) :
  Forall (fun r => exists b, b ∈ bs /\ within r b) given ->
  Forall (fun r => exists b', b' ∈ bs ++ [b] /\ within r b') given.
Proof using Type.
  intros Hg. eapply list.Forall_impl; [exact Hg|]. intros r (b' & Hin & Hw). exists b'.
  split; [apply elem_of_app; by left|done].
Qed.

Lemma fallback_inv (a : Arena) (h : H) (given : list range) (bytes : Z) :
  arena_inv a h given -> 0 < bytes < 2 ^ 62 ->
  let '(p, a', h') := AllocateFallback bytes a h in
  arena_inv a' h' ((p, bytes) :: given) /\ p `mod` 8 = 0.
Proof using Type.
  intros Hi Hn. unfold AllocateFallback.
  assert (forall p, p `mod` 16 = 0 -> p `mod` 8 = 0) as Hmod.
  { intros p. rewrite !Z.mod_divide by lia. intros [k ->]. exists (k * 2). lia. }
  destruct (Z.ltb_spec (kBlockSize / 4) bytes) as [Hbig|Hsmall].
  - pose proof (new_block_inv a h given bytes Hi Hn) as Hb.
    destruct (AllocateNewBlock bytes a h) as [[p a'] h'].
    destruct Hb as (E1 & E2 & Hh & Hbf & Hu & Hs & Hm & Hbl & Hd & Hp & Hal). split; [|by apply Hmod].
    pose proof (fresh_disjoint a h given (p, bytes) (p, bytes) Hi Hd Hp (within_refl _)) as Hf.
    apply list.Forall_cons in Hf as [Hf1 Hf2].
    assert (free_range a' = free_range a) as Hfr by (unfold free_range; by rewrite E1, E2).
    split; try done; rewrite ?E2, ?Hbl, ?Hfr.
    + apply (ai_rest _ _ _ Hi).
    + destruct (ai_free _ _ _ Hi) as [->|(b & Hin & Hw)]; [by left|]. right. exists b.
      split; [apply elem_of_app; by left|done].
    + constructor; [|apply given_app, (ai_given _ _ _ Hi)]. exists (p, bytes).
      split; [apply elem_of_app; right; by left|apply within_refl].
    + destruct (ai_apart _ _ _ Hi) as (H1 & H2). split; [|by split].
      constructor; [by apply disjoint_sym|done].
  - change (kBlockSize / 4) with 1024 in Hsmall.
    pose proof (new_block_inv a h given kBlockSize Hi) as Hb.
    destruct (AllocateNewBlock kBlockSize a h) as [[p a'] h'].
    destruct Hb as (_ & _ & Hh & Hbf & Hu & Hs & Hm & Hbl & Hd & Hp & Hal); [unfold kBlockSize; lia|].
    split; [|by apply Hmod]. unfold kBlockSize in *.
    rewrite u64_id by (unfold is_u64; lia).
    assert (within (p, bytes) (p, 4096)) as W1 by (unfold within; simpl; lia).
    assert (within (p + bytes, 4096 - bytes) (p, 4096)) as W2 by (unfold within; simpl; lia).
    pose proof (fresh_disjoint a h given _ _ Hi Hd Hp W1) as [F1 F2]%list.Forall_cons.
    pose proof (fresh_disjoint a h given _ _ Hi Hd Hp W2) as [F3 F4]%list.Forall_cons.
    split; simpl; try done; rewrite ?Hbl.
    + unfold kBlockSize. lia.
    + right. exists (p, 4096). split; [apply elem_of_app; right; by left|done].
    + constructor; [|apply given_app, (ai_given _ _ _ Hi)]. exists (p, 4096).
      split; [apply elem_of_app; right; by left|done].
    + split; [constructor; [|done]|split; [done|apply (ai_apart _ _ _ Hi)]].
      unfold disjoint_ranges. simpl. lia.
Qed.

Lemma Allocate_inv (a : Arena) (h : H) (given : list range) (bytes : Z) :
  arena_inv a h given -> 0 < bytes < 2 ^ 62 ->
  exists p a' h', Allocate bytes a h = Ret (p, a', h') /\ arena_inv a' h' ((p, bytes) :: given).
Proof using Type.
  intros Hi Hn. unfold Allocate. guard_true.
  destruct (Z.leb_spec bytes (alloc_bytes_remaining_ a)) as [Hfit|_].
  - eexists _, _, _. split; [done|].
    pose proof (cut_inv a h given bytes 0 Hi ltac:(lia) ltac:(lia) ltac:(lia)) as Hc.
    by rewrite !Z.add_0_r in Hc.
  - pose proof (fallback_inv a h given bytes Hi Hn) as Hf.
    destruct (AllocateFallback bytes a h) as [[p a'] h']. destruct Hf as [Hf _]. eauto.
Qed.

(** The padding brings the pointer to a multiple of 8. *)
Lemma slop_spec (p : Z) :
  let m := Z.land p 7 in
  let slop := if m =? 0 then 0 else 8 - m in
  0 <= slop < 8 /\ Z.land (p + slop) 7 = 0.
Proof using Type.
  cbv zeta. assert (forall q, Z.land q 7 = q `mod` 8) as Hl
    by (intros q; apply (Z.land_ones q 3); lia).
  rewrite !Hl. pose proof (Z.mod_pos_bound p 8 ltac:(lia)).
  destruct (Z.eqb_spec (p `mod` 8) 0) as [E|E]; [rewrite Z.add_0_r; lia|].
  split; [lia|]. rewrite <- Zplus_mod_idemp_l.
  replace (p `mod` 8 + (8 - p `mod` 8)) with 8 by lia. done.
Qed.

Lemma AllocateAligned_inv (a : Arena) (h : H) (given : list range) (bytes : Z) :
  arena_inv a h given -> 0 < bytes < 2 ^ 62 ->
  exists p a' h', AllocateAligned bytes a h = Ret (p, a', h')
    /\ arena_inv a' h' ((p, bytes) :: given) /\ p `mod` 8 = 0.
Proof using Type.
  intros Hi Hn. unfold AllocateAligned. change (Z.land 8 (8 - 1) =? 0) with true. cbv iota zeta.
  change (8 - 1) with 7. pose proof (slop_spec (alloc_ptr_ a)) as [Hs Hal]. cbv zeta in Hs, Hal.
  set (slop := if Z.land (alloc_ptr_ a) 7 =? 0 then 0 else 8 - Z.land (alloc_ptr_ a) 7) in *.
  rewrite (u64_id (bytes + slop)) by (unfold is_u64; lia).
  assert (forall q, Z.land q 7 = q `mod` 8) as Hl by (intros q; apply (Z.land_ones q 3); lia).
  destruct (Z.leb_spec (bytes + slop) (alloc_bytes_remaining_ a)) as [Hfit|_].
  - rewrite Hal. eexists _, _, _. split; [done|]. split; [apply cut_inv; done || lia|].
    by rewrite <- Hl.
  - pose proof (fallback_inv a h given bytes Hi Hn) as Hf.
    destruct (AllocateFallback bytes a h) as [[p a'] h']. destruct Hf as [Hf Hm].
    rewrite Hl, Hm. eauto 10.
Qed.

(** The destructor gives every block back. *)
Lemma destroy_spec (bs : list range) (h : H) :
  heap_wf h -> used h ≡ₚ bs ++ before ->
  exists h', foldM (fun h b => delete_ b.1 h) h bs = Ret h' /\ used h' ≡ₚ before.
Proof using Type.
  revert h. induction bs as [|[p n] bs IH]; intros h Hh Hu; simpl; [by exists h|].
  destruct (delete_spec p n h) as (h1 & -> & Hh1 & Hp); [done|rewrite Hu; by left|]. simpl.
  apply IH; [done|]. apply (Permutation_cons_inv (a := (p, n))). by rewrite Hp, Hu.
Qed.
End Arena.

(** ** Sequences of requests *)

Inductive request := Plain (bytes : Z) | Aligned (bytes : Z).

Definition bytes_of (r : request) : Z := match r with Plain n | Aligned n => n end.

Definition serve {H} `{Heap H} (s : Arena * H * list range) (r : request)
    : res (Arena * H * list range) :=
  let '(a, h, given) := s in
  '(p, a, h) ← match r with Plain n => Allocate n a h | Aligned n => AllocateAligned n a h end;
  Ret (a, h, (p, bytes_of r) :: given).

(** C37: Any sequence of requests is served without a failed assertion: the ranges
    handed out have the sizes asked for, do not overlap each other or any
    block the heap had in use before, and start at multiples of 8 where that
    was asked for.  [MemoryUsage] is the size of the blocks with their pointers,
    and the destructor leaves the heap as it was. *)
Theorem arena_disjoint {H} `{HeapSpec H} (reqs : list request) (h : H) :
  heap_wf h -> Forall (fun r => 0 < bytes_of r < 2 ^ 62) reqs ->
  exists a h' given, foldM serve (new_Arena, h, []) reqs = Ret (a, h', given)
    /\ snd <$> given = rev (bytes_of <$> reqs)
    /\ apart given /\ Forall (fun g => Forall (disjoint_ranges g) (used h)) given
    /\ Forall2 (fun r g => match r with Aligned _ => g.1 `mod` 8 = 0 | Plain _ => True end)
         reqs (rev given)
    /\ MemoryUsage a = u64 (usage (blocks_ a))
    /\ exists h'', destroy_Arena a h' = Ret h'' /\ used h'' ≡ₚ used h.
Proof.
  intros Hh Hreqs.
  assert (exists a h' given, foldM serve (new_Arena, h, []) reqs = Ret (a, h', given)
    /\ arena_inv (used h) a h' given /\ snd <$> given = rev (bytes_of <$> reqs)
    /\ Forall2 (fun r g => match r with Aligned _ => g.1 `mod` 8 = 0 | Plain _ => True end)
         reqs (rev given)) as (a & h' & given & Hrun & Hi & Hsz & Hal).
  - induction reqs as [|r reqs IH] using rev_ind.
    { exists new_Arena, h, []. split; [done|]. split; [|done]. split; simpl; try done.
      by left. }
    apply list.Forall_app in Hreqs as [Hreqs Hr]. apply list.Forall_cons in Hr as [Hr _].
    destruct (IH Hreqs) as (a & h' & given & Hrun & Hi & Hsz & Hal).
    rewrite foldM_app, Hrun. cbn [mbind res_bind foldM serve].
    assert (exists p a2 h2, match r with Plain n => Allocate n a h' | Aligned n => AllocateAligned n a h' end
        = Ret (p, a2, h2) /\ arena_inv (used h) a2 h2 ((p, bytes_of r) :: given)
        /\ match r with Aligned _ => p `mod` 8 = 0 | Plain _ => True end)
      as (p & a2 & h2 & -> & Hi2 & Ha2).
    { destruct r as [n|n]; simpl in *.
      - destruct (Allocate_inv _ a h' given n Hi Hr) as (p & a2 & h2 & ? & ?). eauto 10.
      - destruct (AllocateAligned_inv _ a h' given n Hi Hr) as (p & a2 & h2 & ? & ? & ?).
        eauto 10. }
    eexists _, _, _. split; [done|]. split; [done|]. split.
    + by rewrite fmap_cons, Hsz, fmap_app, rev_app_distr.
    + simpl. apply Forall2_app; [done|]. by constructor.
  - exists a, h', given. split; [done|]. split; [done|].
    destruct (ai_apart _ _ _ _ Hi) as [_ Hap]. split; [done|]. split.
    { pose proof (ai_before _ _ _ _ Hi) as Hb. rewrite list.Forall_forall in Hb.
      eapply list.Forall_impl; [apply (ai_given _ _ _ _ Hi)|]. intros r (b & Hin & Hw).
      apply (within_all_disjoint _ b); [done|]. by apply Hb. }
    split; [done|]. split; [apply (ai_usage _ _ _ _ Hi)|].
    apply destroy_spec; [apply (ai_heap _ _ _ _ Hi)|apply (ai_blocks _ _ _ _ Hi)].
Qed.

(** ** A heap *)

(** The blocks in use, with new blocks placed behind all of them. *)
Module Bump.
Definition top (h : list range) : Z := foldr (fun b acc => Z.max (b.1 + b.2) acc) 0 h.

Definition bump_new (n : Z) (h : list range) : Z * list range :=
  let p := 16 * (top h / 16 + 1) in (p, (p, n) :: h).

Fixpoint bump_delete (p : Z) (h : list range) : res (list range) :=
  match h with
  | [] => Fault UseAfterFree
  | b :: h => if b.1 =? p then Ret h else h' ← bump_delete p h; Ret (b :: h')
  end.

#[global] Instance bump : Heap (list range) := { new_ := bump_new; delete_ := bump_delete }.

Lemma top_above (h : list range) (b : range) : b ∈ h -> b.1 + b.2 <= top h.
Proof.
  induction h as [|c h IH]; [by intros ?%not_elem_of_nil|].
  intros [->|Hin]%elem_of_cons; simpl; [lia|]. specialize (IH Hin). lia.
Qed.

#[global] Instance bump_spec : HeapSpec (list range).
Proof.
  refine {| heap_wf := fun h => NoDup (fst <$> h) /\ Forall (fun b => 0 < b.2) h; used := id |}.
  - intros n h [Hnd Hpos] Hn. simpl. unfold bump_new, id.
    set (p := 16 * (top h / 16 + 1)).
    assert (top h < p) as Hp
      by (unfold p; pose proof (Z.div_mod (top h) 16); pose proof (Z.mod_pos_bound (top h) 16); lia).
    assert (0 <= top h) as Ht by (clear; induction h; simpl; lia).
    assert (Forall (disjoint_ranges (p, n)) h) as Hd.
    { apply list.Forall_forall. intros b Hb%top_above. unfold disjoint_ranges. simpl. lia. }
    split_and!; try done; [|by constructor|lia|].
    + simpl. constructor; [|done]. intros ([q m] & Heq & Hin)%list_elem_of_fmap. simpl in Heq.
      rewrite list.Forall_forall in Hpos. pose proof (Hpos _ Hin).
      apply top_above in Hin. simpl in *. lia.
    + unfold p. rewrite Z.mul_comm. apply Z_mod_mult.
  - intros p n h [Hnd Hpos] Hin. simpl. unfold id in *.
    induction h as [|c h IH]; [by apply not_elem_of_nil in Hin|].
    apply list.NoDup_cons in Hnd as [Hc Hnd]. apply list.Forall_cons in Hpos as [Hp0 Hpos].
    simpl. apply elem_of_cons in Hin as [<-|Hin].
    + simpl. rewrite Z.eqb_refl. eauto.
    + destruct (Z.eqb_spec c.1 p) as [E|E].
      * exfalso. apply Hc. apply list_elem_of_fmap. exists (p, n). done.
      * destruct (IH Hnd Hpos Hin) as (h' & -> & [Hnd' Hpos'] & Hperm). simpl.
        eexists. split; [done|]. split.
        -- split; [|by constructor]. simpl. constructor; [|done].
           intros Hin'. apply Hc. rewrite <- Hperm. by right.
        -- by rewrite <- Hperm, Permutation_swap.
Defined.
End Bump.

Lemma arena_disjoint_witness :
  exists a h' given, foldM serve (new_Arena, [(16, 8)], []) [Plain 3; Aligned 40; Plain 5000]
                     = Ret (a, h', given)
    /\ apart given.
Proof.
  destruct (arena_disjoint [Plain 3; Aligned 40; Plain 5000] [(16, 8)])
    as (a & h' & given & Hrun & _ & Hap & _).
  - split; [apply list.NoDup_singleton|by repeat constructor].
  - repeat constructor; simpl; lia.
  - exists a, h', given. split; [exact Hrun|exact Hap].
Defined.
