(* ===== verification/Tpcc.v ===== *)
(** * db2: helpers of the TPC-C workload ([common/workload/tpcc_helper.cpp])

    Keys of the tables, last names, the random values the loader draws and the
    permutation of customers.  The generator is the 48-bit linear congruential
    generator behind [srand48_r] and [lrand48_r]. *)

From S2P Require Import Prelude Config.

(** ** Configuration *)

(** [src/common/global.cpp:87-87 g_max_items] *)
Definition g_max_items : Z := 100000.
(** [src/common/global.cpp:88-88 g_cust_per_dist] *)
Definition g_cust_per_dist : Z := 3000.

(** ** Keys *)

(** [src/common/workload/tpcc_helper.cpp:5-7 distKey] *)
Definition distKey (d_id d_w_id : Z) : Z := u64 (d_w_id * DIST_PER_WARE + d_id).

(** [src/common/workload/tpcc_helper.cpp:9-11 custKey] *)
Definition custKey (c_id c_d_id c_w_id : Z) : Z :=
  u64 (distKey c_d_id c_w_id * g_cust_per_dist + c_id).

(** [src/common/workload/tpcc_helper.cpp:13-15 orderlineKey] *)
Definition orderlineKey (w_id d_id o_id : Z) : Z :=
  u64 (distKey d_id w_id * g_cust_per_dist + o_id).

(** [src/common/workload/tpcc_helper.cpp:17-19 orderPrimaryKey] *)
Definition orderPrimaryKey (w_id d_id o_id : Z) : Z := orderlineKey w_id d_id o_id.

(** The value of a [char], which is signed. *)
Definition char_val (c : Byte.byte) : Z :=
  let n := Z.of_N (Byte.to_N c) in if n <? 128 then n else n - 256.

(** A C string is given by its characters before the terminating zero.
    [src/common/workload/tpcc_helper.cpp:21-29 custNPKey] *)
Definition custNPKey (c_last : bytes) (c_d_id c_w_id : Z) : Z :=
  let key := fold_left (fun key c => u64 (Z.shiftl key 2 + (char_val c - 65))) c_last 0 in
  u64 (u64 (Z.shiftl key 3) + (c_w_id * DIST_PER_WARE + c_d_id)).

(** [src/common/workload/tpcc_helper.cpp:31-33 stockKey] *)
Definition stockKey (s_i_id s_w_id : Z) : Z := u64 (s_w_id * g_max_items + s_i_id).

(** [src/common/workload/tpcc_helper.cpp:115-118 wh_to_part] *)
Definition wh_to_part (g_part_cnt g_num_wh wid : Z) : res Z :=
  assert! g_part_cnt <=? g_num_wh;
  if g_part_cnt =? 0 then Fault DivByZero else Ret (wid `mod` g_part_cnt).

(** ** Last names *)

(** [src/common/workload/tpcc_helper.cpp:36-38 n] *)
Definition syllables : list string :=
  ["BAR"; "OUGHT"; "ABLE"; "PRI"; "PRES"; "ESE"; "ANTI"; "CALLY"; "ATION"; "EING"]%string.

Definition syllable (i : Z) : res bytes :=
  s ← at_ (if 0 <=? i then syllables !! Z.to_nat i else None); Ret (String.list_byte_of_string s).

(** The array [name], overwritten from its start by a string and its zero. *)
Definition strcpy (name src : bytes) : res bytes :=
  memcpy name 0 (src ++ [Byte.x00]) 0 (Z.of_nat (length src) + 1).

(** [src/common/workload/tpcc_helper.cpp:35-43 Lastname] *)
Definition Lastname (num : Z) (name : bytes) : res (Z * bytes) :=
  a ← syllable (num / 100);
  name ← strcpy name a;
  b ← syllable ((num / 10) `mod` 10);
  name ← strcpy name (a ++ b);
  c ← syllable (num `mod` 10);
  name ← strcpy name (a ++ b ++ c);
  Ret (Z.of_nat (length (a ++ b ++ c)), name).

(** ** Random values *)

(** [lrand48_r]: the state is 48 bits, the result its upper 31 bits. *)
Definition lrand48_r (x : Z) : Z * Z :=
  let x := (25214903917 * x + 11) `mod` 2 ^ 48 in (x / 2 ^ 17, x).

(** [srand48_r]. *)
Definition srand48_r (seed : Z) : Z := u32 seed * 2 ^ 16 + 13070.

(** The generators of the threads, absent until [srand48_r] was called, and
    the static constants of [NURand].
    [src/common/workload/tpcc_helper.cpp:56-59 C_255_init] *)
Record rng := mkRng {
  tpcc_buffer : list (option Z);
  C_255 : option Z;
  C_1023 : option Z;
  C_8191 : option Z;
}.

Definition with_buffer (b : list (option Z)) (r : rng) : rng :=
  mkRng b (C_255 r) (C_1023 r) (C_8191 r).

(** [src/common/workload/tpcc_helper.cpp:45-49 RAND] *)
Definition RAND (max thd_id : Z) (r : rng) : res (Z * rng) :=
  slot ← at_ (if 0 <=? thd_id then tpcc_buffer r !! Z.to_nat thd_id else None);
  x ← deref slot;
  let '(rint64, x) := lrand48_r x in
  if max =? 0 then Fault DivByZero else
  Ret (rint64 `mod` max, with_buffer (<[Z.to_nat thd_id := Some x]> (tpcc_buffer r)) r).

(** [src/common/workload/tpcc_helper.cpp:51-53 URand] *)
Definition URand (x y thd_id : Z) (r : rng) : res (Z * rng) :=
  '(v, r) ← RAND (u64 (y - x + 1)) thd_id r;
  Ret (u64 (x + v), r).

(** The constant of [NURand] for [A], drawn at its first use.
    [src/common/workload/tpcc_helper.cpp:60-86 C] *)
Definition nurand_C (A thd_id : Z) (r : rng) : res (Z * rng) :=
  if A =? 255 then
    match C_255 r with
    | Some c => Ret (c, r)
    | None => '(c, r) ← URand 0 255 thd_id r;
              Ret (c, mkRng (tpcc_buffer r) (Some c) (C_1023 r) (C_8191 r))
    end
  else if A =? 1023 then
    match C_1023 r with
    | Some c => Ret (c, r)
    | None => '(c, r) ← URand 0 1023 thd_id r;
              Ret (c, mkRng (tpcc_buffer r) (C_255 r) (Some c) (C_8191 r))
    end
  else if A =? 8191 then
    match C_8191 r with
    | Some c => Ret (c, r)
    | None => '(c, r) ← URand 0 8191 thd_id r;
              Ret (c, mkRng (tpcc_buffer r) (C_255 r) (C_1023 r) (Some c))
    end
  else Fault Assert.

(** The operands of the bitwise or are evaluated from left to right.
    [src/common/workload/tpcc_helper.cpp:55-88 NURand] *)
Definition NURand (A x y thd_id : Z) (r : rng) : res (Z * rng) :=
  '(C, r) ← nurand_C A thd_id r;
  '(a, r) ← URand 0 A thd_id r;
  '(b, r) ← URand x y thd_id r;
  let m := u64 (y - x + 1) in
  if m =? 0 then Fault DivByZero else
  Ret (u64 (u64 (Z.lor a b + i32 C) `mod` m + x), r).

(** [src/common/workload/tpcc_helper.cpp:91-95 char_list] *)
Definition char_list : bytes := String.list_byte_of_string
  "123456789abcdefghijklmnopqrstuvwxyzABCDEFGHIJKLMNOPQRSTUVWXYZ".

(** [str[i] = c]. *)
Definition put_char (str : bytes) (i : nat) (c : Byte.byte) : res bytes :=
  if (i <? length str)%nat then Ret (<[i := c]> str) else Fault OutOfBounds.

(** [src/common/workload/tpcc_helper.cpp:90-103 MakeAlphaString] *)
Definition MakeAlphaString (min max : Z) (str : bytes) (thd_id : Z) (r : rng)
    : res (Z * bytes * rng) :=
  '(cnt, r) ← URand min max thd_id r;
  '(str, r) ← foldM (fun '(str, r) i =>
      '(k, r) ← URand 0 60 thd_id r;
      c ← at_ (char_list !! Z.to_nat k);
      str ← put_char str i c;
      Ret (str, r)) (str, r) (seq 0 (Z.to_nat cnt));
  str ← foldM (fun str i => put_char str i Byte.x00) str
          (seq (Z.to_nat cnt) (Z.to_nat (max - cnt)));
  Ret (cnt, str, r).

(** [src/common/workload/tpcc_helper.cpp:105-113 MakeNumberString] *)
Definition MakeNumberString (min max : Z) (str : bytes) (thd_id : Z) (r : rng)
    : res (Z * bytes * rng) :=
  '(cnt, r) ← URand min max thd_id r;
  '(str, r) ← foldM (fun '(str, r) i =>
      '(k, r) ← URand 0 9 thd_id r;
      c ← at_ (Byte.of_N (Z.to_N (48 + k)));
      str ← put_char str i c;
      Ret (str, r)) (str, r) (seq 0 (Z.to_nat cnt));
  Ret (cnt, str, r).

(** ** The permutation of customers *)

(** One exchange of the shuffle.
    [src/common/workload/tpcc_wl.cpp:409-414 tmp] *)
Definition shuffle_step (n wid : Z) (s : list Z * rng) (i : nat) : res (list Z * rng) :=
  let '(perm, r) := s in
  '(j, r) ← URand (Z.of_nat i + 1) (n - 1) (wid - 1) r;
  a ← at_ (perm !! i);
  b ← at_ (perm !! Z.to_nat j);
  Ret (<[Z.to_nat j := a]> (<[i := b]> perm), r).

(** The array has [n] elements and [n] is [g_cust_per_dist].
    [src/common/workload/tpcc_wl.cpp:401-415 tpcc_wl::init_permutation] *)
Definition init_permutation (n wid : Z) (r : rng) : res (list Z * rng) :=
  foldM (shuffle_step n wid) ((fun i => Z.of_nat i + 1) <$> seq 0 (Z.to_nat n), r)
    (seq 0 (Z.to_nat (u32 (n - 1)))).

(** ** Ranges of the random values *)

(** The generator of the thread has been seeded. *)
Definition seeded (thd_id : Z) (r : rng) : Prop :=
  0 <= thd_id /\ exists x, tpcc_buffer r !! Z.to_nat thd_id = Some (Some x).

Definition same_consts (r' r : rng) : Prop :=
  C_255 r' = C_255 r /\ C_1023 r' = C_1023 r /\ C_8191 r' = C_8191 r.

Lemma same_consts_trans (r1 r2 r3 : rng) : same_consts r1 r2 -> same_consts r2 r3 -> same_consts r1 r3.
Proof. unfold same_consts. intros (-> & -> & ->). done. Qed.

Lemma RAND_spec (max thd_id : Z) (r : rng) :
  seeded thd_id r -> 0 < max ->
  exists v r', RAND max thd_id r = Ret (v, r') /\ 0 <= v < max /\ seeded thd_id r'
    /\ same_consts r' r.
Proof.
  intros (Hthd & x & Hx) Hmax. unfold RAND. guard_true. rewrite Hx. cbn [at_ deref mbind res_bind].
  unfold lrand48_r. cbv zeta. destruct (Z.eqb_spec max 0); [lia|].
  eexists _, _. split; [done|]. split; [by apply Z.mod_pos_bound|]. split; [|done].
  split; [done|]. simpl. eexists. apply list_lookup_insert_eq. by apply lookup_lt_Some in Hx.
Qed.

Lemma URand_spec (x y thd_id : Z) (r : rng) :
  seeded thd_id r -> 0 <= x <= y -> y < 2 ^ 64 - 1 ->
  exists v r', URand x y thd_id r = Ret (v, r') /\ x <= v <= y /\ seeded thd_id r'
    /\ same_consts r' r.
Proof.
  intros Hs Hxy Hy. unfold URand. rewrite (u64_id (y - x + 1)) by (unfold is_u64; lia).
  destruct (RAND_spec (y - x + 1) thd_id r Hs) as (v & r' & -> & Hv & Hs' & HC); [lia|].
  cbn [mbind res_bind]. rewrite u64_id by (unfold is_u64; lia).
  eexists _, _. split; [done|]. split; [lia|done].
Qed.

(** The constants drawn so far are in range. *)
Definition consts_ok (r : rng) : Prop :=
  (forall c, C_255 r = Some c -> 0 <= c <= 255) /\ (forall c, C_1023 r = Some c -> 0 <= c <= 1023)
  /\ (forall c, C_8191 r = Some c -> 0 <= c <= 8191).

(** The constant for [A], once it is drawn. *)
Definition const_of (A : Z) (r : rng) : option Z :=
  if A =? 255 then C_255 r else if A =? 1023 then C_1023 r
  else if A =? 8191 then C_8191 r else None.

Lemma const_of_drawn (A c thd_id : Z) (r : rng) :
  const_of A r = Some c -> nurand_C A thd_id r = Ret (c, r).
Proof.
  unfold const_of, nurand_C.
  destruct (A =? 255); [by intros ->|]. destruct (A =? 1023); [by intros ->|].
  by destruct (A =? 8191); [intros ->|].
Qed.

Lemma nurand_C_spec (A thd_id : Z) (r : rng) :
  seeded thd_id r -> consts_ok r -> A = 255 \/ A = 1023 \/ A = 8191 ->
  exists c r', nurand_C A thd_id r = Ret (c, r') /\ 0 <= c <= A /\ seeded thd_id r'
    /\ consts_ok r' /\ const_of A r' = Some c.
Proof.
  intros Hs (H1 & H2 & H3) HA.
  assert (exists v r', URand 0 A thd_id r = Ret (v, r') /\ 0 <= v <= A /\ seeded thd_id r'
    /\ same_consts r' r)
    as (v & r' & Hu & Hv & Hs' & (E1 & E2 & E3)) by (apply URand_spec; [done|lia|lia]).
  unfold nurand_C, const_of, consts_ok. destruct HA as [HA|[HA|HA]]; subst A; simpl;
    [destruct (C_255 r) as [c|] eqn:E|destruct (C_1023 r) as [c|] eqn:E
    |destruct (C_8191 r) as [c|] eqn:E];
    rewrite ?Hu; cbn [mbind res_bind]; eexists _, _;
    (split; [done|]); simpl; rewrite ?E, ?E1, ?E2, ?E3 in *; split_and!;
    try done; try (apply Hs' || lia); try (intros ? [= <-]; lia); naive_solver.
Qed.

(** [NURand] stays within its bounds, and the constant of each range is drawn
    once: later calls use the same one. *)
Theorem nurand_range (A x y thd_id : Z) (r : rng) :
  seeded thd_id r -> consts_ok r -> A = 255 \/ A = 1023 \/ A = 8191 ->
  0 <= x <= y -> y < 2 ^ 62 ->
  exists v r' c, NURand A x y thd_id r = Ret (v, r') /\ x <= v <= y
    /\ seeded thd_id r' /\ consts_ok r' /\ nurand_C A thd_id r' = Ret (c, r')
    /\ exists r0, nurand_C A thd_id r = Ret (c, r0).
Proof.
  intros Hs Hc HA Hxy Hy. unfold NURand.
  destruct (nurand_C_spec A thd_id r Hs Hc HA) as (c & r1 & Hcall & Hcr & Hs1 & Hc1 & Hagain).
  rewrite Hcall. cbn [mbind res_bind].
  destruct (URand_spec 0 A thd_id r1 Hs1) as (a & r2 & -> & Ha & Hs2 & (E1 & E2 & E3)); [lia|lia|].
  cbn [mbind res_bind].
  destruct (URand_spec x y thd_id r2 Hs2) as (b & r3 & -> & Hb & Hs3 & (E4 & E5 & E6)); [lia|lia|].
  cbn [mbind res_bind]. rewrite (u64_id (y - x + 1)) by (unfold is_u64; lia).
  destruct (Z.eqb_spec (y - x + 1) 0); [lia|].
  pose proof (Z.mod_pos_bound (u64 (Z.lor a b + i32 c)) (y - x + 1)).
  rewrite (u64_id (_ + x)) by (unfold is_u64; lia).
  eexists _, r3, c. split; [done|]. split; [lia|]. split; [done|].
  split; [unfold consts_ok; by rewrite E4, E5, E6, E1, E2, E3|]. split; [|by exists r1].
  apply const_of_drawn. rewrite <- Hagain. unfold const_of. by rewrite E4, E5, E6, E1, E2, E3.
Qed.

Definition rng_example : rng := mkRng [Some (srand48_r 1)] None None None.

Lemma nurand_range_witness :
  exists v r', NURand 255 0 999 0 rng_example = Ret (v, r') /\ 0 <= v <= 999.
Proof.
  destruct (nurand_range 255 0 999 0 rng_example) as (v & r' & _ & H & Hv & _).
  - split; [lia|]. by eexists.
  - by unfold consts_ok.
  - by left.
  - lia.
  - lia.
  - eauto.
Defined.

(** ** Permutations *)

(** The shuffle of the customer numbers is a permutation of 1, ..., [n]. *)
Theorem init_permutation_spec (n wid : Z) (r : rng) :
  seeded (wid - 1) r -> 1 <= n < 2 ^ 32 ->
  exists perm r', init_permutation n wid r = Ret (perm, r')
    /\ perm ≡ₚ (fun i => Z.of_nat i + 1) <$> seq 0 (Z.to_nat n)
    /\ seeded (wid - 1) r' /\ same_consts r' r.
Proof.
  intros Hs Hn. unfold init_permutation. rewrite u32_id by (unfold is_u32; lia).
  set (l0 := (fun i => Z.of_nat i + 1) <$> seq 0 (Z.to_nat n)).
  assert (length l0 = Z.to_nat n) as Hlen by (unfold l0; by rewrite length_fmap, length_seq).
  destruct (foldM_inv (fun l s => Forall (fun i => Z.of_nat i < n - 1) l /\ seeded (wid - 1) s.2
      /\ s.1 ≡ₚ l0 /\ same_consts s.2 r) (shuffle_step n wid) (seq 0 (Z.to_nat (n - 1))) (l0, r))
    as ([perm r'] & -> & _ & Hs' & Hp & HC).
  - split; [|done]. apply list.Forall_forall. intros i Hi%elem_of_seq. lia.
  - intros i l [perm r1] (Hi & Hs1 & Hp & HC). apply list.Forall_cons in Hi as [Hi Hl]. simpl in *.
    destruct (URand_spec (Z.of_nat i + 1) (n - 1) (wid - 1) r1 Hs1)
      as (j & r2 & -> & Hj & Hs2 & HC2); [lia|lia|]. cbn [mbind res_bind].
    apply Permutation_length in Hp as Hlp.
    destruct (lookup_lt_is_Some_2 perm i) as [a Ha]; [lia|].
    destruct (lookup_lt_is_Some_2 perm (Z.to_nat j)) as [b Hb]; [lia|].
    rewrite Ha, Hb. simpl. eexists. split; [done|]. split; [done|]. split; [done|]. simpl.
    split; [by rewrite (Permutation_insert_swap perm i (Z.to_nat j) a b Ha Hb)|by apply (same_consts_trans _ r1)].
  - by eexists _, _.
Qed.

Lemma init_permutation_spec_witness :
  exists perm r', init_permutation 5 1 rng_example = Ret (perm, r')
    /\ perm ≡ₚ (fun i => Z.of_nat i + 1) <$> seq 0 (Z.to_nat 5)
    /\ seeded (1 - 1) r' /\ same_consts r' rng_example.
Proof.
  apply (init_permutation_spec 5 1 rng_example); [split; [lia|by eexists]|lia].
Defined.

(** ** Keys *)

Lemma distKey_val (d w : Z) : 0 <= w < 2 ^ 40 -> 1 <= d <= DIST_PER_WARE -> distKey d w = w * 10 + d.
Proof. unfold distKey, DIST_PER_WARE. intros. rewrite u64_id; unfold is_u64; lia. Qed.

Definition ware_ok (w : Z) : Prop := 1 <= w < 2 ^ 40.
Definition dist_ok (d : Z) : Prop := 1 <= d <= DIST_PER_WARE.

(** The keys of districts, customers, orders and stock identify their rows, as
    long as customer and order numbers stay within [g_cust_per_dist] and item
    numbers within [g_max_items]; the order after the last loaded one shares
    its key with the first order of the next district. *)
Theorem tpcc_keys_injective (w w' d d' c c' i i' : Z) :
  ware_ok w -> ware_ok w' -> dist_ok d -> dist_ok d' ->
  1 <= c <= g_cust_per_dist -> 1 <= c' <= g_cust_per_dist ->
  1 <= i <= g_max_items -> 1 <= i' <= g_max_items ->
  (distKey d w = distKey d' w' <-> (d, w) = (d', w'))
  /\ (custKey c d w = custKey c' d' w' <-> (c, d, w) = (c', d', w'))
  /\ (orderPrimaryKey w d c = orderPrimaryKey w' d' c' <-> (c, d, w) = (c', d', w'))
  /\ (stockKey i w = stockKey i' w' <-> (i, w) = (i', w'))
  /\ (d < DIST_PER_WARE -> orderPrimaryKey w d (g_cust_per_dist + 1) = orderPrimaryKey w (d + 1) 1).
Proof.
  unfold ware_ok, dist_ok, custKey, orderPrimaryKey, orderlineKey, stockKey. intros.
  rewrite !distKey_val by (unfold DIST_PER_WARE in *; lia).
  unfold DIST_PER_WARE, g_cust_per_dist, g_max_items in *.
  rewrite !u64_id by (unfold is_u64; lia).
  split; [|split; [|split; [|split]]].
  all: try (split; [intros; repeat f_equal; lia|intros; simplify_eq; done]).
  intros Hd. rewrite !distKey_val by (unfold DIST_PER_WARE; lia). rewrite !u64_id by (unfold is_u64; lia). lia.
Qed.

Lemma tpcc_keys_injective_witness :
  orderPrimaryKey 1 1 (g_cust_per_dist + 1) = orderPrimaryKey 1 2 1
  /\ (custKey 5 1 1 = custKey 5 1 2 <-> (5, 1, 1) = (5, 1, 2)).
Proof.
  destruct (tpcc_keys_injective 1 2 1 1 5 5 1 1) as (_ & Hc & _ & _ & Ho);
    try (unfold ware_ok, dist_ok, DIST_PER_WARE, g_cust_per_dist, g_max_items; lia).
  split; [apply Ho; unfold DIST_PER_WARE; lia|exact Hc].
Defined.

(** ** Last names *)

Definition syl (i : Z) : bytes :=
  String.list_byte_of_string (default EmptyString (syllables !! Z.to_nat i)).

(** The characters of the last name with number [num]. *)
Definition last_name (num : Z) : bytes :=
  syl (num / 100) ++ syl ((num / 10) `mod` 10) ++ syl (num `mod` 10).

Lemma syllable_ok (i : Z) :
  0 <= i < 10 -> syllable i = Ret (syl i) /\ (3 <= length (syl i) <= 5)%nat.
Proof.
  intros Hi. assert (i ∈ seqZ 0 10) as Hin by (apply elem_of_seqZ; lia).
  clear Hi. revert i Hin. apply list.Forall_forall. repeat constructor; simpl; lia.
Qed.

Lemma syllable_bad (i : Z) : 10 <= i -> syllable i = Fault OutOfBounds.
Proof.
  intros Hi. unfold syllable. guard_true. rewrite lookup_ge_None_2; [done|].
  unfold syllables. simpl. lia.
Qed.

Lemma strcpy_Ret (name src : bytes) :
  (length src < length name)%nat ->
  strcpy name src = Ret (src ++ Byte.x00 :: drop (length src + 1) name).
Proof.
  intros H. unfold strcpy. rewrite memcpy_Ret by (rewrite ?length_app; simpl; lia).
  rewrite slice_all' by (rewrite length_app; simpl; lia). unfold splice. simpl.
  rewrite length_app. simpl. by rewrite <- app_assoc.
Qed.

(** Numbers below 1000 give a name that fits, with its terminating zero, into
    the [LASTNAME_LEN] bytes of its callers; larger numbers read outside the
    table of syllables. *)
Theorem lastname_spec (num : Z) (name : bytes) :
  Z.of_nat (length name) = LASTNAME_LEN -> 0 <= num ->
  (num < 1000 -> exists rest, Lastname num name
       = Ret (Z.of_nat (length (last_name num)), last_name num ++ Byte.x00 :: rest)
     /\ 9 <= Z.of_nat (length (last_name num)) < LASTNAME_LEN
     /\ length (last_name num ++ Byte.x00 :: rest) = length name)
  /\ (1000 <= num -> Lastname num name = Fault OutOfBounds).
Proof.
  unfold LASTNAME_LEN. intros Hname Hnum. split.
  - intros Hlt.
    assert (0 <= num / 100 < 10) as H1
      by (split; [apply Z.div_pos; lia|apply Z.div_lt_upper_bound; lia]).
    pose proof (Z.mod_pos_bound (num / 10) 10 ltac:(lia)) as H2.
    pose proof (Z.mod_pos_bound num 10 ltac:(lia)) as H3.
    destruct (syllable_ok _ H1) as [Ea La], (syllable_ok _ H2) as [Eb Lb],
      (syllable_ok _ H3) as [Ec Lc].
    unfold Lastname, last_name. rewrite Ea, Eb, Ec.
    generalize dependent (syl (num / 100)). generalize dependent (syl ((num / 10) `mod` 10)).
    generalize dependent (syl (num `mod` 10)). intros c _ Lc b _ Lb a _ La.
    cbn [mbind res_bind].
    rewrite strcpy_Ret by lia. cbn [mbind res_bind].
    rewrite strcpy_Ret by (rewrite ?length_app; simpl; rewrite ?length_drop; lia).
    cbn [mbind res_bind].
    rewrite strcpy_Ret by
      (repeat (rewrite ?length_app; simpl; rewrite ?length_drop); lia).
    cbn [mbind res_bind]. eexists. split; [done|].
    repeat (rewrite ?length_app; simpl; rewrite ?length_drop); lia.
  - intros Hge. unfold Lastname. rewrite (syllable_bad (num / 100)); [done|].
    apply Z.div_le_lower_bound; lia.
Qed.

Lemma lastname_spec_witness :
  exists rest, Lastname 371 (replicate 16 Byte.x00)
    = Ret (13, String.list_byte_of_string "PRICALLYOUGHT" ++ Byte.x00 :: rest).
Proof.
  destruct (lastname_spec 371 (replicate 16 Byte.x00)) as [H _]; [reflexivity|lia|].
  destruct H as (rest & H & _); [lia|]. exists rest. exact H.
Defined.

(** ** Customers by last name *)

(** What a last name contributes to the key. *)
Definition name_key (num : Z) : Z :=
  Z.shiftl (fold_left (fun key c => u64 (Z.shiftl key 2 + (char_val c - 65))) (last_name num) 0) 3.

Definition name_keys : list (Z * Z) := (fun i => (i, name_key i)) <$> seqZ 0 1000.

(** No two names have parts that are equal or 8 apart. *)
Definition apart (ks : list (Z * Z)) : bool :=
  forallb (fun e => (0 <=? e.2) && (e.2 <? 2 ^ 60) && (e.2 `mod` 8 =? 0)
    && forallb (fun e' => (e.1 =? e'.1) || negb ((e.2 =? e'.2) || (e.2 + 8 =? e'.2))) ks) ks.

Lemma apart_spec (ks : list (Z * Z)) (n n' k k' : Z) :
  apart ks = true -> (n, k) ∈ ks -> (n', k') ∈ ks ->
  0 <= k < 2 ^ 60 /\ k `mod` 8 = 0 /\ (n <> n' -> k <> k' /\ k + 8 <> k').
Proof.
  unfold apart. intros H Hk%list_elem_of_In Hk'%list_elem_of_In.
  rewrite forallb_forall in H. specialize (H _ Hk). simpl in H.
  apply andb_true_iff in H as [H Hall]. rewrite forallb_forall in Hall.
  specialize (Hall _ Hk'). simpl in Hall. revert Hall. bool_props. intros Hall.
  split; [lia|]. split; [done|]. intros Hne. destruct (Z.eqb_spec n n'); [done|].
  destruct (Z.eqb_spec k k'), (Z.eqb_spec (k + 8) k'); simpl in Hall;
    discriminate Hall || (split; assumption).
Qed.

Lemma name_keys_apart : apart name_keys = true.
Proof. vm_compute. reflexivity. Qed.

Lemma name_keys_elem (n : Z) : 0 <= n < 1000 -> (n, name_key n) ∈ name_keys.
Proof.
  intros Hn. apply list_elem_of_fmap. exists n. split; [reflexivity|]. apply elem_of_seqZ. lia.
Qed.

Lemma name_key_facts (n n' : Z) :
  0 <= n < 1000 -> 0 <= n' < 1000 ->
  0 <= name_key n < 2 ^ 60 /\ name_key n `mod` 8 = 0
  /\ (n <> n' -> name_key n <> name_key n' /\ name_key n + 8 <> name_key n').
Proof.
  intros Hn Hn'.
  exact (apart_spec name_keys _ _ _ _ name_keys_apart (name_keys_elem n Hn) (name_keys_elem n' Hn')).
Qed.

Lemma custNPKey_val (n d w : Z) :
  0 <= n < 1000 -> ware_ok w -> dist_ok d ->
  custNPKey (last_name n) d w = name_key n + (w * 10 + d).
Proof.
  intros Hn Hw Hd. destruct (name_key_facts n n Hn Hn) as (Hr & _).
  unfold ware_ok, dist_ok, DIST_PER_WARE in *. unfold custNPKey. cbv zeta. fold (name_key n).
  rewrite (u64_id (name_key n)) by (unfold is_u64; lia).
  rewrite u64_id by (unfold is_u64, DIST_PER_WARE; lia). done.
Qed.

(** Within a warehouse the key of a customer's last name identifies the name and
    the district; customers of different warehouses and different names can
    have the same key. *)
Theorem cust_last_key_spec (w d d' n n' : Z) :
  ware_ok w -> dist_ok d -> dist_ok d' -> 0 <= n < 1000 -> 0 <= n' < 1000 ->
  (custNPKey (last_name n) d w = custNPKey (last_name n') d' w <-> (n, d) = (n', d'))
  /\ custNPKey (last_name 39) 7 2 = custNPKey (last_name 43) 1 1.
Proof.
  intros Hw Hd Hd' Hn Hn'. split; [|vm_compute; reflexivity].
  rewrite !custNPKey_val by done. split; [|intros; simplify_eq; done]. intros Heq.
  destruct (name_key_facts n n' Hn Hn') as (_ & Hm & Hne).
  destruct (name_key_facts n' n Hn' Hn) as (_ & Hm' & Hne').
  unfold dist_ok, DIST_PER_WARE in *. apply Z.mod_divide in Hm as [a Ha]; [|lia].
  apply Z.mod_divide in Hm' as [b Hb]; [|lia].
  destruct (decide (n = n')) as [->|E]; [f_equal; lia|].
  specialize (Hne E). specialize (Hne' (not_eq_sym E)). lia.
Qed.

Lemma cust_last_key_spec_witness :
  (custNPKey (last_name 0) 1 1 = custNPKey (last_name 999) 10 1 <-> (0, 1) = (999, 10))
  /\ custNPKey (last_name 39) 7 2 = custNPKey (last_name 43) 1 1.
Proof.
  apply (cust_last_key_spec 1 1 10 0 999); unfold ware_ok, dist_ok, DIST_PER_WARE; lia.
Defined.
