(* ===== verification/Page.v ===== *)
(** * db2: pages ([common/storage/tablespace/page.cpp])

    A page is a buffer of [MY_PAGE_SIZE] bytes whose first 64 bytes are
    reserved for the header, together with the header's fields in memory. *)

From S2P Require Import Prelude Config.

(** The class [Page].
    [src/common/storage/tablespace/page.h:40-46 page_buf_] *)
Record Page := mkPage {
  page_id_ : Z;
  page_buf_ : bytes;
  page_size_ : Z;
  used_size_ : Z;
  version_ : Z;
}.

#[export] Instance Page_eq_dec : EqDecision Page.
Proof. solve_decision. Defined.

(** The constructor does not initialise [version_]: its value is the argument
    [version0].
    [src/common/storage/tablespace/page.cpp:13-16 Page::Page] *)
Definition new_Page (version0 : Z) (buf : bytes) : Page :=
  {| page_id_ := UINT64_MAX; page_buf_ := buf; page_size_ := MY_PAGE_SIZE;
     used_size_ := 64; version_ := version0 |}.

(** [src/common/storage/tablespace/page.cpp:51-51 Page::set_page_id] *)
Definition set_page_id (page_id : Z) (p : Page) : Page :=
  {| page_id_ := page_id; page_buf_ := page_buf_ p; page_size_ := page_size_ p;
     used_size_ := used_size_ p; version_ := version_ p |}.

(** [src/common/storage/tablespace/page.cpp:52-52 Page::set_page_buf] *)
Definition set_page_buf (buf : bytes) (count : Z) (p : Page) : res Page :=
  b ← memcpy (page_buf_ p) 0 buf 0 count;
  Ret {| page_id_ := page_id_ p; page_buf_ := b; page_size_ := page_size_ p;
         used_size_ := used_size_ p; version_ := version_ p |}.

(** [src/common/storage/tablespace/page.cpp:53-53 Page::set_page_size] *)
Definition set_page_size (page_size : Z) (p : Page) : Page :=
  {| page_id_ := page_id_ p; page_buf_ := page_buf_ p; page_size_ := page_size;
     used_size_ := used_size_ p; version_ := version_ p |}.

(** [src/common/storage/tablespace/page.cpp:54-54 Page::set_used_size] *)
Definition set_used_size (used_size : Z) (p : Page) : Page :=
  {| page_id_ := page_id_ p; page_buf_ := page_buf_ p; page_size_ := page_size_ p;
     used_size_ := used_size; version_ := version_ p |}.

(** [src/common/storage/tablespace/page.cpp:55-55 Page::set_version] *)
Definition set_version (version : Z) (p : Page) : Page :=
  {| page_id_ := page_id_ p; page_buf_ := page_buf_ p; page_size_ := page_size_ p;
     used_size_ := used_size_ p; version_ := version |}.

(** The buffer of a page replaced as a whole. *)
Definition with_buf (b : bytes) (p : Page) : Page :=
  {| page_id_ := page_id_ p; page_buf_ := b; page_size_ := page_size_ p;
     used_size_ := used_size_ p; version_ := version_ p |}.

(** The [int] the function announces is never returned, and no caller reads
    it; the bound is tested on the wrapped sum.
    [src/common/storage/tablespace/page.cpp:22-27 Page::PagePut] *)
Definition PagePut (page_id : Z) (row_buf : bytes) (count : Z) (p : Page) : res Page :=
  assert! page_id_ p =? page_id;
  assert! u64 (used_size_ p + count) <=? page_size_ p;
  b ← memcpy (page_buf_ p) (used_size_ p) row_buf 0 count;
  Ret (set_used_size (u64 (used_size_ p + count)) (with_buf b p)).

(** [src/common/storage/tablespace/page.cpp:29-35 Page::Serialize] *)
Definition Serialize (p : Page) : res Page :=
  b ← store_u64 (page_buf_ p) (0 * 8) (page_id_ p);
  b ← store_u64 b (1 * 8) (page_size_ p);
  b ← store_u64 b (2 * 8) (used_size_ p);
  b ← store_u64 b (3 * 8) (version_ p);
  Ret (with_buf b p).

(** [src/common/storage/tablespace/page.cpp:37-42 Page::Deserialize] *)
Definition Deserialize (p : Page) : res Page :=
  id ← load_u64 (page_buf_ p) (0 * 8);
  size ← load_u64 (page_buf_ p) (1 * 8);
  used ← load_u64 (page_buf_ p) (2 * 8);
  version ← load_u64 (page_buf_ p) (3 * 8);
  Ret {| page_id_ := id; page_buf_ := page_buf_ p; page_size_ := size;
         used_size_ := used; version_ := version |}.

(** ** Well-formed pages *)

(** The fields fit their type, the buffer holds [page_size_] bytes, and the
    rows lie between the 64-byte header and the end of the page. *)
Record page_wf (p : Page) : Prop := mk_page_wf {
  wf_id : is_u64 (page_id_ p);
  wf_version : is_u64 (version_ p);
  wf_size : is_u64 (page_size_ p);
  wf_buf : Z.of_nat (length (page_buf_ p)) = page_size_ p;
  wf_used : 64 <= used_size_ p <= page_size_ p;
}.

(** What [Serialize] leaves in the buffer. *)
Definition serialized_buf (p : Page) : bytes :=
  splice 24 (bytes_of_u64 (version_ p))
    (splice 16 (bytes_of_u64 (used_size_ p))
      (splice 8 (bytes_of_u64 (page_size_ p))
        (splice 0 (bytes_of_u64 (page_id_ p)) (page_buf_ p)))).

(** Side conditions on lengths of buffers built by [splice]. *)
Ltac solve_len :=
  rewrite ?length_splice; rewrite ?length_splice; rewrite ?length_splice;
  rewrite ?length_splice; rewrite ?length_bytes_of_u64; try lia.

Lemma Serialize_Ret (p : Page) :
  (32 <= length (page_buf_ p))%nat -> Serialize p = Ret (with_buf (serialized_buf p) p).
Proof.
  intros H. unfold Serialize.
  rewrite store_u64_Ret by lia. simpl.
  rewrite store_u64_Ret by solve_len. simpl.
  rewrite store_u64_Ret by solve_len. simpl.
  rewrite store_u64_Ret by solve_len. done.
Qed.

Lemma length_serialized_buf (p : Page) :
  (32 <= length (page_buf_ p))%nat -> length (serialized_buf p) = length (page_buf_ p).
Proof. intros H. unfold serialized_buf. solve_len. Qed.

(** [Serialize] touches only the header. *)
Lemma serialized_buf_rows (p : Page) (off n : nat) :
  (32 <= length (page_buf_ p))%nat -> (32 <= off)%nat ->
  slice off n (serialized_buf p) = slice off n (page_buf_ p).
Proof.
  intros H Hoff. unfold serialized_buf.
  by repeat (rewrite slice_splice_disjoint by (solve_len)).
Qed.

Lemma serialized_buf_loads (p : Page) :
  page_wf p ->
  load_u64 (serialized_buf p) 0 = Ret (page_id_ p)
  /\ load_u64 (serialized_buf p) 8 = Ret (page_size_ p)
  /\ load_u64 (serialized_buf p) 16 = Ret (used_size_ p)
  /\ load_u64 (serialized_buf p) 24 = Ret (version_ p).
Proof.
  intros [Hid Hv Hs Hb Hu]. unfold is_u64 in *. unfold serialized_buf.
  assert (32 <= length (page_buf_ p))%nat by lia.
  repeat split;
    repeat (rewrite load_splice_disjoint by (solve_len));
    (apply (load_splice_same _ 0) || apply (load_splice_same _ 8)
     || apply (load_splice_same _ 16) || apply (load_splice_same _ 24));
    unfold is_u64; solve_len.
Qed.

(** Writing the header and reading it back gives the same page: the fields are
    recovered from the buffer alone, whatever the reader's fields were, and the
    rows are untouched. *)
Theorem page_serialize_round_trip (p q : Page) :
  page_wf p ->
  exists p', Serialize p = Ret p'
    /\ Deserialize (with_buf (page_buf_ p') q) = Ret p'
    /\ (page_id_ p', page_size_ p', used_size_ p', version_ p')
       = (page_id_ p, page_size_ p, used_size_ p, version_ p)
    /\ (forall off n, (32 <= off)%nat ->
          slice off n (page_buf_ p') = slice off n (page_buf_ p)).
Proof.
  intros Hwf. pose proof Hwf as [Hid Hv Hs Hb Hu].
  assert (32 <= length (page_buf_ p))%nat by lia.
  exists (with_buf (serialized_buf p) p). rewrite Serialize_Ret by done.
  split; [done|]. split; [|split; [done|]].
  - destruct (serialized_buf_loads p Hwf) as (L0 & L1 & L2 & L3).
    unfold Deserialize. cbn [with_buf page_buf_].
    change (0 * 8) with 0; change (1 * 8) with 8;
      change (2 * 8) with 16; change (3 * 8) with 24.
    rewrite L0; simpl. rewrite L1; simpl. rewrite L2; simpl. rewrite L3; simpl.
    reflexivity.
  - intros off n Hoff. by apply serialized_buf_rows.
Qed.

Definition page_example : Page :=
  new_Page 7 (replicate 16384 Byte.x61).

Lemma page_serialize_round_trip_witness :
  page_wf page_example
  /\ exists p', Serialize page_example = Ret p'
       /\ Deserialize (with_buf (page_buf_ p') page_example) = Ret p'.
Proof.
  assert (page_wf page_example) as Hwf
    by (split; vm_compute; repeat split; discriminate).
  split; [exact Hwf|].
  destruct (page_serialize_round_trip page_example page_example Hwf) as (p' & H1 & H2 & _).
  exists p'. split; [exact H1|exact H2].
Defined.

(** Serialising a page whose header is up to date changes nothing. *)
Lemma Serialize_fixpoint (p : Page) :
  load_u64 (page_buf_ p) 0 = Ret (page_id_ p) -> load_u64 (page_buf_ p) 8 = Ret (page_size_ p) ->
  load_u64 (page_buf_ p) 16 = Ret (used_size_ p) -> load_u64 (page_buf_ p) 24 = Ret (version_ p) ->
  (32 <= length (page_buf_ p))%nat -> Serialize p = Ret p.
Proof.
  intros H0 H1 H2 H3 Hl. rewrite Serialize_Ret by done. unfold serialized_buf.
  apply splice_load in H0, H1, H2, H3.
  change (Z.to_nat 0) with 0%nat in *. change (Z.to_nat 8) with 8%nat in *.
  change (Z.to_nat 16) with 16%nat in *. change (Z.to_nat 24) with 24%nat in *.
  rewrite H0, H1, H2, H3. by destruct p.
Qed.

Lemma Deserialize_Ret (p : Page) :
  (32 <= length (page_buf_ p))%nat ->
  exists p', Deserialize p = Ret p' /\ page_buf_ p' = page_buf_ p
    /\ load_u64 (page_buf_ p) 0 = Ret (page_id_ p')
    /\ load_u64 (page_buf_ p) 8 = Ret (page_size_ p')
    /\ load_u64 (page_buf_ p) 16 = Ret (used_size_ p')
    /\ load_u64 (page_buf_ p) 24 = Ret (version_ p').
Proof.
  intros Hl. unfold Deserialize.
  change (0 * 8) with 0; change (1 * 8) with 8; change (2 * 8) with 16; change (3 * 8) with 24.
  destruct (load_u64_total (page_buf_ p) 0) as [a Ha]; [lia..|].
  destruct (load_u64_total (page_buf_ p) 8) as [b Hb]; [lia..|].
  destruct (load_u64_total (page_buf_ p) 16) as [c Hc]; [lia..|].
  destruct (load_u64_total (page_buf_ p) 24) as [d Hd]; [lia..|].
  rewrite Ha, Hb, Hc, Hd. simpl. eauto 10.
Qed.

(** ** Rows of a page *)

Lemma PagePut_Ret (p : Page) (row : bytes) (count : Z) :
  page_wf p -> 0 <= count -> count <= Z.of_nat (length row) ->
  used_size_ p + count <= page_size_ p ->
  PagePut (page_id_ p) row count p
  = Ret (set_used_size (used_size_ p + count)
      (with_buf (splice (Z.to_nat (used_size_ p)) (take (Z.to_nat count) row) (page_buf_ p)) p)).
Proof.
  intros [Hid Hv Hs Hb Hu] Hc Hrow Hfit. unfold PagePut. rewrite Z.eqb_refl.
  rewrite u64_id by (unfold is_u64 in *; lia). guard_true.
  rewrite memcpy_Ret by lia. cbn [mbind res_bind].
  unfold slice. by rewrite drop_0.
Qed.

(** A row that fits is appended after the rows already there: it is read back
    at the old [used_size_], nothing before or after it changes, and the page
    stays well formed.  A row that does not fit stops the process. *)
Theorem page_put_spec (p : Page) (row : bytes) :
  page_wf p ->
  let n := Z.of_nat (length row) in
  (used_size_ p + n <= page_size_ p ->
    exists p', PagePut (page_id_ p) row n p = Ret p'
      /\ page_wf p'
      /\ used_size_ p' = used_size_ p + n
      /\ slice (Z.to_nat (used_size_ p)) (length row) (page_buf_ p') = row
      /\ (forall off k, (off + k <= Z.to_nat (used_size_ p))%nat ->
            slice off k (page_buf_ p') = slice off k (page_buf_ p)))
  /\ (page_size_ p < used_size_ p + n < 2 ^ 64 ->
      PagePut (page_id_ p) row n p = Fault Assert).
Proof.
  intros Hwf n. split.
  - intros Hfit. pose proof Hwf as [Hid Hv Hs Hb Hu].
    eexists. split; [apply PagePut_Ret; unfold n in *; try done; lia|].
    subst n. rewrite Nat2Z.id, firstn_all. repeat split; simpl;
      unfold is_u64 in *; try lia; try (rewrite length_splice by lia; lia).
    + by apply slice_splice_same; lia.
    + intros off k Hk. apply slice_splice_disjoint; lia.
  - intros Hover. unfold PagePut. rewrite Z.eqb_refl.
    destruct Hwf as [Hid Hv Hs Hb Hu]. unfold is_u64 in *.
    rewrite u64_id by (unfold is_u64; lia).
    destruct (Z.leb_spec (used_size_ p + n) (page_size_ p)); [lia|done].
Qed.

Lemma page_put_spec_witness :
  page_wf page_example
  /\ exists p', PagePut UINT64_MAX [Byte.x01; Byte.x02] 2 page_example = Ret p'
       /\ used_size_ p' = 66.
Proof.
  assert (page_wf page_example) as Hwf
    by (split; vm_compute; repeat split; discriminate).
  split; [exact Hwf|].
  destruct (proj1 (page_put_spec page_example [Byte.x01; Byte.x02] Hwf)) as (p' & H1 & _ & H2 & _).
  { vm_compute. discriminate. }
  exists p'. split; [exact H1|exact H2].
Defined.
