(* ===== verification/TableSpace.v ===== *)
(** * db2: table spaces ([common/storage/tablespace/tablespace.cpp])

    The allocator of page ids of a table and its metadata file.  The JSON
    library that writes and parses the metadata is a parameter. *)

From S2P Require Import Prelude Config.

(** [src/common/storage/tablespace/tablespace.h:15-47 TableSpace] *)
Record TableSpace := mkTableSpace {
  table_name_ : string;
  table_size_ : Z;
  page_size_ : Z;
  row_size_ : Z;
  last_page_id_ : Z;
}.

(** [src/common/storage/tablespace/tablespace.cpp:19-24 TableSpace::TableSpace] *)
Definition new_TableSpace (table_name : string) : TableSpace :=
  {| table_name_ := table_name; table_size_ := 0; page_size_ := MY_PAGE_SIZE; row_size_ := 0;
     last_page_id_ := -1 |}.

(** The part of [GetNextPageId] under the mutex.
    [src/common/storage/tablespace/tablespace.cpp:29-32 last_page_id_] *)
Definition bump (t : TableSpace) : TableSpace :=
  {| table_name_ := table_name_ t; table_size_ := u64 (table_size_ t + MY_PAGE_SIZE);
     page_size_ := page_size_ t; row_size_ := row_size_ t;
     last_page_id_ := i64 (last_page_id_ t + 1) |}.

(** [src/common/storage/tablespace/tablespace.cpp:36-36 TableSpace::GetLastPageId] *)
Definition GetLastPageId (t : TableSpace) : Z := u64 (last_page_id_ t).

(** The value returned is read after the mutex is released.
    [src/common/storage/tablespace/tablespace.cpp:28-34 TableSpace::GetNextPageId] *)
Definition GetNextPageId (t : TableSpace) : Z * TableSpace :=
  let t := bump t in (u64 (last_page_id_ t), t).

(** [src/common/storage/tablespace/tablespace.cpp:93-97 TableSpace::set_row_size] *)
Definition set_row_size (row_size : Z) (t : TableSpace) : TableSpace :=
  {| table_name_ := table_name_ t; table_size_ := table_size_ t; page_size_ := page_size_ t;
     row_size_ := row_size; last_page_id_ := last_page_id_ t |}.

(** ** Metadata file *)

(** The JSON values the metadata uses. *)
Inductive json := JString (s : string) | JInt (z : Z).

#[export] Instance json_eq_dec : EqDecision json.
Proof. solve_decision. Defined.

(** [root["..."] = ...].
    [src/common/storage/tablespace/tablespace.cpp:50-54 root] *)
Definition to_json (t : TableSpace) : gmap string json :=
  <["table_name" := JString (table_name_ t)]>
  (<["table_size" := JInt (table_size_ t)]>
  (<["page_size" := JInt (page_size_ t)]>
  (<["row_size" := JInt (row_size_ t)]>
  (<["last_page_id" := JInt (last_page_id_ t)]> ∅)))).

(** [asString], [asUInt64] and [asInt64] throw on values out of range. *)
Definition asString (v : option json) : res string :=
  match v with Some (JString s) => Ret s | _ => Fault Assert end.
Definition asUInt64 (v : option json) : res Z :=
  match v with
  | Some (JInt z) => if (0 <=? z) && (z <? 2 ^ 64) then Ret z else Fault Assert
  | _ => Fault Assert
  end.
Definition asInt64 (v : option json) : res Z :=
  match v with
  | Some (JInt z) => if (- 2 ^ 63 <=? z) && (z <? 2 ^ 63) then Ret z else Fault Assert
  | _ => Fault Assert
  end.

(** [src/common/storage/tablespace/tablespace.cpp:79-83 root] *)
Definition of_json (root : gmap string json) : res TableSpace :=
  name ← asString (root !! "table_name");
  tsize ← asUInt64 (root !! "table_size");
  psize ← asUInt64 (root !! "page_size");
  rsize ← asUInt64 (root !! "row_size");
  last ← asInt64 (root !! "last_page_id");
  Ret {| table_name_ := name; table_size_ := tsize; page_size_ := psize; row_size_ := rsize;
         last_page_id_ := last |}.

Section Json.
(** The library's writer and parser. *)
Context (write : gmap string json -> bytes) (parse : bytes -> option (gmap string json)).

(** The file is truncated and written whole.
    [src/common/storage/tablespace/tablespace.cpp:38-58 TableSpace::Serialize] *)
Definition Serialize (t : TableSpace) (fs : gmap string bytes) : gmap string bytes :=
  <[DB_PREFIX +:+ table_name_ t := write (to_json t)]> fs.

(** [src/common/storage/tablespace/tablespace.cpp:60-86 TableSpace::DeSerialize] *)
Definition DeSerialize (t : TableSpace) (fs : gmap string bytes) : res TableSpace :=
  match fs !! (DB_PREFIX +:+ table_name_ t) with
  | None => Fault Assert
  | Some content =>
      match parse content with
      | None => Fault Assert
      | Some root => of_json root
      end
  end.

(** The fields fit their types. *)
Definition space_ok (t : TableSpace) : Prop :=
  is_u64 (table_size_ t) /\ is_u64 (page_size_ t) /\ is_u64 (row_size_ t)
  /\ - 2 ^ 63 <= last_page_id_ t < 2 ^ 63.

Lemma of_json_to_json (t : TableSpace) : space_ok t -> of_json (to_json t) = Ret t.
Proof.
  intros (H1 & H2 & H3 & H4). unfold is_u64 in *. unfold of_json, to_json.
  simplify_map_eq. simpl. repeat (guard_true; simpl). by destruct t.
Qed.

(** A table space written to its metadata file and read back under the same
    name is the same table space, given a JSON library whose parser inverts its
    writer on this document. *)
Theorem table_space_round_trip (t : TableSpace) (fs : gmap string bytes) :
  parse (write (to_json t)) = Some (to_json t) -> space_ok t ->
  DeSerialize (new_TableSpace (table_name_ t)) (Serialize t fs) = Ret t.
Proof.
  intros Hjson Hok. unfold DeSerialize, Serialize. simpl. rewrite lookup_insert_eq, Hjson.
  by apply of_json_to_json.
Qed.
End Json.

(** ** Page ids *)

(** [n] calls of [GetNextPageId] one after the other. *)
Fixpoint alloc (n : nat) (t : TableSpace) : list Z * TableSpace :=
  match n with
  | O => ([], t)
  | S n => let '(id, t) := GetNextPageId t in let '(ids, t) := alloc n t in (id :: ids, t)
  end.

Lemma alloc_spec (n : nat) (t : TableSpace) :
  -1 <= last_page_id_ t -> last_page_id_ t + Z.of_nat n < 2 ^ 63 ->
  alloc n t = ((fun k => last_page_id_ t + 1 + Z.of_nat k) <$> seq 0 n,
    {| table_name_ := table_name_ t;
       table_size_ := if decide (n = 0%nat) then table_size_ t
                      else u64 (table_size_ t + Z.of_nat n * MY_PAGE_SIZE);
       page_size_ := page_size_ t; row_size_ := row_size_ t;
       last_page_id_ := last_page_id_ t + Z.of_nat n |}).
Proof.
  revert t. induction n as [|n IH]; intros t Hlo Hhi.
  - simpl. rewrite Z.add_0_r. by destruct t.
  - cbn [alloc]. unfold GetNextPageId. rewrite IH; simpl; rewrite i64_id by lia; [|lia..].
    rewrite u64_id by (unfold is_u64; lia). f_equal.
    + rewrite <- seq_shift, <- list_fmap_compose. f_equal; [lia|].
      apply list_fmap_ext. intros i k _. simpl. lia.
    + f_equal; [|lia]. case_decide; subst; unfold u64.
      * by f_equal.
      * rewrite Zplus_mod_idemp_l. f_equal. lia.
Qed.

(** Calls that do not overlap hand out the page ids 0, 1, 2, ... without
    repetition, and the table grows by one page per call. *)
Theorem page_ids_fresh (name : string) (n : nat) :
  Z.of_nat n * MY_PAGE_SIZE < 2 ^ 64 ->
  let '(ids, t) := alloc n (new_TableSpace name) in
  ids = Z.of_nat <$> seq 0 n /\ NoDup ids
  /\ GetLastPageId t = u64 (Z.of_nat n - 1)
  /\ table_size_ t = Z.of_nat n * MY_PAGE_SIZE.
Proof.
  intros Hn. rewrite MY_PAGE_SIZE_eq in Hn.
  rewrite alloc_spec by (simpl; lia). cbn [last_page_id_ new_TableSpace].
  assert ((fun k => -1 + 1 + Z.of_nat k) <$> seq 0 n = Z.of_nat <$> seq 0 n) as Hids
    by (apply list_fmap_ext; intros; simpl; lia).
  rewrite Hids. split; [done|]. split.
  - apply NoDup_fmap; [apply _|]. apply NoDup_ListNoDup, seq_NoDup.
  - unfold GetLastPageId. cbn [last_page_id_ table_size_ new_TableSpace]. split; [f_equal; lia|].
    case_decide; [subst; lia|]. rewrite MY_PAGE_SIZE_eq.
    rewrite u64_id by (unfold is_u64; lia). lia.
Qed.

(** Two threads calling [GetNextPageId] at the same time: each first runs the
    part under the mutex, then reads the result. *)
Inductive alloc_pc := Start | Bumped | Returned (id : Z).

Inductive alloc_step : TableSpace * alloc_pc * alloc_pc -> TableSpace * alloc_pc * alloc_pc -> Prop :=
  | bump_1 t p : alloc_step (t, Start, p) (bump t, Bumped, p)
  | bump_2 t p : alloc_step (t, p, Start) (bump t, p, Bumped)
  | return_1 t p : alloc_step (t, Bumped, p) (t, Returned (u64 (last_page_id_ t)), p)
  | return_2 t p : alloc_step (t, p, Bumped) (t, p, Returned (u64 (last_page_id_ t))).

(** Two overlapping calls can return the same page id: the result is read
    after the mutex is released. *)
Theorem page_id_race (name : string) :
  exists t, rtc alloc_step (new_TableSpace name, Start, Start) (t, Returned 1, Returned 1).
Proof.
  exists (bump (bump (new_TableSpace name))).
  eapply rtc_l; [apply bump_1|]. eapply rtc_l; [apply bump_2|].
  eapply rtc_l; [apply return_1|]. eapply rtc_l; [apply return_2|]. apply rtc_refl.
Qed.

(** ** Witnesses *)

(** A stand-in for the JSON library that can hold one document. *)
Lemma table_space_round_trip_witness :
  let t := mkTableSpace "T" 32768 16384 80 1 in
  DeSerialize (fun b => if decide (b = [Byte.x7b]) then Some (to_json t) else None)
    (new_TableSpace "T") (Serialize (fun _ => [Byte.x7b]) t ∅) = Ret t.
Proof.
  apply (table_space_round_trip (fun _ => [Byte.x7b])
    (fun b => if decide (b = [Byte.x7b])
              then Some (to_json (mkTableSpace "T" 32768 16384 80 1)) else None)
    (mkTableSpace "T" 32768 16384 80 1) ∅).
  - reflexivity.
  - unfold space_ok, is_u64. simpl. lia.
Defined.

Lemma page_ids_fresh_witness : (alloc 3 (new_TableSpace "T")).1 = [0; 1; 2].
Proof.
  pose proof (page_ids_fresh "T" 3) as H.
  destruct (alloc 3 (new_TableSpace "T")) as [ids t]. 
  destruct H as [H _]; [vm_compute; reflexivity|]. exact H.
Defined.
