(* ===== verification/Catalog.v ===== *)
(** * db2: schemas and rows ([common/storage/catalog.cpp], [common/storage/table.cpp],
    [common/storage/tablespace/row_item.cpp])

    A catalog lays the columns of a table out one after the other in a row. *)

From S2P Require Import Prelude Config.

(** [src/common/storage/catalog.h:7-27 Column] *)
Record Column := mkColumn {
  col_id : Z;
  col_size : Z;
  col_index : Z;
  col_type : string;
  col_name : string;
}.

(** A default-constructed column; its numbers are indeterminate and never read
    before [add_col] has set them. *)
Definition no_column : Column := mkColumn 0 0 0 "" "".

(** [_columns] is the array allocated by [init].
    [src/common/storage/catalog.h:30-54 Catalog] *)
Record Catalog := mkCatalog {
  field_cnt : Z;
  table_name : string;
  _columns : list Column;
  tuple_size : Z;
}.

(** [src/common/storage/catalog.cpp:4-9 Catalog::init] *)
Definition Catalog_init (name : string) (cnt : Z) : Catalog :=
  {| field_cnt := 0; table_name := name; _columns := replicate (Z.to_nat cnt) no_column;
     tuple_size := 0 |}.

(** [src/common/storage/catalog.cpp:11-19 Catalog::add_col] *)
Definition add_col (name : string) (size : Z) (type : string) (c : Catalog) : res Catalog :=
  if field_cnt c <? Z.of_nat (length (_columns c)) then
    let col := {| col_id := field_cnt c; col_size := u32 size; col_index := tuple_size c;
                  col_type := type; col_name := name |} in
    Ret {| field_cnt := u32 (field_cnt c + 1); table_name := table_name c;
           _columns := <[Z.to_nat (field_cnt c) := col]> (_columns c);
           tuple_size := u32 (tuple_size c + size) |}
  else Fault OutOfBounds.

(** [_columns[id]]. *)
Definition column (c : Catalog) (id : Z) : res Column :=
  if 0 <=? id then at_ (_columns c !! Z.to_nat id) else Fault OutOfBounds.

(** [src/common/storage/catalog.h:43-43 get_field_size] *)
Definition get_field_size (c : Catalog) (id : Z) : res Z :=
  col ← column c id; Ret (col_size col).

(** [src/common/storage/catalog.h:44-44 get_field_index] *)
Definition get_field_index (c : Catalog) (id : Z) : res Z :=
  col ← column c id; Ret (col_index col).

(** [src/common/storage/catalog.cpp:32-34 Catalog::get_field_type] *)
Definition get_field_type (c : Catalog) (id : Z) : res string :=
  col ← column c id; Ret (col_type col).

(** [src/common/storage/catalog.cpp:36-38 Catalog::get_field_name] *)
Definition get_field_name (c : Catalog) (id : Z) : res string :=
  col ← column c id; Ret (col_name col).

(** [s.find(name) != npos]. *)
Definition contains (name s : string) : bool :=
  match String.index 0 name s with Some _ => true | None => false end.

(** The search stops at the first column whose name contains [name].
    [src/common/storage/catalog.cpp:21-30 Catalog::get_field_id] *)
Definition get_field_id (c : Catalog) (name : string) : res Z :=
  match list_find (fun col => contains name (col_name col) = true)
          (take (Z.to_nat (field_cnt c)) (_columns c)) with
  | Some (i, _) => Ret (Z.of_nat i)
  | None => Fault Assert
  end.

(** [src/common/storage/catalog.cpp:41-43 Catalog::get_field_type] *)
Definition get_field_type_name (c : Catalog) (name : string) : res string :=
  id ← get_field_id c name; get_field_type c id.

(** [src/common/storage/catalog.cpp:45-47 Catalog::get_field_index] *)
Definition get_field_index_name (c : Catalog) (name : string) : res Z :=
  id ← get_field_id c name; get_field_index c id.

(** [src/common/storage/table.h:12-33 table_t] *)
Record table_t := mkTable { tbl_name : string; schema : Catalog }.

(** [src/common/storage/table.cpp:5-8 table_t::init] *)
Definition table_init (s : Catalog) : table_t := {| tbl_name := table_name s; schema := s |}.

(** [data] and [table] are pointers no constructor or setter initialises.
    [src/common/storage/tablespace/row_item.h:32-36 row_] *)
Record RowItem := mkRowItem {
  key_ : Z;
  size_ : Z;
  row_ : option bytes;
  data : option bytes;
  table : option table_t;
}.

(** [junk] is the indeterminate content of the new array.
    [src/common/storage/tablespace/row_item.cpp:10-18 RowItem::RowItem] *)
Definition new_RowItem (junk : bytes) (key size : Z) : RowItem :=
  {| key_ := key; size_ := size;
     row_ := if 0 =? size then None else Some (take (Z.to_nat size) junk);
     data := None; table := None |}.

(** [src/common/storage/tablespace/row_item.cpp:24-26 RowItem::get_schema] *)
Definition get_schema (r : RowItem) : res Catalog := t ← deref (table r); Ret (schema t).

Definition with_data (d : bytes) (r : RowItem) : RowItem :=
  {| key_ := key_ r; size_ := size_ r; row_ := row_ r; data := Some d; table := table r |}.

(** [src/common/storage/tablespace/row_item.cpp:33-36 RowItem::set_value] *)
Definition set_value_sized (id : Z) (ptr : bytes) (size : Z) (r : RowItem) : res RowItem :=
  c ← get_schema r;
  pos ← get_field_index c id;
  d ← deref (data r);
  d ← memcpy d (i32 pos) ptr 0 size;
  Ret (with_data d r).

(** [src/common/storage/tablespace/row_item.cpp:27-31 RowItem::set_value] *)
Definition set_value (id : Z) (ptr : bytes) (r : RowItem) : res RowItem :=
  c ← get_schema r;
  datasize ← get_field_size c id;
  pos ← get_field_index c id;
  d ← deref (data r);
  d ← memcpy d (i32 pos) ptr 0 (i32 datasize);
  Ret (with_data d r).

(** [src/common/storage/tablespace/row_item.cpp:38-41 RowItem::set_value] *)
Definition set_value_name (col : string) (ptr : bytes) (r : RowItem) : res RowItem :=
  c ← get_schema r;
  id ← get_field_id c col;
  set_value id ptr r.

(** The pointer [&data[pos]], as the bytes from there on.
    [src/common/storage/tablespace/row_item.cpp:43-46 RowItem::get_value] *)
Definition get_value (id : Z) (r : RowItem) : res bytes :=
  c ← get_schema r;
  pos ← get_field_index c id;
  d ← deref (data r);
  Ret (drop (Z.to_nat (i32 pos)) d).

(** [src/common/storage/tablespace/row_item.cpp:48-51 RowItem::get_value] *)
Definition get_value_name (col : string) (r : RowItem) : res bytes :=
  c ← get_schema r;
  pos ← get_field_index_name c col;
  d ← deref (data r);
  Ret (drop (Z.to_nat pos) d).

(** ** Layout of a row *)

(** A column declaration of a schema file. *)
Record decl := mkDecl { d_name : string; d_size : Z; d_type : string }.

Definition sizes (ds : list decl) : Z := foldr (fun d acc => d_size d + acc) 0 ds.

Definition add_cols (c : Catalog) (ds : list decl) : res Catalog :=
  foldM (fun c d => add_col (d_name d) (d_size d) (d_type d) c) c ds.

(** The column that [add_col] makes of the [i]-th declaration. *)
Definition col_of (ds : list decl) (i : nat) (d : decl) : Column :=
  {| col_id := Z.of_nat i; col_size := d_size d; col_index := sizes (take i ds);
     col_type := d_type d; col_name := d_name d |}.

(** [c] holds exactly the columns of [ds], packed without gaps. *)
Record layout (c : Catalog) (ds : list decl) : Prop := mk_layout {
  lay_cnt : field_cnt c = Z.of_nat (length ds);
  lay_size : tuple_size c = sizes ds;
  lay_cols : forall i d, ds !! i = Some d -> _columns c !! i = Some (col_of ds i d);
}.

Lemma sizes_app (ds1 ds2 : list decl) : sizes (ds1 ++ ds2) = sizes ds1 + sizes ds2.
Proof. induction ds1 as [|d ds1 IH]; simpl; [done|]. rewrite IH. lia. Qed.

Lemma sizes_nonneg (ds : list decl) : Forall (fun d => 0 <= d_size d) ds -> 0 <= sizes ds.
Proof. induction 1; simpl; lia. Qed.

Lemma add_col_layout (c : Catalog) (ds : list decl) (d : decl) :
  layout c ds -> (length ds < length (_columns c))%nat ->
  0 <= d_size d -> 0 <= sizes ds -> sizes ds + d_size d < 2 ^ 32 -> Z.of_nat (length ds) + 1 < 2 ^ 32 ->
  exists c', add_col (d_name d) (d_size d) (d_type d) c = Ret c' /\ layout c' (ds ++ [d])
    /\ length (_columns c') = length (_columns c) /\ table_name c' = table_name c.
Proof.
  intros [Hc Hs Hcols] Hlen Hd Hs0 Hsum Hcnt. unfold add_col. rewrite Hc, Hs. guard_true.
  rewrite !u32_id by (unfold is_u32; lia).
  eexists. split; [done|]. split; [|simpl; by rewrite length_insert].
  split; simpl.
  - rewrite length_app. simpl. lia.
  - rewrite sizes_app. simpl. lia.
  - intros i e Hi. rewrite Nat2Z.id. destruct (decide (i = length ds)) as [->|Hne].
    + rewrite list_lookup_middle in Hi by done. injection Hi as <-.
      rewrite list_lookup_insert_eq by done. unfold col_of. by rewrite take_app_length.
    + apply lookup_lt_Some in Hi as Hlt. rewrite length_app in Hlt. simpl in Hlt.
      rewrite list_lookup_insert_ne by done. rewrite lookup_app_l in Hi by lia.
      rewrite (Hcols _ _ Hi). unfold col_of. by rewrite take_app_le by lia.
Qed.

Lemma add_cols_layout (ds1 ds : list decl) (c : Catalog) :
  layout c ds1 -> (length (ds1 ++ ds) <= length (_columns c))%nat ->
  Forall (fun d => 0 <= d_size d) (ds1 ++ ds) -> sizes (ds1 ++ ds) < 2 ^ 32 ->
  Z.of_nat (length (ds1 ++ ds)) < 2 ^ 32 ->
  exists c', add_cols c ds = Ret c' /\ layout c' (ds1 ++ ds) /\ table_name c' = table_name c.
Proof.
  revert ds1 c. induction ds as [|d ds IH]; intros ds1 c Hl Hlen Hpos Hsum Hcnt.
  - exists c. by rewrite app_nil_r.
  - rewrite length_app in *. simpl in *. rewrite sizes_app in Hsum. simpl in Hsum.
    apply list.Forall_app in Hpos as Hp. destruct Hp as [Hp1 Hp2].
    apply list.Forall_cons in Hp2 as [Hd Hp2].
    pose proof (sizes_nonneg _ Hp1). pose proof (sizes_nonneg _ Hp2).
    destruct (add_col_layout c ds1 d Hl) as (c1 & E1 & Hl1 & Hlen1 & Hn1); [lia..|].
    unfold add_cols. cbn [foldM]. rewrite E1. cbn [mbind res_bind].
    destruct (IH (ds1 ++ [d]) c1 Hl1) as (c2 & E2 & Hl2 & Hn2).
    + rewrite <- app_assoc, length_app. simpl. lia.
    + by rewrite <- app_assoc.
    + rewrite <- app_assoc, sizes_app. simpl. lia.
    + rewrite <- app_assoc, length_app. simpl. lia.
    + exists c2. unfold add_cols in E2. rewrite E2. rewrite <- app_assoc in Hl2.
      split; [done|]. split; [done|congruence].
Qed.

Lemma sizes_take_lt (ds : list decl) (i j : nat) (d : decl) :
  Forall (fun d => 0 <= d_size d) ds -> ds !! i = Some d -> (i < j)%nat ->
  sizes (take i ds) + d_size d <= sizes (take j ds).
Proof.
  intros Hpos Hi Hij. rewrite <- (take_drop i (take j ds)), take_take, Nat.min_l by lia.
  rewrite sizes_app. assert (take j ds !! i = Some d) as Hd by (by rewrite lookup_take_lt).
  apply drop_S in Hd. rewrite Hd. simpl.
  assert (0 <= sizes (drop (S i) (take j ds))); [|lia].
  apply sizes_nonneg. apply Forall_drop, Forall_take, Hpos.
Qed.

(** A schema is laid out without gaps or overlaps: each column starts where
    the sizes of the columns before it end, the columns stay within the tuple,
    and distinct columns occupy disjoint byte ranges. *)
Theorem catalog_layout (name : string) (ds : list decl) :
  Forall (fun d => 0 <= d_size d) ds -> sizes ds < 2 ^ 32 -> Z.of_nat (length ds) < 2 ^ 32 ->
  exists c, add_cols (Catalog_init name (Z.of_nat (length ds))) ds = Ret c
    /\ tuple_size c = sizes ds
    /\ (forall i d, ds !! i = Some d ->
          get_field_index c (Z.of_nat i) = Ret (sizes (take i ds))
          /\ get_field_size c (Z.of_nat i) = Ret (d_size d)
          /\ 0 <= sizes (take i ds) /\ sizes (take i ds) + d_size d <= tuple_size c)
    /\ (forall i j d, (i < j)%nat -> ds !! i = Some d ->
          sizes (take i ds) + d_size d <= sizes (take j ds)).
Proof.
  intros Hpos Hsum Hcnt.
  assert (layout (Catalog_init name (Z.of_nat (length ds))) []) as Hl0 by (split; done).
  destruct (add_cols_layout [] ds _ Hl0) as (c & E & Hl & _); simpl;
    [by rewrite length_replicate, Nat2Z.id|done..|].
  exists c. split; [done|]. split; [apply Hl|]. split.
  - intros i d Hi. unfold get_field_index, get_field_size, column. guard_true.
    rewrite Nat2Z.id, (lay_cols _ _ Hl i d Hi). simpl. split; [done|]. split; [done|].
    split; [by apply sizes_nonneg, Forall_take|].
    rewrite (lay_size _ _ Hl). apply lookup_lt_Some in Hi as Hlt.
    rewrite <- (firstn_all ds) at 2. by apply sizes_take_lt.
  - intros i j d Hij Hi. by apply sizes_take_lt.
Qed.

(** A row attached to a table, with its data in place. *)
Definition attached (c : Catalog) (d : bytes) (r : RowItem) : Prop :=
  data r = Some d /\ exists t, table r = Some t /\ schema t = c.

Lemma layout_column (c : Catalog) (ds : list decl) (i : nat) (d : decl) :
  layout c ds -> ds !! i = Some d -> column c (Z.of_nat i) = Ret (col_of ds i d).
Proof.
  intros Hl Hi. unfold column. guard_true. by rewrite Nat2Z.id, (lay_cols _ _ Hl i d Hi).
Qed.

(** Storing a value in one column of a row is read back from that column and
    leaves the value of every other column as it was. *)
Theorem row_set_get_value (c : Catalog) (ds : list decl) (r : RowItem) (b v : bytes)
    (i j : nat) (di dj : decl) :
  layout c ds -> Forall (fun d => 0 <= d_size d) ds -> sizes ds < 2 ^ 31 ->
  attached c b r -> Z.of_nat (length b) = tuple_size c ->
  ds !! i = Some di -> ds !! j = Some dj -> i <> j -> Z.of_nat (length v) = d_size di ->
  exists r', set_value (Z.of_nat i) v r = Ret r'
    /\ (x ← get_value (Z.of_nat i) r'; Ret (take (Z.to_nat (d_size di)) x)) = Ret v
    /\ (x ← get_value (Z.of_nat j) r'; Ret (take (Z.to_nat (d_size dj)) x))
       = (x ← get_value (Z.of_nat j) r; Ret (take (Z.to_nat (d_size dj)) x)).
Proof.
  intros Hl Hpos Hsum (Hdata & t & Ht & Hsch) Hlen Hi Hj Hne Hv.
  assert (forall k d, ds !! k = Some d -> 0 <= sizes (take k ds)
            /\ sizes (take k ds) + d_size d <= Z.of_nat (length b) /\ 0 <= d_size d) as Hin.
  { intros k d Hk. split; [by apply sizes_nonneg, Forall_take|]. split.
    - rewrite Hlen, (lay_size _ _ Hl). apply lookup_lt_Some in Hk as Hlt.
      rewrite <- (firstn_all ds) at 2. by apply sizes_take_lt.
    - by apply (list.Forall_lookup_1 (fun d => 0 <= d_size d) ds k). }
  destruct (Hin _ _ Hi) as (Hi0 & Hi1 & Hi2). destruct (Hin _ _ Hj) as (Hj0 & Hj1 & Hj2).
  rewrite Hlen, (lay_size _ _ Hl) in Hi1, Hj1.
  assert (sizes (take i ds) + d_size di <= sizes (take j ds)
          \/ sizes (take j ds) + d_size dj <= sizes (take i ds)) as Hdisj.
  { destruct (Nat.lt_ge_cases i j); [left|right]; apply sizes_take_lt; try done; lia. }
  unfold set_value, get_value, get_schema, get_field_index, get_field_size.
  rewrite Ht, Hdata. cbn [deref mbind res_bind]. rewrite Hsch.
  rewrite !(layout_column c ds i di Hl Hi), !(layout_column c ds j dj Hl Hj).
  cbn [mbind res_bind col_size col_index col_of]. rewrite !i32_id by lia.
  rewrite memcpy_Ret by (rewrite ?Hlen, ?(lay_size _ _ Hl); lia).
  cbn [mbind res_bind]. rewrite slice_all' by lia.
  eexists. split; [done|]. simpl. rewrite Ht. cbn [deref mbind res_bind]. rewrite Hsch.
  rewrite !(layout_column c ds i di Hl Hi), !(layout_column c ds j dj Hl Hj).
  cbn [mbind res_bind col_size col_index col_of]. rewrite !i32_id by lia.
  pose proof (lay_size _ _ Hl) as Hsz. split; f_equal.
  - replace (Z.to_nat (d_size di)) with (length v) by lia.
    apply slice_splice_same. lia.
  - apply slice_splice_disjoint; lia.
Qed.

(** The accessors of a row object go through pointers that no constructor
    sets, so they fail on every row the engine creates. *)
Theorem row_item_accessors_unset (junk : bytes) (key size id : Z) (v : bytes) :
  set_value id v (new_RowItem junk key size) = Fault NullDeref
  /\ get_value id (new_RowItem junk key size) = Fault NullDeref.
Proof. done. Qed.

(** A column is found under its own name when no earlier column's name
    contains that name; an earlier column whose name merely contains it is
    returned instead. *)
Theorem get_field_id_first_containing (c : Catalog) (ds : list decl) (i : nat) (name : string) :
  layout c ds -> (i < length ds)%nat ->
  (exists d, ds !! i = Some d /\ contains name (d_name d) = true) ->
  (forall j d, (j < i)%nat -> ds !! j = Some d -> contains name (d_name d) = false) ->
  get_field_id c name = Ret (Z.of_nat i).
Proof.
  intros Hl Hlt (d & Hi & Hc) Hbefore. unfold get_field_id.
  rewrite (lay_cnt _ _ Hl), Nat2Z.id.
  assert (list_find (fun col => contains name (col_name col) = true)
            (take (length ds) (_columns c)) = Some (i, col_of ds i d)) as ->; [|done].
  apply list_find_Some. split; [|split; [done|]].
  - rewrite lookup_take_lt by done. by apply (lay_cols _ _ Hl).
  - intros j y Hj Hji. apply lookup_lt_Some in Hj as Hjl. rewrite length_take in Hjl.
    destruct (lookup_lt_is_Some_2 ds j ltac:(lia)) as [e He].
    rewrite lookup_take_lt in Hj by lia. rewrite (lay_cols _ _ Hl j e He) in Hj.
    injection Hj as <-. simpl. rewrite (Hbefore j e) by done. done.
Qed.

(** ** Witnesses *)

Definition decls_example : list decl :=
  [mkDecl "C_W_ID" 8 "int64_t"; mkDecl "W_ID" 8 "int64_t"; mkDecl "NAME" 10 "string"].

Definition catalog_example : Catalog :=
  {| field_cnt := 3; table_name := "T"; tuple_size := 26;
     _columns := [mkColumn 0 8 0 "int64_t" "C_W_ID"; mkColumn 1 8 8 "int64_t" "W_ID";
                  mkColumn 2 10 16 "string" "NAME"] |}.

Lemma catalog_example_layout : layout catalog_example decls_example.
Proof.
  split; [reflexivity|reflexivity|].
  intros [|[|[|i]]] d; simpl; intros [= <-]; reflexivity.
Qed.

Lemma decls_example_pos : Forall (fun d => 0 <= d_size d) decls_example.
Proof. repeat constructor; simpl; lia. Qed.

Lemma catalog_layout_witness :
  exists c, add_cols (Catalog_init "T" 3) decls_example = Ret c /\ tuple_size c = 26.
Proof.
  destruct (catalog_layout "T" decls_example decls_example_pos) as (c & H1 & H2 & _);
    [vm_compute; reflexivity|vm_compute; reflexivity|].
  exists c. split; [exact H1|exact H2].
Defined.

Lemma row_set_get_value_witness :
  exists r', set_value 1 (replicate 8 Byte.x01)
    {| key_ := 0; size_ := 0; row_ := None; data := Some (replicate 26 Byte.x00);
       table := Some {| tbl_name := "T"; schema := catalog_example |} |} = Ret r'.
Proof.
  destruct (row_set_get_value catalog_example decls_example
    {| key_ := 0; size_ := 0; row_ := None; data := Some (replicate 26 Byte.x00);
       table := Some {| tbl_name := "T"; schema := catalog_example |} |}
    (replicate 26 Byte.x00) (replicate 8 Byte.x01) 1 2
    (mkDecl "W_ID" 8 "int64_t") (mkDecl "NAME" 10 "string"))
    as (r' & Hr & _); try reflexivity.
  - apply catalog_example_layout.
  - apply decls_example_pos.
  - split; [reflexivity|]. eexists. split; reflexivity.
  - lia.
  - exists r'. exact Hr.
Defined.

Lemma get_field_id_first_containing_witness :
  get_field_id catalog_example "W_ID" = Ret 0.
Proof.
  apply (get_field_id_first_containing catalog_example decls_example 0 "W_ID").
  - apply catalog_example_layout.
  - simpl. lia.
  - eexists. split; reflexivity.
  - intros j d Hj. lia.
Defined.
