(* ===== verification/Schema.v ===== *)
(** * db2: schema files ([common/workload/wl.cpp])

    [workload::init_schema] reads a text file of tables and their columns.  The
    input stream is modelled with the state bit that decides what [getline]
    does at the end of the file, because the loop over a table's columns
    depends on it. *)

From Stdlib Require Import Strings.Ascii.
From S2P Require Import Prelude Config Catalog.

(** ** Strings and streams *)

(** The text before the first [c] and, when there is one, the text after it. *)
Fixpoint break (c : Ascii.ascii) (s : string) : string * option string :=
  match s with
  | EmptyString => (EmptyString, None)
  | String d s =>
      if decide (d = c) then (EmptyString, Some s)
      else let '(a, b) := break c s in (String d a, b)
  end.

Definition newline : Ascii.ascii := Ascii.ascii_of_nat 10.
Definition comma : Ascii.ascii := Ascii.ascii_of_nat 44.

(** An [ifstream]: what is left to read, and whether no end of file was hit. *)
Record ifstream := mkStream { rest : string; good : bool }.

(** [getline(fin, line)]: on a stream that has hit the end of the file the line
    is left as it is; otherwise it is replaced, by the empty string when there
    is nothing to read.  The result says whether the stream has not failed. *)
Definition getline (fin : ifstream) (line : string) : bool * string * ifstream :=
  if good fin then
    match break newline (rest fin) with
    | (a, Some b) => (true, a, mkStream b true)
    | (a, None) => (negb (bool_decide (a = EmptyString)), a, mkStream EmptyString false)
    end
  else (false, line, fin).

Definition is_space (c : Ascii.ascii) : bool :=
  let n := Ascii.nat_of_ascii c in (n =? 32)%nat || ((9 <=? n)%nat && (n <=? 13)%nat).

Definition digit (c : Ascii.ascii) : option Z :=
  let n := Z.of_nat (Ascii.nat_of_ascii c) in
  if (48 <=? n) && (n <=? 57) then Some (n - 48) else None.

Fixpoint digits (acc : Z) (s : string) : Z :=
  match s with
  | EmptyString => acc
  | String c s => match digit c with Some d => digits (10 * acc + d) s | None => acc end
  end.

Fixpoint skip_space (s : string) : string :=
  match s with
  | String c s' => if is_space c then skip_space s' else s
  | EmptyString => s
  end.

(** [atoi]: white space, a sign, digits; the [long] it computes saturates and is
    converted to [int]. *)
Definition atoi (s : string) : Z :=
  let v := match skip_space s with
           | String "-"%char s => - digits 0 s
           | String "+"%char s => digits 0 s
           | s => digits 0 s
           end in
  i32 (Z.max (- 2 ^ 63) (Z.min (2 ^ 63 - 1) v)).

(** ** The parser *)

(** The loop over the fields of a column line, with the variables [elem_num],
    [size], [type] and [name].  The fourth field stops it, so four steps are
    enough.
    [src/common/workload/wl.cpp:57-82 elem_num] *)
Fixpoint parse_fields (fuel : nat) (line : string) (elem_num size : Z) (type name : string)
    : res (Z * string * string) :=
  if bool_decide (line = EmptyString) then
    assert! elem_num =? 3;
    Ret (size, type, name)
  else
    match fuel with
    | O => Fault OutOfFuel
    | S fuel =>
        let '(token, line) := break comma line in
        let line := default EmptyString line in
        if elem_num =? 0 then parse_fields fuel line 1 (atoi token) type name
        else if elem_num =? 1 then parse_fields fuel line 2 size token name
        else if elem_num =? 2 then parse_fields fuel line 3 size type token
        else Fault Assert
    end.

(** One column.
    [src/common/workload/wl.cpp:54-84 add_col] *)
Definition parse_column (schema : Catalog) (line : string) : res Catalog :=
  '(size, type, name) ← parse_fields 4 line 0 0 EmptyString EmptyString;
  add_col name (u64 size) type schema.

(** The lines of a table, up to one of at most one character.
    [src/common/workload/wl.cpp:48-51 lines] *)
Fixpoint read_lines (fuel : nat) (line : string) (fin : ifstream)
    : res (list string * string * ifstream) :=
  if (1 <? String.length line)%nat then
    match fuel with
    | O => Fault OutOfFuel
    | S fuel =>
        let '(_, line', fin) := getline fin line in
        '(lines, last, fin) ← read_lines fuel line' fin;
        Ret (line :: lines, last, fin)
    end
  else Ret ([], line, fin).

(** The map of tables and the one [Catalog] object that all of them point to.
    [src/common/workload/wl.h:43-43 tables] *)
Record wl := mkWl { names : gmap string string; schema_ : Catalog }.

(** The tables as their readers see them, through the shared pointer. *)
Definition tables (w : wl) : gmap string table_t :=
  (fun name => {| tbl_name := name; schema := schema_ w |}) <$> names w.

(** [src/common/workload/wl.cpp:41-89 tname] *)
Definition parse_table (fuel : nat) (line : string) (fin : ifstream) (w : wl)
    : res (string * ifstream * wl) :=
  let tname := String.substring 6 (String.length line - 6) line in
  let '(_, line, fin) := getline fin line in
  '(lines, line, fin) ← read_lines fuel line fin;
  schema ← foldM parse_column (Catalog_init tname (i32 (Z.of_nat (length lines)))) lines;
  let cur_tab := table_init schema in
  Ret (line, fin, {| names := <[tname := tbl_name cur_tab]> (names w); schema_ := schema |}).

(** [src/common/workload/wl.cpp:39-41 getline] *)
Fixpoint schema_loop (fuel : nat) (line : string) (fin : ifstream) (w : wl) : res wl :=
  match getline fin line with
  | (false, _, _) => Ret w
  | (true, line, fin) =>
      match fuel with
      | O => Fault OutOfFuel
      | S fuel =>
          if bool_decide (String.substring 0 6 line = "TABLE="%string) then
            '(line, fin, w) ← parse_table fuel line fin w;
            schema_loop fuel line fin w
          else schema_loop fuel line fin w
      end
  end.

(** The file [text] read into an empty map of tables; the new [Catalog] is
    indeterminate until a table initialises it.
    [src/common/workload/wl.cpp:32-40 workload::init_schema] *)
Definition init_schema (fuel : nat) (text : string) (schema0 : Catalog) : res wl :=
  schema_loop fuel EmptyString (mkStream text true) (mkWl ∅ schema0).

(** ** Lines *)

(** [c] does not occur in [s]. *)
Definition free_of (c : Ascii.ascii) (s : string) : Prop := break c s = (s, None).

(** A text of lines that all end in a newline. *)
Fixpoint unlines (ls : list string) : string :=
  match ls with
  | [] => EmptyString
  | l :: ls => l +:+ String newline (unlines ls)
  end.

Lemma break_app (c : Ascii.ascii) (a b : string) :
  free_of c a -> break c (a +:+ String c b) = (a, Some b).
Proof.
  unfold free_of. induction a as [|d a IH]; simpl.
  - intros _. by rewrite decide_True.
  - case_decide; [done|]. destruct (break c a) as [x y]. intros [= -> ->]. by rewrite IH.
Qed.

Lemma free_of_app (c : Ascii.ascii) (a b : string) :
  free_of c a -> free_of c b -> free_of c (a +:+ b).
Proof.
  unfold free_of. intros Ha Hb. induction a as [|d a IH]; simpl in *; [done|].
  case_decide; [done|]. destruct (break c a) as [x y]. injection Ha as -> ->. by rewrite IH.
Qed.

Lemma getline_unlines (l line : string) (ls : list string) :
  free_of newline l -> getline (mkStream (unlines (l :: ls)) true) line
  = (true, l, mkStream (unlines ls) true).
Proof. intros H. unfold getline. simpl. by rewrite break_app. Qed.

Lemma getline_end (line : string) :
  getline (mkStream EmptyString true) line = (false, EmptyString, mkStream EmptyString false).
Proof. done. Qed.

Definition long (l : string) : Prop := (1 < String.length l)%nat.

#[export] Instance long_dec (l : string) : Decision (long l).
Proof. unfold long. solve_decision. Defined.

Lemma read_lines_block (block ls : list string) (line stop : string) (fuel : nat) :
  Forall (free_of newline) (block ++ stop :: ls) -> Forall long (line :: block) -> ~ long stop ->
  (length block < fuel)%nat ->
  read_lines fuel line (mkStream (unlines (block ++ stop :: ls)) true)
  = Ret (line :: block, stop, mkStream (unlines ls) true).
Proof.
  revert line fuel. induction block as [|l block IH]; intros line fuel Hfree Hlong Hstop Hfuel;
    (destruct fuel as [|fuel]; [simpl in Hfuel; lia|]); cbn [app] in *;
    apply list.Forall_cons in Hfree as [Hl Hfree]; apply list.Forall_cons in Hlong as [H1 Hlong];
    unfold long in *; cbn [read_lines];
    rewrite (proj2 (Nat.ltb_lt _ _)) by done; rewrite getline_unlines by done.
  - assert ((1 <? String.length stop)%nat = false) as E by (apply Nat.ltb_ge; lia).
    destruct fuel; cbn [read_lines]; by rewrite E.
  - rewrite IH by (try done; simpl in Hfuel; lia). done.
Qed.

Lemma read_lines_eof (block : list string) (line : string) (fuel : nat) :
  Forall (free_of newline) block -> Forall long (line :: block) -> (length block < fuel)%nat ->
  read_lines fuel line (mkStream (unlines block) true)
  = Ret (line :: block, EmptyString, mkStream EmptyString false).
Proof.
  revert line fuel. induction block as [|l block IH]; intros line fuel Hfree Hlong Hfuel;
    (destruct fuel as [|fuel]; [simpl in Hfuel; lia|]);
    apply list.Forall_cons in Hlong as [H1 Hlong]; unfold long in *; cbn [read_lines];
    rewrite (proj2 (Nat.ltb_lt _ _)) by done.
  - cbn [unlines]. rewrite getline_end. by destruct fuel.
  - apply list.Forall_cons in Hfree as [Hl Hfree]. rewrite getline_unlines by done.
    rewrite IH by (try done; simpl in Hfuel; lia). done.
Qed.

(** Either all lines are long, or there is a first one that is not. *)
Lemma split_long (ls : list string) :
  Forall long ls \/ exists block stop ls', ls = block ++ stop :: ls' /\ Forall long block
                      /\ ~ long stop.
Proof.
  induction ls as [|l ls IH]; [by left|]. destruct (decide (long l)) as [Hl|Hl].
  - destruct IH as [IH|(block & stop & ls' & -> & Hb & Hs)]; [left; by constructor|].
    right. exists (l :: block), stop, ls'. split; [done|]. split; [by constructor|done].
  - right. exists [], l, ls. done.
Qed.

(** ** Termination *)

Lemma parse_column_fuel (schema : Catalog) (line : string) :
  parse_column schema line <> Fault OutOfFuel.
Proof.
  unfold parse_column. cbn [parse_fields].
  repeat (case_bool_decide; [simpl; try done; unfold add_col; by case_match|];
          destruct (break comma _) as [? ?]; simpl).
  done.
Qed.

Lemma foldM_parse_fuel (lines : list string) (schema : Catalog) :
  foldM parse_column schema lines <> Fault OutOfFuel.
Proof.
  revert schema. induction lines as [|l lines IH]; intros schema; simpl; [done|].
  pose proof (parse_column_fuel schema l). destruct (parse_column schema l); simpl; congruence || auto.
Qed.

(** A table is read from a text of whole lines with a step per line, and leaves
    such a text or the end of the file. *)
Lemma parse_table_fuel (fuel : nat) (line : string) (ls : list string) (w : wl) :
  Forall (free_of newline) ls -> (length ls <= fuel)%nat ->
  match parse_table fuel line (mkStream (unlines ls) true) w with
  | Ret (_, fin, _) => fin = mkStream EmptyString false
      \/ exists ls', fin = mkStream (unlines ls') true /\ (length ls' <= length ls)%nat
           /\ Forall (free_of newline) ls'
  | Fault f => f <> OutOfFuel
  | Wait => True
  end.
Proof.
  intros Hfree Hfuel. unfold parse_table.
  assert (exists lines last fin,
    (let '(_, line, fin) := getline (mkStream (unlines ls) true) line in read_lines fuel line fin)
      = Ret (lines, last, fin)
    /\ (fin = mkStream EmptyString false
      \/ exists ls', fin = mkStream (unlines ls') true /\ (length ls' <= length ls)%nat
           /\ Forall (free_of newline) ls')) as (lines & last & fin & Hread & Hfin).
  - destruct ls as [|l ls].
    { cbn [unlines]. rewrite getline_end. exists [], EmptyString, (mkStream EmptyString false).
      split; [by destruct fuel|by left]. }
    apply list.Forall_cons in Hfree as [Hl Hfree]. rewrite getline_unlines by done.
    simpl in Hfuel. destruct (decide (long l)) as [Hlong|Hshort].
    + destruct (split_long ls) as [Hall|(block & stop & ls' & -> & Hb & Hs)].
      * rewrite read_lines_eof by (try done; by constructor). eexists _, _, _.
        split; [done|by left].
      * rewrite length_app in Hfuel. simpl in Hfuel.
        rewrite read_lines_block by (done || (by constructor) || lia).
        eexists _, _, _. split; [done|]. right. exists ls'. split; [done|]. simpl.
        rewrite length_app. simpl. split; [lia|].
        apply list.Forall_app in Hfree as [_ Hfree]. by apply list.Forall_cons in Hfree as [_ ?].
    + assert ((1 <? String.length l)%nat = false) as E
        by (apply Nat.ltb_ge; unfold long in Hshort; lia).
      exists [], l, (mkStream (unlines ls) true).
      split; [destruct fuel; cbn [read_lines]; by rewrite E|].
      right. exists ls. simpl. auto with lia.
  - destruct (getline _ _) as [[ok line'] fin0]. rewrite Hread. cbn [mbind res_bind].
    pose proof (foldM_parse_fuel lines
      (Catalog_init (String.substring 6 (String.length line - 6) line)
         (i32 (Z.of_nat (length lines))))) as Hf.
    destruct (foldM _ _ lines); simpl; [done|done|]. congruence.
Qed.

(** A schema file whose lines all end in a newline is read to its end: a step
    per line is enough, whatever the lines contain. *)
Theorem init_schema_terminates (ls : list string) (schema0 : Catalog) (fuel : nat) :
  Forall (free_of newline) ls -> (length ls <= fuel)%nat ->
  init_schema fuel (unlines ls) schema0 <> Fault OutOfFuel.
Proof.
  unfold init_schema. generalize EmptyString as line. generalize (mkWl ∅ schema0) as w.
  revert ls. induction fuel as [|fuel IH]; intros ls w line Hfree Hfuel;
    (destruct ls as [|l ls]; [by cbn [unlines schema_loop]; rewrite getline_end|]).
  - simpl in Hfuel. lia.
  - apply list.Forall_cons in Hfree as [Hl Hfree]. simpl in Hfuel.
    cbn [schema_loop]. rewrite getline_unlines by done.
    case_bool_decide; [|apply IH; [done|lia]].
    pose proof (parse_table_fuel fuel l ls w Hfree ltac:(lia)) as Ht.
    destruct (parse_table _ _ _ _) as [[[line' fin] w']| |f]; cbn [mbind res_bind];
      [|done|congruence].
    destruct Ht as [->|(ls' & -> & Hlen & Hfree')]; [by destruct fuel|].
    apply IH; [done|lia].
Qed.

Lemma init_schema_terminates_witness :
  init_schema 3 (unlines ["TABLE=T"; "8,string,KEY"; "oops"]%string) (Catalog_init "" 0)
  <> Fault OutOfFuel.
Proof.
  apply init_schema_terminates; [repeat constructor|simpl; lia].
Defined.

Lemma read_lines_stuck (fuel : nat) (line : string) :
  long line -> read_lines fuel line (mkStream EmptyString false) = Fault OutOfFuel.
Proof.
  intros Hl. induction fuel as [|fuel IH]; cbn [read_lines];
    rewrite (proj2 (Nat.ltb_lt _ _)) by done; [done|]. simpl. by rewrite IH.
Qed.

(** When the last column line has no newline behind it, [getline] leaves the
    line as it is and the loop over the columns never ends. *)
Theorem init_schema_diverges (name last : string) (schema0 : Catalog) (fuel : nat) :
  free_of newline name -> free_of newline last -> long last ->
  init_schema fuel (unlines ["TABLE=" +:+ name] +:+ last) schema0 = Fault OutOfFuel.
Proof.
  intros Hname Hlast Hlong. unfold init_schema.
  assert (free_of newline ("TABLE=" +:+ name)) as Ht by (by apply free_of_app).
  assert (forall line, getline (mkStream (unlines ["TABLE=" +:+ name] +:+ last) true) line
    = (true, "TABLE=" +:+ name, mkStream last true)) as Hget.
  { intros line. unfold getline, good, rest. cbn [unlines].
    generalize dependent ("TABLE=" +:+ name). intros t Ht.
    rewrite append_assoc. change (String newline "" +:+ last) with (String newline last).
    by rewrite break_app. }
  destruct fuel as [|fuel]; cbn [schema_loop]; rewrite Hget; [done|].
  rewrite bool_decide_true by (by destruct name).
  unfold parse_table. unfold getline at 1. simpl good. simpl rest. cbn iota. rewrite Hlast.
  by rewrite read_lines_stuck.
Qed.

Lemma init_schema_diverges_witness :
  init_schema 1000 (unlines ["TABLE=T"]%string +:+ "8,string,KEY") (Catalog_init "" 0)
  = Fault OutOfFuel.
Proof.
  apply (init_schema_diverges "T" "8,string,KEY"); [done|done|unfold long; simpl; lia].
Defined.

(** ** What the reader makes of a table *)

(** The line of a column. *)
Definition col_line (c : string * string * string) : string :=
  let '(size, type, name) := c in size +:+ String comma (type +:+ String comma name).

Definition decl_of (c : string * string * string) : decl :=
  let '(size, type, name) := c in mkDecl name (atoi size) type.

(** Fields that contain neither separator, a name, and a size that is not
    negative. *)
Definition col_ok (c : string * string * string) : Prop :=
  let '(size, type, name) := c in
  free_of comma size /\ free_of comma type /\ free_of comma name
  /\ free_of newline (col_line c) /\ name <> EmptyString /\ 0 <= atoi size.

Lemma parse_column_line (schema : Catalog) (c : string * string * string) :
  col_ok c ->
  parse_column schema (col_line c)
  = add_col (d_name (decl_of c)) (u64 (d_size (decl_of c))) (d_type (decl_of c)) schema.
Proof.
  destruct c as [[size type] name]. intros (Hs & Ht & Hn & _ & Hne & _).
  unfold parse_column, col_line, decl_of. cbn [d_name d_size d_type parse_fields].
  rewrite bool_decide_false by (by destruct size). rewrite break_app by done. simpl.
  rewrite bool_decide_false by (by destruct type). rewrite break_app by done. simpl.
  rewrite bool_decide_false by done. rewrite Hn. done.
Qed.

Lemma atoi_range (s : string) : - 2 ^ 31 <= atoi s < 2 ^ 31.
Proof. apply i32_range. Qed.

Lemma parse_columns (cols : list (string * string * string)) (schema : Catalog) :
  Forall col_ok cols ->
  foldM parse_column schema (col_line <$> cols) = add_cols schema (decl_of <$> cols).
Proof.
  intros Hok. revert schema. induction Hok as [|c cols Hc _ IH]; intros schema; [done|].
  simpl. rewrite parse_column_line by done. rewrite u64_id.
  - unfold add_cols. simpl. destruct (add_col _ _ _ schema); simpl; [apply IH|done|done].
  - destruct c as [[size type] name]. destruct Hc as (_ & _ & _ & _ & _ & Hpos). simpl.
    unfold is_u64. pose proof (atoi_range size). lia.
Qed.

Lemma col_line_long (c : string * string * string) : col_ok c -> long (col_line c).
Proof.
  destruct c as [[size type] name]. intros (_ & _ & _ & _ & Hne & _). unfold long, col_line.
  rewrite length_append. simpl. rewrite length_append. simpl. destruct name; [done|]. simpl. lia.
Qed.

Lemma skip_lines (pre : list string) (rest : list string) (line : string) (w : wl) (fuel : nat) :
  Forall (free_of newline) pre ->
  Forall (fun l => String.substring 0 6 l <> "TABLE="%string) pre ->
  exists line', schema_loop (length pre + fuel) line (mkStream (unlines (pre ++ rest)) true) w
                = schema_loop fuel line' (mkStream (unlines rest) true) w.
Proof.
  intros Hfree. revert line. induction Hfree as [|l pre Hl _ IH]; intros line Hno; [by exists line|].
  apply list.Forall_cons in Hno as [Hl' Hno]. cbn [length Nat.add app schema_loop].
  rewrite getline_unlines by done. rewrite bool_decide_false by done. by apply IH.
Qed.

Lemma substring_prefix (a b : string) :
  String.substring (String.length a) (String.length (a +:+ b) - String.length a) (a +:+ b) = b.
Proof.
  rewrite length_append, Nat.add_comm, Nat.add_sub.
  induction a as [|d a IH]; [|exact IH]. change (EmptyString +:+ b) with b. simpl.
  induction b as [|e b IH]; simpl; [done|by rewrite IH].
Qed.

Lemma parse_table_cols (cols : list (string * string * string)) (post : list string)
    (name : string) (w : wl) (fuel : nat) :
  Forall (free_of newline) post -> Forall col_ok cols -> Z.of_nat (length cols) < 2 ^ 31 ->
  (length cols <= fuel)%nat ->
  parse_table fuel ("TABLE=" +:+ name)
    (mkStream (unlines ((col_line <$> cols) ++ EmptyString :: post)) true) w
  = (c ← add_cols (Catalog_init name (Z.of_nat (length cols))) (decl_of <$> cols);
     Ret (EmptyString, mkStream (unlines post) true,
          mkWl (<[name := table_name c]> (names w)) c)).
Proof.
  intros Hpost Hcols Hlen Hfuel. unfold parse_table.
  change 6%nat with (String.length "TABLE="). rewrite substring_prefix.
  assert (forall line, (let '(_, line, fin) := getline (mkStream (unlines ((col_line <$> cols)
      ++ EmptyString :: post)) true) line in read_lines fuel line fin)
    = Ret (col_line <$> cols, EmptyString, mkStream (unlines post) true)) as Hread.
  { intros line. assert (Forall (free_of newline) (col_line <$> cols)) as Hf.
    { apply list.Forall_fmap. eapply list.Forall_impl; [exact Hcols|]. intros [[s t] n].
      by intros (_ & _ & _ & ? & _). }
    destruct cols as [|c cols].
    - simpl fmap. cbn [app]. rewrite getline_unlines by done. by destruct fuel.
    - rewrite fmap_cons in *. cbn [app]. apply list.Forall_cons in Hf as [Hc Hf].
      rewrite getline_unlines by done. simpl in Hfuel. apply read_lines_block.
      + apply list.Forall_app. split; [done|]. by constructor.
      + apply list.Forall_cons in Hcols as [H1 H2]. constructor; [by apply col_line_long|].
        apply list.Forall_fmap. eapply list.Forall_impl; [exact H2|]. apply col_line_long.
      + unfold long. simpl. lia.
      + rewrite length_fmap. lia. }
  specialize (Hread ("TABLE=" +:+ name)).
  destruct (getline _ _) as [[ok line] fin]. rewrite Hread. cbn [mbind res_bind].
  rewrite length_fmap, i32_id by lia. rewrite parse_columns by done. done.
Qed.

(** A file that declares one table gives exactly that table, with the columns
    of its lines laid out in their order; lines before and after the table are
    skipped. *)
Theorem init_schema_table (pre post : list string) (name : string)
    (cols : list (string * string * string)) (schema0 : Catalog) (fuel : nat) :
  let text := unlines (pre ++ ("TABLE=" +:+ name) :: (col_line <$> cols) ++ EmptyString :: post) in
  Forall (free_of newline) (pre ++ post) ->
  Forall (fun l => String.substring 0 6 l <> "TABLE="%string) (pre ++ post) ->
  free_of newline name -> Forall col_ok cols -> Z.of_nat (length cols) < 2 ^ 31 ->
  sizes (decl_of <$> cols) < 2 ^ 32 ->
  (length pre + length cols + length post + 2 <= fuel)%nat ->
  exists w c, init_schema fuel text schema0 = Ret w
    /\ tables w = {[ name := mkTable name c ]} /\ layout c (decl_of <$> cols).
Proof.
  intros text Hfree Hno Hname Hcols Hlen Hsizes Hfuel.
  apply list.Forall_app in Hfree as [Hf1 Hf2]. apply list.Forall_app in Hno as [Hn1 Hn2].
  unfold init_schema, text.
  replace fuel with (length pre + S (length cols + (length post + (fuel - (length pre
    + length cols + length post + 1)))))%nat by lia.
  set (k := (fuel - _)%nat). destruct (skip_lines pre
    (("TABLE=" +:+ name) :: (col_line <$> cols) ++ EmptyString :: post) EmptyString
    (mkWl ∅ schema0) (S (length cols + (length post + k))) Hf1 Hn1) as [line ->].
  cbn [schema_loop]. rewrite getline_unlines by (by apply free_of_app).
  rewrite bool_decide_true by (by destruct name).
  rewrite parse_table_cols by (done || lia).
  destruct (add_cols_layout [] (decl_of <$> cols) (Catalog_init name (Z.of_nat (length cols))))
    as (c & -> & Hl & Hc).
  - by split.
  - simpl. by rewrite length_replicate, length_fmap, Nat2Z.id.
  - simpl. apply list.Forall_fmap. eapply list.Forall_impl; [exact Hcols|]. intros [[s t] n].
    by intros (_ & _ & _ & _ & _ & ?).
  - done.
  - simpl. rewrite length_fmap. lia.
  - cbn [mbind res_bind].
    destruct (skip_lines post [] EmptyString (mkWl (<[name := table_name c]> ∅) c)
      (length cols + k) Hf2 Hn2) as [line' Hend].
    rewrite app_nil_r in Hend.
    replace (length cols + (length post + k))%nat with (length post + (length cols + k))%nat by lia.
    cbn [names]. rewrite Hend. eexists (mkWl _ c), c. split; [by destruct (length cols + k)%nat|].
    split; [|done]. unfold tables. simpl. rewrite Hc. simpl. rewrite insert_empty.
    by rewrite map_fmap_singleton.
Qed.

(** The lines of the schema file of the YCSB workload. *)
Definition ycsb_cols : list (string * string * string) :=
  (fun name => (String (Ascii.ascii_of_nat 9) "8", "string", name)%string)
    <$> ["KEY"; "F1"; "F2"; "F3"; "F4"; "F5"; "F6"; "F7"; "F8"; "VERSION"]%string.

Lemma init_schema_table_witness :
  exists w c, init_schema 20 (unlines (["//size, type, name"]%string
      ++ ("TABLE=" +:+ "MAIN_TABLE") :: (col_line <$> ycsb_cols) ++ EmptyString
      :: ["INDEX=MAIN_INDEX"; "MAIN_TABLE,0"]%string)) (Catalog_init "" 0) = Ret w
    /\ tables w = {[ "MAIN_TABLE"%string := mkTable "MAIN_TABLE" c ]}
    /\ layout c (decl_of <$> ycsb_cols).
Proof.
  apply init_schema_table; [repeat constructor|repeat constructor; discriminate|done| | | |].
  - repeat constructor; discriminate.
  - simpl. lia.
  - vm_compute. reflexivity.
  - simpl. lia.
Defined.

(** All tables of a file share one [Catalog]: the columns of a later table
    replace those of the tables read before it. *)
Theorem init_schema_shares_catalog (schema0 : Catalog) :
  exists w a b, init_schema 10 (unlines ["TABLE=A"; "8,int64_t,X"; "20,string,Y"; "";
                                         "TABLE=B"; "4,int64_t,Z"; ""]%string) schema0 = Ret w
    /\ tables w !! "A"%string = Some a /\ tables w !! "B"%string = Some b
    /\ schema a = schema b /\ tuple_size (schema a) = 4 /\ field_cnt (schema a) = 1.
Proof. eexists _, _, _. split; [reflexivity|]. split; [reflexivity|]. by split. Qed.
