(* ===== verification/FileIO.v ===== *)
(** * db2: files and the page store ([common/storage/disk])

    The POSIX calls the engine makes ([open], [pread], [pwrite], [close]) over
    a table of files and a table of descriptors, the classes [FileIO] and
    [MemoryIO] on top of them, and the interface [Disk] through which the
    buffer pool uses either. *)

From stdpp Require Import sorting.
From S2P Require Import Prelude Config.

(** ** Files and descriptors *)

(** The contents of the files, the open descriptors (each names its file) and
    the limit on descriptors of the process. *)
Record OS := mkOS {
  files : gmap string bytes;
  descs : gmap Z string;
  fd_limit : Z;
}.

(** POSIX hands out the lowest descriptor that is not open. *)
Definition fresh_fd (m : gmap Z string) : Z :=
  match find (fun n => negb (bool_decide (is_Some (m !! Z.of_nat n)))) (seq 0 (S (size m))) with
  | Some n => Z.of_nat n
  | None => Z.of_nat (size m)
  end.

(** [open(path, O_RDWR | O_CREAT, 0644)]: the file is created when absent;
    [-1] when the descriptors are used up. *)
Definition open_ (path : string) (o : OS) : Z * OS :=
  let fd := fresh_fd (descs o) in
  if fd_limit o <=? fd then (-1, o)
  else (fd, {| files := <[path := default [] (files o !! path)]> (files o);
               descs := <[fd := path]> (descs o);
               fd_limit := fd_limit o |}).

Definition close_ (fd : Z) (o : OS) : Z * OS :=
  match descs o !! fd with
  | None => (-1, o)
  | Some _ => (0, {| files := files o; descs := delete fd (descs o); fd_limit := fd_limit o |})
  end.

(** A write past the end of the file fills the gap with zeros. *)
Definition write_at (off : nat) (src content : bytes) : bytes :=
  splice off src (content ++ replicate (off + length src - length content) Byte.x00).

(** [pwrite(fd, buf, size, offset)] on a regular file. *)
Definition pwrite_ (fd : Z) (buf : bytes) (size offset : Z) (o : OS) : res (Z * OS) :=
  match descs o !! fd with
  | None => Ret (-1, o)
  | Some path =>
      if size <=? Z.of_nat (length buf) then
        Ret (size, {| files := <[path := write_at (Z.to_nat offset) (take (Z.to_nat size) buf)
                                           (default [] (files o !! path))]> (files o);
                      descs := descs o; fd_limit := fd_limit o |})
      else Fault OutOfBounds
  end.

(** [pread(fd, buf, size, offset)] on a regular file: the bytes up to the end
    of the file replace the front of [buf]. *)
Definition pread_ (fd : Z) (buf : bytes) (size offset : Z) (o : OS) : res (Z * bytes) :=
  match descs o !! fd with
  | None => Ret (-1, buf)
  | Some path =>
      if size <=? Z.of_nat (length buf) then
        let got := slice (Z.to_nat offset) (Z.to_nat size) (default [] (files o !! path)) in
        Ret (Z.of_nat (length got), got ++ drop (length got) buf)
      else Fault OutOfBounds
  end.

(** ** FileIO *)

(** The static members of [FileIO] and the process it runs in.
    [src/common/storage/disk/file_io.h:11-22 FileIO] *)
Record FileIO := mkFileIO {
  opened_file_ : gmap string Z;
  os : OS;
}.

(** [src/common/storage/disk/file_io.cpp:16-23 FileIO::Open] *)
Definition Open (path : string) (s : FileIO) : res (Z * FileIO) :=
  let '(fd, o) := open_ path (os s) in
  assert! 0 <? fd;
  Ret (fd, {| opened_file_ := match opened_file_ s !! path with
                              | None => <[path := fd]> (opened_file_ s)
                              | Some _ => opened_file_ s
                              end;
              os := o |}).

(** [src/common/storage/disk/file_io.cpp:24-26 FileIO::Write] *)
Definition Write (fd : Z) (buf : bytes) (size offset : Z) (s : FileIO) : res (Z * FileIO) :=
  '(r, o) ← pwrite_ fd buf size offset (os s);
  Ret (u64 r, {| opened_file_ := opened_file_ s; os := o |}).

(** [src/common/storage/disk/file_io.cpp:28-30 FileIO::Read] *)
Definition Read (fd : Z) (buf : bytes) (size offset : Z) (s : FileIO) : res (Z * bytes) :=
  '(r, b) ← pread_ fd buf size offset (os s);
  Ret (u64 r, b).

(** The path of the file that holds a page.
    [src/common/storage/disk/file_io.cpp:33-36 path] *)
Definition page_path (page_id : Z) : string :=
  DB_PREFIX +:+ pretty (Z.to_N (page_id / ITEM_NUM_PER_FILE)) +:+ DB_SUFIX.

(** The descriptor of a page's file, from [opened_file_] or newly opened.
    [src/common/storage/disk/file_io.cpp:37-44 fd] *)
Definition page_fd (page_id : Z) (s : FileIO) : res (Z * FileIO) :=
  '(fd, s) ← match opened_file_ s !! page_path page_id with
             | Some fd => Ret (fd, s)
             | None => Open (page_path page_id) s
             end;
  assert! 0 <? fd;
  Ret (fd, s).

(** [src/common/storage/disk/file_io.cpp:32-46 FileIO::WritePage] *)
Definition WritePage (page_id : Z) (page_buf : bytes) (s : FileIO) : res (Z * FileIO) :=
  '(fd, s) ← page_fd page_id s;
  '(r, o) ← pwrite_ fd page_buf MY_PAGE_SIZE
              (page_id `mod` ITEM_NUM_PER_FILE * MY_PAGE_SIZE) (os s);
  Ret (u64 r, {| opened_file_ := opened_file_ s; os := o |}).

(** [src/common/storage/disk/file_io.cpp:48-62 FileIO::ReadPage] *)
Definition ReadPage (page_id : Z) (page_buf : bytes) (s : FileIO) : res (Z * bytes * FileIO) :=
  '(fd, s) ← page_fd page_id s;
  '(r, b) ← pread_ fd page_buf MY_PAGE_SIZE
              (page_id `mod` ITEM_NUM_PER_FILE * MY_PAGE_SIZE) (os s);
  Ret (u64 r, b, s).

(** The order in which [std::map] iterates. *)
Definition path_le (p q : string * Z) : Prop := String.leb p.1 q.1 = true.

#[export] Instance path_le_dec : RelDecision path_le.
Proof. intros p q. unfold path_le. solve_decision. Defined.

Definition map_order (m : gmap string Z) : list (string * Z) :=
  merge_sort path_le (map_to_list m).

(** The entry the loop stands on is erased, so the increment that follows uses
    an invalid iterator.
    [src/common/storage/disk/file_io.cpp:64-74 FileIO::Close] *)
Definition Close (s : FileIO) : res (Z * FileIO) :=
  match map_order (opened_file_ s) with
  | [] => Ret (0, s)
  | (_, fd) :: _ =>
      let '(r, o) := close_ fd (os s) in
      if r <? 0 then Ret (r, {| opened_file_ := opened_file_ s; os := o |})
      else Fault UseAfterFree
  end.

(** The entry of a matching descriptor is erased while the loop stands on it.
    [src/common/storage/disk/file_io.cpp:76-84 FileIO::Close] *)
Definition Close_fd (fd : Z) (s : FileIO) : res (Z * FileIO) :=
  let '(r, o) := close_ fd (os s) in
  if existsb (fun e => e.2 =? fd) (map_order (opened_file_ s))
  then Fault UseAfterFree
  else Ret (r, {| opened_file_ := opened_file_ s; os := o |}).

(** ** MemoryIO *)

(** [src/common/storage/disk/memory_io.h:10-14 MemoryIO] *)
Record MemoryIO := mkMemoryIO { db_ : gmap Z bytes }.

(** [src/common/storage/disk/memory_io.cpp:12-19 MemoryIO::Write] *)
Definition MemWrite (page_id : Z) (page_buf : bytes) (s : MemoryIO) : res (Z * MemoryIO) :=
  if MY_PAGE_SIZE <=? Z.of_nat (length page_buf)
  then Ret (0, {| db_ := <[page_id := take (Z.to_nat MY_PAGE_SIZE) page_buf]> (delete page_id (db_ s)) |})
  else Fault OutOfBounds.

(** [src/common/storage/disk/memory_io.cpp:21-27 MemoryIO::Read] *)
Definition MemRead (page_id : Z) (page_buf : bytes) (s : MemoryIO) : res (Z * bytes * MemoryIO) :=
  match db_ s !! page_id with
  | None => Ret (-1, page_buf, s)
  | Some content =>
      b ← memcpy page_buf 0 content 0 MY_PAGE_SIZE;
      Ret (0, b, s)
  end.

(** ** The interface of a page store *)

(** What the buffer pool calls. *)
Class Disk (D : Type) := {
  disk_write : Z -> bytes -> D -> res (Z * D);
  disk_read : Z -> bytes -> D -> res (Z * bytes * D);
}.

(** What it may rely on: [disk_page d id] is the content of page [id], absent
    when nothing was ever stored there.  A write replaces that page and keeps
    every other page that is present; a read delivers the page, or leaves the
    buffer as it is, and changes no page. *)
Class DiskSpec (D : Type) `{Disk D} := {
  disk_wf : D -> Prop;
  disk_valid : Z -> Prop;
  disk_page : D -> Z -> option bytes;
  disk_page_length : forall d id b, disk_page d id = Some b ->
    Z.of_nat (length b) = MY_PAGE_SIZE;
  disk_write_spec : forall d id buf,
    disk_wf d -> disk_valid id -> Z.of_nat (length buf) = MY_PAGE_SIZE ->
    exists r d', disk_write id buf d = Ret (r, d')
      /\ disk_wf d'
      /\ disk_page d' id = Some buf
      /\ forall id' b, disk_valid id' -> id' <> id ->
           disk_page d id' = Some b -> disk_page d' id' = Some b;
  disk_read_spec : forall d id buf,
    disk_wf d -> disk_valid id -> Z.of_nat (length buf) = MY_PAGE_SIZE ->
    exists r d', disk_read id buf d = Ret (r, default buf (disk_page d id), d')
      /\ disk_wf d'
      /\ forall id', disk_page d' id' = disk_page d id';
}.

(** ** Descriptors *)

Lemma fresh_fd_spec (m : gmap Z string) :
  m !! fresh_fd m = None /\ 0 <= fresh_fd m <= Z.of_nat (size m).
Proof.
  unfold fresh_fd. case_match eqn:E.
  - apply List.find_some in E as [Hin Hb]. apply in_seq in Hin.
    apply negb_true_iff, bool_decide_eq_false in Hb.
    split; [by apply eq_None_not_Some|lia].
  - exfalso.
    assert (list_to_set (Z.of_nat <$> seq 0 (S (size m))) ⊆ dom m) as Hsub.
    { intros z. rewrite elem_of_list_to_set, list_elem_of_fmap.
      intros (n & -> & Hn). apply elem_of_dom.
      pose proof (List.find_none _ _ E n) as Hnone.
      rewrite negb_false_iff, bool_decide_eq_true in Hnone.
      apply Hnone. by apply list_elem_of_In. }
    apply subseteq_size in Hsub. rewrite size_dom, size_list_to_set in Hsub.
    + rewrite length_fmap, length_seq in Hsub. lia.
    + apply NoDup_fmap; [apply _|]. apply NoDup_ListNoDup, seq_NoDup.
Qed.

(** There is a free descriptor other than standard input. *)
Definition can_open (o : OS) : Prop :=
  is_Some (descs o !! 0) /\ Z.of_nat (size (descs o)) < fd_limit o.

(** Opening a file gives a new descriptor for it and changes no content. *)
Lemma Open_spec (path : string) (s : FileIO) :
  can_open (os s) ->
  exists fd s', Open path s = Ret (fd, s')
    /\ 0 < fd /\ descs (os s) !! fd = None
    /\ descs (os s') = <[fd := path]> (descs (os s)) /\ fd_limit (os s') = fd_limit (os s)
    /\ (forall p, default [] (files (os s') !! p) = default [] (files (os s) !! p))
    /\ opened_file_ s' = match opened_file_ s !! path with
                         | None => <[path := fd]> (opened_file_ s)
                         | Some _ => opened_file_ s
                         end.
Proof.
  intros [[x Hx] Hroom]. destruct (fresh_fd_spec (descs (os s))) as [Hfresh Hb].
  assert (fresh_fd (descs (os s)) <> 0) by congruence.
  unfold Open, open_. destruct (Z.leb_spec (fd_limit (os s)) (fresh_fd (descs (os s)))); [lia|].
  guard_true. eexists _, _. split; [done|]. simpl. repeat split; try done; [lia|].
  intros p. destruct (decide (path = p)) as [<-|];
    [by rewrite lookup_insert_eq|by rewrite lookup_insert_ne].
Qed.

(** ** Writing at an offset of a file *)

Lemma length_write_at (off : nat) (src content : bytes) :
  length (write_at off src content) = Nat.max (length content) (off + length src).
Proof.
  unfold write_at.
  rewrite length_splice; rewrite length_app, length_replicate; lia.
Qed.

Lemma slice_write_at_same (off : nat) (src content : bytes) :
  slice off (length src) (write_at off src content) = src.
Proof.
  unfold write_at. apply slice_splice_same. rewrite length_app, length_replicate. lia.
Qed.

Lemma slice_write_at_disjoint (off n off' : nat) (src content : bytes) :
  (off + n <= length content)%nat ->
  (off + n <= off' \/ off' + length src <= off)%nat ->
  slice off n (write_at off' src content) = slice off n content.
Proof.
  intros Hlen Hd. unfold write_at.
  rewrite slice_splice_disjoint; [|rewrite length_app, length_replicate; lia|done].
  unfold slice. rewrite drop_app_le by lia. rewrite take_app_le; [done|].
  rewrite length_drop. lia.
Qed.

(** ** FileIO implements the page store *)

Lemma size_list_to_set_le (l : list string) :
  (size (list_to_set l : gset string) <= length l)%nat.
Proof.
  induction l as [|x l IH]; [done|]. rewrite list_to_set_cons; simpl length.
  rewrite size_union_alt, size_singleton.
  assert (size (list_to_set l ∖ {[x]} : gset string) <= size (list_to_set l : gset string))%nat
    by (apply subseteq_size; set_solver).
  lia.
Qed.

Lemma append_inv_tail (s t u : string) : s +:+ u = t +:+ u -> s = t.
Proof.
  revert t. induction s as [|a s IH]; intros [|b t] H; [done| | |].
  1,2: apply (f_equal String.length) in H; rewrite !length_append in H; simpl in H; lia.
  injection H as -> H. by rewrite (IH t H).
Qed.

(** Pages of different files are in different files. *)
Lemma page_path_inj (id id' : Z) :
  0 <= id -> 0 <= id' -> page_path id = page_path id' ->
  id / ITEM_NUM_PER_FILE = id' / ITEM_NUM_PER_FILE.
Proof.
  intros H H' Heq. unfold page_path in Heq.
  apply (inj (String.append DB_PREFIX)) in Heq.
  apply append_inv_tail in Heq. apply (inj pretty) in Heq.
  rewrite ITEM_NUM_PER_FILE_eq in *.
  pose proof (Z.div_pos id 102400). pose proof (Z.div_pos id' 102400). lia.
Qed.

Section FileDisk.
(** The number of files the page ids in use spread over. *)
Context (nfiles : nat).

Definition file_valid (id : Z) : Prop := 0 <= id < Z.of_nat nfiles * ITEM_NUM_PER_FILE.

Definition valid_paths : gset string :=
  list_to_set ((fun n => page_path (Z.of_nat n * ITEM_NUM_PER_FILE)) <$> seq 0 nfiles).

Definition content (s : FileIO) (id : Z) : bytes := default [] (files (os s) !! page_path id).

Definition page_off (id : Z) : nat := Z.to_nat (id `mod` ITEM_NUM_PER_FILE * MY_PAGE_SIZE).

(** The page as it lies in its file. *)
Definition file_page (s : FileIO) (id : Z) : option bytes :=
  let c := content s id in
  if decide (page_off id + Z.to_nat MY_PAGE_SIZE <= length c)%nat
  then Some (slice (page_off id) (Z.to_nat MY_PAGE_SIZE) c) else None.

(** Standard input is open, an opened file has its own live descriptor, there
    are descriptors left for the files not opened yet, and files hold whole
    pages. *)
Record file_wf (s : FileIO) : Prop := mk_file_wf {
  wf_stdin : is_Some (descs (os s) !! 0);
  wf_opened : forall p fd, opened_file_ s !! p = Some fd ->
    0 < fd /\ descs (os s) !! fd = Some p;
  wf_paths : dom (opened_file_ s) ⊆ valid_paths;
  wf_limit : Z.of_nat (size (descs (os s))) + Z.of_nat nfiles
             <= fd_limit (os s) + Z.of_nat (size (opened_file_ s));
  wf_whole : forall id, file_valid id ->
    (Z.to_nat MY_PAGE_SIZE | length (content s id))%nat;
}.

Lemma page_path_canon (id : Z) :
  0 <= id -> page_path id = page_path (id / ITEM_NUM_PER_FILE * ITEM_NUM_PER_FILE).
Proof.
  intros. unfold page_path. rewrite Z.div_mul; [done|]. rewrite ITEM_NUM_PER_FILE_eq. lia.
Qed.

Lemma page_path_valid (id : Z) : file_valid id -> page_path id ∈ valid_paths.
Proof.
  intros [H0 H1]. unfold valid_paths. apply elem_of_list_to_set, list_elem_of_fmap.
  exists (Z.to_nat (id / ITEM_NUM_PER_FILE)). rewrite ITEM_NUM_PER_FILE_eq in *.
  pose proof (Z.div_pos id 102400). pose proof (Z.div_lt_upper_bound id 102400 (Z.of_nat nfiles)).
  split.
  - rewrite Z2Nat.id by lia. rewrite page_path_canon at 1 by lia.
    by rewrite ITEM_NUM_PER_FILE_eq.
  - apply elem_of_seq. lia.
Qed.

(** A file not opened yet leaves room for one more descriptor. *)
Lemma unopened_room (s : FileIO) (id : Z) :
  file_wf s -> file_valid id -> opened_file_ s !! page_path id = None ->
  Z.of_nat (size (descs (os s))) < fd_limit (os s).
Proof.
  intros Hwf Hid Hnone. pose proof (wf_limit s Hwf).
  assert ({[page_path id]} ∪ dom (opened_file_ s) ⊆ valid_paths) as Hsub.
  { apply union_subseteq. split; [|apply Hwf].
    apply singleton_subseteq_l, page_path_valid, Hid. }
  apply subseteq_size in Hsub.
  rewrite size_union, size_singleton, size_dom in Hsub.
  2: { apply disjoint_singleton_l. by rewrite not_elem_of_dom. }
  assert (size valid_paths <= nfiles)%nat; [|lia].
  unfold valid_paths. etrans; [apply size_list_to_set_le|].
  by rewrite length_fmap, length_seq.
Qed.

(** Finding the descriptor of a page changes no page and leaves the file open. *)
Lemma page_fd_spec (s : FileIO) (id : Z) :
  file_wf s -> file_valid id ->
  exists fd s', page_fd id s = Ret (fd, s')
    /\ file_wf s' /\ descs (os s') !! fd = Some (page_path id)
    /\ forall id', content s' id' = content s id'.
Proof.
  intros Hwf Hid. unfold page_fd.
  destruct (opened_file_ s !! page_path id) as [fd|] eqn:Hop.
  { destruct (wf_opened s Hwf _ _ Hop) as [Hpos Hd]. exists fd, s. simpl.
    guard_true. done. }
  destruct (Open_spec (page_path id) s) as (fd & s' & -> & Hpos & Hfree & Hd & Hlim & Hc & Hop').
  { split; [apply Hwf|by apply (unopened_room s id)]. }
  rewrite Hop in Hop'. cbn [mbind res_bind]. guard_true.
  exists fd, s'. split; [done|]. split; [|split; [by rewrite Hd, lookup_insert_eq|intros; apply Hc]].
  split.
  - rewrite Hd. destruct (wf_stdin s Hwf) as [x Hx].
    rewrite lookup_insert_ne by congruence. eauto.
  - intros p fd'. rewrite Hop', Hd.
    intros [[<- <-]|[Hne H']]%lookup_insert_Some; [by rewrite lookup_insert_eq|].
    destruct (wf_opened s Hwf _ _ H') as [? Hd']. split; [done|].
    rewrite lookup_insert_ne; congruence.
  - rewrite Hop', dom_insert. apply union_subseteq. split; [|apply Hwf].
    by apply singleton_subseteq_l, page_path_valid.
  - rewrite Hop', Hd, Hlim, !map_size_insert_None by done. pose proof (wf_limit s Hwf). lia.
  - intros id' Hid'. unfold content. rewrite Hc. by apply (wf_whole s Hwf).
Qed.

Lemma PAGE_nat : Z.to_nat MY_PAGE_SIZE = Z.to_nat 16384.
Proof. by rewrite MY_PAGE_SIZE_eq. Qed.

(** Two pages of the same file do not overlap. *)
Lemma page_off_disjoint (id id' : Z) :
  0 <= id -> 0 <= id' -> id <> id' -> page_path id = page_path id' ->
  (page_off id + Z.to_nat MY_PAGE_SIZE <= page_off id'
   \/ page_off id' + Z.to_nat MY_PAGE_SIZE <= page_off id)%nat.
Proof.
  intros H H' Hne Hp. apply page_path_inj in Hp; [|done..]. unfold page_off.
  rewrite MY_PAGE_SIZE_eq. rewrite ITEM_NUM_PER_FILE_eq in *.
  pose proof (Z.div_mod id 102400). pose proof (Z.div_mod id' 102400).
  pose proof (Z.mod_pos_bound id 102400). pose proof (Z.mod_pos_bound id' 102400).
  lia.
Qed.

(** In a file of whole pages a page is there entirely or not at all. *)
Lemma page_whole (s : FileIO) (id : Z) :
  file_wf s -> file_valid id ->
  (page_off id + Z.to_nat MY_PAGE_SIZE <= length (content s id))%nat
  \/ (length (content s id) <= page_off id)%nat.
Proof.
  intros Hwf Hid. destruct (wf_whole s Hwf id Hid) as [k Hk]. rewrite Hk.
  unfold page_off. rewrite ITEM_NUM_PER_FILE_eq in *. rewrite MY_PAGE_SIZE_eq in *.
  pose proof (Z.mod_pos_bound id 102400). nia.
Qed.

Lemma write_at_whole (id : Z) (c buf : bytes) :
  0 <= id -> length buf = Z.to_nat MY_PAGE_SIZE ->
  (Z.to_nat MY_PAGE_SIZE | length c)%nat ->
  (Z.to_nat MY_PAGE_SIZE | length (write_at (page_off id) buf c))%nat.
Proof.
  intros Hid Hbuf [k Hk]. rewrite length_write_at, Hbuf, Hk. unfold page_off.
  rewrite ITEM_NUM_PER_FILE_eq, MY_PAGE_SIZE_eq.
  exists (Nat.max k (Z.to_nat (id `mod` 102400) + 1))%nat.
  pose proof (Z.mod_pos_bound id 102400). nia.
Qed.

Lemma file_write_spec (s : FileIO) (id : Z) (buf : bytes) :
  file_wf s -> file_valid id -> Z.of_nat (length buf) = MY_PAGE_SIZE ->
  exists s', WritePage id buf s = Ret (MY_PAGE_SIZE, s')
    /\ file_wf s'
    /\ file_page s' id = Some buf
    /\ forall id' b, file_valid id' -> id' <> id ->
         file_page s id' = Some b -> file_page s' id' = Some b.
Proof.
  intros Hwf Hid Hlen. unfold WritePage.
  destruct (page_fd_spec s id Hwf Hid) as (fd & s1 & -> & Hwf1 & Hd & Hc).
  cbn [mbind res_bind]. unfold pwrite_. rewrite Hd. guard_true. cbn [mbind res_bind].
  assert (length buf = Z.to_nat MY_PAGE_SIZE) as Hn by lia.
  rewrite <- Hn, firstn_all. rewrite u64_id by (rewrite MY_PAGE_SIZE_eq; unfold is_u64; lia).
  fold (content s1 id). fold (page_off id).
  match goal with |- context [Ret (MY_PAGE_SIZE, ?s)] => set (s2 := s) end.
  assert (forall id', content s2 id' = if decide (page_path id = page_path id')
     then write_at (page_off id) buf (content s1 id) else content s1 id') as Hlk.
  { intros id'. unfold content at 1. simpl. case_decide as Hp; [|by rewrite lookup_insert_ne].
    rewrite Hp. by rewrite lookup_insert_eq. }
  exists s2. split; [done|]. unfold file_page. split; [|split].
  - destruct Hwf1 as [H1 H2 H3 H4 H5]. split; simpl; [done..|].
    intros id' Hid'. rewrite Hlk. case_decide as Hp; [|exact (H5 id' Hid')].
    apply write_at_whole; [apply Hid|done|exact (H5 id Hid)].
  - rewrite (Hlk id). destruct (decide (page_path id = page_path id)); [|done].
    rewrite decide_True by (rewrite length_write_at; lia).
    rewrite <- Hn. by rewrite slice_write_at_same.
  - intros id' b Hid' Hne. rewrite <- (Hc id'), (Hlk id').
    destruct (decide (page_path id = page_path id')) as [Hp|]; [|done].
    assert (content s1 id = content s1 id') as -> by (unfold content; by rewrite Hp).
    destruct (decide (_ <= length (content s1 id'))%nat) as [Hin|]; [|done]. intros [= <-].
    destruct (page_off_disjoint id id') as [?|?]; try apply Hid; try apply Hid'; try done.
    all: rewrite decide_True by (rewrite length_write_at; lia).
    all: by rewrite slice_write_at_disjoint by lia.
Qed.

Lemma file_read_spec (s : FileIO) (id : Z) (buf : bytes) :
  file_wf s -> file_valid id -> Z.of_nat (length buf) = MY_PAGE_SIZE ->
  exists s', ReadPage id buf s
      = Ret (match file_page s id with Some _ => MY_PAGE_SIZE | None => 0 end,
             default buf (file_page s id), s')
    /\ file_wf s'
    /\ forall id', file_page s' id' = file_page s id'.
Proof.
  intros Hwf Hid Hlen. unfold ReadPage.
  destruct (page_fd_spec s id Hwf Hid) as (fd & s1 & -> & Hwf1 & Hd & Hc).
  cbn [mbind res_bind]. unfold pread_. rewrite Hd. guard_true. cbn [mbind res_bind].
  fold (content s1 id). fold (page_off id). rewrite Hc.
  assert (forall id', file_page s1 id' = file_page s id') as Hpg
    by (intros id'; unfold file_page; by rewrite Hc).
  exists s1. split; [|done]. unfold file_page.
  destruct (page_whole s id Hwf Hid) as [Hin|Hout].
  - rewrite decide_True by done. simpl.
    rewrite length_slice by done. rewrite drop_ge by lia. rewrite app_nil_r.
    rewrite Z2Nat.id by (rewrite MY_PAGE_SIZE_eq; lia).
    by rewrite u64_id by (rewrite MY_PAGE_SIZE_eq; unfold is_u64; lia).
  - rewrite decide_False by (rewrite MY_PAGE_SIZE_eq in *; lia). simpl.
    assert (slice (page_off id) (Z.to_nat MY_PAGE_SIZE) (content s id) = []) as ->.
    { unfold slice. rewrite drop_ge by done. apply take_nil. }
    done.
Qed.
End FileDisk.

(** ** Instances *)

#[export] Instance FileIO_Disk : Disk FileIO := {
  disk_write := WritePage;
  disk_read := ReadPage;
}.

#[export] Instance MemoryIO_Disk : Disk MemoryIO := {
  disk_write := MemWrite;
  disk_read := MemRead;
}.

#[export] Instance FileIO_DiskSpec (nfiles : nat) : DiskSpec FileIO.
Proof.
  refine {| disk_wf := file_wf nfiles; disk_valid := file_valid nfiles;
            disk_page := file_page |}.
  - intros d id b. unfold file_page. case_decide as Hin; [|done]. intros [= <-].
    rewrite length_slice by done. rewrite MY_PAGE_SIZE_eq. lia.
  - intros d id buf Hwf Hid Hlen.
    destruct (file_write_spec nfiles d id buf Hwf Hid Hlen) as (d' & H). eauto.
  - intros d id buf Hwf Hid Hlen.
    destruct (file_read_spec nfiles d id buf Hwf Hid Hlen) as (d' & H). eauto.
Defined.

(** Every page held in memory is a whole page. *)
Definition mem_wf (d : MemoryIO) : Prop :=
  forall id b, db_ d !! id = Some b -> Z.of_nat (length b) = MY_PAGE_SIZE.

#[export] Instance MemoryIO_DiskSpec : DiskSpec MemoryIO.
Proof.
  refine {| disk_wf := mem_wf; disk_valid := fun _ => True;
            disk_page := fun d id => b ← db_ d !! id;
                           if decide (Z.of_nat (length b) = MY_PAGE_SIZE) then Some b else None |}.
  - intros d id b. destruct (db_ d !! id); simpl; [|done]. case_decide; naive_solver.
  - intros d id buf Hwf _ Hlen. simpl. unfold MemWrite. guard_true.
    assert (take (Z.to_nat MY_PAGE_SIZE) buf = buf) as -> by (apply take_ge; lia).
    eexists _, _. split; [done|]. simpl. rewrite insert_delete_eq. split; [|split].
    + intros id' b. simpl. intros [[_ <-]|[_ H]]%lookup_insert_Some; [done|by apply (Hwf id')].
    + rewrite lookup_insert_eq. simpl. by rewrite decide_True.
    + intros id' b _ Hne. by rewrite lookup_insert_ne.
  - intros d id buf Hwf _ Hlen. simpl. unfold MemRead.
    destruct (db_ d !! id) as [c|] eqn:Hc; simpl; [|eauto].
    pose proof (Hwf _ _ Hc). rewrite decide_True by done. simpl.
    rewrite memcpy_Ret by lia. simpl. rewrite slice_all' by lia.
    rewrite splice_all by lia. eauto.
Defined.

(** A page that was written is what a later read of it delivers, and writing it
    leaves every other stored page as it was. *)
Theorem file_write_read (nfiles : nat) (s : FileIO) (id id' : Z) (page buf other : bytes) :
  file_wf nfiles s -> file_valid nfiles id -> file_valid nfiles id' -> id' <> id ->
  Z.of_nat (length page) = MY_PAGE_SIZE -> Z.of_nat (length buf) = MY_PAGE_SIZE ->
  file_page s id' = Some other ->
  exists s1, WritePage id page s = Ret (MY_PAGE_SIZE, s1) /\ file_wf nfiles s1
    /\ (exists r s2, ReadPage id buf s1 = Ret (r, page, s2))
    /\ (exists r s2, ReadPage id' buf s1 = Ret (r, other, s2)).
Proof.
  intros Hwf Hid Hid' Hne Hp Hb Ho.
  destruct (file_write_spec nfiles s id page Hwf Hid Hp) as (s1 & Hw & Hwf1 & Hsame & Hother).
  exists s1. split; [done|]. split; [done|]. split.
  - destruct (file_read_spec nfiles s1 id buf Hwf1 Hid Hb) as (s2 & Hr & _).
    rewrite Hsame in Hr. eauto.
  - destruct (file_read_spec nfiles s1 id' buf Hwf1 Hid' Hb) as (s2 & Hr & _).
    rewrite (Hother _ _ Hid' Hne Ho) in Hr. eauto.
Qed.

(** A process with its three standard descriptors and one file of one page. *)
Definition file_example : FileIO :=
  {| opened_file_ := ∅;
     os := {| files := {[ page_path 0 := replicate (Z.to_nat MY_PAGE_SIZE) Byte.x41 ]};
              descs := {[ 0 := "stdin"%string; 1 := "stdout"%string; 2 := "stderr"%string ]};
              fd_limit := 1024 |} |}.

Lemma file_example_wf : file_wf 1 file_example.
Proof.
  split; simpl.
  - eexists. apply lookup_insert_eq.
  - intros p fd H. by rewrite lookup_empty in H.
  - rewrite dom_empty_L. apply empty_subseteq.
  - rewrite map_size_empty. change (size _) with 3%nat. lia.
  - intros id [H0 H1]. unfold content. simpl.
    assert (page_path id = page_path 0) as ->.
    { unfold page_path. by rewrite !Z.div_small by (rewrite ITEM_NUM_PER_FILE_eq in *; lia). }
    rewrite lookup_singleton_eq. simpl. rewrite length_replicate. exists 1%nat. lia.
Qed.

Lemma file_write_read_witness :
  exists s1, WritePage 1 (replicate (Z.to_nat MY_PAGE_SIZE) Byte.x42) file_example
             = Ret (MY_PAGE_SIZE, s1)
    /\ exists r s2, ReadPage 1 (replicate (Z.to_nat MY_PAGE_SIZE) Byte.x00) s1
                    = Ret (r, replicate (Z.to_nat MY_PAGE_SIZE) Byte.x42, s2).
Proof.
  destruct (file_write_read 1 file_example 1 0 (replicate (Z.to_nat MY_PAGE_SIZE) Byte.x42)
    (replicate (Z.to_nat MY_PAGE_SIZE) Byte.x00) (replicate (Z.to_nat MY_PAGE_SIZE) Byte.x41)
    file_example_wf) as (s1 & Hw & _ & Hr & _).
  - unfold file_valid. rewrite ITEM_NUM_PER_FILE_eq. lia.
  - unfold file_valid. rewrite ITEM_NUM_PER_FILE_eq. lia.
  - lia.
  - rewrite length_replicate, MY_PAGE_SIZE_eq. lia.
  - rewrite length_replicate, MY_PAGE_SIZE_eq. lia.
  - vm_compute. reflexivity.
  - exists s1. split; [exact Hw|exact Hr].
Defined.

(** Closing the files while any is open runs the loop over an erased entry:
    after the first successful [close] the iterator is invalid. *)
Theorem file_close_invalid_iterator (nfiles : nat) (s : FileIO) :
  file_wf nfiles s -> opened_file_ s <> ∅ -> Close s = Fault UseAfterFree.
Proof.
  intros Hwf Hne. unfold Close.
  destruct (map_order (opened_file_ s)) as [|[p fd] l] eqn:E.
  - exfalso. apply Hne. apply map_to_list_empty_iff, Permutation_nil_r.
    rewrite <- (merge_sort_Permutation path_le). unfold map_order in E. by rewrite E.
  - assert ((p, fd) ∈ map_to_list (opened_file_ s)) as Hin.
    { rewrite <- (merge_sort_Permutation path_le). unfold map_order in E. rewrite E. left. }
    apply elem_of_map_to_list in Hin. destruct (wf_opened _ s Hwf _ _ Hin) as [_ Hd].
    unfold close_. by rewrite Hd.
Qed.

Definition file_example_opened : FileIO :=
  {| opened_file_ := {[ page_path 0 := 3 ]};
     os := {| files := ∅;
              descs := <[3 := page_path 0]> (descs (os file_example));
              fd_limit := 1024 |} |}.

Lemma file_close_invalid_iterator_witness :
  file_wf 1 file_example_opened /\ Close file_example_opened = Fault UseAfterFree.
Proof.
  assert (file_wf 1 file_example_opened) as Hwf.
  { split; simpl.
    - by eexists.
    - intros p fd [<- <-]%lookup_singleton_Some. split; [lia|apply lookup_insert_eq].
    - rewrite dom_singleton_L. apply singleton_subseteq_l, (page_path_valid 1 0).
      unfold file_valid. rewrite ITEM_NUM_PER_FILE_eq. lia.
    - rewrite map_size_singleton. change (size _) with 4%nat. lia.
    - intros id _. unfold content. simpl. rewrite lookup_empty. simpl. exists 0%nat. lia. }
  split; [exact Hwf|]. apply (file_close_invalid_iterator 1 _ Hwf).
  simpl. apply map_non_empty_singleton.
Defined.
