(* ===== verification/SharedDisk.v ===== *)
(** * db2: the shared disk ([shared_disk/brpc])

    The instances and the lock service reach the database files through a
    server process, which runs [FileIO] on behalf of its clients.  The handlers
    of [SharedDiskServer] and the methods of [SharedDiskClient] are modelled
    with the messages between them; the RPC library delivers a call or reports
    that it failed.  The client is shown to be a [Disk] on which the buffer
    pool runs. *)

From stdpp Require Import sorting.
From S2P Require Import Prelude Config FileIO.

(** ** Messages *)

(** [src/shared_disk/proto/shared_disk_service.proto:18-23 WriteRequest] *)
Record WriteRequest := mkWriteRequest {
  w_fd : Z;
  w_buf : bytes;
  w_size : Z;
  w_offset : Z;
}.

(** [src/shared_disk/proto/shared_disk_service.proto:26-30 ReadRequest] *)
Record ReadRequest := mkReadRequest {
  r_fd : Z;
  r_size : Z;
  r_offset : Z;
}.

(** [src/shared_disk/proto/shared_disk_service.proto:31-34 ReadReply] *)
Record ReadReply := mkReadReply {
  rep_buf : bytes;
  rep_size : Z;
}.

(** A field that the sender does not set arrives as 0.
    [src/shared_disk/proto/shared_disk_service.proto:51-51 CloseRequest] *)
Record CloseRequest := mkCloseRequest { c_fd : Z }.

Definition CloseRequest_new : CloseRequest := {| c_fd := 0 |}.

(** [message.set_bytes(p, size)]: [size] bytes are read from [p]. *)
Definition set_bytes (p : bytes) (size : Z) : res bytes :=
  if size <=? Z.of_nat (length p) then Ret (take (Z.to_nat size) p) else Fault OutOfBounds.

(** The local arrays the handlers read into; every byte they send has been
    overwritten by the read. *)
Definition local_array (size : Z) : bytes := replicate (Z.to_nat size) Byte.x00.

(** ** The server *)

(** [src/shared_disk/brpc/shared_disk_service.cpp:11-18 SharedDiskServer::Open] *)
Definition srv_Open (path : string) (s : FileIO) : res (Z * FileIO) := Open path s.

(** [src/shared_disk/brpc/shared_disk_service.cpp:20-28 SharedDiskServer::Write] *)
Definition srv_Write (request : WriteRequest) (s : FileIO) : res (Z * FileIO) :=
  assert! Z.of_nat (length (w_buf request)) =? w_size request;
  Write (w_fd request) (w_buf request) (w_size request) (u64 (w_offset request)) s.

(** [src/shared_disk/brpc/shared_disk_service.cpp:30-41 SharedDiskServer::Read] *)
Definition srv_Read (request : ReadRequest) (s : FileIO) : res ReadReply :=
  '(read_size, buf) ← Read (r_fd request) (local_array (r_size request)) (r_size request)
                        (u64 (r_offset request)) s;
  assert! read_size =? r_size request;
  Ret {| rep_buf := take (Z.to_nat read_size) buf; rep_size := read_size |}.

(** [src/shared_disk/brpc/shared_disk_service.cpp:43-51 SharedDiskServer::WritePage] *)
Definition srv_WritePage (page_id : Z) (page_buf : bytes) (s : FileIO) : res (Z * FileIO) :=
  assert! Z.of_nat (length page_buf) =? MY_PAGE_SIZE;
  WritePage page_id page_buf s.

(** [src/shared_disk/brpc/shared_disk_service.cpp:53-64 SharedDiskServer::ReadPage] *)
Definition srv_ReadPage (page_id : Z) (s : FileIO) : res (ReadReply * FileIO) :=
  '(read_size, buf, s) ← ReadPage page_id (local_array MY_PAGE_SIZE) s;
  assert! read_size =? MY_PAGE_SIZE;
  Ret ({| rep_buf := take (Z.to_nat read_size) buf; rep_size := read_size |}, s).

(** [src/shared_disk/brpc/shared_disk_service.cpp:66-73 SharedDiskServer::CloseAll] *)
Definition srv_CloseAll (s : FileIO) : res (Z * FileIO) := Close s.

(** [src/shared_disk/brpc/shared_disk_service.cpp:75-82 SharedDiskServer::Close] *)
Definition srv_Close (request : CloseRequest) (s : FileIO) : res (Z * FileIO) :=
  Close_fd (c_fd request) s.

(** ** The client *)

(** The client holds a channel to the server.  [failed] says whether calls on
    it fail, in which case every method stops at [assert(false)]; a handler
    that faults takes the server down, which fails the call as well.
    [src/shared_disk/brpc/shared_disk_service.h:48-65 SharedDiskClient] *)
Record SharedDiskClient := mkSharedDiskClient {
  server : FileIO;
  failed : bool;
}.

Definition with_server (c : SharedDiskClient) (s : FileIO) : SharedDiskClient :=
  {| server := s; failed := failed c |}.

Definition call {A} (c : SharedDiskClient) (handler : FileIO -> res A) : res A :=
  assert! negb (failed c);
  match handler (server c) with
  | Fault _ => Fault Assert
  | r => r
  end.

(** [src/shared_disk/brpc/shared_disk_service.cpp:117-130 SharedDiskClient::Open] *)
Definition client_Open (path : string) (c : SharedDiskClient) : res (Z * SharedDiskClient) :=
  '(fd, s) ← call c (srv_Open path);
  Ret (fd, with_server c s).

(** [src/shared_disk/brpc/shared_disk_service.cpp:132-150 SharedDiskClient::Write] *)
Definition client_Write (fd : Z) (buf : bytes) (size offset : Z) (c : SharedDiskClient)
    : res (Z * SharedDiskClient) :=
  b ← set_bytes buf size;
  '(reply, s) ← call c (srv_Write {| w_fd := fd; w_buf := b; w_size := size;
                                     w_offset := i64 offset |});
  assert! reply =? size;
  Ret (reply, with_server c s).

(** [src/shared_disk/brpc/shared_disk_service.cpp:152-171 SharedDiskClient::Read] *)
Definition client_Read (fd : Z) (buf : bytes) (size offset : Z) (c : SharedDiskClient)
    : res (Z * bytes) :=
  reply ← call c (srv_Read {| r_fd := fd; r_size := size; r_offset := i64 offset |});
  assert! size =? Z.of_nat (length (rep_buf reply));
  assert! size =? rep_size reply;
  buf ← memcpy buf 0 (rep_buf reply) 0 (Z.of_nat (length (rep_buf reply)));
  Ret (rep_size reply, buf).

(** [src/shared_disk/brpc/shared_disk_service.cpp:173-189 SharedDiskClient::WritePage] *)
Definition client_WritePage (page_id : Z) (page_buf : bytes) (c : SharedDiskClient)
    : res (Z * SharedDiskClient) :=
  b ← set_bytes page_buf MY_PAGE_SIZE;
  '(reply, s) ← call c (srv_WritePage page_id b);
  assert! reply =? MY_PAGE_SIZE;
  Ret (reply, with_server c s).

(** [src/shared_disk/brpc/shared_disk_service.cpp:191-208 SharedDiskClient::ReadPage] *)
Definition client_ReadPage (page_id : Z) (page_buf : bytes) (c : SharedDiskClient)
    : res (Z * bytes * SharedDiskClient) :=
  '(reply, s) ← call c (srv_ReadPage page_id);
  assert! MY_PAGE_SIZE =? Z.of_nat (length (rep_buf reply));
  assert! MY_PAGE_SIZE =? rep_size reply;
  page_buf ← memcpy page_buf 0 (rep_buf reply) 0 (Z.of_nat (length (rep_buf reply)));
  Ret (rep_size reply, page_buf, with_server c s).

(** [src/shared_disk/brpc/shared_disk_service.cpp:210-222 SharedDiskClient::CloseAll] *)
Definition client_CloseAll (c : SharedDiskClient) : res (Z * SharedDiskClient) :=
  '(rc, s) ← call c srv_CloseAll;
  Ret (rc, with_server c s).

(** The request is sent as it was constructed: [fd] is not stored in it.
    [src/shared_disk/brpc/shared_disk_service.cpp:224-236 SharedDiskClient::Close] *)
Definition client_Close (fd : Z) (c : SharedDiskClient) : res (Z * SharedDiskClient) :=
  '(rc, s) ← call c (srv_Close CloseRequest_new);
  Ret (rc, with_server c s).

(** ** Pages through the client *)

Lemma u64_i64 (z : Z) : u64 (i64 z) = u64 z.
Proof.
  unfold u64, i64. rewrite Zminus_mod_idemp_l. f_equal. lia.
Qed.

Lemma set_bytes_all (p : bytes) (size : Z) :
  Z.of_nat (length p) = size -> set_bytes p size = Ret p.
Proof. intros H. unfold set_bytes. guard_true. by rewrite take_ge by lia. Qed.

Lemma length_local_array (size : Z) : 0 <= size -> Z.of_nat (length (local_array size)) = size.
Proof. intros. unfold local_array. rewrite length_replicate. lia. Qed.

Section Pages.
Context (nfiles : nat) (c : SharedDiskClient).
Hypothesis Hup : failed c = false.
Hypothesis Hwf : file_wf nfiles (server c).

Lemma client_write_page_spec (id : Z) (buf : bytes) :
  file_valid nfiles id -> Z.of_nat (length buf) = MY_PAGE_SIZE ->
  exists s', WritePage id buf (server c) = Ret (MY_PAGE_SIZE, s')
    /\ client_WritePage id buf c = Ret (MY_PAGE_SIZE, with_server c s')
    /\ file_wf nfiles s' /\ file_page s' id = Some buf
    /\ forall id' b, file_valid nfiles id' -> id' <> id ->
         file_page (server c) id' = Some b -> file_page s' id' = Some b.
Proof using Hup Hwf.
  intros Hid Hlen.
  destruct (file_write_spec nfiles (server c) id buf Hwf Hid Hlen) as (s' & Hw & H).
  exists s'. split; [done|]. split; [|done].
  unfold client_WritePage, call, srv_WritePage. rewrite Hup, set_bytes_all by done.
  cbn [mbind res_bind negb]. rewrite (proj2 (Z.eqb_eq _ _)) by done. by rewrite Hw.
Qed.

(** The read of a page that is not in its file stops the server. *)
Lemma client_read_page_spec (id : Z) (buf : bytes) :
  file_valid nfiles id -> Z.of_nat (length buf) = MY_PAGE_SIZE ->
  match file_page (server c) id with
  | Some b => exists s', ReadPage id buf (server c) = Ret (MY_PAGE_SIZE, b, s')
      /\ client_ReadPage id buf c = Ret (MY_PAGE_SIZE, b, with_server c s')
      /\ file_wf nfiles s' /\ forall id', file_page s' id' = file_page (server c) id'
  | None => (exists s', ReadPage id buf (server c) = Ret (0, buf, s'))
      /\ client_ReadPage id buf c = Fault Assert
  end.
Proof using Hup Hwf.
  intros Hid Hlen.
  assert (0 <= MY_PAGE_SIZE) as HP by (rewrite MY_PAGE_SIZE_eq; lia).
  destruct (file_read_spec nfiles (server c) id buf Hwf Hid Hlen) as (s1 & H1 & _).
  destruct (file_read_spec nfiles (server c) id (local_array MY_PAGE_SIZE) Hwf Hid)
    as (s' & Hr & Hwf' & Hsame); [by apply length_local_array|].
  assert (s1 = s') as <-.
  { revert H1 Hr. unfold ReadPage. destruct (page_fd _ _) as [[fd s2]| |]; simpl; [|done..].
    do 2 (destruct (pread_ _ _ _ _ _) as [[? ?]| |]; simpl; [|done..]). congruence. }
  unfold client_ReadPage, call, srv_ReadPage. rewrite Hup.
  destruct (file_page (server c) id) as [b|] eqn:Hb; simpl in H1, Hr; cbn [negb].
  - assert (Z.of_nat (length b) = MY_PAGE_SIZE) as Hbl
      by (apply (disk_page_length (DiskSpec := FileIO_DiskSpec nfiles) (server c) id); done).
    exists s1. split; [done|]. split; [|done]. rewrite Hr. cbn [mbind res_bind].
    rewrite Z.eqb_refl. cbn [mbind res_bind rep_buf rep_size].
    rewrite take_ge by lia. rewrite Hbl, Z.eqb_refl.
    rewrite memcpy_Ret by lia. cbn [mbind res_bind].
    rewrite slice_all', splice_all by lia. done.
  - split; [by eexists|]. rewrite Hr. cbn [mbind res_bind]. done.
Qed.
End Pages.

(** ** The client as a page store *)

#[export] Instance SharedDiskClient_Disk : Disk SharedDiskClient := {
  disk_write := client_WritePage;
  disk_read := client_ReadPage;
}.

(** The server holds every page of a database of [npages] pages. *)
Record shared_wf (nfiles : nat) (npages : Z) (c : SharedDiskClient) : Prop := {
  sh_up : failed c = false;
  sh_files : file_wf nfiles (server c);
  sh_pages : forall id, file_valid nfiles id -> id < npages -> is_Some (file_page (server c) id);
}.

#[export] Instance SharedDiskClient_DiskSpec (nfiles : nat) (npages : Z)
  : DiskSpec SharedDiskClient.
Proof.
  refine {| disk_wf := shared_wf nfiles npages;
            disk_valid := fun id => file_valid nfiles id /\ id < npages;
            disk_page := fun c => file_page (server c) |}.
  - intros c id b. apply (disk_page_length (DiskSpec := FileIO_DiskSpec nfiles)).
  - intros c id buf [Hup Hwf Hall] [Hid Hn] Hlen.
    destruct (client_write_page_spec nfiles c Hup Hwf id buf Hid Hlen)
      as (s' & _ & Hw & Hwf' & Hsame & Hother).
    eexists _, _. split; [exact Hw|]. split; [|split; [done|]].
    + split; [done..|]. intros id' Hid' Hn'. simpl. destruct (decide (id' = id)) as [->|Hne].
      * rewrite Hsame. by eexists.
      * destruct (Hall id' Hid' Hn') as [b Hb]. eexists. by apply Hother.
    + intros id' b [Hid' _]. by apply Hother.
  - intros c id buf [Hup Hwf Hall] [Hid Hn] Hlen.
    pose proof (client_read_page_spec nfiles c Hup Hwf id buf Hid Hlen) as H.
    destruct (Hall id Hid Hn) as [b Hb]. rewrite Hb in *.
    destruct H as (s' & _ & Hr & Hwf' & Hsame).
    eexists _, _. split; [exact Hr|]. split; [|done].
    split; [done..|]. intros id' Hid' Hn'. simpl. rewrite Hsame. by apply Hall.
Defined.

(** C38: Reading and writing pages through the shared disk is what [FileIO] does on
    the server, as long as the page exists; a read beyond the end of the file,
    which [FileIO] answers with 0 bytes, stops the server and the client. *)
Theorem shared_disk_pages (nfiles : nat) (c : SharedDiskClient) (id : Z) (page buf : bytes) :
  failed c = false -> file_wf nfiles (server c) -> file_valid nfiles id ->
  Z.of_nat (length page) = MY_PAGE_SIZE -> Z.of_nat (length buf) = MY_PAGE_SIZE ->
  (exists s', WritePage id page (server c) = Ret (MY_PAGE_SIZE, s')
     /\ client_WritePage id page c = Ret (MY_PAGE_SIZE, with_server c s')
     /\ exists c', client_ReadPage id buf (with_server c s') = Ret (MY_PAGE_SIZE, page, c'))
  /\ match file_page (server c) id with
     | Some b => exists s', ReadPage id buf (server c) = Ret (MY_PAGE_SIZE, b, s')
         /\ client_ReadPage id buf c = Ret (MY_PAGE_SIZE, b, with_server c s')
     | None => (exists s', ReadPage id buf (server c) = Ret (0, buf, s'))
         /\ client_ReadPage id buf c = Fault Assert
     end.
Proof.
  intros Hup Hwf Hid Hp Hb. split.
  - destruct (client_write_page_spec nfiles c Hup Hwf id page Hid Hp)
      as (s' & Hw & Hcw & Hwf' & Hsame & _).
    exists s'. split; [done|]. split; [done|].
    pose proof (client_read_page_spec nfiles (with_server c s') Hup Hwf' id buf Hid Hb) as Hr.
    simpl in Hr. rewrite Hsame in Hr. destruct Hr as (s2 & _ & Hr & _). by eexists.
  - pose proof (client_read_page_spec nfiles c Hup Hwf id buf Hid Hb) as Hr.
    destruct (file_page (server c) id); naive_solver.
Qed.

Lemma shared_disk_pages_witness :
  (exists c', client_ReadPage 0 (local_array MY_PAGE_SIZE)
                (mkSharedDiskClient file_example false)
              = Ret (MY_PAGE_SIZE, replicate (Z.to_nat MY_PAGE_SIZE) Byte.x41, c'))
  /\ client_ReadPage 1 (local_array MY_PAGE_SIZE) (mkSharedDiskClient file_example false)
     = Fault Assert.
Proof.
  assert (forall id, 0 <= id < 2 -> file_valid 1 id) as Hv
    by (intros id H; unfold file_valid; rewrite ITEM_NUM_PER_FILE_eq; lia).
  assert (Z.of_nat (length (local_array MY_PAGE_SIZE)) = MY_PAGE_SIZE) as Hl
    by (apply length_local_array; rewrite MY_PAGE_SIZE_eq; lia).
  set (c := mkSharedDiskClient file_example false).
  assert (file_page (server c) 0 = Some (replicate (Z.to_nat MY_PAGE_SIZE) Byte.x41)) as H0
    by (vm_compute; reflexivity).
  assert (file_page (server c) 1 = None) as H1 by (vm_compute; reflexivity).
  pose proof (shared_disk_pages 1 c 0 _ _ eq_refl file_example_wf (Hv 0 ltac:(lia)) Hl Hl)
    as [_ P0].
  pose proof (shared_disk_pages 1 c 1 _ _ eq_refl file_example_wf (Hv 1 ltac:(lia)) Hl Hl)
    as [_ P1].
  rewrite H0 in P0. rewrite H1 in P1. split; [|apply P1].
  destruct P0 as (s' & _ & P0). exists (with_server c s'). exact P0.
Defined.

(** ** Byte ranges of a file *)

(** A range written to a descriptor of the server is what a read of the same
    range delivers. *)
Theorem shared_disk_write_read (c : SharedDiskClient) (fd offset : Z) (path : string)
    (data buf : bytes) :
  failed c = false -> descs (os (server c)) !! fd = Some path ->
  0 <= offset -> offset + Z.of_nat (length data) < 2 ^ 64 -> length buf = length data ->
  exists c', client_Write fd data (Z.of_nat (length data)) offset c
             = Ret (Z.of_nat (length data), c')
    /\ client_Read fd buf (Z.of_nat (length data)) offset c'
       = Ret (Z.of_nat (length data), data).
Proof.
  intros Hup Hfd Hoff Hmax Hbuf. unfold client_Write, call, srv_Write, Write.
  rewrite set_bytes_all by done. cbn [mbind res_bind w_fd w_buf w_size w_offset].
  rewrite Hup, Z.eqb_refl, u64_i64, u64_id by (unfold is_u64; lia). cbn [negb].
  unfold pwrite_. rewrite Hfd, Z.leb_refl. cbn [mbind res_bind].
  rewrite u64_id, Z.eqb_refl by (unfold is_u64; lia). cbn [mbind res_bind].
  eexists. split; [done|].
  unfold client_Read, call, srv_Read, Read, with_server.
  cbn [failed server r_fd r_size r_offset os]. rewrite Hup. cbn [negb].
  rewrite u64_i64, u64_id by (unfold is_u64; lia). unfold pread_. cbn [descs files].
  rewrite Hfd, length_local_array, Z.leb_refl by lia. cbn [mbind res_bind].
  rewrite lookup_insert_eq. simpl from_option. rewrite !Nat2Z.id, take_ge by done.
  rewrite slice_write_at_same, u64_id, Z.eqb_refl by (unfold is_u64; lia).
  cbn [mbind res_bind rep_buf rep_size]. rewrite Nat2Z.id, take_app_length, !Z.eqb_refl.
  rewrite memcpy_Ret by lia. cbn [mbind res_bind].
  rewrite Nat2Z.id, slice_all, splice_all by done. done.
Qed.

Definition client_example : SharedDiskClient :=
  {| server := {| opened_file_ := ∅;
                  os := {| files := ∅; descs := {[ 3 := "f"%string ]}; fd_limit := 1024 |} |};
     failed := false |}.

Lemma shared_disk_write_read_witness :
  exists c', client_Write 3 [Byte.x61; Byte.x62] 2 5 client_example = Ret (2, c')
    /\ client_Read 3 [Byte.x00; Byte.x00] 2 5 c' = Ret (2, [Byte.x61; Byte.x62]).
Proof.
  exact (shared_disk_write_read client_example 3 5 "f" [Byte.x61; Byte.x62]
    [Byte.x00; Byte.x00] eq_refl eq_refl ltac:(lia) ltac:(simpl; lia) eq_refl).
Defined.

(** ** Closing a file *)

Lemma fresh_fd_zero (m : gmap Z string) : m !! 0 = None -> fresh_fd m = 0.
Proof.
  intros H. unfold fresh_fd. cbn [seq find]. change (Z.of_nat 0) with 0. rewrite H. done.
Qed.

(** [SharedDiskClient::Close] does not send the descriptor it is given: the
    server closes its standard input, the descriptor stays open, and the next
    [Open] gets descriptor 0 and stops the server. *)
Theorem shared_disk_close_wrong_file (nfiles : nat) (c : SharedDiskClient) (fd : Z) :
  failed c = false -> file_wf nfiles (server c) -> fd <> 0 ->
  exists c', client_Close fd c = Ret (0, c')
    /\ descs (os (server c')) !! fd = descs (os (server c)) !! fd
    /\ descs (os (server c')) !! 0 = None
    /\ forall path, client_Open path c' = Fault Assert.
Proof.
  intros Hup Hwf Hfd. destruct (wf_stdin _ _ Hwf) as [p Hp].
  unfold client_Close, call, srv_Close, Close_fd, close_. rewrite Hup. simpl. rewrite Hp.
  destruct (existsb _ _) eqn:E.
  - exfalso. apply existsb_exists in E as ([q f] & Hin & Hf). simpl in Hf.
    apply Z.eqb_eq in Hf as ->. apply list_elem_of_In in Hin.
    unfold map_order in Hin. rewrite merge_sort_Permutation in Hin.
    apply elem_of_map_to_list in Hin. destruct (wf_opened _ _ Hwf _ _ Hin). lia.
  - eexists. split; [done|]. simpl. rewrite lookup_delete_ne, lookup_delete_eq by done.
    split; [done|]. split; [done|]. intros path.
    unfold client_Open, call, srv_Open, Open, open_, with_server. simpl.
    rewrite Hup, fresh_fd_zero by apply lookup_delete_eq. by destruct (_ <=? _).
Qed.

Lemma shared_disk_close_wrong_file_witness :
  exists c', client_Close 7 (mkSharedDiskClient file_example false) = Ret (0, c')
    /\ client_Open "data" c' = Fault Assert.
Proof.
  destruct (shared_disk_close_wrong_file 1 (mkSharedDiskClient file_example false) 7
    eq_refl file_example_wf ltac:(lia)) as (c' & H & _ & _ & Ho). eauto.
Defined.
