(* ===== verification/Lru.v ===== *)
(** * db2: the page lists of the buffer pool ([common/buffer/lru.cpp])

    A heap of page nodes, the doubly linked list [LRU] over it, the
    representation predicate [lru_rep] that ties a list of locations to the
    pointers, and the refinement of the operations to list operations.  The
    configuration is the one [lru.h] selects: neither [USE_MUTEX] nor
    [USE_CAS] is defined. *)

From S2P Require Import Prelude Config Page.

(** ** The heap *)

Abbreviation loc := nat.

(** A node, with the page it owns.
    [src/common/buffer/lru.h:22-31 PageNode] *)
Record PageNode := mkPageNode {
  page_ : Page;
  prev_ : option loc;
  next_ : option loc;
}.

Abbreviation heap := (gmap loc PageNode).

Definition with_page (p : Page) (nd : PageNode) : PageNode :=
  {| page_ := p; prev_ := prev_ nd; next_ := next_ nd |}.
Definition with_prev (l : option loc) (nd : PageNode) : PageNode :=
  {| page_ := page_ nd; prev_ := l; next_ := next_ nd |}.
Definition with_next (l : option loc) (nd : PageNode) : PageNode :=
  {| page_ := page_ nd; prev_ := prev_ nd; next_ := l |}.

(** [new PageNode(page_buf)].
    [src/common/buffer/lru.cpp:16-19 PageNode::PageNode] *)
Definition new_PageNode (version0 : Z) (page_buf : bytes) : PageNode :=
  {| page_ := new_Page version0 page_buf; prev_ := None; next_ := None |}.

(** Reading and updating the node a pointer names; a pointer to a node that is
    not (or no longer) allocated is an error. *)
Definition node (h : heap) (n : loc) : res PageNode :=
  match h !! n with Some nd => Ret nd | None => Fault UseAfterFree end.

Definition upd_node (n : loc) (f : PageNode -> PageNode) (h : heap) : res heap :=
  nd ← node h n; Ret (<[n := f nd]> h).

(** ** The list *)

(** [src/common/buffer/lru.h:56-59 head_] *)
Record LRU := mkLRU {
  head_ : option loc;
  tail_ : option loc;
  size_ : Z;
}.

(** [src/common/buffer/lru.cpp:26-30 LRU::LRU] *)
Definition new_LRU : LRU := {| head_ := None; tail_ := None; size_ := 0 |}.

(** [src/common/buffer/lru.cpp:40-93 LRU::Prepend] *)
Definition Prepend (page_node : loc) (h : heap) (l : LRU) : res (heap * LRU) :=
  h ← upd_node page_node (with_next (head_ l)) h;
  match head_ l with
  | None =>
      Ret (h, {| head_ := Some page_node; tail_ := Some page_node; size_ := i32 (size_ l + 1) |})
  | Some hd =>
      h ← upd_node hd (with_prev (Some page_node)) h;
      Ret (h, {| head_ := Some page_node; tail_ := tail_ l; size_ := i32 (size_ l + 1) |})
  end.

(** The body of [Get] is commented out.
    [src/common/buffer/lru.cpp:95-147 LRU::Get] *)
Definition Get (page_node : loc) (h : heap) (l : LRU) : res (heap * LRU) := Ret (h, l).

(** [src/common/buffer/lru.cpp:149-190 LRU::Popback] *)
Definition Popback (h : heap) (l : LRU) : res (option loc * heap * LRU) :=
  match tail_ l with
  | None => Ret (None, h, l)
  | Some pageNode =>
      nd ← node h pageNode;
      match prev_ nd with
      | Some p =>
          h ← upd_node p (with_next None) h;
          h ← upd_node pageNode (with_prev None) h;
          Ret (Some pageNode, h,
               {| head_ := head_ l; tail_ := Some p; size_ := i32 (size_ l - 1) |})
      | None =>
          assert! bool_decide (head_ l = tail_ l);
          Ret (Some pageNode, h,
               {| head_ := None; tail_ := None; size_ := i32 (size_ l - 1) |})
      end
  end.

(** The two loops of [Check], one node per unit of fuel.  A walk that visits
    more nodes than the heap holds runs in a circle.
    [src/common/buffer/lru.cpp:203-213 pageNode] *)
Fixpoint check_forward (fuel : nat) (h : heap) (l : LRU) (count : Z) (pageNode : option loc)
    : res Z :=
  match fuel with
  | O => Fault OutOfFuel
  | S fuel =>
      match pageNode with
      | None => Ret count
      | Some n =>
          nd ← node h n;
          let count := count + 1 in
          match next_ nd with
          | Some m =>
              nd' ← node h m;
              assert! bool_decide (prev_ nd' = Some n);
              check_forward fuel h l count (Some m)
          | None =>
              assert! bool_decide (Some n = tail_ l) && (count =? size_ l);
              check_forward fuel h l count None
          end
      end
  end.

(** [src/common/buffer/lru.cpp:216-224 pageNode] *)
Fixpoint check_backward (fuel : nat) (h : heap) (l : LRU) (count : Z) (pageNode : option loc)
    : res Z :=
  match fuel with
  | O => Fault OutOfFuel
  | S fuel =>
      match pageNode with
      | None => Ret count
      | Some n =>
          nd ← node h n;
          let count := count + 1 in
          match prev_ nd with
          | Some m =>
              nd' ← node h m;
              assert! bool_decide (next_ nd' = Some n);
              check_backward fuel h l count (Some m)
          | None =>
              assert! bool_decide (Some n = head_ l) && (count =? size_ l);
              check_backward fuel h l count None
          end
      end
  end.

(** The first assertion of [Check].
    [src/common/buffer/lru.cpp:196-201 size_] *)
Definition check_ends (h : heap) (l : LRU) : res unit :=
  if 0 <? size_ l then
    hd ← deref (head_ l); hd ← node h hd;
    assert! bool_decide (prev_ hd = None);
    tl ← deref (tail_ l); tl ← node h tl;
    assert! bool_decide (next_ tl = None);
    Ret tt
  else
    assert! bool_decide (head_ l = None) && bool_decide (tail_ l = None);
    Ret tt.

(** [src/common/buffer/lru.cpp:194-225 LRU::Check] *)
Definition LRU_Check (h : heap) (l : LRU) : res unit :=
  check_ends h l ≫= fun _ =>
  count ← check_forward (2 + size h) h l 0 (head_ l);
  assert! count =? size_ l;
  count ← check_backward (2 + size h) h l 0 (tail_ l);
  assert! count =? size_ l;
  Ret tt.

(** The loop of the destructor reads [next_] of the node it has just deleted.
    [src/common/buffer/lru.cpp:32-38 LRU::~LRU] *)
Fixpoint delete_LRU (fuel : nat) (page_node : option loc) (h : heap) : res heap :=
  match fuel with
  | O => Fault OutOfFuel
  | S fuel =>
      match page_node with
      | None => Ret h
      | Some n =>
          node h n ≫= fun _ =>
          let h := delete n h in
          nd ← node h n;
          delete_LRU fuel (next_ nd) h
      end
  end.

(** ** Representation *)

Definition links (nd : PageNode) : option loc * option loc := (prev_ nd, next_ nd).

Definition prev_at (l : list loc) (i : nat) : option loc :=
  match i with O => None | S j => l !! j end.

(** The nodes of [l], from the head to the tail, are linked in both directions
    and the list object describes them. *)
Record lru_rep (h : heap) (L : LRU) (l : list loc) : Prop := mk_lru_rep {
  rep_head : head_ L = l !! 0%nat;
  rep_tail : tail_ L = prev_at l (length l);
  rep_size : size_ L = Z.of_nat (length l);
  rep_nodup : NoDup l;
  rep_links : forall i n, l !! i = Some n -> links <$> h !! n = Some (prev_at l i, l !! S i);
}.

Lemma lru_rep_frame (h h' : heap) (L : LRU) (l : list loc) :
  lru_rep h L l -> (forall n, n ∈ l -> links <$> h' !! n = links <$> h !! n) ->
  lru_rep h' L l.
Proof.
  intros [H1 H2 H3 H4 H5] Hf. split; try done. intros i n Hi.
  rewrite Hf; [by apply H5|]. by apply list_elem_of_lookup_2 with i.
Qed.

Lemma new_LRU_rep (h : heap) : lru_rep h new_LRU [].
Proof. split; try done. constructor. Qed.

Lemma links_Some (h : heap) (n : loc) (a b : option loc) :
  links <$> h !! n = Some (a, b) ->
  exists nd, h !! n = Some nd /\ prev_ nd = a /\ next_ nd = b.
Proof. destruct (h !! n) as [nd|]; simpl; [|done]. intros [= <- <-]. eauto. Qed.

Lemma upd_node_Ret (h : heap) (n : loc) (nd : PageNode) f :
  h !! n = Some nd -> upd_node n f h = Ret (<[n := f nd]> h).
Proof. intros H. unfold upd_node, node. by rewrite H. Qed.

(** Every field but the links is kept. *)
Definition same_pages (h h' : heap) : Prop :=
  forall n, page_ <$> h' !! n = page_ <$> h !! n.

Lemma same_pages_insert (h : heap) (n : loc) (nd nd' : PageNode) :
  h !! n = Some nd -> page_ nd' = page_ nd -> same_pages h (<[n := nd']> h).
Proof.
  intros H Hp m. destruct (decide (n = m)) as [<-|];
    [rewrite lookup_insert_eq, H; simpl; congruence|by rewrite lookup_insert_ne].
Qed.

Lemma same_pages_trans (h1 h2 h3 : heap) :
  same_pages h1 h2 -> same_pages h2 h3 -> same_pages h1 h3.
Proof. intros H1 H2 n. by rewrite H2, H1. Qed.

(** ** The operations refine list operations *)

Lemma Prepend_spec (h : heap) (L : LRU) (l : list loc) (n : loc) (nd : PageNode) :
  lru_rep h L l -> n ∉ l -> h !! n = Some nd -> prev_ nd = None ->
  Z.of_nat (length l) < 2 ^ 31 - 1 ->
  exists h' L', Prepend n h L = Ret (h', L')
    /\ lru_rep h' L' (n :: l)
    /\ same_pages h h'
    /\ forall m, m ∉ n :: l -> h' !! m = h !! m.
Proof.
  intros [H1 H2 H3 H4 H5] Hn Hnd Hp Hb. unfold Prepend.
  rewrite (upd_node_Ret _ _ _ _ Hnd). cbn [mbind res_bind]. rewrite H1.
  assert (i32 (size_ L + 1) = Z.of_nat (S (length l))) as Hsz
    by (rewrite H3, i32_id; lia).
  destruct l as [|x l]; simpl.
  - eexists _, _. split; [done|]. split; [|split].
    + split; simpl; try done; [apply NoDup_singleton|].
      intros [|i] m; simpl; [|done]. intros [= <-]. rewrite lookup_insert_eq. simpl.
      unfold links. simpl. by rewrite Hp.
    + by apply same_pages_insert with nd.
    + intros m Hm. apply lookup_insert_ne. set_solver.
  - assert (x <> n) as Hxn by set_solver.
    destruct (links_Some _ _ _ _ (H5 0%nat x eq_refl)) as (ndx & Hx & Hxp & Hxn').
    rewrite (upd_node_Ret _ x ndx); [|by rewrite lookup_insert_ne].
    eexists _, _. split; [done|]. split; [|split].
    + split; simpl; try done; [by apply list.NoDup_cons|].
      intros [|i] m; simpl.
      * intros [= <-]. rewrite lookup_insert_ne, lookup_insert_eq by done. simpl.
        unfold links. simpl. by rewrite Hp.
      * intros Hi. destruct i as [|i]; simpl in *.
        { injection Hi as <-. rewrite lookup_insert_eq. simpl. unfold links. simpl.
          by rewrite Hxn'. }
        assert (m ∈ l) by (by apply list_elem_of_lookup_2 with i).
        apply list.NoDup_cons in H4 as [Hxl H4].
        rewrite !lookup_insert_ne by set_solver. by apply (H5 (S i)).
    + eapply same_pages_trans; [apply (same_pages_insert h n nd (with_next (Some x) nd)); done|].
      apply same_pages_insert with ndx; [by rewrite lookup_insert_ne|done].
    + intros m Hm. by rewrite !lookup_insert_ne by set_solver.
Qed.

Lemma Popback_nil (h : heap) (L : LRU) : lru_rep h L [] -> Popback h L = Ret (None, h, L).
Proof. intros [H1 H2 H3 H4 H5]. unfold Popback. by rewrite H2. Qed.

Lemma prev_at_app (l l' : list loc) (i : nat) :
  (i <= length l)%nat -> prev_at (l ++ l') i = prev_at l i.
Proof. destruct i; simpl; [done|]. intros. by rewrite lookup_app_l by lia. Qed.

(** Cutting the last node off a list of at least two. *)
Lemma Popback_links (h : heap) (l : list loc) (p n : loc) (nd ndp : PageNode) :
  NoDup ((l ++ [p]) ++ [n]) ->
  (forall i m, ((l ++ [p]) ++ [n]) !! i = Some m ->
     links <$> h !! m = Some (prev_at ((l ++ [p]) ++ [n]) i, ((l ++ [p]) ++ [n]) !! S i)) ->
  h !! n = Some nd -> h !! p = Some ndp ->
  lru_rep (<[n := with_prev None nd]> (<[p := with_next None ndp]> h))
    {| head_ := ((l ++ [p]) ++ [n]) !! 0%nat; tail_ := Some p; size_ := Z.of_nat (S (length l)) |}
    (l ++ [p]).
Proof.
  intros Hnd Hl Hn Hp.
  assert (n ∉ l ++ [p]) as Hnl by (apply list.NoDup_app in Hnd as (_ & H & _); set_solver).
  split; simpl.
  - by rewrite lookup_app_l by (rewrite length_app; simpl; lia).
  - rewrite length_app, Nat.add_1_r. simpl. by rewrite list_lookup_middle.
  - rewrite length_app. simpl. lia.
  - by apply list.NoDup_app in Hnd as (H & _).
  - intros i m Hi.
    assert (i < length (l ++ [p]))%nat as Hlt by (by apply lookup_lt_Some in Hi).
    assert (m ∈ l ++ [p]) as Hm by (by apply list_elem_of_lookup_2 with i).
    specialize (Hl i m). rewrite lookup_app_l, prev_at_app in Hl by lia. specialize (Hl Hi).
    rewrite lookup_insert_ne by set_solver.
    destruct (decide (m = p)) as [->|Hmp].
    + assert (i = length l) as ->.
      { apply list.NoDup_app in Hnd as (Hnd & _). eapply NoDup_lookup; [done..|].
        by apply list_lookup_middle. }
      rewrite lookup_insert_eq. simpl. rewrite Hp in Hl. simpl in Hl. unfold links in *.
      injection Hl as Hl _. simpl. rewrite Hl.
      rewrite (lookup_ge_None_2 (l ++ [p])); [done|rewrite length_app; simpl; lia].
    + rewrite lookup_insert_ne by done. rewrite Hl. do 2 f_equal.
      rewrite length_app in Hlt. simpl in Hlt.
      assert (i <> length l).
      { intros ->. rewrite list_lookup_middle in Hi by done. congruence. }
      rewrite lookup_app_l by (rewrite length_app; simpl; lia). done.
Qed.

Lemma Popback_spec (h : heap) (L : LRU) (l : list loc) (n : loc) :
  lru_rep h L (l ++ [n]) -> Z.of_nat (length l) < 2 ^ 31 - 1 ->
  exists h' L', Popback h L = Ret (Some n, h', L')
    /\ lru_rep h' L' l
    /\ same_pages h h'
    /\ (exists nd, h' !! n = Some nd /\ prev_ nd = None)
    /\ forall m, m ∉ l ++ [n] -> h' !! m = h !! m.
Proof.
  intros [H1 H2 H3 H4 H5] Hb. unfold Popback.
  rewrite length_app in H2, H3. simpl in H2, H3.
  assert (i32 (size_ L - 1) = Z.of_nat (length l)) as -> by (rewrite H3, i32_id; lia).
  rewrite Nat.add_1_r in H2. simpl in H2. rewrite list_lookup_middle in H2 by done. rewrite H2.
  destruct (links_Some _ _ _ _ (H5 (length l) n ltac:(by apply list_lookup_middle)))
    as (nd & Hnd & Hprev & Hnext).
  unfold node. rewrite Hnd. cbn [mbind res_bind]. rewrite Hprev, prev_at_app by done.
  destruct (decide (l = [])) as [->|Hne]; simpl.
  - rewrite H1, bool_decide_eq_true_2 by done.
    eexists _, _. split; [done|]. split; [|split; [done|split]].
    + split; try done. constructor.
    + exists nd. by rewrite Hprev.
    + done.
  - destruct (exists_last Hne) as (l' & p & ->). rewrite length_app in *. simpl in *.
    rewrite Nat.add_1_r in *. simpl. rewrite list_lookup_middle by done.
    assert (p <> n) as Hpn by (apply list.NoDup_app in H4 as (_ & H4 & _); set_solver).
    destruct (links_Some _ _ _ _ (H5 (length l') p
      ltac:(rewrite <- app_assoc; by apply list_lookup_middle))) as (ndp & Hp & Hpp & Hpn').
    rewrite (upd_node_Ret _ p ndp) by done. cbn [mbind res_bind].
    rewrite (upd_node_Ret _ n nd) by (by rewrite lookup_insert_ne). cbn [mbind res_bind].
    eexists _, _. split; [done|]. split; [|split; [|split]].
    + rewrite H1. by apply Popback_links.
    + eapply same_pages_trans; [apply (same_pages_insert h p ndp (with_next None ndp)); done|].
      apply same_pages_insert with nd; [by rewrite lookup_insert_ne|done].
    + exists (with_prev None nd). by rewrite lookup_insert_eq.
    + intros m Hm. by rewrite !lookup_insert_ne by set_solver.
Qed.

(** ** The run-time check decides well-formedness *)

Lemma rep_length_heap (h : heap) (L : LRU) (l : list loc) :
  lru_rep h L l -> (length l <= size h)%nat.
Proof.
  intros [H1 H2 H3 H4 H5]. rewrite <- size_dom, <- (size_list_to_set (C := gset loc) l H4).
  apply subseteq_size. intros n [i Hi]%elem_of_list_to_set%list_elem_of_lookup_1.
  apply elem_of_dom. destruct (links_Some _ _ _ _ (H5 i n Hi)) as (nd & -> & _). eauto.
Qed.

Lemma rep_node (h : heap) (L : LRU) (l : list loc) (i : nat) (n : loc) :
  lru_rep h L l -> l !! i = Some n ->
  exists nd, node h n = Ret nd /\ prev_ nd = prev_at l i /\ next_ nd = l !! S i.
Proof.
  intros Hr Hi. destruct (links_Some _ _ _ _ (rep_links _ _ _ Hr i n Hi)) as (nd & H & ? & ?).
  exists nd. unfold node. by rewrite H.
Qed.

Lemma check_forward_complete (h : heap) (L : LRU) (l : list loc) (fuel i : nat) :
  lru_rep h L l -> (i <= length l)%nat -> (length l - i < fuel)%nat ->
  check_forward fuel h L (Z.of_nat i) (l !! i) = Ret (Z.of_nat (length l)).
Proof.
  intros Hr. revert i. induction fuel as [|fuel IH]; intros i Hi Hf; [lia|]. simpl.
  destruct (l !! i) as [n|] eqn:Hn.
  2: { apply lookup_ge_None in Hn. do 2 f_equal. lia. }
  destruct (rep_node _ _ _ _ _ Hr Hn) as (nd & -> & Hp & Hx). cbn [mbind res_bind]. rewrite Hx.
  apply lookup_lt_Some in Hn as Hlt.
  specialize (IH (S i) ltac:(lia) ltac:(lia)).
  replace (Z.of_nat i + 1) with (Z.of_nat (S i)) by lia.
  destruct (l !! S i) as [m|] eqn:Hm.
  - destruct (rep_node _ _ _ _ _ Hr Hm) as (nd' & -> & Hp' & _). cbn [mbind res_bind].
    rewrite Hp'. simpl prev_at. rewrite Hn, bool_decide_eq_true_2 by done. apply IH.
  - apply lookup_ge_None in Hm. assert (length l = S i) as Hlen by lia.
    rewrite (rep_tail _ _ _ Hr), (rep_size _ _ _ Hr), Hlen. simpl prev_at.
    rewrite Hn, bool_decide_eq_true_2, Z.eqb_refl by done. simpl andb. cbn iota.
    by rewrite Hlen in IH.
Qed.

Lemma check_backward_complete (h : heap) (L : LRU) (l : list loc) (fuel i : nat) :
  lru_rep h L l -> (i <= length l)%nat -> (i < fuel)%nat ->
  check_backward fuel h L (Z.of_nat (length l) - Z.of_nat i) (prev_at l i)
  = Ret (Z.of_nat (length l)).
Proof.
  intros Hr. revert i. induction fuel as [|fuel IH]; intros i Hi Hf; [lia|]. simpl.
  destruct i as [|i]; simpl prev_at. { do 2 f_equal. lia. }
  destruct (lookup_lt_is_Some_2 l i ltac:(lia)) as [n Hn]. rewrite Hn.
  destruct (rep_node _ _ _ _ _ Hr Hn) as (nd & -> & Hp & Hx). cbn [mbind res_bind]. rewrite Hp.
  specialize (IH i ltac:(lia) ltac:(lia)).
  replace (Z.of_nat (length l) - Z.of_nat (S i) + 1) with (Z.of_nat (length l) - Z.of_nat i) by lia.
  destruct i as [|i]; simpl prev_at in *.
  - rewrite (rep_head _ _ _ Hr), (rep_size _ _ _ Hr), Hn, bool_decide_eq_true_2 by done.
    replace (Z.of_nat (length l) - Z.of_nat 0) with (Z.of_nat (length l)) in * by lia.
    rewrite Z.eqb_refl. simpl andb. cbn iota. done.
  - destruct (lookup_lt_is_Some_2 l i ltac:(lia)) as [m Hm]. rewrite Hm in *.
    destruct (rep_node _ _ _ _ _ Hr Hm) as (nd' & -> & _ & Hx'). cbn [mbind res_bind].
    rewrite Hx', Hn, bool_decide_eq_true_2 by done. apply IH.
Qed.

Lemma check_ends_complete (h : heap) (L : LRU) (l : list loc) :
  lru_rep h L l -> check_ends h L = Ret tt.
Proof.
  intros Hr. unfold check_ends.
  rewrite (rep_size _ _ _ Hr), (rep_head _ _ _ Hr), (rep_tail _ _ _ Hr).
  destruct (decide (l = [])) as [->|Hne]; [done|].
  assert (0 < length l)%nat by (destruct l; simpl; [done|lia]). guard_true.
  destruct (lookup_lt_is_Some_2 l 0%nat ltac:(lia)) as [a Ha]. rewrite Ha.
  destruct (lookup_lt_is_Some_2 l (length l - 1)%nat ltac:(lia)) as [b Hb].
  replace (prev_at l (length l)) with (Some b).
  2: { rewrite <- Hb. by destruct (length l) as [|k] eqn:Ek; [lia|]; simpl; rewrite Nat.sub_0_r. }
  cbn [deref mbind res_bind].
  destruct (rep_node _ _ _ _ _ Hr Ha) as (nd & -> & Hp & _). cbn [mbind res_bind].
  rewrite Hp, bool_decide_eq_true_2 by done.
  destruct (rep_node _ _ _ _ _ Hr Hb) as (nd' & -> & _ & Hx). cbn [mbind res_bind].
  rewrite Hx, bool_decide_eq_true_2; [done|]. apply lookup_ge_None. lia.
Qed.

Lemma LRU_Check_complete (h : heap) (L : LRU) (l : list loc) :
  lru_rep h L l -> LRU_Check h L = Ret tt.
Proof.
  intros Hr. pose proof (rep_length_heap _ _ _ Hr). unfold LRU_Check.
  rewrite (check_ends_complete _ _ _ Hr). cbn [mbind res_bind].
  rewrite (rep_head _ _ _ Hr), (check_forward_complete _ _ _ (2 + size h) 0 Hr) by lia.
  cbn [mbind res_bind]. rewrite (rep_size _ _ _ Hr), Z.eqb_refl.
  rewrite (rep_tail _ _ _ Hr).
  replace 0 with (Z.of_nat (length l) - Z.of_nat (length l)) by lia.
  rewrite (check_backward_complete _ _ _ (2 + size h) (length l) Hr) by lia.
  cbn [mbind res_bind]. by rewrite Z.eqb_refl.
Qed.

(** The nodes a forward walk visits. *)
Record walk (h : heap) (p : option loc) (w : list loc) : Prop := mk_walk {
  walk_start : p = w !! 0%nat;
  walk_next : forall i n, w !! i = Some n -> exists nd, h !! n = Some nd /\ next_ nd = w !! S i;
  walk_prev : forall i n m, w !! i = Some n -> w !! S i = Some m ->
    exists nd, h !! m = Some nd /\ prev_ nd = Some n;
}.

Lemma walk_cons (h : heap) (n : loc) (nd : PageNode) (w : list loc) :
  h !! n = Some nd -> walk h (next_ nd) w ->
  (forall m, next_ nd = Some m -> exists nd', h !! m = Some nd' /\ prev_ nd' = Some n) ->
  walk h (Some n) (n :: w).
Proof.
  intros Hn [Hs Hx Hp] Hback. split; [done| |].
  - intros [|i] m; simpl; [intros [= <-]; eauto|apply Hx].
  - intros [|i] m k; simpl; [|apply Hp]. intros [= <-] Hk. apply Hback. congruence.
Qed.

Lemma node_Ret (h : heap) (n : loc) (nd : PageNode) : node h n = Ret nd -> h !! n = Some nd.
Proof. unfold node. by destruct (h !! n); intros [= ->]. Qed.

Lemma check_forward_sound (fuel : nat) (h : heap) (L : LRU) (p : option loc) (c0 c : Z) :
  check_forward fuel h L c0 p = Ret c ->
  exists w, walk h p w /\ c = c0 + Z.of_nat (length w)
    /\ (w = [] \/ tail_ L = prev_at w (length w)).
Proof.
  revert p c0. induction fuel as [|fuel IH]; intros p c0; simpl; [done|].
  destruct p as [n|]; [|intros [= ->]; exists []; split; [split; done|]; simpl; split; [lia|by left]].
  destruct (node h n) as [nd| |] eqn:Hn; cbn [mbind res_bind]; [|done..].
  apply node_Ret in Hn. destruct (next_ nd) as [m|] eqn:Hx.
  - destruct (node h m) as [nd'| |] eqn:Hm; cbn [mbind res_bind]; [|done..].
    apply node_Ret in Hm. case_bool_decide as Hp; [|done]. intros Hc.
    destruct (IH _ _ Hc) as (w & Hw & -> & Ht). exists (n :: w). split; [|split; [simpl; lia|]].
    + apply walk_cons with nd; [done|by rewrite Hx|]. rewrite Hx. intros ? [= <-]. eauto.
    + right. destruct w as [|a w]; [by destruct Hw|]. by destruct Ht.
  - case_bool_decide as Ht; simpl; [|done]. case_match; [|done].
    destruct fuel; [done|]. intros [= <-]. exists [n]. split; [|split; [simpl; lia|by right]].
    apply walk_cons with nd; [done|rewrite Hx; split; done|by rewrite Hx].
Qed.

(** A walk that ends visits no node twice: the rest of the walk is determined
    by the node, so two visits would have rests of the same length. *)
Lemma walk_nodup (h : heap) (p : option loc) (w : list loc) : walk h p w -> NoDup w.
Proof.
  intros [Hs Hx Hp]. apply NoDup_alt.
  assert (forall i j n, (i < j)%nat -> w !! i = Some n -> w !! j = Some n -> False) as Hlt.
  { intros i j n Hij Hi Hj.
    assert (forall k, w !! (i + k)%nat = w !! (j + k)%nat) as Hk.
    { induction k as [|k IHk]; [by rewrite !Nat.add_0_r, Hi, Hj|].
      rewrite !Nat.add_succ_r. apply lookup_lt_Some in Hj as Hj'.
      destruct (w !! (i + k)%nat) as [x|] eqn:E1.
      - destruct (Hx _ _ E1) as (nd1 & H1 & <-).
        destruct (Hx _ _ (eq_sym IHk)) as (nd2 & H2 & <-). congruence.
      - apply lookup_ge_None in E1. symmetry in IHk. apply lookup_ge_None in IHk.
        rewrite !lookup_ge_None_2 by lia. done. }
    apply lookup_lt_Some in Hj. specialize (Hk (length w - j)%nat).
    rewrite (lookup_ge_None_2 w (j + _)) in Hk by lia. apply lookup_ge_None in Hk. lia. }
  intros i j n Hi Hj. destruct (Nat.lt_trichotomy i j) as [?|[?|?]]; [|done|];
    exfalso; eauto.
Qed.

Lemma check_ends_sound (h : heap) (L : LRU) :
  check_ends h L = Ret tt ->
  (0 < size_ L /\ exists n nd, head_ L = Some n /\ h !! n = Some nd /\ prev_ nd = None)
  \/ (size_ L <= 0 /\ head_ L = None /\ tail_ L = None).
Proof.
  unfold check_ends. destruct (Z.ltb_spec 0 (size_ L)).
  - destruct (head_ L) as [n|]; [|done]. cbn [deref mbind res_bind].
    destruct (node h n) as [nd| |] eqn:Hn; cbn [mbind res_bind]; [|done..].
    apply node_Ret in Hn. case_bool_decide; [|done]. eauto 10.
  - destruct (head_ L), (tail_ L); try done. eauto.
Qed.

(** The debugging routine [Check] is exact: it passes precisely on the states
    in which head, tail and size describe one list of distinct nodes, linked in
    both directions. *)
Theorem lru_check_iff (h : heap) (L : LRU) :
  LRU_Check h L = Ret tt <-> exists l, lru_rep h L l.
Proof.
  split; [|intros [l Hr]; by apply LRU_Check_complete with l].
  unfold LRU_Check. destruct (check_ends h L) as [[]| |] eqn:He; cbn [mbind res_bind]; [|done..].
  destruct (check_forward (2 + size h) h L 0 (head_ L)) as [c| |] eqn:Hf;
    cbn [mbind res_bind]; [|done..].
  destruct (Z.eqb_spec c (size_ L)) as [Hc|]; [|done]. intros _.
  apply check_forward_sound in Hf as (w & Hw & -> & Ht). simpl in Hc.
  exists w. pose proof Hw as [Hs Hx Hp].
  apply check_ends_sound in He as [(Hpos & a & nda & Ha & Hnda & Hpa)|(Hneg & Hh & Htl)].
  - split; [done| |done|by apply walk_nodup with h (head_ L)|].
    { destruct Ht as [->|Ht]; [simpl in Hc; lia|done]. }
    intros i n Hi. destruct (Hx i n Hi) as (nd & Hn & Hnx). rewrite Hn. simpl. unfold links.
    rewrite Hnx. do 2 f_equal. destruct i as [|i]; simpl; [congruence|].
    apply lookup_lt_Some in Hi as Hlt.
    destruct (lookup_lt_is_Some_2 w i ltac:(lia)) as [m Hm].
    destruct (Hp _ _ _ Hm Hi) as (nd' & Hn' & Hpv). rewrite Hm. congruence.
  - assert (w = []) as -> by (destruct w; [done|simpl in Hc; lia]).
    split; try done. constructor.
Qed.

(** Pages are evicted in the order they were brought in: using the page at the
    tail does not save it from being the next one evicted. *)
Theorem lru_get_does_not_promote (h : heap) (L : LRU) (l : list loc) (n : loc) :
  lru_rep h L (l ++ [n]) -> Z.of_nat (length l) < 2 ^ 31 - 1 ->
  exists h1 L1 h2 L2, Get n h L = Ret (h1, L1) /\ Popback h1 L1 = Ret (Some n, h2, L2)
    /\ lru_rep h2 L2 l.
Proof.
  intros Hr Hb. destruct (Popback_spec h L l n Hr Hb) as (h' & L' & Hp & Hr' & _).
  exists h, L, h', L'. done.
Qed.

(** Destroying a list that is not empty reads a node after deleting it. *)
Theorem lru_destructor_use_after_free (h : heap) (L : LRU) (n : loc) (l : list loc) :
  lru_rep h L (n :: l) -> delete_LRU (2 + size h) (head_ L) h = Fault UseAfterFree.
Proof.
  intros Hr. rewrite (rep_head _ _ _ Hr). simpl.
  destruct (rep_node _ _ _ 0%nat n Hr eq_refl) as (nd & -> & _). cbn [mbind res_bind].
  unfold node. by rewrite lookup_delete_eq.
Qed.

(** Two nodes prepended to an empty list. *)
Definition lru_example : res (heap * LRU) :=
  let nd := new_PageNode 0 [] in
  '(h, l) ← Prepend 1%nat (<[1%nat := nd]> (<[2%nat := nd]> ∅)) new_LRU;
  Prepend 2%nat h l.

Lemma lru_example_rep :
  exists h L, lru_example = Ret (h, L) /\ lru_rep h L [2%nat; 1%nat].
Proof.
  eexists _, _. split; [vm_compute; reflexivity|].
  split; [done|done|done|by vm_compute; repeat constructor; set_solver|].
  intros [|[|i]] n; simpl; intros [= <-]; reflexivity.
Qed.

Lemma lru_get_does_not_promote_witness :
  exists h L h1 L1 h2 L2, lru_example = Ret (h, L)
    /\ Get 1%nat h L = Ret (h1, L1) /\ Popback h1 L1 = Ret (Some 1%nat, h2, L2).
Proof.
  destruct lru_example_rep as (h & L & HL & Hr).
  destruct (lru_get_does_not_promote h L [2%nat] 1%nat Hr ltac:(simpl; lia))
    as (h1 & L1 & h2 & L2 & H1 & H2 & _).
  exists h, L, h1, L1, h2, L2. done.
Defined.

Lemma lru_destructor_use_after_free_witness :
  exists h L, lru_example = Ret (h, L)
    /\ delete_LRU (2 + size h) (head_ L) h = Fault UseAfterFree.
Proof.
  destruct lru_example_rep as (h & L & HL & Hr). exists h, L. split; [exact HL|].
  apply (lru_destructor_use_after_free h L 2%nat [1%nat] Hr).
Defined.
