(* ===== verification/Buffer.v ===== *)
(** * db2: the buffer pool ([common/buffer/buffer.cpp], [common/buffer/lru_index.cpp])

    The pool keeps [page_num_] page frames on two lists, used and free, with an
    index from page ids to the used frames.  It is modelled over any page store
    with the [Disk] interface; its theorems use only [DiskSpec].  The abstract
    content of a page is [view]: the frame if the page is cached, the store
    otherwise. *)

From S2P Require Import Prelude Config Page FileIO Lru.

(** ** LruIndex *)

(** [src/common/buffer/lru_index.h:25-28 LruIndexFlag] *)
Inductive LruIndexFlag := EXIST | NOT_EXIST.

#[export] Instance LruIndexFlag_eq_dec : EqDecision LruIndexFlag.
Proof. solve_decision. Defined.

(** The map never holds a null pointer, so the assertion on it is vacuous.
    [src/common/buffer/lru_index.cpp:9-30 LruIndex::IndexGet] *)
Definition LruIndexGet (page_id : Z) (lru_map_ : gmap Z loc) : LruIndexFlag * option loc :=
  match lru_map_ !! page_id with
  | None => (NOT_EXIST, None)
  | Some n => (EXIST, Some n)
  end.

(** [src/common/buffer/lru_index.cpp:37-39 LruIndex::IndexDelete] *)
Definition LruIndexDelete (page_id : Z) (lru_map_ : gmap Z loc) : gmap Z loc :=
  delete page_id lru_map_.

(** [src/common/buffer/lru_index.cpp:32-35 LruIndex::IndexPut] *)
Definition LruIndexPut (page_id : Z) (page_node : loc) (lru_map_ : gmap Z loc) : gmap Z loc :=
  <[page_id := page_node]> (LruIndexDelete page_id lru_map_).

(** ** Buffer *)

(** The pool, with the frames it owns in [nodes].
    [src/common/buffer/buffer.h:50-60 page_list_] *)
Record Buffer := mkBuffer {
  page_num_ : Z;
  nodes : heap;
  page_list_ : LRU;
  free_list_ : LRU;
  lru_map_ : gmap Z loc;
}.

(** One round of the loop that fills the free list.
    [src/common/buffer/buffer.cpp:31-34 page_node] *)
Definition add_frame (version0 page_size : Z) (s : heap * LRU) (i : nat) : res (heap * LRU) :=
  Prepend i (<[i := new_PageNode version0 (replicate (Z.to_nat page_size) Byte.x00)]> s.1) s.2.

(** Cutting the pool of [page_num] frames of [page_size] zero bytes each.
    [version0] is the indeterminate [version_] of a new [Page].
    [src/common/buffer/buffer.cpp:20-37 Buffer::Buffer] *)
Definition new_Buffer (version0 : Z) (total_size page_size : Z) : res Buffer :=
  let page_num := i32 (total_size / page_size) in
  '(h, fl) ← foldM (add_frame version0 page_size) (∅, new_LRU) (seq 0 (Z.to_nat page_num));
  assert! size_ fl =? page_num;
  assert! size_ new_LRU =? 0;
  Ret {| page_num_ := page_num; nodes := h; page_list_ := new_LRU; free_list_ := fl;
         lru_map_ := ∅ |}.

Section Buffer.
Context {D : Type} `{Disk D}.

(** One round of the flushing loops: the tail of the used list is written out
    and its frame becomes free.
    [src/common/buffer/buffer.cpp:55-64 page_node] *)
Definition flush_one (b : Buffer) (d : D) : res (Buffer * D) :=
  '(n, h, pl) ← Popback (nodes b) (page_list_ b);
  n ← deref n;
  nd ← node h n;
  '(_, d) ← disk_write (page_id_ (page_ nd)) (page_buf_ (page_ nd)) d;
  let idx := LruIndexDelete (page_id_ (page_ nd)) (lru_map_ b) in
  h ← upd_node n (fun nd => with_page (set_page_id UINT64_MAX (page_ nd)) nd) h;
  '(h, fl) ← Prepend n h (free_list_ b);
  Ret ({| page_num_ := page_num_ b; nodes := h; page_list_ := pl; free_list_ := fl;
          lru_map_ := idx |}, d).

Fixpoint flush_many (k : nat) (b : Buffer) (d : D) : res (Buffer * D) :=
  match k with
  | O => Ret (b, d)
  | S k => '(b, d) ← flush_one b d; flush_many k b d
  end.

(** [src/common/buffer/buffer.cpp:49-66 Buffer::FlushPageList] *)
Definition FlushPageList (b : Buffer) (d : D) : res (Buffer * D) :=
  assert! size_ (free_list_ b) =? 0;
  assert! size_ (page_list_ b) =? page_num_ b;
  flush_many (Z.to_nat (Z.quot (page_num_ b) 5)) b d.

(** [src/common/buffer/buffer.cpp:68-83 Buffer::FlushALl] *)
Definition FlushALl (b : Buffer) (d : D) : res (Buffer * D) :=
  flush_many (Z.to_nat (size_ (page_list_ b))) b d.

(** [src/common/buffer/buffer.cpp:85-94 Buffer::FreeListToPageList] *)
Definition FreeListToPageList (page_id : Z) (page_buf : bytes) (count : Z) (b : Buffer)
    : res Buffer :=
  assert! 0 <? size_ (free_list_ b);
  assert! size_ (page_list_ b) <? page_num_ b;
  '(n, h, fl) ← Popback (nodes b) (free_list_ b);
  n ← deref n;
  nd ← node h n;
  p ← set_page_buf page_buf count (set_page_id page_id (page_ nd));
  h ← upd_node n (with_page p) h;
  let idx := LruIndexPut page_id n (lru_map_ b) in
  '(h, pl) ← Prepend n h (page_list_ b);
  Ret {| page_num_ := page_num_ b; nodes := h; page_list_ := pl; free_list_ := fl;
         lru_map_ := idx |}.

(** A free frame is made before a page is brought in.
    [src/common/buffer/buffer.cpp:118-121 FlushPageList] *)
Definition make_room (b : Buffer) (d : D) : res (Buffer * D) :=
  if size_ (free_list_ b) <=? 0 then FlushPageList b d else Ret (b, d).

(** [src/common/buffer/buffer.cpp:155-191 Buffer::BufferGet] *)
Definition BufferGet (page_id : Z) (buf : bytes) (count : Z) (b : Buffer) (d : D)
    : res (bytes * Buffer * D) :=
  assert! i32 (size_ (page_list_ b) + size_ (free_list_ b)) =? page_num_ b;
  match LruIndexGet page_id (lru_map_ b) with
  | (EXIST, page_node) =>
      n ← deref page_node;
      '(h, pl) ← Get n (nodes b) (page_list_ b);
      nd ← node h n;
      buf ← memcpy buf 0 (page_buf_ (page_ nd)) 0 count;
      Ret (buf, {| page_num_ := page_num_ b; nodes := h; page_list_ := pl;
                   free_list_ := free_list_ b; lru_map_ := lru_map_ b |}, d)
  | (NOT_EXIST, _) =>
      '(_, buf, d) ← disk_read page_id buf d;
      '(b, d) ← make_room b d;
      b ← FreeListToPageList page_id buf count b;
      Ret (buf, b, d)
  end.

(** [src/common/buffer/buffer.cpp:193-221 Buffer::BufferPut] *)
Definition BufferPut (page_id : Z) (buf : bytes) (count : Z) (b : Buffer) (d : D)
    : res (Buffer * D) :=
  assert! i32 (size_ (page_list_ b) + size_ (free_list_ b)) =? page_num_ b;
  match LruIndexGet page_id (lru_map_ b) with
  | (EXIST, page_node) =>
      n ← deref page_node;
      '(h, pl) ← Get n (nodes b) (page_list_ b);
      nd ← node h n;
      p ← set_page_buf buf count (page_ nd);
      h ← upd_node n (with_page p) h;
      Ret ({| page_num_ := page_num_ b; nodes := h; page_list_ := pl;
              free_list_ := free_list_ b; lru_map_ := lru_map_ b |}, d)
  | (NOT_EXIST, _) =>
      '(b, d) ← make_room b d;
      b ← FreeListToPageList page_id buf count b;
      Ret (b, d)
  end.

(** [src/common/buffer/buffer.cpp:96-126 Buffer::BufferGetWithLock] *)
Definition BufferGetWithLock (page_id : Z) (buf : bytes) (count : Z) (b : Buffer) (d : D)
    : res (bytes * Buffer * D) :=
  assert! i32 (size_ (page_list_ b) + size_ (free_list_ b)) =? page_num_ b;
  let '(flag, page_node) := LruIndexGet page_id (lru_map_ b) in
  if decide (EXIST = flag) then
    n ← deref page_node;
    '(h, pl) ← Get n (nodes b) (page_list_ b);
    nd ← node h n;
    buf ← memcpy buf 0 (page_buf_ (page_ nd)) 0 count;
    Ret (buf, {| page_num_ := page_num_ b; nodes := h; page_list_ := pl;
                 free_list_ := free_list_ b; lru_map_ := lru_map_ b |}, d)
  else if decide (NOT_EXIST = flag) then
    '(_, buf, d) ← disk_read page_id buf d;
    '(b, d) ← (if size_ (free_list_ b) <=? 0 then FlushPageList b d else Ret (b, d));
    b ← FreeListToPageList page_id buf count b;
    Ret (buf, b, d)
  else Fault Assert.

(** [src/common/buffer/buffer.cpp:128-152 Buffer::BufferPutWithLock] *)
Definition BufferPutWithLock (page_id : Z) (buf : bytes) (count : Z) (b : Buffer) (d : D)
    : res (Buffer * D) :=
  assert! i32 (size_ (page_list_ b) + size_ (free_list_ b)) =? page_num_ b;
  let '(flag, page_node) := LruIndexGet page_id (lru_map_ b) in
  if decide (EXIST = flag) then
    assert! bool_decide (page_node <> None);
    n ← deref page_node;
    '(h, pl) ← Get n (nodes b) (page_list_ b);
    nd ← node h n;
    p ← set_page_buf buf count (page_ nd);
    h ← upd_node n (with_page p) h;
    Ret ({| page_num_ := page_num_ b; nodes := h; page_list_ := pl;
            free_list_ := free_list_ b; lru_map_ := lru_map_ b |}, d)
  else if decide (NOT_EXIST = flag) then
    assert! bool_decide (page_node = None);
    '(b, d) ← (if size_ (free_list_ b) <=? 0 then FlushPageList b d else Ret (b, d));
    b ← FreeListToPageList page_id buf count b;
    Ret (b, d)
  else Fault Assert.

(** The used pages are written out, then the lists are destroyed.
    [src/common/buffer/buffer.cpp:39-47 Buffer::~Buffer] *)
Definition delete_Buffer (b : Buffer) (d : D) : res (Buffer * D) :=
  '(b, d) ← FlushALl b d;
  h ← delete_LRU (2 + size (nodes b)) (head_ (free_list_ b)) (nodes b);
  h ← delete_LRU (2 + size h) (head_ (page_list_ b)) h;
  Ret ({| page_num_ := page_num_ b; nodes := h; page_list_ := page_list_ b;
          free_list_ := free_list_ b; lru_map_ := lru_map_ b |}, d).

(** ** Invariant and abstraction *)

Context `{!DiskSpec D}.

(** The frames are split between the two lists, the index names exactly the
    used frames, every frame holds a whole page and the pool is large enough
    for a flush to free at least one frame. *)
Record buf_inv (b : Buffer) (pl fl : list loc) : Prop := mk_buf_inv {
  inv_used : lru_rep (nodes b) (page_list_ b) pl;
  inv_free : lru_rep (nodes b) (free_list_ b) fl;
  inv_split : NoDup (pl ++ fl);
  inv_count : Z.of_nat (length (pl ++ fl)) = page_num_ b;
  inv_num : 5 <= page_num_ b < 2 ^ 31 - 1;
  inv_index : forall id n, lru_map_ b !! id = Some n <->
    n ∈ pl /\ exists nd, nodes b !! n = Some nd /\ page_id_ (page_ nd) = id;
  inv_bufs : forall n nd, nodes b !! n = Some nd ->
    Z.of_nat (length (page_buf_ (page_ nd))) = MY_PAGE_SIZE;
  inv_valid : forall id n, lru_map_ b !! id = Some n -> disk_valid id;
}.

Definition buffer_ok (b : Buffer) : Prop := exists pl fl, buf_inv b pl fl.

(** The content of a page as a client of the pool sees it. *)
Definition view (b : Buffer) (d : D) (id : Z) : option bytes :=
  match lru_map_ b !! id with
  | Some n => page_buf_ ∘ page_ <$> nodes b !! n
  | None => disk_page d id
  end.

(** No page content is lost between two states. *)
Definition view_le (b : Buffer) (d : D) (b' : Buffer) (d' : D) : Prop :=
  forall id v, disk_valid id -> view b d id = Some v -> view b' d' id = Some v.

Lemma view_le_refl (b : Buffer) (d : D) : view_le b d b d.
Proof. by intros id v. Qed.

Lemma view_le_trans (b1 b2 b3 : Buffer) (d1 d2 d3 : D) :
  view_le b1 d1 b2 d2 -> view_le b2 d2 b3 d3 -> view_le b1 d1 b3 d3.
Proof. unfold view_le. eauto. Qed.

Lemma same_pages_lookup (h h' : heap) (n : loc) (nd : PageNode) :
  same_pages h h' -> h !! n = Some nd -> exists nd', h' !! n = Some nd' /\ page_ nd' = page_ nd.
Proof.
  intros Hs Hn. specialize (Hs n). rewrite Hn in Hs. simpl in Hs.
  destruct (h' !! n) as [nd'|]; simpl in Hs; [|done]. injection Hs. eauto.
Qed.

Lemma same_pages_sym (h h' : heap) : same_pages h h' -> same_pages h' h.
Proof. intros Hs n. by rewrite Hs. Qed.

(** The pages after one frame's page was replaced and the links rearranged. *)
Lemma pages_after (h1 h2 h3 : heap) (n : loc) (p : Page) (nd : PageNode) :
  same_pages h1 h2 -> h2 !! n = Some nd -> same_pages (<[n := with_page p nd]> h2) h3 ->
  forall m, page_ <$> h3 !! m = if decide (n = m) then Some p else page_ <$> h1 !! m.
Proof.
  intros H12 Hn H23 m. rewrite H23. case_decide as Hm.
  - subst m. by rewrite lookup_insert_eq.
  - rewrite lookup_insert_ne by done. apply H12.
Qed.

Lemma with_page_links (h : heap) (n : loc) (nd : PageNode) (p : Page) (m : loc) :
  h !! n = Some nd -> links <$> <[n := with_page p nd]> h !! m = links <$> h !! m.
Proof.
  intros Hn. destruct (decide (n = m)) as [<-|];
    [by rewrite lookup_insert_eq, Hn|by rewrite lookup_insert_ne].
Qed.

(** A frame moved from the tail of one list to the head of the other, its page
    replaced on the way. *)
Lemma move_frame (h : heap) (A B : LRU) (la lb : list loc) (n : loc) :
  lru_rep h A (la ++ [n]) -> lru_rep h B lb -> NoDup ((la ++ [n]) ++ lb) ->
  Z.of_nat (length ((la ++ [n]) ++ lb)) < 2 ^ 31 - 1 ->
  exists h1 A' nd, Popback h A = Ret (Some n, h1, A')
    /\ h1 !! n = Some nd /\ page_ <$> h !! n = Some (page_ nd)
    /\ forall p, exists h3 B', Prepend n (<[n := with_page p nd]> h1) B = Ret (h3, B')
         /\ lru_rep h3 A' la /\ lru_rep h3 B' (n :: lb)
         /\ forall m, page_ <$> h3 !! m = if decide (n = m) then Some p else page_ <$> h !! m.
Proof.
  intros HA HB Hnd Hlen. rewrite !length_app in Hlen.
  apply list.NoDup_app in Hnd as (Hnda & Hdisj & Hndb).
  destruct (Popback_spec h A la n HA ltac:(lia))
    as (h1 & A' & Hpop & HA' & Hs1 & (nd & Hn & Hprev) & Hf1).
  exists h1, A', nd. split; [done|]. split; [done|]. split.
  { rewrite <- Hs1, Hn. done. }
  intros p.
  assert (n ∉ lb) as Hnb by (apply Hdisj; set_solver).
  assert (lru_rep (<[n := with_page p nd]> h1) B lb) as HB2.
  { apply lru_rep_frame with h; [done|]. intros m Hm. rewrite with_page_links by done.
    rewrite Hf1; [done|]. intros Hin. by apply (Hdisj m Hin). }
  assert (n ∉ la) as Hna by (apply list.NoDup_app in Hnda; set_solver).
  destruct (Prepend_spec _ B lb n (with_page p nd) HB2 Hnb) as (h3 & B' & Hpre & HB' & Hs3 & Hf3);
    [by rewrite lookup_insert_eq|done|lia|].
  exists h3, B'. split; [done|]. split; [|split; [done|]].
  - apply lru_rep_frame with h1; [done|]. intros m Hm.
    rewrite Hf3; [by apply with_page_links|].
    intros [->|Hin]%elem_of_cons; [done|]. apply (Hdisj m); set_solver.
  - by apply pages_after with h1 nd.
Qed.

(** ** Flushing *)

Lemma index_lookup (b : Buffer) (pl fl : list loc) (n : loc) (p : Page) :
  buf_inv b pl fl -> n ∈ pl -> page_ <$> nodes b !! n = Some p ->
  lru_map_ b !! page_id_ p = Some n.
Proof.
  intros Hi Hn Hp. destruct (nodes b !! n) as [nd|] eqn:E; [|done]. injection Hp as <-.
  apply (inv_index _ _ _ Hi). eauto.
Qed.

Lemma pages_Some (h : heap) (m : loc) (nd : PageNode) :
  h !! m = Some nd -> page_ <$> h !! m = Some (page_ nd).
Proof. by intros ->. Qed.

Lemma bufs_after (h h3 : heap) (n : loc) (p : Page) :
  (forall m nd, h !! m = Some nd -> Z.of_nat (length (page_buf_ (page_ nd))) = MY_PAGE_SIZE) ->
  Z.of_nat (length (page_buf_ p)) = MY_PAGE_SIZE ->
  (forall m, page_ <$> h3 !! m = if decide (n = m) then Some p else page_ <$> h !! m) ->
  forall m nd, h3 !! m = Some nd -> Z.of_nat (length (page_buf_ (page_ nd))) = MY_PAGE_SIZE.
Proof.
  intros Hb Hp Hpg m nd Hm. specialize (Hpg m). rewrite Hm in Hpg. simpl in Hpg.
  case_decide; [congruence|]. destruct (h !! m) as [nd'|] eqn:E; [|done].
  injection Hpg as ->. by apply (Hb m).
Qed.

Lemma page_bufs (h : heap) (m : loc) :
  page_buf_ ∘ page_ <$> h !! m = page_buf_ <$> (page_ <$> h !! m).
Proof. by destruct (h !! m). Qed.

Lemma flush_inv (b : Buffer) (pl fl : list loc) (n : loc) (nd : PageNode) (h3 : heap)
    (A' B' : LRU) :
  buf_inv b (pl ++ [n]) fl -> page_ <$> nodes b !! n = Some (page_ nd) ->
  lru_rep h3 A' pl -> lru_rep h3 B' (n :: fl) ->
  (forall m, page_ <$> h3 !! m = if decide (n = m)
     then Some (set_page_id UINT64_MAX (page_ nd)) else page_ <$> nodes b !! m) ->
  buf_inv {| page_num_ := page_num_ b; nodes := h3; page_list_ := A'; free_list_ := B';
             lru_map_ := LruIndexDelete (page_id_ (page_ nd)) (lru_map_ b) |} pl (n :: fl).
Proof.
  intros Hi Hp HA HB Hpg. pose proof Hi as [Hu Hf Hs Hc Hnum Hix Hb Hv].
  assert (n ∉ pl) as Hnp.
  { rewrite <- app_assoc in Hs. apply list.NoDup_app in Hs as (_ & Hs & _).
    intros Hin. apply (Hs n Hin). set_solver. }
  assert (forall m, n <> m -> page_ <$> h3 !! m = page_ <$> nodes b !! m) as Hpg'.
  { intros m Hm. by rewrite Hpg, decide_False. }
  split; simpl; try done.
  - by rewrite <- app_assoc in Hs.
  - rewrite <- Hc. rewrite !length_app. simpl. lia.
  - intros id m. unfold LruIndexDelete. rewrite lookup_delete_Some, Hix. split.
    + intros (Hne & Hin & nd0 & Hm & <-).
      assert (n <> m) as Hnm.
      { intros <-. rewrite Hm in Hp. injection Hp as Hp. by rewrite Hp in Hne. }
      split; [set_solver|]. specialize (Hpg' m Hnm). rewrite Hm in Hpg'.
      destruct (h3 !! m) as [nd3|]; [|done]. injection Hpg' as Hpg'. exists nd3. by rewrite Hpg'.
    + intros (Hin & nd3 & Hm & <-). assert (n <> m) as Hnm by set_solver.
      specialize (Hpg' m Hnm). rewrite Hm in Hpg'.
      destruct (nodes b !! m) as [nd0|] eqn:E; [|done]. injection Hpg' as Hpg'.
      split; [|split; [set_solver|exists nd0; by rewrite Hpg']].
      intros Heq. assert (lru_map_ b !! page_id_ (page_ nd0) = Some m) as H1
        by (apply Hix; set_solver).
      assert (lru_map_ b !! page_id_ (page_ nd) = Some n) as H2
        by (eapply index_lookup; [done|set_solver|done]).
      rewrite <- Hpg', <- Heq in H1. congruence.
  - eapply bufs_after; [done| |done].
    destruct (nodes b !! n) as [nd0|] eqn:E; [|done]. injection Hp as <-. by apply (Hb n).
  - unfold LruIndexDelete. intros id m [_ Hm]%lookup_delete_Some. by apply (Hv id m).
Qed.

Lemma flush_one_spec (b : Buffer) (d : D) (pl fl : list loc) (n : loc) :
  buf_inv b (pl ++ [n]) fl -> disk_wf d ->
  exists b' d', flush_one b d = Ret (b', d')
    /\ buf_inv b' pl (n :: fl) /\ disk_wf d' /\ page_num_ b' = page_num_ b
    /\ view_le b d b' d'.
Proof.
  intros Hi Hd. pose proof Hi as [Hu Hf Hs Hc Hnum Hix Hb Hv].
  destruct (move_frame _ _ _ _ _ _ Hu Hf Hs ltac:(lia))
    as (h1 & A' & nd & Hpop & Hn & Hp & Hmove).
  set (id := page_id_ (page_ nd)).
  assert (lru_map_ b !! id = Some n) as Hid by (eapply index_lookup; [done|set_solver|done]).
  assert (Z.of_nat (length (page_buf_ (page_ nd))) = MY_PAGE_SIZE) as Hlen.
  { destruct (nodes b !! n) as [nd0|] eqn:E; [|done]. injection Hp as <-. by apply (Hb n). }
  destruct (disk_write_spec d id (page_buf_ (page_ nd)) Hd (Hv _ _ Hid) Hlen)
    as (r & d' & Hw & Hd' & Hsame & Hother).
  destruct (Hmove (set_page_id UINT64_MAX (page_ nd))) as (h3 & B' & Hpre & HA & HB & Hpg).
  unfold flush_one. rewrite Hpop. cbn [mbind res_bind deref]. unfold node. rewrite Hn.
  cbn [mbind res_bind]. fold id. rewrite Hw. cbn [mbind res_bind].
  rewrite (upd_node_Ret _ _ _ _ Hn). cbn [mbind res_bind]. rewrite Hpre. cbn [mbind res_bind].
  eexists _, _. split; [done|]. split; [|split; [done|split; [done|]]].
  - apply (flush_inv b pl fl n nd h3 A' B' Hi Hp HA HB Hpg).
  - intros id' v Hval. unfold view, LruIndexDelete. simpl.
    destruct (decide (id = id')) as [<-|Hne].
    + rewrite Hid, lookup_delete_eq. rewrite page_bufs, Hp. simpl. by intros [= <-].
    + rewrite lookup_delete_ne by done. destruct (lru_map_ b !! id') as [m|] eqn:Em.
      * rewrite !page_bufs, Hpg. rewrite decide_False; [done|]. intros <-.
        apply Hix in Em as (_ & nd0 & E0 & <-). apply Hix in Hid as (_ & nd1 & E1 & Hid1).
        rewrite E0 in E1. injection E1 as ->. by rewrite Hid1 in Hne.
      * intros Hv'. by apply Hother.
Qed.

Lemma flush_many_spec (k : nat) (b : Buffer) (d : D) (pl fl : list loc) :
  buf_inv b pl fl -> disk_wf d -> (k <= length pl)%nat ->
  exists b' d' fl', flush_many k b d = Ret (b', d')
    /\ buf_inv b' (take (length pl - k) pl) fl' /\ disk_wf d'
    /\ page_num_ b' = page_num_ b /\ view_le b d b' d'.
Proof.
  revert b d pl fl. induction k as [|k IH]; intros b d pl fl Hi Hd Hk; simpl.
  - exists b, d, fl. rewrite Nat.sub_0_r, firstn_all. auto using view_le_refl.
  - destruct (exists_last (l := pl)) as (pl' & n & ->); [by intros ->; simpl in Hk; lia|].
    rewrite length_app in *. simpl in *.
    destruct (flush_one_spec b d pl' fl n Hi Hd) as (b1 & d1 & -> & Hi1 & Hd1 & Hn1 & Hle1).
    cbn [mbind res_bind].
    destruct (IH b1 d1 pl' (n :: fl) Hi1 Hd1 ltac:(lia)) as (b2 & d2 & fl2 & -> & Hi2 & Hd2 & Hn2 & Hle2).
    exists b2, d2, fl2. split; [done|].
    rewrite take_app_le by lia. replace (length pl' + 1 - S k)%nat with (length pl' - k)%nat by lia.
    split; [done|]. split; [done|]. split; [congruence|]. by eapply view_le_trans.
Qed.

(** Flushing only takes entries out of the index. *)
Lemma flush_many_index (k : nat) (b b' : Buffer) (d d' : D) (id : Z) :
  flush_many k b d = Ret (b', d') -> lru_map_ b !! id = None -> lru_map_ b' !! id = None.
Proof.
  revert b d. induction k as [|k IH]; intros b d; simpl; [by intros [= -> ->]|].
  destruct (flush_one b d) as [[b1 d1]| |] eqn:E; simpl; [|done..].
  intros Hf Hnone. apply (IH _ _ Hf). unfold flush_one in E. res_inv.
  simpl. unfold LruIndexDelete. by rewrite lookup_delete_None; right.
Qed.

(** A flush of everything leaves no page cached, and the store holds the
    content every page had. *)
Lemma FlushALl_spec (b : Buffer) (d : D) (pl fl : list loc) :
  buf_inv b pl fl -> disk_wf d ->
  exists b' d' fl', FlushALl b d = Ret (b', d')
    /\ buf_inv b' [] fl' /\ disk_wf d' /\ page_num_ b' = page_num_ b
    /\ lru_map_ b' = ∅ /\ view_le b d b' d'.
Proof.
  intros Hi Hd. unfold FlushALl. rewrite (rep_size _ _ _ (inv_used _ _ _ Hi)), Nat2Z.id.
  destruct (flush_many_spec (length pl) b d pl fl Hi Hd ltac:(lia))
    as (b' & d' & fl' & He & Hi' & Hd' & Hn & Hle).
  rewrite Nat.sub_diag, take_0 in Hi'. exists b', d', fl'. do 4 (split; [done|]). split; [|done].
  apply map_empty. intros id. destruct (lru_map_ b' !! id) as [n|] eqn:E; [|done].
  apply (inv_index _ _ _ Hi') in E as [Hin _]. set_solver.
Qed.

Lemma make_room_spec (b : Buffer) (d : D) (pl fl : list loc) :
  buf_inv b pl fl -> disk_wf d ->
  exists b' d' pl' fl' n, make_room b d = Ret (b', d')
    /\ buf_inv b' pl' (fl' ++ [n]) /\ disk_wf d' /\ page_num_ b' = page_num_ b
    /\ view_le b d b' d'
    /\ forall id, lru_map_ b !! id = None -> lru_map_ b' !! id = None.
Proof.
  intros Hi Hd. unfold make_room. rewrite (rep_size _ _ _ (inv_free _ _ _ Hi)).
  destruct (decide (fl = [])) as [->|Hne].
  - pose proof (inv_count _ _ _ Hi) as Hc. pose proof (inv_num _ _ _ Hi) as Hnum.
    rewrite app_nil_r in Hc. simpl. unfold FlushPageList.
    rewrite (rep_size _ _ _ (inv_free _ _ _ Hi)), (rep_size _ _ _ (inv_used _ _ _ Hi)).
    rewrite Hc, !Z.eqb_refl. simpl.
    set (k := Z.to_nat (page_num_ b ÷ 5)).
    assert (1 <= k <= length pl)%nat as Hk.
    { unfold k. rewrite Z.quot_div_nonneg by lia.
      pose proof (Z.div_le_lower_bound (page_num_ b) 5 1). 
      pose proof (Z.div_le_upper_bound (page_num_ b) 5 (page_num_ b)). lia. }
    destruct (flush_many_spec k b d pl [] Hi Hd ltac:(lia))
      as (b' & d' & fl' & He & Hi' & Hd' & Hn & Hle).
    destruct (exists_last (l := fl')) as (fl2 & n & ->).
    { intros ->. pose proof (inv_count _ _ _ Hi') as Hc'.
      rewrite app_nil_r, length_take in Hc'. lia. }
    exists b', d', (take (length pl - k) pl), fl2, n. split; [exact He|]. do 4 (split; [done|]).
    intros id. by apply (flush_many_index k b b' d d').
  - destruct (exists_last Hne) as (fl2 & n & ->). rewrite length_app. simpl.
    destruct (Z.leb_spec (Z.of_nat (length fl2 + 1)) 0); [lia|].
    exists b, d, pl, fl2, n. auto 10 using view_le_refl.
Qed.

(** ** Bringing a page in *)

Lemma set_page_buf_all (buf : bytes) (p : Page) :
  Z.of_nat (length buf) = MY_PAGE_SIZE -> Z.of_nat (length (page_buf_ p)) = MY_PAGE_SIZE ->
  set_page_buf buf MY_PAGE_SIZE p = Ret (with_buf buf p).
Proof.
  intros Hb Hp. unfold set_page_buf.
  rewrite memcpy_Ret by lia. cbn [mbind res_bind].
  rewrite slice_all' by lia. by rewrite splice_all by lia.
Qed.

Lemma fill_inv (b : Buffer) (pl fl : list loc) (n : loc) (p : Page) (h3 : heap) (A' B' : LRU) :
  buf_inv b pl (fl ++ [n]) -> lru_map_ b !! page_id_ p = None -> disk_valid (page_id_ p) ->
  Z.of_nat (length (page_buf_ p)) = MY_PAGE_SIZE ->
  lru_rep h3 A' fl -> lru_rep h3 B' (n :: pl) ->
  (forall m, page_ <$> h3 !! m = if decide (n = m) then Some p else page_ <$> nodes b !! m) ->
  buf_inv {| page_num_ := page_num_ b; nodes := h3; page_list_ := B'; free_list_ := A';
             lru_map_ := LruIndexPut (page_id_ p) n (lru_map_ b) |} (n :: pl) fl.
Proof.
  intros Hi Hnone Hval Hlen HA HB Hpg. pose proof Hi as [Hu Hf Hs Hc Hnum Hix Hb Hv].
  assert (Permutation (pl ++ fl ++ [n]) (n :: pl ++ fl)) as Hperm.
  { rewrite app_assoc. symmetry. apply Permutation_cons_append. }
  assert (n ∉ pl) as Hnp.
  { apply list.NoDup_app in Hs as (_ & Hs & _). intros Hin. apply (Hs n Hin). set_solver. }
  unfold LruIndexPut, LruIndexDelete. rewrite insert_delete_eq. split; simpl; try done.
  - by rewrite <- Hperm.
  - rewrite <- Hc, Hperm. done.
  - intros id m. rewrite lookup_insert_Some, Hix. split.
    + intros [[<- <-]|(Hne & Hin & nd & Hm & <-)].
      * split; [set_solver|]. specialize (Hpg n). rewrite decide_True in Hpg by done.
        destruct (h3 !! n) as [nd3|]; [|done]. injection Hpg as <-. eauto.
      * split; [set_solver|]. specialize (Hpg m). rewrite decide_False in Hpg by set_solver.
        rewrite Hm in Hpg. destruct (h3 !! m) as [nd3|]; [|done]. injection Hpg as Hpg.
        exists nd3. by rewrite Hpg.
    + intros (Hin & nd3 & Hm & <-). specialize (Hpg m). rewrite Hm in Hpg. simpl in Hpg.
      case_decide as Hnm; [injection Hpg as ->; by left|]. right.
      destruct (nodes b !! m) as [nd0|] eqn:E; [|done]. injection Hpg as Hpg. rewrite Hpg.
      assert (m ∈ pl) as Hmp by set_solver.
      split; [|split; [done|eauto]]. intros Heq.
      assert (lru_map_ b !! page_id_ (page_ nd0) = Some m) as H1 by (apply Hix; eauto).
      rewrite <- Heq in H1. congruence.
  - by eapply bufs_after.
  - intros id m [[<- _]|[_ Hm]]%lookup_insert_Some; [done|by apply (Hv id m)].
Qed.

Lemma FreeListToPageList_spec (b : Buffer) (d : D) (pl fl : list loc) (n : loc) (id : Z)
    (buf : bytes) :
  buf_inv b pl (fl ++ [n]) -> lru_map_ b !! id = None -> disk_valid id ->
  Z.of_nat (length buf) = MY_PAGE_SIZE ->
  exists b', FreeListToPageList id buf MY_PAGE_SIZE b = Ret b'
    /\ buf_inv b' (n :: pl) fl /\ page_num_ b' = page_num_ b
    /\ view b' d id = Some buf
    /\ forall id', id' <> id -> view b' d id' = view b d id'.
Proof.
  intros Hi Hnone Hval Hlen. pose proof Hi as [Hu Hf Hs Hc Hnum Hix Hb Hv].
  assert (NoDup ((fl ++ [n]) ++ pl)) as Hs' by (by rewrite Permutation_app_comm).
  destruct (move_frame _ _ _ _ _ _ Hf Hu Hs') as (h1 & A' & nd & Hpop & Hn & Hp & Hmove).
  { rewrite Permutation_app_comm. lia. }
  rewrite !length_app in Hc. simpl in Hc.
  assert (Z.of_nat (length (page_buf_ (page_ nd))) = MY_PAGE_SIZE) as Hlen'.
  { destruct (nodes b !! n) as [nd0|] eqn:E; [|done]. injection Hp as <-. by apply (Hb n). }
  set (p := with_buf buf (set_page_id id (page_ nd))).
  destruct (Hmove p) as (h3 & B' & Hpre & HA & HB & Hpg).
  unfold FreeListToPageList.
  rewrite (rep_size _ _ _ Hf), (rep_size _ _ _ Hu), length_app. simpl length.
  guard_true. guard_true. rewrite Hpop. cbn [mbind res_bind deref]. unfold node. rewrite Hn.
  cbn [mbind res_bind]. rewrite set_page_buf_all by done. cbn [mbind res_bind]. fold p.
  rewrite (upd_node_Ret _ _ _ _ Hn). cbn [mbind res_bind]. rewrite Hpre. cbn [mbind res_bind].
  eexists. split; [done|]. split; [|split; [done|]].
  - by apply (fill_inv b pl fl n p h3 A' B').
  - unfold view, LruIndexPut, LruIndexDelete. simpl. rewrite insert_delete_eq. split.
    + rewrite lookup_insert_eq, page_bufs, Hpg, decide_True by done. done.
    + intros id' Hne. rewrite lookup_insert_ne by done.
      destruct (lru_map_ b !! id') as [m|] eqn:Em; [|done].
      rewrite !page_bufs, Hpg, decide_False; [done|]. intros <-.
      apply Hix in Em as [Hin _]. apply list.NoDup_app in Hs as (_ & Hs & _).
      apply (Hs n Hin). set_solver.
Qed.

(** ** Reads and writes *)

Lemma inv_total (b : Buffer) (pl fl : list loc) :
  buf_inv b pl fl -> (i32 (size_ (page_list_ b) + size_ (free_list_ b)) =? page_num_ b) = true.
Proof.
  intros [Hu Hf Hs Hc Hnum Hix Hb Hv]. rewrite (rep_size _ _ _ Hu), (rep_size _ _ _ Hf).
  rewrite length_app in Hc. rewrite i32_id by lia. apply Z.eqb_eq. lia.
Qed.

Lemma cached_node (b : Buffer) (pl fl : list loc) (id : Z) (n : loc) :
  buf_inv b pl fl -> lru_map_ b !! id = Some n ->
  exists nd, node (nodes b) n = Ret nd /\ nodes b !! n = Some nd /\ page_id_ (page_ nd) = id
    /\ Z.of_nat (length (page_buf_ (page_ nd))) = MY_PAGE_SIZE.
Proof.
  intros Hi Hid. apply (inv_index _ _ _ Hi) in Hid as (_ & nd & Hn & He).
  exists nd. unfold node. rewrite Hn. repeat split; try done. by apply (inv_bufs _ _ _ Hi n).
Qed.

(** Overwriting the page of a cached frame. *)
Lemma overwrite_inv (b : Buffer) (pl fl : list loc) (n : loc) (nd : PageNode) (buf : bytes) :
  buf_inv b pl fl -> nodes b !! n = Some nd -> Z.of_nat (length buf) = MY_PAGE_SIZE ->
  buf_inv {| page_num_ := page_num_ b; nodes := <[n := with_page (with_buf buf (page_ nd)) nd]> (nodes b);
             page_list_ := page_list_ b; free_list_ := free_list_ b;
             lru_map_ := lru_map_ b |} pl fl.
Proof.
  intros [Hu Hf Hs Hc Hnum Hix Hb Hv] Hn Hlen. split; simpl; try done.
  - apply lru_rep_frame with (nodes b); [done|]. intros m _. by apply with_page_links.
  - apply lru_rep_frame with (nodes b); [done|]. intros m _. by apply with_page_links.
  - intros id m. rewrite Hix. apply and_iff_compat_l.
    destruct (decide (n = m)) as [<-|]; [|by rewrite lookup_insert_ne].
    rewrite lookup_insert_eq, Hn. naive_solver.
  - intros m nd' [[_ <-]|[_ Hm]]%lookup_insert_Some; [done|by apply (Hb m)].
Qed.

Lemma BufferPut_spec (b : Buffer) (d : D) (id : Z) (buf : bytes) :
  buffer_ok b -> disk_wf d -> disk_valid id -> Z.of_nat (length buf) = MY_PAGE_SIZE ->
  exists b' d', BufferPut id buf MY_PAGE_SIZE b d = Ret (b', d')
    /\ buffer_ok b' /\ disk_wf d' /\ page_num_ b' = page_num_ b
    /\ view b' d' id = Some buf
    /\ forall id' v, disk_valid id' -> id' <> id -> view b d id' = Some v -> view b' d' id' = Some v.
Proof.
  intros (pl & fl & Hi) Hd Hval Hlen. unfold BufferPut, LruIndexGet, Get.
  rewrite (inv_total _ _ _ Hi). destruct (lru_map_ b !! id) as [n|] eqn:Eid.
  - destruct (cached_node _ _ _ _ _ Hi Eid) as (nd & Hnode & Hn & Hpid & Hl).
    cbn [mbind res_bind deref]. rewrite Hnode. cbn [mbind res_bind].
    rewrite set_page_buf_all by done. cbn [mbind res_bind].
    rewrite (upd_node_Ret _ _ _ _ Hn). cbn [mbind res_bind].
    eexists _, d. split; [done|]. split; [exists pl, fl; by apply overwrite_inv|].
    split; [done|]. split; [done|]. unfold view. simpl. rewrite Eid. split.
    + by rewrite lookup_insert_eq.
    + intros id' v _ Hne. destruct (lru_map_ b !! id') as [m|] eqn:Em; [|done].
      rewrite lookup_insert_ne; [done|]. intros <-.
      apply (inv_index _ _ _ Hi) in Em as (_ & nd0 & E0 & <-). congruence.
  - destruct (make_room_spec b d pl fl Hi Hd) as (b1 & d1 & pl1 & fl1 & n & -> & Hi1 & Hd1 & Hn1 & Hle & Hix).
    cbn [mbind res_bind].
    destruct (FreeListToPageList_spec b1 d1 pl1 fl1 n id buf Hi1 (Hix _ Eid) Hval Hlen)
      as (b2 & -> & Hi2 & Hn2 & Hv2 & Hv2').
    cbn [mbind res_bind]. exists b2, d1. split; [done|]. split; [by exists (n :: pl1), fl1|].
    split; [done|]. split; [congruence|]. split; [done|].
    intros id' v Hval' Hne Hv'. rewrite Hv2' by done. by apply Hle.
Qed.

Lemma BufferGet_spec (b : Buffer) (d : D) (id : Z) (buf : bytes) :
  buffer_ok b -> disk_wf d -> disk_valid id -> Z.of_nat (length buf) = MY_PAGE_SIZE ->
  exists b' d', BufferGet id buf MY_PAGE_SIZE b d = Ret (default buf (view b d id), b', d')
    /\ buffer_ok b' /\ disk_wf d' /\ page_num_ b' = page_num_ b
    /\ view b' d' id = Some (default buf (view b d id))
    /\ view_le b d b' d'.
Proof.
  intros (pl & fl & Hi) Hd Hval Hlen. unfold BufferGet, LruIndexGet, Get.
  rewrite (inv_total _ _ _ Hi). destruct (lru_map_ b !! id) as [n|] eqn:Eid.
  - destruct (cached_node _ _ _ _ _ Hi Eid) as (nd & Hnode & Hn & Hpid & Hl).
    cbn [mbind res_bind deref]. rewrite Hnode. cbn [mbind res_bind].
    rewrite memcpy_Ret by lia. cbn [mbind res_bind].
    rewrite slice_all', splice_all by lia.
    assert (view b d id = Some (page_buf_ (page_ nd))) as Hview
      by (unfold view; by rewrite Eid, Hn).
    rewrite Hview. simpl. eexists _, d. split; [by destruct b|].
    split; [exists pl, fl; by destruct b|]. split; [done|]. split; [by destruct b|].
    split; [by destruct b|]. destruct b. apply view_le_refl.
  - destruct (disk_read_spec d id buf Hd Hval Hlen) as (r & d0 & -> & Hd0 & Hsame).
    assert (view b d id = disk_page d id) as Hview by (unfold view; by rewrite Eid).
    rewrite Hview. set (got := default buf (disk_page d id)). cbn [mbind res_bind].
    assert (Z.of_nat (length got) = MY_PAGE_SIZE) as Hgot.
    { unfold got. destruct (disk_page d id) eqn:E; [|done]. by apply disk_page_length with d id. }
    assert (view_le b d b d0) as Hle0.
    { intros id' v _. unfold view. destruct (lru_map_ b !! id'); [done|by rewrite Hsame]. }
    destruct (make_room_spec b d0 pl fl Hi Hd0) as (b1 & d1 & pl1 & fl1 & n & -> & Hi1 & Hd1 & Hn1 & Hle & Hix).
    cbn [mbind res_bind].
    destruct (FreeListToPageList_spec b1 d1 pl1 fl1 n id got Hi1 (Hix _ Eid) Hval Hgot)
      as (b2 & -> & Hi2 & Hn2 & Hv2 & Hv2').
    cbn [mbind res_bind]. exists b2, d1. split; [done|]. split; [by exists (n :: pl1), fl1|].
    split; [done|]. split; [congruence|]. split; [done|].
    intros id' v Hval' Hv'. destruct (decide (id' = id)) as [->|Hne].
    + rewrite Hv2. rewrite Hview in Hv'. unfold got. by rewrite Hv'.
    + rewrite Hv2' by done. by apply Hle, Hle0.
Qed.

(** ** Refinement of an abstract page memory *)

Inductive buf_op :=
  | OpGet (id : Z) (buf : bytes)
  | OpPut (id : Z) (buf : bytes)
  | OpFlush.

Definition op_valid (op : buf_op) : Prop :=
  match op with
  | OpGet id buf | OpPut id buf => disk_valid id /\ Z.of_nat (length buf) = MY_PAGE_SIZE
  | OpFlush => True
  end.

(** One call of the pool, with the bytes it delivers. *)
Definition exec (op : buf_op) (s : Buffer * D) : res (bytes * (Buffer * D)) :=
  match op with
  | OpGet id buf => '(out, b, d) ← BufferGet id buf MY_PAGE_SIZE s.1 s.2; Ret (out, (b, d))
  | OpPut id buf => s ← BufferPut id buf MY_PAGE_SIZE s.1 s.2; Ret ([], s)
  | OpFlush => s ← FlushALl s.1 s.2; Ret ([], s)
  end.

Fixpoint exec_all (ops : list buf_op) (s : Buffer * D) : res (list bytes * (Buffer * D)) :=
  match ops with
  | [] => Ret ([], s)
  | op :: ops => '(out, s) ← exec op s; '(outs, s) ← exec_all ops s; Ret (out :: outs, s)
  end.

(** What a page memory promises: a page holds what was last put there; a page
    never put may hold anything, and keeps it once seen. *)
Inductive mem_step (m : gmap Z bytes) : buf_op -> bytes -> gmap Z bytes -> Prop :=
  | mem_get id buf out :
      (forall v, m !! id = Some v -> out = v) ->
      mem_step m (OpGet id buf) out (<[id := out]> m)
  | mem_put id buf : mem_step m (OpPut id buf) [] (<[id := buf]> m)
  | mem_flush : mem_step m OpFlush [] m.

Inductive mem_steps : gmap Z bytes -> list buf_op -> list bytes -> gmap Z bytes -> Prop :=
  | mem_nil m : mem_steps m [] [] m
  | mem_cons m1 m2 m3 op ops out outs :
      mem_step m1 op out m2 -> mem_steps m2 ops outs m3 ->
      mem_steps m1 (op :: ops) (out :: outs) m3.

(** A state of pool and store implements a memory. *)
Definition implements (s : Buffer * D) (m : gmap Z bytes) : Prop :=
  buffer_ok s.1 /\ disk_wf s.2
  /\ forall id v, m !! id = Some v -> disk_valid id /\ view s.1 s.2 id = Some v.

Lemma exec_refines (op : buf_op) (s : Buffer * D) (m : gmap Z bytes) :
  implements s m -> op_valid op ->
  exists out s' m', exec op s = Ret (out, s') /\ mem_step m op out m' /\ implements s' m'.
Proof.
  destruct s as [b d]. intros (Hb & Hd & Hm) Hop. simpl in Hb, Hd, Hm.
  destruct op as [id buf|id buf|]; simpl in *.
  - destruct Hop as [Hval Hlen].
    destruct (BufferGet_spec b d id buf Hb Hd Hval Hlen) as (b' & d' & -> & Hb' & Hd' & _ & Hv & Hle).
    cbn [mbind res_bind]. eexists _, _, _. split; [done|]. split.
    + apply mem_get. intros v Hv'. apply Hm in Hv' as [_ Hv']. by rewrite Hv'.
    + split; [done|]. split; [done|]. simpl.
      intros id' v [[<- <-]|[Hne Hv']]%lookup_insert_Some; [done|].
      destruct (Hm _ _ Hv'). auto.
  - destruct Hop as [Hval Hlen].
    destruct (BufferPut_spec b d id buf Hb Hd Hval Hlen) as (b' & d' & -> & Hb' & Hd' & _ & Hv & Hle).
    cbn [mbind res_bind]. eexists _, _, _. split; [done|]. split; [constructor|].
    split; [done|]. split; [done|]. simpl.
    intros id' v [[<- <-]|[Hne Hv']]%lookup_insert_Some; [done|].
    destruct (Hm _ _ Hv'). auto.
  - destruct Hb as (pl & fl & Hi).
    destruct (FlushALl_spec b d pl fl Hi Hd) as (b' & d' & fl' & -> & Hi' & Hd' & _ & _ & Hle).
    cbn [mbind res_bind]. eexists _, _, _. split; [done|]. split; [constructor|].
    split; [by exists [], fl'|]. split; [done|]. simpl.
    intros id' v Hv'. destruct (Hm _ _ Hv'). auto.
Qed.

(** C9: Every sequence of reads, writes and flushes of whole pages runs without a
    failed assertion, in any eviction order, and its outputs are those of a
    plain page memory. *)
Theorem buffer_refines_memory (ops : list buf_op) (s : Buffer * D) (m : gmap Z bytes) :
  implements s m -> Forall op_valid ops ->
  exists outs s' m', exec_all ops s = Ret (outs, s') /\ mem_steps m ops outs m'
    /\ implements s' m'.
Proof.
  intros Hs Hops. revert s m Hs. induction Hops as [|op ops Hop Hops IH]; intros s m Hs; simpl.
  - eexists _, _, _. split; [done|]. split; [constructor|done].
  - destruct (exec_refines op s m Hs Hop) as (out & s1 & m1 & -> & Hstep & Hs1).
    cbn [mbind res_bind]. destruct (IH s1 m1 Hs1) as (outs & s2 & m2 & -> & Hsteps & Hs2).
    cbn [mbind res_bind]. eexists _, _, _. split; [done|].
    split; [by econstructor|done].
Qed.

(** The two pairs of entry points compute the same when calls do not
    overlap: taking the mutex for the whole call changes nothing else. *)
Theorem buffer_with_lock_equiv (id : Z) (buf : bytes) (count : Z) (b : Buffer) (d : D) :
  BufferGetWithLock id buf count b d = BufferGet id buf count b d
  /\ BufferPutWithLock id buf count b d = BufferPut id buf count b d.
Proof.
  unfold BufferGetWithLock, BufferGet, BufferPutWithLock, BufferPut, LruIndexGet, make_room.
  split; case_match; try done; by destruct (lru_map_ b !! id).
Qed.

(** With fewer than five frames a flush frees none, so the first miss on a
    full pool fails an assertion. *)
Theorem buffer_small_pool_fails (id : Z) (buf : bytes) (count : Z) (b : Buffer) (d : D) :
  0 <= page_num_ b < 5 -> size_ (page_list_ b) = page_num_ b -> size_ (free_list_ b) = 0 ->
  lru_map_ b !! id = None ->
  BufferPut id buf count b d = Fault Assert.
Proof.
  intros Hnum Hu Hf Hid. unfold BufferPut, LruIndexGet, make_room, FlushPageList.
  rewrite Hu, Hf, Hid. rewrite i32_id by lia.
  replace (page_num_ b + 0 =? page_num_ b) with true by (symmetry; apply Z.eqb_eq; lia).
  rewrite !Z.eqb_refl. simpl.
  assert (page_num_ b ÷ 5 = 0) as -> by (apply Z.quot_small; lia). simpl.
  unfold FreeListToPageList. rewrite ?Hf. done.
Qed.
End Buffer.

(** ** A new pool *)

Lemma new_frames (version0 : Z) (k : nat) :
  Z.of_nat k < 2 ^ 31 - 1 ->
  exists h fl, foldM (add_frame version0 MY_PAGE_SIZE) (∅, new_LRU) (seq 0 k) = Ret (h, fl)
    /\ lru_rep h fl (rev (seq 0 k))
    /\ forall n nd, h !! n = Some nd ->
         (n < k)%nat /\ page_ nd = new_Page version0 (replicate (Z.to_nat MY_PAGE_SIZE) Byte.x00).
Proof.
  induction k as [|k IH]; intros Hk.
  - exists ∅, new_LRU. split; [done|]. split; [apply new_LRU_rep|].
    intros n nd Hn. by rewrite lookup_empty in Hn.
  - destruct IH as (h & fl & Hf & Hr & Hn); [lia|].
    rewrite seq_S, foldM_app, Hf. cbn [foldM mbind res_bind]. simpl plus. unfold add_frame. cbn [fst snd].
    set (frame := new_PageNode version0 (replicate (Z.to_nat MY_PAGE_SIZE) Byte.x00)).
    assert (h !! k = None) as Hnone.
    { destruct (h !! k) as [nd|] eqn:E; [|done]. apply Hn in E. lia. }
    assert (k ∉ rev (seq 0 k)) as Hk'.
    { rewrite list_elem_of_In, <- in_rev, in_seq. lia. }
    destruct (Prepend_spec (<[k := frame]> h) fl (rev (seq 0 k)) k frame)
      as (h' & fl' & -> & Hr' & Hs & _).
    + apply lru_rep_frame with h; [done|]. intros m Hm.
      rewrite lookup_insert_ne; [done|]. intros <-. done.
    + done.
    + by rewrite lookup_insert_eq.
    + done.
    + rewrite length_rev, length_seq. lia.
    + cbn [mbind res_bind]. exists h', fl'. split; [done|]. split; [by rewrite rev_app_distr|].
      intros n nd E. specialize (Hs n). rewrite E in Hs. simpl in Hs.
      destruct (decide (k = n)) as [<-|Hne].
      * rewrite lookup_insert_eq in Hs. injection Hs as ->. split; [lia|done].
      * rewrite lookup_insert_ne in Hs by done. destruct (h !! n) as [nd0|] eqn:E0; [|done].
        injection Hs as ->. destruct (Hn _ _ E0). split; [lia|done].
Qed.

Lemma new_Buffer_ok {D} `{DiskSpec D} (version0 total_size : Z) :
  5 <= total_size / MY_PAGE_SIZE < 2 ^ 31 - 1 ->
  exists b, new_Buffer version0 total_size MY_PAGE_SIZE = Ret b
    /\ buffer_ok b /\ lru_map_ b = ∅ /\ page_num_ b = total_size / MY_PAGE_SIZE.
Proof.
  intros Hnum. unfold new_Buffer. cbv zeta. rewrite i32_id by lia.
  destruct (new_frames version0 (Z.to_nat (total_size / MY_PAGE_SIZE))) as (h & fl & -> & Hr & Hn);
    [lia|].
  cbn [mbind res_bind]. rewrite (rep_size _ _ _ Hr), length_rev, length_seq.
  rewrite Z2Nat.id by lia. rewrite Z.eqb_refl. simpl.
  eexists. split; [done|]. split; [|done].
  exists [], (rev (seq 0 (Z.to_nat (total_size / MY_PAGE_SIZE)))). split; simpl.
  - apply new_LRU_rep.
  - done.
  - apply (rep_nodup _ _ _ Hr).
  - rewrite length_rev, length_seq. lia.
  - done.
  - intros id n. rewrite lookup_empty. set_solver.
  - intros n nd E. destruct (Hn _ _ E) as [_ ->]. simpl. rewrite length_replicate.
    rewrite MY_PAGE_SIZE_eq. lia.
  - intros id n. by rewrite lookup_empty.
Qed.

(** The pool [ManagerInstance] and [GlobalLock] create, over any pages that lie
    in the store, starts out as the memory of those pages. *)
Lemma new_Buffer_implements {D} `{DiskSpec D} (version0 : Z) (d : D) (m : gmap Z bytes) :
  disk_wf d -> (forall id v, m !! id = Some v -> disk_valid id /\ disk_page d id = Some v) ->
  exists b, new_Buffer version0 FILE_SIZE MY_PAGE_SIZE = Ret b /\ implements (b, d) m.
Proof.
  intros Hd Hm.
  destruct (new_Buffer_ok version0 FILE_SIZE) as (b & Hb & Hok & Hix & _).
  { rewrite MY_PAGE_SIZE_eq. change FILE_SIZE with (1024 * 16 * 1024 * 100). vm_compute. split; [discriminate|done]. }
  exists b. split; [done|]. split; [done|]. split; [done|]. intros id v Hv. simpl.
  unfold view. rewrite Hix, lookup_empty. by apply Hm.
Qed.

(** After [FlushALl] the page store alone holds the content of every page. *)
Theorem buffer_flush_durable {D} `{DiskSpec D} (b : Buffer) (d : D) :
  buffer_ok b -> disk_wf d ->
  exists b' d', FlushALl b d = Ret (b', d') /\ buffer_ok b' /\ disk_wf d'
    /\ forall id v, disk_valid id -> view b d id = Some v -> disk_page d' id = Some v.
Proof.
  intros (pl & fl & Hi) Hd.
  destruct (FlushALl_spec b d pl fl Hi Hd) as (b' & d' & fl' & He & Hi' & Hd' & _ & Hix & Hle).
  exists b', d'. split; [done|]. split; [by exists [], fl'|]. split; [done|].
  intros id v Hval Hv. specialize (Hle id v Hval Hv). unfold view in Hle.
  by rewrite Hix, lookup_empty in Hle.
Qed.

(** ** Witnesses *)

Definition a_page : bytes := replicate (Z.to_nat MY_PAGE_SIZE) Byte.x42.

Lemma length_a_page : Z.of_nat (length a_page) = MY_PAGE_SIZE.
Proof. unfold a_page. rewrite length_replicate, MY_PAGE_SIZE_eq. lia. Qed.

Definition empty_store : MemoryIO := {| db_ := ∅ |}.

Lemma empty_store_wf : disk_wf empty_store.
Proof. intros id b. simpl. by rewrite lookup_empty. Qed.

Lemma buffer_refines_memory_witness :
  exists b outs s' m', new_Buffer 0 FILE_SIZE MY_PAGE_SIZE = Ret b
    /\ exec_all [OpPut 3 a_page; OpFlush; OpGet 3 a_page] (b, empty_store) = Ret (outs, s')
    /\ mem_steps ∅ [OpPut 3 a_page; OpFlush; OpGet 3 a_page] outs m'.
Proof.
  destruct (new_Buffer_implements 0 empty_store ∅ empty_store_wf) as (b & Hb & Hm).
  { intros id v. by rewrite lookup_empty. }
  destruct (buffer_refines_memory [OpPut 3 a_page; OpFlush; OpGet 3 a_page] (b, empty_store) ∅ Hm)
    as (outs & s' & m' & He & Hs & _).
  { repeat constructor; apply length_a_page. }
  exists b, outs, s', m'. auto.
Defined.

Lemma buffer_flush_durable_witness :
  exists b b' d', new_Buffer 0 FILE_SIZE MY_PAGE_SIZE = Ret b
    /\ FlushALl b empty_store = Ret (b', d').
Proof.
  destruct (new_Buffer_implements 0 empty_store ∅ empty_store_wf) as (b & Hb & Hok & _).
  { intros id v. by rewrite lookup_empty. }
  destruct (buffer_flush_durable b empty_store Hok empty_store_wf) as (b' & d' & He & _).
  exists b, b', d'. auto.
Defined.

(** A pool of two frames, both in use. *)
Definition small_pool : res (Buffer * MemoryIO) :=
  b ← new_Buffer 0 (2 * MY_PAGE_SIZE) MY_PAGE_SIZE;
  '(b, d) ← BufferPut 0 a_page MY_PAGE_SIZE b empty_store;
  BufferPut 1 a_page MY_PAGE_SIZE b d.

Lemma buffer_small_pool_fails_witness :
  exists b d, small_pool = Ret (b, d) /\ BufferPut 2 a_page MY_PAGE_SIZE b d = Fault Assert.
Proof.
  assert (match small_pool with
          | Ret (b, _) => (page_num_ b =? 2) && (size_ (page_list_ b) =? 2)
                          && (size_ (free_list_ b) =? 0) && bool_decide (lru_map_ b !! 2 = None)
          | _ => false
          end = true) as Hc by (vm_compute; reflexivity).
  destruct small_pool as [[b d]| |]; [|discriminate Hc|discriminate Hc].
  apply andb_true_iff in Hc as [Hc H4]. apply andb_true_iff in Hc as [Hc H3].
  apply andb_true_iff in Hc as [H1 H2].
  apply Z.eqb_eq in H1, H2, H3. apply bool_decide_eq_true in H4.
  exists b, d. split; [reflexivity|].
  apply buffer_small_pool_fails; [rewrite H1; lia|congruence|exact H3|exact H4].
Defined.
