(* ===== verification/Index.v ===== *)
(** * db2: the primary index ([common/index/index.cpp])

    The map from keys to page locations and its two file formats. *)

From S2P Require Import Prelude Config FileIO.

#[local] Arguments Nat.mul : simpl never.

(** [src/common/index/index.h:12-15 IndexFlag] *)
Inductive IndexFlag := EXIST | NOT_EXIST.

(** [src/common/index/index.h:17-26 IndexItem] *)
Record IndexItem := mkIndexItem {
  page_id_ : Z;
  page_location_ : Z;
}.

(** [src/common/index/index.h:49-53 index_] *)
Record Index := mkIndex {
  index_ : gmap Z IndexItem;
  index_name_ : string;
}.

(** [src/common/index/index.cpp:27-27 Index::Index] *)
Definition new_Index (index_name : string) : Index :=
  {| index_ := ∅; index_name_ := index_name |}.

(** [indexItem] is the caller's item, left as it is when the key is absent.
    [src/common/index/index.cpp:38-48 Index::IndexGet] *)
Definition IndexGet (key : Z) (indexItem : IndexItem) (ix : Index) : IndexFlag * IndexItem :=
  match index_ ix !! key with
  | None => (NOT_EXIST, indexItem)
  | Some it => (EXIST, {| page_id_ := page_id_ it; page_location_ := page_location_ it |})
  end.

(** [src/common/index/index.cpp:50-66 Index::IndexPut] *)
Definition IndexPut (key : Z) (indexItem : IndexItem) (ix : Index) : Z * Index :=
  let put it := {| index_ := <[key := it]> (index_ ix); index_name_ := index_name_ ix |} in
  match index_ ix !! key with
  | Some _ => (0, put {| page_id_ := page_id_ indexItem; page_location_ := page_location_ indexItem |})
  | None => (0, put (mkIndexItem (page_id_ indexItem) (page_location_ indexItem)))
  end.

(** The size of the arrays the two routines work through. *)
Definition CHUNK : Z := 524280.

(** The variables of the loop of [Serialize]. *)
Record ser_state := mkSer {
  ser_buf : bytes;
  buf_used_size : Z;
  ser_offset : Z;
  ser_io : FileIO;
}.

(** One entry of the map.
    [src/common/index/index.cpp:83-95 buf_used_size] *)
Definition serialize_entry (fd : Z) (s : ser_state) (e : Z * IndexItem) : res ser_state :=
  s ← (if buf_used_size s =? CHUNK then
         '(x, io) ← Write fd (ser_buf s) (buf_used_size s) (ser_offset s) (ser_io s);
         assert! x =? buf_used_size s;
         Ret {| ser_buf := ser_buf s; buf_used_size := 0;
                ser_offset := u64 (ser_offset s + buf_used_size s); ser_io := io |}
       else Ret s);
  b ← store_u64 (ser_buf s) (buf_used_size s + 0 * 8) e.1;
  b ← store_u64 b (buf_used_size s + 1 * 8) (page_id_ e.2);
  b ← store_u64 b (buf_used_size s + 2 * 8) (page_location_ e.2);
  Ret {| ser_buf := b; buf_used_size := u64 (buf_used_size s + 3 * 8);
         ser_offset := ser_offset s; ser_io := ser_io s |}.

(** Everything [Serialize] does before it closes the file: [order] is the order
    in which the hash map is iterated, [junk] the indeterminate content of the
    local array.
    [src/common/index/index.cpp:68-98 Index::Serialize] *)
Definition serialize_write (order : list (Z * IndexItem)) (junk : bytes) (ix : Index)
    (io : FileIO) : res (Z * FileIO) :=
  '(fd, io) ← Open (DB_PREFIX +:+ index_name_ ix) io;
  assert! 0 <=? fd;
  let index_size := u64 (Z.of_nat (size (index_ ix))) in
  let file_size := u64 (8 + 8 + 3 * 8 * Z.of_nat (size (index_ ix))) in
  '(_, io) ← Write fd (bytes_of_u64 file_size) 8 0 io;
  '(_, io) ← Write fd (bytes_of_u64 index_size) 8 8 io;
  s ← foldM (serialize_entry fd) (mkSer junk 0 (2 * 8) io) order;
  if 0 <? buf_used_size s then
    '(_, io) ← Write fd (ser_buf s) (buf_used_size s) (ser_offset s) (ser_io s);
    Ret (fd, io)
  else Ret (fd, ser_io s).

(** [src/common/index/index.cpp:68-102 Index::Serialize] *)
Definition Serialize (order : list (Z * IndexItem)) (junk : bytes) (ix : Index)
    (io : FileIO) : res FileIO :=
  '(fd, io) ← serialize_write order junk ix io;
  '(r, io) ← Close_fd fd io;
  assert! r =? 0;
  Ret io.

(** One entry read back.
    [src/common/index/index.cpp:127-133 key] *)
Definition deserialize_entry (buf : bytes) (ix : Index) (i : nat) : res Index :=
  let off := 3 * Z.of_nat i * 8 in
  key ← load_u64 buf (off + 0 * 8);
  page_id ← load_u64 buf (off + 1 * 8);
  loc ← load_u64 buf (off + 2 * 8);
  Ret (IndexPut key (mkIndexItem page_id loc) ix).2.

(** The reading loop.  Every round that passes its assertion has read at least
    one byte of the file, so the length of the file bounds the rounds.
    [src/common/index/index.cpp:120-135 read_size] *)
Fixpoint deserialize_loop (fuel : nat) (fd file_size offset : Z) (buf : bytes) (ix : Index)
    (io : FileIO) : res Index :=
  match fuel with
  | O => Fault OutOfFuel
  | S fuel =>
      if offset <? file_size then
        let read_size := if u64 (offset + CHUNK) <=? file_size then CHUNK
                         else u64 (file_size - offset) in
        '(x, buf) ← Read fd buf read_size offset io;
        assert! x =? read_size;
        ix ← foldM (deserialize_entry buf) ix (seq 0 (Z.to_nat (read_size / (3 * 8))));
        deserialize_loop fuel fd file_size (u64 (offset + read_size)) buf ix io
      else Ret ix
  end.

(** Everything [DeSerialize] does before it closes the file; [junk8] and [junk]
    are the indeterminate contents of its locals.
    [src/common/index/index.cpp:104-135 Index::DeSerialize] *)
Definition deserialize_read (junk8 junk : bytes) (ix : Index) (io : FileIO)
    : res (Z * Index * FileIO) :=
  let path := DB_PREFIX +:+ index_name_ ix in
  '(fd, io) ← Open path io;
  assert! 0 <=? fd;
  '(_, b) ← Read fd junk8 8 0 io;
  file_size ← load_u64 b 0;
  '(_, _) ← Read fd junk8 8 8 io;
  ix ← deserialize_loop (S (length (default [] (files (os io) !! path)))) fd file_size (8 + 8)
         junk ix io;
  Ret (fd, ix, io).

(** [src/common/index/index.cpp:104-139 Index::DeSerialize] *)
Definition DeSerialize (junk8 junk : bytes) (ix : Index) (io : FileIO) : res (Index * FileIO) :=
  '(fd, ix, io) ← deserialize_read junk8 junk ix io;
  '(r, io) ← Close_fd fd io;
  assert! r =? 0;
  Ret (ix, io).

(** ** The file format *)

Definition content (io : FileIO) (path : string) : bytes := default [] (files (os io) !! path).

(** The descriptor tables agree. *)
Definition same_fds (io io' : FileIO) : Prop :=
  descs (os io') = descs (os io) /\ fd_limit (os io') = fd_limit (os io)
  /\ opened_file_ io' = opened_file_ io.

Lemma same_fds_trans (io1 io2 io3 : FileIO) :
  same_fds io1 io2 -> same_fds io2 io3 -> same_fds io1 io3.
Proof. unfold same_fds. intuition congruence. Qed.

Lemma Write_content (io : FileIO) (fd : Z) (path : string) (buf : bytes) (n off : Z) :
  descs (os io) !! fd = Some path -> 0 <= n < 2 ^ 64 -> n <= Z.of_nat (length buf) ->
  exists io', Write fd buf n off io = Ret (n, io')
    /\ content io' path = write_at (Z.to_nat off) (take (Z.to_nat n) buf) (content io path)
    /\ same_fds io io'.
Proof.
  intros Hd Hn Hl. unfold Write, pwrite_. rewrite Hd. guard_true. cbn [mbind res_bind].
  rewrite u64_id by (unfold is_u64; lia). eexists. split; [done|].
  unfold content. simpl. by rewrite lookup_insert_eq.
Qed.

Lemma Read_content (io : FileIO) (fd : Z) (path : string) (buf : bytes) (n off : Z) :
  descs (os io) !! fd = Some path -> 0 <= n < 2 ^ 64 -> 0 <= off ->
  n <= Z.of_nat (length buf) -> off + n <= Z.of_nat (length (content io path)) ->
  Read fd buf n off io
  = Ret (n, slice (Z.to_nat off) (Z.to_nat n) (content io path) ++ drop (Z.to_nat n) buf).
Proof.
  intros Hd Hn Hoff Hl Hc. unfold Read, pread_. rewrite Hd. guard_true. cbn [mbind res_bind].
  fold (content io path). rewrite length_slice by lia.
  rewrite Z2Nat.id by lia. by rewrite u64_id by (unfold is_u64; lia).
Qed.

Lemma take_write_at (off : nat) (src c : bytes) :
  (off <= length c)%nat -> take (off + length src) (write_at off src c) = take off c ++ src.
Proof.
  intros H. unfold write_at. rewrite take_splice by (rewrite length_app, length_replicate; lia).
  by rewrite take_app_le.
Qed.

Definition enc_entry (e : Z * IndexItem) : bytes :=
  bytes_of_u64 e.1 ++ bytes_of_u64 (page_id_ e.2) ++ bytes_of_u64 (page_location_ e.2).

Definition enc (l : list (Z * IndexItem)) : bytes := flat_map enc_entry l.

Definition enc_file (l : list (Z * IndexItem)) : bytes :=
  (bytes_of_u64 (16 + 24 * Z.of_nat (length l)) ++ bytes_of_u64 (Z.of_nat (length l))) ++ enc l.

Definition entry_ok (e : Z * IndexItem) : Prop :=
  is_u64 e.1 /\ is_u64 (page_id_ e.2) /\ is_u64 (page_location_ e.2).

Lemma length_enc_entry (e : Z * IndexItem) : length (enc_entry e) = 24%nat.
Proof. unfold enc_entry. by rewrite !length_app, !length_bytes_of_u64. Qed.

Lemma length_enc (l : list (Z * IndexItem)) : length (enc l) = (24 * length l)%nat.
Proof.
  induction l as [|e l IH]; [done|]. simpl. rewrite length_app, length_enc_entry, IH. lia.
Qed.

Lemma enc_app (l1 l2 : list (Z * IndexItem)) : enc (l1 ++ l2) = enc l1 ++ enc l2.
Proof. apply flat_map_app. Qed.

(** *** Writing *)

(** The three stores of a round put one encoded entry into the array. *)
Lemma store_entry (buf : bytes) (used : Z) (e : Z * IndexItem) :
  0 <= used -> used + 24 <= Z.of_nat (length buf) ->
  (b ← store_u64 buf (used + 0 * 8) e.1;
   b ← store_u64 b (used + 1 * 8) (page_id_ e.2);
   store_u64 b (used + 2 * 8) (page_location_ e.2))
  = Ret (splice (Z.to_nat used) (enc_entry e) buf).
Proof.
  intros Hu Hl. rewrite store_u64_Ret by lia. cbn [mbind res_bind].
  replace (Z.to_nat (used + 0 * 8)) with (Z.to_nat used) by lia.
  rewrite store_u64_Ret; [|lia|rewrite length_splice; rewrite ?length_bytes_of_u64; lia].
  cbn [mbind res_bind].
  replace (Z.to_nat (used + 1 * 8)) with (Z.to_nat used + length (bytes_of_u64 e.1))%nat
    by (rewrite length_bytes_of_u64; lia).
  rewrite splice_splice by (rewrite !length_bytes_of_u64; lia).
  rewrite store_u64_Ret; [|lia|].
  2: { rewrite length_splice; rewrite ?length_app, ?length_bytes_of_u64; lia. }
  replace (Z.to_nat (used + 2 * 8))
    with (Z.to_nat used + length (bytes_of_u64 e.1 ++ bytes_of_u64 (page_id_ e.2)))%nat
    by (rewrite length_app, !length_bytes_of_u64; lia).
  rewrite splice_splice by (rewrite length_app, !length_bytes_of_u64; lia).
  unfold enc_entry. by rewrite <- app_assoc.
Qed.

(** What the writing loop has done: the entries of [p1] are in the file, those
    of [p2] in the array. *)
Record ser_inv (io0 : FileIO) (path : string) (hdr : bytes) (p1 p2 : list (Z * IndexItem))
    (s : ser_state) : Prop := mk_ser_inv {
  inv_off : ser_offset s = 16 + 24 * Z.of_nat (length p1);
  inv_used : buf_used_size s = 24 * Z.of_nat (length p2);
  inv_room : buf_used_size s <= CHUNK;
  inv_buf : take (24 * length p2) (ser_buf s) = enc p2;
  inv_len : Z.of_nat (length (ser_buf s)) = CHUNK;
  inv_file : take (16 + 24 * length p1) (content (ser_io s) path) = hdr ++ enc p1;
  inv_fds : same_fds io0 (ser_io s);
}.

Section Writing.
Context (fd : Z) (io0 : FileIO) (path : string) (hdr : bytes).
Hypothesis Hhdr : length hdr = 16%nat.
Hypothesis Hfd : descs (os io0) !! fd = Some path.

Lemma ser_flush (p1 p2 : list (Z * IndexItem)) (s : ser_state) :
  ser_inv io0 path hdr p1 p2 s ->
  exists io, Write fd (ser_buf s) (buf_used_size s) (ser_offset s) (ser_io s)
             = Ret (buf_used_size s, io)
    /\ take (16 + 24 * length (p1 ++ p2)) (content io path) = hdr ++ enc (p1 ++ p2)
    /\ same_fds io0 io.
Proof using Hhdr Hfd.
  intros [Ho Hu Hr Hb Hl Hf Hd]. unfold CHUNK in *.
  destruct (Write_content (ser_io s) fd path (ser_buf s) (buf_used_size s) (ser_offset s))
    as (io & Hw & Hc & Hd'); [by destruct Hd as [-> _]|lia|lia|].
  exists io. split; [done|]. split; [|by apply same_fds_trans with (ser_io s)].
  rewrite Hc. replace (Z.to_nat (buf_used_size s)) with (24 * length p2)%nat by lia.
  rewrite Hb. replace (Z.to_nat (ser_offset s)) with (16 + 24 * length p1)%nat by lia.
  assert (16 + 24 * length p1 <= length (content (ser_io s) path))%nat as Hlen.
  { apply (f_equal length) in Hf. rewrite length_take, length_app, length_enc, Hhdr in Hf. lia. }
  replace (16 + 24 * length (p1 ++ p2))%nat
    with (16 + 24 * length p1 + length (enc p2))%nat by (rewrite length_app, length_enc; lia).
  rewrite take_write_at by done. by rewrite Hf, enc_app, app_assoc.
Qed.

(** One round of the loop. *)
Lemma serialize_entry_spec (p1 p2 : list (Z * IndexItem)) (s : ser_state) (e : Z * IndexItem) :
  ser_inv io0 path hdr p1 p2 s -> 16 + 24 * Z.of_nat (length (p1 ++ p2)) < 2 ^ 64 ->
  exists p1' p2' s', serialize_entry fd s e = Ret s'
    /\ p1' ++ p2' = (p1 ++ p2) ++ [e] /\ ser_inv io0 path hdr p1' p2' s'.
Proof using Hhdr Hfd.
  intros Hi Hbound. unfold serialize_entry.
  assert (exists p1' p2' s', (if buf_used_size s =? CHUNK then
         '(x, io) ← Write fd (ser_buf s) (buf_used_size s) (ser_offset s) (ser_io s);
         assert! x =? buf_used_size s;
         Ret {| ser_buf := ser_buf s; buf_used_size := 0;
                ser_offset := u64 (ser_offset s + buf_used_size s); ser_io := io |}
       else Ret s) = Ret s' /\ p1' ++ p2' = p1 ++ p2 /\ ser_inv io0 path hdr p1' p2' s'
       /\ buf_used_size s' < CHUNK)
    as (q1 & q2 & s1 & -> & Hq & Hi1 & Hlt).
  { destruct (Z.eqb_spec (buf_used_size s) CHUNK) as [Heq|Hne].
    - destruct (ser_flush p1 p2 s Hi) as (io & -> & Hf & Hd). cbn [mbind res_bind].
      rewrite Z.eqb_refl. pose proof Hi as [Ho Hu Hr Hb Hl Hf' Hd']. rewrite length_app in Hbound.
      exists (p1 ++ p2), [], (mkSer (ser_buf s) 0 (u64 (ser_offset s + buf_used_size s)) io).
      split; [done|]. split; [apply app_nil_r|]. split; [|done].
      split; simpl; try done. rewrite u64_id; [|unfold is_u64]; rewrite ?length_app; lia.
    - exists p1, p2, s. pose proof (inv_room _ _ _ _ _ _ Hi). repeat split; try done; [apply Hi..|lia]. }
  cbn [mbind res_bind]. destruct Hi1 as [Ho Hu Hr Hb Hl Hf Hd]. unfold CHUNK in *.
  pose proof (store_entry (ser_buf s1) (buf_used_size s1) e ltac:(lia) ltac:(lia)) as Hst.
  apply bind_Ret in Hst as (b1 & -> & Hst). cbn [mbind res_bind].
  apply bind_Ret in Hst as (b2 & -> & Hst). cbn [mbind res_bind].
  rewrite Hst. cbn [mbind res_bind]. rewrite u64_id by (unfold is_u64; lia).
  exists q1, (q2 ++ [e]). eexists. split; [done|].
  split; [by rewrite <- Hq, <- app_assoc|].
  split; simpl; try done.
  - rewrite length_app. simpl. lia.
  - unfold CHUNK. lia.
  - rewrite length_app. simpl.
    replace (24 * (length q2 + 1))%nat with (24 * length q2 + length (enc_entry e))%nat
      by (rewrite length_enc_entry; lia).
    replace (Z.to_nat (buf_used_size s1)) with (24 * length q2)%nat by lia.
    rewrite take_splice by (rewrite length_enc_entry; lia).
    rewrite Hb, enc_app. simpl. by rewrite app_nil_r.
  - rewrite length_splice; [done|]. rewrite length_enc_entry. lia.
Qed.

Lemma serialize_loop_spec (l : list (Z * IndexItem)) (p1 p2 : list (Z * IndexItem)) (s : ser_state) :
  ser_inv io0 path hdr p1 p2 s -> 16 + 24 * Z.of_nat (length (p1 ++ p2) + length l) < 2 ^ 64 ->
  exists p1' p2' s', foldM (serialize_entry fd) s l = Ret s'
    /\ p1' ++ p2' = (p1 ++ p2) ++ l /\ ser_inv io0 path hdr p1' p2' s'.
Proof using Hhdr Hfd.
  revert p1 p2 s. induction l as [|e l IH]; intros p1 p2 s Hi Hb; simpl.
  - exists p1, p2, s. by rewrite app_nil_r.
  - simpl in Hb. destruct (serialize_entry_spec p1 p2 s e Hi ltac:(lia))
      as (q1 & q2 & s1 & -> & Hq & Hi1). cbn [mbind res_bind].
    destruct (IH q1 q2 s1 Hi1) as (r1 & r2 & s2 & -> & Hr & Hi2).
    { rewrite Hq, length_app. simpl. lia. }
    exists r1, r2, s2. split; [done|]. by rewrite Hr, Hq, <- app_assoc.
Qed.
End Writing.

Lemma header_write (c h1 h2 : bytes) :
  length h1 = 8%nat -> length h2 = 8%nat ->
  take 16 (write_at 8 h2 (write_at 0 h1 c)) = h1 ++ h2.
Proof.
  intros H1 H2. replace 16%nat with (8 + length h2)%nat by lia.
  rewrite take_write_at by (rewrite length_write_at; lia). f_equal.
  replace 8%nat with (0 + length h1)%nat by lia. rewrite take_write_at by lia. done.
Qed.

(** The file after the entries of [order] were written. *)
Lemma serialize_write_spec (order : list (Z * IndexItem)) (junk : bytes) (ix : Index) (io : FileIO) :
  length order = size (index_ ix) -> Z.of_nat (length junk) = CHUNK ->
  16 + 24 * Z.of_nat (length order) < 2 ^ 64 -> can_open (os io) ->
  let path := DB_PREFIX +:+ index_name_ ix in
  exists fd io1 io', Open path io = Ret (fd, io1)
    /\ serialize_write order junk ix io = Ret (fd, io')
    /\ take (16 + 24 * length order) (content io' path) = enc_file order
    /\ same_fds io1 io'.
Proof.
  intros Hlen Hjunk Hbound Hopen path.
  destruct (Open_spec path io Hopen) as (fd & io1 & Ho & Hpos & Hfree & Hd & Hlim & Hc & Hop).
  unfold serialize_write. fold path. rewrite Ho. cbn [mbind res_bind]. guard_true.
  rewrite <- Hlen, !u64_id by (unfold is_u64; lia).
  assert (descs (os io1) !! fd = Some path) as Hfd by (by rewrite Hd, lookup_insert_eq).
  set (h1 := bytes_of_u64 (8 + 8 + 3 * 8 * Z.of_nat (length order))).
  set (h2 := bytes_of_u64 (Z.of_nat (length order))).
  assert (length h1 = 8%nat /\ length h2 = 8%nat) as [Hl1 Hl2] by (split; apply length_bytes_of_u64).
  destruct (Write_content io1 fd path h1 8 0 Hfd) as (io2 & -> & Hc2 & Hs2); [lia|lia|].
  cbn [mbind res_bind].
  destruct (Write_content io2 fd path h2 8 8) as (io3 & -> & Hc3 & Hs3);
    [by destruct Hs2 as [-> _]|lia|lia|]. cbn [mbind res_bind].
  rewrite !firstn_all2 in * by lia.
  assert (same_fds io1 io3) as Hs by (by apply same_fds_trans with io2).
  assert (ser_inv io1 path (h1 ++ h2) [] [] (mkSer junk 0 (2 * 8) io3)) as Hi.
  { split; try done. simpl. rewrite app_nil_r, Hc3, Hc2. by apply header_write. }
  assert (length (h1 ++ h2) = 16%nat) as Hh by (rewrite length_app; lia).
  destruct (serialize_loop_spec fd io1 path (h1 ++ h2) Hh Hfd order [] [] _ Hi ltac:(simpl; lia))
    as (p1 & p2 & s & -> & Hp & Hi'). cbn [mbind res_bind]. simpl in Hp.
  assert (enc_file order = (h1 ++ h2) ++ enc (p1 ++ p2)) as ->.
  { by rewrite Hp. }
  rewrite <- Hp. destruct (Z.ltb_spec 0 (buf_used_size s)) as [Hused|Hused].
  - destruct (ser_flush fd io1 path (h1 ++ h2) Hh Hfd p1 p2 s Hi') as (io' & -> & Hf & Hs').
    cbn [mbind res_bind]. eauto 10.
  - exists fd, io1, (ser_io s). destruct Hi' as [? Hu ? ? ? Hf Hs'].
    assert (p2 = []) as -> by (destruct p2; [done|simpl in Hu; lia]).
    rewrite app_nil_r. done.
Qed.

(** *** Reading *)

Definition put_all (l : list (Z * IndexItem)) (ix : Index) : Index :=
  foldl (fun ix e => (IndexPut e.1 e.2 ix).2) ix l.

Lemma IndexPut_snd (key : Z) (it : IndexItem) (ix : Index) :
  (IndexPut key it ix).2 = {| index_ := <[key := it]> (index_ ix); index_name_ := index_name_ ix |}.
Proof. unfold IndexPut. destruct it; simpl. by destruct (index_ ix !! key). Qed.

Lemma put_all_index (l : list (Z * IndexItem)) (ix : Index) :
  put_all l ix = {| index_ := list_to_map (rev l) ∪ index_ ix; index_name_ := index_name_ ix |}.
Proof.
  revert ix. induction l as [|[k it] l IH]; intros ix; simpl.
  - rewrite map_empty_union. by destruct ix.
  - change (put_all ((k, it) :: l) ix) with (put_all l (IndexPut k it ix).2).
    rewrite IH, IndexPut_snd. simpl. f_equal. rewrite list_to_map_app. simpl.
    rewrite <- map_union_assoc. f_equal. by rewrite insert_empty, insert_union_singleton_l.
Qed.

(** The entries of an array are put into the map in order. *)
Lemma deserialize_entries (pre l : list (Z * IndexItem)) (rest : bytes) (ix : Index) :
  Forall entry_ok l ->
  foldM (deserialize_entry (enc pre ++ enc l ++ rest)) ix (seq (length pre) (length l))
  = Ret (put_all l ix).
Proof.
  revert pre ix. induction l as [|e l IH]; intros pre ix Hok; [done|].
  apply list.Forall_cons in Hok as [(Hk & Hid & Hloc) Hok]. simpl seq. cbn [foldM].
  assert (deserialize_entry (enc pre ++ enc (e :: l) ++ rest) ix (length pre)
          = Ret (IndexPut e.1 e.2 ix).2) as ->.
  { unfold deserialize_entry. simpl enc. unfold enc_entry. rewrite <- !app_assoc.
    replace (3 * Z.of_nat (length pre) * 8 + 0 * 8) with (Z.of_nat (length (enc pre)))
      by (rewrite length_enc; lia).
    rewrite load_u64_app by done. cbn [mbind res_bind]. rewrite (app_assoc (enc pre)).
    replace (3 * Z.of_nat (length pre) * 8 + 1 * 8)
      with (Z.of_nat (length (enc pre ++ bytes_of_u64 e.1)))
      by (rewrite length_app, length_enc, length_bytes_of_u64; lia).
    rewrite load_u64_app by done. cbn [mbind res_bind].
    rewrite (app_assoc (enc pre ++ bytes_of_u64 e.1)).
    replace (3 * Z.of_nat (length pre) * 8 + 2 * 8)
      with (Z.of_nat (length ((enc pre ++ bytes_of_u64 e.1) ++ bytes_of_u64 (page_id_ e.2))))
      by (rewrite !length_app, length_enc, !length_bytes_of_u64; lia).
    rewrite load_u64_app by done. cbn [mbind res_bind]. by destruct e as [k []]. }
  cbn [mbind res_bind].
  replace (enc pre ++ enc (e :: l) ++ rest) with (enc (pre ++ [e]) ++ enc l ++ rest).
  2: { rewrite enc_app. simpl. by rewrite app_nil_r, <- !app_assoc. }
  replace (S (length pre)) with (length (pre ++ [e])) by (rewrite length_app; simpl; lia).
  by rewrite IH.
Qed.

(** One read of [k] entries out of the file. *)
Lemma file_read_entries (fd : Z) (path : string) (io : FileIO) (hdr : bytes)
    (pre l : list (Z * IndexItem)) (buf : bytes) (k : nat) :
  descs (os io) !! fd = Some path -> length hdr = 16%nat ->
  take (16 + 24 * (length pre + length l)) (content io path) = hdr ++ enc (pre ++ l) ->
  (k <= length l)%nat -> 24 * Z.of_nat k <= Z.of_nat (length buf) -> 24 * Z.of_nat k < 2 ^ 64 ->
  Read fd buf (24 * Z.of_nat k) (16 + 24 * Z.of_nat (length pre)) io
  = Ret (24 * Z.of_nat k, enc (take k l) ++ drop (24 * k) buf).
Proof.
  intros Hd Hhdr Hfile Hk Hbuf Hb.
  assert (16 + 24 * (length pre + length l) <= length (content io path))%nat as Hlen.
  { apply (f_equal length) in Hfile.
    rewrite length_take, length_app, length_enc, Hhdr, length_app in Hfile. lia. }
  rewrite (Read_content io fd path) by (done || lia). do 2 f_equal.
  replace (Z.to_nat (24 * Z.of_nat k)) with (24 * k)%nat by lia. f_equal.
  rewrite (slice_take _ _ (16 + 24 * (length pre + length l))) by lia.
  rewrite Hfile, enc_app, <- (take_drop k l) at 1. rewrite enc_app, app_assoc.
  replace (Z.to_nat (16 + 24 * Z.of_nat (length pre))) with (length (hdr ++ enc pre))
    by (rewrite length_app, length_enc; lia).
  replace (24 * k)%nat with (length (enc (take k l))) by (rewrite length_enc, length_take; lia).
  apply slice_app_mid.
Qed.

(** The reading loop from entry [length pre] on, over a file that holds the
    entries [pre ++ l]. *)
Lemma deserialize_loop_spec (fuel : nat) (fd : Z) (path : string) (io : FileIO)
    (hdr : bytes) (pre l : list (Z * IndexItem)) (buf : bytes) (ix : Index) :
  descs (os io) !! fd = Some path -> length hdr = 16%nat ->
  take (16 + 24 * length (pre ++ l)) (content io path) = hdr ++ enc (pre ++ l) ->
  16 + 24 * Z.of_nat (length (pre ++ l)) < 2 ^ 64 - CHUNK ->
  Z.of_nat (length buf) = CHUNK -> Forall entry_ok l -> (length l < fuel)%nat ->
  deserialize_loop fuel fd (16 + 24 * Z.of_nat (length (pre ++ l)))
    (16 + 24 * Z.of_nat (length pre)) buf ix io = Ret (put_all l ix).
Proof.
  intros Hd Hhdr Hfile Hbound Hbuf. revert pre l buf ix Hfile Hbound Hbuf.
  induction fuel as [|fuel IH]; intros pre l buf ix Hfile Hbound Hbuf Hok Hfuel; [lia|].
  cbn [deserialize_loop]. rewrite length_app in *.
  destruct (decide (l = [])) as [->|Hne].
  { simpl length. destruct (Z.ltb_spec (16 + 24 * Z.of_nat (length pre))
      (16 + 24 * Z.of_nat (length pre + 0))); [lia|done]. }
  assert (0 < length l)%nat by (destruct l; [done|simpl; lia]). guard_true. cbv zeta.
  unfold CHUNK in *. set (k := Nat.min (Z.to_nat 21845) (length l)).
  assert ((if u64 (16 + 24 * Z.of_nat (length pre) + 524280)
                <=? 16 + 24 * Z.of_nat (length pre + length l) then 524280
           else u64 (16 + 24 * Z.of_nat (length pre + length l)
                     - (16 + 24 * Z.of_nat (length pre)))) = 24 * Z.of_nat k) as ->.
  { rewrite !u64_id by (unfold is_u64; lia). unfold k.
    destruct (Z.leb_spec (16 + 24 * Z.of_nat (length pre) + 524280)
      (16 + 24 * Z.of_nat (length pre + length l))); lia. }
  assert (l = take k l ++ drop k l) as Hl by (by rewrite take_drop).
  assert (length (take k l) = k) as Hk by (rewrite length_take; unfold k; lia).
  rewrite (file_read_entries fd path io hdr pre l buf k Hd Hhdr Hfile) by (unfold k; lia).
  cbn [mbind res_bind]. rewrite Z.eqb_refl.
  replace (Z.to_nat (24 * Z.of_nat k / (3 * 8))) with (length (take k l)).
  2: { rewrite Hk. replace (3 * 8) with 24 by lia.
       rewrite (Z.mul_comm 24), Z.div_mul by lia. lia. }
  rewrite Hl in Hok. apply list.Forall_app in Hok as [Hok1 Hok2].
  pose proof (deserialize_entries [] (take k l) (drop (24 * k) buf) ix Hok1) as He.
  simpl in He. rewrite He. cbn [mbind res_bind].
  rewrite u64_id by (unfold is_u64, k; lia).
  assert (pre ++ l = (pre ++ take k l) ++ drop k l) as Hsplit by (by rewrite <- app_assoc, <- Hl).
  specialize (IH (pre ++ take k l) (drop k l) (enc (take k l) ++ drop (24 * k) buf)
    (put_all (take k l) ix)).
  rewrite <- Hsplit, !length_app, length_enc, length_drop, Hk in IH.
  replace (16 + 24 * Z.of_nat (length pre) + 24 * Z.of_nat k)
    with (16 + 24 * Z.of_nat (length pre + k)) by lia.
  rewrite IH; [|done|done| |done|rewrite length_drop; unfold k; lia].
  - unfold put_all. by rewrite <- foldl_app, <- Hl.
  - unfold k in *. lia.
Qed.

Lemma deserialize_read_spec (order : list (Z * IndexItem)) (junk8 junk : bytes) (ix : Index)
    (io : FileIO) :
  let path := DB_PREFIX +:+ index_name_ ix in
  take (16 + 24 * length order) (content io path) = enc_file order ->
  Forall entry_ok order -> 16 + 24 * Z.of_nat (length order) < 2 ^ 64 - CHUNK ->
  length junk8 = 8%nat -> Z.of_nat (length junk) = CHUNK -> can_open (os io) ->
  exists fd io', Open path io = Ret (fd, io')
    /\ deserialize_read junk8 junk ix io = Ret (fd, put_all order ix, io').
Proof.
  intros path Hfile Hok Hbound H8 Hjunk Hopen.
  destruct (Open_spec path io Hopen) as (fd & io1 & Ho & Hpos & Hfree & Hd & Hlim & Hc & Hop).
  exists fd, io1. split; [done|]. unfold deserialize_read. fold path. rewrite Ho.
  cbn [mbind res_bind]. guard_true. cbv zeta.
  assert (descs (os io1) !! fd = Some path) as Hfd by (by rewrite Hd, lookup_insert_eq).
  assert (content io1 path = content io path) as Hc1 by apply Hc.
  unfold enc_file in Hfile.
  set (h1 := bytes_of_u64 (16 + 24 * Z.of_nat (length order))) in *.
  set (h2 := bytes_of_u64 (Z.of_nat (length order))) in *.
  assert (length h1 = 8%nat /\ length h2 = 8%nat) as [Hl1 Hl2] by (split; apply length_bytes_of_u64).
  assert (16 + 24 * length order <= length (content io path))%nat as Hlen.
  { apply (f_equal length) in Hfile.
    rewrite length_take, !length_app, length_enc in Hfile. lia. }
  rewrite (Read_content io1 fd path junk8 8 0 Hfd), Hc1 by (rewrite ?Hc1; lia).
  cbn [mbind res_bind].
  assert (slice (Z.to_nat 0) (Z.to_nat 8) (content io path) = h1) as ->.
  { rewrite (slice_take _ _ (16 + 24 * length order)) by lia. rewrite Hfile, <- app_assoc.
    change (Z.to_nat 0) with 0%nat. replace (Z.to_nat 8) with (length h1) by lia.
    apply (slice_app_mid []). }
  assert (load_u64 (h1 ++ drop (Z.to_nat 8) junk8) 0
          = Ret (16 + 24 * Z.of_nat (length order))) as ->
    by (apply (load_u64_app []); unfold is_u64, CHUNK in *; lia).
  cbn [mbind res_bind].
  rewrite (Read_content io1 fd path junk8 8 8 Hfd) by (rewrite ?Hc1; lia).
  cbn [mbind res_bind]. fold (content io1 path). rewrite Hc1.
  assert (length (h1 ++ h2) = 16%nat) as Hh by (rewrite length_app; lia).
  pose proof (deserialize_loop_spec (S (length (content io path))) fd path io1 (h1 ++ h2) []
    order junk ix Hfd Hh) as Hloop.
  rewrite Hc1 in Hloop. simpl length in Hloop. change (8 + 8) with (16 + 24 * Z.of_nat 0).
  rewrite Hloop; [done|done|done|done|done|lia].
Qed.

(** C32: The index file holds the whole map: what [Serialize] writes, in whatever
    order the hash map is iterated and whatever the file held before,
    [DeSerialize] reads back as the same map. *)
Theorem index_file_round_trip (order : list (Z * IndexItem)) (junk junk8 junk' : bytes)
    (ix : Index) (io : FileIO) :
  Permutation order (map_to_list (index_ ix)) -> Forall entry_ok order ->
  16 + 24 * Z.of_nat (size (index_ ix)) < 2 ^ 64 - CHUNK ->
  Z.of_nat (length junk) = CHUNK -> Z.of_nat (length junk') = CHUNK -> length junk8 = 8%nat ->
  is_Some (descs (os io) !! 0) -> Z.of_nat (size (descs (os io))) + 1 < fd_limit (os io) ->
  exists fd io1 fd' io2, serialize_write order junk ix io = Ret (fd, io1)
    /\ deserialize_read junk8 junk' (new_Index (index_name_ ix)) io1 = Ret (fd', ix, io2).
Proof.
  intros Hperm Hok Hbound Hj Hj' H8 H0 Hroom.
  assert (length order = size (index_ ix)) as Hlen
    by (rewrite Hperm; apply length_map_to_list).
  destruct (serialize_write_spec order junk ix io Hlen Hj) as (fd & io0 & io1 & Ho & Hw & Hf & Hd1 & Hl1 & _);
    [unfold CHUNK in *; lia|split; [done|lia]|].
  destruct (Open_spec (DB_PREFIX +:+ index_name_ ix) io) as (fd0 & io0' & Ho' & Hpos & Hfree & Hd & Hlim & _);
    [split; [done|lia]|]. rewrite Ho in Ho'. injection Ho' as <- <-.
  destruct (deserialize_read_spec order junk8 junk' (new_Index (index_name_ ix)) io1 Hf Hok)
    as (fd' & io2 & _ & Hr); [unfold CHUNK in *; lia|done|done| |].
  { split; rewrite Hd1, Hd.
    - destruct H0 as [x Hx]. rewrite lookup_insert_ne by congruence. eauto.
    - rewrite map_size_insert_None by done. rewrite Hl1, Hlim. lia. }
  exists fd, io1, fd', io2. split; [done|]. rewrite Hr, put_all_index. simpl.
  rewrite map_union_empty. destruct ix as [m nm]. simpl in *. do 4 f_equal.
  transitivity (list_to_map (map_to_list m) : gmap Z IndexItem); [|apply list_to_map_to_list].
  symmetry. apply list_to_map_proper; [apply NoDup_fst_map_to_list|].
  rewrite <- Hperm. by rewrite <- Permutation_rev.
Qed.

(** Closing the index file erases the entry of the open-file table the loop
    stands on, so both [Serialize] and [DeSerialize] end in the use of an
    invalid iterator when the file was not open before. *)
Theorem index_serialize_close_faults (order : list (Z * IndexItem)) (junk : bytes) (ix : Index)
    (io : FileIO) :
  length order = size (index_ ix) -> Z.of_nat (length junk) = CHUNK ->
  16 + 24 * Z.of_nat (length order) < 2 ^ 64 -> can_open (os io) ->
  opened_file_ io !! (DB_PREFIX +:+ index_name_ ix) = None ->
  Serialize order junk ix io = Fault UseAfterFree.
Proof.
  intros Hlen Hj Hb Hopen Hnone. unfold Serialize.
  destruct (serialize_write_spec order junk ix io Hlen Hj Hb Hopen)
    as (fd & io0 & io1 & Ho & -> & _ & Hd1 & _ & Hop1).
  destruct (Open_spec (DB_PREFIX +:+ index_name_ ix) io Hopen)
    as (fd0 & io0' & Ho' & _ & _ & Hd & _ & _ & Hop). rewrite Ho in Ho'. injection Ho' as <- <-.
  rewrite Hnone in Hop. cbn [mbind res_bind]. unfold Close_fd, close_.
  rewrite Hd1, Hd, lookup_insert_eq.
  replace (existsb (fun e => e.2 =? fd) (map_order (opened_file_ io1))) with true; [done|].
  symmetry. apply existsb_exists. exists (DB_PREFIX +:+ index_name_ ix, fd). split; [|apply Z.eqb_refl].
  apply list_elem_of_In. unfold map_order. rewrite (sorting.merge_sort_Permutation path_le).
  apply elem_of_map_to_list. by rewrite Hop1, Hop, lookup_insert_eq.
Qed.

(** A key put into the index is found with its location, other keys are
    unaffected, and a key that was never put is reported absent with the
    caller's item untouched. *)
Theorem index_get_put (key key' : Z) (it it0 : IndexItem) (ix : Index) :
  let '(rc, ix') := IndexPut key it ix in
  rc = 0
  /\ IndexGet key it0 ix' = (EXIST, it)
  /\ (key' <> key -> IndexGet key' it0 ix' = IndexGet key' it0 ix)
  /\ IndexGet key' it0 (new_Index (index_name_ ix)) = (NOT_EXIST, it0).
Proof.
  pose proof (IndexPut_snd key it ix) as Hs.
  destruct (IndexPut key it ix) as [rc ix'] eqn:E. simpl in Hs. subst ix'.
  split; [unfold IndexPut in E; by destruct (index_ ix !! key); injection E|].
  unfold IndexGet. simpl. rewrite lookup_insert_eq. split; [by destruct it|].
  split; [intros Hne; by rewrite lookup_insert_ne by done|]. by rewrite lookup_empty.
Qed.

(** ** Witnesses *)

Definition index_example : Index :=
  {| index_ := {[ 7 := mkIndexItem 1 64; 9 := mkIndexItem 1 144 ]}; index_name_ := "idx" |}.

Definition index_junk : bytes := replicate (Z.to_nat CHUNK) Byte.xff.

Lemma index_junk_length : Z.of_nat (length index_junk) = CHUNK.
Proof. unfold index_junk. rewrite length_replicate. unfold CHUNK. lia. Qed.

Lemma index_file_round_trip_witness :
  exists fd io1 fd' io2,
    serialize_write (map_to_list (index_ index_example)) index_junk index_example file_example
    = Ret (fd, io1)
    /\ deserialize_read (replicate 8 Byte.xff) index_junk (new_Index "idx") io1
       = Ret (fd', index_example, io2).
Proof.
  apply (index_file_round_trip (map_to_list (index_ index_example)) index_junk
    (replicate 8 Byte.xff) index_junk index_example file_example).
  - reflexivity.
  - apply list.Forall_forall. intros [k it] Hk. apply elem_of_map_to_list in Hk.
    simpl in Hk.
    apply lookup_insert_Some in Hk as [[<- <-]|[_ Hk]]; [vm_compute; intuition discriminate|].
    apply lookup_singleton_Some in Hk as [<- <-]. vm_compute. intuition discriminate.
  - vm_compute. reflexivity.
  - apply index_junk_length.
  - apply index_junk_length.
  - reflexivity.
  - eexists. reflexivity.
  - vm_compute. reflexivity.
Defined.

Lemma index_serialize_close_faults_witness :
  Serialize (map_to_list (index_ index_example)) index_junk index_example file_example
  = Fault UseAfterFree.
Proof.
  apply index_serialize_close_faults.
  - apply length_map_to_list.
  - apply index_junk_length.
  - vm_compute. reflexivity.
  - split; [eexists; reflexivity|vm_compute; reflexivity].
  - reflexivity.
Defined.
