(* ===== verification/IndexText.v ===== *)
(** * db2: the text form of the index ([common/index/index.cpp])

    [Index::Serialize2] writes the entries of the index as decimal numbers
    separated by blanks, [Index::DeSerialize2] reads them back with the
    extraction operators of the standard streams. *)

From S2P Require Import Prelude Config Index.

(** ** Decimal numbers *)

Definition digit_byte (d : Z) : Byte.byte := default Byte.x30 (Byte.of_N (Z.to_N (48 + d))).

(** [oss << n] for a [uint64_t]: at most twenty digits, the last one first. *)
Fixpoint dec (fuel : nat) (n : Z) (acc : bytes) : bytes :=
  match fuel with
  | O => acc
  | S fuel =>
      let acc := digit_byte (n `mod` 10) :: acc in
      if n <? 10 then acc else dec fuel (n / 10) acc
  end.

Definition show (n : Z) : bytes := dec 20 n [].

Definition digit_of (b : Byte.byte) : option Z :=
  let n := Z.of_N (Byte.to_N b) in if (48 <=? n) && (n <=? 57) then Some (n - 48) else None.

Definition is_blank (b : Byte.byte) : bool :=
  let n := Z.of_N (Byte.to_N b) in (n =? 32) || ((9 <=? n) && (n <=? 13)).

(** The digits at the front of [s], read into [v]. *)
Fixpoint read_digits (v : Z) (s : bytes) : Z * bytes :=
  match s with
  | b :: s' => match digit_of b with Some d => read_digits (10 * v + d) s' | None => (v, s) end
  | [] => (v, s)
  end.

Fixpoint skip_blanks (s : bytes) : bytes :=
  match s with
  | b :: s' => if is_blank b then skip_blanks s' else s
  | [] => []
  end.

(** A stream: the text left and whether no extraction has failed. *)
Definition stream : Type := bytes * bool.

Definition blank : Byte.byte := Byte.x20.

(** [ss >> x] for a [uint64_t x]: without any text left [x] keeps its value;
    text that is not a number makes it 0, a number that is too large the
    largest one, and all three fail the stream.  A minus sign negates modulo
    the range. *)
Definition extract (x : Z) (ss : stream) : Z * stream :=
  let '(s, ok) := ss in
  if ok then
    match skip_blanks s with
    | [] => (x, ([], false))
    | b :: s' =>
        let neg := bool_decide (b = Byte.x2d) in
        let t := if neg || bool_decide (b = Byte.x2b) then s' else b :: s' in
        match t with
        | d :: _ =>
            if bool_decide (digit_of d <> None) then
              let '(v, rest) := read_digits 0 t in
              if v <? 2 ^ 64 then (u64 (if neg then - v else v), (rest, true))
              else (UINT64_MAX, (rest, false))
            else (0, (t, false))
        | [] => (0, ([], false))
        end
    end
  else (x, ss).

(** ** The two routines *)

(** [src/common/index/index.cpp:148-148 oss] *)
Definition show_entry (e : Z * IndexItem) : bytes :=
  show e.1 ++ blank :: show (page_id_ e.2) ++ blank :: show (page_location_ e.2) ++ [blank].

(** [order] is the order in which the hash map is iterated; the file is
    truncated and written whole.
    [src/common/index/index.cpp:141-156 Index::Serialize2] *)
Definition Serialize2 (order : list (Z * IndexItem)) (ix : Index) (fs : gmap string bytes)
    : gmap string bytes :=
  <[DB_PREFIX +:+ index_name_ ix := flat_map show_entry order]> fs.

(** [insert] keeps the entry of a key that is already there; the variables keep
    their values between the rounds.
    [src/common/index/index.cpp:170-174 key] *)
Fixpoint read_entries (fuel : nat) (key page_id locatin : Z) (ss : stream) (ix : Index) : res Index :=
  let '(key, ss) := extract key ss in
  if ss.2 then
    match fuel with
    | O => Fault OutOfFuel
    | S fuel =>
        let '(page_id, ss) := extract page_id ss in
        let '(locatin, ss) := extract locatin ss in
        let m := match index_ ix !! key with
                 | Some _ => index_ ix
                 | None => <[key := mkIndexItem page_id locatin]> (index_ ix)
                 end in
        read_entries fuel key page_id locatin ss {| index_ := m; index_name_ := index_name_ ix |}
    end
  else Ret ix.

(** Each round takes at least one character of the text, so its length is
    enough fuel; the three variables start out indeterminate.
    [src/common/index/index.cpp:158-178 Index::DeSerialize2] *)
Definition DeSerialize2 (key page_id locatin : Z) (ix : Index) (fs : gmap string bytes) : res Index :=
  let text := default [] (fs !! (DB_PREFIX +:+ index_name_ ix)) in
  read_entries (length text) key page_id locatin (text, bool_decide (text <> [])) ix.

(** ** Numbers are read back *)

Definition digits_val (v : Z) (ds : list Z) : Z := fold_left (fun v d => 10 * v + d) ds v.

Lemma digit_of_byte (d : Z) : 0 <= d < 10 -> digit_of (digit_byte d) = Some d.
Proof.
  intros Hd. assert (d = 0 \/ d = 1 \/ d = 2 \/ d = 3 \/ d = 4 \/ d = 5 \/ d = 6 \/ d = 7 \/ d = 8 \/ d = 9)
    as Hc by lia. by destruct_or! Hc; subst d.
Qed.

Lemma digit_not_sign (d : Z) : 0 <= d < 10 ->
  digit_byte d <> Byte.x2d /\ digit_byte d <> Byte.x2b /\ is_blank (digit_byte d) = false.
Proof.
  intros Hd. assert (d = 0 \/ d = 1 \/ d = 2 \/ d = 3 \/ d = 4 \/ d = 5 \/ d = 6 \/ d = 7 \/ d = 8 \/ d = 9)
    as Hc by lia. by destruct_or! Hc; subst d.
Qed.

Lemma dec_digits (fuel : nat) : forall n acc, 0 <= n < 10 ^ Z.of_nat (S fuel) ->
  exists ds, dec (S fuel) n acc = map digit_byte ds ++ acc /\ ds <> []
    /\ Forall (fun d => 0 <= d < 10) ds /\ digits_val 0 ds = n.
Proof.
  induction fuel as [|fuel IH]; intros n acc Hn.
  - exists [n]. change (10 ^ Z.of_nat 1) with 10 in Hn. cbn [dec map app].
    replace (n <? 10) with true by (symmetry; apply Z.ltb_lt; lia).
    rewrite Z.mod_small by lia. split_and!; [done|done|constructor; [lia|constructor]|]. cbn. lia.
  - pose proof (Z.mod_pos_bound n 10 eq_refl) as Hm. pose proof (Z.div_mod n 10) as Hdm.
    change (dec (S (S fuel)) n acc) with
      (let acc := digit_byte (n `mod` 10) :: acc in
       if n <? 10 then acc else dec (S fuel) (n / 10) acc).
    cbn zeta. destruct (Z.ltb_spec n 10) as [Hlt|Hge].
    + exists [n]. rewrite Z.mod_small by lia. split_and!; [done|done|constructor; [lia|constructor]|]. cbn. lia.
    + destruct (IH (n / 10) (digit_byte (n `mod` 10) :: acc)) as (ds & -> & Hne & Hds & Hv).
      { rewrite Nat2Z.inj_succ, Z.pow_succ_r in Hn by lia.
        split; [apply Z.div_pos; lia|]. apply Z.div_lt_upper_bound; lia. }
      exists (ds ++ [n `mod` 10]). rewrite map_app, <- app_assoc. split_and!; [done|by destruct ds| |].
      * apply list.Forall_app_2; [done|constructor; [lia|constructor]].
      * unfold digits_val in *. rewrite fold_left_app, Hv. cbn. lia.
Qed.

Lemma read_digits_spec (ds : list Z) (b : Byte.byte) (s : bytes) (v : Z) :
  Forall (fun d => 0 <= d < 10) ds -> digit_of b = None ->
  read_digits v (map digit_byte ds ++ b :: s) = (digits_val v ds, b :: s).
Proof.
  intros Hds Hb. revert v. induction Hds as [|d ds Hd _ IH]; intros v; cbn [map app read_digits].
  - by rewrite Hb.
  - rewrite digit_of_byte by done. apply IH.
Qed.

(** [pre] is nothing or what ends the previous number, [sep] ends this one. *)
Lemma extract_show (sep : Byte.byte) (pre : bytes) (n x : Z) (s : bytes) :
  digit_of sep = None -> Forall (fun b => is_blank b = true) pre -> 0 <= n < 2 ^ 64 ->
  extract x (pre ++ show n ++ sep :: s, true) = (n, (sep :: s, true)).
Proof.
  intros Hsep Hpre Hn. destruct (dec_digits 19 n []) as (ds & Hdec & Hne & Hds & Hv); [lia|].
  unfold show. rewrite Hdec, app_nil_r.
  destruct ds as [|d ds]; [done|]. apply list.Forall_cons in Hds as Hd. destruct Hd as [Hd _].
  destruct (digit_not_sign d Hd) as (Hm & Hp & Hb).
  assert (skip_blanks (pre ++ map digit_byte (d :: ds) ++ sep :: s)
          = map digit_byte (d :: ds) ++ sep :: s) as Hskip.
  { clear -Hpre Hb. induction Hpre as [|b pre Hb' _ IH]; cbn [app skip_blanks map]; [by rewrite Hb|].
    by rewrite Hb'. }
  unfold extract. rewrite Hskip. cbn [map app]. rewrite !bool_decide_eq_false_2 by done. cbn [orb].
  rewrite bool_decide_eq_true_2 by (by rewrite digit_of_byte).
  pose proof (read_digits_spec (d :: ds) sep s 0 Hds Hsep) as Hr. cbn [map app] in Hr.
  rewrite Hr, Hv. replace (n <? 2 ^ 64) with true by (symmetry; apply Z.ltb_lt; lia).
  unfold u64. by rewrite Z.mod_small by lia.
Qed.

Lemma extract_next (n x : Z) (s : bytes) : 0 <= n < 2 ^ 64 ->
  extract x (blank :: show n ++ blank :: s, true) = (n, (blank :: s, true)).
Proof. apply (extract_show blank [blank]); [done|]. by repeat constructor. Qed.

(** ** The text file *)

Lemma read_entries_spec (order : list (Z * IndexItem)) : forall fuel pre k p l ix,
  Forall entry_ok order -> Forall (fun b => is_blank b = true) pre -> (length order <= fuel)%nat ->
  read_entries fuel k p l (pre ++ flat_map show_entry order, true) ix
  = Ret {| index_ := index_ ix ∪ list_to_map order; index_name_ := index_name_ ix |}.
Proof.
  induction order as [|[key [pid loc]] order IH]; intros fuel pre k p l ix Hok Hpre Hf.
  - cbn [flat_map]. rewrite app_nil_r.
    assert (skip_blanks pre = []) as Hs by (induction Hpre as [|b pre Hb _ IH]; cbn; [done|by rewrite Hb]).
    destruct fuel; cbn [read_entries]; unfold extract; rewrite Hs; cbn [snd]; cbn [list_to_map foldr];
      rewrite map_union_empty; by destruct ix.
  - destruct fuel as [|fuel]; [cbn in Hf; lia|].
    apply list.Forall_cons in Hok as [(Hk & Hp & Hl) Hok]. cbn in Hk, Hp, Hl.
    cbn [flat_map read_entries]. unfold show_entry. cbn [fst snd page_id_ page_location_].
    repeat (rewrite <- app_assoc; cbn [app]).
    rewrite (extract_show blank) by done. cbn [fst snd].
    rewrite (extract_next pid) by done. rewrite (extract_next loc) by done.
    etransitivity; [apply (IH fuel [blank]); [done|by repeat constructor|cbn in Hf; lia]|].
    cbn [index_ index_name_ list_to_map foldr uncurry]. do 2 f_equal. apply map_eq. intros i.
    destruct (decide (i = key)) as [->|Hne].
    + destruct (index_ ix !! key) as [it|] eqn:E.
      * by rewrite !(lookup_union_Some_l _ _ _ it).
      * rewrite (lookup_union_Some_l _ _ _ (mkIndexItem pid loc)) by apply lookup_insert_eq.
        rewrite lookup_union_r by done. by rewrite lookup_insert_eq.
    + destruct (index_ ix !! key); rewrite !lookup_union, !lookup_insert_ne by done; done.
Qed.

(** The text file holds the whole index: read into an index of the same name,
    it adds every entry whose key is not there yet, in whatever order the hash
    map was written and whatever the uninitialised variables held.  Into a fresh
    index this is the index that was written. *)
Theorem index_text_round_trip (order : list (Z * IndexItem)) (ix ix' : Index)
    (fs : gmap string bytes) (k p l : Z) :
  Permutation order (map_to_list (index_ ix)) -> Forall entry_ok order ->
  index_name_ ix' = index_name_ ix ->
  DeSerialize2 k p l ix' (Serialize2 order ix fs)
  = Ret {| index_ := index_ ix' ∪ index_ ix; index_name_ := index_name_ ix |}
  /\ DeSerialize2 k p l (new_Index (index_name_ ix)) (Serialize2 order ix fs) = Ret ix.
Proof.
  intros Hperm Hok Hname.
  assert (forall j, index_name_ j = index_name_ ix ->
    DeSerialize2 k p l j (Serialize2 order ix fs)
    = Ret {| index_ := index_ j ∪ index_ ix; index_name_ := index_name_ ix |}) as H.
  { intros j Hj. unfold DeSerialize2, Serialize2. rewrite Hj, lookup_insert_eq. cbn [default from_option id].
    assert (list_to_map order = index_ ix) as <-.
    { transitivity (list_to_map (map_to_list (index_ ix)) : gmap Z IndexItem); [|apply list_to_map_to_list].
      symmetry. apply list_to_map_proper; [apply NoDup_fst_map_to_list|]. by symmetry. }
    rewrite <- Hj. destruct order as [|e order].
    - cbn. rewrite map_union_empty. by destruct j.
    - rewrite bool_decide_eq_true_2 by (intros Hn; apply (f_equal length) in Hn;
        cbn [flat_map] in Hn; unfold show_entry in Hn; rewrite !length_app in Hn; cbn in Hn; lia).
      apply (read_entries_spec (e :: order) _ []); [done|constructor|].
      clear. induction (e :: order) as [|x xs IH]; [cbn; lia|].
      cbn [flat_map length]. unfold show_entry at 1. rewrite !length_app. cbn. lia. }
  split; [by apply H|]. rewrite H by done. cbn. rewrite map_empty_union. by destruct ix.
Qed.

Definition text_example : Index :=
  {| index_ := {[7 := mkIndexItem 3 18446744073709551615; 10 := mkIndexItem 0 64]}; index_name_ := "idx" |}.

Lemma index_text_round_trip_witness :
  DeSerialize2 1 2 3 (new_Index "idx") (Serialize2 (map_to_list (index_ text_example)) text_example ∅)
  = Ret text_example.
Proof.
  apply (index_text_round_trip (map_to_list (index_ text_example)) text_example text_example ∅ 1 2 3).
  - reflexivity.
  - apply list.Forall_forall. intros [k it] Hk. apply elem_of_map_to_list in Hk.
    simpl in Hk.
    apply lookup_insert_Some in Hk as [[<- <-]|[_ Hk]]; [vm_compute; intuition discriminate|].
    apply lookup_singleton_Some in Hk as [<- <-]. vm_compute. intuition discriminate.
  - reflexivity.
Defined.
