(* ===== verification/LockTable.v ===== *)
(** * db2: the lock table of an instance ([common/lock_table/lock_table.cpp])

    One node per page: a mode (O invalid, P owned, S read, X write), a count of
    holders and the set of threads with a write intention.  Every operation
    holds the node's mutex for its whole body, so it is one atomic step; a
    thread that would block on the condition variable is [Wait]. *)

From S2P Require Import Prelude Config FileIO Buffer.

#[local] Arguments Z.eqb !x !y.
#[local] Arguments Z.ltb !x !y.

(** [src/common/lock_table/lock_table.h:23-34 LockNode] *)
Record LockNode := mkLockNode {
  instance_id : Z;
  lock_mode : LockMode;
  count : Z;
  thread_count : Z;
  thread_set : gset Z;
  invalid_req : bool;
  lock_remoting : bool;
}.

(** [src/common/lock_table/lock_table.cpp:14-25 LockNode::LockNode] *)
Definition new_LockNode (instanceid : Z) : LockNode :=
  {| instance_id := instanceid; lock_mode := LM_O; count := 0; thread_count := 0;
     thread_set := ∅; invalid_req := false; lock_remoting := false |}.

Definition set_mode (m : LockMode) (c : Z) (n : LockNode) : LockNode :=
  {| instance_id := instance_id n; lock_mode := m; count := c; thread_count := thread_count n;
     thread_set := thread_set n; invalid_req := invalid_req n; lock_remoting := lock_remoting n |}.
Definition set_threads (ts : gset Z) (c : Z) (n : LockNode) : LockNode :=
  {| instance_id := instance_id n; lock_mode := lock_mode n; count := count n; thread_count := c;
     thread_set := ts; invalid_req := invalid_req n; lock_remoting := lock_remoting n |}.
Definition set_invalid_req (b : bool) (n : LockNode) : LockNode :=
  {| instance_id := instance_id n; lock_mode := lock_mode n; count := count n;
     thread_count := thread_count n; thread_set := thread_set n; invalid_req := b;
     lock_remoting := lock_remoting n |}.
Definition set_lock_remoting (b : bool) (n : LockNode) : LockNode :=
  {| instance_id := instance_id n; lock_mode := lock_mode n; count := count n;
     thread_count := thread_count n; thread_set := thread_set n; invalid_req := invalid_req n;
     lock_remoting := b |}.

Abbreviation LockTable := (gmap Z LockNode).

(** The nodes of the pages from [start_page] on, [n] of them.
    [src/common/lock_table/lock_table.cpp:34-37 page_id] *)
Fixpoint init_loop (n : nat) (page_id ins : Z) (lt : LockTable) : LockTable :=
  match n with
  | O => lt
  | S n =>
      let lt := match lt !! page_id with
                | None => <[page_id := new_LockNode ins]> lt
                | Some _ => lt
                end in
      init_loop n (u64 (page_id + 1)) ins lt
  end.

(** [src/common/lock_table/lock_table.cpp:33-38 LockTable::Init] *)
Definition Init (start_page end_page ins : Z) (lt : LockTable) : LockTable :=
  init_loop (Z.to_nat (end_page - start_page)) start_page ins lt.

(** ** Operations on a node *)

(** [src/common/lock_table/lock_table.cpp:78-115 Lock] *)
Definition lock_node (mode : LockMode) (n : LockNode) : res (RC * LockNode) :=
  match mode with
  | LM_X =>
      if decide (LM_P = lock_mode n) then
        assert! 0 =? count n;
        Ret (RCOK, set_mode LM_X (i32 (count n + 1)) n)
      else Wait
  | LM_S =>
      if decide (LM_X <> lock_mode n) then
        if decide (LM_O = lock_mode n) then Ret (RCOK, n)
        else if decide (LM_P = lock_mode n) then
          assert! 0 =? count n;
          Ret (RCOK, set_mode LM_S (i32 (count n + 1)) n)
        else if decide (LM_S = lock_mode n) then
          assert! 0 <? count n;
          Ret (RCOK, set_mode LM_S (i32 (count n + 1)) n)
        else Fault Assert
      else Wait
  | LM_P | LM_O => Fault Assert
  end.

(** [src/common/lock_table/lock_table.cpp:123-143 lock_mode] *)
Definition unlock_node (n : LockNode) : res (RC * LockNode) :=
  if decide (LM_X = lock_mode n) then
    assert! count n =? 1;
    Ret (RCOK, set_mode LM_P (i32 (count n - 1)) n)
  else if decide (LM_S = lock_mode n) then
    assert! 0 <? count n;
    let c := i32 (count n - 1) in
    Ret (RCOK, set_mode (if 0 =? c then LM_P else LM_S) c n)
  else if decide (LM_O = lock_mode n \/ LM_P = lock_mode n) then Ret (RCOK, n)
  else Fault Assert.

(** [src/common/lock_table/lock_table.cpp:150-156 thread_set] *)
Definition add_thread_node (thd_id : Z) (n : LockNode) : LockNode :=
  if decide (thd_id ∈ thread_set n) then n
  else set_threads ({[thd_id]} ∪ thread_set n) (i32 (thread_count n + 1)) n.

(** [src/common/lock_table/lock_table.cpp:162-171 RemoveThread] *)
Definition remove_thread_node (thd_id : Z) (n : LockNode) : res LockNode :=
  assert! negb (bool_decide (lock_mode n = LM_O));
  if decide (thd_id ∈ thread_set n) then
    assert! 0 <? thread_count n;
    Ret (set_threads (thread_set n ∖ {[thd_id]}) (i32 (thread_count n - 1)) n)
  else Ret n.

(** Waiting for the writers of the page, then giving the page up.  The mutex is
    not released between the first wait and [wait_for], whose predicate is the
    same, so [wait_for] returns true at once and the timeout branch is dead.
    [src/common/lock_table/lock_table.cpp:180-189 invalid_req] *)
Definition invalid_node (n : LockNode) : res LockNode :=
  let n := set_invalid_req true n in
  if thread_count n =? 0 then
    assert! thread_count n =? 0;
    assert! count n =? 0;
    Ret (set_mode LM_O (count n) n)
  else Wait.

(** ** Operations on the table *)

(** An access to a page that is not in the table is [assert(false)]. *)
Definition node_of (page_id : Z) (lt : LockTable) : res LockNode :=
  match lt !! page_id with Some n => Ret n | None => Fault Assert end.

(** [src/common/lock_table/lock_table.cpp:74-116 LockTable::Lock] *)
Definition Lock (page_id : Z) (mode : LockMode) (lt : LockTable) : res (RC * LockTable) :=
  n ← node_of page_id lt;
  '(rc, n) ← lock_node mode n;
  Ret (rc, <[page_id := n]> lt).

(** [src/common/lock_table/lock_table.cpp:119-144 LockTable::UnLock] *)
Definition UnLock (page_id : Z) (lt : LockTable) : res (RC * LockTable) :=
  n ← node_of page_id lt;
  '(rc, n) ← unlock_node n;
  Ret (rc, <[page_id := n]> lt).

(** [src/common/lock_table/lock_table.cpp:146-157 LockTable::AddThread] *)
Definition AddThread (page_id thd_id : Z) (lt : LockTable) : res (bool * LockTable) :=
  n ← node_of page_id lt;
  Ret (true, <[page_id := add_thread_node thd_id n]> lt).

(** [src/common/lock_table/lock_table.cpp:158-172 LockTable::RemoveThread] *)
Definition RemoveThread (page_id thd_id : Z) (lt : LockTable) : res (bool * LockTable) :=
  n ← node_of page_id lt;
  n ← remove_thread_node thd_id n;
  Ret (true, <[page_id := n]> lt).

(** The page is given up and its content is read from the instance's pool.
    [src/common/lock_table/lock_table.cpp:175-199 LockTable::LockInvalid] *)
Definition LockInvalid {D} `{Disk D} (page_id : Z) (page_buf : bytes) (cnt : Z) (lt : LockTable)
    (b : Buffer) (d : D) : res (RC * bytes * LockTable * Buffer * D) :=
  n ← node_of page_id lt;
  n ← invalid_node n;
  '(page_buf, b, d) ← BufferGet page_id page_buf cnt b d;
  Ret (RCOK, page_buf, <[page_id := set_invalid_req false n]> lt, b, d).

(** [src/common/lock_table/lock_table.cpp:201-208 LockTable::LockModeToChar] *)
Definition LockModeToChar (mode : LockMode) : string :=
  match mode with LM_X => "X" | LM_S => "S" | LM_P => "P" | LM_O => "O" end.

(** ** The node invariant *)

(** The count agrees with the mode and the thread count with the thread set. *)
Definition node_wf (n : LockNode) : Prop :=
  match lock_mode n with
  | LM_O | LM_P => count n = 0
  | LM_S => 0 < count n < 2 ^ 31
  | LM_X => count n = 1
  end /\ thread_count n = Z.of_nat (size (thread_set n)) /\ thread_count n < 2 ^ 31 - 1.

Ltac node_cases n :=
  destruct (lock_mode n) eqn:?; cbn beta match in *; repeat case_decide; try done; try congruence; try (exfalso; tauto).

Lemma new_LockNode_wf (i : Z) : node_wf (new_LockNode i).
Proof. split; [done|]. split; [reflexivity|simpl; lia]. Qed.

(** On a well-formed node no request of a valid mode fails an assertion. *)
Lemma lock_node_wf (mode : LockMode) (n : LockNode) :
  node_wf n -> count n < 2 ^ 31 - 1 -> mode = LM_S \/ mode = LM_X ->
  lock_node mode n = Wait
  \/ exists n', lock_node mode n = Ret (RCOK, n') /\ node_wf n'.
Proof.
  intros [Hc Ht] Hb [-> | ->]; unfold lock_node; node_cases n; try (by left); right.
  all: try (guard_true; eexists; split; [done|]; split; simpl; [rewrite ?i32_id; lia|done]).
  exists n. split; [done|]. split; [by rewrite Heql|done].
Qed.

Lemma unlock_node_wf (n : LockNode) :
  node_wf n -> exists n', unlock_node n = Ret (RCOK, n') /\ node_wf n'.
Proof.
  intros [Hc Ht]. unfold unlock_node. node_cases n.
  - exists n. split; [done|]. split; [by rewrite Heql|done].
  - exists n. split; [done|]. split; [by rewrite Heql|done].
  - guard_true. eexists. split; [done|]. split; simpl; [|done]. rewrite i32_id by lia.
    destruct (Z.eqb_spec 0 (count n - 1)); simpl; lia.
  - guard_true. eexists. split; [done|]. split; simpl; [|done]. rewrite i32_id; lia.
Qed.

Lemma add_thread_node_wf (t : Z) (n : LockNode) :
  node_wf n -> thread_count n < 2 ^ 31 - 2 -> node_wf (add_thread_node t n).
Proof.
  intros [Hc Ht] Hb. unfold add_thread_node. case_decide as Hin; [done|]. split; simpl; [done|].
  rewrite size_union by set_solver. rewrite size_singleton, i32_id by lia. lia.
Qed.

Lemma remove_thread_node_wf (t : Z) (n : LockNode) :
  node_wf n -> lock_mode n <> LM_O ->
  exists n', remove_thread_node t n = Ret n' /\ node_wf n' /\ t ∉ thread_set n'.
Proof.
  intros [Hc Ht] Hm. unfold remove_thread_node. rewrite bool_decide_eq_false_2 by done. simpl.
  case_decide as Hin; [|exists n; split; [done|]; split; [by split|done]].
  assert (size (thread_set n) = S (size (thread_set n ∖ {[t]}))) as Hs.
  { rewrite (size_difference (thread_set n) {[t]}) by set_solver. rewrite size_singleton.
    assert (size ({[t]} : gset Z) <= size (thread_set n))%nat as Hle by (apply subseteq_size; set_solver).
    rewrite size_singleton in Hle. lia. }
  guard_true. eexists. split; [done|]. split; [|simpl; set_solver].
  split; simpl; [done|]. rewrite i32_id by lia. lia.
Qed.

(** ** Mutual exclusion *)

(** A node together with the threads that hold it: for writing, for reading with
    a counted lock, and for reading a page whose node was invalid, which
    [Lock] grants without counting. *)
Record holders := mkHolders {
  nd : LockNode;
  writers : list Z;
  readers : list Z;
  o_readers : list Z;
}.

(** The steps of a page's node.  [snapshot] says whether read locks may be asked
    for while the node is invalid. *)
Inductive step (snapshot : bool) : holders -> holders -> Prop :=
  | step_lock_x t n n' ws rs os :
      lock_node LM_X n = Ret (RCOK, n') ->
      step snapshot (mkHolders n ws rs os) (mkHolders n' (t :: ws) rs os)
  | step_lock_s t n n' ws rs os :
      lock_node LM_S n = Ret (RCOK, n') -> lock_mode n <> LM_O -> count n < 2 ^ 31 - 1 ->
      step snapshot (mkHolders n ws rs os) (mkHolders n' ws (t :: rs) os)
  | step_lock_o t n n' ws rs os :
      lock_node LM_S n = Ret (RCOK, n') -> lock_mode n = LM_O -> snapshot = true ->
      step snapshot (mkHolders n ws rs os) (mkHolders n' ws rs (t :: os))
  | step_unlock_x t n n' ws1 ws2 rs os :
      unlock_node n = Ret (RCOK, n') ->
      step snapshot (mkHolders n (ws1 ++ t :: ws2) rs os) (mkHolders n' (ws1 ++ ws2) rs os)
  | step_unlock_s t n n' ws rs1 rs2 os :
      unlock_node n = Ret (RCOK, n') ->
      step snapshot (mkHolders n ws (rs1 ++ t :: rs2) os) (mkHolders n' ws (rs1 ++ rs2) os)
  | step_unlock_o t n n' ws rs os1 os2 :
      unlock_node n = Ret (RCOK, n') ->
      step snapshot (mkHolders n ws rs (os1 ++ t :: os2)) (mkHolders n' ws rs (os1 ++ os2))
  | step_grant n ws rs os :
      lock_mode n = LM_O ->
      step snapshot (mkHolders n ws rs os) (mkHolders (set_mode LM_P (count n) n) ws rs os)
  | step_add t n ws rs os :
      thread_count n < 2 ^ 31 - 2 ->
      step snapshot (mkHolders n ws rs os) (mkHolders (add_thread_node t n) ws rs os)
  | step_remove t n n' ws rs os :
      remove_thread_node t n = Ret n' ->
      step snapshot (mkHolders n ws rs os) (mkHolders n' ws rs os)
  | step_invalid n n' ws rs os :
      invalid_node n = Ret n' ->
      step snapshot (mkHolders n ws rs os) (mkHolders (set_invalid_req false n') ws rs os).

Definition init_holders (i : Z) : holders := mkHolders (new_LockNode i) [] [] [].

(** The mode tells exactly who is in. *)
Definition excl (s : holders) : Prop :=
  node_wf (nd s) /\ o_readers s = []
  /\ match lock_mode (nd s) with
     | LM_O | LM_P => writers s = [] /\ readers s = []
     | LM_S => writers s = [] /\ Z.of_nat (length (readers s)) = count (nd s)
     | LM_X => (exists t, writers s = [t]) /\ readers s = []
     end.

Lemma thread_ops_keep (n n' : LockNode) (t : Z) :
  n' = add_thread_node t n \/ remove_thread_node t n = Ret n' ->
  lock_mode n' = lock_mode n /\ count n' = count n.
Proof.
  intros [-> | H]; [unfold add_thread_node; by case_decide|].
  unfold remove_thread_node in H. case_match; [|done]. case_decide; [|by injection H as <-].
  case_match; [|done]. by injection H as <-.
Qed.

Lemma excl_step (s s' : holders) : excl s -> step false s s' -> excl s'.
Proof.
  intros (Hwf & Ho & Hm) Hstep. destruct Hstep; simpl in *; subst.
  - (* lock X *)
    pose proof Hwf as [Hc Ht]. unfold lock_node in H. node_cases n. rewrite Hc in H. simpl in H.
    injection H as <-. destruct Hm as [-> ->]. split; [split; done|].
    simpl. eauto.
  - (* lock S *)
    pose proof Hwf as [Hc Ht]. unfold lock_node in H. node_cases n.
    + rewrite Hc in H. simpl in H. injection H as <-. destruct Hm as [-> ->].
      split; [split; done|]. done.
    + destruct (0 <? count n) eqn:E; [|done]. injection H as <-. destruct Hm as [-> Hr].
      split; [split; simpl; [rewrite i32_id; lia|done]|]. simpl. rewrite i32_id by lia.
      split; [done|]. split; [done|]. lia.
  - done.
  - (* unlock X *)
    destruct (unlock_node_wf n Hwf) as (n2 & H2 & Hwf2). rewrite H in H2. injection H2 as <-.
    split; [done|]. split; [done|]. unfold unlock_node in H. destruct Hwf as [Hc Ht].
    node_cases n; try (destruct Hm as [Hw _]; by destruct ws1).
    destruct Hm as [[t' Hw] ->]. destruct ws1 as [|? [|]]; simpl in Hw; [|done..].
    injection Hw as -> ->. rewrite Hc in H. simpl in H. by injection H as <-.
  - (* unlock S *)
    destruct (unlock_node_wf n Hwf) as (n2 & H2 & Hwf2). rewrite H in H2. injection H2 as <-.
    split; [done|]. split; [done|]. unfold unlock_node in H. destruct Hwf as [Hc Ht].
    node_cases n; try (destruct Hm as [_ Hr]; by destruct rs1).
    destruct Hm as [-> Hr]. destruct (0 <? count n) eqn:E; [|done]. injection H as <-. simpl.
    rewrite length_app in Hr. simpl in Hr. rewrite i32_id by lia.
    destruct (Z.eqb_spec 0 (count n - 1)).
    + split; [done|]. apply nil_length_inv. rewrite length_app. lia.
    + split; [done|]. rewrite length_app. lia.
  - by destruct os1.
  - destruct Hwf as [Hc Ht]. rewrite H in *. destruct Hm as [-> ->].
    split; [split; simpl; done|done].
  - destruct (thread_ops_keep n (add_thread_node t n) t) as [Em Ec]; [by left|].
    split; [by apply add_thread_node_wf|]. simpl. by rewrite Em, Ec.
  - destruct (thread_ops_keep n n' t) as [Em Ec]; [by right|].
    assert (lock_mode n <> LM_O) as Hne.
    { intros E. unfold remove_thread_node in H. by rewrite E in H. }
    destruct (remove_thread_node_wf t n Hwf Hne) as (n2 & H2 & Hwf2 & _).
    rewrite H in H2. injection H2 as <-. split; [done|]. simpl. by rewrite Em, Ec.
  - unfold invalid_node in H. simpl in H. destruct (thread_count n =? 0); [|done].
    destruct (Z.eqb_spec (count n) 0) as [E|]; [|done]. injection H as <-.
    destruct Hwf as [Hc Ht]. split; [split; simpl; done|]. simpl. split; [done|].
    node_cases n; lia.
Qed.

Lemma excl_reachable (i : Z) (s : holders) : rtc (step false) (init_holders i) s -> excl s.
Proof.
  intros Hr.
  assert (excl (init_holders i)) as H0 by (split; [apply new_LockNode_wf|done]).
  revert H0. generalize (init_holders i) as s0, Hr. clear Hr.
  intros s0 Hr. induction Hr as [|s1 s2 s3 Hstep _ IH]; [done|].
  intros H1. apply IH. by apply excl_step with s1.
Qed.

(** C19: While read locks are not asked for on invalid pages, a page never has two
    writers, nor a writer and a reader; the count is the number of holders; and
    every release by a holder succeeds. *)
Theorem lock_mutual_exclusion (i : Z) (s : holders) :
  rtc (step false) (init_holders i) s ->
  (writers s = [] \/ exists t, writers s = [t] /\ readers s = [])
  /\ count (nd s) = Z.of_nat (length (writers s) + length (readers s))
  /\ (lock_mode (nd s) = LM_O -> writers s = [] /\ readers s = [])
  /\ exists n', unlock_node (nd s) = Ret (RCOK, n').
Proof.
  intros Hr. destruct (excl_reachable i s Hr) as ([Hc Ht] & Ho & Hm).
  destruct (unlock_node_wf (nd s) (conj Hc Ht)) as (n' & Hn' & _).
  destruct (lock_mode (nd s)); destruct Hm as [Hw Hrd].
  - rewrite Hw, Hrd, Hc. simpl. eauto 10.
  - rewrite Hw, Hrd, Hc. simpl. repeat split; eauto; discriminate.
  - rewrite Hw. simpl. repeat split; eauto; discriminate.
  - destruct Hw as [t ->]. rewrite Hrd, Hc. simpl. repeat split; eauto; discriminate.
Qed.

(** A read lock granted on an invalid page is not counted, but its release
    is: when the page is granted and locked for writing in between, the reader's
    release frees the writer's lock, and a second writer gets in. *)
Theorem lock_snapshot_reader_breaks_exclusion (i r w1 w2 : Z) :
  exists s, rtc (step true) (init_holders i) s /\ writers s = [w2; w1].
Proof.
  eexists. split.
  - eapply rtc_l; [eapply (step_lock_o true r); reflexivity|].
    eapply rtc_l; [eapply step_grant; reflexivity|].
    eapply rtc_l; [eapply (step_lock_x true w1); reflexivity|].
    eapply rtc_l; [eapply (step_unlock_o true r _ _ _ _ []); reflexivity|].
    eapply rtc_l; [eapply (step_lock_x true w2); reflexivity|]. apply rtc_refl.
  - reflexivity.
Qed.

(** A request to give a page up waits for the threads with a write
    intention, and for no one else: a page that is only being read by other
    threads makes it fail its assertion. *)
Theorem lock_invalid_cases {D} `{Disk D} (page_id : Z) (buf : bytes) (cnt : Z) (lt : LockTable)
    (b : Buffer) (d : D) (n : LockNode) :
  lt !! page_id = Some n -> node_wf n ->
  (thread_count n <> 0 -> LockInvalid page_id buf cnt lt b d = Wait)
  /\ (thread_count n = 0 -> (lock_mode n = LM_S \/ lock_mode n = LM_X) ->
      LockInvalid page_id buf cnt lt b d = Fault Assert)
  /\ (thread_count n = 0 -> (lock_mode n = LM_O \/ lock_mode n = LM_P) ->
      forall buf' b' d', BufferGet page_id buf cnt b d = Ret (buf', b', d') ->
      exists lt', LockInvalid page_id buf cnt lt b d = Ret (RCOK, buf', lt', b', d')
        /\ lock_mode <$> lt' !! page_id = Some LM_O).
Proof.
  intros Hn [Hc Ht]. unfold LockInvalid, node_of, invalid_node. rewrite Hn. cbn [mbind res_bind].
  simpl. split; [|split].
  - intros Hne. by destruct (Z.eqb_spec (thread_count n) 0).
  - intros -> Hm. simpl. destruct (Z.eqb_spec (count n) 0) as [E|]; [|done].
    destruct Hm as [Hm|Hm]; rewrite Hm in Hc; lia.
  - intros -> Hm buf' b' d' Hget. simpl.
    assert (count n = 0) as -> by (destruct Hm as [Hm|Hm]; by rewrite Hm in Hc).
    simpl. rewrite Hget. simpl. eexists. split; [done|]. by rewrite lookup_insert_eq.
Qed.

(** ** Witnesses *)

Lemma lock_mutual_exclusion_witness :
  exists s, rtc (step false) (init_holders 0) s /\ writers s = [5]
    /\ exists n', unlock_node (nd s) = Ret (RCOK, n').
Proof.
  assert (exists s, rtc (step false) (init_holders 0) s /\ writers s = [5]) as (s & Hs & Hw).
  { eexists. split.
    - eapply rtc_l; [eapply step_grant; reflexivity|].
      eapply rtc_l; [eapply (step_lock_x false 5); reflexivity|]. apply rtc_refl.
    - reflexivity. }
  exists s. split; [exact Hs|]. split; [exact Hw|].
  apply (lock_mutual_exclusion 0 s Hs).
Defined.

Lemma lock_invalid_cases_witness :
  LockInvalid 3 [] 0 {[3 := set_mode LM_S 1 (new_LockNode 0)]}
    (mkBuffer 0 ∅ Lru.new_LRU Lru.new_LRU ∅) empty_store = Fault Assert.
Proof.
  apply (lock_invalid_cases 3 [] 0 {[3 := set_mode LM_S 1 (new_LockNode 0)]}
    (mkBuffer 0 ∅ Lru.new_LRU Lru.new_LRU ∅) empty_store (set_mode LM_S 1 (new_LockNode 0))).
  - reflexivity.
  - split; [simpl; lia|]. split; [reflexivity|simpl; lia].
  - reflexivity.
  - left. reflexivity.
Defined.
