(* ===== verification/Serial.v ===== *)
(** * db2: histories and serial executions

    What transactions committed and read, per key, and the table that results
    from running writes one after the other.  The concurrency control schemes
    are judged against these. *)

From stdpp Require Import sorting.
From S2P Require Import Prelude.

(** ** Histories *)

(** Committed writes, newest first, and reads: timestamp and value. *)
Record hist := mkHist {
  commits : list (Z * option bytes);
  reads : list (Z * option bytes);
}.

(** The value of the newest commit below [ts]; [v0] when there is none. *)
Fixpoint value_at (v0 : option bytes) (ts : Z) (cs : list (Z * option bytes)) : option bytes :=
  match cs with
  | [] => v0
  | (c, v) :: cs => if c <? ts then v else value_at v0 ts cs
  end.

Definition newest_first : list (Z * option bytes) -> Prop := StronglySorted (fun a b => b.1 < a.1).

(** Above all commits it does not matter where one looks. *)
Lemma value_at_above (v0 : option bytes) (a b : Z) (cs : list (Z * option bytes)) :
  Forall (fun c => c.1 < a /\ c.1 < b) cs -> value_at v0 a cs = value_at v0 b cs.
Proof.
  destruct 1 as [|[c v] cs [Ha Hb] _]; [done|]. cbn in *.
  by destruct (Z.ltb_spec c a), (Z.ltb_spec c b); try lia.
Qed.

Lemma value_at_newest (v0 x : option bytes) (w ts : Z) (cs : list (Z * option bytes)) :
  newest_first cs -> (w, x) ∈ cs -> w < ts -> (forall c y, (c, y) ∈ cs -> c < ts -> c <= w) ->
  value_at v0 ts cs = x.
Proof.
  intros Hs Hin Hlt Hmax. induction Hs as [|[c v] cs Hs IH Hall]; [by apply elem_of_nil in Hin|]. cbn.
  destruct (Z.ltb_spec c ts) as [Hc|Hc].
  - apply elem_of_cons in Hin as [[= -> ->]|Hin]; [done|]. exfalso.
    rewrite list.Forall_forall in Hall. specialize (Hall _ Hin). cbn in Hall.
    specialize (Hmax c v ltac:(by apply elem_of_cons; left) Hc). lia.
  - apply IH; [|intros c' y Hc'; apply (Hmax c' y); by apply elem_of_cons; right].
    apply elem_of_cons in Hin as [[= -> ->]|Hin]; [lia|done].
Qed.

(** ** Serial executions *)

(** A write: the key, the timestamp and the value. *)
Abbreviation write := (Z * (Z * option bytes))%type.

(** Running writes one after the other on a table. *)
Definition serial (table : Z -> option bytes) (ws : list write) : Z -> option bytes :=
  foldl (fun f w k => if k =? w.1 then w.2.2 else f k) table ws.

Definition in_order : list write -> Prop := StronglySorted (fun a b => a.2.1 <= b.2.1).

(** The writes to one key. *)
Definition on_key (key : Z) (ws : list write) : list (Z * option bytes) :=
  omap (fun w => if key =? w.1 then Some w.2 else None) ws.

#[global] Instance on_key_perm (key : Z) : Proper ((≡ₚ) ==> (≡ₚ)) (on_key key).
Proof. intros ws ws' Hp. unfold on_key. by rewrite Hp. Qed.

Lemma on_key_app (key : Z) (ws ws' : list write) : on_key key (ws ++ ws') = on_key key ws ++ on_key key ws'.
Proof. apply omap_app. Qed.

Lemma serial_on_key (table : Z -> option bytes) (key : Z) (ws : list write) :
  serial table ws key = foldl (fun _ c => c.2) (table key) (on_key key ws).
Proof.
  revert table. induction ws as [|[k c] ws IH]; intros table; [done|]. unfold serial in *. cbn. rewrite IH. cbn.
  by destruct (key =? k).
Qed.

Lemma on_key_filter (key ts : Z) (ws : list write) :
  on_key key (filter (fun w => w.2.1 < ts) ws) = filter (fun c => c.1 < ts) (on_key key ws).
Proof.
  induction ws as [|[k c] ws IH]; [done|]. rewrite filter_cons. cbn [on_key omap list_omap fst snd].
  destruct (decide (c.1 < ts)) as [Hlt|Hlt]; cbn; destruct (key =? k); fold (on_key key ws); rewrite ?filter_cons.
  all: rewrite ?decide_True by done; rewrite ?decide_False by done; by rewrite <- IH.
Qed.

Lemma on_key_sorted (key : Z) (ws : list write) :
  in_order ws -> StronglySorted (fun a b => a.1 <= b.1) (on_key key ws).
Proof.
  induction 1 as [|[k c] ws Hs IH Hall]; [constructor|]. cbn. destruct (key =? k); [|done].
  constructor; [done|]. apply list.Forall_forall. intros x (w & Hw & Hx)%list_elem_of_omap.
  rewrite list.Forall_forall in Hall. specialize (Hall _ Hw). destruct (key =? w.1); [|done].
  injection Hx as <-. exact Hall.
Qed.

(** Running the commits below [ts], oldest first, gives what is seen at [ts]. *)
Lemma value_at_serial (v0 : option bytes) (ts : Z) (cs : list (Z * option bytes)) :
  foldl (fun _ c => c.2) v0 (filter (fun c => c.1 < ts) (reverse cs)) = value_at v0 ts cs.
Proof.
  induction cs as [|[c v] cs IH]; [done|]. rewrite reverse_cons, list.filter_app, foldl_app, IH, filter_cons, filter_nil. cbn.
  destruct (Z.ltb_spec c ts); [by rewrite decide_True|]. by rewrite decide_False by lia.
Qed.

Lemma value_at_all (v0 : option bytes) (ts : Z) (cs : list (Z * option bytes)) :
  Forall (fun c => c.1 < ts) cs -> foldl (fun _ c => c.2) v0 (reverse cs) = value_at v0 ts cs.
Proof.
  destruct 1 as [|[c v] cs Hc _]; [done|]. rewrite reverse_cons, foldl_app. cbn in *.
  by destruct (Z.ltb_spec c ts); [|lia].
Qed.

Lemma newest_first_reverse (cs : list (Z * option bytes)) :
  newest_first cs -> StronglySorted (fun a b => a.1 <= b.1) (reverse cs).
Proof.
  induction 1 as [|c cs Hs IH Hall]; [constructor|]. rewrite reverse_cons. apply StronglySorted_app_2; [|done|repeat constructor].
  intros x y Hx ->%list_elem_of_singleton. apply elem_of_reverse in Hx. rewrite reverse_involutive in Hx.
  rewrite list.Forall_forall in Hall. specialize (Hall _ Hx). lia.
Qed.

Lemma newest_first_unique (cs : list (Z * option bytes)) (x y : Z * option bytes) :
  newest_first cs -> x ∈ cs -> y ∈ cs -> x.1 = y.1 -> x = y.
Proof.
  induction 1 as [|c cs Hs IH Hall]; [by intros ?%elem_of_nil|]. rewrite list.Forall_forall in Hall.
  intros [->|Hx]%elem_of_cons [->|Hy]%elem_of_cons Heq; [done| | |by apply IH].
  - specialize (Hall _ Hy). lia.
  - specialize (Hall _ Hx). lia.
Qed.

(** Writes in timestamp order do the same to a key as its own history. *)
Lemma on_key_history (key : Z) (ws : list write) (cs : list (Z * option bytes)) :
  newest_first cs -> in_order ws -> on_key key ws ≡ₚ cs -> on_key key ws = reverse cs.
Proof.
  intros Hn Hw Hp. apply (StronglySorted_unique_strong (fun a b : Z * option bytes => a.1 <= b.1)).
  - intros x y Hx Hy H1 H2. rewrite Hp in Hx. apply elem_of_reverse in Hy. rewrite reverse_involutive in Hy.
    apply (newest_first_unique cs); [done..|lia].
  - by apply on_key_sorted.
  - by apply newest_first_reverse.
  - by rewrite Hp, reverse_Permutation.
Qed.

(** All commits of an instance. *)
Definition commit_log (h : gmap Z hist) : list write :=
  map_to_list h ≫= fun p => pair p.1 <$> commits p.2.

Definition hist_of (h : gmap Z hist) (key : Z) : hist := default (mkHist [] []) (h !! key).

Lemma on_key_tag (key k : Z) (cs : list (Z * option bytes)) :
  on_key key (pair k <$> cs) = if key =? k then cs else [].
Proof. induction cs as [|c cs IH]; cbn; [by destruct (key =? k)|]. fold (on_key key (pair k <$> cs)). rewrite IH. by destruct (key =? k). Qed.

Lemma on_key_log (h : gmap Z hist) (key : Z) : on_key key (commit_log h) ≡ₚ commits (hist_of h key).
Proof.
  unfold commit_log, hist_of. induction h as [|k hk h Hk IH] using map_ind.
  { rewrite map_to_list_empty, lookup_empty. done. }
  rewrite map_to_list_insert by done. cbn [mbind list_bind fst snd].
  rewrite on_key_app, IH, on_key_tag.
  destruct (Z.eqb_spec key k) as [->|Hne]; [|by rewrite lookup_insert_ne].
  by rewrite lookup_insert_eq, Hk, app_nil_r.
Qed.

Lemma commit_log_insert (h : gmap Z hist) (k : Z) (hk : hist) :
  h !! k = None -> commit_log (<[k := hk]> h) ≡ₚ (pair k <$> commits hk) ++ commit_log h.
Proof. intros Hk. unfold commit_log. by rewrite map_to_list_insert. Qed.

(** What a step adds to the history of a key it adds to the log. *)
Lemma commit_log_add (h : gmap Z hist) (k : Z) (hk : hist) (cs : list (Z * option bytes)) :
  commits hk = cs ++ commits (hist_of h k) -> commit_log (<[k := hk]> h) ≡ₚ (pair k <$> cs) ++ commit_log h.
Proof.
  intros Hc. rewrite <- insert_delete_eq, commit_log_insert by apply lookup_delete_eq.
  rewrite Hc, fmap_app, <- app_assoc. f_equiv. unfold hist_of. destruct (h !! k) as [hk0|] eqn:Ek; cbn.
  - rewrite <- (insert_delete_id h k hk0 Ek) at 2. by rewrite commit_log_insert by apply lookup_delete_eq.
  - by rewrite delete_id.
Qed.

(** ** Histories against serial executions *)

Section Against.
Context (table : Z -> option bytes) (h : gmap Z hist) (ws : list write) (key : Z).
Hypothesis Hlog : ws ≡ₚ commit_log h.
Hypothesis Hord : in_order ws.
Hypothesis Hnew : newest_first (commits (hist_of h key)).

Lemma serial_key : on_key key ws = reverse (commits (hist_of h key)).
Proof using Hlog Hord Hnew. apply on_key_history; [done|done|]. by rewrite Hlog, on_key_log. Qed.

Lemma serial_below (ts : Z) :
  serial table (filter (fun w => w.2.1 < ts) ws) key = value_at (table key) ts (commits (hist_of h key)).
Proof using Hlog Hord Hnew. by rewrite serial_on_key, on_key_filter, serial_key, value_at_serial. Qed.

Lemma serial_end (ts : Z) :
  Forall (fun c => c.1 < ts) (commits (hist_of h key)) ->
  serial table ws key = value_at (table key) ts (commits (hist_of h key)).
Proof using Hlog Hord Hnew. intros Hall. rewrite serial_on_key, serial_key. by apply value_at_all. Qed.
End Against.
