(* ===== verification/RowStore.v ===== *)
(** * db2: rows in pages ([common/storage/row_handler.cpp])

    Reading and writing a row through the index, the lock table and the buffer
    pool of an instance, and the interface [RowStore] the concurrency control
    uses. *)

From S2P Require Import Prelude Config Page FileIO Buffer.
From S2P Require Catalog Index LockTable.

(** What the concurrency control asks of the storage below it. *)
Class RowStore (S : Type) := {
  read_row : Catalog.RowItem -> S -> res (Catalog.RowItem * S);
  write_row : Catalog.RowItem -> S -> res S;
}.

(** [row_val s key] is the stored value of a row of [size] bytes.  Reading
    delivers it, writing replaces it and touches no other row. *)
Class RowStoreSpec (S : Type) `{RowStore S} := {
  row_size : Z;
  rows_ok : S -> Prop;
  row_val : S -> Z -> option bytes;
  row_val_ok : forall s key v, rows_ok s -> row_val s key = Some v ->
    Z.of_nat (length v) = row_size /\ load_u64 v 0 = Ret key;
  read_row_spec : forall s key v junk,
    rows_ok s -> row_val s key = Some v -> Z.of_nat (length junk) = row_size ->
    exists s', read_row (Catalog.mkRowItem key row_size (Some junk) None None) s
               = Ret (Catalog.mkRowItem key row_size (Some v) None None, s')
      /\ rows_ok s' /\ forall key', row_val s' key' = row_val s key';
  write_row_spec : forall s key v v',
    rows_ok s -> row_val s key = Some v -> Z.of_nat (length v') = row_size ->
    load_u64 v' 0 = Ret key ->
    exists s', write_row (Catalog.mkRowItem key row_size (Some v') None None) s = Ret s'
      /\ rows_ok s' /\ row_val s' key = Some v'
      /\ forall key', key' <> key -> row_val s' key' = row_val s key';
}.

(** ** The storage of an instance *)

(** The members of [ManagerInstance] a row access goes through.
    [src/instance/manager_instance.h:84-89 index_] *)
Record Store (D : Type) := mkStore {
  st_index : Index.Index;
  st_lock_table : LockTable.LockTable;
  st_buffer : Buffer;
  st_disk : D;
}.
Arguments mkStore {D}.
Arguments st_index {D}.
Arguments st_lock_table {D}.
Arguments st_buffer {D}.
Arguments st_disk {D}.

Section Rows.
Context {D : Type} `{Disk D}.
(** Indeterminate contents of locals: the new page's buffer and version, and
    the index item passed to [IndexGet]. *)
Context (junk_page : bytes) (junk_version : Z) (junk_item : Index.IndexItem).

Definition with_lt (lt : LockTable.LockTable) (s : Store D) : Store D :=
  mkStore (st_index s) lt (st_buffer s) (st_disk s).
Definition with_pool (b : Buffer) (d : D) (s : Store D) : Store D :=
  mkStore (st_index s) (st_lock_table s) b d.

(** The location of a row; the flag of [IndexGet] is not looked at. *)
Definition locate (key : Z) (s : Store D) : Index.IndexItem :=
  (Index.IndexGet key junk_item (st_index s)).2.

(** Fetching a page through the pool into a new [Page] object. *)
Definition fetch_page (page_id : Z) (s : Store D) : res (Page * Store D) :=
  let page := new_Page junk_version junk_page in
  '(buf, b, d) ← BufferGet page_id (page_buf_ page) MY_PAGE_SIZE (st_buffer s) (st_disk s);
  page ← Deserialize (with_buf buf page);
  Ret (page, with_pool b d s).

(** Copying the row out of the page and checking its key.
    [src/common/storage/row_handler.cpp:89-95 temp_key] *)
Definition copy_row (page : Page) (loc : Z) (row : Catalog.RowItem) : res Catalog.RowItem :=
  dst ← deref (Catalog.row_ row);
  dst ← memcpy dst 0 (page_buf_ page) loc (Catalog.size_ row);
  temp_key ← load_u64 dst 0;
  assert! Catalog.key_ row =? temp_key;
  Ret (Catalog.mkRowItem (Catalog.key_ row) (Catalog.size_ row) (Some dst)
         (Catalog.data row) (Catalog.table row)).

(** [src/common/storage/row_handler.cpp:79-97 RowHandler::SnapShotReadRow] *)
Definition SnapShotReadRow (row : Catalog.RowItem) (s : Store D)
    : res (bool * Catalog.RowItem * Store D) :=
  let item := locate (Catalog.key_ row) s in
  '(page, s) ← fetch_page (Index.page_id_ item) s;
  assert! page_id_ page =? Index.page_id_ item;
  row ← copy_row page (Index.page_location_ item) row;
  Ret (true, row, s).

(** The mode of a page's lock node, read without its mutex. *)
Definition mode_of (page_id : Z) (s : Store D) : res LockMode :=
  n ← deref (st_lock_table s !! page_id); Ret (LockTable.lock_mode n).

(** [src/common/storage/row_handler.cpp:105-129 RowHandler::ReadRow] *)
Definition ReadRow (row : Catalog.RowItem) (s : Store D) : res (bool * Catalog.RowItem * Store D) :=
  let item := locate (Catalog.key_ row) s in
  '(rc, lt) ← LockTable.Lock (Index.page_id_ item) LM_S (st_lock_table s);
  assert! bool_decide (RCOK = rc);
  let s := with_lt lt s in
  mode ← mode_of (Index.page_id_ item) s;
  assert! bool_decide (mode = LM_O) || bool_decide (mode = LM_S);
  assert! negb (bool_decide (mode = LM_P)) && negb (bool_decide (mode = LM_X));
  '(page, s) ← fetch_page (Index.page_id_ item) s;
  assert! page_id_ page =? Index.page_id_ item;
  row ← copy_row page (Index.page_location_ item) row;
  '(rc, lt) ← LockTable.UnLock (Index.page_id_ item) (st_lock_table s);
  assert! bool_decide (RCOK = rc);
  Ret (true, row, with_lt lt s).

(** [src/common/storage/row_handler.cpp:136-159 RowHandler::WriteRow] *)
Definition WriteRow (row : Catalog.RowItem) (s : Store D) : res (bool * Store D) :=
  let item := locate (Catalog.key_ row) s in
  mode ← mode_of (Index.page_id_ item) s;
  assert! negb (bool_decide (mode = LM_O));
  '(rc, lt) ← LockTable.Lock (Index.page_id_ item) LM_X (st_lock_table s);
  assert! bool_decide (RCOK = rc);
  '(page, s) ← fetch_page (Index.page_id_ item) (with_lt lt s);
  src ← deref (Catalog.row_ row);
  buf ← memcpy (page_buf_ page) (Index.page_location_ item) src 0 (Catalog.size_ row);
  page ← Serialize (with_buf buf page);
  '(b, d) ← BufferPut (Index.page_id_ item) (page_buf_ page) MY_PAGE_SIZE
              (st_buffer s) (st_disk s);
  let s := with_pool b d s in
  '(rc, lt) ← LockTable.UnLock (Index.page_id_ item) (st_lock_table s);
  assert! bool_decide (RCOK = rc);
  Ret (true, with_lt lt s).

(** ** Specification *)

Context `{!DiskSpec D}.
(** The size of the rows of the table. *)
Context (tuple_size : Z).
Hypothesis Hjunk : Z.of_nat (length junk_page) = MY_PAGE_SIZE.

Definition page_view (s : Store D) (page_id : Z) : option bytes :=
  view (st_buffer s) (st_disk s) page_id.

(** The bytes of a row where the index says it lies. *)
Definition stored_row (s : Store D) (key : Z) : option bytes :=
  item ← Index.index_ (st_index s) !! key;
  page ← page_view s (Index.page_id_ item);
  Some (slice (Z.to_nat (Index.page_location_ item)) (Z.to_nat tuple_size) page).

(** A page is there, is whole and carries its own id. *)
Definition page_ok (s : Store D) (page_id : Z) : Prop :=
  disk_valid page_id /\ exists page, page_view s page_id = Some page
    /\ Z.of_nat (length page) = MY_PAGE_SIZE /\ load_u64 page 0 = Ret page_id.

Definition writable (s : Store D) (page_id : Z) : Prop :=
  exists n, st_lock_table s !! page_id = Some n
    /\ LockTable.lock_mode n = LM_P /\ LockTable.count n = 0.

(** The pool is sound; every indexed row lies within a page of this instance,
    behind the header, starts with its key and overlaps no other row. *)
Record store_ok (s : Store D) : Prop := mk_store_ok {
  ok_pool : buffer_ok (st_buffer s);
  ok_disk : disk_wf (st_disk s);
  ok_size : 8 <= tuple_size;
  ok_page : forall key item, Index.index_ (st_index s) !! key = Some item ->
    page_ok s (Index.page_id_ item) /\ writable s (Index.page_id_ item);
  ok_room : forall key item, Index.index_ (st_index s) !! key = Some item ->
    64 <= Index.page_location_ item /\ Index.page_location_ item + tuple_size <= MY_PAGE_SIZE;
  ok_key : forall key v, stored_row s key = Some v -> load_u64 v 0 = Ret key;
  ok_disjoint : forall key key' item item', key <> key' ->
    Index.index_ (st_index s) !! key = Some item ->
    Index.index_ (st_index s) !! key' = Some item' ->
    Index.page_id_ item = Index.page_id_ item' ->
    Index.page_location_ item + tuple_size <= Index.page_location_ item'
    \/ Index.page_location_ item' + tuple_size <= Index.page_location_ item;
}.

Lemma locate_indexed (s : Store D) (key : Z) (item : Index.IndexItem) :
  Index.index_ (st_index s) !! key = Some item -> locate key s = item.
Proof. intros E. unfold locate, Index.IndexGet. rewrite E. by destruct item. Qed.

(** Fetching a sound page delivers it and changes no page. *)
Lemma fetch_page_spec (s : Store D) (page_id : Z) (page : bytes) :
  buffer_ok (st_buffer s) -> disk_wf (st_disk s) -> disk_valid page_id ->
  page_view s page_id = Some page -> Z.of_nat (length page) = MY_PAGE_SIZE ->
  load_u64 page 0 = Ret page_id ->
  exists p b d, fetch_page page_id s = Ret (p, with_pool b d s)
    /\ page_buf_ p = page /\ page_id_ p = page_id
    /\ load_u64 page 8 = Ret (page_size_ p) /\ load_u64 page 16 = Ret (used_size_ p)
    /\ load_u64 page 24 = Ret (version_ p)
    /\ buffer_ok b /\ disk_wf d /\ view_le (st_buffer s) (st_disk s) b d.
Proof using Hjunk.
  intros Hb Hd Hv Hp Hl Hid. unfold fetch_page. cbv zeta.
  change (page_buf_ (new_Page junk_version junk_page)) with junk_page.
  destruct (BufferGet_spec (st_buffer s) (st_disk s) page_id junk_page Hb Hd Hv Hjunk)
    as (b & d & -> & Hb' & Hd' & _ & _ & Hle).
  unfold page_view in Hp. rewrite Hp. cbn [mbind res_bind]. change (default junk_page (Some page)) with page.
  destruct (Deserialize_Ret (with_buf page (new_Page junk_version junk_page)))
    as (p & -> & Hbuf & H0 & H1 & H2 & H3).
  { simpl. rewrite MY_PAGE_SIZE_eq in Hl. lia. }
  cbn [mbind res_bind]. simpl in *. exists p, b, d. rewrite Hid in H0.
  injection H0 as <-. done.
Qed.

Lemma stored_row_Some (s : Store D) (key : Z) (v : bytes) :
  stored_row s key = Some v ->
  exists item page, Index.index_ (st_index s) !! key = Some item
    /\ page_view s (Index.page_id_ item) = Some page
    /\ v = slice (Z.to_nat (Index.page_location_ item)) (Z.to_nat tuple_size) page.
Proof.
  unfold stored_row. intros H1. apply bind_Some in H1 as (item & Hi & H1).
  apply bind_Some in H1 as (page & Hp & [= <-]). eauto 10.
Qed.

Lemma stored_row_indexed (s : Store D) (key : Z) (item : Index.IndexItem) (page : bytes) :
  Index.index_ (st_index s) !! key = Some item ->
  page_view s (Index.page_id_ item) = Some page ->
  stored_row s key
  = Some (slice (Z.to_nat (Index.page_location_ item)) (Z.to_nat tuple_size) page).
Proof. intros Hi Hp. unfold stored_row. rewrite Hi. simpl. by rewrite Hp. Qed.

(** The pool may be rearranged as long as no page content is lost. *)
Lemma store_pool_mono (s : Store D) (b : Buffer) (d : D) :
  store_ok s -> buffer_ok b -> disk_wf d -> view_le (st_buffer s) (st_disk s) b d ->
  store_ok (with_pool b d s)
  /\ forall key, stored_row (with_pool b d s) key = stored_row s key.
Proof.
  intros [Hp Hd Hsz Hpg Hrm Hk Hdj] Hb' Hd' Hle.
  assert (forall key item, Index.index_ (st_index s) !! key = Some item ->
            page_view (with_pool b d s) (Index.page_id_ item) = page_view s (Index.page_id_ item)) as Hsame.
  { intros key item Hi. destruct (Hpg _ _ Hi) as [(Hv & page & Hpage & _) _].
    unfold page_view in *. rewrite Hpage. by apply Hle. }
  assert (forall key, stored_row (with_pool b d s) key = stored_row s key) as Hrow.
  { intros key. unfold stored_row. simpl.
    destruct (Index.index_ (st_index s) !! key) as [item|] eqn:Hi; [|done]. simpl.
    by rewrite (Hsame _ _ Hi). }
  split; [|done]. split; try done.
  - intros key item Hi. destruct (Hpg _ _ Hi) as [(Hv & page & Hpage & Hrest) Hw].
    split; [|done]. split; [done|]. exists page. by rewrite (Hsame _ _ Hi).
  - intros key v. rewrite Hrow. apply Hk.
Qed.

(** One row of one page overwritten. *)
Lemma store_row_update (s : Store D) (b : Buffer) (d : D) (key : Z) (item : Index.IndexItem)
    (page v : bytes) :
  store_ok s -> Index.index_ (st_index s) !! key = Some item ->
  page_view s (Index.page_id_ item) = Some page ->
  Z.of_nat (length v) = tuple_size -> load_u64 v 0 = Ret key ->
  buffer_ok b -> disk_wf d ->
  view b d (Index.page_id_ item) = Some (splice (Z.to_nat (Index.page_location_ item)) v page) ->
  (forall id w, disk_valid id -> id <> Index.page_id_ item ->
     view (st_buffer s) (st_disk s) id = Some w -> view b d id = Some w) ->
  store_ok (with_pool b d s) /\ stored_row (with_pool b d s) key = Some v
  /\ forall key', key' <> key -> stored_row (with_pool b d s) key' = stored_row s key'.
Proof.
  clear Hjunk. intros Hok Hi Hpage Hlen Hkey Hb' Hd' Hnew Hold.
  pose proof Hok as [Hp Hd Hsz Hpg Hrm Hk Hdj]. set (s' := with_pool b d s).
  destruct (Hpg _ _ Hi) as [(Hv & page0 & Hpage0 & Hl & Hid) _].
  rewrite Hpage in Hpage0. injection Hpage0 as <-.
  destruct (Hrm _ _ Hi) as [Hlo Hhi].
  assert (stored_row s' key = Some v) as Hself.
  { rewrite (stored_row_indexed s' key item _ Hi Hnew).
    replace (Z.to_nat tuple_size) with (length v) by lia. f_equal. apply slice_splice_same. lia. }
  assert (forall key', key' <> key -> stored_row s' key' = stored_row s key') as Hother.
  { intros key' Hne. unfold stored_row. simpl.
    destruct (Index.index_ (st_index s) !! key') as [item'|] eqn:Hi'; [|done]. simpl.
    destruct (decide (Index.page_id_ item' = Index.page_id_ item)) as [E|E].
    - rewrite E, Hpage. unfold page_view. simpl. rewrite Hnew. simpl. f_equal.
      destruct (Hrm _ _ Hi'). pose proof (Hdj key key' item item' (not_eq_sym Hne) Hi Hi' (eq_sym E)).
      apply slice_splice_disjoint; lia.
    - destruct (Hpg _ _ Hi') as [(Hv' & page' & Hpage' & _) _]. rewrite Hpage'.
      unfold page_view in *. simpl. by rewrite (Hold _ _ Hv' E Hpage'). }
  split; [|done]. split; try done.
  - intros key' item' Hi'. destruct (Hpg _ _ Hi') as [(Hv' & page' & Hpage' & Hl' & Hid') Hw].
    split; [|done]. split; [done|].
    destruct (decide (Index.page_id_ item' = Index.page_id_ item)) as [E|E].
    + rewrite E in *. rewrite Hpage in Hpage'. injection Hpage' as <-.
      eexists. split; [exact Hnew|]. rewrite length_splice by lia. split; [done|].
      rewrite load_splice_disjoint by lia. done.
    + exists page'. split; [by apply Hold|done].
  - intros key' v' Hrow. destruct (decide (key' = key)) as [->|Hne].
    + rewrite Hself in Hrow. by injection Hrow as <-.
    + rewrite Hother in Hrow by done. by apply Hk.
Qed.

Lemma SnapShotReadRow_spec (s : Store D) (key : Z) (v junk : bytes) :
  store_ok s -> stored_row s key = Some v -> Z.of_nat (length junk) = tuple_size ->
  exists s', SnapShotReadRow (Catalog.mkRowItem key tuple_size (Some junk) None None) s
             = Ret (true, Catalog.mkRowItem key tuple_size (Some v) None None, s')
    /\ store_ok s' /\ forall key', stored_row s' key' = stored_row s key'.
Proof using Hjunk.
  intros Hok Hrow Hlen. pose proof Hok as [Hp Hd Hsz Hpg Hrm Hk Hdj].
  pose proof (Hk _ _ Hrow) as Hkey.
  apply stored_row_Some in Hrow as (item & page & Hi & Hpage & ->).
  destruct (Hpg _ _ Hi) as [(Hv & page0 & Hpage0 & Hl & Hid) _].
  rewrite Hpage in Hpage0. injection Hpage0 as <-. destruct (Hrm _ _ Hi) as [Hlo Hhi].
  unfold SnapShotReadRow. cbn [Catalog.key_]. rewrite (locate_indexed s key item Hi).
  destruct (fetch_page_spec s _ _ Hp Hd Hv Hpage Hl Hid)
    as (p & b & d & -> & Hbuf & Hpid & _ & _ & _ & Hb' & Hd' & Hle).
  cbn [mbind res_bind]. rewrite Hpid, Z.eqb_refl. unfold copy_row.
  cbn [Catalog.row_ Catalog.size_ Catalog.key_ Catalog.data Catalog.table deref mbind res_bind].
  rewrite Hbuf, memcpy_Ret by lia. cbn [mbind res_bind].
  rewrite splice_all by (rewrite length_slice; lia). rewrite Hkey. cbn [mbind res_bind].
  rewrite Z.eqb_refl. cbn [mbind res_bind].
  eexists. split; [done|]. by apply store_pool_mono.
Qed.

(** An owned page that no one holds can be locked for writing and released. *)
Lemma lock_x_unlock (lt : LockTable.LockTable) (id : Z) (n : LockTable.LockNode) :
  lt !! id = Some n -> LockTable.lock_mode n = LM_P -> LockTable.count n = 0 ->
  exists lt1, LockTable.Lock id LM_X lt = Ret (RCOK, lt1)
    /\ LockTable.UnLock id lt1 = Ret (RCOK, lt).
Proof.
  clear Hjunk. intros Hn Hm Hc. unfold LockTable.Lock, LockTable.node_of. rewrite Hn.
  cbn [mbind res_bind]. unfold LockTable.lock_node. rewrite Hm, Hc.
  rewrite decide_True by done. cbn [mbind res_bind Z.eqb]. eexists. split; [done|].
  unfold LockTable.UnLock, LockTable.node_of. rewrite lookup_insert_eq. cbn [mbind res_bind].
  unfold LockTable.unlock_node. simpl. do 2 f_equal.
  rewrite insert_insert_eq. apply insert_id. rewrite Hn. f_equal.
  destruct n. simpl in *. by subst.
Qed.

Lemma WriteRow_spec (s : Store D) (key : Z) (v v' : bytes) :
  store_ok s -> stored_row s key = Some v -> Z.of_nat (length v') = tuple_size ->
  load_u64 v' 0 = Ret key ->
  exists s', WriteRow (Catalog.mkRowItem key tuple_size (Some v') None None) s = Ret (true, s')
    /\ store_ok s' /\ stored_row s' key = Some v'
    /\ forall key', key' <> key -> stored_row s' key' = stored_row s key'.
Proof using Hjunk.
  intros Hok Hrow Hlen Hkey. pose proof Hok as [Hp Hd Hsz Hpg Hrm Hk Hdj].
  apply stored_row_Some in Hrow as (item & page & Hi & Hpage & ->).
  destruct (Hpg _ _ Hi) as [(Hv & page0 & Hpage0 & Hl & Hid) (n & Hn & Hm & Hc)].
  rewrite Hpage in Hpage0. injection Hpage0 as <-. destruct (Hrm _ _ Hi) as [Hlo Hhi].
  destruct (lock_x_unlock _ _ _ Hn Hm Hc) as (lt1 & Hlock & Hunlock).
  unfold WriteRow, mode_of. cbn [Catalog.key_]. rewrite (locate_indexed s key item Hi), Hn.
  cbn [mbind res_bind deref]. rewrite Hm. simpl negb. cbn iota. rewrite Hlock.
  cbn [mbind res_bind]. rewrite bool_decide_eq_true_2 by done.
  destruct (fetch_page_spec (with_lt lt1 s) _ _ Hp Hd Hv Hpage Hl Hid)
    as (p & b & d & -> & Hbuf & Hpid & H8 & H16 & H24 & Hb' & Hd' & Hle).
  cbn [mbind res_bind Catalog.row_ Catalog.size_ deref]. rewrite Hbuf, memcpy_Ret by lia.
  cbn [mbind res_bind]. rewrite slice_all' by lia.
  set (page' := splice (Z.to_nat (Index.page_location_ item)) v' page).
  assert (Z.of_nat (length page') = MY_PAGE_SIZE) as Hl' by (unfold page'; rewrite length_splice; lia).
  rewrite Serialize_fixpoint; cbn [page_buf_ page_id_ page_size_ used_size_ version_ with_buf];
    [|unfold page'; rewrite load_splice_disjoint by lia; congruence..
     |rewrite MY_PAGE_SIZE_eq in Hl'; lia].
  cbn [mbind res_bind page_buf_ with_buf st_buffer st_disk with_pool with_lt].
  destruct (BufferPut_spec b d _ page' Hb' Hd' Hv Hl')
    as (b2 & d2 & -> & Hb2 & Hd2 & _ & Hnew & Hold).
  cbn [mbind res_bind st_lock_table with_pool with_lt]. rewrite Hunlock. cbn [mbind res_bind].
  rewrite bool_decide_eq_true_2 by done.
  exists (with_pool b2 d2 s). split; [done|].
  apply (store_row_update s b2 d2 key item page v'); try done.
  intros id w Hvid Hne Hw. apply Hold; [done|done|]. by apply Hle.
Qed.
End Rows.

(** ** The storage of an instance is a row store *)

Section Instances.
Context {D : Type} `{Disk D} `{!DiskSpec D}.
Context (junk_page : bytes) (junk_version : Z) (junk_item : Index.IndexItem) (tuple_size : Z).

(** [assert(SnapShotReadRow(row))], as the concurrency control calls it. *)
Definition store_read (row : Catalog.RowItem) (s : Store D) : res (Catalog.RowItem * Store D) :=
  '(ok, row, s) ← SnapShotReadRow junk_page junk_version junk_item row s;
  assert! (ok : bool);
  Ret (row, s).

Definition store_write (row : Catalog.RowItem) (s : Store D) : res (Store D) :=
  '(_, s) ← WriteRow junk_page junk_version junk_item row s; Ret s.

Definition Store_RowStore : RowStore (Store D) :=
  {| read_row := store_read; write_row := store_write |}.

Definition Store_RowStoreSpec (Hjunk : Z.of_nat (length junk_page) = MY_PAGE_SIZE) :
  @RowStoreSpec (Store D) Store_RowStore.
Proof using All.
  refine (@Build_RowStoreSpec _ Store_RowStore tuple_size (store_ok tuple_size)
            (stored_row tuple_size) _ _ _).
  - intros s key v Hok Hrow. split; [|by apply (ok_key tuple_size s Hok)].
    apply stored_row_Some in Hrow as (item & page & Hi & Hpage & ->).
    destruct (ok_page tuple_size s Hok _ _ Hi) as [(_ & page0 & Hpage0 & Hl & _) _].
    rewrite Hpage in Hpage0. injection Hpage0 as <-.
    pose proof (ok_room tuple_size s Hok _ _ Hi). pose proof (ok_size tuple_size s Hok).
    rewrite length_slice; lia.
  - intros s key v junk Hok Hrow Hlen. simpl.
    destruct (SnapShotReadRow_spec junk_page junk_version junk_item tuple_size Hjunk s key v junk
      Hok Hrow Hlen) as (s' & Hr & Hok' & Hsame). unfold store_read. rewrite Hr. simpl. eauto.
  - intros s key v v' Hok Hrow Hlen Hkey. simpl.
    destruct (WriteRow_spec junk_page junk_version junk_item tuple_size Hjunk s key v v'
      Hok Hrow Hlen Hkey) as (s' & Hw & Hok' & Hnew & Hold). unfold store_write. rewrite Hw.
    simpl. eauto 10.
Defined.

(** C16: A row written through lock table, pool and page store is what a later
    read of its key delivers; no other row changes, and the storage stays
    sound. *)
Theorem row_write_read (s : Store D) (key : Z) (v v' junk : bytes) :
  Z.of_nat (length junk_page) = MY_PAGE_SIZE ->
  store_ok tuple_size s -> stored_row tuple_size s key = Some v ->
  Z.of_nat (length v') = tuple_size -> load_u64 v' 0 = Ret key ->
  Z.of_nat (length junk) = tuple_size ->
  exists s1 s2,
    WriteRow junk_page junk_version junk_item
      (Catalog.mkRowItem key tuple_size (Some v') None None) s = Ret (true, s1)
    /\ store_ok tuple_size s1
    /\ SnapShotReadRow junk_page junk_version junk_item
         (Catalog.mkRowItem key tuple_size (Some junk) None None) s1
       = Ret (true, Catalog.mkRowItem key tuple_size (Some v') None None, s2)
    /\ forall key', key' <> key -> stored_row tuple_size s2 key' = stored_row tuple_size s key'.
Proof.
  intros Hjunk Hok Hrow Hlen Hkey Hlj.
  destruct (WriteRow_spec junk_page junk_version junk_item tuple_size Hjunk s key v v'
    Hok Hrow Hlen Hkey) as (s1 & Hw & Hok1 & Hnew & Hold).
  destruct (SnapShotReadRow_spec junk_page junk_version junk_item tuple_size Hjunk s1 key v' junk
    Hok1 Hnew Hlj) as (s2 & Hr & Hok2 & Hsame).
  exists s1, s2. split; [done|]. split; [done|]. split; [done|].
  intros key' Hne. rewrite Hsame. by apply Hold.
Qed.

Lemma fetch_page_with_lt (page_id : Z) (lt : LockTable.LockTable) (s : Store D) :
  fetch_page junk_page junk_version page_id (with_lt lt s)
  = ('(p, s') ← fetch_page junk_page junk_version page_id s; Ret (p, with_lt lt s')).
Proof.
  unfold fetch_page. simpl.
  destruct (BufferGet page_id junk_page MY_PAGE_SIZE (st_buffer s) (st_disk s)) as [[[buf b] d]| |];
    [|done..]. simpl.
  by destruct (Deserialize (with_buf buf (new_Page junk_version junk_page))).
Qed.

(** On a page this instance owns and no one holds, the read under a read lock
    and the snapshot read are the same: the lock is taken, released and leaves
    the lock table as it was. *)
Theorem row_read_lock_equiv (s : Store D) (row : Catalog.RowItem) (n : LockTable.LockNode) :
  let id := Index.page_id_ (locate junk_item (Catalog.key_ row) s) in
  st_lock_table s !! id = Some n -> LockTable.lock_mode n = LM_P -> LockTable.count n = 0 ->
  ReadRow junk_page junk_version junk_item row s
  = SnapShotReadRow junk_page junk_version junk_item row s.
Proof.
  intros id Hn Hm Hc. unfold ReadRow, SnapShotReadRow. fold id.
  unfold LockTable.Lock, LockTable.node_of. rewrite Hn. cbn [mbind res_bind].
  unfold LockTable.lock_node. rewrite Hm, Hc. simpl decide. cbn [mbind res_bind].
  unfold mode_of. simpl. rewrite lookup_insert_eq. simpl.
  rewrite fetch_page_with_lt.
  destruct (fetch_page junk_page junk_version id s) as [[p s']| |] eqn:Ef; simpl; [|done..].
  case_match; [|done].
  destruct (copy_row p _ row) as [row'| |]; simpl; [|done..].
  unfold LockTable.UnLock, LockTable.node_of. rewrite lookup_insert_eq. simpl.
  do 3 f_equal. rewrite insert_insert_eq.
  assert (st_lock_table s' = st_lock_table s) as Hlt.
  { unfold fetch_page in Ef. res_inv. done. }
  destruct s' as [ix lt b d]. unfold with_lt. simpl in *. f_equal.
  rewrite Hlt. apply insert_id. rewrite Hn. f_equal. destruct n. simpl in *. by subst.
Qed.
End Instances.

(** ** Witnesses *)

Definition one_row : bytes := bytes_of_u64 7 ++ replicate 8 Byte.x61.

Definition one_page : bytes :=
  bytes_of_u64 0 ++ replicate 56 Byte.x00 ++ one_row
  ++ replicate (Z.to_nat (MY_PAGE_SIZE - 80)) Byte.x00.

Definition one_store (b : Buffer) : Store MemoryIO :=
  {| st_index := {| Index.index_ := {[7 := Index.mkIndexItem 0 64]}; Index.index_name_ := "I" |};
     st_lock_table := {[0 := LockTable.set_mode LM_P 0 (LockTable.new_LockNode 0)]};
     st_buffer := b;
     st_disk := {| db_ := {[0 := one_page]} |} |}.

Lemma one_store_ok :
  exists b, new_Buffer 0 FILE_SIZE MY_PAGE_SIZE = Ret b
    /\ store_ok 16 (one_store b) /\ stored_row 16 (one_store b) 7 = Some one_row.
Proof.
  assert (Z.of_nat (length one_page) = MY_PAGE_SIZE) as Hlen by (vm_compute; reflexivity).
  destruct (new_Buffer_implements 0 (st_disk (one_store (mkBuffer 0 ∅ Lru.new_LRU Lru.new_LRU ∅)))
    {[0 := one_page]}) as (b & Hb & Hok & Hd & Hv).
  { intros id v. simpl. by intros [<- <-]%lookup_singleton_Some. }
  { intros id v [<- <-]%lookup_singleton_Some. split; [done|]. simpl.
    rewrite lookup_singleton_eq. simpl. by rewrite decide_True. }
  exists b. split; [done|]. simpl in Hok, Hd.
  assert (page_view (one_store b) 0 = Some one_page) as Hpage.
  { destruct (Hv 0 one_page) as [_ Hview]; [apply lookup_singleton_eq|exact Hview]. }
  assert (stored_row 16 (one_store b) 7 = Some one_row) as Hrow.
  { rewrite (stored_row_indexed 16 (one_store b) 7 (Index.mkIndexItem 0 64) one_page);
      [|reflexivity|exact Hpage]. vm_compute. reflexivity. }
  split; [|done]. split; [done|done|lia| | | |].
  - simpl. intros key item [<- <-]%lookup_singleton_Some. simpl. split.
    + split; [done|]. exists one_page. split; [exact Hpage|]. split; [exact Hlen|].
      vm_compute. reflexivity.
    + eexists. split; [reflexivity|]. split; reflexivity.
  - simpl. intros key item [<- <-]%lookup_singleton_Some. rewrite MY_PAGE_SIZE_eq. simpl. lia.
  - intros key v Hr. destruct (decide (key = 7)) as [->|Hne].
    + rewrite Hrow in Hr. injection Hr as <-. vm_compute. reflexivity.
    + unfold stored_row in Hr. simpl in Hr.
      rewrite lookup_singleton_ne in Hr by lia. discriminate Hr.
  - simpl. intros key key' item item' Hne [<- <-]%lookup_singleton_Some
      [<- <-]%lookup_singleton_Some. exfalso. by apply Hne.
Qed.

Lemma junk_page_length : Z.of_nat (length (replicate (Z.to_nat MY_PAGE_SIZE) Byte.xff)) = MY_PAGE_SIZE.
Proof. rewrite length_replicate, MY_PAGE_SIZE_eq. lia. Qed.

Lemma row_write_read_witness :
  exists b s1 s2, new_Buffer 0 FILE_SIZE MY_PAGE_SIZE = Ret b
    /\ WriteRow (replicate (Z.to_nat MY_PAGE_SIZE) Byte.xff) 0 (Index.mkIndexItem 0 0)
         (Catalog.mkRowItem 7 16 (Some (bytes_of_u64 7 ++ replicate 8 Byte.x62)) None None)
         (one_store b) = Ret (true, s1)
    /\ SnapShotReadRow (replicate (Z.to_nat MY_PAGE_SIZE) Byte.xff) 0 (Index.mkIndexItem 0 0)
         (Catalog.mkRowItem 7 16 (Some (replicate 16 Byte.xff)) None None) s1
       = Ret (true, Catalog.mkRowItem 7 16 (Some (bytes_of_u64 7 ++ replicate 8 Byte.x62)) None None, s2).
Proof.
  destruct one_store_ok as (b & Hb & Hok & Hrow).
  destruct (row_write_read (replicate (Z.to_nat MY_PAGE_SIZE) Byte.xff) 0 (Index.mkIndexItem 0 0) 16
    (one_store b) 7 one_row (bytes_of_u64 7 ++ replicate 8 Byte.x62) (replicate 16 Byte.xff)
    junk_page_length Hok Hrow) as (s1 & s2 & H1 & _ & H2 & _).
  - reflexivity.
  - vm_compute. reflexivity.
  - reflexivity.
  - exists b, s1, s2. split; [exact Hb|]. split; [exact H1|exact H2].
Defined.

Lemma row_read_lock_equiv_witness :
  exists b, new_Buffer 0 FILE_SIZE MY_PAGE_SIZE = Ret b
    /\ ReadRow (replicate (Z.to_nat MY_PAGE_SIZE) Byte.xff) 0 (Index.mkIndexItem 0 0)
         (Catalog.mkRowItem 7 16 (Some (replicate 16 Byte.xff)) None None) (one_store b)
       = SnapShotReadRow (replicate (Z.to_nat MY_PAGE_SIZE) Byte.xff) 0 (Index.mkIndexItem 0 0)
         (Catalog.mkRowItem 7 16 (Some (replicate 16 Byte.xff)) None None) (one_store b).
Proof.
  destruct one_store_ok as (b & Hb & _). exists b. split; [exact Hb|].
  apply (row_read_lock_equiv _ _ _ _ _ (LockTable.set_mode LM_P 0 (LockTable.new_LockNode 0)));
    reflexivity.
Defined.
