(* ===== verification/YcsbLoad.v ===== *)
(** * db2: loading the YCSB table ([common/workload/ycsb_wl.cpp])

    [ycsb_wl::init_table] fills pages with one row per key, writes each page to
    the page files when it is full and records every row in the index.  The
    loaded table is shown to hold every key exactly where the index says, and
    to be a state the row handler can work on. *)

From stdpp Require Import numbers.
From S2P Require Import Prelude Config Page FileIO Buffer.
From S2P Require Catalog TableSpace Index LockTable RowStore.

(** ** The loader *)

(** The local variables of [init_table]. *)
Record load_state := mkLoad {
  ld_space : TableSpace.TableSpace;
  ld_index : Index.Index;
  ld_page : Page;
  ld_row : bytes;
  ld_io : FileIO;
}.

(** The page is written out and the object is used again for the next page.
    [src/common/workload/ycsb_wl.cpp:70-75 tableSpace] *)
Definition next_page (tuple_size : Z) (s : load_state) : res load_state :=
  page ← Serialize (ld_page s);
  '(_, io) ← WritePage (page_id_ page) (page_buf_ page) (ld_io s);
  assert! (MY_PAGE_SIZE - 64) / tuple_size * tuple_size + 64 =? used_size_ page;
  let '(id, space) := TableSpace.GetNextPageId (ld_space s) in
  Ret {| ld_space := space; ld_index := ld_index s;
         ld_page := set_used_size 64 (set_page_id id page); ld_row := ld_row s; ld_io := io |}.

(** One iteration of the loop over the keys; the last eight bytes of a row are
    its version.
    [src/common/workload/ycsb_wl.cpp:68-82 key] *)
Definition load_key (tuple_size version : Z) (s : load_state) (key : Z) : res load_state :=
  s ← (if u64 (MY_PAGE_SIZE - used_size_ (ld_page s)) <? tuple_size
       then next_page tuple_size s else Ret s);
  row ← store_u64 (ld_row s) 0 key;
  row ← store_u64 row (u32 (tuple_size - 8)) version;
  page ← PagePut (page_id_ (ld_page s)) row tuple_size (ld_page s);
  let indexItem := Index.mkIndexItem (page_id_ page) (u64 (used_size_ page - tuple_size)) in
  let '(_, index) := Index.IndexPut key indexItem (ld_index s) in
  Ret {| ld_space := ld_space s; ld_index := index; ld_page := page; ld_row := row;
         ld_io := ld_io s |}.

(** The state before the first key: [junk] and [version0] are the
    indeterminate contents of the new page.
    [src/common/workload/ycsb_wl.cpp:58-67 tableSpace] *)
Definition load_init (table : Catalog.table_t) (junk : bytes) (version0 : Z) (io : FileIO)
    : load_state :=
  let name := Catalog.tbl_name table in
  let tuple_size := Catalog.tuple_size (Catalog.schema table) in
  let space := TableSpace.set_row_size tuple_size (TableSpace.new_TableSpace name) in
  let '(id, space) := TableSpace.GetNextPageId space in
  {| ld_space := space; ld_index := Index.new_Index (name +:+ "_INDEX");
     ld_page := set_page_id id (new_Page version0 junk);
     ld_row := replicate (Z.to_nat tuple_size) Byte.x61; ld_io := io |}.

(** The loop over the keys and the last page, for rows of any size and version.
    [src/common/workload/ycsb_wl.cpp:68-86 page] *)
Definition fill_pages (tuple_size version n : Z) (s : load_state) : res load_state :=
  s ← foldM (load_key tuple_size version) s (seqZ 0 n);
  if 64 <? used_size_ (ld_page s) then
    page ← Serialize (ld_page s);
    '(_, io) ← WritePage (page_id_ page) (page_buf_ page) (ld_io s);
    Ret {| ld_space := ld_space s; ld_index := ld_index s; ld_page := page;
           ld_row := ld_row s; ld_io := io |}
  else Ret s.

(** The pages and the index of a table of [n] keys, before the metadata is
    written; the rows have version 0.
    [src/common/workload/ycsb_wl.cpp:58-86 tableSpace] *)
Definition load_table (table : Catalog.table_t) (n : Z) (junk : bytes) (version0 : Z)
    (io : FileIO) : res load_state :=
  fill_pages (Catalog.tuple_size (Catalog.schema table)) 0 n (load_init table junk version0 io).

(** The whole routine: [order] and [junk_chunk] are the iteration order and the
    local array of [Index::Serialize], [write_json] the JSON writer.
    [src/common/workload/ycsb_wl.cpp:54-97 ycsb_wl::init_table] *)
Definition init_table (write_json : gmap string TableSpace.json -> bytes)
    (table : Catalog.table_t) (n : Z) (junk : bytes) (version0 : Z)
    (order : Index.Index -> list (Z * Index.IndexItem)) (junk_chunk : bytes) (io : FileIO)
    : res FileIO :=
  s ← load_table table n junk version0 io;
  io ← Index.Serialize (order (ld_index s)) junk_chunk (ld_index s) (ld_io s);
  Ret {| opened_file_ := opened_file_ io;
         os := {| files := TableSpace.Serialize write_json (ld_space s) (files (os io));
                  descs := descs (os io); fd_limit := fd_limit (os io) |} |}.

(** [src/common/workload/ycsb_wl.cpp:48-52 ycsb_wl::key_to_part] *)
Definition key_to_part (g_synth_table_size g_part_cnt key : Z) : res Z :=
  if g_part_cnt =? 0 then Fault DivByZero else
  let rows_per_part := g_synth_table_size / g_part_cnt in
  if rows_per_part =? 0 then Fault DivByZero else
  Ret (i32 (key / rows_per_part)).

(** ** What the loaded table is *)

Section Load.
Context (nfiles : nat) (tuple_size : Z) (fill : Byte.byte) (version : Z).
Hypothesis Hsize : 16 <= tuple_size <= MY_PAGE_SIZE - 64.

(** Rows in a page. *)
Definition per_page : Z := (MY_PAGE_SIZE - 64) / tuple_size.

(** A loaded row: the key, filler, and the version. *)
Definition row_of (key : Z) : bytes :=
  bytes_of_u64 key ++ replicate (Z.to_nat (tuple_size - 16)) fill ++ bytes_of_u64 version.

Definition row_loc (key : Z) : Z := 64 + key `mod` per_page * tuple_size.

Definition item_of (key : Z) : Index.IndexItem := Index.mkIndexItem (key / per_page) (row_loc key).

(** The first [cnt] rows of page [p] lie in [buf]. *)
Definition page_rows (buf : bytes) (p cnt : Z) : Prop :=
  forall j, 0 <= j < cnt ->
    slice (Z.to_nat (64 + j * tuple_size)) (Z.to_nat tuple_size) buf = row_of (p * per_page + j).

Definition page_loaded (io : FileIO) (p cnt : Z) : Prop :=
  exists b, file_page io p = Some b /\ load_u64 b 0 = Ret p /\ page_rows b p cnt.

(** Page [p] is being filled and has [cnt] rows; the pages before it are on
    disk. *)
Record load_inv (p cnt : Z) (s : load_state) : Prop := {
  li_p : 0 <= p < 2 ^ 63;
  li_cnt : 0 <= cnt <= per_page;
  li_last : TableSpace.last_page_id_ (ld_space s) = p;
  li_page : page_wf (ld_page s);
  li_id : page_id_ (ld_page s) = p;
  li_psize : page_size_ (ld_page s) = MY_PAGE_SIZE;
  li_used : used_size_ (ld_page s) = 64 + cnt * tuple_size;
  li_rows : page_rows (page_buf_ (ld_page s)) p cnt;
  li_row : exists a c, ld_row s = a ++ replicate (Z.to_nat (tuple_size - 16)) fill ++ c
             /\ length a = 8%nat /\ length c = 8%nat;
  li_files : file_wf nfiles (ld_io s);
  li_disk : forall q, 0 <= q < p -> page_loaded (ld_io s) q per_page;
  li_index : forall key, Index.index_ (ld_index s) !! key
             = if decide (0 <= key < p * per_page + cnt) then Some (item_of key) else None;
}.

Lemma per_page_bounds :
  0 < per_page /\ per_page * tuple_size <= MY_PAGE_SIZE - 64
  /\ MY_PAGE_SIZE - 64 < per_page * tuple_size + tuple_size.
Proof using Hsize.
  unfold per_page. rewrite MY_PAGE_SIZE_eq in *.
  pose proof (Z.div_mod (16384 - 64) tuple_size ltac:(lia)) as Hd.
  pose proof (Z.mod_pos_bound (16384 - 64) tuple_size ltac:(lia)).
  assert (0 < (16384 - 64) / tuple_size) by (apply Z.div_str_pos; lia). nia.
Qed.

Lemma length_row_of (key : Z) : Z.of_nat (length (row_of key)) = tuple_size.
Proof using Hsize.
  unfold row_of. rewrite !length_app, length_replicate, !length_bytes_of_u64. lia.
Qed.

Lemma store_row (a c : bytes) (key : Z) :
  length a = 8%nat -> length c = 8%nat ->
  (row ← store_u64 (a ++ replicate (Z.to_nat (tuple_size - 16)) fill ++ c) 0 key;
   store_u64 row (u32 (tuple_size - 8)) version) = Ret (row_of key).
Proof using Hsize.
  intros Ha Hc. rewrite MY_PAGE_SIZE_eq in Hsize. rewrite u32_id by (unfold is_u32; lia).
  set (mid := replicate (Z.to_nat (tuple_size - 16)) fill).
  assert (Z.of_nat (length mid) = tuple_size - 16) as Hm
    by (unfold mid; rewrite length_replicate; lia).
  rewrite store_u64_Ret by (rewrite ?length_app; lia). cbn [mbind res_bind].
  assert (splice (Z.to_nat 0) (bytes_of_u64 key) (a ++ mid ++ c) = bytes_of_u64 key ++ mid ++ c)
    as ->.
  { unfold splice. simpl. rewrite length_bytes_of_u64, <- Ha. f_equal. apply drop_app_length. }
  rewrite store_u64_Ret by (rewrite ?length_app, ?length_bytes_of_u64; lia). f_equal.
  unfold row_of. fold mid. rewrite !app_assoc. unfold splice.
  assert (Z.to_nat (tuple_size - 8) = length (bytes_of_u64 key ++ mid)) as ->
    by (rewrite length_app, length_bytes_of_u64; lia).
  rewrite take_app_length, drop_app, length_bytes_of_u64.
  rewrite (drop_ge (_ ++ _)) by lia. rewrite drop_ge by lia. by rewrite app_nil_r.
Qed.

Lemma page_rows_slices (b b' : bytes) (p cnt : Z) :
  (forall off n, (64 <= off)%nat -> (off + n <= Z.to_nat (64 + cnt * tuple_size))%nat ->
     slice off n b' = slice off n b) ->
  page_rows b p cnt -> page_rows b' p cnt.
Proof using Hsize.
  intros Hs Hr j Hj. rewrite Hs by nia. by apply Hr.
Qed.

(** Writing the current page puts it on disk beside the earlier ones. *)
Lemma write_out (p cnt : Z) (s : load_state) :
  load_inv p cnt s -> file_valid nfiles p ->
  exists page io, Serialize (ld_page s) = Ret page
    /\ page = with_buf (serialized_buf (ld_page s)) (ld_page s)
    /\ page_wf page /\ page_rows (page_buf_ page) p cnt
    /\ WritePage (page_id_ page) (page_buf_ page) (ld_io s) = Ret (MY_PAGE_SIZE, io)
    /\ file_wf nfiles io /\ page_loaded io p cnt
    /\ forall q, 0 <= q < p -> page_loaded io q per_page.
Proof using Hsize.
  intros [Hp Hcnt _ Hwf Hid Hps Hused Hrows _ Hfiles Hdisk _] Hval.
  pose proof Hwf as [Hu1 Hu2 Hu3 Hlen Hu].
  rewrite MY_PAGE_SIZE_eq in Hps.
  assert (32 <= length (page_buf_ (ld_page s)))%nat as H32 by lia.
  set (page := with_buf (serialized_buf (ld_page s)) (ld_page s)).
  assert (length (page_buf_ page) = length (page_buf_ (ld_page s))) as Hl
    by (by apply length_serialized_buf).
  assert (page_rows (page_buf_ page) p cnt) as Hrows'.
  { apply (page_rows_slices (page_buf_ (ld_page s))); [|done].
    intros off n Hoff _. apply serialized_buf_rows; lia. }
  destruct (file_write_spec nfiles (ld_io s) p (page_buf_ page) Hfiles Hval)
    as (io & Hw & Hwf' & Hsame & Hother); [rewrite MY_PAGE_SIZE_eq; lia|].
  exists page, io. split; [by apply Serialize_Ret|]. split; [done|].
  split; [split; simpl in *; try done; lia|]. split; [done|].
  change (page_id_ page) with (page_id_ (ld_page s)). rewrite Hid. split; [done|].
  split; [done|]. split.
  - exists (page_buf_ page). split; [done|]. split; [|done]. rewrite <- Hid.
    by apply serialized_buf_loads.
  - intros q Hq. destruct (Hdisk q Hq) as (b & Hb & Hrest). exists b. split; [|done].
    apply Hother; [|lia|done]. unfold file_valid in *. lia.
Qed.

Lemma next_page_spec (p : Z) (s : load_state) :
  load_inv p per_page s -> file_valid nfiles p -> p + 1 < 2 ^ 63 ->
  exists s', next_page tuple_size s = Ret s' /\ load_inv (p + 1) 0 s'.
Proof using Hsize.
  intros Hinv Hval Hmax. pose proof per_page_bounds as (Hpp & _).
  destruct (write_out p per_page s Hinv Hval)
    as (page & io & Hser & Hpage & Hwf & Hrows & Hw & Hfiles & Hnew & Hold).
  pose proof Hinv as [Hp Hcnt Hlast _ Hid Hps Hused _ Hrow _ _ Hindex].
  unfold next_page. rewrite Hser. cbn [mbind res_bind]. rewrite Hw. cbn [mbind res_bind].
  assert (used_size_ page = 64 + per_page * tuple_size) as Hup by (by rewrite Hpage).
  fold per_page. rewrite Hup, (proj2 (Z.eqb_eq _ _)) by lia.
  unfold TableSpace.GetNextPageId. simpl. rewrite Hlast, i64_id, u64_id by (unfold is_u64; lia).
  eexists. split; [done|].
  split; simpl; rewrite ?Hlast, ?i64_id by lia; try done; try lia.
  - destruct Hwf as [W1 W2 W3 W4 W5]. split; simpl; try done; unfold is_u64; lia.
  - by rewrite Hpage.
  - intros j Hj. lia.
  - intros q Hq. destruct (decide (q = p)) as [->|]; [done|]. apply Hold. lia.
  - intros key. rewrite Hindex. by apply decide_ext; lia.
Qed.

Lemma index_put_lookup (key key' : Z) (item : Index.IndexItem) (ix : Index.Index) :
  Index.index_ (Index.IndexPut key item ix).2 !! key'
  = if decide (key' = key) then Some item else Index.index_ ix !! key'.
Proof.
  rewrite Index.IndexPut_snd. simpl. case_decide as H.
  - by rewrite H, lookup_insert_eq.
  - by rewrite lookup_insert_ne.
Qed.

(** The row of the next key goes behind the rows of the current page. *)
Lemma put_key_spec (p cnt : Z) (s : load_state) (key : Z) :
  load_inv p cnt s -> cnt < per_page -> key = p * per_page + cnt -> is_u64 key ->
  exists s', load_key tuple_size version s key = Ret s' /\ load_inv p (cnt + 1) s'.
Proof using Hsize.
  intros Hinv Hroom Hkey Hk64. pose proof per_page_bounds as (Hpp & Hfit & _).
  pose proof Hinv as [Hp Hcnt Hlast Hwf Hid Hps Hused Hrows (a & c & Hrow & Ha & Hc) Hfiles Hdisk
    Hindex].
  pose proof MY_PAGE_SIZE_eq as HP. unfold load_key.
  rewrite u64_id by (unfold is_u64; nia).
  destruct (Z.ltb_spec (MY_PAGE_SIZE - used_size_ (ld_page s)) tuple_size) as [|_]; [nia|].
  cbn [mbind res_bind]. rewrite Hrow.
  pose proof (store_row a c key Ha Hc) as Hst.
  destruct (store_u64 _ 0 key) as [row1| |]; [|done..]. cbn [mbind res_bind] in *.
  rewrite Hst. cbn [mbind res_bind].
  pose proof (length_row_of key) as Hlr.
  rewrite PagePut_Ret by (try done; rewrite ?Hps; nia). cbn [mbind res_bind].
  rewrite take_ge by lia.
  destruct (Index.IndexPut key _ _) as [rc ix] eqn:Eix.
  eexists. split; [done|]. pose proof Hwf as [W1 W2 W3 W4 W5].
  assert (Z.to_nat (used_size_ (ld_page s)) + length (row_of key)
          <= length (page_buf_ (ld_page s)))%nat as Hin by nia.
  split; simpl; try done; try nia.
  - split; simpl; try done; [by rewrite length_splice|nia].
  - intros j Hj. destruct (decide (j = cnt)) as [->|Hne].
    + rewrite <- Hused, <- Hkey. assert (Z.to_nat tuple_size = length (row_of key)) as -> by lia.
      by apply slice_splice_same.
    + rewrite slice_splice_disjoint by (try done; nia). apply Hrows. lia.
  - eexists (bytes_of_u64 key), (bytes_of_u64 version). by rewrite !length_bytes_of_u64.
  - intros key'. change ix with (rc, ix).2. rewrite <- Eix, index_put_lookup, Hindex.
    unfold item_of, row_loc. simpl.
    destruct (decide (key' = key)) as [->|Hne].
    + rewrite decide_True by (subst key; nia). rewrite u64_id by (unfold is_u64; nia).
      do 2 f_equal; subst key.
      * rewrite Hid, Z.div_add_l, Z.div_small by lia. lia.
      * rewrite (Z.add_comm (p * _)), Z_mod_plus_full, Z.mod_small by lia. lia.
    + by apply decide_ext; lia.
Qed.

(** A key that finds the page full starts the next page. *)
Lemma load_key_spec (p cnt : Z) (s : load_state) (key : Z) :
  load_inv p cnt s -> key = p * per_page + cnt -> 0 <= key < 2 ^ 63 ->
  (cnt = per_page -> file_valid nfiles p) ->
  exists s' p' cnt', load_key tuple_size version s key = Ret s' /\ load_inv p' cnt' s'
    /\ 0 < cnt' /\ key + 1 = p' * per_page + cnt'.
Proof using Hsize.
  intros Hinv Hkey Hk Hval. pose proof per_page_bounds as (Hpp & Hfit & Hfull).
  assert (is_u64 key) as Hk64 by (unfold is_u64; lia).
  pose proof (li_cnt _ _ _ Hinv). pose proof MY_PAGE_SIZE_eq as HP.
  destruct (decide (cnt = per_page)) as [->|Hne].
  - destruct (next_page_spec p s Hinv (Hval eq_refl)) as (s1 & Hnext & Hinv1); [nia|].
    destruct (put_key_spec (p + 1) 0 s1 key Hinv1) as (s' & Hput & Hinv'); [lia|lia|done|].
    exists s', (p + 1), (0 + 1). split; [|split; [done|lia]].
    rewrite <- Hput. unfold load_key.
    rewrite (li_used _ _ _ Hinv), (li_used _ _ _ Hinv1), !u64_id by (unfold is_u64; nia).
    destruct (Z.ltb_spec (MY_PAGE_SIZE - (64 + per_page * tuple_size)) tuple_size); [|nia].
    destruct (Z.ltb_spec (MY_PAGE_SIZE - (64 + 0 * tuple_size)) tuple_size); [nia|].
    rewrite Hnext. done.
  - destruct (put_key_spec p cnt s key Hinv) as (s' & Hput & Hinv'); [lia|done|done|].
    exists s', p, (cnt + 1). split; [done|]. split; [done|lia].
Qed.

Lemma load_keys_spec (s : load_state) (n : Z) :
  load_inv 0 0 s -> 0 <= n < 2 ^ 63 -> n <= Z.of_nat nfiles * ITEM_NUM_PER_FILE * per_page ->
  exists s' p cnt, foldM (load_key tuple_size version) s (seqZ 0 n) = Ret s' /\ load_inv p cnt s'
    /\ n = p * per_page + cnt /\ (0 < n -> 0 < cnt).
Proof using Hsize.
  intros Hinit Hn Hfits. pose proof per_page_bounds as (Hpp & _).
  destruct (foldM_inv (fun l s => exists k p cnt, l = seqZ k (n - k) /\ 0 <= k <= n
      /\ load_inv p cnt s /\ k = p * per_page + cnt /\ (0 < k -> 0 < cnt))
    (load_key tuple_size version) (seqZ 0 n) s) as (s' & Hrun & k & p & cnt & Hl & Hk & Hinv & Hkp & Hc).
  - exists 0, 0, 0. rewrite Z.sub_0_r. split_and!; try done; lia.
  - intros key l s1 (k & p & cnt & Hl & Hk & Hinv & Hkp & Hc).
    destruct (decide (n - k = 0)) as [E|]; [rewrite E in Hl; discriminate|].
    rewrite seqZ_cons in Hl by lia. injection Hl as -> ->.
    pose proof (li_p _ _ _ Hinv). pose proof (li_cnt _ _ _ Hinv).
    destruct (load_key_spec p cnt s1 k Hinv) as (s2 & p' & cnt' & Hput & Hinv' & Hc' & Hk');
      [done|lia| |].
    { intros ->. split; [lia|]. apply (Z.mul_lt_mono_pos_r per_page); lia. }
    exists s2. split; [done|]. exists (Z.succ k), p', cnt'.
    split_and!; try done; try lia. by replace (n - Z.succ k) with (Z.pred (n - k)) by lia.
  - exists s', p, cnt. split; [done|]. split; [done|].
    assert (k = n) as ->; [|done].
    apply (f_equal length) in Hl. rewrite length_seqZ in Hl. simpl in Hl. lia.
Qed.

(** The state the table is left in. *)
Record loaded (n : Z) (s : load_state) : Prop := {
  lo_files : file_wf nfiles (ld_io s);
  lo_index : forall key, Index.index_ (ld_index s) !! key
             = if decide (0 <= key < n) then Some (item_of key) else None;
  lo_rows : forall key, 0 <= key < n -> exists b,
    file_page (ld_io s) (key / per_page) = Some b /\ load_u64 b 0 = Ret (key / per_page)
    /\ slice (Z.to_nat (row_loc key)) (Z.to_nat tuple_size) b = row_of key;
  lo_last : TableSpace.last_page_id_ (ld_space s) = Z.max 0 ((n - 1) / per_page);
}.

Lemma load_inv_loaded (p cnt : Z) (s : load_state) (page : Page) (io : FileIO) :
  load_inv p cnt s -> (0 < p -> 0 < cnt) -> file_wf nfiles io ->
  (0 < cnt -> page_loaded io p cnt) ->
  (forall q, 0 <= q < p -> page_loaded io q per_page) ->
  loaded (p * per_page + cnt) {| ld_space := ld_space s; ld_index := ld_index s;
                                 ld_page := page; ld_row := ld_row s; ld_io := io |}.
Proof using Hsize.
  intros Hinv Hpc Hwf Hlast Hold. pose proof per_page_bounds as (Hpp & _).
  pose proof (li_p _ _ _ Hinv). pose proof (li_cnt _ _ _ Hinv).
  split; simpl; [done|apply Hinv| |].
  - intros key Hkey.
    pose proof (Z.div_mod key per_page ltac:(lia)) as Hdm.
    pose proof (Z.mod_pos_bound key per_page ltac:(lia)) as Hm.
    assert (0 <= key / per_page <= p) as Hq by nia.
    assert (exists c, page_loaded io (key / per_page) c /\ key `mod` per_page < c)
      as (c & (b & Hb & Hid & Hrows) & Hc).
    { destruct (decide (key / per_page = p)) as [E|].
      - exists cnt. rewrite E in *. split; [apply Hlast; nia|nia].
      - exists per_page. split; [apply Hold; lia|lia]. }
    exists b. split; [done|]. split; [done|]. unfold row_loc. rewrite Hrows by lia. f_equal. lia.
  - rewrite (li_last _ _ _ Hinv). destruct (decide (cnt = 0)) as [->|].
    + assert (p = 0) as -> by lia.
      assert ((0 * per_page + 0 - 1) / per_page < 0) by (apply Z.div_lt_upper_bound; lia). lia.
    + replace (p * per_page + cnt - 1) with (cnt - 1 + p * per_page) by lia.
      rewrite Z_div_plus_full, Z.div_small by lia. lia.
Qed.

Lemma fill_pages_spec (s0 : load_state) (n : Z) :
  load_inv 0 0 s0 -> 0 <= n < 2 ^ 63 -> n <= Z.of_nat nfiles * ITEM_NUM_PER_FILE * per_page ->
  exists s, fill_pages tuple_size version n s0 = Ret s /\ loaded n s.
Proof using Hsize.
  intros Hinit Hn Hfits. pose proof per_page_bounds as (Hpp & _). unfold fill_pages.
  destruct (load_keys_spec s0 n Hinit Hn Hfits) as (s & p & cnt & -> & Hinv & Hnp & Hc).
  cbn [mbind res_bind]. rewrite (li_used _ _ _ Hinv).
  pose proof (li_p _ _ _ Hinv). pose proof (li_cnt _ _ _ Hinv).
  destruct (Z.ltb_spec 64 (64 + cnt * tuple_size)) as [Hpos|Hzero].
  - assert (0 < cnt) as Hcnt by nia.
    destruct (write_out p cnt s Hinv) as (page & io' & Hser & _ & _ & _ & Hw & Hwf & Hnew & Hold).
    { split; [lia|]. apply (Z.mul_lt_mono_pos_r per_page); lia. }
    rewrite Hser. cbn [mbind res_bind]. rewrite Hw. cbn [mbind res_bind].
    eexists. split; [done|]. rewrite Hnp. by apply load_inv_loaded.
  - assert (cnt = 0) as -> by nia. assert (p = 0) as -> by nia.
    exists s. split; [done|]. rewrite Hnp.
    pose proof (load_inv_loaded 0 0 s (ld_page s) (ld_io s) Hinv ltac:(lia) (li_files _ _ _ Hinv)
      ltac:(lia) ltac:(lia)) as Hl. by destruct s.
Qed.

(** A new page and a row of filler are where the loop can start. *)
Lemma fresh_load_inv (space : TableSpace.TableSpace) (ix : Index.Index) (junk : bytes) (version0 : Z) (io : FileIO) :
  TableSpace.last_page_id_ space = 0 -> Index.index_ ix = ∅ ->
  Z.of_nat (length junk) = MY_PAGE_SIZE -> is_u64 version0 -> file_wf nfiles io ->
  load_inv 0 0 {| ld_space := space; ld_index := ix; ld_page := set_page_id 0 (new_Page version0 junk);
                  ld_row := replicate (Z.to_nat tuple_size) fill; ld_io := io |}.
Proof using Hsize.
  intros Hsp Hix Hj Hv Hio. pose proof per_page_bounds as (Hpp & _). rewrite MY_PAGE_SIZE_eq in Hj.
  split; simpl; try done; try lia.
  - intros j Hj'. lia.
  - exists (replicate 8 fill), (replicate 8 fill). split; [|done]. rewrite <- !replicate_add. f_equal. lia.
  - intros key. by rewrite Hix, lookup_empty, decide_False by lia.
Qed.
End Load.

(** The rows of the YCSB table. *)
Local Abbreviation ycsb_row tuple_size := (row_of tuple_size Byte.x61 0).

Lemma load_table_spec (nfiles : nat) (table : Catalog.table_t) (n : Z) (junk : bytes) (version0 : Z) (io : FileIO) :
  let tuple_size := Catalog.tuple_size (Catalog.schema table) in
  16 <= tuple_size <= MY_PAGE_SIZE - 64 ->
  Z.of_nat (length junk) = MY_PAGE_SIZE -> is_u64 version0 -> file_wf nfiles io ->
  0 <= n < 2 ^ 63 -> n <= Z.of_nat nfiles * ITEM_NUM_PER_FILE * per_page tuple_size ->
  exists s, load_table table n junk version0 io = Ret s /\ loaded nfiles tuple_size Byte.x61 0 n s.
Proof.
  intros tuple_size Hsize Hj Hv Hio Hn Hfits. unfold load_table. fold tuple_size.
  apply fill_pages_spec; [done| |done|done]. by apply fresh_load_inv.
Qed.

(** ** The loaded table *)

(** A table of [n] keys is loaded without a failed assertion.  Each key below
    [n], and no other, is in the index; the page the index names is on disk
    under its own id and holds the key's row at the location the index gives;
    the table space has allocated exactly the pages that were filled. *)
Theorem ycsb_load_table (nfiles : nat) (table : Catalog.table_t) (n : Z) (junk : bytes)
    (version0 : Z) (io : FileIO) :
  let tuple_size := Catalog.tuple_size (Catalog.schema table) in
  16 <= tuple_size <= MY_PAGE_SIZE - 64 ->
  Z.of_nat (length junk) = MY_PAGE_SIZE -> is_u64 version0 -> file_wf nfiles io ->
  0 <= n < 2 ^ 63 -> n <= Z.of_nat nfiles * ITEM_NUM_PER_FILE * per_page tuple_size ->
  exists s, load_table table n junk version0 io = Ret s
    /\ file_wf nfiles (ld_io s)
    /\ TableSpace.last_page_id_ (ld_space s) = Z.max 0 ((n - 1) / per_page tuple_size)
    /\ (forall key, Index.index_ (ld_index s) !! key
          = if decide (0 <= key < n) then Some (item_of tuple_size key) else None)
    /\ (forall key, 0 <= key < n -> exists b,
          file_page (ld_io s) (Index.page_id_ (item_of tuple_size key)) = Some b
          /\ load_u64 b 0 = Ret (Index.page_id_ (item_of tuple_size key))
          /\ slice (Z.to_nat (Index.page_location_ (item_of tuple_size key)))
               (Z.to_nat tuple_size) b = ycsb_row tuple_size key).
Proof.
  intros tuple_size Hsize Hj Hv Hio Hn Hfits.
  destruct (load_table_spec nfiles table n junk version0 io Hsize Hj Hv Hio Hn Hfits) as (s & Hs & [H1 H2 H3 H4]). exists s. split_and!; done.
Qed.

(** A table of 8 kB rows. *)
Definition wide_table : Catalog.table_t :=
  Catalog.table_init
    {| Catalog.table_name := "MAIN_TABLE"; Catalog.field_cnt := 0; Catalog._columns := [];
       Catalog.tuple_size := 8192 |}.

Lemma wide_table_fits : 3 <= Z.of_nat 1 * ITEM_NUM_PER_FILE * per_page 8192.
Proof. vm_compute. discriminate. Qed.

Lemma ycsb_load_table_witness :
  exists s, load_table wide_table 3 (replicate (Z.to_nat MY_PAGE_SIZE) Byte.x00) 0 file_example
            = Ret s
    /\ TableSpace.last_page_id_ (ld_space s) = 2
    /\ Index.index_ (ld_index s) !! 1 = Some (Index.mkIndexItem 1 64).
Proof.
  destruct (ycsb_load_table 1 wide_table 3 (replicate (Z.to_nat MY_PAGE_SIZE) Byte.x00) 0
    file_example) as (s & Hs & _ & Hlast & Hix & _).
  - rewrite MY_PAGE_SIZE_eq. simpl. lia.
  - rewrite length_replicate, MY_PAGE_SIZE_eq. lia.
  - unfold is_u64. lia.
  - exact file_example_wf.
  - lia.
  - exact wide_table_fits.
  - exists s. split; [exact Hs|]. split; [exact Hlast|]. exact (Hix 1).
Defined.

(** ** Rows of the loaded table *)

Section Served.
Context (nfiles : nat) (tuple_size n : Z).
Hypothesis Hsize : 16 <= tuple_size <= MY_PAGE_SIZE - 64.
#[local] Instance disk_spec : DiskSpec FileIO := FileIO_DiskSpec nfiles.

(** The storage of an instance that has read the table's index and owns its
    pages. *)
Definition serves (st : RowStore.Store FileIO) (s : load_state) : Prop :=
  RowStore.st_index st = ld_index s /\ RowStore.st_disk st = ld_io s
  /\ (exists v0, new_Buffer v0 FILE_SIZE MY_PAGE_SIZE = Ret (RowStore.st_buffer st))
  /\ forall p, 0 <= p <= TableSpace.last_page_id_ (ld_space s) -> RowStore.writable st p.

Lemma page_range (key : Z) :
  0 <= key < n -> n <= Z.of_nat nfiles * ITEM_NUM_PER_FILE * per_page tuple_size ->
  file_valid nfiles (key / per_page tuple_size)
  /\ key / per_page tuple_size <= Z.max 0 ((n - 1) / per_page tuple_size).
Proof using Hsize.
  intros Hk Hfits. destruct (per_page_bounds tuple_size Hsize) as (Hpp & _). split.
  - split; [apply Z.div_pos; lia|]. apply Z.div_lt_upper_bound; lia.
  - pose proof (Z.div_le_mono key (n - 1) (per_page tuple_size)). lia.
Qed.

Lemma row_loc_room (key : Z) :
  64 <= row_loc tuple_size key /\ row_loc tuple_size key + tuple_size <= MY_PAGE_SIZE.
Proof using Hsize.
  destruct (per_page_bounds tuple_size Hsize) as (Hpp & Hfit & _). unfold row_loc.
  pose proof (Z.mod_pos_bound key (per_page tuple_size) Hpp). nia.
Qed.

Lemma row_locs_disjoint (key key' : Z) :
  key <> key' -> key / per_page tuple_size = key' / per_page tuple_size ->
  row_loc tuple_size key + tuple_size <= row_loc tuple_size key'
  \/ row_loc tuple_size key' + tuple_size <= row_loc tuple_size key.
Proof using Hsize.
  destruct (per_page_bounds tuple_size Hsize) as (Hpp & _). intros Hne Hq. unfold row_loc.
  pose proof (Z.div_mod key (per_page tuple_size) ltac:(lia)).
  pose proof (Z.div_mod key' (per_page tuple_size) ltac:(lia)).
  assert (key `mod` per_page tuple_size <> key' `mod` per_page tuple_size) by congruence. nia.
Qed.

Lemma load_row_of (key : Z) : is_u64 key -> load_u64 (ycsb_row tuple_size key) 0 = Ret key.
Proof. intros Hk. unfold row_of. exact (load_u64_app [] _ key Hk). Qed.

Lemma served_ok (st : RowStore.Store FileIO) (s : load_state) :
  loaded nfiles tuple_size Byte.x61 0 n s -> serves st s -> 0 <= n < 2 ^ 63 ->
  n <= Z.of_nat nfiles * ITEM_NUM_PER_FILE * per_page tuple_size ->
  RowStore.store_ok tuple_size st
  /\ forall key, RowStore.stored_row tuple_size st key
       = if decide (0 <= key < n) then Some (ycsb_row tuple_size key) else None.
Proof using Hsize.
  intros [Hwf Hix Hrows Hlast] (Hsi & Hsd & [v0 Hb] & Hw) Hn Hfits.
  destruct (new_Buffer_ok (D := FileIO) v0 FILE_SIZE) as (b & Hb' & Hok & Hempty & _).
  { clear Hb. rewrite MY_PAGE_SIZE_eq. change FILE_SIZE with (1024 * 16 * 1024 * 100). vm_compute.
    split; [discriminate|done]. }
  rewrite Hb in Hb'. injection Hb' as <-. clear Hb.
  assert (forall p, RowStore.page_view st p = file_page (ld_io s) p) as Hview.
  { intros p. unfold RowStore.page_view, view. by rewrite Hempty, lookup_empty, Hsd. }
  assert (forall key item, Index.index_ (RowStore.st_index st) !! key = Some item ->
    0 <= key < n /\ item = item_of tuple_size key) as Hitem.
  { intros key item. rewrite Hsi, Hix. case_decide; [|done]. by intros [= <-]. }
  assert (forall key, RowStore.stored_row tuple_size st key
    = if decide (0 <= key < n) then Some (ycsb_row tuple_size key) else None) as Hstored.
  { intros key. unfold RowStore.stored_row. rewrite Hsi, Hix. case_decide as Hk; [|done].
    simpl. rewrite Hview. destruct (Hrows key Hk) as (pg & -> & _ & Hpg). simpl. by rewrite Hpg. }
  split; [|done]. split; [done|by rewrite Hsd|lia| | | |].
  - intros key item (Hk & ->)%Hitem. simpl. destruct (page_range key Hk Hfits) as [Hv Hle].
    split.
    + split; [done|]. destruct (Hrows key Hk) as (pg & Hpg & Hid & _). exists pg.
      rewrite Hview. split; [done|]. split; [|done]. by apply (disk_page_length (DiskSpec := disk_spec) (ld_io s) _ _ Hpg).
    + apply Hw. rewrite Hlast. split; [apply Hv|done].
  - intros key item (_ & ->)%Hitem. apply row_loc_room.
  - intros key v. rewrite Hstored. case_decide as Hk; [|done]. intros [= <-].
    apply load_row_of. unfold is_u64. lia.
  - intros key key' item item' Hne (_ & ->)%Hitem (_ & ->)%Hitem. by apply row_locs_disjoint.
Qed.
End Served.

(** C13: From the loader to the row handler: an instance that serves the loaded
    table reads, under every key, the row the loader made for it, and its
    storage satisfies the invariant on which reads and writes of rows rest. *)
Theorem ycsb_loaded_rows_readable (nfiles : nat) (table : Catalog.table_t) (n : Z)
    (junk junk_page junk_row : bytes) (version0 junk_version : Z) (junk_item : Index.IndexItem)
    (io : FileIO) :
  let tuple_size := Catalog.tuple_size (Catalog.schema table) in
  16 <= tuple_size <= MY_PAGE_SIZE - 64 ->
  Z.of_nat (length junk) = MY_PAGE_SIZE -> is_u64 version0 -> file_wf nfiles io ->
  0 <= n < 2 ^ 63 -> n <= Z.of_nat nfiles * ITEM_NUM_PER_FILE * per_page tuple_size ->
  Z.of_nat (length junk_page) = MY_PAGE_SIZE -> Z.of_nat (length junk_row) = tuple_size ->
  exists s, load_table table n junk version0 io = Ret s
    /\ forall st, serves st s ->
       RowStore.store_ok (DiskSpec0 := FileIO_DiskSpec nfiles) tuple_size st
       /\ forall key, 0 <= key < n -> exists st',
            RowStore.SnapShotReadRow junk_page junk_version junk_item
              (Catalog.mkRowItem key tuple_size (Some junk_row) None None) st
            = Ret (true, Catalog.mkRowItem key tuple_size (Some (ycsb_row tuple_size key)) None None,
                   st').
Proof.
  intros tuple_size Hsize Hj Hv Hio Hn Hfits Hjp Hjr.
  destruct (load_table_spec nfiles table n junk version0 io Hsize Hj Hv Hio Hn Hfits) as (s & Hs & Hl). exists s. split; [exact Hs|]. clear Hs. intros st Hst.
  destruct (served_ok nfiles tuple_size n Hsize st s Hl Hst Hn Hfits) as [Hok Hstored].
  clear Hst. split; [exact Hok|]. intros key Hk.
  pose proof (Hstored key) as Hrow. rewrite decide_True in Hrow by done.
  destruct (RowStore.SnapShotReadRow_spec junk_page junk_version junk_item tuple_size Hjp st key
    _ junk_row Hok Hrow Hjr) as (st' & Hr & _). by exists st'.
Qed.

Lemma ycsb_loaded_rows_readable_witness :
  exists s, load_table wide_table 3 (replicate (Z.to_nat MY_PAGE_SIZE) Byte.x00) 0 file_example
            = Ret s
    /\ forall st, serves st s -> exists st',
         RowStore.SnapShotReadRow (replicate (Z.to_nat MY_PAGE_SIZE) Byte.x00) 0
           (Index.mkIndexItem 0 0)
           (Catalog.mkRowItem 2 8192 (Some (replicate (Z.to_nat 8192) Byte.x00)) None None) st
         = Ret (true, Catalog.mkRowItem 2 8192 (Some (row_of 8192 Byte.x61 0 2)) None None, st').
Proof.
  destruct (ycsb_loaded_rows_readable 1 wide_table 3 (replicate (Z.to_nat MY_PAGE_SIZE) Byte.x00)
    (replicate (Z.to_nat MY_PAGE_SIZE) Byte.x00) (replicate (Z.to_nat 8192) Byte.x00) 0 0
    (Index.mkIndexItem 0 0) file_example) as (s & Hs & Hread).
  - rewrite MY_PAGE_SIZE_eq. simpl. lia.
  - rewrite length_replicate, MY_PAGE_SIZE_eq. lia.
  - unfold is_u64. lia.
  - exact file_example_wf.
  - lia.
  - exact wide_table_fits.
  - rewrite length_replicate, MY_PAGE_SIZE_eq. lia.
  - rewrite length_replicate. simpl Catalog.tuple_size. lia.
  - exists s. split; [exact Hs|]. intros st Hst. apply (Hread st Hst). lia.
Defined.
