(* ===== verification/RowMvcc.v ===== *)
(** * db2: multi-version concurrency control of a row
    ([instance/concurrency_control/row_mvcc.cpp])

    Row objects live in a heap, because the code compares and shares pointers
    to them.  The latch of the row makes every call of [access] one atomic
    step.  The storage below is any [RowStore]; the smallest active timestamp,
    which [reserveRow] asks the manager for, is an argument. *)

From S2P Require Import Prelude Config RowStore.
From S2P Require Catalog.

Abbreviation rloc := nat.

(** [src/instance/concurrency_control/row_mvcc.h:19-24 WriteHisEntry] *)
Record WriteHisEntry := mkWrite {
  w_valid : bool;
  w_reserved : bool;
  w_ts : Z;
  w_row : option rloc;
}.

(** The field [time] is written and never read.
    [src/instance/concurrency_control/row_mvcc.h:26-33 ReqEntry] *)
Record ReqEntry := mkReq {
  r_valid : bool;
  r_type : TsType;
  r_ts : Z;
  r_txn : Z;
}.

(** The lengths [_his_len] and [_req_len] are those of the two lists.
    [src/instance/concurrency_control/row_mvcc.h:36-81 Row_mvcc] *)
Record Row_mvcc := mkMvcc {
  m_key : Z;
  m_size : Z;
  m_row : option rloc;
  latest_row : option rloc;
  latest_wts : Z;
  oldest_wts : Z;
  write_history : list WriteHisEntry;
  exists_prewrite : bool;
  prewrite_ts : Z;
  prewrite_his_id : nat;
  max_served_rts : Z;
  requests : list ReqEntry;
  num_versions : Z;
}.

Definition his_len (m : Row_mvcc) : nat := length (write_history m).
Definition req_len (m : Row_mvcc) : nat := length (requests m).

(** What a transaction shares with the rows it waits for.
    [src/instance/txn/txn.h:69-79 cur_row] *)
Record txn_state := mkTxn {
  t_ts : Z;
  cur_row : option rloc;
  ts_ready : bool;
}.

(** A row, the heap of row objects, the transactions (by thread id) and the
    storage. *)
Record mstate (S : Type) := mkState {
  mv : Row_mvcc;
  rows : gmap rloc Catalog.RowItem;
  txns : gmap Z txn_state;
  db : S;
}.
Arguments mkState {S}.
Arguments mv {S}.
Arguments rows {S}.
Arguments txns {S}.
Arguments db {S}.

(** ** Field updates *)

Definition set_row (r : option rloc) (m : Row_mvcc) : Row_mvcc :=
  mkMvcc (m_key m) (m_size m) r (latest_row m) (latest_wts m) (oldest_wts m) (write_history m)
    (exists_prewrite m) (prewrite_ts m) (prewrite_his_id m) (max_served_rts m) (requests m)
    (num_versions m).
Definition set_latest_row (r : option rloc) (m : Row_mvcc) : Row_mvcc :=
  mkMvcc (m_key m) (m_size m) (m_row m) r (latest_wts m) (oldest_wts m) (write_history m)
    (exists_prewrite m) (prewrite_ts m) (prewrite_his_id m) (max_served_rts m) (requests m)
    (num_versions m).
Definition set_latest_wts (ts : Z) (m : Row_mvcc) : Row_mvcc :=
  mkMvcc (m_key m) (m_size m) (m_row m) (latest_row m) ts (oldest_wts m) (write_history m)
    (exists_prewrite m) (prewrite_ts m) (prewrite_his_id m) (max_served_rts m) (requests m)
    (num_versions m).
Definition set_oldest_wts (ts : Z) (m : Row_mvcc) : Row_mvcc :=
  mkMvcc (m_key m) (m_size m) (m_row m) (latest_row m) (latest_wts m) ts (write_history m)
    (exists_prewrite m) (prewrite_ts m) (prewrite_his_id m) (max_served_rts m) (requests m)
    (num_versions m).
Definition set_history (h : list WriteHisEntry) (m : Row_mvcc) : Row_mvcc :=
  mkMvcc (m_key m) (m_size m) (m_row m) (latest_row m) (latest_wts m) (oldest_wts m) h
    (exists_prewrite m) (prewrite_ts m) (prewrite_his_id m) (max_served_rts m) (requests m)
    (num_versions m).
Definition set_prewrite (b : bool) (ts : Z) (i : nat) (m : Row_mvcc) : Row_mvcc :=
  mkMvcc (m_key m) (m_size m) (m_row m) (latest_row m) (latest_wts m) (oldest_wts m)
    (write_history m) b ts i (max_served_rts m) (requests m) (num_versions m).
Definition set_max_served (ts : Z) (m : Row_mvcc) : Row_mvcc :=
  mkMvcc (m_key m) (m_size m) (m_row m) (latest_row m) (latest_wts m) (oldest_wts m)
    (write_history m) (exists_prewrite m) (prewrite_ts m) (prewrite_his_id m) ts (requests m)
    (num_versions m).
Definition set_requests (q : list ReqEntry) (m : Row_mvcc) : Row_mvcc :=
  mkMvcc (m_key m) (m_size m) (m_row m) (latest_row m) (latest_wts m) (oldest_wts m)
    (write_history m) (exists_prewrite m) (prewrite_ts m) (prewrite_his_id m) (max_served_rts m)
    q (num_versions m).
Definition set_num (n : Z) (m : Row_mvcc) : Row_mvcc :=
  mkMvcc (m_key m) (m_size m) (m_row m) (latest_row m) (latest_wts m) (oldest_wts m)
    (write_history m) (exists_prewrite m) (prewrite_ts m) (prewrite_his_id m) (max_served_rts m)
    (requests m) n.

Definition invalidate (e : WriteHisEntry) : WriteHisEntry := mkWrite false false (w_ts e) (w_row e).
Definition empty_entry : WriteHisEntry := mkWrite false false 0 None.
Definition empty_req : ReqEntry := mkReq false R_REQ 0 0.

(** ** Set-up and buffered requests *)

(** [_prewrite_ts] and [_prewrite_his_id] are indeterminate until a prewrite.
    [src/instance/concurrency_control/row_mvcc.cpp:24-58 Row_mvcc::init] *)
Definition init_mvcc (key size : Z) : Row_mvcc :=
  {| m_key := key; m_size := size; m_row := None; latest_row := None; latest_wts := 0;
     oldest_wts := 0; write_history := replicate 4 empty_entry; exists_prewrite := false;
     prewrite_ts := 0; prewrite_his_id := 0; max_served_rts := 0;
     requests := replicate 4 empty_req; num_versions := 0 |}.

(** [src/instance/concurrency_control/row_mvcc.cpp:89-126 Row_mvcc::double_list] *)
Definition double_list (l : Z) (m : Row_mvcc) : res Row_mvcc :=
  if l =? 0 then
    Ret (set_history (write_history m ++ replicate (his_len m) empty_entry) m)
  else
    assert! l =? 1;
    Ret (set_requests (requests m ++ replicate (req_len m) empty_req) m).

(** The first free slot takes the request.
    [src/instance/concurrency_control/row_mvcc.cpp:66-78 _requests] *)
Fixpoint put_req (r : ReqEntry) (q : list ReqEntry) : option (list ReqEntry) :=
  match q with
  | [] => None
  | e :: q => if negb (r_valid e) then Some (r :: q) else cons e <$> put_req r q
  end.

(** When no slot is free the list is doubled, once.
    [src/instance/concurrency_control/row_mvcc.cpp:61-83 Row_mvcc::buffer_req] *)
Definition buffer_req (type : TsType) (tid ts : Z) (m : Row_mvcc) : res Row_mvcc :=
  let r := mkReq true type ts tid in
  match put_req r (requests m) with
  | Some q => Ret (set_requests q m)
  | None =>
      m ← double_list 1 m;
      match put_req r (requests m) with
      | Some q => Ret (set_requests q m)
      | None => Fault Assert
      end
  end.

(** ** Row objects *)

Section Mvcc.
Context {S : Type} `{RowStore S}.

Definition upd_mv (f : Row_mvcc -> Row_mvcc) (s : mstate S) : mstate S :=
  mkState (f (mv s)) (rows s) (txns s) (db s).

Definition set_txn (tid : Z) (t : txn_state) (s : mstate S) : mstate S :=
  mkState (mv s) (rows s) (<[tid := t]> (txns s)) (db s).

(** [new RowItem(key_, size_)]; the new array's bytes are overwritten before
    they are read. *)
Definition alloc_row (s : mstate S) : rloc * mstate S :=
  let l := fresh (dom (rows s)) in
  let junk := replicate (Z.to_nat (m_size (mv s))) Byte.x00 in
  (l, mkState (mv s) (<[l := Catalog.new_RowItem junk (m_key (mv s)) (m_size (mv s))]> (rows s))
        (txns s) (db s)).

Definition row_obj (l : rloc) (s : mstate S) : res Catalog.RowItem :=
  match rows s !! l with Some r => Ret r | None => Fault UseAfterFree end.

Definition with_bytes (b : bytes) (r : Catalog.RowItem) : Catalog.RowItem :=
  Catalog.mkRowItem (Catalog.key_ r) (Catalog.size_ r) (Some b) (Catalog.data r) (Catalog.table r).

(** [src/instance/concurrency_control/row_mvcc.cpp:128-135 Row_mvcc::GetLatestRow] *)
Definition GetLatestRow (s : mstate S) : res (mstate S) :=
  assert! bool_decide (latest_row (mv s) = None);
  assert! num_versions (mv s) =? 0;
  assert! bool_decide (m_row (mv s) = None);
  let '(l, s) := alloc_row s in
  r ← row_obj l s;
  '(r, d) ← read_row r (db s);
  Ret (mkState (set_latest_row (Some l) (set_row (Some l) (mv s))) (<[l := r]> (rows s))
         (txns s) d).

(** [if(nullptr == _latest_row) { GetLatestRow(txn); }].
    [src/instance/concurrency_control/row_mvcc.cpp:245-245 GetLatestRow] *)
Definition ensure_latest (s : mstate S) : res (mstate S) :=
  match latest_row (mv s) with None => GetLatestRow s | Some _ => Ret s end.

(** [memcpy(res_row->row_, _latest_row->row_, size_)].
    [src/instance/concurrency_control/row_mvcc.cpp:299-302 memcpy] *)
Definition copy_latest (res_row : rloc) (s : mstate S) : res (mstate S) :=
  s ← ensure_latest s;
  src ← deref (latest_row (mv s));
  src ← row_obj src s;
  dst ← row_obj res_row s;
  sb ← deref (Catalog.row_ src);
  b ← deref (Catalog.row_ dst);
  b ← memcpy b 0 sb 0 (m_size (mv s));
  Ret (mkState (mv s) (<[res_row := with_bytes b dst]> (rows s)) (txns s) (db s)).

(** The consistency check of the debugging code.
    [src/instance/concurrency_control/row_mvcc.cpp:145-162 Row_mvcc::CheckLatestRow] *)
Definition CheckLatestRow (m : Row_mvcc) : res unit :=
  if bool_decide (latest_row m = None) || bool_decide (latest_row m = m_row m) then Ret tt
  else
    match list_find (fun e => latest_row m = w_row e) (write_history m) with
    | None => Fault Assert
    | Some (_, e) => assert! w_valid e; assert! w_reserved e; Ret tt
    end.

(** ** Choosing versions *)

(** The scan for the version a read at [ts] should see: the largest timestamp
    below [ts] so far, kept in 32 bits, and its index.
    [src/instance/concurrency_control/row_mvcc.cpp:255-267 the_ts] *)
Fixpoint find_version (ts : Z) (h : list WriteHisEntry) (i : nat) (the_ts : Z) (the_i : option nat)
    : option nat :=
  match h with
  | [] => the_i
  | e :: h =>
      if w_valid e && (w_ts e <? ts) && (the_ts <? w_ts e)
      then find_version ts h (1 + i) (u32 (w_ts e)) (Some i)
      else find_version ts h (1 + i) the_ts the_i
  end.

(** The scan for the newest version older than every active transaction.
    [src/instance/concurrency_control/row_mvcc.cpp:391-402 max_recycle_ts] *)
Fixpoint find_recycle (min_ts : Z) (h : list WriteHisEntry) (max_recycle_ts : Z) (found : bool)
    : option Z :=
  match h with
  | [] => if found then Some max_recycle_ts else None
  | e :: h =>
      if w_valid e && (w_ts e <? min_ts) && (max_recycle_ts <? w_ts e)
      then find_recycle min_ts h (w_ts e) true
      else find_recycle min_ts h max_recycle_ts found
  end.

(** One round of the loop that drops recycled versions.
    [src/instance/concurrency_control/row_mvcc.cpp:411-431 _write_history] *)
Definition recycle_entry (max_recycle_ts : Z) (m : Row_mvcc) (i : nat) : res Row_mvcc :=
  e ← at_ (write_history m !! i);
  if w_valid e && (w_ts e <=? max_recycle_ts) then
    assert! bool_decide (w_row e <> None);
    let m := set_history (<[i := invalidate e]> (write_history m)) m in
    let m := set_latest_row (if bool_decide (latest_row m = w_row e) then None else latest_row m) m in
    Ret (set_num (u32 (num_versions m - 1)) m)
  else Ret m.

(** Garbage collection at the start of [reserveRow].
    [src/instance/concurrency_control/row_mvcc.cpp:387-433 min_ts] *)
Definition collect (min_ts : Z) (m : Row_mvcc) : res Row_mvcc :=
  if (oldest_wts m <? min_ts) && (num_versions m =? Z.of_nat (his_len m)) then
    match find_recycle min_ts (write_history m) 0 false with
    | Some t => foldM (recycle_entry t) (set_oldest_wts t m) (seq 0 (his_len m))
    | None => Ret m
    end
  else Ret m.

(** The scan for a free entry: the first one that still has a row object, or
    else the last free one.
    [src/instance/concurrency_control/row_mvcc.cpp:453-464 idx] *)
Fixpoint find_free (h : list WriteHisEntry) (i : nat) (idx : option nat) : option nat :=
  match h with
  | [] => idx
  | e :: h =>
      if negb (w_valid e) && negb (w_reserved e) then
        if bool_decide (w_row e <> None) then Some i else find_free h (1 + i) (Some i)
      else find_free h (1 + i) idx
  end.

(** The scan for the oldest version.
    [src/instance/concurrency_control/row_mvcc.cpp:471-477 temp_min_ts] *)
Fixpoint find_oldest (h : list WriteHisEntry) (i : nat) (temp_min_ts : Z) (idx : option nat)
    : Z * option nat :=
  match h with
  | [] => (temp_min_ts, idx)
  | e :: h =>
      if w_valid e && (w_ts e <? temp_min_ts) then find_oldest h (1 + i) (w_ts e) (Some i)
      else find_oldest h (1 + i) temp_min_ts idx
  end.

(** The entry [reserveRow] uses.  [g_thread_cnt] is [THREAD_CNT].
    [src/instance/concurrency_control/row_mvcc.cpp:448-499 idx] *)
Definition choose_entry (ts : Z) (m : Row_mvcc) : res (nat * Row_mvcc) :=
  let idx := if num_versions m <? Z.of_nat (his_len m) then find_free (write_history m) 0 None
             else None in
  assert! negb (num_versions m <? Z.of_nat (his_len m)) || bool_decide (idx <> None);
  match idx with
  | Some i => Ret (i, m)
  | None =>
      if THREAD_CNT <=? Z.of_nat (his_len m) then
        let '(temp_min_ts, idx) := find_oldest (write_history m) 0 UINT64_MAX None in
        assert! oldest_wts m <? temp_min_ts;
        i ← at_ idx;
        e ← at_ (write_history m !! i);
        assert! bool_decide (w_row e <> None);
        Ret (i, set_num (u32 (num_versions m - 1)) (set_oldest_wts temp_min_ts m))
      else
        m ← double_list 0 m;
        Ret ((his_len m / 2)%nat, set_prewrite (exists_prewrite m) ts (prewrite_his_id m) m)
  end.

(** [src/instance/concurrency_control/row_mvcc.cpp:377-515 Row_mvcc::reserveRow] *)
Definition reserveRow (ts min_ts : Z) (s : mstate S) : res (rloc * mstate S) :=
  assert! negb (exists_prewrite (mv s));
  m ← collect min_ts (mv s);
  '(idx, m) ← choose_entry ts m;
  let s := upd_mv (fun _ => m) s in
  e ← at_ (write_history m !! idx);
  let '(l, s) := match w_row e with Some l => (l, s) | None => alloc_row s end in
  let m := set_history (<[idx := mkWrite false true ts (Some l)]> (write_history (mv s))) (mv s) in
  r ← row_obj l s;
  assert! Catalog.key_ r =? m_key m;
  assert! Catalog.size_ r =? m_size m;
  Ret (l, upd_mv (fun _ => set_prewrite true ts idx m) s).

(** ** Requests *)

(** The timestamp of the next pending prewrite.
    [src/instance/concurrency_control/row_mvcc.cpp:522-528 next_pre_ts] *)
Definition next_prewrite (ts : Z) (q : list ReqEntry) : Z :=
  foldl (fun next r =>
    if r_valid r && bool_decide (r_type r = P_REQ) && (ts <? r_ts r) && (r_ts r <? next)
    then r_ts r else next) UINT64_MAX q.

(** Answering a waiting transaction. *)
Definition answer (tid : Z) (l : option rloc) (s : mstate S) : res (mstate S) :=
  t ← at_ (txns s !! tid);
  Ret (set_txn tid (mkTxn (t_ts t) l true) s).

(** One round of the loop over the pending requests.
    [src/instance/concurrency_control/row_mvcc.cpp:530-558 _requests] *)
Definition serve_req (ts next_pre_ts min_ts : Z) (s : mstate S) (i : nat) : res (mstate S) :=
  r ← at_ (requests (mv s) !! i);
  let drop_req m := set_requests
    (<[i := mkReq false (r_type r) (r_ts r) (r_txn r)]> (requests m)) m in
  if r_valid r then
    assert! ts <? r_ts r;
    if bool_decide (r_type r = R_REQ) && (r_ts r <? next_pre_ts) then
      let s := upd_mv (fun m =>
        drop_req (if max_served_rts m <? r_ts r then set_max_served (r_ts r) m else m)) s in
      s ← ensure_latest s;
      answer (r_txn r) (latest_row (mv s)) s
    else if r_ts r =? next_pre_ts then
      assert! bool_decide (r_type r = P_REQ);
      '(l, s) ← reserveRow (r_ts r) min_ts s;
      s ← copy_latest l s;
      answer (r_txn r) (Some l) (upd_mv drop_req s)
    else Ret s
  else Ret s.

(** [src/instance/concurrency_control/row_mvcc.cpp:517-559 Row_mvcc::update_buffer] *)
Definition update_buffer (ts min_ts : Z) (s : mstate S) : res (mstate S) :=
  foldM (serve_req ts (next_prewrite ts (requests (mv s))) min_ts) s (seq 0 (req_len (mv s))).

(** [src/instance/concurrency_control/row_mvcc.cpp:227-280 R_REQ] *)
Definition access_read (tid : Z) (t : txn_state) (s : mstate S) : res (RC * mstate S) :=
  let ts := t_ts t in
  if ts <? oldest_wts (mv s) then Ret (Abort, s)
  else if latest_wts (mv s) <? ts then
    if exists_prewrite (mv s) && (prewrite_ts (mv s) <? ts) then
      m ← buffer_req R_REQ tid ts (mv s);
      Ret (WAIT, set_txn tid (mkTxn ts (cur_row t) false) (upd_mv (fun _ => m) s))
    else
      s ← ensure_latest s;
      let s := set_txn tid (mkTxn ts (latest_row (mv s)) (ts_ready t)) s in
      Ret (RCOK, upd_mv (fun m => if max_served_rts m <? ts then set_max_served ts m else m) s)
  else
    match find_version ts (write_history (mv s)) 0 0 None with
    | None =>
        s ← ensure_latest s;
        Ret (RCOK, set_txn tid (mkTxn ts (latest_row (mv s)) (ts_ready t)) s)
    | Some i =>
        e ← at_ (write_history (mv s) !! i);
        assert! bool_decide (w_row e <> None);
        Ret (RCOK, set_txn tid (mkTxn ts (w_row e) (ts_ready t)) s)
    end.

(** [src/instance/concurrency_control/row_mvcc.cpp:281-304 P_REQ] *)
Definition access_prewrite (tid min_ts : Z) (t : txn_state) (s : mstate S) : res (RC * mstate S) :=
  let ts := t_ts t in
  if (ts <? latest_wts (mv s)) || (ts <? max_served_rts (mv s))
     || (exists_prewrite (mv s) && (ts <? prewrite_ts (mv s))) then Ret (Abort, s)
  else if exists_prewrite (mv s) then
    m ← buffer_req P_REQ tid ts (mv s);
    Ret (WAIT, set_txn tid (mkTxn ts (cur_row t) false) (upd_mv (fun _ => m) s))
  else
    '(l, s) ← reserveRow ts min_ts s;
    s ← copy_latest l s;
    Ret (RCOK, set_txn tid (mkTxn ts (Some l) (ts_ready t)) s).

(** The entry of the served prewrite, which must be the caller's. *)
Definition prewrite_entry (row : option rloc) (s : mstate S) : res WriteHisEntry :=
  e ← at_ (write_history (mv s) !! prewrite_his_id (mv s));
  assert! bool_decide (row = w_row e);
  Ret e.

(** [src/instance/concurrency_control/row_mvcc.cpp:305-332 W_REQ] *)
Definition access_write (row : option rloc) (min_ts : Z) (t : txn_state) (s : mstate S)
    : res (RC * mstate S) :=
  let ts := t_ts t in
  assert! latest_wts (mv s) <? ts;
  e ← prewrite_entry row s;
  let s := upd_mv (fun m =>
    set_latest_row row (set_latest_wts ts (set_history
      (<[prewrite_his_id m := mkWrite true (w_reserved e) ts (w_row e)]> (write_history m)) m))) s in
  l ← deref row;
  r ← row_obj l s;
  d ← write_row r (db s);
  let rows' := match m_row (mv s) with Some old => delete old (rows s) | None => rows s end in
  let m := set_row None (mv s) in
  let m := set_prewrite false (prewrite_ts m) (prewrite_his_id m) m in
  let m := set_num (u32 (num_versions m + 1)) m in
  s ← update_buffer ts min_ts (mkState m rows' (txns s) d);
  Ret (RCOK, s).

(** [src/instance/concurrency_control/row_mvcc.cpp:333-347 XP_REQ] *)
Definition access_abort (row : option rloc) (min_ts : Z) (t : txn_state) (s : mstate S)
    : res (RC * mstate S) :=
  e ← prewrite_entry row s;
  let s := upd_mv (fun m =>
    let m := set_history (<[prewrite_his_id m := invalidate e]> (write_history m)) m in
    set_prewrite false (prewrite_ts m) (prewrite_his_id m) m) s in
  s ← update_buffer (t_ts t) min_ts s;
  Ret (RCOK, s).

(** The whole request, under the latch of the row.
    [src/instance/concurrency_control/row_mvcc.cpp:194-362 Row_mvcc::access] *)
Definition access (tid : Z) (type : TsType) (row : option rloc) (min_ts : Z) (s : mstate S)
    : res (RC * mstate S) :=
  t ← at_ (txns s !! tid);
  match type with
  | R_REQ => access_read tid t s
  | P_REQ => access_prewrite tid min_ts t s
  | W_REQ => access_write row min_ts t s
  | XP_REQ => access_abort row min_ts t s
  end.
End Mvcc.
