(* ===== verification/RowMvccInv.v ===== *)
(** * db2: invariants of the multi-version row

    The bookkeeping invariant of [Row_mvcc], its preservation by every helper
    of [access], and the absence of failed assertions. *)

From S2P Require Import Prelude Config RowStore RowMvcc.
From S2P Require Catalog.

(** ** Counting versions *)

Definition b2z (b : bool) : Z := if b then 1 else 0.

Definition nvalid (h : list WriteHisEntry) : Z := foldr (fun e n => b2z (w_valid e) + n) 0 h.

Lemma nvalid_bounds (h : list WriteHisEntry) : 0 <= nvalid h <= Z.of_nat (length h).
Proof. induction h as [|e h IH]; simpl; [lia|]. destruct (w_valid e); simpl; lia. Qed.

Lemma nvalid_insert (h : list WriteHisEntry) (i : nat) (e e' : WriteHisEntry) :
  h !! i = Some e -> nvalid (<[i := e']> h) = nvalid h - b2z (w_valid e) + b2z (w_valid e').
Proof.
  revert i. induction h as [|a h IH]; intros [|i]; simpl; [done|done| |].
  - intros [= ->]. lia.
  - intros Hi. rewrite (IH i Hi). lia.
Qed.

Lemma nvalid_pos (h : list WriteHisEntry) (i : nat) (e : WriteHisEntry) :
  h !! i = Some e -> w_valid e = true -> 0 < nvalid h.
Proof.
  revert i. induction h as [|a h IH]; intros [|i]; simpl; [done|done| |].
  - intros [= ->] ->. simpl. pose proof (nvalid_bounds h). lia.
  - intros Hi Hv. pose proof (IH i Hi Hv). destruct (w_valid a); simpl; lia.
Qed.

Lemma nvalid_full (h : list WriteHisEntry) (i : nat) (e : WriteHisEntry) :
  nvalid h = Z.of_nat (length h) -> h !! i = Some e -> w_valid e = true.
Proof.
  revert i. induction h as [|a h IH]; intros [|i] Hf; simpl in *; [done|done| |].
  - intros [= ->]. pose proof (nvalid_bounds h). destruct (w_valid e); simpl in *; [done|lia].
  - intros Hi. apply (IH i); [|done]. pose proof (nvalid_bounds h).
    destruct (w_valid a); simpl in *; lia.
Qed.

Lemma nvalid_not_full (h : list WriteHisEntry) :
  nvalid h < Z.of_nat (length h) -> exists i e, h !! i = Some e /\ w_valid e = false.
Proof.
  induction h as [|a h IH]; simpl; [lia|]. destruct (w_valid a) eqn:E; simpl; intros Hlt.
  - destruct IH as (i & e & Hi & He); [lia|]. exists (S i), e. done.
  - exists 0%nat, a. done.
Qed.

Lemma nvalid_zero (h : list WriteHisEntry) :
  (forall i e, h !! i = Some e -> w_valid e = false) -> nvalid h = 0.
Proof.
  induction h as [|a h IH]; intros Hall; simpl; [done|].
  rewrite (Hall 0%nat a eq_refl). simpl. apply IH. intros i e. apply (Hall (S i)).
Qed.

(** ** The invariant *)

(** The versions are those between the oldest and the latest write, with
    distinct timestamps and distinct row objects; at most one entry is reserved
    and it belongs to the served prewrite, which is newer than every version
    and every served read; the latest row is the newest version, or the copy
    read from storage when there is no version. *)
Record mv_base (m : Row_mvcc) : Prop := mk_mv_base {
  wf_num : num_versions m = nvalid (write_history m);
  wf_len : 4 <= Z.of_nat (his_len m) < 2 ^ 31;
  wf_valid : forall i e, write_history m !! i = Some e -> w_valid e = true ->
    w_reserved e = true /\ w_row e <> None /\ oldest_wts m < w_ts e <= latest_wts m;
  wf_reserved : forall i e, write_history m !! i = Some e -> w_reserved e = true ->
    w_valid e = false -> exists_prewrite m = true /\ i = prewrite_his_id m;
  wf_prewrite : exists_prewrite m = true ->
    (exists e, write_history m !! prewrite_his_id m = Some e /\ w_valid e = false
       /\ w_reserved e = true /\ w_ts e = prewrite_ts m /\ w_row e <> None)
    /\ latest_wts m < prewrite_ts m < UINT64_MAX /\ max_served_rts m <= prewrite_ts m;
  wf_distinct : forall i j e e', write_history m !! i = Some e -> write_history m !! j = Some e' ->
    w_valid e = true -> w_valid e' = true -> w_ts e = w_ts e' -> i = j;
  wf_rows : forall i j e e' l, write_history m !! i = Some e -> write_history m !! j = Some e' ->
    w_row e = Some l -> w_row e' = Some l -> i = j;
  wf_base_row : forall i e l, write_history m !! i = Some e -> w_row e = Some l -> m_row m <> Some l;
  wf_latest : match latest_row m with
    | None => num_versions m = 0 /\ m_row m = None
    | Some l =>
        (m_row m = Some l /\ num_versions m = 0)
        \/ (m_row m = None /\ exists i e, write_history m !! i = Some e /\ w_valid e = true
              /\ w_ts e = latest_wts m /\ w_row e = Some l)
    end;
  wf_order : 0 <= oldest_wts m <= latest_wts m /\ latest_wts m < UINT64_MAX /\ 0 <= max_served_rts m;
}.

(** Pending requests wait for the served prewrite and have distinct timestamps. *)
Record reqs_ok (m : Row_mvcc) : Prop := mk_reqs_ok {
  wf_pending : forall i r, requests m !! i = Some r -> r_valid r = true ->
    exists_prewrite m = true /\ prewrite_ts m < r_ts r < UINT64_MAX
    /\ (r_type r = R_REQ \/ r_type r = P_REQ);
  wf_req_distinct : forall i j r r', requests m !! i = Some r -> requests m !! j = Some r' ->
    r_valid r = true -> r_valid r' = true -> r_ts r = r_ts r' -> i = j;
  wf_req_len : (0 < req_len m)%nat;
}.

Definition mv_wf (m : Row_mvcc) : Prop := mv_base m /\ reqs_ok m.

Lemma init_mvcc_wf (key size : Z) : mv_wf (init_mvcc key size).
Proof.
  assert (forall i e, replicate 4 empty_entry !! i = Some e -> e = empty_entry) as Hw
    by (intros i e He; by apply lookup_replicate_1 in He as [-> _]).
  assert (forall i e, replicate 4 empty_req !! i = Some e -> e = empty_req) as Hr
    by (intros i e He; by apply lookup_replicate_1 in He as [-> _]).
  split; split; cbn -[replicate]; try done.
  - intros i e He. by rewrite (Hw _ _ He).
  - intros i e He. by rewrite (Hw _ _ He).
  - intros i j e e' He _. by rewrite (Hw _ _ He).
  - intros i j e e' l He _. by rewrite (Hw _ _ He).
  - intros i r Hi. by rewrite (Hr _ _ Hi).
  - intros i j r r' Hi _. by rewrite (Hr _ _ Hi).
  - unfold req_len. simpl. lia.
Qed.

(** ** The scans *)

(** Reading: the newest version below [ts], provided timestamps fit in the 32
    bits of the scan's variable. *)
Lemma find_version_acc (ts : Z) (h : list WriteHisEntry) (i : nat) (t : Z) (a : option nat) :
  (forall k e, h !! k = Some e -> w_valid e = true -> 0 < w_ts e < 2 ^ 32) -> 0 <= t ->
  (find_version ts h i t a = a
   /\ forall k e, h !! k = Some e -> w_valid e = true -> w_ts e < ts -> w_ts e <= t)
  \/ exists k e, find_version ts h i t a = Some (i + k)%nat /\ h !! k = Some e
       /\ w_valid e = true /\ t < w_ts e < ts
       /\ forall k' e', h !! k' = Some e' -> w_valid e' = true -> w_ts e' < ts -> w_ts e' <= w_ts e.
Proof.
  revert i t a. induction h as [|x h IH]; intros i t a Hr Ht; simpl; [by left|].
  assert (forall k e, h !! k = Some e -> w_valid e = true -> 0 < w_ts e < 2 ^ 32) as Hr'
    by (intros k e; apply (Hr (S k))).
  destruct (w_valid x && (w_ts x <? ts) && (t <? w_ts x)) eqn:E.
  - bool_props. pose proof (Hr 0%nat x eq_refl ltac:(done)).
    rewrite u32_id by (unfold is_u32; lia).
    destruct (IH (S i) (w_ts x) (Some i) Hr' ltac:(lia)) as [[-> Hmax]|(k & e & -> & Hk & Hv & Hts & Hmax)].
    + right. exists 0%nat, x. rewrite Nat.add_0_r. repeat split; try done; try lia.
      intros [|k'] e'; simpl; [intros [= <-]; lia|apply Hmax].
    + right. exists (S k), e. rewrite Nat.add_succ_r. repeat split; try done; try lia.
      intros [|k'] e'; simpl; [intros [= <-]; lia|apply Hmax].
  - assert (w_valid x = true -> w_ts x < ts -> w_ts x <= t) as Hx.
    { intros Hv Hlt. rewrite Hv in E. simpl in E. apply andb_false_iff in E as [E|E]; lia. }
    destruct (IH (S i) t a Hr' Ht) as [[-> Hmax]|(k & e & -> & Hk & Hv & Hts & Hmax)].
    + left. split; [done|]. intros [|k'] e'; simpl; [intros [= <-]; auto|apply Hmax].
    + right. exists (S k), e. rewrite Nat.add_succ_r. repeat split; try done; try lia.
      intros [|k'] e'; simpl; [intros [= <-] ? ?; specialize (Hx ltac:(done) ltac:(done)); lia|apply Hmax].
Qed.

(** Without that proviso: some version below [ts]. *)
Lemma find_version_valid (ts : Z) (h : list WriteHisEntry) (i : nat) (t : Z) (a : option nat) :
  find_version ts h i t a = a
  \/ exists k e, find_version ts h i t a = Some (i + k)%nat /\ h !! k = Some e
       /\ w_valid e = true /\ w_ts e < ts.
Proof.
  revert i t a. induction h as [|x h IH]; intros i t a; simpl; [by left|].
  destruct (w_valid x && (w_ts x <? ts) && (t <? w_ts x)) eqn:E.
  - bool_props. right. destruct (IH (S i) (u32 (w_ts x)) (Some i)) as [->|(k & e & -> & Hrest)].
    + exists 0%nat, x. by rewrite Nat.add_0_r.
    + exists (S k), e. by rewrite Nat.add_succ_r.
  - destruct (IH (S i) t a) as [->|(k & e & -> & Hrest)]; [by left|].
    right. exists (S k), e. by rewrite Nat.add_succ_r.
Qed.

(** Recycling: the newest version below the smallest active timestamp. *)
Lemma find_recycle_spec (min_ts : Z) (h : list WriteHisEntry) (t : Z) (b : bool) (r : Z) :
  find_recycle min_ts h t b = Some r ->
  t <= r /\ (r = t \/ exists k e, h !! k = Some e /\ w_valid e = true /\ w_ts e = r /\ r < min_ts)
  /\ forall k e, h !! k = Some e -> w_valid e = true -> w_ts e < min_ts -> w_ts e <= r.
Proof.
  revert t b. induction h as [|x h IH]; intros t b; simpl.
  - destruct b; [|done]. intros [= ->]. split; [lia|]. split; [by left|]. intros k e. done.
  - destruct (w_valid x && (w_ts x <? min_ts) && (t <? w_ts x)) eqn:E; intros Hf;
      destruct (IH _ _ Hf) as (Hle & Hor & Hmax).
    + bool_props. split; [lia|]. split.
      * right. destruct Hor as [->|(k & e & Hk & Hrest)]; [exists 0%nat, x; done|].
        exists (S k), e. done.
      * intros [|k] e; simpl; [intros [= <-]; lia|apply Hmax].
    + split; [done|]. split.
      * destruct Hor as [->|(k & e & Hk & Hrest)]; [by left|]. right. exists (S k), e. done.
      * intros [|k] e; simpl; [intros [= <-] Hv Hlt|apply Hmax].
        rewrite Hv in E. simpl in E. apply andb_false_iff in E as [E|E]; lia.
Qed.

Lemma find_recycle_found (min_ts : Z) (h : list WriteHisEntry) (t r : Z) :
  0 <= t -> find_recycle min_ts h t false = Some r ->
  exists k e, h !! k = Some e /\ w_valid e = true /\ w_ts e = r /\ t < r < min_ts.
Proof.
  revert t. induction h as [|x h IH]; intros t Ht; simpl; [done|].
  destruct (w_valid x && (w_ts x <? min_ts) && (t <? w_ts x)) eqn:E; intros Hf.
  - bool_props. apply find_recycle_spec in Hf as (Hle & Hor & _).
    destruct Hor as [->|(k & e & Hk & Hv & He & Hlt)]; [exists 0%nat, x; done|].
    exists (S k), e. repeat split; try done. lia.
  - destruct (IH t Ht Hf) as (k & e & Hk & Hrest). by exists (S k), e.
Qed.

(** Reserving: a free entry is found when there is one. *)
Lemma find_free_spec (h : list WriteHisEntry) (i : nat) (a : option nat) :
  (exists k e, find_free h i a = Some (i + k)%nat /\ h !! k = Some e
     /\ w_valid e = false /\ w_reserved e = false)
  \/ (find_free h i a = a
      /\ forall k e, h !! k = Some e -> w_valid e = false -> w_reserved e = true).
Proof.
  revert i a. induction h as [|x h IH]; intros i a; simpl; [by right|].
  destruct (negb (w_valid x) && negb (w_reserved x)) eqn:E.
  - bool_props. case_bool_decide.
    + left. exists 0%nat, x. rewrite Nat.add_0_r. done.
    + destruct (IH (S i) (Some i)) as [(k & e & -> & Hk & Hrest)|[-> _]].
      * left. exists (S k), e. rewrite Nat.add_succ_r. done.
      * left. exists 0%nat, x. rewrite Nat.add_0_r. done.
  - destruct (IH (S i) a) as [(k & e & -> & Hk & Hrest)|[-> Hall]].
    + left. exists (S k), e. rewrite Nat.add_succ_r. done.
    + right. split; [done|]. intros [|k] e; simpl; [|apply Hall].
      intros [= <-] Hv. rewrite Hv in E. simpl in E. by destruct (w_reserved x).
Qed.

(** The oldest version. *)
Lemma find_oldest_spec (h : list WriteHisEntry) (i : nat) (t : Z) (a : option nat) :
  (find_oldest h i t a = (t, a)
   /\ forall k e, h !! k = Some e -> w_valid e = true -> t <= w_ts e)
  \/ exists k e, find_oldest h i t a = (w_ts e, Some (i + k)%nat) /\ h !! k = Some e
       /\ w_valid e = true /\ w_ts e < t
       /\ forall k' e', h !! k' = Some e' -> w_valid e' = true -> w_ts e <= w_ts e'.
Proof.
  revert i t a. induction h as [|x h IH]; intros i t a; simpl; [by left|].
  destruct (w_valid x && (w_ts x <? t)) eqn:E.
  - bool_props. destruct (IH (S i) (w_ts x) (Some i)) as [[-> Hmin]|(k & e & -> & Hk & Hv & Hlt & Hmin)].
    + right. exists 0%nat, x. rewrite Nat.add_0_r. repeat split; try done.
      intros [|k'] e'; simpl; [intros [= <-]; lia|apply Hmin].
    + right. exists (S k), e. rewrite Nat.add_succ_r. repeat split; try done; [lia|].
      intros [|k'] e'; simpl; [intros [= <-]; lia|apply Hmin].
  - assert (w_valid x = true -> t <= w_ts x) as Hx.
    { intros Hv. rewrite Hv in E. simpl in E. lia. }
    destruct (IH (S i) t a) as [[-> Hmin]|(k & e & -> & Hk & Hv & Hlt & Hmin)].
    + left. split; [done|]. intros [|k'] e'; simpl; [intros [= <-]; auto|apply Hmin].
    + right. exists (S k), e. rewrite Nat.add_succ_r. repeat split; try done.
      intros [|k'] e'; simpl; [intros [= <-] ?; specialize (Hx ltac:(done)); lia|apply Hmin].
Qed.

(** ** Garbage collection *)

Definition stale (t : Z) (e : WriteHisEntry) : bool := w_valid e && (w_ts e <=? t).

Definition gc (t : Z) (e : WriteHisEntry) : WriteHisEntry :=
  if stale t e then invalidate e else e.

(** The latest row is one of the stale ones of [h]. *)
Definition hits (t : Z) (l : option rloc) (h : list WriteHisEntry) : bool :=
  existsb (fun e => stale t e && bool_decide (l = w_row e)) h.

Lemma hits_app (t : Z) (l : option rloc) (h1 h2 : list WriteHisEntry) :
  hits t l (h1 ++ h2) = hits t l h1 || hits t l h2.
Proof. apply existsb_app. Qed.

(** The loop over the first [k] entries. *)
Lemma recycle_loop (t : Z) (m : Row_mvcc) (k : nat) :
  num_versions m = nvalid (write_history m) -> Z.of_nat (his_len m) < 2 ^ 31 ->
  (forall i e, write_history m !! i = Some e -> w_valid e = true -> w_row e <> None) ->
  (k <= his_len m)%nat ->
  let h := gc t <$> take k (write_history m) in
  foldM (recycle_entry t) m (seq 0 k)
  = Ret (set_num (nvalid (h ++ drop k (write_history m)))
      (set_latest_row (if hits t (latest_row m) (take k (write_history m)) then None else latest_row m)
        (set_history (h ++ drop k (write_history m)) m))).
Proof.
  intros Hnum Hlen Hrow. unfold his_len in *. induction k as [|k IH]; intros Hk; cbv zeta in *; set (h := gc t <$> _).
  - simpl in *. unfold h. simpl. rewrite drop_0, <- Hnum. by destruct m.
  - rewrite seq_S, foldM_app. simpl in IH. rewrite IH by lia. cbn [foldM mbind res_bind].
    destruct (lookup_lt_is_Some_2 (write_history m) k ltac:(lia)) as [e He].
    set (h0 := gc t <$> take k (write_history m)).
    assert (length h0 = k) as Hh0 by (unfold h0; rewrite length_fmap, length_take; lia).
    assert ((h0 ++ drop k (write_history m)) !! k = Some e) as Hek.
    { rewrite lookup_app_r by lia. rewrite Hh0, Nat.sub_diag, lookup_drop. by rewrite Nat.add_0_r. }
    assert (h = h0 ++ [gc t e]) as Hh.
    { unfold h, h0. rewrite (take_S_r _ _ e He), fmap_app. done. }
    assert (<[k := gc t e]> (h0 ++ drop k (write_history m)) = h ++ drop (S k) (write_history m)) as Hins.
    { rewrite Hh, insert_app_r_alt by lia. rewrite Hh0, Nat.sub_diag.
      rewrite (drop_S _ e k He). simpl. by rewrite <- app_assoc. }
    unfold recycle_entry. cbn [write_history set_num set_latest_row set_history latest_row num_versions].
    simpl plus. rewrite Hek. cbn [at_ mbind res_bind].
    assert (nvalid (h0 ++ drop k (write_history m)) <= Z.of_nat (length (write_history m))) as Hnv.
    { pose proof (nvalid_bounds (h0 ++ drop k (write_history m))) as Hb.
      rewrite length_app, length_drop, Hh0 in Hb. lia. }
    rewrite (take_S_r _ _ e He), hits_app. cbn [hits existsb]. rewrite orb_false_r.
    fold (stale t e).
    pose proof (nvalid_insert _ k e (gc t e) Hek) as Hni. rewrite Hins in Hni.
    pose proof (nvalid_bounds (h ++ drop (S k) (write_history m))) as Hpos.
    destruct (stale t e) eqn:Es.
    + unfold stale in Es. bool_props.
      assert (gc t e = invalidate e) as Hgc.
      { unfold gc, stale. rewrite H. simpl. destruct (Z.leb_spec (w_ts e) t); [done|lia]. }
      rewrite Hgc in *. rewrite bool_decide_eq_true_2 by (by apply (Hrow k e)).
      rewrite H in Hni. simpl in Hni.
      rewrite u32_id by (unfold is_u32; lia). rewrite Hins.
      cbn [mbind res_bind]. unfold set_num, set_latest_row, set_history.
      cbn -[hits nvalid]. f_equal. f_equal; [|lia].
      destruct (hits t (latest_row m) (take k (write_history m))); cbn [orb andb].
      * rewrite bool_decide_eq_false_2; [done|]. intros E. by apply (Hrow k e He H).
      * by case_bool_decide.
    + assert (gc t e = e) as Hgc by (unfold gc; by rewrite Es).
      rewrite Hgc in *. simpl. rewrite orb_false_r.
      replace (nvalid (h ++ drop (S k) (write_history m)))
        with (nvalid (h0 ++ drop k (write_history m))) by lia.
      rewrite list_insert_id in Hins by done. by rewrite Hins.
Qed.

(** What [collect] and [choose_entry] leave alone. *)
Record mv_same (m m' : Row_mvcc) : Prop := mk_mv_same {
  sm_key : m_key m' = m_key m;
  sm_size : m_size m' = m_size m;
  sm_row : m_row m' = m_row m;
  sm_latest : latest_wts m' = latest_wts m;
  sm_served : max_served_rts m' = max_served_rts m;
  sm_reqs : requests m' = requests m;
  sm_oldest : oldest_wts m <= oldest_wts m';
  sm_rows : (w_row <$> write_history m') = (w_row <$> write_history m);
}.

Lemma mv_same_refl (m : Row_mvcc) : mv_same m m.
Proof. by split. Qed.

Lemma mv_same_trans (m1 m2 m3 : Row_mvcc) : mv_same m1 m2 -> mv_same m2 m3 -> mv_same m1 m3.
Proof. intros [] []. split; try congruence. lia. Qed.

Lemma gc_lookup (t : Z) (h : list WriteHisEntry) (i : nat) (e : WriteHisEntry) :
  (gc t <$> h) !! i = Some e -> exists e0, h !! i = Some e0 /\ e = gc t e0.
Proof.
  rewrite list_lookup_fmap. destruct (h !! i) as [e0|]; simpl; [|done]. intros [= <-]. eauto.
Qed.

Lemma gc_row (t : Z) (e : WriteHisEntry) : w_row (gc t e) = w_row e.
Proof. unfold gc. by destruct (stale t e). Qed.

Lemma gc_valid (t : Z) (e : WriteHisEntry) :
  w_valid (gc t e) = true -> gc t e = e /\ w_valid e = true /\ t < w_ts e.
Proof.
  unfold gc, stale. destruct (w_valid e && (w_ts e <=? t)) eqn:E; simpl; [done|].
  intros Hv. rewrite Hv in E. simpl in E. split; [done|]. split; [done|lia].
Qed.

(** The versions that are left are among those there were, and newer than the
    ones that went. *)
Definition newest_kept (h h' : list WriteHisEntry) : Prop :=
  (forall i e, h' !! i = Some e -> w_valid e = true -> h !! i = Some e)
  /\ (forall i e, h !! i = Some e -> w_valid e = true ->
       h' !! i = Some e \/ forall j e', h' !! j = Some e' -> w_valid e' = true -> w_ts e < w_ts e').

Lemma newest_kept_refl (h : list WriteHisEntry) : newest_kept h h.
Proof. split; auto. Qed.

Lemma newest_kept_gc (t : Z) (h : list WriteHisEntry) : newest_kept h (gc t <$> h).
Proof.
  split.
  - intros i e Hi Hv. apply gc_lookup in Hi as (e0 & Hi & ->). by destruct (gc_valid _ _ Hv) as (-> & _).
  - intros i e Hi Hv. destruct (Z.leb_spec (w_ts e) t) as [Hle|Hgt].
    + right. intros j e' Hj Hv'. apply gc_lookup in Hj as (e0 & Hj & ->).
      destruct (gc_valid _ _ Hv') as (-> & _ & ?). lia.
    + left. rewrite list_lookup_fmap, Hi. unfold gc, stale. cbn. rewrite Hv.
      by destruct (Z.leb_spec (w_ts e) t); [lia|].
Qed.

(** The latest row after recycling: gone with all versions, or untouched. *)
Lemma gc_latest (t : Z) (m : Row_mvcc) (k : nat) (e : WriteHisEntry) :
  mv_base m -> write_history m !! k = Some e -> w_valid e = true ->
  match (if hits t (latest_row m) (write_history m) then None else latest_row m) with
  | None => nvalid (gc t <$> write_history m) = 0 /\ m_row m = None
  | Some l =>
      (m_row m = Some l /\ nvalid (gc t <$> write_history m) = 0)
      \/ (m_row m = None /\ exists i e, (gc t <$> write_history m) !! i = Some e /\ w_valid e = true
            /\ w_ts e = latest_wts m /\ w_row e = Some l)
  end.
Proof.
  intros [Hnum _ Hval _ _ _ Hrows _ Hlat _] Hk Hv. pose proof (nvalid_pos _ _ _ Hk Hv) as Hpos.
  destruct (latest_row m) as [l|] eqn:El; [|exfalso; lia].
  destruct Hlat as [[_ Hn0]|(Hmr & il & el & Hil & Hvl & Htl & Hrl)]; [lia|].
  destruct (hits t (Some l) (write_history m)) eqn:Eh.
  - split; [|done]. apply existsb_exists in Eh as (x & Hx & Hhit).
    apply list_elem_of_In, list_elem_of_lookup_1 in Hx as [ix Hx]. bool_props. unfold stale in *. bool_props.
    assert (ix = il) as -> by (apply (Hrows ix il x el l); congruence).
    rewrite Hil in Hx. injection Hx as <-.
    apply nvalid_zero. intros i e' Hi. apply gc_lookup in Hi as (e0 & Hi & ->).
    unfold gc, stale. destruct (w_valid e0) eqn:Hv0; simpl; [|by rewrite Hv0].
    destruct (Hval i e0 Hi Hv0) as (_ & _ & ?). destruct (Z.leb_spec (w_ts e0) t); [done|lia].
  - right. split; [done|]. exists il, el. split; [|done].
    rewrite list_lookup_fmap, Hil. simpl. f_equal. unfold gc.
    destruct (stale t el) eqn:Es; [|done]. exfalso.
    assert (hits t (Some l) (write_history m) = true) as Ht'; [|congruence].
    apply existsb_exists. exists el. split; [by apply list_elem_of_In, list_elem_of_lookup_2 with il|].
    rewrite Es, bool_decide_eq_true_2 by done. done.
Qed.

Lemma collect_spec (min_ts : Z) (m : Row_mvcc) :
  mv_base m -> exists_prewrite m = false ->
  exists m', collect min_ts m = Ret m' /\ mv_base m' /\ mv_same m m'
    /\ exists_prewrite m' = false /\ newest_kept (write_history m) (write_history m').
Proof.
  intros Hb Hpre. unfold collect.
  destruct ((oldest_wts m <? min_ts) && (num_versions m =? Z.of_nat (his_len m))) eqn:E;
    [|exists m; split; [done|]; split; [done|]; split; [apply mv_same_refl|]; split; [done|apply newest_kept_refl]].
  destruct (find_recycle min_ts (write_history m) 0 false) as [t|] eqn:Ef;
    [|exists m; split; [done|]; split; [done|]; split; [apply mv_same_refl|]; split; [done|apply newest_kept_refl]].
  bool_props. pose proof Hb as [Hnum Hlen Hval Hres Hpw Hdis Hrows Hbase Hlat Hord].
  destruct (find_recycle_found min_ts (write_history m) 0 t ltac:(lia) Ef) as (k & e & Hk & Hv & Hts & Ht).
  pose proof (recycle_loop t (set_oldest_wts t m) (his_len m) Hnum (proj2 Hlen)
    (fun i e Hi Hv => proj1 (proj2 (Hval i e Hi Hv))) ltac:(done)) as Hloop.
  cbv zeta in Hloop. cbn [write_history set_oldest_wts latest_row] in Hloop.
  unfold his_len in Hloop. rewrite firstn_all, drop_all, app_nil_r in Hloop.
  unfold his_len. rewrite Hloop. eexists. split; [done|].
  destruct (Hval k e Hk Hv) as (_ & _ & Hrange).
  split; [|split; [split; cbn; try done; try lia|split; [done|apply newest_kept_gc]]].
  2: { rewrite <- list_fmap_compose. apply list_fmap_ext. intros; apply gc_row. }
  split; cbn; try done.
  - unfold his_len. cbn. rewrite length_fmap. done.
  - intros i e' Hi Hv'. apply gc_lookup in Hi as (e0 & Hi & ->).
    destruct (gc_valid _ _ Hv') as (-> & Hv0 & Hlt). destruct (Hval i e0 Hi Hv0) as (? & ? & ?).
    repeat split; try done; lia.
  - intros i e' Hi Hr Hv'. apply gc_lookup in Hi as (e0 & Hi & ->).
    unfold gc in *. destruct (stale t e0) eqn:Es; simpl in *; [done|].
    by apply (Hres i e0).
  - congruence.
  - intros i j e1 e2 Hi Hj Hv1 Hv2. apply gc_lookup in Hi as (x & Hi & ->).
    apply gc_lookup in Hj as (y & Hj & ->).
    destruct (gc_valid _ _ Hv1) as (-> & ? & _). destruct (gc_valid _ _ Hv2) as (-> & ? & _).
    intros Heq. by apply (Hdis i j x y).
  - intros i j e1 e2 l Hi Hj. apply gc_lookup in Hi as (x & Hi & ->).
    apply gc_lookup in Hj as (y & Hj & ->).
    rewrite !gc_row. by apply (Hrows i j x y l).
  - intros i e' l Hi. apply gc_lookup in Hi as (x & Hi & ->). rewrite gc_row. by apply (Hbase i x).
  - exact (gc_latest t m k e Hb Hk Hv).
  - lia.
Qed.

(** ** Reserving an entry *)

(** The row object an entry may be given: its own, or one no one else uses. *)
Definition row_free (m : Row_mvcc) (e : WriteHisEntry) (l : rloc) : Prop :=
  w_row e = Some l
  \/ (forall i e', write_history m !! i = Some e' -> w_row e' <> Some l) /\ m_row m <> Some l.

Definition reserved_mv (ts : Z) (idx : nat) (l : rloc) (m : Row_mvcc) : Row_mvcc :=
  set_prewrite true ts idx
    (set_history (<[idx := mkWrite false true ts (Some l)]> (write_history m)) m).

(** Overwriting entry [idx] with a reservation, when the counters already
    account for the version that goes and that version is not the latest. *)
Lemma reserve_base (m : Row_mvcc) (ts old num : Z) (idx : nat) (e : WriteHisEntry) (l : rloc) :
  mv_base m -> exists_prewrite m = false -> latest_wts m < ts < UINT64_MAX ->
  max_served_rts m <= ts -> write_history m !! idx = Some e -> row_free m e l ->
  num = num_versions m - b2z (w_valid e) ->
  oldest_wts m <= old <= latest_wts m ->
  (forall i e', i <> idx -> write_history m !! i = Some e' -> w_valid e' = true -> old < w_ts e') ->
  (w_valid e = true -> w_ts e < latest_wts m) ->
  mv_base (reserved_mv ts idx l (set_num num (set_oldest_wts old m))).
Proof.
  intros Hb Hpre Hts Hserved Hidx Hfree Hnum' Hold Hgt Hnl.
  pose proof Hb as [Hnum Hlen Hval Hres Hpw Hdis Hrows Hbase Hlat Hord].
  apply lookup_lt_Some in Hidx as Hlt.
  assert (forall i e', <[idx := mkWrite false true ts (Some l)]> (write_history m) !! i = Some e' ->
            (i = idx /\ e' = mkWrite false true ts (Some l)) \/ (i <> idx /\ write_history m !! i = Some e')) as Hins.
  { intros i e' Hi. apply list_lookup_insert_Some in Hi as [(-> & -> & _)|[Hne Hi]]; eauto. }
  assert (forall i e', i <> idx -> write_history m !! i = Some e' -> w_row e' <> Some l) as Hother.
  { intros i e' Hne Hi Hr. destruct Hfree as [Hf|[Hf _]]; [|by apply (Hf i e')].
    apply Hne. by apply (Hrows i idx e' e l). }
  assert (m_row m <> Some l) as Hml.
  { destruct Hfree as [Hf|[_ Hf]]; [by apply (Hbase idx e)|done]. }
  split; cbn.
  - rewrite (nvalid_insert _ _ e _ Hidx). simpl. lia.
  - unfold his_len in *. cbn. rewrite length_insert. done.
  - intros i e' Hi Hv. apply Hins in Hi as [[-> ->]|[Hne Hi]]; [done|].
    destruct (Hval i e' Hi Hv) as (? & ? & ?). pose proof (Hgt i e' Hne Hi Hv). repeat split; try done; lia.
  - intros i e' Hi Hr Hv. apply Hins in Hi as [[-> ->]|[Hne Hi]]; [done|].
    destruct (Hres i e' Hi Hr Hv) as [H1 _]. congruence.
  - intros _. split; [|lia].
    exists (mkWrite false true ts (Some l)). rewrite list_lookup_insert_eq by done. done.
  - intros i j e1 e2 Hi Hj Hv1 Hv2. apply Hins in Hi as [[-> ->]|[Hne Hi]]; [done|].
    apply Hins in Hj as [[-> ->]|[Hne' Hj]]; [done|]. by apply (Hdis i j e1 e2).
  - intros i j e1 e2 l' Hi Hj Hr1 Hr2. apply Hins in Hi as [[-> ->]|[Hne Hi]];
      apply Hins in Hj as [[-> ->]|[Hne' Hj]]; simpl in *; [done| | |by apply (Hrows i j e1 e2 l')].
    + injection Hr1 as <-. by destruct (Hother j e2 Hne' Hj).
    + injection Hr2 as <-. by destruct (Hother i e1 Hne Hi).
  - intros i e' l' Hi Hr. apply Hins in Hi as [[-> ->]|[Hne Hi]]; [simpl in Hr; congruence|].
    by apply (Hbase i e').
  - destruct (latest_row m) as [ll|].
    + destruct Hlat as [[H1 H2]|(H1 & il & el & Hil & Hvl & Htl & Hrl)].
      * left. split; [done|]. assert (w_valid e = false) as Hve.
        { destruct (w_valid e) eqn:Ev; [|done]. pose proof (nvalid_pos _ _ _ Hidx Ev). lia. }
        rewrite Hve in Hnum'. simpl in Hnum'. lia.
      * right. split; [done|]. exists il, el. split; [|done].
        rewrite list_lookup_insert_ne; [done|]. intros <-. rewrite Hidx in Hil. injection Hil as <-.
        specialize (Hnl Hvl). lia.
    + destruct Hlat as [H1 H2]. split; [|done]. assert (w_valid e = false) as Hve.
      { destruct (w_valid e) eqn:Ev; [|done]. pose proof (nvalid_pos _ _ _ Hidx Ev). lia. }
      rewrite Hve in Hnum'. simpl in Hnum'. lia.
  - lia.
Qed.

(** A full history has a version strictly newer than the oldest one. *)
Lemma full_newer (m : Row_mvcc) (idx : nat) (e : WriteHisEntry) :
  mv_base m -> num_versions m = Z.of_nat (his_len m) -> write_history m !! idx = Some e ->
  (forall k e', write_history m !! k = Some e' -> w_valid e' = true -> w_ts e <= w_ts e') ->
  w_ts e < latest_wts m.
Proof.
  intros Hb Hfull Hidx Hmin. pose proof Hb as [Hnum Hlen Hval Hres Hpw Hdis Hrows Hbase Hlat Hord].
  unfold his_len in *.
  set (j := if decide (idx = 0%nat) then 1%nat else 0%nat).
  assert (j <> idx /\ (j < length (write_history m))%nat) as [Hj Hjl]
    by (unfold j; case_decide; lia).
  destruct (lookup_lt_is_Some_2 _ _ Hjl) as [ej Hej].
  rewrite Hnum in Hfull.
  pose proof (nvalid_full _ _ _ Hfull Hidx) as Hv. pose proof (nvalid_full _ _ _ Hfull Hej) as Hvj.
  pose proof (Hmin j ej Hej Hvj). destruct (Hval j ej Hej Hvj) as (_ & _ & ?).
  assert (w_ts e <> w_ts ej) by (intros E; apply Hj; by apply (Hdis j idx ej e)). lia.
Qed.

Lemma choose_entry_spec (ts : Z) (m : Row_mvcc) :
  mv_base m -> exists_prewrite m = false -> latest_wts m < ts < UINT64_MAX ->
  max_served_rts m <= ts ->
  exists idx m' e, choose_entry ts m = Ret (idx, m')
    /\ write_history m !! idx = Some e /\ write_history m' = write_history m /\ mv_same m m'
    /\ (w_valid e = true -> forall i e', i <> idx -> write_history m !! i = Some e' ->
          w_valid e' = true -> w_ts e < w_ts e')
    /\ forall l, row_free m e l -> mv_base (reserved_mv ts idx l m').
Proof.
  intros Hb Hpre Hts Hserved. pose proof Hb as [Hnum Hlen Hval Hres Hpw Hdis Hrows Hbase Hlat Hord].
  unfold choose_entry. destruct (Z.ltb_spec (num_versions m) (Z.of_nat (his_len m))) as [Hlt|Hge].
  - destruct (find_free_spec (write_history m) 0 None) as [(k & e & -> & Hk & Hv & Hr)|[-> Hall]].
    + simpl. exists k, m, e.
      split; [done|]. split; [done|]. split; [done|]. split; [apply mv_same_refl|]. split; [congruence|].
      intros l Hl.
      pose proof (reserve_base m ts (oldest_wts m) (num_versions m) k e l Hb Hpre Hts Hserved Hk Hl)
        as Hr'. rewrite Hv in Hr'. simpl in Hr'.
      replace (set_num (num_versions m) (set_oldest_wts (oldest_wts m) m)) with m in Hr'
        by (by destruct m).
      apply Hr'; [lia|lia| |done].
      intros i e' _ Hi Hv'. destruct (Hval i e' Hi Hv') as (_ & _ & ?). lia.
    + exfalso. unfold his_len in Hlt. rewrite Hnum in Hlt.
      destruct (nvalid_not_full _ Hlt) as (i & e & Hi & He).
      destruct (Hres i e Hi (Hall _ _ Hi He) He). congruence.
  - assert (num_versions m = Z.of_nat (his_len m)) as Hfull.
    { pose proof (nvalid_bounds (write_history m)). unfold his_len in *. lia. }
    simpl. unfold THREAD_CNT. guard_true.
    destruct (find_oldest_spec (write_history m) 0 UINT64_MAX None)
      as [[_ Hmin]|(k & e & -> & Hk & Hv & Hlt & Hmin)].
    { exfalso. destruct (lookup_lt_is_Some_2 (write_history m) 0%nat) as [e He]; [unfold his_len in *; lia|].
      rewrite Hnum in Hfull. pose proof (nvalid_full _ _ _ Hfull He) as Hv.
      pose proof (Hmin _ _ He Hv). destruct (Hval _ _ He Hv) as (_ & _ & ?). lia. }
    destruct (Hval _ _ Hk Hv) as (_ & Hrow & Hrange). simpl plus. guard_true.
    cbn [at_ mbind res_bind]. rewrite Hk. cbn [at_ mbind res_bind].
    rewrite bool_decide_eq_true_2 by done.
    rewrite u32_id by (unfold is_u32; lia).
    eexists k, _, e. split; [done|]. split; [done|]. split; [done|].
    assert (forall i e', i <> k -> write_history m !! i = Some e' -> w_valid e' = true -> w_ts e < w_ts e') as Hgt.
    { intros i e' Hne Hi Hv'. pose proof (Hmin _ _ Hi Hv').
      assert (w_ts e <> w_ts e'); [|lia]. intros E. apply Hne. by apply (Hdis i k e' e). }
    split; [split; cbn; try done; lia|]. split; [done|]. intros l Hl.
    pose proof (full_newer m k e Hb Hfull Hk Hmin).
    apply (reserve_base m ts (w_ts e) (num_versions m - 1) k e l); try done.
    + by rewrite Hv.
    + lia.
Qed.
