(* ===== verification/RowMvccState.v ===== *)
(** * db2: the multi-version row with its row objects and storage

    The invariant of a whole row state: row objects are allocated, keep key and
    size, and the latest row holds the value that is in storage. *)

From S2P Require Import Prelude Config RowStore RowMvcc RowMvccInv.
From S2P Require Catalog.

Section State.
Context {S : Type} `{RowStoreSpec S}.

(** A row object of the right key and size with its bytes in place. *)
Definition obj_ok (key : Z) (b : bytes) (r : Catalog.RowItem) : Prop :=
  r = Catalog.mkRowItem key row_size (Some b) None None /\ Z.of_nat (length b) = row_size.

Definition has_obj (key : Z) (h : gmap rloc Catalog.RowItem) (l : rloc) : Prop :=
  exists b r, h !! l = Some r /\ obj_ok key b r.

(** Everything but the pending requests. *)
Record st_base (s : mstate S) : Prop := mk_st_base {
  st_mv : mv_base (mv s);
  st_size : m_size (mv s) = row_size /\ 8 <= row_size;
  st_objs : forall i e l, write_history (mv s) !! i = Some e -> w_row e = Some l ->
    has_obj (m_key (mv s)) (rows s) l;
  st_row : forall l, m_row (mv s) = Some l -> has_obj (m_key (mv s)) (rows s) l;
  st_db : rows_ok (db s) /\ exists v, row_val (db s) (m_key (mv s)) = Some v;
  st_latest : forall l v, latest_row (mv s) = Some l ->
    row_val (db s) (m_key (mv s)) = Some v ->
    exists r, rows s !! l = Some r /\ obj_ok (m_key (mv s)) v r;
}.

(** Pending requests belong to waiting transactions. *)
Definition waiting_ok (s : mstate S) : Prop :=
  forall i r, requests (mv s) !! i = Some r -> r_valid r = true ->
    exists t, txns s !! r_txn r = Some t /\ t_ts t = r_ts r.

Definition st_wf (s : mstate S) : Prop := st_base s /\ reqs_ok (mv s) /\ waiting_ok s.

(** The bytes a pointer shows. *)
Definition row_bytes (s : mstate S) (l : option rloc) : option bytes :=
  l ← l; r ← rows s !! l; Catalog.row_ r.

(** A version that is held: its timestamp and the bytes of its row object. *)
Definition held (s : mstate S) (ts : Z) (v : option bytes) : Prop :=
  exists i e, write_history (mv s) !! i = Some e /\ w_valid e = true /\ w_ts e = ts
    /\ row_bytes s (w_row e) = v.

(** No version appears, and the versions that are dropped are older than those
    that are kept. *)
Definition shrinks (s s' : mstate S) : Prop :=
  (forall ts v, held s' ts v -> held s ts v)
  /\ (forall ts v, held s ts v -> held s' ts v \/ forall ts' v', held s' ts' v' -> ts < ts').

Lemma shrinks_refl (s : mstate S) : shrinks s s.
Proof. split; auto. Qed.

Lemma shrinks_trans (s1 s2 s3 : mstate S) : shrinks s1 s2 -> shrinks s2 s3 -> shrinks s1 s3.
Proof.
  intros [H1 H2] [H3 H4]. split; [auto|]. intros ts v Hv. destruct (H2 ts v Hv) as [Hv2|Hlt].
  - by apply H4.
  - right. intros ts' v' Hv'. by apply (Hlt ts' v'), H3.
Qed.

(** The rows of the versions keep their bytes. *)
Lemma shrinks_history (s s' : mstate S) :
  newest_kept (write_history (mv s)) (write_history (mv s')) ->
  (forall i e, write_history (mv s) !! i = Some e -> w_valid e = true ->
     row_bytes s' (w_row e) = row_bytes s (w_row e)) ->
  shrinks s s'.
Proof.
  intros [H1 H2] Hb. split.
  - intros ts v (i & e & Hi & Hv & <- & <-). exists i, e. rewrite Hb with i e; auto.
  - intros ts v (i & e & Hi & Hv & <- & <-). destruct (H2 i e Hi Hv) as [Hi'|Hlt].
    + left. exists i, e. rewrite Hb with i e; auto.
    + right. intros ts' v' (j & e' & Hj & Hv' & <- & _). by apply (Hlt j).
Qed.

(** What the steps of a request keep of the bookkeeping. *)
Record keeps (m m' : Row_mvcc) : Prop := mk_keeps {
  kp_key : m_key m' = m_key m;
  kp_size : m_size m' = m_size m;
  kp_latest : latest_wts m' = latest_wts m;
  kp_served : max_served_rts m' = max_served_rts m;
  kp_reqs : requests m' = requests m;
  kp_oldest : oldest_wts m <= oldest_wts m';
}.

Lemma keeps_trans (m1 m2 m3 : Row_mvcc) : keeps m1 m2 -> keeps m2 m3 -> keeps m1 m3.
Proof. intros [] []. split; try congruence. lia. Qed.

Lemma fresh_row (s : mstate S) : rows s !! fresh (dom (rows s)) = None.
Proof. apply not_elem_of_dom, is_fresh. Qed.

Lemma has_obj_insert (key : Z) (h : gmap rloc Catalog.RowItem) (l l' : rloc) (r : Catalog.RowItem) :
  h !! l' = None -> has_obj key h l -> has_obj key (<[l' := r]> h) l.
Proof.
  intros Hn (b & r0 & Hl & Hok). exists b, r0. rewrite lookup_insert_ne; [done|congruence].
Qed.

Lemma new_row_ok (key : Z) :
  8 <= row_size ->
  obj_ok key (replicate (Z.to_nat row_size) Byte.x00)
    (Catalog.new_RowItem (replicate (Z.to_nat row_size) Byte.x00) key row_size).
Proof.
  intros Hs. unfold Catalog.new_RowItem. destruct (Z.eqb_spec 0 row_size); [lia|].
  rewrite take_ge by (rewrite length_replicate; lia).
  split; [done|]. rewrite length_replicate. lia.
Qed.

(** Reading the row from storage when no version is cached. *)
Lemma ensure_latest_spec (s : mstate S) :
  st_base s ->
  exists s' l, ensure_latest s = Ret s' /\ st_base s'
    /\ latest_row (mv s') = Some l
    /\ write_history (mv s') = write_history (mv s)
    /\ exists_prewrite (mv s') = exists_prewrite (mv s)
    /\ prewrite_ts (mv s') = prewrite_ts (mv s)
    /\ prewrite_his_id (mv s') = prewrite_his_id (mv s)
    /\ keeps (mv s) (mv s') /\ txns s' = txns s
    /\ (forall key, row_val (db s') key = row_val (db s) key)
    /\ forall l', is_Some (rows s !! l') -> rows s' !! l' = rows s !! l'.
Proof.
  intros Hs. pose proof Hs as [Hb [Hsz Hpos] Hobjs Hrow [Hdb (v & Hv)] Hlat].
  unfold ensure_latest. destruct (latest_row (mv s)) as [l|] eqn:El.
  { exists s, l. do 7 (split; [done|]). split; [by split|]. done. }
  pose proof (wf_latest _ Hb) as Hwl. rewrite El in Hwl. destruct Hwl as [Hnum Hmrow].
  unfold GetLatestRow. rewrite El, Hnum, Hmrow. simpl bool_decide. cbn iota. simpl Z.eqb. cbn iota.
  unfold alloc_row. set (l := fresh (dom (rows s))).
  pose proof (fresh_row s) as Hfresh. fold l in Hfresh.
  unfold row_obj. cbn [rows]. rewrite lookup_insert_eq. cbn [mbind res_bind]. rewrite Hsz.
  destruct (new_row_ok (m_key (mv s)) Hpos) as [-> Hnl].
  destruct (read_row_spec (db s) (m_key (mv s)) v _ Hdb Hv Hnl) as (d & Hr & Hdb' & Hsame).
  cbn [db]. rewrite Hr. cbn [mbind res_bind].
  destruct (row_val_ok _ _ _ Hdb Hv) as [Hvl _].
  eexists _, l. split; [done|]. cbn [mv txns db rows].
  assert (forall l', is_Some (rows s !! l') -> l <> l') as Hne by (intros l' [r Hl'] <-; congruence).
  split; [|split; [done|]; do 4 (split; [done|]); split; [by split|]; split; [done|]; split; [done|]].
  2: { intros l' Hl'. by rewrite !lookup_insert_ne by (apply Hne; done). }
  assert (has_obj (m_key (mv s)) (<[l := Catalog.mkRowItem (m_key (mv s)) row_size (Some v) None None]>
    (<[l := Catalog.mkRowItem (m_key (mv s)) row_size
       (Some (replicate (Z.to_nat row_size) Byte.x00)) None None]> (rows s))) l) as Hself.
  { exists v. eexists. rewrite lookup_insert_eq. split; [done|]. split; [done|]. done. }
  split; cbn [mv rows db txns m_key m_size m_row latest_row write_history set_latest_row set_row].
  - destruct Hb as [? ? ? ? ? ? ? Hbase _ ?]. split; try done.
    + intros i e l' Hi Hr'. cbn. intros [= <-].
      destruct (Hobjs i e l Hi Hr') as (b & r & Hl & _). congruence.
    + cbn. left. done.
  - done.
  - intros i e l' Hi Hr'. rewrite insert_insert_eq. apply has_obj_insert; [done|]. by apply (Hobjs i e).
  - intros l' [= <-]. exact Hself.
  - split; [done|]. exists v. by rewrite Hsame.
  - intros l' v' [= <-]. rewrite Hsame, Hv. intros [= <-].
    eexists. rewrite lookup_insert_eq. split; [done|]. by split.
Qed.

(** The entry of the served prewrite holds row object [l]. *)
Definition prewritten (m : Row_mvcc) (ts : Z) (l : rloc) : Prop :=
  exists_prewrite m = true /\ prewrite_ts m = ts
  /\ exists e, write_history m !! prewrite_his_id m = Some e /\ w_row e = Some l.

(** The latest row is what it was, or was recycled together with all versions. *)
Lemma collect_latest (min_ts : Z) (m m' : Row_mvcc) :
  mv_base m -> collect min_ts m = Ret m' -> latest_row m' = latest_row m \/ latest_row m' = None.
Proof.
  intros Hb. unfold collect. case_match; [|intros [= ->]; by left].
  destruct (find_recycle min_ts (write_history m) 0 false) as [t|]; [|intros [= ->]; by left].
  pose proof (recycle_loop t (set_oldest_wts t m) (his_len m) (wf_num _ Hb) (proj2 (wf_len _ Hb))
    (fun i e Hi Hv => proj1 (proj2 (wf_valid _ Hb i e Hi Hv))) ltac:(done)) as Hloop.
  cbv zeta in Hloop. rewrite Hloop. intros [= <-]. cbn -[hits].
  destruct (hits t (latest_row m) _); auto.
Qed.

Lemma choose_entry_latest (ts : Z) (m m' : Row_mvcc) (idx : nat) :
  choose_entry ts m = Ret (idx, m') -> latest_row m' = latest_row m.
Proof.
  unfold choose_entry. case_match; [|done].
  destruct (if num_versions m <? Z.of_nat (his_len m) then _ else None); [by intros [= _ <-]|].
  case_match.
  - destruct (find_oldest (write_history m) 0 UINT64_MAX None) as [t [i|]];
      (case_match; [|done]); cbn [at_ mbind res_bind]; [|done].
    destruct (write_history m !! i); cbn [at_ mbind res_bind]; [|done].
    case_match; [|done]. by intros [= _ <-].
  - unfold double_list. cbn. by intros [= _ <-].
Qed.

(** A reservation succeeds and gives the transaction an entry of its own. *)
(** The row object of an entry that is reserved: its own, or a new one. *)
Lemma entry_object (m m2 : Row_mvcc) (e : WriteHisEntry) (s : mstate S) :
  st_base s -> m_key m2 = m_key (mv s) -> m_size m2 = row_size -> m_row m = m_row (mv s) ->
  (exists i, write_history m !! i = Some e) ->
  (forall i e l, write_history m !! i = Some e -> w_row e = Some l -> has_obj (m_key (mv s)) (rows s) l) ->
  exists l rows', (match w_row e with Some l => (l, upd_mv (fun _ => m2) s)
                   | None => alloc_row (upd_mv (fun _ => m2) s) end) = (l, mkState m2 rows' (txns s) (db s))
    /\ row_free m e l /\ has_obj (m_key (mv s)) rows' l
    /\ forall l', is_Some (rows s !! l') -> rows' !! l' = rows s !! l'.
Proof.
  intros Hs Hkey Hsz Hmr [idx Hidx] Hobjs. destruct (w_row e) as [l|] eqn:Er.
  - exists l, (rows s). split; [done|]. split; [by left|]. split; [|done]. by apply (Hobjs idx e).
  - unfold alloc_row. cbn [upd_mv rows mv txns db]. set (l := fresh (dom (rows s))).
    pose proof (fresh_row s) as Hfresh. fold l in Hfresh. exists l. eexists. split; [done|]. split; [|split].
    + right. split.
      * intros i e' Hi Hr. destruct (Hobjs i e' l) as (? & ? & ? & _); [done|done|]. congruence.
      * rewrite Hmr. intros Hr. destruct (st_row _ Hs _ Hr) as (? & ? & ? & _). congruence.
    + rewrite Hkey, Hsz. eexists _, _. rewrite lookup_insert_eq. split; [done|]. apply new_row_ok. by destruct (st_size _ Hs).
    + intros l' [r Hl']. rewrite lookup_insert_ne; [done|congruence].
Qed.

(** A reservation takes the place of an entry that is not valid or the oldest one. *)
Lemma newest_kept_reserve (h : list WriteHisEntry) (idx : nat) (e e' : WriteHisEntry) :
  h !! idx = Some e -> w_valid e' = false ->
  (w_valid e = true -> forall j e2, j <> idx -> h !! j = Some e2 -> w_valid e2 = true -> w_ts e < w_ts e2) ->
  newest_kept h (<[idx := e']> h).
Proof.
  intros Hidx Hv' Hold. split; intros i x Hi Hv.
  - apply list_lookup_insert_Some in Hi as [(_ & <- & _)|[_ Hi]]; [congruence|done].
  - destruct (decide (i = idx)) as [->|Hne]; [|left; by rewrite list_lookup_insert_ne].
    right. intros j e2 Hj Hv2. apply list_lookup_insert_Some in Hj as [(_ & <- & _)|[Hne Hj]]; [congruence|].
    rewrite Hidx in Hi. injection Hi as <-. by apply (Hold Hv j).
Qed.

Lemma reserveRow_spec (ts min_ts : Z) (s : mstate S) :
  st_base s -> exists_prewrite (mv s) = false -> latest_wts (mv s) < ts < UINT64_MAX ->
  max_served_rts (mv s) <= ts ->
  exists l s', reserveRow ts min_ts s = Ret (l, s') /\ st_base s'
    /\ prewritten (mv s') ts l /\ keeps (mv s) (mv s')
    /\ txns s' = txns s /\ db s' = db s
    /\ (forall l', is_Some (rows s !! l') -> rows s' !! l' = rows s !! l')
    /\ shrinks s s'.
Proof.
  intros Hs Hpre Hts Hserved. pose proof Hs as [Hb [Hsz Hpos] Hobjs Hrow [Hdb (v & Hv)] Hlat].
  unfold reserveRow. rewrite Hpre. cbn [negb].
  destruct (collect_spec min_ts (mv s) Hb Hpre) as (m1 & Hc & Hb1 & Hs1 & Hpre1 & Hkept1).
  rewrite Hc. cbn [mbind res_bind].
  destruct (choose_entry_spec ts m1 Hb1 Hpre1) as (idx & m2 & e & Hch & Hidx & Hh2 & Hs2 & Hold & Hres);
    [rewrite (sm_latest _ _ Hs1); done|rewrite (sm_served _ _ Hs1); done|].
  rewrite Hch. cbn [mbind res_bind]. rewrite Hh2, Hidx. cbn [at_ mbind res_bind].
  pose proof (mv_same_trans _ _ _ Hs1 Hs2) as Hsm.
  assert (latest_row m2 = latest_row (mv s) \/ latest_row m2 = None) as Hl2.
  { rewrite (choose_entry_latest _ _ _ _ Hch). by apply (collect_latest min_ts). }
  assert (forall i e l, write_history m2 !! i = Some e -> w_row e = Some l ->
            has_obj (m_key (mv s)) (rows s) l) as Hobjs2.
  { intros i e' l' Hi Hr. pose proof (sm_rows _ _ Hsm) as Hrs.
    assert ((w_row <$> write_history (mv s)) !! i = Some (w_row e')) as Hx
      by (rewrite <- Hrs, list_lookup_fmap, Hi; done).
    rewrite list_lookup_fmap in Hx. destruct (write_history (mv s) !! i) as [e0|] eqn:E0; [|done].
    injection Hx as Hx. apply (Hobjs i e0); congruence. }
  destruct (entry_object m1 m2 e s Hs) as (l & rows' & -> & Hfree & Hobj & Hkeep);
    [apply Hsm|rewrite (sm_size _ _ Hsm); done|apply Hs1|by exists idx|by rewrite <- Hh2|].
  destruct Hobj as (b & r & Hl & -> & Hbl). unfold row_obj. cbn [mv rows].
  rewrite Hl. cbn [mbind res_bind Catalog.key_ Catalog.size_ set_history m_key m_size].
  rewrite (sm_key _ _ Hsm), (sm_size _ _ Hsm), Hsz, !Z.eqb_refl. rewrite Hh2.
  exists l. eexists. split; [done|]. cbn [upd_mv mv rows txns db].
  pose proof (Hres l Hfree) as Hbase. unfold reserved_mv in Hbase. rewrite Hh2 in Hbase.
  assert (has_obj (m_key (mv s)) rows' l) as Hobj by (exists b; eexists; split; [exact Hl|by split]).
  assert (forall l', has_obj (m_key (mv s)) (rows s) l' -> has_obj (m_key (mv s)) rows' l') as Hmono.
  { intros l' (b' & r' & Hr' & Hok'). exists b', r'. rewrite Hkeep; [done|]. by eexists. }
  apply lookup_lt_Some in Hidx as Hlt.
  split; [|split; [|split; [|split; [done|split; [done|split; [done|]]]]]].
  - split; [exact Hbase|..];
      cbn [upd_mv mv rows txns db set_prewrite set_history m_key m_size m_row latest_row write_history];
      rewrite ?(sm_key _ _ Hsm), ?(sm_size _ _ Hsm), ?(sm_row _ _ Hsm); [by split|..].
    + intros i e' l' Hi Hr. apply list_lookup_insert_Some in Hi as [(-> & <- & _)|[_ Hi]].
      * simpl in Hr. by injection Hr as <-.
      * apply Hmono. apply (Hobjs2 i e'); [by rewrite Hh2|done].
    + intros l' Hr. apply Hmono. by apply Hrow.
    + split; [done|]. by exists v.
    + intros l' v' Hl' Hv'.
      assert (latest_row (mv s) = Some l') as Hll by (destruct Hl2; congruence).
      destruct (Hlat l' v' Hll Hv') as (r' & Hr' & Hok'). exists r'. rewrite Hkeep; [done|]. by eexists.
  - split; [done|]. split; [done|]. cbn. eexists. by rewrite list_lookup_insert_eq by done.
  - split; cbn; apply Hsm.
  - apply (shrinks_trans _ (mkState m1 (rows s) (txns s) (db s))); apply shrinks_history; cbn; try done.
    + by apply (newest_kept_reserve _ idx e).
    + intros i e' Hi Hv'. unfold row_bytes. cbn. destruct (w_row e') as [l'|] eqn:Er; [|done]. cbn.
      destruct (Hobjs2 i e' l') as (b' & r' & Hr' & _); [by rewrite Hh2|done|]. by rewrite Hkeep by (by eexists).
Qed.

(** Row objects in use keep their bytes. *)
Lemma row_bytes_objs (s s' : mstate S) (i : nat) (e : WriteHisEntry) :
  st_base s -> write_history (mv s) !! i = Some e ->
  (forall l', w_row e = Some l' -> is_Some (rows s !! l') -> rows s' !! l' = rows s !! l') ->
  row_bytes s' (w_row e) = row_bytes s (w_row e).
Proof.
  intros Hs Hi Hk. unfold row_bytes. destruct (w_row e) as [l|] eqn:Er; [|done]. cbn.
  destruct (st_objs _ Hs i e l Hi Er) as (b & r & Hr & _). by rewrite Hk by (done || by eexists).
Qed.

Lemma ensure_latest_shrinks (s s' : mstate S) : st_base s -> ensure_latest s = Ret s' -> shrinks s s'.
Proof.
  intros Hs He. destruct (ensure_latest_spec s Hs) as (s1 & l & He1 & _ & _ & Hh & _ & _ & _ & _ & _ & _ & Hkeep).
  rewrite He in He1. injection He1 as <-. apply shrinks_history; [rewrite Hh; apply newest_kept_refl|].
  intros i e Hi _. apply (row_bytes_objs s s' i e Hs Hi). auto.
Qed.

(** The row object of a prewrite is not the one readers see. *)
Lemma prewritten_not_latest (m : Row_mvcc) (ts : Z) (l : rloc) :
  mv_base m -> prewritten m ts l -> latest_row m <> Some l.
Proof.
  intros Hb (Hpre & Hts & e & He & Hr) Hl.
  destruct (wf_prewrite _ Hb Hpre) as [(e' & He' & Hv & _) _].
  rewrite He in He'. injection He' as <-.
  pose proof (wf_latest _ Hb) as Hlat. rewrite Hl in Hlat.
  destruct Hlat as [[Hm _]|(_ & i & e1 & Hi & Hv1 & _ & Hr1)].
  - by apply (wf_base_row _ Hb _ e l He Hr).
  - assert (i = prewrite_his_id m) as -> by (by apply (wf_rows _ Hb i _ e1 e l)).
    rewrite He in Hi. injection Hi as <-. congruence.
Qed.

(** Changing the bytes of a reserved row object keeps the state sound. *)
Lemma st_base_write_obj (s : mstate S) (ts : Z) (l : rloc) (b : bytes) :
  st_base s -> prewritten (mv s) ts l -> Z.of_nat (length b) = row_size ->
  st_base (mkState (mv s)
    (<[l := Catalog.mkRowItem (m_key (mv s)) row_size (Some b) None None]> (rows s)) (txns s) (db s)).
Proof.
  intros Hs Hp Hlen. pose proof Hs as [Hb Hsz Hobjs Hrow Hdb Hlat].
  assert (forall l', has_obj (m_key (mv s)) (rows s) l' -> has_obj (m_key (mv s))
    (<[l := Catalog.mkRowItem (m_key (mv s)) row_size (Some b) None None]> (rows s)) l') as Hmono.
  { intros l' (b' & r' & Hr' & Hok'). destruct (decide (l = l')) as [<-|Hne].
    - exists b. eexists. rewrite lookup_insert_eq. split; [done|]. by split.
    - exists b', r'. by rewrite lookup_insert_ne. }
  split; cbn [mv rows txns db]; [done|done|eauto|eauto|done|].
  intros l' v Hl' Hv. destruct (Hlat l' v Hl' Hv) as (r & Hr & Hok). exists r.
  rewrite lookup_insert_ne; [done|]. intros <-. by apply (prewritten_not_latest (mv s) ts l Hb Hp).
Qed.

Lemma copy_latest_spec (s : mstate S) (ts : Z) (l : rloc) :
  st_base s -> prewritten (mv s) ts l ->
  exists s', copy_latest l s = Ret s' /\ st_base s' /\ prewritten (mv s') ts l
    /\ keeps (mv s) (mv s') /\ txns s' = txns s
    /\ (forall key, row_val (db s') key = row_val (db s) key)
    /\ row_bytes s' (Some l) = row_val (db s) (m_key (mv s))
    /\ (forall l', l' <> l -> is_Some (rows s !! l') -> rows s' !! l' = rows s !! l')
    /\ shrinks s s'.
Proof.
  intros Hs Hp. unfold copy_latest.
  destruct (ensure_latest_spec s Hs) as (s1 & l0 & -> & Hs1 & Hl0 & Hh & Hex & Hpts & Hid & Hk & Ht & Hval & Hkeep).
  cbn [mbind res_bind]. rewrite Hl0. cbn [deref mbind res_bind].
  assert (prewritten (mv s1) ts l) as Hp1.
  { destruct Hp as (H1 & H2 & e & He & Hr). split; [congruence|]. split; [congruence|].
    exists e. by rewrite Hh, Hid. }
  pose proof Hs1 as [Hb1 [Hsz1 Hpos] Hobjs1 Hrow1 [Hdb1 (v & Hv)] Hlat1].
  destruct (Hlat1 l0 v Hl0 Hv) as (r0 & Hr0 & -> & Hlen0).
  destruct Hp1 as (Hp1 & Hp2 & e & He & Hr). pose proof (Hobjs1 _ _ _ He Hr) as (b & r & Hrl & -> & Hlen).
  unfold row_obj. rewrite Hr0, Hrl. cbn [mbind res_bind deref Catalog.row_].
  rewrite Hsz1, memcpy_Ret by lia. cbn [mbind res_bind].
  rewrite slice_all', splice_all by lia.
  assert (prewritten (mv s1) ts l) as Hp1' by (split; [done|]; split; [done|]; eauto).
  eexists. split; [done|]. split; [by apply (st_base_write_obj s1 ts l v)|].
  cbn [mv rows txns db]. split; [done|]. split; [done|]. split; [done|]. split; [done|]. split.
  - unfold row_bytes. cbn. rewrite lookup_insert_eq. cbn. by rewrite <- Hval, <- (kp_key _ _ Hk).
  - assert (forall l', l' <> l -> is_Some (rows s !! l') ->
      <[l := Catalog.mkRowItem (m_key (mv s1)) row_size (Some v) None None]> (rows s1) !! l' = rows s !! l') as Hk'
      by (intros l' Hne Hl'; rewrite lookup_insert_ne by done; by apply Hkeep).
    split; [exact Hk'|]. apply shrinks_history; cbn; [rewrite Hh; apply newest_kept_refl|].
    intros i e' Hi Hv'. apply (row_bytes_objs s _ i e' Hs Hi). cbn. intros l' Hl' Hin. apply Hk'; [|done].
    intros ->. destruct Hp as (Hx & _ & e2 & He2 & Hr2).
    assert (i = prewrite_his_id (mv s)) as -> by (by apply (wf_rows _ (st_mv _ Hs) i _ e' e2 l)).
    destruct (wf_prewrite _ (st_mv _ Hs) Hx) as [(e3 & He3 & Hv3 & _) _]. congruence.
Qed.
End State.
