(* ===== verification/RowMvccServe.v ===== *)
(** * db2: the requests that wait on a multi-version row

    Buffering a request, and serving the pending ones when the prewrite they
    wait for commits or aborts ([buffer_req] and [update_buffer] of
    [instance/concurrency_control/row_mvcc.cpp]). *)

From S2P Require Import Prelude Config RowStore RowMvcc RowMvccInv RowMvccState.
From S2P Require Catalog.

(** ** Buffering *)

Lemma put_req_spec (r : ReqEntry) (q : list ReqEntry) :
  match put_req r q with
  | Some q' => exists i e, q !! i = Some e /\ r_valid e = false /\ q' = <[i := r]> q
  | None => forall i e, q !! i = Some e -> r_valid e = true
  end.
Proof.
  induction q as [|e q IH]; simpl; [by intros i e|].
  destruct (r_valid e) eqn:E; simpl; [|by exists 0%nat, e].
  destruct (put_req r q) as [q'|]; simpl.
  - destruct IH as (i & e' & Hi & Hv & ->). by exists (S i), e'.
  - intros [|i] e'; simpl; [by intros [= <-]|apply IH].
Qed.

(** A request always finds a slot, doubling the list once if needed; the other
    pending requests stay, and no other one appears. *)
Lemma buffer_req_spec (type : TsType) (tid ts : Z) (m : Row_mvcc) :
  (0 < req_len m)%nat ->
  exists q, buffer_req type tid ts m = Ret (set_requests q m) /\ (0 < length q)%nat
    /\ (exists i, q !! i = Some (mkReq true type ts tid)
         /\ forall j r, r_valid r = true -> (q !! j = Some r <->
              (j = i /\ r = mkReq true type ts tid) \/ requests m !! j = Some r)).
Proof.
  intros Hlen. unfold buffer_req. set (r := mkReq true type ts tid).
  assert (forall (q : list ReqEntry) i e, q !! i = Some e -> r_valid e = false ->
    <[i := r]> q !! i = Some r /\ forall j r', r_valid r' = true ->
      (<[i := r]> q !! j = Some r' <-> (j = i /\ r' = r) \/ q !! j = Some r')) as Hins.
  { intros q i e Hi Hv. apply lookup_lt_Some in Hi as Hlt.
    split; [by apply list_lookup_insert_eq|]. intros j r' Hr'.
    destruct (decide (j = i)) as [->|Hne].
    - rewrite list_lookup_insert_eq by done. split; [intros [= <-]; by left|].
      intros [[_ ->]|Hq]; [done|congruence].
    - rewrite list_lookup_insert_ne by done. naive_solver. }
  pose proof (put_req_spec r (requests m)) as Hp. destruct (put_req r (requests m)) as [q|].
  { destruct Hp as (i & e & Hi & Hv & ->). eexists. split; [done|].
    rewrite length_insert. split; [done|]. exists i. by apply (Hins _ _ e). }
  unfold double_list. simpl Z.eqb. cbn iota. cbn [mbind res_bind set_requests requests].
  set (q2 := requests m ++ replicate (req_len m) empty_req).
  pose proof (put_req_spec r q2) as Hp2. destruct (put_req r q2) as [q|].
  - destruct Hp2 as (i & e & Hi & Hv & ->). exists (<[i := r]> q2). split; [done|].
    rewrite length_insert. unfold q2 at 1. rewrite length_app. split; [unfold req_len in Hlen; lia|].
    exists i. destruct (Hins _ _ e Hi Hv) as [H1 H2]. split; [done|]. intros j r' Hr'.
    rewrite H2 by done. unfold q2. rewrite lookup_app_Some, lookup_replicate.
    split; [|naive_solver]. intros [?|[?|(_ & -> & _)]]; [by left|by right|done].
  - specialize (Hp2 (length (requests m)) empty_req). unfold q2 in Hp2.
    rewrite lookup_app_r, Nat.sub_diag in Hp2 by lia. unfold req_len in *.
    destruct (length (requests m)) eqn:E; [lia|]. by specialize (Hp2 eq_refl).
Qed.

(** ** The next prewrite *)

(** A prewrite request of a transaction newer than [ts]. *)
Definition pending_prewrite (ts : Z) (q : list ReqEntry) (i : nat) (r : ReqEntry) : Prop :=
  q !! i = Some r /\ r_valid r = true /\ r_type r = P_REQ /\ ts < r_ts r.

Lemma next_prewrite_spec (ts : Z) (q : list ReqEntry) :
  let N := next_prewrite ts q in
  N <= UINT64_MAX
  /\ (forall i r, pending_prewrite ts q i r -> N <= r_ts r \/ UINT64_MAX <= r_ts r)
  /\ (N = UINT64_MAX \/ exists i r, pending_prewrite ts q i r /\ r_ts r = N).
Proof.
  cbv zeta. induction q as [|r q IH] using rev_ind; unfold next_prewrite.
  { split; [done|]. split; [|by left]. intros i r (Hi & _). done. }
  rewrite foldl_app. fold (next_prewrite ts q). cbn [foldl].
  destruct IH as (Hle & Hmin & Hor). set (N := next_prewrite ts q) in *.
  assert (forall i r', pending_prewrite ts q i r' -> pending_prewrite ts (q ++ [r]) i r') as Hmono.
  { intros i r' (Hi & Hrest). split; [|done]. by apply lookup_app_l_Some. }
  assert (forall i r', pending_prewrite ts (q ++ [r]) i r' ->
    pending_prewrite ts q i r' \/ (r' = r /\ r_valid r = true /\ r_type r = P_REQ /\ ts < r_ts r)) as Hinv.
  { intros i r' (Hi & Hrest). apply lookup_app_Some in Hi as [Hi|[_ Hi]]; [by left|].
    right. apply list_lookup_singleton_Some in Hi as [_ ->]. done. }
  destruct (r_valid r && bool_decide (r_type r = P_REQ) && (ts <? r_ts r) && (r_ts r <? N)) eqn:E.
  - bool_props. split; [lia|]. split.
    + intros i r' Hp. destruct (Hinv _ _ Hp) as [Hq|(-> & _)]; [|lia].
      destruct (Hmin _ _ Hq); lia.
    + right. exists (length q), r. split; [|done]. split; [|done].
      by rewrite lookup_app_r, Nat.sub_diag by lia.
  - split; [done|]. split.
    + intros i r' Hp. destruct (Hinv _ _ Hp) as [Hq|(-> & Hv & Ht & Hlt)]; [by eapply Hmin|].
      rewrite Hv, (bool_decide_eq_true_2 _ Ht) in E. simpl in E.
      apply andb_false_iff in E as [E|E]; lia.
    + destruct Hor as [->|(i & r' & Hp & Hts)]; [by left|]. right. exists i, r'. eauto.
Qed.

(** ** Serving *)

Section Serve.
Context {S : Type} `{RowStoreSpec S}.

(** The transaction [tid] was given a row object that holds [v]. *)
Definition answered (s : mstate S) (tid : Z) (v : option bytes) : Prop :=
  exists t, txns s !! tid = Some t /\ ts_ready t = true /\ row_bytes s (cur_row t) = v.

(** No transaction loses its timestamp. *)
Definition txns_kept (s s' : mstate S) : Prop :=
  forall tid t, txns s !! tid = Some t -> exists t', txns s' !! tid = Some t' /\ t_ts t' = t_ts t.

Lemma served_max (ts : Z) (m : Row_mvcc) :
  (if max_served_rts m <? ts then set_max_served ts m else m)
  = set_max_served (Z.max (max_served_rts m) ts) m.
Proof.
  destruct (Z.ltb_spec (max_served_rts m) ts).
  - by rewrite Z.max_r by lia.
  - rewrite Z.max_l by lia. by destruct m.
Qed.

(** Requests do not matter for the base invariant; serving a read does when it
    overtakes the served prewrite. *)
Lemma st_base_serve (s : mstate S) (ts : Z) (q : list ReqEntry) :
  st_base s -> 0 <= ts -> (exists_prewrite (mv s) = true -> ts <= prewrite_ts (mv s)) ->
  st_base (upd_mv (fun m => set_requests q (set_max_served (Z.max (max_served_rts m) ts) m)) s).
Proof.
  intros [[? ? ? ? Hpre ? ? ? ? Hord] ? ? ? ? ?] Hts Hle. split; try done.
  split; try done; cbn.
  - intros Hex. destruct (Hpre Hex) as (He & Hlt & Hmax). split; [done|]. split; [done|].
    specialize (Hle Hex). lia.
  - destruct Hord as (? & ? & ?). lia.
Qed.

Lemma st_base_requests (s : mstate S) (f : Row_mvcc -> list ReqEntry) :
  st_base s -> st_base (upd_mv (fun m => set_requests (f m) m) s).
Proof. intros [[] ? ? ? ? ?]. split; try done. Qed.

Lemma st_base_txns (s : mstate S) (tid : Z) (t : txn_state) :
  st_base s -> st_base (set_txn tid t s).
Proof. intros [[] ? ? ? ? ?]. by split. Qed.

(** The state of the loop after [k] requests, started in [s0] with the next
    prewrite at [N]: the requests up to [N] are answered with the committed
    value and dropped, later ones still wait, and the prewrite at [N] is served
    if it was among them. *)
Record serving (N : Z) (s0 : mstate S) (k : nat) (s : mstate S) : Prop := mk_serving {
  sv_base : st_base s;
  sv_key : m_key (mv s) = m_key (mv s0);
  sv_latest : latest_wts (mv s) = latest_wts (mv s0);
  sv_oldest : oldest_wts (mv s0) <= oldest_wts (mv s);
  sv_val : forall key, row_val (db s) key = row_val (db s0) key;
  sv_len : req_len (mv s) = req_len (mv s0);
  sv_todo : forall i, (k <= i)%nat -> requests (mv s) !! i = requests (mv s0) !! i;
  sv_kept : forall i r, (i < k)%nat -> r_valid r = true ->
    (requests (mv s) !! i = Some r <-> requests (mv s0) !! i = Some r /\ N < r_ts r);
  sv_prewrite : exists_prewrite (mv s) = true -> prewrite_ts (mv s) = N /\
    exists i r, (i < k)%nat /\ requests (mv s0) !! i = Some r /\ r_valid r = true /\ r_ts r = N;
  sv_no_prewrite : exists_prewrite (mv s) = false ->
    forall i r, (i < k)%nat -> requests (mv s0) !! i = Some r -> r_valid r = true -> r_ts r <> N;
  sv_served : max_served_rts (mv s0) <= max_served_rts (mv s) <= Z.max (max_served_rts (mv s0)) N;
  sv_txns : txns_kept s0 s;
  sv_answered : forall i r, (i < k)%nat -> requests (mv s0) !! i = Some r -> r_valid r = true ->
    r_ts r <= N -> answered s (r_txn r) (row_val (db s0) (m_key (mv s0)));
  sv_reads : forall i r, (i < k)%nat -> requests (mv s0) !! i = Some r -> r_valid r = true ->
    r_type r = R_REQ -> r_ts r <= N -> r_ts r <= max_served_rts (mv s);
  sv_held : shrinks s0 s;
}.

(** One answered request. *)
Record answers (N : Z) (k : nat) (r : ReqEntry) (v : option bytes) (s s' : mstate S) : Prop := mk_answers {
  an_base : st_base s';
  an_key : m_key (mv s') = m_key (mv s);
  an_latest : latest_wts (mv s') = latest_wts (mv s);
  an_oldest : oldest_wts (mv s) <= oldest_wts (mv s');
  an_val : forall key, row_val (db s') key = row_val (db s) key;
  an_reqs : requests (mv s')
    = <[k := mkReq false (r_type r) (r_ts r) (r_txn r)]> (requests (mv s));
  an_prewrite : exists_prewrite (mv s') = true ->
    (exists_prewrite (mv s) = true /\ prewrite_ts (mv s') = prewrite_ts (mv s))
    \/ (r_ts r = N /\ prewrite_ts (mv s') = N);
  an_no_prewrite : exists_prewrite (mv s') = false -> exists_prewrite (mv s) = false /\ r_ts r <> N;
  an_served : max_served_rts (mv s) <= max_served_rts (mv s') <= Z.max (max_served_rts (mv s)) N;
  an_txns : exists t l, txns s !! r_txn r = Some t
    /\ txns s' = <[r_txn r := mkTxn (t_ts t) l true]> (txns s) /\ row_bytes s' l = v;
  an_bytes : forall l, is_Some (row_bytes s l) -> row_bytes s l = v -> row_bytes s' l = v;
  an_read : r_type r = R_REQ -> r_ts r <= max_served_rts (mv s');
  an_held : shrinks s s';
}.

Section Loop.
Context (ts : Z) (s0 : mstate S).
Local Abbreviation q0 := (requests (mv s0)).
Local Abbreviation N := (next_prewrite ts q0).
Local Abbreviation v0 := (row_val (db s0) (m_key (mv s0))).
Context (Hpend : forall i r, q0 !! i = Some r -> r_valid r = true ->
  ts < r_ts r < UINT64_MAX /\ (r_type r = R_REQ \/ r_type r = P_REQ)).
Context (Hdist : forall i j r r', q0 !! i = Some r -> q0 !! j = Some r' ->
  r_valid r = true -> r_valid r' = true -> r_ts r = r_ts r' -> i = j).
Context (Hwait : waiting_ok s0).

Lemma serving_answer (k : nat) (r : ReqEntry) (s s' : mstate S) :
  serving N s0 k s -> q0 !! k = Some r -> r_valid r = true -> r_ts r <= N -> is_Some v0 ->
  answers N k r v0 s s' -> serving N s0 (1 + k) s'.
Proof using Hdist Hwait.
  intros Hs Hk Hv Hle Hv0 Ha.
  destruct (an_txns _ _ _ _ _ _ Ha) as (t & l & Ht & Htx & Hbytes).
  assert (k < length (requests (mv s)))%nat as Hlt.
  { apply (lookup_lt_Some _ _ r). by rewrite (sv_todo _ _ _ _ Hs). }
  split.
  - apply Ha.
  - by rewrite (an_key _ _ _ _ _ _ Ha), (sv_key _ _ _ _ Hs).
  - by rewrite (an_latest _ _ _ _ _ _ Ha), (sv_latest _ _ _ _ Hs).
  - pose proof (an_oldest _ _ _ _ _ _ Ha). pose proof (sv_oldest _ _ _ _ Hs). lia.
  - intros key. by rewrite (an_val _ _ _ _ _ _ Ha), (sv_val _ _ _ _ Hs).
  - unfold req_len. rewrite (an_reqs _ _ _ _ _ _ Ha), length_insert. apply (sv_len _ _ _ _ Hs).
  - intros i Hi. rewrite (an_reqs _ _ _ _ _ _ Ha), list_lookup_insert_ne by lia.
    apply (sv_todo _ _ _ _ Hs). lia.
  - intros i r' Hi Hr'. rewrite (an_reqs _ _ _ _ _ _ Ha). destruct (decide (i = k)) as [->|Hne].
    + rewrite list_lookup_insert_eq by done. split; [intros [= <-]; done|].
      intros [Hq Hlt']. rewrite Hk in Hq. injection Hq as <-. lia.
    + rewrite list_lookup_insert_ne by done. apply (sv_kept _ _ _ _ Hs); [lia|done].
  - intros Hex. destruct (an_prewrite _ _ _ _ _ _ Ha Hex) as [[Hex' ->]|[HN ->]].
    + destruct (sv_prewrite _ _ _ _ Hs Hex') as (Hp & i & r' & Hi & Hrest).
      split; [done|]. exists i, r'. split; [lia|done].
    + split; [done|]. exists k, r. split; [lia|done].
  - intros Hex i r' Hi Hq Hr'. destruct (an_no_prewrite _ _ _ _ _ _ Ha Hex) as [Hex' HN].
    destruct (decide (i = k)) as [->|Hne]; [rewrite Hk in Hq; by injection Hq as <-|].
    apply (sv_no_prewrite _ _ _ _ Hs Hex' i); [lia|done|done].
  - pose proof (an_served _ _ _ _ _ _ Ha). pose proof (sv_served _ _ _ _ Hs). lia.
  - intros tid t0 Ht0. destruct (sv_txns _ _ _ _ Hs tid t0 Ht0) as (t1 & Ht1 & Hts1).
    rewrite Htx. destruct (decide (tid = r_txn r)) as [->|Hne].
    + rewrite lookup_insert_eq. eexists. split; [done|]. simpl. congruence.
    + rewrite lookup_insert_ne by done. eauto.
  - intros i r' Hi Hq Hr' Hle'. destruct (decide (i = k)) as [->|Hne].
    + rewrite Hk in Hq. injection Hq as <-. exists (mkTxn (t_ts t) l true).
      rewrite Htx, lookup_insert_eq. done.
    + destruct (sv_answered _ _ _ _ Hs i r' ltac:(lia) Hq Hr' Hle') as (t' & Ht' & Hrdy & Hb).
      exists t'. rewrite Htx, lookup_insert_ne.
      * split; [done|]. split; [done|]. apply (an_bytes _ _ _ _ _ _ Ha); [by rewrite Hb|done].
      * intros Heq. destruct (Hwait k r Hk Hv) as (t1 & Ht1 & Hts1).
        destruct (Hwait i r' Hq Hr') as (t2 & Ht2 & Hts2). apply Hne.
        rewrite Heq in Ht1. rewrite Ht2 in Ht1. injection Ht1 as <-.
        apply (Hdist i k r' r); congruence.
  - intros i r' Hi Hq Hr' Hty' Hle'. destruct (decide (i = k)) as [->|Hne].
    + rewrite Hk in Hq. injection Hq as <-. by apply (an_read _ _ _ _ _ _ Ha).
    + pose proof (sv_reads _ _ _ _ Hs i r' ltac:(lia) Hq Hr' Hty' Hle').
      pose proof (an_served _ _ _ _ _ _ Ha). lia.
  - apply (shrinks_trans _ s); [apply Hs|apply Ha].
Qed.

(** Allocated row objects keep their bytes. *)
Lemma row_bytes_kept (s s' : mstate S) (l : option rloc) :
  (forall l', is_Some (rows s !! l') -> rows s' !! l' = rows s !! l') ->
  is_Some (row_bytes s l) -> row_bytes s' l = row_bytes s l.
Proof.
  intros Hk [v Hv]. unfold row_bytes in *. destruct l as [l|]; [|done]. cbn in *.
  destruct (rows s !! l) as [r|] eqn:E; [|done]. rewrite Hk, E by (by eexists). done.
Qed.

Lemma row_bytes_latest (s : mstate S) :
  st_base s -> latest_row (mv s) <> None ->
  row_bytes s (latest_row (mv s)) = row_val (db s) (m_key (mv s)).
Proof.
  intros Hs Hl. destruct (latest_row (mv s)) as [l|] eqn:E; [|done].
  destruct (st_db _ Hs) as [_ (v & Hv)]. destruct (st_latest _ Hs l v E Hv) as (r & Hr & -> & _).
  unfold row_bytes. cbn. rewrite Hr, Hv. done.
Qed.

Lemma serve_read (k : nat) (r : ReqEntry) (min_ts : Z) (s : mstate S) :
  serving N s0 k s -> q0 !! k = Some r -> r_valid r = true -> r_type r = R_REQ -> r_ts r < N ->
  0 <= ts ->
  exists s', serve_req ts N min_ts s k = Ret s' /\ answers N k r v0 s s'.
Proof using Hpend Hwait.
  intros Hs Hk Hv Hty Hlt Hts. destruct (Hpend k r Hk Hv) as [Hr _].
  unfold serve_req. rewrite (sv_todo _ _ _ _ Hs) by done. rewrite Hk. cbn [at_ mbind res_bind].
  rewrite Hv, Hty. destruct (Z.ltb_spec ts (r_ts r)); [|lia].
  destruct (Z.ltb_spec (r_ts r) N); [|lia]. simpl bool_decide. cbn [andb].
  set (s1 := upd_mv (fun m => set_requests _ _) s).
  assert (s1 = upd_mv (fun m => set_requests (<[k := mkReq false R_REQ (r_ts r) (r_txn r)]> (requests (mv s)))
    (set_max_served (Z.max (max_served_rts m) (r_ts r)) m)) s) as Hs1.
  { unfold s1, upd_mv. by rewrite served_max. }
  assert (st_base s1) as Hb1.
  { rewrite Hs1. apply st_base_serve; [apply Hs|lia|].
    intros Hex. destruct (sv_prewrite _ _ _ _ Hs Hex) as [-> _]. lia. }
  destruct (ensure_latest_spec s1 Hb1)
    as (s2 & l & He2 & Hb2 & Hl & Hh & Hex & Hpts & Hid & Hk2 & Ht & Hval & Hkeep).
  pose proof (ensure_latest_shrinks s1 s2 Hb1 He2) as Hsh. rewrite He2.
  cbn [mbind res_bind]. unfold answer. rewrite Ht. clearbody s1. subst s1.
  destruct (Hwait k r Hk Hv) as (t0 & Ht0 & _).
  destruct (sv_txns _ _ _ _ Hs _ _ Ht0) as (t & Htx & _). cbn [upd_mv txns].
  rewrite Htx. cbn [at_ mbind res_bind]. eexists. split; [done|]. cbn in Hex, Hpts.
  assert (row_val (db s2) (m_key (mv s2)) = v0) as Hv2.
  { rewrite Hval, (kp_key _ _ Hk2). cbn. by rewrite (sv_val _ _ _ _ Hs), (sv_key _ _ _ _ Hs). }
  split; cbn [set_txn mv db txns rows].
  - by apply st_base_txns.
  - apply Hk2.
  - apply Hk2.
  - apply (kp_oldest _ _ Hk2).
  - done.
  - rewrite (kp_reqs _ _ Hk2), Hty. done.
  - rewrite Hex, Hpts. auto.
  - rewrite Hex. split; [done|lia].
  - rewrite (kp_served _ _ Hk2). cbn. lia.
  - eexists t, _. split; [done|]. split; [by rewrite Ht|].
    rewrite <- Hv2, <- (row_bytes_latest s2 Hb2) by congruence. done.
  - intros l' Hl' <-. apply (row_bytes_kept _ _ l' Hkeep). done.
  - intros _. rewrite (kp_served _ _ Hk2). cbn. lia.
  - exact Hsh.
Qed.

Lemma serve_prewrite (k : nat) (r : ReqEntry) (min_ts : Z) (s : mstate S) :
  serving N s0 k s -> q0 !! k = Some r -> r_valid r = true -> r_type r = P_REQ -> r_ts r = N ->
  latest_wts (mv s0) <= ts -> max_served_rts (mv s0) <= ts ->
  exists s', serve_req ts N min_ts s k = Ret s' /\ answers N k r v0 s s'.
Proof using Hpend Hdist Hwait.
  intros Hs Hk Hv Hty HN Hlat Hserved. destruct (Hpend k r Hk Hv) as [Hr _].
  assert (exists_prewrite (mv s) = false) as Hno.
  { destruct (exists_prewrite (mv s)) eqn:E; [|done].
    destruct (sv_prewrite _ _ _ _ Hs E) as (_ & i & r' & Hi & Hq & Hv' & HN').
    assert (i = k) by (apply (Hdist i k r' r); congruence). lia. }
  unfold serve_req. rewrite (sv_todo _ _ _ _ Hs) by done. rewrite Hk. cbn [at_ mbind res_bind].
  rewrite Hv, Hty. destruct (Z.ltb_spec ts (r_ts r)); [|lia].
  simpl bool_decide. cbn [andb]. rewrite (proj2 (Z.eqb_eq _ _) HN).
  destruct (reserveRow_spec (r_ts r) min_ts s (sv_base _ _ _ _ Hs) Hno)
    as (l & s1 & -> & Hb1 & Hp1 & Hk1 & Ht1 & Hd1 & Hkeep1 & Hsh1).
  { rewrite (sv_latest _ _ _ _ Hs). lia. }
  { pose proof (sv_served _ _ _ _ Hs). lia. }
  cbn [mbind res_bind].
  destruct (copy_latest_spec s1 (r_ts r) l Hb1 Hp1) as (s2 & -> & Hb2 & Hp2 & Hk2 & Ht2 & Hv2 & Hbytes & Hkeep2 & Hsh2).
  cbn [mbind res_bind]. unfold answer. cbn [upd_mv txns]. rewrite Ht2, Ht1.
  destruct (Hwait k r Hk Hv) as (t0 & Ht0 & _).
  destruct (sv_txns _ _ _ _ Hs _ _ Ht0) as (t & Htx & _).
  rewrite Htx. cbn [at_ mbind res_bind]. eexists. split; [done|].
  pose proof (keeps_trans _ _ _ Hk1 Hk2) as Hk12. destruct Hp2 as (Hex2 & Hpts2 & _).
  rewrite Hd1, (kp_key _ _ Hk1), (sv_val _ _ _ _ Hs), (sv_key _ _ _ _ Hs) in Hbytes.
  split; cbn [upd_mv set_txn mv db txns rows set_requests].
  - apply st_base_txns. by apply (st_base_requests s2 (fun m => <[k := _]> (requests m))).
  - apply Hk12.
  - apply Hk12.
  - apply (kp_oldest _ _ Hk12).
  - intros key. by rewrite Hv2, Hd1.
  - cbn. by rewrite (kp_reqs _ _ Hk12), Hty.
  - cbn. intros _. right. split; congruence.
  - cbn. congruence.
  - cbn. rewrite (kp_served _ _ Hk12). lia.
  - eexists t, _. split; [done|]. rewrite Ht2, Ht1. done.
  - intros l' Hl' Hv'. destruct (decide (l' = Some l)) as [->|Hne]; [done|].
    assert (is_Some (row_bytes s1 l')) as Hl1 by (by rewrite (row_bytes_kept _ _ l' Hkeep1)).
    rewrite <- Hv', <- (row_bytes_kept _ _ l' Hkeep1) by done. unfold row_bytes.
    destruct l' as [l'|]; [|done]. cbn. rewrite Hkeep2; [done|congruence|].
    destruct Hl1 as [b Hb]. unfold row_bytes in Hb. cbn in Hb. destruct (rows s1 !! l'); [by eexists|done].
  - congruence.
  - exact (shrinks_trans _ _ _ Hsh1 Hsh2).
Qed.

(** A request the round leaves alone. *)
Lemma serving_skip (k : nat) (r : ReqEntry) (s : mstate S) :
  serving N s0 k s -> q0 !! k = Some r -> (r_valid r = true -> N < r_ts r) ->
  serving N s0 (1 + k) s.
Proof.
  clear Hpend Hdist Hwait. intros [] Hk Hgt.
  assert (forall i r', (i < 1 + k)%nat -> q0 !! i = Some r' ->
    (i < k)%nat \/ r' = r) as Hcase.
  { intros i r' Hi Hq. destruct (decide (i = k)) as [->|]; [right; congruence|left; lia]. }
  split; try done.
  - intros i Hi. apply sv_todo0. lia.
  - intros i r' Hi Hr'. destruct (decide (i = k)) as [->|]; [|apply sv_kept0; [lia|done]].
    rewrite sv_todo0, Hk by done. split; [|naive_solver]. intros [= <-]. auto.
  - intros Hex. destruct (sv_prewrite0 Hex) as (? & i & r' & ? & ?). split; [done|].
    exists i, r'. split; [lia|done].
  - intros Hex i r' Hi Hq Hr'. destruct (Hcase i r' Hi Hq) as [| ->]; [by eapply sv_no_prewrite0|].
    specialize (Hgt Hr'). lia.
  - intros i r' Hi Hq Hr' Hle. destruct (Hcase i r' Hi Hq) as [| ->]; [by eapply sv_answered0|].
    specialize (Hgt Hr'). lia.
  - intros i r' Hi Hq Hr' Hty Hle. destruct (Hcase i r' Hi Hq) as [| ->]; [by eapply sv_reads0|].
    specialize (Hgt Hr'). lia.
Qed.

Lemma serve_step (k : nat) (min_ts : Z) (s : mstate S) :
  serving N s0 k s -> (k < req_len (mv s0))%nat -> is_Some v0 ->
  0 <= ts -> latest_wts (mv s0) <= ts -> max_served_rts (mv s0) <= ts ->
  exists s', serve_req ts N min_ts s k = Ret s' /\ serving N s0 (1 + k) s'.
Proof using Hpend Hdist Hwait.
  intros Hs Hk Hv0 Hts Hlat Hserved. apply lookup_lt_is_Some in Hk as [r Hk].
  destruct (r_valid r) eqn:Hv.
  2: { exists s. split; [|apply (serving_skip k r); [done|done|congruence]].
       unfold serve_req. rewrite (sv_todo _ _ _ _ Hs), Hk by done. cbn. by rewrite Hv. }
  destruct (Hpend k r Hk Hv) as [Hr Hty]. destruct (next_prewrite_spec ts q0) as (HN & Hmin & Hor).
  assert (r_ts r = N -> r_type r = P_REQ) as HeqP.
  { intros Heq. destruct Hor as [?|(i & r' & (Hi & Hv' & Ht' & _) & HN')]; [lia|].
    assert (i = k) as -> by (apply (Hdist i k r' r); congruence). congruence. }
  destruct (decide (r_type r = R_REQ /\ r_ts r < N)) as [[HtR HltR]|HnR].
  { destruct (serve_read k r min_ts s Hs Hk Hv HtR HltR Hts) as (s' & -> & Ha). exists s'.
    split; [done|]. apply (serving_answer k r s); try done. lia. }
  destruct (decide (r_ts r = N)) as [HeqN|HneN].
  { destruct (serve_prewrite k r min_ts s Hs Hk Hv (HeqP HeqN) HeqN Hlat Hserved) as (s' & -> & Ha).
    exists s'. split; [done|]. apply (serving_answer k r s); try done. lia. }
  assert (N < r_ts r) as Hgt.
  { destruct Hty as [HtR|HtP]; [destruct (decide (r_ts r < N)); [tauto|lia]|].
    destruct (Hmin k r (conj Hk (conj Hv (conj HtP (proj1 Hr))))); lia. }
  exists s. split; [|by apply (serving_skip k r)]. unfold serve_req.
  rewrite (sv_todo _ _ _ _ Hs), Hk by done. cbn [at_ mbind res_bind]. rewrite Hv.
  destruct (Z.ltb_spec ts (r_ts r)); [|lia]. destruct (Z.ltb_spec (r_ts r) N); [lia|].
  rewrite andb_false_r. destruct (Z.eqb_spec (r_ts r) N); [done|]. done.
Qed.

Lemma serving_init : st_base s0 -> exists_prewrite (mv s0) = false -> serving N s0 0 s0.
Proof.
  clear Hpend. intros Hb Hno. split; try done; try lia; try congruence; [|apply shrinks_refl].
  intros tid t Ht. by exists t.
Qed.

Lemma serving_done (s : mstate S) :
  serving N s0 (req_len (mv s0)) s -> (0 < req_len (mv s0))%nat -> st_wf s.
Proof using Hpend Hdist Hwait.
  intros Hs Hlen.
  assert (forall i r, requests (mv s) !! i = Some r -> r_valid r = true ->
    q0 !! i = Some r /\ N < r_ts r) as Hq.
  { intros i r Hi Hv. apply (sv_kept _ _ _ _ Hs); [|done|done].
    rewrite <- (sv_len _ _ _ _ Hs). by apply (lookup_lt_Some _ _ r). }
  split; [apply Hs|]. split; [split|].
  - intros i r Hi Hv. destruct (Hq i r Hi Hv) as [Hi0 Hgt]. destruct (Hpend i r Hi0 Hv) as [Hr Hty].
    destruct (next_prewrite_spec ts q0) as (_ & _ & [?|(j & r' & (Hj & Hvj & _) & HN)]); [lia|].
    destruct (exists_prewrite (mv s)) eqn:E.
    + destruct (sv_prewrite _ _ _ _ Hs E) as [-> _]. repeat split; try done; lia.
    + exfalso. apply (sv_no_prewrite _ _ _ _ Hs E j r'); [|done|done|done].
      by apply (lookup_lt_Some _ _ r').
  - intros i j r r' Hi Hj Hv Hv'. apply (Hdist i j r r'); try done; by apply Hq.
  - by rewrite (sv_len _ _ _ _ Hs).
  - intros i r Hi Hv. destruct (Hq i r Hi Hv) as [Hi0 _]. destruct (Hwait i r Hi0 Hv) as (t & Ht & Hts).
    destruct (sv_txns _ _ _ _ Hs _ _ Ht) as (t' & Ht' & Hts'). exists t'. split; [done|congruence].
Qed.

Lemma serving_released (s : mstate S) :
  serving N s0 (req_len (mv s0)) s -> exists_prewrite (mv s) = true -> ts < prewrite_ts (mv s).
Proof using Hpend.
  intros Hs Hex. destruct (sv_prewrite _ _ _ _ Hs Hex) as (-> & i & r & _ & Hi & Hv & <-).
  by apply (Hpend i).
Qed.

Lemma update_buffer_spec (min_ts : Z) :
  st_base s0 -> exists_prewrite (mv s0) = false -> (0 < req_len (mv s0))%nat ->
  0 <= ts -> latest_wts (mv s0) <= ts -> max_served_rts (mv s0) <= ts ->
  exists s, update_buffer ts min_ts s0 = Ret s /\ serving N s0 (req_len (mv s0)) s /\ st_wf s
    /\ (exists_prewrite (mv s) = true -> ts < prewrite_ts (mv s)).
Proof using Hpend Hdist Hwait.
  intros Hb Hno Hlen Hts Hlat Hserved. unfold update_buffer. set (n := req_len (mv s0)).
  assert (is_Some v0) as Hv0 by (destruct (st_db _ Hb) as [_ (v & ->)]; by eexists).
  destruct (foldM_inv (fun l s => exists k, l = seq k (n - k) /\ (k <= n)%nat /\ serving N s0 k s)
    (serve_req ts N min_ts) (seq 0 n) s0) as (s & -> & k & Hl & Hk & Hs).
  - exists 0%nat. rewrite Nat.sub_0_r. split; [done|]. split; [lia|]. by apply serving_init.
  - intros a l s (k & Hl & Hk & Hs). destruct (n - k)%nat as [|d] eqn:E; [done|].
    cbn [seq] in Hl. injection Hl as -> ->.
    destruct (serve_step k min_ts s Hs ltac:(unfold n in *; lia) Hv0 Hts Hlat Hserved) as (s' & -> & Hs').
    exists s'. split; [done|]. exists (1 + k)%nat. split; [f_equal; lia|]. split; [lia|done].
  - assert (k = n) as -> by (destruct (n - k)%nat eqn:E; [lia|done]).
    exists s. split; [done|]. split; [done|]. split; [by apply serving_done|by apply serving_released].
Qed.
End Loop.
End Serve.
