(* ===== verification/Mvcc.v ===== *)
(** * db2: correctness of the multi-version row

    Every request a transaction may make of a row keeps the invariant and never
    fails an assertion; reads see committed values, a commit installs its value
    and wakes the waiting transactions, and commits respect the reads already
    served.  The last part shows what goes wrong outside these limits. *)

From S2P Require Import Prelude Config RowStore RowMvcc RowMvccInv RowMvccState RowMvccServe.
From S2P Require Catalog.

(** ** Ending a prewrite *)

Definition commit_mv (ts : Z) (l : rloc) (m : Row_mvcc) : Row_mvcc :=
  mkMvcc (m_key m) (m_size m) None (Some l) ts (oldest_wts m)
    (<[prewrite_his_id m := mkWrite true true ts (Some l)]> (write_history m))
    false (prewrite_ts m) (prewrite_his_id m) (max_served_rts m) (requests m)
    (u32 (num_versions m + 1)).

Lemma commit_base (ts : Z) (l : rloc) (m : Row_mvcc) :
  mv_base m -> prewritten m ts l -> mv_base (commit_mv ts l m).
Proof.
  intros Hb (Hex & Hpts & e & He & Hr). destruct Hb as [Hnum Hlen Hval Hres Hpre Hdist Hrows Hbrow _ Hord].
  destruct (Hpre Hex) as [(e' & He' & Hv & Hrv & _) [Hts Hserved]].
  rewrite He in He'. injection He' as <-. rewrite Hpts in *.
  apply lookup_lt_Some in He as Hlt. pose proof (nvalid_bounds (write_history m)) as Hnv.
  unfold his_len in Hlen.
  assert (forall i e', <[prewrite_his_id m := mkWrite true true ts (Some l)]> (write_history m) !! i = Some e' ->
    (i = prewrite_his_id m /\ e' = mkWrite true true ts (Some l))
    \/ (i <> prewrite_his_id m /\ write_history m !! i = Some e')) as Hins.
  { intros i e' Hi. apply list_lookup_insert_Some in Hi as [(-> & <- & _)|[Hne Hi]]; [by left|right; auto]. }
  split; cbn [commit_mv m_key m_size m_row latest_row latest_wts oldest_wts write_history exists_prewrite
    prewrite_ts prewrite_his_id max_served_rts requests num_versions].
  - rewrite (nvalid_insert _ _ e) by done. rewrite Hv, u32_id by (unfold is_u32; lia). simpl. lia.
  - unfold his_len. cbn. by rewrite length_insert.
  - intros i e' Hi Hv'. destruct (Hins i e' Hi) as [[-> ->]|[Hne Hi']]; [simpl; split; [done|]; split; [done|]; lia|].
    destruct (Hval i e' Hi' Hv') as (? & ? & ?). split; [done|]. split; [done|]. lia.
  - intros i e' Hi Hr' Hv'. destruct (Hins i e' Hi) as [[-> ->]|[Hne Hi']]; [done|].
    destruct (Hres i e' Hi' Hr' Hv'). congruence.
  - done.
  - intros i j ei ej Hi Hj Hvi Hvj Heq.
    destruct (Hins _ _ Hi) as [[-> ->]|[Hnei Hi']], (Hins _ _ Hj) as [[-> ->]|[Hnej Hj']]; [done|..].
    + destruct (Hval j ej Hj' Hvj) as (_ & _ & ?). simpl in Heq. lia.
    + destruct (Hval i ei Hi' Hvi) as (_ & _ & ?). simpl in Heq. lia.
    + by apply (Hdist i j ei ej).
  - intros i j ei ej l' Hi Hj Hri Hrj.
    destruct (Hins _ _ Hi) as [[-> ->]|[Hnei Hi']], (Hins _ _ Hj) as [[-> ->]|[Hnej Hj']]; [done|..].
    + simpl in Hri. apply (Hrows _ _ e ej l'); congruence.
    + simpl in Hrj. apply (Hrows _ _ ei e l'); congruence.
    + by apply (Hrows i j ei ej l').
  - done.
  - right. split; [done|]. eexists _, _. by rewrite list_lookup_insert_eq by done.
  - lia.
Qed.

Definition abort_mv (e : WriteHisEntry) (m : Row_mvcc) : Row_mvcc :=
  mkMvcc (m_key m) (m_size m) (m_row m) (latest_row m) (latest_wts m) (oldest_wts m)
    (<[prewrite_his_id m := invalidate e]> (write_history m))
    false (prewrite_ts m) (prewrite_his_id m) (max_served_rts m) (requests m) (num_versions m).

Lemma abort_base (e : WriteHisEntry) (m : Row_mvcc) :
  mv_base m -> exists_prewrite m = true -> write_history m !! prewrite_his_id m = Some e ->
  mv_base (abort_mv e m).
Proof.
  intros [Hnum Hlen Hval Hres Hpre Hdist Hrows Hbrow Hlat Hord] Hex He.
  destruct (Hpre Hex) as [(e' & He' & Hv & _) _]. rewrite He in He'. injection He' as <-.
  assert (forall i e', <[prewrite_his_id m := invalidate e]> (write_history m) !! i = Some e' ->
    (i = prewrite_his_id m /\ e' = invalidate e)
    \/ (i <> prewrite_his_id m /\ write_history m !! i = Some e')) as Hins.
  { intros i e' Hi. apply list_lookup_insert_Some in Hi as [(-> & <- & _)|[Hne Hi]]; [by left|right; auto]. }
  assert (forall i e', <[prewrite_his_id m := invalidate e]> (write_history m) !! i = Some e' ->
    exists e0, write_history m !! i = Some e0 /\ w_row e0 = w_row e') as Hrow.
  { intros i e' Hi. destruct (Hins i e' Hi) as [[-> ->]|[_ Hi']]; eauto. }
  split; cbn [abort_mv m_key m_size m_row latest_row latest_wts oldest_wts write_history exists_prewrite
    prewrite_ts prewrite_his_id max_served_rts requests num_versions].
  - rewrite (nvalid_insert _ _ e) by done. rewrite Hv, Hnum. simpl. lia.
  - unfold his_len. cbn. by rewrite length_insert.
  - intros i e' Hi Hv'. destruct (Hins i e' Hi) as [[-> ->]|[Hne Hi']]; [done|]. by apply (Hval i).
  - intros i e' Hi Hr' Hv'. destruct (Hins i e' Hi) as [[-> ->]|[Hne Hi']]; [done|].
    destruct (Hres i e' Hi' Hr' Hv'). congruence.
  - done.
  - intros i j ei ej Hi Hj Hvi Hvj Heq.
    destruct (Hins _ _ Hi) as [[-> ->]|[_ Hi']]; [done|]. destruct (Hins _ _ Hj) as [[-> ->]|[_ Hj']]; [done|].
    by apply (Hdist i j ei ej).
  - intros i j ei ej l' Hi Hj Hri Hrj.
    destruct (Hrow _ _ Hi) as (x & ? & ?). destruct (Hrow _ _ Hj) as (y & ? & ?).
    apply (Hrows i j x y l'); congruence.
  - intros i e' l' Hi Hr'. destruct (Hrow _ _ Hi) as (x & ? & ?). apply (Hbrow i x); congruence.
  - destruct (latest_row m) as [l|]; [|done]. destruct Hlat as [?|(? & i & e' & Hi & Hv' & Hrest)]; [by left|].
    right. split; [done|]. exists i, e'. rewrite list_lookup_insert_ne; [done|]. intros <-. congruence.
  - done.
Qed.

Section Access.
Context {S : Type} `{RowStoreSpec S}.

(** No pending request has timestamp [ts]. *)
Definition not_pending (s : mstate S) (ts : Z) : Prop :=
  forall i r, requests (mv s) !! i = Some r -> r_valid r = true -> r_ts r <> ts.

Lemma waiting_set_txn (s : mstate S) (tid : Z) (t t' : txn_state) :
  waiting_ok s -> txns s !! tid = Some t -> t_ts t' = t_ts t -> waiting_ok (set_txn tid t' s).
Proof.
  intros Hw Ht Heq i r Hi Hv. destruct (Hw i r Hi Hv) as (t0 & Ht0 & Hts).
  cbn [set_txn txns]. destruct (decide (r_txn r = tid)) as [Heq'|Hne].
  - exists t'. rewrite Heq' in *. rewrite lookup_insert_eq. split; [done|congruence].
  - exists t0. by rewrite lookup_insert_ne by done.
Qed.

(** A transaction that has to wait is queued and nothing else changes. *)
Lemma wait_wf (type : TsType) (tid : Z) (t : txn_state) (s : mstate S) :
  st_wf s -> exists_prewrite (mv s) = true -> prewrite_ts (mv s) < t_ts t < UINT64_MAX ->
  not_pending s (t_ts t) -> txns s !! tid = Some t -> type = R_REQ \/ type = P_REQ ->
  exists q i, buffer_req type tid (t_ts t) (mv s) = Ret (set_requests q (mv s))
    /\ q !! i = Some (mkReq true type (t_ts t) tid)
    /\ st_wf (set_txn tid (mkTxn (t_ts t) (cur_row t) false) (upd_mv (fun _ => set_requests q (mv s)) s)).
Proof.
  intros (Hb & [Hpend Hdist Hlen] & Hw) Hex Hts Hnp Ht Hty.
  destruct (buffer_req_spec type tid (t_ts t) (mv s) Hlen) as (q & Hbr & Hq & i & Hi & Hqs).
  exists q, i. split; [done|]. split; [done|].
  assert (forall j r, q !! j = Some r -> r_valid r = true ->
    (j = i /\ r = mkReq true type (t_ts t) tid) \/ requests (mv s) !! j = Some r) as Hq1
    by (intros j r Hj Hv; by apply Hqs).
  split; [apply st_base_txns; by apply (st_base_requests s (fun _ => q))|]. split; [split|].
  - intros j r Hj Hv. cbn. destruct (Hq1 j r Hj Hv) as [[-> ->]|Hj']; [done|]. by apply (Hpend j).
  - intros j j' r r' Hj Hj' Hv Hv' Heq.
    destruct (Hq1 j r Hj Hv) as [[-> ->]|Hj1], (Hq1 j' r' Hj' Hv') as [[-> ->]|Hj2]; [done|..].
    + exfalso. by apply (Hnp j' r').
    + exfalso. by apply (Hnp j r).
    + by apply (Hdist j j' r r').
  - done.
  - apply (waiting_set_txn _ tid t); [|done|done]. intros j r Hj Hv. cbn [upd_mv mv txns] in *.
    destruct (Hq1 j r Hj Hv) as [[-> ->]|Hj']; [by exists t|]. by apply (Hw j).
Qed.

(** Steps that change no request keep the whole invariant. *)
Lemma wf_keeps (s s' : mstate S) :
  st_wf s -> st_base s' -> requests (mv s') = requests (mv s) ->
  exists_prewrite (mv s') = exists_prewrite (mv s) -> prewrite_ts (mv s') = prewrite_ts (mv s) ->
  txns s' = txns s -> st_wf s'.
Proof.
  intros (_ & [Hpend Hdist Hlen] & Hw) Hb Hq Hex Hpts Ht. split; [done|].
  unfold waiting_ok, req_len in *. split; [split|]; unfold req_len; rewrite ?Hq, ?Ht, ?Hex, ?Hpts; done.
Qed.

(** A row with no served prewrite has no pending request. *)
Lemma no_prewrite_no_pending (s : mstate S) (i : nat) (r : ReqEntry) :
  st_wf s -> exists_prewrite (mv s) = false -> requests (mv s) !! i = Some r -> r_valid r = false.
Proof.
  intros (_ & [Hpend _ _] & _) Hno Hi. destruct (r_valid r) eqn:E; [|done].
  destruct (Hpend i r Hi E). congruence.
Qed.

(** Commits and served reads only move forward, and a commit is not older than
    a read that was served before it. *)
Definition ordered (m m' : Row_mvcc) : Prop :=
  m_key m' = m_key m /\ max_served_rts m <= max_served_rts m'
  /\ (latest_wts m' = latest_wts m
      \/ (latest_wts m < latest_wts m' /\ max_served_rts m <= latest_wts m')).

Lemma ordered_refl (m : Row_mvcc) : ordered m m.
Proof. split; [done|]. split; [lia|]. by left. Qed.

Lemma ordered_requests (q : list ReqEntry) (m : Row_mvcc) : ordered m (set_requests q m).
Proof. exact (ordered_refl m). Qed.

Lemma ordered_trans (m1 m2 m3 : Row_mvcc) : ordered m1 m2 -> ordered m2 m3 -> ordered m1 m3.
Proof. intros (? & ? & ?) (? & ? & ?). split; [congruence|]. split; [lia|]. lia. Qed.

Lemma keeps_ordered (m m' : Row_mvcc) : keeps m m' -> ordered m m'.
Proof. intros []. split; [done|]. split; [lia|]. by left. Qed.

(** Reading the newest version. *)
Lemma read_latest_spec (tid : Z) (t : txn_state) (s : mstate S) :
  st_wf s -> txns s !! tid = Some t -> latest_wts (mv s) < t_ts t ->
  (exists_prewrite (mv s) = true -> t_ts t <= prewrite_ts (mv s)) ->
  exists s' l, access_read tid t s = Ret (RCOK, s') /\ st_wf s' /\ keeps (mv s) (set_max_served (max_served_rts (mv s)) (mv s'))
    /\ max_served_rts (mv s') = Z.max (max_served_rts (mv s)) (t_ts t)
    /\ txns s' = <[tid := mkTxn (t_ts t) (Some l) (ts_ready t)]> (txns s)
    /\ latest_row (mv s') = Some l /\ row_bytes s' (Some l) = row_val (db s') (m_key (mv s))
    /\ forall key, row_val (db s') key = row_val (db s) key.
Proof.
  intros Hs Ht Hlat Hpre. pose proof Hs as (Hb & _ & Hw). unfold access_read.
  pose proof (wf_order _ (st_mv _ Hb)) as (Hord & _ & _).
  destruct (Z.ltb_spec (t_ts t) (oldest_wts (mv s))); [lia|].
  destruct (Z.ltb_spec (latest_wts (mv s)) (t_ts t)); [|lia].
  destruct (exists_prewrite (mv s) && (prewrite_ts (mv s) <? t_ts t)) eqn:E.
  { bool_props. specialize (Hpre ltac:(done)). lia. }
  destruct (ensure_latest_spec s Hb) as (s1 & l & -> & Hb1 & Hl & Hh & Hex & Hpts & Hid & Hk & Htx & Hval & Hkeep).
  cbn [mbind res_bind upd_mv set_txn]. eexists. exists l. split; [done|].
  assert (st_wf s1) as Hs1 by (apply (wf_keeps s); [done|done|apply Hk|done|done|done]).
  unfold upd_mv, set_txn. cbn [mv txns db rows]. rewrite served_max, Hl.
  split; [|split; [|split; [|split; [by rewrite Htx|split; [done|split; [|done]]]]]].
  - apply (wf_keeps (set_txn tid (mkTxn (t_ts t) (Some l) (ts_ready t)) s1)); try done.
    + split; [by apply st_base_txns|]. split; [apply Hs1|].
      apply (waiting_set_txn _ _ t); [apply Hs1|congruence|done].
    + pose proof (st_base_serve s1 (t_ts t) (requests (mv s1)) Hb1 ltac:(lia)) as Hsv.
      rewrite Hex, Hpts in Hsv. apply (st_base_txns _ tid (mkTxn (t_ts t) (Some l) (ts_ready t))) in Hsv;
        [exact Hsv|exact Hpre].
  - destruct Hk. by split.
  - cbn. by rewrite (kp_served _ _ Hk).
  - rewrite <- (kp_key _ _ Hk), <- (row_bytes_latest s1 Hb1), Hl by congruence. done.
Qed.

(** Reading an old version gives a live row object. *)
Lemma read_old_spec (tid : Z) (t : txn_state) (s : mstate S) :
  st_wf s -> txns s !! tid = Some t -> oldest_wts (mv s) <= t_ts t <= latest_wts (mv s) ->
  exists s' l, access_read tid t s = Ret (RCOK, s') /\ st_wf s' /\ keeps (mv s) (mv s')
    /\ txns s' = <[tid := mkTxn (t_ts t) (Some l) (ts_ready t)]> (txns s)
    /\ is_Some (row_bytes s' (Some l)) /\ forall key, row_val (db s') key = row_val (db s) key.
Proof.
  intros Hs Ht Hlat. pose proof Hs as (Hb & Hq & Hw). unfold access_read.
  destruct (Z.ltb_spec (t_ts t) (oldest_wts (mv s))); [lia|].
  destruct (Z.ltb_spec (latest_wts (mv s)) (t_ts t)); [lia|].
  assert (forall s1 l, st_wf s1 -> txns s1 = txns s ->
    st_wf (set_txn tid (mkTxn (t_ts t) l (ts_ready t)) s1)) as Hset.
  { intros s1 l (? & ? & ?) Heq. split; [by apply st_base_txns|]. split; [done|].
    apply (waiting_set_txn _ _ t); [done|congruence|done]. }
  destruct (find_version_valid (t_ts t) (write_history (mv s)) 0 0 None) as [->|(k & e & -> & Hk & Hv & _)].
  - destruct (ensure_latest_spec s Hb) as (s1 & l & -> & Hb1 & Hl & Hh & Hex & Hpts & Hid & Hk & Htx & Hval & Hkeep).
    cbn [mbind res_bind]. eexists _, l. split; [done|]. rewrite Hl.
    split; [apply Hset; [|done]; apply (wf_keeps s); [done|done|apply Hk|done|done|done]|].
    split; [done|]. split; [by cbn; rewrite Htx|]. split; [|done].
    change (is_Some (row_bytes s1 (Some l))). rewrite <- Hl, (row_bytes_latest s1 Hb1) by congruence.
    destruct (st_db _ Hb1) as [_ (v & ->)]. by eexists.
  - rewrite Nat.add_0_l, Hk. cbn [at_ mbind res_bind].
    destruct (wf_valid _ (st_mv _ Hb) k e Hk Hv) as (_ & Hr & _).
    destruct (w_row e) as [l|] eqn:Er; [|done].
    eexists _, l. split; [done|]. split; [by apply Hset|]. split; [by split|].
    split; [done|]. split; [|done].
    destruct (st_objs _ Hb k e l Hk Er) as (b & r & Hl & -> & _). unfold row_bytes. cbn. rewrite Hl. by eexists.
Qed.

(** A prewrite that is served at once. *)
Lemma prewrite_spec (tid min_ts : Z) (t : txn_state) (s : mstate S) :
  st_wf s -> txns s !! tid = Some t -> exists_prewrite (mv s) = false ->
  latest_wts (mv s) < t_ts t < UINT64_MAX -> max_served_rts (mv s) <= t_ts t ->
  exists s' l, access_prewrite tid min_ts t s = Ret (RCOK, s') /\ st_wf s'
    /\ prewritten (mv s') (t_ts t) l /\ keeps (mv s) (mv s')
    /\ txns s' = <[tid := mkTxn (t_ts t) (Some l) (ts_ready t)]> (txns s)
    /\ row_bytes s' (Some l) = row_val (db s') (m_key (mv s))
    /\ forall key, row_val (db s') key = row_val (db s) key.
Proof.
  intros Hs Ht Hno Hlat Hserved. pose proof Hs as (Hb & Hq & Hw). unfold access_prewrite.
  rewrite Hno. destruct (Z.ltb_spec (t_ts t) (latest_wts (mv s))); [lia|].
  destruct (Z.ltb_spec (t_ts t) (max_served_rts (mv s))); [lia|]. cbn [orb andb].
  destruct (reserveRow_spec (t_ts t) min_ts s Hb Hno Hlat Hserved) as (l & s1 & -> & Hb1 & Hp1 & Hk1 & Ht1 & Hd1 & Hkeep1 & Hsh1).
  cbn [mbind res_bind].
  destruct (copy_latest_spec s1 (t_ts t) l Hb1 Hp1) as (s2 & -> & Hb2 & Hp2 & Hk2 & Ht2 & Hv2 & Hbytes & Hkeep2 & Hsh2).
  cbn [mbind res_bind]. exists (set_txn tid (mkTxn (t_ts t) (Some l) (ts_ready t)) s2), l. split; [done|].
  pose proof (keeps_trans _ _ _ Hk1 Hk2) as Hk12.
  assert (forall i r, requests (mv s2) !! i = Some r -> r_valid r = true -> False) as Hnone.
  { intros i r Hi Hv. rewrite (kp_reqs _ _ Hk12) in Hi.
    by rewrite (no_prewrite_no_pending s i r Hs Hno Hi) in Hv. }
  split; [|split; [done|]; split; [done|]; split; [by cbn; rewrite Ht2, Ht1|]; split].
  - split; [by apply st_base_txns|]. split.
    + split; [intros i r Hi Hv; by destruct (Hnone i r)|intros i j r r' Hi _ Hv; by destruct (Hnone i r)|].
      unfold req_len. cbn. rewrite (kp_reqs _ _ Hk12). apply Hq.
    + intros i r Hi Hv. by destruct (Hnone i r).
  - change (row_bytes s2 (Some l) = row_val (db s2) (m_key (mv s))).
    by rewrite Hbytes, Hv2, (kp_key _ _ Hk1).
  - intros key. cbn. by rewrite Hv2, Hd1.
Qed.

Lemma shrinks_same (s s1 s' : mstate S) :
  shrinks s s1 -> write_history (mv s') = write_history (mv s1) -> rows s' = rows s1 -> shrinks s s'.
Proof.
  intros Hs Hh Hr. apply (shrinks_trans _ s1); [done|]. apply shrinks_history.
  - rewrite Hh. apply newest_kept_refl.
  - intros i e _ _. unfold row_bytes. by rewrite Hr.
Qed.

Lemma access_read_shrinks (tid : Z) (t : txn_state) (s s' : mstate S) (rc : RC) :
  st_wf s -> access_read tid t s = Ret (rc, s') -> shrinks s s'.
Proof.
  intros (Hb & [_ _ Hlen] & _). unfold access_read.
  destruct (ensure_latest_spec s Hb) as (s1 & l & He & _). pose proof (ensure_latest_shrinks s s1 Hb He) as Hs1.
  rewrite He. cbn [mbind res_bind].
  destruct (t_ts t <? oldest_wts (mv s)); [intros [= _ <-]; apply shrinks_refl|].
  destruct (latest_wts (mv s) <? t_ts t).
  - destruct (exists_prewrite (mv s) && (prewrite_ts (mv s) <? t_ts t)).
    + destruct (buffer_req_spec R_REQ tid (t_ts t) (mv s) Hlen) as (q & -> & _). cbn [mbind res_bind].
      intros [= _ <-]. by apply (shrinks_same s s); [apply shrinks_refl|..].
    + intros [= _ <-]. apply (shrinks_same s s1); [done| |done]. cbn. by destruct (_ <? _).
  - destruct (find_version _ _ _ _ _) as [i|].
    + destruct (write_history (mv s) !! i); [|done]. cbn [at_ mbind res_bind]. case_match; [|done].
      intros [= _ <-]. by apply (shrinks_same s s); [apply shrinks_refl|..].
    + intros [= _ <-]. by apply (shrinks_same s s1).
Qed.

Lemma access_prewrite_shrinks (tid min_ts : Z) (t : txn_state) (s s' : mstate S) (rc : RC) :
  st_wf s -> 0 < t_ts t < UINT64_MAX -> t_ts t <> latest_wts (mv s) ->
  access_prewrite tid min_ts t s = Ret (rc, s') -> shrinks s s'.
Proof.
  intros (Hb & [_ _ Hlen] & _) Hts Hnl. unfold access_prewrite.
  destruct (_ || _ || _) eqn:E; [intros [= _ <-]; apply shrinks_refl|].
  apply orb_false_iff in E as [E _]. apply orb_false_iff in E as [E1 E2].
  destruct (exists_prewrite (mv s)) eqn:Hex.
  - destruct (buffer_req_spec P_REQ tid (t_ts t) (mv s) Hlen) as (q & -> & _). cbn [mbind res_bind].
    intros [= _ <-]. by apply (shrinks_same s s); [apply shrinks_refl|..].
  - destruct (reserveRow_spec (t_ts t) min_ts s Hb Hex ltac:(lia) ltac:(lia)) as (l & s1 & -> & Hb1 & Hp1 & _ & _ & _ & _ & Hs1).
    cbn [mbind res_bind].
    destruct (copy_latest_spec s1 (t_ts t) l Hb1 Hp1) as (s2 & -> & _ & _ & _ & _ & _ & _ & _ & Hs2).
    cbn [mbind res_bind]. intros [= _ <-]. by apply (shrinks_same s s2); [apply (shrinks_trans _ s1)|..].
Qed.

(** What the end of a prewrite at [ts] does to the waiting transactions, when
    the committed value is then [v]: up to the next prewrite they are answered,
    later ones still wait, no other request appears, and a prewrite that is
    served then is the next one of those that waited. *)
Record wakes (ts : Z) (v : option bytes) (s s' : mstate S) : Prop := mk_wakes {
  wk_answered : forall i r, requests (mv s) !! i = Some r -> r_valid r = true ->
    if r_ts r <=? next_prewrite ts (requests (mv s)) then answered s' (r_txn r) v
    else requests (mv s') !! i = Some r;
  wk_len : length (requests (mv s')) = length (requests (mv s));
  wk_kept : forall i r, requests (mv s') !! i = Some r -> r_valid r = true ->
    requests (mv s) !! i = Some r;
  wk_next : exists_prewrite (mv s') = true ->
    prewrite_ts (mv s') = next_prewrite ts (requests (mv s))
    /\ exists i r, requests (mv s) !! i = Some r /\ r_valid r = true /\ r_ts r = prewrite_ts (mv s');
  wk_recorded : forall i r, requests (mv s) !! i = Some r -> r_valid r = true ->
    r_ts r <= next_prewrite ts (requests (mv s)) ->
    r_ts r <= max_served_rts (mv s') \/ (exists_prewrite (mv s') = true /\ prewrite_ts (mv s') = r_ts r);
}.

Lemma serving_wakes (ts : Z) (s s1 s' : mstate S) :
  requests (mv s1) = requests (mv s) ->
  (forall i r, requests (mv s) !! i = Some r -> r_valid r = true ->
     ts < r_ts r < UINT64_MAX /\ (r_type r = R_REQ \/ r_type r = P_REQ)) ->
  serving (next_prewrite ts (requests (mv s1))) s1 (req_len (mv s1)) s' ->
  wakes ts (row_val (db s1) (m_key (mv s1))) s s'.
Proof.
  intros Hq Hpend Hs. split; rewrite <- ?Hq.
  - intros i r Hi Hv. apply lookup_lt_Some in Hi as Hlt.
    destruct (Z.leb_spec (r_ts r) (next_prewrite ts (requests (mv s1)))).
    + by apply (sv_answered _ _ _ _ Hs i).
    + by apply (sv_kept _ _ _ _ Hs).
  - apply (sv_len _ _ _ _ Hs).
  - intros i r Hi Hv. apply (sv_kept _ _ _ _ Hs); [|done|done].
    rewrite <- (sv_len _ _ _ _ Hs). by apply (lookup_lt_Some _ _ r).
  - intros Hex. destruct (sv_prewrite _ _ _ _ Hs Hex) as (-> & i & r & _ & ? & ? & ?). eauto 10.
  - intros i r Hi Hv Hle. apply lookup_lt_Some in Hi as Hlt. rewrite Hq in Hi.
    destruct (Hpend i r Hi Hv) as [Hts [Hty|Hty]]; rewrite <- Hq in Hi; [left; by apply (sv_reads _ _ _ _ Hs i r)|right].
    destruct (next_prewrite_spec ts (requests (mv s1))) as (_ & Hmin & _).
    assert (r_ts r = next_prewrite ts (requests (mv s1))) as HN
      by (destruct (Hmin i r); [by split_and!; try lia|lia|lia]).
    destruct (exists_prewrite (mv s')) eqn:Hex.
    + destruct (sv_prewrite _ _ _ _ Hs Hex) as [-> _]. by rewrite HN.
    + by destruct (sv_no_prewrite _ _ _ _ Hs Hex i r Hlt Hi Hv).
Qed.

Lemma pending_after (s : mstate S) (ts : Z) : st_wf s -> prewrite_ts (mv s) = ts ->
  forall i r, requests (mv s) !! i = Some r -> r_valid r = true ->
    ts < r_ts r < UINT64_MAX /\ (r_type r = R_REQ \/ r_type r = P_REQ).
Proof. intros (_ & [Hp _ _] & _) <- i r Hi Hv. by destruct (Hp i r Hi Hv) as (_ & ? & ?). Qed.

(** A commit adds one version. *)
Lemma held_commit (s s1 : mstate S) (ts : Z) (l : rloc) (b : bytes) (e : WriteHisEntry) :
  st_base s -> exists_prewrite (mv s) = true -> write_history (mv s) !! prewrite_his_id (mv s) = Some e ->
  write_history (mv s1) = <[prewrite_his_id (mv s) := mkWrite true true ts (Some l)]> (write_history (mv s)) ->
  (r ← rows s1 !! l; Catalog.row_ r) = Some b ->
  (forall i e' l', write_history (mv s) !! i = Some e' -> w_row e' = Some l' -> rows s1 !! l' = rows s !! l') ->
  forall x v, held s1 x v <-> held s x v \/ (x = ts /\ v = Some b).
Proof.
  intros Hb Hex He Hh Hl Hkeep x v. destruct (wf_prewrite _ (st_mv _ Hb) Hex) as [(e' & He' & Hv & _) _].
  rewrite He in He'. injection He' as <-. apply lookup_lt_Some in He as Hlt.
  assert (forall i e', write_history (mv s) !! i = Some e' -> row_bytes s1 (w_row e') = row_bytes s (w_row e')) as Hsame.
  { intros i e' Hi. unfold row_bytes. destruct (w_row e') as [l'|] eqn:Er; [|done]. cbn. by rewrite (Hkeep i e'). }
  split.
  - intros (i & e' & Hi & Hve & <- & <-). rewrite Hh in Hi.
    apply list_lookup_insert_Some in Hi as [(_ & <- & _)|[_ Hi]]; [right; by split|].
    left. exists i, e'. by rewrite (Hsame i).
  - intros [(i & e' & Hi & Hve & <- & <-)|[-> ->]].
    + exists i, e'. rewrite Hh, (Hsame i e' Hi), list_lookup_insert_ne; [done|]. intros <-. congruence.
    + exists (prewrite_his_id (mv s)), (mkWrite true true ts (Some l)). rewrite Hh.
      by rewrite list_lookup_insert_eq.
Qed.

(** The state between the end of a prewrite and [update_buffer]. *)
Lemma end_prewrite_spec (ts min_ts : Z) (s s1 : mstate S) :
  st_wf s -> exists_prewrite (mv s) = true -> prewrite_ts (mv s) = ts ->
  st_base s1 -> exists_prewrite (mv s1) = false -> requests (mv s1) = requests (mv s) ->
  txns s1 = txns s -> latest_wts (mv s1) <= ts -> max_served_rts (mv s1) = max_served_rts (mv s) ->
  exists s', update_buffer ts min_ts s1 = Ret s'
    /\ serving (next_prewrite ts (requests (mv s1))) s1 (req_len (mv s1)) s' /\ st_wf s'
    /\ (exists_prewrite (mv s') = true -> ts < prewrite_ts (mv s')).
Proof.
  intros (Hb & [Hpend Hdist Hlen] & Hw) Hex Hpts Hb1 Hno Hq Ht Hlat Hserved.
  destruct (wf_prewrite _ (st_mv _ Hb) Hex) as (_ & Hts & Hmax).
  pose proof (wf_order _ (st_mv _ Hb)) as (Hord & _).
  apply update_buffer_spec; rewrite ?Hq; try done; try lia.
  - intros i r Hi Hv. destruct (Hpend i r Hi Hv) as (_ & ? & ?). rewrite <- Hpts. done.
  - unfold waiting_ok. by rewrite Hq, Ht.
  - unfold req_len in *. by rewrite Hq.
Qed.

Lemma write_spec (min_ts : Z) (t : txn_state) (l : rloc) (b : bytes) (s : mstate S) :
  st_wf s -> prewritten (mv s) (t_ts t) l -> row_bytes s (Some l) = Some b ->
  load_u64 b 0 = Ret (m_key (mv s)) ->
  exists s', access_write (Some l) min_ts t s = Ret (RCOK, s') /\ st_wf s'
    /\ latest_wts (mv s') = t_ts t /\ ordered (mv s) (mv s')
    /\ row_val (db s') (m_key (mv s)) = Some b
    /\ (forall key, key <> m_key (mv s) -> row_val (db s') key = row_val (db s) key)
    /\ wakes (t_ts t) (Some b) s s' /\ txns_kept s s'
    /\ (exists_prewrite (mv s') = true -> t_ts t < prewrite_ts (mv s'))
    /\ exists s1, shrinks s1 s' /\ forall ts v, held s1 ts v <-> held s ts v \/ (ts = t_ts t /\ v = Some b).
Proof.
  intros Hs Hp Hbytes Hkey. pose proof Hs as (Hb & _). pose proof Hb as [Hmv [Hsz Hpos] Hobjs Hrow [Hdb (v & Hv)] _].
  pose proof Hp as (Hex & Hpts & e & He & Hr). pose proof (wf_prewrite _ Hmv Hex) as [(e' & He' & _ & Hrv & _) [Hts Hmax]].
  pose proof (pending_after s (t_ts t) Hs Hpts) as Hpd.
  rewrite He in He'. injection He' as <-. rewrite Hpts in Hts, Hmax.
  destruct (Hobjs _ e l He Hr) as (b0 & r & Hl & -> & Hlen).
  unfold row_bytes in Hbytes. cbn in Hbytes. rewrite Hl in Hbytes. injection Hbytes as ->.
  unfold access_write, prewrite_entry. destruct (Z.ltb_spec (latest_wts (mv s)) (t_ts t)); [|lia].
  rewrite He. cbn [at_ mbind res_bind]. rewrite Hr, bool_decide_eq_true_2 by done.
  cbn [mbind res_bind deref]. unfold upd_mv, row_obj. cbn [rows db mv txns]. rewrite Hl, Hr, Hrv. cbn [mbind res_bind].
  destruct (write_row_spec (db s) (m_key (mv s)) v b Hdb Hv Hlen Hkey) as (d & -> & Hdb' & Hv' & Hother).
  cbn [mbind res_bind txns]. set (rows' := match m_row _ with Some _ => _ | None => _ end).
  set (s1 := mkState (commit_mv (t_ts t) l (mv s)) rows' (txns s) d).
  assert (forall i e' l', write_history (mv s) !! i = Some e' -> w_row e' = Some l' -> rows' !! l' = rows s !! l') as Hkeep.
  { intros i e' l' Hi Hr'. unfold rows'. cbn. destruct (m_row (mv s)) as [old|] eqn:Eo; [|done].
    rewrite lookup_delete_ne; [done|]. intros ->. by apply (wf_base_row _ Hmv i e' l' Hi Hr'). }
  assert (st_base s1) as Hb1.
  { split; cbn [s1 mv rows db]; [by apply commit_base|done| |done|eauto|].
    - intros i e' l' Hi Hr'. apply list_lookup_insert_Some in Hi as [(_ & <- & _)|[_ Hi]].
      + simpl in Hr'. injection Hr' as <-. exists b. eexists. rewrite (Hkeep _ e l He Hr). by split.
      + destruct (Hobjs i e' l' Hi Hr') as (b' & r' & ? & ?). exists b', r'. by rewrite (Hkeep i e').
    - intros l' v' [= <-]. cbn. rewrite Hv'. intros [= <-]. eexists. rewrite (Hkeep _ e l He Hr). by split. }
  destruct (end_prewrite_spec (t_ts t) min_ts s s1 Hs Hex Hpts Hb1) as (s' & Hub & Hsv & Hwf & Hrel); try done.
  assert (latest_wts (mv s1) = t_ts t /\ max_served_rts (mv s1) = max_served_rts (mv s)) as [Hl1 Hm1] by done.
  change (mkState _ rows' (txns s) d) with s1. rewrite Hub. cbn [mbind res_bind]. exists s'. split; [done|]. split; [done|].
  split; [apply (sv_latest _ _ _ _ Hsv)|]. pose proof (sv_served _ _ _ _ Hsv) as Hsvd. split.
  { split; [apply (sv_key _ _ _ _ Hsv)|]. split; [lia|]. right. rewrite (sv_latest _ _ _ _ Hsv). lia. }
  split; [by rewrite (sv_val _ _ _ _ Hsv)|].
  split; [intros key Hk; rewrite (sv_val _ _ _ _ Hsv); by apply Hother|].
  split; [rewrite <- Hv'; by apply (serving_wakes _ s s1); [|exact Hpd|]|]. split; [apply (sv_txns _ _ _ _ Hsv)|].
  split; [done|]. exists s1. split; [apply Hsv|]. apply (held_commit s s1 (t_ts t) l b e); try done.
  cbn [s1 rows]. rewrite (Hkeep _ e l He Hr). by rewrite Hl.
Qed.

(** Withdrawing a prewrite leaves the committed value alone. *)
Lemma abort_spec (min_ts : Z) (t : txn_state) (l : rloc) (s : mstate S) :
  st_wf s -> prewritten (mv s) (t_ts t) l ->
  exists s', access_abort (Some l) min_ts t s = Ret (RCOK, s') /\ st_wf s'
    /\ latest_wts (mv s') = latest_wts (mv s) /\ ordered (mv s) (mv s')
    /\ (forall key, row_val (db s') key = row_val (db s) key)
    /\ wakes (t_ts t) (row_val (db s) (m_key (mv s))) s s' /\ txns_kept s s'
    /\ (exists_prewrite (mv s') = true -> t_ts t < prewrite_ts (mv s')) /\ shrinks s s'.
Proof.
  intros Hs Hp. pose proof Hs as (Hb & _). pose proof Hb as [Hmv Hsz Hobjs Hrow Hdb Hlat].
  pose proof Hp as (Hex & Hpts & e & He & Hr). pose proof (wf_prewrite _ Hmv Hex) as [_ [Hts _]].
  pose proof (pending_after s (t_ts t) Hs Hpts) as Hpd.
  unfold access_abort, prewrite_entry. rewrite He. cbn [at_ mbind res_bind].
  rewrite Hr, bool_decide_eq_true_2 by done. cbn [mbind res_bind].
  set (s1 := upd_mv _ s). assert (mv s1 = abort_mv e (mv s)) as Hm1 by done.
  assert (st_base s1) as Hb1.
  { split; [rewrite Hm1; by apply abort_base|done| |done|done|done].
    intros i e' l' Hi Hr'. rewrite Hm1 in Hi. cbn in Hi.
    apply list_lookup_insert_Some in Hi as [(_ & <- & _)|[_ Hi]]; [by apply (Hobjs (prewrite_his_id (mv s)) e)|by apply (Hobjs i e')]. }
  destruct (end_prewrite_spec (t_ts t) min_ts s s1 Hs Hex Hpts Hb1) as (s' & Hub & Hsv & Hwf & Hrel); try done.
  { change (latest_wts (mv s1)) with (latest_wts (mv s)). lia. }
  assert (latest_wts (mv s1) = latest_wts (mv s) /\ max_served_rts (mv s1) = max_served_rts (mv s)) as [Hl1 Hx1] by done.
  rewrite Hub. cbn [mbind res_bind]. exists s'. split; [done|]. split; [done|].
  split; [apply (sv_latest _ _ _ _ Hsv)|]. pose proof (sv_served _ _ _ _ Hsv) as Hsvd. split.
  { split; [apply (sv_key _ _ _ _ Hsv)|]. split; [lia|]. left. apply (sv_latest _ _ _ _ Hsv). }
  split; [apply (sv_val _ _ _ _ Hsv)|].
  split; [by apply (serving_wakes _ s s1); [|exact Hpd|]|]. split; [apply (sv_txns _ _ _ _ Hsv)|]. split; [done|].
  apply (shrinks_trans _ s1); [|apply Hsv]. apply shrinks_history; [|done]. rewrite Hm1. cbn.
  destruct (wf_prewrite _ Hmv Hex) as [(e' & He' & Hv' & _) _]. rewrite He in He'. injection He' as <-. split.
  - intros i e' Hi Hv. apply list_lookup_insert_Some in Hi as [(_ & <- & _)|[_ Hi]]; [done|done].
  - intros i e' Hi Hv. left. rewrite list_lookup_insert_ne; [done|]. intros <-. congruence.
Qed.

(** ** Requests a transaction may make

    Timestamps are positive, below [UINT64_MAX] and not reused; a transaction
    that waits makes no request, and only the transaction of the served
    prewrite ends it, with the row object it was given and with the key still
    in its first field. *)
Definition legal (s : mstate S) (t : txn_state) (type : TsType) (row : option rloc) : Prop :=
  match type with
  | R_REQ => 0 < t_ts t < UINT64_MAX /\ not_pending s (t_ts t)
  | P_REQ => 0 < t_ts t < UINT64_MAX /\ not_pending s (t_ts t) /\ t_ts t <> latest_wts (mv s)
      /\ (exists_prewrite (mv s) = true -> t_ts t <> prewrite_ts (mv s))
  | W_REQ => exists l b, row = Some l /\ prewritten (mv s) (t_ts t) l
      /\ row_bytes s row = Some b /\ load_u64 b 0 = Ret (m_key (mv s))
  | XP_REQ => exists l, row = Some l /\ prewritten (mv s) (t_ts t) l
  end.

Lemma txns_kept_refl (s : mstate S) : txns_kept s s.
Proof. intros tid t Ht. by exists t. Qed.

Lemma txns_kept_insert (s s' : mstate S) (tid : Z) (t t' : txn_state) :
  txns s !! tid = Some t -> txns s' = <[tid := t']> (txns s) -> t_ts t' = t_ts t -> txns_kept s s'.
Proof.
  intros Ht Htx Heq k u Hu. rewrite Htx. destruct (decide (k = tid)) as [->|Hne].
  - exists t'. rewrite lookup_insert_eq. split; [done|congruence].
  - exists u. by rewrite lookup_insert_ne.
Qed.

Lemma access_read_ok (tid : Z) (t : txn_state) (s : mstate S) :
  st_wf s -> txns s !! tid = Some t -> legal s t R_REQ None ->
  exists rc s', access_read tid t s = Ret (rc, s') /\ st_wf s' /\ ordered (mv s) (mv s')
    /\ txns_kept s s' /\ forall key, row_val (db s') key = row_val (db s) key.
Proof.
  intros Hs Ht [Hts Hnp]. destruct (Z.ltb_spec (t_ts t) (oldest_wts (mv s))) as [Hold|Hold].
  { exists Abort, s. unfold access_read. destruct (Z.ltb_spec (t_ts t) (oldest_wts (mv s))); [|lia].
    split; [done|]. split; [done|]. split; [apply ordered_refl|]. split; [apply txns_kept_refl|done]. }
  destruct (Z.leb_spec (t_ts t) (latest_wts (mv s))) as [Hlat|Hlat].
  { destruct (read_old_spec tid t s Hs Ht) as (s' & l & -> & ? & ? & Htx & _ & Hv); [lia|].
    exists RCOK, s'. split; [done|]. split; [done|]. split; [by apply keeps_ordered|].
    split; [by apply (txns_kept_insert s s' tid t _ Ht Htx)|done]. }
  destruct (decide (exists_prewrite (mv s) = true /\ prewrite_ts (mv s) < t_ts t)) as [[Hex Hpt]|Hno].
  { destruct (wait_wf R_REQ tid t s Hs Hex ltac:(lia) Hnp Ht ltac:(auto)) as (q & i & Hb & _ & Hwf).
    eexists WAIT, _. unfold access_read.
    destruct (Z.ltb_spec (t_ts t) (oldest_wts (mv s))); [lia|].
    destruct (Z.ltb_spec (latest_wts (mv s)) (t_ts t)); [|lia].
    rewrite Hex. destruct (Z.ltb_spec (prewrite_ts (mv s)) (t_ts t)); [|lia]. cbn [andb].
    rewrite Hb. cbn [mbind res_bind]. split; [done|]. split; [done|]. split; [exact (ordered_requests q (mv s))|].
    split; [by eapply (txns_kept_insert s _ tid t)|done]. }
  destruct (read_latest_spec tid t s Hs Ht Hlat) as (s' & l & -> & ? & Hk & Hmax & Htx & _ & _ & Hv).
  { intros Hex. destruct (decide (prewrite_ts (mv s) < t_ts t)); [naive_solver|lia]. }
  exists RCOK, s'. split; [done|]. split; [done|]. destruct Hk as [Hk1 Hk2 Hk3 _ _ _]. cbn in *.
  split; [split; [done|]; split; [lia|]; by left|].
  split; [by apply (txns_kept_insert s s' tid t _ Ht Htx)|done].
Qed.

Lemma access_prewrite_ok (tid min_ts : Z) (t : txn_state) (s : mstate S) :
  st_wf s -> txns s !! tid = Some t -> legal s t P_REQ None ->
  exists rc s', access_prewrite tid min_ts t s = Ret (rc, s') /\ st_wf s' /\ ordered (mv s) (mv s')
    /\ txns_kept s s' /\ forall key, row_val (db s') key = row_val (db s) key.
Proof.
  intros Hs Ht (Hts & Hnp & Hnl & Hnpre).
  destruct ((t_ts t <? latest_wts (mv s)) || (t_ts t <? max_served_rts (mv s))
     || (exists_prewrite (mv s) && (t_ts t <? prewrite_ts (mv s)))) eqn:E.
  { exists Abort, s. unfold access_prewrite. rewrite E. split; [done|]. split; [done|].
    split; [apply ordered_refl|]. split; [apply txns_kept_refl|done]. }
  pose proof E as E'. apply orb_false_iff in E' as [E1 E3]. apply orb_false_iff in E1 as [E1 E2].
  destruct (exists_prewrite (mv s)) eqn:Hex.
  - specialize (Hnpre eq_refl). simpl in E3.
    destruct (wait_wf P_REQ tid t s Hs Hex ltac:(lia) Hnp Ht ltac:(auto)) as (q & i & Hb & _ & Hwf).
    eexists WAIT, _. unfold access_prewrite. rewrite Hex, E, Hb. cbn [mbind res_bind].
    split; [done|]. split; [done|]. split; [exact (ordered_requests q (mv s))|].
    split; [by eapply (txns_kept_insert s _ tid t)|done].
  - destruct (prewrite_spec tid min_ts t s Hs Ht Hex ltac:(lia) ltac:(lia)) as (s' & l & -> & ? & _ & Hk & Htx & _ & Hv).
    exists RCOK, s'. split; [done|]. split; [done|]. split; [by apply keeps_ordered|].
    split; [by apply (txns_kept_insert s s' tid t _ Ht Htx)|done].
Qed.

Lemma access_ok (tid min_ts : Z) (type : TsType) (row : option rloc) (t : txn_state) (s : mstate S) :
  st_wf s -> txns s !! tid = Some t -> legal s t type row ->
  exists rc s', access tid type row min_ts s = Ret (rc, s') /\ st_wf s' /\ ordered (mv s) (mv s')
    /\ txns_kept s s'
    /\ forall key, (type = W_REQ -> key <> m_key (mv s)) -> row_val (db s') key = row_val (db s) key.
Proof.
  intros Hs Ht Hleg. unfold access. rewrite Ht. cbn [at_ mbind res_bind]. destruct type; cbn in Hleg.
  - destruct (access_read_ok tid t s Hs Ht Hleg) as (rc & s' & ? & ? & ? & ? & ?). eauto 10.
  - destruct Hleg as (l & b & -> & Hp & Hb & Hk).
    destruct (write_spec min_ts t l b s Hs Hp Hb Hk) as (s' & ? & ? & _ & ? & _ & ? & _ & ? & _). eauto 10.
  - destruct (access_prewrite_ok tid min_ts t s Hs Ht Hleg) as (rc & s' & ? & ? & ? & ? & ?). eauto 10.
  - destruct Hleg as (l & -> & Hp). destruct (abort_spec min_ts t l s Hs Hp) as (s' & ? & ? & _ & ? & ? & _ & ? & _). eauto 10.
Qed.
End Access.
