(* ===== verification/MvccCorrect.v ===== *)
(** * db2: what a multi-version row guarantees, and where it does not

    The life of a row as a step relation over the requests of all threads, the
    guarantees that hold in every reachable state, and executions in which the
    row misbehaves although every call is one the threads make. *)

From S2P Require Import Prelude Config RowStore RowMvcc RowMvccInv RowMvccState RowMvccServe Mvcc.
From S2P Require Catalog.

(** ** The life of a row *)

Section Life.
Context {S : Type} `{RowStoreSpec S}.

Definition init_state (key : Z) (d : S) : mstate S := mkState (init_mvcc key row_size) ∅ ∅ d.

(** The writer of the served prewrite changes its row object in place; which
    bytes it writes is the business of the workload. *)
Definition modify (l : rloc) (b : bytes) (s : mstate S) : mstate S :=
  mkState (mv s) (<[l := Catalog.mkRowItem (m_key (mv s)) row_size (Some b) None None]> (rows s))
    (txns s) (db s).

(** A thread starts a transaction, makes a legal request, or changes the row
    object of its prewrite. *)
Inductive mvcc_step : mstate S -> mstate S -> Prop :=
  | step_begin (s : mstate S) (tid : Z) (t : txn_state) :
      (forall i r, requests (mv s) !! i = Some r -> r_valid r = true -> r_txn r <> tid) ->
      mvcc_step s (set_txn tid t s)
  | step_access (s s' : mstate S) (tid min_ts : Z) (t : txn_state) (type : TsType) (row : option rloc) (rc : RC) :
      txns s !! tid = Some t -> legal s t type row ->
      access tid type row min_ts s = Ret (rc, s') -> mvcc_step s s'
  | step_modify (s : mstate S) (ts : Z) (l : rloc) (b : bytes) :
      prewritten (mv s) ts l -> Z.of_nat (length b) = row_size -> mvcc_step s (modify l b s).

Lemma init_state_wf (key : Z) (d : S) (v : bytes) :
  rows_ok d -> row_val d key = Some v -> 8 <= row_size -> st_wf (init_state key d).
Proof.
  intros Hd Hv Hsz. destruct (init_mvcc_wf key row_size) as [Hb Hq].
  assert (forall i e, replicate 4 empty_entry !! i = Some e -> e = empty_entry) as Hw
    by (intros i e He; by apply lookup_replicate_1 in He as [-> _]).
  split; [|split; [done|]].
  - split; cbn -[replicate]; try done; [|by eauto].
    intros i e l Hi. by rewrite (Hw i e Hi).
  - intros i r Hi Hv'. cbn -[replicate] in Hi. apply lookup_replicate_1 in Hi as [-> _]. done.
Qed.

Lemma mvcc_step_wf (s s' : mstate S) :
  mvcc_step s s' -> st_wf s -> st_wf s' /\ ordered (mv s) (mv s').
Proof.
  intros [s1 tid t Hnp|s1 s2 tid min_ts t type row rc Ht Hleg Ha|s1 ts l b Hp Hlen] Hs.
  - destruct Hs as (Hb & Hq & Hw). split; [|apply ordered_refl].
    split; [by apply st_base_txns|]. split; [done|]. intros i r Hi Hv.
    destruct (Hw i r Hi Hv) as (t0 & Ht0 & Hts). exists t0. cbn. rewrite lookup_insert_ne; [done|].
    intros Heq. by apply (Hnp i r).
  - destruct (access_ok tid min_ts type row t s1 Hs Ht Hleg) as (rc' & s3 & Ha' & ? & ? & _).
    rewrite Ha in Ha'. by injection Ha' as _ ->.
  - split; [|apply ordered_refl]. apply (wf_keeps s1); try done. apply (st_base_write_obj s1 ts); [apply Hs|done|done].
Qed.

Lemma mvcc_steps_wf (s s' : mstate S) :
  rtc mvcc_step s s' -> st_wf s -> st_wf s' /\ ordered (mv s) (mv s').
Proof.
  induction 1 as [s|s1 s2 s3 H1 _ IH]; intros Hs; [split; [done|apply ordered_refl]|].
  destruct (mvcc_step_wf _ _ H1 Hs) as [Hs2 Ho]. destruct (IH Hs2) as [Hs3 Ho'].
  split; [done|]. by apply (ordered_trans _ (mv s2)).
Qed.

(** ** Guarantees *)

(** C3: In every state the threads can bring a row to, each request a
    transaction may make returns: no assertion of [access] and of the
    operations below it fails, no freed row object is used, and the bookkeeping
    stays sound (counts, disjoint row objects, at most one served prewrite,
    pending requests newer than it, the latest row equal to the stored value). *)
Theorem mvcc_access_safe (key : Z) (d : S) (v : bytes) (s : mstate S) (tid min_ts : Z) (t : txn_state)
    (type : TsType) (row : option rloc) :
  rows_ok d -> row_val d key = Some v -> 8 <= row_size -> rtc mvcc_step (init_state key d) s ->
  txns s !! tid = Some t -> legal s t type row ->
  exists rc s', access tid type row min_ts s = Ret (rc, s') /\ st_wf s'.
Proof.
  intros Hd Hv Hsz Hr Ht Hleg.
  destruct (mvcc_steps_wf _ _ Hr (init_state_wf key d v Hd Hv Hsz)) as [Hs _].
  destruct (access_ok tid min_ts type row t s Hs Ht Hleg) as (rc & s' & Ha & Hs' & _). eauto.
Qed.

(** C2: Timestamp order.  After a transaction has read the latest version, no
    write with a timestamp between that version and the reader ever commits. *)
Theorem mvcc_timestamp_order (s s1 s' : mstate S) (tid min_ts : Z) (t : txn_state) (row : option rloc) :
  st_wf s -> txns s !! tid = Some t -> legal s t R_REQ row ->
  latest_wts (mv s) < t_ts t ->
  access tid R_REQ row min_ts s = Ret (RCOK, s1) -> rtc mvcc_step s1 s' ->
  latest_wts (mv s') = latest_wts (mv s) \/ t_ts t <= latest_wts (mv s').
Proof.
  intros Hs Ht [Hts Hnp] Hlat Ha Hr. unfold access in Ha. rewrite Ht in Ha. cbn [at_ mbind res_bind] in Ha.
  assert (exists_prewrite (mv s) = true -> t_ts t <= prewrite_ts (mv s)) as Hpre.
  { intros Hex. destruct (Z.le_gt_cases (t_ts t) (prewrite_ts (mv s))) as [|Hlt]; [done|].
    destruct (wait_wf R_REQ tid t s Hs Hex ltac:(lia) Hnp Ht ltac:(auto)) as (q & i & Hb & _).
    pose proof (wf_order _ (st_mv _ (proj1 Hs))) as (Hord & _).
    unfold access_read in Ha. destruct (Z.ltb_spec (t_ts t) (oldest_wts (mv s))); [lia|].
    destruct (Z.ltb_spec (latest_wts (mv s)) (t_ts t)); [|lia].
    destruct (Z.ltb_spec (prewrite_ts (mv s)) (t_ts t)); [|lia]. rewrite Hex, Hb in Ha. discriminate Ha. }
  destruct (read_latest_spec tid t s Hs Ht Hlat Hpre) as (s2 & l & Ha2 & Hs2 & Hk & Hmax & _).
  rewrite Ha in Ha2. injection Ha2 as <-. destruct (mvcc_steps_wf _ _ Hr Hs2) as [_ (_ & _ & Hor)].
  pose proof (kp_latest _ _ Hk) as Hl. cbn in Hl. lia.
Qed.

(** A read newer than every version and not behind a prewrite is answered
    at once with the committed value of the row, and its timestamp is recorded. *)
Theorem mvcc_read_committed (s : mstate S) (tid min_ts : Z) (t : txn_state) (row : option rloc) :
  st_wf s -> txns s !! tid = Some t -> latest_wts (mv s) < t_ts t ->
  (exists_prewrite (mv s) = true -> t_ts t <= prewrite_ts (mv s)) ->
  exists s' t', access tid R_REQ row min_ts s = Ret (RCOK, s') /\ txns s' !! tid = Some t'
    /\ row_bytes s' (cur_row t') = row_val (db s) (m_key (mv s))
    /\ (forall k, row_val (db s') k = row_val (db s) k) /\ t_ts t <= max_served_rts (mv s').
Proof.
  intros Hs Ht Hlat Hpre.
  destruct (read_latest_spec tid t s Hs Ht Hlat Hpre) as (s' & l & Ha & _ & _ & Hmax & Ht' & _ & Hb & Hval).
  exists s'. eexists. unfold access. rewrite Ht. cbn [at_ mbind res_bind]. split; [done|].
  split; [by rewrite Ht', lookup_insert_eq|]. cbn [cur_row]. rewrite Hb, Hval. split; [done|]. split; [done|]. lia.
Qed.

Lemma read_version_spec (s : mstate S) (tid min_ts : Z) (t : txn_state) (row : option rloc)
    (j : nat) (e0 : WriteHisEntry) :
  st_wf s -> txns s !! tid = Some t -> oldest_wts (mv s) <= t_ts t <= latest_wts (mv s) ->
  latest_wts (mv s) < 2 ^ 32 ->
  write_history (mv s) !! j = Some e0 -> w_valid e0 = true -> w_ts e0 < t_ts t ->
  exists s' i e, access tid R_REQ row min_ts s = Ret (RCOK, s')
    /\ txns s' !! tid = Some (mkTxn (t_ts t) (w_row e) (ts_ready t))
    /\ write_history (mv s) !! i = Some e /\ w_valid e = true /\ w_ts e < t_ts t
    /\ (forall i' e', write_history (mv s) !! i' = Some e' -> w_valid e' = true ->
          w_ts e' < t_ts t -> w_ts e' <= w_ts e)
    /\ is_Some (row_bytes s' (w_row e)) /\ row_bytes s' (w_row e) = row_bytes s (w_row e).
Proof.
  intros Hs Ht Hts H32 Hj Hv0 Hlt0. pose proof (proj1 Hs) as Hb. pose proof (wf_order _ (st_mv _ Hb)) as (Ho & _).
  destruct (find_version_acc (t_ts t) (write_history (mv s)) 0 0 None) as [[_ Hnone]|(i & e & Hf & Hi & Hv & Hlt & Hmax)];
    [|lia|..].
  { intros k e Hk Hv. destruct (wf_valid _ (st_mv _ Hb) k e Hk Hv) as (_ & _ & ?). lia. }
  { specialize (Hnone j e0 Hj Hv0 Hlt0). destruct (wf_valid _ (st_mv _ Hb) j e0 Hj Hv0) as (_ & _ & ?). lia. }
  destruct (wf_valid _ (st_mv _ Hb) i e Hi Hv) as (_ & Hr & _). destruct (w_row e) as [l|] eqn:Er; [|done].
  unfold access. rewrite Ht. cbn [at_ mbind res_bind]. unfold access_read.
  destruct (Z.ltb_spec (t_ts t) (oldest_wts (mv s))); [lia|].
  destruct (Z.ltb_spec (latest_wts (mv s)) (t_ts t)); [lia|].
  rewrite Hf, Nat.add_0_l, Hi. cbn [at_ mbind res_bind]. rewrite Er, bool_decide_eq_true_2 by done.
  eexists _, i, e. split; [done|]. rewrite Er. split; [by cbn; rewrite lookup_insert_eq|].
  split; [done|]. split; [done|]. split; [lia|]. split; [done|].
  destruct (st_objs _ Hb i e l Hi Er) as (b & r & Hl & -> & _). unfold row_bytes. cbn. rewrite Hl. split; [by eexists|done].
Qed.

(** A read between the oldest and the latest write is given the newest
    version older than it, as long as the timestamps of the versions fit in 32
    bits and such a version exists. *)
Theorem mvcc_read_version (s : mstate S) (tid min_ts : Z) (t : txn_state) (row : option rloc)
    (j : nat) (e0 : WriteHisEntry) :
  st_wf s -> txns s !! tid = Some t -> oldest_wts (mv s) <= t_ts t <= latest_wts (mv s) ->
  latest_wts (mv s) < 2 ^ 32 ->
  write_history (mv s) !! j = Some e0 -> w_valid e0 = true -> w_ts e0 < t_ts t ->
  exists s' i e, access tid R_REQ row min_ts s = Ret (RCOK, s')
    /\ txns s' !! tid = Some (mkTxn (t_ts t) (w_row e) (ts_ready t))
    /\ write_history (mv s) !! i = Some e /\ w_valid e = true /\ w_ts e < t_ts t
    /\ (forall i' e', write_history (mv s) !! i' = Some e' -> w_valid e' = true ->
          w_ts e' < t_ts t -> w_ts e' <= w_ts e)
    /\ is_Some (row_bytes s' (w_row e)).
Proof.
  intros Hs Ht Hts H32 Hj Hv Hlt.
  destruct (read_version_spec s tid min_ts t row j e0 Hs Ht Hts H32 Hj Hv Hlt)
    as (s' & i & e & ? & ? & ? & ? & ? & ? & ? & _). by exists s', i, e.
Qed.

(** C17: A commit.  The bytes of the transaction's row object become the stored
    value of the row, no other row changes, the transaction's timestamp becomes
    the latest write, and of the waiting transactions exactly those up to the
    next pending prewrite are woken, each with a row object that holds the
    committed bytes. *)
Theorem mvcc_commit (s : mstate S) (tid min_ts : Z) (t : txn_state) (l : rloc) (b : bytes) :
  st_wf s -> txns s !! tid = Some t -> prewritten (mv s) (t_ts t) l ->
  row_bytes s (Some l) = Some b -> load_u64 b 0 = Ret (m_key (mv s)) ->
  exists s', access tid W_REQ (Some l) min_ts s = Ret (RCOK, s')
    /\ latest_wts (mv s') = t_ts t
    /\ row_val (db s') (m_key (mv s)) = Some b
    /\ (forall key, key <> m_key (mv s) -> row_val (db s') key = row_val (db s) key)
    /\ wakes (t_ts t) (Some b) s s'.
Proof.
  intros Hs Ht Hp Hb Hk. unfold access. rewrite Ht. cbn [at_ mbind res_bind].
  destruct (write_spec min_ts t l b s Hs Hp Hb Hk) as (s' & ? & _ & ? & _ & ? & ? & ? & _). eauto 10.
Qed.

(** A withdrawn prewrite.  The stored value and the latest write stay, and
    the transactions up to the next pending prewrite are woken with the value
    that was committed before. *)
Theorem mvcc_withdraw (s : mstate S) (tid min_ts : Z) (t : txn_state) (l : rloc) :
  st_wf s -> txns s !! tid = Some t -> prewritten (mv s) (t_ts t) l ->
  exists s', access tid XP_REQ (Some l) min_ts s = Ret (RCOK, s')
    /\ latest_wts (mv s') = latest_wts (mv s)
    /\ (forall key, row_val (db s') key = row_val (db s) key)
    /\ wakes (t_ts t) (row_val (db s) (m_key (mv s))) s s'.
Proof.
  intros Hs Ht Hp. unfold access. rewrite Ht. cbn [at_ mbind res_bind].
  destruct (abort_spec min_ts t l s Hs Hp) as (s' & ? & _ & ? & _ & ? & ? & _). eauto 10.
Qed.


(** The header of [row_mvcc.h] says that a request for a version that is
    gone aborts.  When no version older than the reader is held, the reader is
    instead given the latest version, which is newer than the reader. *)
Theorem mvcc_old_read_sees_newer (s : mstate S) (tid min_ts : Z) (t : txn_state) (row : option rloc) :
  st_wf s -> txns s !! tid = Some t -> oldest_wts (mv s) <= t_ts t < latest_wts (mv s) ->
  latest_wts (mv s) < 2 ^ 32 ->
  (forall i e, write_history (mv s) !! i = Some e -> w_valid e = true -> t_ts t <= w_ts e) ->
  exists s' t', access tid R_REQ row min_ts s = Ret (RCOK, s') /\ txns s' !! tid = Some t'
    /\ row_bytes s' (cur_row t') = row_val (db s) (m_key (mv s)) /\ t_ts t < latest_wts (mv s').
Proof.
  intros Hs Ht Hts H32 Hnew. pose proof (proj1 Hs) as Hb.
  pose proof (wf_order _ (st_mv _ Hb)) as (Ho & _).
  unfold access. rewrite Ht. cbn [at_ mbind res_bind]. unfold access_read.
  destruct (Z.ltb_spec (t_ts t) (oldest_wts (mv s))); [lia|].
  destruct (Z.ltb_spec (latest_wts (mv s)) (t_ts t)); [lia|].
  destruct (find_version_valid (t_ts t) (write_history (mv s)) 0 0 None) as [->|(k & e & _ & Hk & Hv & Hlt)];
    [|specialize (Hnew k e Hk Hv); lia].
  destruct (ensure_latest_spec s Hb) as (s1 & l & -> & Hb1 & Hl & _ & _ & _ & _ & Hk & Htx & Hval & _).
  cbn [mbind res_bind]. eexists _, _. split; [done|]. split; [by cbn; rewrite lookup_insert_eq|].
  cbn [cur_row]. split; [|cbn; rewrite (kp_latest _ _ Hk); lia].
  change (row_bytes s1 (latest_row (mv s1)) = row_val (db s) (m_key (mv s))).
  rewrite (row_bytes_latest s1 Hb1) by congruence. by rewrite Hval, (kp_key _ _ Hk).
Qed.
End Life.

(** ** A store to run the row on *)

Module MapStore.

(** Rows of 16 bytes in a map from keys. *)
Record t := mk { cells : gmap Z bytes }.

#[global] Instance store : RowStore t := {|
  read_row row d :=
    v ← at_ (cells d !! Catalog.key_ row);
    Ret (with_bytes v row, d);
  write_row row d :=
    b ← deref (Catalog.row_ row);
    Ret (mk (<[Catalog.key_ row := b]> (cells d)));
|}.

Definition ok (d : t) : Prop :=
  forall key v, cells d !! key = Some v -> Z.of_nat (length v) = 16 /\ load_u64 v 0 = Ret key.

#[global] Program Instance store_spec : RowStoreSpec t := {|
  row_size := 16;
  rows_ok := ok;
  row_val d key := cells d !! key;
|}.
Next Obligation. intros d key v Hd Hv. exact (Hd key v Hv). Qed.
Next Obligation. intros d key v junk Hd Hv _. exists d. cbn. by rewrite Hv. Qed.
Next Obligation.
  intros d key v v' Hd Hv Hlen Hk. eexists. split; [done|]. cbn. split; [|split].
  - intros key' w. cbn [cells]. rewrite lookup_insert_Some. intros [[<- <-]|[_ Hw]]; [done|by apply Hd].
  - by rewrite lookup_insert_eq.
  - intros key' Hne. by rewrite lookup_insert_ne.
Qed.

(** Row 7, and a transaction with timestamp [ts] in thread [tid]. *)
Definition d0 : t := mk {[ 7 := one_row ]}.
Definition s0 : mstate t := init_state 7 d0.
Definition start (tid ts : Z) (s : mstate t) : mstate t := set_txn tid (mkTxn ts None false) s.

(** Running a request; a write commits the row object the transaction holds. *)
Definition run (tid : Z) (type : TsType) (min_ts : Z) (s : mstate t) : mstate t :=
  match access tid type (txns s !! tid ≫= cur_row) min_ts s with Ret (_, s') => s' | _ => s end.

(** Overwriting the last eight bytes of the row object in hand. *)
Definition stamp (tid x : Z) (s : mstate t) : mstate t :=
  match txns s !! tid ≫= cur_row with
  | Some l => modify l (bytes_of_u64 7 ++ bytes_of_u64 x) s
  | None => s
  end.

(** A transaction that writes [ts] into the row and commits. *)
Definition write_txn (tid ts min_ts : Z) (s : mstate t) : mstate t :=
  run tid W_REQ min_ts (stamp tid ts (run tid P_REQ min_ts (start tid ts s))).

(** The value a thread sees through the row object it was given. *)
Definition seen (tid : Z) (s : mstate t) : option Z :=
  b ← row_bytes s (txns s !! tid ≫= cur_row);
  match load_u64 b 8 with Ret x => Some x | _ => None end.

Lemma d0_ok : ok d0 /\ row_val d0 7 = Some one_row /\ 8 <= row_size.
Proof.
  split; [|split; [done|cbn; lia]]. intros key v. unfold d0. cbn [cells].
  rewrite lookup_singleton_Some. intros [<- <-]. split; vm_compute; reflexivity.
Qed.

Lemma s0_wf : st_wf s0.
Proof. destruct d0_ok as (? & ? & ?). by apply (init_state_wf 7 d0 one_row). Qed.

Lemma not_pending_check (s : mstate t) (ts : Z) :
  forallb (fun r => negb (r_valid r && (r_ts r =? ts))) (requests (mv s)) = true -> not_pending s ts.
Proof.
  intros Hf i r Hi Hv Heq. rewrite forallb_forall in Hf.
  specialize (Hf r ltac:(apply list_elem_of_In; by eapply list_elem_of_lookup_2)).
  rewrite Hv, Heq, Z.eqb_refl in Hf. done.
Qed.

Lemma start_wf (tid ts : Z) (s : mstate t) :
  st_wf s -> forallb (fun r => negb (r_valid r && (r_txn r =? tid))) (requests (mv s)) = true ->
  st_wf (start tid ts s).
Proof.
  intros Hs Hf. apply (mvcc_step_wf s); [|done]. apply step_begin. intros i r Hi Hv Heq.
  rewrite forallb_forall in Hf.
  specialize (Hf r ltac:(apply list_elem_of_In; by eapply list_elem_of_lookup_2)).
  rewrite Hv, Heq, Z.eqb_refl in Hf. done.
Qed.

Lemma run_wf (tid min_ts : Z) (type : TsType) (x : txn_state) (s : mstate t) :
  st_wf s -> txns s !! tid = Some x -> legal s x type (cur_row x) -> st_wf (run tid type min_ts s).
Proof.
  intros Hs Hx Hl. destruct (access_ok tid min_ts type (cur_row x) x s Hs Hx Hl) as (rc & s' & Ha & Hs' & _).
  unfold run. rewrite Hx. cbn. by rewrite Ha.
Qed.

Lemma stamp_wf (tid x : Z) (u : txn_state) (l : rloc) (s : mstate t) :
  st_wf s -> txns s !! tid = Some u -> cur_row u = Some l -> prewritten (mv s) (t_ts u) l ->
  st_wf (stamp tid x s).
Proof.
  intros Hs Hu Hl Hp. unfold stamp. rewrite Hu. cbn. rewrite Hl.
  apply (mvcc_step_wf s); [|done]. by apply (step_modify s (t_ts u)).
Qed.

(** A prewrite at 5 that has not ended, its row object changed, and a reader at
    8 that waits for it. *)
Definition s_pre : mstate t := stamp 1 5 (run 1 P_REQ 0 (start 1 5 s0)).
Definition s_wait : mstate t := run 2 R_REQ 0 (start 2 8 s_pre).

Lemma s_pre_prewritten : prewritten (mv s_pre) 5 0.
Proof. split; [done|]. split; [done|]. eexists. split; vm_compute; reflexivity. Qed.

Lemma s_pre_wf : st_wf s_pre.
Proof.
  apply (stamp_wf 1 5 (mkTxn 5 (Some 0%nat) false) 0); [|done|done|apply s_pre_prewritten].
  apply (run_wf 1 0 P_REQ (mkTxn 5 None false)); [|done|].
  - apply start_wf; [apply s0_wf|done].
  - split; [done|]. split; [by apply not_pending_check|]. done.
Qed.

Lemma s_wait_wf : st_wf s_wait.
Proof.
  apply (run_wf 2 0 R_REQ (mkTxn 8 None false)); [|done|].
  - apply start_wf; [apply s_pre_wf|done].
  - split; [done|]. by apply not_pending_check.
Qed.

(** Two committed versions, 5 and 12. *)
Definition s_two : mstate t := write_txn 1 12 0 (run 1 W_REQ 0 s_pre).

Lemma s_two_wf : st_wf s_two.
Proof.
  assert (st_wf (run 1 W_REQ 0 s_pre)) as H1.
  { apply (run_wf 1 0 W_REQ (mkTxn 5 (Some 0%nat) false)); [apply s_pre_wf|done|].
    exists 0%nat. eexists. split; [done|]. split; [apply s_pre_prewritten|]. split; vm_compute; reflexivity. }
  set (s1 := start 1 12 (run 1 W_REQ 0 s_pre)).
  assert (st_wf s1) as H2 by (by apply start_wf).
  assert (st_wf (run 1 P_REQ 0 s1)) as H3.
  { apply (run_wf 1 0 P_REQ (mkTxn 12 None false)); [done|done|].
    split; [done|]. split; [by apply not_pending_check|]. split; [by vm_compute|]. intros Hx. vm_compute in Hx. done. }
  assert (prewritten (mv (run 1 P_REQ 0 s1)) 12 1) as H4.
  { split; [done|]. split; [done|]. eexists. split; vm_compute; reflexivity. }
  assert (st_wf (stamp 1 12 (run 1 P_REQ 0 s1))) as H5 by (by apply (stamp_wf 1 12 (mkTxn 12 (Some 1%nat) false) 1)).
  apply (run_wf 1 0 W_REQ (mkTxn 12 (Some 1%nat) false)); [done|vm_compute; reflexivity|].
  exists 1%nat. eexists. split; [done|]. split; [done|]. split; vm_compute; reflexivity.
Qed.
End MapStore.

(** ** Where the row misbehaves *)

(** The scan keeps the best timestamp so far in 32 bits.  With versions
    10, 2^32+5 and 2^32+20, a reader at 2^32+10 is given version 10 instead of
    2^32+5. *)
Theorem mvcc_read_truncated :
  MapStore.seen 2 (MapStore.run 2 R_REQ 0 (MapStore.start 2 (2 ^ 32 + 10)
    (MapStore.write_txn 1 (2 ^ 32 + 20) 0 (MapStore.write_txn 1 (2 ^ 32 + 5) 0
       (MapStore.write_txn 1 10 0 MapStore.s0))))) = Some 10.
Proof. vm_compute. reflexivity. Qed.

(** A reader of the row as loaded holds the row object [row_]; the first
    commit deletes that object while the reader still points to it. *)
Theorem mvcc_reader_dangles :
  let s := MapStore.run 2 R_REQ 0 (MapStore.start 2 5 MapStore.s0) in
  is_Some (MapStore.seen 2 s) /\ MapStore.seen 2 (MapStore.write_txn 1 9 0 s) = None.
Proof. cbv zeta. split; [eexists; vm_compute; reflexivity|vm_compute; reflexivity]. Qed.

(** Garbage collection recycles the newest version below the smallest
    active timestamp, which is the version the oldest active transaction reads.
    Here versions 1 to 4 fill the history, transaction 10 reads version 4, and
    the prewrite of transaction 20, with 10 the smallest active timestamp, is
    given the very row object the reader holds: what 20 writes before it commits
    shows through to 10. *)
Theorem mvcc_dirty_read :
  let s := MapStore.write_txn 1 4 0 (MapStore.write_txn 1 3 0
             (MapStore.write_txn 1 2 0 (MapStore.write_txn 1 1 0 MapStore.s0))) in
  let s := MapStore.run 2 R_REQ 0 (MapStore.start 2 10 s) in
  let s' := MapStore.stamp 1 20 (MapStore.run 1 P_REQ 10 (MapStore.start 1 20 s)) in
  MapStore.seen 2 s = Some 4 /\ MapStore.seen 2 s' = Some 20
  /\ row_val (db s') 7 = Some (bytes_of_u64 7 ++ bytes_of_u64 4).
Proof. cbv zeta. split; [|split]; vm_compute; reflexivity. Qed.

(** ** Applications *)

Lemma mvcc_access_safe_witness :
  exists rc s', access 1 R_REQ None 0 (MapStore.start 1 5 MapStore.s0) = Ret (rc, s') /\ st_wf s'.
Proof.
  destruct MapStore.d0_ok as (Hok & Hv & Hsz).
  apply (mvcc_access_safe 7 MapStore.d0 one_row (MapStore.start 1 5 MapStore.s0) 1 0 (mkTxn 5 None false)).
  - exact Hok.
  - exact Hv.
  - exact Hsz.
  - apply rtc_once. apply step_begin. intros i r Hi Hr. apply lookup_replicate_1 in Hi as [-> _]. done.
  - reflexivity.
  - split; [done|]. by apply MapStore.not_pending_check.
Defined.

Lemma mvcc_timestamp_order_witness :
  let s := MapStore.start 1 5 MapStore.s0 in
  let s1 := MapStore.run 1 R_REQ 0 s in
  latest_wts (mv s1) = latest_wts (mv s) \/ 5 <= latest_wts (mv s1).
Proof.
  cbv zeta.
  apply (mvcc_timestamp_order (MapStore.start 1 5 MapStore.s0) (MapStore.run 1 R_REQ 0 (MapStore.start 1 5 MapStore.s0))
    (MapStore.run 1 R_REQ 0 (MapStore.start 1 5 MapStore.s0)) 1 0 (mkTxn 5 None false) None).
  - apply MapStore.start_wf; [apply MapStore.s0_wf|reflexivity].
  - reflexivity.
  - split; [done|]. by apply MapStore.not_pending_check.
  - reflexivity.
  - vm_compute. reflexivity.
  - apply rtc_refl.
Defined.

Lemma mvcc_read_committed_witness :
  exists s' t', access 2 R_REQ None 0 (MapStore.start 2 4 MapStore.s_pre) = Ret (RCOK, s')
    /\ txns s' !! 2 = Some t' /\ row_bytes s' (cur_row t') = row_val (db (MapStore.start 2 4 MapStore.s_pre)) 7
    /\ (forall k, row_val (db s') k = row_val (db (MapStore.start 2 4 MapStore.s_pre)) k)
    /\ 4 <= max_served_rts (mv s').
Proof.
  apply (mvcc_read_committed (MapStore.start 2 4 MapStore.s_pre) 2 0 (mkTxn 4 None false) None).
  - apply MapStore.start_wf; [apply MapStore.s_pre_wf|reflexivity].
  - reflexivity.
  - reflexivity.
  - intros _. vm_compute. discriminate.
Defined.

Lemma mvcc_read_version_witness :
  let s := MapStore.start 2 8 MapStore.s_two in
  exists s' i e, access 2 R_REQ None 0 s = Ret (RCOK, s')
    /\ txns s' !! 2 = Some (mkTxn 8 (w_row e) false)
    /\ write_history (mv s) !! i = Some e /\ w_valid e = true /\ w_ts e < 8
    /\ (forall i' e', write_history (mv s) !! i' = Some e' -> w_valid e' = true ->
          w_ts e' < 8 -> w_ts e' <= w_ts e)
    /\ is_Some (row_bytes s' (w_row e)).
Proof.
  apply (mvcc_read_version (MapStore.start 2 8 MapStore.s_two) 2 0 (mkTxn 8 None false) None 3
    (mkWrite true true 5 (Some 0%nat))).
  - apply MapStore.start_wf; [apply MapStore.s_two_wf|reflexivity].
  - reflexivity.
  - vm_compute. split; discriminate.
  - vm_compute. reflexivity.
  - vm_compute. reflexivity.
  - reflexivity.
  - reflexivity.
Defined.

Lemma mvcc_commit_witness :
  exists s', access 1 W_REQ (Some 0%nat) 0 MapStore.s_wait = Ret (RCOK, s')
    /\ latest_wts (mv s') = 5
    /\ row_val (db s') 7 = Some (bytes_of_u64 7 ++ bytes_of_u64 5)
    /\ (forall key, key <> 7 -> row_val (db s') key = row_val (db MapStore.s_wait) key)
    /\ wakes 5 (Some (bytes_of_u64 7 ++ bytes_of_u64 5)) MapStore.s_wait s'.
Proof.
  apply (mvcc_commit MapStore.s_wait 1 0 (mkTxn 5 (Some 0%nat) false) 0).
  - apply MapStore.s_wait_wf.
  - reflexivity.
  - split; [reflexivity|]. split; [reflexivity|]. eexists. split; vm_compute; reflexivity.
  - vm_compute. reflexivity.
  - vm_compute. reflexivity.
Defined.

Lemma mvcc_withdraw_witness :
  exists s', access 1 XP_REQ (Some 0%nat) 0 MapStore.s_wait = Ret (RCOK, s')
    /\ latest_wts (mv s') = latest_wts (mv MapStore.s_wait)
    /\ (forall key, row_val (db s') key = row_val (db MapStore.s_wait) key)
    /\ wakes 5 (row_val (db MapStore.s_wait) 7) MapStore.s_wait s'.
Proof.
  apply (mvcc_withdraw MapStore.s_wait 1 0 (mkTxn 5 (Some 0%nat) false) 0).
  - apply MapStore.s_wait_wf.
  - reflexivity.
  - split; [reflexivity|]. split; [reflexivity|]. eexists. split; vm_compute; reflexivity.
Defined.


Lemma mvcc_old_read_sees_newer_witness :
  let s := MapStore.start 2 3 MapStore.s_two in
  exists s' t', access 2 R_REQ None 0 s = Ret (RCOK, s') /\ txns s' !! 2 = Some t'
    /\ row_bytes s' (cur_row t') = row_val (db s) 7 /\ 3 < latest_wts (mv s').
Proof.
  apply (mvcc_old_read_sees_newer (MapStore.start 2 3 MapStore.s_two) 2 0 (mkTxn 3 None false) None).
  - apply MapStore.start_wf; [apply MapStore.s_two_wf|reflexivity].
  - reflexivity.
  - vm_compute. split; [discriminate|reflexivity].
  - vm_compute. reflexivity.
  - intros i e Hi. vm_compute in Hi. do 4 (destruct i as [|i]; [injection Hi as <-; cbn; done|]). done.
Defined.
