(* ===== verification/MvccLive.v ===== *)
(** * db2: no transaction waits for ever on a row

    When the transactions whose prewrites are served end them, by a commit or by
    a withdrawal, every request that waits on the row is answered. *)

From S2P Require Import Prelude Config RowStore RowMvcc RowMvccInv RowMvccState RowMvccServe Mvcc MvccCorrect.

(** ** Counting the requests that wait *)

Definition waiters (q : list ReqEntry) : nat := length (filter (fun r => r_valid r = true) q).

Lemma waiters_le (q q' : list ReqEntry) :
  length q' = length q ->
  (forall i r, q' !! i = Some r -> r_valid r = true -> q !! i = Some r) ->
  (waiters q' <= waiters q)%nat
  /\ ((exists i r, q !! i = Some r /\ r_valid r = true /\ q' !! i <> Some r) ->
      (waiters q' < waiters q)%nat).
Proof.
  unfold waiters. revert q'. induction q as [|r q IH]; intros [|r' q'] Hlen Hk; try done.
  { split; [done|]. by intros (i & r & Hi & _). }
  destruct (IH q' ltac:(simpl in Hlen; lia) (fun i => Hk (S i))) as [Hle Hlt].
  pose proof (Hk 0%nat r' eq_refl) as Hr. cbn in Hr. rewrite !filter_cons.
  split.
  - repeat case_decide; cbn [length]; try lia. specialize (Hr ltac:(done)). congruence.
  - intros (i & e & Hi & Hv & Hne). destruct i as [|i]; cbn in Hi, Hne.
    + injection Hi as ->. repeat case_decide; cbn [length]; try lia; naive_solver.
    + assert (length (filter (fun r => r_valid r = true) q') < length (filter (fun r => r_valid r = true) q))%nat
        by (apply Hlt; eauto).
      repeat case_decide; cbn [length]; try lia. specialize (Hr ltac:(done)). congruence.
Qed.

Section Live.
Context {S : Type} `{RowStoreSpec S}.

(** The transaction of the served prewrite ends it. *)
Inductive ends : mstate S -> mstate S -> Prop :=
  | ends_commit (s s' : mstate S) (tid min_ts : Z) (t : txn_state) (row : option rloc) (rc : RC) :
      txns s !! tid = Some t -> legal s t W_REQ row ->
      access tid W_REQ row min_ts s = Ret (rc, s') -> ends s s'
  | ends_withdraw (s s' : mstate S) (tid min_ts : Z) (t : txn_state) (row : option rloc) (rc : RC) :
      txns s !! tid = Some t -> legal s t XP_REQ row ->
      access tid XP_REQ row min_ts s = Ret (rc, s') -> ends s s'.

(** The served prewrite belongs to a transaction. *)
Definition owned (s : mstate S) : Prop :=
  exists_prewrite (mv s) = true -> exists tid t, txns s !! tid = Some t /\ t_ts t = prewrite_ts (mv s).

(** The committed value of the row. *)
Definition committed (s : mstate S) : option bytes := row_val (db s) (m_key (mv s)).

Lemma ends_wakes (s s' : mstate S) : st_wf s -> ends s s' ->
  st_wf s' /\ txns_kept s s' /\ wakes (prewrite_ts (mv s)) (committed s') s s'.
Proof.
  intros Hs He. destruct He as [s s' tid min_ts t row rc Ht Hl Ha|s s' tid min_ts t row rc Ht Hl Ha];
    unfold access in Ha; rewrite Ht in Ha; cbn [at_ mbind res_bind] in Ha; cbn in Hl.
  - destruct Hl as (l & b & -> & Hp & Hb & Hk). pose proof Hp as (_ & -> & _).
    destruct (write_spec min_ts t l b s Hs Hp Hb Hk) as (s1 & Ha1 & Hwf & _ & (Hkey & _) & Hv & _ & Hw & Hkept & _).
    rewrite Ha in Ha1. injection Ha1 as _ <-. unfold committed. by rewrite Hkey, Hv.
  - destruct Hl as (l & -> & Hp). pose proof Hp as (_ & -> & _).
    destruct (abort_spec min_ts t l s Hs Hp) as (s1 & Ha1 & Hwf & _ & (Hkey & _) & Hv & Hw & Hkept & _).
    rewrite Ha in Ha1. injection Ha1 as _ <-. unfold committed. by rewrite Hkey, Hv.
Qed.

Lemma ends_served (s s' : mstate S) : ends s s' -> exists_prewrite (mv s) = true.
Proof.
  intros [? ? ? ? ? ? ? _ (l & b & _ & Hp & _) _|? ? ? ? ? ? ? _ (l & _ & Hp) _]; apply Hp.
Qed.

(** A served prewrite and the requests behind it. *)
Definition load (s : mstate S) : nat :=
  ((if exists_prewrite (mv s) then 1 else 0) + waiters (requests (mv s)))%nat.

Lemma ends_load (s s' : mstate S) : st_wf s -> ends s s' ->
  (load s' < load s)%nat /\ owned s'.
Proof.
  intros Hs He. destruct (ends_wakes s s' Hs He) as (Hs' & Hkept & [Hans Hlen Hk Hnext]).
  unfold load. rewrite (ends_served s s' He).
  destruct (waiters_le _ _ Hlen Hk) as [Hle Hlt]. unfold owned.
  destruct (exists_prewrite (mv s')) eqn:Hex; [|split; [lia|done]].
  destruct (Hnext eq_refl) as (HN & i & r & Hi & Hv & Hts). split.
  - enough (waiters (requests (mv s')) < waiters (requests (mv s)))%nat by lia. apply Hlt.
    exists i, r. split; [done|]. split; [done|]. intros Hi'.
    destruct Hs' as (_ & [Hpend _ _] & _). destruct (Hpend i r Hi' Hv) as (_ & ? & _). lia.
  - intros _. destruct Hs as (_ & _ & Hw). destruct (Hw i r Hi Hv) as (t & Ht & Htts).
    destruct (Hkept _ _ Ht) as (t' & Ht' & Htts'). exists (r_txn r), t'. split; [done|congruence].
Qed.

(** Someone can always end a served prewrite. *)
Lemma owned_ends (s : mstate S) : st_wf s -> owned s -> exists_prewrite (mv s) = true -> exists s', ends s s'.
Proof.
  intros Hs Ho Hex. destruct (Ho Hex) as (tid & t & Ht & Hts).
  destruct (wf_prewrite _ (st_mv _ (proj1 Hs)) Hex) as ((e & He & _ & _ & _ & Hr) & _).
  assert (exists l, prewritten (mv s) (t_ts t) l) as [l Hp].
  { destruct (w_row e) as [l|] eqn:El; [|done]. exists l. split; [done|]. split; [congruence|]. by exists e. }
  destruct (access_ok tid 0 XP_REQ (Some l) t s Hs Ht) as (rc & s' & Ha & _); [by exists l|].
  exists s'. by eapply ends_withdraw; [|exists l|].
Qed.

(** C11: No request waits for ever.  The transactions whose prewrites are served
    end them, each by a commit or by a withdrawal.  Every such run is finite: it
    has at most one step more than there are requests waiting.  A run can stop
    only when no prewrite is left, and then every request that waited at its
    start has been answered on the way, with the value committed at that time. *)
Theorem mvcc_waiters_served (s : mstate S) : st_wf s -> owned s ->
  (forall n s', nsteps ends n s s' -> (n <= 1 + waiters (requests (mv s)))%nat)
  /\ (forall s', rtc ends s s' -> (exists s'', ends s' s'')
      \/ exists_prewrite (mv s') = false
         /\ forall i r, requests (mv s) !! i = Some r -> r_valid r = true ->
            exists s1, rtc ends s s1 /\ rtc ends s1 s' /\ answered s1 (r_txn r) (committed s1)).
Proof.
  intros Hs Ho. split.
  - intros n s' Hn. enough (n <= load s)%nat by (unfold load in *; destruct (exists_prewrite (mv s)); lia).
    clear Ho. induction Hn as [s|n s s1 s' He _ IH]; [lia|].
    destruct (ends_wakes s s1 Hs He) as (Hs1 & _). destruct (ends_load s s1 Hs He) as [Hlt _].
    specialize (IH Hs1). lia.
  - intros s' Hr. induction Hr as [s|s s1 s' He Hr IH].
    { destruct (exists_prewrite (mv s)) eqn:Hex; [left; by apply owned_ends|right]. split; [done|].
      intros i r Hi Hv. destruct Hs as (_ & [Hp _ _] & _). destruct (Hp i r Hi Hv) as (? & _). congruence. }
    destruct (ends_wakes s s1 Hs He) as (Hs1 & _ & Hw). destruct (ends_load s s1 Hs He) as [_ Ho1].
    destruct (IH Hs1 Ho1) as [?|[Hno Hall]]; [by left|right]. split; [done|]. intros i r Hi Hv.
    pose proof (wk_answered _ _ _ _ Hw i r Hi Hv) as Hc. destruct (r_ts r <=? _).
    + exists s1. split; [by apply rtc_once|done].
    + destruct (Hall i r Hc Hv) as (s2 & ? & ? & ?). exists s2. split; [by eapply rtc_l|done].
Qed.
End Live.

(** Transaction 8 waits behind the prewrite of transaction 5. *)
Lemma mvcc_waiters_served_witness :
  waiters (requests (mv MapStore.s_wait)) = 1%nat
  /\ forall n s', nsteps ends n MapStore.s_wait s' -> (n <= 2)%nat.
Proof.
  split; [vm_compute; reflexivity|].
  apply (mvcc_waiters_served MapStore.s_wait MapStore.s_wait_wf).
  intros _. eexists 1, _. split; [vm_compute; reflexivity|]. vm_compute. reflexivity.
Defined.
