(* ===== verification/MvccSerial.v ===== *)
(** * db2: a multi-version row is serializable in timestamp order

    The life of a row with a record of what was committed and what was read.
    Every read that stands is given the value of the newest commit below the
    reader's timestamp, whatever commits before or after it. *)

From Stdlib Require Import Sorting.Sorted.
From S2P Require Import Prelude Config Serial RowStore RowMvcc RowMvccInv RowMvccState RowMvccServe Mvcc MvccCorrect.

#[global] Instance ReqEntry_eq_dec : EqDecision ReqEntry.
Proof. solve_decision. Defined.

Section Serial.
Context {S : Type} `{RowStoreSpec S}.

(** What the requests answered between [s] and [s'] are given. *)
Definition woken (s s' : mstate S) : list (Z * option bytes) :=
  omap (fun i =>
    r ← requests (mv s) !! i;
    if r_valid r && negb (bool_decide (requests (mv s') !! i = Some r))
    then Some (r_ts r, row_bytes s' (txns s' !! r_txn r ≫= cur_row)) else None)
    (seq 0 (req_len (mv s))).

(** The read at [ts] is aborted, or the version it needs is still there and
    the timestamps of the versions fit into 32 bits. *)
Definition version_there (s : mstate S) (ts : Z) : Prop :=
  latest_wts (mv s) < ts \/ ts < oldest_wts (mv s)
  \/ (latest_wts (mv s) < 2 ^ 32 /\ exists w v, held s w v /\ w < ts).

(** The requests to a row with their record.  A transaction reads a row by a
    read or by a prewrite, which copies it; the reads of a transaction that
    withdraws are taken back. *)
Inductive row_step : mstate S * hist -> mstate S * hist -> Prop :=
  | rs_modify (s : mstate S) (h : hist) (ts : Z) (l : rloc) (b : bytes) :
      prewritten (mv s) ts l -> Z.of_nat (length b) = row_size -> row_step (s, h) (modify l b s, h)
  | rs_read (s s' : mstate S) (h : hist) (tid min_ts : Z) (t t' : txn_state) (row : option rloc)
      (type : TsType) (rc : RC) :
      txns s !! tid = Some t -> (type = R_REQ /\ version_there s (t_ts t)) \/ type = P_REQ ->
      legal s t type row -> access tid type row min_ts s = Ret (rc, s') -> txns s' !! tid = Some t' ->
      row_step (s, h) (s', mkHist (commits h)
        (if bool_decide (rc = RCOK) then (t_ts t, row_bytes s' (cur_row t')) :: reads h else reads h))
  | rs_commit (s s' : mstate S) (h : hist) (tid min_ts : Z) (t : txn_state) (row : option rloc) (rc : RC) :
      txns s !! tid = Some t -> legal s t W_REQ row -> access tid W_REQ row min_ts s = Ret (rc, s') ->
      row_step (s, h) (s', mkHist ((t_ts t, row_bytes s row) :: commits h) (woken s s' ++ reads h))
  | rs_withdraw (s s' : mstate S) (h : hist) (tid min_ts : Z) (t : txn_state) (row : option rloc) (rc : RC) :
      txns s !! tid = Some t -> legal s t XP_REQ row -> access tid XP_REQ row min_ts s = Ret (rc, s') ->
      row_step (s, h) (s', mkHist (commits h)
        (woken s s' ++ filter (fun r => r.1 <> t_ts t) (reads h))).

(** The life of a row: requests, and transactions that begin. *)
Inductive hist_step : mstate S * hist -> mstate S * hist -> Prop :=
  | hs_begin (s : mstate S) (h : hist) (tid : Z) (t : txn_state) :
      (forall i r, requests (mv s) !! i = Some r -> r_valid r = true -> r_txn r <> tid) ->
      hist_step (s, h) (set_txn tid t s, h)
  | hs_row (p p' : mstate S * hist) : row_step p p' -> hist_step p p'.

(** ** The invariant *)

(** A read that stands is not above what later commits have to respect. *)
Definition recorded (m : Row_mvcc) (ts : Z) : Prop :=
  ts <= max_served_rts m \/ ts <= latest_wts m \/ (exists_prewrite m = true /\ ts = prewrite_ts m).

Record faithful (v0 : option bytes) (s : mstate S) (h : hist) : Prop := mk_faithful {
  fa_wf : st_wf s;
  fa_sorted : newest_first (commits h);
  fa_latest : Forall (fun c => c.1 <= latest_wts (mv s)) (commits h);
  fa_value : row_val (db s) (m_key (mv s)) = value_at v0 (latest_wts (mv s) + 1) (commits h);
  fa_held : forall w x, held s w x -> (w, x) ∈ commits h;
  fa_suffix : forall w x c y, held s w x -> (c, y) ∈ commits h -> w <= c -> held s c y;
  fa_reads : Forall (fun r => r.2 = value_at v0 r.1 (commits h) /\ recorded (mv s) r.1) (reads h);
}.

(** The value of the row seen from above the latest commit. *)
Lemma faithful_above (v0 : option bytes) (s : mstate S) (h : hist) (ts : Z) :
  faithful v0 s h -> latest_wts (mv s) < ts ->
  value_at v0 ts (commits h) = row_val (db s) (m_key (mv s)).
Proof.
  intros Hf Hts. rewrite (fa_value _ _ _ Hf). apply value_at_above.
  eapply list.Forall_impl; [apply (fa_latest _ _ _ Hf)|]. intros c Hc. cbn in Hc. lia.
Qed.

(** Dropping old versions keeps the held ones the newest ones. *)
Lemma shrinks_held (s s' : mstate S) (cs : list (Z * option bytes)) :
  shrinks s s' ->
  (forall w x, held s w x -> (w, x) ∈ cs) ->
  (forall w x c y, held s w x -> (c, y) ∈ cs -> w <= c -> held s c y) ->
  (forall w x, held s' w x -> (w, x) ∈ cs)
  /\ (forall w x c y, held s' w x -> (c, y) ∈ cs -> w <= c -> held s' c y).
Proof.
  intros [Hsub Hdrop] Hh Hsuf. split; [auto|]. intros w x c y Hw Hc Hle.
  assert (held s c y) as Hcy by (apply (Hsuf w x); auto).
  destruct (Hdrop c y Hcy) as [?|Hlt]; [done|]. specialize (Hlt w x Hw). lia.
Qed.

(** The steps that commit nothing. *)
Lemma faithful_quiet (v0 : option bytes) (s s' : mstate S) (h : hist) (rs : list (Z * option bytes)) :
  faithful v0 s h -> st_wf s' -> shrinks s s' -> m_key (mv s') = m_key (mv s) ->
  latest_wts (mv s') = latest_wts (mv s) ->
  (forall key, row_val (db s') key = row_val (db s) key) ->
  Forall (fun r => r.2 = value_at v0 r.1 (commits h) /\ recorded (mv s') r.1) rs ->
  faithful v0 s' (mkHist (commits h) rs).
Proof.
  intros Hf Hwf Hsh Hk Hl Hv Hr.
  destruct (shrinks_held s s' (commits h) Hsh (fa_held _ _ _ Hf) (fa_suffix _ _ _ Hf)) as [Hh Hsuf].
  split; cbn [commits reads]; try done; [apply Hf|rewrite Hl; apply Hf|].
  rewrite Hv, Hk, Hl. apply Hf.
Qed.

Lemma prewritten_not_held (s : mstate S) (ts : Z) (l : rloc) (i : nat) (e : WriteHisEntry) :
  st_base s -> prewritten (mv s) ts l -> write_history (mv s) !! i = Some e -> w_valid e = true ->
  w_row e <> Some l.
Proof.
  intros Hs (Hx & _ & e2 & He2 & Hr2) Hi Hv Hl.
  assert (i = prewrite_his_id (mv s)) as -> by (by apply (wf_rows _ (st_mv _ Hs) i _ e e2 l)).
  destruct (wf_prewrite _ (st_mv _ Hs) Hx) as [(e3 & He3 & Hv3 & _) _]. congruence.
Qed.

Lemma modify_shrinks (s : mstate S) (ts : Z) (l : rloc) (b : bytes) :
  st_base s -> prewritten (mv s) ts l -> shrinks s (modify l b s).
Proof.
  intros Hs Hp. apply shrinks_history; [apply newest_kept_refl|]. intros i e Hi Hv.
  apply (row_bytes_objs s _ i e Hs Hi). intros l' Hl' _. cbn. rewrite lookup_insert_ne; [done|].
  intros <-. by apply (prewritten_not_held s ts l i e).
Qed.

(** ** Reads *)

(** What a read leaves of the record. *)
Record keeps_record (m m' : Row_mvcc) : Prop := mk_keeps_record {
  kr_key : m_key m' = m_key m;
  kr_latest : latest_wts m' = latest_wts m;
  kr_served : max_served_rts m <= max_served_rts m';
  kr_prewrite : exists_prewrite m = true -> exists_prewrite m' = true /\ prewrite_ts m' = prewrite_ts m;
}.

Lemma recorded_kept (m m' : Row_mvcc) (ts : Z) : keeps_record m m' -> recorded m ts -> recorded m' ts.
Proof.
  intros [_ Hl Hs Hp] [?|[?|[Hex ->]]]; [left; lia|right; left; lia|].
  destruct (Hp Hex) as [? ?]. right. right. by split.
Qed.

Lemma access_read_record (tid : Z) (t : txn_state) (s s' : mstate S) (rc : RC) :
  st_wf s -> access_read tid t s = Ret (rc, s') -> keeps_record (mv s) (mv s').
Proof.
  intros (Hb & [_ _ Hlen] & _). unfold access_read.
  destruct (ensure_latest_spec s Hb) as (s1 & l & -> & _ & _ & _ & Hex & Hpts & _ & [Hk _ Hl Hsv _ _] & _).
  cbn [mbind res_bind].
  destruct (t_ts t <? oldest_wts (mv s)); [intros [= _ <-]; by split|].
  destruct (latest_wts (mv s) <? t_ts t).
  - destruct (exists_prewrite (mv s) && (prewrite_ts (mv s) <? t_ts t)).
    + destruct (buffer_req_spec R_REQ tid (t_ts t) (mv s) Hlen) as (q & -> & _). cbn [mbind res_bind].
      intros [= _ <-]. by split.
    + intros [= _ <-]. cbn. rewrite served_max. split; cbn; try done; [lia|]. by rewrite Hex.
  - destruct (find_version _ _ _ _ _) as [i|].
    + destruct (write_history (mv s) !! i); [|done]. cbn [at_ mbind res_bind].
      destruct (bool_decide _); [|done]. intros [= _ <-]. by split.
    + intros [= _ <-]. split; cbn; try done; [lia|]. by rewrite Hex.
Qed.

Lemma access_prewrite_record (tid min_ts : Z) (t : txn_state) (s s' : mstate S) (rc : RC) :
  st_wf s -> 0 < t_ts t < UINT64_MAX -> t_ts t <> latest_wts (mv s) ->
  access_prewrite tid min_ts t s = Ret (rc, s') -> keeps_record (mv s) (mv s').
Proof.
  intros (Hb & [_ _ Hlen] & _) Hts Hnl. unfold access_prewrite.
  destruct (_ || _ || _) eqn:E; [intros [= _ <-]; by split|].
  apply orb_false_iff in E as [E _]. apply orb_false_iff in E as [E1 E2].
  destruct (exists_prewrite (mv s)) eqn:Hex.
  - destruct (buffer_req_spec P_REQ tid (t_ts t) (mv s) Hlen) as (q & -> & _). cbn [mbind res_bind].
    intros [= _ <-]. by split.
  - destruct (reserveRow_spec (t_ts t) min_ts s Hb Hex ltac:(lia) ltac:(lia)) as (l & s1 & -> & Hb1 & Hp1 & Hk1 & _).
    cbn [mbind res_bind].
    destruct (copy_latest_spec s1 (t_ts t) l Hb1 Hp1) as (s2 & -> & _ & _ & Hk2 & _).
    cbn [mbind res_bind]. intros [= _ <-]. destruct (keeps_trans _ _ _ Hk1 Hk2) as [Hk _ Hl Hsv _ _].
    split; cbn; [done|done|lia|congruence].
Qed.

(** A read that is answered at once. *)
Lemma access_read_value (v0 : option bytes) (tid : Z) (t t' : txn_state) (s s' : mstate S) (h : hist) :
  faithful v0 s h -> txns s !! tid = Some t -> version_there s (t_ts t) ->
  access_read tid t s = Ret (RCOK, s') -> txns s' !! tid = Some t' ->
  row_bytes s' (cur_row t') = value_at v0 (t_ts t) (commits h) /\ recorded (mv s') (t_ts t).
Proof.
  intros Hf Ht Hver Ha Ht'. pose proof (fa_wf _ _ _ Hf) as Hs.
  pose proof (wf_order _ (st_mv _ (proj1 Hs))) as (Hord & _).
  destruct (Z.le_gt_cases (oldest_wts (mv s)) (t_ts t)) as [Hold|Hold].
  2: { unfold access_read in Ha. by destruct (Z.ltb_spec (t_ts t) (oldest_wts (mv s))); [|lia]. }
  destruct (Z.lt_ge_cases (latest_wts (mv s)) (t_ts t)) as [Hlat|Hlat].
  - assert (exists_prewrite (mv s) = true -> t_ts t <= prewrite_ts (mv s)) as Hpre.
    { intros Hex. destruct (Z.le_gt_cases (t_ts t) (prewrite_ts (mv s))) as [|Hlt]; [done|]. unfold access_read in Ha.
      destruct (Z.ltb_spec (t_ts t) (oldest_wts (mv s))); [lia|].
      destruct (Z.ltb_spec (latest_wts (mv s)) (t_ts t)); [|lia].
      destruct (Z.ltb_spec (prewrite_ts (mv s)) (t_ts t)); [|lia]. rewrite Hex in Ha. cbn [andb] in Ha.
      destruct (buffer_req_spec R_REQ tid (t_ts t) (mv s) (wf_req_len _ (proj1 (proj2 Hs)))) as (q & Hq & _).
      by rewrite Hq in Ha. }
    destruct (read_latest_spec tid t s Hs Ht Hlat Hpre) as (s2 & l & Ha2 & _ & _ & Hmax & Htx & _ & Hb & Hv).
    rewrite Ha in Ha2. injection Ha2 as <-. rewrite Htx, lookup_insert_eq in Ht'. injection Ht' as <-. cbn [cur_row].
    rewrite Hb, Hv, (faithful_above v0 s h (t_ts t) Hf Hlat). split; [done|]. left. lia.
  - destruct Hver as [?|[?|(H32 & w & x & (j & e0 & Hj & Hv0 & <- & _) & Hlt)]]; [lia|lia|].
    destruct (read_version_spec s tid 0 t None j e0 Hs Ht ltac:(lia) H32 Hj Hv0 Hlt)
      as (s2 & i & e & Ha2 & Htx & Hi & Hv & Hlt' & Hmax & _ & Hbytes).
    unfold access in Ha2. rewrite Ht in Ha2. cbn [at_ mbind res_bind] in Ha2. rewrite Ha in Ha2. injection Ha2 as <-.
    rewrite Htx in Ht'. injection Ht' as <-. cbn [cur_row]. split.
    + symmetry. apply (value_at_newest _ _ (w_ts e)); [apply Hf| |done|].
      * apply (fa_held _ _ _ Hf). exists i, e. by rewrite Hbytes.
      * intros c y Hc Hcts. destruct (Z.le_gt_cases c (w_ts e)) as [|Hgt]; [done|].
        destruct (fa_suffix _ _ _ Hf (w_ts e) (row_bytes s (w_row e)) c y) as (i' & e' & Hi' & Hv' & <- & _); [|done|lia|].
        { exists i, e. done. }
        by apply (Hmax i' e').
    + right. left. by rewrite (kr_latest _ _ (access_read_record tid t s s' RCOK Hs Ha)).
Qed.

(** A prewrite that is served at once: the copy is the stored row. *)
Lemma access_prewrite_value (v0 : option bytes) (tid min_ts : Z) (t t' : txn_state) (s s' : mstate S) (h : hist) :
  faithful v0 s h -> txns s !! tid = Some t -> 0 < t_ts t < UINT64_MAX -> t_ts t <> latest_wts (mv s) ->
  access_prewrite tid min_ts t s = Ret (RCOK, s') -> txns s' !! tid = Some t' ->
  row_bytes s' (cur_row t') = value_at v0 (t_ts t) (commits h) /\ recorded (mv s') (t_ts t).
Proof.
  intros Hf Ht Hts Hnl Ha Ht'. pose proof (fa_wf _ _ _ Hf) as Hs.
  assert (exists_prewrite (mv s) = false /\ latest_wts (mv s) < t_ts t /\ max_served_rts (mv s) <= t_ts t)
    as (Hex & Hlat & Hsv).
  { unfold access_prewrite in Ha.
    destruct (Z.ltb_spec (t_ts t) (latest_wts (mv s))), (Z.ltb_spec (t_ts t) (max_served_rts (mv s))); try done.
    cbn [orb] in Ha. destruct (_ && _); [done|]. destruct (exists_prewrite (mv s)); [|lia].
    destruct (buffer_req_spec P_REQ tid (t_ts t) (mv s) (wf_req_len _ (proj1 (proj2 Hs)))) as (q & Hq & _).
    by rewrite Hq in Ha. }
  destruct (prewrite_spec tid min_ts t s Hs Ht Hex ltac:(lia) Hsv) as (s2 & l & Ha2 & _ & Hp & _ & Htx & Hb & Hv).
  rewrite Ha in Ha2. injection Ha2 as <-. rewrite Htx, lookup_insert_eq in Ht'. injection Ht' as <-. cbn [cur_row].
  rewrite Hb, Hv, (faithful_above v0 s h (t_ts t) Hf Hlat). split; [done|].
  destruct Hp as (? & ? & _). right. right. by split.
Qed.

(** A read or a prewrite, answered or not. *)
Lemma faithful_answer (v0 : option bytes) (s s' : mstate S) (h : hist) (rc : RC) (ts : Z) (v : option bytes) :
  faithful v0 s h -> st_wf s' -> shrinks s s' -> keeps_record (mv s) (mv s') ->
  (forall key, row_val (db s') key = row_val (db s) key) ->
  (rc = RCOK -> v = value_at v0 ts (commits h) /\ recorded (mv s') ts) ->
  faithful v0 s' (mkHist (commits h) (if bool_decide (rc = RCOK) then (ts, v) :: reads h else reads h)).
Proof.
  intros Hf Hs' Hsh Hkr Hv Hans. apply (faithful_quiet v0 s); try done; [by apply Hkr|by apply Hkr|].
  assert (Forall (fun r => r.2 = value_at v0 r.1 (commits h) /\ recorded (mv s') r.1) (reads h)) as Hold.
  { eapply list.Forall_impl; [apply (fa_reads _ _ _ Hf)|]. intros r [? ?]. split; [done|].
    by apply (recorded_kept (mv s)). }
  case_bool_decide; [|done]. constructor; [by apply Hans|done].
Qed.

(** ** Ends of prewrites *)

Lemma elem_of_woken (s s' : mstate S) (ts : Z) (v : option bytes) :
  (ts, v) ∈ woken s s' -> exists i r, requests (mv s) !! i = Some r /\ r_valid r = true
    /\ requests (mv s') !! i <> Some r /\ ts = r_ts r /\ v = row_bytes s' (txns s' !! r_txn r ≫= cur_row).
Proof.
  unfold woken. intros (i & _ & Hi)%list_elem_of_omap. destruct (requests (mv s) !! i) as [r|] eqn:Er; [|done].
  cbn in Hi. destruct (r_valid r) eqn:Hv; [|done]. case_bool_decide; [done|]. injection Hi as <- <-. eauto 10.
Qed.

(** The requests that are woken are given the committed value. *)
Lemma woken_value (ts : Z) (v : option bytes) (s s' : mstate S) (x : Z * option bytes) :
  st_wf s -> prewrite_ts (mv s) = ts -> wakes ts v s s' -> x ∈ woken s s' ->
  x.2 = v /\ ts < x.1 /\ recorded (mv s') x.1.
Proof.
  intros Hs Hts Hw Hx. destruct x as [y w]. apply elem_of_woken in Hx as (i & r & Hi & Hv & Hne & -> & ->). cbn [fst snd].
  destruct (pending_after s ts Hs Hts i r Hi Hv) as [Hr _].
  pose proof (wk_answered _ _ _ _ Hw i r Hi Hv) as Ha.
  destruct (Z.leb_spec (r_ts r) (next_prewrite ts (requests (mv s)))) as [Hle|]; [|done].
  destruct Ha as (t & Ht & _ & Hb). rewrite Ht. cbn. split; [done|]. split; [lia|].
  destruct (wk_recorded _ _ _ _ Hw i r Hi Hv Hle) as [?|[? ?]]; [by left|]. right. right. by split.
Qed.

Lemma faithful_commit (v0 : option bytes) (min_ts : Z) (t : txn_state) (l : rloc) (b : bytes) (s s' : mstate S) (h : hist) :
  faithful v0 s h -> prewritten (mv s) (t_ts t) l -> row_bytes s (Some l) = Some b ->
  load_u64 b 0 = Ret (m_key (mv s)) -> access_write (Some l) min_ts t s = Ret (RCOK, s') ->
  faithful v0 s' (mkHist ((t_ts t, Some b) :: commits h) (woken s s' ++ reads h)).
Proof.
  intros Hf Hp Hb Hk Ha. pose proof (fa_wf _ _ _ Hf) as Hs.
  destruct (write_spec min_ts t l b s Hs Hp Hb Hk)
    as (s2 & Ha2 & Hwf & Hl & (Hkey & Hsv & _) & Hv & _ & Hw & _ & _ & s1 & Hsh & Hheld).
  rewrite Ha in Ha2. injection Ha2 as <-. destruct Hp as (Hex & Hpts & _).
  destruct (wf_prewrite _ (st_mv _ (proj1 Hs)) Hex) as (_ & Hlt & Hmax). rewrite Hpts in Hlt, Hmax.
  pose proof (fa_latest _ _ _ Hf) as Hlatest.
  destruct (shrinks_held s1 s' ((t_ts t, Some b) :: commits h) Hsh) as [Hh Hsuf].
  { intros w x [Hx|[-> ->]]%Hheld; apply elem_of_cons; [right; by apply (fa_held _ _ _ Hf)|by left]. }
  { intros w x c y Hx Hc Hle. apply Hheld. apply elem_of_cons in Hc as [[= -> ->]|Hc]; [by right|left].
    rewrite list.Forall_forall in Hlatest. pose proof (Hlatest _ Hc) as Hcl. cbn in Hcl.
    apply Hheld in Hx as [Hx|[-> _]]; [by apply (fa_suffix _ _ _ Hf w x)|lia]. }
  split; cbn [commits reads]; try done.
  - constructor; [apply Hf|]. eapply list.Forall_impl; [exact Hlatest|]. intros c Hc. cbn in *. lia.
  - rewrite Hl. constructor; [cbn; lia|]. eapply list.Forall_impl; [exact Hlatest|]. intros c Hc. cbn in *. lia.
  - rewrite Hkey, Hv, Hl. cbn. by destruct (Z.ltb_spec (t_ts t) (t_ts t + 1)); [|lia].
  - apply list.Forall_app_2.
    + apply list.Forall_forall. intros x Hx.
      destruct (woken_value (t_ts t) (Some b) s s' x Hs Hpts Hw Hx) as (-> & Hgt & Hrec). split; [|done].
      cbn. by destruct (Z.ltb_spec (t_ts t) x.1); [|lia].
    + eapply list.Forall_impl; [apply (fa_reads _ _ _ Hf)|]. intros x [Hx Hrec]. cbn.
      assert (x.1 <= t_ts t) as Hle by (destruct Hrec as [?|[?|[_ ->]]]; lia).
      destruct (Z.ltb_spec (t_ts t) x.1); [lia|]. split; [done|]. right. left. lia.
Qed.

Lemma faithful_withdraw (v0 : option bytes) (min_ts : Z) (t : txn_state) (l : rloc) (s s' : mstate S) (h : hist) :
  faithful v0 s h -> prewritten (mv s) (t_ts t) l -> access_abort (Some l) min_ts t s = Ret (RCOK, s') ->
  faithful v0 s' (mkHist (commits h) (woken s s' ++ filter (fun r => r.1 <> t_ts t) (reads h))).
Proof.
  intros Hf Hp Ha. pose proof (fa_wf _ _ _ Hf) as Hs.
  destruct (abort_spec min_ts t l s Hs Hp)
    as (s2 & Ha2 & Hwf & Hl & (Hkey & Hsv & _) & Hv & Hw & _ & _ & Hsh).
  rewrite Ha in Ha2. injection Ha2 as <-. destruct Hp as (Hex & Hpts & _).
  destruct (wf_prewrite _ (st_mv _ (proj1 Hs)) Hex) as (_ & Hlt & Hmax). rewrite Hpts in Hlt, Hmax.
  apply (faithful_quiet v0 s); try done. apply list.Forall_app_2; apply list.Forall_forall; intros x Hx.
  - destruct (woken_value (t_ts t) _ s s' x Hs Hpts Hw Hx) as (-> & Hgt & Hrec). split; [|done].
    symmetry. apply faithful_above; [done|lia].
  - apply list_elem_of_filter in Hx as [Hne Hx]. pose proof (fa_reads _ _ _ Hf) as Hr.
    rewrite list.Forall_forall in Hr. destruct (Hr x Hx) as [? Hrec]. split; [done|].
    destruct Hrec as [?|[?|[_ ?]]]; [left; lia|right; left; lia|congruence].
Qed.

(** ** All steps *)

Lemma row_step_faithful (v0 : option bytes) (p p' : mstate S * hist) :
  row_step p p' -> faithful v0 p.1 p.2 -> faithful v0 p'.1 p'.2.
Proof.
  intros Hst Hf. pose proof (fa_wf _ _ _ Hf) as Hs.
  destruct Hst as [s h ts l b Hp Hlen|s s' h tid min_ts t t' row type rc Ht Htype Hleg Ha Ht'
    |s s' h tid min_ts t row rc Ht Hleg Ha|s s' h tid min_ts t row rc Ht Hleg Ha]; cbn [fst snd] in *.
  - destruct (mvcc_step_wf _ _ (step_modify s ts l b Hp Hlen) Hs) as [Hs' _]. destruct h as [cs rs].
    apply (faithful_quiet v0 s _ (mkHist cs rs)); try done; [|apply Hf]. apply (modify_shrinks s ts l b (proj1 Hs) Hp).
  - destruct (access_ok tid min_ts type row t s Hs Ht Hleg) as (rc' & s2 & Ha' & Hs' & _ & _ & Hv).
    rewrite Ha in Ha'. injection Ha' as <- <-. unfold access in Ha. rewrite Ht in Ha. cbn [at_ mbind res_bind] in Ha.
    assert (forall key, row_val (db s') key = row_val (db s) key) as Hval.
    { intros key. apply Hv. intros ->. by destruct Htype as [[? _]|?]. }
    destruct Htype as [[-> Hver]| ->]; cbn in Ha, Hleg.
    + apply (faithful_answer v0 s s' h); [done|done| | |done|].
      * by apply (access_read_shrinks tid t s s' rc).
      * by apply (access_read_record tid t s s' rc).
      * intros ->. by apply (access_read_value v0 tid t t' s).
    + destruct Hleg as (Hts & _ & Hnl & _). apply (faithful_answer v0 s s' h); [done|done| | |done|].
      * by apply (access_prewrite_shrinks tid min_ts t s s' rc).
      * by apply (access_prewrite_record tid min_ts t s s' rc).
      * intros ->. by apply (access_prewrite_value v0 tid min_ts t t' s).
  - destruct Hleg as (l & b & -> & Hp & Hb & Hk). unfold access in Ha. rewrite Ht in Ha. cbn [at_ mbind res_bind] in Ha.
    rewrite Hb. assert (rc = RCOK) as ->.
    { destruct (write_spec min_ts t l b s Hs Hp Hb Hk) as (s2 & Ha2 & _). rewrite Ha in Ha2. by injection Ha2. }
    by apply (faithful_commit v0 min_ts t l b s).
  - destruct Hleg as (l & -> & Hp). unfold access in Ha. rewrite Ht in Ha. cbn [at_ mbind res_bind] in Ha.
    assert (rc = RCOK) as ->.
    { destruct (abort_spec min_ts t l s Hs Hp) as (s2 & Ha2 & _). rewrite Ha in Ha2. by injection Ha2. }
    by apply (faithful_withdraw v0 min_ts t l s).
Qed.

(** The requests do not forget a transaction or touch another row. *)
Lemma row_step_frame (p p' : mstate S * hist) :
  row_step p p' -> st_wf p.1 -> m_key (mv p'.1) = m_key (mv p.1) /\ txns_kept p.1 p'.1
    /\ forall k, k <> m_key (mv p.1) -> row_val (db p'.1) k = row_val (db p.1) k.
Proof.
  intros Hst Hs.
  assert (forall tid min_ts type row t rc s', txns p.1 !! tid = Some t -> legal p.1 t type row ->
    access tid type row min_ts p.1 = Ret (rc, s') -> m_key (mv s') = m_key (mv p.1) /\ txns_kept p.1 s'
      /\ forall k, k <> m_key (mv p.1) -> row_val (db s') k = row_val (db p.1) k) as Hacc.
  { intros tid min_ts type row t rc s' Ht Hleg Ha.
    destruct (access_ok tid min_ts type row t p.1 Hs Ht Hleg) as (rc' & s2 & Ha' & _ & (Hk & _) & Htx & Hv).
    rewrite Ha in Ha'. injection Ha' as <- <-. auto. }
  destruct Hst as [s h ts l b Hp Hlen|s s' h tid min_ts t t' row type rc Ht _ Hleg Ha _
    |s s' h tid min_ts t row rc Ht Hleg Ha|s s' h tid min_ts t row rc Ht Hleg Ha]; cbn [fst snd] in *;
    [|by eapply Hacc..]. split; [done|]. split; [exact (txns_kept_refl s)|done].
Qed.

Lemma hist_step_faithful (v0 : option bytes) (p p' : mstate S * hist) :
  hist_step p p' -> faithful v0 p.1 p.2 -> faithful v0 p'.1 p'.2.
Proof.
  intros [s [cs rs] tid t Hnp|q q' Hst] Hf; [|by apply (row_step_faithful v0 q)]. cbn [fst snd] in *.
  destruct (mvcc_step_wf _ _ (step_begin s tid t Hnp) (fa_wf _ _ _ Hf)) as [Hs' _].
  apply (faithful_quiet v0 s _ (mkHist cs rs)); try done; [|apply Hf].
  apply (shrinks_same s s); [apply shrinks_refl|done|done].
Qed.

Lemma init_faithful (key : Z) (d : S) (v : bytes) :
  rows_ok d -> row_val d key = Some v -> 8 <= row_size ->
  faithful (Some v) (init_state key d) (mkHist [] []).
Proof.
  intros Hd Hv Hsz.
  assert (forall w x, ~ held (init_state key d) w x) as Hno.
  { intros w x (i & e & Hi & Hval & _). apply (lookup_replicate_1 4) in Hi as [-> _]. done. }
  split; cbn [commits reads]; [by apply (init_state_wf key d v)|constructor|constructor|done| | |constructor].
  - intros w x Hx. by destruct (Hno w x).
  - intros w x c y Hx. by destruct (Hno w x).
Qed.

Lemma hist_steps_faithful (v0 : option bytes) (p p' : mstate S * hist) :
  rtc hist_step p p' -> faithful v0 p.1 p.2 -> faithful v0 p'.1 p'.2.
Proof. induction 1 as [|p p1 p' Hst _ IH]; [done|]. intros Hf. apply IH. by apply (hist_step_faithful v0 p). Qed.

Lemma hist_steps_key (v0 : option bytes) (p p' : mstate S * hist) :
  rtc hist_step p p' -> faithful v0 p.1 p.2 -> m_key (mv p'.1) = m_key (mv p.1).
Proof.
  induction 1 as [p|p p1 p' Hst _ IH]; [done|]. intros Hf. rewrite IH by (by apply (hist_step_faithful v0 p)).
  destruct Hst as [s h tid t _|q q' Hst]; [done|]. by apply (row_step_frame q q' Hst), (fa_wf v0 _ q.2).
Qed.

(** A row under multi-version concurrency control is serializable in
    timestamp order.  Start with a row whose stored value is [v] and let any
    transactions read, prewrite, modify, commit and withdraw it in any order,
    waiting ones being woken by the ends of prewrites.  The commits happen in
    the order of their timestamps, the stored row is the newest commit, and
    every read of a transaction that does not withdraw was given the value of
    the newest commit below its own timestamp, counting the commits that came
    after the read as well.  The value is that of the row object at the moment
    the transaction is given it.  Reads of old versions are covered as long as
    the version is still kept and timestamps fit into 32 bits. *)
Theorem mvcc_serializable (key : Z) (d : S) (v : bytes) (s : mstate S) (h : hist) :
  rows_ok d -> row_val d key = Some v -> 8 <= row_size ->
  rtc hist_step (init_state key d, mkHist [] []) (s, h) ->
  newest_first (commits h)
  /\ row_val (db s) key = default (Some v) (snd <$> head (commits h))
  /\ Forall (fun r => r.2 = value_at (Some v) r.1 (commits h)) (reads h).
Proof.
  intros Hd Hv Hsz Hr.
  pose proof (init_faithful key d v Hd Hv Hsz) as Hf0.
  pose proof (hist_steps_faithful (Some v) _ _ Hr Hf0) as Hf. cbn [fst snd] in Hf.
  assert (m_key (mv s) = key) as Hk by (by apply (hist_steps_key (Some v) _ _ Hr)).
  split; [apply Hf|]. split.
  - rewrite <- Hk, (fa_value _ _ _ Hf). pose proof (fa_latest _ _ _ Hf) as Hl.
    destruct (commits h) as [|[c x] cs]; [done|]. cbn. apply list.Forall_cons in Hl as [Hc _]. cbn in Hc.
    by destruct (Z.ltb_spec c (latest_wts (mv s) + 1)); [|lia].
  - eapply list.Forall_impl; [apply (fa_reads _ _ _ Hf)|]. by intros r [? _].
Qed.
End Serial.

(** ** An application *)

Lemma hist_step_to {S : Type} `{RowStoreSpec S} (s s' : mstate S) (h h1 h' : hist) :
  hist_step (s, h) (s', h1) -> h1 = h' -> hist_step (s, h) (s', h').
Proof. by intros ? <-. Qed.

(** Transaction 5 prewrites and changes the row, transaction 8 waits for it and
    is woken by the commit. *)
Lemma mvcc_serializable_witness :
  let b := bytes_of_u64 7 ++ bytes_of_u64 5 in
  let s := MapStore.run 1 W_REQ 0 MapStore.s_wait in
  let h := mkHist [(5, Some b)] [(8, Some b); (5, Some one_row)] in
  newest_first (commits h)
  /\ row_val (db s) 7 = Some b
  /\ Forall (fun r => r.2 = value_at (Some one_row) r.1 (commits h)) (reads h).
Proof.
  cbv zeta. destruct MapStore.d0_ok as (Hok & Hv & Hsz).
  apply (mvcc_serializable 7 MapStore.d0 one_row (MapStore.run 1 W_REQ 0 MapStore.s_wait)
    (mkHist [(5, Some (bytes_of_u64 7 ++ bytes_of_u64 5))]
       [(8, Some (bytes_of_u64 7 ++ bytes_of_u64 5)); (5, Some one_row)])); [exact Hok|exact Hv|exact Hsz|].
  apply (rtc_l _ _ (MapStore.start 1 5 MapStore.s0, mkHist [] [])).
  { apply hs_begin. intros i r Hi. by apply (lookup_replicate_1 4) in Hi as [-> _]. }
  apply (rtc_l _ _ (MapStore.run 1 P_REQ 0 (MapStore.start 1 5 MapStore.s0), mkHist [] [(5, Some one_row)])).
  { eapply hist_step_to; [apply hs_row, (rs_read _ _ _ 1 0 (mkTxn 5 None false) (mkTxn 5 (Some 0%nat) false) None P_REQ RCOK)|].
    - vm_compute. reflexivity.
    - by right.
    - split; [done|]. split; [by apply MapStore.not_pending_check|done].
    - vm_compute. reflexivity.
    - vm_compute. reflexivity.
    - vm_compute. reflexivity. }
  apply (rtc_l _ _ (MapStore.s_pre, mkHist [] [(5, Some one_row)])).
  { apply hs_row, (rs_modify _ _ 5 0 (bytes_of_u64 7 ++ bytes_of_u64 5)); [apply MapStore.s_pre_prewritten|done]. }
  apply (rtc_l _ _ (MapStore.start 2 8 MapStore.s_pre, mkHist [] [(5, Some one_row)])).
  { apply hs_begin. intros i r Hi. by apply (lookup_replicate_1 4) in Hi as [-> _]. }
  apply (rtc_l _ _ (MapStore.s_wait, mkHist [] [(5, Some one_row)])).
  { eapply hist_step_to; [apply hs_row, (rs_read _ _ _ 2 0 (mkTxn 8 None false) (mkTxn 8 None false) None R_REQ WAIT)|].
    - vm_compute. reflexivity.
    - left. split; [reflexivity|]. left. vm_compute. reflexivity.
    - split; [done|]. by apply MapStore.not_pending_check.
    - vm_compute. reflexivity.
    - vm_compute. reflexivity.
    - vm_compute. reflexivity. }
  apply rtc_once.
  eapply hist_step_to; [apply hs_row, (rs_commit _ _ _ 1 0 (mkTxn 5 (Some 0%nat) false) (Some 0%nat) RCOK)|].
  - vm_compute. reflexivity.
  - exists 0%nat. eexists. split; [done|]. split; [apply MapStore.s_pre_prewritten|]. split; vm_compute; reflexivity.
  - vm_compute. reflexivity.
  - vm_compute. reflexivity.
Defined.
