(* ===== verification/GlobalLock.v ===== *)
(** * db2: the lock service and its RPC
    ([global_lock/global_lock.cpp], [global_lock_service/brpc/global_lock_service.cpp])

    The lock service records which instance owns each page.  A request for a
    page takes it from the current owner by an [Invalid] call, or from the lock
    service's own buffer pool when nobody owns it.  All pools sit on one shared
    page store.  The RPC library delivers a request to the handler and the reply
    back; a failed call ends the process. *)

From S2P Require Import Prelude Config FileIO Buffer LockTable.

(** ** State *)

(** A client is the address it is connected to; null before [set_instance_i].
    [src/global_lock/global_lock.h:55-60 InstanceInfo] *)
Record InstanceInfo := mkInfo {
  info_instance_id : Z;
  host : string;
  info_init_done : bool;
  global_lock_service_client : option string;
}.

(** [src/global_lock/global_lock.h:75-88 lock_service_table_] *)
Record GlobalLock := mkGlobal {
  init_done_ : bool;
  hosts_map_ : gmap Z string;
  instances_ : list InstanceInfo;
  lock_service_table_ : gmap Z Z;
  timestamp_ : Z;
  buffer_ : Buffer;
}.

(** An instance as the lock service sees it. *)
Record Instance := mkInstance {
  ins_lock_table : LockTable;
  ins_buffer : Buffer;
}.

(** The lock service, the instances and the shared page store. *)
Record Cluster (D : Type) := mkCluster {
  global : GlobalLock;
  instances : gmap Z Instance;
  disk : D;
}.
Arguments mkCluster {D}.
Arguments global {D}.
Arguments instances {D}.
Arguments disk {D}.

(** [src/global_lock_service/brpc/global_lock_service.cpp:31-38 LockRemoteRequest] *)
Record LockRemoteRequest := mkLockReq {
  lr_instance_id : Z;
  lr_page_id : Z;
  lr_req_mode : RpcLockMode;
  lr_count : Z;
}.

(** The reply to [LockRemote] and to [Invalid].
    [src/global_lock_service/brpc/global_lock_service.cpp:218-222 response] *)
Record PageReply := mkReply {
  rep_rc : RpcRC;
  rep_page_buf : bytes;
  rep_count : Z;
}.

Definition set_table (t : gmap Z Z) (g : GlobalLock) : GlobalLock :=
  mkGlobal (init_done_ g) (hosts_map_ g) (instances_ g) t (timestamp_ g) (buffer_ g).
Definition set_pool (b : Buffer) (g : GlobalLock) : GlobalLock :=
  mkGlobal (init_done_ g) (hosts_map_ g) (instances_ g) (lock_service_table_ g) (timestamp_ g) b.
Definition set_global {D} (g : GlobalLock) (c : Cluster D) : Cluster D :=
  mkCluster g (instances c) (disk c).

(** [src/global_lock/global_lock.cpp:43-47 instances_] *)
Definition no_instance : InstanceInfo := mkInfo (-1) "" false None.

(** The loop that makes a lock node for every page.
    [src/global_lock/global_lock.cpp:62-64 lock_service_table_] *)
Definition init_nodes (pages : nat) : gmap Z Z :=
  foldl (fun t i => match t !! Z.of_nat i with Some _ => t | None => <[Z.of_nat i := -1]> t end)
    ∅ (seq 0 pages).

(** ** Time stamps and registration *)

(** [src/global_lock/global_lock.cpp:107-107 GlobalLock::GetNextTs] *)
Definition GetNextTs (g : GlobalLock) : Z * GlobalLock :=
  (timestamp_ g, mkGlobal (init_done_ g) (hosts_map_ g) (instances_ g) (lock_service_table_ g)
                   (u64 (timestamp_ g + 1)) (buffer_ g)).

(** [src/global_lock/global_lock.cpp:110-120 GlobalLock::set_instance_i] *)
Definition set_instance_i (id : Z) (g : GlobalLock) : res GlobalLock :=
  assert! (0 <=? id) && (id <? PROCESS_CNT);
  info ← at_ (instances_ g !! Z.to_nat id);
  assert! negb (info_init_done info);
  let h := default ""%string (hosts_map_ g !! id) in
  Ret (mkGlobal (init_done_ g) (<[id := h]> (hosts_map_ g))
         (<[Z.to_nat id := mkInfo id h true (Some h)]> (instances_ g))
         (lock_service_table_ g) (timestamp_ g) (buffer_ g)).

(** [src/global_lock/global_lock.cpp:123-129 GlobalLock::init_done] *)
Definition init_done (g : GlobalLock) : bool * GlobalLock :=
  if forallb info_init_done (instances_ g) then
    (true, mkGlobal true (hosts_map_ g) (instances_ g) (lock_service_table_ g) (timestamp_ g)
             (buffer_ g))
  else (false, g).

Section Remote.
Context {D : Type} `{DiskSpec D}.

(** Which instance listens at an address. *)
Context (at_host : string -> Z).

(** The bytes of a fresh [char[MY_PAGE_SIZE]]. *)
Context (junk : bytes) (Hjunk : Z.of_nat (length junk) = MY_PAGE_SIZE).

(** The constructor, given the number of pages of the table space it has read.
    The pool is warmed by reading every page once.
    [src/global_lock/global_lock.cpp:41-71 GlobalLock::GlobalLock] *)
Definition new_GlobalLock (hosts : gmap Z string) (pages : nat) (version0 : Z) (d : D)
    : res (GlobalLock * D) :=
  b ← new_Buffer version0 FILE_SIZE MY_PAGE_SIZE;
  '(b, d) ← foldM (fun '(b, d) i =>
              '(_, b, d) ← BufferGet (Z.of_nat i) junk MY_PAGE_SIZE b d; Ret (b, d))
            (b, d) (seq 0 pages);
  Ret (mkGlobal false hosts (replicate (Z.to_nat PROCESS_CNT) no_instance) (init_nodes pages) 1 b, d).

(** ** The handlers and the clients *)

(** The handler of an instance.
    [src/global_lock_service/brpc/global_lock_service.cpp:172-189 GlobalLockServiceImpl::Invalid] *)
Definition srv_Invalid (ins page_id cnt : Z) (c : Cluster D) : res (PageReply * Cluster D) :=
  i ← at_ (instances c !! ins);
  assert! if 0 <? cnt then cnt =? MY_PAGE_SIZE else 0 =? cnt;
  '(rc, page_buf, lt, b, d) ←
    LockInvalid page_id junk cnt (ins_lock_table i) (ins_buffer i) (disk c);
  assert! bool_decide (RCOK = rc);
  n ← node_of page_id lt;
  assert! negb (page_id =? 0) || bool_decide (lock_mode n = LM_O);
  Ret (mkReply Rpc_RCOK (take (Z.to_nat cnt) page_buf) cnt,
       mkCluster (global c) (<[ins := mkInstance lt b]> (instances c)) d).

(** [src/global_lock_service/brpc/global_lock_service.cpp:106-132 GlobalLockServiceClient::Invalid] *)
Definition client_Invalid (addr : string) (page_id : Z) (page_buf : bytes) (cnt : Z) (c : Cluster D)
    : res (RC * bytes * Cluster D) :=
  '(reply, c) ← srv_Invalid (at_host addr) page_id cnt c;
  rc ← DeSerializeRC (rep_rc reply);
  if bool_decide (TIME_OUT = rc) then Ret (TIME_OUT, page_buf, c)
  else
    assert! bool_decide (RCOK = rc);
    if 0 <? cnt then
      assert! MY_PAGE_SIZE =? cnt;
      assert! rep_count reply =? cnt;
      page_buf ← memcpy page_buf 0 (rep_page_buf reply) 0 cnt;
      Ret (RCOK, page_buf, c)
    else Ret (RCOK, page_buf, c).

(** [Invalid] is the call that the client of the owner makes.  [write_ins_id] is an
    [int]; it is overwritten whatever [Invalid] returns.  The mutex of the page is
    held throughout.
    [src/global_lock/global_lock.cpp:83-105 GlobalLock::LockRemote] *)
Definition LockRemote (Invalid : string -> Z -> bytes -> Z -> Cluster D -> res (RC * bytes * Cluster D))
    (ins_id page_id : Z) (page_buf : bytes) (cnt : Z) (c : Cluster D) : res (RC * bytes * Cluster D) :=
  let own c := set_global (set_table (<[page_id := i32 ins_id]> (lock_service_table_ (global c)))
                 (global c)) c in
  match lock_service_table_ (global c) !! page_id with
  | None => Fault Assert
  | Some w =>
      if 0 <=? w then
        info ← at_ (instances_ (global c) !! Z.to_nat w);
        addr ← deref (global_lock_service_client info);
        '(rc, page_buf, c) ← Invalid addr page_id page_buf cnt c;
        Ret (rc, page_buf, own c)
      else
        let c := own c in
        if 0 <? cnt then
          '(page_buf, b, d) ← BufferGet page_id page_buf cnt (buffer_ (global c)) (disk c);
          Ret (RCOK, page_buf, mkCluster (set_pool b (global c)) (instances c) d)
        else Ret (RCOK, page_buf, c)
  end.

(** The branch for [TIME_OUT] sets the reply's code and falls through to the
    assertion.
    [src/global_lock_service/brpc/global_lock_service.cpp:191-223 GlobalLockServiceImpl::LockRemote] *)
Definition srv_LockRemote (Invalid : string -> Z -> bytes -> Z -> Cluster D -> res (RC * bytes * Cluster D))
    (r : LockRemoteRequest) (c : Cluster D) : res (PageReply * Cluster D) :=
  let cnt := lr_count r in
  assert! if 0 <? cnt then MY_PAGE_SIZE =? cnt else 0 =? cnt;
  let page_buf := if 0 <? cnt then junk else [] in
  '(rc, page_buf, c) ← LockRemote Invalid (lr_instance_id r) (lr_page_id r) page_buf cnt c;
  if bool_decide (Abort = rc) then Ret (mkReply Rpc_Abort [] 0, c)
  else
    assert! bool_decide (RCOK = rc);
    Ret (mkReply Rpc_RCOK (if 0 <? cnt then take (Z.to_nat cnt) page_buf else []) cnt, c).

(** [src/global_lock_service/brpc/global_lock_service.cpp:29-62 GlobalLockServiceClient::LockRemote] *)
Definition client_LockRemote (ins page_id : Z) (req_mode : LockMode) (page_buf : bytes) (cnt : Z)
    (c : Cluster D) : res (RC * bytes * Cluster D) :=
  mode ← SerializeLockMode req_mode;
  '(reply, c) ← srv_LockRemote client_Invalid (mkLockReq ins page_id mode cnt) c;
  rc ← DeSerializeRC (rep_rc reply);
  if bool_decide (TIME_OUT = rc) then Ret (TIME_OUT, page_buf, c)
  else if bool_decide (Abort = rc) then Ret (Abort, page_buf, c)
  else
    assert! bool_decide (RCOK = rc);
    if 0 <? cnt then
      assert! MY_PAGE_SIZE =? cnt;
      assert! rep_count reply =? cnt;
      page_buf ← memcpy page_buf 0 (rep_page_buf reply) 0 cnt;
      Ret (RCOK, page_buf, c)
    else Ret (RCOK, page_buf, c).

(** [src/global_lock_service/brpc/global_lock_service.cpp:244-252 GlobalLockServiceImpl::InstanceInitDone] *)
Definition srv_InstanceInitDone (ins : Z) (c : Cluster D) : res (Cluster D) :=
  g ← set_instance_i ins (global c);
  Ret (set_global g c).

(** [src/global_lock_service/brpc/global_lock_service.cpp:254-261 GlobalLockServiceImpl::GlobalLockInitDone] *)
Definition srv_GlobalLockInitDone (c : Cluster D) : bool * Cluster D :=
  let '(b, g) := init_done (global c) in (b, set_global g c).

(** [src/global_lock_service/brpc/global_lock_service.cpp:263-270 GlobalLockServiceImpl::GetNextTs] *)
Definition srv_GetNextTs (c : Cluster D) : Z * Cluster D :=
  let '(ts, g) := GetNextTs (global c) in (ts, set_global g c).

(** ** What a request returns *)

(** Instance [j] owns the page, is registered at its address, and no thread of
    it uses the page. *)
Record quiet_owner (c : Cluster D) (page_id j : Z) (i : Instance) (n : LockNode) : Prop := mk_quiet {
  qo_owner : lock_service_table_ (global c) !! page_id = Some j;
  qo_range : 0 <= j;
  qo_info : exists info addr, instances_ (global c) !! Z.to_nat j = Some info
    /\ global_lock_service_client info = Some addr /\ at_host addr = j;
  qo_instance : instances c !! j = Some i;
  qo_node : ins_lock_table i !! page_id = Some n;
  qo_idle : thread_count n = 0 /\ count n = 0;
}.

Lemma view_length (b : Buffer) (d : D) (page_id : Z) :
  buffer_ok b -> Z.of_nat (length (default junk (view b d page_id))) = MY_PAGE_SIZE.
Proof using Hjunk.
  intros (pl & fl & Hinv). unfold view. destruct (lru_map_ b !! page_id) as [m|].
  - destruct (nodes b !! m) as [nd|] eqn:E; [|done]. by apply (inv_bufs _ _ _ Hinv m nd).
  - destruct (disk_page d page_id) eqn:E; [|done]. by apply (disk_page_length d page_id).
Qed.

(** Giving a page up: the reply carries the owner's view of it. *)
Lemma srv_Invalid_spec (c : Cluster D) (page_id j : Z) (i : Instance) (n : LockNode) :
  quiet_owner c page_id j i n -> buffer_ok (ins_buffer i) -> disk_wf (disk c) -> disk_valid page_id ->
  exists b d, srv_Invalid j page_id MY_PAGE_SIZE c
    = Ret (mkReply Rpc_RCOK (default junk (view (ins_buffer i) (disk c) page_id)) MY_PAGE_SIZE,
        mkCluster (global c) (<[j := mkInstance
          (<[page_id := set_invalid_req false (set_mode LM_O 0 (set_invalid_req true n))]> (ins_lock_table i)) b]>
          (instances c)) d)
    /\ buffer_ok b /\ disk_wf d /\ view_le (ins_buffer i) (disk c) b d.
Proof using Hjunk.
  intros [Hown Hj _ Hi Hn [Htc Hct]] Hb Hd Hv.
  destruct (BufferGet_spec (ins_buffer i) (disk c) page_id junk Hb Hd Hv Hjunk)
    as (b & d & Hget & Hb' & Hd' & _ & _ & Hle).
  pose proof (view_length (ins_buffer i) (disk c) page_id Hb) as Hlen.
  exists b, d. split; [|done]. unfold srv_Invalid. rewrite Hi. cbn [at_ mbind res_bind].
  change (0 <? MY_PAGE_SIZE) with true. cbn iota. rewrite Z.eqb_refl.
  unfold LockInvalid, node_of. rewrite Hn. cbn [mbind res_bind].
  unfold invalid_node. cbn [thread_count count set_invalid_req]. rewrite Htc, Hct. cbn [Z.eqb mbind res_bind].
  rewrite Hget. cbn [mbind res_bind]. rewrite bool_decide_eq_true_2 by done.
  rewrite lookup_insert_eq. cbn [mbind res_bind set_invalid_req set_mode lock_mode].
  rewrite bool_decide_eq_true_2, orb_true_r by done. rewrite take_ge by lia. done.
Qed.

(** C26: A page changes hands with its content.  When an instance asks for a
    page that an idle instance owns, the request succeeds; the requester
    receives exactly what the previous owner's pool held, the previous owner's
    lock becomes invalid, its other pages and locks and the other instances are
    untouched, and the lock service records the requester as the owner. *)
Theorem remote_lock_transfer (c : Cluster D) (ins page_id j : Z) (i : Instance) (n : LockNode) (buf : bytes) :
  quiet_owner c page_id j i n -> buffer_ok (ins_buffer i) -> disk_wf (disk c) -> disk_valid page_id ->
  Z.of_nat (length buf) = MY_PAGE_SIZE -> 0 <= ins < PROCESS_CNT ->
  exists c' i' n', client_LockRemote ins page_id LM_X buf MY_PAGE_SIZE c
      = Ret (RCOK, default junk (view (ins_buffer i) (disk c) page_id), c')
    /\ lock_service_table_ (global c') = <[page_id := ins]> (lock_service_table_ (global c))
    /\ instances c' = <[j := i']> (instances c)
    /\ ins_lock_table i' = <[page_id := n']> (ins_lock_table i)
    /\ lock_mode n' = LM_O /\ thread_set n' = thread_set n
    /\ buffer_ok (ins_buffer i') /\ disk_wf (disk c')
    /\ view_le (ins_buffer i) (disk c) (ins_buffer i') (disk c').
Proof using Hjunk.
  intros Hq Hb Hd Hv Hbuf Hins. pose proof Hq as [Hown Hj (info & addr & Hinfo & Hcl & Hat) Hi Hn [Htc Hct]].
  destruct (srv_Invalid_spec c page_id j i n Hq Hb Hd Hv) as (b & d & Hsrv & Hb' & Hd' & Hle).
  set (v := default junk (view (ins_buffer i) (disk c) page_id)) in *.
  assert (Z.of_nat (length v) = MY_PAGE_SIZE) as Hlen by (by apply view_length).
  clearbody v. set (c1 := mkCluster _ _ d) in Hsrv.
  assert (forall pb, Z.of_nat (length pb) = MY_PAGE_SIZE ->
    client_Invalid addr page_id pb MY_PAGE_SIZE c = Ret (RCOK, v, c1)) as Hcli.
  { intros pb Hpb. unfold client_Invalid. rewrite Hat, Hsrv. cbn [mbind res_bind rep_rc rep_page_buf rep_count].
    simpl DeSerializeRC. cbn [mbind res_bind]. simpl bool_decide. cbn iota.
    change (0 <? MY_PAGE_SIZE) with true. cbn iota. rewrite Z.eqb_refl, memcpy_Ret by lia.
    cbn [mbind res_bind]. by rewrite slice_all', splice_all by lia. }
  unfold client_LockRemote. simpl SerializeLockMode. cbn [mbind res_bind].
  unfold srv_LockRemote. cbn [lr_count lr_instance_id lr_page_id].
  change (0 <? MY_PAGE_SIZE) with true. cbn iota. rewrite Z.eqb_refl. unfold LockRemote. rewrite Hown.
  destruct (Z.leb_spec 0 j); [|lia]. rewrite Hinfo. cbn [at_ mbind res_bind]. rewrite Hcl. cbn [deref mbind res_bind].
  rewrite (Hcli junk Hjunk). cbn [mbind res_bind]. simpl bool_decide. cbn iota.
  cbn [mbind res_bind rep_rc rep_page_buf rep_count]. simpl DeSerializeRC. cbn [mbind res_bind]. simpl bool_decide. cbn iota.
  change (0 <? MY_PAGE_SIZE) with true. cbn iota. rewrite Z.eqb_refl, take_ge by lia. rewrite memcpy_Ret by lia.
  cbn [mbind res_bind]. rewrite slice_all', splice_all by lia.
  eexists _, _, _. split; [done|]. unfold c1. cbn. rewrite i32_id by (unfold PROCESS_CNT in *; lia). done.
Qed.

(** The first request for a page is served from the lock service's pool. *)
Theorem remote_lock_first (c : Cluster D) (ins page_id : Z) (buf : bytes) :
  lock_service_table_ (global c) !! page_id = Some (-1) ->
  buffer_ok (buffer_ (global c)) -> disk_wf (disk c) -> disk_valid page_id ->
  Z.of_nat (length buf) = MY_PAGE_SIZE -> 0 <= ins < PROCESS_CNT ->
  exists c', client_LockRemote ins page_id LM_X buf MY_PAGE_SIZE c
      = Ret (RCOK, default junk (view (buffer_ (global c)) (disk c) page_id), c')
    /\ lock_service_table_ (global c') = <[page_id := ins]> (lock_service_table_ (global c))
    /\ instances c' = instances c /\ buffer_ok (buffer_ (global c')) /\ disk_wf (disk c').
Proof using Hjunk.
  intros Hown Hb Hd Hv Hbuf Hins.
  destruct (BufferGet_spec (buffer_ (global c)) (disk c) page_id junk Hb Hd Hv Hjunk)
    as (b & d & Hget & Hb' & Hd' & _ & _ & Hle).
  pose proof (view_length (buffer_ (global c)) (disk c) page_id Hb) as Hlen.
  unfold client_LockRemote. simpl SerializeLockMode. cbn [mbind res_bind].
  unfold srv_LockRemote. cbn [lr_count lr_instance_id lr_page_id].
  change (0 <? MY_PAGE_SIZE) with true. cbn iota. rewrite Z.eqb_refl. unfold LockRemote. rewrite Hown.
  cbn [Z.leb Z.compare set_global set_table global buffer_ disk instances].
  change (0 <? MY_PAGE_SIZE) with true. cbn iota. rewrite Hget.
  cbn [mbind res_bind]. simpl bool_decide. cbn iota.
  cbn [mbind res_bind rep_rc rep_page_buf rep_count]. simpl DeSerializeRC. cbn [mbind res_bind]. simpl bool_decide. cbn iota.
  change (0 <? MY_PAGE_SIZE) with true. cbn iota. rewrite Z.eqb_refl, take_ge by lia. rewrite memcpy_Ret by lia.
  cbn [mbind res_bind]. rewrite slice_all', splice_all by lia.
  eexists. split; [done|]. cbn. rewrite i32_id by (unfold PROCESS_CNT in *; lia). done.
Qed.
End Remote.

(** ** Time stamps and registration *)

Fixpoint next_ts_n (k : nat) (g : GlobalLock) : list Z * GlobalLock :=
  match k with
  | O => ([], g)
  | S k => let '(ts, g) := GetNextTs g in let '(l, g) := next_ts_n k g in (ts :: l, g)
  end.

Lemma next_ts_n_seq (k : nat) (g : GlobalLock) :
  0 <= timestamp_ g -> timestamp_ g + Z.of_nat k < 2 ^ 64 ->
  fst (next_ts_n k g) = seqZ (timestamp_ g) (Z.of_nat k)
  /\ timestamp_ (snd (next_ts_n k g)) = timestamp_ g + Z.of_nat k.
Proof.
  revert g. induction k as [|k IH]; intros g H0 Hlt; [simpl; split; [done|lia]|].
  cbn [next_ts_n]. unfold GetNextTs. rewrite u64_id by (unfold is_u64; lia).
  set (g1 := mkGlobal _ _ _ _ _ _). destruct (IH g1) as [H1 H2]; [simpl; lia|simpl; lia|].
  destruct (next_ts_n k g1) as [l g2]. cbn [fst snd] in *. rewrite seqZ_cons by lia.
  rewrite H1, H2. simpl timestamp_. split; [|lia]. f_equal. f_equal; lia.
Qed.

(** All instances are registered exactly when [init_done] says so. *)
Theorem init_done_iff (g : GlobalLock) :
  fst (init_done g) = true <->
  forall i info, instances_ g !! i = Some info -> info_init_done info = true.
Proof.
  unfold init_done. destruct (forallb info_init_done (instances_ g)) eqn:E; simpl.
  - split; [|done]. intros _ i info Hi. rewrite forallb_forall in E. apply E.
    apply list_elem_of_In. by eapply list_elem_of_lookup_2.
  - split; [done|]. intros Hall. rewrite <- E. apply forallb_forall. intros x Hx.
    apply list_elem_of_In, list_elem_of_lookup in Hx as [i Hi]. eauto.
Qed.

(** ** A cluster of two instances *)

Definition two_hosts (h : string) : Z := if String.eqb h "a" then 0 else 1.

Definition two_instances (b : Buffer) : Cluster MemoryIO :=
  mkCluster
    (mkGlobal true {[0 := "a"%string; 1 := "b"%string]}
       [mkInfo 0 "a" true (Some "a"%string); mkInfo 1 "b" true (Some "b"%string)] {[3 := 0]} 1 b)
    {[0 := mkInstance {[3 := set_mode LM_P 0 (new_LockNode 0)]} b;
      1 := mkInstance {[3 := new_LockNode 1]} b]}
    {| db_ := {[3 := a_page]} |}.

Lemma remote_lock_transfer_witness :
  exists b c' i' n', buffer_ok b /\
    client_LockRemote two_hosts a_page 1 3 LM_X a_page MY_PAGE_SIZE (two_instances b)
      = Ret (RCOK, default a_page (view b (disk (two_instances b)) 3), c')
    /\ lock_service_table_ (global c') = <[3 := 1]> (lock_service_table_ (global (two_instances b)))
    /\ instances c' = <[0 := i']> (instances (two_instances b))
    /\ ins_lock_table i' = <[3 := n']> {[3 := set_mode LM_P 0 (new_LockNode 0)]}
    /\ lock_mode n' = LM_O /\ thread_set n' = ∅
    /\ buffer_ok (ins_buffer i') /\ disk_wf (disk c')
    /\ view_le b (disk (two_instances b)) (ins_buffer i') (disk c').
Proof.
  destruct (new_Buffer_ok 0 FILE_SIZE) as (b & _ & Hok & _); [vm_compute; split; [discriminate|reflexivity]|].
  exists b.
  destruct (remote_lock_transfer two_hosts a_page length_a_page (two_instances b) 1 3 0
    (mkInstance {[3 := set_mode LM_P 0 (new_LockNode 0)]} b) (set_mode LM_P 0 (new_LockNode 0)) a_page)
    as (c' & i' & n' & Hx).
  - split; [reflexivity|lia| |reflexivity|reflexivity|split; reflexivity].
    eexists _, _. split; [reflexivity|]. split; reflexivity.
  - exact Hok.
  - intros id x. cbn. rewrite lookup_singleton_Some. intros [_ <-]. apply length_a_page.
  - done.
  - apply length_a_page.
  - unfold PROCESS_CNT. lia.
  - exists c', i', n'. split; [exact Hok|exact Hx].
Defined.
