(* ===== verification/PageLock.v ===== *)
(** * db2: the ownership of a page across instances

    The protocol by which instances pass a page around, for one page: the
    thread that wins the [lock_remoting] flag asks the lock service
    ([GetWritePageLock] in [instance/txn/ycsb_txn.cpp]), the lock service
    invalidates the owner ([GlobalLock::LockRemote], [LockTable::LockInvalid]),
    and the grant is installed by two separate assignments, first the lock mode
    and then the page.  Each step below is one atomic action of that code; the
    steps of different instances and threads interleave freely.

    [guarded] selects the executions in which an invalidation does not overtake
    a grant and no thread uses a page before it is installed.  The code
    enforces neither; with both, the protocol keeps one owner and loses no
    write, and without them it does not. *)

From S2P Require Import Prelude Config LockTable.

#[local] Arguments Z.eqb !x !y.
#[local] Arguments Z.leb !x !y.

(** Where the thread that asks for the page is. *)
Inductive phase (V : Type) :=
  | Idle
  | Asking
  | Granted (v : V)
  | Installing (v : V).
Arguments Idle {V}.
Arguments Asking {V}.
Arguments Granted {V}.
Arguments Installing {V}.

(** An instance: its lock node, its copy of the page, its asking thread. *)
Record site (V : Type) := mkSite {
  node : LockNode;
  copy : V;
  asker : phase V;
}.
Arguments mkSite {V}.
Arguments node {V}.
Arguments copy {V}.
Arguments asker {V}.

(** The lock service's record and mutex for the page, its own copy, the
    instances, and the value last written anywhere. *)
Record pstate (V : Type) := mkP {
  write_ins_id : Z;
  mtx : option Z;
  home : V;
  sites : gmap Z (site V);
  last : V;
}.
Arguments mkP {V}.
Arguments write_ins_id {V}.
Arguments mtx {V}.
Arguments home {V}.
Arguments sites {V}.
Arguments last {V}.

Definition set_site {V} (i : Z) (x : site V) (s : pstate V) : pstate V :=
  mkP (write_ins_id s) (mtx s) (home s) (<[i := x]> (sites s)) (last s).

(** The flag is taken by compare-and-swap, on an invalid page.
    [src/instance/txn/ycsb_txn.cpp:97-100 lock_remoting] *)
Definition take_flag (n : LockNode) : option LockNode :=
  if decide (lock_mode n = LM_O) then
    if lock_remoting n then None else Some (set_lock_remoting true n)
  else None.

(** [src/instance/txn/ycsb_txn.cpp:114-116 lock_mode] *)
Definition install_mode (n : LockNode) : res LockNode :=
  assert! bool_decide (lock_mode n = LM_O);
  Ret (set_mode LM_P (count n) n).

(** A write of a row: exclusive lock, change, release.
    [src/common/storage/row_handler.cpp:137-157 lock_table] *)
Definition locked_write {V} (v : V) (x : site V) : res (site V) :=
  '(rc, n) ← lock_node LM_X (node x);
  '(rc', n) ← unlock_node n;
  Ret (mkSite n v (asker x)).

(** Does a grant for this instance wait to be installed? *)
Definition pending_grant {V} (x : site V) : bool :=
  match asker x with Granted _ | Installing _ => true | _ => false end.

(** A thread registers on a page it has seen valid some time ago, so at any
    time; a registered thread keeps [LockInvalid] waiting, so a locked write is
    one step. *)
Section Steps.
Context {V : Type} (guarded : bool).

Inductive page_step : pstate V -> pstate V -> Prop :=
  | p_ask (s : pstate V) (i : Z) (x : site V) (n : LockNode) :
      sites s !! i = Some x -> take_flag (node x) = Some n ->
      page_step s (set_site i (mkSite n (copy x) Asking) s)
  | p_enter (s : pstate V) (i : Z) (x : site V) :
      sites s !! i = Some x -> asker x = Asking -> mtx s = None ->
      page_step s (mkP (write_ins_id s) (Some i) (home s) (sites s) (last s))
  | p_first (s : pstate V) (i : Z) (x : site V) :
      sites s !! i = Some x -> mtx s = Some i -> write_ins_id s < 0 -> 0 <= i ->
      page_step s (mkP i None (home s)
        (<[i := mkSite (node x) (copy x) (Granted (home s))]> (sites s)) (last s))
  | p_invalid (s : pstate V) (i j : Z) (x y : site V) (n : LockNode) :
      mtx s = Some i -> 0 <= i -> write_ins_id s = j -> 0 <= j ->
      sites s !! j = Some y -> invalid_node (node y) = Ret n ->
      (guarded = true -> pending_grant y = false) ->
      <[j := mkSite (set_invalid_req false n) (copy y) (asker y)]> (sites s) !! i = Some x ->
      page_step s (mkP i None (home s)
        (<[i := mkSite (node x) (copy x) (Granted (copy y))]>
          (<[j := mkSite (set_invalid_req false n) (copy y) (asker y)]> (sites s))) (last s))
  | p_mode (s : pstate V) (i : Z) (x : site V) (v : V) (n : LockNode) :
      sites s !! i = Some x -> asker x = Granted v -> install_mode (node x) = Ret n ->
      page_step s (set_site i (mkSite n (copy x) (Installing v)) s)
  | p_page (s : pstate V) (i : Z) (x : site V) (v : V) :
      sites s !! i = Some x -> asker x = Installing v ->
      page_step s (set_site i (mkSite (set_lock_remoting false (node x)) v Idle) s)
  | p_thread (s : pstate V) (i t : Z) (x : site V) :
      sites s !! i = Some x ->
      page_step s (set_site i (mkSite (add_thread_node t (node x)) (copy x) (asker x)) s)
  | p_write (s : pstate V) (i t : Z) (x y : site V) (v : V) :
      sites s !! i = Some x -> t ∈ thread_set (node x) -> locked_write v x = Ret y ->
      (guarded = true -> pending_grant x = false) ->
      page_step s (mkP (write_ins_id s) (mtx s) (home s) (<[i := y]> (sites s)) v)
  | p_leave (s : pstate V) (i t : Z) (x : site V) (n : LockNode) :
      sites s !! i = Some x -> remove_thread_node t (node x) = Ret n ->
      page_step s (set_site i (mkSite n (copy x) (asker x)) s).
End Steps.

(** Nobody owns the page and every instance has an invalid lock. *)
Definition start {V} (v : V) (junk : V) (ids : list Z) : pstate V :=
  mkP (-1) None v (list_to_map ((fun i => (i, mkSite (new_LockNode i) junk Idle)) <$> ids)) v.

(** An instance that may use the page. *)
Definition usable {V} (x : site V) : Prop := lock_mode (node x) <> LM_O /\ pending_grant x = false.

(** ** The invariant of guarded executions *)

Definition site_ok {V} (own : Z) (l : V) (i : Z) (x : site V) : Prop :=
  0 <= i /\
  match asker x with
  | Idle => (lock_mode (node x) = LM_O /\ own <> i) \/ (lock_mode (node x) <> LM_O /\ own = i /\ copy x = l)
  | Asking => lock_mode (node x) = LM_O /\ own <> i /\ lock_remoting (node x) = true
  | Granted v => lock_mode (node x) = LM_O /\ own = i /\ v = l /\ lock_remoting (node x) = true
  | Installing v => lock_mode (node x) <> LM_O /\ own = i /\ v = l /\ lock_remoting (node x) = true
  end.

Record page_inv {V} (s : pstate V) : Prop := mk_page_inv {
  pi_sites : forall i x, sites s !! i = Some x -> site_ok (write_ins_id s) (last s) i x;
  pi_home : write_ins_id s < 0 -> home s = last s;
  pi_mtx : forall i, mtx s = Some i -> exists x, sites s !! i = Some x /\ asker x = Asking;
}.

Lemma start_inv {V} (v junk : V) (ids : list Z) :
  Forall (Z.le 0) ids -> page_inv (start v junk ids).
Proof.
  intros Hids. split; [|done|done]. intros i x. cbn [start sites write_ins_id last].
  intros Hx. apply elem_of_list_to_map_2, list_elem_of_fmap in Hx as (k & [= -> ->] & Hk).
  rewrite list.Forall_forall in Hids. specialize (Hids k Hk). split; [done|]. left. split; [done|]. simpl in *. lia.
Qed.

(** Changing one site in a way that keeps its own condition. *)
Lemma set_site_inv {V} (s : pstate V) (i : Z) (x y : site V) :
  page_inv s -> sites s !! i = Some x -> site_ok (write_ins_id s) (last s) i y ->
  (asker x = Asking -> asker y = Asking) -> page_inv (set_site i y s).
Proof.
  intros [Hs Hh Hm] Hx Hy Ha. split; cbn [set_site sites write_ins_id last home mtx]; [|done|].
  - intros k z. rewrite lookup_insert_Some. intros [[<- <-]|[_ Hz]]; [done|by apply Hs].
  - intros k Hk. destruct (Hm k Hk) as (z & Hz & Hza). destruct (decide (k = i)) as [->|Hne].
    + exists y. rewrite lookup_insert_eq. split; [done|]. apply Ha. congruence.
    + exists z. by rewrite lookup_insert_ne.
Qed.

(** The owner changes: no site but the old and the new owner is affected. *)
Lemma grant_inv {V} (s : pstate V) (i : Z) (x : site V) (m : gmap Z (site V)) :
  0 <= i -> m !! i = Some x -> site_ok i (last s) i x ->
  (forall k z, k <> i -> m !! k = Some z -> site_ok i (last s) k z) ->
  page_inv (mkP i None (home s) m (last s)).
Proof.
  intros Hi Hx Hok Hother. split; cbn; [|lia|done].
  intros k z Hz. destruct (decide (k = i)) as [->|Hne]; [|by apply Hother].
  rewrite Hx in Hz. by injection Hz as <-.
Qed.

Lemma site_ok_other {V} (own own' : Z) (l : V) (k : Z) (z : site V) :
  site_ok own l k z -> own <> k -> own' <> k -> site_ok own' l k z.
Proof. intros [Hk Hz] H1 H2. split; [done|]. destruct (asker z); [destruct Hz as [?|?]| | |]; tauto. Qed.

Lemma locked_write_mode {V} (v : V) (x y : site V) :
  locked_write v x = Ret y ->
  lock_mode (node x) = LM_P /\ lock_mode (node y) = LM_P /\ copy y = v /\ asker y = asker x
  /\ lock_remoting (node y) = lock_remoting (node x).
Proof.
  unfold locked_write, lock_node. destruct (lock_mode (node x)) eqn:E; cbn; try done.
  rewrite decide_True by done. destruct (0 =? count (node x)); cbn [mbind res_bind]; [|done].
  unfold unlock_node. cbn [lock_mode set_mode count]. rewrite decide_True by reflexivity.
  destruct (i32 (count (node x) + 1) =? 1); cbn [mbind res_bind]; [|done]. by intros [= <-].
Qed.

Lemma page_step_inv {V} (s s' : pstate V) : page_step true s s' -> page_inv s -> page_inv s'.
Proof.
  intros Hst Hinv. pose proof Hinv as [Hs Hh Hm].
  destruct Hst as [s i x n Hx Hf|s i x Hx Ha Hmt|s i x Hx Hmt Hneg Hi|s i j x y n Hmt Hi Hw Hj Hy Hn Hg Hx
    |s i x v n Hx Ha Hn|s i x v Hx Ha|s i t x Hx|s i t x y v Hx Ht Hy Hg|s i t x n Hx Hn].
  - destruct (Hs i x Hx) as [Hi Hok]. apply (set_site_inv s i x); [done|done| |done].
    unfold take_flag in Hf. case_decide as Hmo; [|done]. destruct (lock_remoting (node x)) eqn:Hr; [done|].
    injection Hf as <-. split; [done|]. cbn. destruct (asker x); [|naive_solver..].
    destruct Hok as [[_ ?]|[? _]]; [|done]. done.
  - split; [done|done|]. intros k [= <-]. eauto.
  - destruct (Hm i Hmt) as (x' & Hx' & Ha). rewrite Hx in Hx'. injection Hx' as <-.
    pose proof (Hs i x Hx) as [_ Hok]. rewrite Ha in Hok. destruct Hok as (Hmo & _ & Hr).
    eapply grant_inv; [done|by rewrite lookup_insert_eq| |].
    + split; [done|]. cbn. by rewrite Hh.
    + intros k z Hk. rewrite lookup_insert_ne by done. intros Hz. pose proof (Hs k z Hz) as Hzk.
      apply (site_ok_other (write_ins_id s)); [done| |done]. destruct Hzk. lia.
  - destruct (Hm i Hmt) as (x' & Hx' & Ha). pose proof (Hs i x' Hx') as [_ Hok]. rewrite Ha in Hok.
    destruct Hok as (Hmo & Hne & Hr). rewrite Hw in Hne.
    rewrite lookup_insert_ne, Hx' in Hx by done. injection Hx as <-. specialize (Hg eq_refl).
    pose proof (Hs j y Hy) as [_ Hoy]. unfold pending_grant in Hg. rewrite Hw in Hoy.
    assert (lock_mode n = LM_O) as Hno by (unfold invalid_node in Hn; repeat case_match; by simplify_eq).
    destruct (asker y) eqn:Ey; [|naive_solver|done|done]. destruct Hoy as [[_ ?]|(_ & _ & Hc)]; [done|].
    eapply grant_inv; [done|by rewrite lookup_insert_eq| |].
    + split; [done|]. by cbn.
    + intros k z Hk. rewrite lookup_insert_ne by done. rewrite lookup_insert_Some. intros [[<- <-]|[Hkj Hz]].
      * split; [done|]. cbn. left. auto.
      * apply (site_ok_other (write_ins_id s)); [by apply Hs|lia|done].
  - pose proof (Hs i x Hx) as [Hi Hok]. rewrite Ha in Hok. destruct Hok as (Hmo & Hown & Hv & Hr).
    apply (set_site_inv s i x); [done|done| |congruence]. unfold install_mode in Hn.
    rewrite bool_decide_eq_true_2 in Hn by done. injection Hn as <-. split; [done|]. by cbn.
  - pose proof (Hs i x Hx) as [Hi Hok]. rewrite Ha in Hok. destruct Hok as (Hmo & Hown & Hv & Hr).
    apply (set_site_inv s i x); [done|done| |congruence]. split; [done|]. cbn. by right.
  - pose proof (Hs i x Hx) as [Hi Hok]. apply (set_site_inv s i x); [done|done| |done].
    split; [done|]. cbn. unfold add_thread_node. case_decide; by cbn.
  - pose proof (Hs i x Hx) as [Hi Hok]. destruct (locked_write_mode v x y Hy) as (Hmx & Hmy & Hc & Hay & Hry).
    specialize (Hg eq_refl). unfold pending_grant in Hg.
    destruct (asker x) eqn:Ex; [|naive_solver congruence|done|done].
    destruct Hok as [[? _]|(_ & Hown & _)]; [congruence|]. split; cbn; [|lia|].
    + intros k z. rewrite lookup_insert_Some. intros [[<- <-]|[Hk Hz]].
      * split; [done|]. rewrite Hay. right. split; [congruence|done].
      * pose proof (Hs k z Hz) as [Hk0 Hokz]. split; [done|].
        destruct (asker z); [destruct Hokz as [?|(? & ? & ?)]; [auto|congruence]|done|naive_solver congruence..].
    + intros k Hk. destruct (Hm k Hk) as (z & Hz & Hza). exists z. rewrite lookup_insert_ne; [done|].
      intros <-. congruence.
  - pose proof (Hs i x Hx) as [Hi Hok]. apply (set_site_inv s i x); [done|done| |done].
    assert (lock_mode n = lock_mode (node x) /\ lock_remoting n = lock_remoting (node x)) as [H1 H2].
    { unfold remove_thread_node in Hn. repeat case_match; by simplify_eq. }
    split; [done|]. cbn. by rewrite H1, H2.
Qed.

Lemma page_steps_inv {V} (s s' : pstate V) : rtc (page_step true) s s' -> page_inv s -> page_inv s'.
Proof. induction 1; eauto using page_step_inv. Qed.

(** ** One owner, no lost write *)


(** ** The executions the code allows *)

Tactic Notation "page_go" uconstr(c) :=
  eapply rtc_l; [eapply c; vm_compute; try reflexivity; try discriminate; try done|].

(** Without the guards an invalidation can overtake a grant: instance 0 is
    granted the page, and before it has stored the lock mode instance 1 asks;
    the lock service invalidates instance 0, which has nothing to give up, and
    both install their grants.  Both then hold the page, and instance 1 has the
    copy that instance 0 had before its own grant instead of the page. *)
Theorem page_two_owners :
  exists (s : pstate Z) x y, rtc (page_step false) (start 5 0 [0; 1]) s
    /\ sites s !! 0 = Some x /\ sites s !! 1 = Some y /\ usable x /\ usable y
    /\ last s = 5 /\ copy y = 0.
Proof.
  eexists _, _, _. split; [|split; [|split; [|split; [|split; [|split]]]]].
  { page_go (p_ask false _ 0). page_go (p_enter false _ 0). page_go (p_first false _ 0).
    page_go (p_ask false _ 1). page_go (p_enter false _ 1). page_go (p_invalid false _ 1 0).
    page_go (p_mode false _ 0). page_go (p_page false _ 0). page_go (p_mode false _ 1).
    page_go (p_page false _ 1). apply rtc_refl. }
  all: vm_compute; try reflexivity; try (split; [discriminate|reflexivity]).
Qed.

(** Without the guards a write can be lost on one instance: a thread that
    waits for the lock mode goes ahead as soon as the mode is stored, writes the
    page, and is overwritten by the page that came with the grant. *)
Theorem page_lost_update :
  exists (s : pstate Z) x, rtc (page_step false) (start 5 0 [0; 1]) s
    /\ sites s !! 0 = Some x /\ usable x /\ last s = 9 /\ copy x = 5.
Proof.
  eexists _, _. split; [|split; [|split; [|split]]].
  { page_go (p_ask false _ 0). page_go (p_enter false _ 0). page_go (p_first false _ 0).
    page_go (p_mode false _ 0). page_go (p_thread false _ 0 1).
    eapply rtc_l. { eapply (p_write false _ 0 1 _ _ 9); [vm_compute; reflexivity|set_solver|vm_compute; reflexivity|done]. }
    page_go (p_page false _ 0). apply rtc_refl. }
  all: vm_compute; try reflexivity; try (split; [discriminate|reflexivity]).
Qed.

