(* ===== verification/Txn.v ===== *)
(** * db2: transactions of an instance
    ([instance/txn/txn.cpp], [common/storage/row_handler.cpp],
    [instance/manager_instance.cpp])

    An instance has one multi-version row per key.  A row object is named by
    the row that allocated it and an address, since every [new] gives a fresh
    object.  The storage below the rows is any [RowStore]. *)

From S2P Require Import Prelude Config RowStore RowMvcc RowMvccInv RowMvccState RowMvccServe Mvcc.
From S2P Require Catalog.

(** A pointer to a row object. *)
Abbreviation rptr := (Z * rloc)%type.

(** [src/instance/manager_instance.h:74-78 all_ts_] *)
Record inst (S : Type) := mkInst {
  mvcc_array : gmap Z (Row_mvcc * gmap rloc Catalog.RowItem);
  i_txns : gmap Z txn_state;
  i_db : S;
  all_ts : list Z;
  i_timestamp : Z;
}.
Arguments mkInst {S}.
Arguments mvcc_array {S}.
Arguments i_txns {S}.
Arguments i_db {S}.
Arguments all_ts {S}.
Arguments i_timestamp {S}.

(** ** Time stamps *)

(** [src/instance/manager_instance.cpp:124-127 ManagerInstance::GetNextTs] *)
Definition GetNextTs {S} (s : inst S) : Z * inst S :=
  (i_timestamp s, mkInst (mvcc_array s) (i_txns s) (i_db s) (all_ts s) (u64 (i_timestamp s + 1))).

(** [src/instance/manager_instance.cpp:131-131 ManagerInstance::AddTs] *)
Definition AddTs {S} (thread_id ts : Z) (s : inst S) : res (inst S) :=
  _ ← at_ (all_ts s !! Z.to_nat thread_id);
  Ret (mkInst (mvcc_array s) (i_txns s) (i_db s) (<[Z.to_nat thread_id := ts]> (all_ts s))
         (i_timestamp s)).

(** [src/instance/manager_instance.cpp:133-141 ManagerInstance::GetMinTs] *)
Definition GetMinTs {S} (s : inst S) : Z :=
  foldl (fun min_ts ts => if ts <? min_ts then ts else min_ts) UINT64_MAX (all_ts s).

(** The rows and timestamps of a new instance.
    [src/instance/manager_instance.cpp:109-122 ManagerInstance::InitMvccs] *)
Definition InitMvccs (table_size : nat) (tuple_size : Z) : gmap Z (Row_mvcc * gmap rloc Catalog.RowItem) :=
  list_to_map ((fun k => (Z.of_nat k, (init_mvcc (Z.of_nat k) tuple_size, ∅))) <$> seq 0 table_size).

(** [src/instance/manager_instance.cpp:58-60 all_ts_] *)
Definition new_inst {S} (table_size : nat) (tuple_size : Z) (d : S) : inst S :=
  mkInst (InitMvccs table_size tuple_size) ∅ d (replicate (Z.to_nat THREAD_CNT) UINT64_MAX) 1.

(** ** Row accesses *)

(** The [type] and [data] of an access; the other fields are never used.
    [src/instance/txn/txn.h:22-29 Access] *)
Record Access := mkAccess {
  a_type : access_t;
  a_data : option rptr;
}.

(** [src/instance/txn/txn.h:101-104 accesses] *)
Record txn_man := mkMan {
  thd_id : Z;
  row_cnt : Z;
  wr_cnt : Z;
  accesses : list (option Access);
  num_accesses_alloc : Z;
}.

(** [src/instance/txn/txn.cpp:23-58 txn_man::init] *)
Definition init_txn_man (thd : Z) : txn_man :=
  mkMan thd 0 0 (replicate (Z.to_nat MAX_ROW_PER_TXN) None) 0.

Section Txn.
Context {S : Type} `{RowStore S}.

Definition row_state (key : Z) (s : inst S) : res (mstate S) :=
  '(m, h) ← at_ (mvcc_array s !! key);
  Ret (mkState m h (i_txns s) (i_db s)).

Definition put_row (key : Z) (st : mstate S) (s : inst S) : inst S :=
  mkInst (<[key := (mv st, rows st)]> (mvcc_array s)) (txns st) (db st) (all_ts s) (i_timestamp s).

(** A request to the row of [key], with the smallest active timestamp. *)
Definition access_row (key tid : Z) (type : TsType) (row : option rloc) (s : inst S)
    : res (RC * inst S) :=
  st ← row_state key s;
  '(rc, st) ← access tid type row (GetMinTs s) st;
  Ret (rc, put_row key st s).

(** A thread whose request waits spins until another thread sets [ts_ready].
    [src/common/storage/row_handler.cpp:40-58 RowHandler::GetRow] *)
Definition GetRow (key : Z) (type : access_t) (tid : Z) (row : option rptr) (s : inst S)
    : res (RC * option rptr * inst S) :=
  '(rc, s) ← access_row key tid (if bool_decide (type = RD) then R_REQ else P_REQ) (snd <$> row) s;
  t ← at_ (i_txns s !! tid);
  if bool_decide (rc = RCOK) then Ret (rc, pair key <$> cur_row t, s)
  else if bool_decide (rc = WAIT) then
    if ts_ready t then Ret (rc, pair key <$> cur_row t, s) else Wait
  else Ret (rc, row, s).

(** Nothing happens for [RD] and [SCAN].
    [src/common/storage/row_handler.cpp:60-73 RowHandler::ReturnRow] *)
Definition ReturnRow (key : Z) (type : access_t) (tid : Z) (row : option rptr) (s : inst S)
    : res (inst S) :=
  match type with
  | XP => '(_, s) ← access_row key tid XP_REQ (snd <$> row) s; Ret s
  | WR =>
      assert! bool_decide (row <> None);
      '(_, s) ← access_row key tid W_REQ (snd <$> row) s; Ret s
  | RD | SCAN => Ret s
  end.

(** Following a row pointer. *)
Definition deref_row (p : option rptr) (s : inst S) : res Catalog.RowItem :=
  '(key, l) ← deref p;
  st ← row_state key s;
  row_obj l st.

Definition set_access (i : nat) (a : Access) (tm : txn_man) : txn_man :=
  mkMan (thd_id tm) (row_cnt tm) (wr_cnt tm) (<[i := Some a]> (accesses tm)) (num_accesses_alloc tm).

(** [tuple_size] is the size in the schema of the workload's table.
    [src/instance/txn/txn.cpp:154-228 txn_man::get_row] *)
Definition get_row (tuple_size key : Z) (type : access_t) (tm : txn_man) (s : inst S)
    : res (option rptr * txn_man * inst S) :=
  let i := Z.to_nat (row_cnt tm) in
  slot ← at_ (accesses tm !! i);
  let '(a, tm) := match slot with
    | Some a => (a, tm)
    | None =>
        let a := mkAccess RD None in
        (a, mkMan (thd_id tm) (row_cnt tm) (wr_cnt tm) (<[i := Some a]> (accesses tm))
              (num_accesses_alloc tm + 1))
    end in
  '(rc, d, s) ← GetRow key type (thd_id tm) (a_data a) s;
  let tm := set_access i (mkAccess (a_type a) d) tm in
  if bool_decide (rc = Abort) then Ret (None, tm, s)
  else
    t ← at_ (i_txns s !! thd_id tm);
    assert! bool_decide (d = pair key <$> cur_row t);
    r ← deref_row d s;
    assert! Catalog.key_ r =? key;
    assert! Catalog.size_ r =? tuple_size;
    let tm := set_access i (mkAccess type d) tm in
    Ret (d, mkMan (thd_id tm) (row_cnt tm + 1)
              (if bool_decide (type = WR) then wr_cnt tm + 1 else wr_cnt tm)
              (accesses tm) (num_accesses_alloc tm), s).

(** One access of [cleanup]: its type becomes [XP] when a writer aborts; the
    row is found through the key in the row object.
    [src/instance/txn/txn.cpp:94-127 accesses] *)
Definition return_access (rc : RC) (tid : Z) (s : inst S) (a : Access) : res (inst S) :=
  let type := if bool_decide (a_type a = WR) && bool_decide (rc = Abort) then XP else a_type a in
  r ← deref_row (a_data a) s;
  ReturnRow (Catalog.key_ r) type tid (a_data a) s.

(** [src/instance/txn/txn.cpp:84-149 txn_man::cleanup] *)
Definition cleanup (rc : RC) (tm : txn_man) (s : inst S) : res (txn_man * inst S) :=
  s ← foldM (fun s rid =>
        slot ← at_ (accesses tm !! rid);
        a ← deref slot;
        return_access rc (thd_id tm) s a) s (rev (seq 0 (Z.to_nat (row_cnt tm))));
  Ret (mkMan (thd_id tm) 0 0 (accesses tm) (num_accesses_alloc tm), s).

(** [src/instance/txn/txn.cpp:254-294 txn_man::finish] *)
Definition finish (rc : RC) (tm : txn_man) (s : inst S) : res (RC * txn_man * inst S) :=
  '(tm, s) ← cleanup rc tm s;
  Ret (rc, tm, s).
End Txn.

(** ** Soundness of an instance *)

Section Correct.
Context {S : Type} `{RowStoreSpec S}.

(** Every row is sound with the shared transactions and storage. *)
Definition inst_wf (s : inst S) : Prop :=
  forall key m h, mvcc_array s !! key = Some (m, h) ->
    m_key m = key /\ st_wf (mkState m h (i_txns s) (i_db s)).

(** A row does not notice what happens to other rows. *)
Lemma st_wf_frame (m : Row_mvcc) (h : gmap rloc Catalog.RowItem) (t t' : gmap Z txn_state) (d d' : S) :
  st_wf (mkState m h t d) -> txns_kept (mkState m h t d) (mkState m h t' d') ->
  rows_ok d' -> row_val d' (m_key m) = row_val d (m_key m) ->
  st_wf (mkState m h t' d').
Proof.
  intros ([Hmv Hsz Hobjs Hrow [Hdb Hv] Hlat] & Hq & Hw) Ht Hd Hval. cbn in *. split; [|split; [done|]].
  - split; cbn; rewrite ?Hval; done.
  - intros i r Hi Hr. destruct (Hw i r Hi Hr) as (u & Hu & Hts).
    destruct (Ht _ _ Hu) as (u' & Hu' & Hts'). exists u'. split; [done|congruence].
Qed.

(** Putting back the state of one row. *)
Lemma put_row_wf (key : Z) (m : Row_mvcc) (h : gmap rloc Catalog.RowItem) (st : mstate S) (s : inst S) :
  inst_wf s -> mvcc_array s !! key = Some (m, h) -> st_wf st -> m_key (mv st) = key ->
  txns_kept (mkState m h (i_txns s) (i_db s)) st ->
  (forall k, k <> key -> row_val (db st) k = row_val (i_db s) k) ->
  inst_wf (put_row key st s).
Proof.
  intros Hs Hk Hst Hkey Ht Hval k m' h'. cbn [put_row mvcc_array i_txns i_db].
  rewrite lookup_insert_Some. intros [[<- [= <- <-]]|[Hne Hk']].
  - split; [done|]. by destruct st.
  - destruct (Hs k m' h' Hk') as [Hmk Hwf]. split; [done|].
    apply (st_wf_frame m' h' (i_txns s) (txns st) (i_db s) (db st)); [done|exact Ht| |].
    + apply Hst.
    + rewrite Hmk. by apply Hval.
Qed.

(** The write access of the transaction at [ts] to row [key]: object [l] holds [b]. *)
Record holds (s : inst S) (ts : Z) (key : Z) (l : rloc) (b : bytes) : Prop := mk_holds {
  hd_row : exists m h, mvcc_array s !! key = Some (m, h) /\ prewritten m ts l
    /\ row_bytes (mkState m h (i_txns s) (i_db s)) (Some l) = Some b;
  hd_key : load_u64 b 0 = Ret key;
}.

(** What the end of an access to [key] leaves alone, and that the row is free
    of prewrites at [ts] afterwards. *)
Record ends (ts : Z) (key : Z) (s s' : inst S) : Prop := mk_ends {
  en_wf : inst_wf s';
  en_other : forall k, k <> key -> mvcc_array s' !! k = mvcc_array s !! k;
  en_val : forall k, k <> key -> row_val (i_db s') k = row_val (i_db s) k;
  en_txns : forall tid u, i_txns s !! tid = Some u -> exists u', i_txns s' !! tid = Some u' /\ t_ts u' = t_ts u;
  en_free : exists m h, mvcc_array s' !! key = Some (m, h)
    /\ (exists_prewrite m = true -> ts < prewrite_ts m);
}.

Lemma return_commit (s : inst S) (tid : Z) (t : txn_state) (key : Z) (l : rloc) (b : bytes) :
  inst_wf s -> i_txns s !! tid = Some t -> holds s (t_ts t) key l b ->
  exists s', ReturnRow key WR tid (Some (key, l)) s = Ret s' /\ ends (t_ts t) key s s'
    /\ row_val (i_db s') key = Some b.
Proof.
  intros Hs Ht [(m & h & Hk & Hp & Hb) Hkey]. destruct (Hs key m h Hk) as [Hmk Hwf].
  rewrite <- Hmk in Hkey.
  destruct (write_spec (GetMinTs s) t l b (mkState m h (i_txns s) (i_db s)) Hwf Hp Hb Hkey)
    as (st & Ha & Hst & _ & (Hmk' & _) & Hv & Hother & _ & Htx & Hfree & _).
  cbn [mv] in *. rewrite Hmk in Hv, Hother. eexists. split.
  { cbn [ReturnRow]. rewrite bool_decide_eq_true_2 by done. unfold access_row, row_state. rewrite Hk.
    cbn [at_ mbind res_bind fmap option_fmap option_map snd]. unfold access. cbn [txns]. rewrite Ht.
    cbn [at_ mbind res_bind]. rewrite Ha. done. }
  split; [|done]. split.
  - apply (put_row_wf key m h); try done. by rewrite Hmk'.
  - intros k Hne. cbn. by rewrite lookup_insert_ne.
  - intros k Hne. by apply Hother.
  - exact Htx.
  - exists (mv st), (rows st). cbn. rewrite lookup_insert_eq. done.
Qed.

Lemma return_withdraw (s : inst S) (tid : Z) (t : txn_state) (key : Z) (l : rloc) (b : bytes) :
  inst_wf s -> i_txns s !! tid = Some t -> holds s (t_ts t) key l b ->
  exists s', ReturnRow key XP tid (Some (key, l)) s = Ret s' /\ ends (t_ts t) key s s'
    /\ row_val (i_db s') key = row_val (i_db s) key.
Proof.
  intros Hs Ht [(m & h & Hk & Hp & Hb) Hkey]. destruct (Hs key m h Hk) as [Hmk Hwf].
  destruct (abort_spec (GetMinTs s) t l (mkState m h (i_txns s) (i_db s)) Hwf Hp)
    as (st & Ha & Hst & _ & (Hmk' & _) & Hv & _ & Htx & Hfree & _).
  cbn [mv] in *. eexists. split.
  { cbn [ReturnRow]. unfold access_row, row_state. rewrite Hk.
    cbn [at_ mbind res_bind fmap option_fmap option_map snd]. unfold access. cbn [txns]. rewrite Ht.
    cbn [at_ mbind res_bind]. rewrite Ha. done. }
  split; [|apply Hv]. split.
  - apply (put_row_wf key m h); try done. by rewrite Hmk'.
  - intros k Hne. cbn. by rewrite lookup_insert_ne.
  - intros k Hne. apply Hv.
  - exact Htx.
  - exists (mv st), (rows st). cbn. rewrite lookup_insert_eq. done.
Qed.

(** An access as [get_row] leaves it: a write holds a prewrite, a read points
    to a row object that is still there. *)
Definition acc_ok (s : inst S) (ts : Z) (a : Access) : Prop :=
  exists key l, a_data a = Some (key, l) /\
    ((a_type a = WR /\ exists b, holds s ts key l b)
     \/ (a_type a = RD /\ exists m h r, mvcc_array s !! key = Some (m, h) /\ h !! l = Some r
         /\ Catalog.key_ r = key)).

Definition acc_key (a : Access) : Z := default 0 (fst <$> a_data a).

(** The writes of a transaction. *)
Definition writes (s : inst S) (ts : Z) (accs : list Access) (key : Z) (b : bytes) : Prop :=
  exists a l, a ∈ accs /\ a_type a = WR /\ a_data a = Some (key, l) /\ holds s ts key l b.

Lemma deref_held (s : inst S) (ts key : Z) (l : rloc) (b : bytes) :
  inst_wf s -> holds s ts key l b ->
  exists r, deref_row (Some (key, l)) s = Ret r /\ Catalog.key_ r = key.
Proof.
  intros Hs [(m & h & Hk & (Hex & _ & e & He & Hr) & _) _]. destruct (Hs key m h Hk) as [Hmk (Hb & _)].
  destruct (st_objs _ Hb _ e l He Hr) as (b0 & r & Hl & -> & _). cbn in Hl.
  eexists. unfold deref_row, row_state, row_obj. cbn [deref mbind res_bind]. rewrite Hk. cbn [at_ mbind res_bind rows].
  rewrite Hl. done.
Qed.

Lemma acc_ok_frame (ts key : Z) (s s' : inst S) (a : Access) :
  ends ts key s s' -> acc_key a <> key -> acc_ok s ts a -> acc_ok s' ts a.
Proof.
  intros He Hne (k & l & Hd & Hor). unfold acc_key in Hne. rewrite Hd in Hne. cbn in Hne.
  exists k, l. split; [done|]. destruct Hor as [[Ht (b & [(m & h & Hk & Hrest) Hkey])]|[Ht (m & h & r & Hk & Hrest)]].
  - left. split; [done|]. exists b. split; [|done]. exists m, h. by rewrite (en_other _ _ _ _ He).
  - right. split; [done|]. exists m, h, r. by rewrite (en_other _ _ _ _ He).
Qed.

(** One access of [cleanup]. *)
Lemma return_access_spec (rc : RC) (tid : Z) (t : txn_state) (s : inst S) (a : Access) :
  inst_wf s -> i_txns s !! tid = Some t -> acc_ok s (t_ts t) a ->
  (a_type a = RD /\ return_access rc tid s a = Ret s)
  \/ (a_type a = WR /\ exists s', return_access rc tid s a = Ret s' /\ ends (t_ts t) (acc_key a) s s'
      /\ exists l b, a_data a = Some (acc_key a, l) /\ holds s (t_ts t) (acc_key a) l b
         /\ row_val (i_db s') (acc_key a)
            = if bool_decide (rc = Abort) then row_val (i_db s) (acc_key a) else Some b).
Proof.
  intros Hs Ht (key & l & Hd & Hor). unfold acc_key, return_access. rewrite Hd. cbn [fmap option_fmap option_map fst default].
  destruct Hor as [[-> (b & Hh)]|[-> (m & h & r & Hk & Hl & Hkey)]].
  - right. split; [done|]. destruct (deref_held s (t_ts t) key l b Hs Hh) as (r & -> & Hkr).
    cbn [mbind res_bind]. rewrite Hkr. change (bool_decide (WR = WR)) with true. cbn [andb].
    destruct (bool_decide (rc = Abort)).
    + destruct (return_withdraw s tid t key l b Hs Ht Hh) as (s' & -> & He & Hv). eauto 10.
    + destruct (return_commit s tid t key l b Hs Ht Hh) as (s' & -> & He & Hv). eauto 10.
  - left. split; [done|]. unfold deref_row, row_state, row_obj. cbn [deref mbind res_bind]. rewrite Hk.
    cbn [at_ mbind res_bind rows]. rewrite Hl. done.
Qed.

(** What the whole clean-up achieves. *)
Record cleaned (rc : RC) (ts : Z) (accs : list Access) (s s' : inst S) : Prop := mk_cleaned {
  cl_wf : inst_wf s';
  cl_commit : rc <> Abort -> forall key b, writes s ts accs key b -> row_val (i_db s') key = Some b;
  cl_rest : forall key, (rc = Abort \/ forall b, ~ writes s ts accs key b) ->
    row_val (i_db s') key = row_val (i_db s) key;
  cl_free : forall key b, writes s ts accs key b -> exists m h, mvcc_array s' !! key = Some (m, h)
    /\ (exists_prewrite m = true -> ts < prewrite_ts m);
  cl_other : forall key, key ∉ (acc_key <$> accs) -> mvcc_array s' !! key = mvcc_array s !! key;
}.

Lemma writes_key (s : inst S) (ts : Z) (accs : list Access) (key : Z) (b : bytes) :
  writes s ts accs key b -> key ∈ (acc_key <$> accs).
Proof.
  intros (a & l & Ha & _ & Hd & _). apply list_elem_of_fmap. exists a. split; [|done].
  unfold acc_key. by rewrite Hd.
Qed.

(** The writes to other rows are the same before and after an access ends. *)
Lemma writes_frame (ts key k : Z) (accs : list Access) (s s' : inst S) (b : bytes) :
  ends ts key s s' -> k <> key -> (writes s' ts accs k b <-> writes s ts accs k b).
Proof.
  intros He Hne. unfold writes. split; intros (a & l & Ha & Ht & Hd & [(m & h & Hk & Hrest) Hkey]);
    exists a, l; (split; [done|]; split; [done|]; split; [done|]; split; [|done]); exists m, h.
  - by rewrite <- (en_other _ _ _ _ He k Hne).
  - by rewrite (en_other _ _ _ _ He k Hne).
Qed.

Lemma cleaned_nil (rc : RC) (ts : Z) (s : inst S) : inst_wf s -> cleaned rc ts [] s s.
Proof.
  intros Hs. assert (forall key b, ~ writes s ts [] key b) as Hno.
  { intros key b (a & l & Ha & _). by apply elem_of_nil in Ha. }
  split; [done|..]; intros; try done; exfalso; by eapply Hno.
Qed.

Lemma cleaned_read (rc : RC) (ts : Z) (a : Access) (accs : list Access) (s s' : inst S) :
  a_type a = RD -> cleaned rc ts accs s s' -> cleaned rc ts (a :: accs) s s'.
Proof.
  intros Htype [H1 H2 H3 H4 H5].
  assert (forall key b, writes s ts (a :: accs) key b <-> writes s ts accs key b) as Hw.
  { intros key b. split; intros (a' & l & Ha' & Ht' & Hrest).
    - apply elem_of_cons in Ha' as [->|Ha']; [congruence|]. exists a', l. auto.
    - exists a', l. split; [by apply elem_of_cons; right|auto]. }
  split; [done|..].
  - intros Hrc key b Hwr. apply H2; [done|]. by apply Hw.
  - intros key Hor. apply H3. destruct Hor as [|Hor]; [by left|right]. intros b Hwr. by apply (Hor b), Hw.
  - intros key b Hwr. apply (H4 key b). by apply Hw.
  - intros key Hk. apply H5. cbn in Hk. set_solver.
Qed.

Lemma writes_cons (ts : Z) (a : Access) (l : rloc) (b : bytes) (accs : list Access) (s s1 : inst S)
    (key : Z) (b' : bytes) :
  a_data a = Some (acc_key a, l) -> holds s ts (acc_key a) l b -> ends ts (acc_key a) s s1 ->
  acc_key a ∉ (acc_key <$> accs) -> writes s ts (a :: accs) key b' ->
  (key = acc_key a /\ b' = b) \/ (key <> acc_key a /\ writes s1 ts accs key b').
Proof.
  intros Hd Hh He Hnotin (a' & l' & Ha' & Ht' & Hd' & Hh'). apply elem_of_cons in Ha' as [->|Ha'].
  - left. rewrite Hd in Hd'. injection Hd' as <- <-. split; [done|].
    destruct Hh as [(m & h & Hk & _ & Hb) _], Hh' as [(m' & h' & Hk' & _ & Hb') _].
    rewrite Hk in Hk'. injection Hk' as <- <-. rewrite Hb in Hb'. by injection Hb' as <-.
  - right. assert (key <> acc_key a) as Hne.
    { intros ->. apply Hnotin. apply list_elem_of_fmap. exists a'. split; [|done].
      unfold acc_key at 2. by rewrite Hd'. }
    split; [done|]. apply (writes_frame ts (acc_key a) key accs s s1 b' He Hne). exists a', l'. auto.
Qed.

Lemma cleaned_write (rc : RC) (ts : Z) (a : Access) (l : rloc) (b : bytes) (accs : list Access) (s s1 s' : inst S) :
  a_type a = WR -> a_data a = Some (acc_key a, l) -> holds s ts (acc_key a) l b -> ends ts (acc_key a) s s1 ->
  row_val (i_db s1) (acc_key a) = (if bool_decide (rc = Abort) then row_val (i_db s) (acc_key a) else Some b) ->
  acc_key a ∉ (acc_key <$> accs) -> cleaned rc ts accs s1 s' -> cleaned rc ts (a :: accs) s s'.
Proof.
  intros Htype Hd Hh He Hv Hnotin [H1 H2 H3 H4 H5].
  pose proof (fun key b' => writes_cons ts a l b accs s s1 key b' Hd Hh He Hnotin) as Hw.
  assert (forall b', ~ writes s1 ts accs (acc_key a) b') as Hno by (intros b' Hwr; by apply writes_key in Hwr).
  split; [done|..].
  - intros Hrc key b' Hwr. destruct (Hw key b' Hwr) as [[-> ->]|[Hne Hwr']]; [|by apply H2].
    rewrite H3 by (right; apply Hno). rewrite Hv. by rewrite bool_decide_eq_false_2.
  - intros key Hor. destruct (decide (key = acc_key a)) as [->|Hne].
    + destruct Hor as [-> |Hor]; [rewrite H3 by (by left); rewrite Hv; by rewrite bool_decide_eq_true_2|].
      exfalso. apply (Hor b). exists a, l. split; [by apply elem_of_cons; left|done].
    + rewrite H3; [by apply (en_val _ _ _ _ He)|]. destruct Hor as [|Hor]; [by left|right].
      intros b' Hwr. apply (Hor b'). apply (writes_frame ts (acc_key a) key accs s s1 b' He Hne) in Hwr.
      destruct Hwr as (a' & l' & Ha' & Hrest). exists a', l'. split; [by apply elem_of_cons; right|done].
  - intros key b' Hwr. destruct (Hw key b' Hwr) as [[-> ->]|[Hne Hwr']]; [|by apply (H4 key b')].
    rewrite H5 by done. apply (en_free _ _ _ _ He).
  - intros key Hk. cbn in Hk. rewrite H5 by set_solver. apply (en_other _ _ _ _ He). set_solver.
Qed.

Lemma cleanup_list (rc : RC) (tid ts : Z) (accs : list Access) (s : inst S) :
  inst_wf s -> (exists t, i_txns s !! tid = Some t /\ t_ts t = ts) -> Forall (acc_ok s ts) accs ->
  NoDup (acc_key <$> accs) ->
  exists s', foldM (return_access rc tid) s accs = Ret s' /\ cleaned rc ts accs s s'.
Proof.
  revert s. induction accs as [|a accs IH]; intros s Hs (t & Ht & Hts) Hall Hnd.
  { exists s. split; [done|]. by apply cleaned_nil. }
  apply list.Forall_cons in Hall as [Ha Hall]. cbn in Hnd. apply list.NoDup_cons in Hnd as [Hnotin Hnd].
  rewrite <- Hts in Ha. cbn [foldM].
  destruct (return_access_spec rc tid t s a Hs Ht Ha) as [[Htype ->]|(Htype & s1 & -> & He & l & b & Hd & Hh & Hv)];
    cbn [mbind res_bind].
  - destruct (IH s Hs ltac:(eauto) Hall Hnd) as (s' & -> & Hc). exists s'. split; [done|]. by apply cleaned_read.
  - rewrite Hts in *. destruct (IH s1 (en_wf _ _ _ _ He)) as (s' & -> & Hc).
    { destruct (en_txns _ _ _ _ He tid t Ht) as (u & Hu & Htu). exists u. split; [done|congruence]. }
    { apply list.Forall_forall. intros a' Ha'. rewrite list.Forall_forall in Hall.
      apply (acc_ok_frame ts (acc_key a) s); [done| |by apply Hall].
      intros Heq. apply Hnotin. rewrite <- Heq. apply list_elem_of_fmap. eauto. }
    { done. }
    exists s'. split; [done|]. by apply (cleaned_write rc ts a l b accs s s1).
Qed.
End Correct.
