(* ===== verification/TxnCorrect.v ===== *)
(** * db2: transactions end all or nothing

    The end of a transaction over several rows, and two transactions that the
    row and transaction code do not handle. *)

From S2P Require Import Prelude Config RowStore RowMvcc RowMvccInv RowMvccState RowMvccServe Mvcc MvccCorrect Txn.
From S2P Require Catalog.

(** Walking an array of accesses by index is walking the list of them. *)
Lemma foldM_accesses {A} (g : A -> Access -> res A) (arr : list (option Access)) (accs : list Access) (s : A) :
  (forall i a, accs !! i = Some a -> arr !! i = Some (Some a)) ->
  foldM (fun s rid => slot ← at_ (arr !! rid); a ← deref slot; g s a) s (rev (seq 0 (length accs)))
  = foldM g s (rev accs).
Proof.
  revert s. induction accs as [|a accs IH] using rev_ind; intros s Harr; [done|].
  rewrite length_app, Nat.add_1_r, seq_S, rev_app_distr, rev_app_distr. cbn [rev app foldM Nat.add].
  rewrite (Harr (length accs) a) by (by apply list_lookup_middle). cbn [at_ deref mbind res_bind].
  destruct (g s a) as [s'| |]; cbn [mbind res_bind]; [|done|done].
  apply IH. intros i b Hi. apply Harr. by apply lookup_app_l_Some.
Qed.

Section Finish.
Context {S : Type} `{RowStoreSpec S}.

(** The accesses made so far, in order. *)
Definition made (tm : txn_man) (accs : list Access) : Prop :=
  0 <= row_cnt tm /\ take (Z.to_nat (row_cnt tm)) (accesses tm) = Some <$> accs
  /\ length accs = Z.to_nat (row_cnt tm).

Lemma made_lookup (tm : txn_man) (accs : list Access) (i : nat) (a : Access) :
  made tm accs -> accs !! i = Some a -> accesses tm !! i = Some (Some a).
Proof.
  intros (_ & Ht & Hl) Hi. apply lookup_lt_Some in Hi as Hlt.
  rewrite <- (lookup_take_lt (accesses tm) (Z.to_nat (row_cnt tm)) i), Ht by lia.
  by rewrite list_lookup_fmap, Hi.
Qed.

Lemma finish_spec (rc : RC) (tm : txn_man) (accs : list Access) (t : txn_state) (s : inst S) :
  inst_wf s -> i_txns s !! thd_id tm = Some t -> made tm accs ->
  Forall (acc_ok s (t_ts t)) accs -> NoDup (acc_key <$> accs) ->
  exists tm' s', finish rc tm s = Ret (rc, tm', s') /\ row_cnt tm' = 0 /\ inst_wf s'
    /\ (forall key b, writes s (t_ts t) accs key b ->
          row_val (i_db s') key = (if bool_decide (rc = Abort) then row_val (i_db s) key else Some b)
          /\ exists m h, mvcc_array s' !! key = Some (m, h)
             /\ (exists_prewrite m = true -> t_ts t < prewrite_ts m))
    /\ (forall key, (forall b, ~ writes s (t_ts t) accs key b) ->
          row_val (i_db s') key = row_val (i_db s) key).
Proof.
  intros Hs Ht Hm Hall Hnd. unfold finish, cleanup. rewrite <- (proj2 (proj2 Hm)).
  rewrite foldM_accesses by (intros i a; by apply made_lookup).
  destruct (cleanup_list rc (thd_id tm) (t_ts t) (rev accs) s) as (s' & -> & [H1 H2 H3 H4 _]); [done|eauto|..].
  { by rewrite <- (Permutation_rev accs). }
  { by rewrite <- (Permutation_rev accs). }
  assert (forall key b, writes s (t_ts t) (rev accs) key b <-> writes s (t_ts t) accs key b) as Hw.
  { intros key b. unfold writes. by setoid_rewrite <- (Permutation_rev accs). }
  cbn [mbind res_bind]. eexists _, s'. split; [done|]. split; [done|]. split; [done|]. split.
  - intros key b Hwr. apply Hw in Hwr. split; [|by apply (H4 key b)].
    case_bool_decide as Hrc; [by apply H3; left|by apply H2].
  - intros key Hno. apply H3. right. intros b Hwr. by apply (Hno b), Hw.
Qed.

End Finish.

(** ** Transactions the code does not handle *)

Module Runs.

(** One row, and two threads whose transactions have timestamps 5 and 9. *)
Definition i0 : inst MapStore.t :=
  mkInst {[7 := (init_mvcc 7 16, ∅)]} {[1 := mkTxn 5 None false; 2 := mkTxn 9 None false]}
    MapStore.d0 [5; 9; UINT64_MAX; UINT64_MAX] 10.

(** A transaction that makes the given accesses to row 7 and commits. *)
Definition run (tid : Z) (types : list access_t) (s : inst MapStore.t) : res (inst MapStore.t) :=
  '(tm, s) ← foldM (fun '(tm, s) type =>
               '(_, tm, s) ← get_row 16 7 type tm s; Ret (tm, s)) (init_txn_man tid, s) types;
  '(_, _, s) ← finish RCOK tm s;
  Ret s.

(** The state of a transaction that has prewritten row 7 and changed it. *)
Definition i_pre : inst MapStore.t :=
  mkInst {[7 := (mv MapStore.s_pre, rows MapStore.s_pre)]} (txns MapStore.s_pre) (db MapStore.s_pre)
    [UINT64_MAX; 5; UINT64_MAX; UINT64_MAX] 6.

Definition tm_pre : txn_man :=
  mkMan 1 1 1 (Some (mkAccess WR (Some (7, 0%nat))) :: replicate 63 None) 1.

Lemma i_pre_wf : inst_wf i_pre.
Proof.
  intros key m h Hk. cbn in Hk. apply lookup_singleton_Some in Hk as [<- [= <- <-]].
  split; [vm_compute; reflexivity|]. apply MapStore.s_pre_wf.
Qed.

Lemma i_pre_holds : holds i_pre 5 7 0 (bytes_of_u64 7 ++ bytes_of_u64 5).
Proof.
  split; [|vm_compute; reflexivity]. eexists _, _. split; [reflexivity|].
  split; [apply MapStore.s_pre_prewritten|vm_compute; reflexivity].
Qed.
End Runs.

(** A transaction that reads a row and then writes it uses freed memory
    when it commits: the write is returned first, which deletes the row object
    the read points to, and the key of the read's row is taken from that
    object. *)
Theorem txn_read_then_write_faults : Runs.run 1 [RD; WR] Runs.i0 = Fault UseAfterFree.
Proof. vm_compute. reflexivity. Qed.

(** A scan prewrites its row and never gives the prewrite back: after the
    scanning transaction has committed, every later reader of the row waits for
    it for ever. *)
Theorem txn_scan_blocks_readers :
  exists s, Runs.run 1 [SCAN] Runs.i0 = Ret s /\ Runs.run 2 [RD] s = Wait.
Proof. eexists. split; [vm_compute; reflexivity|vm_compute; reflexivity]. Qed.

