(* ===== verification/Thread.v ===== *)
(** * db2: the worker threads ([instance/thread.cpp])

    A thread takes a query, new or from its buffer of aborted queries, gives it
    a transaction id and a timestamp, runs it, and puts it back into the buffer
    when it aborts, until it has committed [MAX_TXN_PER_PART] queries.  The
    queue of queries and the transaction are arguments; so are the readings of
    the clock and the random penalties. *)

From S2P Require Import Prelude Config RowMvcc Txn.

(** [src/instance/thread.h:49-52 AbortBufferEntry] *)
Record AbortBufferEntry (Q : Type) := mkEntry {
  ready_time : Z;
  query : option Q;
}.
Arguments mkEntry {Q}.
Arguments ready_time {Q}.
Arguments query {Q}.

(** The fields of the thread and the local variables of [run].
    [src/instance/thread.h:53-56 _abort_buffer] *)
Record thread_t (Q : Type) := mkThread {
  _thd_id : Z;
  _abort_buffer : list (AbortBufferEntry Q);
  _abort_buffer_empty_slots : Z;
  _abort_buffer_enable : bool;
  th_rc : RC;
  m_query : option Q;
  thd_txn_id : Z;
  txn_cnt : Z;
}.
Arguments mkThread {Q}.
Arguments _thd_id {Q}.
Arguments _abort_buffer {Q}.
Arguments _abort_buffer_empty_slots {Q}.
Arguments _abort_buffer_enable {Q}.
Arguments th_rc {Q}.
Arguments m_query {Q}.
Arguments thd_txn_id {Q}.
Arguments txn_cnt {Q}.

Definition abort_buffer_size {Q} (th : thread_t Q) : Z := Z.of_nat (length (_abort_buffer th)).

Definition set_buffer {Q} (ab : list (AbortBufferEntry Q)) (slots : Z) (th : thread_t Q) : thread_t Q :=
  mkThread (_thd_id th) ab slots (_abort_buffer_enable th) (th_rc th) (m_query th)
    (thd_txn_id th) (txn_cnt th).

(** [src/instance/thread.cpp:15-25 thread_t::init] *)
Definition init_thread {Q} (thd : Z) (enable : bool) : thread_t Q :=
  mkThread thd (replicate (Z.to_nat ABORT_BUFFER_SIZE) (mkEntry 0 None)) ABORT_BUFFER_SIZE enable
    RCOK None 0 0.

(** The scan of the abort buffer: the first entry that is ready is taken; when
    the buffer is full the smallest ready time is kept.
    [src/instance/thread.cpp:93-104 min_ready_time] *)
Fixpoint scan_abort {Q} (curr_time slots : Z) (ab : list (AbortBufferEntry Q)) (min_ready_time : Z)
    : option (Q * list (AbortBufferEntry Q)) * Z :=
  match ab with
  | [] => (None, min_ready_time)
  | e :: ab =>
      match query e with
      | Some q =>
          if ready_time e <? curr_time
          then (Some (q, mkEntry (ready_time e) None :: ab), min_ready_time)
          else
            let m := if (slots =? 0) && (ready_time e <? min_ready_time) then ready_time e
                     else min_ready_time in
            let '(r, m) := scan_abort curr_time slots ab m in
            ((fun '(q, ab) => (q, e :: ab)) <$> r, m)
      | None =>
          let m := if (slots =? 0) && (ready_time e <? min_ready_time) then ready_time e
                   else min_ready_time in
          let '(r, m) := scan_abort curr_time slots ab m in
          ((fun '(q, ab) => (q, e :: ab)) <$> r, m)
      end
  end.

(** The first free entry of the abort buffer takes the query.
    [src/instance/thread.cpp:199-206 ready_time] *)
Fixpoint put_abort {Q} (q : Q) (ready : Z) (ab : list (AbortBufferEntry Q))
    : option (list (AbortBufferEntry Q)) :=
  match ab with
  | [] => None
  | e :: ab =>
      match query e with
      | None => Some (mkEntry ready (Some q) :: ab)
      | Some _ => cons e <$> put_abort q ready ab
      end
  end.

Section Thread.
Context {Q K S : Type}.

(** The query queue, and the run of a transaction with an id and a timestamp. *)
Context (get_next_query : Z -> K -> res (Q * K)).
Context (run_txn : Z -> Z -> Q -> inst S -> res (RC * inst S)).

(** Choosing a query while the buffer is in use.  Every round reads the clock;
    [trial] is never changed, so a round that finds the buffer full and nothing
    ready sleeps and tries again.  [None] stands for a clock that ran out.
    [src/instance/thread.cpp:84-121 trial] *)
Fixpoint pick_buffered (clock : list Z) (th : thread_t Q) (k : K)
    : res (Q * list Z * thread_t Q * K) :=
  match clock with
  | [] => Fault OutOfFuel
  | curr_time :: clock =>
      let '(found, min_ready_time) :=
        if _abort_buffer_empty_slots th <? abort_buffer_size th
        then scan_abort curr_time (_abort_buffer_empty_slots th) (_abort_buffer th) UINT64_MAX
        else (None, UINT64_MAX) in
      match found with
      | Some (q, ab) => Ret (q, clock, set_buffer ab (_abort_buffer_empty_slots th + 1) th, k)
      | None =>
          if _abort_buffer_empty_slots th =? 0 then
            assert! curr_time <=? min_ready_time;
            pick_buffered clock th k
          else
            '(q, k) ← get_next_query (_thd_id th) k; Ret (q, clock, th, k)
      end
  end.

(** [src/instance/thread.cpp:82-128 m_query] *)
Definition pick_query (clock : list Z) (th : thread_t Q) (k : K) : res (Q * list Z * thread_t Q * K) :=
  if _abort_buffer_enable th then pick_buffered clock th k
  else if bool_decide (th_rc th = RCOK) then
    '(q, k) ← get_next_query (_thd_id th) k; Ret (q, clock, th, k)
  else q ← deref (m_query th); Ret (q, clock, th, k).

(** The timestamp is taken twice and the first one is dropped.
    [src/instance/thread.cpp:274-281 thread_t::get_next_ts] *)
Definition get_next_ts (s : inst S) : Z * inst S :=
  let '(_, s) := GetNextTs s in GetNextTs s.

(** [src/instance/txn/txn.cpp:76-78 txn_man::set_ts] *)
Definition set_ts (tid ts : Z) (s : inst S) : inst S :=
  mkInst (mvcc_array s)
    (<[tid := match i_txns s !! tid with
              | Some t => mkTxn ts (cur_row t) (ts_ready t)
              | None => mkTxn ts None false
              end]> (i_txns s)) (i_db s) (all_ts s) (i_timestamp s).

(** What an aborted query leads to; the penalty is a random [uint64_t].
    [src/instance/thread.cpp:188-208 penalty] *)
Definition after_abort (q : Q) (now penalty : Z) (th : thread_t Q) : res (thread_t Q) :=
  if _abort_buffer_enable th then
    assert! 0 <? _abort_buffer_empty_slots th;
    match put_abort q (u64 (now + penalty)) (_abort_buffer th) with
    | Some ab => Ret (set_buffer ab (_abort_buffer_empty_slots th - 1) th)
    | None => Ret th
    end
  else Ret th.

(** One round of the loop of a thread; the flag says that it is over.  The main
    program sets [warmup_finish] before it starts the threads, so the test of it
    at the end of a round is true.
    [src/instance/thread.cpp:75-270 thd_txn_id] *)
Definition iteration (clock : list Z) (now penalty : Z) (th : thread_t Q) (k : K) (s : inst S)
    : res (bool * thread_t Q * K * inst S) :=
  '(q, _, th, k) ← pick_query clock th k;
  let txn_id := _thd_id th + thd_txn_id th * THREAD_CNT in
  let '(ts, s) := get_next_ts s in
  let s := set_ts (_thd_id th) ts s in
  s ← AddTs (_thd_id th) ts s;
  '(rc, s) ← run_txn txn_id ts q s;
  let th := mkThread (_thd_id th) (_abort_buffer th) (_abort_buffer_empty_slots th)
              (_abort_buffer_enable th) rc (Some q) (thd_txn_id th + 1) (txn_cnt th) in
  th ← (if bool_decide (rc = Abort) then after_abort q now penalty th else Ret th);
  let cnt := if bool_decide (rc = RCOK) then txn_cnt th + 1 else txn_cnt th in
  let th := mkThread (_thd_id th) (_abort_buffer th) (_abort_buffer_empty_slots th)
              (_abort_buffer_enable th) (th_rc th) (m_query th) (thd_txn_id th) cnt in
  if MAX_TXN_PER_PART <=? cnt then
    assert! cnt =? MAX_TXN_PER_PART;
    Ret (true, th, k, s)
  else Ret (false, th, k, s).

(** The loop, over the readings of the clock and the penalties of each round.
    [src/instance/thread.cpp:44-272 thread_t::run] *)
Fixpoint run (env : list (list Z * Z * Z)) (th : thread_t Q) (k : K) (s : inst S)
    : res (RC * thread_t Q * K * inst S) :=
  match env with
  | [] => Fault OutOfFuel
  | (clock, now, penalty) :: env =>
      '(over, th, k, s) ← iteration clock now penalty th k s;
      if (over : bool) then Ret (FINISH, th, k, s) else run env th k s
  end.
End Thread.

(** ** The buffer of aborted queries *)

Definition pending {Q} (ab : list (AbortBufferEntry Q)) : list Q := omap query ab.

Lemma pending_length {Q} (ab : list (AbortBufferEntry Q)) : (length (pending ab) <= length ab)%nat.
Proof. induction ab as [|[t [q|]] ab IH]; simpl; lia. Qed.

Lemma pending_full {Q} (ab : list (AbortBufferEntry Q)) (e : AbortBufferEntry Q) :
  length (pending ab) = length ab -> e ∈ ab -> query e <> None.
Proof.
  induction ab as [|[t [q|]] ab IH]; simpl; intros Hl He.
  - by apply elem_of_nil in He.
  - apply elem_of_cons in He as [->|He]; [done|]. apply IH; [|done]. unfold pending in *. lia.
  - pose proof (pending_length ab). unfold pending in *. lia.
Qed.

Lemma scan_abort_spec {Q} (curr_time slots m : Z) (ab : list (AbortBufferEntry Q)) :
  match scan_abort curr_time slots ab m with
  | (Some (q, ab'), _) => pending ab ≡ₚ q :: pending ab' /\ length ab' = length ab
  | (None, m') =>
      (forall e q, e ∈ ab -> query e = Some q -> curr_time <= ready_time e)
      /\ ((forall e, e ∈ ab -> query e <> None) -> curr_time <= m -> curr_time <= m')
  end.
Proof.
  revert m. induction ab as [|[t [q|]] ab IH]; intros m; cbn [scan_abort query ready_time].
  - split; [|done]. intros e q He. by apply elem_of_nil in He.
  - destruct (Z.ltb_spec t curr_time); [by split|].
    set (m1 := if (slots =? 0) && (t <? m) then t else m).
    specialize (IH m1). destruct (scan_abort curr_time slots ab m1) as [[[q' ab']|] m']; cbn.
    + destruct IH as [Hp Hl]. split; [|lia]. fold (pending ab) (pending ab'). rewrite Hp. apply Permutation_swap.
    + destruct IH as [Hr Hm]. split.
      * intros e q0 He Hq. apply elem_of_cons in He as [->|He]; [done|by apply (Hr e q0)].
      * intros Hall Hcm. apply Hm; [intros e He; apply Hall; by apply elem_of_cons; right|].
        unfold m1. destruct ((slots =? 0) && (t <? m)); lia.
  - set (m1 := if (slots =? 0) && (t <? m) then t else m).
    specialize (IH m1). destruct (scan_abort curr_time slots ab m1) as [[[q' ab']|] m']; cbn.
    + destruct IH as [Hp Hl]. split; [done|lia].
    + destruct IH as [Hr Hm]. split.
      * intros e q0 He Hq. apply elem_of_cons in He as [->|He]; [done|by apply (Hr e q0)].
      * intros Hall _. exfalso. by apply (Hall (mkEntry t None)); [apply elem_of_cons; left|].
Qed.

Lemma put_abort_spec {Q} (q : Q) (ready : Z) (ab : list (AbortBufferEntry Q)) :
  (length (pending ab) < length ab)%nat ->
  exists ab', put_abort q ready ab = Some ab' /\ pending ab' ≡ₚ q :: pending ab /\ length ab' = length ab.
Proof.
  induction ab as [|[t [q'|]] ab IH]; cbn [put_abort query pending omap list_omap length]; intros Hl; [lia|..].
  - destruct IH as (ab' & -> & Hp & Hlen); [unfold pending; lia|]. eexists. split; [done|].
    cbn. split; [|lia]. fold (pending ab) (pending ab'). rewrite Hp. apply Permutation_swap.
  - eexists. split; [done|]. by cbn.
Qed.

(** The counter of empty entries is right and the thread is not done. *)
Record th_wf {Q} (th : thread_t Q) : Prop := mk_th_wf {
  tw_slots : _abort_buffer_empty_slots th
    = Z.of_nat (length (_abort_buffer th)) - Z.of_nat (length (pending (_abort_buffer th)));
  tw_size : (0 < length (_abort_buffer th))%nat;
  tw_enable : _abort_buffer_enable th = true;
  tw_cnt : 0 <= txn_cnt th < MAX_TXN_PER_PART;
}.

Lemma init_thread_wf {Q} (thd : Z) : th_wf (init_thread (Q := Q) thd true).
Proof. split; [reflexivity|simpl; lia|done|]. simpl. unfold MAX_TXN_PER_PART. lia. Qed.

(** Some reading of the clock is later than the ready time of a buffered query,
    or there is room in the buffer and at least one reading. *)
Definition will_pick {Q} (clock : list Z) (th : thread_t Q) : Prop :=
  clock <> [] /\ (_abort_buffer_empty_slots th <> 0 \/
    exists c e, c ∈ clock /\ e ∈ _abort_buffer th /\ query e <> None /\ ready_time e < c).

Section Proofs.
Context {Q K S : Type}.
Context (get_next_query : Z -> K -> res (Q * K)).
Context (run_txn : Z -> Z -> Q -> inst S -> res (RC * inst S)).

(** The chosen query comes out of the buffer or from the queue. *)
Definition picked (th : thread_t Q) (rest : list Q) (k k' : K) (q : Q) : Prop :=
  (pending (_abort_buffer th) ≡ₚ q :: rest /\ k' = k)
  \/ (pending (_abort_buffer th) = rest /\ get_next_query (_thd_id th) k = Ret (q, k')
      /\ _abort_buffer_empty_slots th <> 0).

(** What choosing a query can come to: the readings of the clock run out, or a
    query is picked and the counter of empty entries is right. *)
Lemma pick_buffered_spec (clock : list Z) (th : thread_t Q) (k : K) :
  th_wf th -> Forall (fun c => 0 <= c <= UINT64_MAX) clock ->
  (_abort_buffer_empty_slots th <> 0 -> exists q k', get_next_query (_thd_id th) k = Ret (q, k')) ->
  (pick_buffered get_next_query clock th k = Fault OutOfFuel /\ ~ will_pick clock th)
  \/ exists q clock' ab slots k', pick_buffered get_next_query clock th k
      = Ret (q, clock', set_buffer ab slots th, k')
    /\ length ab = length (_abort_buffer th)
    /\ slots = Z.of_nat (length ab) - Z.of_nat (length (pending ab)) /\ 0 < slots
    /\ picked th (pending ab) k k' q.
Proof.
  intros Hwf Hc Hqueue. pose proof Hwf as [Hslots Hsize Hen Hcnt].
  pose proof (pending_length (_abort_buffer th)) as Hpl.
  assert (forall clock : list Z, _abort_buffer_empty_slots th <> 0 ->
    exists q clock' ab slots k', ('(q, k) ← get_next_query (_thd_id th) k; Ret (q, clock, th, k))
        = Ret (q, clock', set_buffer ab slots th, k')
    /\ length ab = length (_abort_buffer th)
    /\ slots = Z.of_nat (length ab) - Z.of_nat (length (pending ab)) /\ 0 < slots
    /\ picked th (pending ab) k k' q) as Hnew.
  { intros cl Hnz. destruct (Hqueue Hnz) as (q & k' & Hq). rewrite Hq. cbn [mbind res_bind].
    exists q, cl, (_abort_buffer th), (_abort_buffer_empty_slots th), k'.
    replace (set_buffer _ _ th) with th by (by destruct th). split_and!; [done|done|done|lia|]. by right. }
  clear Hqueue. induction Hc as [|c clock Hc _ IH]; [left; split; [done|by intros []]|].
  cbn [pick_buffered]. unfold abort_buffer_size.
  pose proof (scan_abort_spec c (_abort_buffer_empty_slots th) UINT64_MAX (_abort_buffer th)) as Hscan.
  destruct (Z.ltb_spec (_abort_buffer_empty_slots th) (Z.of_nat (length (_abort_buffer th)))) as [Hlt|Hge].
  - destruct (scan_abort c _ _ _) as [[[q ab]|] m].
    + destruct Hscan as [Hp Hl]. right. eexists q, clock, ab, _, k. split; [done|]. split; [done|].
      apply Permutation_length in Hp as Hpl'. cbn [length] in Hpl'.
      split; [lia|]. split; [lia|]. by left.
    + destruct Hscan as [Hready Hm]. destruct (Z.eqb_spec (_abort_buffer_empty_slots th) 0) as [Hz|Hnz];
        [|right; by apply Hnew].
      assert (c <= m) as Hcm.
      { apply Hm; [|lia]. intros e He. apply (pending_full (_abort_buffer th)); [lia|done]. }
      destruct (Z.leb_spec c m); [|lia]. destruct IH as [[Hf Hno]|?]; [left|by right]. split; [done|].
      intros [_ [?|(c' & e & Hc' & He & Hq & Hr)]]; [done|]. apply Hno.
      apply elem_of_cons in Hc' as [->|Hc'].
      { destruct (query e) as [q|] eqn:Eq; [|done]. specialize (Hready e q He Eq). lia. }
      split; [intros ->; by apply elem_of_nil in Hc'|]. right. eauto 10.
  - destruct (Z.eqb_spec (_abort_buffer_empty_slots th) 0); [lia|]. right. by apply Hnew.
Qed.

Lemma after_abort_spec (q : Q) (now penalty : Z) (th : thread_t Q) :
  _abort_buffer_enable th = true -> 0 < _abort_buffer_empty_slots th ->
  _abort_buffer_empty_slots th
    = Z.of_nat (length (_abort_buffer th)) - Z.of_nat (length (pending (_abort_buffer th))) ->
  exists ab, after_abort q now penalty th = Ret (set_buffer ab (_abort_buffer_empty_slots th - 1) th)
    /\ pending ab ≡ₚ q :: pending (_abort_buffer th) /\ length ab = length (_abort_buffer th).
Proof.
  intros Hen Hpos Hslots. unfold after_abort. rewrite Hen. destruct (Z.ltb_spec 0 (_abort_buffer_empty_slots th)); [|lia].
  destruct (put_abort_spec q (u64 (now + penalty)) (_abort_buffer th)) as (ab & -> & Hp & Hl); [lia|]. eauto.
Qed.

(** A round whose query is [q], with [rest] left in the buffer, and whose
    transaction ends with [rc]. *)
Record round (clock : list Z) (now penalty : Z) (th : thread_t Q) (k : K) (s : inst S)
    (over : bool) (th' : thread_t Q) (k' : K) (s' : inst S) (q : Q) (rest : list Q) (rc : RC) : Prop := mk_round {
  rd_run : iteration get_next_query run_txn clock now penalty th k s = Ret (over, th', k', s');
  rd_picked : picked th rest k k' q;
  rd_txn : exists id ts s0, run_txn id ts q s0 = Ret (rc, s') /\ length (all_ts s0) = length (all_ts s);
  rd_pending : pending (_abort_buffer th') ≡ₚ (if bool_decide (rc = Abort) then q :: rest else rest);
  rd_size : length (_abort_buffer th') = length (_abort_buffer th);
  rd_thd : _thd_id th' = _thd_id th;
  rd_cnt : txn_cnt th' = txn_cnt th + (if bool_decide (rc = RCOK) then 1 else 0);
  rd_over : over = true <-> txn_cnt th' = MAX_TXN_PER_PART;
  rd_wf : over = false -> th_wf th';
}.

(** The end of a round, from the outcome of its transaction on. *)
Lemma round_end (q : Q) (rc : RC) (now penalty : Z) (th : thread_t Q) (k : K) (s : inst S) :
  _abort_buffer_enable th = true -> (0 < length (_abort_buffer th))%nat ->
  0 < _abort_buffer_empty_slots th -> 0 <= txn_cnt th < MAX_TXN_PER_PART ->
  _abort_buffer_empty_slots th
    = Z.of_nat (length (_abort_buffer th)) - Z.of_nat (length (pending (_abort_buffer th))) ->
  exists over th', (th ← (if bool_decide (rc = Abort) then after_abort q now penalty th else Ret th);
     let cnt := if bool_decide (rc = RCOK) then txn_cnt th + 1 else txn_cnt th in
     let th := mkThread (_thd_id th) (_abort_buffer th) (_abort_buffer_empty_slots th)
                 (_abort_buffer_enable th) (th_rc th) (m_query th) (thd_txn_id th) cnt in
     if MAX_TXN_PER_PART <=? cnt then assert! cnt =? MAX_TXN_PER_PART; Ret (true, th, k, s)
     else Ret (false, th, k, s)) = Ret (over, th', k, s)
   /\ pending (_abort_buffer th') ≡ₚ (if bool_decide (rc = Abort) then q :: pending (_abort_buffer th)
                                      else pending (_abort_buffer th))
   /\ length (_abort_buffer th') = length (_abort_buffer th) /\ _thd_id th' = _thd_id th
   /\ txn_cnt th' = txn_cnt th + (if bool_decide (rc = RCOK) then 1 else 0)
   /\ (over = true <-> txn_cnt th' = MAX_TXN_PER_PART) /\ (over = false -> th_wf th').
Proof.
  intros Hen Hsize Hpos Hcnt Hslots.
  assert (exists ab, (if bool_decide (rc = Abort) then after_abort q now penalty th else Ret th)
      = Ret (set_buffer ab (Z.of_nat (length ab) - Z.of_nat (length (pending ab))) th)
      /\ pending ab ≡ₚ (if bool_decide (rc = Abort) then q :: pending (_abort_buffer th)
                        else pending (_abort_buffer th))
      /\ length ab = length (_abort_buffer th)) as (ab & -> & Hp & Hl).
  { case_bool_decide.
    - destruct (after_abort_spec q now penalty th) as (ab & -> & Hp & Hlen); [done|done|done|].
      exists ab. split; [|done]. apply Permutation_length in Hp. cbn [length] in Hp. do 2 f_equal. lia.
    - exists (_abort_buffer th). rewrite <- Hslots. split; [|done]. by destruct th. }
  cbn [mbind res_bind set_buffer _thd_id _abort_buffer _abort_buffer_empty_slots _abort_buffer_enable th_rc
    m_query thd_txn_id txn_cnt].
  set (cnt := if bool_decide (rc = RCOK) then _ else _).
  assert (cnt = txn_cnt th + (if bool_decide (rc = RCOK) then 1 else 0)) as Hcnt'
    by (subst cnt; destruct (bool_decide (rc = RCOK)); lia).
  assert (0 <= cnt <= MAX_TXN_PER_PART) as Hle by (subst cnt; destruct (bool_decide (rc = RCOK)); lia). clearbody cnt.
  destruct (Z.leb_spec MAX_TXN_PER_PART cnt).
  - rewrite (proj2 (Z.eqb_eq cnt MAX_TXN_PER_PART)) by lia. eexists true, _. split; [done|]. cbn.
    split_and!; try done. split; [intros _; lia|done].
  - eexists false, _. split; [done|]. cbn. split_and!; try done; [split; [done|lia]|].
    intros _. split; cbn; try done; lia.
Qed.

Lemma round_spec (clock : list Z) (now penalty : Z) (th : thread_t Q) (k : K) (s : inst S) :
  th_wf th -> Forall (fun c => 0 <= c <= UINT64_MAX) clock ->
  0 <= _thd_id th < Z.of_nat (length (all_ts s)) ->
  (_abort_buffer_empty_slots th <> 0 -> exists q k', get_next_query (_thd_id th) k = Ret (q, k')) ->
  (forall rest k' q id ts s0, picked th rest k k' q -> length (all_ts s0) = length (all_ts s) ->
     exists rc s', run_txn id ts q s0 = Ret (rc, s')) ->
  (iteration get_next_query run_txn clock now penalty th k s = Fault OutOfFuel /\ ~ will_pick clock th)
  \/ exists over th' k' s' q rest rc, round clock now penalty th k s over th' k' s' q rest rc.
Proof.
  intros Hwf Hc Hid Hqueue Hrun. pose proof Hwf as [Hslots Hsize Hen Hcnt].
  destruct (pick_buffered_spec clock th k Hwf Hc Hqueue)
    as [[Hf Hno]|(q & clock' & ab & slots & k' & Hpb & Hl & Hsl & Hpos & Hpicked)].
  { left. split; [|done]. unfold iteration, pick_query. by rewrite Hen, Hf. }
  right. destruct (lookup_lt_is_Some_2 (all_ts s) (Z.to_nat (_thd_id th))) as [x Hx]; [lia|].
  enough (exists id ts s0, length (all_ts s0) = length (all_ts s) /\
    iteration get_next_query run_txn clock now penalty th k s
    = '(rc, s) ← run_txn id ts q s0;
      let th := mkThread (_thd_id th) ab slots (_abort_buffer_enable th) rc (Some q) (thd_txn_id th + 1) (txn_cnt th) in
      th ← (if bool_decide (rc = Abort) then after_abort q now penalty th else Ret th);
      let cnt := if bool_decide (rc = RCOK) then txn_cnt th + 1 else txn_cnt th in
      let th := mkThread (_thd_id th) (_abort_buffer th) (_abort_buffer_empty_slots th)
                  (_abort_buffer_enable th) (th_rc th) (m_query th) (thd_txn_id th) cnt in
      if MAX_TXN_PER_PART <=? cnt then assert! cnt =? MAX_TXN_PER_PART; Ret (true, th, k', s)
      else Ret (false, th, k', s)) as (id & ts & s0 & Hlen & Hit).
  { destruct (Hrun (pending ab) k' q id ts s0 Hpicked Hlen) as (rc & s' & Hr).
    rewrite Hr in Hit. cbn [mbind res_bind] in Hit.
    edestruct (round_end q rc now penalty
      (mkThread (_thd_id th) ab slots (_abort_buffer_enable th) rc (Some q) (thd_txn_id th + 1) (txn_cnt th)) k' s')
      as (over & th' & He & Hp & Hla & Htd & Hct & Hov & Hw); try done; [cbn; lia|].
    exists over, th', k', s', q, (pending ab), rc. cbn in *. split; try done.
    - by rewrite Hit.
    - eauto.
    - lia. }
  assert (pick_query get_next_query clock th k = Ret (q, clock', set_buffer ab slots th, k')) as Hpq
    by (unfold pick_query; by rewrite Hen).
  unfold iteration. rewrite Hpq. cbn [mbind res_bind set_buffer _thd_id thd_txn_id].
  unfold get_next_ts, GetNextTs. cbn [i_timestamp mvcc_array i_txns i_db all_ts].
  unfold AddTs, set_ts. cbn [all_ts]. rewrite Hx. cbn [at_ mbind res_bind].
  eexists _, _, _. split; [|reflexivity]. cbn. apply length_insert.
Qed.

End Proofs.


(** The timestamps threads get: every second one, and never the same twice. *)
Lemma get_next_ts_spec {S} (s : inst S) :
  0 <= i_timestamp s -> i_timestamp s + 2 < 2 ^ 64 ->
  fst (get_next_ts s) = i_timestamp s + 1 /\ i_timestamp (snd (get_next_ts s)) = i_timestamp s + 2.
Proof.
  intros H0 Hlt. unfold get_next_ts, GetNextTs. cbn. rewrite !u64_id by (rewrite ?u64_id; unfold is_u64; lia). lia.
Qed.

(** The smallest active timestamp. *)
Lemma GetMinTs_spec {S} (s : inst S) :
  (forall ts, ts ∈ all_ts s -> GetMinTs s <= ts)
  /\ (GetMinTs s = UINT64_MAX \/ GetMinTs s ∈ all_ts s) /\ GetMinTs s <= UINT64_MAX.
Proof.
  unfold GetMinTs. induction (all_ts s) as [|x l IH] using rev_ind; simpl.
  { split; [|split; [by left|done]]. intros ts Hts. by apply elem_of_nil in Hts. }
  rewrite foldl_app. cbn [foldl]. destruct IH as (Hle & Hor & Hmax).
  destruct (Z.ltb_spec x (foldl (fun m t => if t <? m then t else m) UINT64_MAX l)); split_and!.
  - intros ts Hts. apply elem_of_app in Hts as [Hts|Hts]; [specialize (Hle ts Hts); lia|].
    apply list_elem_of_singleton in Hts as ->. lia.
  - right. apply elem_of_app. right. by apply list_elem_of_singleton.
  - lia.
  - intros ts Hts. apply elem_of_app in Hts as [Hts|Hts]; [by apply Hle|].
    apply list_elem_of_singleton in Hts as ->. lia.
  - destruct Hor as [->|Hin]; [by left|right]. apply elem_of_app. by left.
  - done.
Qed.
