(* ===== verification/YcsbTxn.v ===== *)
(** * db2: the YCSB transaction ([instance/txn/ycsb_txn.cpp])

    A transaction collects the pages it will write, makes sure this instance
    owns them and registers on them, makes its row accesses, ends, and
    deregisters.  The call to the lock service is an argument. *)

From S2P Require Import Prelude Config FileIO Buffer RowStore RowMvcc RowMvccInv RowMvccState RowMvccServe Mvcc Txn.
From S2P Require Catalog Index LockTable.

(** [src/instance/benchmarks/ycsb_query.h:14-21 ycsb_request] *)
Record ycsb_request := mkRequest {
  rtype : access_t;
  r_key : Z;
  scan_len : Z;
}.

(** [src/instance/txn/ycsb_txn.cpp:29-38 gen_test_query] *)
Definition gen_test_query : list ycsb_request :=
  (fun i => mkRequest WR (Z.of_nat i * 203) 0) <$> seq 0 4.

(** ** The row accesses *)

Section Requests.
Context {S : Type} `{RowStore S}.
Context (tuple_size : Z).

(** Replacing the bytes of a row object. *)
Definition set_row_bytes (p : rptr) (b : bytes) (s : inst S) : res (inst S) :=
  st ← row_state p.1 s;
  r ← row_obj p.2 st;
  Ret (put_row p.1 (mkState (mv st) (<[p.2 := with_bytes b r]> (rows st)) (txns st) (db st)) s).

(** A read looks at the first eight bytes; a write stamps the timestamp into
    the last eight.
    [src/instance/txn/ycsb_txn.cpp:220-237 rtype] *)
Definition compute (request_cnt tid : Z) (type : access_t) (p : rptr) (s : inst S) : res (inst S) :=
  if 1 <? request_cnt then
    r ← deref_row (Some p) s;
    data ← deref (Catalog.row_ r);
    match type with
    | RD | SCAN => _ ← load_u64 data 0; Ret s
    | WR =>
        t ← at_ (i_txns s !! tid);
        data ← memcpy data (tuple_size - 8) (bytes_of_u64 (t_ts t)) 0 8;
        set_row_bytes p data s
    | XP => Fault Assert
    end
  else Ret s.

(** The loop of one request.  A scan goes round [scan_len] times, each time to
    the same key.  At most [MAX_ROW_PER_TXN] accesses fit, so more rounds than
    that end in an access out of bounds.
    [src/instance/txn/ycsb_txn.cpp:173-243 finish_req] *)
Fixpoint do_request (fuel : nat) (request_cnt iter : Z) (req : ycsb_request) (tm : txn_man) (s : inst S)
    : res (bool * txn_man * inst S) :=
  match fuel with
  | O => Fault OutOfFuel
  | Datatypes.S fuel =>
      '(p, tm, s) ← get_row tuple_size (r_key req) (rtype req) tm s;
      match p with
      | None => Ret (false, tm, s)
      | Some p =>
          r ← deref_row (Some p) s;
          assert! Catalog.size_ r =? tuple_size;
          s ← compute request_cnt (thd_id tm) (rtype req) p s;
          let iter := iter + 1 in
          if bool_decide (rtype req = RD) || bool_decide (rtype req = WR) || (iter =? scan_len req)
          then Ret (true, tm, s)
          else do_request fuel request_cnt iter req tm s
      end
  end.

(** The requests in order, up to the first that aborts.
    [src/instance/txn/ycsb_txn.cpp:167-244 rid] *)
Fixpoint do_requests (request_cnt : Z) (reqs : list ycsb_request) (tm : txn_man) (s : inst S)
    : res (RC * txn_man * inst S) :=
  match reqs with
  | [] => Ret (RCOK, tm, s)
  | req :: reqs =>
      '(ok, tm, s) ← do_request 65 request_cnt 0 req tm s;
      if (ok : bool) then do_requests request_cnt reqs tm s else Ret (Abort, tm, s)
  end.

(** [src/instance/txn/ycsb_txn.cpp:164-248 finish] *)
Definition execute (reqs : list ycsb_request) (tm : txn_man) (s : inst S) : res (RC * txn_man * inst S) :=
  let tm := mkMan (thd_id tm) 0 (wr_cnt tm) (accesses tm) (num_accesses_alloc tm) in
  '(rc, tm, s) ← do_requests (Z.of_nat (length reqs)) reqs tm s;
  finish rc tm s.
End Requests.

(** ** Page locks *)

(** [std::set::insert] of a page id; a set is walked in increasing order. *)
Fixpoint set_insert (x : Z) (l : list Z) : list Z :=
  match l with
  | [] => [x]
  | y :: l => if x <? y then x :: y :: l else if x =? y then y :: l else y :: set_insert x l
  end.

Section Pages.
Context {D : Type} `{Disk D} {W : Type}.
Context (junk_page : bytes) (junk_version : Z) (junk_item : Index.IndexItem).
Local Instance rows_of_store : RowStore (Store D) := Store_RowStore junk_page junk_version junk_item.

(** The call to the lock service for a page. *)
Context (lock_remote : Z -> W -> res (RC * bytes * W)).

Definition set_store (st : Store D) (s : inst (Store D)) : inst (Store D) :=
  mkInst (mvcc_array s) (i_txns s) st (all_ts s) (i_timestamp s).

(** [src/instance/txn/ycsb_txn.cpp:44-71 GetQueryWritePageSet] *)
Definition GetQueryWritePageSet (reqs : list ycsb_request) (s : Store D) : list Z :=
  foldl (fun set req =>
    if bool_decide (rtype req = WR)
    then set_insert (Index.page_id_ (locate junk_item (r_key req) s)) set
    else set) [] reqs.

(** [src/instance/txn/ycsb_txn.cpp:82-88 has_invalid_req] *)
Fixpoint has_invalid_req (pages : list Z) (lt : LockTable.LockTable) : res bool :=
  match pages with
  | [] => Ret false
  | p :: pages =>
      n ← deref (lt !! p);
      if LockTable.invalid_req n then Ret true else has_invalid_req pages lt
  end.

Definition set_node (p : Z) (n : LockTable.LockNode) (s : Store D) : Store D :=
  with_lt (<[p := n]> (st_lock_table s)) s.

(** Making sure of one page.  A thread that finds the flag taken spins until
    another thread has stored the lock mode.
    [src/instance/txn/ycsb_txn.cpp:95-133 lock_remoting] *)
Definition get_page (p : Z) (s : Store D) (w : W) : res (RC * Store D * W) :=
  n ← deref (st_lock_table s !! p);
  if bool_decide (LockTable.lock_mode n = LM_O) then
    if negb (LockTable.lock_remoting n) then
      let s := set_node p (LockTable.set_lock_remoting true n) s in
      '(rc, page_buf, w) ← lock_remote p w;
      n ← deref (st_lock_table s !! p);
      if bool_decide (Abort = rc) || bool_decide (TIME_OUT = rc) then
        Ret (Abort, set_node p (LockTable.set_lock_remoting false n) s, w)
      else
        assert! bool_decide (rc = RCOK);
        assert! bool_decide (LockTable.lock_mode n = LM_O);
        let n := LockTable.set_mode LM_P (LockTable.count n) n in
        let s := set_node p n s in
        '(b, d) ← BufferPut p page_buf MY_PAGE_SIZE (st_buffer s) (st_disk s);
        Ret (RCOK, set_node p (LockTable.set_lock_remoting false n) (with_pool b d s), w)
    else Wait
  else Ret (RCOK, s, w).

(** [src/instance/txn/ycsb_txn.cpp:95-133 write_page_set] *)
Fixpoint get_pages (pages : list Z) (s : Store D) (w : W) : res (RC * Store D * W) :=
  match pages with
  | [] => Ret (RCOK, s, w)
  | p :: pages =>
      '(rc, s, w) ← get_page p s w;
      if bool_decide (rc = Abort) then Ret (Abort, s, w) else get_pages pages s w
  end.

(** [src/instance/txn/ycsb_txn.cpp:139-142 AddThread] *)
Definition add_threads (tid : Z) (pages : list Z) (s : Store D) : res (Store D) :=
  foldM (fun s p =>
    n ← deref (st_lock_table s !! p);
    assert! negb (bool_decide (LockTable.lock_mode n = LM_O));
    '(_, lt) ← LockTable.AddThread p tid (st_lock_table s);
    Ret (with_lt lt s)) s pages.

(** A page with an invalidation under way makes the thread spin.
    [src/instance/txn/ycsb_txn.cpp:79-147 GetWritePageLock] *)
Definition GetWritePageLock (tid : Z) (pages : list Z) (s : Store D) (w : W) : res (RC * Store D * W) :=
  b ← has_invalid_req pages (st_lock_table s);
  if (b : bool) then Wait
  else
    '(rc, s, w) ← get_pages pages s w;
    if bool_decide (rc = Abort) then Ret (Abort, s, w)
    else s ← add_threads tid pages s; Ret (RCOK, s, w).

(** [src/instance/txn/ycsb_txn.cpp:250-252 RemoveThread] *)
Definition remove_threads (tid : Z) (pages : list Z) (s : Store D) : res (Store D) :=
  foldM (fun s p =>
    '(_, lt) ← LockTable.RemoveThread p tid (st_lock_table s);
    Ret (with_lt lt s)) s pages.

(** [src/instance/txn/ycsb_txn.cpp:150-256 ycsb_txn_man::run_txn] *)
Definition run_txn (tuple_size : Z) (reqs : list ycsb_request) (tm : txn_man) (s : inst (Store D)) (w : W)
    : res (RC * txn_man * inst (Store D) * W) :=
  let pages := GetQueryWritePageSet reqs (i_db s) in
  '(rc, st, w) ← GetWritePageLock (thd_id tm) pages (i_db s) w;
  let s := set_store st s in
  if bool_decide (rc = Abort) then Ret (Abort, tm, s, w)
  else
    '(rc, tm, s) ← execute tuple_size reqs tm s;
    st ← remove_threads (thd_id tm) pages (i_db s);
    Ret (rc, tm, set_store st s, w).
End Pages.
