(* ===== verification/YcsbQuery.v ===== *)
(** * db2: generating YCSB queries ([instance/benchmarks/ycsb_query.cpp])

    Each query is a list of requests with keys drawn from a Zipf distribution;
    a request whose rows an earlier request of the query already touches is
    dropped, and the rest can be sorted by key.  Floating-point arithmetic is an
    interface without laws; the random numbers come from the generator of
    [drand48_r] and [lrand48_r]. *)

From Stdlib Require Import Sorting.Sorted.
From S2P Require Import Prelude Config Tpcc.
From S2P Require Import YcsbTxn.

(** ** Floating point *)

(** The operations on [double] that the generator uses. *)
Class Double (R : Type) := {
  d_lt : R -> R -> bool;
  d_le : R -> R -> bool;
  d_eq : R -> R -> bool;
  d_add : R -> R -> R;
  d_sub : R -> R -> R;
  d_mul : R -> R -> R;
  d_div : R -> R -> R;
  d_pow : R -> R -> R;
  of_Z : Z -> R;
  to_Z : R -> Z;
}.

(** [drand48_r]: the new state as a fraction of its range. *)
Definition drand48_r {R} `{Double R} (x : Z) : R * Z :=
  let x := (25214903917 * x + 11) `mod` 2 ^ 48 in (d_div (of_Z x) (of_Z (2 ^ 48)), x).

(** The parameters of the workload. *)
Record config (R : Type) := mkConfig {
  g_synth_table_size : Z;
  g_part_cnt : Z;
  g_virtual_part_cnt : Z;
  g_part_per_txn : Z;
  g_req_per_query : Z;
  g_perc_multi_part : R;
  g_read_perc : R;
  g_write_perc : R;
  g_zipf_theta : R;
  g_key_order : bool;
}.
Arguments g_synth_table_size {R}.
Arguments g_part_cnt {R}.
Arguments g_virtual_part_cnt {R}.
Arguments g_part_per_txn {R}.
Arguments g_req_per_query {R}.
Arguments g_perc_multi_part {R}.
Arguments g_read_perc {R}.
Arguments g_write_perc {R}.
Arguments g_zipf_theta {R}.
Arguments g_key_order {R}.

(** [src/config.h:126-126 SCAN_LEN] *)
Definition SCAN_LEN : Z := 20.
(** [src/config.h:116-116 FIRST_PART_LOCAL] *)
Definition FIRST_PART_LOCAL : bool := true.

Section Query.
Context {R : Type} `{Double R} (g : config R).

(** [src/instance/benchmarks/ycsb_query.cpp:49-55 ycsb_query::zeta] *)
Definition zeta (n : Z) (theta : R) : R :=
  fold_left (fun sum i => d_add sum (d_pow (d_div (of_Z 1) (of_Z i)) theta)) (seqZ 1 n) (of_Z 0).

(** Keys of a virtual partition.
    [src/instance/benchmarks/ycsb_query.cpp:36-36 table_size] *)
Definition table_size : Z := g_synth_table_size g / g_virtual_part_cnt g.

(** The static members [the_n] and [denom].
    [src/instance/benchmarks/ycsb_query.cpp:21-41 ycsb_query::calculateDenom] *)
Definition calculateDenom (the_n : Z) : res (Z * R) :=
  assert! the_n =? 0;
  if g_virtual_part_cnt g =? 0 then Fault DivByZero else
  let the_n := u64 (table_size - 1) in
  Ret (the_n, zeta the_n (g_zipf_theta g)).

(** [src/instance/benchmarks/ycsb_query.cpp:58-72 ycsb_query::zipf] *)
Definition zipf (the_n : Z) (denom zeta_2_theta : R) (n : Z) (theta : R) (x : Z) : res (Z * Z) :=
  assert! the_n =? n;
  assert! d_eq theta (g_zipf_theta g);
  let one := of_Z 1 in
  let alpha := d_div one (d_sub one theta) in
  let zetan := denom in
  let eta := d_div (d_sub one (d_pow (d_div (of_Z 2) (of_Z n)) (d_sub one theta)))
               (d_sub one (d_div zeta_2_theta zetan)) in
  let '(u, x) := drand48_r x in
  let uz := d_mul u zetan in
  Ret (if d_lt uz one then 1
       else if d_lt uz (d_add one (d_pow (d_div one (of_Z 2)) theta)) then 2
       else u64 (1 + u64 (to_Z (d_mul (of_Z n)
              (d_pow (d_add (d_sub (d_mul eta u) eta) one) alpha)))), x).

(** ** Partitions *)

(** The next partition, kept when it is not among those chosen before.
    [src/instance/benchmarks/ycsb_query.cpp:94-104 part_to_access] *)
Definition add_part (thd_id rint64 : Z) (parts : list Z) (i : nat) : res (list Z) :=
  let p := (if (i =? 0)%nat && FIRST_PART_LOCAL then thd_id else rint64) `mod` g_virtual_part_cnt g in
  if Z.of_nat (length parts) <? g_req_per_query g then
    Ret (if bool_decide (p ∈ parts) then parts else parts ++ [p])
  else Fault OutOfBounds.

(** [src/instance/benchmarks/ycsb_query.cpp:83-112 part_num] *)
Definition gen_parts (thd_id x : Z) : res (list Z * Z) :=
  let '(r, x) := drand48_r x in
  let '(rint64, x) := lrand48_r x in
  if d_lt r (g_perc_multi_part g) then
    if g_virtual_part_cnt g =? 0 then Fault DivByZero else
    parts ← foldM (add_part thd_id rint64) [] (seq 0 (Z.to_nat (g_part_per_txn g)));
    Ret (parts, x)
  else
    if g_part_cnt g =? 0 then Fault DivByZero else
    Ret ([(if FIRST_PART_LOCAL then thd_id else rint64) `mod` g_part_cnt g], x).

(** ** Requests *)

(** The variables of the loop over the requests. *)
Record gen := mkGen {
  gn_rng : Z;
  gn_reqs : list ycsb_request;
  gn_keys : gset Z;
  gn_rid : nat;
}.

(** The type of a request, and its scan length when it is a scan.
    [src/instance/benchmarks/ycsb_query.cpp:123-130 rtype] *)
Definition set_type (r : R) (req : ycsb_request) : ycsb_request :=
  if d_lt r (g_read_perc g) then mkRequest RD (r_key req) (scan_len req)
  else if d_le (g_read_perc g) r && d_le r (d_add (g_write_perc g) (g_read_perc g))
  then mkRequest WR (r_key req) (scan_len req)
  else mkRequest SCAN (r_key req) SCAN_LEN.

(** The keys a scan covers.
    [src/instance/benchmarks/ycsb_query.cpp:166-167 primary_key] *)
Definition scan_keys (row_id part_id len : Z) : list Z :=
  (fun i => u64 ((row_id + i) * g_part_cnt g + part_id)) <$> seqZ 0 len.

(** [src/instance/benchmarks/ycsb_query.cpp:118-180 req] *)
Definition gen_one (the_n : Z) (denom zeta_2_theta : R) (parts : list Z) (s : gen) (tmp : nat)
    : res gen :=
  let '(r, x) := drand48_r (gn_rng s) in
  req ← at_ (gn_reqs s !! gn_rid s);
  let req := set_type r req in
  let ith := Z.of_nat tmp * Z.of_nat (length parts) / g_req_per_query g in
  part_id ← at_ (parts !! Z.to_nat ith);
  '(row_id, x) ← zipf the_n denom zeta_2_theta (u64 (table_size - 1)) (g_zipf_theta g) x;
  assert! row_id <? table_size;
  let req := mkRequest (rtype req) (u64 (row_id * g_virtual_part_cnt g + part_id)) (scan_len req) in
  let '(_, x) := lrand48_r x in
  let reqs := <[gn_rid s := req]> (gn_reqs s) in
  if bool_decide (rtype req = RD) || bool_decide (rtype req = WR) then
    if bool_decide (r_key req ∈ gn_keys s) then Ret (mkGen x reqs (gn_keys s) (gn_rid s))
    else Ret (mkGen x reqs ({[r_key req]} ∪ gn_keys s) (S (gn_rid s)))
  else
    let ks := scan_keys row_id part_id (scan_len req) in
    if existsb (fun k => bool_decide (k ∈ gn_keys s)) ks
    then Ret (mkGen x reqs (gn_keys s) (gn_rid s))
    else Ret (mkGen x reqs (list_to_set ks ∪ gn_keys s) (S (gn_rid s))).

(** ** Order *)

(** [src/instance/benchmarks/ycsb_query.cpp:187-191 requests] *)
Definition swap_if (reqs : list ycsb_request) (j : nat) : list ycsb_request :=
  match reqs !! j, reqs !! S j with
  | Some a, Some b => if r_key b <? r_key a then <[S j := a]> (<[j := b]> reqs) else reqs
  | _, _ => reqs
  end.

(** The inner loop.
    [src/instance/benchmarks/ycsb_query.cpp:186-191 requests] *)
Definition bubble (reqs : list ycsb_request) (i : nat) : list ycsb_request :=
  fold_left swap_if (seq 0 i) reqs.

(** [src/instance/benchmarks/ycsb_query.cpp:185-191 request_cnt] *)
Definition sort_requests (request_cnt : nat) (reqs : list ycsb_request) : list ycsb_request :=
  fold_left bubble (rev (seq 1 (request_cnt - 1))) reqs.

(** [src/instance/benchmarks/ycsb_query.cpp:192-193 request_cnt] *)
Definition check_order (request_cnt : nat) (reqs : list ycsb_request) : res unit :=
  foldM (fun _ i =>
    a ← at_ (reqs !! i);
    b ← at_ (reqs !! S i);
    assert! r_key a <? r_key b;
    Ret tt) tt (seq 0 (Z.to_nat (u64 (Z.of_nat request_cnt - 1)))).

(** The requests are in an array of [g_req_per_query] zeroed elements; the first
    [request_cnt] of them make up the query.
    [src/instance/benchmarks/ycsb_query.cpp:77-195 ycsb_query::gen_requests] *)
Definition gen_requests (the_n : Z) (denom zeta_2_theta : R) (thd_id x : Z)
    : res (nat * list ycsb_request * Z) :=
  '(parts, x) ← gen_parts thd_id x;
  let reqs := replicate (Z.to_nat (g_req_per_query g)) (mkRequest RD 0 0) in
  s ← foldM (gen_one the_n denom zeta_2_theta parts) (mkGen x reqs ∅ 0)
        (seq 0 (Z.to_nat (g_req_per_query g)));
  let request_cnt := gn_rid s in
  if g_key_order g then
    let reqs := sort_requests request_cnt (gn_reqs s) in
    _ ← check_order request_cnt reqs;
    Ret (request_cnt, reqs, gn_rng s)
  else Ret (request_cnt, gn_reqs s, gn_rng s).

(** [src/instance/benchmarks/ycsb_query.cpp:10-19 ycsb_query::init] *)
Definition init_query (the_n : Z) (denom : R) (thread_id x : Z)
    : res (nat * list ycsb_request * Z) :=
  let zeta_2_theta := zeta 2 (g_zipf_theta g) in
  assert! negb (the_n =? 0);
  assert! negb (d_eq denom (of_Z 0));
  gen_requests the_n denom zeta_2_theta thread_id x.
End Query.

(** ** The sort is a sort *)

Abbreviation key_le := (fun a b => r_key a <= r_key b).

Lemma length_swap_if (l : list ycsb_request) (j : nat) : length (swap_if l j) = length l.
Proof. unfold swap_if. repeat case_match; by rewrite ?length_insert. Qed.

Lemma swap_if_Permutation (l : list ycsb_request) (j : nat) : swap_if l j ≡ₚ l.
Proof.
  unfold swap_if. destruct (l !! j) as [a|] eqn:Ha; [|done].
  destruct (l !! S j) as [b|] eqn:Hb; [|done]. case_match; [|done].
  by apply Permutation_insert_swap.
Qed.

Lemma swap_if_beyond (l : list ycsb_request) (j k : nat) :
  (S j < k)%nat \/ (k < j)%nat -> swap_if l j !! k = l !! k.
Proof.
  intros Hk. unfold swap_if. repeat case_match; try done.
  by rewrite !list_lookup_insert_ne by lia.
Qed.

(** After one exchange the larger of the two elements is the later one. *)
Lemma swap_if_order (l : list ycsb_request) (j : nat) (a b : ycsb_request) :
  l !! j = Some a -> l !! S j = Some b ->
  exists c d, swap_if l j !! j = Some c /\ swap_if l j !! S j = Some d
    /\ r_key c <= r_key d /\ r_key a <= r_key d /\ (c = a /\ d = b \/ c = b /\ d = a).
Proof.
  intros Ha Hb. pose proof (lookup_lt_Some _ _ _ Ha). pose proof (lookup_lt_Some _ _ _ Hb).
  unfold swap_if. rewrite Ha, Hb. destruct (Z.ltb_spec (r_key b) (r_key a)).
  - exists b, a. rewrite list_lookup_insert_ne, !list_lookup_insert_eq by
      (rewrite ?length_insert; lia). split_and!; try done; try lia. by right.
  - exists a, b. split_and!; try done. by left.
Qed.

Lemma bubble_snoc (l : list ycsb_request) (i : nat) : bubble l (S i) = swap_if (bubble l i) i.
Proof. unfold bubble. by rewrite seq_S, fold_left_app. Qed.

Lemma bubble_facts (l : list ycsb_request) (i : nat) :
  bubble l i ≡ₚ l /\ forall k, (i < k)%nat -> bubble l i !! k = l !! k.
Proof.
  induction i as [|i [IH1 IH2]]; [done|]. rewrite bubble_snoc. split.
  - by rewrite swap_if_Permutation.
  - intros k Hk. rewrite swap_if_beyond by lia. apply IH2. lia.
Qed.

(** The inner loop carries the largest of the first [i + 1] keys to place [i]. *)
Lemma bubble_max (l : list ycsb_request) (i k : nat) (a b : ycsb_request) :
  (k <= i)%nat -> bubble l i !! k = Some a -> bubble l i !! i = Some b -> r_key a <= r_key b.
Proof.
  revert k a b. induction i as [|i IH]; intros k a b Hk Ha Hb.
  { replace k with 0%nat in Ha by lia. rewrite Ha in Hb. injection Hb as ->. lia. }
  rewrite bubble_snoc in Ha, Hb.
  apply lookup_lt_Some in Hb as Hlt. rewrite length_swap_if in Hlt.
  destruct (lookup_lt_is_Some_2 (bubble l i) (S i) Hlt) as [y Hy].
  destruct (lookup_lt_is_Some_2 (bubble l i) i ltac:(lia)) as [x Hx].
  destruct (swap_if_order _ _ _ _ Hx Hy) as (c & d & Hc & Hd & Hcd & Hxd & _).
  rewrite Hd in Hb. injection Hb as ->.
  destruct (decide (k = S i)) as [->|]; [rewrite Hd in Ha; injection Ha as ->; lia|].
  destruct (decide (k = i)) as [->|]; [rewrite Hc in Ha; injection Ha as ->; lia|].
  rewrite swap_if_beyond in Ha by lia. specialize (IH k a x ltac:(lia) Ha Hx). lia.
Qed.

(** The places from [m] to [n] hold their final elements. *)
Definition settled (n m : nat) (l : list ycsb_request) : Prop :=
  forall k k' a b, (m <= k')%nat -> (k < k')%nat -> (k' < n)%nat ->
    l !! k = Some a -> l !! k' = Some b -> r_key a <= r_key b.

Lemma prefix_elem (l l' : list ycsb_request) (n k : nat) (a : ycsb_request) :
  l' ≡ₚ l -> (forall k, (n <= k)%nat -> l' !! k = l !! k) -> (k < n)%nat -> l' !! k = Some a ->
  exists j, (j < n)%nat /\ l !! j = Some a.
Proof.
  intros Hp Hsame Hk Ha.
  assert (drop n l' = drop n l) as Hd.
  { apply list_eq. intros i. rewrite !lookup_drop. apply Hsame. lia. }
  rewrite <- (take_drop n l'), <- (take_drop n l), Hd in Hp. apply Permutation_app_inv_r in Hp.
  assert (a ∈ take n l) as Hin.
  { rewrite <- Hp. apply list_elem_of_lookup. exists k. by rewrite lookup_take_lt. }
  apply list_elem_of_lookup in Hin as [j Hj]. apply lookup_take_Some in Hj as [Hj Hlt].
  eauto.
Qed.

Lemma bubble_settled (l : list ycsb_request) (n m : nat) :
  settled n (S m) l -> settled n m (bubble l m).
Proof.
  intros Hs k k' a b Hm Hlt Hn Ha Hb. destruct (bubble_facts l m) as [Hp Hsame].
  destruct (decide (k' = m)) as [->|Hne]; [by eapply (bubble_max l m k); [lia|..]|].
  rewrite Hsame in Hb by lia.
  destruct (decide (m < k)%nat) as [Hk|Hk]; [rewrite Hsame in Ha by lia; by eapply (Hs k k'); eauto; lia|].
  destruct (prefix_elem l (bubble l m) (S m) k a Hp) as (j & Hj & Hja); [|lia|done|].
  { intros i Hi. apply Hsame. lia. }
  eapply (Hs j k'); eauto; lia.
Qed.

Lemma sort_requests_spec (n : nat) (l : list ycsb_request) :
  sort_requests n l ≡ₚ l /\ settled n 0 (sort_requests n l)
  /\ forall k, (n <= k)%nat -> sort_requests n l !! k = l !! k.
Proof.
  unfold sort_requests.
  assert (forall m l, (m < n)%nat \/ m = 0%nat -> settled n (S m) l ->
    let l' := fold_left bubble (rev (seq 1 m)) l in
    l' ≡ₚ l /\ settled n 1 l' /\ forall k, (m < k)%nat -> l' !! k = l !! k) as Hloop.
  { clear l. induction m as [|m IH]; intros l Hm Hs; [done|].
    rewrite seq_S, rev_app_distr. cbn [rev app fold_left]. change (1 + m)%nat with (S m).
    apply bubble_settled in Hs. destruct (bubble_facts l (S m)) as [Hp Hsame].
    destruct (IH (bubble l (S m)) ltac:(lia) Hs) as (Hp' & Hs' & Hsame').
    split; [by rewrite Hp'|]. split; [done|].
    intros k Hk. rewrite Hsame' by lia. apply Hsame. lia. }
  destruct (Hloop (n - 1)%nat l) as (Hp & Hs & Hsame); [lia| |].
  { intros k k' a b H1 H2 H3. lia. }
  split; [done|]. split; [|intros k Hk; destruct (decide (n = 0%nat)) as [->|]; [done|apply Hsame; lia]].
  intros k k' a b _ Hlt. apply Hs; lia.
Qed.

(** ** The requests of a query *)

Section Gen.
Context {R : Type} `{Double R} (g : config R) (the_n : Z) (denom zeta_2_theta : R).

(** Sensible parameters: as many partitions as virtual partitions, at least one
    partition per transaction and no more than requests. *)
Record config_ok : Prop := {
  co_parts : 0 < g_part_cnt g /\ g_virtual_part_cnt g = g_part_cnt g;
  co_table : 0 < table_size g /\ g_synth_table_size g < 2 ^ 63;
  co_reqs : 0 < g_part_per_txn g <= g_req_per_query g;
  co_small : g_req_per_query g < 2 ^ 31;
}.

(** The Zipf generator delivers rows of the table. *)
Definition zipf_ok : Prop :=
  forall x, exists v x', zipf g the_n denom zeta_2_theta (u64 (table_size g - 1)) (g_zipf_theta g) x
                         = Ret (v, x') /\ 0 <= v < table_size g.

Hypothesis Hg : config_ok.
Hypothesis Hz : zipf_ok.

Definition part_ok (p : Z) : Prop := 0 <= p < g_part_cnt g.

Lemma gen_parts_spec (thd_id x : Z) :
  exists parts x', gen_parts g thd_id x = Ret (parts, x') /\ Forall part_ok parts /\ parts <> [].
Proof using Hg.
  destruct Hg as [[Hp Hv] _ Hr _]. unfold gen_parts, part_ok.
  destruct (drand48_r x) as [r x1]. destruct (lrand48_r x1) as [rint64 x2].
  destruct (d_lt r (g_perc_multi_part g)).
  - rewrite Hv. destruct (Z.eqb_spec (g_part_cnt g) 0); [lia|].
    destruct (foldM_inv (fun l parts => exists k, l = seq k (Z.to_nat (g_part_per_txn g) - k)
        /\ (k <= Z.to_nat (g_part_per_txn g))%nat /\ Forall part_ok parts
        /\ (length parts <= k)%nat /\ (0 < k -> parts <> [])%nat)
      (add_part g thd_id rint64) (seq 0 (Z.to_nat (g_part_per_txn g))) [])
      as (parts & -> & k & Hl & Hk & Hok & _ & Hne).
    + exists 0%nat. rewrite Nat.sub_0_r. split_and!; try done; lia.
    + intros i l parts (k & Hl & Hk & Hok & Hlen & Hne).
      destruct (Z.to_nat (g_part_per_txn g) - k)%nat as [|m] eqn:Em; [done|].
      cbn [seq] in Hl. injection Hl as -> ->. unfold add_part. rewrite Hv.
      match goal with |- context [?a `mod` g_part_cnt g] => set (p := a `mod` g_part_cnt g) end.
      assert (part_ok p) as Hp' by (apply Z.mod_pos_bound; done).
      guard_true. eexists. split; [done|]. exists (S k).
      replace (Z.to_nat (g_part_per_txn g) - S k)%nat with m by lia.
      case_bool_decide as Hin; split_and!; try done; try lia.
      * intros _ ->. by apply not_elem_of_nil in Hin.
      * apply list.Forall_app. split; [done|]. by constructor.
      * rewrite length_app. simpl. lia.
      * intros _ Hnil. by apply app_nil in Hnil as [_ ?].
    + eexists _, _. split; [done|]. split; [done|]. apply Hne.
      destruct (Z.to_nat (g_part_per_txn g) - k)%nat eqn:Em; [lia|done].
  - destruct (Z.eqb_spec (g_part_cnt g) 0); [lia|].
    eexists _, _. split; [done|]. split; [|done]. constructor; [|done].
    by apply Z.mod_pos_bound.
Qed.

(** The first [gn_rid] requests have different keys, all recorded and all in the
    table. *)
Record gen_inv (t : nat) (s : gen) : Prop := {
  gi_len : length (gn_reqs s) = Z.to_nat (g_req_per_query g);
  gi_rid : (gn_rid s <= t)%nat;
  gi_some : gn_rid s = 0%nat -> t = 0%nat /\ gn_keys s = ∅;
  gi_nodup : NoDup (r_key <$> take (gn_rid s) (gn_reqs s));
  gi_keys : Forall (fun r => r_key r ∈ gn_keys s /\ 0 <= r_key r < g_synth_table_size g
                      /\ (rtype r = RD \/ rtype r = WR \/ rtype r = SCAN /\ scan_len r = SCAN_LEN))
              (take (gn_rid s) (gn_reqs s));
}.

(** Recording an accepted request. *)
Lemma gen_accept (t : nat) (s : gen) (x : Z) (req : ycsb_request) (ks : gset Z) :
  gen_inv t s -> (gn_rid s < Z.to_nat (g_req_per_query g))%nat ->
  r_key req ∉ gn_keys s -> r_key req ∈ ks -> 0 <= r_key req < g_synth_table_size g ->
  (rtype req = RD \/ rtype req = WR \/ rtype req = SCAN /\ scan_len req = SCAN_LEN) ->
  gen_inv (S t) (mkGen x (<[gn_rid s := req]> (gn_reqs s)) (ks ∪ gn_keys s) (S (gn_rid s))).
Proof using Type.
  clear Hg Hz. intros [Hl Hr Hs Hnd Hk] Hlt Hnew Hin Hrange Hty.
  assert (take (S (gn_rid s)) (<[gn_rid s := req]> (gn_reqs s))
          = take (gn_rid s) (gn_reqs s) ++ [req]) as Htake.
  { rewrite (take_S_r _ _ req) by (apply list_lookup_insert_eq; lia).
    by rewrite take_insert_ge by lia. }
  split; simpl; try lia.
  - by rewrite length_insert.
  - rewrite Htake, fmap_app. apply list.NoDup_app. split; [done|]. split; [|apply list.NoDup_singleton].
    intros k (r & -> & Hr')%list_elem_of_fmap Hx. apply list_elem_of_singleton in Hx.
    rewrite list.Forall_forall in Hk. destruct (Hk _ Hr') as [Hk' _]. congruence.
  - rewrite Htake. apply list.Forall_app. split.
    + eapply list.Forall_impl; [exact Hk|]. intros r (H1 & H2). split; [set_solver|done].
    + constructor; [|done]. split; [set_solver|done].
Qed.

(** A request that is dropped is overwritten by the next one. *)
Lemma gen_drop (t : nat) (s : gen) (x : Z) (req : ycsb_request) :
  gen_inv t s -> gn_keys s <> ∅ ->
  gen_inv (S t) (mkGen x (<[gn_rid s := req]> (gn_reqs s)) (gn_keys s) (gn_rid s)).
Proof using Type.
  clear Hg Hz. intros [Hl Hr Hs Hnd Hk] Hne.
  split; simpl; rewrite ?take_insert_ge by lia; try done; [by rewrite length_insert|lia|].
  intros Hz. by destruct (Hs Hz).
Qed.

Lemma set_type_cases (r : R) (req : ycsb_request) :
  rtype (set_type g r req) = RD \/ rtype (set_type g r req) = WR
  \/ rtype (set_type g r req) = SCAN /\ scan_len (set_type g r req) = SCAN_LEN.
Proof using Type. unfold set_type. repeat case_match; simpl; auto. Qed.

(** What the loop does with a request once it is made. *)
Definition place (row_id part_id : Z) (s : gen) (x : Z) (req : ycsb_request) : res gen :=
  let reqs := <[gn_rid s := req]> (gn_reqs s) in
  if bool_decide (rtype req = RD) || bool_decide (rtype req = WR) then
    if bool_decide (r_key req ∈ gn_keys s) then Ret (mkGen x reqs (gn_keys s) (gn_rid s))
    else Ret (mkGen x reqs ({[r_key req]} ∪ gn_keys s) (S (gn_rid s)))
  else
    let ks := scan_keys g row_id part_id (scan_len req) in
    if existsb (fun k => bool_decide (k ∈ gn_keys s)) ks
    then Ret (mkGen x reqs (gn_keys s) (gn_rid s))
    else Ret (mkGen x reqs (list_to_set ks ∪ gn_keys s) (S (gn_rid s))).

Lemma place_spec (row part : Z) (t : nat) (s : gen) (x : Z) (req : ycsb_request) :
  gen_inv t s -> (gn_rid s < Z.to_nat (g_req_per_query g))%nat ->
  r_key req = row * g_part_cnt g + part -> 0 <= r_key req < g_synth_table_size g ->
  g_synth_table_size g < 2 ^ 63 ->
  (rtype req = RD \/ rtype req = WR \/ rtype req = SCAN /\ scan_len req = SCAN_LEN) ->
  exists s', place row part s x req = Ret s' /\ gen_inv (S t) s'.
Proof using Type.
  clear Hg Hz. intros Hi Hlt Hkey Hrange Hsyn Hty. unfold place.
  assert (forall k, k ∈ gn_keys s -> gn_keys s <> ∅) as Hnon by set_solver.
  destruct (bool_decide (rtype req = RD) || bool_decide (rtype req = WR)) eqn:Ety.
  - destruct (bool_decide (r_key req ∈ gn_keys s)) eqn:Ek.
    + apply bool_decide_eq_true in Ek. eexists. split; [done|]. by apply gen_drop; eauto.
    + apply bool_decide_eq_false in Ek. eexists. split; [done|].
      apply gen_accept; try done. set_solver.
  - destruct Hty as [Hty|[Hty|[Hty Hsl]]]; [by rewrite Hty in Ety|by rewrite Hty in Ety|].
    rewrite Hsl.
    assert (r_key req ∈ scan_keys g row part SCAN_LEN) as Hown.
    { apply list_elem_of_fmap. exists 0. split; [|apply elem_of_seqZ; unfold SCAN_LEN; lia].
      rewrite Z.add_0_r, u64_id; [done|unfold is_u64; lia]. }
    destruct (existsb _ _) eqn:Ek.
    + apply existsb_exists in Ek as (k & _ & Hk%bool_decide_eq_true). eexists. split; [done|].
      by apply gen_drop; eauto.
    + eexists. split; [done|]. apply gen_accept; try done; [|by apply elem_of_list_to_set|by right; right].
      intros Hin. assert (existsb (fun k => bool_decide (k ∈ gn_keys s))
        (scan_keys g row part SCAN_LEN) = true) as Hcontra.
      { apply existsb_exists. exists (r_key req). split; [by apply list_elem_of_In|].
        by apply bool_decide_eq_true. }
      by rewrite Hcontra in Ek.
Qed.

Lemma gen_one_spec (parts : list Z) (t : nat) (s : gen) :
  Forall part_ok parts -> parts <> [] -> gen_inv t s -> (t < Z.to_nat (g_req_per_query g))%nat ->
  exists s', gen_one g the_n denom zeta_2_theta parts s t = Ret s' /\ gen_inv (S t) s'.
Proof using Hg Hz.
  intros Hparts Hne Hi Ht. pose proof Hg as [[HP HV] [HT Hsyn] Hr Hsm]. unfold gen_one.
  pose proof (gi_rid _ _ Hi) as Hrid. pose proof (gi_len _ _ Hi) as Hlen.
  destruct (drand48_r (gn_rng s)) as [r x].
  destruct (lookup_lt_is_Some_2 (gn_reqs s) (gn_rid s)) as [req Hreq]; [lia|].
  rewrite Hreq. cbn [at_ mbind res_bind].
  assert (0 < length parts)%nat as Hpl by (destruct parts; simpl; [done|lia]).
  assert (0 <= Z.of_nat t * Z.of_nat (length parts) / g_req_per_query g < Z.of_nat (length parts))
    as Hith by (split; [apply Z.div_pos|apply Z.div_lt_upper_bound]; nia).
  destruct (lookup_lt_is_Some_2 parts
    (Z.to_nat (Z.of_nat t * Z.of_nat (length parts) / g_req_per_query g))) as [part Hpart]; [lia|].
  rewrite Hpart. cbn [at_ mbind res_bind].
  rewrite list.Forall_forall in Hparts.
  pose proof (Hparts part (list_elem_of_lookup_2 _ _ _ Hpart)) as Hpok. unfold part_ok in Hpok.
  destruct (Hz x) as (row & x1 & -> & Hrow). cbn [mbind res_bind].
  rewrite (proj2 (Z.ltb_lt _ _)) by lia. destruct (lrand48_r x1) as [rint x2].
  rewrite HV. assert (row * g_part_cnt g + part < g_synth_table_size g) as Hkey.
  { unfold table_size in Hrow. rewrite HV in Hrow.
    pose proof (Z.mul_div_le (g_synth_table_size g) (g_part_cnt g) HP). nia. }
  rewrite u64_id by (unfold is_u64; nia).
  apply (place_spec row part); simpl; try done; [lia|nia|apply set_type_cases].
Qed.

(** Keys in order of their places. *)
Lemma sorted_by_place (l : list ycsb_request) :
  (forall i j a b, (i < j)%nat -> l !! i = Some a -> l !! j = Some b -> r_key a < r_key b) ->
  StronglySorted (fun a b => r_key a < r_key b) l.
Proof using Type.
  induction l as [|a l IH]; intros Hs; constructor.
  - apply IH. intros i j x y Hij Hi Hj. apply (Hs (S i) (S j)); [lia|done|done].
  - apply list.Forall_forall. intros b [j Hj]%list_elem_of_lookup.
    apply (Hs 0%nat (S j)); [lia|done|done].
Qed.

Lemma sorted_prefix (cnt : nat) (l : list ycsb_request) :
  NoDup (r_key <$> take cnt l) ->
  let l' := sort_requests cnt l in
  take cnt l' ≡ₚ take cnt l /\ length l' = length l
  /\ forall i j a b, (i < j)%nat -> take cnt l' !! i = Some a -> take cnt l' !! j = Some b ->
       r_key a < r_key b.
Proof using Type.
  intros Hnd l'. destruct (sort_requests_spec cnt l) as (Hp & Hs & Hsame). fold l' in Hp, Hs, Hsame.
  assert (take cnt l' ≡ₚ take cnt l) as Ht.
  { assert (drop cnt l' = drop cnt l) as Hd.
    { apply list_eq. intros i. rewrite !lookup_drop. apply Hsame. lia. }
    rewrite <- (take_drop cnt l'), <- (take_drop cnt l), Hd in Hp.
    by apply Permutation_app_inv_r in Hp. }
  split; [done|]. split; [by apply Permutation_length|].
  intros i j a b Hij Hi Hj. pose proof Hi as Hi'. pose proof Hj as Hj'.
  apply lookup_take_Some in Hi as [Hi ?]. apply lookup_take_Some in Hj as [Hj ?].
  assert (r_key a <= r_key b) by (apply (Hs i j); done || lia).
  assert (r_key a <> r_key b); [|lia]. intros Heq.
  rewrite <- Ht in Hnd. rewrite NoDup_alt in Hnd.
  assert (i = j); [|lia]. apply (Hnd i j (r_key a)); rewrite list_lookup_fmap.
  - by rewrite Hi'.
  - by rewrite Hj', Heq.
Qed.

Lemma check_order_spec (cnt : nat) (l : list ycsb_request) :
  (0 < cnt <= length l)%nat -> Z.of_nat cnt < 2 ^ 31 ->
  (forall i j a b, (i < j)%nat -> take cnt l !! i = Some a -> take cnt l !! j = Some b ->
     r_key a < r_key b) -> check_order cnt l = Ret tt.
Proof using Type.
  intros Hcnt Hmax Hs. unfold check_order. rewrite u64_id by (unfold is_u64; lia).
  destruct (foldM_inv (fun js _ => Forall (fun i => (S i < cnt)%nat) js)
    (fun (_ : unit) i => a ← at_ (l !! i); b ← at_ (l !! S i);
       assert! r_key a <? r_key b; Ret tt) (seq 0 (Z.to_nat (Z.of_nat cnt - 1))) tt)
    as ([] & -> & _); [| |done].
  - apply list.Forall_forall. intros i Hi%elem_of_seq. lia.
  - intros i js _ [Hi Hjs]%list.Forall_cons. exists tt. split; [|done].
    destruct (lookup_lt_is_Some_2 l i) as [a Ha]; [lia|].
    destruct (lookup_lt_is_Some_2 l (S i)) as [b Hb]; [lia|]. rewrite Ha, Hb. simpl.
    rewrite (proj2 (Z.ltb_lt _ _)); [done|]. apply (Hs i (S i)); [lia|by rewrite lookup_take_lt by lia..].
Qed.

Definition request_ok (r : ycsb_request) : Prop :=
  0 <= r_key r < g_synth_table_size g
  /\ (rtype r = RD \/ rtype r = WR \/ rtype r = SCAN /\ scan_len r = SCAN_LEN).

Lemma gen_loop_spec (parts : list Z) (x : Z) :
  Forall part_ok parts -> parts <> [] ->
  exists s, foldM (gen_one g the_n denom zeta_2_theta parts)
      (mkGen x (replicate (Z.to_nat (g_req_per_query g)) (mkRequest RD 0 0)) ∅ 0)
      (seq 0 (Z.to_nat (g_req_per_query g))) = Ret s
    /\ gen_inv (Z.to_nat (g_req_per_query g)) s.
Proof using Hg Hz.
  intros Hparts Hne. set (n := Z.to_nat (g_req_per_query g)).
  destruct (foldM_inv (fun l s => exists t, l = seq t (n - t) /\ (t <= n)%nat /\ gen_inv t s)
    (gen_one g the_n denom zeta_2_theta parts) (seq 0 n)
    (mkGen x (replicate n (mkRequest RD 0 0)) ∅ 0)) as (s & Hrun & t & Hl & Ht & Hi).
  - exists 0%nat. rewrite Nat.sub_0_r. split; [done|]. split; [lia|].
    split; simpl; try done; [by rewrite length_replicate|constructor].
  - intros i l s (t & Hl & Ht & Hi). destruct (n - t)%nat as [|m] eqn:Em; [done|].
    cbn [seq] in Hl. injection Hl as -> ->.
    destruct (gen_one_spec parts t s Hparts Hne Hi) as (s' & -> & Hi'); [fold n; lia|].
    exists s'. split; [done|]. exists (S t). replace (n - S t)%nat with m by lia.
    split; [done|]. split; [lia|done].
  - exists s. split; [done|]. replace n with t; [done|].
    destruct (n - t)%nat eqn:Em; [lia|done].
Qed.
End Gen.

(** A query the generator may produce. *)
Record query_good {R} (g : config R) (cnt : nat) (reqs : list ycsb_request) : Prop := mk_query_good {
  qg_some : (1 <= cnt)%nat;
  qg_most : Z.of_nat cnt <= g_req_per_query g;
  qg_distinct : NoDup (r_key <$> take cnt reqs);
  qg_rows : Forall (request_ok g) (take cnt reqs);
  qg_order : g_key_order g = true -> StronglySorted (fun a b => r_key a < r_key b) (take cnt reqs);
}.

Lemma gen_requests_ok {R} `{Double R} (g : config R) (the_n : Z) (denom zeta_2_theta : R)
    (thd_id x : Z) :
  config_ok g -> zipf_ok g the_n denom zeta_2_theta ->
  exists cnt reqs x', gen_requests g the_n denom zeta_2_theta thd_id x = Ret (cnt, reqs, x')
    /\ query_good g cnt reqs.
Proof.
  intros Hg Hz. unfold gen_requests.
  destruct (gen_parts_spec g Hg thd_id x) as (parts & x1 & -> & Hparts & Hne).
  cbn [mbind res_bind].
  destruct (gen_loop_spec g the_n denom zeta_2_theta Hg Hz parts x1 Hparts Hne) as (s & -> & Hi).
  cbn [mbind res_bind]. destruct Hi as [Hlen Hrid Hsome Hnd Hkeys].
  pose proof (co_reqs _ Hg). pose proof (co_small _ Hg).
  assert (0 < gn_rid s)%nat as Hpos by (destruct (gn_rid s); [destruct Hsome as [? _]; lia|lia]).
  assert (Forall (request_ok g) (take (gn_rid s) (gn_reqs s))) as Hok.
  { eapply list.Forall_impl; [exact Hkeys|]. intros r (_ & Hr). exact Hr. }
  destruct (g_key_order g) eqn:Eo.
  - destruct (sorted_prefix (gn_rid s) (gn_reqs s) Hnd) as (Hp & Hl & Hsort).
    rewrite check_order_spec by (done || lia). cbn [mbind res_bind].
    eexists _, _, _. split; [done|]. split; [lia|lia|by rewrite Hp|by rewrite Hp|].
    intros _. by apply sorted_by_place.
  - eexists _, _, _. split; [done|]. split; [lia|lia|done|done|congruence].
Qed.

(** A query has between one and [g_req_per_query] requests, for rows of the
    table, each row at most once; with [g_key_order] they come in increasing
    order of their keys, and no assertion of the generator fails. *)
Theorem gen_requests_spec {R} `{Double R} (g : config R) (the_n : Z) (denom zeta_2_theta : R)
    (thd_id x : Z) :
  config_ok g -> zipf_ok g the_n denom zeta_2_theta ->
  exists cnt reqs x', gen_requests g the_n denom zeta_2_theta thd_id x = Ret (cnt, reqs, x')
    /\ (1 <= cnt)%nat /\ Z.of_nat cnt <= g_req_per_query g
    /\ NoDup (r_key <$> take cnt reqs) /\ Forall (request_ok g) (take cnt reqs)
    /\ (g_key_order g = true -> StronglySorted (fun a b => r_key a < r_key b) (take cnt reqs)).
Proof.
  intros Hg Hz. destruct (gen_requests_ok g the_n denom zeta_2_theta thd_id x Hg Hz) as (cnt & reqs & x' & Hr & []).
  by exists cnt, reqs, x'.
Qed.

(** Whole numbers in place of floating point. *)
Module Whole.
#[global] Instance whole : Double Z := {
  d_lt := Z.ltb; d_le := Z.leb; d_eq := Z.eqb; d_add := Z.add; d_sub := Z.sub; d_mul := Z.mul; d_div := Z.div;
  d_pow := fun _ _ => 1; of_Z := id; to_Z := id;
}.

Definition cfg : config Z := mkConfig Z 100 2 2 1 16 1 1 0 0 true.

Lemma cfg_ok : config_ok cfg.
Proof. by split; vm_compute. Qed.

Lemma cfg_zipf (d z : Z) : zipf_ok cfg 49 d z.
Proof.
  intros x. unfold zipf. change (49 =? u64 (table_size cfg - 1)) with true.
  change (d_eq (g_zipf_theta cfg) (g_zipf_theta cfg)) with true. cbv iota zeta.
  unfold drand48_r. cbn [d_div of_Z whole]. unfold id.
  rewrite Z.div_small by (apply Z.mod_pos_bound; lia).
  eexists _, _. split; [reflexivity|]. vm_compute. split; [discriminate|reflexivity].
Qed.
End Whole.

Lemma gen_requests_spec_witness :
  exists cnt reqs x', gen_requests Whole.cfg 49 5 5 0 (srand48_r 1) = Ret (cnt, reqs, x')
    /\ (1 <= cnt)%nat /\ StronglySorted (fun a b => r_key a < r_key b) (take cnt reqs).
Proof.
  destruct (gen_requests_spec Whole.cfg 49 5 5 0 (srand48_r 1) Whole.cfg_ok (Whole.cfg_zipf 5 5))
    as (cnt & reqs & x' & Hrun & Hpos & _ & _ & _ & Hs).
  exists cnt, reqs, x'. split; [exact Hrun|]. split; [exact Hpos|]. apply Hs. reflexivity.
Defined.
