(* ===== verification/QueryQueue.v ===== *)
(** * db2: the queues of queries ([instance/benchmarks/query.cpp])

    Every thread has its own array of queries, generated before the run, and
    takes them one after the other.  The array is large enough for everything a
    worker thread can ask for. *)

From S2P Require Import Prelude Config Tpcc RowMvcc Txn Thread YcsbTxn YcsbQuery.

(** [src/config.h:18-18 WARMUP] *)
Definition WARMUP : Z := 0.

(** The queries of a thread and the next one to hand out.
    [src/instance/benchmarks/query.h:34-49 Query_thd] *)
Record Query_thd (Q : Type) := mkQueryThd {
  thread_id_ : Z;
  q_idx : Z;
  queries : list Q;
}.
Arguments mkQueryThd {Q}.
Arguments thread_id_ {Q}.
Arguments q_idx {Q}.
Arguments queries {Q}.

(** The member [all_queries]: a pointer per thread. *)
Abbreviation Query_queue Q := (list (option (Query_thd Q))).

(** A query is handed out by its address: the thread and the index. *)
Definition qptr : Type := Z * Z.

(** [src/instance/benchmarks/query.cpp:76-79 query_cnt] *)
Definition query_cnt : Z :=
  u64 (WARMUP / THREAD_CNT + MAX_TXN_PER_PART + 4 + ABORT_BUFFER_SIZE).

(** [src/instance/benchmarks/query.cpp:102-105 Query_thd::get_next_query] *)
Definition thd_next_query {Q} (qt : Query_thd Q) : qptr * Query_thd Q :=
  ((thread_id_ qt, q_idx qt), mkQueryThd (thread_id_ qt) (i32 (q_idx qt + 1)) (queries qt)).

(** [src/instance/benchmarks/query.cpp:63-67 Query_queue::get_next_query] *)
Definition get_next_query {Q} (thread_id : Z) (aq : Query_queue Q) : res (qptr * Query_queue Q) :=
  slot ← at_ (aq !! Z.to_nat thread_id);
  qt ← deref slot;
  let '(p, qt) := thd_next_query qt in
  Ret (p, <[Z.to_nat thread_id := Some qt]> aq).

(** Following the address of a query. *)
Definition query_at {Q} (aq : Query_queue Q) (p : qptr) : res Q :=
  slot ← at_ (aq !! Z.to_nat p.1);
  qt ← deref slot;
  if 0 <=? p.2 then at_ (queries qt !! Z.to_nat p.2) else Fault OutOfBounds.

Section Init.
Context {R : Type} `{Double R} (g : config R).

(** The memory of the queries is the thread's arena.
    [src/instance/benchmarks/query.cpp:71-100 Query_thd::init] *)
Definition thd_init (the_n : Z) (denom : R) (thread_id : Z) : res (Query_thd (nat * list ycsb_request)) :=
  '(qs, _) ← foldM (fun '(qs, x) (_ : nat) =>
       '(cnt, reqs, x) ← init_query g the_n denom thread_id x;
       Ret (qs ++ [(cnt, reqs)], x)) ([], srand48_r (thread_id + 1)) (seq 0 (Z.to_nat query_cnt));
  Ret (mkQueryThd thread_id 0 qs).

(** [src/instance/benchmarks/query.cpp:58-61 Query_queue::init_per_thread] *)
Definition init_per_thread (the_n : Z) (denom : R) (aq : Query_queue (nat * list ycsb_request))
    (thread_id : nat) : res (Query_queue (nat * list ycsb_request)) :=
  _ ← at_ (aq !! thread_id);
  qt ← thd_init the_n denom (Z.of_nat thread_id);
  Ret (<[thread_id := Some qt]> aq).

(** The threads draw their numbers from [_next_tid]; [order] is the order in
    which they fill their queues.
    [src/instance/benchmarks/query.cpp:21-47 Query_queue::init] *)
Definition queue_init (the_n : Z) (order : list nat) : res (Query_queue (nat * list ycsb_request)) :=
  '(the_n, denom) ← calculateDenom g the_n;
  foldM (init_per_thread the_n denom) (replicate (Z.to_nat THREAD_CNT) None) order.
End Init.

(** ** Filling the queues *)

Section Fill.
Context {R : Type} `{Double R} (g : config R).

Lemma thd_init_spec (the_n : Z) (denom : R) (thread_id : Z) :
  config_ok g -> the_n <> 0 -> d_eq denom (of_Z 0) = false ->
  zipf_ok g the_n denom (zeta 2 (g_zipf_theta g)) ->
  exists qs, thd_init g the_n denom thread_id = Ret (mkQueryThd thread_id 0 qs)
    /\ Z.of_nat (length qs) = query_cnt /\ Forall (fun q => query_good g q.1 q.2) qs.
Proof.
  intros Hg Hn Hd Hz. unfold thd_init. set (n := Z.to_nat query_cnt).
  destruct (foldM_inv (fun l (s : list (nat * list ycsb_request) * Z) =>
      (length s.1 + length l = n)%nat /\ Forall (fun q => query_good g q.1 q.2) s.1)
    (fun '(qs, x) (_ : nat) =>
       '(cnt, reqs, x) ← init_query g the_n denom thread_id x;
       Ret (qs ++ [(cnt, reqs)], x)) (seq 0 n) ([], srand48_r (thread_id + 1)))
    as ([qs x] & -> & Hlen & Hall).
  - rewrite length_seq. by split.
  - intros i l [qs x] [Hlen Hall]. unfold init_query.
    destruct (Z.eqb_spec the_n 0); [done|]. rewrite Hd. cbn [negb].
    destruct (gen_requests_ok g the_n denom (zeta 2 (g_zipf_theta g)) thread_id x Hg Hz)
      as (cnt & reqs & x' & -> & Hq). cbn [mbind res_bind]. eexists. split; [done|]. cbn [fst].
    rewrite length_app. cbn [length fst] in *. split; [lia|]. by apply list.Forall_app_2; [|constructor].
  - cbn [mbind res_bind]. exists qs. split; [done|]. split; [|done]. cbn in Hlen. subst n.
    rewrite Nat.add_0_r in Hlen. rewrite Hlen. reflexivity.
Qed.

(** The state of the queues when the threads of [done] have filled theirs. *)
Lemma fill_spec (the_n : Z) (denom : R) (order : list nat) (aq : Query_queue (nat * list ycsb_request)) :
  NoDup order -> Forall (fun i => (i < length aq)%nat) order ->
  (forall i, exists qt, thd_init g the_n denom i = Ret qt) ->
  exists aq', foldM (init_per_thread g the_n denom) aq order = Ret aq' /\ length aq' = length aq
    /\ (forall i, i ∈ order -> exists qt, aq' !! i = Some (Some qt) /\ thd_init g the_n denom (Z.of_nat i) = Ret qt)
    /\ (forall i, i ∉ order -> aq' !! i = aq !! i).
Proof.
  intros Hnd. revert aq. induction Hnd as [|i order Hi Hnd IH]; intros aq Hlt Hinit.
  { exists aq. split; [done|]. split; [done|]. split; [|done]. intros i Hi. by apply elem_of_nil in Hi. }
  apply list.Forall_cons in Hlt as [Hi' Hlt]. destruct (Hinit (Z.of_nat i)) as [qt Hqt].
  assert (init_per_thread g the_n denom aq i = Ret (<[i := Some qt]> aq)) as Hone.
  { unfold init_per_thread. destruct (aq !! i) eqn:Ho; [|apply lookup_ge_None in Ho; lia].
    cbn [at_ mbind res_bind]. by rewrite Hqt. }
  cbn [foldM]. rewrite Hone. cbn [mbind res_bind].
  destruct (IH (<[i := Some qt]> aq)) as (aq' & Hf & Hl & Hin & Hout); [by rewrite length_insert|done|].
  exists aq'. rewrite length_insert in Hl. split; [done|]. split; [done|]. split.
  - intros j [->|Hj]%elem_of_cons; [|by apply Hin]. exists qt.
    rewrite Hout by done. by rewrite list_lookup_insert_eq.
  - intros j Hj. apply not_elem_of_cons in Hj as [Hne Hj]. rewrite Hout by done. by rewrite list_lookup_insert_ne.
Qed.

(** Whatever the order in which the threads fill their queues, each thread gets
    the same queue: [query_cnt] good queries drawn from its own seed, none
    handed out yet. *)
Theorem query_queue_init_spec (order : list nat) :
  let the_n := u64 (table_size g - 1) in
  let denom := zeta the_n (g_zipf_theta g) in
  config_ok g -> 0 < g_virtual_part_cnt g -> the_n <> 0 -> d_eq denom (of_Z 0) = false ->
  zipf_ok g the_n denom (zeta 2 (g_zipf_theta g)) ->
  order ≡ₚ seq 0 (Z.to_nat THREAD_CNT) ->
  exists aq, queue_init g 0 order = Ret aq /\ length aq = Z.to_nat THREAD_CNT
    /\ queue_init g 0 (seq 0 (Z.to_nat THREAD_CNT)) = Ret aq
    /\ forall i, (i < Z.to_nat THREAD_CNT)%nat -> exists qs, aq !! i = Some (Some (mkQueryThd (Z.of_nat i) 0 qs))
       /\ Z.of_nat (length qs) = query_cnt /\ Forall (fun q => query_good g q.1 q.2) qs.
Proof.
  intros the_n denom Hg Hpart Hn Hd Hz Hord.
  assert (forall i, exists qt, thd_init g the_n denom i = Ret qt) as Hinit.
  { intros i. destruct (thd_init_spec the_n denom i Hg Hn Hd Hz) as (qs & -> & _). by eexists. }
  unfold queue_init, calculateDenom. destruct (Z.eqb_spec (g_virtual_part_cnt g) 0) as [|_]; [lia|].
  change (0 =? 0) with true. cbn [mbind res_bind]. fold the_n. fold denom.
  set (n := Z.to_nat THREAD_CNT) in *. set (aq0 := replicate n None).
  assert (forall order, order ≡ₚ seq 0 n -> exists aq, foldM (init_per_thread g the_n denom) aq0 order = Ret aq
    /\ length aq = n /\ forall i, (i < n)%nat -> exists qt, aq !! i = Some (Some qt)
        /\ thd_init g the_n denom (Z.of_nat i) = Ret qt) as Hfill.
  { intros o Ho. destruct (fill_spec the_n denom o aq0) as (aq & Hf & Hl & Hin & _).
    - rewrite Ho. apply NoDup_seq.
    - rewrite Ho. apply list.Forall_forall. intros i Hi. apply elem_of_seq in Hi. unfold aq0. rewrite length_replicate. lia.
    - done.
    - exists aq. split; [done|]. unfold aq0 in Hl. rewrite length_replicate in Hl. split; [done|].
      intros i Hi. apply Hin. rewrite Ho. apply elem_of_seq. lia. }
  destruct (Hfill order Hord) as (aq & Hf & Hl & Hall). destruct (Hfill (seq 0 n)) as (aq' & Hf' & Hl' & Hall'); [done|].
  exists aq. split; [done|]. split; [done|]. split.
  - rewrite Hf'. f_equal. apply list_eq. intros i. destruct (decide (i < n)%nat) as [Hi|Hi].
    + destruct (Hall i Hi) as (q & -> & Hq). destruct (Hall' i Hi) as (q' & -> & Hq'). congruence.
    + rewrite !lookup_ge_None_2 by lia. done.
  - intros i Hi. destruct (Hall i Hi) as (q & Hq & Ht).
    destruct (thd_init_spec the_n denom (Z.of_nat i) Hg Hn Hd Hz) as (qs & Ht' & Hqs). rewrite Ht in Ht'.
    injection Ht' as ->. eauto.
Qed.
End Fill.

(** ** A worker thread and its queue *)

Section Bounds.
Context {Q S : Type}.

(** What a transaction does with its query. *)
Context (exec : Z -> Z -> Q -> inst S -> res (RC * inst S)).

(** A transaction follows the address it was given; the queries themselves do
    not change during the run. *)
Definition run_query (aq : Query_queue Q) (id ts : Z) (p : qptr) (s : inst S) : res (RC * inst S) :=
  q ← query_at aq p;
  exec id ts q s.

(** Every transaction commits or aborts and leaves the number of threads alone. *)
Definition settles : Prop := forall id ts q s, exists rc s',
  exec id ts q s = Ret (rc, s') /\ (rc = RCOK \/ rc = Abort) /\ length (all_ts s') = length (all_ts s).

Context (aq0 : Query_queue Q) (qt0 : Query_thd Q) (tid : Z).
Hypothesis Hmine : aq0 !! Z.to_nat tid = Some (Some qt0).
Hypothesis Hid : thread_id_ qt0 = tid.
Hypothesis Hcnt : Z.of_nat (length (queries qt0)) = query_cnt.

(** Every query handed out was committed or waits in the abort buffer. *)
Record keeps_count (th : thread_t qptr) (aq : Query_queue Q) : Prop := mk_keeps_count {
  kc_wf : th_wf th;
  kc_size : length (_abort_buffer th) = Z.to_nat ABORT_BUFFER_SIZE;
  kc_thd : _thd_id th = tid;
  kc_queue : aq !! Z.to_nat tid = Some (Some (mkQueryThd tid
    (txn_cnt th + Z.of_nat (length (pending (_abort_buffer th)))) (queries qt0)));
  kc_given : Forall (fun p => p.1 = tid
    /\ 0 <= p.2 < txn_cnt th + Z.of_nat (length (pending (_abort_buffer th)))) (pending (_abort_buffer th));
}.

Lemma next_query_spec (th : thread_t qptr) (aq : Query_queue Q) : keeps_count th aq ->
  let i := txn_cnt th + Z.of_nat (length (pending (_abort_buffer th))) in
  get_next_query tid aq = Ret ((tid, i), <[Z.to_nat tid := Some (mkQueryThd tid (i + 1) (queries qt0))]> aq).
Proof.
  intros [[Hslots _ _ Hc] Hsize _ Hq _]. cbn zeta. unfold get_next_query. rewrite Hq. cbn [at_ deref mbind res_bind].
  unfold thd_next_query. cbn [thread_id_ q_idx queries]. do 5 f_equal. apply i32_id.
  pose proof (pending_length (_abort_buffer th)). unfold MAX_TXN_PER_PART, ABORT_BUFFER_SIZE in *. lia.
Qed.

(** A picked query is in the array. *)
Lemma picked_in_bounds (th : thread_t qptr) (aq aq' : Query_queue Q) (rest : list qptr) (p : qptr) :
  keeps_count th aq -> picked get_next_query th rest aq aq' p ->
  p.1 = tid /\ exists q, query_at aq0 p = Ret q.
Proof using Hmine Hcnt.
  intros Hk Hp. pose proof Hk as [[Hslots _ _ Hc] Hsize Hthd _ Hgiven].
  pose proof (pending_length (_abort_buffer th)) as Hpl.
  assert (p.1 = tid /\ 0 <= p.2 < query_cnt) as [H1 H2].
  { change query_cnt with 1014. unfold MAX_TXN_PER_PART, ABORT_BUFFER_SIZE in *. destruct Hp as [[Hp _]|(_ & Hg & Hnz)].
    - rewrite Hp in Hgiven. apply list.Forall_cons in Hgiven as [[-> ?] _]. lia.
    - rewrite Hthd, (next_query_spec th aq Hk) in Hg. injection Hg as <- _. cbn. lia. }
  split; [done|]. unfold query_at. rewrite H1, Hmine. cbn [at_ deref mbind res_bind].
  destruct (Z.leb_spec 0 p.2); [|lia].
  destruct (lookup_lt_is_Some_2 (queries qt0) (Z.to_nat p.2)) as [q ->]; [lia|]. by exists q.
Qed.

Lemma round_keeps (clock : list Z) (now penalty : Z) (th : thread_t qptr) (aq : Query_queue Q) (s : inst S) :
  settles -> keeps_count th aq -> Forall (fun c => 0 <= c <= UINT64_MAX) clock ->
  0 <= tid < Z.of_nat (length (all_ts s)) ->
  (iteration get_next_query (run_query aq0) clock now penalty th aq s = Fault OutOfFuel /\ ~ will_pick clock th)
  \/ exists over th' aq' s' q rest rc,
    round get_next_query (run_query aq0) clock now penalty th aq s over th' aq' s' q rest rc
    /\ (rc = RCOK \/ rc = Abort) /\ length (all_ts s') = length (all_ts s) /\ (over = false -> keeps_count th' aq').
Proof using Hmine Hid Hcnt.
  intros Hset Hk Hc Hts. pose proof Hk as [Hwf Hsize Hthd Hq Hgiven].
  destruct (round_spec get_next_query (run_query aq0) clock now penalty th aq s Hwf Hc) as [?|Hr].
  - by rewrite Hthd.
  - intros _. rewrite Hthd, (next_query_spec th aq Hk). eauto.
  - intros rest aq' p id ts s0 Hp _. destruct (picked_in_bounds th aq aq' rest p Hk Hp) as [_ [q Hat]].
    unfold run_query. rewrite Hat. cbn [mbind res_bind]. destruct (Hset id ts q s0) as (rc & s' & ? & _). eauto.
  - by left.
  - right. destruct Hr as (over & th' & aq' & s' & p & rest & rc & Hr). exists over, th', aq', s', p, rest, rc.
    pose proof Hr as [_ Hp (id & ts & s0 & Hrun & Hlen) Hpend Hsz Hthd' Hct _ Hwf'].
    assert ((rc = RCOK \/ rc = Abort) /\ length (all_ts s') = length (all_ts s)) as [Hrc Hl].
    { unfold run_query in Hrun. destruct (query_at aq0 p) as [q| |]; [|done|done]. cbn [mbind res_bind] in Hrun.
      destruct (Hset id ts q s0) as (rc' & s1 & He & ? & ?). rewrite Hrun in He. injection He as <- <-. split; [done|lia]. }
    split; [done|]. split; [done|]. split; [done|]. intros Hov.
    set (i := txn_cnt th + Z.of_nat (length (pending (_abort_buffer th)))) in *.
    set (i' := txn_cnt th' + Z.of_nat (length (pending (_abort_buffer th')))) in *.
    assert (i' = txn_cnt th + Z.of_nat (length rest) + 1) as Hi'.
    { subst i'. rewrite Hct, Hpend. repeat case_bool_decide; cbn [length]; try lia; naive_solver. }
    assert (forall P : qptr -> Prop, P p -> Forall P rest -> Forall P (pending (_abort_buffer th'))) as Hall.
    { intros P ? ?. rewrite Hpend. destruct (bool_decide (rc = Abort)); [by constructor|done]. }
    split; fold i'; [by apply Hwf'|lia|congruence| |].
    + destruct Hp as [[Hp ->]|(Hp & Hg & _)].
      * rewrite Hq. do 3 f_equal. apply Permutation_length in Hp. cbn in Hp. subst i. lia.
      * rewrite Hthd, (next_query_spec th aq Hk) in Hg. injection Hg as _ <-.
        apply lookup_lt_Some in Hq. rewrite list_lookup_insert_eq by done. do 3 f_equal. fold i. subst i. rewrite Hp. lia.
    + apply Hall.
      * destruct Hp as [[Hp ->]|(Hp & Hg & _)].
        -- rewrite Hp in Hgiven at 1. apply list.Forall_cons in Hgiven as [[? ?] _]. split; [done|].
           apply Permutation_length in Hp. cbn in Hp. subst i. lia.
        -- rewrite Hthd, (next_query_spec th aq Hk) in Hg. injection Hg as <- _. cbn. fold i. subst i. rewrite Hp. split; [done|]. destruct Hwf. lia.
      * assert (Forall (fun p0 : qptr => p0.1 = tid /\ 0 <= p0.2 < i) rest) as Hrest.
        { destruct Hp as [[Hp _]|(<- & _)]; [|done]. rewrite Hp in Hgiven at 1. by apply list.Forall_cons in Hgiven as [_ ?]. }
        eapply list.Forall_impl; [exact Hrest|]. intros x [? ?]. split; [done|].
        assert (i <= i'); [|lia]. destruct Hp as [[Hp _]|(Hp & _)]; [apply Permutation_length in Hp; cbn in Hp|apply (f_equal length) in Hp]; subst i; lia.
Qed.

(** What a run of the thread comes to. *)
Definition run_outcome (env : list (list Z * Z * Z)) (th : thread_t qptr) (aq : Query_queue Q) (s : inst S) : Prop :=
  let r := run get_next_query (run_query aq0) env th aq s in
  r = Fault OutOfFuel
  \/ exists th' aq' s', r = Ret (FINISH, th', aq', s') /\ txn_cnt th' = MAX_TXN_PER_PART.

Lemma run_keeps (env : list (list Z * Z * Z)) (th : thread_t qptr) (aq : Query_queue Q) (s : inst S) :
  settles -> keeps_count th aq -> 0 <= tid < Z.of_nat (length (all_ts s)) ->
  Forall (fun e => Forall (fun c => 0 <= c <= UINT64_MAX) e.1.1) env -> run_outcome env th aq s.
Proof using Hmine Hid Hcnt.
  intros Hset. revert th aq s. induction env as [|[[clock now] penalty] env IH]; intros th aq s Hk Hts Henv; [by left|].
  apply list.Forall_cons in Henv as [Hc Henv]. unfold run_outcome. cbn [run]. cbn in Hc.
  destruct (round_keeps clock now penalty th aq s Hset Hk Hc Hts)
    as [[-> _]|(over & th' & aq' & s' & q & rest & rc & Hr & _ & Hl & Hnext)]; [by left|].
  rewrite (rd_run _ _ _ _ _ _ _ _ _ _ _ _ _ _ _ Hr). cbn [mbind res_bind]. destruct over.
  - right. eexists _, _, _. split; [done|]. by apply (rd_over _ _ _ _ _ _ _ _ _ _ _ _ _ _ _ Hr).
  - apply IH; [by apply Hnext|lia|done].
Qed.

(** When every transaction commits, a round per commit is enough. *)
Lemma run_finishes (env : list (list Z * Z * Z)) (th : thread_t qptr) (aq : Query_queue Q) (s : inst S) :
  (forall id ts q s, exists s', exec id ts q s = Ret (RCOK, s') /\ length (all_ts s') = length (all_ts s)) ->
  keeps_count th aq -> pending (_abort_buffer th) = [] -> 0 <= tid < Z.of_nat (length (all_ts s)) ->
  Forall (fun e => e.1.1 <> [] /\ Forall (fun c => 0 <= c <= UINT64_MAX) e.1.1) env ->
  MAX_TXN_PER_PART - txn_cnt th <= Z.of_nat (length env) ->
  run get_next_query (run_query aq0) env th aq s <> Fault OutOfFuel.
Proof using Hmine Hid Hcnt.
  intros Hcom. assert settles as Hset.
  { intros id ts q s0. destruct (Hcom id ts q s0) as (s' & ? & ?). exists RCOK, s'. auto. }
  revert th aq s. induction env as [|[[clock now] penalty] env IH]; intros th aq s Hk Hno Hts Henv Hlen.
  { destruct Hk as [[_ _ _ ?] _ _ _ _]. cbn in Hlen. lia. }
  apply list.Forall_cons in Henv as [[Hne Hc] Henv]. cbn [run]. cbn in Hne, Hc.
  destruct (round_keeps clock now penalty th aq s Hset Hk Hc Hts)
    as [[_ Hno']|(over & th' & aq' & s' & q & rest & rc & Hr & Hrc & Hl & Hnext)].
  { exfalso. apply Hno'. split; [done|]. left. destruct Hk as [[-> ? _ _] ? _ _ _]. rewrite Hno. cbn. lia. }
  rewrite (rd_run _ _ _ _ _ _ _ _ _ _ _ _ _ _ _ Hr). cbn [mbind res_bind]. destruct over; [done|].
  destruct Hr as [_ Hp (id & ts & s0 & Hrun & _) Hpend _ _ Hct _ _].
  assert (rc = RCOK) as ->.
  { unfold run_query in Hrun. destruct (query_at aq0 q) as [q0| |]; [|done|done]. cbn [mbind res_bind] in Hrun.
    destruct (Hcom id ts q0 s0) as (s1 & He & _). rewrite Hrun in He. by injection He. }
  destruct Hp as [[Hp _]|(Hp & _)]; rewrite Hno in Hp; [by apply Permutation_nil_cons in Hp|]. subst rest.
  rewrite bool_decide_eq_false_2 in Hpend by done. rewrite bool_decide_eq_true_2 in Hct by done.
  apply IH; [by apply Hnext|by apply Permutation_nil_r|lia|done|cbn [length] in Hlen; lia].
Qed.
End Bounds.

(** C30: A worker thread never asks for more queries than its array has.  Whatever
    its transactions commit or abort and whatever the clock shows, a run of the
    thread on a freshly filled queue fails nowhere: no query is followed out of
    the array and no assertion fails.  It is either still running when the
    readings of the clock end or has committed exactly [MAX_TXN_PER_PART]
    queries; and when the transactions commit, a round per commit is enough. *)
Theorem thread_queries_suffice {Q S} (exec : Z -> Z -> Q -> inst S -> res (RC * inst S))
    (aq : Query_queue Q) (qs : list Q) (tid : Z) (env : list (list Z * Z * Z)) (s : inst S) :
  aq !! Z.to_nat tid = Some (Some (mkQueryThd tid 0 qs)) -> Z.of_nat (length qs) = query_cnt ->
  settles exec -> 0 <= tid < Z.of_nat (length (all_ts s)) ->
  Forall (fun e => Forall (fun c => 0 <= c <= UINT64_MAX) e.1.1) env ->
  let r := run get_next_query (run_query exec aq) env (init_thread tid true) aq s in
  (r = Fault OutOfFuel
   \/ exists th' aq' s', r = Ret (FINISH, th', aq', s') /\ txn_cnt th' = MAX_TXN_PER_PART)
  /\ ((forall id ts q s, exists s', exec id ts q s = Ret (RCOK, s') /\ length (all_ts s') = length (all_ts s)) ->
      Forall (fun e => e.1.1 <> []) env -> MAX_TXN_PER_PART <= Z.of_nat (length env) ->
      r <> Fault OutOfFuel).
Proof.
  intros Hmine Hcnt Hset Hts Henv. cbn zeta.
  assert (keeps_count (mkQueryThd tid 0 qs) tid (init_thread tid true) aq) as Hk
    by (split; [apply init_thread_wf|reflexivity|reflexivity|exact Hmine|constructor]).
  split; [by eapply run_keeps|]. intros Hcom Hne Hlen.
  eapply (run_finishes exec aq (mkQueryThd tid 0 qs) tid); try done.
  - apply list.Forall_forall. intros e He. rewrite list.Forall_forall in Hne, Henv. auto.
Qed.

(** ** Instances *)

Lemma query_queue_init_spec_witness :
  exists aq, queue_init Whole.cfg 0 [1; 0; 2; 3]%nat = Ret aq
    /\ queue_init Whole.cfg 0 (seq 0 (Z.to_nat THREAD_CNT)) = Ret aq.
Proof.
  destruct (query_queue_init_spec Whole.cfg [1; 0; 2; 3]%nat) as (aq & H1 & _ & H2 & _).
  - exact Whole.cfg_ok.
  - reflexivity.
  - vm_compute. discriminate.
  - vm_compute. reflexivity.
  - apply Whole.cfg_zipf.
  - apply Permutation_swap.
  - exists aq. exact (conj H1 H2).
Defined.

Definition queue_example : Query_queue unit := [None; Some (mkQueryThd 1 0 (replicate 1014 tt))].

Lemma thread_queries_suffice_witness :
  run get_next_query (run_query (fun _ _ _ s => Ret (RCOK, s)) queue_example)
    (replicate 1000 ([5], 0, 0)) (init_thread 1 true) queue_example (new_inst 0 16 tt) <> Fault OutOfFuel.
Proof.
  refine (proj2 (thread_queries_suffice (fun _ _ _ s => Ret (RCOK, s)) queue_example
    (replicate 1014 tt) 1 (replicate 1000 ([5], 0, 0)) (new_inst 0 16 tt) _ _ _ _ _) _ _ _).
  - reflexivity.
  - rewrite length_replicate. reflexivity.
  - intros id ts q s. exists RCOK, s. auto.
  - vm_compute. split; [discriminate|reflexivity].
  - apply list.Forall_forall. intros e He. apply elem_of_replicate_inv in He as ->. repeat constructor; discriminate.
  - intros id ts q s. by exists s.
  - apply list.Forall_forall. intros e He. by apply elem_of_replicate_inv in He as ->.
  - rewrite length_replicate. reflexivity.
Defined.
