(* ===== verification/YcsbCorrect.v ===== *)
(** * db2: the YCSB transaction does what it says

    A transaction on rows that no other transaction is using commits, and the
    rows it writes carry its timestamp; after [GetWritePageLock] the instance
    owns every page of the write set and the thread is registered on it. *)

From Stdlib Require Import Sorting.Sorted.
From S2P Require Import Prelude Config FileIO Buffer RowStore RowMvcc RowMvccInv RowMvccState RowMvccServe Mvcc MvccCorrect Txn TxnCorrect YcsbTxn.
From S2P Require Catalog Index LockTable.

Section Execute.
Context {S : Type} `{RowStoreSpec S}.

(** No prewrite is served on the row, and nobody newer has used it. *)
Definition quiet (s : inst S) (ts key : Z) : Prop :=
  exists m h, mvcc_array s !! key = Some (m, h) /\ exists_prewrite m = false
    /\ latest_wts m < ts /\ max_served_rts m <= ts.

(** What a granted access leaves behind. *)
Record got (ts key : Z) (type : access_t) (l : rloc) (tm tm' : txn_man) (s s' : inst S) : Prop := mk_got {
  g_wf : inst_wf s';
  g_other : forall k, k <> key -> mvcc_array s' !! k = mvcc_array s !! k;
  g_val : forall k, row_val (i_db s') k = row_val (i_db s) k;
  g_txn : exists t, i_txns s' !! thd_id tm = Some t /\ t_ts t = ts;
  g_thd : thd_id tm' = thd_id tm;
  g_cnt : row_cnt tm' = row_cnt tm + 1;
  g_acc : accesses tm' = <[Z.to_nat (row_cnt tm) := Some (mkAccess type (Some (key, l)))]> (accesses tm);
}.

(** [get_row] once the row has granted the access. *)
Lemma get_row_granted (key : Z) (type : access_t) (l : rloc) (rdy : bool) (ts : Z) (b : bytes)
    (tm : txn_man) (s s' : inst S) :
  access_row key (thd_id tm) (if bool_decide (type = RD) then R_REQ else P_REQ)
    (match accesses tm !! Z.to_nat (row_cnt tm) with Some (Some a) => snd <$> a_data a | _ => None end) s
    = Ret (RCOK, s') ->
  (Z.to_nat (row_cnt tm) < length (accesses tm))%nat ->
  i_txns s' !! thd_id tm = Some (mkTxn ts (Some l) rdy) ->
  deref_row (Some (key, l)) s' = Ret (Catalog.mkRowItem key row_size (Some b) None None) ->
  exists tm', get_row row_size key type tm s = Ret (Some (key, l), tm', s')
    /\ thd_id tm' = thd_id tm /\ row_cnt tm' = row_cnt tm + 1
    /\ accesses tm' = <[Z.to_nat (row_cnt tm) := Some (mkAccess type (Some (key, l)))]> (accesses tm).
Proof.
  intros Ha Hlt Ht Hd. unfold get_row.
  destruct (lookup_lt_is_Some_2 (accesses tm) (Z.to_nat (row_cnt tm)) Hlt) as [slot Hslot].
  rewrite Hslot in Ha |- *. cbn [at_ mbind res_bind].
  assert (forall row, snd <$> row = (match slot with Some a => snd <$> a_data a | None => None end) ->
    GetRow key type (thd_id tm) row s = Ret (RCOK, Some (key, l), s')) as Hget.
  { intros row Hrow. unfold GetRow. rewrite Hrow. destruct slot as [a|]; rewrite Ha; cbn [mbind res_bind];
      rewrite Ht; cbn [at_ mbind res_bind]; by rewrite bool_decide_eq_true_2. }
  destruct slot as [a|]; cbn [thd_id a_data];
    [rewrite (Hget (a_data a)) by done|rewrite (Hget None) by done];
    cbn [mbind res_bind]; rewrite bool_decide_eq_false_2 by done; cbn [set_access thd_id row_cnt wr_cnt accesses num_accesses_alloc];
    rewrite Ht; cbn [at_ mbind res_bind cur_row fmap option_fmap option_map];
    rewrite bool_decide_eq_true_2 by done; rewrite Hd; cbn [mbind res_bind Catalog.key_ Catalog.size_];
    rewrite !Z.eqb_refl; eexists; (split; [done|]); cbn; rewrite ?list_insert_insert_eq; done.
Qed.

(** The row object an access returns. *)
Lemma deref_obj (s : inst S) (key : Z) (m : Row_mvcc) (h : gmap rloc Catalog.RowItem) (l : rloc) (b : bytes) :
  mvcc_array s !! key = Some (m, h) ->
  h !! l = Some (Catalog.mkRowItem key row_size (Some b) None None) ->
  deref_row (Some (key, l)) s = Ret (Catalog.mkRowItem key row_size (Some b) None None).
Proof.
  intros Hk Hl. unfold deref_row, row_state, row_obj. cbn [deref mbind res_bind]. rewrite Hk.
  cbn [at_ mbind res_bind rows]. by rewrite Hl.
Qed.

Lemma get_row_read (key ts : Z) (tm : txn_man) (t : txn_state) (s : inst S) :
  inst_wf s -> i_txns s !! thd_id tm = Some t -> t_ts t = ts -> quiet s ts key ->
  (Z.to_nat (row_cnt tm) < length (accesses tm))%nat ->
  exists l tm' s', get_row row_size key RD tm s = Ret (Some (key, l), tm', s')
    /\ got ts key RD l tm tm' s s' /\ acc_ok s' ts (mkAccess RD (Some (key, l)))
    /\ exists b, deref_row (Some (key, l)) s' = Ret (Catalog.mkRowItem key row_size (Some b) None None)
       /\ load_u64 b 0 = Ret key.
Proof.
  intros Hs Ht Hts (m & h & Hk & Hno & Hlat & Hsv) Hlt. destruct (Hs key m h Hk) as [Hmk Hwf].
  destruct (read_latest_spec (thd_id tm) t (mkState m h (i_txns s) (i_db s)) Hwf Ht)
    as (st & l & Ha & Hst & Hkp & _ & Htx & Hl & _ & Hval); [cbn; lia|cbn; congruence|].
  pose proof (kp_key _ _ Hkp) as Hmk'. cbn in Hmk'. rewrite Hmk in Hmk'.
  destruct (st_db _ (proj1 Hst)) as [Hdb (v & Hv)]. rewrite Hmk' in Hv.
  destruct (st_latest _ (proj1 Hst) l v Hl) as (r & Hr & -> & Hlen); [by rewrite Hmk'|]. rewrite Hmk' in Hr.
  destruct (row_val_ok _ _ _ Hdb Hv) as [_ Hkey].
  set (s' := put_row key st s).
  assert (mvcc_array s' !! key = Some (mv st, rows st)) as Hk' by (cbn; by rewrite lookup_insert_eq).
  assert (deref_row (Some (key, l)) s' = Ret (Catalog.mkRowItem key row_size (Some v) None None)) as Hd
    by (by apply (deref_obj s' key (mv st) (rows st))).
  destruct (get_row_granted key RD l (ts_ready t) ts v tm s s') as (tm' & Hg & H1 & H2 & H3); [|done| |done|].
  { unfold access_row, row_state. rewrite Hk. cbn [at_ mbind res_bind]. unfold access. cbn [txns]. rewrite Ht.
    cbn [at_ mbind res_bind]. change (bool_decide (RD = RD)) with true. cbn iota. by rewrite Ha. }
  { cbn. rewrite Htx, lookup_insert_eq. by rewrite Hts. }
  exists l, tm', s'. split; [done|]. split; [|split; [|eauto]].
  - split; try done.
    + apply (put_row_wf key m h); try done.
      by apply (txns_kept_insert (mkState m h (i_txns s) (i_db s)) _ (thd_id tm) t _ Ht Htx).
    + intros k Hne. cbn. by rewrite lookup_insert_ne.
    + exists (mkTxn ts (Some l) (ts_ready t)). cbn. rewrite Htx, lookup_insert_eq. by rewrite Hts.
  - exists key, l. split; [done|]. right. split; [done|]. eexists _, _, _. split; [done|]. split; [exact Hr|done].
Qed.

Lemma get_row_write (key ts : Z) (tm : txn_man) (t : txn_state) (s : inst S) :
  inst_wf s -> i_txns s !! thd_id tm = Some t -> t_ts t = ts -> quiet s ts key -> ts < UINT64_MAX ->
  (Z.to_nat (row_cnt tm) < length (accesses tm))%nat ->
  exists l tm' s' v, get_row row_size key WR tm s = Ret (Some (key, l), tm', s')
    /\ got ts key WR l tm tm' s s' /\ row_val (i_db s) key = Some v /\ holds s' ts key l v
    /\ deref_row (Some (key, l)) s' = Ret (Catalog.mkRowItem key row_size (Some v) None None).
Proof.
  intros Hs Ht Hts (m & h & Hk & Hno & Hlat & Hsv) Hmax Hlt. destruct (Hs key m h Hk) as [Hmk Hwf].
  destruct (prewrite_spec (thd_id tm) (GetMinTs s) t (mkState m h (i_txns s) (i_db s)) Hwf Ht Hno)
    as (st & l & Ha & Hst & Hp & Hkp & Htx & Hbytes & Hval); [cbn; lia|cbn; lia|].
  pose proof (kp_key _ _ Hkp) as Hmk'. cbn in Hmk'. rewrite Hmk in Hmk'. cbn [mv] in Hbytes. rewrite Hmk in Hbytes.
  destruct (st_db _ (proj1 Hst)) as [Hdb (v & Hv)]. rewrite Hmk' in Hv. rewrite Hv in Hbytes.
  destruct (row_val_ok _ _ _ Hdb Hv) as [_ Hkey].
  pose proof Hp as (_ & _ & e & He & Hre). destruct (st_objs _ (proj1 Hst) _ e l He Hre) as (b & r & Hr & -> & _).
  unfold row_bytes in Hbytes. cbn in Hbytes. rewrite Hr in Hbytes. injection Hbytes as ->. rewrite Hmk' in Hr.
  set (s' := put_row key st s).
  assert (mvcc_array s' !! key = Some (mv st, rows st)) as Hk' by (cbn; by rewrite lookup_insert_eq).
  assert (deref_row (Some (key, l)) s' = Ret (Catalog.mkRowItem key row_size (Some v) None None)) as Hd
    by (by apply (deref_obj s' key (mv st) (rows st))).
  destruct (get_row_granted key WR l (ts_ready t) ts v tm s s') as (tm' & Hg & H1 & H2 & H3); [|done| |done|].
  { unfold access_row, row_state. rewrite Hk. cbn [at_ mbind res_bind]. unfold access. cbn [txns]. rewrite Ht.
    cbn [at_ mbind res_bind]. change (bool_decide (WR = RD)) with false. cbn iota. by rewrite Ha. }
  { cbn. rewrite Htx, lookup_insert_eq. by rewrite Hts. }
  exists l, tm', s', v. split; [done|]. split; [|split; [|split; [|done]]].
  - split; try done.
    + apply (put_row_wf key m h); try done.
      by apply (txns_kept_insert (mkState m h (i_txns s) (i_db s)) _ (thd_id tm) t _ Ht Htx).
    + intros k Hne. cbn. by rewrite lookup_insert_ne.
    + exists (mkTxn ts (Some l) (ts_ready t)). cbn. rewrite Htx, lookup_insert_eq. by rewrite Hts.
  - rewrite <- Hv. symmetry. apply Hval.
  - split; [|done]. exists (mv st), (rows st). split; [done|]. rewrite <- Hts. split; [done|].
    unfold row_bytes. cbn. by rewrite Hr.
Qed.

(** ** One request *)

(** The row as the transaction writes it. *)
Definition stamped (ts : Z) (v : bytes) : bytes := splice (Z.to_nat (row_size - 8)) (bytes_of_u64 ts) v.

Lemma holds_frame (s s' : inst S) (ts key : Z) (l : rloc) (b : bytes) :
  mvcc_array s' !! key = mvcc_array s !! key -> holds s ts key l b -> holds s' ts key l b.
Proof. intros Heq [(m & h & Hk & Hrest) Hb]. split; [|done]. exists m, h. by rewrite Heq. Qed.

Lemma acc_frame (s s' : inst S) (ts key : Z) (l : rloc) (type : access_t) :
  mvcc_array s' !! key = mvcc_array s !! key ->
  acc_ok s ts (mkAccess type (Some (key, l))) -> acc_ok s' ts (mkAccess type (Some (key, l))).
Proof.
  intros Heq (k & l' & [= <- <-] & Hor). exists key, l. split; [done|].
  destruct Hor as [[Ht (b & Hh)]|[Ht (m & h & r & Hk & Hrest)]].
  - left. split; [done|]. exists b. by apply (holds_frame s).
  - right. split; [done|]. exists m, h, r. by rewrite Heq.
Qed.

Lemma compute_write (cnt tid ts key : Z) (l : rloc) (v : bytes) (t : txn_state) (s : inst S) :
  inst_wf s -> i_txns s !! tid = Some t -> t_ts t = ts -> holds s ts key l v ->
  deref_row (Some (key, l)) s = Ret (Catalog.mkRowItem key row_size (Some v) None None) ->
  16 <= row_size -> Z.of_nat (length v) = row_size -> 1 < cnt ->
  exists s', compute row_size cnt tid WR (key, l) s = Ret s' /\ inst_wf s'
    /\ holds s' ts key l (stamped ts v) /\ (forall k, k <> key -> mvcc_array s' !! k = mvcc_array s !! k)
    /\ i_db s' = i_db s /\ i_txns s' = i_txns s.
Proof.
  intros Hs Ht Hts [(m & h & Hk & Hp & Hb) Hkey] Hd Hsz Hlen Hcnt. destruct (Hs key m h Hk) as [Hmk Hwf].
  unfold compute. destruct (Z.ltb_spec 1 cnt); [|lia]. rewrite Hd. cbn [mbind res_bind Catalog.row_ deref].
  rewrite Ht. cbn [at_ mbind res_bind]. rewrite Hts.
  rewrite memcpy_Ret by (rewrite ?length_bytes_of_u64; lia). cbn [mbind res_bind].
  rewrite slice_all' by (by rewrite length_bytes_of_u64). fold (stamped ts v).
  unfold deref_row, row_state in Hd. cbn [deref mbind res_bind] in Hd. rewrite Hk in Hd. cbn [at_ mbind res_bind] in Hd.
  unfold set_row_bytes, row_state. cbn [fst snd]. rewrite Hk. cbn [at_ mbind res_bind]. rewrite Hd.
  cbn [mbind res_bind mv rows txns db with_bytes Catalog.key_ Catalog.size_ Catalog.data Catalog.table].
  assert (length (stamped ts v) = length v) as Hsl
    by (unfold stamped; rewrite length_splice; [done|rewrite length_bytes_of_u64; lia]).
  eexists. split; [done|]. split; [|split].
  - apply (put_row_wf key m h); try done.
    + apply (wf_keeps (mkState m h (i_txns s) (i_db s))); try done. rewrite <- Hmk.
      apply (st_base_write_obj (mkState m h (i_txns s) (i_db s)) ts l); [apply Hwf|done|lia].
    + intros k u Hu. by exists u.
  - split.
    + eexists m, _. cbn. rewrite lookup_insert_eq. split; [done|]. split; [done|].
      unfold row_bytes. cbn. by rewrite lookup_insert_eq.
    + rewrite <- Hkey. unfold stamped. apply load_splice_disjoint; rewrite ?length_bytes_of_u64; lia.
  - split; [|done]. intros k Hne. cbn. by rewrite lookup_insert_ne.
Qed.

(** A finished request: its access is recorded, and a write holds the new row. *)
Definition done_req (s0 s : inst S) (ts : Z) (req : ycsb_request) (a : Access) : Prop :=
  exists l, a = mkAccess (rtype req) (Some (r_key req, l)) /\ acc_ok s ts a
    /\ (rtype req = WR -> exists v, row_val (i_db s0) (r_key req) = Some v
         /\ holds s ts (r_key req) l (stamped ts v)).

Record stepped (ts key : Z) (tm tm' : txn_man) (s s' : inst S) (a : Access) : Prop := mk_stepped {
  sp_wf : inst_wf s';
  sp_other : forall k, k <> key -> mvcc_array s' !! k = mvcc_array s !! k;
  sp_val : forall k, row_val (i_db s') k = row_val (i_db s) k;
  sp_txn : exists t, i_txns s' !! thd_id tm = Some t /\ t_ts t = ts;
  sp_thd : thd_id tm' = thd_id tm;
  sp_cnt : row_cnt tm' = row_cnt tm + 1;
  sp_acc : accesses tm' = <[Z.to_nat (row_cnt tm) := Some a]> (accesses tm);
}.

Lemma do_request_spec (cnt ts : Z) (req : ycsb_request) (tm : txn_man) (t : txn_state) (s0 s : inst S) :
  inst_wf s -> i_txns s !! thd_id tm = Some t -> t_ts t = ts -> quiet s ts (r_key req) -> ts < UINT64_MAX ->
  (Z.to_nat (row_cnt tm) < length (accesses tm))%nat -> rtype req = RD \/ rtype req = WR ->
  16 <= row_size -> 1 < cnt -> (forall k, row_val (i_db s) k = row_val (i_db s0) k) ->
  exists tm' s' a, do_request row_size 65 cnt 0 req tm s = Ret (true, tm', s')
    /\ stepped ts (r_key req) tm tm' s s' a /\ done_req s0 s' ts req a.
Proof.
  intros Hs Ht Hts Hq Hmax Hlt Hty Hsz Hcnt Hval. cbn [do_request]. destruct Hty as [Hty|Hty]; rewrite Hty.
  - destruct (get_row_read (r_key req) ts tm t s Hs Ht Hts Hq Hlt) as (l & tm' & s' & -> & [H1 H2 H3 H4 H5 H6 H7] & Hacc & b & Hd & Hb).
    cbn [mbind res_bind]. rewrite Hd. cbn [mbind res_bind Catalog.size_]. rewrite Z.eqb_refl.
    unfold compute. destruct (Z.ltb_spec 1 cnt); [|lia]. rewrite Hd. cbn [mbind res_bind Catalog.row_ deref].
    rewrite Hb. cbn [mbind res_bind]. change (bool_decide (RD = RD)) with true. cbn [orb].
    eexists tm', s', _. split; [done|]. split; [by split|]. exists l. rewrite Hty. split; [done|]. split; [done|]. done.
  - destruct (get_row_write (r_key req) ts tm t s Hs Ht Hts Hq Hmax Hlt) as (l & tm' & s1 & v & -> & [H1 H2 H3 H4 H5 H6 H7] & Hv & Hh & Hd).
    cbn [mbind res_bind]. rewrite Hd. cbn [mbind res_bind Catalog.size_]. rewrite Z.eqb_refl. rewrite H5.
    destruct H4 as (t1 & Ht1 & Hts1). rewrite <- H3 in Hv.
    destruct Hh as [(m & h & Hk & Hp & Hb) Hkey] eqn:EHh. destruct (H1 _ m h Hk) as [_ Hwf1]. clear EHh.
    destruct (row_val_ok _ _ _ (proj1 (st_db _ (proj1 Hwf1))) Hv) as [Hlen _].
    destruct (compute_write cnt (thd_id tm) ts (r_key req) l v t1 s1 H1 Ht1 Hts1 Hh Hd Hsz Hlen Hcnt)
      as (s2 & -> & Hwf2 & Hh2 & Ho2 & Hdb2 & Htx2).
    cbn [mbind res_bind]. change (bool_decide (WR = RD)) with false. change (bool_decide (WR = WR)) with true. cbn [orb].
    eexists tm', s2, _. split; [done|]. split.
    + split; try done.
      * intros k Hne. rewrite Ho2, H2 by done. done.
      * intros k. by rewrite Hdb2, H3.
      * exists t1. by rewrite Htx2.
    + exists l. rewrite Hty. split; [done|]. split.
      * exists (r_key req), l. split; [done|]. left. split; [done|]. by exists (stamped ts v).
      * intros _. exists v. split; [|done]. rewrite <- Hval, <- H3. exact Hv.
Qed.

(** ** All requests *)

(** The requests [dn] are finished, with the accesses [accs]. *)
Record progress (ts : Z) (s0 : inst S) (dn : list ycsb_request) (accs : list Access) (tm : txn_man)
    (s : inst S) : Prop := mk_progress {
  pg_wf : inst_wf s;
  pg_txn : exists t, i_txns s !! thd_id tm = Some t /\ t_ts t = ts;
  pg_len : length (accesses tm) = Z.to_nat MAX_ROW_PER_TXN;
  pg_made : made tm accs;
  pg_val : forall k, row_val (i_db s) k = row_val (i_db s0) k;
  pg_other : forall k, k ∉ (r_key <$> dn) -> mvcc_array s !! k = mvcc_array s0 !! k;
  pg_done : Forall2 (done_req s0 s ts) dn accs;
}.

Lemma done_req_frame (s0 s s' : inst S) (ts : Z) (req : ycsb_request) (a : Access) :
  mvcc_array s' !! r_key req = mvcc_array s !! r_key req ->
  done_req s0 s ts req a -> done_req s0 s' ts req a.
Proof.
  intros Heq (l & -> & Hacc & Hw). exists l. split; [done|]. split; [by apply (acc_frame s)|].
  intros Hty. destruct (Hw Hty) as (v & Hv & Hh). exists v. split; [done|]. by apply (holds_frame s).
Qed.

Lemma made_snoc (tm tm' : txn_man) (accs : list Access) (a : Access) :
  made tm accs -> (Z.to_nat (row_cnt tm) < length (accesses tm))%nat -> row_cnt tm' = row_cnt tm + 1 ->
  accesses tm' = <[Z.to_nat (row_cnt tm) := Some a]> (accesses tm) -> made tm' (accs ++ [a]).
Proof.
  intros (Hr0 & Ht & Hl) Hlt Hc Ha. split; [lia|].
  replace (Z.to_nat (row_cnt tm')) with (Datatypes.S (Z.to_nat (row_cnt tm))) by lia. split.
  - rewrite (take_S_r _ _ (Some a)); rewrite Ha; [|by apply list_lookup_insert_eq].
    rewrite take_insert_ge, Ht, fmap_app by lia. done.
  - rewrite length_app. simpl. lia.
Qed.

Lemma do_requests_spec (cnt ts : Z) (s0 : inst S) (reqs dn : list ycsb_request) (accs : list Access)
    (tm : txn_man) (s : inst S) :
  progress ts s0 dn accs tm s -> (length (dn ++ reqs) <= Z.to_nat MAX_ROW_PER_TXN)%nat ->
  NoDup (r_key <$> (dn ++ reqs)) -> Forall (fun r => rtype r = RD \/ rtype r = WR) reqs ->
  Forall (fun r => quiet s0 ts (r_key r)) reqs -> ts < UINT64_MAX -> 16 <= row_size -> 1 < cnt ->
  exists accs' tm' s', do_requests row_size cnt reqs tm s = Ret (RCOK, tm', s')
    /\ progress ts s0 (dn ++ reqs) accs' tm' s' /\ thd_id tm' = thd_id tm.
Proof.
  revert dn accs tm s. induction reqs as [|req reqs IH]; intros dn accs tm s Hpg Hlen Hnd Hty Hq Hmax Hsz Hcnt.
  { exists accs, tm, s. rewrite app_nil_r. done. }
  pose proof Hpg as [Hwf (t & Ht & Hts) Hal Hmade Hval Hother Hdone].
  apply list.Forall_cons in Hty as [Hty Htys]. apply list.Forall_cons in Hq as [Hq Hqs].
  rewrite fmap_app in Hnd. cbn in Hnd. apply list.NoDup_app in Hnd as (Hnd1 & Hnd2 & Hnd3).
  assert (r_key req ∉ (r_key <$> dn)) as Hnew by (intros Hin; apply (Hnd2 _ Hin); by apply elem_of_cons; left).
  apply Forall2_length in Hdone as Hdl. destruct Hmade as (Hc0 & Htk & Hla) eqn:EM. clear EM.
  assert (Z.to_nat (row_cnt tm) < length (accesses tm))%nat as Hroom
    by (rewrite Hal; rewrite length_app in Hlen; cbn in Hlen; lia).
  cbn [do_requests].
  destruct (do_request_spec cnt ts req tm t s0 s Hwf Ht Hts) as (tm1 & s1 & a & -> & [S1 S2 S3 S4 S5 S6 S7] & Hd); try done.
  { unfold quiet. by rewrite (Hother _ Hnew). }
  cbn [mbind res_bind].
  destruct (IH (dn ++ [req]) (accs ++ [a]) tm1 s1) as (accs' & tm' & s' & -> & Hpg' & Hthd); try done.
  - split; try done.
    + by rewrite S5.
    + by rewrite S7, length_insert.
    + by apply (made_snoc tm).
    + intros k. by rewrite S3.
    + intros k Hk. rewrite fmap_app in Hk. rewrite S2; [apply Hother; set_solver|]. intros ->. apply Hk. set_solver.
    + apply Forall2_app; [|by constructor]. rewrite Forall2_same_length_lookup in Hdone |- *.
      destruct Hdone as [_ Hdone]. split; [done|]. intros i r' a' Hr' Ha'.
      apply (done_req_frame s0 s); [|by apply (Hdone i)]. apply S2. intros Heq. apply Hnew.
      rewrite <- Heq. apply list_elem_of_fmap. exists r'. split; [done|]. by eapply list_elem_of_lookup_2.
  - rewrite <- app_assoc. done.
  - rewrite <- app_assoc, fmap_app. cbn. by apply list.NoDup_app.
  - exists accs', tm', s'. rewrite <- app_assoc in Hpg'. split; [done|]. split; [done|]. congruence.
Qed.

Lemma done_keys (s0 s : inst S) (ts : Z) (dn : list ycsb_request) (accs : list Access) :
  Forall2 (done_req s0 s ts) dn accs -> acc_key <$> accs = r_key <$> dn /\ Forall (acc_ok s ts) accs.
Proof.
  induction 1 as [|req a dn accs (l & -> & Hacc & _) _ [IH1 IH2]]; cbn; [done|].
  split; [by rewrite IH1|by apply list.Forall_cons].
Qed.

End Execute.

Module TwoRows.

Definition row8 : bytes := bytes_of_u64 8 ++ replicate 8 Byte.x61.
Definition d : MapStore.t := MapStore.mk {[7 := one_row; 8 := row8]}.

(** Rows 7 and 8, and thread 1 with a transaction at 5. *)
Definition i : inst MapStore.t :=
  mkInst {[7 := (init_mvcc 7 16, ∅); 8 := (init_mvcc 8 16, ∅)]} {[1 := mkTxn 5 None false]} d
    [UINT64_MAX; 5; UINT64_MAX; UINT64_MAX] 6.

Lemma i_wf : inst_wf i.
Proof.
  assert (MapStore.ok d) as Hok.
  { intros key v. unfold d. cbn [MapStore.cells]. rewrite lookup_insert_Some.
    intros [[<- <-]|[_ Hv]]; [split; vm_compute; reflexivity|].
    apply lookup_singleton_Some in Hv as [<- <-]. split; vm_compute; reflexivity. }
  assert (forall key v, row_val d key = Some v -> st_wf (mkState (init_mvcc key 16) ∅ (i_txns i) d)) as Hrow.
  { intros key v Hv. apply (st_wf_frame _ _ ∅ _ d); [|intros k u Hu; cbn in Hu; by rewrite lookup_empty in Hu|done|done].
    assert (8 <= row_size (S := MapStore.t)) as Hsz by (cbn; lia).
    exact (init_state_wf key d v Hok Hv Hsz). }
  intros key m h. unfold i. cbn [mvcc_array]. rewrite lookup_insert_Some.
  intros [[<- [= <- <-]]|[_ Hm]]; [split; [done|]; by apply (Hrow 7 one_row)|].
  apply lookup_singleton_Some in Hm as [<- [= <- <-]]. split; [done|]. by apply (Hrow 8 row8).
Qed.
End TwoRows.


(** ** Page locks *)

Section PageLocks.
Context {D : Type} `{DiskSpec D} {W : Type}.
Context (lock_remote : Z -> W -> res (RC * bytes * W)).

(** The lock service grants every page of the write set, with content [content p]. *)
Context (content : Z -> bytes).
Definition grants (pages : list Z) : Prop :=
  forall p w, p ∈ pages -> Z.of_nat (length (content p)) = MY_PAGE_SIZE
    /\ exists w', lock_remote p w = Ret (RCOK, content p, w').

(** A page nobody is asking for or invalidating. *)
Definition calm (s : Store D) (p : Z) : Prop :=
  disk_valid p /\ exists n, st_lock_table s !! p = Some n
    /\ LockTable.invalid_req n = false /\ LockTable.lock_remoting n = false.

(** What one page's turn does. *)
Record secured (p : Z) (s s' : Store D) : Prop := mk_secured {
  sc_pool : buffer_ok (st_buffer s') /\ disk_wf (st_disk s');
  sc_node : exists n n', st_lock_table s !! p = Some n /\ st_lock_table s' !! p = Some n'
    /\ LockTable.lock_mode n' <> LM_O /\ LockTable.invalid_req n' = LockTable.invalid_req n
    /\ LockTable.lock_remoting n' = LockTable.lock_remoting n
    /\ (LockTable.lock_mode n = LM_O -> page_view s' p = Some (content p))
    /\ (LockTable.lock_mode n <> LM_O -> n' = n /\ s' = s);
  sc_other : forall q, q <> p -> st_lock_table s' !! q = st_lock_table s !! q;
  sc_view : forall q v, disk_valid q -> q <> p -> page_view s q = Some v -> page_view s' q = Some v;
}.

Lemma get_page_spec (p : Z) (s : Store D) (w : W) :
  buffer_ok (st_buffer s) -> disk_wf (st_disk s) -> calm s p -> grants [p] ->
  exists s' w', get_page lock_remote p s w = Ret (RCOK, s', w') /\ secured p s s'.
Proof.
  intros Hb Hd (Hv & n & Hn & Hinv & Hrem) Hg. destruct (Hg p w) as [Hlen (w' & Hlr)]; [by apply list_elem_of_singleton|].
  unfold get_page. rewrite Hn. cbn [deref mbind res_bind]. case_bool_decide as Hmode.
  - rewrite Hrem. cbn [negb]. rewrite Hlr. cbn [mbind res_bind]. unfold set_node, with_lt, with_pool. cbn [st_lock_table st_buffer st_disk st_index].
    rewrite lookup_insert_eq. cbn [deref mbind res_bind]. change (bool_decide (Abort = RCOK)) with false.
    change (bool_decide (TIME_OUT = RCOK)) with false. cbn [orb].
    rewrite bool_decide_eq_true_2 by done. cbn [LockTable.lock_mode LockTable.set_lock_remoting].
    rewrite (bool_decide_eq_true_2 _ Hmode).
    destruct (BufferPut_spec (st_buffer s) (st_disk s) p (content p) Hb Hd Hv Hlen) as (b & d & Hput & Hb' & Hd' & _ & Hp & Hother).
    rewrite Hput. cbn [mbind res_bind]. eexists _, w'. split; [done|]. split.
    + done.
    + eexists n, _. split; [done|]. cbn. rewrite lookup_insert_eq. split; [done|]. cbn. done.
    + intros q Hq. cbn. by rewrite !lookup_insert_ne.
    + intros q v Hqv Hq Hvq. by apply Hother.
  - exists s, w. split; [done|]. split; [done| |done|done]. exists n, n. done.
Qed.

Lemma get_pages_spec (pages : list Z) (s : Store D) (w : W) :
  buffer_ok (st_buffer s) -> disk_wf (st_disk s) -> Forall (calm s) pages -> NoDup pages -> grants pages ->
  exists s' w', get_pages lock_remote pages s w = Ret (RCOK, s', w')
    /\ buffer_ok (st_buffer s') /\ disk_wf (st_disk s')
    /\ (forall p, p ∈ pages -> exists n n', st_lock_table s !! p = Some n /\ st_lock_table s' !! p = Some n'
         /\ LockTable.lock_mode n' <> LM_O /\ (LockTable.lock_mode n = LM_O -> page_view s' p = Some (content p)))
    /\ (forall q, q ∉ pages -> st_lock_table s' !! q = st_lock_table s !! q)
    /\ (forall q v, disk_valid q -> q ∉ pages -> page_view s q = Some v -> page_view s' q = Some v).
Proof.
  revert s w. induction pages as [|p pages IH]; intros s w Hb Hd Hc Hnd Hg.
  { exists s, w. split_and!; try done. intros p Hp. by apply elem_of_nil in Hp. }
  apply list.Forall_cons in Hc as [Hcp Hcs]. apply list.NoDup_cons in Hnd as [Hnot Hnd].
  assert (grants [p] /\ grants pages) as [Hg1 Hg2].
  { split; intros q u Hq; apply Hg; apply elem_of_cons; [left; by apply list_elem_of_singleton in Hq|by right]. }
  destruct (get_page_spec p s w Hb Hd Hcp Hg1) as (s1 & w1 & Hgp & [[Hb1 Hd1] (n & n1 & Hn & Hn1 & Hmo & _ & _ & Hvp & _) Hoth Hvw]).
  cbn [get_pages]. rewrite Hgp. cbn [mbind res_bind]. rewrite bool_decide_eq_false_2 by done.
  destruct (IH s1 w1 Hb1 Hd1) as (s' & w' & -> & Hb' & Hd' & Hin & Hout & Hview); [|done|done|].
  { apply list.Forall_forall. intros q Hq. rewrite list.Forall_forall in Hcs. destruct (Hcs q Hq) as [Hqv (m & Hm & Hrest)].
    split; [done|]. exists m. rewrite Hoth; [done|]. intros ->. done. }
  exists s', w'. split; [done|]. split; [done|]. split; [done|]. split; [|split].
  - intros q Hq. apply elem_of_cons in Hq as [->|Hq].
    + exists n, n1. rewrite Hout by done. split; [done|]. split; [done|]. split; [done|].
      intros Hmode. apply Hview; [apply Hcp|done|by apply Hvp].
    + destruct (Hin q Hq) as (m & m' & Hm & Hm' & Hrest). exists m, m'. rewrite <- (Hoth q); [done|]. intros ->. done.
  - intros q Hq. rewrite Hout, Hoth; [done| |]; set_solver.
  - intros q v Hqv Hq Hv. apply Hview; [done|set_solver|]. apply Hvw; [done|set_solver|done].
Qed.

Lemma add_threads_spec (tid : Z) (pages : list Z) (s : Store D) :
  (forall p, p ∈ pages -> exists n, st_lock_table s !! p = Some n /\ LockTable.lock_mode n <> LM_O) ->
  exists lt, add_threads tid pages s = Ret (with_lt lt s)
    /\ (forall p, p ∈ pages -> exists n, lt !! p = Some n /\ LockTable.lock_mode n <> LM_O /\ tid ∈ LockTable.thread_set n)
    /\ (forall p n, st_lock_table s !! p = Some n -> exists n', lt !! p = Some n'
         /\ LockTable.lock_mode n' = LockTable.lock_mode n /\ (LockTable.thread_set n ⊆ LockTable.thread_set n'))
    /\ (forall q, q ∉ pages -> lt !! q = st_lock_table s !! q).
Proof.
  clear content lock_remote W. revert s. induction pages as [|p pages IH]; intros s Hall.
  { exists (st_lock_table s). split; [by destruct s|]. split; [|split; [|done]].
    - intros p Hp. by apply elem_of_nil in Hp.
    - intros p n Hn. by exists n. }
  destruct (Hall p) as (n & Hn & Hmo); [by apply elem_of_cons; left|].
  unfold add_threads. cbn [foldM]. rewrite Hn. cbn [deref mbind res_bind]. rewrite bool_decide_eq_false_2 by done. cbn [negb].
  set (n1 := LockTable.add_thread_node tid n).
  assert (LockTable.AddThread p tid (st_lock_table s) = Ret (true, <[p := n1]> (st_lock_table s))) as Hat
    by (unfold LockTable.AddThread, LockTable.node_of; by rewrite Hn).
  rewrite Hat. cbn [mbind res_bind]. set (s1 := with_lt (<[p := n1]> (st_lock_table s)) s).
  assert (LockTable.lock_mode n1 = LockTable.lock_mode n /\ LockTable.thread_set n ⊆ LockTable.thread_set n1
    /\ tid ∈ LockTable.thread_set n1) as (Hm1 & Hsub & Htid).
  { unfold n1, LockTable.add_thread_node. case_decide; [done|]. cbn. set_solver. }
  destruct (IH s1) as (lt & Hadd & H1 & H2 & H3).
  { intros q Hq. cbn. destruct (decide (q = p)) as [->|Hne]; [rewrite lookup_insert_eq; exists n1; split; [done|congruence]|].
    rewrite lookup_insert_ne by done. apply Hall. by apply elem_of_cons; right. }
  exists lt. unfold add_threads in Hadd. rewrite Hadd. split; [done|].
  destruct (H2 p n1) as (n2 & Hn2 & Hm2 & Hsub2); [by cbn; rewrite lookup_insert_eq|]. split; [|split].
  - intros q Hq. apply elem_of_cons in Hq as [->|Hq]; [|by apply H1].
    exists n2. split; [done|]. split; [congruence|set_solver].
  - intros q m Hm. destruct (decide (q = p)) as [->|Hne].
    + rewrite Hn in Hm. injection Hm as <-. exists n2. split; [done|]. split; [congruence|set_solver].
    + apply (H2 q). cbn. by rewrite lookup_insert_ne.
  - intros q Hq. rewrite H3 by set_solver. cbn. rewrite lookup_insert_ne by set_solver. done.
Qed.

Lemma no_invalid_req (pages : list Z) (s : Store D) :
  Forall (calm s) pages -> has_invalid_req pages (st_lock_table s) = Ret false.
Proof.
  induction 1 as [|p pages (_ & n & Hn & Hi & _) _ IH]; cbn; [done|].
  rewrite Hn. cbn [deref mbind res_bind]. by rewrite Hi.
Qed.

(** C27: When the lock service grants the pages, [GetWritePageLock] leaves the
    instance with a valid lock on every page of the write set and the thread
    registered on it; pages the instance did not own have the content that came
    with the grant; no other page and no other lock changes. *)
Theorem get_write_page_lock_ok (tid : Z) (pages : list Z) (s : Store D) (w : W) :
  buffer_ok (st_buffer s) -> disk_wf (st_disk s) -> Forall (calm s) pages -> NoDup pages -> grants pages ->
  exists s' w', GetWritePageLock lock_remote tid pages s w = Ret (RCOK, s', w')
    /\ buffer_ok (st_buffer s') /\ disk_wf (st_disk s')
    /\ (forall p, p ∈ pages -> exists n n', st_lock_table s !! p = Some n /\ st_lock_table s' !! p = Some n'
         /\ LockTable.lock_mode n' <> LM_O /\ tid ∈ LockTable.thread_set n'
         /\ (LockTable.lock_mode n = LM_O -> page_view s' p = Some (content p)))
    /\ (forall q, q ∉ pages -> st_lock_table s' !! q = st_lock_table s !! q)
    /\ (forall q v, disk_valid q -> q ∉ pages -> page_view s q = Some v -> page_view s' q = Some v).
Proof.
  intros Hb Hd Hc Hnd Hg. unfold GetWritePageLock. rewrite (no_invalid_req pages s Hc). cbn [mbind res_bind].
  destruct (get_pages_spec pages s w Hb Hd Hc Hnd Hg) as (s1 & w1 & -> & Hb1 & Hd1 & Hin & Hout & Hview).
  cbn [mbind res_bind]. rewrite bool_decide_eq_false_2 by done.
  destruct (add_threads_spec tid pages s1) as (lt & -> & H1 & _ & H3).
  { intros p Hp. destruct (Hin p Hp) as (n & n' & _ & Hn' & Hmo & _). eauto. }
  cbn [mbind res_bind]. eexists _, w1. split; [done|]. split; [done|]. split; [done|]. split; [|split].
  - intros p Hp. destruct (Hin p Hp) as (n & _ & Hn & _ & _ & Hvp). destruct (H1 p Hp) as (n' & Hn' & Hmo & Htid).
    exists n, n'. done.
  - intros q Hq. cbn. by rewrite H3, Hout.
  - done.
Qed.
End PageLocks.

Lemma get_write_page_lock_ok_witness :
  exists b s' w', buffer_ok b /\
    GetWritePageLock (fun _ w => Ret (RCOK, a_page, w)) 1 [3]
      (with_lt {[3 := LockTable.new_LockNode 0]} (one_store b)) tt = Ret (RCOK, s', w')
    /\ exists n', st_lock_table s' !! 3 = Some n' /\ LockTable.lock_mode n' <> LM_O
         /\ 1 ∈ LockTable.thread_set n'.
Proof.
  destruct one_store_ok as (b & _ & Hst & _). pose proof (ok_pool _ _ Hst) as Hok. exists b.
  destruct (get_write_page_lock_ok (fun _ w => Ret (RCOK, a_page, w)) (fun _ => a_page) 1 [3]
    (with_lt {[3 := LockTable.new_LockNode 0]} (one_store b)) tt) as (s' & w' & H1 & _ & _ & H4 & _).
  - exact Hok.
  - exact (ok_disk _ _ Hst).
  - apply list.Forall_cons. split; [|by apply list.Forall_nil]. split; [done|].
    eexists. split; [reflexivity|]. split; reflexivity.
  - apply NoDup_singleton.
  - intros p w _. split; [apply length_a_page|]. by exists w.
  - exists s', w'. split; [exact Hok|]. split; [exact H1|].
    destruct (H4 3) as (n & n' & _ & Hn' & Hmo & Ht & _); [by apply list_elem_of_singleton|]. eauto.
Defined.

(** ** The write set *)

Lemma set_insert_elem (x y : Z) (l : list Z) : y ∈ set_insert x l <-> y = x \/ y ∈ l.
Proof.
  induction l as [|z l IH]; cbn [set_insert].
  - rewrite list_elem_of_singleton, elem_of_nil. tauto.
  - destruct (Z.ltb_spec x z); [rewrite !elem_of_cons; tauto|].
    destruct (Z.eqb_spec x z) as [->|]; rewrite !elem_of_cons, ?IH; tauto.
Qed.

Lemma set_insert_sorted (x : Z) (l : list Z) : StronglySorted Z.lt l -> StronglySorted Z.lt (set_insert x l).
Proof.
  induction 1 as [|z l Hs IH Hall]; cbn [set_insert]; [by repeat constructor|].
  destruct (Z.ltb_spec x z) as [Hlt|Hge].
  - constructor; [by constructor|]. constructor; [done|]. eapply List.Forall_impl; [|exact Hall]. intros a ?; simpl in *; lia.
  - destruct (Z.eqb_spec x z) as [->|Hne]; [by constructor|]. constructor; [done|].
    apply list.Forall_forall. intros y Hy. apply set_insert_elem in Hy as [->|Hy]; [lia|].
    rewrite list.Forall_forall in Hall. by apply Hall.
Qed.

(** The write set of a query: exactly the pages its writes go to, each once,
    in increasing order. *)
Theorem write_page_set_spec {D} `{Disk D} (item : Index.IndexItem) (reqs : list ycsb_request) (s : Store D) :
  StronglySorted Z.lt (GetQueryWritePageSet item reqs s)
  /\ forall p, p ∈ GetQueryWritePageSet item reqs s
       <-> exists req, req ∈ reqs /\ rtype req = WR /\ Index.page_id_ (locate item (r_key req) s) = p.
Proof.
  unfold GetQueryWritePageSet. induction reqs as [|req reqs [IH1 IH2]] using rev_ind.
  { split; [constructor|]. intros p. rewrite elem_of_nil. split; [done|]. intros (r & Hr & _). by apply elem_of_nil in Hr. }
  rewrite foldl_app. cbn [foldl]. case_bool_decide as Hw.
  - split; [by apply set_insert_sorted|]. intros p. rewrite set_insert_elem, IH2. split.
    + intros [->|(r & Hr & Hrest)]; [exists req|exists r]; rewrite elem_of_app, list_elem_of_singleton; auto.
    + intros (r & Hr & Hrw & Hp). apply elem_of_app in Hr as [Hr|Hr]; [right; eauto|].
      apply list_elem_of_singleton in Hr as ->. auto.
  - split; [done|]. intros p. rewrite IH2. split.
    + intros (r & Hr & Hrest). exists r. rewrite elem_of_app. auto.
    + intros (r & Hr & Hrw & Hp). apply elem_of_app in Hr as [Hr|Hr]; [eauto|].
      apply list_elem_of_singleton in Hr as ->. done.
Qed.
