(* ===== verification/InstSerial.v ===== *)
(** * db2: the transactions of an instance are serializable

    All rows of an instance with the record of what was committed and read.
    Whatever the threads do, every read that stands and the stored table are
    those of the transactions run one after the other in timestamp order. *)

From Stdlib Require Import Sorting.Sorted.
From S2P Require Import Prelude Config Serial RowStore RowMvcc RowMvccInv RowMvccState RowMvccServe Mvcc MvccCorrect MvccSerial Txn TxnCorrect Thread.
From S2P Require Catalog.

(** ** The steps of an instance *)

Section Inst.
Context {S : Type} `{RowStoreSpec S}.

(** A thread takes a timestamp, publishes it, starts a transaction that waits
    nowhere, or makes a request to the row of a key. *)
Inductive inst_step : inst S * gmap Z hist -> inst S * gmap Z hist -> Prop :=
  | is_next (s : inst S) (h : gmap Z hist) : inst_step (s, h) ((GetNextTs s).2, h)
  | is_add (s s' : inst S) (h : gmap Z hist) (tid ts : Z) : AddTs tid ts s = Ret s' -> inst_step (s, h) (s', h)
  | is_begin (s : inst S) (h : gmap Z hist) (tid ts : Z) :
      (forall key m rs i r, mvcc_array s !! key = Some (m, rs) -> requests m !! i = Some r ->
         r_valid r = true -> r_txn r <> tid) ->
      inst_step (s, h) (set_ts tid ts s, h)
  | is_row (s : inst S) (h : gmap Z hist) (key : Z) (st st' : mstate S) (hk : hist) :
      row_state key s = Ret st -> row_step (st, hist_of h key) (st', hk) ->
      inst_step (s, h) (put_row key st' s, <[key := hk]> h).

(** Every row is faithful to its history. *)
Definition inst_faithful (table : Z -> option bytes) (s : inst S) (h : gmap Z hist) : Prop :=
  (forall key, is_Some (h !! key) -> is_Some (mvcc_array s !! key))
  /\ forall key m rs, mvcc_array s !! key = Some (m, rs) ->
       m_key m = key /\ faithful (table key) (mkState m rs (i_txns s) (i_db s)) (hist_of h key).

(** A row does not notice what happens to other rows. *)
Lemma faithful_frame (v0 : option bytes) (m : Row_mvcc) (rs : gmap rloc Catalog.RowItem)
    (t t' : gmap Z txn_state) (d d' : S) (h : hist) :
  faithful v0 (mkState m rs t d) h -> txns_kept (mkState m rs t d) (mkState m rs t' d') ->
  rows_ok d' -> row_val d' (m_key m) = row_val d (m_key m) ->
  faithful v0 (mkState m rs t' d') h.
Proof.
  intros [Hwf Hs Hl Hv Hh Hsuf Hr] Ht Hd Hval. split; try done.
  - by apply (st_wf_frame m rs t t' d d').
  - cbn in *. by rewrite Hval.
Qed.

Lemma inst_step_faithful (table : Z -> option bytes) (p p' : inst S * gmap Z hist) :
  inst_step p p' -> inst_faithful table p.1 p.2 -> inst_faithful table p'.1 p'.2.
Proof.
  intros [s h|s s' h tid ts Ha|s h tid ts Hnp|s h key st st' hk Hst Hrow] [Hdom Hall]; cbn [fst snd] in *.
  - by split.
  - unfold AddTs in Ha. destruct (all_ts s !! _); [|done]. injection Ha as <-. by split.
  - split; [done|]. intros key m rs Hk. destruct (Hall key m rs Hk) as [Hmk Hf]. split; [done|].
    refine (hist_step_faithful (table key) _ _ (hs_begin _ (hist_of h key) tid _ _) Hf).
    intros i r Hi. by apply (Hnp key m rs i r).
  - unfold row_state in Hst. destruct (mvcc_array s !! key) as [[m rs]|] eqn:Hk; [|done].
    injection Hst as <-. destruct (Hall key m rs Hk) as [Hmk Hf].
    pose proof (row_step_faithful (table key) _ _ Hrow Hf) as Hf'.
    destruct (row_step_frame _ _ Hrow (fa_wf _ _ _ Hf)) as (Hmk' & Htx & Hval). cbn [fst snd mv db] in *.
    split.
    + intros k Hh. cbn [put_row mvcc_array]. destruct (decide (k = key)) as [->|Hne]; [rewrite lookup_insert_eq; done|].
      rewrite lookup_insert_ne in Hh by done. rewrite lookup_insert_ne by done. by apply Hdom.
    + intros k m' rs'. cbn [put_row mvcc_array i_txns i_db]. unfold hist_of.
      rewrite lookup_insert_Some. intros [[<- [= <- <-]]|[Hne Hk']].
      * rewrite lookup_insert_eq. split; [congruence|]. by destruct st'.
      * rewrite lookup_insert_ne by done. destruct (Hall k m' rs' Hk') as [Hmk2 Hf2]. split; [done|].
        apply (faithful_frame _ m' rs' (i_txns s) _ (i_db s)); [done|exact Htx|apply Hf'|].
        rewrite Hmk2. apply Hval. congruence.
Qed.

Lemma new_inst_faithful (n : nat) (d : S) :
  rows_ok d -> (forall key, 0 <= key < Z.of_nat n -> is_Some (row_val d key)) -> 8 <= row_size ->
  inst_faithful (row_val d) (new_inst n row_size d) ∅.
Proof.
  intros Hd Hv Hsz. split; [intros key Hk; rewrite lookup_empty in Hk; by destruct Hk|].
  intros key m rs Hk. cbn in Hk. apply elem_of_list_to_map_2 in Hk.
  apply list_elem_of_fmap in Hk as (k & [= -> -> ->] & Hk). apply elem_of_seq in Hk.
  split; [done|]. destruct (Hv (Z.of_nat k) ltac:(lia)) as [v Hval]. rewrite Hval.
  exact (init_faithful (Z.of_nat k) d v Hd Hval Hsz).
Qed.

Lemma new_inst_row (n : nat) (d : S) (key : Z) :
  0 <= key < Z.of_nat n -> is_Some (mvcc_array (new_inst n row_size d) !! key).
Proof.
  intros Hk. exists (init_mvcc key row_size, ∅). cbn. apply elem_of_list_to_map_1.
  - rewrite <- list_fmap_compose. apply NoDup_fmap_2; [intros x y; cbn; lia|apply NoDup_seq].
  - apply list_elem_of_fmap. exists (Z.to_nat key). rewrite Z2Nat.id by lia. split; [done|]. apply elem_of_seq. lia.
Qed.

Lemma inst_steps_faithful (table : Z -> option bytes) (p p' : inst S * gmap Z hist) :
  rtc inst_step p p' -> inst_faithful table p.1 p.2 -> inst_faithful table p'.1 p'.2.
Proof. induction 1 as [|p p1 p' Hst _ IH]; [done|]. intros Hf. apply IH. by apply (inst_step_faithful table p). Qed.

(** Rows are neither added nor removed. *)
Lemma inst_steps_rows (p p' : inst S * gmap Z hist) :
  rtc inst_step p p' -> forall key, is_Some (mvcc_array p.1 !! key) -> is_Some (mvcc_array p'.1 !! key).
Proof.
  induction 1 as [|p p1 p' Hst _ IH]; [done|]. intros key Hk. apply IH. clear IH.
  destruct Hst as [s h|s s' h tid ts Ha|s h tid ts Hnp|s h k st st' hk Hst Hrow]; cbn [fst snd] in *; try done.
  - unfold AddTs in Ha. destruct (all_ts s !! _); [|done]. by injection Ha as <-.
  - cbn. destruct (decide (key = k)) as [->|Hne]; [by rewrite lookup_insert_eq|by rewrite lookup_insert_ne].
Qed.


(** ** The calls of a transaction are steps *)

(** A legal request to a row. *)
Lemma access_row_step (key tid : Z) (type : TsType) (row : option rloc) (t : txn_state) (st : mstate S)
    (s s' : inst S) (rc : RC) (h : gmap Z hist) :
  st_wf st -> row_state key s = Ret st -> i_txns s !! tid = Some t -> legal st t type row ->
  (type = R_REQ -> version_there st (t_ts t)) -> access_row key tid type row s = Ret (rc, s') ->
  exists hk, inst_step (s, h) (s', <[key := hk]> h)
    /\ commits hk = (if bool_decide (type = W_REQ) then [(t_ts t, row_bytes st row)] else []) ++ commits (hist_of h key).
Proof.
  intros Hwf Hst Ht Hleg Hver Ha. unfold access_row in Ha. rewrite Hst in Ha. cbn [mbind res_bind] in Ha.
  assert (txns st !! tid = Some t) as Hts.
  { unfold row_state in Hst. destruct (mvcc_array s !! key) as [[m rs]|]; [|done]. by injection Hst as <-. }
  destruct (access_ok tid (GetMinTs s) type row t st Hwf Hts Hleg) as (rc' & st' & Hacc & _ & _ & Htx & _).
  rewrite Hacc in Ha. injection Ha as -> <-. destruct (Htx tid t Hts) as (t' & Ht' & _).
  destruct type; eexists; (split; [eapply is_row; [exact Hst|]|]).
  - eapply rs_read; [exact Hts|left; split; [done|by apply Hver]|done|exact Hacc|exact Ht'].
  - done.
  - by eapply rs_commit.
  - done.
  - eapply rs_read; [exact Hts|by right|done|exact Hacc|exact Ht'].
  - done.
  - by eapply rs_withdraw.
  - done.
Qed.

(** The bytes of a row object. *)
Definition obj_bytes (s : inst S) (p : rptr) : option bytes :=
  mr ← mvcc_array s !! p.1; r ← mr.2 !! p.2; Catalog.row_ r.

(** What the end of an access adds to the log. *)
Definition logged (rc : RC) (ts : Z) (s : inst S) (a : Access) : list write :=
  match a_data a with
  | Some p => if bool_decide (a_type a = WR) && bool_decide (rc <> Abort) then [(p.1, (ts, obj_bytes s p))] else []
  | None => []
  end.

Lemma return_row_step (rc : RC) (tid key : Z) (l : rloc) (t : txn_state) (b : bytes) (s s' : inst S) (h : gmap Z hist) :
  inst_wf s -> i_txns s !! tid = Some t -> holds s (t_ts t) key l b ->
  ReturnRow key (if bool_decide (rc = Abort) then XP else WR) tid (Some (key, l)) s = Ret s' ->
  exists h', inst_step (s, h) (s', h')
    /\ commit_log h' ≡ₚ logged rc (t_ts t) s (mkAccess WR (Some (key, l))) ++ commit_log h.
Proof.
  intros Hs Ht [(m & rs & Hk & Hp & Hb) Hkey] Hret. destruct (Hs key m rs Hk) as [Hmk Hwf].
  set (st := mkState m rs (i_txns s) (i_db s)) in *.
  assert (row_state key s = Ret st) as Hst by (unfold row_state; by rewrite Hk).
  assert (obj_bytes s (key, l) = row_bytes st (Some l)) as Hob by (unfold obj_bytes; cbn; by rewrite Hk).
  unfold logged. cbn [a_data a_type fst]. rewrite Hob. change (bool_decide (WR = WR)) with true. cbn [andb].
  destruct (decide (rc = Abort)) as [Hrc|Hrc].
  - rewrite bool_decide_eq_true_2 in Hret by done. rewrite bool_decide_eq_false_2 by (by intros ?).
    cbn [ReturnRow fmap option_fmap option_map snd] in Hret.
    destruct (access_row key tid XP_REQ (Some l) s) as [[rc' s2]| |] eqn:Ea; [|done|done]. injection Hret as <-.
    destruct (access_row_step key tid XP_REQ (Some l) t st s s2 rc' h Hwf Hst Ht) as (hk & Hstep & Hc); [by exists l|done|done|].
    exists (<[key := hk]> h). split; [done|]. by apply (commit_log_add h key hk []).
  - rewrite bool_decide_eq_false_2 in Hret by done. rewrite bool_decide_eq_true_2 by done.
    cbn [ReturnRow fmap option_fmap option_map snd] in Hret. rewrite bool_decide_eq_true_2 in Hret by done.
    destruct (access_row key tid W_REQ (Some l) s) as [[rc' s2]| |] eqn:Ea; [|done|done]. injection Hret as <-.
    destruct (access_row_step key tid W_REQ (Some l) t st s s2 rc' h Hwf Hst Ht) as (hk & Hstep & Hc); [|done|done|].
    { exists l, b. cbn. by rewrite Hmk. }
    exists (<[key := hk]> h). split; [done|]. by apply (commit_log_add h key hk [_]).
Qed.

Lemma return_access_step (rc : RC) (tid : Z) (t : txn_state) (a : Access) (s s' : inst S) (h : gmap Z hist) :
  inst_wf s -> i_txns s !! tid = Some t -> acc_ok s (t_ts t) a -> return_access rc tid s a = Ret s' ->
  exists h', rtc inst_step (s, h) (s', h') /\ commit_log h' ≡ₚ logged rc (t_ts t) s a ++ commit_log h.
Proof.
  intros Hs Ht Hacc Hret. destruct (return_access_spec rc tid t s a Hs Ht Hacc) as [[Hty Hr]|[Hty _]].
  - rewrite Hr in Hret. injection Hret as <-. exists h. split; [done|]. unfold logged. rewrite Hty. by case_match.
  - destruct Hacc as (key & l & Hd & [[_ (b & Hh)]|[? _]]); [|congruence].
    destruct (deref_held s (t_ts t) key l b Hs Hh) as (r & Hr & Hkr).
    unfold return_access in Hret. rewrite Hd, Hr in Hret. cbn [mbind res_bind] in Hret. rewrite Hkr, Hty in Hret.
    destruct (return_row_step rc tid key l t b s s' h Hs Ht Hh) as (h' & Hst & Hl).
    { rewrite <- Hret. by destruct (bool_decide (rc = Abort)). }
    exists h'. split; [by apply rtc_once|]. destruct a. cbn in Hty, Hd. by subst.
Qed.

(** The end of an access leaves the row objects of other rows. *)
Lemma logged_frame (rc : RC) (ts key : Z) (s s' : inst S) (accs : list Access) :
  ends ts key s s' -> key ∉ (acc_key <$> accs) -> (accs ≫= logged rc ts s') = (accs ≫= logged rc ts s).
Proof.
  intros He. induction accs as [|a accs IH]; [done|]. cbn [fmap list_fmap]. rewrite not_elem_of_cons.
  intros [Hne Hnot]. cbn [mbind list_bind]. rewrite (IH Hnot). f_equal. unfold logged, acc_key in *.
  destruct (a_data a) as [[k l]|]; [|done]. cbn in Hne. unfold obj_bytes. cbn [fst snd].
  by rewrite (en_other _ _ _ _ He) by done.
Qed.

Lemma cleanup_steps (rc : RC) (tid ts : Z) (accs : list Access) (s s' : inst S) (h : gmap Z hist) :
  inst_wf s -> (exists t, i_txns s !! tid = Some t /\ t_ts t = ts) -> Forall (acc_ok s ts) accs ->
  NoDup (acc_key <$> accs) -> foldM (return_access rc tid) s accs = Ret s' ->
  exists h', rtc inst_step (s, h) (s', h') /\ commit_log h' ≡ₚ (accs ≫= logged rc ts s) ++ commit_log h.
Proof.
  revert s h. induction accs as [|a accs IH]; intros s h Hs (t & Ht & Hts) Hall Hnd Hret.
  { injection Hret as <-. by exists h. }
  apply list.Forall_cons in Hall as [Ha Hall]. cbn in Hnd. apply list.NoDup_cons in Hnd as [Hnotin Hnd].
  rewrite <- Hts in Ha. cbn [foldM] in Hret.
  destruct (return_access_spec rc tid t s a Hs Ht Ha) as [[_ Hr]|(_ & s1 & Hr & He & _)]; rewrite Hr in Hret;
    cbn [mbind res_bind] in Hret.
  - destruct (return_access_step rc tid t a s s h Hs Ht Ha Hr) as (h1 & Hst1 & Hl1).
    destruct (IH s h1 Hs ltac:(eauto) Hall Hnd Hret) as (h' & Hst & Hl). exists h'. split; [by etrans|].
    cbn [mbind list_bind]. rewrite Hl, Hl1, Hts, app_assoc. f_equiv. apply Permutation_app_comm.
  - destruct (return_access_step rc tid t a s s1 h Hs Ht Ha Hr) as (h1 & Hst1 & Hl1). rewrite Hts in *.
    destruct (IH s1 h1 (en_wf _ _ _ _ He)) as (h' & Hst & Hl); [| |done|done|].
    { destruct (en_txns _ _ _ _ He tid t Ht) as (u & Hu & Htu). exists u. split; [done|congruence]. }
    { apply list.Forall_forall. intros a' Ha'. rewrite list.Forall_forall in Hall.
      apply (acc_ok_frame ts (acc_key a) s); [done| |by apply Hall].
      intros Heq. apply Hnotin. rewrite <- Heq. apply list_elem_of_fmap. eauto. }
    exists h'. split; [by etrans|]. cbn [mbind list_bind].
    rewrite Hl, Hl1, (logged_frame rc ts (acc_key a) s s1), app_assoc by done. f_equiv. apply Permutation_app_comm.
Qed.

End Inst.

(** ** Applications *)

Module TwoRows.

(** Two rows.  The transaction at 5 writes row 1, then the one at 8 reads it. *)
Definition row_of (key : Z) : bytes := bytes_of_u64 key ++ bytes_of_u64 0.
Definition d : MapStore.t := MapStore.mk {[ 0 := row_of 0; 1 := row_of 1 ]}.
Definition new_row : bytes := bytes_of_u64 1 ++ bytes_of_u64 5.

Definition step (key : Z) (f : mstate MapStore.t -> res (RC * mstate MapStore.t)) (s : inst MapStore.t) : inst MapStore.t :=
  match st ← row_state key s; f st with Ret (_, st) => put_row key st s | _ => s end.

Definition s1 : inst MapStore.t := set_ts 0 5 (new_inst 2 16 d).
Definition s2 : inst MapStore.t := step 1 (access 0 P_REQ None UINT64_MAX) s1.
Definition s3 : inst MapStore.t := step 1 (fun st => Ret (RCOK, modify 0 new_row st)) s2.
Definition s4 : inst MapStore.t := step 1 (access 0 W_REQ (Some 0%nat) UINT64_MAX) s3.
Definition s5 : inst MapStore.t := set_ts 1 8 s4.
Definition s6 : inst MapStore.t := step 1 (access 1 R_REQ None UINT64_MAX) s5.

Definition h2 : gmap Z hist := {[ 1 := mkHist [] [(5, Some (row_of 1))] ]}.
Definition h4 : gmap Z hist := {[ 1 := mkHist [(5, Some new_row)] [(5, Some (row_of 1))] ]}.
Definition h6 : gmap Z hist := {[ 1 := mkHist [(5, Some new_row)] [(8, Some new_row); (5, Some (row_of 1))] ]}.

Lemma d_ok : rows_ok d /\ (forall key, 0 <= key < Z.of_nat 2 -> is_Some (row_val d key)) /\ 8 <= row_size.
Proof.
  split; [|split; [|cbn; lia]].
  - intros key v. unfold d. cbn [MapStore.cells]. rewrite lookup_insert_Some, lookup_singleton_Some.
    intros [[<- <-]|[_ [<- <-]]]; split; vm_compute; reflexivity.
  - intros key Hk. assert (key = 0 \/ key = 1) as [-> | ->] by lia; eexists; vm_compute; reflexivity.
Qed.

Lemma row_to (s s' : inst MapStore.t) (h h' : gmap Z hist) (key : Z) (st st' : mstate MapStore.t) (hk hk' : hist) :
  row_state key s = Ret st -> hist_of h key = hk -> row_step (st, hk) (st', hk') ->
  s' = put_row key st' s -> h' = <[key := hk']> h -> inst_step (s, h) (s', h').
Proof. intros Hst <- Hr -> ->. by apply (is_row s h key st). Qed.

Lemma idle (s : inst MapStore.t) (tid : Z) :
  forallb (fun p => forallb (fun r => negb (r_valid r && (r_txn r =? tid))) (requests p.2.1)) (map_to_list (mvcc_array s)) = true ->
  forall key m rs i r, mvcc_array s !! key = Some (m, rs) -> requests m !! i = Some r -> r_valid r = true -> r_txn r <> tid.
Proof.
  intros Hf key m rs i r Hk Hi Hv Heq. rewrite forallb_forall in Hf.
  specialize (Hf (key, (m, rs))). rewrite <- list_elem_of_In, elem_of_map_to_list in Hf. specialize (Hf Hk). cbn in Hf.
  rewrite forallb_forall in Hf. specialize (Hf r). rewrite <- list_elem_of_In in Hf.
  specialize (Hf ltac:(by eapply list_elem_of_lookup_2)). by rewrite Hv, Heq, Z.eqb_refl in Hf.
Qed.

Lemma no_requests (s : mstate MapStore.t) (ts : Z) :
  forallb (fun r => negb (r_valid r)) (requests (mv s)) = true -> not_pending s ts.
Proof.
  intros Hf i r Hi Hv. rewrite forallb_forall in Hf. specialize (Hf r). rewrite <- list_elem_of_In in Hf.
  specialize (Hf ltac:(by eapply list_elem_of_lookup_2)). by rewrite Hv in Hf.
Qed.

Lemma prewrites : rtc inst_step (new_inst 2 16 d, ∅) (s3, h2).
Proof.
  apply (rtc_l _ _ (s1, ∅)); [apply is_begin, idle; vm_compute; reflexivity|].
  apply (rtc_l _ _ (s2, h2)).
  { eapply (row_to _ _ _ _ 1); [vm_compute; reflexivity|vm_compute; reflexivity| | |].
    - eapply (rs_read _ _ _ 0 UINT64_MAX (mkTxn 5 None false) (mkTxn 5 (Some 0%nat) false) None P_REQ RCOK).
      + vm_compute. reflexivity.
      + by right.
      + split; [vm_compute; split; reflexivity|]. split; [apply no_requests; vm_compute; reflexivity|].
        split; vm_compute; discriminate.
      + vm_compute. reflexivity.
      + vm_compute. reflexivity.
    - vm_compute. reflexivity.
    - vm_compute. reflexivity. }
  apply rtc_once. eapply (row_to _ _ _ _ 1); [vm_compute; reflexivity|vm_compute; reflexivity| | |].
  - eapply (rs_modify _ _ 5 0 new_row); [|vm_compute; reflexivity].
    split; [vm_compute; reflexivity|]. split; [vm_compute; reflexivity|]. eexists. split; vm_compute; reflexivity.
  - vm_compute. reflexivity.
  - vm_compute. reflexivity.
Qed.

Lemma runs : rtc inst_step (new_inst 2 16 d, ∅) (s6, h6).
Proof.
  etrans; [apply prewrites|]. apply (rtc_l _ _ (s4, h4)).
  { eapply (row_to _ _ _ _ 1); [vm_compute; reflexivity|vm_compute; reflexivity| | |].
    - eapply (rs_commit _ _ _ 0 UINT64_MAX (mkTxn 5 (Some 0%nat) false) (Some 0%nat) RCOK).
      + vm_compute. reflexivity.
      + exists 0%nat. eexists. split; [reflexivity|]. split; [|split; vm_compute; reflexivity].
        split; [vm_compute; reflexivity|]. split; [vm_compute; reflexivity|]. eexists. split; vm_compute; reflexivity.
      + vm_compute. reflexivity.
    - vm_compute. reflexivity.
    - vm_compute. reflexivity. }
  apply (rtc_l _ _ (s5, h4)); [apply is_begin, idle; vm_compute; reflexivity|].
  apply rtc_once. eapply (row_to _ _ _ _ 1); [vm_compute; reflexivity|vm_compute; reflexivity| | |].
  - eapply (rs_read _ _ _ 1 UINT64_MAX (mkTxn 8 None false) _ None R_REQ RCOK).
    + vm_compute. reflexivity.
    + left. split; [reflexivity|]. left. vm_compute. reflexivity.
    + split; [vm_compute; split; reflexivity|]. apply no_requests. vm_compute. reflexivity.
    + vm_compute. reflexivity.
    + vm_compute. reflexivity.
  - vm_compute. reflexivity.
  - vm_compute. reflexivity.
Qed.
End TwoRows.


