(* ===== verification/RowOcc.v ===== *)
(** * db2: rows under optimistic concurrency control
    ([instance/concurrency_control/row_occ.cpp])

    A row has a mutex and the timestamp of its last update. *)

From S2P Require Import Prelude Config.

(** [_row] is the content of the row, [_latch] the thread that holds the mutex;
    [blatch] is never used.
    [src/instance/concurrency_control/row_occ.h:9-25 Row_occ] *)
Record Row_occ := mkRowOcc {
  _latch : option Z;
  _row : bytes;
  wts : Z;
}.

(** [src/instance/concurrency_control/row_occ.cpp:6-15 Row_occ::init] *)
Definition init (row : bytes) : Row_occ := mkRowOcc None row 0.

(** A read copies the row; the thread blocks while another one has the mutex.
    [src/instance/concurrency_control/row_occ.cpp:17-32 Row_occ::access] *)
Definition access (start_ts : Z) (type : TsType) (r : Row_occ) : res (RC * option bytes) :=
  match _latch r with
  | Some _ => Wait
  | None =>
      if bool_decide (type = R_REQ) then
        if start_ts <? wts r then Ret (Abort, None) else Ret (RCOK, Some (_row r))
      else Fault Assert
  end.

(** [src/instance/concurrency_control/row_occ.cpp:34-37 Row_occ::latch] *)
Definition latch (tid : Z) (r : Row_occ) : res Row_occ :=
  match _latch r with
  | Some _ => Wait
  | None => Ret (mkRowOcc (Some tid) (_row r) (wts r))
  end.

(** [src/instance/concurrency_control/row_occ.cpp:39-43 Row_occ::validate] *)
Definition validate (ts : Z) (r : Row_occ) : bool := negb (ts <? wts r).

(** [src/instance/concurrency_control/row_occ.cpp:45-52 Row_occ::write] *)
Definition write (per_row_valid : bool) (data : bytes) (ts : Z) (r : Row_occ) : res Row_occ :=
  if per_row_valid then
    assert! wts r <? ts;
    Ret (mkRowOcc (_latch r) data ts)
  else Ret (mkRowOcc (_latch r) data (wts r)).

(** [src/instance/concurrency_control/row_occ.cpp:54-57 Row_occ::release] *)
Definition release (r : Row_occ) : Row_occ := mkRowOcc None (_row r) (wts r).
