(* ===== verification/Occ.v ===== *)
(** * db2: validation of optimistic transactions
    ([instance/concurrency_control/occ.cpp])

    The validator of a transaction that has made its accesses: one row at a
    time with all rows latched, or centrally with the write sets of others.
    Rows are named by their addresses; the class [row_t] is not in the
    repository, and its table name and primary key are arguments. *)

From S2P Require Import Prelude Config RowOcc.

(** An access: the row, its content when it was read, and the local copy.
    [src/instance/txn/txn.h:22-29 Access] *)
Record Access := mkAccess {
  type : access_t;
  orig_row : Z;
  orig_data : bytes;
  data : bytes;
}.

(** ** Sorting the accesses *)

Section Sort.
Context (get_table_name : Z -> string) (get_primary_key : Z -> Z).

(** [strcmp] orders strings by their unsigned characters.
    [src/instance/concurrency_control/occ.cpp:43-45 tabcmp] *)
Definition misplaced (a b : Access) : bool :=
  match String.compare (get_table_name (orig_row a)) (get_table_name (orig_row b)) with
  | Gt => true
  | Eq => get_primary_key (orig_row b) <? get_primary_key (orig_row a)
  | Lt => false
  end.

(** [src/instance/concurrency_control/occ.cpp:42-50 j] *)
Fixpoint bubble (i : nat) (accs : list Access) : list Access :=
  match i, accs with
  | S i, a :: b :: accs =>
      if misplaced a b then b :: bubble i (a :: accs) else a :: bubble i (b :: accs)
  | _, _ => accs
  end.

(** [src/instance/concurrency_control/occ.cpp:41-51 i] *)
Fixpoint bubble_sort (i : nat) (accs : list Access) : list Access :=
  match i with
  | O => accs
  | S i' => bubble_sort i' (bubble i accs)
  end.

Definition sort_accesses (accs : list Access) : list Access := bubble_sort (length accs - 1) accs.
End Sort.

(** ** Per-row validation *)

Abbreviation occ_rows := (gmap Z Row_occ).

Definition on_row (key : Z) (f : Row_occ -> res Row_occ) (rows : occ_rows) : res occ_rows :=
  r ← at_ (rows !! key);
  r ← f r;
  Ret (<[key := r]> rows).

(** Latching and validating the rows in order, up to the first that fails.
    [src/instance/concurrency_control/occ.cpp:62-68 lock_cnt] *)
Fixpoint lock_rows (tid start_ts : Z) (accs : list Access) (lock_cnt : nat) (rows : occ_rows)
    : res (bool * nat * occ_rows) :=
  match accs with
  | [] => Ret (true, lock_cnt, rows)
  | a :: accs =>
      rows ← on_row (orig_row a) (latch tid) rows;
      r ← at_ (rows !! orig_row a);
      if validate start_ts r then lock_rows tid start_ts accs (S lock_cnt) rows
      else Ret (false, S lock_cnt, rows)
  end.

(** What [cleanup] does to the rows of a transaction that commits: it goes
    through the accesses from the last to the first and writes each written row
    with the timestamp of the end.
    [src/instance/concurrency_control/occ.cpp:73-74 cleanup] *)
Definition write_back (end_ts : Z) (rows : occ_rows) (a : Access) : res occ_rows :=
  if bool_decide (type a = WR) then on_row (orig_row a) (write true (data a) end_ts) rows
  else Ret rows.

(** [get_ts] is the counter of timestamps.  With the mutexes of other
    transactions held, the thread waits.
    [src/instance/concurrency_control/occ.cpp:35-85 OptCC::per_row_validate] *)
Definition per_row_validate (get_table_name : Z -> string) (get_primary_key : Z -> Z)
    (tid start_ts : Z) (accs : list Access) (ts : Z) (rows : occ_rows) : res (RC * Z * occ_rows) :=
  let accs := sort_accesses get_table_name get_primary_key accs in
  '(ok, lock_cnt, rows) ← lock_rows tid start_ts accs 0 rows;
  '(rc, ts, rows) ←
    (if (ok : bool) then
       rows ← foldM (write_back ts) rows (rev accs);
       Ret (RCOK, ts + 1, rows)
     else Ret (Abort, ts, rows));
  rows ← foldM (fun rows a => on_row (orig_row a) (fun r => Ret (release r)) rows) rows (take lock_cnt accs);
  Ret (rc, ts, rows).

(** ** Central validation *)

(** A read or write set; [next] is the order of the list it is in.
    [src/instance/concurrency_control/occ.h:14-22 set_ent] *)
Record set_ent := mkSet {
  tn : Z;
  txn : Z;
  set_rows : list Z;
}.

(** [src/instance/concurrency_control/occ.h:24-47 OptCC] *)
Record OptCC := mkOptCC {
  history : list set_ent;
  active : list set_ent;
  his_len : Z;
  active_len : Z;
  tnc : Z;
}.

(** [history] is left as it is.
    [src/instance/concurrency_control/occ.cpp:17-23 OptCC::init] *)
Definition init_occ (o : OptCC) : OptCC := mkOptCC (history o) [] 0 0 0.

(** [src/instance/concurrency_control/occ.cpp:199-207 OptCC::test_valid] *)
Definition test_valid (set1 set2 : set_ent) : bool :=
  forallb (fun r1 => forallb (fun r2 => negb (r1 =? r2)) (set_rows set2)) (set_rows set1).

(** [src/instance/concurrency_control/occ.cpp:176-197 OptCC::get_rw_set] *)
Definition get_rw_set (tid wr_cnt : Z) (accs : list Access) : res (set_ent * set_ent) :=
  let row_cnt := Z.of_nat (length accs) in
  '(w, r) ← foldM (fun '(w, r) a =>
       if bool_decide (type a = WR) then
         if Z.of_nat (length w) <? wr_cnt then Ret (w ++ [orig_row a], r) else Fault OutOfBounds
       else
         if Z.of_nat (length r) <? row_cnt - wr_cnt then Ret (w, r ++ [orig_row a]) else Fault OutOfBounds)
       ([], []) accs;
  assert! Z.of_nat (length w) =? wr_cnt;
  assert! Z.of_nat (length r) =? row_cnt - wr_cnt;
  Ret (mkSet 0 tid r, mkSet 0 tid w).

(** What a transaction knows when its validation begins. *)
Record snapshot := mkSnap {
  finish_tn : Z;
  finish_active : list set_ent;
  his : list set_ent;
}.

(** The first critical section.  The array has room for [active_len] entries,
    and that many are read later.
    [src/instance/concurrency_control/occ.cpp:103-117 finish_active] *)
Definition enter (wset : set_ent) (o : OptCC) : res (snapshot * OptCC) :=
  let snap := mkSnap (tnc o) (active o) (history o) in
  if negb (active_len o =? Z.of_nat (length (active o))) then Fault OutOfBounds
  else if bool_decide (set_rows wset = []) then Ret (snap, o)
  else Ret (snap, mkOptCC (history o) (wset :: active o) (his_len o) (active_len o + 1) (tnc o)).

Fixpoint skip_while {A} (p : A -> bool) (l : list A) : list A :=
  match l with
  | [] => []
  | x :: l' => if p x then skip_while p l' else l
  end.

Fixpoint take_while {A} (p : A -> bool) (l : list A) : list A :=
  match l with
  | [] => []
  | x :: l => if p x then x :: take_while p l else []
  end.

(** The test against those who finished since the transaction started and
    those who are finishing.
    [src/instance/concurrency_control/occ.cpp:118-135 valid] *)
Definition check (start_tn : Z) (snap : snapshot) (rset wset : set_ent) : bool :=
  (if start_tn <? finish_tn snap then
     forallb (fun h => test_valid h rset)
       (take_while (fun h => start_tn <? tn h) (skip_while (fun h => finish_tn snap <? tn h) (his snap)))
   else true)
  && forallb (fun wact => test_valid wact rset && test_valid wact wset) (finish_active snap).

(** Taking the entry of a transaction out of a list.
    [src/instance/concurrency_control/occ.cpp:145-156 act] *)
Fixpoint remove_txn (tid : Z) (l : list set_ent) : res (list set_ent) :=
  match l with
  | [] => Fault NullDeref
  | e :: l => if txn e =? tid then Ret l else l ← remove_txn tid l; Ret (e :: l)
  end.

(** The second critical section, which only a transaction that writes enters.
    [src/instance/concurrency_control/occ.cpp:142-166 readonly] *)
Definition leave (valid : bool) (wset : set_ent) (o : OptCC) : res OptCC :=
  if bool_decide (set_rows wset = []) then Ret o
  else
    act ← remove_txn (txn wset) (active o);
    if valid then
      assert! match history o with [] => true | h :: _ => tn h =? tnc o end;
      Ret (mkOptCC (mkSet (tnc o + 1) (txn wset) (set_rows wset) :: history o) act
             (his_len o + 1) (active_len o - 1) (tnc o + 1))
    else Ret (mkOptCC (history o) act (his_len o) (active_len o - 1) (tnc o)).

(** The rows are changed between the two critical sections.
    [src/instance/concurrency_control/occ.cpp:87-174 OptCC::central_validate] *)
Definition central_validate (tid start_ts wr_cnt : Z) (accs : list Access) (o : OptCC) (rows : occ_rows)
    : res (RC * OptCC * occ_rows) :=
  '(rset, wset) ← get_rw_set tid wr_cnt accs;
  '(snap, o) ← enter wset o;
  let valid := check start_ts snap rset wset in
  rows ← (if valid then
            foldM (fun rows a => if bool_decide (type a = WR)
                                 then on_row (orig_row a) (write false (data a) 0) rows
                                 else Ret rows) rows (rev accs)
          else Ret rows);
  o ← leave valid wset o;
  Ret (if valid then RCOK else Abort, o, rows).
