(* ===== verification/OccRow.v ===== *)
(** * db2: per-row validation is serializable and free of deadlock

    Any number of threads read rows, validate them one by one with all rows
    latched, write, and release.  Each call of the row's operations is a step.
    Committed transactions are serializable in the order of their end
    timestamps, and rows are latched in an order that excludes deadlock. *)

From stdpp Require sorting.
From Stdlib Require Import Sorting.Sorted.
From S2P Require Import Prelude Config Serial RowOcc Occ.

(** ** Comparing strings *)

Lemma string_compare_refl (s : string) : String.compare s s = Eq.
Proof. pose proof (String.compare_antisym s s) as H. by destruct (String.compare s s). Qed.

Lemma string_compare_trans (s1 s2 s3 : string) :
  String.compare s1 s2 = Lt -> String.compare s2 s3 = Lt -> String.compare s1 s3 = Lt.
Proof.
  revert s2 s3. induction s1 as [|a1 s1 IH]; intros [|a2 s2] [|a3 s3]; cbn; try done.
  unfold Ascii.compare.
  destruct (N.compare_spec (Ascii.N_of_ascii a1) (Ascii.N_of_ascii a2)),
    (N.compare_spec (Ascii.N_of_ascii a2) (Ascii.N_of_ascii a3)),
    (N.compare_spec (Ascii.N_of_ascii a1) (Ascii.N_of_ascii a3)); try done; try lia. apply IH.
Qed.

(** ** Sorting *)

Section Sorting.
Context (get_table_name : Z -> string) (get_primary_key : Z -> Z).

Local Abbreviation misplaced := (Occ.misplaced get_table_name get_primary_key).
Local Abbreviation bubble := (Occ.bubble get_table_name get_primary_key).
Local Abbreviation bubble_sort := (Occ.bubble_sort get_table_name get_primary_key).
Local Abbreviation sort_accesses := (Occ.sort_accesses get_table_name get_primary_key).

(** The order of rows: not after. *)
Definition before (a b : Access) : Prop := misplaced a b = false.

Lemma misplaced_before (a b : Access) : misplaced a b = true -> before b a.
Proof.
  unfold before, Occ.misplaced. rewrite (String.compare_antisym (get_table_name (orig_row b))).
  destruct (String.compare _ _); cbn; try done. rewrite Z.ltb_lt, Z.ltb_ge. lia.
Qed.

Lemma before_trans (a b c : Access) : before a b -> before b c -> before a c.
Proof.
  unfold before, Occ.misplaced. set (ta := get_table_name (orig_row a)).
  set (tb := get_table_name (orig_row b)). set (tc := get_table_name (orig_row c)).
  destruct (String.compare ta tb) eqn:E1; [|intros _|done]; (destruct (String.compare tb tc) eqn:E2; [|intros|done]).
  - apply String.compare_eq_iff in E1 as ->. rewrite E2. rewrite !Z.ltb_ge. lia.
  - apply String.compare_eq_iff in E1 as ->. by rewrite E2.
  - intros _. apply String.compare_eq_iff in E2 as <-. by rewrite E1.
  - by rewrite (string_compare_trans ta tb tc).
Qed.

Lemma bubble_perm (i : nat) (l : list Access) : bubble i l ≡ₚ l.
Proof.
  revert l. induction i as [|i IH]; intros [|a [|b l]]; cbn; try done.
  destruct (misplaced a b); rewrite IH; [apply Permutation_swap|done].
Qed.

(** One pass puts the greatest of the first [i + 1] elements at place [i]. *)
Lemma bubble_spec (i : nat) (l : list Access) :
  (i < length l)%nat -> exists l1 x, bubble i l = l1 ++ x :: drop (S i) l /\ length l1 = i
    /\ l1 ++ [x] ≡ₚ take (S i) l /\ Forall (fun y => before y x) l1.
Proof.
  revert l. induction i as [|i IH]; intros [|a [|b l]] Hi; cbn [length] in Hi; try lia; [by exists [], a..|].
  cbn [Occ.bubble]. destruct (misplaced a b) eqn:E.
  - destruct (IH (a :: l) ltac:(cbn; lia)) as (l1 & x & -> & Hlen & Hp & Hall).
    exists (b :: l1), x. split; [done|]. split; [cbn; lia|]. cbn [take app] in *. rewrite Hp. split; [apply Permutation_swap|].
    apply misplaced_before in E. constructor; [|done].
    assert (a ∈ l1 ++ [x]) as Ha by (rewrite Hp; by apply elem_of_cons; left).
    apply elem_of_app in Ha as [Ha| ->%list_elem_of_singleton]; [|done].
    rewrite list.Forall_forall in Hall. apply (before_trans b a x); [done|by apply Hall].
  - destruct (IH (b :: l) ltac:(cbn; lia)) as (l1 & x & -> & Hlen & Hp & Hall).
    exists (a :: l1), x. split; [done|]. split; [cbn; lia|]. cbn [take app] in *. rewrite Hp. split; [done|].
    constructor; [|done].
    assert (b ∈ l1 ++ [x]) as Hb by (rewrite Hp; by apply elem_of_cons; left).
    apply elem_of_app in Hb as [Hb| ->%list_elem_of_singleton]; [|done].
    rewrite list.Forall_forall in Hall. apply (before_trans a b x); [done|by apply Hall].
Qed.

(** The sort extends a sorted tail of elements that are not before the others. *)
Lemma bubble_sort_spec (i : nat) (l : list Access) :
  StronglySorted before (drop (S i) l) ->
  (forall x y, x ∈ take (S i) l -> y ∈ drop (S i) l -> before x y) ->
  bubble_sort i l ≡ₚ l /\ StronglySorted before (bubble_sort i l).
Proof.
  revert l. induction i as [|i IH]; intros l Hs Hall.
  { cbn. split; [done|]. destruct l as [|a l]; [constructor|]. cbn in *. rewrite drop_0 in *.
    constructor; [done|]. apply list.Forall_forall. intros y Hy. apply Hall; [by apply elem_of_cons; left|done]. }
  cbn [Occ.bubble_sort]. destruct (decide (S i < length l)%nat) as [Hlt|Hge].
  - destruct (bubble_spec (S i) l Hlt) as (l1 & x & Hb & Hlen & Hp & Hmax).
    destruct (IH (bubble (S i) l)) as [IH1 IH2]; [| |split; [by rewrite IH1, bubble_perm|done]];
      rewrite Hb, drop_app_length' by done.
    + constructor; [done|]. apply list.Forall_forall. intros y Hy. apply Hall; [|done].
      rewrite <- Hp. apply elem_of_app. right. by apply list_elem_of_singleton.
    + rewrite take_app_length' by done. intros y z Hy [->|Hz]%elem_of_cons.
      * rewrite list.Forall_forall in Hmax. by apply Hmax.
      * apply Hall; [|done]. rewrite <- Hp. apply elem_of_app. by left.
  - destruct (IH (bubble (S i) l)) as [IH1 IH2]; [| |split; [by rewrite IH1, bubble_perm|done]].
    + rewrite drop_ge; [constructor|]. rewrite bubble_perm. lia.
    + intros y z _ Hz. rewrite drop_ge in Hz; [by apply elem_of_nil in Hz|]. rewrite bubble_perm. lia.
Qed.

Lemma sort_accesses_spec (l : list Access) :
  sort_accesses l ≡ₚ l /\ StronglySorted before (sort_accesses l).
Proof.
  unfold Occ.sort_accesses. apply bubble_sort_spec.
  - rewrite drop_ge by lia. constructor.
  - intros x y _ Hy. rewrite drop_ge in Hy by lia. by apply elem_of_nil in Hy.
Qed.
End Sorting.

(** ** The steps of the threads *)

Inductive phase :=
  | Reading
  | Locking (n : nat)
  | Writing (end_ts : Z) (todo : list Access)
  | Releasing (rc : RC) (i lock_cnt : nat)
  | Ended (rc : RC).

Record otxn := mkOtxn {
  o_start : Z;
  o_accs : list Access;
  o_phase : phase;
}.

Record sys := mkSys {
  s_ts : Z;
  s_rows : occ_rows;
  s_txns : gmap Z otxn;
}.

Definition set_otxn (tid : Z) (t : otxn) (s : sys) : sys := mkSys (s_ts s) (s_rows s) (<[tid := t]> (s_txns s)).
Definition with_rows (rows : occ_rows) (s : sys) : sys := mkSys (s_ts s) rows (s_txns s).
Definition tick (s : sys) : sys := mkSys (s_ts s + 1) (s_rows s) (s_txns s).

(** The record of one access of a transaction that ends at [e]. *)
Definition record_access (e : Z) (h : gmap Z hist) (a : Access) : gmap Z hist :=
  let hk := hist_of h (orig_row a) in
  <[orig_row a := mkHist
      (if bool_decide (type a = WR) then (e, Some (data a)) :: commits hk else commits hk)
      ((e, Some (orig_data a)) :: reads hk)]> h.

Section Steps.
Context (get_table_name : Z -> string) (get_primary_key : Z -> Z).

Local Abbreviation sort_accesses := (Occ.sort_accesses get_table_name get_primary_key).

(** A thread starts a transaction, reads a row or is refused, changes its copy,
    sorts its accesses, latches and validates the next row, takes the end
    timestamp, writes back, releases. *)
Inductive occ_step : sys * gmap Z hist -> sys * gmap Z hist -> Prop :=
  | os_start (s : sys) (h : gmap Z hist) (tid : Z) :
      (forall t, s_txns s !! tid = Some t -> exists rc, o_phase t = Ended rc) ->
      occ_step (s, h) (set_otxn tid (mkOtxn (s_ts s) [] Reading) (tick s), h)
  | os_read (s : sys) (h : gmap Z hist) (tid : Z) (t : otxn) (ty : access_t) (key : Z) (r : Row_occ) (v : bytes) :
      s_txns s !! tid = Some t -> o_phase t = Reading -> s_rows s !! key = Some r ->
      RowOcc.access (o_start t) R_REQ r = Ret (RCOK, Some v) ->
      occ_step (s, h) (set_otxn tid (mkOtxn (o_start t) (o_accs t ++ [mkAccess ty key v v]) Reading) s, h)
  | os_refused (s : sys) (h : gmap Z hist) (tid : Z) (t : otxn) (key : Z) (r : Row_occ) :
      s_txns s !! tid = Some t -> o_phase t = Reading -> s_rows s !! key = Some r ->
      RowOcc.access (o_start t) R_REQ r = Ret (Abort, None) ->
      occ_step (s, h) (set_otxn tid (mkOtxn (o_start t) (o_accs t) (Ended Abort)) s, h)
  | os_modify (s : sys) (h : gmap Z hist) (tid : Z) (t : otxn) (i : nat) (a : Access) (b : bytes) :
      s_txns s !! tid = Some t -> o_phase t = Reading -> o_accs t !! i = Some a -> type a = WR ->
      occ_step (s, h) (set_otxn tid (mkOtxn (o_start t)
        (<[i := mkAccess (type a) (orig_row a) (orig_data a) b]> (o_accs t)) Reading) s, h)
  | os_validate (s : sys) (h : gmap Z hist) (tid : Z) (t : otxn) :
      s_txns s !! tid = Some t -> o_phase t = Reading ->
      occ_step (s, h) (set_otxn tid (mkOtxn (o_start t) (sort_accesses (o_accs t)) (Locking 0)) s, h)
  | os_lock (s : sys) (h : gmap Z hist) (tid : Z) (t : otxn) (n : nat) (a : Access) (rows : occ_rows) (r : Row_occ) :
      s_txns s !! tid = Some t -> o_phase t = Locking n -> o_accs t !! n = Some a ->
      on_row (orig_row a) (latch tid) (s_rows s) = Ret rows -> rows !! orig_row a = Some r ->
      occ_step (s, h) (set_otxn tid (mkOtxn (o_start t) (o_accs t)
        (if validate (o_start t) r then Locking (S n) else Releasing Abort 0 (S n))) (with_rows rows s), h)
  | os_end (s : sys) (h : gmap Z hist) (tid : Z) (t : otxn) :
      s_txns s !! tid = Some t -> o_phase t = Locking (length (o_accs t)) ->
      occ_step (s, h) (set_otxn tid (mkOtxn (o_start t) (o_accs t) (Writing (s_ts s) (rev (o_accs t)))) (tick s),
        foldl (record_access (s_ts s)) h (o_accs t))
  | os_write (s : sys) (h : gmap Z hist) (tid : Z) (t : otxn) (e : Z) (a : Access) (todo : list Access) (rows : occ_rows) :
      s_txns s !! tid = Some t -> o_phase t = Writing e (a :: todo) -> write_back e (s_rows s) a = Ret rows ->
      occ_step (s, h) (set_otxn tid (mkOtxn (o_start t) (o_accs t) (Writing e todo)) (with_rows rows s), h)
  | os_written (s : sys) (h : gmap Z hist) (tid : Z) (t : otxn) (e : Z) :
      s_txns s !! tid = Some t -> o_phase t = Writing e [] ->
      occ_step (s, h) (set_otxn tid (mkOtxn (o_start t) (o_accs t) (Releasing RCOK 0 (length (o_accs t)))) s, h)
  | os_release (s : sys) (h : gmap Z hist) (tid : Z) (t : otxn) (rc : RC) (i n : nat) (a : Access) (rows : occ_rows) :
      s_txns s !! tid = Some t -> o_phase t = Releasing rc i n -> (i < n)%nat -> o_accs t !! i = Some a ->
      on_row (orig_row a) (fun r => Ret (release r)) (s_rows s) = Ret rows ->
      occ_step (s, h) (set_otxn tid (mkOtxn (o_start t) (o_accs t) (Releasing rc (S i) n)) (with_rows rows s), h)
  | os_done (s : sys) (h : gmap Z hist) (tid : Z) (t : otxn) (rc : RC) (n : nat) :
      s_txns s !! tid = Some t -> o_phase t = Releasing rc n n ->
      occ_step (s, h) (set_otxn tid (mkOtxn (o_start t) (o_accs t) (Ended rc)) s, h).
End Steps.

(** ** The invariant *)

Definition acc_rows (t : otxn) : list Z := orig_row <$> o_accs t.

(** The rows a transaction has latched. *)
Definition held_rows (t : otxn) : list Z :=
  match o_phase t with
  | Reading | Ended _ => []
  | Locking n => take n (acc_rows t)
  | Writing _ _ => acc_rows t
  | Releasing _ i n => drop i (take n (acc_rows t))
  end.

(** What a transaction has committed to a row and not written yet. *)
Definition todo_write (key : Z) (e : Z) (todo : list Access) : list (Z * option bytes) :=
  omap (fun a => if bool_decide (type a = WR) && (orig_row a =? key) then Some (e, Some (data a)) else None) todo.

Definition pending (t : otxn) (key : Z) : list (Z * option bytes) :=
  match o_phase t with
  | Writing e todo => todo_write key e todo
  | _ => []
  end.

Definition row_pending (s : sys) (key : Z) (r : Row_occ) : list (Z * option bytes) :=
  match _latch r ≫= fun tid => s_txns s !! tid with
  | Some t => pending t key
  | None => []
  end.

(** The row is the newest of the commits [cs], or as it was at the start. *)
Definition applied (v0 : option bytes) (r : Row_occ) (cs : list (Z * option bytes)) : Prop :=
  match cs with
  | [] => wts r = 0 /\ Some (_row r) = v0
  | (c, v) :: _ => wts r = c /\ Some (_row r) = v
  end.

Definition live (t : otxn) : Prop := o_phase t = Reading \/ exists n, o_phase t = Locking n.

Lemma hist_of_insert (h : gmap Z hist) (k k' : Z) (hk : hist) :
  hist_of (<[k := hk]> h) k' = if k =? k' then hk else hist_of h k'.
Proof.
  unfold hist_of. destruct (Z.eqb_spec k k') as [->|Hne]; [by rewrite lookup_insert_eq|by rewrite lookup_insert_ne].
Qed.

Lemma record_other (e k : Z) (accs : list Access) (h : gmap Z hist) :
  k ∉ (orig_row <$> accs) -> hist_of (foldl (record_access e) h accs) k = hist_of h k.
Proof.
  revert h. induction accs as [|a accs IH]; intros h Hk; [done|]. cbn in *. apply not_elem_of_cons in Hk as [Hne Hk].
  rewrite IH by done. unfold record_access. rewrite hist_of_insert. by destruct (Z.eqb_spec (orig_row a) k).
Qed.

Lemma record_own (e : Z) (a : Access) (accs : list Access) (h : gmap Z hist) :
  NoDup (orig_row <$> accs) -> a ∈ accs ->
  let hk := hist_of h (orig_row a) in
  hist_of (foldl (record_access e) h accs) (orig_row a)
  = mkHist ((if bool_decide (type a = WR) then [(e, Some (data a))] else []) ++ commits hk)
      ((e, Some (orig_data a)) :: reads hk).
Proof.
  revert h. induction accs as [|b accs IH]; intros h Hnd Ha; [by apply elem_of_nil in Ha|].
  cbn in Hnd. apply list.NoDup_cons in Hnd as [Hnot Hnd]. cbn [foldl]. apply elem_of_cons in Ha as [->|Ha].
  - rewrite record_other by done. unfold record_access. rewrite hist_of_insert, Z.eqb_refl.
    by destruct (bool_decide (type b = WR)).
  - rewrite IH by done. unfold record_access. rewrite hist_of_insert. destruct (Z.eqb_spec (orig_row b) (orig_row a)) as [Heq|]; [|done].
    destruct Hnot. rewrite Heq. by apply list_elem_of_fmap_2.
Qed.

Lemma todo_other (k e : Z) (todo : list Access) : k ∉ (orig_row <$> todo) -> todo_write k e todo = [].
Proof.
  induction todo as [|a todo IH]; intros Hk; [done|]. cbn in *. apply not_elem_of_cons in Hk as [Hne Hk].
  destruct (Z.eqb_spec (orig_row a) k); [congruence|]. rewrite andb_false_r. by apply IH.
Qed.

Lemma todo_own (e : Z) (a : Access) (todo : list Access) :
  NoDup (orig_row <$> todo) -> a ∈ todo ->
  todo_write (orig_row a) e todo = if bool_decide (type a = WR) then [(e, Some (data a))] else [].
Proof.
  induction todo as [|b todo IH]; intros Hnd Ha; [by apply elem_of_nil in Ha|].
  cbn in Hnd. apply list.NoDup_cons in Hnd as [Hnot Hnd]. apply elem_of_cons in Ha as [->|Ha].
  - cbn. rewrite Z.eqb_refl, andb_true_r. fold (todo_write (orig_row b) e todo). rewrite todo_other by done.
    by destruct (bool_decide (type b = WR)).
  - cbn. destruct (Z.eqb_spec (orig_row b) (orig_row a)) as [Heq|].
    { destruct Hnot. rewrite Heq. by apply list_elem_of_fmap_2. }
    rewrite andb_false_r. by apply IH.
Qed.

Section Inv.
Context (table : Z -> option bytes).

Record txn_ok (s : sys) (h : gmap Z hist) (t : otxn) : Prop := mk_txn_ok {
  tx_nodup : NoDup (held_rows t);
  tx_exist : forall k, k ∈ acc_rows t -> is_Some (s_rows s !! k);
  tx_start : live t -> 0 < o_start t < s_ts s;
  tx_read : live t -> forall a, a ∈ o_accs t ->
    Some (orig_data a) = value_at (table (orig_row a)) (o_start t) (commits (hist_of h (orig_row a)));
  tx_fresh : live t -> forall k, Forall (fun c => c.1 <> o_start t) (commits (hist_of h k));
  tx_locked : forall n, o_phase t = Locking n -> forall k, k ∈ take n (acc_rows t) ->
    Forall (fun c => c.1 < o_start t) (commits (hist_of h k));
  tx_todo : forall e todo, o_phase t = Writing e todo -> exists dn, rev (o_accs t) = dn ++ todo;
}.

Record occ_inv (s : sys) (h : gmap Z hist) : Prop := mk_occ_inv {
  oi_latch : forall tid k r, s_rows s !! k = Some r ->
    (_latch r = Some tid <-> exists t, s_txns s !! tid = Some t /\ k ∈ held_rows t);
  oi_row : forall k r, s_rows s !! k = Some r ->
    exists cs, commits (hist_of h k) = row_pending s k r ++ cs /\ applied (table k) r cs;
  oi_new : forall k, newest_first (commits (hist_of h k));
  oi_ts : 0 < s_ts s /\ forall k, Forall (fun c => 0 < c.1 < s_ts s) (commits (hist_of h k));
  oi_reads : forall k, Forall (fun x => x.1 < s_ts s /\ x.2 = value_at (table k) x.1 (commits (hist_of h k)))
    (reads (hist_of h k));
  oi_txns : forall tid t, s_txns s !! tid = Some t -> txn_ok s h t;
}.

Definition held_opt (t : option otxn) : list Z := match t with Some t => held_rows t | None => [] end.
Definition pending_opt (t : option otxn) (key : Z) : list (Z * option bytes) :=
  match t with Some t => pending t key | None => [] end.

Lemma txn_ok_ts (s s' : sys) (h : gmap Z hist) (t : otxn) :
  (forall k, is_Some (s_rows s !! k) -> is_Some (s_rows s' !! k)) -> s_ts s <= s_ts s' ->
  txn_ok s h t -> txn_ok s' h t.
Proof. intros Hr Hts [H1 H2 H3 H4 H5 H6 H7]. split; auto. intros Hl. specialize (H3 Hl). lia. Qed.

(** A step of a transaction that neither latches nor writes. *)
Lemma inv_quiet (s s' : sys) (h : gmap Z hist) (tid : Z) (t' : otxn) :
  occ_inv s h -> s_rows s' = s_rows s -> s_txns s' = <[tid := t']> (s_txns s) -> s_ts s <= s_ts s' ->
  held_rows t' = held_opt (s_txns s !! tid) -> (forall k, pending t' k = pending_opt (s_txns s !! tid) k) ->
  txn_ok s' h t' -> occ_inv s' h.
Proof.
  intros [I1 I2 I3 I4 I5 I6] Hr Ht Hts Hh Hp Hok. split; rewrite ?Hr; try done.
  - intros tid' k r Hk. rewrite (I1 tid' k r Hk), Ht. destruct (decide (tid' = tid)) as [->|Hne].
    + rewrite lookup_insert_eq. split.
      * intros (t & Htid & Hin). exists t'. split; [done|]. by rewrite Hh, Htid.
      * intros (t & [= <-] & Hin). rewrite Hh in Hin. destruct (s_txns s !! tid) as [t|]; [by exists t|by apply elem_of_nil in Hin].
    + by rewrite lookup_insert_ne.
  - intros k r Hk. destruct (I2 k r Hk) as (cs & Hc & Ha). exists cs. split; [|done]. rewrite Hc. f_equal.
    unfold row_pending. destruct (_latch r) as [tid'|] eqn:El; [|done]. cbn. rewrite Ht.
    destruct (decide (tid' = tid)) as [->|Hne]; [rewrite lookup_insert_eq, Hp; done|by rewrite lookup_insert_ne].
  - split; [lia|]. intros k. eapply list.Forall_impl; [apply I4|]. cbn. intros c Hc. lia.
  - intros k. eapply list.Forall_impl; [apply I5|]. cbn. intros c Hc. split; [lia|apply Hc].
  - intros tid' t. rewrite Ht. rewrite lookup_insert_Some. intros [[<- <-]|[_ Hl]]; [done|].
    apply (txn_ok_ts s); [by rewrite Hr|done|by apply (I6 tid')].
Qed.

(** A step that changes a row no other transaction has latched. *)
Lemma inv_row (s : sys) (h : gmap Z hist) (tid : Z) (t t' : otxn) (k : Z) (r r' : Row_occ) :
  occ_inv s h -> s_txns s !! tid = Some t -> s_rows s !! k = Some r ->
  (_latch r = None \/ _latch r = Some tid) ->
  (_latch r' = Some tid /\ k ∈ held_rows t') \/ (_latch r' = None /\ k ∉ held_rows t') ->
  (forall k', k' <> k -> (k' ∈ held_rows t' <-> k' ∈ held_rows t) /\ pending t' k' = pending t k') ->
  (exists cs, commits (hist_of h k) = (if bool_decide (_latch r' = None) then [] else pending t' k) ++ cs
     /\ applied (table k) r' cs) ->
  let s' := set_otxn tid t' (with_rows (<[k := r']> (s_rows s)) s) in
  txn_ok s' h t' -> occ_inv s' h.
Proof.
  intros [I1 I2 I3 I4 I5 I6] Ht Hr Hold Hnew Hother Hrow s' Hok. split; try done.
  - intros tid' k' r1. cbn. rewrite lookup_insert_Some. intros [[<- <-]|[Hne Hk']].
    + destruct (decide (tid' = tid)) as [->|Hnt].
      * rewrite lookup_insert_eq. destruct Hnew as [[-> Hin]|[-> Hin]]; [split; eauto|].
        split; [done|]. intros (? & [= <-] & ?). done.
      * rewrite lookup_insert_ne by done. rewrite <- (I1 tid' k r Hr).
        split; intros Hl; exfalso; [destruct Hnew as [[? _]|[? _]]|destruct Hold]; congruence.
    + rewrite (I1 tid' k' r1 Hk'). destruct (decide (tid' = tid)) as [->|Hnt]; [|by rewrite lookup_insert_ne].
      rewrite lookup_insert_eq. destruct (Hother k' ltac:(done)) as [Hh _].
      split; intros (t0 & Ht0 & Hin); simplify_eq; eexists; (split; [done|]); by apply Hh.
  - intros k' r1. cbn. rewrite lookup_insert_Some. intros [[<- <-]|[Hne Hk']].
    + destruct Hrow as (cs & Hc & Ha). exists cs. split; [|done]. rewrite Hc. f_equal. unfold row_pending.
      destruct Hnew as [[-> _]|[-> _]]; [|done]. cbn. by rewrite lookup_insert_eq.
    + destruct (I2 k' r1 Hk') as (cs & Hc & Ha). exists cs. split; [|done]. rewrite Hc. f_equal. unfold row_pending.
      destruct (_latch r1) as [tid'|] eqn:El; [|done]. cbn.
      destruct (decide (tid' = tid)) as [->|Hnt]; [|by rewrite lookup_insert_ne].
      rewrite lookup_insert_eq, Ht. by destruct (Hother k' ltac:(done)) as [_ ->].
  - intros tid' t0. cbn. rewrite lookup_insert_Some. intros [[<- <-]|[_ Hl]]; [done|].
    apply (txn_ok_ts s); [|cbn; lia|by apply (I6 tid')]. intros k' Hk'. cbn.
    destruct (decide (k' = k)) as [->|Hne]; [by rewrite lookup_insert_eq|by rewrite lookup_insert_ne].
Qed.

Lemma latched_by (s : sys) (h : gmap Z hist) (tid : Z) (t : otxn) (k : Z) (r : Row_occ) :
  occ_inv s h -> s_txns s !! tid = Some t -> s_rows s !! k = Some r -> k ∈ held_rows t -> _latch r = Some tid.
Proof. intros Hi Ht Hr Hk. apply (oi_latch _ _ Hi tid k r Hr). eauto. Qed.

(** A row that is not latched is the newest commit. *)
Lemma free_row (s : sys) (h : gmap Z hist) (k : Z) (r : Row_occ) :
  occ_inv s h -> s_rows s !! k = Some r -> _latch r = None -> applied (table k) r (commits (hist_of h k)).
Proof.
  intros Hi Hr Hl. destruct (oi_row _ _ Hi k r Hr) as (cs & Hc & Ha). unfold row_pending in Hc.
  rewrite Hl in Hc. cbn in Hc. by rewrite Hc.
Qed.

(** A read at or above the timestamp of the row sees what a serial reader sees. *)
Lemma applied_value (v0 : option bytes) (r : Row_occ) (cs : list (Z * option bytes)) (start : Z) :
  applied v0 r cs -> newest_first cs -> wts r <= start -> Forall (fun c => c.1 <> start) cs ->
  Some (_row r) = value_at v0 start cs /\ Forall (fun c => c.1 < start) cs.
Proof.
  intros Ha Hn Hle Hne. destruct cs as [|[c v] cs]; cbn in Ha.
  { split; [apply Ha|constructor]. }
  destruct Ha as [Hc Hv]. apply list.Forall_cons in Hne as [Hne1 _]. cbn in Hne1.
  inversion Hn as [|? ? Hs Hall]; subst. split.
  - cbn. by destruct (Z.ltb_spec (wts r) start); [|lia].
  - constructor; [cbn; lia|]. eapply list.Forall_impl; [exact Hall|]. cbn. intros x Hx. lia.
Qed.

(** ** Each step keeps the invariant *)

Lemma inv_start (s : sys) (h : gmap Z hist) (tid : Z) :
  occ_inv s h -> (forall t, s_txns s !! tid = Some t -> exists rc, o_phase t = Ended rc) ->
  occ_inv (set_otxn tid (mkOtxn (s_ts s) [] Reading) (tick s)) h.
Proof.
  intros Hi He. apply (inv_quiet s _ h tid (mkOtxn (s_ts s) [] Reading)); try done; [cbn; lia|..].
  - cbn. destruct (s_txns s !! tid) as [t|] eqn:Et; [|done]. destruct (He t eq_refl) as [rc Hp]. unfold held_opt, held_rows. by rewrite Hp.
  - intros k. cbn. destruct (s_txns s !! tid) as [t|] eqn:Et; [|done]. destruct (He t eq_refl) as [rc Hp]. unfold pending_opt, pending. by rewrite Hp.
  - destruct (oi_ts _ _ Hi) as [H0 Hts]. split; cbn; try done.
    + apply NoDup_nil_2.
    + by intros k ?%elem_of_nil.
    + intros _. lia.
    + intros _ a ?%elem_of_nil. done.
    + intros _ k. eapply list.Forall_impl; [apply Hts|]. cbn. intros c Hc. lia.
Qed.

Lemma inv_read (s : sys) (h : gmap Z hist) (tid : Z) (t : otxn) (ty : access_t) (key : Z) (r : Row_occ) (v : bytes) :
  occ_inv s h -> s_txns s !! tid = Some t -> o_phase t = Reading -> s_rows s !! key = Some r ->
  RowOcc.access (o_start t) R_REQ r = Ret (RCOK, Some v) ->
  occ_inv (set_otxn tid (mkOtxn (o_start t) (o_accs t ++ [mkAccess ty key v v]) Reading) s) h.
Proof.
  intros Hi Ht Hp Hr Ha. destruct (oi_txns _ _ Hi tid t Ht) as [H1 H2 H3 H4 H5 H6 H7].
  assert (live t) as Hl by (by left). unfold RowOcc.access in Ha.
  destruct (_latch r) eqn:El; [done|]. rewrite bool_decide_eq_true_2 in Ha by done.
  destruct (Z.ltb_spec (o_start t) (wts r)); [done|]. injection Ha as <-.
  destruct (applied_value (table key) r (commits (hist_of h key)) (o_start t)) as [Hv _];
    [by apply (free_row s)|apply Hi|done|by apply H5|].
  apply (inv_quiet s _ h tid (mkOtxn (o_start t) (o_accs t ++ [mkAccess ty key (_row r) (_row r)]) Reading)); try done.
  - rewrite Ht. unfold held_opt, held_rows. by rewrite Hp.
  - intros k. rewrite Ht. unfold pending_opt, pending. by rewrite Hp.
  - split; cbn; try done.
    + apply NoDup_nil_2.
    + intros k. unfold acc_rows. cbn. rewrite fmap_app, elem_of_app. intros [Hk|Hk%list_elem_of_singleton]; [by apply H2|subst k; eauto].
    + intros _. by apply H3.
    + intros _ a. rewrite elem_of_app. intros [Hk| ->%list_elem_of_singleton]; [by apply H4|done].
    + intros _. by apply H5.
Qed.

(** Ending without latches, and changing or reordering local copies. *)
Lemma inv_local (s : sys) (h : gmap Z hist) (tid : Z) (t : otxn) (accs : list Access) (ph : phase) :
  occ_inv s h -> s_txns s !! tid = Some t -> o_phase t = Reading ->
  (forall a, a ∈ accs -> exists a', a' ∈ o_accs t /\ orig_row a' = orig_row a /\ orig_data a' = orig_data a) ->
  ph = Reading \/ ph = Locking 0 \/ ph = Ended Abort ->
  occ_inv (set_otxn tid (mkOtxn (o_start t) accs ph) s) h.
Proof.
  intros Hi Ht Hp Hsub Hph. destruct (oi_txns _ _ Hi tid t Ht) as [H1 H2 H3 H4 H5 H6 H7].
  assert (live t) as Hl by (by left). apply (inv_quiet s _ h tid (mkOtxn (o_start t) accs ph)); try done.
  - rewrite Ht. unfold held_opt, held_rows. rewrite Hp. by destruct Hph as [->|[->| ->]].
  - intros k. rewrite Ht. unfold pending_opt, pending. rewrite Hp. by destruct Hph as [->|[->| ->]].
  - split; cbn.
    + unfold held_rows. destruct Hph as [->|[->| ->]]; apply NoDup_nil_2.
    + intros k (a & -> & Ha)%list_elem_of_fmap. destruct (Hsub a Ha) as (a' & Ha' & <- & _). apply H2.
      by apply list_elem_of_fmap_2.
    + intros _. by apply H3.
    + intros _ a Ha. destruct (Hsub a Ha) as (a' & Ha' & <- & <-). by apply H4.
    + intros _. by apply H5.
    + intros n Hn k Hk. destruct Hph as [->|[->| ->]]; [done|injection Hn as <-; by apply elem_of_nil in Hk|done].
    + intros e todo He. destruct Hph as [->|[->| ->]]; done.
Qed.

Lemma on_row_Ret (k : Z) (f : Row_occ -> res Row_occ) (rows rows' : occ_rows) :
  on_row k f rows = Ret rows' -> exists r r', rows !! k = Some r /\ f r = Ret r' /\ rows' = <[k := r']> rows.
Proof.
  unfold on_row. destruct (rows !! k) as [r|]; [|done]. cbn. destruct (f r) as [r'| |] eqn:Ef; [|done|done].
  intros [= <-]. eauto.
Qed.

Lemma take_rows_S (t : otxn) (n : nat) (a : Access) :
  o_accs t !! n = Some a -> take (S n) (acc_rows t) = take n (acc_rows t) ++ [orig_row a].
Proof. intros Ha. apply take_S_r. unfold acc_rows. by rewrite list_lookup_fmap, Ha. Qed.

Lemma inv_lock (s : sys) (h : gmap Z hist) (tid : Z) (t : otxn) (n : nat) (a : Access) (rows : occ_rows) (r : Row_occ) :
  occ_inv s h -> s_txns s !! tid = Some t -> o_phase t = Locking n -> o_accs t !! n = Some a ->
  on_row (orig_row a) (latch tid) (s_rows s) = Ret rows -> rows !! orig_row a = Some r ->
  occ_inv (set_otxn tid (mkOtxn (o_start t) (o_accs t)
    (if validate (o_start t) r then Locking (S n) else Releasing Abort 0 (S n))) (with_rows rows s)) h.
Proof.
  intros Hi Ht Hp Ha Hrow Hr. destruct (oi_txns _ _ Hi tid t Ht) as [H1 H2 H3 H4 H5 H6 H7].
  assert (live t) as Hl by (right; eauto).
  apply on_row_Ret in Hrow as (r0 & r' & Hr0 & Hlatch & ->). rewrite lookup_insert_eq in Hr. injection Hr as ->.
  unfold latch in Hlatch. destruct (_latch r0) eqn:El; [done|]. injection Hlatch as <-.
  set (r := mkRowOcc (Some tid) (_row r0) (wts r0)).
  set (t' := mkOtxn _ _ _). pose proof (free_row s h _ r0 Hi Hr0 El) as Happ.
  assert (held_rows t' = take n (acc_rows t) ++ [orig_row a]) as Hheld.
  { rewrite <- (take_rows_S t n a Ha). unfold t', held_rows. cbn. by destruct (validate _ r). }
  assert (forall k, pending t' k = []) as Hpend by (intros k; unfold t', pending; cbn; by destruct (validate _ r)).
  assert (held_rows t = take n (acc_rows t)) as Hheld0 by (unfold held_rows; by rewrite Hp).
  assert (orig_row a ∉ take n (acc_rows t)) as Hnot.
  { intros Hin. rewrite <- Hheld0 in Hin. pose proof (latched_by s h tid t _ r0 Hi Ht Hr0 Hin). congruence. }
  apply (inv_row s h tid t t' (orig_row a) r0 r); [done|done|done|by left| | | |].
  - left. split; [done|]. rewrite Hheld. apply elem_of_app. right. by apply list_elem_of_singleton.
  - intros k Hne. rewrite Hheld, Hheld0, Hpend. split; [rewrite elem_of_app, list_elem_of_singleton; naive_solver|].
    unfold pending. by rewrite Hp.
  - exists (commits (hist_of h (orig_row a))). by rewrite Hpend.
  - split; try done.
    + rewrite Hheld. apply list.NoDup_app. split; [by rewrite <- Hheld0|]. split; [|apply NoDup_singleton].
      intros k Hk ->%list_elem_of_singleton. done.
    + intros k Hk. cbn. destruct (decide (k = orig_row a)) as [->|Hne]; [by rewrite lookup_insert_eq|].
      rewrite lookup_insert_ne by done. by apply H2.
    + intros _. by apply H3.
    + intros _. by apply H4.
    + intros _. by apply H5.
    + intros m Hm k Hk. unfold t' in Hm. cbn in Hm. unfold validate in Hm.
      destruct (Z.ltb_spec (o_start t) (wts r)) as [|Hle]; [done|]. cbn in Hm. injection Hm as <-.
      change (acc_rows t') with (acc_rows t) in Hk. rewrite (take_rows_S t n a Ha) in Hk.
      apply elem_of_app in Hk as [Hk| ->%list_elem_of_singleton]; [by apply (H6 n)|].
      apply (applied_value (table (orig_row a)) r0); [done|apply Hi|done|by apply H5].
    + intros e todo. unfold t'. cbn. by destruct (validate _ r).
Qed.

Lemma inv_release (s : sys) (h : gmap Z hist) (tid : Z) (t : otxn) (rc : RC) (i n : nat) (a : Access) (rows : occ_rows) :
  occ_inv s h -> s_txns s !! tid = Some t -> o_phase t = Releasing rc i n -> (i < n)%nat -> o_accs t !! i = Some a ->
  on_row (orig_row a) (fun r => Ret (release r)) (s_rows s) = Ret rows ->
  occ_inv (set_otxn tid (mkOtxn (o_start t) (o_accs t) (Releasing rc (S i) n)) (with_rows rows s)) h.
Proof.
  intros Hi Ht Hp Hlt Ha Hrow. destruct (oi_txns _ _ Hi tid t Ht) as [H1 H2 H3 H4 H5 H6 H7].
  apply on_row_Ret in Hrow as (r & r' & Hr & [= <-] & ->). set (t' := mkOtxn _ _ _).
  assert (held_rows t = orig_row a :: held_rows t') as Hheld.
  { unfold t', held_rows. rewrite Hp. cbn. apply drop_S. rewrite lookup_take_lt by done. unfold acc_rows. by rewrite list_lookup_fmap, Ha. }
  rewrite Hheld in H1. apply list.NoDup_cons in H1 as [Hnot Hnd].
  assert (_latch r = Some tid) as El.
  { apply (latched_by s h tid t (orig_row a)); try done. rewrite Hheld. by apply elem_of_cons; left. }
  destruct (oi_row _ _ Hi _ r Hr) as (cs & Hc & Happ). unfold row_pending in Hc. rewrite El in Hc. cbn in Hc. rewrite Ht in Hc.
  unfold pending in Hc. rewrite Hp in Hc.
  apply (inv_row s h tid t t' (orig_row a) r (release r)); [done|done|done|by right|by right| | |].
  - intros k Hne. rewrite Hheld, elem_of_cons. split; [naive_solver|]. unfold pending. by rewrite Hp.
  - exists cs. by rewrite bool_decide_eq_true_2.
  - split; try done.
    + intros k Hk. cbn. destruct (decide (k = orig_row a)) as [->|Hne]; [by rewrite lookup_insert_eq|].
      rewrite lookup_insert_ne by done. by apply H2.
    + by intros [?|[? ?]].
    + by intros [?|[? ?]].
    + by intros [?|[? ?]].
Qed.

(** A transaction without latches to take and without writes to make. *)
Lemma txn_ok_over (s : sys) (h : gmap Z hist) (t : otxn) (ph : phase) :
  txn_ok s h t -> NoDup (held_rows (mkOtxn (o_start t) (o_accs t) ph)) ->
  (exists rc i n, ph = Releasing rc i n) \/ (exists rc, ph = Ended rc) ->
  txn_ok s h (mkOtxn (o_start t) (o_accs t) ph).
Proof.
  intros [H1 H2 H3 H4 H5 H6 H7] Hnd Hph.
  assert (~ live (mkOtxn (o_start t) (o_accs t) ph)) as Hno
    by (intros [Hl|[n Hl]]; cbn in Hl; subst; by destruct Hph as [(? & ? & ? & ?)|[? ?]]).
  split; try done; cbn; intros; subst; by destruct Hph as [(? & ? & ? & ?)|[? ?]].
Qed.

Lemma inv_over (s : sys) (h : gmap Z hist) (tid : Z) (t : otxn) (ph : phase) :
  occ_inv s h -> s_txns s !! tid = Some t ->
  (exists e, o_phase t = Writing e [] /\ ph = Releasing RCOK 0 (length (o_accs t)))
  \/ (exists rc n, o_phase t = Releasing rc n n /\ ph = Ended rc) ->
  occ_inv (set_otxn tid (mkOtxn (o_start t) (o_accs t) ph) s) h.
Proof.
  intros Hi Ht Hph. pose proof (oi_txns _ _ Hi tid t Ht) as Hok. set (t' := mkOtxn _ _ _).
  assert (held_rows t' = held_rows t) as Hheld.
  { unfold t', held_rows. destruct Hph as [(e & -> & ->)|(rc & n & -> & ->)]; cbn.
    - rewrite drop_0. apply take_ge. unfold acc_rows. cbn. by rewrite length_fmap.
    - rewrite drop_ge; [done|]. rewrite length_take. lia. }
  apply (inv_quiet s _ h tid t'); try done.
  - by rewrite Ht.
  - intros k. rewrite Ht. unfold t', pending_opt, pending. by destruct Hph as [(e & -> & ->)|(rc & n & -> & ->)].
  - apply (txn_ok_ts s); [done|done|]. apply txn_ok_over; [done|fold t'; rewrite Hheld; apply Hok|]. destruct Hph as [(e & _ & ->)|(rc & n & _ & ->)]; eauto 10.
Qed.

Lemma todo_sub (t : otxn) (dn todo : list Access) :
  NoDup (acc_rows t) -> rev (o_accs t) = dn ++ todo ->
  NoDup (orig_row <$> todo) /\ forall a, a ∈ todo -> a ∈ o_accs t.
Proof.
  intros Hnd Hrev. assert (o_accs t ≡ₚ dn ++ todo) as Hp by (by rewrite <- Hrev, <- Permutation_rev). split.
  - unfold acc_rows in Hnd. rewrite Hp, fmap_app in Hnd. by apply list.NoDup_app in Hnd as (_ & _ & ?).
  - intros a Ha. rewrite Hp. apply elem_of_app. by right.
Qed.

Lemma inv_write (s : sys) (h : gmap Z hist) (tid : Z) (t : otxn) (e : Z) (a : Access) (todo : list Access) (rows : occ_rows) :
  occ_inv s h -> s_txns s !! tid = Some t -> o_phase t = Writing e (a :: todo) ->
  write_back e (s_rows s) a = Ret rows ->
  occ_inv (set_otxn tid (mkOtxn (o_start t) (o_accs t) (Writing e todo)) (with_rows rows s)) h.
Proof.
  intros Hi Ht Hp Hrow. pose proof (oi_txns _ _ Hi tid t Ht) as [H1 H2 H3 H4 H5 H6 H7].
  destruct (H7 e _ Hp) as [dn Hrev]. unfold held_rows in H1. rewrite Hp in H1.
  destruct (todo_sub t dn (a :: todo) H1 Hrev) as [Hnd Hsub]. cbn in Hnd. apply list.NoDup_cons in Hnd as [Hnot Hnd].
  set (t' := mkOtxn _ _ _).
  assert (forall s', (forall k, is_Some (s_rows s !! k) -> is_Some (s_rows s' !! k)) -> txn_ok s' h t') as Hok.
  { intros s' Hdom. assert (~ live t') as Hno by (by intros [?|[? ?]]). split; try done; cbn.
    - intros k Hk. by apply Hdom, H2.
    - intros ? ? [= <- <-]. exists (dn ++ [a]). by rewrite Hrev, <- app_assoc. }
  assert (forall k, k <> orig_row a -> pending t' k = pending t k) as Hpend.
  { intros k Hne. unfold t', pending. rewrite Hp. cbn. destruct (Z.eqb_spec (orig_row a) k); [congruence|].
    by rewrite andb_false_r. }
  assert (held_rows t' = held_rows t) as Hheld by (unfold t', held_rows; by rewrite Hp).
  unfold write_back in Hrow. destruct (bool_decide (type a = WR)) eqn:Ety.
  - apply on_row_Ret in Hrow as (r & r' & Hr & Hw & ->). unfold write in Hw.
    destruct (wts r <? e); [|done]. injection Hw as <-.
    assert (_latch r = Some tid) as El.
    { apply (latched_by s h tid t (orig_row a)); try done. unfold held_rows. rewrite Hp.
      apply list_elem_of_fmap_2, Hsub. by apply elem_of_cons; left. }
    destruct (oi_row _ _ Hi _ r Hr) as (cs & Hc & Happ). unfold row_pending in Hc. rewrite El in Hc. cbn in Hc. rewrite Ht in Hc.
    unfold pending in Hc. rewrite Hp in Hc. rewrite (todo_own e a (a :: todo)) in Hc;
      [|cbn; by apply list.NoDup_cons|by apply elem_of_cons; left]. rewrite Ety in Hc.
    apply (inv_row s h tid t t' (orig_row a) r); [done|done|done|by right|left| | |].
    + split; [done|]. rewrite Hheld. unfold held_rows. rewrite Hp. apply list_elem_of_fmap_2, Hsub. by apply elem_of_cons; left.
    + intros k Hne. rewrite Hheld. split; [done|by apply Hpend].
    + exists ((e, Some (data a)) :: cs). cbn [_latch]. rewrite El. rewrite bool_decide_eq_false_2 by done.
      unfold t', pending. cbn [o_phase]. rewrite todo_other by done. split; [by rewrite Hc|done].
    + apply Hok. intros k Hk. cbn. destruct (decide (k = orig_row a)) as [->|Hne]; [by rewrite lookup_insert_eq|by rewrite lookup_insert_ne].
  - injection Hrow as <-. apply (inv_quiet s _ h tid t'); try done.
    + by rewrite Ht.
    + intros k. rewrite Ht. cbn. destruct (decide (k = orig_row a)) as [->|Hne]; [|by apply Hpend].
      unfold t', pending. rewrite Hp. cbn. by rewrite Ety.
    + by apply Hok.
Qed.

(** What the end of a transaction adds to the commits of a row. *)
Lemma record_commits (e k : Z) (accs : list Access) (h : gmap Z hist) :
  NoDup (orig_row <$> accs) -> exists add, commits (hist_of (foldl (record_access e) h accs) k) = add ++ commits (hist_of h k)
    /\ Forall (fun c => c.1 = e) add /\ (length add <= 1)%nat /\ (k ∉ (orig_row <$> accs) -> add = []).
Proof.
  intros Hnd. destruct (decide (k ∈ (orig_row <$> accs))) as [Hin|Hout].
  - apply list_elem_of_fmap in Hin as (a & -> & Ha). rewrite record_own by done. eexists. split; [done|].
    split; [|split; [|intros Hn; destruct Hn; by apply list_elem_of_fmap_2]];
      destruct (bool_decide (type a = WR)); cbn; try lia; [by constructor|constructor].
  - exists []. rewrite record_other by done. split; [done|]. split; [constructor|]. split; [cbn; lia|done].
Qed.

Lemma value_at_newer (v0 : option bytes) (ts : Z) (add cs : list (Z * option bytes)) :
  Forall (fun c => ts <= c.1) add -> value_at v0 ts (add ++ cs) = value_at v0 ts cs.
Proof.
  induction 1 as [|[c v] add Hc _ IH]; [done|]. cbn in *. by destruct (Z.ltb_spec c ts); [lia|].
Qed.

Lemma newest_first_cons (e : Z) (add cs : list (Z * option bytes)) :
  newest_first cs -> Forall (fun c => c.1 < e) cs -> Forall (fun c => c.1 = e) add -> (length add <= 1)%nat ->
  newest_first (add ++ cs).
Proof.
  intros Hn Hlt He Hl. destruct add as [|a [|b add]]; cbn in Hl; [done| |lia]. apply list.Forall_cons in He as [He _].
  constructor; [done|]. eapply list.Forall_impl; [exact Hlt|]. cbn. intros c Hc. lia.
Qed.

(** The other transactions keep their reads and what they have validated. *)
Lemma txn_ok_end (s : sys) (h : gmap Z hist) (tid tid' : Z) (t u : otxn) :
  occ_inv s h -> s_txns s !! tid = Some t -> o_phase t = Locking (length (o_accs t)) ->
  s_txns s !! tid' = Some u -> tid' <> tid ->
  txn_ok (tick s) (foldl (record_access (s_ts s)) h (o_accs t)) u.
Proof.
  intros Hi Ht Hp Hu Hne. pose proof (oi_txns _ _ Hi tid t Ht) as [T1 T2 _ _ _ _ _].
  pose proof (oi_txns _ _ Hi tid' u Hu) as [H1 H2 H3 H4 H5 H6 H7].
  assert (held_rows t = acc_rows t) as Hheld.
  { unfold held_rows. rewrite Hp. apply take_ge. unfold acc_rows. by rewrite length_fmap. }
  rewrite Hheld in T1. pose proof (fun k => record_commits (s_ts s) k (o_accs t) h T1) as Hrec.
  split; try done; cbn [tick s_ts s_rows].
  - intros Hl. specialize (H3 Hl). lia.
  - intros Hl a Ha. destruct (Hrec (orig_row a)) as (add & -> & He & _). rewrite value_at_newer; [by apply H4|].
    eapply list.Forall_impl; [exact He|]. cbn. intros c ->. specialize (H3 Hl). lia.
  - intros Hl k. destruct (Hrec k) as (add & -> & He & _). apply list.Forall_app_2; [|by apply H5].
    eapply list.Forall_impl; [exact He|]. cbn. intros c ->. specialize (H3 Hl). lia.
  - intros n Hn k Hk. destruct (Hrec k) as (add & -> & _ & _ & Hno). rewrite Hno; [by apply (H6 n)|].
    intros Hin. assert (k ∈ held_rows u) as Hku by (unfold held_rows; by rewrite Hn).
    destruct (T2 k Hin) as [r Hr]. pose proof (latched_by s h tid' u k r Hi Hu Hr Hku).
    fold (acc_rows t) in Hin. rewrite <- Hheld in Hin. pose proof (latched_by s h tid t k r Hi Ht Hr Hin). congruence.
Qed.

(** The writes of the transaction are pending on its rows. *)
Lemma end_pending (s : sys) (h : gmap Z hist) (tid k : Z) (t : otxn) (r : Row_occ) (cs : list (Z * option bytes)) :
  occ_inv s h -> s_txns s !! tid = Some t -> o_phase t = Locking (length (o_accs t)) -> held_rows t = acc_rows t ->
  s_rows s !! k = Some r -> commits (hist_of h k) = row_pending s k r ++ cs ->
  let t' := mkOtxn (o_start t) (o_accs t) (Writing (s_ts s) (rev (o_accs t))) in
  commits (hist_of (foldl (record_access (s_ts s)) h (o_accs t)) k) = row_pending (set_otxn tid t' (tick s)) k r ++ cs.
Proof.
  intros Hi Ht Hp Hheld Hr Hc t'. pose proof (tx_nodup _ _ _ (oi_txns _ _ Hi tid t Ht)) as Hnd. rewrite Hheld in Hnd.
  unfold row_pending in *. destruct (decide (k ∈ acc_rows t)) as [Hin|Hout].
  - assert (_latch r = Some tid) as El by (apply (latched_by s h tid t k); try done; by rewrite Hheld).
    rewrite El in *. cbn in Hc |- *. rewrite Ht in Hc. rewrite lookup_insert_eq. unfold pending in *. rewrite Hp in Hc. cbn [o_phase t'].
    apply list_elem_of_fmap in Hin as (a & -> & Ha). rewrite record_own by done. cbn [commits]. rewrite Hc.
    rewrite todo_own; [done| |]; by rewrite <- (Permutation_rev (o_accs t)).
  - rewrite record_other by done. rewrite Hc. f_equal. destruct (_latch r) as [tid'|] eqn:El; [|done]. cbn.
    rewrite lookup_insert_ne; [done|]. intros <-. apply (oi_latch _ _ Hi tid k r Hr) in El as (t0 & Ht0 & Hk). simplify_eq.
    by rewrite Hheld in Hk.
Qed.

(** What the transaction read is what a serial reader sees at its end. *)
Lemma end_reads (s : sys) (h : gmap Z hist) (tid k : Z) (t : otxn) :
  occ_inv s h -> s_txns s !! tid = Some t -> o_phase t = Locking (length (o_accs t)) -> held_rows t = acc_rows t ->
  let h' := foldl (record_access (s_ts s)) h (o_accs t) in
  Forall (fun x => x.1 < s_ts s + 1 /\ x.2 = value_at (table k) x.1 (commits (hist_of h' k))) (reads (hist_of h' k)).
Proof.
  intros Hi Ht Hp Hheld h'. pose proof (oi_txns _ _ Hi tid t Ht) as [T1 _ T3 T4 _ T6 _]. rewrite Hheld in T1.
  assert (live t) as Hl by (right; eauto). specialize (T3 Hl).
  destruct (record_commits (s_ts s) k (o_accs t) h T1) as (add & Hadd & He & _). fold h' in Hadd. rewrite Hadd.
  assert (forall ts, ts <= s_ts s -> value_at (table k) ts (add ++ commits (hist_of h k)) = value_at (table k) ts (commits (hist_of h k))) as Hval.
  { intros ts Hts. apply value_at_newer. eapply list.Forall_impl; [exact He|]. cbn. intros c ->. lia. }
  assert (Forall (fun x => x.1 < s_ts s + 1 /\ x.2 = value_at (table k) x.1 (add ++ commits (hist_of h k))) (reads (hist_of h k))) as Hold.
  { eapply list.Forall_impl; [apply (oi_reads _ _ Hi k)|]. cbn. intros x [Hx ->]. split; [lia|]. rewrite Hval by lia. done. }
  destruct (decide (k ∈ acc_rows t)) as [Hin|Hout]; [|unfold h'; by rewrite record_other].
  pose proof (T6 _ Hp k) as Hlt. rewrite take_ge in Hlt by (unfold acc_rows; by rewrite length_fmap). specialize (Hlt Hin).
  apply list_elem_of_fmap in Hin as (a & -> & Ha). unfold h'. rewrite record_own by done. cbn [reads].
  constructor; [|done]. cbn. split; [lia|]. rewrite Hval, T4 by (done || lia). apply value_at_above.
  eapply list.Forall_impl; [exact Hlt|]. cbn. intros c Hc. lia.
Qed.

Lemma inv_end (s : sys) (h : gmap Z hist) (tid : Z) (t : otxn) :
  occ_inv s h -> s_txns s !! tid = Some t -> o_phase t = Locking (length (o_accs t)) ->
  occ_inv (set_otxn tid (mkOtxn (o_start t) (o_accs t) (Writing (s_ts s) (rev (o_accs t)))) (tick s))
    (foldl (record_access (s_ts s)) h (o_accs t)).
Proof.
  intros Hi Ht Hp. pose proof (oi_txns _ _ Hi tid t Ht) as [T1 T2 T3 T4 T5 T6 _].
  assert (live t) as Hl by (right; eauto). destruct (T3 Hl) as [Hs0 Hs1].
  assert (take (length (o_accs t)) (acc_rows t) = acc_rows t) as Htake
    by (apply take_ge; unfold acc_rows; by rewrite length_fmap).
  assert (held_rows t = acc_rows t) as Hheld by (unfold held_rows; by rewrite Hp).
  rewrite Hheld in T1. pose proof (fun k => record_commits (s_ts s) k (o_accs t) h T1) as Hrec.
  pose proof Hi as [I1 I2 I3 [I40 I4] I5 I6]. set (t' := mkOtxn _ _ _). split.
  - intros tid' k r Hr. cbn in Hr |- *. rewrite (I1 tid' k r Hr).
    destruct (decide (tid' = tid)) as [->|Hne]; [|by rewrite lookup_insert_ne]. rewrite lookup_insert_eq, Ht.
    split; intros (t0 & [= <-] & Hk); eexists; (split; [done|]); [by rewrite Hheld in Hk|by rewrite Hheld].
  - intros k r Hr. cbn in Hr. destruct (I2 k r Hr) as (cs & Hc & Happ). exists cs. split; [|done].
    by apply (end_pending s h tid k t r cs).
  - intros k. destruct (Hrec k) as (add & -> & He & Hlen & _). apply (newest_first_cons (s_ts s)); [done| |done|done].
    eapply list.Forall_impl; [apply I4|]. cbn. intros c Hc. lia.
  - cbn. split; [lia|]. intros k. destruct (Hrec k) as (add & -> & He & _). apply list.Forall_app_2.
    + eapply list.Forall_impl; [exact He|]. cbn. intros c ->. lia.
    + eapply list.Forall_impl; [apply I4|]. cbn. intros c Hc. lia.
  - intros k. by apply (end_reads s h tid k t).
  - intros tid' u. cbn. rewrite lookup_insert_Some. intros [[<- <-]|[Hne Hu]].
    + assert (~ live t') as Hno by (by intros [?|[? ?]]). split; try done; cbn.
      intros ? ? [= <- <-]. by exists [].
    + apply (txn_ok_ts (tick s)); [done|done|]. by apply (txn_ok_end s h tid tid' t u).
Qed.

(** Writing back does not fail: the timestamp of the end is newer than the row. *)
Lemma write_back_ok (s : sys) (h : gmap Z hist) (tid : Z) (t : otxn) (e : Z) (a : Access) (todo : list Access) :
  occ_inv s h -> s_txns s !! tid = Some t -> o_phase t = Writing e (a :: todo) ->
  exists rows, write_back e (s_rows s) a = Ret rows.
Proof.
  intros Hi Ht Hp. pose proof (oi_txns _ _ Hi tid t Ht) as [T1 T2 _ _ _ _ T7].
  destruct (T7 e _ Hp) as [dn Hrev]. unfold held_rows in T1. rewrite Hp in T1.
  destruct (todo_sub t dn (a :: todo) T1 Hrev) as [Hnd Hsub].
  assert (orig_row a ∈ acc_rows t) as Hin by (apply list_elem_of_fmap_2, Hsub; by apply elem_of_cons; left).
  unfold write_back. destruct (bool_decide (type a = WR)) eqn:Ety; [|by eexists].
  destruct (T2 _ Hin) as [r Hr]. unfold on_row. rewrite Hr. cbn [at_ mbind res_bind]. unfold write.
  assert (_latch r = Some tid) as El by (apply (latched_by s h tid t (orig_row a)); try done; unfold held_rows; by rewrite Hp).
  destruct (oi_row _ _ Hi _ r Hr) as (cs & Hc & Happ). unfold row_pending in Hc. rewrite El in Hc. cbn in Hc.
  rewrite Ht in Hc. unfold pending in Hc. rewrite Hp, (todo_own e a (a :: todo)), Ety in Hc by (done || by apply elem_of_cons; left).
  destruct (oi_ts _ _ Hi) as [_ Hts]. specialize (Hts (orig_row a)). pose proof (oi_new _ _ Hi (orig_row a)) as Hn.
  rewrite Hc in Hts, Hn. cbn in Hts, Hn. apply list.Forall_cons in Hts as [He _]. cbn in He.
  inversion Hn as [|? ? _ Hall]; subst.
  assert (wts r < e) as Hlt.
  { destruct cs as [|[c v] cs]; cbn in Happ; destruct Happ as [-> _]; [lia|]. by apply list.Forall_cons in Hall as [? _]. }
  destruct (Z.ltb_spec (wts r) e); [by eexists|lia].
Qed.
End Inv.

(** ** Serializability *)

Definition init_sys (rows : gmap Z bytes) : sys := mkSys 1 (init <$> rows) ∅.

(** A transaction between the start and the end of [per_row_validate]. *)
Definition validating (t : otxn) : Prop := o_phase t <> Reading /\ forall rc, o_phase t <> Ended rc.

#[global] Instance validating_dec (t : otxn) : Decision (validating t).
Proof. unfold validating. destruct (o_phase t) as [| | | |rc]; [right|left|left|left|right]; naive_solver. Defined.

Section Serializable.
Context (get_table_name : Z -> string) (get_primary_key : Z -> Z).

Local Abbreviation occ_step := (occ_step get_table_name get_primary_key).
Local Abbreviation before := (before get_table_name get_primary_key).

Lemma occ_step_inv (table : Z -> option bytes) (p p' : sys * gmap Z hist) :
  occ_step p p' -> occ_inv table p.1 p.2 -> occ_inv table p'.1 p'.2.
Proof.
  intros Hst Hi. destruct Hst; cbn [fst snd] in *.
  - by apply inv_start.
  - by eapply inv_read.
  - eapply inv_local; try done; [|auto]. eauto.
  - eapply inv_local; try done; [|auto]. intros a' Ha'. apply list_elem_of_lookup in Ha' as [j Hj].
    apply list_lookup_insert_Some in Hj as [(_ & <- & _)|[_ Hj]].
    + exists a. split; [by eapply list_elem_of_lookup_2|done].
    + exists a'. split; [by eapply list_elem_of_lookup_2|done].
  - eapply inv_local; try done; [|auto]. intros a Ha. exists a. split; [|done].
    by rewrite (proj1 (sort_accesses_spec get_table_name get_primary_key (o_accs t))) in Ha.
  - by eapply inv_lock.
  - by eapply inv_end.
  - by eapply inv_write.
  - eapply inv_over; try done. left. eauto.
  - by eapply inv_release.
  - eapply inv_over; try done. right. eauto.
Qed.

Lemma init_inv (rows : gmap Z bytes) : occ_inv (fun k => rows !! k) (init_sys rows) ∅.
Proof.
  assert (forall k, hist_of ∅ k = mkHist [] []) as Hh by (intros k; unfold hist_of; by rewrite lookup_empty).
  split; cbn.
  - intros tid k r. rewrite lookup_fmap, fmap_Some. intros (b & _ & ->). cbn. split; [done|].
    intros (t & Ht & _). by rewrite lookup_empty in Ht.
  - intros k r. rewrite lookup_fmap, fmap_Some. intros (b & Hb & ->). exists []. by rewrite Hh.
  - intros k. rewrite Hh. constructor.
  - split; [lia|]. intros k. rewrite Hh. constructor.
  - intros k. rewrite Hh. constructor.
  - intros tid t Ht. by rewrite lookup_empty in Ht.
Qed.

Lemma occ_steps_inv (table : Z -> option bytes) (p p' : sys * gmap Z hist) :
  rtc occ_step p p' -> occ_inv table p.1 p.2 -> occ_inv table p'.1 p'.2.
Proof. induction 1 as [|p p1 p' Hst _ IH]; [done|]. intros Hi. apply IH. by apply (occ_step_inv table p). Qed.


(** ** No deadlock *)

(** Rows are latched in order, and counters stay within the accesses. *)
Definition phase_ok (t : otxn) : Prop :=
  match o_phase t with
  | Locking n => (n <= length (o_accs t))%nat /\ StronglySorted before (o_accs t)
  | Releasing _ i n => (i <= n <= length (o_accs t))%nat
  | _ => True
  end.

Lemma occ_step_phase (p p' : sys * gmap Z hist) :
  occ_step p p' -> (forall tid t, s_txns p.1 !! tid = Some t -> phase_ok t) ->
  forall tid t, s_txns p'.1 !! tid = Some t -> phase_ok t.
Proof.
  intros Hst Hall. destruct Hst as [s h tid He|s h tid t ty key r v Ht Hp Hr Ha|s h tid t key r Ht Hp Hr Ha
    |s h tid t i a b Ht Hp Ha Hty|s h tid t Ht Hp|s h tid t n a rows r Ht Hp Ha Hrow Hr|s h tid t Ht Hp
    |s h tid t e a todo rows Ht Hp Hw|s h tid t e Ht Hp|s h tid t rc i n a rows Ht Hp Hlt Ha Hrow|s h tid t rc n Ht Hp];
    cbn [fst] in *; intros tid' t'; cbn; rewrite lookup_insert_Some; (intros [[<- <-]|[_ Hl]]; [|by apply (Hall tid')]);
    try done; try (specialize (Hall tid t Ht); unfold phase_ok in *; rewrite Hp in Hall; cbn).
  - split; [lia|]. apply sort_accesses_spec.
  - apply lookup_lt_Some in Ha. destruct (validate _ r); [split; [lia|apply Hall]|lia].
  - lia.
  - lia.
Qed.

Lemma occ_steps_phase (p p' : sys * gmap Z hist) :
  rtc occ_step p p' -> (forall tid t, s_txns p.1 !! tid = Some t -> phase_ok t) ->
  forall tid t, s_txns p'.1 !! tid = Some t -> phase_ok t.
Proof. induction 1 as [|p p1 p' Hst _ IH]; [done|]. intros Hall. apply IH. by apply (occ_step_phase p). Qed.

(** The access a transaction wants to latch next. *)
Definition wants (t : otxn) : option Access :=
  match o_phase t with Locking n => o_accs t !! n | _ => None end.

(** Some thread goes on. *)
Definition can_go (s : sys) (h : gmap Z hist) (tid : Z) : Prop :=
  exists s' h', occ_step (s, h) (s', h') /\ s_txns s' !! tid <> s_txns s !! tid.

Lemma set_otxn_changes (tid : Z) (t t' : otxn) (s s' : sys) :
  s_txns s !! tid = Some t -> s_txns s' = s_txns s -> o_phase t' <> o_phase t ->
  s_txns (set_otxn tid t' s') !! tid <> s_txns s !! tid.
Proof. intros Ht Hs Hne. cbn. rewrite Hs, lookup_insert_eq, Ht. congruence. Qed.

(** Only a transaction that wants a row latched by another one is stuck. *)
Lemma goes_or_waits (table : Z -> option bytes) (s : sys) (h : gmap Z hist) (tid : Z) (t : otxn) :
  occ_inv table s h -> s_txns s !! tid = Some t -> validating t -> phase_ok t ->
  can_go s h tid \/ exists a r tid', wants t = Some a /\ s_rows s !! orig_row a = Some r /\ _latch r = Some tid'.
Proof.
  intros Hi Ht [Hr He] Hok. unfold phase_ok, wants in *. pose proof (oi_txns _ _ _ Hi tid t Ht) as Htx.
  destruct (o_phase t) as [|n|e [|a todo]|rc i n|rc] eqn:Hp; [done| | | | |by destruct (He rc)].
  - destruct Hok as [Hn _]. destruct (o_accs t !! n) as [a|] eqn:Ea.
    + destruct (tx_exist _ _ _ _ Htx (orig_row a)) as [r Hrow].
      { apply list_elem_of_fmap_2. by eapply list_elem_of_lookup_2. }
      destruct (_latch r) as [tid'|] eqn:El; [right; eauto 10|left].
      set (r' := mkRowOcc (Some tid) (_row r) (wts r)).
      assert (on_row (orig_row a) (latch tid) (s_rows s) = Ret (<[orig_row a := r']> (s_rows s))) as Hon.
      { unfold on_row, latch. rewrite Hrow. cbn. by rewrite El. }
      eexists _, _. split; [by eapply (os_lock _ _ s h tid t n a _ r'); [done..|apply lookup_insert_eq]|].
      eapply set_otxn_changes; [done|done|]. cbn. rewrite Hp. destruct (validate _ r'); [|done]. intros [= ?]. lia.
    + left. apply lookup_ge_None in Ea. assert (n = length (o_accs t)) as -> by lia.
      eexists _, _. split; [by apply os_end|]. eapply set_otxn_changes; [done|done|]. by rewrite Hp.
  - left. eexists _, _. split; [by eapply os_written|]. eapply set_otxn_changes; [done|done|]. by rewrite Hp.
  - left. destruct (write_back_ok table s h tid t e a todo Hi Ht Hp) as [rows Hw].
    eexists _, _. split; [by eapply os_write|]. eapply set_otxn_changes; [done|done|]. rewrite Hp. cbn. intros [= Heq].
    apply (f_equal length) in Heq. cbn in Heq. lia.
  - left. destruct (decide (i = n)) as [->|Hne].
    { eexists _, _. split; [by eapply os_done|]. eapply set_otxn_changes; [done|done|]. by rewrite Hp. }
    destruct (lookup_lt_is_Some_2 (o_accs t) i ltac:(lia)) as [a Ea].
    destruct (tx_exist _ _ _ _ Htx (orig_row a)) as [r Hrow].
    { apply list_elem_of_fmap_2. by eapply list_elem_of_lookup_2. }
    eexists _, _. split; [eapply (os_release _ _ s h tid t rc i n a); [done|done|lia|done|]|].
    { unfold on_row. rewrite Hrow. done. }
    eapply set_otxn_changes; [done|done|]. rewrite Hp. cbn. intros [= ?]. lia.
Qed.

Lemma before_max (l : list Access) : l <> [] -> exists x, x ∈ l /\ forall y, y ∈ l -> before y x.
Proof.
  induction l as [|a l IH]; [done|]. intros _. destruct (decide (l = [])) as [->|Hl].
  { exists a. split; [by apply elem_of_cons; left|]. intros y ->%list_elem_of_singleton.
    unfold OccRow.before, misplaced. rewrite string_compare_refl. apply Z.ltb_irrefl. }
  destruct (IH Hl) as (x & Hx & Hmax). destruct (misplaced get_table_name get_primary_key a x) eqn:E.
  - exists a. split; [by apply elem_of_cons; left|]. apply misplaced_before in E.
    intros y [->|Hy]%elem_of_cons; [|eapply before_trans; [by apply Hmax|done]].
    unfold OccRow.before, misplaced. rewrite string_compare_refl. apply Z.ltb_irrefl.
  - exists x. split; [by apply elem_of_cons; right|]. intros y [->|Hy]%elem_of_cons; [done|by apply Hmax].
Qed.

(** Either some thread can go on or all of them wait. *)
Lemma some_goes (table : Z -> option bytes) (s : sys) (h : gmap Z hist) (l : list (Z * otxn)) :
  occ_inv table s h -> Forall (fun p => s_txns s !! p.1 = Some p.2 /\ phase_ok p.2) l ->
  (exists p, p ∈ l /\ validating p.2 /\ can_go s h p.1)
  \/ forall p, p ∈ l -> validating p.2 ->
       exists a r tid', wants p.2 = Some a /\ s_rows s !! orig_row a = Some r /\ _latch r = Some tid'.
Proof.
  intros Hi. induction 1 as [|[tid t] l [Ht Hok] _ IH]; [right; by intros ? ?%elem_of_nil|]. cbn in *.
  destruct IH as [(p & Hp & Hv & Hgo)|IH]; [left; exists p; split; [by apply elem_of_cons; right|done]|].
  destruct (decide (validating t)) as [Hv|Hv].
  - destruct (goes_or_waits table s h tid t Hi Ht Hv Hok) as [Hgo|Hw].
    + left. exists (tid, t). split; [by apply elem_of_cons; left|done].
    + right. intros p [->|Hp]%elem_of_cons Hvp; [done|by apply IH].
  - right. intros p [->|Hp]%elem_of_cons Hvp; [done|by apply IH].
Qed.

(** A row that is latched comes before the row its holder wants. *)
Lemma held_before (t : otxn) (n : nat) (k : Z) (a : Access) :
  o_phase t = Locking n -> phase_ok t -> NoDup (acc_rows t) -> k ∈ take n (acc_rows t) -> o_accs t !! n = Some a ->
  exists b, orig_row b = k /\ before b a /\ orig_row a <> k.
Proof.
  intros Hp Hok Hnd Hk Ha. unfold phase_ok in Hok. rewrite Hp in Hok. destruct Hok as [_ Hs].
  apply list_elem_of_lookup in Hk as [j Hj]. apply lookup_take_Some in Hj as [Hj Hlt].
  unfold acc_rows in Hj. rewrite list_lookup_fmap, fmap_Some in Hj. destruct Hj as (b & Hb & ->). exists b. split; [done|]. split.
  - rewrite <- (take_drop n (o_accs t)) in Hs. eapply (sorting.StronglySorted_app_1_elem_of before); [exact Hs| |].
    + eapply list_elem_of_lookup_2. by rewrite lookup_take_lt.
    + apply (list_elem_of_lookup_2 _ 0). by rewrite lookup_drop, Nat.add_0_r.
  - intros Heq. assert (n = j); [|lia]. eapply NoDup_lookup; [exact Hnd| |]; unfold acc_rows; rewrite list_lookup_fmap.
    + by rewrite Ha.
    + rewrite Hb. cbn. by rewrite Heq.
Qed.

End Serializable.

(** ** The validator as one call *)

(** A loop that changes the row of each access. *)
Lemma foldM_rows (F : occ_rows -> Access -> res occ_rows) (ok : Access -> Row_occ -> Prop) (g : Access -> Row_occ -> Row_occ)
    (l : list Access) (rows : occ_rows) :
  (forall rows a r, rows !! orig_row a = Some r -> ok a r -> F rows a = Ret (<[orig_row a := g a r]> rows)) ->
  NoDup (orig_row <$> l) -> (forall a, a ∈ l -> exists r, rows !! orig_row a = Some r /\ ok a r) ->
  exists rows', foldM F rows l = Ret rows'
    /\ (forall a, a ∈ l -> rows' !! orig_row a = g a <$> rows !! orig_row a)
    /\ (forall k, k ∉ (orig_row <$> l) -> rows' !! k = rows !! k).
Proof.
  intros HF. revert rows. induction l as [|a l IH]; intros rows Hnd Hall.
  { exists rows. split; [done|]. split; [by intros ? ?%elem_of_nil|done]. }
  cbn in Hnd. apply list.NoDup_cons in Hnd as [Hnot Hnd].
  destruct (Hall a) as (r & Hr & Hok); [by apply elem_of_cons; left|]. cbn [foldM]. rewrite (HF _ _ _ Hr Hok). cbn [mbind res_bind].
  assert (forall b, b ∈ l -> orig_row b <> orig_row a) as Hne.
  { intros b Hb Heq. apply Hnot. rewrite <- Heq. by apply list_elem_of_fmap_2. }
  destruct (IH (<[orig_row a := g a r]> rows) Hnd) as (rows' & -> & H1 & H2).
  { intros b Hb. rewrite lookup_insert_ne by (intros Heq; by apply (Hne b)). apply Hall. by apply elem_of_cons; right. }
  exists rows'. split; [done|]. split.
  - intros b [->|Hb]%elem_of_cons.
    + rewrite H2 by done. by rewrite lookup_insert_eq, Hr.
    + rewrite H1 by done. by rewrite lookup_insert_ne by (intros Heq; by apply (Hne b)).
  - intros k Hk. cbn in Hk. apply not_elem_of_cons in Hk as [Hka Hk]. rewrite H2 by done. by rewrite lookup_insert_ne.
Qed.

Definition latched (tid : Z) (r : Row_occ) : Row_occ := mkRowOcc (Some tid) (_row r) (wts r).

Lemma lock_rows_spec (tid start : Z) (l : list Access) (cnt : nat) (rows : occ_rows) :
  NoDup (orig_row <$> l) -> (forall a, a ∈ l -> exists r, rows !! orig_row a = Some r /\ _latch r = None) ->
  exists m rows', lock_rows tid start l cnt rows
      = Ret (forallb (fun a => default false (validate start <$> rows !! orig_row a)) l, (cnt + m)%nat, rows')
    /\ (forallb (fun a => default false (validate start <$> rows !! orig_row a)) l = true -> m = length l)
    /\ (forall a, a ∈ take m l -> rows' !! orig_row a = latched tid <$> rows !! orig_row a)
    /\ (forall k, k ∉ (orig_row <$> take m l) -> rows' !! k = rows !! k).
Proof.
  revert cnt rows. induction l as [|a l IH]; intros cnt rows Hnd Hall.
  { exists 0%nat, rows. cbn. rewrite Nat.add_0_r. split; [done|]. split; [done|]. split; [by intros ? ?%elem_of_nil|done]. }
  cbn in Hnd. apply list.NoDup_cons in Hnd as [Hnot Hnd].
  destruct (Hall a) as (r & Hr & Hl); [by apply elem_of_cons; left|].
  cbn [lock_rows forallb]. unfold on_row. rewrite Hr. cbn [at_ mbind res_bind]. unfold latch. rewrite Hl. cbn [mbind res_bind].
  rewrite lookup_insert_eq. cbn [at_ mbind res_bind]. cbn [fmap option_fmap option_map default].
  change (mkRowOcc (Some tid) (_row r) (wts r)) with (latched tid r).
  change (validate start (latched tid r)) with (validate start r).
  assert (forall b, b ∈ l -> orig_row a <> orig_row b) as Hne.
  { intros b Hb Heq. apply Hnot. rewrite Heq. by apply list_elem_of_fmap_2. }
  destruct (validate start r); cbn [andb].
  - destruct (IH (S cnt) (<[orig_row a := latched tid r]> rows) Hnd) as (m & rows' & Heq & Hm & H1 & H2).
    { intros b Hb. rewrite lookup_insert_ne by auto. apply Hall. by apply elem_of_cons; right. }
    assert (forallb (fun a0 => default false (validate start <$> <[orig_row a := latched tid r]> rows !! orig_row a0)) l
      = forallb (fun a0 => default false (validate start <$> rows !! orig_row a0)) l) as Hfa.
    { clear -Hne. induction l as [|b l IHl]; [done|]. cbn. rewrite lookup_insert_ne by (apply Hne; by apply elem_of_cons; left).
      rewrite IHl; [done|]. intros c Hc. apply Hne. by apply elem_of_cons; right. }
    rewrite Hfa in Heq, Hm. exists (S m), rows'. rewrite Heq. split; [do 3 f_equal; lia|]. split; [cbn; intros H; rewrite Hm; done|].
    cbn [take]. split.
    + intros b [->|Hb]%elem_of_cons.
      * rewrite H2; [by rewrite lookup_insert_eq, Hr|]. intros Hin. apply Hnot.
        apply list_elem_of_fmap in Hin as (c & -> & Hc). by apply list_elem_of_fmap_2, (subseteq_take m).
      * rewrite H1 by done. rewrite lookup_insert_ne; [done|]. apply Hne. by apply (subseteq_take m).
    + intros k Hk. cbn in Hk. apply not_elem_of_cons in Hk as [Hka Hk]. rewrite H2 by done. by rewrite lookup_insert_ne.
  - exists 1%nat. eexists. rewrite Nat.add_1_r. split; [done|]. split; [done|]. cbn [take]. split.
    + intros b ->%list_elem_of_singleton. by rewrite lookup_insert_eq, Hr.
    + intros k Hk. cbn in Hk. apply not_elem_of_cons in Hk as [Hka _]. by rewrite lookup_insert_ne.
Qed.

Definition written (e : Z) (a : Access) (r : Row_occ) : Row_occ :=
  if bool_decide (type a = WR) then mkRowOcc (_latch r) (data a) e else r.

Lemma write_rows_spec (e : Z) (l : list Access) (rows : occ_rows) :
  NoDup (orig_row <$> l) -> (forall a, a ∈ l -> exists r, rows !! orig_row a = Some r /\ wts r < e) ->
  exists rows', foldM (write_back e) rows l = Ret rows'
    /\ (forall a, a ∈ l -> rows' !! orig_row a = written e a <$> rows !! orig_row a)
    /\ (forall k, k ∉ (orig_row <$> l) -> rows' !! k = rows !! k).
Proof.
  apply (foldM_rows (write_back e) (fun _ r => wts r < e)). intros rows0 a r Hr Hlt. unfold write_back, written, on_row, write.
  destruct (bool_decide (type a = WR)); [|by rewrite insert_id].
  rewrite Hr. cbn. by destruct (Z.ltb_spec (wts r) e); [|lia].
Qed.

Lemma release_rows_spec (l : list Access) (rows : occ_rows) :
  NoDup (orig_row <$> l) -> (forall a, a ∈ l -> is_Some (rows !! orig_row a)) ->
  exists rows', foldM (fun rows a => on_row (orig_row a) (fun r => Ret (release r)) rows) rows l = Ret rows'
    /\ (forall a, a ∈ l -> rows' !! orig_row a = release <$> rows !! orig_row a)
    /\ (forall k, k ∉ (orig_row <$> l) -> rows' !! k = rows !! k).
Proof.
  intros Hnd Hall. apply (foldM_rows _ (fun _ _ => True) (fun _ => release)); [|done|].
  - intros rows0 a r Hr _. unfold on_row. by rewrite Hr.
  - intros a Ha. destruct (Hall a Ha) as [r Hr]. by exists r.
Qed.

Lemma forallb_perm {A} (f : A -> bool) (l l' : list A) : l ≡ₚ l' -> forallb f l = forallb f l'.
Proof. induction 1; cbn; [done|congruence|by destruct (f x), (f y)|congruence]. Qed.

(** One call of the validator, with no other thread in the way, for a
    transaction with accesses to distinct rows: it returns, it commits exactly
    when no row is newer than the start of the transaction, a commit stores the
    local copies with the end timestamp, an abort changes nothing, and all
    latches are free again. *)
Theorem per_row_validate_spec (get_table_name : Z -> string) (get_primary_key : Z -> Z) (tid start : Z)
    (accs : list Access) (ts : Z) (rows : occ_rows) :
  NoDup (orig_row <$> accs) ->
  (forall a, a ∈ accs -> exists r, rows !! orig_row a = Some r /\ _latch r = None /\ wts r < ts) ->
  let ok := forallb (fun a => default false (validate start <$> rows !! orig_row a)) accs in
  exists rows', per_row_validate get_table_name get_primary_key tid start accs ts rows
      = Ret (if ok then RCOK else Abort, if ok then ts + 1 else ts, rows')
    /\ (forall a, a ∈ accs -> ok = true -> type a = WR -> rows' !! orig_row a = Some (mkRowOcc None (data a) ts))
    /\ (forall k, ok = false \/ (forall a, a ∈ accs -> orig_row a = k -> type a <> WR) -> rows' !! k = rows !! k).
Proof.
  intros Hnd Hall ok. unfold per_row_validate. set (l := sort_accesses _ _ accs).
  destruct (sort_accesses_spec get_table_name get_primary_key accs) as [Hp _]. fold l in Hp.
  assert (NoDup (orig_row <$> l)) as Hndl by (by rewrite Hp).
  assert (forall a, a ∈ l -> exists r, rows !! orig_row a = Some r /\ _latch r = None /\ wts r < ts) as Halll
    by (intros a Ha; apply Hall; by rewrite <- Hp).
  destruct (lock_rows_spec tid start l 0 rows Hndl) as (m & rows1 & Hlock & Hm & H1 & H2).
  { intros a Ha. destruct (Halll a Ha) as (r & ? & ? & _). eauto. }
  rewrite Hlock. cbn [mbind res_bind Nat.add]. rewrite (forallb_perm _ l accs Hp) in Hm |- *. fold ok in Hm |- *.
  assert (forall k, rows1 !! k = latched tid <$> rows !! k \/ rows1 !! k = rows !! k) as Hlat.
  { intros k. destruct (decide (k ∈ (orig_row <$> take m l))) as [Hin|Hout]; [left|right; by apply H2].
    apply list_elem_of_fmap in Hin as (a & -> & Ha). by apply H1. }
  assert (forall k, release <$> rows1 !! k = release <$> rows !! k) as Hrel
    by (intros k; destruct (Hlat k) as [-> | ->]; by destruct (rows !! k)).
  assert (NoDup (orig_row <$> take m l)) as Hndm.
  { rewrite fmap_take. eapply sublist_NoDup; [exact Hndl|]. apply sublist_take. }
  destruct ok eqn:Eok.
  - rewrite (Hm eq_refl) in *. rewrite firstn_all in *.
    destruct (write_rows_spec ts (rev l) rows1) as (rows2 & -> & W1 & W2).
    { by rewrite <- (Permutation_rev l). }
    { intros a Ha. rewrite <- (Permutation_rev l) in Ha. destruct (Halll a Ha) as (r & Hr & _ & Hlt).
      exists (latched tid r). by rewrite H1, Hr. }
    cbn [mbind res_bind]. destruct (release_rows_spec l rows2 Hndl) as (rows3 & -> & R1 & R2).
    { intros a Ha. destruct (Halll a Ha) as (r & Hr & _). rewrite W1 by (by rewrite <- (Permutation_rev l)).
      rewrite H1, Hr by done. by eexists. }
    exists rows3. split; [done|]. setoid_rewrite <- Hp. setoid_rewrite <- (Permutation_rev l) in W1. split.
    + intros a Ha _ Hty. destruct (Halll a Ha) as (r & Hr & _). rewrite R1, W1, H1, Hr by done. cbn. unfold written.
      by rewrite bool_decide_eq_true_2.
    + intros k [?|Hk]; [done|]. destruct (decide (k ∈ (orig_row <$> l))) as [Hin|Hout].
      * apply list_elem_of_fmap in Hin as (a & -> & Ha). destruct (Halll a Ha) as (r & Hr & Hl & _).
        rewrite R1, W1, H1, Hr by done. cbn. unfold written. rewrite bool_decide_eq_false_2 by (by apply Hk). cbn.
        by destruct r; cbn in Hl; subst.
      * rewrite R2, W2, H2 by (done || by rewrite <- (Permutation_rev l)). done.
  - cbn [mbind res_bind]. destruct (release_rows_spec (take m l) rows1 Hndm) as (rows3 & -> & R1 & R2).
    { intros a Ha. rewrite H1 by done. apply subseteq_take in Ha. destruct (Halll a Ha) as (r & -> & _). by eexists. }
    exists rows3. split; [done|]. split; [done|]. intros k _.
    destruct (decide (k ∈ (orig_row <$> take m l))) as [Hin|Hout]; [|by rewrite R2, H2].
    apply list_elem_of_fmap in Hin as (a & -> & Ha). rewrite R1 by done. rewrite Hrel.
    apply subseteq_take in Ha. destruct (Halll a Ha) as (r & -> & Hl & _). cbn. by destruct r; cbn in Hl; subst.
Qed.

(** ** The validator is a run of steps *)

Section Runs.
Context (get_table_name : Z -> string) (get_primary_key : Z -> Z).

Local Abbreviation occ_step := (occ_step get_table_name get_primary_key).
Local Abbreviation occ_steps := (rtc occ_step).

(** The system with the transaction of [tid] in a phase. *)
Definition at_phase (tid start : Z) (accs : list Access) (txns : gmap Z otxn) (ts : Z) (rows : occ_rows) (ph : phase) : sys :=
  mkSys ts rows (<[tid := mkOtxn start accs ph]> txns).

Ltac phase_step rule :=
  let Hs := fresh "Hs" in
  pose proof rule as Hs; unfold set_otxn, with_rows, tick, at_phase in *; cbn in Hs;
  rewrite insert_insert_eq in Hs; apply Hs; try done; apply lookup_insert_eq.

Lemma lock_steps (tid start : Z) (accs : list Access) (txns : gmap Z otxn) (ts : Z) (h : gmap Z hist)
    (todo : list Access) (n : nat) (rows rows' : occ_rows) (ok : bool) (cnt : nat) :
  drop n accs = todo -> lock_rows tid start todo n rows = Ret (ok, cnt, rows') ->
  occ_steps (at_phase tid start accs txns ts rows (Locking n), h)
    (at_phase tid start accs txns ts rows' (if ok then Locking cnt else Releasing Abort 0 cnt), h)
  /\ (ok = true -> cnt = (n + length todo)%nat) /\ (cnt <= n + length todo)%nat.
Proof.
  revert n rows. induction todo as [|a todo IH]; intros n rows Hd Hl.
  { injection Hl as <- <- <-. split; [done|]. cbn. split; lia. }
  cbn [lock_rows] in Hl. destruct (on_row (orig_row a) (latch tid) rows) as [rows1| |] eqn:Eo; [|done|done].
  cbn [mbind res_bind] in Hl. destruct (rows1 !! orig_row a) as [r|] eqn:Er; [|done]. cbn [at_ mbind res_bind] in Hl.
  assert (accs !! n = Some a) as Ha.
  { rewrite <- (Nat.add_0_r n), <- lookup_drop, Hd. done. }
  assert (occ_step (at_phase tid start accs txns ts rows (Locking n), h)
    (at_phase tid start accs txns ts rows1 (if validate start r then Locking (S n) else Releasing Abort 0 (S n)), h)) as Hst.
  { phase_step (os_lock get_table_name get_primary_key (at_phase tid start accs txns ts rows (Locking n)) h tid
      (mkOtxn start accs (Locking n)) n a rows1 r). }
  destruct (validate start r).
  - destruct (IH (S n) rows1) as (IH1 & IH2 & IH3); [by rewrite <- Nat.add_1_r, <- drop_drop, Hd|done|].
    split; [by eapply rtc_l|]. cbn. split; [intros ->; rewrite IH2 by done|]; lia.
  - injection Hl as <- <- <-. split; [by apply rtc_once|]. cbn. split; [done|lia].
Qed.

Lemma write_steps (tid start e : Z) (accs : list Access) (txns : gmap Z otxn) (ts : Z) (h : gmap Z hist)
    (todo : list Access) (rows rows' : occ_rows) :
  foldM (write_back e) rows todo = Ret rows' ->
  occ_steps (at_phase tid start accs txns ts rows (Writing e todo), h)
    (at_phase tid start accs txns ts rows' (Writing e []), h).
Proof.
  revert rows. induction todo as [|a todo IH]; intros rows Hf; [injection Hf as <-; done|].
  cbn [foldM] in Hf. destruct (write_back e rows a) as [rows1| |] eqn:Ew; [|done|done]. cbn [mbind res_bind] in Hf.
  eapply rtc_l; [|by apply (IH rows1)].
  phase_step (os_write get_table_name get_primary_key (at_phase tid start accs txns ts rows (Writing e (a :: todo))) h tid
    (mkOtxn start accs (Writing e (a :: todo))) e a todo rows1).
Qed.

Lemma release_steps (tid start : Z) (accs : list Access) (txns : gmap Z otxn) (ts : Z) (h : gmap Z hist) (rc : RC)
    (l : list Access) (i n : nat) (rows rows' : occ_rows) :
  drop i (take n accs) = l -> (i <= n <= length accs)%nat ->
  foldM (fun rows a => on_row (orig_row a) (fun r => Ret (release r)) rows) rows l = Ret rows' ->
  occ_steps (at_phase tid start accs txns ts rows (Releasing rc i n), h)
    (at_phase tid start accs txns ts rows' (Ended rc), h).
Proof.
  revert i rows. induction l as [|a l IH]; intros i rows Hd Hle Hf.
  - injection Hf as <-. apply (f_equal length) in Hd. rewrite length_drop, length_take in Hd. cbn in Hd.
    assert (i = n) as -> by lia. apply rtc_once.
    phase_step (os_done get_table_name get_primary_key (at_phase tid start accs txns ts rows (Releasing rc n n)) h tid
      (mkOtxn start accs (Releasing rc n n)) rc n).
  - cbn [foldM] in Hf. destruct (on_row _ _ rows) as [rows1| |] eqn:Eo; [|done|done]. cbn [mbind res_bind] in Hf.
    assert (take n accs !! i = Some a) as Ha by (rewrite <- (Nat.add_0_r i), <- lookup_drop, Hd; done).
    apply lookup_take_Some in Ha as [Ha Hlt]. eapply rtc_l; [|apply (IH (S i) rows1); [|lia|done]].
    2: { rewrite <- Nat.add_1_r, <- drop_drop, Hd. done. }
    phase_step (os_release get_table_name get_primary_key (at_phase tid start accs txns ts rows (Releasing rc i n)) h tid
      (mkOtxn start accs (Releasing rc i n)) rc i n a rows1).
Qed.

End Runs.

(** ** Applications *)

Module OneWrite.

(** Two rows of one table; transaction 7 writes row 1. *)
Definition name (k : Z) : string := "t".
Definition key (k : Z) : Z := k.
Definition b1 : bytes := bytes_of_u64 1.
Definition b2 : bytes := bytes_of_u64 2.
Definition rows0 : gmap Z bytes := {[ 1 := b1; 2 := b2 ]}.
Definition acc : Access := mkAccess WR 1 b1 b2.
Definition reading : sys := mkSys 2 (init <$> rows0) {[ 7 := mkOtxn 1 [acc] Reading ]}.
Definition locked : sys :=
  mkSys 2 (<[1 := mkRowOcc (Some 7) b1 0]> (init <$> rows0)) {[ 7 := mkOtxn 1 [acc] (Locking 1) ]}.
Definition ended : sys :=
  mkSys 3 (<[1 := mkRowOcc None b2 2]> (init <$> rows0)) {[ 7 := mkOtxn 1 [acc] (Ended RCOK) ]}.
Definition h_end : gmap Z hist := {[ 1 := mkHist [(2, Some b2)] [(2, Some b1)] ]}.

Lemma step_to (p q q' r : sys * gmap Z hist) :
  occ_step name key p q -> q = q' -> rtc (occ_step name key) q' r -> rtc (occ_step name key) p r.
Proof. intros Hs <- Hr. by eapply rtc_l. Qed.

Lemma to_reading : rtc (occ_step name key) (init_sys rows0, ∅) (reading, ∅).
Proof.
  eapply step_to; [apply (os_start name key _ _ 7); done|reflexivity|].
  eapply step_to; [eapply (os_read name key _ _ 7 _ WR 1); [reflexivity..|vm_compute; reflexivity]|reflexivity|].
  eapply step_to; [eapply (os_modify name key _ _ 7 _ 0 _ b2); reflexivity|vm_compute; reflexivity|]. done.
Qed.

Lemma to_locked : rtc (occ_step name key) (init_sys rows0, ∅) (locked, ∅).
Proof.
  etrans; [apply to_reading|].
  eapply step_to; [eapply (os_validate name key _ _ 7); reflexivity|vm_compute; reflexivity|].
  eapply step_to; [eapply (os_lock name key _ _ 7 _ 0); [reflexivity..|vm_compute; reflexivity|vm_compute; reflexivity]|vm_compute; reflexivity|].
  done.
Qed.

Lemma to_ended : rtc (occ_step name key) (init_sys rows0, ∅) (ended, h_end).
Proof.
  etrans; [apply to_locked|].
  eapply step_to; [eapply (os_end name key _ _ 7); reflexivity|vm_compute; reflexivity|].
  eapply step_to; [eapply (os_write name key _ _ 7); [reflexivity..|vm_compute; reflexivity]|vm_compute; reflexivity|].
  eapply step_to; [eapply (os_written name key _ _ 7); reflexivity|vm_compute; reflexivity|].
  eapply step_to; [eapply (os_release name key _ _ 7); [reflexivity..|lia|reflexivity|vm_compute; reflexivity]|vm_compute; reflexivity|].
  eapply step_to; [eapply (os_done name key _ _ 7); reflexivity|vm_compute; reflexivity|]. done.
Qed.
End OneWrite.



Lemma per_row_validate_spec_witness :
  exists rows', per_row_validate OneWrite.name OneWrite.key 7 1 [OneWrite.acc] 2 (init <$> OneWrite.rows0) = Ret (RCOK, 3, rows')
    /\ rows' !! 1 = Some (mkRowOcc None OneWrite.b2 2) /\ rows' !! 2 = Some (init OneWrite.b2).
Proof.
  destruct (per_row_validate_spec OneWrite.name OneWrite.key 7 1 [OneWrite.acc] 2 (init <$> OneWrite.rows0)) as (rows' & H1 & H2 & H3).
  - apply NoDup_singleton.
  - intros a ->%list_elem_of_singleton. exists (init OneWrite.b1). split; [vm_compute; reflexivity|]. split; [reflexivity|]. cbn. lia.
  - exists rows'. split; [exact H1|]. split.
    + apply (H2 OneWrite.acc); [by apply list_elem_of_singleton|vm_compute; reflexivity|reflexivity].
    + rewrite (H3 2); [vm_compute; reflexivity|]. right. intros a ->%list_elem_of_singleton Hk. discriminate Hk.
Defined.


(** A transaction that accesses the same row twice waits for a latch it
    holds itself. *)
Theorem occ_same_row_twice_waits :
  per_row_validate OneWrite.name OneWrite.key 7 1 [OneWrite.acc; OneWrite.acc] 2 (init <$> OneWrite.rows0) = Wait.
Proof. vm_compute. reflexivity. Qed.
