(* ===== verification/OccCentral.v ===== *)
(** * db2: central optimistic validation is serializable

    Transactions read rows without latches, enter a list of active write sets,
    test their sets against those of others, write, and leave.  Each critical
    section and each access to a row is a step.  Transactions that start with
    the current transaction number and write rows they have not read are
    serializable in the order in which they enter validation. *)

From Stdlib Require Import Sorting.Sorted.
From S2P Require Import Prelude Config Serial RowOcc Occ OccRow.

(** ** Sets of rows *)

Definition is_write (a : Access) : bool := bool_decide (type a = WR).

Definition wrows (accs : list Access) : list Z := orig_row <$> List.filter is_write accs.
Definition rrows (accs : list Access) : list Z := orig_row <$> List.filter (fun a => negb (is_write a)) accs.

Lemma elem_of_wrows (k : Z) (accs : list Access) :
  k ∈ wrows accs <-> exists a, a ∈ accs /\ type a = WR /\ orig_row a = k.
Proof.
  unfold wrows, is_write. rewrite list_elem_of_fmap. setoid_rewrite list_elem_of_In. setoid_rewrite filter_In.
  setoid_rewrite bool_decide_eq_true. naive_solver.
Qed.

Lemma elem_of_rrows (k : Z) (accs : list Access) :
  k ∈ rrows accs <-> exists a, a ∈ accs /\ type a <> WR /\ orig_row a = k.
Proof.
  unfold rrows, is_write. rewrite list_elem_of_fmap. setoid_rewrite list_elem_of_In. setoid_rewrite filter_In.
  setoid_rewrite negb_true_iff. setoid_rewrite bool_decide_eq_false. naive_solver.
Qed.

Lemma test_valid_spec (e e' : set_ent) :
  test_valid e e' = true <-> forall k, k ∈ set_rows e -> k ∉ set_rows e'.
Proof.
  unfold test_valid. rewrite forallb_forall. split.
  - intros Hf k Hk Hk'. specialize (Hf k ltac:(by apply list_elem_of_In)). rewrite forallb_forall in Hf.
    specialize (Hf k ltac:(by apply list_elem_of_In)). by rewrite Z.eqb_refl in Hf.
  - intros Hd k Hk%list_elem_of_In. rewrite forallb_forall. intros k' Hk'%list_elem_of_In.
    destruct (Z.eqb_spec k k') as [->|]; [|done]. by destruct (Hd k' Hk).
Qed.

Lemma get_rw_set_spec (tid : Z) (accs : list Access) :
  get_rw_set tid (Z.of_nat (length (wrows accs))) accs = Ret (mkSet 0 tid (rrows accs), mkSet 0 tid (wrows accs)).
Proof.
  assert (Z.of_nat (length accs) - Z.of_nat (length (wrows accs)) = Z.of_nat (length (rrows accs))) as Hlen.
  { unfold wrows, rrows. rewrite !length_fmap. induction accs as [|a accs IH]; [done|]. cbn.
    destruct (is_write a); cbn; lia. }
  unfold get_rw_set. rewrite Hlen.
  remember (length (wrows accs)) as W eqn:HW. remember (length (rrows accs)) as R eqn:HR.
  set (F := fun '(w, r) a => _).
  assert (forall l w r, (length (w ++ wrows l) <= W)%nat -> (length (r ++ rrows l) <= R)%nat ->
    foldM F (w, r) l = Ret (w ++ wrows l, r ++ rrows l)) as Hfold.
  { induction l as [|a l IH]; intros w r Hw Hr; [by rewrite !app_nil_r|]. cbn [foldM].
    assert (F (w, r) a = if is_write a
      then if Z.of_nat (length w) <? Z.of_nat W then Ret (w ++ [orig_row a], r) else Fault OutOfBounds
      else if Z.of_nat (length r) <? Z.of_nat R then Ret (w, r ++ [orig_row a]) else Fault OutOfBounds) as -> by done.
    unfold wrows, rrows in Hw, Hr |- *. cbn in Hw, Hr. cbn [List.filter].
    destruct (is_write a); cbn in Hw, Hr; rewrite ?length_app in Hw, Hr; cbn in Hw, Hr.
    - destruct (Z.ltb_spec (Z.of_nat (length w)) (Z.of_nat W)); [|lia].
      cbn [mbind res_bind]. rewrite IH; [by cbn; rewrite <- app_assoc|unfold wrows at 1; rewrite !length_app; cbn; lia|unfold rrows at 1; rewrite length_app; lia].
    - destruct (Z.ltb_spec (Z.of_nat (length r)) (Z.of_nat R)); [|lia].
      cbn [mbind res_bind]. rewrite IH; [by cbn; rewrite <- app_assoc|unfold wrows at 1; rewrite length_app; lia|unfold rrows at 1; rewrite !length_app; cbn; lia]. }
  rewrite (Hfold accs [] []) by (cbn; lia). cbn [mbind res_bind app]. by rewrite <- HW, <- HR, !Z.eqb_refl.
Qed.

(** A validation that succeeds has met no newer and no unfinished write of its
    rows. *)
Lemma take_while_sorted (start : Z) (l : list set_ent) (e : set_ent) :
  StronglySorted (fun a b => tn b < tn a) l -> e ∈ l -> start < tn e ->
  e ∈ take_while (fun h => start <? tn h) l.
Proof.
  induction 1 as [|a l Hs IH Hall]; [by intros ?%elem_of_nil|]. intros Hin Hlt. cbn.
  rewrite list.Forall_forall in Hall. apply elem_of_cons in Hin as [->|Hin].
  - destruct (Z.ltb_spec start (tn a)); [by apply elem_of_cons; left|lia].
  - specialize (Hall e Hin). destruct (Z.ltb_spec start (tn a)); [|lia]. apply elem_of_cons. right. auto.
Qed.

Lemma skip_while_none {A} (p : A -> bool) (l : list A) : Forall (fun x => p x = false) l -> skip_while p l = l.
Proof. destruct 1 as [|x l Hx _]; [done|]. cbn. by rewrite Hx. Qed.

Lemma check_valid (start : Z) (snap : snapshot) (rset wset : set_ent) :
  check start snap rset wset = true ->
  StronglySorted (fun a b => tn b < tn a) (his snap) -> Forall (fun e => tn e <= finish_tn snap) (his snap) ->
  (forall e k, e ∈ his snap -> start < tn e -> k ∈ set_rows e -> k ∉ set_rows rset)
  /\ (forall e k, e ∈ finish_active snap -> k ∈ set_rows e -> (k ∉ set_rows rset) /\ (k ∉ set_rows wset)).
Proof.
  intros Hc Hs Hle. apply andb_true_iff in Hc as [Hh Ha]. split.
  - intros e k He Hlt Hk. rewrite list.Forall_forall in Hle. pose proof (Hle e He) as Hte.
    destruct (Z.ltb_spec start (finish_tn snap)); [|lia].
    rewrite skip_while_none in Hh.
    2: { apply list.Forall_forall. intros x Hx. cbn. apply Z.ltb_ge. by apply Hle. }
    rewrite forallb_forall in Hh. pose proof (Hh e (proj1 (list_elem_of_In _ _) (take_while_sorted start _ e Hs He Hlt))) as Hv.
    rewrite test_valid_spec in Hv. by apply Hv.
  - intros e k He Hk. rewrite forallb_forall in Ha. specialize (Ha e ltac:(by apply list_elem_of_In)).
    apply andb_true_iff in Ha as [H1 H2]. rewrite test_valid_spec in H1, H2. auto.
Qed.

(** ** The steps of the threads *)

(** [c_num] numbers the transactions in the order in which they enter. *)
Inductive cphase :=
  | CReading
  | CChecking (snap : snapshot)
  | CWriting (todo : list Access)
  | CLeaving (valid : bool)
  | CEnded (rc : RC).

Record ctxn := mkCtxn {
  c_start : Z;
  c_accs : list Access;
  c_num : Z;
  c_phase : cphase;
}.

Record csys := mkCsys {
  c_occ : OptCC;
  c_rows : occ_rows;
  c_txns : gmap Z ctxn;
  c_next : Z;
}.

Definition set_ctxn (tid : Z) (t : ctxn) (s : csys) : csys := mkCsys (c_occ s) (c_rows s) (<[tid := t]> (c_txns s)) (c_next s).
Definition to_phase (t : ctxn) (ph : cphase) : ctxn := mkCtxn (c_start t) (c_accs t) (c_num t) ph.
Definition cwset (tid : Z) (t : ctxn) : set_ent := mkSet 0 tid (wrows (c_accs t)).
Definition crset (tid : Z) (t : ctxn) : set_ent := mkSet 0 tid (rrows (c_accs t)).

(** The record of one access of the transaction with number [n]. *)
Definition record_central (n : Z) (h : gmap Z hist) (a : Access) : gmap Z hist :=
  let hk := hist_of h (orig_row a) in
  <[orig_row a := if is_write a then mkHist ((n, Some (data a)) :: commits hk) (reads hk)
                  else mkHist (commits hk) ((n, Some (orig_data a)) :: reads hk)]> h.

(** A transaction starts, reads a row, decides on a write, enters, tests its
    sets, writes, leaves.  A row that is being written may be read half written. *)
Inductive central_step : csys * gmap Z hist -> csys * gmap Z hist -> Prop :=
  | cs_start (s : csys) (h : gmap Z hist) (tid : Z) :
      (forall t, c_txns s !! tid = Some t -> exists rc, c_phase t = CEnded rc) ->
      central_step (s, h) (set_ctxn tid (mkCtxn (tnc (c_occ s)) [] 0 CReading) s, h)
  | cs_read (s : csys) (h : gmap Z hist) (tid : Z) (t : ctxn) (key : Z) (r : Row_occ) (v v' : bytes) :
      c_txns s !! tid = Some t -> c_phase t = CReading -> c_rows s !! key = Some r ->
      RowOcc.access (c_start t) R_REQ r = Ret (RCOK, Some v) ->
      v' = v \/ (exists tid' u a todo, c_txns s !! tid' = Some u /\ c_phase u = CWriting (a :: todo) /\ type a = WR /\ orig_row a = key) ->
      central_step (s, h) (set_ctxn tid (mkCtxn (c_start t) (c_accs t ++ [mkAccess RD key v' v']) 0 CReading) s, h)
  | cs_put (s : csys) (h : gmap Z hist) (tid : Z) (t : ctxn) (key : Z) (b : bytes) :
      c_txns s !! tid = Some t -> c_phase t = CReading -> is_Some (c_rows s !! key) -> key ∉ wrows (c_accs t) ->
      central_step (s, h) (set_ctxn tid (mkCtxn (c_start t) (c_accs t ++ [mkAccess WR key b b]) 0 CReading) s, h)
  | cs_enter (s : csys) (h : gmap Z hist) (tid : Z) (t : ctxn) (snap : snapshot) (o : OptCC) :
      c_txns s !! tid = Some t -> c_phase t = CReading -> enter (cwset tid t) (c_occ s) = Ret (snap, o) ->
      central_step (s, h)
        (mkCsys o (c_rows s) (<[tid := mkCtxn (c_start t) (c_accs t) (c_next s) (CChecking snap)]> (c_txns s)) (c_next s + 1), h)
  | cs_valid (s : csys) (h : gmap Z hist) (tid : Z) (t : ctxn) (snap : snapshot) :
      c_txns s !! tid = Some t -> c_phase t = CChecking snap ->
      check (c_start t) snap (crset tid t) (cwset tid t) = true ->
      central_step (s, h) (set_ctxn tid (to_phase t (CWriting (rev (c_accs t)))) s,
        foldl (record_central (c_num t)) h (c_accs t))
  | cs_invalid (s : csys) (h : gmap Z hist) (tid : Z) (t : ctxn) (snap : snapshot) :
      c_txns s !! tid = Some t -> c_phase t = CChecking snap ->
      check (c_start t) snap (crset tid t) (cwset tid t) = false ->
      central_step (s, h) (set_ctxn tid (to_phase t (CLeaving false)) s, h)
  | cs_write (s : csys) (h : gmap Z hist) (tid : Z) (t : ctxn) (a : Access) (todo : list Access) (rows : occ_rows) :
      c_txns s !! tid = Some t -> c_phase t = CWriting (a :: todo) ->
      (if is_write a then on_row (orig_row a) (write false (data a) 0) (c_rows s) else Ret (c_rows s)) = Ret rows ->
      central_step (s, h) (set_ctxn tid (to_phase t (CWriting todo)) (mkCsys (c_occ s) rows (c_txns s) (c_next s)), h)
  | cs_written (s : csys) (h : gmap Z hist) (tid : Z) (t : ctxn) :
      c_txns s !! tid = Some t -> c_phase t = CWriting [] ->
      central_step (s, h) (set_ctxn tid (to_phase t (CLeaving true)) s, h)
  | cs_leave (s : csys) (h : gmap Z hist) (tid : Z) (t : ctxn) (valid : bool) (o : OptCC) :
      c_txns s !! tid = Some t -> c_phase t = CLeaving valid -> leave valid (cwset tid t) (c_occ s) = Ret o ->
      central_step (s, h) (set_ctxn tid (to_phase t (CEnded (if valid then RCOK else Abort)))
        (mkCsys o (c_rows s) (c_txns s) (c_next s)), h).

(** ** The invariant *)

Definition entered (t : ctxn) : Prop :=
  match c_phase t with CReading | CEnded _ => False | _ => True end.

(** The transaction has passed its test and has not left. *)
Definition decided (t : ctxn) : Prop :=
  match c_phase t with CWriting _ | CLeaving true => True | _ => False end.

Lemma decided_entered (t : ctxn) : decided t -> entered t.
Proof. unfold decided, entered. by destruct (c_phase t). Qed.

(** The row [k] has been committed to since the transaction number [start]. *)
Definition stale (s : csys) (start k : Z) : Prop :=
  (exists e, e ∈ history (c_occ s) /\ start < tn e /\ k ∈ set_rows e)
  \/ (exists tid u, c_txns s !! tid = Some u /\ decided u /\ k ∈ wrows (c_accs u)).

(** A committed value that is not in the row yet. *)
Definition unwritten (s : csys) (k n : Z) (v : bytes) : Prop :=
  exists tid u todo a, c_txns s !! tid = Some u /\ c_phase u = CWriting todo /\ a ∈ todo
    /\ type a = WR /\ orig_row a = k /\ n = c_num u /\ v = data a.

Record occ_ok (s : csys) : Prop := mk_occ_ok {
  ok_tnc : 0 <= tnc (c_occ s);
  ok_sorted : StronglySorted (fun a b => tn b < tn a) (history (c_occ s));
  ok_bound : Forall (fun e => tn e <= tnc (c_occ s)) (history (c_occ s));
  ok_head : match history (c_occ s) with [] => True | e :: _ => tn e = tnc (c_occ s) end;
  ok_len : active_len (c_occ s) = Z.of_nat (length (active (c_occ s)));
  ok_nodup : NoDup (txn <$> active (c_occ s));
  ok_in : forall tid t, c_txns s !! tid = Some t -> entered t -> wrows (c_accs t) <> [] -> cwset tid t ∈ active (c_occ s);
  ok_out : forall e, e ∈ active (c_occ s) ->
    exists t, c_txns s !! txn e = Some t /\ entered t /\ wrows (c_accs t) <> [] /\ e = cwset (txn e) t;
}.

Section Central.
Context (table : Z -> option bytes).

(** What a transaction that is tested knows. *)
Record checking_ok (s : csys) (h : gmap Z hist) (t : ctxn) (snap : snapshot) : Prop := mk_checking_ok {
  cc_sorted : StronglySorted (fun a b => tn b < tn a) (his snap);
  cc_bound : Forall (fun e => tn e <= finish_tn snap) (his snap);
  cc_read : forall a, a ∈ c_accs t -> type a <> WR ->
    Some (orig_data a) = value_at (table (orig_row a)) (c_num t) (commits (hist_of h (orig_row a)))
    \/ (exists e, e ∈ his snap /\ c_start t < tn e /\ orig_row a ∈ set_rows e)
    \/ (exists e, e ∈ finish_active snap /\ orig_row a ∈ set_rows e);
  cc_settled : forall k, k ∈ wrows (c_accs t) ->
    Forall (fun c => c.1 < c_num t) (commits (hist_of h k)) /\ Forall (fun x => x.1 <= c_num t) (reads (hist_of h k));
  cc_older : forall tid u, c_txns s !! tid = Some u -> entered u -> c_num u < c_num t -> wrows (c_accs u) <> [] ->
    cwset tid u ∈ finish_active snap;
}.

Record ctx_ok (s : csys) (h : gmap Z hist) (t : ctxn) : Prop := mk_ctx_ok {
  ck_start : 0 <= c_start t <= tnc (c_occ s);
  ck_nodup : NoDup (wrows (c_accs t));
  ck_exist : forall a, a ∈ c_accs t -> is_Some (c_rows s !! orig_row a);
  ck_num : entered t -> c_num t < c_next s;
  ck_reading : c_phase t = CReading -> forall a, a ∈ c_accs t -> type a <> WR ->
    Some (orig_data a) = value_at (table (orig_row a)) (c_next s) (commits (hist_of h (orig_row a)))
    \/ stale s (c_start t) (orig_row a);
  ck_checking : forall snap, c_phase t = CChecking snap -> checking_ok s h t snap;
  ck_writing : forall todo, c_phase t = CWriting todo -> exists dn, rev (c_accs t) = dn ++ todo;
}.

Definition row_ok (s : csys) (h : gmap Z hist) (k : Z) (r : Row_occ) : Prop :=
  exists cs, Some (_row r) = value_at (table k) (c_next s) cs
    /\ ((commits (hist_of h k) = cs /\ forall n v, ~ unwritten s k n v)
        \/ exists n v, commits (hist_of h k) = (n, Some v) :: cs /\ unwritten s k n v
             /\ forall n' v', unwritten s k n' v' -> n' = n).

Record central_inv (s : csys) (h : gmap Z hist) : Prop := mk_central_inv {
  ci_occ : occ_ok s;
  ci_rows : forall k r, c_rows s !! k = Some r -> _latch r = None /\ wts r = 0 /\ row_ok s h k r;
  ci_new : forall k, newest_first (commits (hist_of h k));
  ci_bound : forall k, Forall (fun c => c.1 < c_next s) (commits (hist_of h k));
  ci_reads : forall k, Forall (fun x => x.1 < c_next s /\ x.2 = value_at (table k) x.1 (commits (hist_of h k)))
    (reads (hist_of h k));
  ci_inj : forall tid tid' t t', c_txns s !! tid = Some t -> c_txns s !! tid' = Some t' ->
    entered t -> entered t' -> c_num t = c_num t' -> tid = tid';
  ci_txns : forall tid t, c_txns s !! tid = Some t -> ctx_ok s h t;
}.

(** A transaction does not mind what the others do, as long as nothing is
    committed. *)
Lemma ctx_ok_frame (s s' : csys) (h : gmap Z hist) (t : ctxn) :
  tnc (c_occ s) <= tnc (c_occ s') -> c_next s <= c_next s' ->
  (forall k, is_Some (c_rows s !! k) -> is_Some (c_rows s' !! k)) ->
  (forall k, Forall (fun c => c.1 < c_next s) (commits (hist_of h k))) ->
  (forall start k, start <= tnc (c_occ s) -> stale s start k -> stale s' start k) ->
  (forall tid u, c_txns s' !! tid = Some u -> entered u -> c_num u < c_next s ->
     exists u0, c_txns s !! tid = Some u0 /\ entered u0 /\ c_num u0 = c_num u /\ c_accs u0 = c_accs u) ->
  ctx_ok s h t -> ctx_ok s' h t.
Proof.
  intros Htnc Hn Hr Hb Hst Hold [K1 K2 K3 K4 K5 K6 K7]. split; auto.
  - lia.
  - intros He. specialize (K4 He). lia.
  - intros Hp a Ha Hw. destruct (K5 Hp a Ha Hw) as [->|?]; [left|right; apply Hst; [lia|done]].
    apply value_at_above. eapply list.Forall_impl; [apply Hb|]. cbn. intros c Hc. lia.
  - intros snap Hp. destruct (K6 snap Hp) as [C1 C2 C3 C4 C5]. split; auto.
    intros tid u Hu He Hlt Hne. assert (c_num t < c_next s) as Hct by (apply K4; unfold entered; by rewrite Hp).
    destruct (Hold tid u Hu He ltac:(lia)) as (u0 & Hu0 & He0 & Hn0 & Ha0).
    unfold cwset. rewrite <- Ha0. apply C5; [done|done|lia|by rewrite Ha0].
Qed.

Definition idle_phase (t : option ctxn) : Prop :=
  forall u todo, t = Some u -> c_phase u = CWriting todo -> todo = [].

Lemma unwritten_same (s s' : csys) (tid : Z) (t' : ctxn) :
  c_txns s' = <[tid := t']> (c_txns s) -> idle_phase (c_txns s !! tid) -> idle_phase (Some t') ->
  forall k n v, unwritten s' k n v <-> unwritten s k n v.
Proof.
  intros Htx Hold Hnew k n v. split; intros (tid' & u & todo & a & Hu & Hp & Ha & Hrest).
  - rewrite Htx in Hu. apply lookup_insert_Some in Hu as [[<- <-]|[Hne Hu]].
    + rewrite (Hnew _ _ eq_refl Hp) in Ha. by apply elem_of_nil in Ha.
    + by exists tid', u, todo, a.
  - destruct (decide (tid' = tid)) as [->|Hne].
    + rewrite (Hold _ _ Hu Hp) in Ha. by apply elem_of_nil in Ha.
    + exists tid', u, todo, a. by rewrite Htx, lookup_insert_ne.
Qed.

(** A step that commits nothing and writes no row. *)
Lemma central_quiet (s s' : csys) (h : gmap Z hist) (tid : Z) (t' : ctxn) :
  central_inv s h -> c_rows s' = c_rows s -> c_txns s' = <[tid := t']> (c_txns s) ->
  tnc (c_occ s) <= tnc (c_occ s') -> c_next s <= c_next s' -> occ_ok s' ->
  (forall start k, start <= tnc (c_occ s) -> stale s start k -> stale s' start k) ->
  (entered t' -> (exists t, c_txns s !! tid = Some t /\ entered t /\ c_num t = c_num t' /\ c_accs t = c_accs t')
                 \/ c_next s <= c_num t') ->
  idle_phase (c_txns s !! tid) -> idle_phase (Some t') -> ctx_ok s' h t' -> central_inv s' h.
Proof.
  intros Hi Hr Htx Htnc Hn Hocc Hst Hent Hold Hnew Hok. pose proof Hi as [I1 I2 I3 I4 I5 I6 I7].
  pose proof (unwritten_same s s' tid t' Htx Hold Hnew) as Hun. split; [done| |done| | | |].
  - intros k r Hk. rewrite Hr in Hk. destruct (I2 k r Hk) as (Hl & Hw & cs & Hv & Hcs). split; [done|]. split; [done|].
    exists cs. split.
    + rewrite Hv. apply value_at_above. assert (Forall (fun c => c.1 < c_next s) cs) as Hb.
      { specialize (I4 k). destruct Hcs as [[<- _]|(n & v & Heq & _)]; [done|]. rewrite Heq in I4. by apply list.Forall_cons in I4 as [_ ?]. }
      eapply list.Forall_impl; [exact Hb|]. cbn. intros c Hc. lia.
    + setoid_rewrite Hun. done.
  - intros k. eapply list.Forall_impl; [apply I4|]. cbn. intros c Hc. lia.
  - intros k. eapply list.Forall_impl; [apply I5|]. cbn. intros c [Hc ?]. split; [lia|done].
  - assert (forall tid' u, tid' <> tid -> c_txns s !! tid' = Some u -> entered u -> entered t' -> c_num u <> c_num t') as Hne.
    { intros tid' u Hneq Hu Heu Het Heq. destruct (Hent Het) as [(t & Ht & Het0 & Hnum & _)|Hge].
      - apply Hneq. apply (I6 tid' tid u t); congruence.
      - pose proof (ck_num _ _ _ (I7 tid' u Hu) Heu). lia. }
    intros tid1 tid2 t1 t2. rewrite Htx. rewrite !lookup_insert_Some.
    intros [[<- <-]|[Hn1 H1]] [[<- <-]|[Hn2 H2]] He1 He2 Heq; [done| | |by apply (I6 tid1 tid2 t1 t2)].
    + by destruct (Hne tid2 t2 ltac:(done) H2 He2 He1).
    + by destruct (Hne tid1 t1 ltac:(done) H1 He1 He2).
  - intros tid' u Hu. rewrite Htx in Hu. apply lookup_insert_Some in Hu as [[<- <-]|[Hne Hu]]; [done|].
    apply (ctx_ok_frame s s'); [done|done|by rewrite Hr|done|done| |by apply (I7 tid')].
    intros tid2 u2 Hu2 He2 Hlt. rewrite Htx in Hu2. apply lookup_insert_Some in Hu2 as [[<- <-]|[_ Hu2]].
    + destruct (Hent He2) as [?|?]; [done|lia].
    + by exists u2.
Qed.

(** The bookkeeping when nobody enters or leaves. *)
Lemma occ_ok_same (s s' : csys) (tid : Z) (t' : ctxn) :
  occ_ok s -> c_occ s' = c_occ s -> c_txns s' = <[tid := t']> (c_txns s) ->
  (exists t, c_txns s !! tid = Some t /\ (entered t <-> entered t') /\ (entered t -> c_accs t' = c_accs t))
  \/ (c_txns s !! tid = None \/ (exists t, c_txns s !! tid = Some t /\ ~ entered t)) /\ ~ entered t' ->
  occ_ok s'.
Proof.
  intros [O1 O2 O3 O4 O5 O6 O7 O8] Ho Htx Hor. split; rewrite ?Ho; try done.
  - intros tid' u Hu He Hne. rewrite Htx in Hu. apply lookup_insert_Some in Hu as [[<- <-]|[_ Hu]]; [|by apply O7].
    destruct Hor as [(t & Ht & Hiff & Hacc)|[_ ?]]; [|done]. apply Hiff in He. unfold cwset. rewrite Hacc in * by done. by apply O7.
  - intros e He. destruct (O8 e He) as (u & Hu & Heu & Hwu & Heq). rewrite Htx.
    destruct (decide (txn e = tid)) as [<-|Hne]; [|rewrite lookup_insert_ne by done; by exists u].
    rewrite lookup_insert_eq. destruct Hor as [(t & Ht & Hiff & Hacc)|[[Hno|(t & Ht & Hno)] _]]; [|congruence|congruence].
    assert (u = t) as -> by congruence. exists t'. split; [done|]. split; [by apply Hiff|].
    rewrite Hacc by done. split; [done|]. unfold cwset in *. by rewrite Hacc.
Qed.

Lemma stale_same (s s' : csys) (tid start k : Z) (t' : ctxn) :
  (forall e, e ∈ history (c_occ s) -> e ∈ history (c_occ s')) -> c_txns s' = <[tid := t']> (c_txns s) ->
  (forall t, c_txns s !! tid = Some t -> decided t -> decided t' /\ c_accs t' = c_accs t) ->
  stale s start k -> stale s' start k.
Proof.
  intros Hh Htx Hd [(e & He & Hrest)|(tid' & u & Hu & Hdu & Hk)]; [left; exists e; auto|right].
  destruct (decide (tid' = tid)) as [->|Hne].
  - destruct (Hd u Hu Hdu) as [Hdt Hacc]. exists tid, t'. rewrite Htx, lookup_insert_eq, Hacc. done.
  - exists tid', u. by rewrite Htx, lookup_insert_ne.
Qed.

(** ** Each step keeps the invariant *)

Lemma inv_cstart (s : csys) (h : gmap Z hist) (tid : Z) :
  central_inv s h -> (forall t, c_txns s !! tid = Some t -> exists rc, c_phase t = CEnded rc) ->
  central_inv (set_ctxn tid (mkCtxn (tnc (c_occ s)) [] 0 CReading) s) h.
Proof.
  intros Hi He. set (t' := mkCtxn _ _ _ _).
  assert (forall t, c_txns s !! tid = Some t -> ~ entered t /\ ~ decided t /\ idle_phase (Some t)) as Hno.
  { intros t Ht. destruct (He t Ht) as [rc Hp]. unfold entered, decided, idle_phase. rewrite Hp.
    split; [tauto|]. split; [tauto|]. intros u todo [= <-] Hu. congruence. }
  apply (central_quiet s _ h tid t'); try done.
  - apply (occ_ok_same s _ tid t' (ci_occ _ _ Hi)); [done|done|]. right. split; [|by intros []].
    destruct (c_txns s !! tid) as [t|] eqn:Et; [right; exists t; split; [done|by apply (Hno t)]|by left].
  - intros start k _. apply (stale_same s _ tid _ _ t'); [done|done|]. intros t Ht Hd. by destruct (Hno t Ht) as (_ & ? & _).
  - destruct (c_txns s !! tid) as [t|] eqn:Et; [by apply (Hno t)|by intros u todo ?].
  - by intros u todo [= <-].
  - pose proof (ok_tnc _ (ci_occ _ _ Hi)). split; cbn; try done.
    + apply NoDup_nil_2.
    + by intros a ?%elem_of_nil.
    + intros _ a ?%elem_of_nil. done.
Qed.

(** A transaction that reads adds an access. *)
Lemma inv_caccess (s : csys) (h : gmap Z hist) (tid : Z) (t : ctxn) (a : Access) :
  central_inv s h -> c_txns s !! tid = Some t -> c_phase t = CReading -> is_Some (c_rows s !! orig_row a) ->
  (type a = WR -> orig_row a ∉ wrows (c_accs t)) ->
  (type a <> WR -> Some (orig_data a) = value_at (table (orig_row a)) (c_next s) (commits (hist_of h (orig_row a)))
     \/ stale s (c_start t) (orig_row a)) ->
  central_inv (set_ctxn tid (mkCtxn (c_start t) (c_accs t ++ [a]) 0 CReading) s) h.
Proof.
  intros Hi Ht Hp Hex Hw Hr. set (t' := mkCtxn _ _ _ _). pose proof (ci_txns _ _ Hi tid t Ht) as [K1 K2 K3 K4 K5 K6 K7].
  assert (~ entered t /\ ~ decided t) as [Hne Hnd] by (unfold entered, decided; rewrite Hp; tauto).
  assert (forall start k, stale s start k -> stale (set_ctxn tid t' s) start k) as Hst.
  { intros start k. apply (stale_same s _ tid _ _ t'); [done|done|]. intros u Hu Hd. by simplify_eq. }
  apply (central_quiet s _ h tid t'); try done; auto.
  - apply (occ_ok_same s _ tid t' (ci_occ _ _ Hi)); [done|done|]. right. split; [right; eauto|by intros []].
  - rewrite Ht. intros u todo [= <-] Hu. congruence.
  - by intros u todo [= <-].
  - split; cbn; try done.
    + unfold wrows. rewrite List.filter_app, fmap_app. apply list.NoDup_app. split; [done|]. cbn.
      unfold is_write. case_bool_decide as Hty; cbn; [|split; [by intros ? _ ?%elem_of_nil|apply NoDup_nil_2]].
      split; [|apply NoDup_singleton]. intros k Hk ->%list_elem_of_singleton. by apply Hw.
    + intros b [Hb| ->%list_elem_of_singleton]%elem_of_app; [by apply K3|done].
    + intros _ b [Hb| ->%list_elem_of_singleton]%elem_of_app Hty; [|destruct (Hr Hty); auto].
      destruct (K5 Hp b Hb Hty); auto.
Qed.

(** What a read returns is the newest commit, or a commit is under way. *)
Lemma cread_value (s : csys) (h : gmap Z hist) (k start : Z) (r : Row_occ) :
  central_inv s h -> c_rows s !! k = Some r ->
  Some (_row r) = value_at (table k) (c_next s) (commits (hist_of h k)) \/ stale s start k.
Proof.
  intros Hi Hr. destruct (ci_rows _ _ Hi k r Hr) as (_ & _ & cs & Hv & [[-> _]|(n & v & _ & Hun & _)]); [by left|right].
  destruct Hun as (tid & u & todo & a & Hu & Hp & Ha & Hty & Hk & _). right. exists tid, u. split; [done|].
  split; [unfold decided; by rewrite Hp|]. apply elem_of_wrows. exists a. split; [|done].
  destruct (ck_writing _ _ _ (ci_txns _ _ Hi tid u Hu) todo Hp) as [dn Hrev].
  apply elem_of_Permutation_proper with (rev (c_accs u)); [apply Permutation_rev|]. rewrite Hrev. apply elem_of_app. by right.
Qed.

(** A transaction fails its test, or has written everything. *)
Lemma inv_cphase (s : csys) (h : gmap Z hist) (tid : Z) (t : ctxn) (ph : cphase) :
  central_inv s h -> c_txns s !! tid = Some t ->
  (exists snap, c_phase t = CChecking snap /\ ph = CLeaving false) \/ (c_phase t = CWriting [] /\ ph = CLeaving true) ->
  central_inv (set_ctxn tid (to_phase t ph) s) h.
Proof.
  intros Hi Ht Hph. pose proof (ci_txns _ _ Hi tid t Ht) as [K1 K2 K3 K4 K5 K6 K7].
  assert (entered t /\ entered (to_phase t ph)) as [He He'].
  { unfold entered. destruct Hph as [(snap & -> & ->)|[-> ->]]; done. }
  apply (central_quiet s _ h tid (to_phase t ph)); try done.
  - apply (occ_ok_same s _ tid (to_phase t ph) (ci_occ _ _ Hi)); [done|done|]. left. by exists t.
  - intros start k _. apply (stale_same s _ tid _ _ (to_phase t ph)); [done|done|]. intros u Hu Hd. simplify_eq. split; [|done].
    unfold decided in *. destruct Hph as [(snap & Hp & ->)|[Hp ->]]; [by rewrite Hp in Hd|done].
  - intros _. left. by exists t.
  - rewrite Ht. intros u todo [= <-] Hu. destruct Hph as [(snap & Hp & _)|[Hp _]]; congruence.
  - intros u todo [= <-] Hu. cbn in Hu. destruct Hph as [(snap & _ & ->)|[_ ->]]; done.
  - split; cbn; try done; destruct Hph as [(snap & _ & ->)|[_ ->]]; try done; intros; auto.
Qed.

Lemma enter_spec (s : csys) (wset : set_ent) :
  occ_ok s -> enter wset (c_occ s) = Ret (mkSnap (tnc (c_occ s)) (active (c_occ s)) (history (c_occ s)),
    if bool_decide (set_rows wset = []) then c_occ s
    else mkOptCC (history (c_occ s)) (wset :: active (c_occ s)) (his_len (c_occ s)) (active_len (c_occ s) + 1) (tnc (c_occ s))).
Proof.
  intros Ho. unfold enter. rewrite (ok_len _ Ho), Z.eqb_refl. cbn. by destruct (bool_decide (set_rows wset = [])).
Qed.

Lemma occ_ok_enter (s : csys) (tid : Z) (t t' : ctxn) (o : OptCC) (snap : snapshot) (next : Z) :
  occ_ok s -> c_txns s !! tid = Some t -> c_phase t = CReading -> enter (cwset tid t) (c_occ s) = Ret (snap, o) ->
  c_accs t' = c_accs t -> entered t' -> occ_ok (mkCsys o (c_rows s) (<[tid := t']> (c_txns s)) next).
Proof.
  intros Ho Ht Hp He Hacc Hent. rewrite (enter_spec s _ Ho) in He. injection He as <- <-. cbn [cwset set_rows].
  pose proof Ho as [O1 O2 O3 O4 O5 O6 O7 O8].
  assert (forall e, e ∈ active (c_occ s) -> txn e <> tid) as Hnot.
  { intros e He <-. destruct (O8 e He) as (u & Hu & Heu & _). simplify_eq. unfold entered in Heu. by rewrite Hp in Heu. }
  assert (forall e, e ∈ active (c_occ s) -> exists u, <[tid := t']> (c_txns s) !! txn e = Some u /\ entered u
    /\ wrows (c_accs u) <> [] /\ e = cwset (txn e) u) as Hout.
  { intros e He. destruct (O8 e He) as (u & Hu & Hrest). exists u. rewrite lookup_insert_ne; [done|]. intros Heq. by apply (Hnot e). }
  case_bool_decide as Hempty; split; cbn; try done.
  - intros tid' u. rewrite lookup_insert_Some. intros [[<- <-]|[_ Hu]] Heu Hne; [by rewrite Hacc in Hne|by apply O7].
  - rewrite O5. lia.
  - apply list.NoDup_cons. split; [|done]. intros (e & Heq & He)%list_elem_of_fmap. by apply (Hnot e).
  - intros tid' u. rewrite lookup_insert_Some. intros [[<- <-]|[_ Hu]] Heu Hne; apply elem_of_cons; [left|right; by apply O7].
    unfold cwset. by rewrite Hacc.
  - intros e [->|He]%elem_of_cons; [|by apply Hout]. exists t'. cbn. rewrite lookup_insert_eq. unfold cwset. by rewrite Hacc.
Qed.

Lemma inv_center (s : csys) (h : gmap Z hist) (tid : Z) (t : ctxn) (snap : snapshot) (o : OptCC) :
  central_inv s h -> c_txns s !! tid = Some t -> c_phase t = CReading -> enter (cwset tid t) (c_occ s) = Ret (snap, o) ->
  central_inv (mkCsys o (c_rows s) (<[tid := mkCtxn (c_start t) (c_accs t) (c_next s) (CChecking snap)]> (c_txns s)) (c_next s + 1)) h.
Proof.
  intros Hi Ht Hp He. set (t' := mkCtxn _ _ _ _). pose proof (ci_occ _ _ Hi) as Ho.
  pose proof (ci_txns _ _ Hi tid t Ht) as [K1 K2 K3 K4 K5 K6 K7].
  assert (occ_ok (mkCsys o (c_rows s) (<[tid := t']> (c_txns s)) (c_next s + 1))) as Ho'
    by (by apply (occ_ok_enter s tid t t' o snap)).
  rewrite (enter_spec s _ Ho) in He. injection He as Hsnap Hopt.
  assert (tnc o = tnc (c_occ s) /\ history o = history (c_occ s)) as [Htnc Hhis] by (subst o; by case_bool_decide).
  apply (central_quiet s _ h tid t'); cbn; try done; try lia.
  - intros start k _. apply (stale_same s _ tid _ _ t'); [cbn; by rewrite Hhis|done|].
    intros u Hu Hd. simplify_eq. unfold decided in Hd. by rewrite Hp in Hd.
  - rewrite Ht. intros u todo [= <-] Hu. congruence.
  - intros u todo [= <-] Hu. done.
  - split; cbn; try done; [lia|lia|]. intros snap' [= <-]. subst snap. split; cbn; try apply Ho.
    + intros a Ha Hty. destruct (K5 Hp a Ha Hty) as [?|[(e & ? & ? & ?)|(tid' & u & Hu & Hd & Hk)]]; [by left|right; left; eauto|].
      right. right. exists (cwset tid' u). split; [|done]. apply (ok_in _ Ho); [done|by apply decided_entered|].
      intros Hnil. rewrite Hnil in Hk. by apply elem_of_nil in Hk.
    + intros k _. split; [apply Hi|]. eapply list.Forall_impl; [apply (ci_reads _ _ Hi k)|]. cbn. intros x [Hx _]. lia.
    + intros tid' u. rewrite lookup_insert_Some. intros [[<- <-]|[_ Hu]] Heu Hlt Hne; [cbn in Hlt; lia|]. by apply (ok_in _ Ho).
Qed.

Lemma remove_txn_spec (tid : Z) (l : list set_ent) :
  tid ∈ (txn <$> l) -> NoDup (txn <$> l) ->
  exists l', remove_txn tid l = Ret l' /\ S (length l') = length l /\ NoDup (txn <$> l')
    /\ forall e, e ∈ l' <-> e ∈ l /\ txn e <> tid.
Proof.
  induction l as [|a l IH]; intros Hin Hnd; [by apply elem_of_nil in Hin|]. cbn in *. apply list.NoDup_cons in Hnd as [Hnot Hnd].
  destruct (Z.eqb_spec (txn a) tid) as [Heq|Hne].
  - exists l. split; [done|]. split; [done|]. split; [done|]. intros e. rewrite elem_of_cons. split.
    + intros He. split; [by right|]. intros Htx. apply Hnot. rewrite Heq, <- Htx. by apply list_elem_of_fmap_2.
    + intros [[->|He] Htx]; [done|done].
  - apply elem_of_cons in Hin as [?|Hin]; [congruence|]. destruct (IH Hin Hnd) as (l' & -> & Hlen & Hnd' & Hel).
    cbn. exists (a :: l'). split; [done|]. split; [cbn; lia|]. split.
    + cbn. apply list.NoDup_cons. split; [|done]. intros (e & Htx & He)%list_elem_of_fmap. apply Hel in He as [He _].
      apply Hnot. rewrite Htx. by apply list_elem_of_fmap_2.
    + intros e. rewrite !elem_of_cons, Hel. split; [intros [->|[? ?]]; auto|intros [[->|?] ?]; auto].
Qed.

(** Leaving does not fail, and a committed write set is the newest one. *)
Lemma leave_spec (s : csys) (tid : Z) (t t' : ctxn) (valid : bool) :
  occ_ok s -> c_txns s !! tid = Some t -> entered t -> ~ entered t' ->
  exists o, leave valid (cwset tid t) (c_occ s) = Ret o /\ tnc (c_occ s) <= tnc o
    /\ (forall e, e ∈ history (c_occ s) -> e ∈ history o)
    /\ (valid = true -> forall k, k ∈ wrows (c_accs t) -> exists e, e ∈ history o /\ tnc (c_occ s) < tn e /\ k ∈ set_rows e)
    /\ occ_ok (mkCsys o (c_rows s) (<[tid := t']> (c_txns s)) (c_next s)).
Proof.
  intros Ho Ht He Hne. pose proof Ho as [O1 O2 O3 O4 O5 O6 O7 O8]. unfold leave. cbn [cwset set_rows txn].
  case_bool_decide as Hempty.
  { exists (c_occ s). split; [done|]. split; [lia|]. split; [done|]. split; [intros _ k Hk; rewrite Hempty in Hk; by apply elem_of_nil in Hk|].
    split; cbn; try done.
    - intros tid' u. rewrite lookup_insert_Some. intros [[<- <-]|[_ Hu]] Hu' ?; [done|by apply O7].
    - intros e Hin. destruct (O8 e Hin) as (u & Hu & Hu' & Hw & Heq). exists u. rewrite lookup_insert_ne; [done|].
      intros Htid. by simplify_eq. }
  destruct (remove_txn_spec tid (active (c_occ s))) as (act & -> & Hlen & Hnd & Hel); [|done|].
  { apply list_elem_of_fmap. exists (cwset tid t). split; [done|]. by apply O7. }
  assert (forall o, active o = act -> tnc (c_occ s) <= tnc o -> StronglySorted (fun a b => tn b < tn a) (history o) ->
    Forall (fun e => tn e <= tnc o) (history o) -> match history o with [] => True | e :: _ => tn e = tnc o end ->
    active_len o = active_len (c_occ s) - 1 -> occ_ok (mkCsys o (c_rows s) (<[tid := t']> (c_txns s)) (c_next s))) as Hok.
  { intros o Hact Htnc Hs Hb Hhd Hal. split; cbn; rewrite ?Hact; try done; [lia|rewrite Hal, O5; lia|..].
    - intros tid' u. rewrite lookup_insert_Some. intros [[<- <-]|[Hneq Hu]] Hu' ?; [done|]. apply Hel. split; [by apply O7|]. cbn. congruence.
    - intros e [Hin Htx]%Hel. destruct (O8 e Hin) as (u & Hu & Hrest). exists u. by rewrite lookup_insert_ne. }
  cbn [mbind res_bind]. destruct valid.
  - assert (match history (c_occ s) with [] => true | e :: _ => tn e =? tnc (c_occ s) end = true) as ->.
    { destruct (history (c_occ s)); [done|]. by apply Z.eqb_eq. }
    eexists. split; [done|]. cbn. split; [lia|]. split; [intros e Hin; by apply elem_of_cons; right|]. split.
    + intros _ k Hk. eexists. split; [by apply elem_of_cons; left|]. cbn. split; [lia|done].
    + apply Hok; cbn; try done; try lia.
      * constructor; [done|]. eapply list.Forall_impl; [exact O3|]. cbn. intros e Hte. lia.
      * constructor; [cbn; lia|]. eapply list.Forall_impl; [exact O3|]. cbn. intros e Hte. lia.
  - eexists. split; [done|]. cbn. split; [lia|]. split; [done|]. split; [done|]. by apply Hok.
Qed.

Lemma inv_cleave (s : csys) (h : gmap Z hist) (tid : Z) (t : ctxn) (valid : bool) (o : OptCC) :
  central_inv s h -> c_txns s !! tid = Some t -> c_phase t = CLeaving valid -> leave valid (cwset tid t) (c_occ s) = Ret o ->
  central_inv (set_ctxn tid (to_phase t (CEnded (if valid then RCOK else Abort))) (mkCsys o (c_rows s) (c_txns s) (c_next s))) h.
Proof.
  intros Hi Ht Hp Hl. set (t' := to_phase _ _). pose proof (ci_txns _ _ Hi tid t Ht) as [K1 K2 K3 K4 K5 K6 K7].
  assert (entered t) as Hent by (unfold entered; by rewrite Hp). assert (~ entered t') as Hno by (by intros []).
  destruct (leave_spec s tid t t' valid (ci_occ _ _ Hi) Ht Hent Hno) as (o' & Hl' & Htnc & Hhis & Hnew & Hok).
  rewrite Hl in Hl'. injection Hl' as <-. apply (central_quiet s _ h tid t'); cbn; try done.
  - intros start k Hs [(e & Hin & Hrest)|(tid' & u & Hu & Hd & Hk)]; [left; cbn; eauto|].
    destruct (decide (tid' = tid)) as [->|Hne].
    + simplify_eq. unfold decided in Hd. rewrite Hp in Hd. destruct valid; [|done].
      destruct (Hnew eq_refl k Hk) as (e & Hin & Htn & Hke). left. exists e. split; [done|]. split; [lia|done].
    + right. exists tid', u. cbn. by rewrite lookup_insert_ne.
  - rewrite Ht. intros u todo [= <-] Hu. congruence.
  - intros u todo [= <-] Hu. done.
  - split; cbn; try done. lia.
Qed.

(** What is left to write is in distinct rows. *)
Lemma todo_writes (accs dn todo : list Access) :
  NoDup (wrows accs) -> rev accs = dn ++ todo ->
  NoDup (wrows todo) /\ forall a, a ∈ todo -> a ∈ accs.
Proof.
  intros Hnd Hrev. assert (accs ≡ₚ dn ++ todo) as Hp by (by rewrite <- Hrev, <- Permutation_rev). split.
  - assert (wrows accs ≡ₚ wrows (dn ++ todo)) as Hw.
    { unfold wrows. apply fmap_Permutation. clear -Hp. induction Hp; cbn; [done|by destruct (is_write x); rewrite IHHp| |by etrans].
      destruct (is_write x), (is_write y); done || apply Permutation_swap. }
    rewrite Hw in Hnd. unfold wrows in *. rewrite List.filter_app, fmap_app in Hnd. by apply list.NoDup_app in Hnd as (_ & _ & ?).
  - intros a Ha. rewrite Hp. apply elem_of_app. by right.
Qed.

Lemma writes_apart (a : Access) (todo : list Access) :
  NoDup (wrows (a :: todo)) -> forall b, type a = WR -> b ∈ todo -> type b = WR -> orig_row b <> orig_row a.
Proof.
  intros Hnd b Hty Hb Htb Heq. unfold wrows in Hnd. cbn in Hnd. unfold is_write in Hnd at 1. rewrite bool_decide_eq_true_2 in Hnd by done.
  cbn in Hnd. apply list.NoDup_cons in Hnd as [Hnot _]. apply Hnot. fold (wrows todo). apply elem_of_wrows. eauto.
Qed.

(** A step of the transaction [tid] that stays committed. *)
Lemma ctx_ok_writing (s s' : csys) (h : gmap Z hist) (tid tid' : Z) (t t' u : ctxn) :
  central_inv s h -> c_txns s !! tid = Some t -> decided t -> decided t' -> c_accs t' = c_accs t -> c_num t' = c_num t ->
  c_occ s' = c_occ s -> c_next s' = c_next s -> c_txns s' = <[tid := t']> (c_txns s) ->
  (forall k, is_Some (c_rows s !! k) -> is_Some (c_rows s' !! k)) ->
  ctx_ok s h u -> ctx_ok s' h u.
Proof.
  intros Hi Ht Hd Hd' Hacc Hnum Ho Hn Htx Hr. apply ctx_ok_frame; rewrite ?Ho, ?Hn; try done; [apply Hi|..].
  - intros start k _. apply (stale_same s _ tid _ _ t'); [by rewrite Ho|done|]. intros u0 Hu0 _. by simplify_eq.
  - intros tid2 u2 Hu2 He2 _. rewrite Htx in Hu2. apply lookup_insert_Some in Hu2 as [[<- <-]|[_ Hu2]]; [|by exists u2].
    exists t. split; [done|]. split; [by apply decided_entered|]. by split.
Qed.

(** The unwritten values after one write. *)
Lemma unwritten_after (s s' : csys) (h : gmap Z hist) (tid : Z) (t : ctxn) (a : Access) (todo : list Access) :
  central_inv s h -> c_txns s !! tid = Some t -> c_phase t = CWriting (a :: todo) ->
  c_txns s' = <[tid := to_phase t (CWriting todo)]> (c_txns s) ->
  forall k n v, unwritten s' k n v <-> unwritten s k n v /\ (type a = WR -> orig_row a <> k).
Proof.
  intros Hi Ht Hp Htx k n v. pose proof (ci_txns _ _ Hi tid t Ht) as Hok.
  destruct (ck_writing _ _ _ Hok _ Hp) as [dn Hrev].
  destruct (todo_writes _ _ _ (ck_nodup _ _ _ Hok) Hrev) as [Hnd _].
  pose proof (writes_apart a todo Hnd) as Hneq.
  split.
  - intros (tid' & u & todo' & b & Hu & Hpu & Hb & Htb & Hk & Hn & Hv). rewrite Htx in Hu.
    apply lookup_insert_Some in Hu as [[<- <-]|[Hne Hu]].
    + injection Hpu as <-. split.
      * exists tid, t, (a :: todo), b. split; [done|]. split; [done|]. split; [by apply elem_of_cons; right|done].
      * intros Hty Heq. apply (Hneq b Hty Hb Htb). congruence.
    + split; [by exists tid', u, todo', b|]. intros Hty Heq.
      (* both would be unwritten on the row of [a] *)
      assert (unwritten s k (c_num t) (data a)) as Hua.
      { exists tid, t, (a :: todo), a. split; [done|]. split; [done|]. split; [by apply elem_of_cons; left|done]. }
      assert (unwritten s k n v) as Hub by (by exists tid', u, todo', b).
      destruct (ck_exist _ _ _ Hok a) as [r Hr].
      { destruct (todo_writes _ _ _ (ck_nodup _ _ _ Hok) Hrev) as [_ Hsub]. apply Hsub. by apply elem_of_cons; left. }
      rewrite Heq in Hr. destruct (ci_rows _ _ Hi k r Hr) as (_ & _ & cs & _ & [[_ Hno]|(n0 & v0 & _ & _ & Huniq)]).
      { by apply (Hno n v). }
      apply Huniq in Hua as H1. apply Huniq in Hub as H2. destruct Hne.
      apply (ci_inj _ _ Hi tid tid' t u Ht Hu); [unfold entered; by rewrite Hp|unfold entered; by rewrite Hpu|congruence].
  - intros [(tid' & u & todo' & b & Hu & Hpu & Hb & Htb & Hk & Hn & Hv) Hna].
    destruct (decide (tid' = tid)) as [->|Hne].
    + assert (u = t) as -> by congruence. assert (todo' = a :: todo) as -> by congruence.
      exists tid, (to_phase t (CWriting todo)), todo, b. rewrite Htx, lookup_insert_eq. split; [done|]. split; [done|].
      split; [|done]. apply elem_of_cons in Hb as [->|Hb]; [|done]. by destruct (Hna Htb).
    + exists tid', u, todo', b. by rewrite Htx, lookup_insert_ne.
Qed.

Lemma write_free (b : bytes) (r r' : Row_occ) : write false b 0 r = Ret r' -> r' = mkRowOcc (_latch r) b (wts r).
Proof. unfold write. cbn. by intros [= <-]. Qed.

(** The row that is written holds the value that was committed last. *)
Lemma row_after_write (s s' : csys) (h : gmap Z hist) (tid : Z) (t : ctxn) (a : Access) (todo : list Access) (rows : occ_rows)
    (k : Z) (r' : Row_occ) :
  central_inv s h -> c_txns s !! tid = Some t -> c_phase t = CWriting (a :: todo) ->
  (if is_write a then on_row (orig_row a) (write false (data a) 0) (c_rows s) else Ret (c_rows s)) = Ret rows ->
  c_rows s' = rows -> c_next s' = c_next s ->
  (forall k n v, unwritten s' k n v <-> unwritten s k n v /\ (type a = WR -> orig_row a <> k)) ->
  c_rows s' !! k = Some r' -> _latch r' = None /\ wts r' = 0 /\ row_ok s' h k r'.
Proof.
  intros Hi Ht Hp Hrow Hr' Hn Hun Hk. rewrite Hr' in Hk. unfold row_ok. rewrite Hn.
  assert (forall r, (type a = WR -> orig_row a <> k) -> c_rows s !! k = Some r -> _latch r = None /\ wts r = 0 /\ row_ok s' h k r) as Hother.
  { intros r Hne Hr. destruct (ci_rows _ _ Hi k r Hr) as (? & ? & cs & Hv & Hcs). split; [done|]. split; [done|]. exists cs. rewrite Hn.
    split; [done|]. setoid_rewrite Hun. destruct Hcs as [[? Hno]|(n & v & ? & ? & Hu)]; [left|right].
    - split; [done|]. intros n v [Hw _]. by apply (Hno n v).
    - exists n, v. split; [done|]. split; [done|]. intros n' v' [Hw _]. by apply (Hu n' v'). }
  destruct (is_write a) eqn:Hwa.
  2: { injection Hrow as <-. unfold row_ok in Hother. rewrite Hn in Hother. apply Hother; [|done].
       intros Hty. unfold is_write in Hwa. by rewrite bool_decide_eq_true_2 in Hwa. }
  apply on_row_Ret in Hrow as (r & r1 & Hr & Hw & ->). apply bool_decide_eq_true in Hwa.
  apply lookup_insert_Some in Hk as [[<- <-]|[Hne Hk]].
  2: { unfold row_ok in Hother. rewrite Hn in Hother. by apply Hother. }
  apply write_free in Hw as ->. destruct (ci_rows _ _ Hi _ r Hr) as (? & ? & cs & Hv & Hcs). split; [done|]. split; [done|].
  assert (unwritten s (orig_row a) (c_num t) (data a)) as Hua.
  { exists tid, t, (a :: todo), a. split; [done|]. split; [done|]. split; [by apply elem_of_cons; left|done]. }
  destruct Hcs as [[_ Hno]|(n & v & Hcs & Hu & Huniq)]; [by destruct (Hno _ _ Hua)|].
  assert (v = data a) as ->.
  { destruct Hu as (tid' & u & todo' & b & Hu & Hpu & Hb & Htb & Hkb & -> & ->).
    assert (tid' = tid) as ->.
    { apply (ci_inj _ _ Hi tid' tid u t Hu Ht); [unfold entered; by rewrite Hpu|unfold entered; by rewrite Hp|symmetry; by apply (Huniq _ (data a))]. }
    assert (u = t) as -> by congruence. assert (todo' = a :: todo) as -> by congruence.
    apply elem_of_cons in Hb as [->|Hb]; [done|]. pose proof (ci_txns _ _ Hi tid t Ht) as Hok.
    destruct (ck_writing _ _ _ Hok _ Hp) as [dn Hrev]. destruct (todo_writes _ _ _ (ck_nodup _ _ _ Hok) Hrev) as [Hnd _].
    by destruct (writes_apart a todo Hnd b Hwa Hb Htb). }
  exists (commits (hist_of h (orig_row a))). split.
  - rewrite Hcs. cbn. pose proof (ci_bound _ _ Hi (orig_row a)) as Hb. rewrite Hcs in Hb. apply list.Forall_cons in Hb as [Hb _]. cbn in Hb.
    by destruct (Z.ltb_spec n (c_next s)); [|lia].
  - left. split; [done|]. intros n' v' [_ []]%Hun; done.
Qed.

Lemma inv_cwrite (s : csys) (h : gmap Z hist) (tid : Z) (t : ctxn) (a : Access) (todo : list Access) (rows : occ_rows) :
  central_inv s h -> c_txns s !! tid = Some t -> c_phase t = CWriting (a :: todo) ->
  (if is_write a then on_row (orig_row a) (write false (data a) 0) (c_rows s) else Ret (c_rows s)) = Ret rows ->
  central_inv (set_ctxn tid (to_phase t (CWriting todo)) (mkCsys (c_occ s) rows (c_txns s) (c_next s))) h.
Proof.
  intros Hi Ht Hp Hrow. set (s' := set_ctxn _ _ _). pose proof (ci_txns _ _ Hi tid t Ht) as Hok.
  pose proof (unwritten_after s s' h tid t a todo Hi Ht Hp eq_refl) as Hun.
  assert (decided t) as Hd by (unfold decided; by rewrite Hp).
  assert (forall k, is_Some (c_rows s !! k) -> is_Some (rows !! k)) as Hdom.
  { intros k Hk. destruct (is_write a); [|by injection Hrow as <-].
    apply on_row_Ret in Hrow as (r & r' & _ & _ & ->). destruct (decide (k = orig_row a)) as [->|Hne]; [by rewrite lookup_insert_eq|by rewrite lookup_insert_ne]. }
  pose proof Hi as [I1 I2 I3 I4 I5 I6 I7]. split; try done.
  - apply (occ_ok_same s _ tid (to_phase t (CWriting todo)) I1); [done|done|]. left. exists t. split; [done|].
    split; [|done]. unfold entered. by rewrite Hp.
  - intros k r' Hk. apply (row_after_write s s' h tid t a todo rows k r' Hi Ht Hp Hrow eq_refl eq_refl Hun Hk).
  - intros tid1 tid2 t1 t2. cbn. rewrite !lookup_insert_Some.
    intros [[<- <-]|[Hn1 H1]] [[<- <-]|[Hn2 H2]] He1 He2 Heq; [done| | |by apply (I6 tid1 tid2 t1 t2)].
    + apply (I6 tid tid2 t t2); [done|done|by apply decided_entered|done|done].
    + apply (I6 tid1 tid t1 t); [done|done|done|by apply decided_entered|done].
  - intros tid' u. cbn. rewrite lookup_insert_Some. intros Hu.
    apply (ctx_ok_writing s s' h tid tid' t (to_phase t (CWriting todo))); try done.
    destruct Hu as [[<- <-]|[_ Hu]]; [|by apply (I7 tid')].
    destruct (ck_writing _ _ _ Hok _ Hp) as [dn Hrev]. destruct Hok as [K1 K2 K3 K4 K5 K6 K7]. split; cbn; try done.
    + intros _. apply K4. by apply decided_entered.
    + intros ? [= <-]. exists (dn ++ [a]). by rewrite <- app_assoc.
Qed.

(** ** The commit *)

Lemma record_frame (n : Z) (accs : list Access) (h : gmap Z hist) (k : Z) :
  let h' := foldl (record_central n) h accs in
  (k ∉ wrows accs -> commits (hist_of h' k) = commits (hist_of h k))
  /\ (k ∉ rrows accs -> reads (hist_of h' k) = reads (hist_of h k)).
Proof.
  cbn. revert h. induction accs as [|a accs IH]; intros h; [done|]. cbn [foldl].
  destruct (IH (record_central n h a)) as [IHw IHr]. unfold wrows, rrows in *. cbn. unfold record_central in IHw, IHr |- *.
  rewrite hist_of_insert in IHw, IHr. destruct (is_write a); cbn; rewrite ?not_elem_of_cons; split; intros Hk.
  - destruct Hk as [Hne Hk]. rewrite IHw by done. by destruct (Z.eqb_spec (orig_row a) k).
  - rewrite IHr by done. by destruct (Z.eqb_spec (orig_row a) k) as [->|].
  - rewrite IHw by done. by destruct (Z.eqb_spec (orig_row a) k) as [->|].
  - destruct Hk as [Hne Hk]. rewrite IHr by done. by destruct (Z.eqb_spec (orig_row a) k).
Qed.

Lemma record_write (n : Z) (accs : list Access) (h : gmap Z hist) (a : Access) :
  NoDup (wrows accs) -> a ∈ accs -> type a = WR ->
  commits (hist_of (foldl (record_central n) h accs) (orig_row a)) = (n, Some (data a)) :: commits (hist_of h (orig_row a)).
Proof.
  intros Hnd Ha Hty. assert (is_write a = true) as Hw by (by apply bool_decide_eq_true). revert h.
  induction accs as [|b accs IH]; intros h; [by apply elem_of_nil in Ha|]. cbn [foldl].
  assert (NoDup (wrows accs)) as Hnd'.
  { unfold wrows in *. cbn in Hnd. destruct (is_write b); [by apply list.NoDup_cons in Hnd as [_ ?]|done]. }
  apply elem_of_cons in Ha as [->|Ha].
  - destruct (record_frame n accs (record_central n h b) (orig_row b)) as [-> _].
    + unfold record_central. by rewrite hist_of_insert, Z.eqb_refl, Hw.
    + intros (c & Hc & Htc & Heq)%elem_of_wrows. by apply (writes_apart b accs Hnd c).
  - rewrite IH by done. f_equal. unfold record_central. rewrite hist_of_insert.
    destruct (Z.eqb_spec (orig_row b) (orig_row a)) as [Heq|]; [|done]. destruct (is_write b) eqn:Hb; [|cbn; by rewrite Heq].
    apply bool_decide_eq_true in Hb. by destruct (writes_apart b accs Hnd a Hb Ha Hty).
Qed.

Lemma record_read (n : Z) (accs : list Access) (h : gmap Z hist) (k : Z) (x : Z * option bytes) :
  x ∈ reads (hist_of (foldl (record_central n) h accs) k) ->
  x ∈ reads (hist_of h k) \/ exists a, a ∈ accs /\ type a <> WR /\ orig_row a = k /\ x = (n, Some (orig_data a)).
Proof.
  revert h. induction accs as [|a accs IH]; intros h; [by left|]. cbn [foldl]. intros Hx.
  destruct (IH _ Hx) as [Hold|(b & Hb & Hrest)]; [|right; exists b; split; [by apply elem_of_cons; right|done]].
  unfold record_central in Hold. rewrite hist_of_insert in Hold.
  destruct (Z.eqb_spec (orig_row a) k) as [<-|]; [|by left]. destruct (is_write a) eqn:Hw; [by left|].
  apply elem_of_cons in Hold as [->|Hold]; [|by left]. right. exists a. apply bool_decide_eq_false in Hw.
  split; [by apply elem_of_cons; left|done].
Qed.

Section Valid.
Context (s : csys) (h : gmap Z hist) (tid : Z) (t : ctxn) (snap : snapshot).
Hypothesis Hi : central_inv s h.
Hypothesis Ht : c_txns s !! tid = Some t.
Hypothesis Hp : c_phase t = CChecking snap.
Hypothesis Hv : check (c_start t) snap (crset tid t) (cwset tid t) = true.

Local Abbreviation n := (c_num t).
Local Abbreviation t' := (to_phase t (CWriting (rev (c_accs t)))).
Local Abbreviation s' := (set_ctxn tid t' s).
Local Abbreviation h' := (foldl (record_central n) h (c_accs t)).

Lemma valid_checking : checking_ok s h t snap.
Proof using Hi Ht Hp. by apply (ck_checking _ _ _ (ci_txns _ _ Hi tid t Ht)). Qed.

Lemma valid_entered : entered t.
Proof using Hp. unfold entered. by rewrite Hp. Qed.

(** What it read is what the transactions before it wrote. *)
Lemma valid_read (a : Access) :
  a ∈ c_accs t -> type a <> WR -> Some (orig_data a) = value_at (table (orig_row a)) n (commits (hist_of h (orig_row a))).
Proof using Hi Ht Hp Hv.
  intros Ha Hty. pose proof valid_checking as [C1 C2 C3 _ _]. destruct (check_valid _ _ _ _ Hv C1 C2) as [V1 V2].
  assert (orig_row a ∈ set_rows (crset tid t)) as Hr by (apply elem_of_rrows; eauto).
  destruct (C3 a Ha Hty) as [?|[(e & He & Hlt & Hk)|(e & He & Hk)]]; [done| |].
  - by destruct (V1 e _ He Hlt Hk).
  - by destruct (V2 e _ He Hk).
Qed.

(** Those that entered before it and are still there write other rows. *)
Lemma valid_apart (tid' : Z) (u : ctxn) (k : Z) :
  c_txns s !! tid' = Some u -> entered u -> c_num u < n -> k ∈ wrows (c_accs u) ->
  (k ∉ rrows (c_accs t)) /\ (k ∉ wrows (c_accs t)).
Proof using Hi Ht Hp Hv.
  intros Hu He Hlt Hk. pose proof valid_checking as [C1 C2 _ _ C5]. destruct (check_valid _ _ _ _ Hv C1 C2) as [_ V2].
  apply (V2 (cwset tid' u) k); [|done]. apply C5; [done..|]. intros Hnil. rewrite Hnil in Hk. by apply elem_of_nil in Hk.
Qed.

Lemma valid_others (tid' : Z) (u : ctxn) : tid' <> tid -> c_txns s !! tid' = Some u -> entered u -> c_num u < n \/ n < c_num u.
Proof using Hi Ht Hp.
  intros Hne Hu He. destruct (Z.lt_total (c_num u) n) as [?|[Heq|?]]; [by left| |by right].
  destruct Hne. apply (ci_inj _ _ Hi tid' tid u t); [done|done|done|apply valid_entered|done].
Qed.

(** Nothing is unwritten in the rows it writes. *)
Lemma valid_written (k m : Z) (v : bytes) : k ∈ wrows (c_accs t) -> ~ unwritten s k m v.
Proof using Hi Ht Hp Hv.
  intros Hk Hun. pose proof valid_checking as [_ _ _ C4 _]. destruct (C4 k Hk) as [Hlt _].
  pose proof (ci_txns _ _ Hi tid t Ht) as Hok. pose proof Hk as (a & Ha & _ & Hak)%elem_of_wrows.
  destruct (ck_exist _ _ _ Hok a Ha) as [r Hr]. rewrite Hak in Hr.
  destruct (ci_rows _ _ Hi k r Hr) as (_ & _ & cs & _ & [[_ Hno]|(m0 & v0 & Hcs & _ & Hu)]); [by apply (Hno m v)|].
  pose proof (Hu m v Hun) as ->. rewrite Hcs in Hlt. apply list.Forall_cons in Hlt as [Hlt _]. cbn in Hlt.
  destruct Hun as (tid' & u & todo & b & Htu & Hpu & Hb & Htb & Hkb & -> & _).
  destruct (ck_writing _ _ _ (ci_txns _ _ Hi tid' u Htu) _ Hpu) as [dn Hrev].
  destruct (todo_writes _ _ _ (ck_nodup _ _ _ (ci_txns _ _ Hi tid' u Htu)) Hrev) as [_ Hsub].
  destruct (valid_apart tid' u k Htu) as [_ []]; [unfold entered; by rewrite Hpu|done| |done].
  apply elem_of_wrows. eauto.
Qed.

Lemma valid_unwritten (k m : Z) (v : bytes) :
  unwritten s' k m v <-> unwritten s k m v \/ exists a, a ∈ c_accs t /\ type a = WR /\ orig_row a = k /\ m = n /\ v = data a.
Proof using Hi Ht Hp Hv.
  split.
  - intros (tid' & u & todo & a & Hu & Hpu & Ha & Hrest). cbn in Hu. apply lookup_insert_Some in Hu as [[<- <-]|[Hne Hu]].
    + right. injection Hpu as <-. exists a. split; [by rewrite (Permutation_rev (c_accs t))|done].
    + left. by exists tid', u, todo, a.
  - intros [(tid' & u & todo & a & Hu & Hpu & Hrest)|(a & Ha & Hrest)].
    + exists tid', u, todo, a. cbn. rewrite lookup_insert_ne; [done|]. intros <-. congruence.
    + exists tid, t', (rev (c_accs t)), a. cbn. rewrite lookup_insert_eq. split; [done|]. split; [done|].
      split; [by rewrite <- (Permutation_rev (c_accs t))|done].
Qed.

(** The commits of a row: one more in the rows it writes. *)
Lemma valid_commits (k : Z) :
  (k ∉ wrows (c_accs t)) /\ commits (hist_of h' k) = commits (hist_of h k)
  \/ k ∈ wrows (c_accs t) /\ exists a, a ∈ c_accs t /\ type a = WR /\ orig_row a = k
       /\ commits (hist_of h' k) = (n, Some (data a)) :: commits (hist_of h k).
Proof using Hi Ht.
  destruct (decide (k ∈ wrows (c_accs t))) as [Hk|Hk]; [right|left].
  - split; [done|]. apply elem_of_wrows in Hk as (a & Ha & Hty & <-). exists a. split; [done|]. split; [done|]. split; [done|].
    apply record_write; [|done|done]. apply (ck_nodup _ _ _ (ci_txns _ _ Hi tid t Ht)).
  - split; [done|]. by apply record_frame.
Qed.

Lemma valid_row (k : Z) (r : Row_occ) : c_rows s !! k = Some r -> row_ok s' h' k r.
Proof using Hi Ht Hp Hv.
  intros Hr. destruct (ci_rows _ _ Hi k r Hr) as (_ & _ & cs & Hval & Hcs). exists cs. split; [done|].
  setoid_rewrite valid_unwritten. destruct (valid_commits k) as [[Hk ->]|[Hk (a & Ha & Hty & Hka & ->)]].
  - assert (forall m v, ~ exists a, a ∈ c_accs t /\ type a = WR /\ orig_row a = k /\ m = n /\ v = data a) as Hno.
    { intros m v (a & Ha & Hty & Hka & _). apply Hk, elem_of_wrows. eauto. }
    destruct Hcs as [[? Hun]|(m & v & ? & ? & Hu)]; [left|right].
    + split; [done|]. intros m v [Hun'|He]; [by apply (Hun m v)|by apply (Hno m v)].
    + exists m, v. split; [done|]. split; [by left|]. intros m' v' [Hun'|He]; [by apply (Hu m' v')|by destruct (Hno m' v')].
  - right. exists n, (data a). destruct Hcs as [[-> Hun]|(m & v & _ & Hun & _)]; [|by destruct (valid_written k m v Hk)].
    split; [done|]. split; [right; by exists a|]. intros m v [Hun'|(b & _ & _ & _ & -> & _)]; [by destruct (Hun m v)|done].
Qed.

(** The values as of a transaction that does not see this one. *)
Lemma valid_value (k m : Z) :
  (k ∈ wrows (c_accs t) -> m <= n) ->
  value_at (table k) m (commits (hist_of h' k)) = value_at (table k) m (commits (hist_of h k)).
Proof using Hi Ht.
  intros Hle. destruct (valid_commits k) as [[_ ->]|[Hk (a & _ & _ & _ & ->)]]; [done|]. specialize (Hle Hk). cbn.
  by destruct (Z.ltb_spec n m); [lia|].
Qed.

Lemma valid_reads (k : Z) :
  Forall (fun x => x.1 < c_next s /\ x.2 = value_at (table k) x.1 (commits (hist_of h' k))) (reads (hist_of h' k)).
Proof using Hi Ht Hp Hv.
  apply list.Forall_forall. intros x Hx. apply record_read in Hx as [Hx|(a & Ha & Hty & <- & ->)].
  - pose proof (ci_reads _ _ Hi k) as Hr. rewrite list.Forall_forall in Hr. destruct (Hr x Hx) as [Hlt ->]. split; [done|].
    symmetry. apply valid_value. intros Hk. destruct (cc_settled _ _ _ _ valid_checking k Hk) as [_ Hle].
    rewrite list.Forall_forall in Hle. by apply Hle.
  - cbn. split; [apply (ck_num _ _ _ (ci_txns _ _ Hi tid t Ht)), valid_entered|]. rewrite valid_value by lia. by apply valid_read.
Qed.

(** The others are tested against this transaction or come before it. *)
Lemma valid_checks (tid' : Z) (u : ctxn) (snap' : snapshot) :
  tid' <> tid -> c_txns s !! tid' = Some u -> c_phase u = CChecking snap' -> checking_ok s' h' u snap'.
Proof using Hi Ht Hp Hv.
  intros Hne Hu Hpu. pose proof (ck_checking _ _ _ (ci_txns _ _ Hi tid' u Hu) _ Hpu) as [C1 C2 C3 C4 C5].
  assert (entered u) as He by (unfold entered; by rewrite Hpu). pose proof (valid_others tid' u Hne Hu He) as Hlt.
  split; [done|done| | |].
  - intros a Ha Hty. destruct (C3 a Ha Hty) as [->|?]; [|by right].
    destruct (decide (orig_row a ∈ wrows (c_accs t))) as [Hk|Hk]; [|left; by rewrite valid_value].
    destruct Hlt as [Hlt|Hlt]; [left; by rewrite valid_value by lia|]. right. right. exists (cwset tid t). split; [|done].
    apply C5; [done|apply valid_entered|done|]. intros Hnil. rewrite Hnil in Hk. by apply elem_of_nil in Hk.
  - intros k Hk. destruct (C4 k Hk) as [Hc Hr]. split.
    + destruct (valid_commits k) as [[_ ->]|[Hkt (a & _ & _ & _ & ->)]]; [done|]. apply list.Forall_cons. split; [|done]. cbn.
      destruct Hlt as [Hlt|Hlt]; [|done]. by destruct (valid_apart tid' u k Hu He Hlt Hk) as [_ []].
    + apply list.Forall_forall. intros x Hx. rewrite list.Forall_forall in Hr. apply record_read in Hx as [Hx|(a & Ha & Hty & <- & ->)]; [by apply Hr|].
      cbn. destruct Hlt as [Hlt|Hlt]; [|lia]. destruct (valid_apart tid' u _ Hu He Hlt Hk) as [[] _]. apply elem_of_rrows. eauto.
  - intros tid2 u2 Hu2. cbn in Hu2. apply lookup_insert_Some in Hu2 as [[<- <-]|[_ Hu2]]; [|by apply C5].
    intros _. cbn. apply (C5 tid t Ht valid_entered).
Qed.

Lemma valid_ctx (tid' : Z) (u : ctxn) : c_txns s' !! tid' = Some u -> ctx_ok s' h' u.
Proof using Hi Ht Hp Hv.
  cbn. rewrite lookup_insert_Some. intros [[<- <-]|[Hne Hu]].
  - destruct (ci_txns _ _ Hi tid t Ht) as [K1 K2 K3 K4 K5 K6 K7]. split; cbn; try done.
    + intros _. apply K4, valid_entered.
    + intros todo [= <-]. by exists [].
  - destruct (ci_txns _ _ Hi tid' u Hu) as [K1 K2 K3 K4 K5 K6 K7]. split; try done.
    + intros Hpu a Ha Hty. destruct (decide (orig_row a ∈ wrows (c_accs t))) as [Hk|Hk].
      { right. right. exists tid, t'. cbn. by rewrite lookup_insert_eq. }
      destruct (K5 Hpu a Ha Hty) as [->|Hst]; [left; by rewrite valid_value|right].
      apply (stale_same s _ tid _ _ t'); [done|done| |done]. intros u0 Hu0 Hd. simplify_eq. unfold decided in Hd. by rewrite Hp in Hd.
    + intros snap' Hpu. by apply (valid_checks tid').
Qed.

Lemma inv_cvalid : central_inv s' h'.
Proof using Hi Ht Hp Hv.
  pose proof valid_checking as Hc. pose proof Hi as [I1 I2 I3 I4 I5 I6 I7]. split.
  - apply (occ_ok_same s _ tid t' I1); [done|done|]. left. exists t. split; [done|]. unfold entered. by rewrite Hp.
  - intros k r Hr. destruct (I2 k r Hr) as (? & ? & _). split; [done|]. split; [done|]. by apply valid_row.
  - intros k. destruct (valid_commits k) as [[_ ->]|[Hk (a & _ & _ & _ & ->)]]; [done|].
    constructor; [apply I3|]. by apply (cc_settled _ _ _ _ Hc).
  - intros k. destruct (valid_commits k) as [[_ ->]|[Hk (a & _ & _ & _ & ->)]]; [done|].
    apply list.Forall_cons. split; [|done]. apply (ck_num _ _ _ (I7 tid t Ht)), valid_entered.
  - apply valid_reads.
  - intros tid1 tid2 t1 t2. cbn. rewrite !lookup_insert_Some. pose proof valid_entered as He.
    intros [[<- <-]|[Hn1 H1]] [[<- <-]|[Hn2 H2]] He1 He2 Heq; [done| | |by apply (I6 tid1 tid2 t1 t2)].
    + by apply (I6 tid tid2 t t2).
    + by apply (I6 tid1 tid t1 t).
  - apply valid_ctx.
Qed.
End Valid.

(** ** Reachable states *)

Lemma central_step_inv (p p' : csys * gmap Z hist) : central_step p p' -> central_inv p.1 p.2 -> central_inv p'.1 p'.2.
Proof.
  destruct 1 as [s h tid Hfree|s h tid t key r v v' Ht Hp Hr Hacc Hv|s h tid t key b Ht Hp Hr Hnew|s h tid t snap o Ht Hp He
    |s h tid t snap Ht Hp Hc|s h tid t snap Ht Hp Hc|s h tid t a todo rows Ht Hp Hw|s h tid t Ht Hp|s h tid t valid o Ht Hp Hl];
    cbn [fst snd]; intros Hi.
  - by apply inv_cstart.
  - apply (inv_caccess s h tid t (mkAccess RD key v' v')); [done|done|done|by exists r|done|]. intros _. cbn.
    destruct Hv as [->|(tid' & u & a & todo & Hu & Hpu & Hta & Hka)].
    + assert (v = _row r) as ->.
      { unfold RowOcc.access in Hacc. destruct (ci_rows _ _ Hi key r Hr) as (Hlatch & Hwts & _). rewrite Hlatch, Hwts in Hacc. cbn in Hacc.
        by destruct (c_start t <? 0); [|injection Hacc as <-]. }
      by apply (cread_value s h key).
    + right. right. exists tid', u. split; [done|]. split; [unfold decided; by rewrite Hpu|]. apply elem_of_wrows. exists a.
      destruct (ck_writing _ _ _ (ci_txns _ _ Hi tid' u Hu) _ Hpu) as [dn Hrev].
      destruct (todo_writes _ _ _ (ck_nodup _ _ _ (ci_txns _ _ Hi tid' u Hu)) Hrev) as [_ Hsub].
      split; [apply Hsub; by apply elem_of_cons; left|done].
  - by apply (inv_caccess s h tid t (mkAccess WR key b b)).
  - by apply inv_center.
  - by apply (inv_cvalid s h tid t snap).
  - apply inv_cphase; [done|done|]. left. by exists snap.
  - by apply (inv_cwrite s h tid t a todo rows).
  - apply inv_cphase; [done|done|]. by right.
  - by apply inv_cleave.
Qed.

Lemma central_steps_inv (p p' : csys * gmap Z hist) : rtc central_step p p' -> central_inv p.1 p.2 -> central_inv p'.1 p'.2.
Proof. induction 1 as [|p p1 p' Hst _ IH]; [done|]. intros Hi. apply IH. by apply (central_step_inv p). Qed.
End Central.

(** The object as it is in static storage, initialized, and fresh rows. *)
Definition init_central (rows : gmap Z bytes) : csys := mkCsys (init_occ (mkOptCC [] [] 0 0 0)) (init <$> rows) ∅ 0.

Lemma init_central_inv (rows : gmap Z bytes) : central_inv (fun k => rows !! k) (init_central rows) ∅.
Proof.
  assert (forall k, hist_of ∅ k = mkHist [] []) as Hh by (intros k; unfold hist_of; by rewrite lookup_empty).
  split; cbn; try (intros k; rewrite Hh; by constructor).
  - split; cbn; try done; try (by constructor). intros e He. by apply elem_of_nil in He.
  - intros k r Hr. rewrite lookup_fmap_Some in Hr. destruct Hr as (b & <- & Hb). split; [done|]. split; [done|].
    exists []. split; [done|]. left. rewrite Hh. split; [done|]. by intros n v (tid & u & todo & a & Hu & _).
  - intros tid tid' t t' Ht. by rewrite lookup_empty in Ht.
  - intros tid t Ht. by rewrite lookup_empty in Ht.
Qed.

(** A transaction has committed a value of the row and not written it yet. *)
Definition being_written (s : csys) (k : Z) : Prop := exists n v, unwritten s k n v.


(** ** Validation always goes on *)

(** The step that a transaction makes next in its validation. *)
Definition moves (s : csys) (tid : Z) (t : ctxn) : Prop :=
  match c_phase t with
  | CReading => exists snap o, enter (cwset tid t) (c_occ s) = Ret (snap, o)
  | CWriting (a :: _) => exists r r', c_rows s !! orig_row a = Some r /\ write false (data a) 0 r = Ret r'
  | CLeaving valid => exists o, leave valid (cwset tid t) (c_occ s) = Ret o
  | _ => True
  end.

(** No critical section of central validation fails.  In every state that
    the threads reach, the list of active sets has the length that is recorded
    (the array of [finish_active] is filled exactly), a transaction that leaves
    finds its set in that list, the newest entry of [history] carries the current
    transaction number, and every row that is written back exists. *)
Theorem central_never_fails (rows : gmap Z bytes) (s : csys) (h : gmap Z hist) (tid : Z) (t : ctxn) :
  rtc central_step (init_central rows, ∅) (s, h) -> c_txns s !! tid = Some t -> moves s tid t.
Proof.
  intros Hr Ht. pose proof (central_steps_inv _ _ _ Hr (init_central_inv rows)) as Hi. cbn [fst snd] in Hi.
  pose proof (ci_txns _ _ _ Hi tid t Ht) as Hok. unfold moves. destruct (c_phase t) as [|snap|[|a todo]|valid|rc] eqn:Hp; [|done|done| | |done].
  - rewrite (enter_spec s) by apply (ci_occ _ _ _ Hi). eauto.
  - destruct (ck_writing _ _ _ _ Hok _ Hp) as [dn Hrev].
    destruct (todo_writes _ _ _ (ck_nodup _ _ _ _ Hok) Hrev) as [_ Hsub].
    destruct (ck_exist _ _ _ _ Hok a) as [r Hrow]; [apply Hsub; by apply elem_of_cons; left|]. by exists r, (mkRowOcc (_latch r) (data a) (wts r)).
  - destruct (leave_spec s tid t (to_phase t (CEnded Abort)) valid (ci_occ _ _ _ Hi) Ht) as (o & Ho & _);
      [unfold entered; by rewrite Hp|by intros []|by exists o].
Qed.

(** ** The function is a run of the steps *)

Definition at_cphase (tid start : Z) (accs : list Access) (n : Z) (txns : gmap Z ctxn) (o : OptCC) (rows : occ_rows) (next : Z)
    (ph : cphase) : csys := mkCsys o rows (<[tid := mkCtxn start accs n ph]> txns) next.

Ltac central_phase rule :=
  let Hs := fresh "Hs" in
  pose proof rule as Hs; unfold set_ctxn, to_phase, at_cphase in *; cbn in Hs;
  rewrite ?insert_insert_eq in Hs; apply Hs; try done; apply lookup_insert_eq.

Lemma cwrite_steps (tid start : Z) (accs : list Access) (n : Z) (txns : gmap Z ctxn) (o : OptCC) (next : Z) (h : gmap Z hist)
    (todo : list Access) (rows rows' : occ_rows) :
  foldM (fun rows a => if bool_decide (type a = WR) then on_row (orig_row a) (write false (data a) 0) rows else Ret rows) rows todo
    = Ret rows' ->
  rtc central_step (at_cphase tid start accs n txns o rows next (CWriting todo), h)
    (at_cphase tid start accs n txns o rows' next (CWriting []), h).
Proof.
  revert rows. induction todo as [|a todo IH]; intros rows Hf; [injection Hf as <-; reflexivity|]. cbn in Hf.
  apply bind_Ret in Hf as (rows1 & Hw & Hf).
  eapply rtc_l; [|by apply IH].
  central_phase (cs_write (at_cphase tid start accs n txns o rows next (CWriting (a :: todo))) h tid
    (mkCtxn start accs n (CWriting (a :: todo))) a todo rows1).
Qed.

(** A call of [central_validate] that returns is a run of the steps of the
    serializable system, from the end of the reading phase to the end of the
    transaction, with the result the call returns. *)
Theorem central_validate_steps (s : csys) (h : gmap Z hist) (tid : Z) (t : ctxn) (rc : RC) (o : OptCC) (rows : occ_rows) :
  c_txns s !! tid = Some t -> c_phase t = CReading ->
  central_validate tid (c_start t) (Z.of_nat (length (wrows (c_accs t)))) (c_accs t) (c_occ s) (c_rows s) = Ret (rc, o, rows) ->
  exists s' h', rtc central_step (s, h) (s', h') /\ c_occ s' = o /\ c_rows s' = rows
    /\ (exists t', c_txns s' !! tid = Some t' /\ c_phase t' = CEnded rc)
    /\ forall tid', tid' <> tid -> c_txns s' !! tid' = c_txns s !! tid'.
Proof.
  intros Ht Hp Hval. unfold central_validate in Hval. rewrite get_rw_set_spec in Hval. cbn [mbind res_bind] in Hval.
  apply bind_Ret in Hval as ([snap o1] & He & Hval). apply bind_Ret in Hval as (rows1 & Hw & Hval).
  apply bind_Ret in Hval as (o2 & Hl & [= <- <- <-]). set (valid := check _ _ _ _) in *.
  set (at_ := at_cphase tid (c_start t) (c_accs t) (c_next s) (c_txns s)).
  assert (central_step (s, h) (at_ o1 (c_rows s) (c_next s + 1) (CChecking snap), h)) as H1 by (by apply (cs_enter s h tid t snap o1)).
  assert (exists h', rtc central_step (at_ o1 (c_rows s) (c_next s + 1) (CChecking snap), h)
                       (at_ o1 rows1 (c_next s + 1) (CLeaving valid), h')) as [h' H2].
  { destruct valid eqn:Hv; eexists.
    - eapply rtc_l; [|eapply rtc_r; [by apply cwrite_steps|]].
      + central_phase (cs_valid (at_ o1 (c_rows s) (c_next s + 1) (CChecking snap)) h tid
          (mkCtxn (c_start t) (c_accs t) (c_next s) (CChecking snap)) snap).
      + central_phase (cs_written (at_ o1 rows1 (c_next s + 1) (CWriting [])) (foldl (record_central (c_next s)) h (c_accs t)) tid
          (mkCtxn (c_start t) (c_accs t) (c_next s) (CWriting []))).
    - injection Hw as <-. eapply rtc_once.
      central_phase (cs_invalid (at_ o1 (c_rows s) (c_next s + 1) (CChecking snap)) h tid
        (mkCtxn (c_start t) (c_accs t) (c_next s) (CChecking snap)) snap). }
  exists (at_ o2 rows1 (c_next s + 1) (CEnded (if valid then RCOK else Abort))), h'.
  split; [|split; [done|split; [done|split]]].
  - eapply rtc_l; [exact H1|]. eapply rtc_r; [exact H2|].
    central_phase (cs_leave (at_ o1 rows1 (c_next s + 1) (CLeaving valid)) h' tid
      (mkCtxn (c_start t) (c_accs t) (c_next s) (CLeaving valid)) valid o2).
  - eexists. cbn. by rewrite lookup_insert_eq.
  - intros tid' Hne. cbn. by rewrite lookup_insert_ne.
Qed.

(** ** Concrete runs *)

Module OneCopy.

(** Transaction 7 copies row 2 to row 1. *)
Definition accs : list Access := [mkAccess RD 2 OneWrite.b2 OneWrite.b2; mkAccess WR 1 OneWrite.b2 OneWrite.b2].
Definition rows0 : gmap Z bytes := OneWrite.rows0.
Definition occ0 : OptCC := init_occ (mkOptCC [] [] 0 0 0).
Definition active7 : OptCC := mkOptCC [] [mkSet 0 7 [1]] 0 1 0.
Definition occ1 : OptCC := mkOptCC [mkSet 1 7 [1]] [] 1 0 1.
Definition snap0 : snapshot := mkSnap 0 [] [].
Definition rows1 : occ_rows := <[1 := init OneWrite.b2]> (init <$> rows0).
Definition reading : csys := mkCsys occ0 (init <$> rows0) {[ 7 := mkCtxn 0 accs 0 CReading ]} 0.
Definition leaving : csys := mkCsys active7 rows1 {[ 7 := mkCtxn 0 accs 0 (CLeaving true) ]} 1.
Definition ended : csys := mkCsys occ1 rows1 {[ 7 := mkCtxn 0 accs 0 (CEnded RCOK) ]} 1.
Definition h_end : gmap Z hist := {[ 1 := mkHist [(0, Some OneWrite.b2)] []; 2 := mkHist [] [(0, Some OneWrite.b2)] ]}.

Lemma step_on (p q q' r : csys * gmap Z hist) : central_step p q -> q = q' -> rtc central_step q' r -> rtc central_step p r.
Proof. intros Hs <- Hr. by eapply rtc_l. Qed.

Lemma to_reading_central : rtc central_step (init_central rows0, ∅) (reading, ∅).
Proof.
  eapply step_on; [apply (cs_start _ _ 7); intros t Ht; discriminate Ht|reflexivity|].
  eapply step_on; [apply (cs_read _ _ 7 (mkCtxn 0 [] 0 CReading) 2 (init OneWrite.b2) OneWrite.b2 OneWrite.b2);
                   [reflexivity|reflexivity|vm_compute; reflexivity|vm_compute; reflexivity|by left]|vm_compute; reflexivity|].
  eapply step_on; [apply (cs_put _ _ 7 (mkCtxn 0 [mkAccess RD 2 OneWrite.b2 OneWrite.b2] 0 CReading) 1 OneWrite.b2);
                   [reflexivity|reflexivity|vm_compute; eauto|vm_compute; intros Hk; inversion Hk]|vm_compute; reflexivity|].
  apply rtc_refl.
Qed.

Lemma to_leaving_central : rtc central_step (init_central rows0, ∅) (leaving, h_end).
Proof.
  etrans; [exact to_reading_central|].
  eapply step_on; [apply (cs_enter _ _ 7 (mkCtxn 0 accs 0 CReading) snap0 active7); reflexivity|reflexivity|].
  eapply step_on; [apply (cs_valid _ _ 7 (mkCtxn 0 accs 0 (CChecking snap0)) snap0); vm_compute; reflexivity|vm_compute; reflexivity|].
  eapply step_on; [eapply (cs_write _ _ 7); [reflexivity|reflexivity|vm_compute; reflexivity]|vm_compute; reflexivity|].
  eapply step_on; [eapply (cs_write _ _ 7); [reflexivity|reflexivity|vm_compute; reflexivity]|vm_compute; reflexivity|].
  eapply step_on; [eapply (cs_written _ _ 7); reflexivity|vm_compute; reflexivity|].
  apply rtc_refl.
Qed.

Lemma to_ended_central : rtc central_step (init_central rows0, ∅) (ended, h_end).
Proof.
  etrans; [exact to_leaving_central|].
  eapply step_on; [eapply (cs_leave _ _ 7); [reflexivity|reflexivity|vm_compute; reflexivity]|vm_compute; reflexivity|].
  apply rtc_refl.
Qed.
End OneCopy.


Lemma central_never_fails_witness :
  moves OneCopy.leaving 7 (mkCtxn 0 OneCopy.accs 0 (CLeaving true)) /\ leave true (mkSet 0 7 [1]) OneCopy.active7 = Ret OneCopy.occ1.
Proof.
  split; [|vm_compute; reflexivity]. apply (central_never_fails OneCopy.rows0 OneCopy.leaving OneCopy.h_end); [exact OneCopy.to_leaving_central|reflexivity].
Defined.

Lemma central_validate_steps_witness :
  exists s' h', central_validate 7 0 1 OneCopy.accs OneCopy.occ0 (init <$> OneCopy.rows0) = Ret (RCOK, OneCopy.occ1, OneCopy.rows1)
    /\ rtc central_step (OneCopy.reading, ∅) (s', h') /\ c_rows s' = OneCopy.rows1.
Proof.
  destruct (central_validate_steps OneCopy.reading ∅ 7 (mkCtxn 0 OneCopy.accs 0 CReading) RCOK OneCopy.occ1 OneCopy.rows1)
    as (s' & h' & H1 & _ & H2 & _).
  - reflexivity.
  - reflexivity.
  - vm_compute. reflexivity.
  - exists s', h'. split; [vm_compute; reflexivity|]. split; [exact H1|exact H2].
Defined.

(** ** What the test misses *)

(** Two transactions that each read row 1 and then write it, as the accesses of
    a query that updates a row do, both commit when one ends before the other
    enters: the history is tested against the rows that were only read.  The
    update of the first is lost. *)
Theorem central_lost_update :
  exists o rows o' rows',
    central_validate 7 0 1 [mkAccess WR 1 OneWrite.b1 OneWrite.b2] OneCopy.occ0 (init <$> OneCopy.rows0) = Ret (RCOK, o, rows)
    /\ central_validate 8 0 1 [mkAccess WR 1 OneWrite.b1 OneWrite.b1] o rows = Ret (RCOK, o', rows')
    /\ rows !! 1 = Some (init OneWrite.b2) /\ rows' !! 1 = Some (init OneWrite.b1).
Proof. do 4 eexists. split; [vm_compute; reflexivity|]. split; [vm_compute; reflexivity|]. split; vm_compute; reflexivity. Qed.

(** The start of a transaction is drawn from the timestamps of the manager,
    which run ahead of the transaction numbers.  A transaction that read row 1
    before it was changed then commits, where its transaction number would have
    made it abort. *)
Theorem central_start_from_timestamps :
  exists o rows,
    central_validate 7 5 1 [mkAccess WR 1 OneWrite.b1 OneWrite.b2] OneCopy.occ0 (init <$> OneCopy.rows0) = Ret (RCOK, o, rows)
    /\ central_validate 8 6 0 [mkAccess RD 1 OneWrite.b1 OneWrite.b1] o rows = Ret (RCOK, o, rows)
    /\ central_validate 8 0 0 [mkAccess RD 1 OneWrite.b1 OneWrite.b1] o rows = Ret (Abort, o, rows)
    /\ rows !! 1 = Some (init OneWrite.b2).
Proof. do 2 eexists. split; [vm_compute; reflexivity|]. split; [vm_compute; reflexivity|]. split; vm_compute; reflexivity. Qed.
