(* ===== verification/TpccConst.v ===== *)
(** * db2: columns of the TPC-C tables ([common/workload/tpcc_const.h])

    The numbers of the columns of the full schema. *)

From S2P Require Import Prelude.

(** ** The columns of a warehouse *)

(** [src/common/workload/tpcc_const.h:85-85 W_ID] *)
Definition W_ID : Z := 0.
(** [src/common/workload/tpcc_const.h:86-86 W_NAME] *)
Definition W_NAME : Z := 1.
(** [src/common/workload/tpcc_const.h:87-87 W_STREET_1] *)
Definition W_STREET_1 : Z := 2.
(** [src/common/workload/tpcc_const.h:88-88 W_STREET_2] *)
Definition W_STREET_2 : Z := 3.
(** [src/common/workload/tpcc_const.h:89-89 W_CITY] *)
Definition W_CITY : Z := 4.
(** [src/common/workload/tpcc_const.h:90-90 W_STATE] *)
Definition W_STATE : Z := 5.
(** [src/common/workload/tpcc_const.h:91-91 W_ZIP] *)
Definition W_ZIP : Z := 6.
(** [src/common/workload/tpcc_const.h:92-92 W_TAX] *)
Definition W_TAX : Z := 7.
(** [src/common/workload/tpcc_const.h:93-93 W_YTD] *)
Definition W_YTD : Z := 8.

(** ** The columns of a district *)

(** [src/common/workload/tpcc_const.h:96-96 D_ID] *)
Definition D_ID : Z := 0.
(** [src/common/workload/tpcc_const.h:97-97 D_W_ID] *)
Definition D_W_ID : Z := 1.
(** [src/common/workload/tpcc_const.h:98-98 D_NAME] *)
Definition D_NAME : Z := 2.
(** [src/common/workload/tpcc_const.h:99-99 D_STREET_1] *)
Definition D_STREET_1 : Z := 3.
(** [src/common/workload/tpcc_const.h:100-100 D_STREET_2] *)
Definition D_STREET_2 : Z := 4.
(** [src/common/workload/tpcc_const.h:101-101 D_CITY] *)
Definition D_CITY : Z := 5.
(** [src/common/workload/tpcc_const.h:102-102 D_STATE] *)
Definition D_STATE : Z := 6.
(** [src/common/workload/tpcc_const.h:103-103 D_ZIP] *)
Definition D_ZIP : Z := 7.
(** [src/common/workload/tpcc_const.h:104-104 D_TAX] *)
Definition D_TAX : Z := 8.
(** [src/common/workload/tpcc_const.h:105-105 D_YTD] *)
Definition D_YTD : Z := 9.
(** [src/common/workload/tpcc_const.h:106-106 D_NEXT_O_ID] *)
Definition D_NEXT_O_ID : Z := 10.

(** ** The columns of a customer *)

(** [src/common/workload/tpcc_const.h:109-109 C_ID] *)
Definition C_ID : Z := 0.
(** [src/common/workload/tpcc_const.h:110-110 C_D_ID] *)
Definition C_D_ID : Z := 1.
(** [src/common/workload/tpcc_const.h:111-111 C_W_ID] *)
Definition C_W_ID : Z := 2.
(** [src/common/workload/tpcc_const.h:112-112 C_FIRST] *)
Definition C_FIRST : Z := 3.
(** [src/common/workload/tpcc_const.h:113-113 C_MIDDLE] *)
Definition C_MIDDLE : Z := 4.
(** [src/common/workload/tpcc_const.h:114-114 C_LAST] *)
Definition C_LAST : Z := 5.
(** [src/common/workload/tpcc_const.h:115-115 C_STREET_1] *)
Definition C_STREET_1 : Z := 6.
(** [src/common/workload/tpcc_const.h:116-116 C_STREET_2] *)
Definition C_STREET_2 : Z := 7.
(** [src/common/workload/tpcc_const.h:117-117 C_CITY] *)
Definition C_CITY : Z := 8.
(** [src/common/workload/tpcc_const.h:118-118 C_STATE] *)
Definition C_STATE : Z := 9.
(** [src/common/workload/tpcc_const.h:119-119 C_ZIP] *)
Definition C_ZIP : Z := 10.
(** [src/common/workload/tpcc_const.h:120-120 C_PHONE] *)
Definition C_PHONE : Z := 11.
(** [src/common/workload/tpcc_const.h:121-121 C_SINCE] *)
Definition C_SINCE : Z := 12.
(** [src/common/workload/tpcc_const.h:122-122 C_CREDIT] *)
Definition C_CREDIT : Z := 13.
(** [src/common/workload/tpcc_const.h:123-123 C_CREDIT_LIM] *)
Definition C_CREDIT_LIM : Z := 14.
(** [src/common/workload/tpcc_const.h:124-124 C_DISCOUNT] *)
Definition C_DISCOUNT : Z := 15.
(** [src/common/workload/tpcc_const.h:125-125 C_BALANCE] *)
Definition C_BALANCE : Z := 16.
(** [src/common/workload/tpcc_const.h:126-126 C_YTD_PAYMENT] *)
Definition C_YTD_PAYMENT : Z := 17.
(** [src/common/workload/tpcc_const.h:127-127 C_PAYMENT_CNT] *)
Definition C_PAYMENT_CNT : Z := 18.
(** [src/common/workload/tpcc_const.h:128-128 C_DELIVERY_CNT] *)
Definition C_DELIVERY_CNT : Z := 19.
(** [src/common/workload/tpcc_const.h:129-129 C_DATA] *)
Definition C_DATA : Z := 20.

(** ** The columns of a history *)

(** [src/common/workload/tpcc_const.h:132-132 H_C_ID] *)
Definition H_C_ID : Z := 0.
(** [src/common/workload/tpcc_const.h:133-133 H_C_D_ID] *)
Definition H_C_D_ID : Z := 1.
(** [src/common/workload/tpcc_const.h:134-134 H_C_W_ID] *)
Definition H_C_W_ID : Z := 2.
(** [src/common/workload/tpcc_const.h:135-135 H_D_ID] *)
Definition H_D_ID : Z := 3.
(** [src/common/workload/tpcc_const.h:136-136 H_W_ID] *)
Definition H_W_ID : Z := 4.
(** [src/common/workload/tpcc_const.h:137-137 H_DATE] *)
Definition H_DATE : Z := 5.
(** [src/common/workload/tpcc_const.h:138-138 H_AMOUNT] *)
Definition H_AMOUNT : Z := 6.
(** [src/common/workload/tpcc_const.h:139-139 H_DATA] *)
Definition H_DATA : Z := 7.

(** ** The columns of a new order *)

(** [src/common/workload/tpcc_const.h:142-142 NO_O_ID] *)
Definition NO_O_ID : Z := 0.
(** [src/common/workload/tpcc_const.h:143-143 NO_D_ID] *)
Definition NO_D_ID : Z := 1.
(** [src/common/workload/tpcc_const.h:144-144 NO_W_ID] *)
Definition NO_W_ID : Z := 2.

(** ** The columns of an order *)

(** [src/common/workload/tpcc_const.h:147-147 O_ID] *)
Definition O_ID : Z := 0.
(** [src/common/workload/tpcc_const.h:148-148 O_C_ID] *)
Definition O_C_ID : Z := 1.
(** [src/common/workload/tpcc_const.h:149-149 O_D_ID] *)
Definition O_D_ID : Z := 2.
(** [src/common/workload/tpcc_const.h:150-150 O_W_ID] *)
Definition O_W_ID : Z := 3.
(** [src/common/workload/tpcc_const.h:151-151 O_ENTRY_D] *)
Definition O_ENTRY_D : Z := 4.
(** [src/common/workload/tpcc_const.h:152-152 O_CARRIER_ID] *)
Definition O_CARRIER_ID : Z := 5.
(** [src/common/workload/tpcc_const.h:153-153 O_OL_CNT] *)
Definition O_OL_CNT : Z := 6.
(** [src/common/workload/tpcc_const.h:154-154 O_ALL_LOCAL] *)
Definition O_ALL_LOCAL : Z := 7.

(** ** The columns of an order line *)

(** [src/common/workload/tpcc_const.h:157-157 OL_O_ID] *)
Definition OL_O_ID : Z := 0.
(** [src/common/workload/tpcc_const.h:158-158 OL_D_ID] *)
Definition OL_D_ID : Z := 1.
(** [src/common/workload/tpcc_const.h:159-159 OL_W_ID] *)
Definition OL_W_ID : Z := 2.
(** [src/common/workload/tpcc_const.h:160-160 OL_NUMBER] *)
Definition OL_NUMBER : Z := 3.
(** [src/common/workload/tpcc_const.h:161-161 OL_I_ID] *)
Definition OL_I_ID : Z := 4.
(** [src/common/workload/tpcc_const.h:162-162 OL_SUPPLY_W_ID] *)
Definition OL_SUPPLY_W_ID : Z := 5.
(** [src/common/workload/tpcc_const.h:163-163 OL_DELIVERY_D] *)
Definition OL_DELIVERY_D : Z := 6.
(** [src/common/workload/tpcc_const.h:164-164 OL_QUANTITY] *)
Definition OL_QUANTITY : Z := 7.
(** [src/common/workload/tpcc_const.h:165-165 OL_AMOUNT] *)
Definition OL_AMOUNT : Z := 8.
(** [src/common/workload/tpcc_const.h:166-166 OL_DIST_INFO] *)
Definition OL_DIST_INFO : Z := 9.

(** ** The columns of an item *)

(** [src/common/workload/tpcc_const.h:169-169 I_ID] *)
Definition I_ID : Z := 0.
(** [src/common/workload/tpcc_const.h:170-170 I_IM_ID] *)
Definition I_IM_ID : Z := 1.
(** [src/common/workload/tpcc_const.h:171-171 I_NAME] *)
Definition I_NAME : Z := 2.
(** [src/common/workload/tpcc_const.h:172-172 I_PRICE] *)
Definition I_PRICE : Z := 3.
(** [src/common/workload/tpcc_const.h:173-173 I_DATA] *)
Definition I_DATA : Z := 4.

(** ** The columns of a stock *)

(** [src/common/workload/tpcc_const.h:176-176 S_I_ID] *)
Definition S_I_ID : Z := 0.
(** [src/common/workload/tpcc_const.h:177-177 S_W_ID] *)
Definition S_W_ID : Z := 1.
(** [src/common/workload/tpcc_const.h:178-178 S_QUANTITY] *)
Definition S_QUANTITY : Z := 2.
(** [src/common/workload/tpcc_const.h:179-179 S_DIST_01] *)
Definition S_DIST_01 : Z := 3.
(** [src/common/workload/tpcc_const.h:180-180 S_DIST_02] *)
Definition S_DIST_02 : Z := 4.
(** [src/common/workload/tpcc_const.h:181-181 S_DIST_03] *)
Definition S_DIST_03 : Z := 5.
(** [src/common/workload/tpcc_const.h:182-182 S_DIST_04] *)
Definition S_DIST_04 : Z := 6.
(** [src/common/workload/tpcc_const.h:183-183 S_DIST_05] *)
Definition S_DIST_05 : Z := 7.
(** [src/common/workload/tpcc_const.h:184-184 S_DIST_06] *)
Definition S_DIST_06 : Z := 8.
(** [src/common/workload/tpcc_const.h:185-185 S_DIST_07] *)
Definition S_DIST_07 : Z := 9.
(** [src/common/workload/tpcc_const.h:186-186 S_DIST_08] *)
Definition S_DIST_08 : Z := 10.
(** [src/common/workload/tpcc_const.h:187-187 S_DIST_09] *)
Definition S_DIST_09 : Z := 11.
(** [src/common/workload/tpcc_const.h:188-188 S_DIST_10] *)
Definition S_DIST_10 : Z := 12.
(** [src/common/workload/tpcc_const.h:189-189 S_YTD] *)
Definition S_YTD : Z := 13.
(** [src/common/workload/tpcc_const.h:190-190 S_ORDER_CNT] *)
Definition S_ORDER_CNT : Z := 14.
(** [src/common/workload/tpcc_const.h:191-191 S_REMOTE_CNT] *)
Definition S_REMOTE_CNT : Z := 15.
(** [src/common/workload/tpcc_const.h:192-192 S_DATA] *)
Definition S_DATA : Z := 16.
