(* ===== verification/TpccQuery.v ===== *)
(** * db2: TPC-C queries ([instance/benchmarks/tpcc_query.cpp])

    The parameters of payment, new-order and order-status transactions are drawn
    from the generator of the home warehouse.  Warehouses are drawn again until
    one differs from the home warehouse, items that occur twice are removed, and
    the partitions that will be accessed are collected. *)

From S2P Require Import Prelude Config Tpcc.

(** [src/config.h:116-116 FIRST_PART_LOCAL] *)
Definition FIRST_PART_LOCAL : bool := true.

(** [src/config.h:142-147 TPCCTxnType] *)
Inductive TPCCTxnType := TPCC_ALL | TPCC_PAYMENT | TPCC_NEW_ORDER | TPCC_ORDER_STATUS | TPCC_DELIVERY | TPCC_STOCK_LEVEL.

(** [src/instance/benchmarks/tpcc_query.h:11-15 Item_no] *)
Record Item_no := mkItem {
  ol_i_id : Z;
  ol_supply_w_id : Z;
  ol_quantity : Z;
}.

(** [h_amount] is a double that holds an integer up to 5000.  The array
    [part_to_access] is the list of its first [part_num] entries.
    [src/instance/benchmarks/tpcc_query.h:17-47 tpcc_query] *)
Record tpcc_query := mkQuery {
  type : TPCCTxnType;
  w_id : Z;
  d_id : Z;
  c_id : Z;
  d_w_id : Z;
  c_w_id : Z;
  c_d_id : Z;
  c_last : bytes;
  h_amount : Z;
  by_last_name : bool;
  items : list Item_no;
  rbk : bool;
  remote : bool;
  ol_cnt : Z;
  o_entry_d : Z;
  part_to_access : list Z;
}.

Section TpccQuery.
Context (g_num_wh g_part_cnt : Z) (fuel : nat).

(** The generator of a warehouse. *)
Definition gen_of (w_id : Z) : Z := u64 (w_id - 1).

(** [src/instance/benchmarks/tpcc_query.cpp:22-25 w_id] *)
Definition home_warehouse (thd_id : Z) (r : rng) : res (Z * rng) :=
  if g_num_wh =? 0 then Fault DivByZero
  else if FIRST_PART_LOCAL then Ret (thd_id `mod` g_num_wh + 1, r)
  else URand 1 g_num_wh (thd_id `mod` g_num_wh) r.

(** Another warehouse is drawn until it is not the home warehouse.
    [src/instance/benchmarks/tpcc_query.cpp:45-45 c_w_id] *)
Fixpoint other_warehouse (n : nat) (w_id : Z) (r : rng) : res (Z * rng) :=
  match n with
  | O => Fault OutOfFuel
  | S n =>
      '(c_w_id, r) ← URand 1 g_num_wh (gen_of w_id) r;
      if c_w_id =? w_id then other_warehouse n w_id r else Ret (c_w_id, r)
  end.

(** The array has [g_part_cnt] entries. *)
Definition add_part (part : Z) (parts : list Z) : res (list Z) :=
  if Z.of_nat (length parts) <? g_part_cnt then Ret (parts ++ [part]) else Fault OutOfBounds.

(** A customer by last name or by number.
    [src/instance/benchmarks/tpcc_query.cpp:53-61 by_last_name] *)
Definition pick_customer (y w_id : Z) (q : tpcc_query) (r : rng) : res (bool * bytes * Z * rng) :=
  if y <=? 60 then
    '(num, r) ← NURand 255 0 999 (gen_of w_id) r;
    '(_, c_last) ← Lastname num (c_last q);
    Ret (true, c_last, c_id q, r)
  else
    '(c_id, r) ← NURand 1023 1 g_cust_per_dist (gen_of w_id) r;
    Ret (false, c_last q, c_id, r).

(** The district and the warehouse of the customer.
    [src/instance/benchmarks/tpcc_query.cpp:37-52 c_d_id] *)
Definition customer_home (x w_id d_id part_id : Z) (parts : list Z) (r : rng) : res (Z * Z * list Z * rng) :=
  if x <=? 85 then Ret (d_id, w_id, parts, r)
  else
    '(c_d_id, r) ← URand 1 DIST_PER_WARE (gen_of w_id) r;
    if 1 <? g_num_wh then
      '(c_w_id, r) ← other_warehouse fuel w_id r;
      c_part ← wh_to_part g_part_cnt g_num_wh c_w_id;
      parts ← (if part_id =? c_part then Ret parts else add_part c_part parts);
      Ret (c_d_id, c_w_id, parts, r)
    else Ret (c_d_id, w_id, parts, r).

(** [src/instance/benchmarks/tpcc_query.cpp:20-62 gen_payment] *)
Definition gen_payment (thd_id : Z) (q : tpcc_query) (r : rng) : res (tpcc_query * rng) :=
  '(w_id, r) ← home_warehouse thd_id r;
  part_id ← wh_to_part g_part_cnt g_num_wh w_id;
  parts ← add_part part_id [];
  '(d_id, r) ← URand 1 DIST_PER_WARE (gen_of w_id) r;
  '(h_amount, r) ← URand 1 5000 (gen_of w_id) r;
  '(x, r) ← URand 1 100 (gen_of w_id) r;
  '(y, r) ← URand 1 100 (gen_of w_id) r;
  '(c_d_id, c_w_id, parts, r) ← customer_home x w_id d_id part_id parts r;
  '(by_last_name, c_last, c_id, r) ← pick_customer y w_id q r;
  Ret (mkQuery TPCC_PAYMENT w_id d_id c_id w_id c_w_id c_d_id c_last h_amount by_last_name
         (items q) (rbk q) (remote q) (ol_cnt q) (o_entry_d q) parts, r).

(** One line of an order and whether its supplier is another warehouse.
    [src/instance/benchmarks/tpcc_query.cpp:80-90 oid] *)
Definition gen_item (w_id : Z) (st : list Item_no * bool * rng) (oid : nat) : res (list Item_no * bool * rng) :=
  let '(items, remote, r) := st in
  '(i_id, r) ← NURand 8191 1 g_max_items (gen_of w_id) r;
  '(x, r) ← URand 1 100 (gen_of w_id) r;
  '(supply, remote, r) ←
    (if (1 <? x) || (g_num_wh =? 1) then Ret (w_id, remote, r)
     else '(s, r) ← other_warehouse fuel w_id r; Ret (s, true, r));
  '(quantity, r) ← URand 1 10 (gen_of w_id) r;
  Ret (items ++ [mkItem i_id supply quantity], remote, r).

(** [items[k] = items[k + 1]] for [k] from [i] to the end of the [cnt] items.
    [src/instance/benchmarks/tpcc_query.cpp:95-96 k] *)
Definition shift_items (i cnt : nat) (items : list Item_no) : res (list Item_no) :=
  foldM (fun items k => it ← at_ (items !! S k); Ret (<[k := it]> items)) items (seq i (cnt - 1 - i)).

(** The loop over [j]; an item that is removed changes [i] and the number of
    items under it.
    [src/instance/benchmarks/tpcc_query.cpp:93-100 j] *)
Fixpoint drop_dups_at (n : nat) (j i cnt : nat) (items : list Item_no) : res (nat * nat * list Item_no) :=
  match n with
  | O => Fault OutOfFuel
  | S n =>
      if (j <? i)%nat then
        a ← at_ (items !! i);
        b ← at_ (items !! j);
        if ol_i_id a =? ol_i_id b then
          items ← shift_items i cnt items;
          drop_dups_at n (S j) (i - 1) (cnt - 1) items
        else drop_dups_at n (S j) i cnt items
      else Ret (i, cnt, items)
  end.

(** [src/instance/benchmarks/tpcc_query.cpp:92-101 i] *)
Fixpoint drop_dups (n : nat) (i cnt : nat) (items : list Item_no) : res (nat * list Item_no) :=
  match n with
  | O => Fault OutOfFuel
  | S n =>
      if (i <? cnt)%nat then
        '(i, cnt, items) ← drop_dups_at (S i) 0 i cnt items;
        drop_dups n (S i) cnt items
      else Ret (cnt, items)
  end.

(** [src/instance/benchmarks/tpcc_query.cpp:102-104 ol_cnt] *)
Definition assert_distinct (cnt : nat) (items : list Item_no) : res unit :=
  foldM (fun _ i => foldM (fun _ j =>
    a ← at_ (items !! i); b ← at_ (items !! j); assert! negb (ol_i_id a =? ol_i_id b); Ret tt) tt (seq 0 i)) tt (seq 0 cnt).

(** [src/instance/benchmarks/tpcc_query.cpp:106-113 part_num] *)
Definition add_item_part (items : list Item_no) (parts : list Z) (i : nat) : res (list Z) :=
  it ← at_ (items !! i);
  p ← wh_to_part g_part_cnt g_num_wh (ol_supply_w_id it);
  if existsb (Z.eqb p) parts then Ret parts else add_part p parts.

(** The number of items is at most 15.  [rbk] is true for every number drawn.
    [src/instance/benchmarks/tpcc_query.cpp:64-114 gen_new_order] *)
Definition gen_new_order (thd_id : Z) (q : tpcc_query) (r : rng) : res (tpcc_query * rng) :=
  '(w_id, r) ← home_warehouse thd_id r;
  '(d_id, r) ← URand 1 DIST_PER_WARE (gen_of w_id) r;
  '(c_id, r) ← NURand 1023 1 g_cust_per_dist (gen_of w_id) r;
  '(rbk, r) ← URand 1 100 (gen_of w_id) r;
  '(ol_cnt, r) ← URand 5 15 (gen_of w_id) r;
  part_id ← wh_to_part g_part_cnt g_num_wh w_id;
  parts ← add_part part_id [];
  let n := Z.to_nat ol_cnt in
  '(items, remote, r) ← foldM (gen_item w_id) ([], false, r) (seq 0 n);
  '(cnt, items) ← drop_dups (S n) 0 n items;
  _ ← assert_distinct cnt items;
  parts ← foldM (add_item_part items) parts (seq 0 cnt);
  Ret (mkQuery TPCC_NEW_ORDER w_id d_id c_id (d_w_id q) (c_w_id q) (c_d_id q) (c_last q) (h_amount q) (by_last_name q)
         items (negb (rbk =? 0)) remote (Z.of_nat cnt) 2013 parts, r).

(** [src/instance/benchmarks/tpcc_query.cpp:116-135 gen_order_status] *)
Definition gen_order_status (thd_id : Z) (q : tpcc_query) (r : rng) : res (tpcc_query * rng) :=
  '(w_id, r) ← home_warehouse thd_id r;
  '(d_id, r) ← URand 1 DIST_PER_WARE (gen_of w_id) r;
  '(y, r) ← URand 1 100 (gen_of w_id) r;
  '(by_last_name, c_last, c_id, r) ← pick_customer y w_id q r;
  Ret (mkQuery TPCC_ORDER_STATUS w_id d_id c_id (d_w_id q) w_id d_id c_last (h_amount q) by_last_name
         (items q) (rbk q) (remote q) (ol_cnt q) (o_entry_d q) (part_to_access q), r).

(** [below] is the comparison of a number of hundredths with [g_perc_payment],
    [rand] what [rand()] returns.
    [src/instance/benchmarks/tpcc_query.cpp:10-18 tpcc_query::init] *)
Definition init (below : Z -> bool) (rand thd_id : Z) (q : tpcc_query) (r : rng) : res (tpcc_query * rng) :=
  if below (rand `mod` 100) then gen_payment thd_id q r else gen_new_order thd_id q r.
End TpccQuery.

(** ** The generator does not get stuck *)

Definition lcg (x : Z) : Z := (25214903917 * x + 11) `mod` 2 ^ 48.

Lemma lcg_range (x : Z) : 0 <= lcg x < 2 ^ 48.
Proof. apply Z.mod_pos_bound. lia. Qed.

(** 2^k steps are one affine step whose factor is 1 in its lowest k + 2 bits
    and whose constant has exactly k trailing zeros. *)
Lemma lcg_double (k : nat) :
  exists a c, forall x, exists q,
    Nat.iter (2 ^ k) lcg x = x + 2 ^ Z.of_nat k * (4 * a * x + 2 * c + 1) + 2 ^ 48 * q.
Proof.
  induction k as [|k (a & c & IH)].
  - exists 6303725979, 5. intros x. exists (- ((25214903917 * x + 11) / 2 ^ 48)). cbn [Nat.pow Nat.iter nat_rect Nat.mul]. unfold lcg.
    rewrite Z.mod_eq by lia. change (Z.of_nat 0) with 0. lia.
  - set (P := 2 ^ Z.of_nat k) in *. assert (2 ^ Z.of_nat (S k) = 2 * P) as -> by (unfold P; rewrite Nat2Z.inj_succ, Z.pow_succ_r; lia).
    exists (a + 2 * P * a * a), (c + P * a * (2 * c + 1)). intros x. rewrite Nat.pow_succ_r'.
    replace (2 * 2 ^ k)%nat with (2 ^ k + 2 ^ k)%nat by lia. rewrite Nat.iter_add.
    destruct (IH x) as [q ->]. destruct (IH (x + P * (4 * a * x + 2 * c + 1) + 2 ^ 48 * q)) as [q' ->].
    exists (q' + q + 4 * P * a * q). ring.
Qed.

(** In 2^47 steps the highest bit changes, in 2^17 steps the lowest bit that is
    returned does. *)
Lemma lcg_flip (k : nat) (x : Z) :
  (k < 48)%nat -> Nat.iter (2 ^ k) lcg x `mod` 2 ^ (Z.of_nat k + 1) = (x + 2 ^ Z.of_nat k) `mod` 2 ^ (Z.of_nat k + 1).
Proof.
  intros Hk. destruct (lcg_double k) as (a & c & Hi). destruct (Hi x) as [q ->].
  rewrite Z.pow_add_r by lia. set (P := 2 ^ Z.of_nat k).
  assert (2 ^ 48 = P * 2 * 2 ^ (47 - Z.of_nat k)) as ->.
  { unfold P. rewrite (Z.mul_comm _ 2), <- Z.pow_succ_r, <- Z.pow_add_r by lia. f_equal. lia. }
  replace (x + P * (4 * a * x + 2 * c + 1) + P * 2 * 2 ^ (47 - Z.of_nat k) * q)
    with ((x + P) + (2 * a * x + c + 2 ^ (47 - Z.of_nat k) * q) * (P * 2 ^ 1)) by ring.
  apply Z.mod_add. unfold P. lia.
Qed.

(** What is drawn: the upper 31 bits of the state. *)
Definition drawn (x : Z) : Z := x / 2 ^ 17.

Lemma iter_lcg_range (n : nat) (x : Z) : 0 <= x < 2 ^ 48 -> 0 <= Nat.iter n lcg x < 2 ^ 48.
Proof. destruct n as [|n]; [done|]. intros _. apply lcg_range. Qed.

Lemma drawn_flip_top (k : nat) (x : Z) : Z.of_nat k = 47 -> 0 <= x < 2 ^ 48 ->
  drawn (Nat.iter (2 ^ k) lcg x) = drawn x + 2 ^ 30 \/ drawn (Nat.iter (2 ^ k) lcg x) = drawn x - 2 ^ 30.
Proof.
  intros Hk Hx. pose proof (lcg_flip k x ltac:(lia)) as Hf. pose proof (iter_lcg_range (2 ^ k) x Hx) as Hy. rewrite Hk in Hf.
  generalize dependent (Nat.iter (2 ^ k) lcg x). intros y Hf Hy. clear Hk.
  change (2 ^ (47 + 1)) with 281474976710656 in Hf. change (2 ^ 47) with 140737488355328 in Hf.
  change (2 ^ 48) with 281474976710656 in *. unfold drawn. change (2 ^ 17) with 131072. change (2 ^ 30) with 1073741824.
  rewrite (Z.mod_small y) in Hf by lia. Z.to_euclidean_division_equations. lia.
Qed.

Lemma drawn_flip_low (k : nat) (x : Z) : Z.of_nat k = 17 -> drawn (Nat.iter (2 ^ k) lcg x) `mod` 2 <> drawn x `mod` 2.
Proof.
  intros Hk. pose proof (lcg_flip k x ltac:(lia)) as Hf. rewrite Hk in Hf.
  generalize dependent (Nat.iter (2 ^ k) lcg x). intros y Hf. clear Hk.
  change (2 ^ (17 + 1)) with 262144 in Hf. change (2 ^ 17) with 131072 in Hf.
  unfold drawn. change (2 ^ 17) with 131072 in *. Z.to_euclidean_division_equations. lia.
Qed.

Lemma odd_divides_pow (m j : Z) (e : nat) : m = 2 * j + 1 -> (m | 2 ^ Z.of_nat e) -> (m | 1).
Proof.
  intros Hm. induction e as [|e IH]; [done|]. rewrite Nat2Z.inj_succ, Z.pow_succ_r by lia. intros [q Hq]. apply IH.
  destruct (Z.Even_or_Odd q) as [[q' ->]|[q' ->]]; [exists q'; lia|].
  assert ((2 * q' + 1) * m = 2 * (q' * m + j) + 1) as Hodd by (subst m; ring). lia.
Qed.

(** Whatever is drawn modulo [m], something else is drawn within 2^47 draws. *)
Lemma drawn_changes (m x : Z) :
  2 <= m -> 0 <= x < 2 ^ 48 ->
  exists k, (k <= 47)%nat /\ drawn (Nat.iter (2 ^ k) lcg x) `mod` m <> drawn x `mod` m.
Proof.
  intros Hm Hx. destruct (Z.Even_or_Odd m) as [[j Hj]|[j Hj]].
  - remember 17%nat as k eqn:Hk. exists k. split; [lia|]. pose proof (drawn_flip_low k x ltac:(lia)) as Hne. intros Heq. apply Hne.
    rewrite !(Z.mod_eq _ m) in Heq by lia. clear Hne.
    generalize dependent (drawn (Nat.iter (2 ^ k) lcg x)). intros y Heq.
    replace y with (drawn x + (j * (y / m - drawn x / m)) * 2) by lia. apply Z.mod_add. lia.
  - remember 47%nat as k eqn:Hk. exists k. split; [lia|]. intros Heq. assert ((m | 2 ^ Z.of_nat 30)) as Hdiv.
    { rewrite !(Z.mod_eq _ m) in Heq by lia. destruct (drawn_flip_top k x ltac:(lia) Hx) as [Hy|Hy];
        generalize dependent (drawn (Nat.iter (2 ^ k) lcg x)); intros y Heq Hy.
      - exists (y / m - drawn x / m). lia.
      - exists (drawn x / m - y / m). lia. }
    apply (odd_divides_pow m j 30 Hj) in Hdiv. apply Z.divide_1_r_nonneg in Hdiv; lia.
Qed.

(** ** Removing items that occur twice *)

Definition ids (l : list Item_no) : list Z := ol_i_id <$> l.

(** The items whose number has not been seen before, in their order. *)
Fixpoint first_of_each (seen : list Z) (l : list Item_no) : list Item_no :=
  match l with
  | [] => []
  | it :: l => if decide (ol_i_id it ∈ seen) then first_of_each seen l else it :: first_of_each (seen ++ [ol_i_id it]) l
  end.

Lemma first_of_each_spec (seen : list Z) (l : list Item_no) :
  NoDup (ids (first_of_each seen l)) /\ (forall it, it ∈ first_of_each seen l -> it ∈ l /\ ol_i_id it ∉ seen)
  /\ forall i, i ∈ ids l -> i ∈ seen \/ i ∈ ids (first_of_each seen l).
Proof.
  revert seen. induction l as [|x l IH]; intros seen; cbn.
  { split; [constructor|]. split; [by intros it ?%elem_of_nil|by intros i ?%elem_of_nil]. }
  case_decide as Hx.
  - destruct (IH seen) as (H1 & H2 & H3). split; [done|]. split.
    + intros it Hit. destruct (H2 it Hit). split; [by apply elem_of_cons; right|done].
    + intros i [->|Hi]%elem_of_cons; [by left|auto].
  - destruct (IH (seen ++ [ol_i_id x])) as (H1 & H2 & H3). split; [|split].
    + cbn. apply list.NoDup_cons. split; [|done]. intros (it & Heq & Hit)%list_elem_of_fmap. destruct (H2 it Hit) as [_ Hn].
      apply Hn, elem_of_app. right. apply list_elem_of_singleton. by symmetry.
    + intros it [->|Hit]%elem_of_cons; [split; [by apply elem_of_cons; left|done]|].
      destruct (H2 it Hit) as [? Hn]. split; [by apply elem_of_cons; right|]. intros Hs. apply Hn, elem_of_app. by left.
    + intros i [->|Hi]%elem_of_cons; [right; by apply elem_of_cons; left|].
      destruct (H3 i Hi) as [[?|?%list_elem_of_singleton]%elem_of_app|?]; [by left|right; apply elem_of_cons; by left|right; apply elem_of_cons; by right].
Qed.

Lemma first_of_each_length (seen : list Z) (l : list Item_no) : (length (first_of_each seen l) <= length l)%nat.
Proof.
  revert seen. induction l as [|x l IH]; intros seen; [done|]. cbn. case_decide; [|cbn; specialize (IH (seen ++ [ol_i_id x])); lia].
  specialize (IH seen). lia.
Qed.

Lemma shift_loop (m i : nat) (items : list Item_no) :
  (i + m < length items)%nat ->
  exists items', foldM (fun items k => it ← at_ (items !! S k); Ret (<[k := it]> items)) items (seq i m) = Ret items'
    /\ length items' = length items
    /\ forall j, items' !! j = if decide (i <= j < i + m)%nat then items !! S j else items !! j.
Proof.
  revert i items. induction m as [|m IH]; intros i items Hlen; cbn.
  { exists items. split; [done|]. split; [done|]. intros j. by rewrite decide_False by lia. }
  destruct (lookup_lt_is_Some_2 items (S i)) as [it Hit]; [lia|]. rewrite Hit. cbn [at_ mbind res_bind].
  destruct (IH (S i) (<[i := it]> items)) as (items' & -> & Hl & Hj); [rewrite length_insert; lia|].
  exists items'. split; [done|]. split; [by rewrite Hl, length_insert|]. intros j. rewrite Hj.
  destruct (decide (j = i)) as [->|Hne].
  - rewrite decide_False, decide_True, list_lookup_insert_eq by lia. done.
  - repeat case_decide; try lia; by rewrite list_lookup_insert_ne by lia.
Qed.

Lemma shift_items_spec (i cnt : nat) (items : list Item_no) :
  (i < cnt <= length items)%nat ->
  exists items', shift_items i cnt items = Ret items' /\ length items' = length items
    /\ take i items' = take i items /\ drop i (take (cnt - 1) items') = drop (S i) (take cnt items).
Proof.
  intros Hi. destruct (shift_loop (cnt - 1 - i) i items) as (items' & Hs & Hl & Hj); [lia|].
  exists items'. split; [done|]. split; [done|]. split; apply list_eq; intros j.
  - destruct (decide (j < i)%nat); [|by rewrite !lookup_take_ge by lia].
    rewrite !lookup_take_lt, Hj by lia. by rewrite decide_False by lia.
  - rewrite !lookup_drop. destruct (decide (i + j < cnt - 1)%nat); [|by rewrite !lookup_take_ge by lia].
    rewrite !lookup_take_lt, Hj by lia. by rewrite decide_True by lia.
Qed.

(** Nothing is removed when no item before [i] has its number. *)
Lemma drop_dups_none (n j i cnt : nat) (items : list Item_no) :
  (i - j < n)%nat ->
  (forall j', (j <= j' < i)%nat -> exists a b, items !! i = Some a /\ items !! j' = Some b /\ ol_i_id a <> ol_i_id b) ->
  drop_dups_at n j i cnt items = Ret (i, cnt, items).
Proof.
  revert j. induction n as [|n IH]; intros j Hn Hd; [lia|]. cbn [drop_dups_at]. destruct (Nat.ltb_spec j i); [|done].
  destruct (Hd j) as (a & b & -> & -> & Hne); [lia|]. cbn [at_ mbind res_bind]. destruct (Z.eqb_spec (ol_i_id a) (ol_i_id b)); [congruence|].
  apply IH; [lia|]. intros j' Hj'. apply Hd. lia.
Qed.

Lemma ids_apart (i j j' : nat) (items : list Item_no) (a b : Item_no) :
  NoDup (ids (take i items)) -> (j < i)%nat -> (j' < i)%nat -> j <> j' -> items !! j = Some a -> items !! j' = Some b -> ol_i_id a <> ol_i_id b.
Proof.
  intros Hnd Hj Hj' Hne Ha Hb Heq. apply Hne. apply (list.NoDup_lookup (ids (take i items)) j j' (ol_i_id a) Hnd).
  - unfold ids. rewrite list_lookup_fmap, lookup_take_lt, Ha by lia. done.
  - unfold ids. rewrite list_lookup_fmap, lookup_take_lt, Hb by lia. by rewrite Heq.
Qed.

(** The item [i] is removed when one before it has its number. *)
Lemma drop_dups_one (n j j0 i cnt : nat) (items : list Item_no) (x y : Item_no) :
  (i - j < n)%nat -> (j <= j0 < i)%nat -> (i < cnt <= length items)%nat -> NoDup (ids (take i items)) ->
  items !! i = Some x -> items !! j0 = Some y -> ol_i_id x = ol_i_id y ->
  exists items', drop_dups_at n j i cnt items = Ret ((i - 1)%nat, (cnt - 1)%nat, items') /\ length items' = length items
    /\ take i items' = take i items /\ drop i (take (cnt - 1) items') = drop (S i) (take cnt items).
Proof.
  revert j. induction n as [|n IH]; intros j Hn Hj Hi Hnd Hx Hy Heq; [lia|]. cbn [drop_dups_at]. destruct (Nat.ltb_spec j i); [|lia].
  destruct (lookup_lt_is_Some_2 items j) as [b Hb]; [lia|]. rewrite Hx, Hb. cbn [at_ mbind res_bind].
  destruct (decide (j = j0)) as [->|Hne].
  - assert (b = y) as -> by congruence. destruct (Z.eqb_spec (ol_i_id x) (ol_i_id y)); [|done].
    destruct (shift_items_spec i cnt items Hi) as (items' & -> & Hl & Ht & Hd). cbn [mbind res_bind].
    exists items'. split; [|done]. apply drop_dups_none; [lia|]. intros j' Hj'.
    destruct (lookup_lt_is_Some_2 items (i - 1)) as [a Ha]; [lia|]. destruct (lookup_lt_is_Some_2 items j') as [c Hc]; [lia|].
    assert (forall k, (k < i)%nat -> items' !! k = items !! k) as Hsame.
    { intros k Hk. by rewrite <- (lookup_take_lt items' i), Ht, lookup_take_lt by lia. }
    exists a, c. rewrite !Hsame by lia. split; [done|]. split; [done|]. by apply (ids_apart i (i - 1) j' items); try lia.
  - destruct (Z.eqb_spec (ol_i_id x) (ol_i_id b)) as [Hxb|_]; [|apply IH; try done; lia].
    exfalso. apply (ids_apart i j j0 items b y Hnd); try done; try lia; congruence.
Qed.

Lemma drop_dups_ok (n i cnt : nat) (items : list Item_no) :
  (cnt - i < n)%nat -> (i <= cnt <= length items)%nat -> NoDup (ids (take i items)) ->
  exists cnt' items', drop_dups n i cnt items = Ret (cnt', items') /\ (cnt' <= length items')%nat
    /\ take cnt' items' = take i items ++ first_of_each (ids (take i items)) (drop i (take cnt items)).
Proof.
  revert i cnt items. induction n as [|n IH]; intros i cnt items Hn Hi Hnd; [lia|]. cbn [drop_dups]. destruct (Nat.ltb_spec i cnt) as [Hlt|Hge].
  2: { exists cnt, items. split; [done|]. split; [lia|]. assert (i = cnt) as -> by lia.
       rewrite drop_ge by (rewrite length_take; lia). cbn. by rewrite app_nil_r. }
  destruct (lookup_lt_is_Some_2 items i) as [x Hx]; [lia|].
  assert (drop i (take cnt items) = x :: drop (S i) (take cnt items)) as Hdrop.
  { apply drop_S. by rewrite lookup_take_lt. }
  rewrite Hdrop. cbn [first_of_each]. destruct (decide (ol_i_id x ∈ ids (take i items))) as [Hin|Hout].
  - apply list_elem_of_fmap in Hin as (y & Hxy & (j0 & Hy)%list_elem_of_lookup).
    apply lookup_take_Some in Hy as [Hy Hj0].
    destruct (drop_dups_one (S i) 0 j0 i cnt items x y) as (items' & -> & Hl & Ht & Hd); try done; try lia.
    cbn [mbind res_bind]. replace (S (i - 1)) with i by lia.
    destruct (IH i (cnt - 1)%nat items') as (cnt' & items2 & -> & Hc & Hr); [lia|lia|by rewrite Ht|].
    exists cnt', items2. split; [done|]. split; [done|]. by rewrite Hr, Ht, Hd.
  - rewrite drop_dups_none; [|lia|].
    2: { intros j' Hj'. destruct (lookup_lt_is_Some_2 items j') as [b Hb]; [lia|]. exists x, b. split; [done|]. split; [done|].
         intros Heq. apply Hout. rewrite Heq. apply list_elem_of_fmap_2, list_elem_of_lookup. exists j'. by rewrite lookup_take_lt by lia. }
    cbn [mbind res_bind]. assert (take (S i) items = take i items ++ [x]) as Htake by (by apply take_S_r).
    destruct (IH (S i) cnt items) as (cnt' & items2 & -> & Hc & Hr); [lia|lia| |].
    { rewrite Htake. unfold ids. rewrite fmap_app. apply list.NoDup_app. split; [done|]. split; [|apply NoDup_singleton].
      intros k Hk ->%list_elem_of_singleton. done. }
    exists cnt', items2. split; [done|]. split; [done|]. rewrite Hr, Htake, <- app_assoc. unfold ids. by rewrite fmap_app.
Qed.

(** The loops that remove duplicate items, which change the indices they run
    over, end within their arrays and keep the first item of each number, in order,
    and nothing else. *)
Theorem drop_dups_first (items : list Item_no) :
  exists cnt items', drop_dups (S (length items)) 0 (length items) items = Ret (cnt, items')
    /\ (cnt <= length items')%nat /\ take cnt items' = first_of_each [] items.
Proof.
  destruct (drop_dups_ok (S (length items)) 0 (length items) items) as (cnt & items' & Hd & Hc & Ht); [lia|lia|constructor|].
  exists cnt, items'. split; [done|]. split; [done|]. rewrite Ht. cbn. by rewrite firstn_all.
Qed.

(** ** Draws *)

Definition gen_ok (w : Z) (r : rng) : Prop := seeded (gen_of w) r /\ consts_ok r.

Lemma URand_ok (w x y : Z) (r : rng) :
  gen_ok w r -> 0 <= x <= y -> y < 2 ^ 62 ->
  exists v r', URand x y (gen_of w) r = Ret (v, r') /\ x <= v <= y /\ gen_ok w r'.
Proof.
  intros [Hs Hc] Hxy Hy. destruct (URand_spec x y (gen_of w) r Hs Hxy ltac:(lia)) as (v & r' & -> & Hv & Hs' & (E1 & E2 & E3)).
  exists v, r'. split; [done|]. split; [done|]. split; [done|]. unfold consts_ok. by rewrite E1, E2, E3.
Qed.

Lemma NURand_ok (w A x y : Z) (r : rng) :
  gen_ok w r -> A = 255 \/ A = 1023 \/ A = 8191 -> 0 <= x <= y -> y < 2 ^ 62 ->
  exists v r', NURand A x y (gen_of w) r = Ret (v, r') /\ x <= v <= y /\ gen_ok w r'.
Proof.
  intros [Hs Hc] HA Hxy Hy. destruct (nurand_range A x y (gen_of w) r Hs Hc HA Hxy Hy) as (v & r' & c & -> & Hv & Hs' & Hc' & _).
  exists v, r'. split; [done|]. split; [done|]. by split.
Qed.

(** Takes one draw of a chain of binds. *)
Ltac draw spec v r Hv Hr :=
  destruct spec as (v & r & -> & Hv & Hr); [try done; try (unfold DIST_PER_WARE, g_cust_per_dist, g_max_items; lia)..|];
  cbn [mbind res_bind].

Section Queries.
Context (g_num_wh g_part_cnt : Z).
Hypothesis Hcnt : 1 <= g_part_cnt <= g_num_wh.
Hypothesis Hwh : g_num_wh < 2 ^ 32.

Lemma URand_lcg (w x : Z) (r : rng) :
  0 <= gen_of w -> tpcc_buffer r !! Z.to_nat (gen_of w) = Some (Some x) ->
  URand 1 g_num_wh (gen_of w) r
    = Ret (1 + drawn (lcg x) `mod` g_num_wh, with_buffer (<[Z.to_nat (gen_of w) := Some (lcg x)]> (tpcc_buffer r)) r).
Proof using Hcnt Hwh.
  intros Hw Hx. unfold URand, RAND. guard_true. rewrite Hx. cbn [at_ deref mbind res_bind]. unfold lrand48_r. cbv zeta.
  rewrite (u64_id (g_num_wh - 1 + 1)) by (unfold is_u64; lia). destruct (Z.eqb_spec (g_num_wh - 1 + 1) 0); [lia|].
  cbn [mbind res_bind]. replace (g_num_wh - 1 + 1) with g_num_wh by lia. unfold drawn, lcg.
  rewrite u64_id; [done|]. pose proof (Z.mod_pos_bound ((25214903917 * x + 11) `mod` 2 ^ 48 / 2 ^ 17) g_num_wh). unfold is_u64. lia.
Qed.

Lemma other_warehouse_at (w : Z) (n i : nat) (x : Z) (r : rng) :
  gen_ok w r -> tpcc_buffer r !! Z.to_nat (gen_of w) = Some (Some x) -> (i < n)%nat ->
  1 + drawn (Nat.iter (S i) lcg x) `mod` g_num_wh <> w ->
  exists v r', other_warehouse g_num_wh n w r = Ret (v, r') /\ (1 <= v <= g_num_wh /\ v <> w) /\ gen_ok w r'.
Proof using Hcnt Hwh.
  revert i x r. induction n as [|n IH]; intros i x r Hok Hx Hi Hne; [lia|]. cbn [other_warehouse].
  destruct (URand_ok w 1 g_num_wh r Hok) as (v & r' & Hu & Hv & Hok'); [lia|lia|]. rewrite Hu. cbn [mbind res_bind].
  rewrite (URand_lcg w x r (proj1 (proj1 Hok)) Hx) in Hu. injection Hu as <- <-.
  destruct (Z.eqb_spec (1 + drawn (lcg x) `mod` g_num_wh) w) as [Heq|Hneq]; [|by eexists _, _].
  destruct i as [|i]; [done|]. apply (IH i (lcg x)); [done| |lia|by rewrite <- Nat.iter_succ_r].
  cbn. apply list_lookup_insert_eq. by apply lookup_lt_Some in Hx.
Qed.

(** ** Partitions *)

Definition part (w : Z) : Z := w `mod` g_part_cnt.

Lemma wh_to_part_ok (w : Z) : wh_to_part g_part_cnt g_num_wh w = Ret (part w).
Proof using Hcnt.
  unfold wh_to_part. destruct (Z.leb_spec g_part_cnt g_num_wh); [|lia]. by destruct (Z.eqb_spec g_part_cnt 0); [lia|].
Qed.

(** The partitions collected: distinct, and those of the warehouses [ws]. *)
Definition parts_of (ws parts : list Z) : Prop := NoDup parts /\ forall p, p ∈ parts <-> p ∈ part <$> ws.

Lemma parts_fit (parts : list Z) : NoDup parts -> (forall p, p ∈ parts -> 0 <= p < g_part_cnt) -> Z.of_nat (length parts) <= g_part_cnt.
Proof using Hcnt.
  intros Hnd Hr. assert (parts ⊆+ seqZ 0 g_part_cnt) as Hs.
  { apply NoDup_submseteq; [done|]. intros p Hp. apply elem_of_seqZ. specialize (Hr p Hp). lia. }
  apply submseteq_length in Hs. rewrite length_seqZ in Hs. lia.
Qed.

Lemma parts_of_range (ws parts : list Z) : parts_of ws parts -> Z.of_nat (length parts) <= g_part_cnt.
Proof using Hcnt.
  intros [Hnd Hin]. apply parts_fit; [done|]. intros p Hp. apply Hin in Hp. apply list_elem_of_fmap in Hp as (w & -> & _).
  apply Z.mod_pos_bound. lia.
Qed.

(** There is room for a partition that is not there yet. *)
Lemma parts_of_add (ws parts : list Z) (w : Z) :
  parts_of ws parts -> (if existsb (Z.eqb (part w)) parts then Ret parts else add_part g_part_cnt (part w) parts)
    = Ret (if existsb (Z.eqb (part w)) parts then parts else parts ++ [part w])
  /\ parts_of (ws ++ [w]) (if existsb (Z.eqb (part w)) parts then parts else parts ++ [part w]).
Proof using Hcnt.
  intros Hp. assert (existsb (Z.eqb (part w)) parts = true <-> part w ∈ parts) as Hex.
  { rewrite existsb_exists. setoid_rewrite Z.eqb_eq. setoid_rewrite <- list_elem_of_In. naive_solver. }
  destruct (existsb (Z.eqb (part w)) parts) eqn:He.
  - split; [done|]. destruct Hp as [Hnd Hin]. split; [done|]. intros p. rewrite fmap_app, elem_of_app, <- Hin. cbn.
    rewrite list_elem_of_singleton. split; [by left|]. intros [?| ->]; [done|by apply Hex].
  - assert (parts_of (ws ++ [w]) (parts ++ [part w])) as Hnew.
    { destruct Hp as [Hnd Hin]. split.
      - apply list.NoDup_app. split; [done|]. split; [|apply NoDup_singleton]. intros p Hp ->%list_elem_of_singleton. apply Hex in Hp. done.
      - intros p. by rewrite fmap_app, !elem_of_app, Hin. }
    split; [|done]. unfold add_part. pose proof (parts_of_range _ _ Hnew) as Hl. rewrite length_app in Hl. cbn in Hl.
    by destruct (Z.ltb_spec (Z.of_nat (length parts)) g_part_cnt); [|lia].
Qed.

Lemma parts_of_home (w : Z) : add_part g_part_cnt (part w) [] = Ret [part w] /\ parts_of [w] [part w].
Proof using Hcnt.
  split; [|split; [apply NoDup_singleton|by intros p]]. unfold add_part. by destruct (Z.ltb_spec (Z.of_nat (length (@nil Z))) g_part_cnt); [|cbn in *; lia].
Qed.

(** ** Payment and order status *)

(** The home warehouse of a thread. *)
Definition home (thd_id : Z) : Z := thd_id `mod` g_num_wh + 1.

Lemma home_ok (thd_id : Z) (r : rng) : home_warehouse g_num_wh thd_id r = Ret (home thd_id, r) /\ 1 <= home thd_id <= g_num_wh.
Proof using Hcnt.
  unfold home_warehouse, home. pose proof (Z.mod_pos_bound thd_id g_num_wh ltac:(lia)).
  destruct (Z.eqb_spec g_num_wh 0); [lia|]. split; [done|lia].
Qed.

Definition customer_ok (by_name : bool) (name : bytes) (id : Z) : Prop :=
  Z.of_nat (length name) = LASTNAME_LEN
  /\ if by_name then exists num rest, 0 <= num < 1000 /\ name = last_name num ++ Byte.x00 :: rest else 1 <= id <= g_cust_per_dist.

Lemma pick_customer_ok (y w : Z) (q : tpcc_query) (r : rng) :
  gen_ok w r -> Z.of_nat (length (c_last q)) = LASTNAME_LEN ->
  exists b name id r', pick_customer y w q r = Ret (b, name, id, r') /\ customer_ok b name id /\ gen_ok w r'.
Proof.
  clear Hcnt Hwh. intros Hok Hlen. unfold pick_customer. destruct (y <=? 60).
  - draw (NURand_ok w 255 0 999 r Hok (or_introl eq_refl)) num r' Hn Hok'.
    destruct (lastname_spec num (c_last q) Hlen ltac:(lia)) as [Hname _].
    destruct (Hname ltac:(lia)) as (rest & -> & _ & Hl). cbn [mbind res_bind]. eexists _, _, _, _. split; [done|]. split; [|done].
    split; [by rewrite Hl|]. exists num, rest. split; [lia|done].
  - draw (NURand_ok w 1023 1 g_cust_per_dist r Hok (or_intror (or_introl eq_refl))) cust r' Hn Hok'.
    eexists _, _, _, _. split; [done|]. split; [|done]. by split.
Qed.

Context (fuel : nat).
Hypothesis Hfuel : 2 ^ 47 < Z.of_nat fuel.

(** With more than 2^47 draws at hand, another warehouse is found. *)
Lemma other_warehouse_ok (w : Z) (r : rng) :
  gen_ok w r -> 2 <= g_num_wh ->
  exists v r', other_warehouse g_num_wh fuel w r = Ret (v, r') /\ (1 <= v <= g_num_wh /\ v <> w) /\ gen_ok w r'.
Proof using Hcnt Hwh Hfuel.
  intros Hok Hm. pose proof Hok as [[_ [x Hx]] _].
  destruct (decide (1 + drawn (lcg x) `mod` g_num_wh = w)) as [Heq|Hne]; [|apply (other_warehouse_at w fuel 0 x); [done|done|lia|done]].
  destruct (drawn_changes g_num_wh (lcg x) Hm (lcg_range x)) as (k & Hk & Hne).
  apply (other_warehouse_at w fuel (2 ^ k) x); [done|done| |rewrite Nat.iter_succ_r; lia].
  apply Nat2Z.inj_lt. rewrite Nat2Z.inj_pow. assert (2 ^ Z.of_nat k <= 2 ^ 47) by (apply Z.pow_le_mono_r; lia). cbn [Z.of_nat Pos.of_succ_nat Pos.succ]. lia.
Qed.

Definition payment_ok (w : Z) (q : tpcc_query) : Prop :=
  type q = TPCC_PAYMENT /\ w_id q = w /\ d_w_id q = w /\ 1 <= d_id q <= DIST_PER_WARE /\ 1 <= h_amount q <= 5000
  /\ 1 <= c_w_id q <= g_num_wh /\ 1 <= c_d_id q <= DIST_PER_WARE /\ customer_ok (by_last_name q) (c_last q) (c_id q)
  /\ parts_of [w; c_w_id q] (part_to_access q) /\ Z.of_nat (length (part_to_access q)) <= g_part_cnt.

Lemma customer_home_ok (x w d : Z) (r : rng) :
  1 <= w <= g_num_wh -> 1 <= d <= DIST_PER_WARE -> gen_ok w r ->
  exists cd cw parts r', customer_home g_num_wh g_part_cnt fuel x w d (part w) [part w] r = Ret (cd, cw, parts, r')
    /\ 1 <= cd <= DIST_PER_WARE /\ 1 <= cw <= g_num_wh /\ parts_of [w; cw] parts /\ gen_ok w r'.
Proof using Hcnt Hwh Hfuel.
  intros Hw Hd Hok. destruct (parts_of_home w) as [_ Hp].
  assert (parts_of [w; w] [part w]) as Hp2 by (split; [apply Hp|]; intros p; rewrite (proj2 Hp p); set_solver).
  unfold customer_home. destruct (x <=? 85); [by eexists _, _, _, _|].
  draw (URand_ok w 1 DIST_PER_WARE r) cd r1 Hcd H1. destruct (Z.ltb_spec 1 g_num_wh); [|by eexists _, _, _, _].
  destruct (other_warehouse_ok w r1 H1) as (cw & r2 & -> & [Hcw _] & H2); [lia|]. cbn [mbind res_bind]. rewrite wh_to_part_ok.
  cbn [mbind res_bind]. destruct (parts_of_add [w] [part w] cw Hp) as [Hadd Hp3]. cbn [existsb] in Hadd, Hp3.
  rewrite orb_false_r, Z.eqb_sym in Hadd, Hp3. rewrite Hadd. cbn [mbind res_bind]. by eexists _, _, _, _.
Qed.

Lemma gen_payment_ok (thd_id : Z) (q : tpcc_query) (r : rng) :
  gen_ok (home thd_id) r -> Z.of_nat (length (c_last q)) = LASTNAME_LEN ->
  exists q' r', gen_payment g_num_wh g_part_cnt fuel thd_id q r = Ret (q', r') /\ payment_ok (home thd_id) q' /\ gen_ok (home thd_id) r'.
Proof using Hcnt Hwh Hfuel.
  intros Hok Hlen. unfold gen_payment. destruct (home_ok thd_id r) as [-> Hw]. set (w := home thd_id) in *. cbn [mbind res_bind].
  rewrite wh_to_part_ok. cbn [mbind res_bind]. destruct (parts_of_home w) as [-> Hparts]. cbn [mbind res_bind].
  draw (URand_ok w 1 DIST_PER_WARE r) d r1 Hd H1. draw (URand_ok w 1 5000 r1) am r2 Ham H2.
  draw (URand_ok w 1 100 r2) x r3 Hx H3. draw (URand_ok w 1 100 r3) y r4 Hy H4.
  destruct (customer_home_ok x w d r4 Hw Hd H4) as (cd & cw & parts & r5 & -> & Hcd & Hcw & Hps & H5).
  cbn [mbind res_bind]. destruct (pick_customer_ok y w q r5 H5 Hlen) as (b & name & id & r6 & -> & Hc & H6). cbn [mbind res_bind].
  eexists _, _. split; [done|]. split; [|done]. unfold payment_ok. cbn [type w_id d_w_id d_id h_amount c_w_id c_d_id by_last_name c_last c_id part_to_access].
  split_and!; try done; try lia. by apply (parts_of_range [w; cw]).
Qed.

Lemma gen_order_status_ok (thd_id : Z) (q : tpcc_query) (r : rng) :
  gen_ok (home thd_id) r -> Z.of_nat (length (c_last q)) = LASTNAME_LEN ->
  exists q' r', gen_order_status g_num_wh thd_id q r = Ret (q', r') /\ type q' = TPCC_ORDER_STATUS
    /\ w_id q' = home thd_id /\ c_w_id q' = w_id q' /\ c_d_id q' = d_id q' /\ 1 <= d_id q' <= DIST_PER_WARE
    /\ customer_ok (by_last_name q') (c_last q') (c_id q') /\ gen_ok (home thd_id) r'.
Proof using Hcnt.
  clear Hfuel. intros Hok Hlen. unfold gen_order_status. destruct (home_ok thd_id r) as [-> Hw]. cbn [mbind res_bind].
  draw (URand_ok (home thd_id) 1 DIST_PER_WARE r) d r1 Hd H1. draw (URand_ok (home thd_id) 1 100 r1) y r2 Hy H2.
  destruct (pick_customer_ok y (home thd_id) q r2 H2 Hlen) as (b & name & cust & r3 & -> & Hc & H3). cbn [mbind res_bind].
  eexists _, _. split; [done|]. cbn. by repeat (split; [done|]).
Qed.

(** ** New orders *)

Definition item_ok (it : Item_no) : Prop :=
  1 <= ol_i_id it <= g_max_items /\ 1 <= ol_supply_w_id it <= g_num_wh /\ 1 <= ol_quantity it <= 10.

Definition lines_ok (w : Z) (n : nat) (st : list Item_no * bool * rng) : Prop :=
  let '(l, far, r) := st in
  length l = n /\ Forall item_ok l /\ (far = false -> Forall (fun it => ol_supply_w_id it = w) l) /\ gen_ok w r.

Lemma gen_item_ok (w : Z) (n oid : nat) (st : list Item_no * bool * rng) :
  1 <= w <= g_num_wh -> lines_ok w n st ->
  exists st', gen_item g_num_wh fuel w st oid = Ret st' /\ lines_ok w (S n) st'.
Proof using Hcnt Hwh Hfuel.
  destruct st as [[l far] r]. intros Hw (Hlen & Hall & Hfar & Hok). unfold gen_item.
  draw (NURand_ok w 8191 1 g_max_items r Hok (or_intror (or_intror eq_refl))) i r1 Hi H1.
  draw (URand_ok w 1 100 r1) x r2 Hx H2.
  assert (exists sup far' r3, (if (1 <? x) || (g_num_wh =? 1) then Ret (w, far, r2)
            else '(s, r) ← other_warehouse g_num_wh fuel w r2; Ret (s, true, r)) = Ret (sup, far', r3)
          /\ 1 <= sup <= g_num_wh /\ (far' = false -> far = false /\ sup = w) /\ gen_ok w r3) as (sup & far' & r3 & -> & Hs & Hf & H3).
  { destruct ((1 <? x) || (g_num_wh =? 1)) eqn:E; [eexists _, _, _; split; [done|]; split; [done|]; split; [by intros|done]|].
    apply orb_false_iff in E as [_ E%Z.eqb_neq]. destruct (other_warehouse_ok w r2 H2) as (v & r3 & -> & [Hv _] & H3); [lia|].
    cbn [mbind res_bind]. eexists _, _, _. split; [done|]. split; [done|]. split; [by intros|done]. }
  cbn [mbind res_bind]. draw (URand_ok w 1 10 r3) qty r4 Hq H4.
  eexists. split; [done|]. split_and!; [rewrite length_app; cbn; lia| | |done].
  - apply list.Forall_app. split; [done|]. apply Forall_singleton. by split.
  - intros Hf'. destruct (Hf Hf') as [-> ->]. apply list.Forall_app. split; [by apply Hfar|]. by apply Forall_singleton.
Qed.

Lemma gen_items_ok (w : Z) (n : nat) (r : rng) :
  1 <= w <= g_num_wh -> gen_ok w r ->
  exists l far r', foldM (gen_item g_num_wh fuel w) ([], false, r) (seq 0 n) = Ret (l, far, r') /\ lines_ok w n (l, far, r').
Proof using Hcnt Hwh Hfuel.
  intros Hw Hok.
  destruct (foldM_inv (fun todo st => lines_ok w (n - length todo) st /\ (length todo <= n)%nat)
    (gen_item g_num_wh fuel w) (seq 0 n) ([], false, r)) as ([[l far] r'] & Hf & [Hl _]).
  - rewrite length_seq, Nat.sub_diag. split; [|done]. split_and!; [done|constructor|constructor|done].
  - intros oid todo st [Hst Hle]. cbn [length] in *. destruct (gen_item_ok w _ oid st Hw Hst) as (st' & -> & Hst').
    exists st'. split; [done|]. split; [|lia]. by replace (n - length todo)%nat with (S (n - S (length todo))) by lia.
  - exists l, far, r'. split; [done|]. by rewrite Nat.sub_0_r in Hl.
Qed.

Lemma assert_distinct_ok (cnt : nat) (l : list Item_no) :
  (cnt <= length l)%nat -> NoDup (ids (take cnt l)) -> assert_distinct cnt l = Ret tt.
Proof using.
  clear Hcnt Hwh Hfuel. intros Hle Hnd. unfold assert_distinct.
  destruct (foldM_inv (fun todo (_ : unit) => Forall (fun i => i < cnt)%nat todo) (fun _ i => foldM (fun _ j =>
    a ← at_ (l !! i); b ← at_ (l !! j); assert! negb (ol_i_id a =? ol_i_id b); Ret tt) tt (seq 0 i)) (seq 0 cnt) tt) as ([] & -> & _); [| |done].
  - apply list.Forall_forall. intros i [_ ?]%elem_of_seq. lia.
  - intros i todo [] [Hi Htodo]%list.Forall_cons.
    destruct (foldM_inv (fun todo (_ : unit) => Forall (fun j => j < i)%nat todo) (fun _ j =>
      a ← at_ (l !! i); b ← at_ (l !! j); assert! negb (ol_i_id a =? ol_i_id b); Ret tt) (seq 0 i) tt) as ([] & -> & _); [| |by exists tt].
    + apply list.Forall_forall. intros j [_ ?]%elem_of_seq. lia.
    + intros j todo' [] [Hj Htodo']%list.Forall_cons. exists tt. split; [|done].
      destruct (lookup_lt_is_Some_2 l i) as [a Ha]; [lia|]. destruct (lookup_lt_is_Some_2 l j) as [b Hb]; [lia|].
      rewrite Ha, Hb. cbn [at_ mbind res_bind]. pose proof (ids_apart cnt i j l a b Hnd ltac:(lia) ltac:(lia) ltac:(lia) Ha Hb).
      by destruct (Z.eqb_spec (ol_i_id a) (ol_i_id b)).
Qed.

Lemma item_parts_ok (w : Z) (cnt : nat) (l : list Item_no) (parts : list Z) :
  (cnt <= length l)%nat -> parts_of [w] parts ->
  exists parts', foldM (add_item_part g_num_wh g_part_cnt l) parts (seq 0 cnt) = Ret parts'
    /\ parts_of (w :: (ol_supply_w_id <$> take cnt l)) parts'.
Proof using Hcnt.
  clear Hfuel Hwh. intros Hlen Hp.
  destruct (foldM_inv (fun todo parts => exists k, todo = seq k (cnt - k) /\ (k <= cnt)%nat /\ parts_of (w :: (ol_supply_w_id <$> take k l)) parts)
    (add_item_part g_num_wh g_part_cnt l) (seq 0 cnt) parts) as (parts' & Hf & (k & Htodo & Hk & Hp')).
  - exists 0%nat. rewrite Nat.sub_0_r. split; [done|]. split; [lia|done].
  - intros i todo ps (k & Htodo & Hk & Hps). destruct (cnt - k)%nat as [|m] eqn:Em; [done|]. cbn in Htodo. injection Htodo as -> ->.
    destruct (lookup_lt_is_Some_2 l k) as [it Hit]; [lia|]. unfold add_item_part. rewrite Hit. cbn [at_ mbind res_bind].
    rewrite wh_to_part_ok. cbn [mbind res_bind]. destruct (parts_of_add _ ps (ol_supply_w_id it) Hps) as [-> Hnew].
    eexists. split; [done|]. exists (S k). replace (cnt - S k)%nat with m by lia. split; [done|]. split; [lia|].
    by rewrite (take_S_r l k it Hit), fmap_app.
  - exists parts'. split; [done|]. assert (k = cnt) as -> by (destruct (cnt - k)%nat eqn:E; [lia|done]). done.
Qed.

Definition new_order_ok (w : Z) (q : tpcc_query) : Prop :=
  let lines := take (Z.to_nat (ol_cnt q)) (items q) in
  type q = TPCC_NEW_ORDER /\ w_id q = w /\ rbk q = true /\ 1 <= d_id q <= DIST_PER_WARE /\ 1 <= c_id q <= g_cust_per_dist
  /\ 1 <= ol_cnt q <= 15 /\ Z.of_nat (length lines) = ol_cnt q
  /\ NoDup (ids lines) /\ Forall item_ok lines /\ (remote q = false -> Forall (fun it => ol_supply_w_id it = w) lines)
  /\ parts_of (w :: (ol_supply_w_id <$> lines)) (part_to_access q) /\ Z.of_nat (length (part_to_access q)) <= g_part_cnt.

Lemma gen_new_order_ok (thd_id : Z) (q : tpcc_query) (r : rng) :
  gen_ok (home thd_id) r ->
  exists q' r', gen_new_order g_num_wh g_part_cnt fuel thd_id q r = Ret (q', r')
    /\ new_order_ok (home thd_id) q' /\ gen_ok (home thd_id) r'.
Proof using Hcnt Hwh Hfuel.
  intros Hok. unfold gen_new_order. destruct (home_ok thd_id r) as [-> Hw]. set (w := home thd_id) in *. cbn [mbind res_bind].
  draw (URand_ok w 1 DIST_PER_WARE r) d r1 Hd H1.
  draw (NURand_ok w 1023 1 g_cust_per_dist r1 H1 (or_intror (or_introl eq_refl))) c r2 Hc H2.
  draw (URand_ok w 1 100 r2) rb r3 Hrb H3. draw (URand_ok w 5 15 r3) n r4 Hn H4.
  rewrite wh_to_part_ok. cbn [mbind res_bind]. destruct (parts_of_home w) as [-> Hparts]. cbn [mbind res_bind].
  destruct (gen_items_ok w (Z.to_nat n) r4 Hw H4) as (l & far & r5 & -> & Hlen & Hall & Hfar & H5). cbn [mbind res_bind].
  rewrite <- Hlen. destruct (drop_dups_first l) as (cnt & l' & -> & Hle & Htake). cbn [mbind res_bind].
  destruct (first_of_each_spec [] l) as (Hnd & Hsub & Hids).
  rewrite assert_distinct_ok by (done || by rewrite Htake). cbn [mbind res_bind].
  destruct (item_parts_ok w cnt l' _ Hle Hparts) as (parts & -> & Hp). cbn [mbind res_bind]. rewrite Htake in Hp.
  eexists _, _. split; [done|]. split; [|done]. unfold new_order_ok. cbn [type w_id rbk d_id c_id ol_cnt items remote part_to_access].
  rewrite Nat2Z.id, Htake.
  assert (length (first_of_each [] l) = cnt) as Hcl by (by rewrite <- Htake, length_take, Nat.min_l).
  assert (1 <= cnt <= 15)%nat as Hc1.
  { pose proof (first_of_each_length [] l) as Hmax. split; [|lia]. destruct cnt as [|cnt]; [|lia]. apply nil_length_inv in Hcl.
    destruct l as [|x l]; [cbn in Hlen; lia|]. destruct (Hids (ol_i_id x)) as [?%elem_of_nil|Hx]; [by apply elem_of_cons; left|done|].
    rewrite Hcl in Hx. by apply elem_of_nil in Hx. }
  rewrite Hcl. split_and!; try done; try lia.
  - apply list.Forall_forall. intros it Hit. rewrite list.Forall_forall in Hall. apply Hall. by apply Hsub.
  - intros Hf. apply list.Forall_forall. intros it Hit. specialize (Hfar Hf). rewrite list.Forall_forall in Hfar. apply Hfar. by apply Hsub.
  - by apply (parts_of_range _ _ Hp).
Qed.

(** C33: Every query that is generated is well formed, and generating it ends: the
    generator draws another warehouse within 2^47 draws.  Warehouses, districts,
    customers, items, quantities and amounts are in range, the lines of an order
    are for distinct items, the partitions that will be accessed are listed
    exactly once, and they fit into their array.  Every new order is marked to be
    rolled back. *)
Theorem tpcc_query_init (below : Z -> bool) (rand thd_id : Z) (q : tpcc_query) (r : rng) :
  gen_ok (home thd_id) r -> Z.of_nat (length (c_last q)) = LASTNAME_LEN ->
  exists q' r', init g_num_wh g_part_cnt fuel below rand thd_id q r = Ret (q', r') /\ gen_ok (home thd_id) r'
    /\ if below (rand `mod` 100) then payment_ok (home thd_id) q' else new_order_ok (home thd_id) q'.
Proof using Hcnt Hwh Hfuel.
  intros Hok Hlen. unfold init. destruct (below (rand `mod` 100)).
  - destruct (gen_payment_ok thd_id q r Hok Hlen) as (q' & r' & Hg & Hq & Hr). eauto.
  - destruct (gen_new_order_ok thd_id q r Hok) as (q' & r' & Hg & Hq & Hr). eauto.
Qed.
End Queries.

(** An empty query, and the comparison with one half. *)
Definition blank : tpcc_query := mkQuery TPCC_ALL 0 0 0 0 0 0 (replicate 16 Byte.x00) 0 false [] false false 0 0 [].
Definition below_half (k : Z) : bool := k <? 50.

Lemma tpcc_query_init_witness :
  exists q r, init 2 2 (Z.to_nat (2 ^ 47 + 1)) below_half 99 0 blank rng_example = Ret (q, r)
    /\ 1 <= ol_cnt q <= 15 /\ NoDup (ids (take (Z.to_nat (ol_cnt q)) (items q))).
Proof.
  destruct (tpcc_query_init 2 2 ltac:(lia) ltac:(lia) (Z.to_nat (2 ^ 47 + 1)) ltac:(lia) below_half 99 0 blank rng_example)
    as (q & r & Hq & _ & Hok).
  - split; [|by unfold consts_ok]. split; [vm_compute; discriminate|]. by eexists.
  - reflexivity.
  - exists q, r. split; [exact Hq|]. destruct Hok as (_ & _ & _ & _ & _ & Hcnt & _ & Hnd & _). split; [exact Hcnt|exact Hnd].
Defined.
