(* ===== verification/TpccTxn.v ===== *)
(** * db2: TPC-C transactions ([instance/txn/tpcc_txn.cpp])

    Payment and new-order over the queries of [TpccQuery].  The index class, the
    rows with typed columns and the [get_row] they use are not in the repository:
    they are parameters.  A transaction is modelled by the local rows it ends
    with, in the order it took them, and the result it finishes with.  The file is
    not part of the build. *)

From S2P Require Import Prelude Config Tpcc TpccConst TpccQuery.

(** [src/common/workload/tpcc.h:27-32 i_item] *)
Inductive tpcc_index := i_item | i_warehouse | i_district | i_customer_id | i_customer_last | i_stock.

(** The typed access to the columns of a row. *)
Class RowAPI (D row : Type) := {
  get_double : Z -> row -> D;
  set_double : Z -> D -> row -> row;
  get_int64 : Z -> row -> Z;
  set_int64 : Z -> Z -> row -> row;
  get_chars : Z -> row -> bytes;
}.

(** Setting a column changes what is read from it and nothing else. *)
Class RowLaws (D row : Type) `{RowAPI D row} := {
  double_set c (d : D) (r : row) : get_double c (set_double c d r) = d;
  double_double c c' (d : D) (r : row) : c <> c' -> get_double c' (set_double c d r) = (get_double c' r : D);
  double_int c c' (d : D) (r : row) : c <> c' -> get_int64 c' (set_double c d r) = get_int64 c' r;
  double_chars c c' (d : D) (r : row) : c <> c' -> get_chars c' (set_double c d r) = get_chars c' r;
  int_set c v (r : row) : i64 v = v -> get_int64 c (set_int64 c v r) = v;
  int_int c c' v (r : row) : c <> c' -> get_int64 c' (set_int64 c v r) = get_int64 c' r;
  int_double c c' v (r : row) : c <> c' -> get_double c' (set_int64 c v r) = (get_double c' r : D);
}.

(** A row the transaction holds a local copy of. *)
Record laccess (loc row : Type) := mkLocal {
  l_loc : loc;
  l_type : access_t;
  l_data : row;
}.
Arguments mkLocal {loc row} _ _ _.
Arguments l_loc {loc row} _.
Arguments l_type {loc row} _.
Arguments l_data {loc row} _.

(** ** Character arrays *)

(** The characters before the terminating zero. *)
Fixpoint c_string (b : bytes) : res bytes :=
  match b with
  | [] => Fault OutOfBounds
  | c :: b => if Byte.eqb c Byte.x00 then Ret [] else s ← c_string b; Ret (c :: s)
  end.

(** [memcpy(name, str, 10)] into an array of 11 and its zero. *)
Definition copy_name (str : bytes) : res bytes :=
  name ← memcpy (replicate 11 Byte.x00) 0 str 0 10; Ret (<[10%nat := Byte.x00]> name).

(** [strncpy(dst + off, src, n)]: at most [n] characters of [src], and zeros if
    it has fewer. *)
Definition strncpy (dst : bytes) (off : Z) (src : bytes) (n : nat) : res bytes :=
  s ← c_string src;
  let chars := take n s in
  memcpy dst off (chars ++ replicate (n - length chars) Byte.x00) 0 (Z.of_nat n).

(** The text of the history record, which is put together and not used.  [junk]
    is the array before.
    [src/instance/txn/tpcc_txn.cpp:219-225 h_data] *)
Definition fill_h_data (junk w_name d_name : bytes) : res bytes :=
  h_data ← strncpy junk 0 w_name 10;
  s ← c_string h_data;
  let length := Z.min (Z.of_nat (length s)) 10 in
  h_data ← memcpy h_data length (replicate 4 Byte.x20 ++ [Byte.x00]) 0 5;
  h_data ← strncpy h_data (length + 4) d_name 10;
  if (Z.to_nat (length + 14) <? List.length h_data)%nat then Ret (<[Z.to_nat (length + 14) := Byte.x00]> h_data)
  else Fault OutOfBounds.

(** ** The customers of a name *)

(** The loop over the list of items: [mid] moves at every second item.
    [src/instance/txn/tpcc_txn.cpp:141-149 mid] *)
Fixpoint find_mid {loc : Type} (cnt : nat) (it mid : list loc) : list loc :=
  match it with
  | [] => mid
  | _ :: it => let cnt := S cnt in find_mid cnt it (if Nat.even cnt then tail mid else mid)
  end.

Section Txn.
Context {D loc row : Type} `{RowAPI D row}.
Context (dadd dsub : D -> D -> D) (d_of_Z : Z -> D).
Context (g_num_wh g_part_cnt : Z) (g_wh_update : bool).
Context (index_read : tpcc_index -> Z -> Z -> list loc).
Context (get_row : list (laccess loc row) -> loc -> access_t -> option row).

(** The first item under a key, which must be there. *)
Definition first_item (idx : tpcc_index) (key part : Z) : res loc :=
  match index_read idx key part with
  | [] => Fault Assert
  | item :: _ => Ret item
  end.

(** [src/instance/txn/tpcc_txn.cpp:117-180 r_cust] *)
Definition find_customer (q : tpcc_query) : res loc :=
  part ← wh_to_part g_part_cnt g_num_wh (c_w_id q);
  if by_last_name q then
    name ← c_string (c_last q);
    let item := index_read i_customer_last (custNPKey name (c_d_id q) (c_w_id q)) part in
    assert! negb (bool_decide (length item = 0%nat));
    deref (head (find_mid 0 item item))
  else first_item i_customer_id (custKey (c_id q) (c_d_id q) (c_w_id q)) part.

(** [src/instance/txn/tpcc_txn.cpp:189-198 r_cust_local] *)
Definition pay_customer (h_amount : D) (r : row) : row :=
  let r := set_double C_BALANCE (dsub (get_double C_BALANCE r) h_amount) r in
  let r := set_double C_YTD_PAYMENT (dadd (get_double C_YTD_PAYMENT r) h_amount) r in
  set_double C_PAYMENT_CNT (dadd (get_double C_PAYMENT_CNT r) (d_of_Z 1)) r.

(** The argument of [finish] and the local rows.  The test of the credit has no
    effect.
    [src/instance/txn/tpcc_txn.cpp:43-249 run_payment] *)
Definition run_payment (junk : bytes) (q : tpcc_query) : res (RC * list (laccess loc row)) :=
  let amount := d_of_Z (h_amount q) in
  part ← wh_to_part g_part_cnt g_num_wh (w_id q);
  r_wh ← first_item i_warehouse (w_id q) part;
  let wh_type := if g_wh_update then WR else RD in
  match get_row [] r_wh wh_type with
  | None => Ret (Abort, [])
  | Some wh =>
      let wh := if g_wh_update then set_double W_YTD (dadd (get_double W_YTD wh) amount) wh else wh in
      w_name ← copy_name (get_chars W_NAME wh);
      let accs := [mkLocal r_wh wh_type wh] in
      r_dist ← first_item i_district (distKey (d_id q) (d_w_id q)) part;
      match get_row accs r_dist WR with
      | None => Ret (Abort, accs)
      | Some dist =>
          let dist := set_double D_YTD (dadd (get_double D_YTD dist) amount) dist in
          d_name ← copy_name (get_chars D_NAME dist);
          let accs := accs ++ [mkLocal r_dist WR dist] in
          r_cust ← find_customer q;
          match get_row accs r_cust WR with
          | None => Ret (Abort, accs)
          | Some cust =>
              let accs := accs ++ [mkLocal r_cust WR (pay_customer amount cust)] in
              _ ← fill_h_data junk w_name d_name;
              Ret (RCOK, accs)
          end
      end
  end.

(** [src/instance/txn/tpcc_txn.cpp:409-433 r_stock_local] *)
Definition take_stock (remote : bool) (ol_quantity : Z) (r : row) : row :=
  let s_quantity := u64 (get_int64 S_QUANTITY r) in
  let r := set_int64 S_YTD (i64 (get_int64 S_YTD r + ol_quantity)) r in
  let r := set_int64 S_ORDER_CNT (i64 (get_int64 S_ORDER_CNT r + 1)) r in
  let r := if remote then set_int64 S_REMOTE_CNT (i64 (get_int64 S_REMOTE_CNT r + 1)) r else r in
  let quantity := if u64 (ol_quantity + 10) <? s_quantity then u64 (s_quantity - ol_quantity)
                  else u64 (s_quantity - ol_quantity + 91) in
  set_int64 S_QUANTITY (i64 quantity) r.

(** One line of the order.  That there is an item for the stock is not checked.
    [src/instance/txn/tpcc_txn.cpp:352-433 ol_i_id] *)
Definition order_line (remote : bool) (accs : list (laccess loc row)) (it : Item_no) : res (RC * list (laccess loc row)) :=
  r_item ← first_item i_item (ol_i_id it) 0;
  match get_row accs r_item RD with
  | None => Ret (Abort, accs)
  | Some item =>
      let accs := accs ++ [mkLocal r_item RD item] in
      part ← wh_to_part g_part_cnt g_num_wh (ol_supply_w_id it);
      r_stock ← deref (head (index_read i_stock (stockKey (ol_i_id it) (ol_supply_w_id it)) part));
      match get_row accs r_stock WR with
      | None => Ret (Abort, accs)
      | Some stock => Ret (RCOK, accs ++ [mkLocal r_stock WR (take_stock remote (ol_quantity it) stock)])
      end
  end.

(** A line that is refused ends the transaction.
    [src/instance/txn/tpcc_txn.cpp:351-463 ol_number] *)
Fixpoint order_lines (remote : bool) (accs : list (laccess loc row)) (lines : list Item_no) : res (RC * list (laccess loc row)) :=
  match lines with
  | [] => Ret (RCOK, accs)
  | it :: lines =>
      '(rc, accs) ← order_line remote accs it;
      if bool_decide (rc = RCOK) then order_lines remote accs lines else Ret (rc, accs)
  end.

(** [src/instance/txn/tpcc_txn.cpp:251-464 run_new_order] *)
Definition run_new_order (q : tpcc_query) : res (RC * list (laccess loc row)) :=
  part ← wh_to_part g_part_cnt g_num_wh (w_id q);
  r_wh ← first_item i_warehouse (w_id q) part;
  match get_row [] r_wh RD with
  | None => Ret (Abort, [])
  | Some wh =>
      let accs := [mkLocal r_wh RD wh] in
      r_cust ← first_item i_customer_id (custKey (c_id q) (d_id q) (w_id q)) part;
      match get_row accs r_cust RD with
      | None => Ret (Abort, accs)
      | Some cust =>
          let accs := accs ++ [mkLocal r_cust RD cust] in
          r_dist ← first_item i_district (distKey (d_id q) (w_id q)) part;
          match get_row accs r_dist WR with
          | None => Ret (Abort, accs)
          | Some dist =>
              let dist := set_int64 D_NEXT_O_ID (i64 (get_int64 D_NEXT_O_ID dist + 1)) dist in
              let accs := accs ++ [mkLocal r_dist WR dist] in
              lines ← (if (Z.to_nat (ol_cnt q) <=? length (items q))%nat then Ret (take (Z.to_nat (ol_cnt q)) (items q))
                       else Fault OutOfBounds);
              order_lines (remote q) accs lines
          end
      end
  end.

(** [finish] ends the transaction.
    [src/instance/txn/tpcc_txn.cpp:25-41 run_txn] *)
Definition run_txn (finish : RC -> list (laccess loc row) -> res RC) (junk : bytes) (q : tpcc_query) : res RC :=
  match type q with
  | TPCC_PAYMENT => '(rc, accs) ← run_payment junk q; finish rc accs
  | TPCC_NEW_ORDER => '(rc, accs) ← run_new_order q; finish rc accs
  | _ => Fault Assert
  end.
End Txn.

(** ** The middle customer *)

Lemma half_step (n : nat) : (S n / 2 = if Nat.even (S n) then S (n / 2) else n / 2)%nat.
Proof.
  pose proof (Nat.div_mod_eq n 2). pose proof (Nat.mod_upper_bound n 2 ltac:(done)).
  pose proof (Nat.div_mod_eq (S n) 2). pose proof (Nat.mod_upper_bound (S n) 2 ltac:(done)).
  destruct (Nat.even (S n)) eqn:E.
  - apply Nat.even_spec in E as [k Hk]. lia.
  - rewrite <- Nat.negb_odd in E. apply negb_false_iff, Nat.odd_spec in E as [k Hk]. lia.
Qed.

Lemma find_mid_drop {loc : Type} (cnt : nat) (it mid : list loc) :
  find_mid cnt it mid = drop ((cnt + length it) / 2 - cnt / 2) mid.
Proof.
  revert cnt mid. induction it as [|x it IH]; intros cnt mid; cbn [find_mid length].
  { by rewrite Nat.add_0_r, Nat.sub_diag. }
  rewrite IH. replace (cnt + S (length it))%nat with (S cnt + length it)%nat by lia.
  assert (S cnt / 2 <= (S cnt + length it) / 2)%nat as Hle by (apply Nat.Div0.div_le_mono; lia).
  rewrite half_step in *. destruct (Nat.even (S cnt)); [|done].
  change (tail mid) with (drop 1 mid). rewrite drop_drop. f_equal. lia.
Qed.

(** The customer is the one in the middle of the list, which is there. *)
Lemma find_mid_middle {loc : Type} (l : list loc) : head (find_mid 0 l l) = l !! (length l / 2)%nat /\ (l <> [] -> is_Some (head (find_mid 0 l l))).
Proof.
  rewrite find_mid_drop, Nat.Div0.div_0_l, Nat.sub_0_r, Nat.add_0_l.
  assert (forall k, head (drop k l) = l !! k) as Hhead.
  { intros k. rewrite head_lookup, lookup_drop. by rewrite Nat.add_0_r. }
  rewrite Hhead. split; [done|]. intros Hl. apply lookup_lt_is_Some_2. destruct l as [|x l]; [done|].
  apply Nat.Div0.div_lt_upper_bound; cbn; lia.
Qed.

(** ** The history record *)

Lemma c_string_ok (a b : bytes) : Byte.x00 ∈ a -> exists s, c_string (a ++ b) = Ret s /\ (length s < length a)%nat.
Proof.
  induction a as [|c a IH]; [by intros ?%elem_of_nil|]. intros Hin. cbn. destruct (Byte.eqb c Byte.x00) eqn:E.
  - exists []. split; [done|cbn; lia].
  - apply elem_of_cons in Hin as [<-|Hin]; [done|]. destruct (IH Hin) as (s & -> & Hs).
    exists (c :: s). split; [done|cbn; lia].
Qed.

Lemma copy_name_ok (str : bytes) : (10 <= length str)%nat -> copy_name str = Ret (take 10 str ++ [Byte.x00]).
Proof.
  intros Hlen. unfold copy_name. rewrite memcpy_Ret by (cbn; lia). cbn [mbind res_bind]. f_equal.
  unfold splice, slice. change (Z.to_nat 0) with 0%nat. change (Z.to_nat 10) with 10%nat. rewrite drop_0.
  assert (length (take 10 str) = 10)%nat as Hl by (rewrite length_take; lia). generalize dependent (take 10 str). intros p Hl.
  rewrite Hl. cbn [take app Nat.add drop replicate]. rewrite insert_app_r_alt by lia. by rewrite Hl.
Qed.

Lemma strncpy_ok (dst a b : bytes) (off : Z) (n : nat) :
  Byte.x00 ∈ a -> 0 <= off -> off + Z.of_nat n <= Z.of_nat (length dst) ->
  exists out, strncpy dst off (a ++ b) n = Ret out /\ length out = length dst /\ ((length a <= n)%nat -> Byte.x00 ∈ out).
Proof.
  intros Ha Hoff Hfit. unfold strncpy. destruct (c_string_ok a b Ha) as (s & -> & Hs). cbn [mbind res_bind].
  set (l := take n s ++ replicate (n - length (take n s)) Byte.x00).
  assert (length l = n) as Hl by (unfold l; rewrite length_app, length_replicate, length_take; lia).
  rewrite memcpy_Ret by lia. change (Z.to_nat 0) with 0%nat. rewrite Nat2Z.id, <- Hl, slice_all.
  eexists. split; [done|]. split; [rewrite length_splice; lia|]. intros Hn. unfold splice. rewrite !elem_of_app. right. left.
  unfold l. apply elem_of_app. right. apply elem_of_replicate. split; [done|]. rewrite length_take. lia.
Qed.

(** With a name of fewer than ten characters the text fits into its array. *)
Lemma fill_h_data_ok (junk w d : bytes) :
  length junk = 25%nat -> (10 <= length w)%nat -> Byte.x00 ∈ take 10 w ->
  exists out, fill_h_data junk (take 10 w ++ [Byte.x00]) (d ++ [Byte.x00]) = Ret out.
Proof.
  intros Hj Hw Hz. unfold fill_h_data. assert (length (take 10 w) = 10)%nat as Hl by (rewrite length_take; lia).
  destruct (strncpy_ok junk (take 10 w) [Byte.x00] 0 10 Hz) as (h1 & -> & Hh1 & Hz1); [lia|cbn; lia|]. cbn [mbind res_bind].
  destruct (c_string_ok h1 [] (Hz1 ltac:(lia))) as (s & Hs & _). rewrite app_nil_r in Hs. rewrite Hs. cbn [mbind res_bind].
  set (len := Z.min (Z.of_nat (length s)) 10). assert (0 <= len <= 10) by (unfold len; lia).
  rewrite memcpy_Ret by (rewrite ?length_app, ?length_replicate; cbn [length]; lia). cbn [mbind res_bind].
  remember (slice (Z.to_nat 0) (Z.to_nat 5) (replicate 4 Byte.x20 ++ [Byte.x00])) as pad eqn:Hpad.
  assert (length pad = 5%nat) as Hp by (by rewrite Hpad). clear Hpad.
  assert (length (splice (Z.to_nat len) pad h1) = 25%nat) as Hl2 by (rewrite length_splice; lia).
  destruct (strncpy_ok (splice (Z.to_nat len) pad h1) (d ++ [Byte.x00]) [] (len + 4) 10) as (h2 & Hst & Hh2 & _).
  - apply elem_of_app. right. by apply list_elem_of_singleton.
  - lia.
  - lia.
  - rewrite app_nil_r in Hst. rewrite Hst. cbn [mbind res_bind].
    destruct (Nat.ltb_spec (Z.to_nat (len + 14)) (length h2)); [eauto|lia].
Qed.

(** ** What the transactions do *)

Lemma c_string_eq (s b : bytes) : Byte.x00 ∉ s -> c_string (s ++ Byte.x00 :: b) = Ret s.
Proof.
  induction s as [|c s IH]; intros Hn; [done|]. apply not_elem_of_cons in Hn as [Hc Hn]. cbn.
  destruct (Byte.eqb c Byte.x00) eqn:E; [apply Byte.byte_dec_bl in E; by subst|]. by rewrite IH.
Qed.

Lemma last_name_no_zero (num : Z) : 0 <= num < 1000 -> Byte.x00 ∉ last_name num.
Proof.
  intros Hnum Hin. assert (forallb (fun n => forallb (fun c => negb (Byte.eqb c Byte.x00)) (last_name n)) (seqZ 0 1000) = true) as Hall
    by (vm_compute; reflexivity).
  rewrite forallb_forall in Hall. specialize (Hall num). rewrite <- list_elem_of_In, elem_of_seqZ in Hall. specialize (Hall ltac:(lia)).
  rewrite forallb_forall in Hall. specialize (Hall Byte.x00). rewrite <- list_elem_of_In in Hall. by specialize (Hall Hin).
Qed.

Section Effects.
Context {D loc row : Type} {Hapi : RowAPI D row} {Hlaws : RowLaws D row}.
Context (dadd dsub : D -> D -> D) (d_of_Z : Z -> D).
Context (g_num_wh g_part_cnt : Z) (g_wh_update : bool).
Context (index_read : tpcc_index -> Z -> Z -> list loc) (store : loc -> row).
Hypothesis Hcnt : 1 <= g_part_cnt <= g_num_wh.
Hypothesis Hwh : g_num_wh < 2 ^ 32.

(** Every row that is asked for is granted. *)
Definition granted (accs : list (laccess loc row)) (l : loc) (ty : access_t) : option row := Some (store l).

Local Abbreviation part := (part g_part_cnt).

(** The indexes have an entry for everything a query can ask for. *)
Record complete : Prop := mk_complete {
  all_warehouses w : 1 <= w <= g_num_wh -> index_read i_warehouse w (part w) <> [];
  all_districts w d : 1 <= w <= g_num_wh -> 1 <= d <= DIST_PER_WARE -> index_read i_district (distKey d w) (part w) <> [];
  all_customers w d c : 1 <= w <= g_num_wh -> 1 <= d <= DIST_PER_WARE -> 1 <= c <= g_cust_per_dist ->
    index_read i_customer_id (custKey c d w) (part w) <> [];
  all_names w d num : 1 <= w <= g_num_wh -> 1 <= d <= DIST_PER_WARE -> 0 <= num < 1000 ->
    index_read i_customer_last (custNPKey (last_name num) d w) (part w) <> [];
  all_items i : 1 <= i <= g_max_items -> index_read i_item i 0 <> [];
  all_stocks w i : 1 <= w <= g_num_wh -> 1 <= i <= g_max_items -> index_read i_stock (stockKey i w) (part w) <> [];
}.
Hypothesis Hall : complete.

Lemma first_item_ok (idx : tpcc_index) (key p : Z) :
  index_read idx key p <> [] -> exists l, first_item index_read idx key p = Ret l /\ head (index_read idx key p) = Some l.
Proof. unfold first_item. destruct (index_read idx key p) as [|l ls]; [done|]. intros _. by exists l. Qed.

(** The customer a query is about. *)
Definition customer_of (q : tpcc_query) (l : loc) : Prop :=
  if by_last_name q then
    exists num, 0 <= num < 1000 /\ let ls := index_read i_customer_last (custNPKey (last_name num) (c_d_id q) (c_w_id q)) (part (c_w_id q)) in
      ls !! (length ls / 2)%nat = Some l
  else head (index_read i_customer_id (custKey (c_id q) (c_d_id q) (c_w_id q)) (part (c_w_id q))) = Some l.

Lemma find_customer_ok (q : tpcc_query) :
  1 <= c_w_id q <= g_num_wh -> 1 <= c_d_id q <= DIST_PER_WARE -> customer_ok (by_last_name q) (c_last q) (c_id q) ->
  exists l, find_customer g_num_wh g_part_cnt index_read q = Ret l /\ customer_of q l.
Proof using Hcnt Hall.
  intros Hw Hd [_ Hc]. unfold find_customer, customer_of. rewrite (wh_to_part_ok g_num_wh g_part_cnt Hcnt). cbn [mbind res_bind].
  destruct (by_last_name q).
  - destruct Hc as (num & rest & Hnum & ->). rewrite c_string_eq by (by apply last_name_no_zero). cbn [mbind res_bind].
    pose proof (all_names Hall _ _ _ Hw Hd Hnum) as Hne. set (ls := index_read _ _ _) in *.
    destruct (find_mid_middle ls) as [Hmid Hsome]. destruct (Hsome Hne) as [l Hl]. exists l. rewrite Hl.
    rewrite bool_decide_eq_false_2 by (by destruct ls). cbn. split; [done|]. exists num. split; [done|]. change (ls !! (length ls / 2)%nat = Some l). by rewrite <- Hmid.
  - destruct (first_item_ok _ _ _ (all_customers Hall _ _ _ Hw Hd Hc)) as (l & -> & Hl). eauto.
Qed.

(** The amount is added to one column and the others are left alone. *)
Definition deposited (c : Z) (amount : D) (r r' : row) : Prop :=
  get_double c r' = dadd (get_double c r) amount
  /\ forall c', c' <> c -> get_double c' r' = (get_double c' r : D) /\ get_int64 c' r' = get_int64 c' r /\ get_chars c' r' = get_chars c' r.

Lemma deposit_ok (c : Z) (amount : D) (r : row) : deposited c amount r (set_double c (dadd (get_double c r) amount) r).
Proof using Hlaws.
  split; [apply double_set|]. intros c' Hne. split; [by apply double_double|]. split; [by apply double_int|by apply double_chars].
Qed.

(** The balance goes down by the amount, the payments of the year go up by it and
    there is one payment more. *)
Definition paid (amount : D) (r r' : row) : Prop :=
  get_double C_BALANCE r' = dsub (get_double C_BALANCE r) amount
  /\ get_double C_YTD_PAYMENT r' = dadd (get_double C_YTD_PAYMENT r) amount
  /\ get_double C_PAYMENT_CNT r' = dadd (get_double C_PAYMENT_CNT r) (d_of_Z 1)
  /\ forall c, c <> C_BALANCE -> c <> C_YTD_PAYMENT -> c <> C_PAYMENT_CNT -> get_double c r' = (get_double c r : D) /\ get_int64 c r' = get_int64 c r.

Lemma pay_customer_ok (amount : D) (r : row) : paid amount r (pay_customer dadd dsub d_of_Z amount r).
Proof using Hlaws.
  unfold paid, pay_customer.
  repeat (rewrite double_set || rewrite double_double by (unfold C_BALANCE, C_YTD_PAYMENT, C_PAYMENT_CNT; lia)).
  split; [done|]. split; [done|]. split; [done|]. intros c H1 H2 H3.
  rewrite !double_double, !double_int by done. done.
Qed.


(** The stock after a line of [n] pieces: filled up by 91 when it would get
    low. *)
Definition left_over (s n : Z) : Z := if n + 10 <? s then s - n else s - n + 91.

Definition stocked (remote : bool) (n : Z) (r r' : row) : Prop :=
  (0 <= get_int64 S_QUANTITY r < 2 ^ 62 -> get_int64 S_QUANTITY r' = left_over (get_int64 S_QUANTITY r) n
     /\ 11 <= get_int64 S_QUANTITY r' <= Z.max 101 (get_int64 S_QUANTITY r))
  /\ get_int64 S_YTD r' = i64 (get_int64 S_YTD r + n)
  /\ get_int64 S_ORDER_CNT r' = i64 (get_int64 S_ORDER_CNT r + 1)
  /\ (remote = true -> get_int64 S_REMOTE_CNT r' = i64 (get_int64 S_REMOTE_CNT r + 1))
  /\ (remote = false -> get_int64 S_REMOTE_CNT r' = get_int64 S_REMOTE_CNT r).

Lemma i64_i64 (z : Z) : i64 (i64 z) = i64 z.
Proof. unfold i64. pose proof (Z.mod_pos_bound (z + 2 ^ 63) (2 ^ 64) ltac:(lia)). rewrite Z.sub_add, Z.mod_mod by lia. done. Qed.

Ltac read_columns :=
  repeat progress (rewrite ?int_set by (by rewrite ?i64_i64); rewrite ?int_int by (unfold S_QUANTITY, S_YTD, S_ORDER_CNT, S_REMOTE_CNT; lia)).

Lemma take_stock_ok (remote : bool) (n : Z) (r : row) : 1 <= n <= 10 -> stocked remote n r (take_stock remote n r).
Proof using Hlaws.
  intros Hn. unfold stocked, take_stock, left_over. split.
  - intros Hs. rewrite int_set by (by rewrite i64_i64). rewrite (u64_id (get_int64 S_QUANTITY r)) by (unfold is_u64; lia).
    rewrite (u64_id (n + 10)) by (unfold is_u64; lia). destruct (Z.ltb_spec (n + 10) (get_int64 S_QUANTITY r)).
    + rewrite u64_id by (unfold is_u64; lia). rewrite i64_id by lia. lia.
    + rewrite u64_id by (unfold is_u64; lia). rewrite i64_id by lia. lia.
  - destruct remote; read_columns; by repeat (split; [done|]).
Qed.

(** A line reads the row of its item and takes the pieces from the stock of its
    supplier. *)
Definition line_done (far : bool) (it : Item_no) (accs : list (laccess loc row)) : Prop :=
  exists il sl stock, accs = [mkLocal il RD (store il); mkLocal sl WR stock]
    /\ head (index_read i_item (ol_i_id it) 0) = Some il
    /\ head (index_read i_stock (stockKey (ol_i_id it) (ol_supply_w_id it)) (part (ol_supply_w_id it))) = Some sl
    /\ stocked far (ol_quantity it) (store sl) stock.

Lemma order_line_ok (far : bool) (it : Item_no) (accs : list (laccess loc row)) :
  item_ok g_num_wh it ->
  exists new, order_line g_num_wh g_part_cnt index_read granted far accs it = Ret (RCOK, accs ++ new) /\ line_done far it new.
Proof using Hlaws Hcnt Hall.
  intros (Hi & Hs & Hq). unfold order_line. destruct (first_item_ok _ _ _ (all_items Hall _ Hi)) as (il & -> & Hil).
  cbn [mbind res_bind]. unfold granted at 1. rewrite (wh_to_part_ok g_num_wh g_part_cnt Hcnt). cbn [mbind res_bind].
  destruct (first_item_ok _ _ _ (all_stocks Hall _ _ Hs Hi)) as (sl & _ & Hsl). rewrite Hsl. cbn [deref mbind res_bind].
  unfold granted at 1. rewrite <- app_assoc. eexists. split; [done|]. exists il, sl. eexists. split; [done|]. split; [done|].
  split; [done|]. by apply take_stock_ok.
Qed.

Lemma order_lines_ok (far : bool) (lines : list Item_no) (accs : list (laccess loc row)) :
  Forall (item_ok g_num_wh) lines ->
  exists news, order_lines g_num_wh g_part_cnt index_read granted far accs lines = Ret (RCOK, accs ++ concat news)
    /\ Forall2 (line_done far) lines news.
Proof using Hlaws Hcnt Hall.
  intros Hl. revert accs. induction Hl as [|it lines Hit _ IH]; intros accs; cbn [order_lines].
  { exists []. cbn. split; [by rewrite app_nil_r|constructor]. }
  destruct (order_line_ok far it accs Hit) as (new & -> & Hnew). cbn [mbind res_bind]. rewrite bool_decide_eq_true_2 by done.
  destruct (IH (accs ++ new)) as (news & -> & Hnews). exists (new :: news). cbn. split; [by rewrite <- app_assoc|by constructor].
Qed.

Lemma stock_keys_apart (lines : list Item_no) :
  Forall (item_ok g_num_wh) lines -> NoDup (ids lines) -> NoDup ((fun it => stockKey (ol_i_id it) (ol_supply_w_id it)) <$> lines).
Proof using Hwh.
  induction 1 as [|it lines Hit Hl IH]; intros Hnd; [constructor|]. cbn in *. apply list.NoDup_cons in Hnd as [Hn Hnd].
  apply list.NoDup_cons. split; [|auto]. intros (it' & Heq & Hin)%list_elem_of_fmap. apply Hn. apply list_elem_of_fmap.
  exists it'. split; [|done]. rewrite list.Forall_forall in Hl. destruct (Hl it' Hin) as (Hi' & Hs' & _), Hit as (Hi & Hs & _).
  unfold stockKey, g_max_items in *. rewrite !u64_id in Heq by (unfold is_u64; lia). lia.
Qed.

(** C34: A new order whose rows are granted commits.  It reads its warehouse and its
    customer, advances the order number of its district by one, and for each of
    its lines reads the item and takes the pieces from the stock of the supplier;
    no stock row is taken twice, and a stock that is not negative has at least 11
    pieces afterwards. *)
Theorem tpcc_new_order_effect (w : Z) (q : tpcc_query) :
  1 <= w <= g_num_wh -> new_order_ok g_num_wh g_part_cnt w q ->
  let lines := take (Z.to_nat (ol_cnt q)) (items q) in
  exists wl cl dl dist news,
    run_new_order g_num_wh g_part_cnt index_read granted q
      = Ret (RCOK, [mkLocal wl RD (store wl); mkLocal cl RD (store cl); mkLocal dl WR dist] ++ concat news)
    /\ head (index_read i_warehouse w (part w)) = Some wl
    /\ head (index_read i_customer_id (custKey (c_id q) (d_id q) w) (part w)) = Some cl
    /\ head (index_read i_district (distKey (d_id q) w) (part w)) = Some dl
    /\ get_int64 D_NEXT_O_ID dist = i64 (get_int64 D_NEXT_O_ID (store dl) + 1)
    /\ (forall c, c <> D_NEXT_O_ID -> get_int64 c dist = get_int64 c (store dl) /\ get_double c dist = (get_double c (store dl) : D))
    /\ Forall2 (line_done (remote q)) lines news
    /\ NoDup ((fun it => stockKey (ol_i_id it) (ol_supply_w_id it)) <$> lines).
Proof using Hlaws Hcnt Hwh Hall.
  intros Hw (_ & Hwq & _ & Hd & Hc & Hn & Hlen & Hnd & Hitems & _) lines. unfold run_new_order. rewrite Hwq.
  rewrite (wh_to_part_ok g_num_wh g_part_cnt Hcnt). cbn [mbind res_bind].
  destruct (first_item_ok _ _ _ (all_warehouses Hall w Hw)) as (wl & -> & Hwl). cbn [mbind res_bind]. unfold granted at 1.
  destruct (first_item_ok _ _ _ (all_customers Hall w _ _ Hw Hd Hc)) as (cl & -> & Hcl). cbn [mbind res_bind]. unfold granted at 1.
  destruct (first_item_ok _ _ _ (all_districts Hall w _ Hw Hd)) as (dl & -> & Hdl). cbn [mbind res_bind]. unfold granted at 1.
  destruct (Nat.leb_spec (Z.to_nat (ol_cnt q)) (length (items q))); [|rewrite length_take in Hlen; lia]. cbn [mbind res_bind].
  fold lines in Hlen, Hnd, Hitems |- *.
  destruct (order_lines_ok (remote q) lines ((([mkLocal wl RD (store wl)] ++ [mkLocal cl RD (store cl)])
    ++ [mkLocal dl WR (set_int64 D_NEXT_O_ID (i64 (get_int64 D_NEXT_O_ID (store dl) + 1)) (store dl))])) Hitems) as (news & -> & Hnews).
  exists wl, cl, dl. eexists _, news. split; [done|]. split; [done|]. split; [done|]. split; [done|].
  split; [rewrite int_set; [done|apply i64_i64]|]. split; [|split; [done|by apply stock_keys_apart]].
  intros c Hne. split; [by rewrite int_int|by rewrite int_double].
Qed.
End Effects.

(** A name of ten characters is copied without its zero, and the length is then
    looked for in what the array held before. *)
Theorem tpcc_h_data_overrun :
  fill_h_data (replicate 25 Byte.x61) (replicate 10 Byte.x61 ++ [Byte.x00]) (replicate 10 Byte.x61 ++ [Byte.x00]) = Fault OutOfBounds.
Proof. vm_compute. reflexivity. Qed.

(** ** A small database *)

Module SmallShop.

(** Rows as functions from columns, with integers for doubles. *)
Record cols := mkCols {
  dcol : Z -> Z;
  icol : Z -> Z;
  chars : bytes;
}.

Definition put (c v : Z) (f : Z -> Z) (c' : Z) : Z := if c =? c' then v else f c'.

#[global] Instance cols_api : RowAPI Z cols := {
  get_double c r := dcol r c;
  set_double c d r := mkCols (put c d (dcol r)) (icol r) (chars r);
  get_int64 c r := icol r c;
  set_int64 c v r := mkCols (dcol r) (put c v (icol r)) (chars r);
  get_chars _ r := chars r;
}.

#[global] Instance cols_laws : RowLaws Z cols.
Proof.
  split; cbn; intros; unfold put; rewrite ?Z.eqb_refl; try done; by destruct (Z.eqb_spec c c').
Qed.

(** Every key is in its index; all rows are alike. *)
Definition index_read (idx : tpcc_index) (key part : Z) : list (tpcc_index * Z) := [(idx, key)].
Definition store (l : tpcc_index * Z) : cols := mkCols (fun _ => 100) (fun _ => 50) (replicate 10 Byte.x00).

Definition payment : tpcc_query :=
  mkQuery TPCC_PAYMENT 1 2 3 1 1 2 (replicate 16 Byte.x00) 10 false [] false false 0 0 [0].
Definition order : tpcc_query :=
  mkQuery TPCC_NEW_ORDER 1 2 3 0 0 0 (replicate 16 Byte.x00) 0 false [mkItem 7 1 4; mkItem 9 1 10] true false 2 2013 [0].

Lemma all_there : complete 1 1 index_read.
Proof. by split. Qed.

Lemma payment_is_ok : payment_ok 1 1 1 payment.
Proof.
  unfold payment_ok, customer_ok, LASTNAME_LEN, DIST_PER_WARE, g_cust_per_dist. cbn. split_and!; try done; try lia.
  split; [apply NoDup_singleton|]. intros p. change (part 1 <$> [1; 1]) with [0; 0]. set_solver.
Qed.

Lemma order_is_ok : new_order_ok 1 1 1 order.
Proof.
  unfold new_order_ok, DIST_PER_WARE, g_cust_per_dist. cbn. split_and!; try done; try lia.
  - repeat constructor; set_solver.
  - repeat constructor; cbn; unfold g_max_items; lia.
  - intros _. by repeat constructor.
  - split; [apply NoDup_singleton|]. intros p. change (part 1 <$> 1 :: [1; 1]) with [0; 0; 0]. set_solver.
Qed.
End SmallShop.


Lemma tpcc_new_order_effect_witness :
  exists wl cl dl dist news,
    run_new_order 1 1 SmallShop.index_read (granted SmallShop.store) SmallShop.order
      = Ret (RCOK, [mkLocal wl RD (SmallShop.store wl); mkLocal cl RD (SmallShop.store cl); mkLocal dl WR dist] ++ concat news)
    /\ SmallShop.icol dist D_NEXT_O_ID = 51 /\ length news = 2%nat.
Proof.
  destruct (tpcc_new_order_effect 1 1 SmallShop.index_read SmallShop.store ltac:(lia) ltac:(lia) SmallShop.all_there 1 SmallShop.order)
    as (wl & cl & dl & dist & news & H1 & _ & _ & _ & H2 & _ & H3 & _).
  - lia.
  - exact SmallShop.order_is_ok.
  - exists wl, cl, dl, dist, news. split; [exact H1|]. split; [exact H2|]. by apply list.Forall2_length in H3.
Defined.
