(* ===== verification/TpccLoad.v ===== *)
(** * db2: the TPC-C tables ([common/workload/tpcc_wl.cpp])

    The loader of the nine tables and six indexes.  The allocation of rows, the
    typed columns and the index it calls are not in the repository: they are
    parameters, as in [TpccTxn].  The loader is written in a state monad over the
    random generators, the tables and the index. *)

From S2P Require Import Prelude Config Catalog Tpcc TpccConst TpccQuery TpccTxn.

(** ** Tables, rows and indexes *)

(** [src/common/workload/tpcc.h:17-25 t_warehouse] *)
Inductive tpcc_table :=
  t_warehouse | t_district | t_customer | t_history | t_neworder | t_order | t_orderline | t_item | t_stock.

#[export] Instance tpcc_table_eq_dec : EqDecision tpcc_table.
Proof. solve_decision. Defined.
#[export] Instance tpcc_index_eq_dec : EqDecision tpcc_index.
Proof. solve_decision. Defined.

(** What the loader does to rows beside setting numbers: [get_new_row],
    [set_primary_key] and [set_value] of a character array. *)
Class RowInit (row : Type) := {
  new_row : tpcc_table -> row;
  set_primary_key : Z -> row -> row;
  set_chars : Z -> bytes -> row -> row;
}.

(** Characters and the primary key do not touch the numbers in other columns. *)
Class RowInitLaws (D row : Type) `{RowAPI D row, RowInit row} := {
  chars_int c c' b (r : row) : c <> c' -> get_int64 c' (set_chars c b r) = get_int64 c' r;
  chars_double c c' b (r : row) : c <> c' -> get_double c' (set_chars c b r) = (get_double c' r : D);
  key_int c k (r : row) : get_int64 c (set_primary_key k r) = get_int64 c r;
  key_double c k (r : row) : get_double c (set_primary_key k r) = (get_double c r : D);
}.

(** An entry of an index: which one, the key and the partition. *)
Definition slot : Type := tpcc_index * Z * Z.

(** The indexes of the workload.  A location is the place of a row in the order
    the rows were made. *)
Class IndexAPI (ix : Type) := {
  index_insert : tpcc_index -> Z -> nat -> Z -> ix -> ix;
  index_read : ix -> tpcc_index -> Z -> Z -> list nat;
}.

(** An insertion adds one row under its key and partition. *)
Class IndexLaws (ix : Type) `{IndexAPI ix} :=
  index_read_insert i k l p (x : ix) i' k' p' :
    index_read (index_insert i k l p x) i' k' p'
    ≡ₚ (if decide ((i, k, p) = (i', k', p') :> slot) then [l] else []) ++ index_read x i' k' p'.

(** ** The monad of the loader *)

(** The generators, how often [rand] was called, the rows in the order they were
    made, the indexes and the next thread number. *)
Record world (row ix : Type) := mkWorld {
  w_rng : rng;
  w_rand : nat;
  w_rows : list (tpcc_table * row);
  w_ix : ix;
  next_tid : Z;
}.
Arguments mkWorld {row ix} _ _ _ _ _.
Arguments w_rng {row ix} _.
Arguments w_rand {row ix} _.
Arguments w_rows {row ix} _.
Arguments w_ix {row ix} _.
Arguments next_tid {row ix} _.

Definition with_rng {row ix : Type} (r : rng) (s : world row ix) : world row ix :=
  mkWorld r (w_rand s) (w_rows s) (w_ix s) (next_tid s).

(** What the loader's functions are: they change the world and can fail. *)
Definition ld (row ix A : Type) : Type := world row ix -> res (A * world row ix).

#[export] Instance ld_ret {row ix : Type} : MRet (ld row ix) := fun A a s => Ret (a, s).
#[export] Instance ld_bind {row ix : Type} : MBind (ld row ix) := fun A B k m s =>
  match m s with
  | Ret (a, s') => k a s'
  | Wait => Wait
  | Fault f => Fault f
  end.

(** ** Names of columns *)

(** The columns of the table that is read last, whose catalog all tables share.
    [src/common/workload/TPCC_full_schema.txt:93-110 STOCK] *)
Definition stock_decls : list decl :=
  [mkDecl "S_I_ID" 8 "int64_t"; mkDecl "S_W_ID" 8 "int64_t"; mkDecl "S_QUANTITY" 8 "int64_t";
   mkDecl "S_DIST_01" 24 "string"; mkDecl "S_DIST_02" 24 "string"; mkDecl "S_DIST_03" 24 "string";
   mkDecl "S_DIST_04" 24 "string"; mkDecl "S_DIST_05" 24 "string"; mkDecl "S_DIST_06" 24 "string";
   mkDecl "S_DIST_07" 24 "string"; mkDecl "S_DIST_08" 24 "string"; mkDecl "S_DIST_09" 24 "string";
   mkDecl "S_DIST_10" 24 "string"; mkDecl "S_YTD" 8 "int64_t"; mkDecl "S_ORDER_CNT" 8 "int64_t";
   mkDecl "S_REMOTE_CNT" 8 "int64_t"; mkDecl "S_DATA" 50 "string"]%string.

Definition stock_schema : res Catalog := add_cols (Catalog_init "STOCK" 17) stock_decls.

(** [src/common/workload/tpcc_wl.cpp:224-233 row_name] *)
Definition row_name (i : Z) : res string :=
  '(a, b) ← (if i <? 10 then d ← at_ (Byte.of_N (Z.to_N (i + 48))); Ret (Byte.x30, d) else Ret (Byte.x31, Byte.x30));
  Ret (String.string_of_list_byte (String.list_byte_of_string "S_DIST_" ++ [a; b])).

Definition original : bytes := String.list_byte_of_string "original".

(** [strcpy(&dst[off], src)]: an array that is too short is overrun. *)
Definition strcpy_at (dst : bytes) (off : Z) (src : bytes) : res bytes :=
  memcpy dst off (src ++ [Byte.x00]) 0 (Z.of_nat (length src) + 1).

Section Load.
Context {D row ix : Type} `{RowAPI D row, RowInit row, IndexAPI ix}.
Context (d_of_Z : Z -> D) (ddiv : D -> D -> D).
Context (g_num_wh g_part_cnt : Z).
(** The values [rand] returns, and what is in an array nothing was written to. *)
Context (rands : nat -> Z) (junk : nat -> bytes).

Local Abbreviation ld := (ld row ix).

Definition lift {A : Type} (m : res A) : ld A := fun s => a ← m; Ret (a, s).
Definition draw {A : Type} (m : rng -> res (A * rng)) : ld A := fun s =>
  '(a, r) ← m (w_rng s); Ret (a, with_rng r s).
Definition rand : ld Z := fun s =>
  Ret (rands (w_rand s), mkWorld (w_rng s) (S (w_rand s)) (w_rows s) (w_ix s) (next_tid s)).

(** A row enters the tables when its columns are set; nothing reaches it before. *)
Definition keep (t : tpcc_table) (r : row) : ld nat := fun s =>
  Ret (length (w_rows s), mkWorld (w_rng s) (w_rand s) (w_rows s ++ [(t, r)]) (w_ix s) (next_tid s)).
Definition insert_at (i : tpcc_index) (key : Z) (l : nat) (part : Z) : ld () := fun s =>
  Ret (tt, mkWorld (w_rng s) (w_rand s) (w_rows s) (index_insert i key l part (w_ix s)) (next_tid s)).

Fixpoint forM {A : Type} (l : list A) (f : A -> ld ()) : ld () :=
  match l with
  | [] => mret tt
  | a :: l => _ ← f a; forM l f
  end.

Definition alpha (min max : Z) (str : bytes) (thd_id : Z) : ld bytes :=
  '(_, str) ← draw (MakeAlphaString min max str thd_id); mret str.
Definition number (min max : Z) (str : bytes) (thd_id : Z) : ld bytes :=
  '(_, str) ← draw (MakeNumberString min max str thd_id); mret str.

(** ** The tables *)

(** [src/common/workload/tpcc_wl.cpp:118-136 row] *)
Definition init_item (i : Z) : ld () :=
  let r := set_int64 I_ID i (set_primary_key i (new_row t_item)) in
  im_id ← draw (URand 1 10000 0);
  let r := set_int64 I_IM_ID im_id r in
  name ← alpha 14 24 (junk 24) 0;
  let r := set_chars I_NAME name r in
  price ← draw (URand 1 100 0);
  let r := set_int64 I_PRICE price r in
  data ← alpha 26 50 (junk 50) 0;
  x ← draw (RAND 10 0);
  data ← (if x =? 0 then lift (strcpy data original) else mret data);
  let r := set_chars I_DATA data r in
  l ← keep t_item r;
  insert_at i_item i l 0.

(** [src/common/workload/tpcc_wl.cpp:116-138 tpcc_wl::init_tab_item] *)
Definition init_tab_item : ld () := forM (seqZ 1 g_max_items) init_item.

(** [src/common/workload/tpcc_wl.cpp:140-172 tpcc_wl::init_tab_wh] *)
Definition init_tab_wh (wid : Z) : ld () :=
  if negb ((1 <=? wid) && (wid <=? g_num_wh)) then lift (Fault Assert) else
  let thd := gen_of wid in
  let r := set_int64 W_ID wid (set_primary_key wid (new_row t_warehouse)) in
  name ← alpha 6 10 (junk 10) thd;
  let r := set_chars W_NAME name r in
  street ← alpha 10 20 (junk 20) thd;
  let r := set_chars W_STREET_1 street r in
  street ← alpha 10 20 street thd;
  let r := set_chars W_STREET_2 street r in
  street ← alpha 10 20 street thd;
  let r := set_chars W_CITY street r in
  state ← alpha 2 2 (junk 2) thd;
  let r := set_chars W_STATE state r in
  zip ← number 9 9 (junk 9) thd;
  let r := set_chars W_ZIP zip r in
  tax ← draw (URand 0 200 thd);
  let r := set_double W_TAX (ddiv (d_of_Z tax) (d_of_Z 1000)) r in
  let r := set_double W_YTD (d_of_Z 300000) r in
  part ← lift (wh_to_part g_part_cnt g_num_wh wid);
  l ← keep t_warehouse r;
  insert_at i_warehouse wid l part.

(** [src/common/workload/tpcc_wl.cpp:176-206 row] *)
Definition init_district (wid did : Z) : ld () :=
  let thd := gen_of wid in
  let r := set_int64 D_W_ID wid (set_int64 D_ID did (set_primary_key did (new_row t_district))) in
  name ← alpha 6 10 (junk 10) thd;
  let r := set_chars D_NAME name r in
  street ← alpha 10 20 (junk 20) thd;
  let r := set_chars D_STREET_1 street r in
  street ← alpha 10 20 street thd;
  let r := set_chars D_STREET_2 street r in
  street ← alpha 10 20 street thd;
  let r := set_chars D_CITY street r in
  state ← alpha 2 2 (junk 2) thd;
  let r := set_chars D_STATE state r in
  zip ← number 9 9 (junk 9) thd;
  let r := set_chars D_ZIP zip r in
  tax ← draw (URand 0 200 thd);
  let r := set_double D_TAX (ddiv (d_of_Z tax) (d_of_Z 1000)) r in
  let r := set_int64 D_NEXT_O_ID 3001 (set_double D_YTD (d_of_Z 30000) r) in
  part ← lift (wh_to_part g_part_cnt g_num_wh wid);
  l ← keep t_district r;
  insert_at i_district (distKey did wid) l part.

(** [src/common/workload/tpcc_wl.cpp:174-208 tpcc_wl::init_tab_dist] *)
Definition init_tab_dist (wid : Z) : ld () := forM (seqZ 1 DIST_PER_WARE) (init_district wid).

(** The ten texts of a stock row; one array of 25 serves all.
    [src/common/workload/tpcc_wl.cpp:223-236 s_dist] *)
Fixpoint stock_texts (todo : list Z) (thd : Z) (s_dist : bytes) (r : row) : ld row :=
  match todo with
  | [] => mret r
  | i :: todo =>
      col ← lift (n ← row_name i; schema ← stock_schema; get_field_id schema n);
      s_dist ← alpha 24 24 s_dist thd;
      stock_texts todo thd s_dist (set_chars col s_dist r)
  end.

(** [src/common/workload/tpcc_wl.cpp:213-247 row] *)
Definition init_stock (wid sid : Z) : ld () :=
  let thd := gen_of wid in
  let r := set_int64 S_W_ID wid (set_int64 S_I_ID sid (set_primary_key sid (new_row t_stock))) in
  quantity ← draw (URand 10 100 thd);
  let r := set_int64 S_REMOTE_CNT 0 (set_int64 S_QUANTITY quantity r) in
  r ← stock_texts (seqZ 1 10) thd (junk 25) r;
  let r := set_int64 S_ORDER_CNT 0 (set_int64 S_YTD 0 r) in
  '(len, s_data) ← draw (MakeAlphaString 26 50 (junk 50) thd);
  x ← rand;
  s_data ← (if Z.rem x 100 <? 10 then
              idx ← draw (URand 0 (len - 8) thd);
              lift (strcpy_at s_data idx original)
            else mret s_data);
  let r := set_chars S_DATA s_data r in
  part ← lift (wh_to_part g_part_cnt g_num_wh wid);
  l ← keep t_stock r;
  insert_at i_stock (stockKey sid wid) l part.

(** [src/common/workload/tpcc_wl.cpp:210-249 tpcc_wl::init_tab_stock] *)
Definition init_tab_stock (wid : Z) : ld () := forM (seqZ 1 g_max_items) (init_stock wid).

(** [src/common/workload/tpcc_wl.cpp:254-313 row] *)
Definition init_customer (did wid cid : Z) : ld () :=
  let thd := gen_of wid in
  let r := set_primary_key cid (new_row t_customer) in
  let r := set_int64 C_W_ID wid (set_int64 C_D_ID did (set_int64 C_ID cid r)) in
  num ← (if cid <=? 1000 then mret (cid - 1) else draw (NURand 255 0 999 thd));
  '(_, c_last) ← lift (Lastname num (junk 16));
  let r := set_chars C_LAST c_last r in
  let r := set_chars C_MIDDLE (String.list_byte_of_string "OE" ++ [Byte.x00]) r in
  c_first ← alpha 8 16 (junk 16) thd;
  let r := set_chars C_FIRST c_first r in
  street ← alpha 10 20 (junk 20) thd;
  let r := set_chars C_STREET_1 street r in
  street ← alpha 10 20 street thd;
  let r := set_chars C_STREET_2 street r in
  street ← alpha 10 20 street thd;
  let r := set_chars C_CITY street r in
  state ← alpha 2 2 (junk 2) thd;
  let r := set_chars C_STATE state r in
  zip ← number 9 9 (junk 9) thd;
  let r := set_chars C_ZIP zip r in
  phone ← number 16 16 (junk 16) thd;
  let r := set_chars C_PHONE phone r in
  let r := set_int64 C_DELIVERY_CNT 0 (set_int64 C_CREDIT_LIM 50000 (set_int64 C_SINCE 0 r)) in
  c_data ← alpha 300 500 (junk 500) thd;
  let r := set_chars C_DATA c_data r in
  x ← draw (RAND 10 thd);
  let r := set_chars C_CREDIT (String.list_byte_of_string (if x =? 0 then "GC" else "BC") ++ [Byte.x00]) r in
  discount ← draw (RAND 5000 thd);
  let r := set_double C_DISCOUNT (ddiv (d_of_Z discount) (d_of_Z 10000)) r in
  let r := set_double C_YTD_PAYMENT (d_of_Z 10) (set_double C_BALANCE (d_of_Z (-10)) r) in
  let r := set_int64 C_PAYMENT_CNT 1 r in
  l ← keep t_customer r;
  name ← lift (c_string c_last);
  part ← lift (wh_to_part g_part_cnt g_num_wh wid);
  _ ← insert_at i_customer_last (custNPKey name did wid) l part;
  insert_at i_customer_id (custKey cid did wid) l part.

(** [src/common/workload/tpcc_wl.cpp:251-315 tpcc_wl::init_tab_cust] *)
Definition init_tab_cust (did wid : Z) : ld () :=
  if g_cust_per_dist <? 1000 then lift (Fault Assert)
  else forM (seqZ 1 g_cust_per_dist) (init_customer did wid).

(** The row is in no index.
    [src/common/workload/tpcc_wl.cpp:317-336 tpcc_wl::init_tab_hist] *)
Definition init_tab_hist (c_id d_id w_id : Z) : ld () :=
  let r := set_int64 H_C_D_ID d_id (set_int64 H_C_ID c_id (set_primary_key 0 (new_row t_history))) in
  let r := set_int64 H_W_ID w_id (set_int64 H_C_W_ID w_id (set_int64 H_D_ID d_id r)) in
  let r := set_double H_AMOUNT (d_of_Z 10) (set_int64 H_DATE 0 r) in
  h_data ← alpha 12 24 (junk 24) (gen_of w_id);
  _ ← keep t_history (set_chars H_DATA h_data r);
  mret tt.

(** [src/common/workload/tpcc_wl.cpp:365-384 ol] *)
Definition init_order_line (did wid oid ol : Z) : ld () :=
  let thd := gen_of wid in
  let o_entry := 2013 in
  let r := set_int64 OL_W_ID wid (set_int64 OL_D_ID did (set_int64 OL_O_ID oid (new_row t_orderline))) in
  let r := set_int64 OL_NUMBER ol r in
  i_id ← draw (URand 1 100000 thd);
  let r := set_int64 OL_SUPPLY_W_ID wid (set_int64 OL_I_ID i_id r) in
  r ← (if oid <? 2101 then mret (set_int64 OL_AMOUNT 0 (set_int64 OL_DELIVERY_D o_entry r))
       else
         let r := set_int64 OL_DELIVERY_D 0 r in
         amount ← draw (URand 1 999999 thd);
         mret (set_double OL_AMOUNT (ddiv (d_of_Z amount) (d_of_Z 100)) r));
  let r := set_int64 OL_QUANTITY 5 r in
  ol_dist_info ← alpha 24 24 (junk 24) thd;
  _ ← keep t_orderline (set_chars OL_DIST_INFO ol_dist_info r);
  mret tt.

(** An order, its lines and the record of an open order.
    [src/common/workload/tpcc_wl.cpp:342-392 row] *)
Definition init_order (perm : list Z) (did wid oid : Z) : ld () :=
  let thd := gen_of wid in
  let o_entry := 2013 in
  let r := set_primary_key oid (new_row t_order) in
  cid ← lift (at_ (perm !! Z.to_nat (oid - 1)));
  let r := set_int64 O_D_ID did (set_int64 O_C_ID cid (set_int64 O_ID oid r)) in
  let r := set_int64 O_ENTRY_D o_entry (set_int64 O_W_ID wid r) in
  carrier ← (if oid <? 2101 then draw (URand 1 10 thd) else mret 0);
  let r := set_int64 O_CARRIER_ID carrier r in
  o_ol_cnt ← draw (URand 5 15 thd);
  _ ← keep t_order (set_int64 O_ALL_LOCAL 1 (set_int64 O_OL_CNT o_ol_cnt r));
  _ ← forM (seqZ 1 o_ol_cnt) (init_order_line did wid oid);
  if 2100 <? oid then
    let r := set_int64 NO_D_ID did (set_int64 NO_O_ID oid (new_row t_neworder)) in
    _ ← keep t_neworder (set_int64 NO_W_ID wid r);
    mret tt
  else mret tt.

(** [src/common/workload/tpcc_wl.cpp:338-394 tpcc_wl::init_tab_order] *)
Definition init_tab_order (did wid : Z) : ld () :=
  perm ← draw (init_permutation g_cust_per_dist wid);
  forM (seqZ 1 g_cust_per_dist) (init_order perm did wid).

(** The generator of a thread is stored before its number is checked.
    [src/common/workload/tpcc_wl.cpp:425-429 tpcc_buffer] *)
Definition take_number : ld Z := fun s =>
  let tid := i32 (next_tid s) in
  let wid := u32 (tid + 1) in
  if negb ((0 <=? tid) && (tid <? Z.of_nat (length (tpcc_buffer (w_rng s))))) then Fault OutOfBounds else
  assert! u64 tid <? g_num_wh;
  let buffer := <[Z.to_nat tid := Some (srand48_r wid)]> (tpcc_buffer (w_rng s)) in
  Ret (tid, mkWorld (with_buffer buffer (w_rng s)) (w_rand s) (w_rows s) (w_ix s) (u32 (next_tid s + 1))).

(** [src/common/workload/tpcc_wl.cpp:436-441 did] *)
Definition init_customers (wid did : Z) : ld () :=
  _ ← init_tab_cust did wid;
  _ ← init_tab_order did wid;
  forM (seqZ 1 g_cust_per_dist) (fun cid => init_tab_hist cid did wid).

(** [src/common/workload/tpcc_wl.cpp:423-443 tpcc_wl::threadInitWarehouse] *)
Definition threadInitWarehouse : ld () :=
  tid ← take_number;
  let wid := u32 (tid + 1) in
  _ ← (if tid =? 0 then init_tab_item else mret tt);
  _ ← init_tab_wh wid;
  _ ← init_tab_dist wid;
  _ ← init_tab_stock wid;
  forM (seqZ 1 DIST_PER_WARE) (init_customers wid).

(** The generators are made, the calling thread loads the one warehouse of the
    configuration, and then [g_init_parallelism] further threads are started.  The
    threads are run one after the other; what the first of them does depends on no
    other.
    [src/common/workload/tpcc_wl.cpp:60-106 tpcc_wl::init_table] *)
Definition init_table (g_init_parallelism : Z) : ld () :=
  _ ← (fun s => Ret (tt, with_rng (with_buffer (replicate (Z.to_nat g_num_wh) None) (w_rng s)) s));
  _ ← forM (seq 0 (Z.to_nat g_num_wh)) (fun _ => threadInitWarehouse);
  forM (seq 0 (Z.to_nat g_init_parallelism)) (fun _ => threadInitWarehouse).
End Load.

(** ** Drawing numbers and texts *)

(** Drawing does not change how many generators there are. *)
Lemma RAND_buffers (max t v : Z) (r r' : rng) : RAND max t r = Ret (v, r') -> length (tpcc_buffer r') = length (tpcc_buffer r).
Proof. unfold RAND, lrand48_r. cbv zeta. intros H. res_inv. cbn. by rewrite length_insert. Qed.

Lemma URand_buffers (x y t v : Z) (r r' : rng) : URand x y t r = Ret (v, r') -> length (tpcc_buffer r') = length (tpcc_buffer r).
Proof. unfold URand. intros H. res_inv. by eapply RAND_buffers. Qed.

Lemma nurand_C_buffers (A t v : Z) (r r' : rng) : nurand_C A t r = Ret (v, r') -> length (tpcc_buffer r') = length (tpcc_buffer r).
Proof.
  unfold nurand_C. intros H. repeat case_match; res_inv; cbn; try done; by eapply URand_buffers.
Qed.

Lemma NURand_buffers (A x y t v : Z) (r r' : rng) : NURand A x y t r = Ret (v, r') -> length (tpcc_buffer r') = length (tpcc_buffer r).
Proof.
  unfold NURand. intros H. res_inv.
  repeat match goal with
  | H : URand _ _ _ _ = _ |- _ => apply URand_buffers in H
  | H : nurand_C _ _ _ = _ |- _ => apply nurand_C_buffers in H
  end. congruence.
Qed.

Lemma init_permutation_buffers (n wid : Z) (perm : list Z) (r r' : rng) :
  init_permutation n wid r = Ret (perm, r') -> length (tpcc_buffer r') = length (tpcc_buffer r).
Proof.
  unfold init_permutation. generalize ((fun i : nat => Z.of_nat i + 1) <$> seq 0 (Z.to_nat n)). generalize (seq 0 (Z.to_nat (u32 (n - 1)))).
  intros l. revert r. induction l as [|i l IH]; intros r p H; cbn [foldM] in H; [by res_inv|].
  unfold shuffle_step in H at 1. res_inv.
  match goal with H : URand _ _ _ _ = _ |- _ => apply URand_buffers in H as <- end. by eapply IH.
Qed.

(** The thread [t], one of [n], can draw. *)
Definition gen (n : nat) (t : Z) (r : rng) : Prop := seeded t r /\ consts_ok r /\ length (tpcc_buffer r) = n.

Lemma gen_same (n : nat) (t : Z) (r r' : rng) :
  gen n t r -> seeded t r' -> same_consts r' r -> length (tpcc_buffer r') = length (tpcc_buffer r) -> gen n t r'.
Proof. intros (_ & Hc & Hn) Hs (E1 & E2 & E3) Hl. split; [done|]. unfold consts_ok. by rewrite E1, E2, E3, Hl. Qed.

Lemma RAND_gen (n : nat) (max t : Z) (r : rng) :
  gen n t r -> 0 < max -> exists v r', RAND max t r = Ret (v, r') /\ 0 <= v < max /\ gen n t r'.
Proof.
  intros Hg Hm. destruct (RAND_spec max t r (proj1 Hg) Hm) as (v & r' & E & Hv & Hs & Hc).
  exists v, r'. eauto using gen_same, RAND_buffers.
Qed.

Lemma URand_gen (n : nat) (x y t : Z) (r : rng) :
  gen n t r -> 0 <= x <= y -> y < 2 ^ 62 -> exists v r', URand x y t r = Ret (v, r') /\ x <= v <= y /\ gen n t r'.
Proof.
  intros Hg Hxy Hy. destruct (URand_spec x y t r (proj1 Hg) Hxy) as (v & r' & E & Hv & Hs & Hc); [lia|].
  exists v, r'. eauto using gen_same, URand_buffers.
Qed.

Lemma NURand_gen (n : nat) (A x y t : Z) (r : rng) :
  gen n t r -> A = 255 \/ A = 1023 \/ A = 8191 -> 0 <= x <= y -> y < 2 ^ 62 ->
  exists v r', NURand A x y t r = Ret (v, r') /\ x <= v <= y /\ gen n t r'.
Proof.
  intros (Hs & Hc & Hn) HA Hxy Hy. destruct (nurand_range A x y t r Hs Hc HA Hxy Hy) as (v & r' & c & E & Hv & Hs' & Hc' & _).
  exists v, r'. split; [done|]. split; [done|]. split; [done|]. split; [done|]. by rewrite (NURand_buffers _ _ _ _ _ _ _ E).
Qed.

Lemma put_char_ok (str : bytes) (i : nat) (c : Byte.byte) :
  (i < length str)%nat -> put_char str i c = Ret (<[i := c]> str) /\ length (<[i := c]> str) = length str.
Proof. intros H. unfold put_char. destruct (Nat.ltb_spec i (length str)); [|lia]. by rewrite length_insert. Qed.

(** The characters of a text come one by one from the generator. *)
Lemma chars_gen (n : nat) (y t : Z) (pick : Z -> res Byte.byte) (cnt : nat) (str : bytes) (r : rng) :
  gen n t r -> 0 <= y < 2 ^ 62 -> (forall k, 0 <= k <= y -> exists c, pick k = Ret c) -> (cnt <= length str)%nat ->
  exists str' r', foldM (fun '(str, r) i => '(k, r) ← URand 0 y t r; c ← pick k; str ← put_char str i c; Ret (str, r)) (str, r) (seq 0 cnt)
      = Ret (str', r') /\ length str' = length str /\ gen n t r'.
Proof.
  intros Hg Hy Hpick Hc.
  destruct (foldM_inv (fun l (st : bytes * rng) => Forall (fun i => i < length str)%nat l /\ length st.1 = length str /\ gen n t st.2)
    (fun '(str, r) i => '(k, r) ← URand 0 y t r; c ← pick k; str ← put_char str i c; Ret (str, r)) (seq 0 cnt) (str, r))
    as ([str' r'] & -> & _ & Hl & Hg').
  - split; [|done]. apply list.Forall_forall. intros i Hi%elem_of_seq. lia.
  - intros i l [s1 r1] (Hi & Hl & Hg1). apply list.Forall_cons in Hi as [Hi Hrest]. cbn in Hl, Hg1.
    destruct (URand_gen n 0 y t r1 Hg1) as (k & r2 & -> & Hk & Hg2); [lia|lia|]. cbn [mbind res_bind].
    destruct (Hpick k Hk) as [c ->]. cbn [mbind res_bind].
    destruct (put_char_ok s1 i c) as [-> Hl2]; [lia|]. cbn [mbind res_bind]. eexists. split; [done|]. cbn. split; [done|]. split; [lia|done].
  - by exists str', r'.
Qed.

Lemma MakeAlphaString_gen (n : nat) (min max t : Z) (str : bytes) (r : rng) :
  gen n t r -> 0 <= min <= max -> max <= Z.of_nat (length str) -> max < 2 ^ 62 ->
  exists cnt str' r', MakeAlphaString min max str t r = Ret (cnt, str', r')
    /\ min <= cnt <= max /\ length str' = length str /\ gen n t r'.
Proof.
  intros Hg Hm Hl Hb. unfold MakeAlphaString.
  destruct (URand_gen n min max t r Hg Hm Hb) as (cnt & r1 & -> & Hcnt & Hg1). cbn [mbind res_bind].
  destruct (chars_gen n 60 t (fun k => at_ (char_list !! Z.to_nat k)) (Z.to_nat cnt) str r1 Hg1) as (s1 & r2 & -> & Hl1 & Hg2); [lia| |lia|].
  { intros k Hk. destruct (lookup_lt_is_Some_2 char_list (Z.to_nat k)) as [c ->]; [|by exists c]. change (length char_list) with 61%nat. lia. }
  cbn [mbind res_bind].
  destruct (foldM_inv (fun l s => Forall (fun i => i < length str)%nat l /\ length s = length str)
    (fun str i => put_char str i Byte.x00) (seq (Z.to_nat cnt) (Z.to_nat (max - cnt))) s1) as (s2 & -> & _ & Hl2).
  - split; [|done]. apply list.Forall_forall. intros i Hi%elem_of_seq. lia.
  - intros i l s (Hi & Hls). apply list.Forall_cons in Hi as [Hi Hrest].
    destruct (put_char_ok s i Byte.x00) as [-> Hl2]; [lia|]. eexists. split; [done|]. split; [done|lia].
  - cbn [mbind res_bind]. by exists cnt, s2, r2.
Qed.

Lemma MakeNumberString_gen (n : nat) (min max t : Z) (str : bytes) (r : rng) :
  gen n t r -> 0 <= min <= max -> max <= Z.of_nat (length str) -> max < 2 ^ 62 ->
  exists cnt str' r', MakeNumberString min max str t r = Ret (cnt, str', r')
    /\ min <= cnt <= max /\ length str' = length str /\ gen n t r'.
Proof.
  intros Hg Hm Hl Hb. unfold MakeNumberString.
  destruct (URand_gen n min max t r Hg Hm Hb) as (cnt & r1 & -> & Hcnt & Hg1). cbn [mbind res_bind].
  destruct (chars_gen n 9 t (fun k => at_ (Byte.of_N (Z.to_N (48 + k)))) (Z.to_nat cnt) str r1 Hg1) as (s1 & r2 & -> & Hl1 & Hg2); [lia| |lia|].
  { intros k Hk. destruct (Byte.of_N (Z.to_N (48 + k))) as [c|] eqn:E; [by exists c|]. apply Byte.of_N_None_iff in E. lia. }
  cbn [mbind res_bind]. by exists cnt, s1, r2.
Qed.

(** The permutation of customers, drawn by the thread of a warehouse. *)
Lemma init_permutation_gen (n : nat) (wid : Z) (r : rng) :
  1 <= wid < 2 ^ 32 -> gen n (gen_of wid) r ->
  exists perm r', init_permutation g_cust_per_dist wid r = Ret (perm, r') /\ perm ≡ₚ seqZ 1 g_cust_per_dist /\ gen n (gen_of wid) r'.
Proof.
  intros Hw Hg. unfold gen_of in *. rewrite u64_id in * by (unfold is_u64; lia).
  destruct (init_permutation_spec g_cust_per_dist wid r (proj1 Hg)) as (perm & r' & E & Hp & Hs & Hc); [unfold g_cust_per_dist; lia|].
  exists perm, r'. split; [done|]. split; [by rewrite Hp|].
  apply (gen_same _ _ r); [done|done|done|by eapply init_permutation_buffers].
Qed.
