(* ===== verification/TpccLoaded.v ===== *)
(** * db2: what the TPC-C loader leaves behind

    Every loading function ends, or overruns the text of a stock row, which takes
    a [rand] that selects the text.  It adds rows to the tables and entries to the
    indexes; the tables of a warehouse are consistent, and the indexes have
    everything a transaction looks up. *)

From S2P Require Import Prelude Config Catalog Tpcc TpccConst TpccQuery TpccTxn TpccLoad.

(** ** Running the loader *)

Section Running.
Context {D row ix : Type} {Hapi : RowAPI D row} {Hinit : RowInit row} {Hix : IndexAPI ix}.
Context {nb : nat} (rands : nat -> Z).

Local Abbreviation world := (world row ix).
Local Abbreviation ld := (ld row ix).

(** Some call of [rand] selects the text of a stock row. *)
Definition picked : Prop := exists n, Z.rem (rands n) 100 < 10.

(** The function ends in a state that satisfies [Q], or overruns an array after
    such a call. *)
Definition wp {A : Type} (m : ld A) (Q : A -> world -> Prop) (s : world) : Prop :=
  match m s with
  | Ret (a, s') => Q a s'
  | Fault OutOfBounds => picked
  | _ => False
  end.

Lemma wp_bind {A B : Type} (m : ld A) (k : A -> ld B) (Q : B -> world -> Prop) (s : world) :
  wp m (fun a => wp (k a) Q) s -> wp (m ≫= k) Q s.
Proof. unfold wp, mbind, ld_bind. by destruct (m s) as [[a s']| |f]. Qed.

Lemma wp_ret {A : Type} (a : A) (Q : A -> world -> Prop) (s : world) : Q a s -> wp (mret a) Q s.
Proof. done. Qed.

Lemma wp_mono {A : Type} (m : ld A) (Q Q' : A -> world -> Prop) (s : world) :
  wp m Q s -> (forall a s', Q a s' -> Q' a s') -> wp m Q' s.
Proof. unfold wp. destruct (m s) as [[a s']| |f]; eauto. Qed.

Lemma wp_lift {A : Type} (m : res A) (a : A) (Q : A -> world -> Prop) (s : world) : m = Ret a -> Q a s -> wp (lift m) Q s.
Proof. by intros ->. Qed.

Lemma wp_keep (t : tpcc_table) (r : row) (Q : nat -> world -> Prop) (s : world) :
  Q (length (w_rows s)) (mkWorld (w_rng s) (w_rand s) (w_rows s ++ [(t, r)]) (w_ix s) (next_tid s)) -> wp (keep t r) Q s.
Proof. done. Qed.

Lemma wp_insert_at (i : tpcc_index) (k : Z) (l : nat) (p : Z) (Q : () -> world -> Prop) (s : world) :
  Q tt (mkWorld (w_rng s) (w_rand s) (w_rows s) (index_insert i k l p (w_ix s)) (next_tid s)) -> wp (insert_at i k l p) Q s.
Proof. done. Qed.

Lemma wp_draw {A : Type} (m : rng -> res (A * rng)) (P : A -> Prop) (t : Z) (Q : A -> world -> Prop) (r0 : rng) (s : world) :
  (exists a r, m r0 = Ret (a, r) /\ P a /\ gen nb t r) -> (forall a r, P a -> gen nb t r -> Q a (with_rng r s)) ->
  wp (draw m) Q (with_rng r0 s).
Proof. intros (a & r & E & Ha & Hg) HQ. unfold wp, draw. cbn [w_rng with_rng]. rewrite E. exact (HQ a r Ha Hg). Qed.

Lemma wp_RAND (max t : Z) (Q : Z -> world -> Prop) (r0 : rng) (s : world) :
  gen nb t r0 -> 0 < max -> (forall v r, 0 <= v < max -> gen nb t r -> Q v (with_rng r s)) -> wp (draw (RAND max t)) Q (with_rng r0 s).
Proof. intros Hg Hm. apply (wp_draw _ (fun v => 0 <= v < max)). by apply RAND_gen. Qed.

Lemma wp_URand (x y t : Z) (Q : Z -> world -> Prop) (r0 : rng) (s : world) :
  gen nb t r0 -> 0 <= x <= y -> y < 2 ^ 62 ->
  (forall v r, x <= v <= y -> gen nb t r -> Q v (with_rng r s)) -> wp (draw (URand x y t)) Q (with_rng r0 s).
Proof. intros Hg Hx Hy. apply (wp_draw _ (fun v => x <= v <= y)). by apply URand_gen. Qed.

Lemma wp_text (make : rng -> res (Z * bytes * rng)) (min max t : Z) (len : nat)
    (Q : Z * bytes -> world -> Prop) (r0 : rng) (s : world) :
  (exists cnt str' r', make r0 = Ret (cnt, str', r') /\ min <= cnt <= max /\ length str' = len /\ gen nb t r') ->
  (forall cnt str' r, min <= cnt <= max -> length str' = len -> gen nb t r -> Q (cnt, str') (with_rng r s)) ->
  wp (draw make) Q (with_rng r0 s).
Proof.
  intros (cnt & str' & r & E & Hc & Hl & Hg) HQ. apply (wp_draw _ (fun a => min <= a.1 <= max /\ length a.2 = len) t).
  - by exists (cnt, str'), r.
  - intros [c b] r' [Hc' Hl']. by apply HQ.
Qed.

Lemma wp_alpha (min max t : Z) (str : bytes) (Q : bytes -> world -> Prop) (r0 : rng) (s : world) :
  gen nb t r0 -> 0 <= min <= max -> max <= Z.of_nat (length str) -> max < 2 ^ 62 ->
  (forall str' r, length str' = length str -> gen nb t r -> Q str' (with_rng r s)) -> wp (alpha min max str t) Q (with_rng r0 s).
Proof.
  intros Hg Hm Hl Hb HQ. unfold alpha. apply wp_bind. eapply wp_text; [by apply MakeAlphaString_gen|].
  intros cnt str' r _ Hlen Hr. by apply wp_ret, HQ.
Qed.

Lemma wp_number (min max t : Z) (str : bytes) (Q : bytes -> world -> Prop) (r0 : rng) (s : world) :
  gen nb t r0 -> 0 <= min <= max -> max <= Z.of_nat (length str) -> max < 2 ^ 62 ->
  (forall str' r, length str' = length str -> gen nb t r -> Q str' (with_rng r s)) -> wp (number min max str t) Q (with_rng r0 s).
Proof.
  intros Hg Hm Hl Hb HQ. unfold number. apply wp_bind. eapply wp_text; [by apply MakeNumberString_gen|].
  intros cnt str' r _ Hlen Hr. by apply wp_ret, HQ.
Qed.

Definition bump (s : world) : world := mkWorld (w_rng s) (S (w_rand s)) (w_rows s) (w_ix s) (next_tid s).

Lemma wp_rand (Q : Z -> world -> Prop) (r0 : rng) (s : world) :
  Q (rands (w_rand s)) (with_rng r0 (bump s)) -> wp (rand rands) Q (with_rng r0 s).
Proof. done. Qed.
End Running.

(** Runs a loading function up to the next branch. *)
Ltac ld_step Hjunk :=
  lazymatch goal with
  | |- wp _ (mbind _ _) _ _ => apply wp_bind
  | |- wp _ (mret _) _ _ => apply wp_ret
  | |- wp _ (draw (URand _ _ _)) _ _ => eapply wp_URand; [eassumption|lia|lia|intros ? ? ? ?]
  | |- wp _ (draw (RAND _ _)) _ _ => eapply wp_RAND; [eassumption|lia|intros ? ? ? ?]
  | |- wp _ (alpha _ _ _ _) _ _ => eapply wp_alpha; [eassumption|lia|rewrite ?Hjunk; lia|lia|];
      let H := fresh "Hlen" in intros ? ? H ?; try rewrite Hjunk in H
  | |- wp _ (number _ _ _ _) _ _ => eapply wp_number; [eassumption|lia|rewrite ?Hjunk; lia|lia|];
      let H := fresh "Hlen" in intros ? ? H ?; try rewrite Hjunk in H
  | |- wp _ (keep _ _) _ _ => apply wp_keep
  | |- wp _ (insert_at _ _ _ _) _ _ => apply wp_insert_at
  end.

(** Shows the state that was reached. *)
Ltac ld_state := unfold with_rng, bump; cbn [w_rng w_rand w_rows w_ix next_tid].

(** ** Rows *)

Section Rows.
Context {D row : Type} {Hapi : RowAPI D row}.
Context (d_of_Z : Z -> D).

Record item_row (i : Z) (r : row) : Prop := {
  item_id : get_int64 I_ID r = i;
  item_price : 1 <= get_int64 I_PRICE r <= 100;
}.

Record warehouse_row (w : Z) (r : row) : Prop := {
  wh_id : get_int64 W_ID r = w;
  wh_ytd : get_double W_YTD r = d_of_Z 300000;
}.

Record district_row (w d : Z) (r : row) : Prop := {
  dist_id : get_int64 D_ID r = d;
  dist_w_id : get_int64 D_W_ID r = w;
  dist_ytd : get_double D_YTD r = d_of_Z 30000;
  dist_next : get_int64 D_NEXT_O_ID r = 3001;
}.

Record stock_row (w i : Z) (r : row) : Prop := {
  stock_item : get_int64 S_I_ID r = i;
  stock_w_id : get_int64 S_W_ID r = w;
  stock_quantity : 10 <= get_int64 S_QUANTITY r <= 100;
  stock_counts : get_int64 S_YTD r = 0 /\ get_int64 S_ORDER_CNT r = 0 /\ get_int64 S_REMOTE_CNT r = 0;
}.

Record customer_row (w d c : Z) (r : row) : Prop := {
  cust_id : get_int64 C_ID r = c;
  cust_d_id : get_int64 C_D_ID r = d;
  cust_w_id : get_int64 C_W_ID r = w;
  cust_balance : get_double C_BALANCE r = d_of_Z (-10);
  cust_paid : get_double C_YTD_PAYMENT r = d_of_Z 10 /\ get_int64 C_PAYMENT_CNT r = 1;
}.

Record history_row (w d c : Z) (r : row) : Prop := {
  hist_c_id : get_int64 H_C_ID r = c;
  hist_d_id : get_int64 H_D_ID r = d;
  hist_w_id : get_int64 H_W_ID r = w;
  hist_amount : get_double H_AMOUNT r = d_of_Z 10;
}.

Record order_row (w d o c n : Z) (r : row) : Prop := {
  order_id : get_int64 O_ID r = o;
  order_c_id : get_int64 O_C_ID r = c;
  order_d_id : get_int64 O_D_ID r = d;
  order_w_id : get_int64 O_W_ID r = w;
  order_cnt : get_int64 O_OL_CNT r = n;
}.

Record line_row (w d o n : Z) (r : row) : Prop := {
  line_o_id : get_int64 OL_O_ID r = o;
  line_d_id : get_int64 OL_D_ID r = d;
  line_w_id : get_int64 OL_W_ID r = w;
  line_number : get_int64 OL_NUMBER r = n;
  line_item : 1 <= get_int64 OL_I_ID r <= g_max_items;
}.

Record open_row (w d o : Z) (r : row) : Prop := {
  open_o_id : get_int64 NO_O_ID r = o;
  open_d_id : get_int64 NO_D_ID r = d;
  open_w_id : get_int64 NO_W_ID r = w;
}.
End Rows.

(** Reads a number from a row that was built column by column. *)
Ltac read_column :=
  repeat first
    [ rewrite int_set by (apply i64_id; lia)
    | rewrite double_set
    | rewrite key_int | rewrite key_double
    | rewrite int_int by (by intros ?) | rewrite double_int by (by intros ?) | rewrite chars_int by (by intros ?)
    | rewrite double_double by (by intros ?) | rewrite int_double by (by intros ?) | rewrite chars_double by (by intros ?) ].

Section Growth.
Context {D row ix : Type} {Hapi : RowAPI D row} {Hinit : RowInit row} {Hix : IndexAPI ix} {Hixl : IndexLaws ix}.
Context {nb : nat} (d_of_Z : Z -> D) (g_num_wh g_part_cnt : Z) (rands : nat -> Z).

Local Abbreviation world := (world row ix).
Local Abbreviation ld := (ld row ix).
Local Abbreviation part := (part g_part_cnt).

(** The row an entry of an index stands for. *)
Definition row_for (sl : slot) (tr : tpcc_table * row) : Prop :=
  let '(i, key, p) := sl in
  let '(t, r) := tr in
  match i with
  | i_item => t = t_item /\ p = 0 /\ item_row key r
  | i_warehouse => t = t_warehouse /\ p = part key /\ 1 <= key <= g_num_wh /\ warehouse_row d_of_Z key r
  | i_district => t = t_district /\ exists w d, key = distKey d w /\ p = part w /\ 1 <= w <= g_num_wh /\ 1 <= d <= DIST_PER_WARE /\ district_row d_of_Z w d r
  | i_customer_id => t = t_customer /\ exists w d c, key = custKey c d w /\ p = part w
      /\ 1 <= w <= g_num_wh /\ 1 <= d <= DIST_PER_WARE /\ 1 <= c <= g_cust_per_dist /\ customer_row d_of_Z w d c r
  | i_customer_last => t = t_customer /\ exists w d c num, key = custNPKey (last_name num) d w /\ p = part w
      /\ 1 <= w <= g_num_wh /\ 1 <= d <= DIST_PER_WARE /\ 1 <= c <= g_cust_per_dist /\ 0 <= num < 1000 /\ customer_row d_of_Z w d c r
  | i_stock => t = t_stock /\ exists w j, key = stockKey j w /\ p = part w /\ 1 <= w <= g_num_wh /\ 1 <= j <= g_max_items /\ stock_row w j r
  end.

(** The locations a list of new entries puts into a slot. *)
Definition locs (L : list (slot * nat)) (sl : slot) : list nat := (filter (fun e => e.1 = sl) L).*2.

(** From one state to the next, the rows [T] are added to the tables and an entry
    to each of [slots], which stands for a row of its kind. *)
Record grew (slots : list slot) (T : list (tpcc_table * row)) (s s' : world) : Prop := {
  g_rows : w_rows s' = w_rows s ++ T;
  g_tid : next_tid s' = next_tid s;
  g_log : exists L : list (slot * nat), L.*1 = slots
    /\ Forall (fun e => exists tr, w_rows s' !! e.2 = Some tr /\ row_for e.1 tr) L
    /\ forall i k p, index_read (w_ix s') i k p ≡ₚ locs L (i, k, p) ++ index_read (w_ix s) i k p;
}.

Lemma grew_refl (s s' : world) :
  w_rows s' = w_rows s -> w_ix s' = w_ix s -> next_tid s' = next_tid s -> grew [] [] s s'.
Proof.
  intros Hr Hi Ht. split; [by rewrite app_nil_r|done|]. exists []. split; [done|]. split; [done|]. intros. by rewrite Hi.
Qed.

Lemma grew_trans (sl1 sl2 : list slot) (T1 T2 : list (tpcc_table * row)) (s1 s2 s3 : world) :
  grew sl1 T1 s1 s2 -> grew sl2 T2 s2 s3 -> grew (sl1 ++ sl2) (T1 ++ T2) s1 s3.
Proof.
  intros [Hr1 Ht1 (L1 & HL1 & HF1 & Hi1)] [Hr2 Ht2 (L2 & HL2 & HF2 & Hi2)]. split; [by rewrite Hr2, Hr1, app_assoc|congruence|].
  exists (L1 ++ L2). split; [by rewrite fmap_app, HL1, HL2|]. split.
  - apply Forall_app. split; [|done]. eapply list.Forall_impl; [exact HF1|]. intros e (tr & He & Hrow). exists tr. split; [|done].
    rewrite Hr2. by apply lookup_app_l_Some.
  - intros i k p. rewrite Hi2, Hi1. unfold locs. rewrite list.filter_app, fmap_app. rewrite !app_assoc. f_equiv. apply Permutation_app_comm.
Qed.

Lemma grew_rng (slots : list slot) (T : list (tpcc_table * row)) (r : rng) (s s' : world) :
  grew slots T (with_rng r s) s' -> grew slots T s s'.
Proof. by intros [Hr Ht Hl]; split. Qed.

Lemma grew_row (t : tpcc_table) (r : row) (rg : rng) (n : nat) (s : world) :
  grew [] [(t, r)] s (mkWorld rg n (w_rows s ++ [(t, r)]) (w_ix s) (next_tid s)).
Proof. split; [done|done|]. exists []. done. Qed.

Lemma grew_entry (i : tpcc_index) (k : Z) (l : nat) (p : Z) (tr : tpcc_table * row) (rg : rng) (n : nat) (s : world) :
  w_rows s !! l = Some tr -> row_for (i, k, p) tr ->
  grew [(i, k, p)] [] s (mkWorld rg n (w_rows s) (index_insert i k l p (w_ix s)) (next_tid s)).
Proof using Hixl.
  intros Hl Hr. split; [by rewrite app_nil_r|done|]. exists [(i, k, p, l)]. split; [done|]. split; [by apply list.Forall_singleton; exists tr|].
  intros i' k' p'. cbn [w_ix]. rewrite index_read_insert. unfold locs. rewrite list.filter_cons, list.filter_nil.
  repeat case_decide; cbn in *; congruence || done.
Qed.

Lemma grew_one (i : tpcc_index) (k p : Z) (t : tpcc_table) (r : row) (rg : rng) (n : nat) (s : world) :
  row_for (i, k, p) (t, r) ->
  grew [(i, k, p)] [(t, r)] s (mkWorld rg n (w_rows s ++ [(t, r)]) (index_insert i k (length (w_rows s)) p (w_ix s)) (next_tid s)).
Proof using Hixl.
  intros Hr. change [(i, k, p)] with ([] ++ [(i, k, p)]). rewrite <- (app_nil_r [(t, r)]) at 1.
  eapply grew_trans; [apply (grew_row t r rg n)|]. apply (grew_entry i k _ p (t, r) rg n (mkWorld rg n _ _ _)); [|done].
  cbn. by rewrite list_lookup_middle.
Qed.

(** ** Loading functions *)

(** The function, run by thread [t], adds rows and entries as [R] says. *)
Definition loads (t : Z) (m : ld ()) (R : list slot -> list (tpcc_table * row) -> Prop) : Prop :=
  forall s, gen nb t (w_rng s) -> wp rands m (fun _ s' => gen nb t (w_rng s') /\ exists slots T, R slots T /\ grew slots T s s') s.

Lemma loads_intro (t : Z) (m : ld ()) (R : list slot -> list (tpcc_table * row) -> Prop) :
  (forall r s, gen nb t r ->
     wp rands m (fun _ s' => gen nb t (w_rng s') /\ exists slots T, R slots T /\ grew slots T s s') (with_rng r s)) -> loads t m R.
Proof. intros H s Hg. destruct s as [r n T x tid]. exact (H r (mkWorld r n T x tid) Hg). Qed.

Lemma loads_mono (t : Z) (m : ld ()) (R R' : list slot -> list (tpcc_table * row) -> Prop) :
  loads t m R -> (forall sl T, R sl T -> R' sl T) -> loads t m R'.
Proof. intros Hm HR s Hg. eapply wp_mono; [by apply Hm|]. cbn. intros _ s' (Hg' & sl & T & H & Hgr). eauto 10. Qed.

Lemma loads_seq (t : Z) (m k : ld ()) (R1 R2 : list slot -> list (tpcc_table * row) -> Prop) :
  loads t m R1 -> loads t k R2 ->
  loads t (_ ← m; k) (fun sl T => exists sl1 sl2 T1 T2, R1 sl1 T1 /\ R2 sl2 T2 /\ sl = sl1 ++ sl2 /\ T = T1 ++ T2).
Proof.
  intros Hm Hk s Hg. apply wp_bind. eapply wp_mono; [by apply Hm|]. cbn. intros _ s1 (Hg1 & sl1 & T1 & H1 & Hgr1).
  eapply wp_mono; [by apply Hk|]. cbn. intros _ s2 (Hg2 & sl2 & T2 & H2 & Hgr2). split; [done|].
  exists (sl1 ++ sl2), (T1 ++ T2). split; [by exists sl1, sl2, T1, T2|by eapply grew_trans].
Qed.

Lemma loads_forM {A : Type} (t : Z) (l : list A) (f : A -> ld ()) (R : A -> list slot -> list (tpcc_table * row) -> Prop) :
  (forall a, a ∈ l -> loads t (f a) (R a)) ->
  loads t (forM l f) (fun sl T => exists es, Forall2 (fun a e => R a e.1 e.2) l es /\ sl = concat es.*1 /\ T = concat es.*2).
Proof.
  induction l as [|a l IH]; intros Hf.
  - intros s Hg. apply wp_ret. split; [done|]. exists [], []. split; [by exists []|by apply grew_refl].
  - cbn [forM]. eapply loads_mono.
    + apply loads_seq; [apply Hf; by left|]. apply IH. intros b Hb. apply Hf. by right.
    + cbn. intros sl T (sl1 & sl2 & T1 & T2 & H1 & (es & Hes & -> & ->) & -> & ->). exists ((sl1, T1) :: es). by split; [constructor|].
Qed.
End Growth.

(** ** The tables *)

Section Tables.
Context {D row ix : Type} {Hapi : RowAPI D row} {Hlaws : RowLaws D row} {Hinit : RowInit row} {Hinitl : RowInitLaws D row}.
Context {Hix : IndexAPI ix} {Hixl : IndexLaws ix}.
Context {nb : nat} (d_of_Z : Z -> D) (ddiv : D -> D -> D) (g_num_wh g_part_cnt : Z) (rands : nat -> Z) (junk : nat -> bytes).
Hypothesis Hcnt : 1 <= g_part_cnt <= g_num_wh.
Hypothesis Hwh : g_num_wh < 2 ^ 31.
Hypothesis Hjunk : forall n, length (junk n) = n.

Local Abbreviation loads := (loads (ix := ix) (nb := nb) d_of_Z g_num_wh g_part_cnt rands).
Local Abbreviation grew := (grew (ix := ix) d_of_Z g_num_wh g_part_cnt).
Local Abbreviation part := (part g_part_cnt).

(** One row and one entry. *)
Definition one (sl : slot) (t : tpcc_table) (P : row -> Prop) (slots : list slot) (T : list (tpcc_table * row)) : Prop :=
  exists r, P r /\ slots = [sl] /\ T = [(t, r)].

Lemma grew_one_loads (i : tpcc_index) (k p : Z) (t : tpcc_table) (P : row -> Prop) (r : row) (th : Z) (rg : rng) (n : nat) (s : world row ix) :
  gen nb th rg -> P r -> (P r -> row_for d_of_Z g_num_wh g_part_cnt (i, k, p) (t, r)) ->
  let s' := mkWorld rg n (w_rows s ++ [(t, r)]) (index_insert i k (length (w_rows s)) p (w_ix s)) (next_tid s) in
  gen nb th (w_rng s') /\ exists slots T, one (i, k, p) t P slots T /\ grew slots T s s'.
Proof using Hixl.
  intros Hg HP Hr s'. split; [done|]. exists [(i, k, p)], [(t, r)]. split; [by exists r|apply grew_one; auto].
Qed.

Lemma strcpy_original (data : bytes) : (8 < length data)%nat -> exists data', strcpy data original = Ret data'.
Proof. intros H. rewrite strcpy_Ret by done. by eexists. Qed.

Lemma init_item_loads (i : Z) :
  1 <= i <= g_max_items -> loads 0 (init_item junk i) (one (i_item, i, 0) t_item (item_row i)).
Proof using Hlaws Hinitl Hixl Hjunk.
  unfold g_max_items. intros Hi. apply loads_intro. intros r0 s Hg. unfold init_item. cbv zeta. repeat ld_step Hjunk.
  apply (wp_mono _ _ (fun data s' => exists r, s' = with_rng r s /\ gen nb 0 r)).
  - destruct (_ =? 0).
    + destruct (strcpy_original str'0) as [data' E]; [lia|]. eapply wp_lift; [exact E|]. by eexists.
    + by eexists.
  - intros data s' (rg & -> & Hr). repeat ld_step Hjunk. ld_state; apply grew_one_loads; [done| |by intros].
    split; read_column; lia.
Qed.

Lemma init_tab_wh_loads (w : Z) :
  1 <= w <= g_num_wh ->
  loads (gen_of w) (init_tab_wh d_of_Z ddiv g_num_wh g_part_cnt junk w) (one (i_warehouse, w, part w) t_warehouse (warehouse_row d_of_Z w)).
Proof using Hlaws Hinitl Hixl Hjunk Hcnt Hwh.
  intros Hw. apply loads_intro. intros r0 s Hg. unfold init_tab_wh. destruct (Z.leb_spec 1 w); [|lia]. destruct (Z.leb_spec w g_num_wh); [|lia]. cbv zeta. cbn [andb negb].
  repeat ld_step Hjunk. eapply wp_lift; [by apply wh_to_part_ok|]. repeat ld_step Hjunk.
  ld_state; apply grew_one_loads; [done| |by intros]. split; read_column; done.
Qed.

Lemma init_district_loads (w d : Z) :
  1 <= w <= g_num_wh -> 1 <= d <= DIST_PER_WARE ->
  loads (gen_of w) (init_district d_of_Z ddiv g_num_wh g_part_cnt junk w d)
    (one (i_district, distKey d w, part w) t_district (district_row d_of_Z w d)).
Proof using Hlaws Hinitl Hixl Hjunk Hcnt Hwh.
  intros Hw Hd. apply loads_intro. intros r0 s Hg. unfold init_district. cbv zeta. unfold DIST_PER_WARE in *.
  repeat ld_step Hjunk. eapply wp_lift; [by apply wh_to_part_ok|]. repeat ld_step Hjunk.
  ld_state; apply grew_one_loads; [done| |intros; split; [done|by exists w, d]]. split; read_column; done.
Qed.

(** *** Stock *)

Lemma stock_column (i : Z) : 1 <= i <= 10 -> (n ← row_name i; schema ← stock_schema; get_field_id schema n) = Ret (i + 2).
Proof.
  intros Hi. assert (i = 1 \/ i = 2 \/ i = 3 \/ i = 4 \/ i = 5 \/ i = 6 \/ i = 7 \/ i = 8 \/ i = 9 \/ i = 10) as E by lia.
  by repeat destruct E as [->|E]; [..|subst i]; vm_compute.
Qed.

(** The texts leave the numbers of the row alone. *)
Lemma wp_stock_texts (t : Z) (todo : list Z) (s_dist : bytes) (r : row) (Q : row -> world row ix -> Prop) (r0 : rng) (s : world row ix) :
  Forall (fun i => 1 <= i <= 10) todo -> gen nb t r0 -> length s_dist = 25%nat ->
  (forall r' rg, gen nb t rg -> (forall c, ~ (S_DIST_01 <= c <= S_DIST_10) -> get_int64 c r' = get_int64 c r) -> Q r' (with_rng rg s)) ->
  wp rands (stock_texts todo t s_dist r) Q (with_rng r0 s).
Proof using Hinitl.
  revert s_dist r r0. induction todo as [|i todo IH]; intros s_dist r r0 Hi Hg Hl HQ; cbn [stock_texts].
  - apply wp_ret, HQ; done.
  - apply list.Forall_cons in Hi as [Hi Htodo]. apply wp_bind. eapply wp_lift; [by apply stock_column|].
    repeat ld_step Hjunk. apply IH; [done|done|lia|]. intros r' rg Hrg Hr'. apply HQ; [done|]. intros c Hc.
    rewrite Hr' by done. apply chars_int. unfold S_DIST_01, S_DIST_10 in Hc. lia.
Qed.

Lemma strcpy_at_cases (data src : bytes) (off : Z) :
  (exists data', strcpy_at data off src = Ret data') \/ strcpy_at data off src = Fault OutOfBounds.
Proof. unfold strcpy_at, memcpy. case_match; eauto. Qed.

Lemma init_stock_loads (w i : Z) :
  1 <= w <= g_num_wh -> 1 <= i <= g_max_items ->
  loads (gen_of w) (init_stock g_num_wh g_part_cnt rands junk w i) (one (i_stock, stockKey i w, part w) t_stock (stock_row w i)).
Proof using Hlaws Hinitl Hixl Hjunk Hcnt Hwh.
  intros Hw Hi. apply loads_intro. intros r0 s Hg. unfold init_stock. cbv zeta. unfold g_max_items in Hi.
  repeat ld_step Hjunk. eapply wp_stock_texts; [|done|apply Hjunk|].
  { apply list.Forall_forall. intros k Hk%elem_of_seqZ. lia. }
  intros r' rg Hrg Hr'. apply wp_bind. eapply wp_text; [apply MakeAlphaString_gen; [done|lia|rewrite Hjunk; lia|lia]|].
  intros len data rg' Hlen Hdata Hrg'. apply wp_bind, wp_rand, wp_bind.
  apply (wp_mono _ _ (fun data s' => exists r, s' = with_rng r (bump s) /\ gen nb (gen_of w) r)).
  - destruct (Z.ltb_spec (Z.rem (rands (w_rand s)) 100) 10) as [Hlt|_].
    + repeat ld_step Hjunk. destruct (strcpy_at_cases data original v0) as [[data' E]|E].
      * eapply wp_lift; [exact E|]. by eexists.
      * unfold wp, lift. rewrite E. by eexists.
    + by eexists.
  - intros data' s' (rg2 & -> & Hrg2). repeat ld_step Hjunk. eapply wp_lift; [by apply wh_to_part_ok|]. repeat ld_step Hjunk.
    ld_state; apply grew_one_loads; [done| |intros; split; [done|by exists w, i]].
    split; read_column; rewrite ?Hr' by (unfold S_DIST_01, S_DIST_10, S_I_ID, S_W_ID, S_QUANTITY, S_REMOTE_CNT; lia); read_column; lia || done.
Qed.

(** *** Customers *)

(** A customer is in two indexes; the first thousand have the names in order. *)
Definition customer_added (w d c : Z) (slots : list slot) (T : list (tpcc_table * row)) : Prop :=
  exists num r, 0 <= num < 1000 /\ (c <= 1000 -> num = c - 1) /\ customer_row d_of_Z w d c r
    /\ slots = [(i_customer_last, custNPKey (last_name num) d w, part w); (i_customer_id, custKey c d w, part w)]
    /\ T = [(t_customer, r)].

Lemma grew_customer (w d c num : Z) (r : row) (rg : rng) (n : nat) (s : world row ix) :
  1 <= w <= g_num_wh -> 1 <= d <= DIST_PER_WARE -> 1 <= c <= g_cust_per_dist -> 0 <= num < 1000 -> customer_row d_of_Z w d c r ->
  let l := length (w_rows s) in
  grew [(i_customer_last, custNPKey (last_name num) d w, part w); (i_customer_id, custKey c d w, part w)] [(t_customer, r)] s
    (mkWorld rg n (w_rows s ++ [(t_customer, r)])
       (index_insert i_customer_id (custKey c d w) l (part w)
          (index_insert i_customer_last (custNPKey (last_name num) d w) l (part w) (w_ix s))) (next_tid s)).
Proof using Hixl.
  intros Hw Hd Hc Hnum Hr l.
  eapply (grew_trans _ _ _ [_] [_] [_] []); [apply (grew_one _ _ _ i_customer_last (custNPKey (last_name num) d w) (part w) t_customer r rg n)|].
  - split; [done|]. by exists w, d, c, num.
  - apply (grew_entry _ _ _ i_customer_id (custKey c d w) l (part w) (t_customer, r) rg n (mkWorld rg n _ _ _)).
    + cbn. by rewrite list_lookup_middle.
    + split; [done|]. by exists w, d, c.
Qed.

Lemma wp_customer_name (c : Z) (t : Z) (Q : Z -> world row ix -> Prop) (r0 : rng) (s : world row ix) :
  1 <= c -> gen nb t r0 -> (forall num rg, gen nb t rg -> 0 <= num < 1000 -> (c <= 1000 -> num = c - 1) -> Q num (with_rng rg s)) ->
  wp rands (if c <=? 1000 then mret (c - 1) else draw (NURand 255 0 999 t)) Q (with_rng r0 s).
Proof.
  intros Hc Hg HQ. destruct (Z.leb_spec c 1000); [apply wp_ret, HQ; [done|lia|done]|].
  apply (wp_draw (nb := nb) _ _ (fun v => 0 <= v <= 999) t).
  - apply NURand_gen; [done|by left|lia|lia].
  - intros num rg Hnum Hrg. apply HQ; [done|lia|lia].
Qed.

Lemma init_customer_loads (w d c : Z) :
  1 <= w <= g_num_wh -> 1 <= d <= DIST_PER_WARE -> 1 <= c <= g_cust_per_dist ->
  loads (gen_of w) (init_customer d_of_Z ddiv g_num_wh g_part_cnt junk d w c) (customer_added w d c).
Proof using Hlaws Hinitl Hixl Hjunk Hcnt Hwh.
  intros Hw Hd Hc. apply loads_intro. intros r0 s Hg. unfold init_customer. cbv zeta. apply wp_bind, wp_customer_name; [lia|done|].
  intros num rg Hrg Hnum Hfirst. destruct (lastname_spec num (junk 16)) as [Hname _]; [by rewrite Hjunk|lia|].
  destruct (Hname ltac:(lia)) as (rest & E & _ & _). clear Hname. apply wp_bind. eapply wp_lift; [exact E|]. cbn beta iota.
  repeat ld_step Hjunk. eapply wp_lift; [apply c_string_eq; by apply last_name_no_zero|]. apply wp_bind.
  eapply wp_lift; [by apply wh_to_part_ok|]. repeat ld_step Hjunk. ld_state. split; [done|].
  eexists _, _. split; cycle 1.
  - apply grew_customer; [done|done|done|done|].
    unfold DIST_PER_WARE, g_cust_per_dist in *. split; read_column; done.
  - eexists num, _. do 2 (split; [done|]). split; [|done]. unfold DIST_PER_WARE, g_cust_per_dist in *. split; read_column; done.
Qed.

(** *** History and orders *)

(** One row and no entry. *)
Definition just (t : tpcc_table) (P : row -> Prop) (slots : list slot) (T : list (tpcc_table * row)) : Prop :=
  exists r, P r /\ slots = [] /\ T = [(t, r)].

Lemma grew_row_loads (t : tpcc_table) (P : row -> Prop) (r : row) (th : Z) (rg : rng) (n : nat) (s : world row ix) :
  gen nb th rg -> P r ->
  let s' := mkWorld rg n (w_rows s ++ [(t, r)]) (w_ix s) (next_tid s) in
  gen nb th (w_rng s') /\ exists slots T, just t P slots T /\ grew slots T s s'.
Proof. intros Hg HP s'. split; [done|]. exists [], [(t, r)]. split; [by exists r|apply grew_row]. Qed.

Lemma init_tab_hist_loads (w d c : Z) :
  1 <= w <= g_num_wh -> 1 <= d <= DIST_PER_WARE -> 1 <= c <= g_cust_per_dist ->
  loads (gen_of w) (init_tab_hist d_of_Z junk c d w) (just t_history (history_row d_of_Z w d c)).
Proof using Hlaws Hinitl Hjunk Hcnt Hwh.
  intros Hw Hd Hc. apply loads_intro. intros r0 s Hg. unfold init_tab_hist. cbv zeta. unfold DIST_PER_WARE, g_cust_per_dist in *.
  repeat ld_step Hjunk. ld_state. apply grew_row_loads; [done|]. split; read_column; done.
Qed.

Lemma init_order_line_loads (w d o n : Z) :
  1 <= w <= g_num_wh -> 1 <= d <= DIST_PER_WARE -> 1 <= o <= g_cust_per_dist -> 1 <= n <= 15 ->
  loads (gen_of w) (init_order_line d_of_Z ddiv junk d w o n) (just t_orderline (line_row w d o n)).
Proof using Hlaws Hinitl Hjunk Hcnt Hwh.
  intros Hw Hd Ho Hn. apply loads_intro. intros r0 s Hg. unfold init_order_line. cbv zeta. unfold DIST_PER_WARE, g_cust_per_dist in *.
  repeat ld_step Hjunk. destruct (o <? 2101); repeat ld_step Hjunk; ld_state; apply grew_row_loads; try done;
    split; read_column; unfold g_max_items; done || lia.
Qed.

(** An order, its lines and the record of an open order. *)
Definition order_added (perm : list Z) (w d o : Z) (slots : list slot) (T : list (tpcc_table * row)) : Prop :=
  slots = [] /\ exists c n r lines opens,
    perm !! Z.to_nat (o - 1) = Some c /\ 5 <= n <= 15 /\ order_row w d o c n r
    /\ Forall2 (line_row w d o) (seqZ 1 n) lines
    /\ (if 2100 <? o then exists r', open_row w d o r' /\ opens = [r'] else opens = [])
    /\ T = (t_order, r) :: ((t_orderline,.) <$> lines) ++ ((t_neworder,.) <$> opens).

Lemma just_all {A : Type} (t : tpcc_table) (P : A -> row -> Prop) (l : list A) (es : list (list slot * list (tpcc_table * row))) :
  Forall2 (fun a e => just t (P a) e.1 e.2) l es ->
  exists rs, Forall2 P l rs /\ concat es.*1 = [] /\ concat es.*2 = (t,.) <$> rs.
Proof.
  induction 1 as [|a [sl T] l es (r & HP & Hsl & HT) _ (rs & Hrs & E1 & E2)]; [by exists []|].
  cbn in Hsl, HT. subst. exists (r :: rs). cbn. rewrite E1, E2. by split; [constructor|].
Qed.

Lemma wp_carrier (b : bool) (t : Z) (Q : Z -> world row ix -> Prop) (r0 : rng) (s : world row ix) :
  gen nb t r0 -> (forall v rg, 0 <= v <= 10 -> gen nb t rg -> Q v (with_rng rg s)) ->
  wp rands (if b then draw (URand 1 10 t) else mret 0) Q (with_rng r0 s).
Proof.
  intros Hg HQ. destruct b; [|by apply wp_ret, HQ]. eapply wp_URand; [done|lia|lia|]. intros v r Hv Hr. apply HQ; [lia|done].
Qed.

Lemma init_order_loads (perm : list Z) (w d o : Z) :
  1 <= w <= g_num_wh -> 1 <= d <= DIST_PER_WARE -> 1 <= o <= g_cust_per_dist -> perm ≡ₚ seqZ 1 g_cust_per_dist ->
  loads (gen_of w) (init_order d_of_Z ddiv junk perm d w o) (order_added perm w d o).
Proof using Hlaws Hinitl Hjunk Hcnt Hwh.
  intros Hw Hd Ho Hp. apply loads_intro. intros r0 s Hg. unfold init_order. cbv zeta.
  destruct (lookup_lt_is_Some_2 perm (Z.to_nat (o - 1))) as [c Hc].
  { rewrite (Permutation_length Hp), length_seqZ. unfold g_cust_per_dist in *. lia. }
  assert (1 <= c <= g_cust_per_dist) as Hcr.
  { apply list_elem_of_lookup_2 in Hc. rewrite Hp in Hc. apply elem_of_seqZ in Hc. unfold g_cust_per_dist in *. lia. }
  apply wp_bind. eapply wp_lift; [by rewrite Hc|]. apply wp_bind, wp_carrier; [done|]. intros carrier rg _ Hrg.
  do 2 ld_step Hjunk. do 2 ld_step Hjunk. set (r1 := set_int64 O_ALL_LOCAL _ _).
  assert (order_row w d o c v r1) as Hr1.
  { unfold DIST_PER_WARE, g_cust_per_dist in *. split; unfold r1; read_column; done. }
  clearbody r1. apply wp_bind. eapply wp_mono.
  - apply (loads_forM (nb := nb) d_of_Z g_num_wh g_part_cnt rands (gen_of w) (seqZ 1 v) _ (fun n => just t_orderline (line_row w d o n))).
    + intros n Hn%elem_of_seqZ. apply init_order_line_loads; [done|done|done|lia].
    + ld_state. done.
  - cbn beta. intros _ s1 (Hg1 & sl & T & (es & Hes & -> & ->) & Hgr).
    destruct (just_all _ _ _ _ Hes) as (lines & Hlines & E1 & E2). rewrite E1, E2 in Hgr.
    pose proof (grew_trans _ _ _ _ _ _ _ s _ _ (grew_row _ _ _ t_order r1 r (w_rand s) s) Hgr) as Hgr1. cbn in Hgr1.
    destruct (2100 <? o) eqn:Eo.
    + repeat ld_step Hjunk. split; [done|].
      pose proof (grew_trans _ _ _ _ _ _ _ s _ _ Hgr1
        (grew_row _ _ _ t_neworder (set_int64 NO_W_ID w (set_int64 NO_D_ID d (set_int64 NO_O_ID o (new_row t_neworder)))) (w_rng s1) (w_rand s1) s1)) as Hgr2.
      eexists _, _. split; [|exact Hgr2]. split; [done|]. eexists c, v, r1, lines, [_]. rewrite Eo. do 4 (split; [done|]). split; [|done].
      eexists. split; [|done]. unfold DIST_PER_WARE, g_cust_per_dist in *. split; read_column; done.
    + apply wp_ret. split; [done|]. eexists _, _. split; [|exact Hgr1]. split; [done|]. exists c, v, r1, lines, []. rewrite Eo.
      do 5 (split; [done|]). by rewrite app_nil_r.
Qed.

(** *** Whole tables *)

(** A row and an entry for each element of a list. *)
Definition many {A : Type} (f : A -> slot) (t : tpcc_table) (P : A -> row -> Prop) (l : list A)
    (slots : list slot) (T : list (tpcc_table * row)) : Prop :=
  exists rs, Forall2 P l rs /\ slots = f <$> l /\ T = (t,.) <$> rs.

Lemma loads_many {A : Type} (th : Z) (g : A -> ld row ix ()) (f : A -> slot) (t : tpcc_table) (P : A -> row -> Prop) (l : list A) :
  (forall a, a ∈ l -> loads th (g a) (one (f a) t (P a))) -> loads th (forM l g) (many f t P l).
Proof.
  intros Hg. eapply loads_mono; [exact (loads_forM _ _ _ _ _ _ _ (fun a => one (f a) t (P a)) Hg)|]. cbn. intros sl T (es & Hes & -> & ->). clear Hg.
  induction Hes as [|a [sl T] l es (r & HP & Hsl & HT) _ (rs & Hrs & E1 & E2)]; [by exists []|].
  cbn in Hsl, HT. subst. exists (r :: rs). cbn. rewrite E1, E2. by split; [constructor|].
Qed.

Lemma init_tab_item_loads : loads 0 (init_tab_item junk) (many (fun i => (i_item, i, 0)) t_item item_row (seqZ 1 g_max_items)).
Proof using Hlaws Hinitl Hixl Hjunk.
  apply loads_many. intros i Hi%elem_of_seqZ. apply init_item_loads. unfold g_max_items in *. lia.
Qed.

Lemma init_tab_dist_loads (w : Z) :
  1 <= w <= g_num_wh ->
  loads (gen_of w) (init_tab_dist d_of_Z ddiv g_num_wh g_part_cnt junk w)
    (many (fun d => (i_district, distKey d w, part w)) t_district (district_row d_of_Z w) (seqZ 1 DIST_PER_WARE)).
Proof using Hlaws Hinitl Hixl Hjunk Hcnt Hwh.
  intros Hw. apply loads_many. intros i Hi%elem_of_seqZ. apply init_district_loads; [done|]. unfold DIST_PER_WARE in *. lia.
Qed.

Lemma init_tab_stock_loads (w : Z) :
  1 <= w <= g_num_wh ->
  loads (gen_of w) (init_tab_stock g_num_wh g_part_cnt rands junk w)
    (many (fun i => (i_stock, stockKey i w, part w)) t_stock (stock_row w) (seqZ 1 g_max_items)).
Proof using Hlaws Hinitl Hixl Hjunk Hcnt Hwh.
  intros Hw. apply loads_many. intros i Hi%elem_of_seqZ. apply init_stock_loads; [done|]. unfold g_max_items in *. lia.
Qed.

(** The customers of a district: each with the number of a name. *)
Definition customers_added (w d : Z) (slots : list slot) (T : list (tpcc_table * row)) : Prop :=
  exists es : list (Z * row),
    Forall2 (fun c e => 0 <= e.1 < 1000 /\ (c <= 1000 -> e.1 = c - 1) /\ customer_row d_of_Z w d c e.2) (seqZ 1 g_cust_per_dist) es
    /\ slots = concat (zip_with (fun c e => [(i_customer_last, custNPKey (last_name e.1) d w, part w); (i_customer_id, custKey c d w, part w)])
                         (seqZ 1 g_cust_per_dist) es)
    /\ T = (t_customer,.) <$> es.*2.

Lemma init_tab_cust_loads (w d : Z) :
  1 <= w <= g_num_wh -> 1 <= d <= DIST_PER_WARE ->
  loads (gen_of w) (init_tab_cust d_of_Z ddiv g_num_wh g_part_cnt junk d w) (customers_added w d).
Proof using Hlaws Hinitl Hixl Hjunk Hcnt Hwh.
  intros Hw Hd. unfold init_tab_cust. cbn [Z.ltb Z.compare]. change (g_cust_per_dist <? 1000) with false. cbv iota.
  eapply loads_mono.
  - apply (loads_forM _ _ _ _ _ _ _ (customer_added w d)). intros c Hc%elem_of_seqZ. apply init_customer_loads; [done|done|].
    unfold g_cust_per_dist in *. lia.
  - cbn. intros sl T (es & Hes & -> & ->). unfold customers_added. clear Hd.
    induction Hes as [|c [sl T] l es (num & r & Hnum & Hfst & Hr & Hsl & HT) _ (rs & Hrs & E1 & E2)]; [by exists []|].
    cbn in Hsl, HT. subst. exists ((num, r) :: rs). cbn. rewrite E1, E2. by split; [constructor|].
Qed.

Definition orders_added (w d : Z) (slots : list slot) (T : list (tpcc_table * row)) : Prop :=
  slots = [] /\ exists perm chunks, perm ≡ₚ seqZ 1 g_cust_per_dist
    /\ Forall2 (fun o => order_added perm w d o []) (seqZ 1 g_cust_per_dist) chunks /\ T = concat chunks.

Lemma init_tab_order_loads (w d : Z) :
  1 <= w <= g_num_wh -> 1 <= d <= DIST_PER_WARE ->
  loads (gen_of w) (init_tab_order d_of_Z ddiv junk d w) (orders_added w d).
Proof using Hlaws Hinitl Hjunk Hcnt Hwh.
  intros Hw Hd. apply loads_intro. intros r0 s Hg. unfold init_tab_order. apply wp_bind.
  apply (wp_draw (nb := nb) _ _ (fun perm => perm ≡ₚ seqZ 1 g_cust_per_dist) (gen_of w)); [apply init_permutation_gen; [lia|done]|].
  intros perm rg Hp Hrg. eapply wp_mono.
  - apply (loads_forM (nb := nb) d_of_Z g_num_wh g_part_cnt rands (gen_of w) _ _ (order_added perm w d)); [|done]. intros o Ho%elem_of_seqZ.
    apply init_order_loads; [done|done| |done]. unfold g_cust_per_dist in *. lia.
  - cbn beta. intros _ s1 (Hg1 & sl & T & (es & Hes & -> & ->) & Hgr). split; [done|]. eexists _, _. split; [|exact (grew_rng _ _ _ _ _ _ _ _ Hgr)].
    clear Hgr. split.
    + clear Hp. induction Hes as [|o [sl T] l es [Hsl _] _ IH]; [done|]. cbn in Hsl. subst. exact IH.
    + exists perm, es.*2. split; [done|]. split; [|done]. apply Forall2_fmap_r. eapply list.Forall2_impl; [exact Hes|].
      intros o [sl T] [Hsl HT]. by split.
Qed.

(** Everything that belongs to one district. *)
Definition district_added (w d : Z) (slots : list slot) (T : list (tpcc_table * row)) : Prop :=
  exists Tc To hist, customers_added w d slots Tc /\ orders_added w d [] To
    /\ Forall2 (history_row d_of_Z w d) (seqZ 1 g_cust_per_dist) hist /\ T = Tc ++ To ++ ((t_history,.) <$> hist).

Lemma init_customers_loads (w d : Z) :
  1 <= w <= g_num_wh -> 1 <= d <= DIST_PER_WARE ->
  loads (gen_of w) (init_customers d_of_Z ddiv g_num_wh g_part_cnt junk w d) (district_added w d).
Proof using Hlaws Hinitl Hixl Hjunk Hcnt Hwh.
  intros Hw Hd. unfold init_customers. eapply loads_mono.
  - apply loads_seq; [by apply init_tab_cust_loads|]. apply loads_seq; [by apply init_tab_order_loads|].
    apply (loads_forM _ _ _ _ _ _ _ (fun c => just t_history (history_row d_of_Z w d c))). intros c Hc%elem_of_seqZ.
    apply init_tab_hist_loads; [done|done|]. unfold g_cust_per_dist in *. lia.
  - cbn. intros sl T (slc & sl2 & Tc & T2 & Hc & (slo & slh & To & Th & Ho & (es & Hes & -> & ->) & -> & ->) & -> & ->).
    destruct (just_all _ _ _ _ Hes) as (hist & Hh & E1 & E2). rewrite E1, E2. pose proof (proj1 Ho) as ->.
    exists Tc, To, hist. by rewrite !app_nil_r.
Qed.
End Tables.
