(* ===== verification/TpccWarehouse.v ===== *)
(** * db2: a loaded TPC-C warehouse

    What the thread of a warehouse leaves behind as a whole: the tables are
    consistent with each other, the indexes lead to the rows, and what happens
    when all threads of [tpcc_wl::init_table] are run. *)

From S2P Require Import Prelude Config Catalog Tpcc TpccConst TpccQuery TpccTxn TpccLoad TpccLoaded.

Section Warehouse.
Context {D row ix : Type} {Hapi : RowAPI D row} {Hlaws : RowLaws D row} {Hinit : RowInit row} {Hinitl : RowInitLaws D row}.
Context {Hix : IndexAPI ix} {Hixl : IndexLaws ix}.
Context (d_of_Z : Z -> D) (ddiv : D -> D -> D) (g_num_wh g_part_cnt : Z) (rands : nat -> Z) (junk : nat -> bytes).
Hypothesis Hcnt : 1 <= g_part_cnt <= g_num_wh.
Hypothesis Hwh : g_num_wh < 2 ^ 31.
Hypothesis Hjunk : forall n, length (junk n) = n.

Local Abbreviation nb := (Z.to_nat g_num_wh).
Local Abbreviation loads := (loads (ix := ix) (nb := nb) d_of_Z g_num_wh g_part_cnt rands).
Local Abbreviation grew := (grew (ix := ix) d_of_Z g_num_wh g_part_cnt).
Local Abbreviation part := (part g_part_cnt).
Local Abbreviation thread := (threadInitWarehouse (row := row) (ix := ix) d_of_Z ddiv g_num_wh g_part_cnt rands junk).

(** The rows and entries of a warehouse; the items come with the first one. *)
Definition warehouse_added (w : Z) (slots : list slot) (T : list (tpcc_table * row)) : Prop :=
  exists sli Ti slw Tw sld Td sls Ts es,
    (if w =? 1 then many (fun i => (i_item, i, 0)) t_item item_row (seqZ 1 g_max_items) sli Ti else sli = [] /\ Ti = [])
    /\ one (i_warehouse, w, part w) t_warehouse (warehouse_row d_of_Z w) slw Tw
    /\ many (fun d => (i_district, distKey d w, part w)) t_district (district_row d_of_Z w) (seqZ 1 DIST_PER_WARE) sld Td
    /\ many (fun i => (i_stock, stockKey i w, part w)) t_stock (stock_row w) (seqZ 1 g_max_items) sls Ts
    /\ Forall2 (fun d e => district_added d_of_Z g_part_cnt w d e.1 e.2) (seqZ 1 DIST_PER_WARE) es
    /\ slots = sli ++ slw ++ sld ++ sls ++ concat es.*1
    /\ T = Ti ++ Tw ++ Td ++ Ts ++ concat es.*2.

(** The state of the loader between threads. *)
Record ready (tid : Z) (s : world row ix) : Prop := {
  rdy_tid : next_tid s = tid;
  rdy_buffers : length (tpcc_buffer (w_rng s)) = nb;
  rdy_consts : consts_ok (w_rng s);
}.

Lemma gen_of_tid (tid : Z) : 0 <= tid < 2 ^ 31 -> gen_of (u32 (tid + 1)) = tid.
Proof. intros H. unfold gen_of. rewrite u32_id by (unfold is_u32; lia). rewrite u64_id by (unfold is_u64; lia). lia. Qed.

Lemma take_number_ok (tid : Z) (s : world row ix) :
  0 <= tid < g_num_wh -> ready tid s ->
  exists s1, take_number g_num_wh s = Ret (tid, s1) /\ gen nb tid (w_rng s1)
    /\ w_rows s1 = w_rows s /\ w_ix s1 = w_ix s /\ next_tid s1 = tid + 1.
Proof using Hwh.
  clear Hcnt. intros Ht [Hn Hb Hc]. unfold take_number. rewrite Hn, Hb. rewrite i32_id by lia. rewrite Z2Nat.id by lia.
  destruct (Z.leb_spec 0 tid); [|lia]. destruct (Z.ltb_spec tid g_num_wh); [|lia]. cbn [andb negb].
  rewrite u64_id by (unfold is_u64; lia). destruct (Z.ltb_spec tid g_num_wh); [|lia]. eexists. split; [done|]. cbn.
  split; [|split; [done|split; [done|rewrite u32_id; [done|unfold is_u32; lia]]]]. split.
  - split; [lia|]. eexists. cbn. apply list_lookup_insert_eq. lia.
  - split; [done|]. cbn. by rewrite length_insert.
Qed.

Lemma mret_loads (t : Z) : loads t (mret tt) (fun sl T => sl = [] /\ T = []).
Proof. intros s Hg. apply wp_ret. split; [done|]. exists [], []. split; [done|]. by apply grew_refl. Qed.

Lemma init_warehouse_loads (w : Z) :
  1 <= w <= g_num_wh ->
  loads (gen_of w)
    (_ ← (if w - 1 =? 0 then init_tab_item junk else mret tt); _ ← init_tab_wh d_of_Z ddiv g_num_wh g_part_cnt junk w;
     _ ← init_tab_dist d_of_Z ddiv g_num_wh g_part_cnt junk w; _ ← init_tab_stock g_num_wh g_part_cnt rands junk w;
     forM (seqZ 1 DIST_PER_WARE) (init_customers d_of_Z ddiv g_num_wh g_part_cnt junk w)) (warehouse_added w).
Proof using Hlaws Hinitl Hixl Hcnt Hwh Hjunk.
  intros Hw.
  assert (loads (gen_of w) (if w - 1 =? 0 then init_tab_item junk else mret tt)
    (fun sl T => if w =? 1 then many (fun i => (i_item, i, 0)) t_item item_row (seqZ 1 g_max_items) sl T else sl = [] /\ T = [])) as Hitem.
  { destruct (Z.eqb_spec (w - 1) 0), (Z.eqb_spec w 1); try lia; [|apply mret_loads]. subst w. by apply init_tab_item_loads. }
  eapply loads_mono.
  - apply loads_seq; [exact Hitem|]. apply loads_seq; [by apply init_tab_wh_loads|]. apply loads_seq; [by apply init_tab_dist_loads|].
    apply loads_seq; [by apply init_tab_stock_loads|].
    apply (loads_forM _ _ _ _ _ _ _ (district_added d_of_Z g_part_cnt w)). intros d Hd%elem_of_seqZ.
    apply init_customers_loads; [done|done|done|done|]. unfold DIST_PER_WARE in *. lia.
  - cbn beta. intros sl T (sli & sl1 & Ti & T1 & Hi & (slw & sl2 & Tw & T2 & Hone & (sld & sl3 & Td & T3 & Hd & (sls & sl4 & Ts & T4 & Hs
      & (es & Hes & -> & ->) & -> & ->) & -> & ->) & -> & ->) & -> & ->).
    by exists sli, Ti, slw, Tw, sld, Td, sls, Ts, es.
Qed.

Lemma thread_ok (tid : Z) (s : world row ix) :
  0 <= tid < g_num_wh -> ready tid s ->
  wp rands thread (fun _ s' => ready (tid + 1) s' /\ exists s1 slots T, w_rows s1 = w_rows s /\ w_ix s1 = w_ix s
    /\ warehouse_added (tid + 1) slots T /\ grew slots T s1 s') s.
Proof using Hlaws Hinitl Hixl Hcnt Hwh Hjunk.
  intros Ht Hs. unfold threadInitWarehouse. apply wp_bind.
  destruct (take_number_ok tid s Ht Hs) as (s1 & E & Hg & Hrows & Hidx & Htid). unfold wp at 1. rewrite E. cbv zeta.
  rewrite u32_id by (unfold is_u32; lia). eapply wp_mono.
  - pose proof (init_warehouse_loads (tid + 1) ltac:(lia)) as H. replace (tid + 1 - 1) with tid in H by lia. apply H.
    rewrite <- (u32_id (tid + 1)), gen_of_tid by (unfold is_u32; lia). done.
  - cbn beta. intros _ s' ((_ & Hc & Hb) & slots & T & Ha & Hgr). split; [|by exists s1, slots, T].
    split; [by rewrite (g_tid _ _ _ _ _ _ _ Hgr)|done|done].
Qed.

(** ** All threads *)

Lemma threads_ok (k : nat) (start : nat) (tid : Z) (s : world row ix) :
  0 <= tid -> tid + Z.of_nat k <= g_num_wh -> ready tid s ->
  wp rands (forM (seq start k) (fun _ => thread)) (fun _ s' => ready (tid + Z.of_nat k) s') s.
Proof using Hlaws Hinitl Hixl Hcnt Hwh Hjunk.
  revert start tid s. induction k as [|k IH]; intros start tid s Ht Hk Hs; cbn [seq forM].
  - apply wp_ret. by rewrite Z.add_0_r.
  - apply wp_bind. eapply wp_mono; [apply (thread_ok tid); [lia|done]|]. cbn beta. intros _ s1 [Hs1 _].
    replace (tid + Z.of_nat (S k)) with (tid + 1 + Z.of_nat k) by lia. apply IH; [lia|lia|done].
Qed.

(** The loader as a whole never ends well: when the warehouses are loaded, the
    first of the threads that are started after them stores its generator outside
    the array, before it checks its number. *)
Theorem tpcc_init_table_overruns (g_init_parallelism : Z) (s : world row ix) :
  1 <= g_init_parallelism -> next_tid s = 0 -> consts_ok (w_rng s) ->
  init_table d_of_Z ddiv g_num_wh g_part_cnt rands junk g_init_parallelism s = Fault OutOfBounds.
Proof using Hlaws Hinitl Hixl Hcnt Hwh Hjunk.
  intros Hpar Ht Hc. unfold init_table, mbind, ld_bind. set (s0 := with_rng _ s).
  pose proof (threads_ok nb 0 0 s0 ltac:(lia) ltac:(lia)) as Hth. unfold wp in Hth.
  destruct (forM (seq 0 nb) (fun _ => thread) s0) as [[[] s1]| |[]] eqn:E; try done; try (exfalso; apply Hth; split; [done|apply length_replicate|done]).
  destruct Hth as [Hn Hb _]; [split; [done|apply length_replicate|done]|]. rewrite Z.add_0_l, Z2Nat.id in Hn by lia.
  destruct (Z.to_nat g_init_parallelism) as [|more] eqn:Epar; [lia|]. cbn [seq forM]. unfold mbind, ld_bind, threadInitWarehouse at 1, mbind, ld_bind.
  unfold take_number. rewrite Hn, Hb, i32_id, Z2Nat.id by lia. rewrite Z.ltb_irrefl, andb_false_r. done.
Qed.
End Warehouse.

(** ** Reading tables *)

Lemma Forall2_elem_r {A B : Type} (P : A -> B -> Prop) (l : list A) (k : list B) (b : B) :
  Forall2 P l k -> b ∈ k -> exists a, a ∈ l /\ P a b.
Proof. induction 1 as [|a b' l k HP _ IH]; [by intros ?%not_elem_of_nil|]. intros [->|Hb]%elem_of_cons; [|destruct (IH Hb) as (a' & Ha & H)]; set_solver. Qed.

Section Reading.
Context {D row : Type} {Hapi : RowAPI D row}.

(** The rows of a table. *)
Definition table (t : tpcc_table) (T : list (tpcc_table * row)) : list row :=
  omap (fun tr => if bool_decide (tr.1 = t) then Some tr.2 else None) T.

(** The columns with the warehouse and the district of a row. *)
Definition wd_cols (t : tpcc_table) : Z * Z :=
  match t with
  | t_district => (D_W_ID, D_ID)
  | t_customer => (C_W_ID, C_D_ID)
  | t_history => (H_W_ID, H_D_ID)
  | t_neworder => (NO_W_ID, NO_D_ID)
  | t_order => (O_W_ID, O_D_ID)
  | t_orderline => (OL_W_ID, OL_D_ID)
  | t_warehouse | t_item | t_stock => (0, 0)
  end.

Definition in_district (t : tpcc_table) (w d : Z) (r : row) : Prop :=
  get_int64 (wd_cols t).1 r = w /\ get_int64 (wd_cols t).2 r = d.

(** The rows of a table for one district. *)
Definition rows (t : tpcc_table) (w d : Z) (T : list (tpcc_table * row)) : list row :=
  filter (in_district t w d) (table t T).

Lemma table_app (t : tpcc_table) (T1 T2 : list (tpcc_table * row)) : table t (T1 ++ T2) = table t T1 ++ table t T2.
Proof. apply omap_app. Qed.

Lemma table_fmap (t t' : tpcc_table) (rs : list row) : table t ((t',.) <$> rs) = if bool_decide (t' = t) then rs else [].
Proof.
  induction rs as [|r rs IH]; [by case_bool_decide|]. unfold table in *. cbn. rewrite IH. by case_bool_decide.
Qed.

Lemma table_concat (t : tpcc_table) (Ts : list (list (tpcc_table * row))) : table t (concat Ts) = concat (table t <$> Ts).
Proof. induction Ts as [|T Ts IH]; [done|]. cbn [concat fmap list_fmap]. by rewrite table_app, IH. Qed.

Lemma elem_of_table (t : tpcc_table) (T : list (tpcc_table * row)) (r : row) : r ∈ table t T -> (t, r) ∈ T.
Proof.
  intros ([t' r'] & Hin & E)%list_elem_of_omap. cbn in E. case_bool_decide; [|done]. by simplify_eq.
Qed.

Lemma filter_none {B : Type} (P : B -> Prop) `{forall b, Decision (P b)} (l : list B) : (forall b, b ∈ l -> ~ P b) -> filter P l = [].
Proof.
  induction l as [|b l IH]; intros HP; [done|]. rewrite list.filter_cons_False by (apply HP; by left). apply IH. intros b' Hb. apply HP. by right.
Qed.

Lemma filter_every {B : Type} (P : B -> Prop) `{forall b, Decision (P b)} (l : list B) : (forall b, b ∈ l -> P b) -> filter P l = l.
Proof.
  induction l as [|b l IH]; intros HP; [done|]. rewrite list.filter_cons_True by (apply HP; by left). f_equal. apply IH.
  intros b' Hb. apply HP. by right.
Qed.

(** A filter that only keeps things of one part of a list. *)
Lemma filter_concat_one {A B : Type} (P : B -> Prop) `{forall b, Decision (P b)} (R : A -> list B -> Prop) (l : list A) (cs : list (list B))
    (i : nat) (a0 : A) (c0 : list B) :
  Forall2 R l cs -> NoDup l -> l !! i = Some a0 -> cs !! i = Some c0 -> (forall a c b, R a c -> b ∈ c -> (P b <-> a = a0)) ->
  filter P (concat cs) = c0.
Proof.
  intros Hl Hnd Hi Hc HP.
  assert (forall l cs, Forall2 R l cs -> a0 ∉ l -> filter P (concat cs) = []) as Hnone.
  { clear l cs Hl Hnd Hi Hc. induction 1 as [|a c l cs Ha _ IH]; intros Hni; [done|]. cbn. rewrite list.filter_app, IH, app_nil_r by set_solver.
    apply filter_none. intros b Hb Hp. apply (HP a c b Ha Hb) in Hp as ->. set_solver. }
  revert i Hi Hc. induction Hl as [|a c l cs Ha Hl IH]; intros i Hi Hc; [done|]. apply list.NoDup_cons in Hnd as [Hni Hnd].
  cbn [concat]. rewrite list.filter_app. destruct i as [|i]; cbn in Hi, Hc.
  - simplify_eq. rewrite (Hnone l cs Hl Hni), app_nil_r. apply filter_every. intros b Hb. by apply (HP a0 c0 b Ha Hb).
  - rewrite (IH Hnd i Hi Hc). replace (filter P c) with (@nil B); [done|]. symmetry. apply filter_none.
    intros b Hb Hp. apply (HP a c b Ha Hb) in Hp as ->. by apply Hni, (list_elem_of_lookup_2 _ i).
Qed.
End Reading.

(** ** Consistency *)

Section Consistency.
Context {D row ix : Type} {Hapi : RowAPI D row} {Hlaws : RowLaws D row} {Hinit : RowInit row} {Hinitl : RowInitLaws D row}.
Context {Hix : IndexAPI ix} {Hixl : IndexLaws ix}.
Context (d_of_Z : Z -> D) (g_part_cnt : Z).

Local Abbreviation district_added := (district_added (row := row) d_of_Z g_part_cnt).

(** An order as it was made: its customer, the number of its lines, and the rows. *)
Definition order_made (perm : list Z) (w d o : Z) (e : Z * Z * row * list row) : Prop :=
  let '(c, n, r, ls) := e in
  perm !! Z.to_nat (o - 1) = Some c /\ 5 <= n <= 15 /\ order_row w d o c n r /\ Forall2 (line_row w d o) (seqZ 1 n) ls.

Lemma orders_tables (perm : list Z) (w d : Z) (l : list Z) (chunks : list (list (tpcc_table * row))) :
  Forall2 (fun o => order_added perm w d o []) l chunks ->
  exists os, Forall2 (order_made perm w d) l os
    /\ table t_order (concat chunks) = (fun e => e.1.2) <$> os
    /\ table t_orderline (concat chunks) = concat ((fun e => e.2) <$> os)
    /\ Forall2 (open_row w d) (filter (fun o => 2100 < o) l) (table t_neworder (concat chunks))
    /\ table t_customer (concat chunks) = [] /\ table t_history (concat chunks) = [].
Proof.
  induction 1 as [|o T l chunks (_ & c & n & r & lines & opens & Hc & Hn & Hr & Hl & Ho & ->) _ (os & Hos & E1 & E2 & H3 & E4 & E5)]; [by exists []|].
  exists ((c, n, r, lines) :: os). cbn [concat fmap list_fmap fst snd]. split; [by constructor|].
  change ((t_order, r) :: ((t_orderline,.) <$> lines) ++ ((t_neworder,.) <$> opens))
    with (((t_order,.) <$> [r]) ++ ((t_orderline,.) <$> lines) ++ ((t_neworder,.) <$> opens)).
  rewrite !table_app, !table_fmap, E1, E2, E4, E5, list.filter_cons.
  destruct (Z.ltb_spec 2100 o) as [Hlt|Hge]; [destruct Ho as (r' & Hopen & ->); rewrite decide_True by done|subst opens; rewrite decide_False by lia];
    cbn; rewrite ?app_nil_r; split_and!; done || by constructor.
Qed.

(** The tables of one district. *)
Record district_tables (w d : Z) (T : list (tpcc_table * row)) : Prop := {
  dt_customers : Forall2 (customer_row d_of_Z w d) (seqZ 1 g_cust_per_dist) (table t_customer T);
  dt_history : Forall2 (history_row d_of_Z w d) (seqZ 1 g_cust_per_dist) (table t_history T);
  dt_open : Forall2 (open_row w d) (seqZ 2101 900) (table t_neworder T);
  dt_orders : exists perm os, perm ≡ₚ seqZ 1 g_cust_per_dist /\ Forall2 (order_made perm w d) (seqZ 1 g_cust_per_dist) os
    /\ table t_order T = (fun e => e.1.2) <$> os /\ table t_orderline T = concat ((fun e => e.2) <$> os);
}.

Lemma open_orders : filter (fun o => 2100 < o) (seqZ 1 g_cust_per_dist) = seqZ 2101 900.
Proof. vm_compute. reflexivity. Qed.

Lemma district_tables_ok (w d : Z) (slots : list slot) (T : list (tpcc_table * row)) : district_added w d slots T -> district_tables w d T.
Proof.
  intros (Tc & To & hist & (es & Hes & _ & ->) & (_ & perm & chunks & Hp & Hch & ->) & Hh & ->).
  destruct (orders_tables _ _ _ _ _ Hch) as (os & Hos & E1 & E2 & H3 & E4 & E5). rewrite open_orders in H3.
  split; rewrite ?table_app, ?table_fmap, ?E1, ?E2, ?E4, ?E5; cbn; rewrite ?app_nil_r; [|done|done|].
  - apply Forall2_fmap_r. eapply list.Forall2_impl; [exact Hes|]. by intros c e (_ & _ & H).
  - by exists perm, os.
Qed.

(** The tables that belong to districts and hold what customers do. *)
Definition per_district (t : tpcc_table) : Prop :=
  match t with
  | t_customer | t_history | t_neworder | t_order | t_orderline => True
  | _ => False
  end.

Lemma district_tables_in (w d : Z) (T : list (tpcc_table * row)) (t : tpcc_table) (r : row) :
  district_tables w d T -> per_district t -> r ∈ table t T -> in_district t w d r.
Proof.
  intros [Hc Hh Ho (perm & os & _ & Hos & E1 & E2)] Ht Hr. destruct t; try done.
  - by destruct (Forall2_elem_r _ _ _ _ Hc Hr) as (c & _ & []).
  - by destruct (Forall2_elem_r _ _ _ _ Hh Hr) as (c & _ & []).
  - by destruct (Forall2_elem_r _ _ _ _ Ho Hr) as (c & _ & []).
  - rewrite E1 in Hr. apply list_elem_of_fmap in Hr as ([[[c n] r'] ls] & -> & Hr).
    by destruct (Forall2_elem_r _ _ _ _ Hos Hr) as (o & _ & _ & _ & [] & _).
  - rewrite E2 in Hr. apply list_elem_of_In, in_concat in Hr as (ls & Hls%list_elem_of_In & Hr%list_elem_of_In). apply list_elem_of_fmap in Hls as ([[[c n] r'] ls'] & -> & Hls).
    destruct (Forall2_elem_r _ _ _ _ Hos Hls) as (o & _ & _ & _ & _ & Hlines).
    by destruct (Forall2_elem_r _ _ _ _ Hlines Hr) as (k & _ & []).
Qed.

(** What holds of the tables of a warehouse: the rows that were added by its thread
    agree with each other. *)
Record consistent (w : Z) (T : list (tpcc_table * row)) : Prop := {
  (* the payments of the warehouse are those of its customers *)
  con_warehouse : exists r, table t_warehouse T = [r] /\ get_int64 W_ID r = w
    /\ get_double W_YTD r = d_of_Z (10 * Z.of_nat (length (table t_history T)));
  con_history : Forall (fun r => get_double H_AMOUNT r = d_of_Z 10) (table t_history T);
  (* the payments of a district, and the number of its next order *)
  con_district d : 1 <= d <= DIST_PER_WARE -> exists r, rows t_district w d T = [r]
    /\ get_double D_YTD r = d_of_Z (10 * Z.of_nat (length (rows t_history w d T)))
    /\ get_int64 O_ID <$> rows t_order w d T = seqZ 1 (get_int64 D_NEXT_O_ID r - 1);
  (* every customer has paid once and has one order *)
  con_customers d : 1 <= d <= DIST_PER_WARE ->
    get_int64 C_ID <$> rows t_customer w d T = seqZ 1 g_cust_per_dist
    /\ get_int64 H_C_ID <$> rows t_history w d T = get_int64 C_ID <$> rows t_customer w d T
    /\ get_int64 O_C_ID <$> rows t_order w d T ≡ₚ get_int64 C_ID <$> rows t_customer w d T;
  (* the newest orders are open *)
  con_open d : 1 <= d <= DIST_PER_WARE -> get_int64 NO_O_ID <$> rows t_neworder w d T = drop 2100 (get_int64 O_ID <$> rows t_order w d T);
  (* an order has as many lines as it says *)
  con_lines d r : 1 <= d <= DIST_PER_WARE -> r ∈ rows t_order w d T ->
    get_int64 OL_NUMBER <$> filter (fun l => get_int64 OL_O_ID l = get_int64 O_ID r) (rows t_orderline w d T) = seqZ 1 (get_int64 O_OL_CNT r)
    /\ 5 <= get_int64 O_OL_CNT r <= 15;
  con_stock : get_int64 S_I_ID <$> table t_stock T = seqZ 1 g_max_items;
}.

Lemma Forall2_column {A : Type} (f : row -> A) (P : A -> row -> Prop) (l : list A) (rs : list row) :
  Forall2 P l rs -> (forall a r, P a r -> f r = a) -> f <$> rs = l.
Proof. intros H HP. induction H as [|a r l rs Ha _ IH]; [done|]. cbn. by rewrite IH, (HP a r Ha). Qed.

(** The tables of a district within those of a list of districts. *)
Lemma rows_of_districts (w d : Z) (ds : list Z) (es : list (list slot * list (tpcc_table * row))) :
  Forall2 (fun d e => district_added w d e.1 e.2) ds es -> NoDup ds -> d ∈ ds ->
  exists T0, district_tables w d T0 /\ forall t, per_district t -> rows t w d (concat es.*2) = table t T0.
Proof.
  intros Hes Hnd [i Hd]%list_elem_of_lookup_1. destruct (Forall2_lookup_l _ _ _ _ _ Hes Hd) as ([sl T0] & Hi & HT0).
  exists T0. split; [by eapply district_tables_ok|]. intros t Ht. unfold rows. rewrite table_concat.
  apply (filter_concat_one _ (fun d c => exists T0, district_tables w d T0 /\ c = table t T0) ds _ i d); [|done|done| |].
  - apply Forall2_fmap_r, Forall2_fmap_r. eapply list.Forall2_impl; [exact Hes|]. intros d' [sl' T'] H. exists T'. split; [by eapply district_tables_ok|done].
  - by rewrite !list_lookup_fmap, Hi.
  - intros d' c r (T' & HT' & ->) Hr. pose proof (district_tables_in w d' T' t r HT' Ht Hr) as [H1 H2].
    unfold in_district. rewrite H1, H2. naive_solver.
Qed.

(** The lines of an order among those of the district. *)
Lemma lines_of_order (perm : list Z) (w d : Z) (os : list (Z * Z * row * list row)) (r : row) :
  Forall2 (order_made perm w d) (seqZ 1 g_cust_per_dist) os -> r ∈ (fun e => e.1.2) <$> os ->
  get_int64 OL_NUMBER <$> filter (fun l => get_int64 OL_O_ID l = get_int64 O_ID r) (concat ((fun e => e.2) <$> os)) = seqZ 1 (get_int64 O_OL_CNT r)
  /\ 5 <= get_int64 O_OL_CNT r <= 15.
Proof.
  intros Hos ([[[c n] r'] ls] & -> & [i Hi]%list_elem_of_lookup_1)%list_elem_of_fmap. cbn [fst snd].
  destruct (Forall2_lookup_r _ _ _ _ _ Hos Hi) as (o & Ho & _ & Hn & [Hid _ _ _ Hcnt] & Hls). rewrite Hid, Hcnt. split; [|done].
  rewrite (filter_concat_one _ (fun o ls => exists n, Forall2 (line_row w d o) (seqZ 1 n) ls) (seqZ 1 g_cust_per_dist) _ i o ls).
  - apply (Forall2_column _ _ _ _ Hls). by intros k l [].
  - apply Forall2_fmap_r. eapply list.Forall2_impl; [exact Hos|]. intros o' [[[c' n'] r''] ls'] (_ & _ & _ & H). by exists n'.
  - apply NoDup_seqZ.
  - done.
  - by rewrite list_lookup_fmap, Hi.
  - intros o' ls' l [n' Hl'] Hl. by destruct (Forall2_elem_r _ _ _ _ Hl' Hl) as (k & _ & [-> _ _ _ _]).
Qed.

(** The customers of the orders are the permutation. *)
Lemma customers_of_orders (perm : list Z) (w d : Z) (os : list (Z * Z * row * list row)) :
  length perm = Z.to_nat g_cust_per_dist -> Forall2 (order_made perm w d) (seqZ 1 g_cust_per_dist) os ->
  get_int64 O_C_ID <$> ((fun e => e.1.2) <$> os) = perm.
Proof.
  intros Hl Hos. apply list_eq. intros i. rewrite !list_lookup_fmap. pose proof (list.Forall2_length _ _ _ Hos) as Hlen. rewrite length_seqZ in Hlen.
  destruct (os !! i) as [[[[c n] r] ls]|] eqn:E; cbn.
  - destruct (Forall2_lookup_r _ _ _ _ _ Hos E) as (o & Ho & Hc & _ & [_ -> _ _ _] & _). apply lookup_seqZ in Ho as [-> _].
    by replace (Z.to_nat (1 + Z.of_nat i - 1)) with i in Hc by lia.
  - symmetry. apply lookup_ge_None in E. apply lookup_ge_None. lia.
Qed.

(** *** The tables of the warehouse *)

Lemma only_per_district (w d : Z) (slots : list slot) (T : list (tpcc_table * row)) :
  district_added w d slots T -> Forall (fun tr => per_district tr.1) T.
Proof.
  intros (Tc & To & hist & (es & _ & _ & ->) & (_ & perm & chunks & _ & Hch & ->) & _ & ->).
  assert (forall t (rs : list row), per_district t -> Forall (fun tr => per_district tr.1) ((t,.) <$> rs)) as Hmap.
  { intros t rs Ht. apply Forall_fmap, list.Forall_true. by intros r. }
  repeat (apply Forall_app; split); [by apply Hmap| |by apply Hmap].
  induction Hch as [|o T l chunks (_ & c & n & r & lines & opens & _ & _ & _ & _ & _ & ->) _ IH]; [constructor|].
  cbn [concat]. apply Forall_app. split; [|done]. constructor; [done|]. apply Forall_app. by split; apply Hmap.
Qed.

Lemma table_per_district (t : tpcc_table) (T : list (tpcc_table * row)) : Forall (fun tr => per_district tr.1) T -> ~ per_district t -> table t T = [].
Proof.
  induction 1 as [|[t' r] T Ht _ IH]; intros Hn; [done|]. unfold table in *. cbn. case_bool_decide; [by subst t'|by apply IH].
Qed.

Lemma districts_only (w : Z) (ds : list Z) (es : list (list slot * list (tpcc_table * row))) (t : tpcc_table) :
  Forall2 (fun d e => district_added w d e.1 e.2) ds es -> ~ per_district t -> table t (concat es.*2) = [].
Proof.
  intros Hes Ht. apply table_per_district; [|done]. induction Hes as [|d [sl T] ds es H _ IH]; [constructor|].
  cbn. apply Forall_app. split; [by eapply only_per_district|done].
Qed.

Lemma history_of_districts (w : Z) (ds : list Z) (es : list (list slot * list (tpcc_table * row))) :
  Forall2 (fun d e => district_added w d e.1 e.2) ds es ->
  Z.of_nat (length (table t_history (concat es.*2))) = Z.of_nat (length ds) * g_cust_per_dist
  /\ Forall (fun r => get_double H_AMOUNT r = d_of_Z 10) (table t_history (concat es.*2)).
Proof.
  induction 1 as [|d [sl T] ds es H _ [IH1 IH2]]; [by split|]. cbn [concat fmap list_fmap snd]. rewrite table_app, length_app. cbn [length].
  destruct (district_tables_ok _ _ _ _ H) as [_ Hh _ _]. cbn [fst snd] in Hh. split.
  - rewrite <- (list.Forall2_length _ _ _ Hh), length_seqZ. rewrite Nat2Z.inj_add, IH1. unfold g_cust_per_dist. lia.
  - apply Forall_app. split; [|done]. apply list.Forall_forall. intros r Hr. by destruct (Forall2_elem_r _ _ _ _ Hh Hr) as (c & _ & []).
Qed.

Lemma one_row (P : Z -> row -> Prop) (Q : row -> Prop) `{forall r, Decision (Q r)} (l : list Z) (rs : list row) (a0 : Z) :
  Forall2 P l rs -> NoDup l -> a0 ∈ l -> (forall a r, P a r -> (Q r <-> a = a0)) -> exists r, P a0 r /\ filter Q rs = [r].
Proof.
  intros Hl Hnd [i Hi]%list_elem_of_lookup_1 HQ. destruct (Forall2_lookup_l _ _ _ _ _ Hl Hi) as (r & Hr & HP). exists r. split; [done|].
  replace rs with (concat ((fun r => [r]) <$> rs)); [|clear; by induction rs as [|r rs IH]; [|cbn; rewrite IH]].
  apply (filter_concat_one _ (fun a c => exists r, P a r /\ c = [r]) l _ i a0); [|done|done|by rewrite list_lookup_fmap, Hr|].
  - apply Forall2_fmap_r. eapply list.Forall2_impl; [exact Hl|]. intros a r' H'. by exists r'.
  - intros a c b (r' & HP' & ->) ->%list_elem_of_singleton. by apply HQ.
Qed.

Lemma warehouse_tables (w : Z) (slots : list slot) (T : list (tpcc_table * row)) :
  warehouse_added d_of_Z g_part_cnt w slots T ->
  exists rw rd rs es, Forall2 (fun d e => district_added w d e.1 e.2) (seqZ 1 DIST_PER_WARE) es
    /\ warehouse_row d_of_Z w rw /\ Forall2 (district_row d_of_Z w) (seqZ 1 DIST_PER_WARE) rd /\ Forall2 (stock_row w) (seqZ 1 g_max_items) rs
    /\ table t_warehouse T = [rw] /\ table t_district T = rd /\ table t_stock T = rs
    /\ forall t, per_district t -> table t T = table t (concat es.*2).
Proof.
  intros (sli & Ti & slw & Tw & sld & Td & sls & Ts & es & Hi & (rw & Hrw & -> & ->) & (rd & Hrd & -> & ->) & (rs & Hrs & -> & ->) & Hes & _ & ->).
  exists rw, rd, rs, es. do 4 (split; [done|]).
  assert (forall t, t <> t_item -> table t Ti = []) as HTi.
  { intros t Ht. destruct (w =? 1); [|by destruct Hi as [_ ->]]. destruct Hi as (ri & _ & _ & ->). rewrite table_fmap. by case_bool_decide. }
  change [(t_warehouse, rw)] with ((t_warehouse,.) <$> [rw]).
  split_and!; [..|intros [] Ht; try done]; rewrite !table_app, !table_fmap, HTi by done; cbn;
    rewrite ?(districts_only _ _ _ _ Hes), ?app_nil_r by (by intros ?); done.
Qed.

(** Columns of the tables of a district. *)
Lemma district_columns (w d : Z) (T : list (tpcc_table * row)) :
  district_tables w d T ->
  get_int64 O_ID <$> table t_order T = seqZ 1 g_cust_per_dist
  /\ get_int64 C_ID <$> table t_customer T = seqZ 1 g_cust_per_dist
  /\ get_int64 H_C_ID <$> table t_history T = seqZ 1 g_cust_per_dist
  /\ get_int64 NO_O_ID <$> table t_neworder T = seqZ 2101 900
  /\ get_int64 O_C_ID <$> table t_order T ≡ₚ seqZ 1 g_cust_per_dist.
Proof.
  intros [Hc Hh Ho (perm & os & Hp & Hos & E1 & _)]. rewrite E1. split_and!.
  - apply (Forall2_column _ (fun o r => exists c n, order_row w d o c n r)); [|by intros o r' (c & n & [])].
    apply Forall2_fmap_r. eapply list.Forall2_impl; [exact Hos|]. intros o [[[c n] r'] ls] (_ & _ & H & _). by exists c, n.
  - apply (Forall2_column _ _ _ _ Hc). by intros c r [].
  - apply (Forall2_column _ _ _ _ Hh). by intros c r [].
  - apply (Forall2_column _ _ _ _ Ho). by intros o r [].
  - rewrite (customers_of_orders perm w d os); [done| |done]. by rewrite Hp, length_seqZ.
Qed.

Lemma warehouse_consistent (w : Z) (slots : list slot) (T : list (tpcc_table * row)) :
  warehouse_added d_of_Z g_part_cnt w slots T -> consistent w T.
Proof.
  intros (rw & rd & rs & es & Hes & [Hw1 Hw2] & Hrd & Hrs & Ew & Ed & Es & Et)%warehouse_tables.
  destruct (history_of_districts _ _ _ Hes) as [Hcnt Hamt]. rewrite length_seqZ in Hcnt.
  assert (forall d, 1 <= d <= DIST_PER_WARE -> exists T0, district_tables w d T0 /\ forall t, per_district t -> rows t w d T = table t T0) as Hrows.
  { intros d Hd. destruct (rows_of_districts w d _ _ Hes) as (T0 & HT0 & Hr); [apply NoDup_seqZ|apply elem_of_seqZ; lia|].
    exists T0. split; [done|]. intros t Ht. rewrite <- Hr by done. unfold rows. by rewrite Et. }
  split.
  - exists rw. split; [done|]. split; [done|]. by rewrite Et, Hcnt by done.
  - by rewrite Et.
  - intros d Hd. destruct (Hrows d Hd) as (T0 & HT0 & Hr). rewrite (Hr t_history), (Hr t_order) by done.
    destruct (district_columns w d T0 HT0) as (E1 & _).
    destruct (one_row _ (in_district t_district w d) _ _ d Hrd) as (r & [Hid _ Hytd Hnext] & E); [apply NoDup_seqZ|apply elem_of_seqZ; lia| |].
    { intros a r [H1 H2 _ _]. unfold in_district, wd_cols. cbn [fst snd]. rewrite H1, H2. naive_solver. }
    exists r. unfold rows. rewrite Ed, Hnext, E1, Hytd. split; [done|]. split; [|done].
    by rewrite <- (list.Forall2_length _ _ _ (dt_history _ _ _ HT0)), length_seqZ.
  - intros d Hd. destruct (Hrows d Hd) as (T0 & HT0 & Hr). rewrite !Hr by done.
    destruct (district_columns w d T0 HT0) as (_ & E2 & E3 & _ & E5). by rewrite E2.
  - intros d Hd. destruct (Hrows d Hd) as (T0 & HT0 & Hr). rewrite !Hr by done.
    destruct (district_columns w d T0 HT0) as (E1 & _ & _ & E4 & _). rewrite E1, E4. vm_compute. reflexivity.
  - intros d r Hd. destruct (Hrows d Hd) as (T0 & [_ _ _ (perm & os & _ & Hos & E1 & E2)] & Hr). rewrite !Hr, E1, E2 by done.
    by apply (lines_of_order perm w d).
  - rewrite Es. apply (Forall2_column _ _ _ _ Hrs). by intros i r [].
Qed.
End Consistency.

(** ** The indexes *)

(** The lists of keys are long; nothing below computes them. *)
#[local] Opaque seqZ.

Section Indexes.
Context {D row ix : Type} {Hapi : RowAPI D row} {Hinit : RowInit row} {Hix : IndexAPI ix} {Hixl : IndexLaws ix}.
Context (d_of_Z : Z -> D) (g_num_wh g_part_cnt : Z).

Local Abbreviation grew := (grew (ix := ix) d_of_Z g_num_wh g_part_cnt).
Local Abbreviation part := (part g_part_cnt).

(** The slots of the indexes whose keys are unique. *)
Definition primary (slots : list slot) : list slot := filter (fun sl => sl.1.1 <> i_customer_last) slots.

Definition item_slots : list slot := (fun i => (i_item, i, 0)) <$> seqZ 1 g_max_items.
Definition district_slots (w : Z) : list slot := (fun d => (i_district, distKey d w, part w)) <$> seqZ 1 DIST_PER_WARE.
Definition stock_slots (w : Z) : list slot := (fun i => (i_stock, stockKey i w, part w)) <$> seqZ 1 g_max_items.
Definition customer_slots (w d : Z) : list slot := (fun c => (i_customer_id, custKey c d w, part w)) <$> seqZ 1 g_cust_per_dist.

Lemma primary_app (l k : list slot) : primary (l ++ k) = primary l ++ primary k.
Proof. apply list.filter_app. Qed.

Lemma primary_fmap {A : Type} (i : tpcc_index) (f : A -> Z) (p : Z) (l : list A) :
  i <> i_customer_last -> primary ((fun a => (i, f a, p)) <$> l) = (fun a => (i, f a, p)) <$> l.
Proof. intros Hi. apply filter_every. intros sl (a & -> & _)%list_elem_of_fmap. done. Qed.

Lemma primary_customers (w d : Z) (slots : list slot) (T : list (tpcc_table * row)) :
  customers_added d_of_Z g_part_cnt w d slots T -> primary slots = customer_slots w d.
Proof.
  intros (es & Hes & -> & _). unfold customer_slots. induction Hes as [|c e l es _ _ IH]; [done|]. cbn [zip_with concat fmap list_fmap].
  rewrite primary_app, IH. done.
Qed.

Lemma primary_slots (w : Z) (slots : list slot) (T : list (tpcc_table * row)) :
  warehouse_added d_of_Z g_part_cnt w slots T ->
  primary slots = (if w =? 1 then item_slots else []) ++ [(i_warehouse, w, part w)] ++ district_slots w ++ stock_slots w
    ++ (seqZ 1 DIST_PER_WARE ≫= customer_slots w).
Proof.
  intros (sli & Ti & slw & Tw & sld & Td & sls & Ts & es & Hi & (rw & _ & -> & ->) & (rd & _ & -> & ->) & (rs & _ & -> & ->) & Hes & -> & _).
  assert (primary sli = if w =? 1 then item_slots else []) as Ei.
  { destruct (w =? 1); [|by destruct Hi as [-> _]]. destruct Hi as (ri & _ & -> & _). apply (primary_fmap i_item (fun i => i) 0). done. }
  assert (primary (concat es.*1) = seqZ 1 DIST_PER_WARE ≫= customer_slots w) as Ec.
  { induction Hes as [|d [sl Td'] ds es (Tc & To & hist & Hc & _) _ IH]; [done|]. cbn [concat fmap list_fmap fst]. rewrite primary_app, IH.
    cbn [fst] in Hc. by rewrite (primary_customers _ _ _ _ Hc). }
  rewrite !primary_app, !primary_fmap, Ei, Ec by done. reflexivity.
Qed.

Lemma NoDup_slots {A : Type} (f : A -> slot) (l : list A) :
  NoDup l -> (forall a b, a ∈ l -> b ∈ l -> f a = f b -> a = b) -> NoDup (f <$> l).
Proof. intros Hl Hf. apply NoDup_fmap_2_strong; [|done]. intros a b Ha Hb. by apply Hf. Qed.

Lemma customer_slots_apart (w d d' : Z) (sl : slot) :
  ware_ok w -> dist_ok d -> dist_ok d' -> sl ∈ customer_slots w d -> sl ∈ customer_slots w d' -> d = d'.
Proof.
  intros Hw Hd Hd' (c & -> & Hc%elem_of_seqZ)%list_elem_of_fmap (c' & [= E] & Hc'%elem_of_seqZ)%list_elem_of_fmap.
  destruct (tpcc_keys_injective w w d d' c c' 1 1) as (_ & Hk & _); unfold g_cust_per_dist, g_max_items in *; try done; try lia.
  apply Hk in E. by simplify_eq.
Qed.

(** Lists of slots of different indexes have nothing in common. *)
Definition all_in (ok : tpcc_index -> Prop) (l : list slot) : Prop := forall sl, sl ∈ l -> ok sl.1.1.

Lemma all_in_fmap {A : Type} (ok : tpcc_index -> Prop) (f : A -> slot) (l : list A) : (forall a, ok (f a).1.1) -> all_in ok (f <$> l).
Proof. intros Hf sl (a & -> & _)%list_elem_of_fmap. apply Hf. Qed.

Lemma NoDup_app_in (i : tpcc_index) (l k : list slot) :
  NoDup l -> NoDup k -> all_in (eq i) l -> all_in (fun j => i <> j) k -> NoDup (l ++ k).
Proof. intros Hl Hk H1 H2. apply list.NoDup_app. split; [done|]. split; [|done]. intros sl Hsl Hsl'. apply (H2 sl Hsl'). by apply H1. Qed.

Lemma all_in_app (ok : tpcc_index -> Prop) (l k : list slot) : all_in ok l -> all_in ok k -> all_in ok (l ++ k).
Proof. intros H1 H2 sl [H|H]%elem_of_app; auto. Qed.

Lemma all_in_customers (ok : tpcc_index -> Prop) (w : Z) (ds : list Z) : ok i_customer_id -> all_in ok (ds ≫= customer_slots w).
Proof. intros Hi sl (d & (c & -> & _)%list_elem_of_fmap & _)%list_elem_of_bind. done. Qed.

Lemma all_in_rest (ok : tpcc_index -> Prop) (w : Z) (ds : list Z) :
  ok i_district -> ok i_stock -> ok i_customer_id -> all_in ok (district_slots w ++ stock_slots w ++ (ds ≫= customer_slots w)).
Proof. intros H1 H2 H3. apply all_in_app; [by apply all_in_fmap|]. apply all_in_app; [by apply all_in_fmap|by apply all_in_customers]. Qed.

Lemma primary_NoDup (w : Z) :
  ware_ok w -> NoDup ((if w =? 1 then item_slots else []) ++ [(i_warehouse, w, part w)] ++ district_slots w ++ stock_slots w
    ++ (seqZ 1 DIST_PER_WARE ≫= customer_slots w)).
Proof.
  clear d_of_Z. intros Hw.
  assert (forall d d' c c' i i', 1 <= d <= 10 -> 1 <= d' <= 10 -> 1 <= c <= 3000 -> 1 <= c' <= 3000 -> 1 <= i <= 100000 -> 1 <= i' <= 100000 ->
    (distKey d w = distKey d' w -> d = d') /\ (custKey c d w = custKey c' d' w -> c = c' /\ d = d') /\ (stockKey i w = stockKey i' w -> i = i')) as Hinj.
  { intros. destruct (tpcc_keys_injective w w d d' c c' i i') as (K1 & K2 & _ & K3 & _); try done. rewrite K1, K2, K3. naive_solver. }
  apply (NoDup_app_in i_item).
  { destruct (w =? 1); [|constructor]. apply NoDup_slots; [apply NoDup_seqZ|]. by intros a b _ _ [= ->]. }
  2: { destruct (w =? 1); [by apply all_in_fmap|by intros sl ?%not_elem_of_nil]. }
  2: { apply all_in_app; [by intros sl ->%list_elem_of_singleton|by apply all_in_rest]. }
  apply (NoDup_app_in i_warehouse); [apply NoDup_singleton| |by intros sl ->%list_elem_of_singleton|].
  2: { by apply all_in_rest. }
  apply (NoDup_app_in i_district); [| |by apply all_in_fmap|].
  { apply NoDup_slots; [apply NoDup_seqZ|]. intros a b Ha%elem_of_seqZ Hb%elem_of_seqZ [= E]. unfold DIST_PER_WARE in *.
    destruct (Hinj a b 1 1 1 1) as (K & _ & _); [lia..|]. by apply K. }
  2: { apply all_in_app; [by apply all_in_fmap|by apply all_in_customers]. }
  apply (NoDup_app_in i_stock); [| |by apply all_in_fmap|by apply all_in_customers].
  { apply NoDup_slots; [apply NoDup_seqZ|]. intros a b Ha%elem_of_seqZ Hb%elem_of_seqZ [= E]. unfold g_max_items in *.
    destruct (Hinj 1 1 1 1 a b) as (_ & _ & K); [lia..|]. by apply K. }
  apply NoDup_bind; [| |apply NoDup_seqZ].
  - intros d d' sl Hd%elem_of_seqZ Hd'%elem_of_seqZ. apply customer_slots_apart; [done|..]; unfold dist_ok; lia.
  - intros d Hd%elem_of_seqZ. apply NoDup_slots; [apply NoDup_seqZ|]. intros a b Ha%elem_of_seqZ Hb%elem_of_seqZ [= E].
    unfold g_cust_per_dist, DIST_PER_WARE in *. destruct (Hinj d d a b 1 1) as (_ & K & _); [lia..|]. by apply K.
Qed.

Lemma locs_none (L : list (slot * nat)) (sl : slot) : sl ∉ L.*1 -> locs L sl = [].
Proof.
  intros Hn. unfold locs. rewrite filter_none; [done|]. intros [sl' l] Hin <-. apply Hn. apply list_elem_of_fmap. by exists (sl', l).
Qed.

Lemma locs_one (L : list (slot * nat)) (sl : slot) :
  NoDup (primary L.*1) -> sl ∈ L.*1 -> sl.1.1 <> i_customer_last -> exists l, locs L sl = [l] /\ (sl, l) ∈ L.
Proof.
  intros Hnd Hin Hi. induction L as [|[sl' l] L IH]; [by apply not_elem_of_nil in Hin|]. cbn [fmap list_fmap fst] in *.
  unfold locs. rewrite list.filter_cons. destruct (decide ((sl', l).1 = sl)) as [E|E]; cbn in E.
  - subst sl'. unfold primary in Hnd. rewrite list.filter_cons_True in Hnd by done. apply list.NoDup_cons in Hnd as [Hni _].
    exists l. split; [|by left]. cbn. f_equal. apply locs_none. intros Hin'. apply Hni. by apply list_elem_of_filter.
  - apply elem_of_cons in Hin as [->|Hin]; [done|]. destruct IH as (l' & E' & Hl'); [|done|exists l'; split; [done|by right]].
    unfold primary in *. rewrite list.filter_cons in Hnd. destruct (decide (sl'.1.1 <> i_customer_last)); [|done]. by apply list.NoDup_cons in Hnd as [_ ?].
Qed.

(** A key that was inserted once leads to its row. *)
Lemma grew_find (slots : list slot) (T : list (tpcc_table * row)) (s s' : world row ix) (i : tpcc_index) (k p : Z) :
  grew slots T s s' -> index_read (w_ix s) i k p = [] -> NoDup (primary slots) -> (i, k, p) ∈ primary slots ->
  exists l tr, index_read (w_ix s') i k p = [l] /\ w_rows s' !! l = Some tr /\ row_for d_of_Z g_num_wh g_part_cnt (i, k, p) tr.
Proof.
  intros [_ _ (L & <- & HL & Hread)] Hempty Hnd [Hi Hin]%list_elem_of_filter. destruct (locs_one L (i, k, p) Hnd Hin Hi) as (l & El & HlL).
  specialize (Hread i k p). rewrite El, Hempty in Hread. apply Permutation_singleton_r in Hread.
  destruct (proj1 (list.Forall_forall _ _) HL _ HlL) as (tr & Htr & Hrow). by exists l, tr.
Qed.

(** The rows under a last name. *)
Lemma grew_names (slots : list slot) (T : list (tpcc_table * row)) (s s' : world row ix) (k p : Z) :
  grew slots T s s' -> index_read (w_ix s) i_customer_last k p = [] ->
  ((i_customer_last, k, p) ∈ slots -> index_read (w_ix s') i_customer_last k p <> [])
  /\ forall l, l ∈ index_read (w_ix s') i_customer_last k p ->
     exists tr, w_rows s' !! l = Some tr /\ row_for d_of_Z g_num_wh g_part_cnt (i_customer_last, k, p) tr.
Proof.
  intros [_ _ (L & <- & HL & Hread)] Hempty. specialize (Hread i_customer_last k p). rewrite Hempty, app_nil_r in Hread. split.
  - intros ([sl l] & E & Hin)%list_elem_of_fmap Hnil. rewrite Hnil in Hread. apply Permutation_nil_l in Hread.
    apply (not_elem_of_nil l). rewrite Hread. unfold locs. apply list_elem_of_fmap. exists (sl, l). split; [done|]. by apply list_elem_of_filter.
  - intros l Hl. rewrite Hread in Hl. unfold locs in Hl. apply list_elem_of_fmap in Hl as ([sl l'] & -> & [E Hin]%list_elem_of_filter).
    cbn in E. subst sl. exact (proj1 (list.Forall_forall _ _) HL _ Hin).
Qed.

(** Every last name is that of one of the first thousand customers. *)
Lemma name_slot (w d num : Z) (slots : list slot) (T : list (tpcc_table * row)) :
  0 <= num < 1000 -> customers_added d_of_Z g_part_cnt w d slots T -> (i_customer_last, custNPKey (last_name num) d w, part w) ∈ slots.
Proof.
  intros Hnum (es & Hes & -> & _).
  assert (seqZ 1 g_cust_per_dist !! Z.to_nat num = Some (num + 1)) as Hc by (apply lookup_seqZ; unfold g_cust_per_dist; lia).
  destruct (Forall2_lookup_l _ _ _ _ _ Hes Hc) as (e & He & _ & Hfst & _).
  apply list_elem_of_In, in_concat. eexists. split; [apply list_elem_of_In, (list_elem_of_lookup_2 _ (Z.to_nat num))|].
  - rewrite lookup_zip_with, Hc. cbn. by rewrite He.
  - left. rewrite (Hfst ltac:(lia)). by replace (num + 1 - 1) with num by lia.
Qed.

Lemma warehouse_name_slot (w d num : Z) (slots : list slot) (T : list (tpcc_table * row)) :
  1 <= d <= DIST_PER_WARE -> 0 <= num < 1000 -> warehouse_added d_of_Z g_part_cnt w slots T ->
  (i_customer_last, custNPKey (last_name num) d w, part w) ∈ slots.
Proof.
  intros Hd Hnum (sli & Ti & slw & Tw & sld & Td & sls & Ts & es & _ & _ & _ & _ & Hes & -> & _).
  assert (d ∈ seqZ 1 DIST_PER_WARE) as [i Hi]%list_elem_of_lookup_1 by (apply elem_of_seqZ; lia).
  destruct (Forall2_lookup_l _ _ _ _ _ Hes Hi) as ([sl T0] & He & (Tc & To & hist & Hc & _)).
  do 4 (apply elem_of_app; right). apply list_elem_of_In, in_concat. exists sl. split; apply list_elem_of_In.
  - apply (list_elem_of_lookup_2 _ i). by rewrite list_lookup_fmap, He.
  - by eapply name_slot.
Qed.

(** The one row a key leads to. *)
Definition finds (s : world row ix) (i : tpcc_index) (k p : Z) (t : tpcc_table) (P : row -> Prop) : Prop :=
  exists l r, index_read (w_ix s) i k p = [l] /\ w_rows s !! l = Some (t, r) /\ P r.

(** The indexes over the first warehouse. *)
Record indexed (s : world row ix) : Prop := {
  ix_items i : 1 <= i <= g_max_items -> finds s i_item i 0 t_item (item_row i);
  ix_warehouse : finds s i_warehouse 1 (part 1) t_warehouse (warehouse_row d_of_Z 1);
  ix_districts d : 1 <= d <= DIST_PER_WARE -> finds s i_district (distKey d 1) (part 1) t_district (district_row d_of_Z 1 d);
  ix_stock i : 1 <= i <= g_max_items -> finds s i_stock (stockKey i 1) (part 1) t_stock (stock_row 1 i);
  ix_customers d c : 1 <= d <= DIST_PER_WARE -> 1 <= c <= g_cust_per_dist ->
    finds s i_customer_id (custKey c d 1) (part 1) t_customer (customer_row d_of_Z 1 d c);
  ix_names d num : 1 <= d <= DIST_PER_WARE -> 0 <= num < 1000 ->
    let ls := index_read (w_ix s) i_customer_last (custNPKey (last_name num) d 1) (part 1) in
    ls <> [] /\ forall l, l ∈ ls -> exists c r, w_rows s !! l = Some (t_customer, r) /\ customer_row d_of_Z 1 d c r;
}.

Hypothesis Hwh : g_num_wh = 1.

Local Abbreviation row_for := (row_for d_of_Z g_num_wh g_part_cnt).

(** With one warehouse, a key belongs to one row. *)
Lemma row_for_district (d p : Z) (tr : tpcc_table * row) :
  1 <= d <= DIST_PER_WARE -> row_for (i_district, distKey d 1, p) tr -> exists r, tr = (t_district, r) /\ district_row d_of_Z 1 d r.
Proof using Hwh.
  destruct tr as [t r]. intros Hd (-> & w' & d' & Hk & _ & Hw & Hd' & Hr). assert (w' = 1) as -> by lia.
  rewrite !distKey_val in Hk by lia. assert (d' = d) as -> by lia. by exists r.
Qed.

Lemma row_for_customer (d c p : Z) (tr : tpcc_table * row) :
  1 <= d <= DIST_PER_WARE -> 1 <= c <= g_cust_per_dist -> row_for (i_customer_id, custKey c d 1, p) tr ->
  exists r, tr = (t_customer, r) /\ customer_row d_of_Z 1 d c r.
Proof using Hwh.
  destruct tr as [t r]. intros Hd Hc (-> & w' & d' & c' & Hk & _ & Hw & Hd' & Hc' & Hr). assert (w' = 1) as -> by lia.
  destruct (tpcc_keys_injective 1 1 d d' c c' 1 1) as (_ & [K _] & _); try done. specialize (K Hk). simplify_eq. by exists r.
Qed.

Lemma row_for_stock (i p : Z) (tr : tpcc_table * row) :
  1 <= i <= g_max_items -> row_for (i_stock, stockKey i 1, p) tr -> exists r, tr = (t_stock, r) /\ stock_row 1 i r.
Proof using Hwh.
  destruct tr as [t r]. intros Hi (-> & w' & i' & Hk & _ & Hw & Hi' & Hr). assert (w' = 1) as -> by lia.
  destruct (tpcc_keys_injective 1 1 1 1 1 1 i i') as (_ & _ & _ & [K _] & _); try done. specialize (K Hk). simplify_eq. by exists r.
Qed.

Lemma row_for_name (d num p : Z) (tr : tpcc_table * row) :
  1 <= d <= DIST_PER_WARE -> 0 <= num < 1000 -> row_for (i_customer_last, custNPKey (last_name num) d 1, p) tr ->
  exists c r, tr = (t_customer, r) /\ customer_row d_of_Z 1 d c r.
Proof using Hwh.
  destruct tr as [t r]. intros Hd Hnum (-> & w' & d' & c & num' & Hk & _ & Hw & Hd' & Hc & Hnum' & Hr). assert (w' = 1) as -> by lia.
  destruct (cust_last_key_spec 1 d d' num num') as [[K _] _]; try done. specialize (K Hk). simplify_eq. by exists c, r.
Qed.

Lemma warehouse_indexed (slots : list slot) (T : list (tpcc_table * row)) (s s' : world row ix) :
  warehouse_added d_of_Z g_part_cnt 1 slots T -> grew slots T s s' -> (forall i k p, index_read (w_ix s) i k p = []) -> indexed s'.
Proof using Hwh.
  intros Ha Hgr Hempty. pose proof (primary_slots _ _ _ Ha) as Hps. cbn [Z.eqb Pos.eqb] in Hps.
  assert (NoDup (primary slots)) as Hnd by (rewrite Hps; by apply (primary_NoDup 1)).
  assert (forall i k p, (i, k, p) ∈ primary slots -> exists l tr, index_read (w_ix s') i k p = [l] /\ w_rows s' !! l = Some tr
    /\ row_for (i, k, p) tr) as Hfind by (intros; by eapply grew_find).
  rewrite Hps in Hfind. clear Hps. split.
  - intros i Hi. destruct (Hfind i_item i 0) as (l & [t r] & E & Hl & -> & _ & Hr); [|by exists l, r].
    apply elem_of_app; left. apply list_elem_of_fmap. exists i. split; [done|]. apply elem_of_seqZ. lia.
  - destruct (Hfind i_warehouse 1 (part 1)) as (l & [t r] & E & Hl & -> & _ & _ & Hr); [|by exists l, r].
    apply elem_of_app; right. by left.
  - intros d Hd. destruct (Hfind i_district (distKey d 1) (part 1)) as (l & tr & E & Hl & (r & -> & Hr)%row_for_district); [|by exists l, r|done].
    do 2 (apply elem_of_app; right). apply elem_of_app; left. apply list_elem_of_fmap. exists d. split; [done|]. apply elem_of_seqZ. lia.
  - intros i Hi. destruct (Hfind i_stock (stockKey i 1) (part 1)) as (l & tr & E & Hl & (r & -> & Hr)%row_for_stock); [|by exists l, r|done].
    do 3 (apply elem_of_app; right). apply elem_of_app; left. apply list_elem_of_fmap. exists i. split; [done|]. apply elem_of_seqZ. lia.
  - intros d c Hd Hc. destruct (Hfind i_customer_id (custKey c d 1) (part 1)) as (l & tr & E & Hl & (r & -> & Hr)%row_for_customer);
      [|by exists l, r|done|done].
    do 4 (apply elem_of_app; right). apply list_elem_of_bind. exists d. split; [|apply elem_of_seqZ; lia].
    apply list_elem_of_fmap. exists c. split; [done|]. apply elem_of_seqZ. lia.
  - intros d num Hd Hnum ls. destruct (grew_names _ _ _ _ (custNPKey (last_name num) d 1) (part 1) Hgr (Hempty _ _ _)) as [Hne Hall].
    split; [apply Hne; by eapply warehouse_name_slot|]. intros l Hl. destruct (Hall l Hl) as (tr & Htr & (c & r & -> & Hr)%row_for_name); [|done|done].
    by exists c, r.
Qed.

(** A loaded warehouse has what the transactions look up. *)
Lemma indexed_complete (s : world row ix) : g_part_cnt = 1 -> indexed s -> complete 1 1 (index_read (w_ix s)).
Proof.
  clear Hwh. intros Hp [Hi Hw Hd Hs Hc Hn]. assert (forall w, TpccQuery.part 1 w = part w) as E by (intros; by rewrite Hp).
  split; intros; repeat match goal with H : 1 <= ?w <= 1 |- _ => assert (w = 1) as -> by lia; clear H end; rewrite ?E.
  - destruct Hw as (l & r & -> & _). done.
  - destruct (Hd d) as (l & r & -> & _); done.
  - destruct (Hc d c) as (l & r & -> & _); done.
  - by apply Hn.
  - destruct (Hi i) as (l & r & -> & _); done.
  - destruct (Hs i) as (l & r & -> & _); done.
Qed.
End Indexes.

(** ** What the loader does *)

Section Loader.
Context {D row ix : Type} {Hapi : RowAPI D row} {Hlaws : RowLaws D row} {Hinit : RowInit row} {Hinitl : RowInitLaws D row}.
Context {Hix : IndexAPI ix} {Hixl : IndexLaws ix}.
Context (d_of_Z : Z -> D) (ddiv : D -> D -> D) (g_num_wh g_part_cnt : Z) (rands : nat -> Z) (junk : nat -> bytes).
Hypothesis Hcnt : 1 <= g_part_cnt <= g_num_wh.
Hypothesis Hwh : g_num_wh < 2 ^ 31.
Hypothesis Hjunk : forall n, length (junk n) = n.

Local Abbreviation thread := (threadInitWarehouse (row := row) (ix := ix) d_of_Z ddiv g_num_wh g_part_cnt rands junk).

End Loader.

Section Indexed.
Context {D row ix : Type} {Hapi : RowAPI D row} {Hlaws : RowLaws D row} {Hinit : RowInit row} {Hinitl : RowInitLaws D row}.
Context {Hix : IndexAPI ix} {Hixl : IndexLaws ix}.
Context (d_of_Z : Z -> D) (ddiv : D -> D -> D) (rands : nat -> Z) (junk : nat -> bytes).
Hypothesis Hjunk : forall n, length (junk n) = n.

Local Abbreviation thread := (threadInitWarehouse (row := row) (ix := ix) d_of_Z ddiv 1 1 rands junk).

(** With one warehouse and empty indexes, the loader leaves one row under each
    key, the right one, for each last name of a district only customers of the
    district, and so everything payments and new orders look up. *)
Theorem tpcc_warehouse_indexed (s : world row ix) :
  ready 1 0 s -> (forall i k p, index_read (w_ix s) i k p = []) ->
  (exists s', thread s = Ret (tt, s') /\ indexed d_of_Z 1 s' /\ complete 1 1 (index_read (w_ix s')))
  \/ (thread s = Fault OutOfBounds /\ picked rands).
Proof using Hlaws Hinitl Hixl Hjunk.
  intros Hs Hempty. pose proof (thread_ok d_of_Z ddiv 1 1 rands junk ltac:(lia) ltac:(lia) Hjunk 0 s ltac:(lia) Hs) as H. unfold wp in H.
  destruct (thread s) as [[[] s']| |[]]; try done; [left|by right].
  destruct H as (_ & s1 & slots & T & _ & Hidx & Ha & Hgr). exists s'. split; [done|].
  assert (indexed d_of_Z 1 s') as Hi by (eapply (warehouse_indexed d_of_Z 1 1); [done|done|done|]; by rewrite Hidx).
  split; [done|]. by apply (indexed_complete d_of_Z 1).
Qed.
End Indexed.

(** ** An example *)

Module Shelf.
Record cells := mkCells { dcell : Z -> Z; icell : Z -> Z; ccell : Z -> bytes }.

Definition put {A : Type} (c : Z) (v : A) (f : Z -> A) (c' : Z) : A := if c =? c' then v else f c'.

#[global] Instance cells_api : RowAPI Z cells := {
  get_double c r := dcell r c;
  set_double c v r := mkCells (put c v (dcell r)) (icell r) (ccell r);
  get_int64 c r := icell r c;
  set_int64 c v r := mkCells (dcell r) (put c v (icell r)) (ccell r);
  get_chars c r := ccell r c;
}.

#[global] Instance cells_laws : RowLaws Z cells.
Proof. split; cbn; intros; unfold put; rewrite ?Z.eqb_refl; try done; by destruct (Z.eqb_spec c c'). Qed.

#[global] Instance cells_init : RowInit cells := {
  new_row _ := mkCells (fun _ => 77) (fun _ => 77) (fun _ => []);
  set_primary_key _ r := r;
  set_chars c b r := mkCells (dcell r) (icell r) (put c b (ccell r));
}.

#[global] Instance cells_init_laws : RowInitLaws Z cells.
Proof. by split. Qed.

Definition index : Type := tpcc_index -> Z -> Z -> list nat.

#[global] Instance index_api : IndexAPI index := {
  index_insert i k l p x i' k' p' := (if decide ((i, k, p) = (i', k', p') :> slot) then [l] else []) ++ x i' k' p';
  index_read x := x;
}.

#[global] Instance index_laws : IndexLaws index.
Proof. intros i k l p x i' k' p'. reflexivity. Qed.

Definition junk (n : nat) : bytes := replicate n Byte.x7f.

Definition fresh : world cells index := mkWorld (mkRng [None] None None None) 0 [] (fun _ _ _ => []) 0.

Lemma fresh_ready : ready 1 0 fresh.
Proof. by split. Qed.

Lemma fresh_empty (i : tpcc_index) (k p : Z) : index_read (w_ix fresh) i k p = [].
Proof. reflexivity. Qed.
End Shelf.


Lemma tpcc_warehouse_indexed_witness :
  exists s', threadInitWarehouse (fun z => z) Z.div 1 1 (fun _ => 50) Shelf.junk Shelf.fresh = Ret (tt, s')
    /\ exists l r, index_read (w_ix s') i_district (distKey 7 1) 0 = [l] /\ w_rows s' !! l = Some (t_district, r) /\ Shelf.icell r D_NEXT_O_ID = 3001.
Proof.
  destruct (tpcc_warehouse_indexed (fun z => z) Z.div (fun _ => 50) Shelf.junk (fun n => length_replicate n Byte.x7f)
    Shelf.fresh Shelf.fresh_ready Shelf.fresh_empty) as [(s' & E & Hi & _)|[_ [n Hn]]].
  - exists s'. split; [exact E|]. clear E.
    destruct (ix_districts _ _ _ Hi 7) as (l & r & E1 & E2 & [_ _ _ Hnext]); [done|]. by exists l, r.
  - cbv in Hn. discriminate Hn.
Defined.

Lemma tpcc_init_table_overruns_witness :
  init_table (fun z => z) Z.div 1 1 (fun _ => 50) Shelf.junk 40 Shelf.fresh = Fault OutOfBounds.
Proof.
  apply (tpcc_init_table_overruns (fun z => z) Z.div 1 1 (fun _ => 50) Shelf.junk); [lia|lia| |lia|reflexivity|by split_and!].
  exact (fun n => length_replicate n Byte.x7f).
Defined.

(** The text that does not fit: with this generator the stock text has fifty
    characters and the mark is to start at the last place. *)
Theorem tpcc_stock_overrun :
  init_stock 1 1 (fun _ => 7) Shelf.junk 1 1 (with_rng (mkRng [Some 528] None None None) Shelf.fresh) = Fault OutOfBounds.
Proof. vm_compute. reflexivity. Qed.
