(* ===== verification/GenDb.v ===== *)
(** * db2: generating and checking a database ([test/gen_db.cpp])

    The program fills the page files and the index with rows of 80 bytes, writes
    the index and the table space, and reads every row back in ten ranges of
    keys. *)

From S2P Require Import Prelude Config Page FileIO.
From S2P Require TableSpace Index.
From S2P Require Import YcsbLoad.

(** [src/test/gen_db.cpp:19-19 row_size] *)
Definition row_size : Z := 80.

(** The objects before the first key.
    [src/test/gen_db.cpp:24-35 tableSpace] *)
Definition gen_init (junk : bytes) (version0 : Z) (io : FileIO) : load_state :=
  let '(id, space) := TableSpace.GetNextPageId (TableSpace.new_TableSpace "MAIN_TABLE") in
  {| ld_space := space; ld_index := Index.new_Index "MAIN_TABLE_INDEX";
     ld_page := set_page_id id (new_Page version0 junk);
     ld_row := replicate (Z.to_nat row_size) Byte.x00; ld_io := io |}.

(** The pages and the index: the loop of the table loader with rows of version 1.
    [src/test/gen_db.cpp:24-54 index] *)
Definition gen_pages (n : Z) (junk : bytes) (version0 : Z) (io : FileIO) : res load_state :=
  fill_pages row_size 1 n (gen_init junk version0 io).

(** [src/test/gen_db.cpp:23-62 Gen_DB_single_thread] *)
Definition Gen_DB_single_thread (write_json : gmap string TableSpace.json -> bytes) (n : Z) (junk : bytes) (version0 : Z)
    (order : Index.Index -> list (Z * Index.IndexItem)) (junk_chunk : bytes) (io : FileIO) : res FileIO :=
  s ← gen_pages n junk version0 io;
  io ← Index.Serialize (order (ld_index s)) junk_chunk (ld_index s) (ld_io s);
  Ret {| opened_file_ := opened_file_ io;
         os := {| files := TableSpace.Serialize write_json (ld_space s) (files (os io));
                  descs := descs (os io); fd_limit := fd_limit (os io) |} |}.

(** What is checked of one key; the page object is used for all of them.
    [junk_item] is the item before it is looked up.
    [src/test/gen_db.cpp:134-148 key] *)
Definition check_key (ix : Index.Index) (junk_item : Index.IndexItem) (junk_row : bytes) (st : Page * FileIO) (key : Z)
    : res (Page * FileIO) :=
  let '(page2, io) := st in
  let '(_, item) := Index.IndexGet key junk_item ix in
  '(_, buf, io) ← ReadPage (Index.page_id_ item) (page_buf_ page2) io;
  page2 ← Deserialize (with_buf buf page2);
  assert! page_id_ page2 =? Index.page_id_ item;
  row ← memcpy junk_row 0 (page_buf_ page2) (Index.page_location_ item) row_size;
  temp_key ← load_u64 row 0;
  version ← load_u64 row (row_size - 8);
  assert! key =? temp_key;
  assert! version =? 1;
  assert! forallb (fun c => Byte.eqb c Byte.x00) (slice 8 64 row);
  Ret (page2, io).

(** One key of the thread [thd], which has a page object of its own.
    [src/test/gen_db.cpp:128-151 thd] *)
Definition check_step (ix : Index.Index) (junk_item : Index.IndexItem) (junk_row : bytes) (st : gmap Z Page * FileIO) (e : Z * Z)
    : res (gmap Z Page * FileIO) :=
  let '(pages, io) := st in
  page2 ← at_ (pages !! e.1);
  '(page2, io) ← check_key ix junk_item junk_row (page2, io) e.2;
  Ret (<[e.1 := page2]> pages, io).

(** The keys of the ten threads, in their order for each thread. *)
Definition interleaving (n : Z) (sched : list (Z * Z)) : Prop :=
  Forall (fun e => 0 <= e.1 < 10) sched
  /\ forall thd, 0 <= thd < 10 -> (filter (fun e => e.1 = thd) sched).*2 = seqZ (n / 10 * thd) (n / 10).

(** The threads, with the keys in the order in which they get to them.
    [src/test/gen_db.cpp:126-156 threads] *)
Definition check_threads (ix : Index.Index) (junk_item : Index.IndexItem) (junk_row junk : bytes) (version0 : Z) (io : FileIO)
    (sched : list (Z * Z)) : res (gmap Z Page * FileIO) :=
  foldM (check_step ix junk_item junk_row) (list_to_map ((fun thd => (thd, new_Page version0 junk)) <$> seqZ 0 10), io) sched.

(** ** The check passes *)

Lemma row_size_ok : 16 <= row_size <= MY_PAGE_SIZE - 64.
Proof. rewrite MY_PAGE_SIZE_eq. unfold row_size. lia. Qed.

Lemma gen_pages_loaded (nfiles : nat) (n : Z) (junk : bytes) (version0 : Z) (io : FileIO) :
  Z.of_nat (length junk) = MY_PAGE_SIZE -> is_u64 version0 -> file_wf nfiles io ->
  0 <= n < 2 ^ 63 -> n <= Z.of_nat nfiles * ITEM_NUM_PER_FILE * per_page row_size ->
  exists s, gen_pages n junk version0 io = Ret s /\ loaded nfiles row_size Byte.x00 1 n s.
Proof.
  intros Hj Hv Hio Hn Hfits. pose proof row_size_ok as Hsize.
  apply fill_pages_spec; [done| |done|done]. by apply fresh_load_inv.
Qed.

Lemma gen_row (key : Z) :
  is_u64 key -> let row := row_of row_size Byte.x00 1 key in
  load_u64 row 0 = Ret key /\ load_u64 row (row_size - 8) = Ret 1 /\ forallb (fun c => Byte.eqb c Byte.x00) (slice 8 64 row) = true.
Proof.
  intros Hk row. unfold row, row_of. split; [exact (load_u64_app [] _ key Hk)|].
  assert (length (bytes_of_u64 key) = 8%nat) as Hl by apply length_bytes_of_u64. split.
  - pose proof (load_u64_app (bytes_of_u64 key ++ replicate (Z.to_nat (row_size - 16)) Byte.x00) [] 1 ltac:(by unfold is_u64)) as Hv.
    rewrite length_app, Hl, length_replicate, app_nil_r, <- app_assoc in Hv. exact Hv.
  - generalize dependent (bytes_of_u64 key). intros b Hb. unfold slice. rewrite drop_app_length' by done. vm_compute. done.
Qed.

Section Check.
Context (nfiles : nat) (n : Z) (s : load_state) (junk_item : Index.IndexItem) (junk_row : bytes).
Hypothesis Hload : loaded nfiles row_size Byte.x00 1 n s.
Hypothesis Hn : 0 <= n < 2 ^ 63.
Hypothesis Hfits : n <= Z.of_nat nfiles * ITEM_NUM_PER_FILE * per_page row_size.
Hypothesis Hrow : Z.of_nat (length junk_row) = row_size.

(** The page files hold the generated pages. *)
Definition unchanged (io : FileIO) : Prop := file_wf nfiles io /\ forall id, file_page io id = file_page (ld_io s) id.

Lemma check_key_ok (page : Page) (io : FileIO) (key : Z) :
  unchanged io -> Z.of_nat (length (page_buf_ page)) = MY_PAGE_SIZE -> 0 <= key < n ->
  exists page' io', check_key (ld_index s) junk_item junk_row (page, io) key = Ret (page', io')
    /\ unchanged io' /\ Z.of_nat (length (page_buf_ page')) = MY_PAGE_SIZE.
Proof using Hload Hn Hfits Hrow.
  intros [Hwf Hsame] Hpage Hk. pose proof row_size_ok as Hsize. unfold check_key, Index.IndexGet.
  rewrite (lo_index _ _ _ _ _ _ Hload), decide_True by done. cbn [Index.page_id_ Index.page_location_ item_of].
  destruct (lo_rows _ _ _ _ _ _ Hload key Hk) as (b & Hb & Hid & Hslice).
  destruct (page_range nfiles row_size n Hsize key Hk Hfits) as [Hval _].
  destruct (file_read_spec nfiles io _ (page_buf_ page) Hwf Hval Hpage) as (io' & -> & Hwf' & Hsame').
  rewrite Hsame, Hb. cbn [mbind res_bind]. change (default (page_buf_ page) (Some b)) with b.
  assert (Z.of_nat (length b) = MY_PAGE_SIZE) as Hlb by (by apply (disk_page_length (DiskSpec := FileIO_DiskSpec nfiles) (ld_io s) _ _ Hb)).
  rewrite MY_PAGE_SIZE_eq in Hlb.
  destruct (Deserialize_Ret (with_buf b page)) as (p' & -> & Hbuf & Hid' & _); [cbn; lia|]. cbn [mbind res_bind page_buf_ with_buf] in *.
  rewrite Hid in Hid'. injection Hid' as <-. rewrite Z.eqb_refl, Hbuf. cbn [mbind res_bind].
  destruct (row_loc_room row_size Hsize key) as [Hlo Hhi]. rewrite MY_PAGE_SIZE_eq in Hhi.
  rewrite memcpy_Ret by lia. cbn [mbind res_bind]. rewrite Hslice.
  assert (Z.of_nat (length (row_of row_size Byte.x00 1 key)) = row_size) as Hlr by (by apply length_row_of).
  assert (splice (Z.to_nat 0) (row_of row_size Byte.x00 1 key) junk_row = row_of row_size Byte.x00 1 key) as ->.
  { unfold splice. cbn [take Z.to_nat app Nat.add]. rewrite drop_ge by lia. apply app_nil_r. }
  destruct (gen_row key) as (-> & Hver & Hzero); [unfold is_u64; lia|]. cbn [mbind res_bind]. rewrite Hver. cbn [mbind res_bind].
  rewrite Z.eqb_refl, Hzero. cbn [mbind res_bind]. exists p', io'. split; [done|]. split; [|rewrite Hbuf, MY_PAGE_SIZE_eq; lia].
  split; [done|]. intros id. by rewrite Hsame'.
Qed.

Lemma check_threads_ok (junk : bytes) (version0 : Z) (sched : list (Z * Z)) :
  Z.of_nat (length junk) = MY_PAGE_SIZE -> Forall (fun e => 0 <= e.1 < 10 /\ 0 <= e.2 < n) sched ->
  exists pages io, check_threads (ld_index s) junk_item junk_row junk version0 (ld_io s) sched = Ret (pages, io) /\ unchanged io.
Proof using Hload Hn Hfits Hrow.
  intros Hj Hs. unfold check_threads.
  destruct (foldM_inv (fun todo (st : gmap Z Page * FileIO) => Forall (fun e => 0 <= e.1 < 10 /\ 0 <= e.2 < n) todo /\ unchanged st.2
      /\ forall thd, 0 <= thd < 10 -> exists p, st.1 !! thd = Some p /\ Z.of_nat (length (page_buf_ p)) = MY_PAGE_SIZE)
    (check_step (ld_index s) junk_item junk_row) sched
    (list_to_map ((fun thd => (thd, new_Page version0 junk)) <$> seqZ 0 10), ld_io s)) as ([pages io] & -> & _ & Hio & _); [| |eauto].
  - split; [done|]. split; [split; [apply (lo_files _ _ _ _ _ _ Hload)|done]|]. intros thd Hthd. exists (new_Page version0 junk). split; [|done].
    assert (thd ∈ seqZ 0 10) as Hin by (apply elem_of_seqZ; lia). cbn [fst].
    apply elem_of_list_to_map_1; [|by apply (list_elem_of_fmap_2 (fun thd => (thd, new_Page version0 junk)))].
    rewrite <- list_fmap_compose. cbn. vm_compute. repeat constructor; set_solver.
  - intros [thd key] todo [pages io] (Htodo & Hio & Hpages). cbn [fst snd] in *. apply list.Forall_cons in Htodo as [[Hthd Hkey] Htodo].
    cbn [fst snd] in *. destruct (Hpages thd Hthd) as (p & Hp & Hlen). unfold check_step. cbn [fst snd]. rewrite Hp. cbn [at_ mbind res_bind].
    destruct (check_key_ok p io key Hio Hlen Hkey) as (p' & io' & -> & Hio' & Hlen'). cbn [mbind res_bind].
    eexists. split; [done|]. split; [done|]. split; [done|]. intros thd' Hthd'. cbn [fst]. destruct (decide (thd' = thd)) as [->|Hne].
    + exists p'. by rewrite lookup_insert_eq.
    + rewrite lookup_insert_ne by done. by apply Hpages.
Qed.
End Check.

Lemma interleaving_keys (n : Z) (sched : list (Z * Z)) :
  0 <= n -> interleaving n sched -> Forall (fun e => 0 <= e.1 < 10 /\ 0 <= e.2 < n) sched.
Proof.
  intros Hn [Hthd Hkeys]. apply list.Forall_forall. intros [thd key] Hin. rewrite list.Forall_forall in Hthd.
  specialize (Hthd _ Hin). cbn [fst snd] in *. split; [done|].
  assert (key ∈ seqZ (n / 10 * thd) (n / 10)) as Hk.
  { rewrite <- Hkeys by done. apply list_elem_of_fmap. exists (thd, key). split; [done|]. by apply list_elem_of_filter. }
  apply elem_of_seqZ in Hk. pose proof (Z.div_mod n 10 ltac:(lia)). pose proof (Z.mod_pos_bound n 10 ltac:(lia)). nia.
Qed.


(** Ten keys, one for each thread. *)
Definition ten_keys : list (Z * Z) := (fun i => (9 - i, 9 - i)) <$> seqZ 0 10.

Lemma ten_keys_interleaving : interleaving 10 ten_keys.
Proof.
  split; [vm_compute; repeat constructor; done|]. intros thd Hthd.
  assert (thd ∈ seqZ 0 10) as Hin by (apply elem_of_seqZ; lia).
  revert Hin. change (seqZ 0 10) with [0; 1; 2; 3; 4; 5; 6; 7; 8; 9]. rewrite !elem_of_cons, elem_of_nil.
  intros Hin. destruct_or! Hin; subst; vm_compute; reflexivity || done.
Qed.

