(* ===== verification/InstanceStart.v ===== *)
(** * db2: the storage of a starting instance ([instance/manager_instance.cpp])

    [ManagerInstance::Init] reads the table space and the index, makes a buffer
    pool over the shared disk and a lock node for every page of the table, and
    fetches every page once.  On a generated database the instance then sees
    every row, and owns no page. *)

From S2P Require Import Prelude Config Page FileIO Buffer.
From S2P Require TableSpace Index LockTable RowStore.
From S2P Require Import YcsbLoad GenDb.

Section Start.
Context {D : Type} `{Disk D}.

(** One array serves all pages.
    [src/instance/manager_instance.cpp:101-106 buf] *)
Definition warm_up (junk : bytes) (pages : list Z) (b : Buffer) (d : D) : res (bytes * Buffer * D) :=
  foldM (fun '(buf, b, d) page_id => BufferGet page_id buf MY_PAGE_SIZE b d) (junk, b, d) pages.

(** The pool, the lock table and the pages, given the table space and the index
    that were read.
    [src/instance/manager_instance.cpp:90-106 buffer_] *)
Definition init_storage (junk : bytes) (version0 instance_id : Z) (space : TableSpace.TableSpace) (ix : Index.Index) (d : D)
    : res (RowStore.Store D) :=
  b ← new_Buffer version0 FILE_SIZE MY_PAGE_SIZE;
  let start := 0 in
  let end_ := u64 (TableSpace.GetLastPageId space + 1) in
  let lt := LockTable.Init start end_ instance_id ∅ in
  '(_, b, d) ← warm_up junk (seqZ start (end_ - start)) b d;
  Ret (RowStore.mkStore ix lt b d).
End Start.

(** ** Lock nodes *)

Lemma init_loop_lookup (n : nat) (page ins : Z) (lt : LockTable.LockTable) (id : Z) :
  0 <= page -> page + Z.of_nat n < 2 ^ 64 ->
  LockTable.init_loop n page ins lt !! id
  = match lt !! id with
    | Some nd => Some nd
    | None => if decide (page <= id < page + Z.of_nat n) then Some (LockTable.new_LockNode ins) else None
    end.
Proof.
  revert page lt. induction n as [|n IH]; intros page lt Hp Hmax; cbn [LockTable.init_loop].
  { destruct (lt !! id); [done|]. by rewrite decide_False by lia. }
  rewrite u64_id by (unfold is_u64; lia). rewrite IH by lia.
  destruct (decide (id = page)) as [->|Hne].
  - destruct (lt !! page) as [nd|] eqn:E; [by rewrite E|]. rewrite lookup_insert_eq. by rewrite decide_True by lia.
  - assert (match lt !! page with None => <[page := LockTable.new_LockNode ins]> lt | Some _ => lt end !! id = lt !! id) as ->.
    { destruct (lt !! page); [done|]. by rewrite lookup_insert_ne. }
    destruct (lt !! id); [done|]. apply decide_ext. lia.
Qed.

Section Started.
Context {D : Type} {Hdisk : Disk D} {Hspec : DiskSpec D}.

Lemma page_view_length (b : Buffer) (d : D) (id : Z) (page : bytes) :
  buffer_ok b -> view b d id = Some page -> Z.of_nat (length page) = MY_PAGE_SIZE.
Proof.
  intros (pl & fl & Hi). unfold view. destruct (lru_map_ b !! id) as [n|] eqn:E; [|apply disk_page_length].
  destruct (cached_node _ _ _ _ _ Hi E) as (nd & _ & -> & _ & Hl). by intros [= <-].
Qed.

(** Fetching pages changes nothing of what the pool shows. *)
Lemma warm_up_ok (pages : list Z) (junk : bytes) (b : Buffer) (d : D) :
  buffer_ok b -> disk_wf d -> Forall disk_valid pages -> Z.of_nat (length junk) = MY_PAGE_SIZE ->
  exists buf b' d', warm_up junk pages b d = Ret (buf, b', d') /\ buffer_ok b' /\ disk_wf d' /\ view_le b d b' d'.
Proof.
  intros Hb Hd Hv Hj. unfold warm_up.
  destruct (foldM_inv (fun todo (st : bytes * Buffer * D) => let '(buf, b', d') := st in
      Forall disk_valid todo /\ Z.of_nat (length buf) = MY_PAGE_SIZE /\ buffer_ok b' /\ disk_wf d' /\ view_le b d b' d')
    (fun '(buf, b, d) page_id => BufferGet page_id buf MY_PAGE_SIZE b d) pages (junk, b, d))
    as ([[buf b'] d'] & Hf & _ & _ & Hb' & Hd' & Hle).
  - split; [done|]. split; [done|]. split; [done|]. split; [done|apply view_le_refl].
  - intros id todo [[buf b1] d1] (Htodo & Hlen & Hb1 & Hd1 & Hle). apply list.Forall_cons in Htodo as [Hid Htodo].
    destruct (BufferGet_spec b1 d1 id buf Hb1 Hd1 Hid Hlen) as (b2 & d2 & -> & Hb2 & Hd2 & _ & Hview & Hle2).
    eexists. split; [done|]. cbn. split; [done|]. split; [|split; [done|split; [done|by eapply view_le_trans]]].
    by apply (page_view_length b2 d2 id).
  - exists buf, b', d'. by split_and!.
Qed.

(** The storage of an instance after its start: the index that was read, one
    lock node for each page, all invalid, and the pages of the disk. *)
Theorem init_storage_spec (junk : bytes) (version0 ins : Z) (space : TableSpace.TableSpace) (ix : Index.Index) (d : D) :
  let last := TableSpace.last_page_id_ space in
  disk_wf d -> Z.of_nat (length junk) = MY_PAGE_SIZE -> -1 <= last < 2 ^ 63 -> (forall id, 0 <= id <= last -> disk_valid id) ->
  exists st, init_storage junk version0 ins space ix d = Ret st
    /\ RowStore.st_index st = ix /\ buffer_ok (RowStore.st_buffer st) /\ disk_wf (RowStore.st_disk st)
    /\ (forall id, RowStore.st_lock_table st !! id = if decide (0 <= id <= last) then Some (LockTable.new_LockNode ins) else None)
    /\ forall id page, disk_valid id -> disk_page d id = Some page -> RowStore.page_view st id = Some page.
Proof.
  intros last Hd Hj Hlast Hval. unfold init_storage.
  destruct (new_Buffer_ok (D := D) version0 FILE_SIZE) as (b & -> & Hok & Hempty & _).
  { rewrite MY_PAGE_SIZE_eq. change FILE_SIZE with (1024 * 16 * 1024 * 100). vm_compute. split; [discriminate|done]. }
  cbn [mbind res_bind].
  assert (u64 (TableSpace.GetLastPageId space + 1) = last + 1) as ->.
  { unfold TableSpace.GetLastPageId. fold last. unfold u64. rewrite Zplus_mod_idemp_l. apply Z.mod_small. lia. }
  rewrite Z.sub_0_r. destruct (warm_up_ok (seqZ 0 (last + 1)) junk b d Hok Hd) as (buf & b' & d' & -> & Hb' & Hd' & Hle); [|done|].
  { apply list.Forall_forall. intros id Hid%elem_of_seqZ. apply Hval. lia. }
  cbn [mbind res_bind]. eexists. split; [done|]. cbn [RowStore.st_index RowStore.st_buffer RowStore.st_disk RowStore.st_lock_table].
  split; [done|]. split; [done|]. split; [done|]. split.
  - intros id. unfold LockTable.Init. rewrite init_loop_lookup, lookup_empty by lia. apply decide_ext. lia.
  - intros id page Hv Hp. apply Hle; [done|]. unfold view. by rewrite Hempty, lookup_empty.
Qed.
End Started.


