(* ===== verification/Stats.v ===== *)
(** * db2: statistics and result files ([common/mystats.cpp], [util/parse_result.cpp])

    Each thread has counters and, for the transaction it runs, counters that are
    added to the former when it ends.  At the end of a run an instance appends its
    results to text files, which a program adds up. *)

From S2P Require Import Prelude Config IndexText.

(** ** Counters *)

(** The members of a thread's statistics that are numbers.
    [src/common/mystats.h:26-53 txn_cnt] *)
Inductive stat :=
  txn_cnt | abort_cnt | run_time | time_man | time_index | time_wait | time_abort | time_cleanup | time_ts_alloc | time_query | wait_cnt
  | debug1 | debug2 | debug3 | debug4 | debug5 | latency | time_remote_lock_ | count_remote_lock_ | count_total_request_ | count_write_request_.

#[export] Instance stat_eq_dec : EqDecision stat.
Proof. solve_decision. Defined.

Definition counters : Type := stat -> Z.

(** [x->name += value]. *)
Definition inc (name : stat) (value : Z) (c : counters) : counters :=
  fun n => if decide (n = name) then u64 (c n + value) else c n.

(** [src/common/mystats.h:20-56 Stats_thd] *)
Record Stats_thd := mkThd { thread_id_ : Z; thd : counters; all_debug1 : list Z; all_debug2 : list Z }.

(** Three counters are not reset.
    [src/common/mystats.cpp:22-45 Stats_thd::clear] *)
Definition clear_thd (c : counters) : counters := fun n =>
  match n with
  | count_remote_lock_ | count_total_request_ | count_write_request_ => c n
  | _ => 0
  end.

(** [src/common/mystats.cpp:15-20 Stats_thd::init] *)
Definition init_thd (thread_id : Z) (t : Stats_thd) : Stats_thd :=
  mkThd thread_id (clear_thd (thd t)) (replicate (Z.to_nat MAX_TXN_PER_PART) 0) (replicate (Z.to_nat MAX_TXN_PER_PART) 0).

(** The members [time_man], [time_index], [time_wait] and [time_remote_lock_];
    they are all there is.
    [src/common/mystats.cpp:51-56 Stats_tmp::clear] *)
Definition clear_tmp (c : counters) : counters := fun _ => 0.

(** [src/common/mystats.h:75-91 Stats] *)
Record Stats := mkStats {
  _stats : list (option Stats_thd);
  tmp_stats : list (option counters);
  dl_detect_time : Z;
  dl_wait_time : Z;
  cycle_detect : Z;
  deadlock : Z;
  total_txn_cnt : Z;
}.

(** [src/common/mystats.cpp:58-72 Stats::init] *)
Definition Stats_init (g_thread_cnt : Z) : Stats :=
  mkStats (replicate (Z.to_nat g_thread_cnt) None) (replicate (Z.to_nat g_thread_cnt) None) 0 0 0 0 0.

Definition with_thread (tid : Z) (t : Stats_thd) (tmp : counters) (s : Stats) : Stats :=
  mkStats (<[Z.to_nat tid := Some t]> (_stats s)) (<[Z.to_nat tid := Some tmp]> (tmp_stats s))
    (dl_detect_time s) (dl_wait_time s) (cycle_detect s) (deadlock s) (total_txn_cnt s).

(** A new object has all its members zero.
    [src/common/mystats.cpp:75-83 Stats::init] *)
Definition Stats_init_thread (thread_id : Z) (s : Stats) : res Stats :=
  _ ← at_ (_stats s !! Z.to_nat thread_id);
  _ ← at_ (tmp_stats s !! Z.to_nat thread_id);
  Ret (with_thread thread_id (init_thd thread_id (mkThd 0 (fun _ => 0) [] [])) (clear_tmp (fun _ => 0)) s).

(** The statistics of a thread that is initialised. *)
Definition get_thread (tid : Z) (s : Stats) : res (Stats_thd * counters) :=
  t ← at_ (_stats s !! Z.to_nat tid); t ← deref t;
  tmp ← at_ (tmp_stats s !! Z.to_nat tid); tmp ← deref tmp;
  Ret (t, tmp).

Definition with_thd (f : counters -> counters) (t : Stats_thd) : Stats_thd :=
  mkThd (thread_id_ t) (f (thd t)) (all_debug1 t) (all_debug2 t).

(** [src/common/mystats.cpp:85-95 Stats::clear] *)
Definition Stats_clear (tid : Z) (s : Stats) : res Stats :=
  '(t, tmp) ← get_thread tid s;
  let s := with_thread tid (with_thd clear_thd t) (clear_tmp tmp) s in
  Ret (mkStats (_stats s) (tmp_stats s) 0 0 0 0 (total_txn_cnt s)).

(** [src/common/mystats.cpp:97-105 Stats::add_debug] *)
Definition add_debug (g_prt_lat_distr warmup_finish : bool) (thd_id value select : Z) (s : Stats) : res Stats :=
  if g_prt_lat_distr && warmup_finish then
    '(t, tmp) ← get_thread thd_id s;
    let tnum := Z.to_nat (thd t txn_cnt) in
    if select =? 1 then
      _ ← at_ (all_debug1 t !! tnum);
      Ret (with_thread thd_id (mkThd (thread_id_ t) (thd t) (<[tnum := value]> (all_debug1 t)) (all_debug2 t)) tmp s)
    else if select =? 2 then
      _ ← at_ (all_debug2 t !! tnum);
      Ret (with_thread thd_id (mkThd (thread_id_ t) (thd t) (all_debug1 t) (<[tnum := value]> (all_debug2 t))) tmp s)
    else Ret s
  else Ret s.

(** [src/common/mystats.cpp:107-115 Stats::commit] *)
Definition commit (thd_id : Z) (s : Stats) : res Stats :=
  '(t, tmp) ← get_thread thd_id s;
  let add c := inc time_remote_lock_ (tmp time_remote_lock_) (inc time_wait (tmp time_wait)
                 (inc time_index (tmp time_index) (inc time_man (tmp time_man) c))) in
  Ret (with_thread thd_id (with_thd add t) (clear_tmp tmp) s).

(** [src/common/mystats.cpp:117-122 Stats::abort] *)
Definition abort (thd_id : Z) (s : Stats) : res Stats :=
  '(t, tmp) ← get_thread thd_id s;
  Ret (with_thread thd_id (with_thd (inc time_abort (tmp time_man)) t) (clear_tmp tmp) s).

Definition inc_thread (tid : Z) (name : stat) (value : Z) (s : Stats) : res Stats :=
  '(t, tmp) ← get_thread tid s; Ret (with_thread tid (with_thd (inc name value) t) tmp s).

Definition inc_tmp (tid : Z) (name : stat) (value : Z) (s : Stats) : res Stats :=
  '(t, tmp) ← get_thread tid s; Ret (with_thread tid t (inc name value tmp) s).

(** What a thread counts at the end of a transaction; [nanos] is the time it
    took.
    [src/instance/thread.cpp:215-240 stats] *)
Definition account (tid : Z) (rc : RC) (nanos : Z) (s : Stats) : res Stats :=
  s ← inc_thread tid run_time nanos s;
  s ← inc_thread tid latency nanos s;
  if bool_decide (rc = RCOK) then
    s ← inc_thread tid txn_cnt 1 s;
    commit tid s
  else if bool_decide (rc = Abort) then
    s ← inc_thread tid time_abort nanos s;
    s ← inc_thread tid abort_cnt 1 s;
    s ← abort tid s;
    commit tid s
  else Ret s.

(** ** Result files *)

(** [src/config.h:8-8 PROCESS_CNT] *)
Definition PROCESS_CNT : Z := 2.
(** [src/common/mystats.cpp:13-13 BILLION] *)
Definition BILLION : Z := 1000.

Local Abbreviation files := (gmap string bytes).

Definition file_of (what : string) (ins_id : Z) : string := what +:+ "_" +:+ String.string_of_list_byte (show ins_id).

(** A number on a line of its own at the end of a file, which is made if it is
    not there. *)
Definition append (what : string) (value ins_id : Z) (fs : files) : files :=
  <[file_of what ins_id := default [] (fs !! file_of what ins_id) ++ show value ++ [Byte.x0a]]> fs.

(** [src/util/parse_result.cpp:17-22 AppendRunTime] *)
Definition AppendRunTime : Z -> Z -> files -> files := append "runtime".
(** [src/util/parse_result.cpp:24-29 AppendLatency] *)
Definition AppendLatency : Z -> Z -> files -> files := append "latency".
(** [src/util/parse_result.cpp:30-35 AppendThroughtput] *)
Definition AppendThroughtput : Z -> Z -> files -> files := append "throughtput".
(** [src/util/parse_result.cpp:36-41 AppendRemoteLockTime] *)
Definition AppendRemoteLockTime : Z -> Z -> files -> files := append "remote_lock_time".

(** [while (ss >> temp) sum += temp]; each round takes a character at least. *)
Fixpoint sum_numbers (fuel : nat) (temp sum : Z) (ss : stream) : res (Z * Z) :=
  let '(temp, ss) := extract temp ss in
  if ss.2 then
    match fuel with
    | O => Fault OutOfFuel
    | S fuel => sum_numbers fuel temp (u64 (sum + temp)) ss
    end
  else Ret (temp, sum).

(** One round of the loops over the instances: the file [tested] decides whether
    [what] is read; opening a file for appending makes it.
    [src/util/parse_result.cpp:49-61 ins_count] *)
Definition parse_one (tested what : string) (st : Z * Z * Z * files) (i : Z) : res (Z * Z * Z * files) :=
  let '(temp, ins_count, sum, fs) := st in
  match fs !! file_of tested i with
  | None => Ret st
  | Some _ =>
      let text := default [] (fs !! file_of what i) in
      '(temp, sum) ← sum_numbers (length text) temp sum (text, bool_decide (text <> []));
      Ret (temp, ins_count + 1, sum, <[file_of what i := text]> fs)
  end.

Definition parse_all (tested what : string) (temp : Z) (fs : files) : res (Z * Z * files) :=
  '(_, ins_count, sum, fs) ← foldM (parse_one tested what) (temp, 0, 0, fs) (seqZ 0 PROCESS_CNT);
  Ret (ins_count, sum, fs).

Definition average (st : Z * Z * files) : res (Z * Z * files) :=
  let '(ins_count, sum, fs) := st in
  if ins_count =? 0 then Fault DivByZero else Ret (ins_count, sum / ins_count, fs).

(** What the four functions print: a number and how many instances it is from.
    [src/util/parse_result.cpp:44-63 ParseRunTime] *)
Definition ParseRunTime (temp : Z) (fs : files) : res (Z * Z * files) := st ← parse_all "runtime" "runtime" temp fs; average st.
(** [src/util/parse_result.cpp:64-83 ParseLatency] *)
Definition ParseLatency (temp : Z) (fs : files) : res (Z * Z * files) := st ← parse_all "latency" "latency" temp fs; average st.
(** [src/util/parse_result.cpp:85-104 ParseThroughtput] *)
Definition ParseThroughtput (temp : Z) (fs : files) : res (Z * Z * files) := parse_all "throughtput" "throughtput" temp fs.
(** [src/util/parse_result.cpp:105-124 ParseRemoteLockTime] *)
Definition ParseRemoteLockTime (temp : Z) (fs : files) : res (Z * Z * files) := parse_all "throughtput" "remote_lock_time" temp fs.

(** The totals over the threads.
    [src/common/mystats.cpp:146-173 total_txn_cnt] *)
Definition add_thread (s : Stats) (tot : counters) (tid : Z) : res counters :=
  t ← at_ (_stats s !! Z.to_nat tid); t ← deref t;
  Ret (fun n => u64 (tot n + thd t n)).

(** [src/common/mystats.cpp:124-180 Stats::print] *)
Definition Stats_print (g_thread_cnt ins_id : Z) (s : Stats) (fs : files) : res (Stats * files) :=
  tot ← foldM (add_thread s) (fun _ => 0) (seqZ 0 g_thread_cnt);
  let s := mkStats (_stats s) (tmp_stats s) (dl_detect_time s) (dl_wait_time s) (cycle_detect s) (deadlock s) (tot txn_cnt) in
  if tot txn_cnt =? 0 then Fault DivByZero else
  let fs := AppendLatency (tot latency / BILLION / tot txn_cnt) ins_id fs in
  Ret (s, AppendRemoteLockTime (tot time_remote_lock_ / BILLION) ins_id fs).

(** ** What is counted *)

(** A transaction as the statistics see it: what it adds to the temporary
    counters, how it ends and how long it took. *)
Record round := mkRound { r_adds : list (stat * Z); r_rc : RC; r_nanos : Z }.

Definition run_round (tid : Z) (s : Stats) (r : round) : res Stats :=
  s ← foldM (fun s '(n, v) => inc_tmp tid n v s) s (r_adds r);
  account tid (r_rc r) (r_nanos r) s.

Definition sum_list (l : list Z) : Z := foldr Z.add 0 l.

(** What the transaction itself took for [n]. *)
Definition spent (n : stat) (r : round) : Z := sum_list ((fun '(m, v) => if decide (m = n) then v else 0) <$> r_adds r).

(** What a transaction counts for in the end. *)
Definition booked (n : stat) (r : round) : Z :=
  match n with
  | run_time | latency => r_nanos r
  | txn_cnt => if decide (r_rc r = RCOK) then 1 else 0
  | time_man | time_index | time_wait | time_remote_lock_ => if decide (r_rc r = RCOK) then spent n r else 0
  | abort_cnt => if decide (r_rc r = Abort) then 1 else 0
  | time_abort => if decide (r_rc r = Abort) then r_nanos r + spent time_man r else 0
  | _ => 0
  end.

Lemma u64_add_l (a b : Z) : u64 (u64 a + b) = u64 (a + b).
Proof. unfold u64. by rewrite Zplus_mod_idemp_l. Qed.
Lemma u64_add_r (a b : Z) : u64 (a + u64 b) = u64 (a + b).
Proof. unfold u64. by rewrite Zplus_mod_idemp_r. Qed.

Lemma u64_u64 (a : Z) : u64 (u64 a) = u64 a.
Proof. unfold u64. by rewrite Z.mod_mod. Qed.
Lemma u64_add_cong (a b b' : Z) : u64 b = u64 b' -> u64 (a + b) = u64 (a + b').
Proof. intros H. by rewrite <- u64_add_r, H, u64_add_r. Qed.

(** Reads a counter that was changed step by step. *)
Ltac counter :=
  cbn [thd with_thd]; unfold inc;
  repeat first [rewrite decide_True by done | rewrite decide_False by done];
  repeat first [rewrite u64_add_l | rewrite Z.add_0_r | rewrite u64_u64].

Section Thread.
Context (tid : Z) (s0 : Stats).
Hypothesis H1 : (Z.to_nat tid < length (_stats s0))%nat.
Hypothesis H2 : (Z.to_nat tid < length (tmp_stats s0))%nat.

Local Abbreviation at_thread t tmp := (with_thread tid t tmp s0).

Lemma get_at (t : Stats_thd) (tmp : counters) : get_thread tid (at_thread t tmp) = Ret (t, tmp).
Proof using H1 H2. unfold get_thread. cbn. by rewrite !list_lookup_insert_eq. Qed.

Lemma with_at (t t' : Stats_thd) (tmp tmp' : counters) : with_thread tid t' tmp' (at_thread t tmp) = at_thread t' tmp'.
Proof. unfold with_thread. cbn. by rewrite !list_insert_insert_eq. Qed.

Lemma inc_thread_at (n : stat) (v : Z) (t : Stats_thd) (tmp : counters) :
  inc_thread tid n v (at_thread t tmp) = Ret (at_thread (with_thd (inc n v) t) tmp).
Proof using H1 H2. unfold inc_thread. rewrite get_at. cbn [mbind res_bind]. by rewrite with_at. Qed.

Lemma inc_tmp_at (n : stat) (v : Z) (t : Stats_thd) (tmp : counters) :
  inc_tmp tid n v (at_thread t tmp) = Ret (at_thread t (inc n v tmp)).
Proof using H1 H2. unfold inc_tmp. rewrite get_at. cbn [mbind res_bind]. by rewrite with_at. Qed.

Lemma adds_at (adds : list (stat * Z)) (t : Stats_thd) (tmp : counters) :
  exists tmp', foldM (fun s '(n, v) => inc_tmp tid n v s) (at_thread t tmp) adds = Ret (at_thread t tmp')
    /\ forall n, u64 (tmp' n) = u64 (tmp n + sum_list ((fun '(m, v) => if decide (m = n) then v else 0) <$> adds)).
Proof using H1 H2.
  revert tmp. induction adds as [|[m v] adds IH]; intros tmp; cbn [foldM].
  { exists tmp. split; [done|]. intros n. cbn. by rewrite Z.add_0_r. }
  rewrite inc_tmp_at. cbn [mbind res_bind].
  destruct (IH (inc m v tmp)) as (tmp' & -> & H). exists tmp'. split; [done|]. intros n. rewrite H. unfold inc. cbn [fmap list_fmap sum_list foldr].
  destruct (decide (n = m)) as [->|Hne]; [rewrite decide_True by done; rewrite u64_add_l|rewrite decide_False by done]; f_equal; unfold sum_list; lia.
Qed.

Lemma round_at (r : round) (t : Stats_thd) (tmp : counters) :
  r_rc r = RCOK \/ r_rc r = Abort -> (forall n, tmp n = 0) ->
  exists t' tmp', run_round tid (at_thread t tmp) r = Ret (at_thread t' tmp') /\ (forall n, tmp' n = 0)
    /\ forall n, u64 (thd t' n) = u64 (thd t n + booked n r).
Proof using H1 H2.
  intros Hrc Htmp. unfold run_round. destruct (adds_at (r_adds r) t tmp) as (tmp' & -> & Hadd). cbn [mbind res_bind].
  assert (forall n, u64 (tmp' n) = u64 (spent n r)) as Hspent by (intros n; rewrite Hadd, Htmp; done). clear Hadd Htmp tmp.
  unfold account. rewrite !inc_thread_at. cbn [mbind res_bind]. rewrite !inc_thread_at. cbn [mbind res_bind].
  destruct Hrc as [Hrc|Hrc]; rewrite Hrc.
  - rewrite bool_decide_eq_true_2 by done. rewrite inc_thread_at. cbn [mbind res_bind]. unfold commit. rewrite get_at. cbn [mbind res_bind].
    rewrite with_at. eexists _, _. split; [done|]. split; [done|]. intros n. unfold booked. rewrite Hrc.
    destruct n; counter; try done; by apply u64_add_cong.
  - rewrite bool_decide_eq_false_2, bool_decide_eq_true_2 by done. rewrite inc_thread_at. cbn [mbind res_bind]. rewrite inc_thread_at. cbn [mbind res_bind].
    unfold abort. rewrite get_at. cbn [mbind res_bind]. rewrite with_at. unfold commit. rewrite get_at. cbn [mbind res_bind].
    rewrite with_at. eexists _, _. split; [done|]. split; [done|]. intros n. unfold booked. rewrite Hrc.
    destruct n; counter; try done.
    rewrite Z.add_assoc. by apply u64_add_cong.
Qed.
End Thread.

(** The counters of a thread are kept in range. *)
Lemma booked_all (tid : Z) (s0 : Stats) (rs : list round) (t : Stats_thd) (tmp : counters) :
  (Z.to_nat tid < length (_stats s0))%nat -> (Z.to_nat tid < length (tmp_stats s0))%nat ->
  Forall (fun r => r_rc r = RCOK \/ r_rc r = Abort) rs -> (forall n, tmp n = 0) ->
  exists t' tmp', foldM (run_round tid) (with_thread tid t tmp s0) rs = Ret (with_thread tid t' tmp' s0)
    /\ (forall n, tmp' n = 0) /\ forall n, u64 (thd t' n) = u64 (thd t n + sum_list (booked n <$> rs)).
Proof.
  intros H1 H2 Hrs. revert t tmp. induction Hrs as [|r rs Hr _ IH]; intros t tmp Htmp; cbn [foldM].
  { exists t, tmp. split; [done|]. split; [done|]. intros n. cbn. by rewrite Z.add_0_r. }
  destruct (round_at tid s0 H1 H2 r t tmp Hr Htmp) as (t1 & tmp1 & -> & Htmp1 & Hn1). cbn [mbind res_bind].
  destruct (IH t1 tmp1 Htmp1) as (t2 & tmp2 & -> & Htmp2 & Hn2). exists t2, tmp2. split; [done|]. split; [done|].
  intros n. rewrite Hn2. cbn [fmap list_fmap]. unfold sum_list in *. cbn [foldr]. rewrite <- u64_add_l, Hn1, u64_add_l. f_equal. lia.
Qed.

(** The statistics of a thread that was initialised are, counter by counter, the
    sums over the transactions it ran: a committed one counts with what it spent,
    an aborted one only as aborted, and what it spent on rows counts twice, as part
    of the time it took and again by itself.  Nothing is left for the next one. *)
Theorem stats_accounting (g_thread_cnt tid : Z) (rs : list round) :
  0 <= tid < g_thread_cnt -> Forall (fun r => r_rc r = RCOK \/ r_rc r = Abort) rs ->
  exists s0 s t tmp, Stats_init_thread tid (Stats_init g_thread_cnt) = Ret s0 /\ foldM (run_round tid) s0 rs = Ret s
    /\ get_thread tid s = Ret (t, tmp) /\ (forall n, tmp n = 0) /\ forall n, u64 (thd t n) = u64 (sum_list (booked n <$> rs)).
Proof.
  intros Ht Hrs. unfold Stats_init_thread, Stats_init. cbn [_stats tmp_stats]. set (s00 := mkStats _ _ _ _ _ _ _).
  rewrite !(lookup_replicate_2 _ _ (Z.to_nat tid)) by lia. cbn [at_ mbind res_bind].
  assert (length (_stats s00) = Z.to_nat g_thread_cnt) as L1 by apply length_replicate.
  assert (length (tmp_stats s00) = Z.to_nat g_thread_cnt) as L2 by apply length_replicate.
  destruct (booked_all tid s00 rs (init_thd tid (mkThd 0 (fun _ => 0) [] [])) (clear_tmp (fun _ => 0))) as (t & tmp & E & Htmp & Hn); [lia|lia|done|done|].
  eexists _, _, t, tmp. split; [done|]. split; [exact E|]. split; [apply get_at; lia|]. split; [done|]. intros n. rewrite Hn. by destruct n.
Qed.

Definition rounds_example : list round := [mkRound [(time_man, 40); (time_wait, 15)] Abort 50; mkRound [(time_man, 30)] RCOK 35].

(** So the time of the aborted transactions is not a part of the time of all. *)
Lemma stats_accounting_witness :
  exists s0 s t tmp, Stats_init_thread 1 (Stats_init 4) = Ret s0 /\ foldM (run_round 1) s0 rounds_example = Ret s
    /\ get_thread 1 s = Ret (t, tmp) /\ u64 (thd t run_time) = 85 /\ u64 (thd t time_abort) = 90 /\ u64 (thd t time_man) = 30.
Proof.
  destruct (stats_accounting 4 1 rounds_example) as (s0 & s & t & tmp & H1 & H2 & H3 & _ & H4); [lia|by repeat constructor; auto|].
  exists s0, s, t, tmp. rewrite !H4. by split_and!.
Defined.

(** ** Adding up results *)

Definition line (v : Z) : bytes := show v ++ [Byte.x0a].

Lemma show_nonempty (v : Z) : is_u64 v -> show v <> [].
Proof. intros Hv. destruct (dec_digits 19 v []) as (ds & E & Hne & _); [unfold is_u64 in Hv; lia|]. unfold show. rewrite E. by destruct ds. Qed.

Lemma sum_numbers_lines (vs : list Z) : forall fuel pre temp sum,
  Forall is_u64 vs -> Forall (fun b => is_blank b = true) pre -> (length vs <= fuel)%nat ->
  exists temp', sum_numbers fuel temp sum (pre ++ flat_map line vs, true) = Ret (temp', foldl (fun a v => u64 (a + v)) sum vs).
Proof.
  induction vs as [|v vs IH]; intros fuel pre temp sum Hvs Hpre Hf.
  - cbn [flat_map]. rewrite app_nil_r.
    assert (skip_blanks pre = []) as Hs by (induction Hpre as [|b pre Hb _ IH]; cbn; [done|by rewrite Hb]).
    exists temp. destruct fuel; cbn [sum_numbers]; unfold extract; by rewrite Hs.
  - destruct fuel as [|fuel]; [cbn in Hf; lia|]. apply list.Forall_cons in Hvs as [Hv Hvs].
    cbn [flat_map sum_numbers]. unfold line at 1. rewrite <- app_assoc. cbn [app].
    rewrite (extract_show Byte.x0a) by done. cbn [fst snd].
    apply (IH fuel [Byte.x0a] v (u64 (sum + v))); [done|by repeat constructor|cbn in Hf; lia].
Qed.

Lemma foldl_u64 (vs : list Z) (a : Z) : is_u64 a -> foldl (fun a v => u64 (a + v)) a vs = u64 (a + sum_list vs).
Proof.
  revert a. induction vs as [|v vs IH]; intros a Ha; cbn [foldl sum_list foldr].
  - by rewrite Z.add_0_r, u64_id.
  - rewrite IH by apply u64_range. rewrite u64_add_l. f_equal. unfold sum_list. lia.
Qed.

(** The lines of a file are added up. *)
Lemma read_file (vs : list Z) (temp sum : Z) :
  is_u64 sum -> Forall is_u64 vs ->
  let text := flat_map line vs in
  exists temp', sum_numbers (length text) temp sum (text, bool_decide (text <> [])) = Ret (temp', u64 (sum + sum_list vs)).
Proof.
  intros Hsum Hvs text. destruct vs as [|v vs].
  - exists temp. cbn. by rewrite Z.add_0_r, u64_id.
  - rewrite bool_decide_eq_true_2 by (apply list.Forall_cons in Hvs as [Hv _]; unfold text, line; cbn [flat_map];
      pose proof (show_nonempty v Hv); by destruct (show v)).
    rewrite <- foldl_u64 by done. apply (sum_numbers_lines (v :: vs) (length text) []); [done|done|].
    unfold text. clear. induction (v :: vs) as [|x xs IH]; [cbn; lia|]. cbn [flat_map length]. unfold line at 1. rewrite !length_app. cbn. lia.
Qed.

Lemma show_inj (a b : Z) : is_u64 a -> is_u64 b -> show a = show b -> a = b.
Proof.
  intros Ha Hb E. pose proof (extract_show blank [] a 0 [] eq_refl (Forall_nil_2 _) Ha) as Ea.
  pose proof (extract_show blank [] b 0 [] eq_refl (Forall_nil_2 _) Hb) as Eb. cbn [app] in Ea, Eb. rewrite E, Eb in Ea. by injection Ea.
Qed.

Lemma file_of_inj (what : string) (i j : Z) : is_u64 i -> is_u64 j -> file_of what i = file_of what j -> i = j.
Proof.
  intros Hi Hj E. apply (inj (String.append what)) in E. apply (inj (String.append "_")) in E. apply show_inj; [done|done|].
  by rewrite <- (String.list_byte_of_string_of_list_byte (show i)), E, String.list_byte_of_string_of_list_byte.
Qed.

(** The values of one instance among those appended, a value and its instance. *)
Definition of_ins (i : Z) (vs : list (Z * Z)) : list Z := (filter (fun e => e.2 = i) vs).*1.

Definition appended (what : string) (vs : list (Z * Z)) (fs : files) : files := foldl (fun fs e => append what e.1 e.2 fs) fs vs.

Lemma appended_file (what : string) (vs : list (Z * Z)) (fs : files) (i : Z) :
  is_u64 i -> Forall (fun e => is_u64 e.2) vs ->
  appended what vs fs !! file_of what i
  = match of_ins i vs with
    | [] => fs !! file_of what i
    | ls => Some (default [] (fs !! file_of what i) ++ flat_map line ls)
    end.
Proof.
  intros Hi Hvs. revert fs. induction Hvs as [|[v j] vs Hj _ IH]; intros fs; [done|]. cbn [appended foldl fst snd]. unfold appended in IH.
  rewrite IH. unfold of_ins in *. rewrite list.filter_cons. cbn [snd]. unfold append. destruct (decide (j = i)) as [->|Hne].
  - rewrite lookup_insert_eq. cbn [default from_option id fmap list_fmap fst flat_map]. fold (line v).
    destruct ((filter (fun e => e.2 = i) vs).*1); cbn [flat_map]; by rewrite ?app_nil_r, <- ?app_assoc.
  - rewrite lookup_insert_ne; [done|]. intros E. apply Hne, (file_of_inj what); done.
Qed.

Lemma parse_files (what : string) (ls : Z -> list Z) (fs : files) (l : list Z) (temp cnt sum : Z) :
  is_u64 sum -> (forall i, Forall is_u64 (ls i)) ->
  Forall (fun i => fs !! file_of what i = match ls i with [] => None | _ => Some (flat_map line (ls i)) end) l ->
  exists temp', foldM (parse_one what what) (temp, cnt, sum, fs) l
    = Ret (temp', cnt + Z.of_nat (length (filter (fun i => ls i <> []) l)), u64 (sum + sum_list (sum_list ∘ ls <$> l)), fs).
Proof.
  intros Hsum Hls Hl. revert temp cnt sum Hsum. induction Hl as [|i l Hi _ IH]; intros temp cnt sum Hsum; cbn [foldM].
  { exists temp. by rewrite list.filter_nil, !Z.add_0_r, u64_id. }
  rewrite list.filter_cons. cbn [fmap list_fmap]. unfold sum_list at 1. cbn [foldr]. fold (sum_list (sum_list ∘ ls <$> l)). cbn [compose].
  pose proof (Hls i) as Hu. destruct (ls i) as [|v vs] eqn:E.
  - assert (parse_one what what (temp, cnt, sum, fs) i = Ret (temp, cnt, sum, fs)) as -> by (unfold parse_one; by rewrite Hi).
    rewrite decide_False by auto. cbn [mbind res_bind]. by apply IH.
  - destruct (read_file (v :: vs) temp sum Hsum Hu) as (temp1 & Hread).
    assert (parse_one what what (temp, cnt, sum, fs) i = Ret (temp1, cnt + 1, u64 (sum + sum_list (v :: vs)), fs)) as ->.
    { unfold parse_one. rewrite Hi. cbn [default from_option id]. rewrite Hread. cbn [mbind res_bind]. by rewrite insert_id. }
    rewrite decide_True by done. cbn [mbind res_bind].
    destruct (IH temp1 (cnt + 1) (u64 (sum + sum_list (v :: vs))) (u64_range _)) as (temp2 & ->).
    exists temp2. cbn [length]. rewrite u64_add_l.
    by rewrite Nat2Z.inj_succ, <- (Z.add_1_l (Z.of_nat _)), (Z.add_assoc cnt), (Z.add_assoc sum).
Qed.

(** What the instances append to their result files is what is added up: the sum
    over all of them, modulo the range, and the number of instances that have
    appended something. *)
Theorem results_added_up (vs : list (Z * Z)) (temp : Z) (fs : files) :
  Forall (fun e => is_u64 e.1 /\ 0 <= e.2 < PROCESS_CNT) vs -> (forall i, 0 <= i < PROCESS_CNT -> fs !! file_of "throughtput" i = None) ->
  ParseThroughtput temp (foldl (fun fs e => AppendThroughtput e.1 e.2 fs) fs vs)
  = Ret (Z.of_nat (length (filter (fun i => of_ins i vs <> []) (seqZ 0 PROCESS_CNT))), u64 (sum_list vs.*1),
         foldl (fun fs e => AppendThroughtput e.1 e.2 fs) fs vs).
Proof.
  intros Hvs Hfs. change (foldl (fun fs e => AppendThroughtput e.1 e.2 fs) fs vs) with (appended "throughtput" vs fs).
  unfold ParseThroughtput, parse_all.
  destruct (parse_files "throughtput" (fun i => of_ins i vs) (appended "throughtput" vs fs) (seqZ 0 PROCESS_CNT) temp 0 0) as (temp' & ->).
  - done.
  - intros i. apply list.Forall_forall. intros v ([v' j] & -> & [_ Hin]%list_elem_of_filter)%list_elem_of_fmap.
    by destruct (proj1 (list.Forall_forall _ _) Hvs _ Hin).
  - apply list.Forall_forall. intros i Hi%elem_of_seqZ. rewrite appended_file, Hfs.
    + by destruct (of_ins i vs).
    + unfold PROCESS_CNT in *. lia.
    + unfold is_u64, PROCESS_CNT in *. lia.
    + eapply list.Forall_impl; [exact Hvs|]. intros e [_ He]. unfold is_u64, PROCESS_CNT in *. lia.
  - cbn [mbind res_bind]. rewrite Z.add_0_l. f_equal. f_equal. f_equal. f_equal.
    clear Hfs. change (seqZ 0 PROCESS_CNT) with [0; 1]. induction Hvs as [|[v j] vs [Hv Hj] _ IH]; [done|].
    unfold of_ins, sum_list, PROCESS_CNT in *. cbn [fmap list_fmap compose] in *. unfold compose in *.
    rewrite !list.filter_cons. cbn [fst snd] in *.
    cbn [foldr] in *.
    assert (j = 0 \/ j = 1) as [->| ->] by lia; [rewrite decide_True, decide_False by done|rewrite decide_False, decide_True by done];
      cbn [fmap list_fmap foldr fst] in *; lia.
Qed.

Lemma results_added_up_witness :
  ParseThroughtput 7 (foldl (fun fs e => AppendThroughtput e.1 e.2 fs) ∅ [(120, 1); (4500, 0); (30, 1)])
  = Ret (2, 4650, foldl (fun fs e => AppendThroughtput e.1 e.2 fs) ∅ [(120, 1); (4500, 0); (30, 1)]).
Proof.
  apply (results_added_up [(120, 1); (4500, 0); (30, 1)] 7 ∅); [|done]. by repeat constructor.
Defined.

Lemma totals_sum (s : Stats) (ts l : list Stats_thd) (k : Z) (tot : counters) :
  _stats s = Some <$> ts -> 0 <= k -> drop (Z.to_nat k) ts = l -> (forall n, is_u64 (tot n)) ->
  exists tot', foldM (add_thread s) tot (seqZ k (Z.of_nat (length l))) = Ret tot'
    /\ forall n, tot' n = u64 (tot n + sum_list ((fun t => thd t n) <$> l)).
Proof.
  intros Hs Hk Hl Htot. revert k tot Hk Hl Htot. induction l as [|t l IH]; intros k tot Hk Hl Htot.
  { exists tot. split; [done|]. intros n. cbn. by rewrite Z.add_0_r, u64_id. }
  cbn [length]. rewrite Nat2Z.inj_succ, seqZ_cons by lia. cbn [foldM].
  assert (ts !! Z.to_nat k = Some t) as Ht by (rewrite <- (Nat.add_0_r (Z.to_nat k)), <- lookup_drop, Hl; done).
  assert (add_thread s tot k = Ret (fun n => u64 (tot n + thd t n))) as ->.
  { unfold add_thread. by rewrite Hs, list_lookup_fmap, Ht. }
  cbn [mbind res_bind]. rewrite Z.pred_succ. destruct (IH (Z.succ k) (fun n => u64 (tot n + thd t n))) as (tot' & -> & Hn).
  - lia.
  - rewrite Z2Nat.inj_succ by lia. rewrite <- Nat.add_1_r, <- drop_drop, Hl. done.
  - intros n. apply u64_range.
  - exists tot'. split; [done|]. intros n. rewrite Hn. unfold sum_list. cbn [fmap list_fmap foldr]. by rewrite u64_add_l, Z.add_assoc.
Qed.

(** The result of an instance whose threads have ended: the totals are the sums
    over its threads, and it can be printed exactly if a transaction has
    committed. *)
Theorem stats_print_totals (ts : list Stats_thd) (tmps : list (option counters)) (a b c d e ins_id : Z) (fs : files) :
  let s := mkStats (Some <$> ts) tmps a b c d e in
  let total n := u64 (sum_list ((fun t => thd t n) <$> ts)) in
  Stats_print (Z.of_nat (length ts)) ins_id s fs
  = if total txn_cnt =? 0 then Fault DivByZero
    else Ret (mkStats (Some <$> ts) tmps a b c d (total txn_cnt),
              AppendRemoteLockTime (total time_remote_lock_ / BILLION) ins_id
                (AppendLatency (total latency / BILLION / total txn_cnt) ins_id fs)).
Proof.
  intros s total. unfold Stats_print. destruct (totals_sum s ts ts 0 (fun _ => 0)) as (tot & -> & Htot); [done|lia|done|done|].
  cbn [mbind res_bind]. by rewrite !Htot, !Z.add_0_l.
Qed.
