(* ===== verification/Parser.v ===== *)
(** * db2: the command line ([common/parser.cpp], [common/parser_host.cpp])

    Options are texts that start with a dash.  [parser] sets the global variables,
    [parser_host] the number of the instance and the addresses of all of them. *)

From Stdlib Require Import Strings.Ascii.
From S2P Require Import Prelude Config IndexText.
From S2P Require Schema.

(** ** Global variables *)

(** The variables an integer is read for.
    [src/common/global.h:52-86 g_part_alloc] *)
Inductive ivar :=
  g_part_alloc | g_mem_pad | g_query_intvl | g_part_per_txn | g_prt_lat_distr | g_part_cnt | g_virtual_part_cnt | g_thread_cnt
  | g_synth_table_size | g_req_per_query | g_field_per_tuple | g_num_wh | g_abort_penalty | g_central_man | g_ts_alloc | g_key_order
  | g_no_dl | g_timeout | g_dl_loop_detect | g_ts_batch_alloc | g_ts_batch_num | g_wh_update | g_init_parallelism | g_test_case.

(** The variables a floating-point number is read for.
    [src/common/global.h:74-85 g_perc_multi_part] *)
Inductive dvar := g_perc_multi_part | g_read_perc | g_write_perc | g_zipf_theta | g_perc_payment.

#[export] Instance ivar_eq_dec : EqDecision ivar.
Proof. solve_decision. Defined.
#[export] Instance dvar_eq_dec : EqDecision dvar.
Proof. solve_decision. Defined.

(** What an integer becomes when it is assigned: a [bool], a number of 32 or one
    of 64 bits. *)
Definition conv (v : ivar) (z : Z) : Z :=
  match v with
  | g_part_alloc | g_mem_pad | g_prt_lat_distr | g_central_man | g_key_order | g_no_dl | g_ts_batch_alloc | g_wh_update =>
      if z =? 0 then 0 else 1
  | g_query_intvl | g_abort_penalty | g_timeout | g_dl_loop_detect | g_synth_table_size => u64 z
  | _ => u32 z
  end.

(** [src/config.h:173-174 READ_WRITE] *)
Definition READ_WRITE : Z := 0.
Definition CONFLICT : Z := 1.

Record globals (D : Type) := mkGlobals {
  ints : ivar -> Z;
  doubles : dvar -> D;
  output_file : option string;
  g_params : gmap string string;
}.
Arguments mkGlobals {D} _ _ _ _.
Arguments ints {D} _ _.
Arguments doubles {D} _ _.
Arguments output_file {D} _.
Arguments g_params {D} _.

(** A sign, if there is one, and what is after it. *)
Definition sign_of (s : string) : Z * string :=
  match s with
  | String c t => if decide (c = "-"%char) then (-1, t) else if decide (c = "+"%char) then (1, t) else (1, s)
  | EmptyString => (1, s)
  end.

(** [atol]: the saturating conversion below [atoi]. *)
Definition atol (s : string) : Z :=
  let '(sign, t) := sign_of (Schema.skip_space s) in
  Z.max (- 2 ^ 63) (Z.min (2 ^ 63 - 1) (sign * Schema.digits 0 t)).

Section Parser.
Context {D : Type} (atof : string -> D).

Definition set_int (v : ivar) (z : Z) (g : globals D) : globals D :=
  mkGlobals (fun w => if decide (w = v) then conv v z else ints g w) (doubles g) (output_file g) (g_params g).
Definition set_double (v : dvar) (d : D) (g : globals D) : globals D :=
  mkGlobals (ints g) (fun w => if decide (w = v) then d else doubles g w) (output_file g) (g_params g).


(** The second letter of the options with [G]; others are ignored.
    [src/common/parser.cpp:85-104 g_abort_penalty] *)
Definition parse_G (c : ascii) (s : string) (g : globals D) : globals D :=
  let int v := set_int v (Schema.atoi s) g in
  match c with
  | "a"%char => int g_abort_penalty
  | "c"%char => int g_central_man
  | "t"%char => int g_ts_alloc
  | "k"%char => int g_key_order
  | "n"%char => int g_no_dl
  | "o"%char => set_int g_timeout (atol s) g
  | "l"%char => int g_dl_loop_detect
  | "b"%char => int g_ts_batch_alloc
  | "u"%char => int g_ts_batch_num
  | _ => g
  end.

(** [--name=value] for a name that is there already.
    [src/common/parser.cpp:123-131 pos] *)
Definition parse_param (line : string) (g : globals D) : res (globals D) :=
  match Schema.break "="%char line with
  | (_, None) => Fault Assert
  | (name, Some value) =>
      match g_params g !! name with
      | None => Fault Assert
      | Some _ => Ret (mkGlobals (ints g) (doubles g) (output_file g) (<[name := value]> (g_params g)))
      end
  end.

(** An option [-cs] that takes no further argument.
    [src/common/parser.cpp:53-114 g_part_alloc] *)
Definition parse_option (c : ascii) (s : string) (g : globals D) : res (globals D) :=
  let int v := Ret (set_int v (Schema.atoi s) g) in
  let double v := Ret (set_double v (atof s) g) in
  match c with
  | "a"%char => int g_part_alloc
  | "m"%char => int g_mem_pad
  | "q"%char => int g_query_intvl
  | "c"%char => int g_part_per_txn
  | "e"%char => double g_perc_multi_part
  | "r"%char => double g_read_perc
  | "w"%char => double g_write_perc
  | "z"%char => double g_zipf_theta
  | "d"%char => int g_prt_lat_distr
  | "p"%char => int g_part_cnt
  | "v"%char => int g_virtual_part_cnt
  | "t"%char => int g_thread_cnt
  | "s"%char => int g_synth_table_size
  | "R"%char => int g_req_per_query
  | "f"%char => int g_field_per_tuple
  | "n"%char => int g_num_wh
  | "G"%char => Ret (match s with String c s => parse_G c s g | EmptyString => g end)
  | "T"%char =>
      Ret (match s with
           | String "p"%char s => set_double g_perc_payment (atof s) g
           | String "u"%char s => set_int g_wh_update (Schema.atoi s) g
           | _ => g
           end)
  | "A"%char =>
      Ret (match s with
           | String "r"%char _ => set_int g_test_case READ_WRITE g
           | String "c"%char _ => set_int g_test_case CONFLICT g
           | _ => g
           end)
  | "-"%char => parse_param s g
  | _ => Ret g
  end.

Definition set_output (f : option string) (g : globals D) : globals D := mkGlobals (ints g) (doubles g) f (g_params g).

(** The arguments after the name of the program.  Without a file after [-o] the
    null pointer at the end of the arguments is taken.  [None] stands for the end
    of the program after the usage was printed.
    [src/common/parser.cpp:51-135 argv] *)
Fixpoint parse_args (argv : list string) (g : globals D) : res (option (globals D)) :=
  match argv with
  | [] => Ret (Some g)
  | String "-"%char EmptyString :: argv => parse_args argv g
  | String "-"%char (String "o"%char _) :: argv =>
      match argv with
      | [] => Ret (Some (set_output None g))
      | f :: argv => parse_args argv (set_output (Some f) g)
      end
  | String "-"%char (String "h"%char _) :: _ => Ret None
  | String "-"%char (String c s) :: argv => g ← parse_option c s g; parse_args argv g
  | _ => Fault Assert
  end.

(** [src/common/parser.cpp:45-49 g_params] *)
Definition default_params (m : gmap string string) : gmap string string :=
  <["atomic_timestamp" := "false"]> (<["pre_abort" := "true"]> (<["validation_lock" := "no-wait"]>
    (<["write_copy_form" := "data"]> (<["abort_buffer_enable" := "true"]> m))))%string.

(** [src/common/parser.cpp:44-138 parser] *)
Definition parser (argv : list string) (g : globals D) : res (option (globals D)) :=
  let g := mkGlobals (ints g) (doubles g) (output_file g) (default_params (g_params g)) in
  r ← parse_args argv g;
  match r with
  | None => Ret None
  | Some g => Ret (Some (if ints g g_thread_cnt <? ints g g_init_parallelism then set_int g_init_parallelism (ints g g_thread_cnt) g else g))
  end.
End Parser.

(** ** Hosts *)

(** [stoi]: a number is required, and it has to be an [int]; the exception that is
    thrown otherwise ends the program. *)
Definition stoi (s : string) : res Z :=
  let '(sign, t) := sign_of (Schema.skip_space s) in
  match t with
  | String c _ =>
      match Schema.digit c with
      | Some _ =>
          let v := sign * Schema.digits 0 t in
          if (- 2 ^ 31 <=? v) && (v <? 2 ^ 31) then Ret v else Fault Assert
      | None => Fault Assert
      end
  | EmptyString => Fault Assert
  end.

(** One argument.  Eleven characters are compared, whether there are as many or
    not, and the number starts after one more.
    [src/common/parser_host.cpp:15-20 argv] *)
Definition host_arg (id : Z) (arg : string) : res Z :=
  match arg with
  | String "-"%char s =>
      if (String.length s <? 10)%nat then Fault OutOfBounds
      else if bool_decide (String.substring 0 11 s = "instance_id"%string) then
        if (String.length s <? 12)%nat then Fault OutOfBounds
        else stoi (String.substring 12 (String.length s - 12) s)
      else Ret id
  | _ => Fault Assert
  end.

(** The members of the configuration file in the order of their names, each with
    its id, address and port; an id that is there already is kept.
    [src/common/parser_host.cpp:22-33 hosts_map] *)
Definition read_hosts (members : list (Z * string * string)) (hosts_map : gmap Z string) : gmap Z string :=
  foldl (fun m '(id, ip, port) => match m !! id with Some _ => m | None => <[id := ip +:+ ":" +:+ port]> m end) hosts_map members.

(** [junk] is the number before it is set.
    [src/common/parser_host.cpp:13-33 parser_host] *)
Definition parser_host (junk : Z) (argv : list string) (members : list (Z * string * string)) (hosts_map : gmap Z string)
    : res (Z * gmap Z string) :=
  this_instance_id ← foldM host_arg junk argv;
  Ret (this_instance_id, read_hosts members hosts_map).

(** ** Decimal numbers as text *)

Definition dec_text (n : Z) : string := (if n <? 0 then "-" else "") +:+ String.string_of_list_byte (show (Z.abs n)).

Lemma digit_char (d : Z) : 0 <= d < 10 ->
  Schema.digit (Ascii.ascii_of_byte (digit_byte d)) = Some d /\ Schema.is_space (Ascii.ascii_of_byte (digit_byte d)) = false
  /\ Ascii.ascii_of_byte (digit_byte d) <> "-"%char /\ Ascii.ascii_of_byte (digit_byte d) <> "+"%char.
Proof.
  intros Hd. assert (d = 0 \/ d = 1 \/ d = 2 \/ d = 3 \/ d = 4 \/ d = 5 \/ d = 6 \/ d = 7 \/ d = 8 \/ d = 9) as Hc by lia.
  by destruct_or! Hc; subst d.
Qed.

Lemma digits_text (ds : list Z) (v : Z) :
  Forall (fun d => 0 <= d < 10) ds -> Schema.digits v (String.string_of_list_byte (map digit_byte ds)) = digits_val v ds.
Proof.
  intros Hds. revert v. induction Hds as [|d ds Hd _ IH]; intros v; [done|].
  change (String.string_of_list_byte (map digit_byte (d :: ds)))
    with (String (Ascii.ascii_of_byte (digit_byte d)) (String.string_of_list_byte (map digit_byte ds))).
  cbn [Schema.digits]. destruct (digit_char d Hd) as (-> & _). apply IH.
Qed.

(** The digits of a number that is not negative, the first of which is no sign. *)
Lemma show_text (n : Z) :
  is_u64 n -> exists c s, String.string_of_list_byte (show n) = String c s /\ Schema.digits 0 (String c s) = n
    /\ is_Some (Schema.digit c) /\ Schema.is_space c = false /\ c <> "-"%char /\ c <> "+"%char.
Proof.
  intros Hn. destruct (dec_digits 19 n []) as (ds & E & Hne & Hds & Hv); [unfold is_u64 in Hn; lia|]. unfold show. rewrite E, app_nil_r.
  pose proof (digits_text ds 0 Hds) as Hd. rewrite Hv in Hd. destruct ds as [|d ds]; [done|]. apply list.Forall_cons in Hds as [Hd0 _].
  destruct (digit_char d Hd0) as (H1 & H2 & H3 & H4). eexists _, _. split; [done|]. split; [exact Hd|]. by rewrite H1.
Qed.

Lemma atoi_atol (s : string) : Schema.atoi s = i32 (atol s).
Proof.
  unfold Schema.atoi, atol. destruct (Schema.skip_space s) as [|c t]; [done|]. unfold sign_of.
  destruct (decide (c = "-"%char)) as [->|Hm]; [f_equal; lia|]. destruct (decide (c = "+"%char)) as [->|Hp]; [f_equal; lia|].
  rewrite Z.mul_1_l. by destruct c as [[] [] [] [] [] [] [] []].
Qed.

Lemma sign_of_dec (n : Z) :
  - 2 ^ 63 <= n < 2 ^ 63 -> exists sign c t, sign_of (Schema.skip_space (dec_text n)) = (sign, String c t)
    /\ is_Some (Schema.digit c) /\ sign * Schema.digits 0 (String c t) = n.
Proof.
  intros Hn. destruct (show_text (Z.abs n)) as (c & s & E & Hd & Hs & Hsp & Hm & Hp); [unfold is_u64; lia|]. unfold dec_text. rewrite E.
  destruct (Z.ltb_spec n 0).
  - exists (-1), c, s. split; [done|]. split; [done|]. rewrite Hd. lia.
  - exists 1, c, s. change ("" +:+ String c s) with (String c s). cbn [Schema.skip_space]. rewrite Hsp. unfold sign_of.
    rewrite !decide_False by done. split; [done|]. split; [done|]. rewrite Hd. lia.
Qed.

Lemma atol_dec (n : Z) : - 2 ^ 63 <= n < 2 ^ 63 -> atol (dec_text n) = n.
Proof. intros Hn. unfold atol. destruct (sign_of_dec n Hn) as (sign & c & t & -> & _ & ->). lia. Qed.

Lemma atoi_dec (n : Z) : - 2 ^ 31 <= n < 2 ^ 31 -> Schema.atoi (dec_text n) = n.
Proof. intros Hn. rewrite atoi_atol, atol_dec by lia. by apply i32_id. Qed.

Lemma stoi_dec (n : Z) : - 2 ^ 31 <= n < 2 ^ 31 -> stoi (dec_text n) = Ret n.
Proof.
  intros Hn. unfold stoi. destruct (sign_of_dec n ltac:(lia)) as (sign & c & t & -> & [d ->] & E). rewrite E. guard_true. done.
Qed.

(** ** Settings *)

(** What a command line can ask for. *)
Inductive setting :=
  | SInt (v : ivar) (z : Z)
  | SDouble (v : dvar) (text : string)
  | STest (conflict : bool)
  | SOut (file : string)
  | SParam (name value : string).

(** The letters of the integer options; two variables have none. *)
Definition ilet (v : ivar) : option string :=
  match v with
  | g_part_alloc => Some "a" | g_mem_pad => Some "m" | g_query_intvl => Some "q" | g_part_per_txn => Some "c" | g_prt_lat_distr => Some "d"
  | g_part_cnt => Some "p" | g_virtual_part_cnt => Some "v" | g_thread_cnt => Some "t" | g_synth_table_size => Some "s"
  | g_req_per_query => Some "R" | g_field_per_tuple => Some "f" | g_num_wh => Some "n" | g_abort_penalty => Some "Ga"
  | g_central_man => Some "Gc" | g_ts_alloc => Some "Gt" | g_key_order => Some "Gk" | g_no_dl => Some "Gn" | g_timeout => Some "Go"
  | g_dl_loop_detect => Some "Gl" | g_ts_batch_alloc => Some "Gb" | g_ts_batch_num => Some "Gu" | g_wh_update => Some "Tu"
  | g_init_parallelism | g_test_case => None
  end%string.

Definition dlet (v : dvar) : string :=
  match v with
  | g_perc_multi_part => "e" | g_read_perc => "r" | g_write_perc => "w" | g_zipf_theta => "z" | g_perc_payment => "Tp"
  end.

Definition render (x : setting) : list string :=
  match x with
  | SInt v z => ["-" +:+ default "" (ilet v) +:+ dec_text z]
  | SDouble v t => ["-" +:+ dlet v +:+ t]
  | STest b => [if b then "-Ac" else "-Ar"]
  | SOut f => ["-o"; f]
  | SParam n v => ["--" +:+ n +:+ "=" +:+ v]
  end%string.

Section Settings.
Context {D : Type} (atof : string -> D).

(** What a setting means. *)
Definition apply (g : globals D) (x : setting) : globals D :=
  match x with
  | SInt v z => set_int v z g
  | SDouble v t => set_double v (atof t) g
  | STest b => set_int g_test_case (if b then CONFLICT else READ_WRITE) g
  | SOut f => set_output (Some f) g
  | SParam n v => mkGlobals (ints g) (doubles g) (output_file g) (<[n := v]> (g_params g))
  end.

Definition has_defaults (m : gmap string string) : Prop := forall n, is_Some (default_params ∅ !! n) -> is_Some (m !! n).

(** An integer is an [int] and has an option; a parameter is one of the five. *)
Definition setting_ok (x : setting) : Prop :=
  match x with
  | SInt v z => is_Some (ilet v) /\ - 2 ^ 31 <= z < 2 ^ 31
  | SParam n _ => is_Some (default_params ∅ !! n)
  | _ => True
  end.

Lemma default_keys (n : string) :
  is_Some (default_params ∅ !! n) ->
  n = "atomic_timestamp"%string \/ n = "pre_abort"%string \/ n = "validation_lock"%string \/ n = "write_copy_form"%string \/ n = "abort_buffer_enable"%string.
Proof.
  intros [v Hv]. unfold default_params in Hv. repeat (apply lookup_insert_Some in Hv as [[<- _]|[_ Hv]]; [by auto 10|]). done.
Qed.

Lemma parse_param_ok (n v : string) (g : globals D) :
  is_Some (default_params ∅ !! n) -> has_defaults (g_params g) ->
  parse_param (n +:+ "=" +:+ v) g = Ret (apply g (SParam n v)).
Proof.
  intros Hn Hg. unfold parse_param. assert (Schema.break "="%char (n +:+ "=" +:+ v) = (n, Some v)) as ->.
  { destruct (default_keys n Hn) as [->|[->|[->|[->| ->]]]]; reflexivity. }
  destruct (Hg n Hn) as [old ->]. done.
Qed.

Lemma parse_setting (x : setting) (argv : list string) (g : globals D) :
  setting_ok x -> has_defaults (g_params g) -> parse_args atof (render x ++ argv) g = parse_args atof argv (apply g x).
Proof.
  intros Hx Hg. destruct x as [v z|v t|b|f|n v]; cbn [render apply app].
  - destruct Hx as [Hv Hz]. pose proof (atoi_dec z Hz) as Ha. pose proof (atol_dec z ltac:(lia)) as Hl.
    generalize dependent (dec_text z). intros t Ha Hl. rewrite <- Ha.
    destruct v; try (by destruct Hv); try reflexivity.
    transitivity (parse_args atof argv (set_int g_timeout (atol t) g)); [reflexivity|by rewrite Ha, Hl].
  - by destruct v.
  - by destruct b.
  - done.
  - change ("--" +:+ n +:+ "=" +:+ v)%string with (String "-" (String "-" (n +:+ "=" +:+ v)))%string.
    cbn [parse_args parse_option]. by rewrite parse_param_ok.
Qed.

Lemma apply_defaults (g : globals D) (x : setting) : has_defaults (g_params g) -> has_defaults (g_params (apply g x)).
Proof.
  intros Hg n Hn. specialize (Hg n Hn). destruct x as [v z|v t|b|f|m v]; cbn; try done.
  destruct (decide (m = n)) as [->|Hne]; [by rewrite lookup_insert_eq|by rewrite lookup_insert_ne].
Qed.

Lemma parse_settings (l : list setting) (g : globals D) :
  Forall setting_ok l -> has_defaults (g_params g) -> parse_args atof (l ≫= render) g = Ret (Some (foldl apply g l)).
Proof.
  intros Hl. revert g. induction Hl as [|x l Hx _ IH]; intros g Hg; [done|]. cbn [mbind list_bind foldl]. rewrite parse_setting by done.
  apply IH. by apply apply_defaults.
Qed.

(** A command line does what it says: the settings take effect one after the
    other on the variables and the parameters' initial values, each on its own
    variable, and at the end there are no more loading threads than threads. *)
Theorem parser_settings (l : list setting) (g : globals D) :
  Forall setting_ok l ->
  let g1 := foldl apply (mkGlobals (ints g) (doubles g) (output_file g) (default_params (g_params g))) l in
  parser atof (l ≫= render) g
  = Ret (Some (if ints g1 g_thread_cnt <? ints g1 g_init_parallelism then set_int g_init_parallelism (ints g1 g_thread_cnt) g1 else g1)).
Proof.
  intros Hl g1. unfold parser. rewrite parse_settings; [done|done|]. cbn [g_params]. intros n Hn.
  destruct (default_keys n Hn) as [->|[->|[->|[->| ->]]]]; unfold default_params; cbn;
    repeat (rewrite lookup_insert_eq || rewrite lookup_insert_ne by done); by eexists.
Qed.
End Settings.

Definition globals_example : globals string := mkGlobals (fun v => if decide (v = g_init_parallelism) then 40 else 1) (fun _ => "0.5"%string) None ∅.

Lemma parser_settings_witness :
  exists g, parser (fun t => t) ["-t8"; "-Tp0.4"; "-o"; "out.txt"; "-Go-1"; "--pre_abort=false"]%string globals_example = Ret (Some g)
    /\ ints g g_thread_cnt = 8 /\ ints g g_init_parallelism = 8 /\ ints g g_timeout = UINT64_MAX /\ doubles g g_perc_payment = "0.4"%string
    /\ output_file g = Some "out.txt"%string /\ g_params g !! "pre_abort"%string = Some "false"%string.
Proof.
  pose proof (parser_settings (fun t => t) [SInt g_thread_cnt 8; SDouble g_perc_payment "0.4"; SOut "out.txt"; SInt g_timeout (-1); SParam "pre_abort" "false"]
    globals_example) as H.
  eexists. split; [apply H; repeat constructor; done || by eexists|]. by vm_compute.
Defined.

(** ** The number of an instance *)

Lemma substring_drop (a b : string) : String.substring (String.length a) (String.length (a +:+ b) - String.length a) (a +:+ b) = b.
Proof.
  induction a as [|c a IH]; cbn [String.length String.append String.substring].
  - rewrite Nat.sub_0_r. change ("" +:+ b) with b. induction b as [|c b IHb]; cbn [String.length String.substring]; [done|by rewrite IHb].
  - exact IH.
Qed.

Lemma host_arg_id (id n : Z) : - 2 ^ 31 <= n < 2 ^ 31 -> host_arg id ("-instance_id=" +:+ dec_text n) = Ret n.
Proof.
  intros Hn. pose proof (stoi_dec n Hn) as Hs. pose proof (substring_drop "instance_id=" (dec_text n)) as Hsub.
  generalize dependent (dec_text n). intros t Hs Hsub. change ("-instance_id=" +:+ t) with (String "-" ("instance_id=" +:+ t)).
  unfold host_arg. change (String.length "instance_id=") with 12%nat in Hsub. rewrite Hsub. cbn -[stoi]. done.
Qed.

Lemma read_hosts_lookup (members : list (Z * string * string)) (m : gmap Z string) (id : Z) :
  read_hosts members m !! id
  = match m !! id with Some h => Some h | None => (fun e => e.1.2 +:+ ":" +:+ e.2) <$> head (filter (fun e => e.1.1 = id) members) end.
Proof.
  revert m. induction members as [|[[i ip] port] members IH]; intros m; [unfold read_hosts; cbn; by case_match|].
  change (read_hosts ((i, ip, port) :: members) m)
    with (read_hosts members (match m !! i with Some _ => m | None => <[i := ip +:+ ":" +:+ port]> m end)).
  rewrite IH, list.filter_cons. cbn [fst]. destruct (decide (i = id)) as [->|Hne].
  - destruct (m !! id) as [h|] eqn:E; [by rewrite E|]. by rewrite lookup_insert_eq.
  - assert (match m !! i with Some _ => m | None => <[i := ip +:+ ":" +:+ port]> m end !! id = m !! id) as ->; [|done].
    destruct (m !! i); [done|]. by rewrite lookup_insert_ne.
Qed.

(** The instance has the number of the last option that gives one, and each id the
    address of its first member. *)
Theorem parser_host_spec (junk n : Z) (pre post : list string) (members : list (Z * string * string)) :
  - 2 ^ 31 <= n < 2 ^ 31 ->
  Forall (fun a => forall id, exists id', host_arg id a = Ret id') pre -> Forall (fun a => forall id, host_arg id a = Ret id) post ->
  exists m, parser_host junk (pre ++ ("-instance_id=" +:+ dec_text n) :: post) members ∅ = Ret (n, m)
    /\ forall id, m !! id = (fun e => e.1.2 +:+ ":" +:+ e.2) <$> head (filter (fun e => e.1.1 = id) members).
Proof.
  intros Hn Hpre Hpost. unfold parser_host.
  assert (forall id, exists id', foldM host_arg id pre = Ret id') as Hp.
  { clear -Hpre. induction Hpre as [|a pre Ha _ IH]; intros id; cbn [foldM]; [by exists id|]. destruct (Ha id) as [id' ->]. apply IH. }
  assert (foldM host_arg n post = Ret n) as Hq.
  { clear -Hpost. induction Hpost as [|a post Ha _ IH]; cbn [foldM]; [done|]. rewrite Ha. exact IH. }
  destruct (Hp junk) as [id E]. rewrite foldM_app, E. cbn [mbind res_bind foldM]. rewrite host_arg_id by done. cbn [mbind res_bind].
  rewrite Hq. cbn [mbind res_bind]. eexists. split; [done|]. intros id'. by rewrite read_hosts_lookup, lookup_empty.
Qed.

Lemma parser_host_spec_witness :
  exists m, parser_host 99 ["-verbose_run"; "-instance_id=1"] [(-1, "10.0.0.1", "50051"); (1, "10.0.0.2", "50053"); (1, "10.0.0.3", "1")]%string ∅ = Ret (1, m)
    /\ m !! 1 = Some "10.0.0.2:50053"%string /\ m !! 0 = None.
Proof.
  destruct (parser_host_spec 99 1 ["-verbose_run"]%string [] [(-1, "10.0.0.1", "50051"); (1, "10.0.0.2", "50053"); (1, "10.0.0.3", "1")]%string)
    as (m & E & Hm); [lia|repeat constructor; intros id; by exists id|done|].
  exists m. split; [exact E|]. by rewrite !Hm.
Defined.

(** A short argument is read beyond its end, and without the option the number is
    what was in the variable. *)
Theorem parser_host_short_argument (junk : Z) (members : list (Z * string * string)) :
  parser_host junk ["-v"]%string members ∅ = Fault OutOfBounds /\ parser_host junk [] members ∅ = Ret (junk, read_hosts members ∅).
Proof. done. Qed.
