(* ===== verification/ProtoWire.v ===== *)
(** * db2: the wire format of the RPC messages ([include/google/protobuf])

    What the generated code of the two services uses of the protocol buffer
    library, as far as it is in the headers: variable-length integers, tags,
    sizes, the input and the output stream.  A pointer into the input is the
    memory from there on: the rest of the message, and behind its limit the slop
    bytes that may be read but mean nothing.  The output stream is what has been
    written, the place [end_] up to which a field may be started, and the place
    up to which the memory may be written.

    The library's functions that are only declared in the headers are the
    operations of the class [Protobuf]; [ProtobufLaws] is what the headers
    document of them. *)

From S2P Require Import Prelude.

Abbreviation ptr := (list Byte.byte).

Definition u8 (z : Z) : Z := z mod 2 ^ 8.

Definition i16 (z : Z) : Z := (z + 2 ^ 15) mod 2 ^ 16 - 2 ^ 15.

Definition i8 (z : Z) : Z := (z + 2 ^ 7) mod 2 ^ 8 - 2 ^ 7.

(** [CHK_(ptr)]: a null pointer ends the parse. *)
Notation "x ←! m ; k" := (r_ ← m; match r_ with None => Ret None | Some x => k end)
  (at level 20, m at level 100, k at level 200, only parsing) : db2_scope.
Notation "' x ←! m ; k" := (r_ ← m; match r_ with None => Ret None | Some x => k end)
  (at level 20, x pattern, m at level 100, k at level 200, only parsing) : db2_scope.

(** ** Fields on the wire *)

(** [src/include/google/protobuf/wire_format_lite.h:103-103 WIRETYPE_VARINT] *)
Definition WIRETYPE_VARINT : Z := 0.

(** [src/include/google/protobuf/wire_format_lite.h:104-104 WIRETYPE_FIXED64] *)
Definition WIRETYPE_FIXED64 : Z := 1.

(** [src/include/google/protobuf/wire_format_lite.h:105-105 WIRETYPE_LENGTH_DELIMITED] *)
Definition WIRETYPE_LENGTH_DELIMITED : Z := 2.

(** [src/include/google/protobuf/wire_format_lite.h:106-106 WIRETYPE_START_GROUP] *)
Definition WIRETYPE_START_GROUP : Z := 3.

(** [src/include/google/protobuf/wire_format_lite.h:107-107 WIRETYPE_END_GROUP] *)
Definition WIRETYPE_END_GROUP : Z := 4.

(** [src/include/google/protobuf/wire_format_lite.h:108-108 WIRETYPE_FIXED32] *)
Definition WIRETYPE_FIXED32 : Z := 5.

(** [src/include/google/protobuf/wire_format_lite.h:203-204 GOOGLE_PROTOBUF_WIRE_FORMAT_MAKE_TAG] *)
Definition MakeTag (field_number type : Z) : Z := u32 (Z.lor (u32 (Z.shiftl (u32 field_number) 3)) type).

(** A field with its number, as it is kept when the message does not know it.
    [src/include/google/protobuf/unknown_field_set.h:230-238 UnknownField] *)
Inductive UnknownField :=
  | TYPE_VARINT (number varint : Z)
  | TYPE_FIXED32 (number fixed32 : Z)
  | TYPE_FIXED64 (number fixed64 : Z)
  | TYPE_LENGTH_DELIMITED (number : Z) (string_value : bytes)
  | TYPE_GROUP (number : Z) (group : list UnknownField).

(** The unknown fields of a message, if it has ever had any; the arena is left
    out.  [src/include/google/protobuf/metadata_lite.h:59-62 InternalMetadata] *)
Definition InternalMetadata : Type := option (list UnknownField).

(** [src/include/google/protobuf/metadata_lite.h:80-82 have_unknown_fields] *)
Definition have_unknown_fields (md : InternalMetadata) : bool := match md with Some _ => true | None => false end.

(** [src/include/google/protobuf/metadata_lite.h:87-94 unknown_fields] *)
Definition unknown_fields (md : InternalMetadata) : list UnknownField :=
  match md with Some u => u | None => [] end.

(** An empty set is made when there is none.
    [src/include/google/protobuf/metadata_lite.h:97-103 mutable_unknown_fields] *)
Definition mutable_unknown_fields (md : InternalMetadata) : list UnknownField :=
  match md with Some u => u | None => [] end.

(** [src/include/google/protobuf/metadata_lite.h:106-116 Swap] *)
Definition md_Swap (md other : InternalMetadata) : InternalMetadata * InternalMetadata :=
  if have_unknown_fields md || have_unknown_fields other
  then (Some (mutable_unknown_fields other), Some (mutable_unknown_fields md))
  else (md, other).

(** [src/include/google/protobuf/metadata_lite.h:126-130 Clear] *)
Definition md_Clear (md : InternalMetadata) : InternalMetadata := if have_unknown_fields md then Some [] else md.

(** ** Streams *)

(** The input: how many bytes of the memory lie behind the limit, and how the parse
    has ended.  [src/include/google/protobuf/parse_context.h:273-273 last_tag_minus_1_] *)
Record ParseContext := mkParseContext {
  behind_limit : nat;
  last_tag_minus_1_ : Z }.

(** [src/include/google/protobuf/parse_context.h:189-189 EndedAtLimit] *)
Definition EndedAtLimit (ctx : ParseContext) : bool := last_tag_minus_1_ ctx =? 0.

(** [src/include/google/protobuf/parse_context.h:191-191 SetLastTag] *)
Definition SetLastTag (tag : Z) (ctx : ParseContext) : ParseContext := mkParseContext (behind_limit ctx) (u32 (tag - 1)).

Inductive done := More | AtLimit | BehindLimit.

(** Before the limit, on it, or behind it, where the pointer becomes null.
    [src/include/google/protobuf/parse_context.h:205-216 DoneWithCheck] *)
Definition Done (ctx : ParseContext) (p : ptr) : done :=
  if (behind_limit ctx <? length p)%nat then More
  else if (length p =? behind_limit ctx)%nat then AtLimit
  else BehindLimit.

(** The output, with offsets from its start.
    [src/include/google/protobuf/io/coded_stream.h:826-829 end_] *)
Record EpsCopyOutputStream := mkOut {
  written : bytes;
  end_ : Z;
  memory_end : Z }.

Definition pos (s : EpsCopyOutputStream) : Z := Z.of_nat (length (written s)).

(** [src/include/google/protobuf/io/coded_stream.h:654-654 kSlopBytes] *)
Definition kSlopBytes : Z := 16.

(** [*ptr++ = byte]. *)
Definition put (value : Z) (s : EpsCopyOutputStream) : res EpsCopyOutputStream :=
  if pos s <? memory_end s then Ret (mkOut (written s ++ [byte_of_Z value]) (end_ s) (memory_end s)) else Fault OutOfBounds.

(** [memcpy(ptr, data, size); ptr + size]. *)
Definition put_all (data : bytes) (s : EpsCopyOutputStream) : res EpsCopyOutputStream :=
  if pos s + Z.of_nat (length data) <=? memory_end s then Ret (mkOut (written s ++ data) (end_ s) (memory_end s)) else Fault OutOfBounds.

(** ** The library *)

(** What is declared in the headers and defined elsewhere.  [None] is a null
    pointer. *)
Class Protobuf := {
  ReadTagFallback : ptr -> Z -> res (option (Z * ptr));
  VarintParseSlow64 : ptr -> Z -> res (option (Z * ptr));
  InlineGreedyStringParser : ParseContext -> ptr -> res (option (bytes * ptr));
  UnknownFieldParse : Z -> list UnknownField -> ptr -> ParseContext -> res (option (list UnknownField * ptr));
  VerifyUTF8 : bytes -> bool;
  EnsureSpaceFallback : EpsCopyOutputStream -> res EpsCopyOutputStream;
  WriteStringMaybeAliasedOutline : Z -> bytes -> EpsCopyOutputStream -> res EpsCopyOutputStream;
  InternalSerializeUnknownFieldsToArray : list UnknownField -> EpsCopyOutputStream -> res EpsCopyOutputStream;
  ComputeUnknownFieldsSize : list UnknownField -> Z -> Z * Z;
  UnknownFieldSet_MergeFrom : list UnknownField -> list UnknownField -> list UnknownField }.

Section Wire.
Context `{Protobuf}.

(** [src/include/google/protobuf/metadata_lite.h:119-123 MergeFrom] *)
Definition md_MergeFrom (md other : InternalMetadata) : InternalMetadata :=
  if have_unknown_fields other then Some (UnknownFieldSet_MergeFrom (mutable_unknown_fields md) (unknown_fields other)) else md.

(** ** Reading *)

(** [src/include/google/protobuf/parse_context.h:476-490 VarintParse] *)
Definition VarintParse (p : ptr) : res (option (Z * ptr)) :=
  b0 ← at_ (p !! 0%nat);
  let res := Z_of_byte b0 in
  if Z.land res 0x80 =? 0 then Ret (Some (res, drop 1 p)) else
  b1 ← at_ (p !! 1%nat);
  let byte := Z_of_byte b1 in
  let res := u32 (res + u32 (Z.shiftl (u32 (byte - 1)) 7)) in
  if Z.land byte 0x80 =? 0 then Ret (Some (res, drop 2 p)) else VarintParseSlow64 p res.

(** [src/include/google/protobuf/parse_context.h:583-587 ReadVarint64] *)
Definition ReadVarint64 (p : ptr) : res (option (Z * ptr)) := VarintParse p.

(** [src/include/google/protobuf/parse_context.h:499-514 ReadTag] *)
Definition ReadTag (p : ptr) : res (option (Z * ptr)) :=
  b0 ← at_ (p !! 0%nat);
  let res := Z_of_byte b0 in
  if res <? 128 then Ret (Some (res, drop 1 p)) else
  b1 ← at_ (p !! 1%nat);
  let second := Z_of_byte b1 in
  let res := u32 (res + u32 (Z.shiftl (u32 (second - 1)) 7)) in
  if second <? 128 then Ret (Some (res, drop 2 p)) else ReadTagFallback p res.

(** ** Writing *)

(** [src/include/google/protobuf/io/coded_stream.h:688-693 EnsureSpace] *)
Definition EnsureSpace (s : EpsCopyOutputStream) : res EpsCopyOutputStream :=
  if end_ s <=? pos s then EnsureSpaceFallback s else Ret s.

(** The loop at the end of [UnsafeVarint]; 9 rounds are enough for 64 bits.
    [src/include/google/protobuf/io/coded_stream.h:913-919 do] *)
Fixpoint varint_loop (fuel : nat) (value : Z) (s : EpsCopyOutputStream) : res EpsCopyOutputStream :=
  match fuel with
  | O => Fault OutOfFuel
  | S fuel =>
      s ← put (u8 (Z.lor value 0x80)) s;
      let value := Z.shiftr value 7 in
      if 0x80 <=? value then varint_loop fuel value s else put (u8 value) s
  end.

(** [src/include/google/protobuf/io/coded_stream.h:900-921 UnsafeVarint] *)
Definition UnsafeVarint (value : Z) (s : EpsCopyOutputStream) : res EpsCopyOutputStream :=
  if value <? 0x80 then put (u8 value) s else
  s ← put (u8 (Z.lor value 0x80)) s;
  let value := Z.shiftr value 7 in
  if value <? 0x80 then put (u8 value) s else varint_loop 9 value s.

(** [src/include/google/protobuf/io/coded_stream.h:849-855 TagSize] *)
Definition EpsCopyOutputStream_TagSize (tag : Z) : Z :=
  if tag <? Z.shiftl 1 7 then 1
  else if tag <? Z.shiftl 1 14 then 2
  else if tag <? Z.shiftl 1 21 then 3
  else if tag <? Z.shiftl 1 28 then 4 else 5.

(** [src/include/google/protobuf/io/coded_stream.h:715-725 WriteStringMaybeAliased] *)
Definition WriteStringMaybeAliased (num : Z) (str : bytes) (s : EpsCopyOutputStream) : res EpsCopyOutputStream :=
  let size := Z.of_nat (length str) in
  if (128 <=? size) || (end_ s - pos s + 16 - EpsCopyOutputStream_TagSize (u32 (Z.shiftl num 3)) - 1 <? size)
  then WriteStringMaybeAliasedOutline num str s
  else
    s ← UnsafeVarint (Z.lor (u32 (Z.shiftl num 3)) 2) s;
    s ← put (u8 size) s;
    put_all str s.

(** [src/include/google/protobuf/io/coded_stream.h:726-728 WriteBytesMaybeAliased] *)
Definition WriteBytesMaybeAliased (num : Z) (str : bytes) (s : EpsCopyOutputStream) : res EpsCopyOutputStream :=
  WriteStringMaybeAliased num str s.
End Wire.

(** [src/include/google/protobuf/io/coded_stream.h:923-932 UnsafeWriteSize] *)
Fixpoint UnsafeWriteSize (fuel : nat) (value : Z) (s : EpsCopyOutputStream) : res EpsCopyOutputStream :=
  match fuel with
  | O => Fault OutOfFuel
  | S fuel =>
      if 0x80 <=? value then
        s ← put (u8 (Z.lor value 0x80)) s;
        UnsafeWriteSize fuel (Z.shiftr value 7) s
      else put (u8 value) s
  end.

(** [src/include/google/protobuf/io/coded_stream.h:1593-1596 WriteVarint64ToArray] *)
Definition WriteVarint64ToArray (value : Z) (s : EpsCopyOutputStream) : res EpsCopyOutputStream := UnsafeVarint value s.

(** [src/include/google/protobuf/io/coded_stream.h:1588-1591 WriteVarint32ToArray] *)
Definition WriteVarint32ToArray (value : Z) (s : EpsCopyOutputStream) : res EpsCopyOutputStream := UnsafeVarint value s.

(** A negative number becomes ten bytes.
    [src/include/google/protobuf/io/coded_stream.h:1602-1605 WriteVarint32SignExtendedToArray] *)
Definition WriteVarint32SignExtendedToArray (value : Z) (s : EpsCopyOutputStream) : res EpsCopyOutputStream :=
  WriteVarint64ToArray (u64 value) s.

(** [src/include/google/protobuf/wire_format_lite.h:1354-1358 WriteTagToArray] *)
Definition WriteTagToArray (field_number type : Z) (s : EpsCopyOutputStream) : res EpsCopyOutputStream :=
  WriteVarint32ToArray (MakeTag field_number type) s.

(** [src/include/google/protobuf/wire_format_lite.h:1512-1516 WriteInt32ToArray] *)
Definition WriteInt32ToArray (field_number value : Z) (s : EpsCopyOutputStream) : res EpsCopyOutputStream :=
  s ← WriteTagToArray field_number WIRETYPE_VARINT s;
  WriteVarint32SignExtendedToArray value s.

(** [src/include/google/protobuf/wire_format_lite.h:1517-1521 WriteInt64ToArray] *)
Definition WriteInt64ToArray (field_number value : Z) (s : EpsCopyOutputStream) : res EpsCopyOutputStream :=
  s ← WriteTagToArray field_number WIRETYPE_VARINT s;
  WriteVarint64ToArray (u64 value) s.

(** [src/include/google/protobuf/wire_format_lite.h:1527-1531 WriteUInt64ToArray] *)
Definition WriteUInt64ToArray (field_number value : Z) (s : EpsCopyOutputStream) : res EpsCopyOutputStream :=
  s ← WriteTagToArray field_number WIRETYPE_VARINT s;
  WriteVarint64ToArray value s.

(** [src/include/google/protobuf/wire_format_lite.h:1572-1576 WriteBoolToArray] *)
Definition WriteBoolToArray (field_number : Z) (value : bool) (s : EpsCopyOutputStream) : res EpsCopyOutputStream :=
  s ← WriteTagToArray field_number WIRETYPE_VARINT s;
  WriteVarint32ToArray (if value then 1 else 0) s.

(** [src/include/google/protobuf/wire_format_lite.h:1577-1581 WriteEnumToArray] *)
Definition WriteEnumToArray (field_number value : Z) (s : EpsCopyOutputStream) : res EpsCopyOutputStream :=
  s ← WriteTagToArray field_number WIRETYPE_VARINT s;
  WriteVarint32SignExtendedToArray value s.

(** ** Sizes *)

(** The position of the highest bit.
    [src/include/google/protobuf/stubs/port.h:294-310 Log2FloorNonZero64] *)
Definition Log2FloorNonZero64 (n : Z) : Z := Z.lxor 63 (63 - Z.log2 n).

(** [src/include/google/protobuf/stubs/port.h:282-292 Log2FloorNonZero] *)
Definition Log2FloorNonZero (n : Z) : Z := Z.lxor 31 (31 - Z.log2 n).

(** [src/include/google/protobuf/io/coded_stream.h:1656-1664 VarintSize32] *)
Definition VarintSize32 (value : Z) : Z :=
  let log2value := Log2FloorNonZero (Z.lor value 0x1) in
  u32 (u32 (log2value * 9 + 73) / 64).

(** [src/include/google/protobuf/io/coded_stream.h:1666-1674 VarintSize64] *)
Definition VarintSize64 (value : Z) : Z :=
  let log2value := Log2FloorNonZero64 (Z.lor value 0x1) in
  u32 (u32 (log2value * 9 + 73) / 64).

(** [src/include/google/protobuf/io/coded_stream.h:1676-1682 VarintSize32SignExtended] *)
Definition VarintSize32SignExtended (value : Z) : Z := if value <? 0 then 10 else VarintSize32 (u32 value).

(** [src/include/google/protobuf/wire_format_lite.h:1727-1729 Int32Size] *)
Definition Int32Size (value : Z) : Z := VarintSize32SignExtended value.

(** [src/include/google/protobuf/wire_format_lite.h:1730-1732 Int64Size] *)
Definition Int64Size (value : Z) : Z := VarintSize64 (u64 value).

(** [src/include/google/protobuf/wire_format_lite.h:1736-1738 UInt64Size] *)
Definition UInt64Size (value : Z) : Z := VarintSize64 value.

(** [src/include/google/protobuf/wire_format_lite.h:1745-1747 EnumSize] *)
Definition EnumSize (value : Z) : Z := VarintSize32SignExtended value.

(** [src/include/google/protobuf/wire_format_lite.h:1780-1787 LengthDelimitedSize] *)
Definition LengthDelimitedSize (length : Z) : Z := u64 (length + VarintSize32 (u32 length)).

(** [src/include/google/protobuf/wire_format_lite.h:1752-1754 BytesSize] *)
Definition BytesSize (value : bytes) : Z := LengthDelimitedSize (Z.of_nat (length value)).

(** [src/include/google/protobuf/wire_format_lite.h:1749-1751 StringSize] *)
Definition StringSize (value : bytes) : Z := LengthDelimitedSize (Z.of_nat (length value)).

(** [src/include/google/protobuf/message_lite.h:91-91 ToCachedSize] *)
Definition ToCachedSize (size : Z) : Z := i32 size.

(** ** The fast reader of long integers *)

(** Two bytes of a varint, shifted left by one, and how far the pointer moves.
    [src/include/google/protobuf/parse_context.h:526-538 DecodeTwoBytes] *)
Definition DecodeTwoBytes (p : ptr) : res (Z * ptr) :=
  b0 ← at_ (p !! 0%nat);
  b1 ← at_ (p !! 1%nat);
  let value := Z_of_byte b0 + 256 * Z_of_byte b1 in
  let x := u32 (i8 value) in
  let value := u32 (value + x) in
  Ret (Z.land value (u32 (x + x)), drop (if value <? x then 2 else 1) p).

(** [src/include/google/protobuf/parse_context.h:549-557 DecodeTwoBytes] *)
Fixpoint big_varint_loop (n : nat) (p : ptr) (i : Z) (res : Z) : Prelude.res (option (Z * ptr)) :=
  match n with
  | O => Ret None
  | S n =>
      '(tmp, pnew) ← DecodeTwoBytes (drop (Z.to_nat (2 * i)) p);
      let res := u64 (res + u64 (Z.shiftl (u64 (tmp - 2)) (14 * i - 1))) in
      if 0 <=? i16 tmp then Ret (Some (res, pnew)) else big_varint_loop n p (i + 1) res
  end.

(** [src/include/google/protobuf/parse_context.h:541-559 ParseBigVarint] *)
Definition ParseBigVarint (p : ptr) : res (option (Z * ptr)) :=
  '(tmp, pnew) ← DecodeTwoBytes p;
  let res := Z.shiftr tmp 1 in
  if 0 <=? i16 tmp then Ret (Some (res, pnew)) else big_varint_loop 4 p 1 res.
