(* ===== verification/ProtoVarint.v ===== *)
(** * db2: variable-length integers of the RPC messages

    The reference encoding [varint], seven bits to a byte, and its decoder; the
    library's writer, its readers and its computation of sizes are shown to
    agree with them.  [ParseBigVarint], which decodes two bytes at a time with a
    carry, is the reference decoder on every input. *)

From S2P Require Import Prelude ProtoWire.

(** ** The reference *)

Fixpoint varint_n (n : nat) (v : Z) : bytes :=
  match n with
  | O => []
  | S n => if v <? 128 then [byte_of_Z v] else byte_of_Z (v mod 128 + 128) :: varint_n n (v / 128)
  end.

(** Ten bytes hold 64 bits. *)
Definition varint (v : Z) : bytes := varint_n 10 v.

Fixpoint decode_n (n : nat) (p : ptr) : option (Z * ptr) :=
  match n, p with
  | S n, b :: p =>
      if Z_of_byte b <? 128 then Some (Z_of_byte b, p)
      else '(v, q) ← decode_n n p; Some (Z_of_byte b - 128 + 128 * v, q)
  | _, _ => None
  end.

Lemma varint_n_S (n : nat) (v : Z) :
  varint_n (S n) v = if v <? 128 then [byte_of_Z v] else byte_of_Z (v mod 128 + 128) :: varint_n n (v / 128).
Proof. done. Qed.

Lemma varint_n_fuel (n m : nat) (v : Z) : (0 < n)%nat -> (n <= m)%nat -> 0 <= v < 128 ^ Z.of_nat n -> varint_n n v = varint_n m v.
Proof.
  revert m v. induction n as [|n IH]; intros m v Hn Hm Hv; [lia|]. destruct m as [|m]; [lia|]. cbn [varint_n].
  destruct (v <? 128) eqn:E; [done|]. f_equal. bool_props. destruct n as [|n].
  - rewrite Z.pow_1_r in Hv. lia.
  - apply IH; [lia|lia|]. rewrite (Nat2Z.inj_succ (S n)), Z.pow_succ_r in Hv by lia. split; [apply Z.div_pos; lia|].
    apply Z.div_lt_upper_bound; lia.
Qed.

(** The equation of the encoding, without fuel. *)
Lemma varint_eq (v : Z) :
  is_u64 v -> varint v = if v <? 128 then [byte_of_Z v] else byte_of_Z (v mod 128 + 128) :: varint (v / 128).
Proof.
  intros [Hv0 Hv]. unfold varint at 1. rewrite varint_n_S. destruct (v <? 128); [done|]. f_equal. apply varint_n_fuel; [lia|lia|].
  split; [apply Z.div_pos; lia|]. apply Z.div_lt_upper_bound; [lia|]. apply (Z.lt_le_trans _ (2 ^ 64)); [lia|by vm_compute].
Qed.

(** A number is below 128, or shrinks by seven bits. *)
Lemma varint_ind (P : Z -> Prop) :
  (forall v, 0 <= v < 128 -> P v) -> (forall v, 128 <= v < 2 ^ 64 -> is_u64 (v / 128) -> P (v / 128) -> P v) ->
  forall v, is_u64 v -> P v.
Proof.
  intros Hs Hb v Hv. assert (exists n, v < 128 ^ Z.of_nat n) as [n Hn] by (exists 10%nat; destruct Hv; apply (Z.lt_le_trans _ (2 ^ 64)); [lia|by vm_compute]).
  revert v Hv Hn. induction n as [|n IH]; intros v [Hv0 Hv] Hn.
  - apply Hs. rewrite Z.pow_0_r in Hn. lia.
  - destruct (decide (v < 128)) as [Hl|Hl]; [by apply Hs|].
    assert (is_u64 (v / 128)) as Hq by (split; [apply Z.div_pos; lia|apply Z.div_lt_upper_bound; lia]).
    apply Hb; [lia|done|]. apply IH; [done|]. rewrite Nat2Z.inj_succ, Z.pow_succ_r in Hn by lia. apply Z.div_lt_upper_bound; lia.
Qed.

Lemma varint_small (v : Z) : 0 <= v < 128 -> varint v = [byte_of_Z v].
Proof. intros Hv. unfold varint. rewrite varint_n_S. by rewrite (proj2 (Z.ltb_lt _ _)) by lia. Qed.

Lemma varint_big (v : Z) : 128 <= v < 2 ^ 64 -> varint v = byte_of_Z (v mod 128 + 128) :: varint (v / 128).
Proof. intros Hv. rewrite varint_eq by (split; lia). by rewrite (proj2 (Z.ltb_ge _ _)) by lia. Qed.

(** The byte that says that more follow. *)
Lemma cont_byte (v : Z) : Z_of_byte (byte_of_Z (v mod 128 + 128)) = v mod 128 + 128.
Proof. rewrite Z_of_byte_of_Z. apply Z.mod_small. pose proof (Z.mod_pos_bound v 128). lia. Qed.

Lemma last_byte (v : Z) : 0 <= v < 128 -> Z_of_byte (byte_of_Z v) = v.
Proof. intros. rewrite Z_of_byte_of_Z. apply Z.mod_small. lia. Qed.

Lemma varint_nonempty (v : Z) : varint v <> [].
Proof. unfold varint. rewrite varint_n_S. by case_match. Qed.

Lemma length_varint_n (n : nat) (v : Z) : (length (varint_n n v) <= n)%nat.
Proof. revert v. induction n as [|n IH]; intros v; cbn [varint_n]; [done|]. case_match; cbn [length]; [lia|]. specialize (IH (v / 128)). lia. Qed.

Lemma length_varint_le (v : Z) (k : nat) : (0 < k)%nat -> 0 <= v < 128 ^ Z.of_nat k -> (length (varint v) <= k)%nat.
Proof.
  intros Hk Hv. destruct (decide (k <= 10)%nat) as [Hl|Hl].
  - unfold varint. rewrite <- (varint_n_fuel k 10) by done. apply length_varint_n.
  - etrans; [apply length_varint_n|]. lia.
Qed.

(** Decoding an encoded number leaves what follows it. *)
Lemma decode_varint (v : Z) (n : nat) (rest : ptr) :
  is_u64 v -> (length (varint v) <= n)%nat -> decode_n n (varint v ++ rest) = Some (v, rest).
Proof.
  intros Hv. revert n. revert v Hv. apply (varint_ind (fun v => forall n, _ -> _)).
  - intros v Hv n Hn. rewrite varint_small in * by done. destruct n as [|n]; [cbn in Hn; lia|]. cbn [app decode_n].
    rewrite last_byte by done. by rewrite (proj2 (Z.ltb_lt _ _)) by lia.
  - intros v Hv Hq IH n Hn. rewrite varint_big in * by done. destruct n as [|n]; [cbn in Hn; lia|]. cbn [app decode_n].
    rewrite cont_byte. pose proof (Z.mod_pos_bound v 128 ltac:(lia)). rewrite (proj2 (Z.ltb_ge _ _)) by lia.
    rewrite IH by (cbn [length] in Hn; lia). cbn [mbind option_bind]. pose proof (Z.div_mod v 128). do 2 f_equal. lia.
Qed.

(** ** Writing *)

Lemma put_put_all (v : Z) (bs : bytes) (s : EpsCopyOutputStream) :
  put v s ≫= put_all bs = put_all (byte_of_Z v :: bs) s.
Proof.
  unfold put, put_all, pos. cbn [length]. destruct (Z.ltb_spec (Z.of_nat (length (written s))) (memory_end s)); cbn [mbind res_bind written memory_end].
  - rewrite length_app. cbn [length]. replace (Z.of_nat (length (written s) + 1) + Z.of_nat (length bs)) with (Z.of_nat (length (written s)) + Z.of_nat (S (length bs))) by lia.
    case_match; [|done]. by rewrite <- app_assoc.
  - by rewrite (proj2 (Z.leb_gt _ _)) by lia.
Qed.

Lemma put_one (v : Z) (s : EpsCopyOutputStream) : put v s = put_all [byte_of_Z v] s.
Proof. rewrite <- put_put_all. unfold put. case_match eqn:E; [|done]. cbn. unfold put_all, pos in *. cbn [written length memory_end]. bool_props.
  rewrite length_app. cbn [length]. rewrite (proj2 (Z.leb_le _ _)) by lia. by rewrite app_nil_r.
Qed.

Lemma put_all_app (a b : bytes) (s : EpsCopyOutputStream) : put_all a s ≫= put_all b = put_all (a ++ b) s.
Proof.
  unfold put_all, pos. rewrite length_app. destruct (Z.leb_spec (Z.of_nat (length (written s)) + Z.of_nat (length a)) (memory_end s)); cbn [mbind res_bind written memory_end].
  - rewrite length_app. replace (Z.of_nat (length (written s) + length a) + Z.of_nat (length b)) with (Z.of_nat (length (written s)) + Z.of_nat (length a + length b)) by lia.
    case_match; [|done]. by rewrite <- app_assoc.
  - by rewrite (proj2 (Z.leb_gt _ _)) by lia.
Qed.

Lemma byte_of_u8 (v : Z) : byte_of_Z (u8 v) = byte_of_Z v.
Proof. unfold byte_of_Z, u8. by rewrite Z.mod_mod by lia. Qed.

(** [value | 0x80] as a byte. *)
Lemma lor_80 (v : Z) : byte_of_Z (Z.lor v 0x80) = byte_of_Z (v mod 128 + 128).
Proof.
  unfold byte_of_Z. do 3 f_equal. change 256 with (2 ^ 8). rewrite <- Z.land_ones, Z.land_lor_distr_l, Z.land_ones by lia.
  rewrite (Z.mod_small (_ + _)) by (pose proof (Z.mod_pos_bound v 128); lia).
  replace (v mod 128) with ((v mod 2 ^ 8) mod 128) by (apply (Z.mod_mod_divide v (2 ^ 8) 128); by exists 2).
  pose proof (Z.mod_pos_bound v (2 ^ 8) ltac:(lia)) as Hr. generalize dependent (v mod 2 ^ 8). clear v. intros r Hr.
  assert (forallb (fun k => Z.lor k (Z.land 128 (Z.ones 8)) =? k mod 128 + 128) (seqZ 0 256)) as Hall by (by vm_compute).
  apply Is_true_true, forallb_forall with (x := r) in Hall; [by apply Z.eqb_eq|]. apply list_elem_of_In, elem_of_seqZ. lia.
Qed.

Lemma shiftr_7 (v : Z) : Z.shiftr v 7 = v / 128.
Proof. by rewrite Z.shiftr_div_pow2. Qed.

Lemma varint_loop_spec (fuel : nat) (v : Z) (s : EpsCopyOutputStream) :
  128 <= v < 2 ^ 64 -> v < 128 ^ Z.of_nat (S fuel) -> varint_loop fuel v s = put_all (varint v) s.
Proof.
  revert v s. induction fuel as [|fuel IH]; intros v s Hv Hf; [rewrite Z.pow_1_r in Hf; lia|]. cbn [varint_loop].
  rewrite varint_big, <- put_put_all by done. rewrite (put_one (u8 _)), byte_of_u8, lor_80, <- put_one, shiftr_7.
  rewrite Nat2Z.inj_succ, Z.pow_succ_r in Hf by lia. assert (v / 128 < 128 ^ Z.of_nat (S fuel)) by (apply Z.div_lt_upper_bound; lia).
  assert (0 <= v / 128 < 2 ^ 64) by (split; [apply Z.div_pos; lia|apply Z.div_lt_upper_bound; lia]).
  destruct (put _ s) as [s'| |]; cbn [mbind res_bind]; [|done|done]. destruct (Z.leb_spec 128 (v / 128)).
  - apply IH; [lia|done].
  - by rewrite put_one, byte_of_u8, varint_small by lia.
Qed.

(** The unrolled writer writes the reference encoding. *)
Lemma UnsafeVarint_spec (v : Z) (s : EpsCopyOutputStream) : is_u64 v -> UnsafeVarint v s = put_all (varint v) s.
Proof.
  intros [Hv0 Hv]. unfold UnsafeVarint. destruct (Z.ltb_spec v 128).
  - by rewrite put_one, byte_of_u8, varint_small by lia.
  - rewrite varint_big, <- put_put_all by lia. rewrite (put_one (u8 _)), byte_of_u8, lor_80, <- put_one, shiftr_7.
    assert (0 <= v / 128 < 2 ^ 64) by (split; [apply Z.div_pos; lia|apply Z.div_lt_upper_bound; lia]).
    destruct (put _ s) as [s'| |]; cbn [mbind res_bind]; [|done|done]. destruct (Z.ltb_spec (v / 128) 128).
    + by rewrite put_one, byte_of_u8, varint_small by lia.
    + apply varint_loop_spec; [lia|]. apply (Z.lt_le_trans _ (2 ^ 64)); [lia|by vm_compute].
Qed.

Lemma UnsafeWriteSize_spec (fuel : nat) (v : Z) (s : EpsCopyOutputStream) :
  is_u64 v -> v < 128 ^ Z.of_nat fuel -> (0 < fuel)%nat -> UnsafeWriteSize fuel v s = put_all (varint v) s.
Proof.
  revert v s. induction fuel as [|fuel IH]; intros v s Hv Hf Hp; [lia|]. cbn [UnsafeWriteSize].
  destruct Hv as [Hv0 Hv]. destruct (Z.leb_spec 128 v).
  - rewrite varint_big, <- put_put_all by lia. rewrite (put_one (u8 _)), byte_of_u8, lor_80, <- put_one, shiftr_7.
    destruct (put _ s) as [s'| |]; cbn [mbind res_bind]; [|done|done].
    rewrite Nat2Z.inj_succ, Z.pow_succ_r in Hf by lia. apply IH.
    + split; [apply Z.div_pos; lia|apply Z.div_lt_upper_bound; lia].
    + apply Z.div_lt_upper_bound; lia.
    + destruct fuel; [rewrite Z.pow_0_r in Hf; lia|lia].
  - by rewrite put_one, byte_of_u8, varint_small by lia.
Qed.

(** ** Sizes *)

Lemma length_varint (v : Z) : is_u64 v -> Z.of_nat (length (varint v)) = Z.log2 v / 7 + 1.
Proof.
  revert v. apply varint_ind.
  - intros v Hv. rewrite varint_small by done. cbn [length]. rewrite Z.div_small; [done|]. split; [apply Z.log2_nonneg|].
    destruct (decide (v = 0)) as [->|Hn]; [done|]. apply Z.log2_lt_pow2; [lia|]. change (2 ^ 7) with 128. lia.
  - intros v Hv Hq IH. rewrite varint_big by done. cbn [length]. rewrite Nat2Z.inj_succ, IH.
    assert (7 <= Z.log2 v) by (apply Z.log2_le_pow2; [lia|]; change (2 ^ 7) with 128; lia).
    rewrite <- shiftr_7, Z.log2_shiftr by lia. rewrite Z.max_r by lia.
    replace (Z.log2 v) with (Z.log2 v - 7 + 1 * 7) at 2 by lia. rewrite Z.div_add by lia. lia.
Qed.

(** [(log2value * 9 + 73) / 64] is [log2value / 7 + 1] for every position of a bit. *)
Lemma size_formula (l : Z) :
  0 <= l < 64 -> u32 (u32 (l * 9 + 73) / 64) = l / 7 + 1 /\ Z.lxor 63 (63 - l) = l /\ (l < 32 -> Z.lxor 31 (31 - l) = l).
Proof.
  intros Hl. assert (forallb (fun l => (u32 (u32 (l * 9 + 73) / 64) =? l / 7 + 1) && (Z.lxor 63 (63 - l) =? l)
    && ((32 <=? l) || (Z.lxor 31 (31 - l) =? l))) (seqZ 0 64)) as Hall by (by vm_compute).
  apply Is_true_true, forallb_forall with (x := l) in Hall; [|apply list_elem_of_In, elem_of_seqZ; lia].
  bool_props. split_and!; [done|done|]. intros Hlt. destruct H0 as [H0|H0]; bool_props; lia.
Qed.

Lemma log2_lor_1 (v : Z) : 0 <= v -> Z.log2 (Z.lor v 1) = Z.log2 v.
Proof. intros Hv. rewrite Z.log2_lor by lia. change (Z.log2 1) with 0. pose proof (Z.log2_nonneg v). lia. Qed.

Lemma VarintSize64_spec (v : Z) : is_u64 v -> VarintSize64 v = Z.of_nat (length (varint v)).
Proof.
  intros Hv. rewrite length_varint by done. destruct Hv as [Hv0 Hv]. unfold VarintSize64, Log2FloorNonZero64. rewrite log2_lor_1 by done.
  assert (0 <= Z.log2 v < 64) as Hl.
  { split; [apply Z.log2_nonneg|]. destruct (decide (v = 0)) as [->|]; [done|]. apply Z.log2_lt_pow2; lia. }
  destruct (size_formula _ Hl) as (H1 & H2 & _). by rewrite H2.
Qed.

Lemma VarintSize32_spec (v : Z) : is_u32 v -> VarintSize32 v = Z.of_nat (length (varint v)).
Proof.
  intros [Hv0 Hv]. rewrite length_varint by (split; lia). unfold VarintSize32, Log2FloorNonZero. rewrite log2_lor_1 by done.
  assert (0 <= Z.log2 v < 32) as Hl.
  { split; [apply Z.log2_nonneg|]. destruct (decide (v = 0)) as [->|]; [done|]. apply Z.log2_lt_pow2; lia. }
  destruct (size_formula (Z.log2 v)) as (H1 & _ & H2); [lia|]. by rewrite H2 by lia.
Qed.

(** A negative number is sign-extended to 64 bits and takes all ten bytes. *)
Lemma VarintSize32SignExtended_spec (v : Z) :
  - 2 ^ 31 <= v < 2 ^ 31 -> VarintSize32SignExtended v = Z.of_nat (length (varint (u64 v))).
Proof.
  intros Hv. unfold VarintSize32SignExtended. destruct (Z.ltb_spec v 0).
  - rewrite length_varint by apply u64_range. assert (u64 v = v + 2 ^ 64) as ->.
    { unfold u64. rewrite <- (Z_mod_plus_full v 1 (2 ^ 64)). apply Z.mod_small. lia. }
    assert (Z.log2 (v + 2 ^ 64) = 63) as ->; [|done]. apply Z.log2_unique; lia.
  - rewrite u64_id, u32_id by (split; lia). apply VarintSize32_spec. split; lia.
Qed.

(** ** Reading two bytes at a time *)

(** The addition moves the continuation bit of the low byte into the carry; all
    pairs of bytes are tried. *)
Lemma two_bytes_all :
  forallb (fun a => forallb (fun b =>
    let value := a + 256 * b in
    let x := u32 (i8 value) in
    let value := u32 (value + x) in
    (Z.land value (u32 (x + x)) =? (if a <? 128 then 2 * a else 2 * (a - 128) + 256 * b)) && Bool.eqb (value <? x) (128 <=? a))
    (seqZ 0 256)) (seqZ 0 256) = true.
Proof. by vm_compute. Qed.

Lemma DecodeTwoBytes_spec (b0 b1 : Byte.byte) (p : ptr) :
  DecodeTwoBytes (b0 :: b1 :: p)
  = Ret (if Z_of_byte b0 <? 128 then (2 * Z_of_byte b0, b1 :: p) else (2 * (Z_of_byte b0 - 128) + 256 * Z_of_byte b1, p)).
Proof.
  unfold DecodeTwoBytes. cbn [lookup list_lookup at_ mbind res_bind]. pose proof two_bytes_all as Hall.
  apply forallb_forall with (x := Z_of_byte b0) in Hall; [|apply list_elem_of_In, elem_of_seqZ; pose proof (Z_of_byte_range b0); lia].
  apply forallb_forall with (x := Z_of_byte b1) in Hall; [|apply list_elem_of_In, elem_of_seqZ; pose proof (Z_of_byte_range b1); lia].
  apply andb_true_iff in Hall as [H1 H2]. apply Z.eqb_eq in H1. apply Bool.eqb_prop in H2. rewrite H1, H2.
  destruct (Z.ltb_spec (Z_of_byte b0) 128) as [Hl|Hl].
  - by rewrite (proj2 (Z.leb_gt _ _)) by lia.
  - by rewrite (proj2 (Z.leb_le _ _)) by lia.
Qed.

Lemma i16_sign (z : Z) : 0 <= z < 2 ^ 16 -> (0 <=? i16 z) = (z <? 2 ^ 15).
Proof.
  intros Hz. unfold i16. destruct (Z.ltb_spec z (2 ^ 15)).
  - rewrite Z.mod_small by lia. apply Z.leb_le. lia.
  - rewrite <- (Z_mod_plus_full _ (-1)), Z.mod_small by lia. apply Z.leb_gt. lia.
Qed.

Lemma drop_pair (n : nat) (p q : ptr) (b0 b1 : Byte.byte) : drop n p = b0 :: b1 :: q -> drop (n + 2) p = q.
Proof. intros E. by rewrite <- drop_drop, E. Qed.

(** [acc] is what the bytes before have given, without the last continuation
    bit. *)
Lemma big_varint_loop_spec (n : nat) (p : ptr) (i acc : Z) :
  1 <= i -> (2 * n <= length (drop (Z.to_nat (2 * i)) p))%nat ->
  big_varint_loop n p i (u64 (acc + 2 ^ (14 * i)))
  = Ret ((fun '(v, q) => (u64 (acc + 2 ^ (14 * i) * v), q)) <$> decode_n (2 * n) (drop (Z.to_nat (2 * i)) p)).
Proof.
  revert i acc. induction n as [|n IH]; intros i acc Hi Hlen; [done|]. cbn [big_varint_loop].
  destruct (drop (Z.to_nat (2 * i)) p) as [|b0 [|b1 q]] eqn:Ed; [cbn in Hlen; lia..|]. rewrite DecodeTwoBytes_spec. cbn [mbind res_bind].
  pose proof (Z_of_byte_range b0) as Hr0. pose proof (Z_of_byte_range b1) as Hr1. replace (2 * S n)%nat with (S (S (2 * n))) by lia. cbn [decode_n].
  assert (forall t, u64 (u64 (acc + 2 ^ (14 * i)) + u64 (Z.shiftl (u64 (2 * t - 2)) (14 * i - 1))) = u64 (acc + 2 ^ (14 * i) * t)) as Hstep.
  { intros t. rewrite Z.shiftl_mul_pow2 by lia. unfold u64. rewrite Zmult_mod_idemp_l, <- Zplus_mod. f_equal.
    replace (14 * i) with (Z.succ (14 * i - 1)) at 1 3 by lia. rewrite Z.pow_succ_r by lia. ring. }
  destruct (Z.ltb_spec (Z_of_byte b0) 128) as [Hb0|Hb0]; cbn [mbind res_bind].
  - rewrite i16_sign by lia. rewrite (proj2 (Z.ltb_lt _ _)) by lia. rewrite Hstep. done.
  - replace (2 * (Z_of_byte b0 - 128) + 256 * Z_of_byte b1) with (2 * (Z_of_byte b0 - 128 + 128 * Z_of_byte b1)) by lia.
    rewrite i16_sign by lia. rewrite Hstep. destruct (Z.ltb_spec (Z_of_byte b1) 128) as [Hb1|Hb1].
    + rewrite (proj2 (Z.ltb_lt _ _)) by lia. done.
    + rewrite (proj2 (Z.ltb_ge _ _)) by lia.
      set (acc' := acc + 2 ^ (14 * i) * (Z_of_byte b0 - 128 + 128 * (Z_of_byte b1 - 128))).
      assert (Z.to_nat (2 * (i + 1)) = Z.to_nat (2 * i) + 2)%nat as En by lia.
      assert (2 ^ (14 * (i + 1)) = 2 ^ (14 * i) * 2 ^ 14) as Epow by (rewrite <- Z.pow_add_r by lia; f_equal; lia).
      replace (acc + 2 ^ (14 * i) * (Z_of_byte b0 - 128 + 128 * Z_of_byte b1)) with (acc' + 2 ^ (14 * (i + 1)))
        by (subst acc'; rewrite Epow; lia).
      rewrite IH; [|lia|rewrite En, (drop_pair _ _ _ _ _ Ed); cbn [length] in Hlen; lia].
      rewrite En, (drop_pair _ _ _ _ _ Ed). f_equal. destruct (decode_n (2 * n) q) as [[v r]|]; [|done]. cbn [mbind option_bind fmap option_fmap option_map].
      do 3 f_equal. subst acc'. rewrite Epow. lia.
Qed.

(** The fast reader is the reference decoder, on every input with ten bytes to
    read, well formed or not; what does not fit into 64 bits is lost. *)
Lemma ParseBigVarint_spec (p : ptr) :
  (10 <= length p)%nat -> ParseBigVarint p = Ret ((fun '(v, q) => (u64 v, q)) <$> decode_n 10 p).
Proof.
  intros Hlen. destruct p as [|b0 [|b1 q]]; [cbn in Hlen; lia..|]. unfold ParseBigVarint. rewrite DecodeTwoBytes_spec. cbn [mbind res_bind].
  pose proof (Z_of_byte_range b0) as Hr0. pose proof (Z_of_byte_range b1) as Hr1. change 10%nat with (S (S (2 * 4))). cbn [decode_n].
  destruct (Z.ltb_spec (Z_of_byte b0) 128) as [Hb0|Hb0]; cbn [mbind res_bind].
  - rewrite i16_sign by lia. rewrite (proj2 (Z.ltb_lt _ _)) by lia. rewrite Z.shiftr_div_pow2, Z.mul_comm by lia.
    change (2 ^ 1) with 2. rewrite Z.div_mul by lia. cbn. by rewrite u64_id by (split; lia).
  - replace (2 * (Z_of_byte b0 - 128) + 256 * Z_of_byte b1) with ((Z_of_byte b0 - 128 + 128 * Z_of_byte b1) * 2) by lia.
    rewrite Z.shiftr_div_pow2 by lia. change (2 ^ 1) with 2. rewrite Z.div_mul by lia. rewrite i16_sign by lia.
    destruct (Z.ltb_spec (Z_of_byte b1) 128) as [Hb1|Hb1].
    + rewrite (proj2 (Z.ltb_lt _ _)) by lia. cbn. by rewrite u64_id by (split; lia).
    + rewrite (proj2 (Z.ltb_ge _ _)) by lia.
      pose proof (big_varint_loop_spec 4 (b0 :: b1 :: q) 1 (Z_of_byte b0 - 128 + 128 * (Z_of_byte b1 - 128)) ltac:(lia)) as Hloop.
      change (drop (Z.to_nat (2 * 1)) (b0 :: b1 :: q)) with q in Hloop. specialize (Hloop ltac:(cbn [length] in Hlen; lia)).
      change (2 ^ (14 * 1)) with 16384 in Hloop. rewrite u64_id in Hloop by (split; lia).
      replace (Z_of_byte b0 - 128 + 128 * Z_of_byte b1) with (Z_of_byte b0 - 128 + 128 * (Z_of_byte b1 - 128) + 16384) by lia.
      rewrite Hloop. f_equal. destruct (decode_n (2 * 4) q) as [[v r]|]; [|done]. cbn [mbind option_bind fmap option_fmap option_map].
      do 3 f_equal. lia.
Qed.

(** C40: The routines of the library for variable-length integers, loops unrolled and two
    bytes at a time, are the reference: the writer writes the bytes of the encoding,
    the size is computed without writing them, and the reader decodes any ten bytes as
    the reference does, so that it reads back what was written. *)
Theorem varint_fast_paths (v : Z) (s : EpsCopyOutputStream) (p rest : ptr) :
  is_u64 v -> (10 <= length p)%nat -> (10 <= length rest)%nat ->
  UnsafeVarint v s = put_all (varint v) s
  /\ VarintSize64 v = Z.of_nat (length (varint v))
  /\ ParseBigVarint p = Ret ((fun '(v, q) => (u64 v, q)) <$> decode_n 10 p)
  /\ ParseBigVarint (varint v ++ rest) = Ret (Some (v, rest)).
Proof.
  intros Hv Hp Hr. split_and!; [by apply UnsafeVarint_spec|by apply VarintSize64_spec|by apply ParseBigVarint_spec|].
  rewrite ParseBigVarint_spec by (rewrite length_app; lia). rewrite decode_varint by (done || apply length_varint_n).
  cbn. by rewrite u64_id.
Qed.

(** The largest value takes ten bytes; eleven bytes with the high bit are no value. *)
Lemma varint_fast_paths_witness :
  VarintSize64 (2 ^ 64 - 1) = 10 /\ ParseBigVarint (replicate 11 Byte.xff) = Ret None
  /\ ParseBigVarint (varint (2 ^ 64 - 1) ++ replicate 10 Byte.x00) = Ret (Some (2 ^ 64 - 1, replicate 10 Byte.x00)).
Proof.
  destruct (varint_fast_paths (2 ^ 64 - 1) (mkOut [] 10 10) (replicate 11 Byte.xff) (replicate 10 Byte.x00)) as (_ & Es & Ep & Er);
    [by vm_compute|by cbn; lia|by cbn; lia|].
  split_and!; [rewrite Es; by vm_compute|rewrite Ep; by vm_compute|exact Er].
Defined.
