(* ===== verification/ProtoMsg.v ===== *)
(** * db2: messages on the wire

    What the headers of the protocol buffer library promise ([ProtobufLaws]), what
    a generated message class consists of ([Message]), and what its functions have
    in common ([MessageSpec]): a table of its fields, each with its number, its
    value on the wire and its setter.  The theorems about all messages are proved
    against [MessageSpec]; the message classes of the two services are its
    instances. *)

From S2P Require Import Prelude ProtoWire ProtoVarint.

(** ** Fields as bytes *)

Definition field_number (f : UnknownField) : Z :=
  match f with
  | TYPE_VARINT n _ | TYPE_FIXED32 n _ | TYPE_FIXED64 n _ | TYPE_LENGTH_DELIMITED n _ | TYPE_GROUP n _ => n
  end.

Definition wire_type (f : UnknownField) : Z :=
  match f with
  | TYPE_VARINT _ _ => WIRETYPE_VARINT
  | TYPE_FIXED32 _ _ => WIRETYPE_FIXED32
  | TYPE_FIXED64 _ _ => WIRETYPE_FIXED64
  | TYPE_LENGTH_DELIMITED _ _ => WIRETYPE_LENGTH_DELIMITED
  | TYPE_GROUP _ _ => WIRETYPE_START_GROUP
  end.

Definition field_tag (f : UnknownField) : Z := 8 * field_number f + wire_type f.

(** The longest string that can be read: its size and the slop bytes fit into an
    [int]. *)
Definition max_string : Z := 2 ^ 31 - 1 - kSlopBytes.

(** A field that can be on the wire.  Groups, which no message here has, are left
    out. *)
Definition valid_field (f : UnknownField) : Prop :=
  1 <= field_number f < 2 ^ 29
  /\ match f with
     | TYPE_VARINT _ v | TYPE_FIXED64 _ v => is_u64 v
     | TYPE_FIXED32 _ v => is_u32 v
     | TYPE_LENGTH_DELIMITED _ s => Z.of_nat (length s) <= max_string
     | TYPE_GROUP _ _ => False
     end.

(** What follows the tag. *)
Definition payload (f : UnknownField) : bytes :=
  match f with
  | TYPE_VARINT _ v => varint v
  | TYPE_FIXED32 _ v => le_encode 4 v
  | TYPE_FIXED64 _ v => le_encode 8 v
  | TYPE_LENGTH_DELIMITED _ s => varint (Z.of_nat (length s)) ++ s
  | TYPE_GROUP _ _ => []
  end.

Definition wire (f : UnknownField) : bytes := varint (field_tag f) ++ payload f.

Definition wire_all (fs : list UnknownField) : bytes := fs ≫= wire.

(** ** Output *)

(** A stream that can be given more memory has slop bytes behind [end_]; an array
    has room for exactly the [n] bytes that are still to come. *)
Definition sink (s : EpsCopyOutputStream) (n : Z) : Prop :=
  (memory_end s = end_ s + kSlopBytes /\ pos s <= memory_end s) \/ (memory_end s = end_ s /\ pos s + n <= end_ s).

(** [op] writes [bs] within the bounds, whatever else is to come. *)
Definition writes (op : EpsCopyOutputStream -> res EpsCopyOutputStream) (bs : bytes) : Prop :=
  forall s n, 0 <= n -> sink s (Z.of_nat (length bs) + n) ->
  exists s', op s = Ret s' /\ written s' = written s ++ bs /\ sink s' n.

(** ** What the library promises *)

(** A reader that looks at [need] bytes at most before it has checked the limit
    returns the rest of the input or fails. *)
Definition reads {A} (need : nat) (f : ptr -> res (option (A * ptr))) : Prop :=
  forall p, (need <= length p)%nat -> f p = Ret None \/ exists a q p', f p = Ret (Some (a, p')) /\ p = q ++ p'.

Class ProtobufLaws `{Protobuf} : Prop := {
  ReadTagFallback_ok (tag : Z) (rest : ptr) :
    2 ^ 14 <= tag < 2 ^ 32 -> (16 <= length rest)%nat ->
    ReadTagFallback (varint tag ++ rest) (tag mod 2 ^ 14 + 2 ^ 14) = Ret (Some (tag, rest));
  ReadTagFallback_safe (p : ptr) (r : Z) :
    (5 <= length p)%nat -> ReadTagFallback p r = Ret None
    \/ exists tag q p', ReadTagFallback p r = Ret (Some (tag, p')) /\ p = q ++ p' /\ (0 < length q <= 5)%nat;
  VarintParseSlow64_ok (v : Z) (rest : ptr) :
    2 ^ 14 <= v < 2 ^ 64 -> (16 <= length rest)%nat ->
    VarintParseSlow64 (varint v ++ rest) (v mod 2 ^ 14 + 2 ^ 14) = Ret (Some (v, rest));
  VarintParseSlow64_safe (r : Z) : reads 10 (fun p => VarintParseSlow64 p r);
  InlineGreedyStringParser_ok (ctx : ParseContext) (s : bytes) (rest : ptr) :
    Z.of_nat (length s) <= max_string -> (16 <= behind_limit ctx <= length rest)%nat ->
    InlineGreedyStringParser ctx (varint (Z.of_nat (length s)) ++ s ++ rest) = Ret (Some (s, rest));
  InlineGreedyStringParser_safe (ctx : ParseContext) : reads 10 (InlineGreedyStringParser ctx);
  UnknownFieldParse_ok (f : UnknownField) (u : list UnknownField) (rest : ptr) (ctx : ParseContext) :
    valid_field f -> (16 <= behind_limit ctx <= length rest)%nat ->
    UnknownFieldParse (field_tag f) u (payload f ++ rest) ctx = Ret (Some (u ++ [f], rest));
  UnknownFieldParse_safe (tag : Z) (u : list UnknownField) (ctx : ParseContext) : reads 10 (fun p => UnknownFieldParse tag u p ctx);
  EnsureSpaceFallback_ok (s : EpsCopyOutputStream) :
    memory_end s = end_ s + kSlopBytes -> pos s <= memory_end s ->
    exists s', EnsureSpaceFallback s = Ret s' /\ written s' = written s /\ memory_end s' = end_ s' + kSlopBytes /\ pos s' < end_ s';
  WriteStringMaybeAliasedOutline_ok (num : Z) (str : bytes) :
    valid_field (TYPE_LENGTH_DELIMITED num str) ->
    writes (WriteStringMaybeAliasedOutline num str) (wire (TYPE_LENGTH_DELIMITED num str));
  InternalSerializeUnknownFieldsToArray_ok (u : list UnknownField) :
    Forall valid_field u -> writes (InternalSerializeUnknownFieldsToArray u) (wire_all u);
  ComputeUnknownFieldsSize_ok (u : list UnknownField) (total_size : Z) :
    Forall valid_field u ->
    ComputeUnknownFieldsSize u total_size
    = (u64 (total_size + Z.of_nat (length (wire_all u))), ToCachedSize (u64 (total_size + Z.of_nat (length (wire_all u)))));
  UnknownFieldSet_MergeFrom_ok (u v : list UnknownField) : UnknownFieldSet_MergeFrom u v = u ++ v }.

(** ** The parse loop *)

Section Loop.
Context `{Protobuf} {T : Type} (md : T -> InternalMetadata) (set_md : InternalMetadata -> T -> T).

(** [while (!ctx->Done(&ptr))] around the switch over the tags.  The switch gives
    the reader of a field, or goes to [handle_unusual].  A message that could not be
    parsed is in no particular state.
    [src/global_lock_service/brpc/global_lock_service.pb.cc:523-583 handle_unusual] *)
Fixpoint parse_loop (switch : Z -> option (ptr -> T -> res (option (T * ptr)))) (ctx : ParseContext) (fuel : nat) (p : ptr) (m : T)
    : res (option (ptr * ParseContext * T)) :=
  match fuel with
  | O => Fault OutOfFuel
  | S fuel =>
      match Done ctx p with
      | BehindLimit => Ret None
      | AtLimit => Ret (Some (p, ctx, m))
      | More =>
          '(tag, p) ←! ReadTag p;
          match switch tag with
          | Some field =>
              '(m, p) ←! field p m;
              parse_loop switch ctx fuel p m
          | None =>
              if (Z.land tag 7 =? 4) || (tag =? 0) then Ret (Some (p, SetLastTag tag ctx, m))
              else
                '(u, p) ←! UnknownFieldParse tag (mutable_unknown_fields (md m)) p ctx;
                parse_loop switch ctx fuel p (set_md (Some u) m)
          end
      end
  end.

Lemma parse_loop_ext (switch switch' : Z -> option (ptr -> T -> res (option (T * ptr)))) (ctx : ParseContext) (fuel : nat) (p : ptr) (m : T) :
  (forall tag, switch tag = switch' tag) -> parse_loop switch ctx fuel p m = parse_loop switch' ctx fuel p m.
Proof.
  intros Hsw. revert p m. induction fuel as [|fuel IH]; intros p m; [done|]. cbn [parse_loop]. destruct (Done ctx p); [|done|done].
  destruct (ReadTag p) as [[[tag p']|]| |]; cbn [mbind res_bind]; [|done..]. rewrite Hsw. destruct (switch' tag) as [field|].
  - destruct (field p' m) as [[[m' p'']|]| |]; cbn [mbind res_bind]; [apply IH|done..].
  - case_match; [done|]. destruct (UnknownFieldParse _ _ _ _) as [[[u p'']|]| |]; cbn [mbind res_bind]; [apply IH|done..].
Qed.
End Loop.

(** ** Reading tags and numbers *)

Section Reading.
Context `{ProtobufLaws}.

(** The first two bytes: the second subtracts the continuation bit of the first. *)
Lemma two_byte_value (a b : Z) : 128 <= a < 256 -> 0 <= b < 256 -> u32 (a + u32 (Z.shiftl (u32 (b - 1)) 7)) = a - 128 + 128 * b.
Proof.
  intros Ha Hb. rewrite Z.shiftl_mul_pow2 by lia. unfold u32. rewrite Zmult_mod_idemp_l, Zplus_mod_idemp_r.
  replace (a + (b - 1) * 2 ^ 7) with (a - 128 + 128 * b) by lia. apply Z.mod_small. lia.
Qed.

Lemma mod_2_14 (v : Z) : v mod 128 + 128 * ((v / 128) mod 128) = v mod 2 ^ 14.
Proof. change (2 ^ 14) with (128 * 128). rewrite Z.rem_mul_r by lia. lia. Qed.

Lemma land_80 (b : Byte.byte) : (Z.land (Z_of_byte b) 0x80 =? 0) = (Z_of_byte b <? 128).
Proof. by destruct b. Qed.

(** How a number starts. *)
Lemma varint_cases (v : Z) (rest : ptr) :
  is_u64 v ->
  (v < 128 /\ exists b, varint v ++ rest = b :: rest /\ Z_of_byte b = v)
  \/ (128 <= v < 2 ^ 14 /\ exists b c, varint v ++ rest = b :: c :: rest /\ Z_of_byte b = v mod 128 + 128 /\ Z_of_byte c = v / 128)
  \/ (2 ^ 14 <= v /\ exists b c q, varint v ++ rest = b :: c :: q /\ Z_of_byte b = v mod 128 + 128 /\ Z_of_byte c = (v / 128) mod 128 + 128).
Proof.
  intros [Hv0 Hv]. destruct (decide (v < 128)) as [Hs|Hs]; [left|right].
  - split; [done|]. rewrite varint_small by lia. eexists. split; [done|]. apply last_byte. lia.
  - assert (v / 128 < 2 ^ 57) by (apply Z.div_lt_upper_bound; lia). assert (1 <= v / 128) by (apply Z.div_le_lower_bound; lia).
    rewrite varint_big by lia. destruct (decide (v < 2 ^ 14)) as [Hm|Hm]; [left|right].
    + assert (v / 128 < 128) by (apply Z.div_lt_upper_bound; lia). split; [lia|]. rewrite varint_small by lia. eexists _, _.
      split_and!; [done|apply cont_byte|apply last_byte; lia].
    + assert (128 <= v / 128) by (apply Z.div_le_lower_bound; lia). split; [lia|]. rewrite varint_big by lia. eexists _, _, _.
      split_and!; [done|apply cont_byte|apply cont_byte].
Qed.

Lemma ReadTag_ok (tag : Z) (rest : ptr) : is_u32 tag -> (16 <= length rest)%nat -> ReadTag (varint tag ++ rest) = Ret (Some (tag, rest)).
Proof using H0.
  intros Ht Hr. pose proof (Z.mod_pos_bound tag 128 ltac:(lia)). unfold is_u32 in Ht.
  destruct (varint_cases tag rest) as [(Hs & b & E & Hb)|[(Hs & b & c & E & Hb & Hc)|(Hs & b & c & q & E & Hb & Hc)]]; [split; lia|..]; unfold ReadTag.
  - rewrite E. cbn [lookup list_lookup at_ mbind res_bind]. rewrite Hb, (proj2 (Z.ltb_lt _ _)) by lia. done.
  - rewrite E. cbn [lookup list_lookup at_ mbind res_bind]. assert (tag / 128 < 128) by (apply Z.div_lt_upper_bound; lia).
    assert (0 <= tag / 128) by (apply Z.div_pos; lia). rewrite Hb, Hc, (proj2 (Z.ltb_ge _ _)), (proj2 (Z.ltb_lt _ _)), two_byte_value by lia.
    cbn [drop]. do 3 f_equal. pose proof (Z.div_mod tag 128). lia.
  - pose proof (ReadTagFallback_ok tag rest ltac:(lia) Hr) as Hf. rewrite E in *. cbn [lookup list_lookup at_ mbind res_bind].
    pose proof (Z.mod_pos_bound (tag / 128) 128 ltac:(lia)). rewrite Hb, Hc, (proj2 (Z.ltb_ge _ _)), (proj2 (Z.ltb_ge _ _)), two_byte_value by lia.
    rewrite <- Hf. f_equal. rewrite <- mod_2_14. lia.
Qed.

Lemma ReadVarint64_ok (v : Z) (rest : ptr) : is_u64 v -> (16 <= length rest)%nat -> ReadVarint64 (varint v ++ rest) = Ret (Some (v, rest)).
Proof using H0.
  intros Ht Hr. pose proof (Z.mod_pos_bound v 128 ltac:(lia)). unfold is_u64 in Ht.
  destruct (varint_cases v rest) as [(Hs & b & E & Hb)|[(Hs & b & c & E & Hb & Hc)|(Hs & b & c & q & E & Hb & Hc)]];
    [split; lia|..]; unfold ReadVarint64, VarintParse.
  - rewrite E. cbn [lookup list_lookup at_ mbind res_bind]. rewrite land_80, Hb, (proj2 (Z.ltb_lt _ _)) by lia. done.
  - rewrite E. cbn [lookup list_lookup at_ mbind res_bind]. assert (v / 128 < 128) by (apply Z.div_lt_upper_bound; lia).
    assert (0 <= v / 128) by (apply Z.div_pos; lia).
    rewrite !land_80, Hb, Hc, (proj2 (Z.ltb_ge _ _)), (proj2 (Z.ltb_lt _ _)), two_byte_value by lia.
    cbn [drop]. do 3 f_equal. pose proof (Z.div_mod v 128). lia.
  - pose proof (VarintParseSlow64_ok v rest ltac:(lia) Hr) as Hf. rewrite E in *. cbn [lookup list_lookup at_ mbind res_bind].
    pose proof (Z.mod_pos_bound (v / 128) 128 ltac:(lia)).
    rewrite !land_80, Hb, Hc, (proj2 (Z.ltb_ge _ _)), (proj2 (Z.ltb_ge _ _)), two_byte_value by lia.
    rewrite <- Hf. f_equal. rewrite <- mod_2_14. lia.
Qed.

(** On any input the readers stay within the bytes they may look at. *)
Lemma ReadTag_safe (p : ptr) :
  (5 <= length p)%nat -> ReadTag p = Ret None \/ exists tag q p', ReadTag p = Ret (Some (tag, p')) /\ p = q ++ p' /\ (0 < length q <= 5)%nat.
Proof using H0.
  intros Hp. destruct p as [|b [|c p]]; [cbn in Hp; lia..|]. unfold ReadTag. cbn [lookup list_lookup at_ mbind res_bind drop].
  case_match; [right; exists (Z_of_byte b), [b], (c :: p); cbn; split_and!; done || lia|].
  case_match; [right; eexists _, [b; c], p; cbn; split_and!; done || lia|]. by apply ReadTagFallback_safe.
Qed.

Lemma ReadVarint64_safe : reads 10 ReadVarint64.
Proof using H0.
  intros p Hp. destruct p as [|b [|c p]]; [cbn in Hp; lia..|]. unfold ReadVarint64, VarintParse. cbn [lookup list_lookup at_ mbind res_bind drop].
  case_match; [right; by eexists (Z_of_byte b), [b], (c :: p)|]. case_match; [right; by eexists _, [b; c], p|]. by apply VarintParseSlow64_safe.
Qed.
End Reading.

(** ** Writing fields *)

Lemma writes_bind (f g : EpsCopyOutputStream -> res EpsCopyOutputStream) (a b : bytes) :
  writes f a -> writes g b -> writes (fun s => f s ≫= g) (a ++ b).
Proof.
  intros Hf Hg s n Hn Hs. rewrite length_app, Nat2Z.inj_add, <- Z.add_assoc in Hs.
  destruct (Hf s (Z.of_nat (length b) + n)) as (s1 & E1 & W1 & S1); [lia|done|].
  destruct (Hg s1 n) as (s2 & E2 & W2 & S2); [lia|done|]. exists s2. rewrite E1. split_and!; [done| |done]. by rewrite W2, W1, app_assoc.
Qed.

Lemma writes_nil : writes Ret [].
Proof. intros s n Hn Hs. exists s. split_and!; [done|by rewrite app_nil_r|done]. Qed.

Lemma writes_if (b : bool) (op : EpsCopyOutputStream -> res EpsCopyOutputStream) (bs : bytes) :
  (b = true -> writes op bs) -> writes (fun s => if b then op s else Ret s) (if b then bs else []).
Proof. intros Hop. destruct b; [by apply Hop|apply writes_nil]. Qed.

Lemma writes_eq (op op' : EpsCopyOutputStream -> res EpsCopyOutputStream) (bs bs' : bytes) :
  (forall s, op s = op' s) -> bs = bs' -> writes op' bs' -> writes op bs.
Proof. intros E -> Hop s n Hn Hs. rewrite E. by apply Hop. Qed.

Lemma put_all_Ret (bs : bytes) (s : EpsCopyOutputStream) :
  pos s + Z.of_nat (length bs) <= memory_end s -> put_all bs s = Ret (mkOut (written s ++ bs) (end_ s) (memory_end s)).
Proof. intros Hs. unfold put_all. by rewrite (proj2 (Z.leb_le _ _)) by lia. Qed.

Lemma pos_app (s : EpsCopyOutputStream) (bs : bytes) (e m : Z) : pos (mkOut (written s ++ bs) e m) = pos s + Z.of_nat (length bs).
Proof. unfold pos. cbn. rewrite length_app. lia. Qed.

Lemma lor_tag (n t : Z) : 0 <= t < 8 -> Z.lor (n * 2 ^ 3) t = 8 * n + t.
Proof.
  intros Ht. pose proof (Z.add_lor_land (n * 2 ^ 3) t) as Hadd. assert (Z.land (n * 2 ^ 3) t = 0) as Hl; [|lia].
  apply Z.bits_inj'. intros i Hi. rewrite Z.land_spec, Z.bits_0. destruct (decide (i < 3)).
  - by rewrite Z.mul_pow2_bits_low.
  - replace t with (t mod 2 ^ 3) by (apply Z.mod_small; lia). by rewrite Z.mod_pow2_bits_high, andb_false_r by lia.
Qed.

Lemma MakeTag_eq (n t : Z) : 0 <= n < 2 ^ 29 -> 0 <= t < 8 -> MakeTag n t = 8 * n + t.
Proof.
  intros Hn Ht. unfold MakeTag. rewrite (u32_id n), Z.shiftl_mul_pow2, (u32_id (n * 2 ^ 3)), lor_tag by (unfold is_u32; lia).
  apply u32_id. unfold is_u32. lia.
Qed.

Section Writing.
Context `{ProtobufLaws}.

(** A field of at most sixteen bytes, after room was made for it. *)
Lemma writes_small (bs : bytes) :
  (0 < length bs <= 16)%nat -> writes (fun s => EnsureSpace s ≫= put_all bs) bs.
Proof using H0.
  intros Hb s n Hn Hs. assert (exists s1, EnsureSpace s = Ret s1 /\ written s1 = written s
    /\ sink s1 (Z.of_nat (length bs) + n) /\ pos s1 + Z.of_nat (length bs) <= memory_end s1) as (s1 & -> & W & S1 & R).
  { unfold EnsureSpace. destruct Hs as [[Hm Hp]|[Hm Hp]]; destruct (Z.leb_spec (end_ s) (pos s)); unfold kSlopBytes in *.
    - destruct (EnsureSpaceFallback_ok s Hm Hp) as (s1 & E & W & M & P). exists s1. unfold kSlopBytes in *.
      split_and!; [done|done|left; unfold kSlopBytes; lia|lia].
    - exists s. split_and!; [done|done|by left|lia].
    - lia.
    - exists s. split_and!; [done|done|by right|lia]. }
  cbn [mbind res_bind]. rewrite put_all_Ret by lia. eexists. split_and!; [done|cbn; by rewrite W|].
  unfold sink. rewrite pos_app. cbn [end_ memory_end]. destruct S1 as [[Hm Hp]|[Hm Hp]]; [left|right]; lia.
Qed.

Lemma tag_size (f : UnknownField) : 1 <= field_number f < 16 -> varint (field_tag f) = [byte_of_Z (field_tag f)].
Proof. intros Hn. apply varint_small. unfold field_tag, wire_type, WIRETYPE_VARINT, WIRETYPE_FIXED32,
  WIRETYPE_FIXED64, WIRETYPE_LENGTH_DELIMITED, WIRETYPE_START_GROUP. destruct f; lia. Qed.

Lemma length_wire_varint (n v : Z) : 1 <= n < 16 -> is_u64 v -> (0 < length (wire (TYPE_VARINT n v)) <= 16)%nat.
Proof.
  intros Hn Hv. unfold wire. rewrite tag_size by done. cbn [app length payload]. pose proof (length_varint_n 10 v). unfold varint. lia.
Qed.

Lemma write_varint_field (n v : Z) (s : EpsCopyOutputStream) :
  1 <= n < 16 -> is_u64 v -> WriteTagToArray n WIRETYPE_VARINT s ≫= WriteVarint64ToArray v = put_all (wire (TYPE_VARINT n v)) s.
Proof.
  intros Hn Hv. unfold wire. rewrite <- put_all_app. unfold WriteTagToArray, WriteVarint32ToArray. rewrite MakeTag_eq by (unfold WIRETYPE_VARINT; lia).
  rewrite UnsafeVarint_spec by (unfold is_u64, WIRETYPE_VARINT; lia). change (8 * n + WIRETYPE_VARINT) with (field_tag (TYPE_VARINT n v)).
  destruct (put_all (varint (field_tag (TYPE_VARINT n v))) s) as [s'| |]; cbn [mbind res_bind]; [|done|done]. by apply UnsafeVarint_spec.
Qed.

Lemma writes_varint_field (op : EpsCopyOutputStream -> res EpsCopyOutputStream) (n v : Z) :
  1 <= n < 16 -> is_u64 v -> (forall s, op s = WriteTagToArray n WIRETYPE_VARINT s ≫= WriteVarint64ToArray v) ->
  writes (fun s => EnsureSpace s ≫= op) (wire (TYPE_VARINT n v)).
Proof using H0.
  intros Hn Hv Hop. apply (writes_eq _ (fun s => EnsureSpace s ≫= put_all (wire (TYPE_VARINT n v))) _ (wire (TYPE_VARINT n v))); [|done|by apply writes_small, length_wire_varint].
  intros s. destruct (EnsureSpace s) as [s'| |]; cbn [mbind res_bind]; [|done|done]. rewrite Hop. by apply write_varint_field.
Qed.

Lemma writes_bytes_field (n : Z) (str : bytes) :
  1 <= n < 16 -> Z.of_nat (length str) <= max_string -> writes (WriteBytesMaybeAliased n str) (wire (TYPE_LENGTH_DELIMITED n str)).
Proof using H0.
  intros Hn Hlen s k Hk Hs. unfold WriteBytesMaybeAliased, WriteStringMaybeAliased.
  assert (valid_field (TYPE_LENGTH_DELIMITED n str)) as Hvf by (split; [cbn; lia|done]).
  destruct (_ || _) eqn:E; [by apply WriteStringMaybeAliasedOutline_ok|]. bool_props. rewrite Z.shiftl_mul_pow2 in * by lia.
  rewrite u32_id in * by (unfold is_u32; lia). unfold EpsCopyOutputStream_TagSize in H2. change (Z.shiftl 1 7) with 128 in H2.
  rewrite (proj2 (Z.ltb_lt (n * 2 ^ 3) _)) in H2 by lia.
  rewrite lor_tag by lia. change (8 * n + 2) with (field_tag (TYPE_LENGTH_DELIMITED n str)).
  rewrite UnsafeVarint_spec by (unfold is_u64, field_tag, WIRETYPE_LENGTH_DELIMITED, wire_type, field_number, WIRETYPE_LENGTH_DELIMITED; lia). unfold wire in *. rewrite tag_size in * by done.
  assert (varint (Z.of_nat (length str)) = [byte_of_Z (Z.of_nat (length str))]) as Ev by (apply varint_small; lia).
  cbn [payload] in *. rewrite Ev in *. rewrite !length_app in Hs. cbn [length] in Hs.
  assert (pos s + Z.of_nat (2 + length str) <= memory_end s) as Hroom by (destruct Hs as [[Hm Hp]|[Hm Hp]]; unfold kSlopBytes in *; lia).
  match goal with |- context [put_all ?t s ≫= ?k] =>
    assert (put_all t s ≫= k = put_all (t ++ byte_of_Z (Z.of_nat (length str)) :: str) s) as -> end.
  { rewrite <- put_all_app. destruct (put_all _ s) as [s'| |]; [|done|done]. cbn [mbind res_bind]. by rewrite <- put_put_all, (put_one (u8 _)), byte_of_u8, <- put_one. }
  rewrite put_all_Ret by (cbn [app length]; lia). eexists. split_and!; [done|done|]. unfold sink. rewrite pos_app. cbn [end_ memory_end app length].
  destruct Hs as [[Hm Hp]|[Hm Hp]]; [left|right]; lia.
Qed.
End Writing.

(** ** Messages *)

(** The functions of a generated message class. *)
Class Message `{Protobuf} (T : Type) := {
  New : T;
  metadata : T -> InternalMetadata;
  set_metadata : InternalMetadata -> T -> T;
  Clear : T -> T;
  InternalParse : ParseContext -> nat -> ptr -> T -> res (option (ptr * ParseContext * T));
  InternalSerialize : T -> EpsCopyOutputStream -> res EpsCopyOutputStream;
  ByteSizeLong : T -> Z * Z;
  copy_ctor : T -> T;
  MergeFrom : T -> T -> T;
  CopyFrom : T -> T -> T;
  InternalSwap : T -> T -> T * T }.

(** A field of a message: its number, its value on the wire, and its setter.  A
    string has to be UTF-8. *)
Inductive field_spec (T : Type) :=
  | VarintField (num : Z) (get : T -> Z) (set : Z -> T -> T)
  | BytesField (num : Z) (utf8 : bool) (get : T -> bytes) (set : bytes -> T -> T).
Arguments VarintField {T} num get set.
Arguments BytesField {T} num utf8 get set.

Section Table.
Context `{Protobuf} {T : Type}.
Implicit Types (e : field_spec T) (m : T) (tbl : list (field_spec T)).

Definition spec_num e : Z := match e with VarintField n _ _ | BytesField n _ _ _ => n end.

Definition spec_tag e : Z := 8 * spec_num e + match e with VarintField _ _ _ => WIRETYPE_VARINT | BytesField _ _ _ _ => WIRETYPE_LENGTH_DELIMITED end.

(** The field as it is written; a default value is not. *)
Definition spec_field m e : option UnknownField :=
  match e with
  | VarintField n get _ => if get m =? 0 then None else Some (TYPE_VARINT n (get m))
  | BytesField n _ get _ => if 0 <? Z.of_nat (length (get m)) then Some (TYPE_LENGTH_DELIMITED n (get m)) else None
  end.

Definition find_spec tbl (tag : Z) : option (field_spec T) := find (fun e => spec_tag e =? tag) tbl.

(** The case of the switch. *)
Definition read_spec (ctx : ParseContext) e : ptr -> T -> res (option (T * ptr)) :=
  match e with
  | VarintField _ _ set => fun p m => '(v, p) ←! ReadVarint64 p; Ret (Some (set v m, p))
  | BytesField _ utf8 _ set => fun p m =>
      '(str, p) ←! InlineGreedyStringParser ctx p;
      if utf8 then if VerifyUTF8 str then Ret (Some (set str m, p)) else Ret None else Ret (Some (set str m, p))
  end.

Definition switch_of tbl (ctx : ParseContext) (tag : Z) : option (ptr -> T -> res (option (T * ptr))) := read_spec ctx <$> find_spec tbl tag.

Definition write_spec m (s : EpsCopyOutputStream) e : res EpsCopyOutputStream :=
  match e with
  | VarintField n get _ =>
      if negb (get m =? 0) then EnsureSpace s ≫= fun s => WriteTagToArray n WIRETYPE_VARINT s ≫= WriteVarint64ToArray (get m) else Ret s
  | BytesField n _ get _ => if 0 <? Z.of_nat (length (get m)) then WriteBytesMaybeAliased n (get m) s else Ret s
  end.

Definition write_unknown (md : InternalMetadata) (s : EpsCopyOutputStream) : res EpsCopyOutputStream :=
  if have_unknown_fields md then InternalSerializeUnknownFieldsToArray (unknown_fields md) s else Ret s.

Definition finish_size (md : InternalMetadata) (total_size : Z) : Z * Z :=
  if have_unknown_fields md then ComputeUnknownFieldsSize (unknown_fields md) total_size else (total_size, ToCachedSize total_size).

Definition apply_spec e (f : UnknownField) m : T :=
  match e, f with
  | VarintField _ _ set, TYPE_VARINT _ v => set v m
  | BytesField _ _ _ set, TYPE_LENGTH_DELIMITED _ str => set str m
  | _, _ => m
  end.

(** The message [a] is given the field of [m] if it is not the default. *)
Definition own_field m (a : T) e : T :=
  match e with
  | VarintField _ get set => if get m =? 0 then a else set (get m) a
  | BytesField _ _ get set => if 0 <? Z.of_nat (length (get m)) then set (get m) a else a
  end.

Definition spec_in_range m e : Prop :=
  match e with
  | VarintField _ get _ => is_u64 (get m)
  | BytesField _ utf8 get _ => Z.of_nat (length (get m)) <= max_string /\ (utf8 = true -> VerifyUTF8 (get m) = true)
  end.
End Table.

(** What the functions of a message class have in common. *)
Class MessageSpec `{Protobuf} (T : Type) `{!Message T} := {
  table : list (field_spec T);
  in_range : T -> Prop;
  table_num : Forall (fun e => 1 <= spec_num e < 16) table;
  table_find : Forall (fun e => find_spec table (spec_tag e) = Some e) table;
  table_range (m : T) : in_range m -> Forall (spec_in_range m) table;
  parse_table ctx fuel p (m : T) : InternalParse ctx fuel p m = parse_loop metadata set_metadata (switch_of table ctx) ctx fuel p m;
  serialize_table (m : T) s : in_range m -> InternalSerialize m s = foldM (write_spec m) s table ≫= write_unknown (metadata m);
  size_table (m : T) :
    in_range m -> ByteSizeLong m = finish_size (metadata m) (u64 (Z.of_nat (length (wire_all (omap (spec_field m) table)))));
  table_metadata (d : InternalMetadata) (f : UnknownField) (m : T) :
    Forall (fun e => apply_spec e f (set_metadata d m) = set_metadata d (apply_spec e f m) /\ metadata (apply_spec e f m) = metadata m) table;
  table_set (m : T) : in_range m -> foldl (own_field m) New table = set_metadata None m;
  merge_table (this from : T) :
    in_range from -> MergeFrom this from = set_metadata (md_MergeFrom (metadata this) (metadata from)) (foldl (own_field from) this table);
  clear_table (m : T) : Clear m = set_metadata (md_Clear (metadata m)) New;
  copy_ctor_table (from : T) : copy_ctor from = set_metadata (md_MergeFrom None (metadata from)) from;
  copy_table (this from : T) : CopyFrom this from = MergeFrom (Clear this) from;
  swap_table (m other : T) :
    let '(d, d') := md_Swap (metadata m) (metadata other) in InternalSwap m other = (set_metadata d other, set_metadata d' m);
  metadata_set (d : InternalMetadata) (m : T) : metadata (set_metadata d m) = d;
  set_metadata_set (d d' : InternalMetadata) (m : T) : set_metadata d (set_metadata d' m) = set_metadata d m;
  set_metadata_get (m : T) : set_metadata (metadata m) m = m;
  metadata_New : metadata (New : T) = None }.

Section Messages.
Context `{ProtobufLaws} {T : Type} `{!Message T} `{!MessageSpec T}.
Implicit Types (m : T) (f : UnknownField) (fs : list UnknownField).

(** The fields of a message that are written, known and unknown. *)
Definition fields m : list UnknownField := omap (spec_field m) table.

Definition all_fields m : list UnknownField := fields m ++ unknown_fields (metadata m).

(** A message takes a field in: it sets its own and keeps the others. *)
Definition absorb m f : T :=
  match find_spec table (field_tag f) with
  | Some e => apply_spec e f m
  | None => set_metadata (Some (mutable_unknown_fields (metadata m) ++ [f])) m
  end.

(** A field that a message can be sent: a string has to be UTF-8. *)
Definition readable f : Prop :=
  valid_field f
  /\ match find_spec (table (T := T)) (field_tag f), f with
     | Some (BytesField _ true _ _), TYPE_LENGTH_DELIMITED _ str => VerifyUTF8 str = true
     | _, _ => True
     end.

(** The unknown fields of a message are those it does not know. *)
Definition good_unknown m : Prop :=
  Forall (fun f => valid_field f /\ find_spec (table (T := T)) (field_tag f) = None) (unknown_fields (metadata m)).

(** ** Parsing fields *)

Lemma wire_type_range f : 0 <= wire_type f < 8.
Proof. destruct f; by vm_compute. Qed.

Lemma valid_tag f : valid_field f -> 8 <= field_tag f < 2 ^ 32 /\ Z.land (field_tag f) 7 <> 4.
Proof.
  intros [Hn Hv]. pose proof (wire_type_range f). unfold field_tag. split; [lia|]. change 7 with (Z.ones 3). rewrite Z.land_ones by lia.
  rewrite Z.add_comm, Z.mul_comm, Z_mod_plus_full. destruct f; cbn [wire_type]; done.
Qed.

Lemma find_spec_tag f (e : field_spec T) : find_spec (table (T := T)) (field_tag f) = Some e -> e ∈ table (T := T) /\ spec_tag e = field_tag f.
Proof. unfold find_spec. intros Hf. apply find_some in Hf as [Hin Heq]. split; [by apply list_elem_of_In|by apply Z.eqb_eq]. Qed.

(** The tag of a field says how its value is written. *)
Lemma spec_kind f (e : field_spec T) :
  valid_field f -> spec_tag e = field_tag f ->
  match e with
  | VarintField _ _ _ => exists v, f = TYPE_VARINT (field_number f) v /\ is_u64 v
  | BytesField _ _ _ _ => exists str, f = TYPE_LENGTH_DELIMITED (field_number f) str /\ Z.of_nat (length str) <= max_string
  end.
Proof.
  intros [Hn Hv] Ht. unfold spec_tag, field_tag in Ht. unfold WIRETYPE_VARINT, WIRETYPE_LENGTH_DELIMITED in *.
  destruct e as [n get set|n utf8 get set], f; cbn [wire_type] in Ht; unfold WIRETYPE_VARINT, WIRETYPE_FIXED32, WIRETYPE_FIXED64,
    WIRETYPE_LENGTH_DELIMITED, WIRETYPE_START_GROUP in Ht; try (exfalso; lia); by eexists.
Qed.

Lemma wire_nonempty f : (0 < length (wire f))%nat.
Proof. unfold wire. rewrite length_app. pose proof (varint_nonempty (field_tag f)). destruct (varint (field_tag f)); [done|cbn; lia]. Qed.

Lemma parse_step (ctx : ParseContext) (fuel : nat) (rest : ptr) f m :
  readable f -> (16 <= behind_limit ctx <= length rest)%nat ->
  parse_loop metadata set_metadata (switch_of table ctx) ctx (S fuel) (wire f ++ rest) m
  = parse_loop metadata set_metadata (switch_of table ctx) ctx fuel rest (absorb m f).
Proof using H0.
  intros [Hv Hutf] Hr. cbn [parse_loop]. destruct (valid_tag f Hv) as [Ht H4]. pose proof (wire_nonempty f).
  assert (Done ctx (wire f ++ rest) = More) as ->.
  { unfold Done. rewrite length_app. by rewrite (proj2 (Nat.ltb_lt _ _)) by lia. }
  unfold wire. rewrite <- app_assoc, ReadTag_ok; [|split; lia|rewrite length_app; lia]. cbn [mbind res_bind].
  unfold switch_of, absorb. destruct (find_spec table (field_tag f)) as [e|] eqn:E; cbn [fmap option_fmap option_map].
  - destruct (find_spec_tag f e E) as [_ He]. pose proof (spec_kind f e Hv He) as Hk. destruct e as [n get set|n utf8 get set]; cbn [read_spec].
    + destruct Hk as (v & Ef & Hv64). rewrite Ef. cbn [payload apply_spec]. by rewrite ReadVarint64_ok by (done || lia).
    + destruct Hk as (str & Ef & Hlen). rewrite Ef in *. cbn [payload apply_spec field_number] in *. rewrite <- app_assoc.
      rewrite InlineGreedyStringParser_ok by done. cbn [mbind res_bind]. destruct utf8; [by rewrite Hutf|done].
  - rewrite (proj2 (Z.eqb_neq _ 4)) by done. rewrite (proj2 (Z.eqb_neq _ 0)) by lia. cbn [orb]. by rewrite UnknownFieldParse_ok.
Qed.

Lemma wire_all_cons f fs : wire_all (f :: fs) = wire f ++ wire_all fs.
Proof. done. Qed.

Lemma wire_all_app fs gs : wire_all (fs ++ gs) = wire_all fs ++ wire_all gs.
Proof. apply bind_app. Qed.

Lemma length_wire_all fs : (length fs <= length (wire_all fs))%nat.
Proof. induction fs as [|f fs IH]; [done|]. rewrite wire_all_cons, length_app. cbn [length]. pose proof (wire_nonempty f). lia. Qed.

(** A sequence of fields is taken in one after the other. *)
Lemma parse_fields (ctx : ParseContext) (fuel : nat) (slop : ptr) fs m :
  Forall readable fs -> behind_limit ctx = length slop -> (16 <= length slop)%nat -> (length fs < fuel)%nat ->
  InternalParse ctx fuel (wire_all fs ++ slop) m = Ret (Some (slop, ctx, foldl absorb m fs)).
Proof using H0.
  intros Hfs Hb Hs. rewrite parse_table. revert fuel m. induction Hfs as [|f fs Hf _ IH]; intros fuel m Hfuel.
  - destruct fuel as [|fuel]; [cbn in Hfuel; lia|]. cbn [parse_loop wire_all mbind list_bind app]. unfold Done.
    rewrite (proj2 (Nat.ltb_ge _ _)) by lia. by rewrite (proj2 (Nat.eqb_eq _ _)).
  - destruct fuel as [|fuel]; [lia|]. rewrite wire_all_cons, <- app_assoc, parse_step; [|done|rewrite length_app; lia].
    apply IH. cbn [length] in Hfuel. lia.
Qed.

(** ** Taking in the fields of a message *)

Lemma spec_field_tag m (e : field_spec T) f : spec_field m e = Some f -> field_tag f = spec_tag e.
Proof. unfold spec_field, spec_tag. destruct e; case_match; intros [= <-]; done. Qed.

Lemma fields_elem m f : f ∈ fields m -> exists e, e ∈ table (T := T) /\ spec_field m e = Some f /\ find_spec table (field_tag f) = Some e.
Proof.
  intros (e & He & Hf)%list_elem_of_omap. exists e. split_and!; [done|done|]. rewrite (spec_field_tag m e f Hf).
  pose proof table_find as Hfind. rewrite list.Forall_forall in Hfind. by apply Hfind.
Qed.

Lemma absorb_fields m m' : foldl absorb m (fields m') = foldl (own_field m') m table.
Proof.
  unfold fields. pose proof table_find as Hfind. revert m Hfind. generalize (table (T := T)) at 2 3 4. intros l m Hl. revert m.
  induction Hl as [|e l He _ IH]; intros m; [done|]. cbn [omap list_omap foldl]. destruct (spec_field m' e) as [f|] eqn:E.
  - cbn [foldl]. assert (absorb m f = own_field m' m e) as ->; [|apply IH]. unfold absorb. rewrite (spec_field_tag m' e f E), He.
    destruct e; cbn [spec_field own_field] in *; case_match; simplify_eq; done.
  - assert (own_field m' m e = m) as ->; [|apply IH]. destruct e; cbn [spec_field own_field] in *; by case_match.
Qed.

Lemma absorb_unknown m (u : list UnknownField) :
  Forall (fun f => valid_field f /\ find_spec (table (T := T)) (field_tag f) = None) u ->
  foldl absorb m u = set_metadata (match u with [] => metadata m | _ => Some (mutable_unknown_fields (metadata m) ++ u) end) m.
Proof.
  intros Hu. revert m. induction Hu as [|f u [_ Hf] _ IH]; intros m; cbn [foldl]; [by rewrite set_metadata_get|].
  rewrite IH. unfold absorb. rewrite Hf, set_metadata_set, metadata_set. destruct u as [|g u]; [done|]. cbn [mutable_unknown_fields].
  by rewrite <- app_assoc.
Qed.

(** Without unknown fields there is no set of them in a message that was read. *)
Definition read_metadata (md : InternalMetadata) : InternalMetadata := match unknown_fields md with [] => None | u => Some u end.

Lemma absorb_all m : in_range m -> good_unknown m -> foldl absorb New (all_fields m) = set_metadata (read_metadata (metadata m)) m.
Proof.
  intros Hm Hu. unfold all_fields. rewrite foldl_app, absorb_fields, table_set, absorb_unknown, set_metadata_set, metadata_set by done.
  unfold read_metadata. by destruct (unknown_fields (metadata m)).
Qed.

Lemma fields_readable m : in_range m -> Forall readable (fields m).
Proof.
  intros Hm. apply list.Forall_forall. intros f Hf. destruct (fields_elem m f Hf) as (e & He & Ef & Efind). unfold readable. rewrite Efind.
  pose proof (table_range m Hm) as Hr. rewrite list.Forall_forall in Hr. specialize (Hr e He).
  pose proof table_num as Hn. rewrite list.Forall_forall in Hn. specialize (Hn e He).
  destruct e as [n get set|n utf8 get set]; cbn [spec_field spec_num spec_in_range] in *; case_match eqn:E; [done| | |done]; injection Ef as <-.
  - split; [|done]. split; [cbn; lia|done].
  - destruct Hr as [Hlen Hutf]. split; [split; [cbn; lia|done]|]. destruct utf8; [|done]. by apply Hutf.
Qed.

Lemma all_readable m : in_range m -> good_unknown m -> Forall readable (all_fields m).
Proof.
  intros Hm Hu. apply list.Forall_app. split; [by apply fields_readable|]. eapply list.Forall_impl; [exact Hu|]. intros f [Hv Hf]. split; [done|]. by rewrite Hf.
Qed.

(** ** Writing a message *)

Lemma writes_spec m (e : field_spec T) :
  spec_in_range m e -> 1 <= spec_num e < 16 -> writes (fun s => write_spec m s e) (match spec_field m e with Some f => wire f | None => [] end).
Proof using H0.
  intros Hr Hn. destruct e as [n get set|n utf8 get set]; cbn [spec_in_range spec_num spec_field] in *; unfold write_spec.
  - destruct (get m =? 0); cbn [negb]; [apply writes_nil|]. by apply writes_varint_field.
  - destruct (0 <? _); [|apply writes_nil]. destruct Hr; by apply writes_bytes_field.
Qed.

Lemma writes_table m (tbl : list (field_spec T)) :
  Forall (spec_in_range m) tbl -> Forall (fun e => 1 <= spec_num e < 16) tbl ->
  writes (fun s => foldM (write_spec m) s tbl) (wire_all (omap (spec_field m) tbl)).
Proof using H0.
  intros Hr. induction Hr as [|e tbl He _ IH]; intros Hn; [apply writes_nil|]. apply list.Forall_cons in Hn as [Hen Hn].
  eapply writes_eq; [intros s; reflexivity| |apply (writes_bind _ (fun s => foldM (write_spec m) s tbl)); [exact (writes_spec m e He Hen)|exact (IH Hn)]].
  cbn [omap list_omap]. by destruct (spec_field m e).
Qed.

Lemma writes_unknown m : good_unknown m -> writes (write_unknown (metadata m)) (wire_all (unknown_fields (metadata m))).
Proof using H0.
  intros Hu. unfold write_unknown, good_unknown in *. destruct (metadata m) as [u|]; cbn [have_unknown_fields unknown_fields] in *; [|apply writes_nil].
  apply InternalSerializeUnknownFieldsToArray_ok. eapply list.Forall_impl; [exact Hu|]. by intros f [Hv _].
Qed.

Lemma writes_message m : in_range m -> good_unknown m -> writes (InternalSerialize m) (wire_all (all_fields m)).
Proof using H0.
  intros Hm Hu. eapply writes_eq; [intros s; by apply serialize_table| |apply writes_bind; [by apply writes_table; [apply table_range|apply table_num]|by apply writes_unknown]].
  apply wire_all_app.
Qed.

Lemma size_message m :
  in_range m -> good_unknown m -> Z.of_nat (length (wire_all (all_fields m))) < 2 ^ 31 ->
  ByteSizeLong m = (Z.of_nat (length (wire_all (all_fields m))), Z.of_nat (length (wire_all (all_fields m)))).
Proof using H0.
  intros Hm Hu Hlen. rewrite size_table by done. unfold all_fields in *. rewrite wire_all_app, length_app in *. unfold fields in *.
  unfold good_unknown in Hu. unfold finish_size. destruct (metadata m) as [u|]; cbn [have_unknown_fields unknown_fields] in *.
  - rewrite ComputeUnknownFieldsSize_ok by (eapply list.Forall_impl; [exact Hu|]; by intros f [Hv _]).
    rewrite (u64_id (Z.of_nat _)), <- Nat2Z.inj_add, u64_id by (split; lia). unfold ToCachedSize. by rewrite i32_id by lia.
  - rewrite u64_id by (split; lia). unfold ToCachedSize. rewrite i32_id by lia. cbn [wire_all mbind list_bind length]. by rewrite Nat.add_0_r.
Qed.

(** ** Messages that were sent *)

(** A message whose fields have the ranges of their types and that is not longer
    than an [int] can say. *)
Definition sendable m : Prop := in_range m /\ good_unknown m /\ Z.of_nat (length (wire_all (all_fields m))) < 2 ^ 31.

(** A message in an array of exactly its size. *)
Definition encode m : res bytes :=
  let size := (ByteSizeLong m).1 in
  s ← InternalSerialize m (mkOut [] size size);
  Ret (written s).

(** Parsing up to a limit, with anything behind it; the parse is good if it ended
    there. *)
Definition decode (slop data : bytes) m : res (option T) :=
  r ← InternalParse (mkParseContext (length slop) 0) (S (length data)) (data ++ slop) m;
  Ret (match r with Some (_, ctx, m') => if EndedAtLimit ctx then Some m' else None | None => None end).

(** What is left of a message when it has been read: no empty set of unknown
    fields. *)
Definition received m : T := set_metadata (read_metadata (metadata m)) m.

Lemma encode_sendable m : sendable m -> encode m = Ret (wire_all (all_fields m)).
Proof using H0.
  intros (Hm & Hu & Hlen). unfold encode. rewrite size_message by done. cbn [fst].
  destruct (writes_message m Hm Hu (mkOut [] (Z.of_nat (length (wire_all (all_fields m)))) (Z.of_nat (length (wire_all (all_fields m))))) 0) as (s & -> & W & _).
  - lia.
  - right. unfold pos. cbn. lia.
  - cbn [mbind res_bind]. by rewrite W.
Qed.

Lemma decode_fields (slop : bytes) fs m :
  Forall readable fs -> (16 <= length slop)%nat -> decode slop (wire_all fs) m = Ret (Some (foldl absorb m fs)).
Proof using H0.
  intros Hfs Hs. unfold decode. rewrite parse_fields; [done|done|done|done|]. pose proof (length_wire_all fs). lia.
Qed.

Lemma absorb_set_metadata (d : InternalMetadata) m m' :
  foldl absorb (set_metadata d m) (fields m') = set_metadata d (foldl absorb m (fields m')) /\ metadata (foldl absorb m (fields m')) = metadata m.
Proof.
  assert (Forall (fun f => exists e, e ∈ table (T := T) /\ find_spec table (field_tag f) = Some e) (fields m')) as Hfs.
  { apply list.Forall_forall. intros f Hf. destruct (fields_elem m' f Hf) as (e & He & _ & E). by exists e. }
  revert m. induction Hfs as [|f fs (e & He & Ef) _ IH]; intros m; [done|]. cbn [foldl].
  pose proof (table_metadata d f m) as Ht. rewrite list.Forall_forall in Ht. destruct (Ht e He) as [Hc Hmd].
  assert (forall m, absorb m f = apply_spec e f m) as Ha by (intros m1; unfold absorb; by rewrite Ef).
  rewrite !Ha, Hc. destruct (IH (apply_spec e f m)) as [IH1 IH2]. split; [done|]. by rewrite IH2.
Qed.

Lemma received_merge (a b : T) :
  in_range a -> in_range b -> good_unknown a -> good_unknown b ->
  foldl absorb New (all_fields a ++ all_fields b) = received (MergeFrom a b).
Proof using H0.
  intros Ha Hb Hua Hub. rewrite foldl_app, absorb_all by done. unfold all_fields. rewrite foldl_app.
  destruct (absorb_set_metadata (read_metadata (metadata a)) a b) as [E1 E2]. rewrite E1, absorb_unknown, set_metadata_set, metadata_set by done.
  unfold received. rewrite merge_table by done. rewrite <- absorb_fields, set_metadata_set, metadata_set. f_equal.
  unfold md_MergeFrom, read_metadata. destruct (metadata b) as [[|g u]|]; cbn [have_unknown_fields unknown_fields mutable_unknown_fields];
    rewrite ?UnknownFieldSet_MergeFrom_ok, ?app_nil_r; destruct (metadata a) as [[|f v]|]; done.
Qed.

(** A response of a method is one that can be sent. *)
Definition replies {S} (method : S -> res (option T * S)) (s : S) : Prop :=
  forall response s', method s = Ret (Some response, s') -> sendable response.

Lemma decode_encode (slop : bytes) m :
  sendable m -> (16 <= length slop)%nat -> encode m = Ret (wire_all (all_fields m)) /\ decode slop (wire_all (all_fields m)) New = Ret (Some (received m)).
Proof using H0.
  intros Hm Hs. split; [by apply encode_sendable|]. destruct Hm as (Hm & Hu & _). rewrite decode_fields by (done || by apply all_readable).
  by rewrite absorb_all.
Qed.

(** ** Parsing anything *)

Lemma read_spec_safe (ctx : ParseContext) (e : field_spec T) m : reads 10 (fun p => read_spec ctx e p m).
Proof using H0.
  intros p Hp. destruct e as [n get set|n utf8 get set]; cbn [read_spec].
  - destruct (ReadVarint64_safe p Hp) as [->|(v & q & p' & -> & Eq)]; cbn [mbind res_bind]; [by left|right]. by eexists _, q, p'.
  - destruct (InlineGreedyStringParser_safe ctx p Hp) as [->|(v & q & p' & -> & Eq)]; cbn [mbind res_bind]; [by left|].
    destruct utf8; [case_match|]; [right; by eexists _, q, p'|by left|right; by eexists _, q, p'].
Qed.

(** Whatever the input is, the parse ends and never looks behind the slop bytes. *)
Lemma parse_loop_safe (ctx : ParseContext) (fuel : nat) (p : ptr) m :
  (16 <= behind_limit ctx)%nat -> (0 < fuel)%nat -> (length p < fuel + behind_limit ctx)%nat ->
  exists r, parse_loop metadata set_metadata (switch_of table ctx) ctx fuel p m = Ret r.
Proof using H0.
  intros Hb. revert p m. induction fuel as [|fuel IH]; intros p m Hf Hp; [lia|]. cbn [parse_loop].
  unfold Done. destruct (Nat.ltb_spec (behind_limit ctx) (length p)) as [Hl|Hl]; [|destruct (length p =? behind_limit ctx)%nat; by eexists].
  destruct (ReadTag_safe p) as [->|(tag & q & p1 & -> & Eq & Hq)]; [lia|by eexists|]. cbn [mbind res_bind].
  assert (length p = length q + length p1)%nat as Hlen by (by rewrite Eq, length_app).
  unfold switch_of. destruct (find_spec table tag) as [e|]; cbn [fmap option_fmap option_map].
  - destruct (read_spec_safe ctx e m p1) as [->|(m' & q2 & p2 & -> & Eq2)]; [lia|by eexists|]. cbn [mbind res_bind].
    apply IH; [lia|]. assert (length p1 = length q2 + length p2)%nat by (by rewrite Eq2, length_app). lia.
  - case_match; [by eexists|]. destruct (UnknownFieldParse_safe tag (mutable_unknown_fields (metadata m)) ctx p1) as [->|(u & q2 & p2 & -> & Eq2)];
      [lia|by eexists|]. cbn [mbind res_bind]. apply IH; [lia|]. assert (length p1 = length q2 + length p2)%nat by (by rewrite Eq2, length_app). lia.
Qed.
End Messages.

(** ** Instances

    Lemmas and tactics for the message classes. *)

Lemma u64_zero (x : Z) : - 2 ^ 63 <= x < 2 ^ 63 -> (u64 x =? 0) = (x =? 0).
Proof.
  intros Hx. destruct (Z.eqb_spec x 0) as [->|Hn]; [done|]. apply Z.eqb_neq. unfold u64. intros Hz.
  destruct (decide (0 <= x)); [rewrite Z.mod_small in Hz; lia|]. rewrite <- (Z_mod_plus_full x 1 (2 ^ 64)), Z.mod_small in Hz; lia.
Qed.

Lemma i64_u64 (x : Z) : - 2 ^ 63 <= x < 2 ^ 63 -> i64 (u64 x) = x.
Proof. intros Hx. unfold i64, u64. rewrite Zplus_mod_idemp_l. rewrite Z.mod_small; lia. Qed.

Lemma i64_range (x : Z) : - 2 ^ 63 <= i64 x < 2 ^ 63.
Proof. unfold i64. pose proof (Z.mod_pos_bound (x + 2 ^ 63) (2 ^ 64)). lia. Qed.

Lemma i32_u64 (x : Z) : - 2 ^ 31 <= x < 2 ^ 31 -> i32 (u64 x) = x.
Proof.
  intros Hx. unfold i32, u64. rewrite <- Zplus_mod_idemp_l. rewrite (Z.mod_mod_divide x (2 ^ 64) (2 ^ 32)) by (by exists (2 ^ 32)).
  rewrite Zplus_mod_idemp_l. rewrite Z.mod_small; lia.
Qed.

Lemma EnumSize_spec (x : Z) : - 2 ^ 31 <= x < 2 ^ 31 -> EnumSize x = VarintSize64 (u64 x).
Proof. intros Hx. unfold EnumSize. rewrite VarintSize32SignExtended_spec by done. symmetry. apply VarintSize64_spec, u64_range. Qed.

Lemma Int32Size_spec (x : Z) : - 2 ^ 31 <= x < 2 ^ 31 -> Int32Size x = VarintSize64 (u64 x).
Proof. exact (EnumSize_spec x). Qed.

(** The size of a field on the wire. *)
Definition spec_size {T} (m : T) (e : field_spec T) : Z :=
  match e with
  | VarintField _ get _ => if get m =? 0 then 0 else 1 + VarintSize64 (get m)
  | BytesField _ _ get _ => if 0 <? Z.of_nat (length (get m)) then 1 + BytesSize (get m) else 0
  end.

Lemma spec_size_wire `{Protobuf} {T} (m : T) (e : field_spec T) :
  spec_in_range m e -> 1 <= spec_num e < 16 ->
  Z.of_nat (length (match spec_field m e with Some f => wire f | None => [] end)) = spec_size m e.
Proof.
  intros Hr Hn. destruct e as [n get set|n utf8 get set]; cbn [spec_field spec_size spec_in_range spec_num] in *.
  - destruct (get m =? 0); [done|]. unfold wire. rewrite tag_size by done. cbn [app length payload]. rewrite VarintSize64_spec by done. lia.
  - destruct (0 <? _); [|done]. destruct Hr as [Hr _]. unfold max_string, kSlopBytes in *. unfold wire. rewrite tag_size by done.
    cbn [app length payload]. rewrite length_app. unfold BytesSize, LengthDelimitedSize.
    rewrite (u32_id (Z.of_nat _)), VarintSize32_spec by (split; lia). pose proof (length_varint_n 10 (Z.of_nat (length (get m)))). unfold varint in *.
    rewrite u64_id by (split; lia). lia.
Qed.

Lemma table_size `{Protobuf} {T} (m : T) (tbl : list (field_spec T)) :
  Forall (spec_in_range m) tbl -> Forall (fun e => 1 <= spec_num e < 16) tbl ->
  Z.of_nat (length (wire_all (omap (spec_field m) tbl))) = foldr (fun e n => spec_size m e + n) 0 tbl.
Proof.
  intros Hr. induction Hr as [|e tbl He _ IH]; intros Hn; [done|]. apply list.Forall_cons in Hn as [Hen Hn]. cbn [omap list_omap foldr].
  rewrite <- IH, <- (spec_size_wire m e He Hen) by done. destruct (spec_field m e) as [f|]; [|done]. rewrite wire_all_cons, length_app. lia.
Qed.

Lemma add_size (c : bool) (t x : Z) : (if c then u64 (u64 t + u64 (1 + x)) else u64 t) = u64 (t + (if c then 1 + x else 0)).
Proof. destruct c; [unfold u64; by rewrite <- Zplus_mod|by rewrite Z.add_0_r]. Qed.

Lemma add_size_0 (c : bool) (x : Z) : (if c then u64 (0 + u64 (1 + x)) else 0) = u64 (if c then 1 + x else 0).
Proof. destruct c; [unfold u64; by rewrite Z.add_0_l, Z.mod_mod|done]. Qed.

Lemma foldM_cons_bind {S A B} (f : S -> A -> res S) (s : S) (a : A) (l : list A) (k : S -> res B) :
  foldM f s (a :: l) ≫= k = f s a ≫= fun s => foldM f s l ≫= k.
Proof. cbn [foldM]. by destruct (f s a). Qed.

Lemma bind_cong {A B} (m m' : res A) (k k' : A -> res B) : m = m' -> (forall a, k a = k' a) -> m ≫= k = m' ≫= k'.
Proof. intros -> Hk. destruct m'; cbn; [apply Hk|done|done]. Qed.

Create HintDb messages.

(** The switch of a class is the table of its fields: a tag in the table is found
    by computation, and no other tag is in a case. *)
Ltac solve_switch tag :=
  unfold switch_of, find_spec; autounfold with messages; cbn [find];
  repeat match goal with
  | |- context [spec_tag ?e =? tag] =>
      let t := eval vm_compute in (spec_tag e) in change (spec_tag e) with t; destruct (Z.eqb_spec t tag); [subst tag; reflexivity|]
  end;
  cbn [fmap option_fmap option_map];
  let Hd := fresh "Hd" in let Hm := fresh "Hm" in let Hq := fresh "Hq" in
  pose proof (Z.div_mod tag 8 ltac:(lia)) as Hd; pose proof (Z.mod_pos_bound tag 8 ltac:(lia)) as Hm;
  try (rewrite (Z.shiftr_div_pow2 tag 3) by lia); change (2 ^ 3) with 8; unfold u8;
  destruct (tag / 8) as [|[[[]|[]|]|[[]|[]|]|]|] eqn:Hq;
  first [reflexivity|rewrite (Z.mod_small tag) by lia; rewrite (proj2 (Z.eqb_neq _ _)) by lia; reflexivity].

Ltac forall_table := autounfold with messages; repeat first [apply list.Forall_cons_2|apply list.Forall_nil_2].

(** The laws of [MessageSpec] for a class whose functions are in [messages]. *)
Ltac solve_range := intros m Hm; autounfold with messages in Hm; destruct_and?; forall_table; cbn [spec_in_range];
  first [apply u64_range|done|case_match; by split|split; done].

Ltac solve_serialize := intros m s Hm; autounfold with messages in *; destruct_and?; cbn [InternalSerialize metadata]; autounfold with messages;
  repeat (rewrite foldM_cons_bind; apply bind_cong; [cbn [write_spec]; rewrite ?u64_zero by lia; first [reflexivity|case_match; reflexivity]|intros ?; cbv beta]);
  reflexivity.

Ltac solve_size := intros m Hm; rewrite table_size; [|clear -Hm; revert m Hm; solve_range|forall_table; cbn [spec_num]; lia];
  autounfold with messages in *; destruct_and?; cbn [foldr spec_size ByteSizeLong metadata]; cbv zeta;
  rewrite ?add_size_0, ?add_size, ?Bool.if_negb; unfold finish_size; rewrite ?EnumSize_spec, ?Int32Size_spec, ?u64_zero by lia;
  unfold UInt64Size, Int64Size, StringSize, BytesSize;
  match goal with |- (if _ then ComputeUnknownFieldsSize _ ?a else _) = (if _ then ComputeUnknownFieldsSize _ ?b else _) =>
    replace b with a by first [reflexivity|f_equal; lia|f_equal; case_match; done] end;
  reflexivity.

Lemma empty_length {A} (l : list A) : (0 <? Z.of_nat (length l)) = false -> l = [].
Proof. destruct l; [done|]. cbn [length]. intros ?. bool_props. lia. Qed.

(** Case by case whether a field has its default value. *)
Ltac default_cases :=
  cbn -[i32 i64 u64 Z.eqb Z.ltb Z.of_nat md_MergeFrom]; rewrite ?i32_u64, ?i64_u64, ?u64_zero by lia;
  repeat match goal with |- context [0 <? Z.of_nat (length ?x)] =>
    let E := fresh in destruct (0 <? Z.of_nat (length x)) eqn:E; [clear E|apply empty_length in E; rewrite ?E] end;
  repeat match goal with
  | |- context [?x =? 0] => destruct (Z.eqb_spec x 0) as [->|]
  | |- context [if ?b then _ else _] => is_var b; destruct b
  end; reflexivity.

Ltac message_spec build :=
  apply build;
  [ forall_table; cbn [spec_num]; lia
  | forall_table; reflexivity
  | solve_range
  | intros ctx fuel p m; apply parse_loop_ext; intros tag; solve_switch tag
  | solve_serialize
  | solve_size
  | intros d f m; destruct m; forall_table; destruct f; by split
  | intros m Hm; destruct m; autounfold with messages in *; cbn in Hm; destruct_and?; cbn [foldl own_field New]; default_cases
  | intros this from Hm; destruct this, from; autounfold with messages in *; cbn in Hm; destruct_and?; cbn [foldl own_field]; default_cases
  | by intros []
  | intros from; destruct from; autounfold with messages; cbn;
    repeat match goal with |- context [Nat.eqb (length ?x) 0] => destruct x; cbn end; reflexivity
  | done
  | intros m other; destruct m, other; autounfold with messages; cbn; unfold md_Swap; by case_match
  | by intros d []
  | by intros d d' []
  | by intros []
  | done ].

(** ** Calls *)

(** The response of a method as a response of its service. *)
Definition respond {R Q S} (wrap : R -> Q) (r : res (option R * S)) : res (option Q * S) :=
  r ≫= fun x => Ret (option_map wrap (fst x), snd x).

Definition parsed_as {R Q} (wrap : R -> Q) (r : res (option R)) : res (option Q) := r ≫= fun x => Ret (option_map wrap x).

Create HintDb calls.

(** A call through the wire: both messages arrive. *)
Ltac call_through_wire method :=
  let Hq := fresh in let Hs := fresh in let Hr := fresh in let Eq := fresh in let Dq := fresh in let E := fresh in
  intros Hq Hs Hr; unfold replies in Hr; destruct (decode_encode _ _ Hq Hs) as [Eq Dq];
  autounfold with calls; rewrite Eq; cbn [mbind res_bind];
  match goal with |- context [decode ?p ?d ?n] => let t := type of n in change (decode p d n) with (decode p d (New (T := t))) end;
  rewrite Dq; cbn [mbind res_bind option_map];
  unfold respond; destruct method as [[[response|] s']| |] eqn:E; cbn [mbind res_bind option_map fst snd]; [|reflexivity..];
  destruct (decode_encode _ _ (Hr _ _ eq_refl) Hs) as [Eq' Dq']; rewrite Eq'; cbn [mbind res_bind];
  match goal with |- context [decode ?p ?d ?n] => let t := type of n in change (decode p d n) with (decode p d (New (T := t))) end;
  rewrite Dq'; reflexivity.
