(* ===== verification/ProtoSample.v ===== *)
(** * db2: a library that keeps its promises

    Simple functions for what the protocol buffer library does outside its
    headers, with the laws of [ProtobufLaws]; the concrete messages of this
    development are sent through them.  Long integers are read by
    [ParseBigVarint], which the headers define. *)

From S2P Require Import Prelude ProtoWire ProtoVarint ProtoMsg.

(** A size and as many bytes. *)
Definition read_string (p : ptr) : option (bytes * ptr) :=
  '(n, q) ← decode_n 5 p;
  if (n <=? max_string) && (n <=? Z.of_nat (length q)) then Some (take (Z.to_nat n) q, drop (Z.to_nat n) q) else None.

Definition is_ascii (str : bytes) : bool := forallb (fun b => Z_of_byte b <? 128) str.

(** Fields without groups. *)
Definition read_unknown (tag : Z) (u : list UnknownField) (p : ptr) : option (list UnknownField * ptr) :=
  let num := tag / 8 in
  match tag mod 8 with
  | 0 => '(v, q) ← decode_n 10 p; Some (u ++ [TYPE_VARINT num (u64 v)], q)
  | 1 => Some (u ++ [TYPE_FIXED64 num (le_decode (take 8 p))], drop 8 p)
  | 2 => '(str, q) ← read_string p; Some (u ++ [TYPE_LENGTH_DELIMITED num str], q)
  | 5 => Some (u ++ [TYPE_FIXED32 num (le_decode (take 4 p))], drop 4 p)
  | _ => None
  end.

(** More memory for a stream. *)
Definition grow (s : EpsCopyOutputStream) : EpsCopyOutputStream :=
  if memory_end s =? end_ s + kSlopBytes then mkOut (written s) (pos s + 32) (pos s + 32 + kSlopBytes) else s.

Definition write_all (bs : bytes) (s : EpsCopyOutputStream) : res EpsCopyOutputStream :=
  if memory_end s =? end_ s + kSlopBytes then Ret (grow (mkOut (written s ++ bs) (end_ s) (memory_end s))) else put_all bs s.

#[export] Instance sample_protobuf : Protobuf := {
  ReadTagFallback p _ := Ret ((fun '(v, q) => (u32 v, q)) <$> decode_n 5 p);
  VarintParseSlow64 p _ := ParseBigVarint p;
  InlineGreedyStringParser _ p := Ret (read_string p);
  UnknownFieldParse tag u p _ := Ret (read_unknown tag u p);
  VerifyUTF8 := is_ascii;
  EnsureSpaceFallback s := Ret (grow s);
  WriteStringMaybeAliasedOutline num str := write_all (wire (TYPE_LENGTH_DELIMITED num str));
  InternalSerializeUnknownFieldsToArray u := write_all (wire_all u);
  ComputeUnknownFieldsSize u total :=
    let size := u64 (total + Z.of_nat (length (wire_all u))) in (size, ToCachedSize size);
  UnknownFieldSet_MergeFrom u v := u ++ v }.

Lemma decode_n_suffix (n : nat) (p : ptr) (v : Z) (q : ptr) : decode_n n p = Some (v, q) -> exists r, p = r ++ q /\ (0 < length r <= n)%nat.
Proof.
  revert p v. induction n as [|n IH]; intros [|b p] v; cbn [decode_n]; try done. case_match.
  - intros [= <- <-]. exists [b]. cbn. split; [done|lia].
  - intros Hd. destruct (decode_n n p) as [[w q']|] eqn:E; [|done]. cbn in Hd. injection Hd as _ <-.
    destruct (IH p w E) as (r & -> & Hr). exists (b :: r). cbn. split; [done|lia].
Qed.

Lemma read_string_wire (str : bytes) (rest : ptr) :
  Z.of_nat (length str) <= max_string -> read_string (varint (Z.of_nat (length str)) ++ str ++ rest) = Some (str, rest).
Proof.
  intros Hlen. unfold read_string, max_string, kSlopBytes in *. rewrite decode_varint.
  - cbn [mbind option_bind]. rewrite (proj2 (Z.leb_le _ _)) by (unfold max_string, kSlopBytes; lia). rewrite (proj2 (Z.leb_le _ _)) by (rewrite length_app; lia).
    cbn [andb]. by rewrite Nat2Z.id, take_app_length, drop_app_length.
  - split; lia.
  - apply length_varint_le; [lia|]. split; [lia|]. apply (Z.lt_le_trans _ (2 ^ 31)); [lia|by vm_compute].
Qed.

Lemma read_string_suffix (p : ptr) (str : bytes) (q : ptr) : read_string p = Some (str, q) -> exists r, p = r ++ q.
Proof.
  unfold read_string. destruct (decode_n 5 p) as [[n q']|] eqn:E; [|done]. cbn [mbind option_bind]. case_match; [|done]. intros [= <- <-].
  destruct (decode_n_suffix _ _ _ _ E) as (r & -> & _). exists (r ++ take (Z.to_nat n) q'). by rewrite <- app_assoc, take_drop.
Qed.

Lemma write_all_writes (bs : bytes) : writes (write_all bs) bs.
Proof.
  intros s n Hn Hs. unfold write_all. destruct (Z.eqb_spec (memory_end s) (end_ s + kSlopBytes)) as [E|E].
  - eexists. split_and!; [done| |]; unfold grow; cbn [memory_end end_]; rewrite (proj2 (Z.eqb_eq _ _)) by done; [done|].
    left. unfold kSlopBytes, pos. cbn. lia.
  - destruct Hs as [[Hm _]|[Hm Hp]]; [done|]. rewrite put_all_Ret by lia. eexists. split_and!; [done|done|]. right. rewrite pos_app. cbn. lia.
Qed.

Lemma read_unknown_wire (f : UnknownField) (u : list UnknownField) (rest : ptr) :
  valid_field f -> read_unknown (field_tag f) u (payload f ++ rest) = Some (u ++ [f], rest).
Proof.
  intros [Hn Hv]. unfold read_unknown, field_tag. rewrite (Z.add_comm (8 * _)), (Z.mul_comm 8), Z_mod_plus_full.
  rewrite Z.div_add by lia. destruct f as [n v|n v|n v|n str|n g]; cbn [wire_type payload field_number].
  - change (WIRETYPE_VARINT mod 8) with 0. change (WIRETYPE_VARINT / 8) with 0. cbn match. rewrite decode_varint by (done || apply length_varint_n).
    cbn [mbind option_bind]. by rewrite u64_id.
  - change (WIRETYPE_FIXED32 mod 8) with 5. change (WIRETYPE_FIXED32 / 8) with 0. cbn match.
    rewrite take_app_length', drop_app_length' by (by rewrite length_le_encode). rewrite le_decode_encode. rewrite Z.mod_small by (destruct Hv; split; [done|]; by apply (Z.lt_le_trans _ (2 ^ 32))). done.
  - change (WIRETYPE_FIXED64 mod 8) with 1. change (WIRETYPE_FIXED64 / 8) with 0. cbn match.
    rewrite take_app_length', drop_app_length' by (by rewrite length_le_encode). rewrite le_decode_encode. rewrite Z.mod_small by (destruct Hv; split; [done|]; by apply (Z.lt_le_trans _ (2 ^ 64))). done.
  - change (WIRETYPE_LENGTH_DELIMITED mod 8) with 2. change (WIRETYPE_LENGTH_DELIMITED / 8) with 0. cbn match.
    rewrite <- app_assoc, read_string_wire by done. done.
  - done.
Qed.

Lemma read_unknown_suffix (tag : Z) (u : list UnknownField) (p : ptr) (u' : list UnknownField) (q : ptr) :
  read_unknown tag u p = Some (u', q) -> exists r, p = r ++ q.
Proof.
  unfold read_unknown. destruct (tag mod 8) as [|[[[]|[]|]|[[]|[]|]|]|]; try done.
  - destruct (decode_n 10 p) as [[v q']|] eqn:E; [|done]. intros [= <- <-]. destruct (decode_n_suffix _ _ _ _ E) as (r & -> & _). by exists r.
  - intros [= <- <-]. exists (take 4 p). by rewrite take_drop.
  - destruct (read_string p) as [[v q']|] eqn:E; [|done]. intros [= <- <-]. by eapply read_string_suffix.
  - intros [= <- <-]. exists (take 8 p). by rewrite take_drop.
Qed.

#[export] Instance sample_protobuf_laws : ProtobufLaws.
Proof.
  split; cbn [ReadTagFallback VarintParseSlow64 InlineGreedyStringParser UnknownFieldParse EnsureSpaceFallback WriteStringMaybeAliasedOutline
    InternalSerializeUnknownFieldsToArray ComputeUnknownFieldsSize UnknownFieldSet_MergeFrom sample_protobuf].
  - intros tag rest Ht Hr. rewrite decode_varint; [cbn; by rewrite u32_id by (split; lia)|split; lia|].
    apply length_varint_le; [lia|]. split; [lia|]. apply (Z.lt_le_trans _ (2 ^ 32)); [lia|by vm_compute].
  - intros p r Hp. destruct (decode_n 5 p) as [[v q]|] eqn:E; [right|by left]. destruct (decode_n_suffix _ _ _ _ E) as (w & Ew & Hw). by eexists _, w, q.
  - intros v rest Hv Hr. rewrite ParseBigVarint_spec; [|rewrite length_app; lia]. rewrite decode_varint; [cbn; by rewrite u64_id by (split; lia)|split; lia|apply length_varint_n].
  - intros _ p Hp. rewrite ParseBigVarint_spec by done. destruct (decode_n 10 p) as [[v q]|] eqn:E; [right|by left].
    destruct (decode_n_suffix _ _ _ _ E) as (w & Ew & Hw). by eexists _, w, q.
  - intros _ str rest Hlen _. by rewrite read_string_wire.
  - intros _ p Hp. destruct (read_string p) as [[str q]|] eqn:E; [right|by left]. destruct (read_string_suffix _ _ _ E) as (r & Er). by eexists _, r, q.
  - intros f u rest ctx Hf _. by rewrite read_unknown_wire.
  - intros tag u ctx p Hp. destruct (read_unknown tag u p) as [[u' q]|] eqn:E; [right|by left]. destruct (read_unknown_suffix _ _ _ _ _ E) as (r & Er). by eexists _, r, q.
  - intros s Hm Hp. exists (grow s). unfold grow. rewrite (proj2 (Z.eqb_eq _ _)) by done. split_and!; [done|done|done|]. unfold pos. cbn. lia.
  - intros num str Hv. apply write_all_writes.
  - intros u Hu. apply write_all_writes.
  - done.
  - done.
Qed.
