(* ===== verification/LockProto.v ===== *)
(** * db2: the messages of the lock service
    ([global_lock_service/brpc/global_lock_service.pb.cc], [.pb.h])

    The message classes as the repository has them generated: their members, the
    parser, the serializer, the computation of the size, merging, copying and
    swapping, and the service with its stub.  Arenas and reflection are left out.
    Every class is an instance of [MessageSpec].  The functions are named after
    their class, [X::f] is [X_f]; an enum field is the [int] it is stored as. *)

From S2P Require Import Prelude ProtoWire ProtoVarint ProtoMsg.

(** ** Enums *)

(** [src/global_lock_service/brpc/global_lock_service.pb.cc:413-423 RpcLockMode_IsValid] *)
Definition RpcLockMode_IsValid (value : Z) : bool :=
  match value with
  | 0 | 1 | 2 | 3 => true
  | _ => false
  end.

(** [src/global_lock_service/brpc/global_lock_service.pb.cc:429-442 RpcRC_IsValid] *)
Definition RpcRC_IsValid (value : Z) : bool :=
  match value with
  | 0 | 1 | 2 | 3 | 4 | 5 | 6 => true
  | _ => false
  end.

(** ** [LockRemoteRequest] *)

(** [src/global_lock_service/brpc/global_lock_service.pb.h:343-357 LockRemoteRequest] *)
Record LockRemoteRequest := mkLockRemoteRequest {
  LockRemoteRequest_page_buf_ : bytes;
  LockRemoteRequest_page_id_ : Z;
  LockRemoteRequest_instance_id_ : Z;
  LockRemoteRequest_req_mode_ : Z;
  LockRemoteRequest_count_ : Z;
  LockRemoteRequest_internal_metadata_ : InternalMetadata }.

(** [src/global_lock_service/brpc/global_lock_service.pb.h:2089-2092 LockRemoteRequest::_internal_set_page_buf] *)
Definition LockRemoteRequest_set_page_buf (value : bytes) (m : LockRemoteRequest) : LockRemoteRequest :=
  let '(mkLockRemoteRequest _ page_id instance_id req_mode count md) := m in mkLockRemoteRequest value page_id instance_id req_mode count md.

(** [src/global_lock_service/brpc/global_lock_service.pb.h:2041-2048 LockRemoteRequest::_internal_set_page_id] *)
Definition LockRemoteRequest_set_page_id (value : Z) (m : LockRemoteRequest) : LockRemoteRequest :=
  let '(mkLockRemoteRequest page_buf _ instance_id req_mode count md) := m in mkLockRemoteRequest page_buf value instance_id req_mode count md.

(** [src/global_lock_service/brpc/global_lock_service.pb.h:2021-2028 LockRemoteRequest::_internal_set_instance_id] *)
Definition LockRemoteRequest_set_instance_id (value : Z) (m : LockRemoteRequest) : LockRemoteRequest :=
  let '(mkLockRemoteRequest page_buf page_id _ req_mode count md) := m in mkLockRemoteRequest page_buf page_id value req_mode count md.

(** [src/global_lock_service/brpc/global_lock_service.pb.h:2061-2068 LockRemoteRequest::_internal_set_req_mode] *)
Definition LockRemoteRequest_set_req_mode (value : Z) (m : LockRemoteRequest) : LockRemoteRequest :=
  let '(mkLockRemoteRequest page_buf page_id instance_id _ count md) := m in mkLockRemoteRequest page_buf page_id instance_id value count md.

(** [src/global_lock_service/brpc/global_lock_service.pb.h:2143-2150 LockRemoteRequest::_internal_set_count] *)
Definition LockRemoteRequest_set_count (value : Z) (m : LockRemoteRequest) : LockRemoteRequest :=
  let '(mkLockRemoteRequest page_buf page_id instance_id req_mode _ md) := m in mkLockRemoteRequest page_buf page_id instance_id req_mode value md.

Definition LockRemoteRequest_set_metadata (metadata : InternalMetadata) (m : LockRemoteRequest) : LockRemoteRequest :=
  let '(mkLockRemoteRequest page_buf page_id instance_id req_mode count _) := m in mkLockRemoteRequest page_buf page_id instance_id req_mode count metadata.

(** [src/global_lock_service/brpc/global_lock_service.pb.cc:473-479 LockRemoteRequest::SharedCtor] *)
Definition LockRemoteRequest_SharedCtor : LockRemoteRequest := mkLockRemoteRequest [] 0 0 0 0 None.

(** [src/global_lock_service/brpc/global_lock_service.pb.cc:507-518 LockRemoteRequest::Clear] *)
Definition LockRemoteRequest_Clear (m : LockRemoteRequest) : LockRemoteRequest := mkLockRemoteRequest [] 0 0 0 0 (md_Clear (LockRemoteRequest_internal_metadata_ m)).

(** [src/global_lock_service/brpc/global_lock_service.pb.cc:740-750 LockRemoteRequest::InternalSwap] *)
Definition LockRemoteRequest_InternalSwap (m other : LockRemoteRequest) : LockRemoteRequest * LockRemoteRequest :=
  let '(mkLockRemoteRequest page_buf page_id instance_id req_mode count md) := m in
  let '(mkLockRemoteRequest page_buf' page_id' instance_id' req_mode' count' md') := other in
  let '(swapped, swapped') := md_Swap md md' in
  (mkLockRemoteRequest page_buf' page_id' instance_id' req_mode' count' swapped, mkLockRemoteRequest page_buf page_id instance_id req_mode count swapped').

Section LockRemoteRequest.
Context `{Protobuf}.

(** [src/global_lock_service/brpc/global_lock_service.pb.cc:459-471 LockRemoteRequest] *)
Definition LockRemoteRequest_copy (from : LockRemoteRequest) : LockRemoteRequest :=
  let '(mkLockRemoteRequest page_buf page_id instance_id req_mode count md) := from in mkLockRemoteRequest (if negb (length page_buf =? 0)%nat then page_buf else []) page_id instance_id req_mode count (md_MergeFrom None md).

(** [src/global_lock_service/brpc/global_lock_service.pb.cc:520-585 LockRemoteRequest::_InternalParse] *)
Definition LockRemoteRequest_InternalParse (ctx : ParseContext) (fuel : nat) (p : ptr) (m : LockRemoteRequest) : res (option (ptr * ParseContext * LockRemoteRequest)) :=
  parse_loop LockRemoteRequest_internal_metadata_ LockRemoteRequest_set_metadata (fun tag =>
    match Z.shiftr tag 3 with
    | 1 =>
        if u8 tag =? 8 then Some (fun p m =>
          '(val, p) ←! ReadVarint64 p;
          Ret (Some (LockRemoteRequest_set_instance_id (i32 val) m, p))) else None
    | 2 =>
        if u8 tag =? 16 then Some (fun p m =>
          '(val, p) ←! ReadVarint64 p;
          Ret (Some (LockRemoteRequest_set_page_id val m, p))) else None
    | 3 =>
        if u8 tag =? 24 then Some (fun p m =>
          '(val, p) ←! ReadVarint64 p;
          Ret (Some (LockRemoteRequest_set_req_mode (i32 val) m, p))) else None
    | 4 =>
        if u8 tag =? 34 then Some (fun p m =>
          '(str, p) ←! InlineGreedyStringParser ctx p;
          Ret (Some (LockRemoteRequest_set_page_buf str m, p))) else None
    | 5 =>
        if u8 tag =? 40 then Some (fun p m =>
          '(val, p) ←! ReadVarint64 p;
          Ret (Some (LockRemoteRequest_set_count val m, p))) else None
    | _ => None
    end) ctx fuel p m.

(** [src/global_lock_service/brpc/global_lock_service.pb.cc:587-630 LockRemoteRequest::_InternalSerialize] *)
Definition LockRemoteRequest_InternalSerialize (m : LockRemoteRequest) (s : EpsCopyOutputStream) : res EpsCopyOutputStream :=
  s ← (if negb (LockRemoteRequest_instance_id_ m =? 0) then s ← EnsureSpace s; WriteInt32ToArray 1 (LockRemoteRequest_instance_id_ m) s else Ret s);
  s ← (if negb (LockRemoteRequest_page_id_ m =? 0) then s ← EnsureSpace s; WriteUInt64ToArray 2 (LockRemoteRequest_page_id_ m) s else Ret s);
  s ← (if negb (LockRemoteRequest_req_mode_ m =? 0) then s ← EnsureSpace s; WriteEnumToArray 3 (LockRemoteRequest_req_mode_ m) s else Ret s);
  s ← (if 0 <? Z.of_nat (length (LockRemoteRequest_page_buf_ m)) then WriteBytesMaybeAliased 4 (LockRemoteRequest_page_buf_ m) s else Ret s);
  s ← (if negb (LockRemoteRequest_count_ m =? 0) then s ← EnsureSpace s; WriteUInt64ToArray 5 (LockRemoteRequest_count_ m) s else Ret s);
  if have_unknown_fields (LockRemoteRequest_internal_metadata_ m) then InternalSerializeUnknownFieldsToArray (unknown_fields (LockRemoteRequest_internal_metadata_ m)) s else Ret s.

(** [src/global_lock_service/brpc/global_lock_service.pb.cc:632-681 LockRemoteRequest::ByteSizeLong] *)
Definition LockRemoteRequest_ByteSizeLong (m : LockRemoteRequest) : Z * Z :=
  let total_size := 0 in
  let total_size := if 0 <? Z.of_nat (length (LockRemoteRequest_page_buf_ m)) then u64 (total_size + u64 (1 + BytesSize (LockRemoteRequest_page_buf_ m))) else total_size in
  let total_size := if negb (LockRemoteRequest_page_id_ m =? 0) then u64 (total_size + u64 (1 + UInt64Size (LockRemoteRequest_page_id_ m))) else total_size in
  let total_size := if negb (LockRemoteRequest_instance_id_ m =? 0) then u64 (total_size + u64 (1 + Int32Size (LockRemoteRequest_instance_id_ m))) else total_size in
  let total_size := if negb (LockRemoteRequest_req_mode_ m =? 0) then u64 (total_size + u64 (1 + EnumSize (LockRemoteRequest_req_mode_ m))) else total_size in
  let total_size := if negb (LockRemoteRequest_count_ m =? 0) then u64 (total_size + u64 (1 + UInt64Size (LockRemoteRequest_count_ m))) else total_size in
  if have_unknown_fields (LockRemoteRequest_internal_metadata_ m) then ComputeUnknownFieldsSize (unknown_fields (LockRemoteRequest_internal_metadata_ m)) total_size
  else (total_size, ToCachedSize total_size).

(** [src/global_lock_service/brpc/global_lock_service.pb.cc:698-720 LockRemoteRequest::MergeFrom] *)
Definition LockRemoteRequest_MergeFrom (m from : LockRemoteRequest) : LockRemoteRequest :=
  let m := LockRemoteRequest_set_metadata (md_MergeFrom (LockRemoteRequest_internal_metadata_ m) (LockRemoteRequest_internal_metadata_ from)) m in
  let m := if 0 <? Z.of_nat (length (LockRemoteRequest_page_buf_ from)) then LockRemoteRequest_set_page_buf (LockRemoteRequest_page_buf_ from) m else m in
  let m := if negb (LockRemoteRequest_page_id_ from =? 0) then LockRemoteRequest_set_page_id (LockRemoteRequest_page_id_ from) m else m in
  let m := if negb (LockRemoteRequest_instance_id_ from =? 0) then LockRemoteRequest_set_instance_id (LockRemoteRequest_instance_id_ from) m else m in
  let m := if negb (LockRemoteRequest_req_mode_ from =? 0) then LockRemoteRequest_set_req_mode (LockRemoteRequest_req_mode_ from) m else m in
  let m := if negb (LockRemoteRequest_count_ from =? 0) then LockRemoteRequest_set_count (LockRemoteRequest_count_ from) m else m in
  m.

(** For two objects.  [src/global_lock_service/brpc/global_lock_service.pb.cc:729-734 LockRemoteRequest::CopyFrom] *)
Definition LockRemoteRequest_CopyFrom (m from : LockRemoteRequest) : LockRemoteRequest := LockRemoteRequest_MergeFrom (LockRemoteRequest_Clear m) from.

#[export] Instance LockRemoteRequest_Message : Message LockRemoteRequest := {
  New := LockRemoteRequest_SharedCtor;
  metadata := LockRemoteRequest_internal_metadata_;
  set_metadata := LockRemoteRequest_set_metadata;
  Clear := LockRemoteRequest_Clear;
  InternalParse := LockRemoteRequest_InternalParse;
  InternalSerialize := LockRemoteRequest_InternalSerialize;
  ByteSizeLong := LockRemoteRequest_ByteSizeLong;
  copy_ctor := LockRemoteRequest_copy;
  MergeFrom := LockRemoteRequest_MergeFrom;
  CopyFrom := LockRemoteRequest_CopyFrom;
  InternalSwap := LockRemoteRequest_InternalSwap }.

Definition LockRemoteRequest_table : list (field_spec LockRemoteRequest) :=
  [VarintField 1 (fun m => u64 (LockRemoteRequest_instance_id_ m)) (fun v => LockRemoteRequest_set_instance_id (i32 v));
   VarintField 2 LockRemoteRequest_page_id_ LockRemoteRequest_set_page_id;
   VarintField 3 (fun m => u64 (LockRemoteRequest_req_mode_ m)) (fun v => LockRemoteRequest_set_req_mode (i32 v));
   BytesField 4 false LockRemoteRequest_page_buf_ LockRemoteRequest_set_page_buf;
   VarintField 5 LockRemoteRequest_count_ LockRemoteRequest_set_count].

Definition LockRemoteRequest_in_range (m : LockRemoteRequest) : Prop :=
  - 2 ^ 31 <= LockRemoteRequest_instance_id_ m < 2 ^ 31
  /\ is_u64 (LockRemoteRequest_page_id_ m)
  /\ - 2 ^ 31 <= LockRemoteRequest_req_mode_ m < 2 ^ 31
  /\ Z.of_nat (length (LockRemoteRequest_page_buf_ m)) <= max_string
  /\ is_u64 (LockRemoteRequest_count_ m).

#[local] Hint Unfold LockRemoteRequest_Message LockRemoteRequest_table LockRemoteRequest_in_range LockRemoteRequest_InternalSerialize LockRemoteRequest_ByteSizeLong LockRemoteRequest_MergeFrom LockRemoteRequest_CopyFrom LockRemoteRequest_Clear LockRemoteRequest_SharedCtor LockRemoteRequest_copy LockRemoteRequest_InternalSwap LockRemoteRequest_set_metadata LockRemoteRequest_set_page_buf LockRemoteRequest_set_page_id LockRemoteRequest_set_instance_id LockRemoteRequest_set_req_mode LockRemoteRequest_set_count : messages.

#[export] Instance LockRemoteRequest_Spec : MessageSpec LockRemoteRequest.
Proof. message_spec (Build_MessageSpec _ LockRemoteRequest _ LockRemoteRequest_table LockRemoteRequest_in_range). Defined.
End LockRemoteRequest.

(** ** [LockRemoteReply] *)

(** [src/global_lock_service/brpc/global_lock_service.pb.h:511-523 LockRemoteReply] *)
Record LockRemoteReply := mkLockRemoteReply {
  LockRemoteReply_page_buf_ : bytes;
  LockRemoteReply_count_ : Z;
  LockRemoteReply_rc_ : Z;
  LockRemoteReply_internal_metadata_ : InternalMetadata }.

(** [src/global_lock_service/brpc/global_lock_service.pb.h:2195-2198 LockRemoteReply::_internal_set_page_buf] *)
Definition LockRemoteReply_set_page_buf (value : bytes) (m : LockRemoteReply) : LockRemoteReply :=
  let '(mkLockRemoteReply _ count rc md) := m in mkLockRemoteReply value count rc md.

(** [src/global_lock_service/brpc/global_lock_service.pb.h:2249-2256 LockRemoteReply::_internal_set_count] *)
Definition LockRemoteReply_set_count (value : Z) (m : LockRemoteReply) : LockRemoteReply :=
  let '(mkLockRemoteReply page_buf _ rc md) := m in mkLockRemoteReply page_buf value rc md.

(** [src/global_lock_service/brpc/global_lock_service.pb.h:2167-2174 LockRemoteReply::_internal_set_rc] *)
Definition LockRemoteReply_set_rc (value : Z) (m : LockRemoteReply) : LockRemoteReply :=
  let '(mkLockRemoteReply page_buf count _ md) := m in mkLockRemoteReply page_buf count value md.

Definition LockRemoteReply_set_metadata (metadata : InternalMetadata) (m : LockRemoteReply) : LockRemoteReply :=
  let '(mkLockRemoteReply page_buf count rc _) := m in mkLockRemoteReply page_buf count rc metadata.

(** [src/global_lock_service/brpc/global_lock_service.pb.cc:785-791 LockRemoteReply::SharedCtor] *)
Definition LockRemoteReply_SharedCtor : LockRemoteReply := mkLockRemoteReply [] 0 0 None.

(** [src/global_lock_service/brpc/global_lock_service.pb.cc:819-830 LockRemoteReply::Clear] *)
Definition LockRemoteReply_Clear (m : LockRemoteReply) : LockRemoteReply := mkLockRemoteReply [] 0 0 (md_Clear (LockRemoteReply_internal_metadata_ m)).

(** [src/global_lock_service/brpc/global_lock_service.pb.cc:1006-1016 LockRemoteReply::InternalSwap] *)
Definition LockRemoteReply_InternalSwap (m other : LockRemoteReply) : LockRemoteReply * LockRemoteReply :=
  let '(mkLockRemoteReply page_buf count rc md) := m in
  let '(mkLockRemoteReply page_buf' count' rc' md') := other in
  let '(swapped, swapped') := md_Swap md md' in
  (mkLockRemoteReply page_buf' count' rc' swapped, mkLockRemoteReply page_buf count rc swapped').

Section LockRemoteReply.
Context `{Protobuf}.

(** [src/global_lock_service/brpc/global_lock_service.pb.cc:771-783 LockRemoteReply] *)
Definition LockRemoteReply_copy (from : LockRemoteReply) : LockRemoteReply :=
  let '(mkLockRemoteReply page_buf count rc md) := from in mkLockRemoteReply (if negb (length page_buf =? 0)%nat then page_buf else []) count rc (md_MergeFrom None md).

(** [src/global_lock_service/brpc/global_lock_service.pb.cc:832-883 LockRemoteReply::_InternalParse] *)
Definition LockRemoteReply_InternalParse (ctx : ParseContext) (fuel : nat) (p : ptr) (m : LockRemoteReply) : res (option (ptr * ParseContext * LockRemoteReply)) :=
  parse_loop LockRemoteReply_internal_metadata_ LockRemoteReply_set_metadata (fun tag =>
    match Z.shiftr tag 3 with
    | 1 =>
        if u8 tag =? 8 then Some (fun p m =>
          '(val, p) ←! ReadVarint64 p;
          Ret (Some (LockRemoteReply_set_rc (i32 val) m, p))) else None
    | 2 =>
        if u8 tag =? 18 then Some (fun p m =>
          '(str, p) ←! InlineGreedyStringParser ctx p;
          Ret (Some (LockRemoteReply_set_page_buf str m, p))) else None
    | 3 =>
        if u8 tag =? 24 then Some (fun p m =>
          '(val, p) ←! ReadVarint64 p;
          Ret (Some (LockRemoteReply_set_count val m, p))) else None
    | _ => None
    end) ctx fuel p m.

(** [src/global_lock_service/brpc/global_lock_service.pb.cc:885-916 LockRemoteReply::_InternalSerialize] *)
Definition LockRemoteReply_InternalSerialize (m : LockRemoteReply) (s : EpsCopyOutputStream) : res EpsCopyOutputStream :=
  s ← (if negb (LockRemoteReply_rc_ m =? 0) then s ← EnsureSpace s; WriteEnumToArray 1 (LockRemoteReply_rc_ m) s else Ret s);
  s ← (if 0 <? Z.of_nat (length (LockRemoteReply_page_buf_ m)) then WriteBytesMaybeAliased 2 (LockRemoteReply_page_buf_ m) s else Ret s);
  s ← (if negb (LockRemoteReply_count_ m =? 0) then s ← EnsureSpace s; WriteUInt64ToArray 3 (LockRemoteReply_count_ m) s else Ret s);
  if have_unknown_fields (LockRemoteReply_internal_metadata_ m) then InternalSerializeUnknownFieldsToArray (unknown_fields (LockRemoteReply_internal_metadata_ m)) s else Ret s.

(** [src/global_lock_service/brpc/global_lock_service.pb.cc:918-953 LockRemoteReply::ByteSizeLong] *)
Definition LockRemoteReply_ByteSizeLong (m : LockRemoteReply) : Z * Z :=
  let total_size := 0 in
  let total_size := if 0 <? Z.of_nat (length (LockRemoteReply_page_buf_ m)) then u64 (total_size + u64 (1 + BytesSize (LockRemoteReply_page_buf_ m))) else total_size in
  let total_size := if negb (LockRemoteReply_count_ m =? 0) then u64 (total_size + u64 (1 + UInt64Size (LockRemoteReply_count_ m))) else total_size in
  let total_size := if negb (LockRemoteReply_rc_ m =? 0) then u64 (total_size + u64 (1 + EnumSize (LockRemoteReply_rc_ m))) else total_size in
  if have_unknown_fields (LockRemoteReply_internal_metadata_ m) then ComputeUnknownFieldsSize (unknown_fields (LockRemoteReply_internal_metadata_ m)) total_size
  else (total_size, ToCachedSize total_size).

(** [src/global_lock_service/brpc/global_lock_service.pb.cc:970-986 LockRemoteReply::MergeFrom] *)
Definition LockRemoteReply_MergeFrom (m from : LockRemoteReply) : LockRemoteReply :=
  let m := LockRemoteReply_set_metadata (md_MergeFrom (LockRemoteReply_internal_metadata_ m) (LockRemoteReply_internal_metadata_ from)) m in
  let m := if 0 <? Z.of_nat (length (LockRemoteReply_page_buf_ from)) then LockRemoteReply_set_page_buf (LockRemoteReply_page_buf_ from) m else m in
  let m := if negb (LockRemoteReply_count_ from =? 0) then LockRemoteReply_set_count (LockRemoteReply_count_ from) m else m in
  let m := if negb (LockRemoteReply_rc_ from =? 0) then LockRemoteReply_set_rc (LockRemoteReply_rc_ from) m else m in
  m.

(** For two objects.  [src/global_lock_service/brpc/global_lock_service.pb.cc:995-1000 LockRemoteReply::CopyFrom] *)
Definition LockRemoteReply_CopyFrom (m from : LockRemoteReply) : LockRemoteReply := LockRemoteReply_MergeFrom (LockRemoteReply_Clear m) from.

#[export] Instance LockRemoteReply_Message : Message LockRemoteReply := {
  New := LockRemoteReply_SharedCtor;
  metadata := LockRemoteReply_internal_metadata_;
  set_metadata := LockRemoteReply_set_metadata;
  Clear := LockRemoteReply_Clear;
  InternalParse := LockRemoteReply_InternalParse;
  InternalSerialize := LockRemoteReply_InternalSerialize;
  ByteSizeLong := LockRemoteReply_ByteSizeLong;
  copy_ctor := LockRemoteReply_copy;
  MergeFrom := LockRemoteReply_MergeFrom;
  CopyFrom := LockRemoteReply_CopyFrom;
  InternalSwap := LockRemoteReply_InternalSwap }.

Definition LockRemoteReply_table : list (field_spec LockRemoteReply) :=
  [VarintField 1 (fun m => u64 (LockRemoteReply_rc_ m)) (fun v => LockRemoteReply_set_rc (i32 v));
   BytesField 2 false LockRemoteReply_page_buf_ LockRemoteReply_set_page_buf;
   VarintField 3 LockRemoteReply_count_ LockRemoteReply_set_count].

Definition LockRemoteReply_in_range (m : LockRemoteReply) : Prop :=
  - 2 ^ 31 <= LockRemoteReply_rc_ m < 2 ^ 31
  /\ Z.of_nat (length (LockRemoteReply_page_buf_ m)) <= max_string
  /\ is_u64 (LockRemoteReply_count_ m).

#[local] Hint Unfold LockRemoteReply_Message LockRemoteReply_table LockRemoteReply_in_range LockRemoteReply_InternalSerialize LockRemoteReply_ByteSizeLong LockRemoteReply_MergeFrom LockRemoteReply_CopyFrom LockRemoteReply_Clear LockRemoteReply_SharedCtor LockRemoteReply_copy LockRemoteReply_InternalSwap LockRemoteReply_set_metadata LockRemoteReply_set_page_buf LockRemoteReply_set_count LockRemoteReply_set_rc : messages.

#[export] Instance LockRemoteReply_Spec : MessageSpec LockRemoteReply.
Proof. message_spec (Build_MessageSpec _ LockRemoteReply _ LockRemoteReply_table LockRemoteReply_in_range). Defined.
End LockRemoteReply.

(** ** [InstanceInitDoneRequest] *)

(** [src/global_lock_service/brpc/global_lock_service.pb.h:650-660 InstanceInitDoneRequest] *)
Record InstanceInitDoneRequest := mkInstanceInitDoneRequest {
  InstanceInitDoneRequest_instance_id_ : Z;
  InstanceInitDoneRequest_internal_metadata_ : InternalMetadata }.

(** [src/global_lock_service/brpc/global_lock_service.pb.h:2273-2280 InstanceInitDoneRequest::_internal_set_instance_id] *)
Definition InstanceInitDoneRequest_set_instance_id (value : Z) (m : InstanceInitDoneRequest) : InstanceInitDoneRequest :=
  let '(mkInstanceInitDoneRequest _ md) := m in mkInstanceInitDoneRequest value md.

Definition InstanceInitDoneRequest_set_metadata (metadata : InternalMetadata) (m : InstanceInitDoneRequest) : InstanceInitDoneRequest :=
  let '(mkInstanceInitDoneRequest instance_id _) := m in mkInstanceInitDoneRequest instance_id metadata.

(** [src/global_lock_service/brpc/global_lock_service.pb.cc:1044-1046 InstanceInitDoneRequest::SharedCtor] *)
Definition InstanceInitDoneRequest_SharedCtor : InstanceInitDoneRequest := mkInstanceInitDoneRequest 0 None.

(** [src/global_lock_service/brpc/global_lock_service.pb.cc:1073-1081 InstanceInitDoneRequest::Clear] *)
Definition InstanceInitDoneRequest_Clear (m : InstanceInitDoneRequest) : InstanceInitDoneRequest := mkInstanceInitDoneRequest 0 (md_Clear (InstanceInitDoneRequest_internal_metadata_ m)).

(** [src/global_lock_service/brpc/global_lock_service.pb.cc:1209-1213 InstanceInitDoneRequest::InternalSwap] *)
Definition InstanceInitDoneRequest_InternalSwap (m other : InstanceInitDoneRequest) : InstanceInitDoneRequest * InstanceInitDoneRequest :=
  let '(mkInstanceInitDoneRequest instance_id md) := m in
  let '(mkInstanceInitDoneRequest instance_id' md') := other in
  let '(swapped, swapped') := md_Swap md md' in
  (mkInstanceInitDoneRequest instance_id' swapped, mkInstanceInitDoneRequest instance_id swapped').

Section InstanceInitDoneRequest.
Context `{Protobuf}.

(** [src/global_lock_service/brpc/global_lock_service.pb.cc:1037-1042 InstanceInitDoneRequest] *)
Definition InstanceInitDoneRequest_copy (from : InstanceInitDoneRequest) : InstanceInitDoneRequest :=
  let '(mkInstanceInitDoneRequest instance_id md) := from in mkInstanceInitDoneRequest instance_id (md_MergeFrom None md).

(** [src/global_lock_service/brpc/global_lock_service.pb.cc:1083-1118 InstanceInitDoneRequest::_InternalParse] *)
Definition InstanceInitDoneRequest_InternalParse (ctx : ParseContext) (fuel : nat) (p : ptr) (m : InstanceInitDoneRequest) : res (option (ptr * ParseContext * InstanceInitDoneRequest)) :=
  parse_loop InstanceInitDoneRequest_internal_metadata_ InstanceInitDoneRequest_set_metadata (fun tag =>
    match Z.shiftr tag 3 with
    | 1 =>
        if u8 tag =? 8 then Some (fun p m =>
          '(val, p) ←! ReadVarint64 p;
          Ret (Some (InstanceInitDoneRequest_set_instance_id (i32 val) m, p))) else None
    | _ => None
    end) ctx fuel p m.

(** [src/global_lock_service/brpc/global_lock_service.pb.cc:1120-1138 InstanceInitDoneRequest::_InternalSerialize] *)
Definition InstanceInitDoneRequest_InternalSerialize (m : InstanceInitDoneRequest) (s : EpsCopyOutputStream) : res EpsCopyOutputStream :=
  s ← (if negb (InstanceInitDoneRequest_instance_id_ m =? 0) then s ← EnsureSpace s; WriteInt32ToArray 1 (InstanceInitDoneRequest_instance_id_ m) s else Ret s);
  if have_unknown_fields (InstanceInitDoneRequest_internal_metadata_ m) then InternalSerializeUnknownFieldsToArray (unknown_fields (InstanceInitDoneRequest_internal_metadata_ m)) s else Ret s.

(** [src/global_lock_service/brpc/global_lock_service.pb.cc:1140-1162 InstanceInitDoneRequest::ByteSizeLong] *)
Definition InstanceInitDoneRequest_ByteSizeLong (m : InstanceInitDoneRequest) : Z * Z :=
  let total_size := 0 in
  let total_size := if negb (InstanceInitDoneRequest_instance_id_ m =? 0) then u64 (total_size + u64 (1 + Int32Size (InstanceInitDoneRequest_instance_id_ m))) else total_size in
  if have_unknown_fields (InstanceInitDoneRequest_internal_metadata_ m) then ComputeUnknownFieldsSize (unknown_fields (InstanceInitDoneRequest_internal_metadata_ m)) total_size
  else (total_size, ToCachedSize total_size).

(** [src/global_lock_service/brpc/global_lock_service.pb.cc:1179-1189 InstanceInitDoneRequest::MergeFrom] *)
Definition InstanceInitDoneRequest_MergeFrom (m from : InstanceInitDoneRequest) : InstanceInitDoneRequest :=
  let m := InstanceInitDoneRequest_set_metadata (md_MergeFrom (InstanceInitDoneRequest_internal_metadata_ m) (InstanceInitDoneRequest_internal_metadata_ from)) m in
  let m := if negb (InstanceInitDoneRequest_instance_id_ from =? 0) then InstanceInitDoneRequest_set_instance_id (InstanceInitDoneRequest_instance_id_ from) m else m in
  m.

(** For two objects.  [src/global_lock_service/brpc/global_lock_service.pb.cc:1198-1203 InstanceInitDoneRequest::CopyFrom] *)
Definition InstanceInitDoneRequest_CopyFrom (m from : InstanceInitDoneRequest) : InstanceInitDoneRequest := InstanceInitDoneRequest_MergeFrom (InstanceInitDoneRequest_Clear m) from.

#[export] Instance InstanceInitDoneRequest_Message : Message InstanceInitDoneRequest := {
  New := InstanceInitDoneRequest_SharedCtor;
  metadata := InstanceInitDoneRequest_internal_metadata_;
  set_metadata := InstanceInitDoneRequest_set_metadata;
  Clear := InstanceInitDoneRequest_Clear;
  InternalParse := InstanceInitDoneRequest_InternalParse;
  InternalSerialize := InstanceInitDoneRequest_InternalSerialize;
  ByteSizeLong := InstanceInitDoneRequest_ByteSizeLong;
  copy_ctor := InstanceInitDoneRequest_copy;
  MergeFrom := InstanceInitDoneRequest_MergeFrom;
  CopyFrom := InstanceInitDoneRequest_CopyFrom;
  InternalSwap := InstanceInitDoneRequest_InternalSwap }.

Definition InstanceInitDoneRequest_table : list (field_spec InstanceInitDoneRequest) :=
  [VarintField 1 (fun m => u64 (InstanceInitDoneRequest_instance_id_ m)) (fun v => InstanceInitDoneRequest_set_instance_id (i32 v))].

Definition InstanceInitDoneRequest_in_range (m : InstanceInitDoneRequest) : Prop :=
  - 2 ^ 31 <= InstanceInitDoneRequest_instance_id_ m < 2 ^ 31.

#[local] Hint Unfold InstanceInitDoneRequest_Message InstanceInitDoneRequest_table InstanceInitDoneRequest_in_range InstanceInitDoneRequest_InternalSerialize InstanceInitDoneRequest_ByteSizeLong InstanceInitDoneRequest_MergeFrom InstanceInitDoneRequest_CopyFrom InstanceInitDoneRequest_Clear InstanceInitDoneRequest_SharedCtor InstanceInitDoneRequest_copy InstanceInitDoneRequest_InternalSwap InstanceInitDoneRequest_set_metadata InstanceInitDoneRequest_set_instance_id : messages.

#[export] Instance InstanceInitDoneRequest_Spec : MessageSpec InstanceInitDoneRequest.
Proof. message_spec (Build_MessageSpec _ InstanceInitDoneRequest _ InstanceInitDoneRequest_table InstanceInitDoneRequest_in_range). Defined.
End InstanceInitDoneRequest.

(** ** [InstanceInitDoneReply] *)

(** [src/global_lock_service/brpc/global_lock_service.pb.h:775-784 InstanceInitDoneReply] *)
Record InstanceInitDoneReply := mkInstanceInitDoneReply {
  InstanceInitDoneReply_internal_metadata_ : InternalMetadata }.

Definition InstanceInitDoneReply_set_metadata (metadata : InternalMetadata) (m : InstanceInitDoneReply) : InstanceInitDoneReply :=
  let '(mkInstanceInitDoneReply _) := m in mkInstanceInitDoneReply metadata.

(** [src/global_lock_service/brpc/global_lock_service.pb.cc:1240-1241 InstanceInitDoneReply::SharedCtor] *)
Definition InstanceInitDoneReply_SharedCtor : InstanceInitDoneReply := mkInstanceInitDoneReply None.

(** [src/global_lock_service/brpc/global_lock_service.pb.cc:1268-1275 InstanceInitDoneReply::Clear] *)
Definition InstanceInitDoneReply_Clear (m : InstanceInitDoneReply) : InstanceInitDoneReply := mkInstanceInitDoneReply (md_Clear (InstanceInitDoneReply_internal_metadata_ m)).

(** [src/global_lock_service/brpc/global_lock_service.pb.cc:1375-1378 InstanceInitDoneReply::InternalSwap] *)
Definition InstanceInitDoneReply_InternalSwap (m other : InstanceInitDoneReply) : InstanceInitDoneReply * InstanceInitDoneReply :=
  let '(mkInstanceInitDoneReply md) := m in
  let '(mkInstanceInitDoneReply md') := other in
  let '(swapped, swapped') := md_Swap md md' in
  (mkInstanceInitDoneReply swapped, mkInstanceInitDoneReply swapped').

Section InstanceInitDoneReply.
Context `{Protobuf}.

(** [src/global_lock_service/brpc/global_lock_service.pb.cc:1234-1238 InstanceInitDoneReply] *)
Definition InstanceInitDoneReply_copy (from : InstanceInitDoneReply) : InstanceInitDoneReply :=
  let '(mkInstanceInitDoneReply md) := from in mkInstanceInitDoneReply (md_MergeFrom None md).

(** [src/global_lock_service/brpc/global_lock_service.pb.cc:1277-1300 InstanceInitDoneReply::_InternalParse] *)
Definition InstanceInitDoneReply_InternalParse (ctx : ParseContext) (fuel : nat) (p : ptr) (m : InstanceInitDoneReply) : res (option (ptr * ParseContext * InstanceInitDoneReply)) :=
  parse_loop InstanceInitDoneReply_internal_metadata_ InstanceInitDoneReply_set_metadata (fun _ => None) ctx fuel p m.

(** [src/global_lock_service/brpc/global_lock_service.pb.cc:1302-1314 InstanceInitDoneReply::_InternalSerialize] *)
Definition InstanceInitDoneReply_InternalSerialize (m : InstanceInitDoneReply) (s : EpsCopyOutputStream) : res EpsCopyOutputStream :=
  if have_unknown_fields (InstanceInitDoneReply_internal_metadata_ m) then InternalSerializeUnknownFieldsToArray (unknown_fields (InstanceInitDoneReply_internal_metadata_ m)) s else Ret s.

(** [src/global_lock_service/brpc/global_lock_service.pb.cc:1316-1331 InstanceInitDoneReply::ByteSizeLong] *)
Definition InstanceInitDoneReply_ByteSizeLong (m : InstanceInitDoneReply) : Z * Z :=
  let total_size := 0 in
  if have_unknown_fields (InstanceInitDoneReply_internal_metadata_ m) then ComputeUnknownFieldsSize (unknown_fields (InstanceInitDoneReply_internal_metadata_ m)) total_size
  else (total_size, ToCachedSize total_size).

(** [src/global_lock_service/brpc/global_lock_service.pb.cc:1348-1355 InstanceInitDoneReply::MergeFrom] *)
Definition InstanceInitDoneReply_MergeFrom (m from : InstanceInitDoneReply) : InstanceInitDoneReply :=
  let m := InstanceInitDoneReply_set_metadata (md_MergeFrom (InstanceInitDoneReply_internal_metadata_ m) (InstanceInitDoneReply_internal_metadata_ from)) m in
  m.

(** For two objects.  [src/global_lock_service/brpc/global_lock_service.pb.cc:1364-1369 InstanceInitDoneReply::CopyFrom] *)
Definition InstanceInitDoneReply_CopyFrom (m from : InstanceInitDoneReply) : InstanceInitDoneReply := InstanceInitDoneReply_MergeFrom (InstanceInitDoneReply_Clear m) from.

#[export] Instance InstanceInitDoneReply_Message : Message InstanceInitDoneReply := {
  New := InstanceInitDoneReply_SharedCtor;
  metadata := InstanceInitDoneReply_internal_metadata_;
  set_metadata := InstanceInitDoneReply_set_metadata;
  Clear := InstanceInitDoneReply_Clear;
  InternalParse := InstanceInitDoneReply_InternalParse;
  InternalSerialize := InstanceInitDoneReply_InternalSerialize;
  ByteSizeLong := InstanceInitDoneReply_ByteSizeLong;
  copy_ctor := InstanceInitDoneReply_copy;
  MergeFrom := InstanceInitDoneReply_MergeFrom;
  CopyFrom := InstanceInitDoneReply_CopyFrom;
  InternalSwap := InstanceInitDoneReply_InternalSwap }.

Definition InstanceInitDoneReply_table : list (field_spec InstanceInitDoneReply) :=
  [].

Definition InstanceInitDoneReply_in_range (m : InstanceInitDoneReply) : Prop :=
  True.

#[local] Hint Unfold InstanceInitDoneReply_Message InstanceInitDoneReply_table InstanceInitDoneReply_in_range InstanceInitDoneReply_InternalSerialize InstanceInitDoneReply_ByteSizeLong InstanceInitDoneReply_MergeFrom InstanceInitDoneReply_CopyFrom InstanceInitDoneReply_Clear InstanceInitDoneReply_SharedCtor InstanceInitDoneReply_copy InstanceInitDoneReply_InternalSwap InstanceInitDoneReply_set_metadata : messages.

#[export] Instance InstanceInitDoneReply_Spec : MessageSpec InstanceInitDoneReply.
Proof. message_spec (Build_MessageSpec _ InstanceInitDoneReply _ InstanceInitDoneReply_table InstanceInitDoneReply_in_range). Defined.
End InstanceInitDoneReply.

(** ** [GlobalLockInitDoneRequest] *)

(** [src/global_lock_service/brpc/global_lock_service.pb.h:899-908 GlobalLockInitDoneRequest] *)
Record GlobalLockInitDoneRequest := mkGlobalLockInitDoneRequest {
  GlobalLockInitDoneRequest_internal_metadata_ : InternalMetadata }.

Definition GlobalLockInitDoneRequest_set_metadata (metadata : InternalMetadata) (m : GlobalLockInitDoneRequest) : GlobalLockInitDoneRequest :=
  let '(mkGlobalLockInitDoneRequest _) := m in mkGlobalLockInitDoneRequest metadata.

(** [src/global_lock_service/brpc/global_lock_service.pb.cc:1405-1406 GlobalLockInitDoneRequest::SharedCtor] *)
Definition GlobalLockInitDoneRequest_SharedCtor : GlobalLockInitDoneRequest := mkGlobalLockInitDoneRequest None.

(** [src/global_lock_service/brpc/global_lock_service.pb.cc:1433-1440 GlobalLockInitDoneRequest::Clear] *)
Definition GlobalLockInitDoneRequest_Clear (m : GlobalLockInitDoneRequest) : GlobalLockInitDoneRequest := mkGlobalLockInitDoneRequest (md_Clear (GlobalLockInitDoneRequest_internal_metadata_ m)).

(** [src/global_lock_service/brpc/global_lock_service.pb.cc:1540-1543 GlobalLockInitDoneRequest::InternalSwap] *)
Definition GlobalLockInitDoneRequest_InternalSwap (m other : GlobalLockInitDoneRequest) : GlobalLockInitDoneRequest * GlobalLockInitDoneRequest :=
  let '(mkGlobalLockInitDoneRequest md) := m in
  let '(mkGlobalLockInitDoneRequest md') := other in
  let '(swapped, swapped') := md_Swap md md' in
  (mkGlobalLockInitDoneRequest swapped, mkGlobalLockInitDoneRequest swapped').

Section GlobalLockInitDoneRequest.
Context `{Protobuf}.

(** [src/global_lock_service/brpc/global_lock_service.pb.cc:1399-1403 GlobalLockInitDoneRequest] *)
Definition GlobalLockInitDoneRequest_copy (from : GlobalLockInitDoneRequest) : GlobalLockInitDoneRequest :=
  let '(mkGlobalLockInitDoneRequest md) := from in mkGlobalLockInitDoneRequest (md_MergeFrom None md).

(** [src/global_lock_service/brpc/global_lock_service.pb.cc:1442-1465 GlobalLockInitDoneRequest::_InternalParse] *)
Definition GlobalLockInitDoneRequest_InternalParse (ctx : ParseContext) (fuel : nat) (p : ptr) (m : GlobalLockInitDoneRequest) : res (option (ptr * ParseContext * GlobalLockInitDoneRequest)) :=
  parse_loop GlobalLockInitDoneRequest_internal_metadata_ GlobalLockInitDoneRequest_set_metadata (fun _ => None) ctx fuel p m.

(** [src/global_lock_service/brpc/global_lock_service.pb.cc:1467-1479 GlobalLockInitDoneRequest::_InternalSerialize] *)
Definition GlobalLockInitDoneRequest_InternalSerialize (m : GlobalLockInitDoneRequest) (s : EpsCopyOutputStream) : res EpsCopyOutputStream :=
  if have_unknown_fields (GlobalLockInitDoneRequest_internal_metadata_ m) then InternalSerializeUnknownFieldsToArray (unknown_fields (GlobalLockInitDoneRequest_internal_metadata_ m)) s else Ret s.

(** [src/global_lock_service/brpc/global_lock_service.pb.cc:1481-1496 GlobalLockInitDoneRequest::ByteSizeLong] *)
Definition GlobalLockInitDoneRequest_ByteSizeLong (m : GlobalLockInitDoneRequest) : Z * Z :=
  let total_size := 0 in
  if have_unknown_fields (GlobalLockInitDoneRequest_internal_metadata_ m) then ComputeUnknownFieldsSize (unknown_fields (GlobalLockInitDoneRequest_internal_metadata_ m)) total_size
  else (total_size, ToCachedSize total_size).

(** [src/global_lock_service/brpc/global_lock_service.pb.cc:1513-1520 GlobalLockInitDoneRequest::MergeFrom] *)
Definition GlobalLockInitDoneRequest_MergeFrom (m from : GlobalLockInitDoneRequest) : GlobalLockInitDoneRequest :=
  let m := GlobalLockInitDoneRequest_set_metadata (md_MergeFrom (GlobalLockInitDoneRequest_internal_metadata_ m) (GlobalLockInitDoneRequest_internal_metadata_ from)) m in
  m.

(** For two objects.  [src/global_lock_service/brpc/global_lock_service.pb.cc:1529-1534 GlobalLockInitDoneRequest::CopyFrom] *)
Definition GlobalLockInitDoneRequest_CopyFrom (m from : GlobalLockInitDoneRequest) : GlobalLockInitDoneRequest := GlobalLockInitDoneRequest_MergeFrom (GlobalLockInitDoneRequest_Clear m) from.

#[export] Instance GlobalLockInitDoneRequest_Message : Message GlobalLockInitDoneRequest := {
  New := GlobalLockInitDoneRequest_SharedCtor;
  metadata := GlobalLockInitDoneRequest_internal_metadata_;
  set_metadata := GlobalLockInitDoneRequest_set_metadata;
  Clear := GlobalLockInitDoneRequest_Clear;
  InternalParse := GlobalLockInitDoneRequest_InternalParse;
  InternalSerialize := GlobalLockInitDoneRequest_InternalSerialize;
  ByteSizeLong := GlobalLockInitDoneRequest_ByteSizeLong;
  copy_ctor := GlobalLockInitDoneRequest_copy;
  MergeFrom := GlobalLockInitDoneRequest_MergeFrom;
  CopyFrom := GlobalLockInitDoneRequest_CopyFrom;
  InternalSwap := GlobalLockInitDoneRequest_InternalSwap }.

Definition GlobalLockInitDoneRequest_table : list (field_spec GlobalLockInitDoneRequest) :=
  [].

Definition GlobalLockInitDoneRequest_in_range (m : GlobalLockInitDoneRequest) : Prop :=
  True.

#[local] Hint Unfold GlobalLockInitDoneRequest_Message GlobalLockInitDoneRequest_table GlobalLockInitDoneRequest_in_range GlobalLockInitDoneRequest_InternalSerialize GlobalLockInitDoneRequest_ByteSizeLong GlobalLockInitDoneRequest_MergeFrom GlobalLockInitDoneRequest_CopyFrom GlobalLockInitDoneRequest_Clear GlobalLockInitDoneRequest_SharedCtor GlobalLockInitDoneRequest_copy GlobalLockInitDoneRequest_InternalSwap GlobalLockInitDoneRequest_set_metadata : messages.

#[export] Instance GlobalLockInitDoneRequest_Spec : MessageSpec GlobalLockInitDoneRequest.
Proof. message_spec (Build_MessageSpec _ GlobalLockInitDoneRequest _ GlobalLockInitDoneRequest_table GlobalLockInitDoneRequest_in_range). Defined.
End GlobalLockInitDoneRequest.

(** ** [GlobalLockInitDoneReply] *)

(** [src/global_lock_service/brpc/global_lock_service.pb.h:1035-1045 GlobalLockInitDoneReply] *)
Record GlobalLockInitDoneReply := mkGlobalLockInitDoneReply {
  GlobalLockInitDoneReply_init_done_ : bool;
  GlobalLockInitDoneReply_internal_metadata_ : InternalMetadata }.

(** [src/global_lock_service/brpc/global_lock_service.pb.h:2305-2312 GlobalLockInitDoneReply::_internal_set_init_done] *)
Definition GlobalLockInitDoneReply_set_init_done (value : bool) (m : GlobalLockInitDoneReply) : GlobalLockInitDoneReply :=
  let '(mkGlobalLockInitDoneReply _ md) := m in mkGlobalLockInitDoneReply value md.

Definition GlobalLockInitDoneReply_set_metadata (metadata : InternalMetadata) (m : GlobalLockInitDoneReply) : GlobalLockInitDoneReply :=
  let '(mkGlobalLockInitDoneReply init_done _) := m in mkGlobalLockInitDoneReply init_done metadata.

(** [src/global_lock_service/brpc/global_lock_service.pb.cc:1571-1573 GlobalLockInitDoneReply::SharedCtor] *)
Definition GlobalLockInitDoneReply_SharedCtor : GlobalLockInitDoneReply := mkGlobalLockInitDoneReply false None.

(** [src/global_lock_service/brpc/global_lock_service.pb.cc:1600-1608 GlobalLockInitDoneReply::Clear] *)
Definition GlobalLockInitDoneReply_Clear (m : GlobalLockInitDoneReply) : GlobalLockInitDoneReply := mkGlobalLockInitDoneReply false (md_Clear (GlobalLockInitDoneReply_internal_metadata_ m)).

(** [src/global_lock_service/brpc/global_lock_service.pb.cc:1734-1738 GlobalLockInitDoneReply::InternalSwap] *)
Definition GlobalLockInitDoneReply_InternalSwap (m other : GlobalLockInitDoneReply) : GlobalLockInitDoneReply * GlobalLockInitDoneReply :=
  let '(mkGlobalLockInitDoneReply init_done md) := m in
  let '(mkGlobalLockInitDoneReply init_done' md') := other in
  let '(swapped, swapped') := md_Swap md md' in
  (mkGlobalLockInitDoneReply init_done' swapped, mkGlobalLockInitDoneReply init_done swapped').

Section GlobalLockInitDoneReply.
Context `{Protobuf}.

(** [src/global_lock_service/brpc/global_lock_service.pb.cc:1564-1569 GlobalLockInitDoneReply] *)
Definition GlobalLockInitDoneReply_copy (from : GlobalLockInitDoneReply) : GlobalLockInitDoneReply :=
  let '(mkGlobalLockInitDoneReply init_done md) := from in mkGlobalLockInitDoneReply init_done (md_MergeFrom None md).

(** [src/global_lock_service/brpc/global_lock_service.pb.cc:1610-1645 GlobalLockInitDoneReply::_InternalParse] *)
Definition GlobalLockInitDoneReply_InternalParse (ctx : ParseContext) (fuel : nat) (p : ptr) (m : GlobalLockInitDoneReply) : res (option (ptr * ParseContext * GlobalLockInitDoneReply)) :=
  parse_loop GlobalLockInitDoneReply_internal_metadata_ GlobalLockInitDoneReply_set_metadata (fun tag =>
    match Z.shiftr tag 3 with
    | 1 =>
        if u8 tag =? 8 then Some (fun p m =>
          '(val, p) ←! ReadVarint64 p;
          Ret (Some (GlobalLockInitDoneReply_set_init_done (negb (val =? 0)) m, p))) else None
    | _ => None
    end) ctx fuel p m.

(** [src/global_lock_service/brpc/global_lock_service.pb.cc:1647-1665 GlobalLockInitDoneReply::_InternalSerialize] *)
Definition GlobalLockInitDoneReply_InternalSerialize (m : GlobalLockInitDoneReply) (s : EpsCopyOutputStream) : res EpsCopyOutputStream :=
  s ← (if GlobalLockInitDoneReply_init_done_ m then s ← EnsureSpace s; WriteBoolToArray 1 (GlobalLockInitDoneReply_init_done_ m) s else Ret s);
  if have_unknown_fields (GlobalLockInitDoneReply_internal_metadata_ m) then InternalSerializeUnknownFieldsToArray (unknown_fields (GlobalLockInitDoneReply_internal_metadata_ m)) s else Ret s.

(** [src/global_lock_service/brpc/global_lock_service.pb.cc:1667-1687 GlobalLockInitDoneReply::ByteSizeLong] *)
Definition GlobalLockInitDoneReply_ByteSizeLong (m : GlobalLockInitDoneReply) : Z * Z :=
  let total_size := 0 in
  let total_size := if GlobalLockInitDoneReply_init_done_ m then u64 (total_size + u64 (1 + 1)) else total_size in
  if have_unknown_fields (GlobalLockInitDoneReply_internal_metadata_ m) then ComputeUnknownFieldsSize (unknown_fields (GlobalLockInitDoneReply_internal_metadata_ m)) total_size
  else (total_size, ToCachedSize total_size).

(** [src/global_lock_service/brpc/global_lock_service.pb.cc:1704-1714 GlobalLockInitDoneReply::MergeFrom] *)
Definition GlobalLockInitDoneReply_MergeFrom (m from : GlobalLockInitDoneReply) : GlobalLockInitDoneReply :=
  let m := GlobalLockInitDoneReply_set_metadata (md_MergeFrom (GlobalLockInitDoneReply_internal_metadata_ m) (GlobalLockInitDoneReply_internal_metadata_ from)) m in
  let m := if GlobalLockInitDoneReply_init_done_ from then GlobalLockInitDoneReply_set_init_done (GlobalLockInitDoneReply_init_done_ from) m else m in
  m.

(** For two objects.  [src/global_lock_service/brpc/global_lock_service.pb.cc:1723-1728 GlobalLockInitDoneReply::CopyFrom] *)
Definition GlobalLockInitDoneReply_CopyFrom (m from : GlobalLockInitDoneReply) : GlobalLockInitDoneReply := GlobalLockInitDoneReply_MergeFrom (GlobalLockInitDoneReply_Clear m) from.

#[export] Instance GlobalLockInitDoneReply_Message : Message GlobalLockInitDoneReply := {
  New := GlobalLockInitDoneReply_SharedCtor;
  metadata := GlobalLockInitDoneReply_internal_metadata_;
  set_metadata := GlobalLockInitDoneReply_set_metadata;
  Clear := GlobalLockInitDoneReply_Clear;
  InternalParse := GlobalLockInitDoneReply_InternalParse;
  InternalSerialize := GlobalLockInitDoneReply_InternalSerialize;
  ByteSizeLong := GlobalLockInitDoneReply_ByteSizeLong;
  copy_ctor := GlobalLockInitDoneReply_copy;
  MergeFrom := GlobalLockInitDoneReply_MergeFrom;
  CopyFrom := GlobalLockInitDoneReply_CopyFrom;
  InternalSwap := GlobalLockInitDoneReply_InternalSwap }.

Definition GlobalLockInitDoneReply_table : list (field_spec GlobalLockInitDoneReply) :=
  [VarintField 1 (fun m => if GlobalLockInitDoneReply_init_done_ m then 1 else 0) (fun v => GlobalLockInitDoneReply_set_init_done (negb (v =? 0)))].

Definition GlobalLockInitDoneReply_in_range (m : GlobalLockInitDoneReply) : Prop :=
  True.

#[local] Hint Unfold GlobalLockInitDoneReply_Message GlobalLockInitDoneReply_table GlobalLockInitDoneReply_in_range GlobalLockInitDoneReply_InternalSerialize GlobalLockInitDoneReply_ByteSizeLong GlobalLockInitDoneReply_MergeFrom GlobalLockInitDoneReply_CopyFrom GlobalLockInitDoneReply_Clear GlobalLockInitDoneReply_SharedCtor GlobalLockInitDoneReply_copy GlobalLockInitDoneReply_InternalSwap GlobalLockInitDoneReply_set_metadata GlobalLockInitDoneReply_set_init_done : messages.

#[export] Instance GlobalLockInitDoneReply_Spec : MessageSpec GlobalLockInitDoneReply.
Proof. message_spec (Build_MessageSpec _ GlobalLockInitDoneReply _ GlobalLockInitDoneReply_table GlobalLockInitDoneReply_in_range). Defined.
End GlobalLockInitDoneReply.

(** ** [InvalidRequest] *)

(** [src/global_lock_service/brpc/global_lock_service.pb.h:1199-1211 InvalidRequest] *)
Record InvalidRequest := mkInvalidRequest {
  InvalidRequest_page_buf_ : bytes;
  InvalidRequest_page_id_ : Z;
  InvalidRequest_count_ : Z;
  InvalidRequest_internal_metadata_ : InternalMetadata }.

(** [src/global_lock_service/brpc/global_lock_service.pb.h:2357-2360 InvalidRequest::_internal_set_page_buf] *)
Definition InvalidRequest_set_page_buf (value : bytes) (m : InvalidRequest) : InvalidRequest :=
  let '(mkInvalidRequest _ page_id count md) := m in mkInvalidRequest value page_id count md.

(** [src/global_lock_service/brpc/global_lock_service.pb.h:2329-2336 InvalidRequest::_internal_set_page_id] *)
Definition InvalidRequest_set_page_id (value : Z) (m : InvalidRequest) : InvalidRequest :=
  let '(mkInvalidRequest page_buf _ count md) := m in mkInvalidRequest page_buf value count md.

(** [src/global_lock_service/brpc/global_lock_service.pb.h:2411-2418 InvalidRequest::_internal_set_count] *)
Definition InvalidRequest_set_count (value : Z) (m : InvalidRequest) : InvalidRequest :=
  let '(mkInvalidRequest page_buf page_id _ md) := m in mkInvalidRequest page_buf page_id value md.

Definition InvalidRequest_set_metadata (metadata : InternalMetadata) (m : InvalidRequest) : InvalidRequest :=
  let '(mkInvalidRequest page_buf page_id count _) := m in mkInvalidRequest page_buf page_id count metadata.

(** [src/global_lock_service/brpc/global_lock_service.pb.cc:1773-1779 InvalidRequest::SharedCtor] *)
Definition InvalidRequest_SharedCtor : InvalidRequest := mkInvalidRequest [] 0 0 None.

(** [src/global_lock_service/brpc/global_lock_service.pb.cc:1807-1818 InvalidRequest::Clear] *)
Definition InvalidRequest_Clear (m : InvalidRequest) : InvalidRequest := mkInvalidRequest [] 0 0 (md_Clear (InvalidRequest_internal_metadata_ m)).

(** [src/global_lock_service/brpc/global_lock_service.pb.cc:1993-2003 InvalidRequest::InternalSwap] *)
Definition InvalidRequest_InternalSwap (m other : InvalidRequest) : InvalidRequest * InvalidRequest :=
  let '(mkInvalidRequest page_buf page_id count md) := m in
  let '(mkInvalidRequest page_buf' page_id' count' md') := other in
  let '(swapped, swapped') := md_Swap md md' in
  (mkInvalidRequest page_buf' page_id' count' swapped, mkInvalidRequest page_buf page_id count swapped').

Section InvalidRequest.
Context `{Protobuf}.

(** [src/global_lock_service/brpc/global_lock_service.pb.cc:1759-1771 InvalidRequest] *)
Definition InvalidRequest_copy (from : InvalidRequest) : InvalidRequest :=
  let '(mkInvalidRequest page_buf page_id count md) := from in mkInvalidRequest (if negb (length page_buf =? 0)%nat then page_buf else []) page_id count (md_MergeFrom None md).

(** [src/global_lock_service/brpc/global_lock_service.pb.cc:1820-1870 InvalidRequest::_InternalParse] *)
Definition InvalidRequest_InternalParse (ctx : ParseContext) (fuel : nat) (p : ptr) (m : InvalidRequest) : res (option (ptr * ParseContext * InvalidRequest)) :=
  parse_loop InvalidRequest_internal_metadata_ InvalidRequest_set_metadata (fun tag =>
    match Z.shiftr tag 3 with
    | 1 =>
        if u8 tag =? 8 then Some (fun p m =>
          '(val, p) ←! ReadVarint64 p;
          Ret (Some (InvalidRequest_set_page_id val m, p))) else None
    | 2 =>
        if u8 tag =? 18 then Some (fun p m =>
          '(str, p) ←! InlineGreedyStringParser ctx p;
          Ret (Some (InvalidRequest_set_page_buf str m, p))) else None
    | 3 =>
        if u8 tag =? 24 then Some (fun p m =>
          '(val, p) ←! ReadVarint64 p;
          Ret (Some (InvalidRequest_set_count val m, p))) else None
    | _ => None
    end) ctx fuel p m.

(** [src/global_lock_service/brpc/global_lock_service.pb.cc:1872-1902 InvalidRequest::_InternalSerialize] *)
Definition InvalidRequest_InternalSerialize (m : InvalidRequest) (s : EpsCopyOutputStream) : res EpsCopyOutputStream :=
  s ← (if negb (InvalidRequest_page_id_ m =? 0) then s ← EnsureSpace s; WriteUInt64ToArray 1 (InvalidRequest_page_id_ m) s else Ret s);
  s ← (if 0 <? Z.of_nat (length (InvalidRequest_page_buf_ m)) then WriteBytesMaybeAliased 2 (InvalidRequest_page_buf_ m) s else Ret s);
  s ← (if negb (InvalidRequest_count_ m =? 0) then s ← EnsureSpace s; WriteUInt64ToArray 3 (InvalidRequest_count_ m) s else Ret s);
  if have_unknown_fields (InvalidRequest_internal_metadata_ m) then InternalSerializeUnknownFieldsToArray (unknown_fields (InvalidRequest_internal_metadata_ m)) s else Ret s.

(** [src/global_lock_service/brpc/global_lock_service.pb.cc:1904-1940 InvalidRequest::ByteSizeLong] *)
Definition InvalidRequest_ByteSizeLong (m : InvalidRequest) : Z * Z :=
  let total_size := 0 in
  let total_size := if 0 <? Z.of_nat (length (InvalidRequest_page_buf_ m)) then u64 (total_size + u64 (1 + BytesSize (InvalidRequest_page_buf_ m))) else total_size in
  let total_size := if negb (InvalidRequest_page_id_ m =? 0) then u64 (total_size + u64 (1 + UInt64Size (InvalidRequest_page_id_ m))) else total_size in
  let total_size := if negb (InvalidRequest_count_ m =? 0) then u64 (total_size + u64 (1 + UInt64Size (InvalidRequest_count_ m))) else total_size in
  if have_unknown_fields (InvalidRequest_internal_metadata_ m) then ComputeUnknownFieldsSize (unknown_fields (InvalidRequest_internal_metadata_ m)) total_size
  else (total_size, ToCachedSize total_size).

(** [src/global_lock_service/brpc/global_lock_service.pb.cc:1957-1973 InvalidRequest::MergeFrom] *)
Definition InvalidRequest_MergeFrom (m from : InvalidRequest) : InvalidRequest :=
  let m := InvalidRequest_set_metadata (md_MergeFrom (InvalidRequest_internal_metadata_ m) (InvalidRequest_internal_metadata_ from)) m in
  let m := if 0 <? Z.of_nat (length (InvalidRequest_page_buf_ from)) then InvalidRequest_set_page_buf (InvalidRequest_page_buf_ from) m else m in
  let m := if negb (InvalidRequest_page_id_ from =? 0) then InvalidRequest_set_page_id (InvalidRequest_page_id_ from) m else m in
  let m := if negb (InvalidRequest_count_ from =? 0) then InvalidRequest_set_count (InvalidRequest_count_ from) m else m in
  m.

(** For two objects.  [src/global_lock_service/brpc/global_lock_service.pb.cc:1982-1987 InvalidRequest::CopyFrom] *)
Definition InvalidRequest_CopyFrom (m from : InvalidRequest) : InvalidRequest := InvalidRequest_MergeFrom (InvalidRequest_Clear m) from.

#[export] Instance InvalidRequest_Message : Message InvalidRequest := {
  New := InvalidRequest_SharedCtor;
  metadata := InvalidRequest_internal_metadata_;
  set_metadata := InvalidRequest_set_metadata;
  Clear := InvalidRequest_Clear;
  InternalParse := InvalidRequest_InternalParse;
  InternalSerialize := InvalidRequest_InternalSerialize;
  ByteSizeLong := InvalidRequest_ByteSizeLong;
  copy_ctor := InvalidRequest_copy;
  MergeFrom := InvalidRequest_MergeFrom;
  CopyFrom := InvalidRequest_CopyFrom;
  InternalSwap := InvalidRequest_InternalSwap }.

Definition InvalidRequest_table : list (field_spec InvalidRequest) :=
  [VarintField 1 InvalidRequest_page_id_ InvalidRequest_set_page_id;
   BytesField 2 false InvalidRequest_page_buf_ InvalidRequest_set_page_buf;
   VarintField 3 InvalidRequest_count_ InvalidRequest_set_count].

Definition InvalidRequest_in_range (m : InvalidRequest) : Prop :=
  is_u64 (InvalidRequest_page_id_ m)
  /\ Z.of_nat (length (InvalidRequest_page_buf_ m)) <= max_string
  /\ is_u64 (InvalidRequest_count_ m).

#[local] Hint Unfold InvalidRequest_Message InvalidRequest_table InvalidRequest_in_range InvalidRequest_InternalSerialize InvalidRequest_ByteSizeLong InvalidRequest_MergeFrom InvalidRequest_CopyFrom InvalidRequest_Clear InvalidRequest_SharedCtor InvalidRequest_copy InvalidRequest_InternalSwap InvalidRequest_set_metadata InvalidRequest_set_page_buf InvalidRequest_set_page_id InvalidRequest_set_count : messages.

#[export] Instance InvalidRequest_Spec : MessageSpec InvalidRequest.
Proof. message_spec (Build_MessageSpec _ InvalidRequest _ InvalidRequest_table InvalidRequest_in_range). Defined.
End InvalidRequest.

(** ** [InvalidReply] *)

(** [src/global_lock_service/brpc/global_lock_service.pb.h:1365-1377 InvalidReply] *)
Record InvalidReply := mkInvalidReply {
  InvalidReply_page_buf_ : bytes;
  InvalidReply_count_ : Z;
  InvalidReply_rc_ : Z;
  InvalidReply_internal_metadata_ : InternalMetadata }.

(** [src/global_lock_service/brpc/global_lock_service.pb.h:2463-2466 InvalidReply::_internal_set_page_buf] *)
Definition InvalidReply_set_page_buf (value : bytes) (m : InvalidReply) : InvalidReply :=
  let '(mkInvalidReply _ count rc md) := m in mkInvalidReply value count rc md.

(** [src/global_lock_service/brpc/global_lock_service.pb.h:2517-2524 InvalidReply::_internal_set_count] *)
Definition InvalidReply_set_count (value : Z) (m : InvalidReply) : InvalidReply :=
  let '(mkInvalidReply page_buf _ rc md) := m in mkInvalidReply page_buf value rc md.

(** [src/global_lock_service/brpc/global_lock_service.pb.h:2435-2442 InvalidReply::_internal_set_rc] *)
Definition InvalidReply_set_rc (value : Z) (m : InvalidReply) : InvalidReply :=
  let '(mkInvalidReply page_buf count _ md) := m in mkInvalidReply page_buf count value md.

Definition InvalidReply_set_metadata (metadata : InternalMetadata) (m : InvalidReply) : InvalidReply :=
  let '(mkInvalidReply page_buf count rc _) := m in mkInvalidReply page_buf count rc metadata.

(** [src/global_lock_service/brpc/global_lock_service.pb.cc:2038-2044 InvalidReply::SharedCtor] *)
Definition InvalidReply_SharedCtor : InvalidReply := mkInvalidReply [] 0 0 None.

(** [src/global_lock_service/brpc/global_lock_service.pb.cc:2072-2083 InvalidReply::Clear] *)
Definition InvalidReply_Clear (m : InvalidReply) : InvalidReply := mkInvalidReply [] 0 0 (md_Clear (InvalidReply_internal_metadata_ m)).

(** [src/global_lock_service/brpc/global_lock_service.pb.cc:2259-2269 InvalidReply::InternalSwap] *)
Definition InvalidReply_InternalSwap (m other : InvalidReply) : InvalidReply * InvalidReply :=
  let '(mkInvalidReply page_buf count rc md) := m in
  let '(mkInvalidReply page_buf' count' rc' md') := other in
  let '(swapped, swapped') := md_Swap md md' in
  (mkInvalidReply page_buf' count' rc' swapped, mkInvalidReply page_buf count rc swapped').

Section InvalidReply.
Context `{Protobuf}.

(** [src/global_lock_service/brpc/global_lock_service.pb.cc:2024-2036 InvalidReply] *)
Definition InvalidReply_copy (from : InvalidReply) : InvalidReply :=
  let '(mkInvalidReply page_buf count rc md) := from in mkInvalidReply (if negb (length page_buf =? 0)%nat then page_buf else []) count rc (md_MergeFrom None md).

(** [src/global_lock_service/brpc/global_lock_service.pb.cc:2085-2136 InvalidReply::_InternalParse] *)
Definition InvalidReply_InternalParse (ctx : ParseContext) (fuel : nat) (p : ptr) (m : InvalidReply) : res (option (ptr * ParseContext * InvalidReply)) :=
  parse_loop InvalidReply_internal_metadata_ InvalidReply_set_metadata (fun tag =>
    match Z.shiftr tag 3 with
    | 1 =>
        if u8 tag =? 8 then Some (fun p m =>
          '(val, p) ←! ReadVarint64 p;
          Ret (Some (InvalidReply_set_rc (i32 val) m, p))) else None
    | 2 =>
        if u8 tag =? 18 then Some (fun p m =>
          '(str, p) ←! InlineGreedyStringParser ctx p;
          Ret (Some (InvalidReply_set_page_buf str m, p))) else None
    | 3 =>
        if u8 tag =? 24 then Some (fun p m =>
          '(val, p) ←! ReadVarint64 p;
          Ret (Some (InvalidReply_set_count val m, p))) else None
    | _ => None
    end) ctx fuel p m.

(** [src/global_lock_service/brpc/global_lock_service.pb.cc:2138-2169 InvalidReply::_InternalSerialize] *)
Definition InvalidReply_InternalSerialize (m : InvalidReply) (s : EpsCopyOutputStream) : res EpsCopyOutputStream :=
  s ← (if negb (InvalidReply_rc_ m =? 0) then s ← EnsureSpace s; WriteEnumToArray 1 (InvalidReply_rc_ m) s else Ret s);
  s ← (if 0 <? Z.of_nat (length (InvalidReply_page_buf_ m)) then WriteBytesMaybeAliased 2 (InvalidReply_page_buf_ m) s else Ret s);
  s ← (if negb (InvalidReply_count_ m =? 0) then s ← EnsureSpace s; WriteUInt64ToArray 3 (InvalidReply_count_ m) s else Ret s);
  if have_unknown_fields (InvalidReply_internal_metadata_ m) then InternalSerializeUnknownFieldsToArray (unknown_fields (InvalidReply_internal_metadata_ m)) s else Ret s.

(** [src/global_lock_service/brpc/global_lock_service.pb.cc:2171-2206 InvalidReply::ByteSizeLong] *)
Definition InvalidReply_ByteSizeLong (m : InvalidReply) : Z * Z :=
  let total_size := 0 in
  let total_size := if 0 <? Z.of_nat (length (InvalidReply_page_buf_ m)) then u64 (total_size + u64 (1 + BytesSize (InvalidReply_page_buf_ m))) else total_size in
  let total_size := if negb (InvalidReply_count_ m =? 0) then u64 (total_size + u64 (1 + UInt64Size (InvalidReply_count_ m))) else total_size in
  let total_size := if negb (InvalidReply_rc_ m =? 0) then u64 (total_size + u64 (1 + EnumSize (InvalidReply_rc_ m))) else total_size in
  if have_unknown_fields (InvalidReply_internal_metadata_ m) then ComputeUnknownFieldsSize (unknown_fields (InvalidReply_internal_metadata_ m)) total_size
  else (total_size, ToCachedSize total_size).

(** [src/global_lock_service/brpc/global_lock_service.pb.cc:2223-2239 InvalidReply::MergeFrom] *)
Definition InvalidReply_MergeFrom (m from : InvalidReply) : InvalidReply :=
  let m := InvalidReply_set_metadata (md_MergeFrom (InvalidReply_internal_metadata_ m) (InvalidReply_internal_metadata_ from)) m in
  let m := if 0 <? Z.of_nat (length (InvalidReply_page_buf_ from)) then InvalidReply_set_page_buf (InvalidReply_page_buf_ from) m else m in
  let m := if negb (InvalidReply_count_ from =? 0) then InvalidReply_set_count (InvalidReply_count_ from) m else m in
  let m := if negb (InvalidReply_rc_ from =? 0) then InvalidReply_set_rc (InvalidReply_rc_ from) m else m in
  m.

(** For two objects.  [src/global_lock_service/brpc/global_lock_service.pb.cc:2248-2253 InvalidReply::CopyFrom] *)
Definition InvalidReply_CopyFrom (m from : InvalidReply) : InvalidReply := InvalidReply_MergeFrom (InvalidReply_Clear m) from.

#[export] Instance InvalidReply_Message : Message InvalidReply := {
  New := InvalidReply_SharedCtor;
  metadata := InvalidReply_internal_metadata_;
  set_metadata := InvalidReply_set_metadata;
  Clear := InvalidReply_Clear;
  InternalParse := InvalidReply_InternalParse;
  InternalSerialize := InvalidReply_InternalSerialize;
  ByteSizeLong := InvalidReply_ByteSizeLong;
  copy_ctor := InvalidReply_copy;
  MergeFrom := InvalidReply_MergeFrom;
  CopyFrom := InvalidReply_CopyFrom;
  InternalSwap := InvalidReply_InternalSwap }.

Definition InvalidReply_table : list (field_spec InvalidReply) :=
  [VarintField 1 (fun m => u64 (InvalidReply_rc_ m)) (fun v => InvalidReply_set_rc (i32 v));
   BytesField 2 false InvalidReply_page_buf_ InvalidReply_set_page_buf;
   VarintField 3 InvalidReply_count_ InvalidReply_set_count].

Definition InvalidReply_in_range (m : InvalidReply) : Prop :=
  - 2 ^ 31 <= InvalidReply_rc_ m < 2 ^ 31
  /\ Z.of_nat (length (InvalidReply_page_buf_ m)) <= max_string
  /\ is_u64 (InvalidReply_count_ m).

#[local] Hint Unfold InvalidReply_Message InvalidReply_table InvalidReply_in_range InvalidReply_InternalSerialize InvalidReply_ByteSizeLong InvalidReply_MergeFrom InvalidReply_CopyFrom InvalidReply_Clear InvalidReply_SharedCtor InvalidReply_copy InvalidReply_InternalSwap InvalidReply_set_metadata InvalidReply_set_page_buf InvalidReply_set_count InvalidReply_set_rc : messages.

#[export] Instance InvalidReply_Spec : MessageSpec InvalidReply.
Proof. message_spec (Build_MessageSpec _ InvalidReply _ InvalidReply_table InvalidReply_in_range). Defined.
End InvalidReply.

(** ** [GetNextTsRequest] *)

(** [src/global_lock_service/brpc/global_lock_service.pb.h:1492-1501 GetNextTsRequest] *)
Record GetNextTsRequest := mkGetNextTsRequest {
  GetNextTsRequest_internal_metadata_ : InternalMetadata }.

Definition GetNextTsRequest_set_metadata (metadata : InternalMetadata) (m : GetNextTsRequest) : GetNextTsRequest :=
  let '(mkGetNextTsRequest _) := m in mkGetNextTsRequest metadata.

(** [src/global_lock_service/brpc/global_lock_service.pb.cc:2296-2297 GetNextTsRequest::SharedCtor] *)
Definition GetNextTsRequest_SharedCtor : GetNextTsRequest := mkGetNextTsRequest None.

(** [src/global_lock_service/brpc/global_lock_service.pb.cc:2324-2331 GetNextTsRequest::Clear] *)
Definition GetNextTsRequest_Clear (m : GetNextTsRequest) : GetNextTsRequest := mkGetNextTsRequest (md_Clear (GetNextTsRequest_internal_metadata_ m)).

(** [src/global_lock_service/brpc/global_lock_service.pb.cc:2431-2434 GetNextTsRequest::InternalSwap] *)
Definition GetNextTsRequest_InternalSwap (m other : GetNextTsRequest) : GetNextTsRequest * GetNextTsRequest :=
  let '(mkGetNextTsRequest md) := m in
  let '(mkGetNextTsRequest md') := other in
  let '(swapped, swapped') := md_Swap md md' in
  (mkGetNextTsRequest swapped, mkGetNextTsRequest swapped').

Section GetNextTsRequest.
Context `{Protobuf}.

(** [src/global_lock_service/brpc/global_lock_service.pb.cc:2290-2294 GetNextTsRequest] *)
Definition GetNextTsRequest_copy (from : GetNextTsRequest) : GetNextTsRequest :=
  let '(mkGetNextTsRequest md) := from in mkGetNextTsRequest (md_MergeFrom None md).

(** [src/global_lock_service/brpc/global_lock_service.pb.cc:2333-2356 GetNextTsRequest::_InternalParse] *)
Definition GetNextTsRequest_InternalParse (ctx : ParseContext) (fuel : nat) (p : ptr) (m : GetNextTsRequest) : res (option (ptr * ParseContext * GetNextTsRequest)) :=
  parse_loop GetNextTsRequest_internal_metadata_ GetNextTsRequest_set_metadata (fun _ => None) ctx fuel p m.

(** [src/global_lock_service/brpc/global_lock_service.pb.cc:2358-2370 GetNextTsRequest::_InternalSerialize] *)
Definition GetNextTsRequest_InternalSerialize (m : GetNextTsRequest) (s : EpsCopyOutputStream) : res EpsCopyOutputStream :=
  if have_unknown_fields (GetNextTsRequest_internal_metadata_ m) then InternalSerializeUnknownFieldsToArray (unknown_fields (GetNextTsRequest_internal_metadata_ m)) s else Ret s.

(** [src/global_lock_service/brpc/global_lock_service.pb.cc:2372-2387 GetNextTsRequest::ByteSizeLong] *)
Definition GetNextTsRequest_ByteSizeLong (m : GetNextTsRequest) : Z * Z :=
  let total_size := 0 in
  if have_unknown_fields (GetNextTsRequest_internal_metadata_ m) then ComputeUnknownFieldsSize (unknown_fields (GetNextTsRequest_internal_metadata_ m)) total_size
  else (total_size, ToCachedSize total_size).

(** [src/global_lock_service/brpc/global_lock_service.pb.cc:2404-2411 GetNextTsRequest::MergeFrom] *)
Definition GetNextTsRequest_MergeFrom (m from : GetNextTsRequest) : GetNextTsRequest :=
  let m := GetNextTsRequest_set_metadata (md_MergeFrom (GetNextTsRequest_internal_metadata_ m) (GetNextTsRequest_internal_metadata_ from)) m in
  m.

(** For two objects.  [src/global_lock_service/brpc/global_lock_service.pb.cc:2420-2425 GetNextTsRequest::CopyFrom] *)
Definition GetNextTsRequest_CopyFrom (m from : GetNextTsRequest) : GetNextTsRequest := GetNextTsRequest_MergeFrom (GetNextTsRequest_Clear m) from.

#[export] Instance GetNextTsRequest_Message : Message GetNextTsRequest := {
  New := GetNextTsRequest_SharedCtor;
  metadata := GetNextTsRequest_internal_metadata_;
  set_metadata := GetNextTsRequest_set_metadata;
  Clear := GetNextTsRequest_Clear;
  InternalParse := GetNextTsRequest_InternalParse;
  InternalSerialize := GetNextTsRequest_InternalSerialize;
  ByteSizeLong := GetNextTsRequest_ByteSizeLong;
  copy_ctor := GetNextTsRequest_copy;
  MergeFrom := GetNextTsRequest_MergeFrom;
  CopyFrom := GetNextTsRequest_CopyFrom;
  InternalSwap := GetNextTsRequest_InternalSwap }.

Definition GetNextTsRequest_table : list (field_spec GetNextTsRequest) :=
  [].

Definition GetNextTsRequest_in_range (m : GetNextTsRequest) : Prop :=
  True.

#[local] Hint Unfold GetNextTsRequest_Message GetNextTsRequest_table GetNextTsRequest_in_range GetNextTsRequest_InternalSerialize GetNextTsRequest_ByteSizeLong GetNextTsRequest_MergeFrom GetNextTsRequest_CopyFrom GetNextTsRequest_Clear GetNextTsRequest_SharedCtor GetNextTsRequest_copy GetNextTsRequest_InternalSwap GetNextTsRequest_set_metadata : messages.

#[export] Instance GetNextTsRequest_Spec : MessageSpec GetNextTsRequest.
Proof. message_spec (Build_MessageSpec _ GetNextTsRequest _ GetNextTsRequest_table GetNextTsRequest_in_range). Defined.
End GetNextTsRequest.

(** ** [GetNextTsReply] *)

(** [src/global_lock_service/brpc/global_lock_service.pb.h:1628-1638 GetNextTsReply] *)
Record GetNextTsReply := mkGetNextTsReply {
  GetNextTsReply_ts_ : Z;
  GetNextTsReply_internal_metadata_ : InternalMetadata }.

(** [src/global_lock_service/brpc/global_lock_service.pb.h:2545-2552 GetNextTsReply::_internal_set_ts] *)
Definition GetNextTsReply_set_ts (value : Z) (m : GetNextTsReply) : GetNextTsReply :=
  let '(mkGetNextTsReply _ md) := m in mkGetNextTsReply value md.

Definition GetNextTsReply_set_metadata (metadata : InternalMetadata) (m : GetNextTsReply) : GetNextTsReply :=
  let '(mkGetNextTsReply ts _) := m in mkGetNextTsReply ts metadata.

(** [src/global_lock_service/brpc/global_lock_service.pb.cc:2462-2464 GetNextTsReply::SharedCtor] *)
Definition GetNextTsReply_SharedCtor : GetNextTsReply := mkGetNextTsReply 0 None.

(** [src/global_lock_service/brpc/global_lock_service.pb.cc:2491-2499 GetNextTsReply::Clear] *)
Definition GetNextTsReply_Clear (m : GetNextTsReply) : GetNextTsReply := mkGetNextTsReply 0 (md_Clear (GetNextTsReply_internal_metadata_ m)).

(** [src/global_lock_service/brpc/global_lock_service.pb.cc:2627-2631 GetNextTsReply::InternalSwap] *)
Definition GetNextTsReply_InternalSwap (m other : GetNextTsReply) : GetNextTsReply * GetNextTsReply :=
  let '(mkGetNextTsReply ts md) := m in
  let '(mkGetNextTsReply ts' md') := other in
  let '(swapped, swapped') := md_Swap md md' in
  (mkGetNextTsReply ts' swapped, mkGetNextTsReply ts swapped').

Section GetNextTsReply.
Context `{Protobuf}.

(** [src/global_lock_service/brpc/global_lock_service.pb.cc:2455-2460 GetNextTsReply] *)
Definition GetNextTsReply_copy (from : GetNextTsReply) : GetNextTsReply :=
  let '(mkGetNextTsReply ts md) := from in mkGetNextTsReply ts (md_MergeFrom None md).

(** [src/global_lock_service/brpc/global_lock_service.pb.cc:2501-2536 GetNextTsReply::_InternalParse] *)
Definition GetNextTsReply_InternalParse (ctx : ParseContext) (fuel : nat) (p : ptr) (m : GetNextTsReply) : res (option (ptr * ParseContext * GetNextTsReply)) :=
  parse_loop GetNextTsReply_internal_metadata_ GetNextTsReply_set_metadata (fun tag =>
    match Z.shiftr tag 3 with
    | 1 =>
        if u8 tag =? 8 then Some (fun p m =>
          '(val, p) ←! ReadVarint64 p;
          Ret (Some (GetNextTsReply_set_ts val m, p))) else None
    | _ => None
    end) ctx fuel p m.

(** [src/global_lock_service/brpc/global_lock_service.pb.cc:2538-2556 GetNextTsReply::_InternalSerialize] *)
Definition GetNextTsReply_InternalSerialize (m : GetNextTsReply) (s : EpsCopyOutputStream) : res EpsCopyOutputStream :=
  s ← (if negb (GetNextTsReply_ts_ m =? 0) then s ← EnsureSpace s; WriteUInt64ToArray 1 (GetNextTsReply_ts_ m) s else Ret s);
  if have_unknown_fields (GetNextTsReply_internal_metadata_ m) then InternalSerializeUnknownFieldsToArray (unknown_fields (GetNextTsReply_internal_metadata_ m)) s else Ret s.

(** [src/global_lock_service/brpc/global_lock_service.pb.cc:2558-2580 GetNextTsReply::ByteSizeLong] *)
Definition GetNextTsReply_ByteSizeLong (m : GetNextTsReply) : Z * Z :=
  let total_size := 0 in
  let total_size := if negb (GetNextTsReply_ts_ m =? 0) then u64 (total_size + u64 (1 + UInt64Size (GetNextTsReply_ts_ m))) else total_size in
  if have_unknown_fields (GetNextTsReply_internal_metadata_ m) then ComputeUnknownFieldsSize (unknown_fields (GetNextTsReply_internal_metadata_ m)) total_size
  else (total_size, ToCachedSize total_size).

(** [src/global_lock_service/brpc/global_lock_service.pb.cc:2597-2607 GetNextTsReply::MergeFrom] *)
Definition GetNextTsReply_MergeFrom (m from : GetNextTsReply) : GetNextTsReply :=
  let m := GetNextTsReply_set_metadata (md_MergeFrom (GetNextTsReply_internal_metadata_ m) (GetNextTsReply_internal_metadata_ from)) m in
  let m := if negb (GetNextTsReply_ts_ from =? 0) then GetNextTsReply_set_ts (GetNextTsReply_ts_ from) m else m in
  m.

(** For two objects.  [src/global_lock_service/brpc/global_lock_service.pb.cc:2616-2621 GetNextTsReply::CopyFrom] *)
Definition GetNextTsReply_CopyFrom (m from : GetNextTsReply) : GetNextTsReply := GetNextTsReply_MergeFrom (GetNextTsReply_Clear m) from.

#[export] Instance GetNextTsReply_Message : Message GetNextTsReply := {
  New := GetNextTsReply_SharedCtor;
  metadata := GetNextTsReply_internal_metadata_;
  set_metadata := GetNextTsReply_set_metadata;
  Clear := GetNextTsReply_Clear;
  InternalParse := GetNextTsReply_InternalParse;
  InternalSerialize := GetNextTsReply_InternalSerialize;
  ByteSizeLong := GetNextTsReply_ByteSizeLong;
  copy_ctor := GetNextTsReply_copy;
  MergeFrom := GetNextTsReply_MergeFrom;
  CopyFrom := GetNextTsReply_CopyFrom;
  InternalSwap := GetNextTsReply_InternalSwap }.

Definition GetNextTsReply_table : list (field_spec GetNextTsReply) :=
  [VarintField 1 GetNextTsReply_ts_ GetNextTsReply_set_ts].

Definition GetNextTsReply_in_range (m : GetNextTsReply) : Prop :=
  is_u64 (GetNextTsReply_ts_ m).

#[local] Hint Unfold GetNextTsReply_Message GetNextTsReply_table GetNextTsReply_in_range GetNextTsReply_InternalSerialize GetNextTsReply_ByteSizeLong GetNextTsReply_MergeFrom GetNextTsReply_CopyFrom GetNextTsReply_Clear GetNextTsReply_SharedCtor GetNextTsReply_copy GetNextTsReply_InternalSwap GetNextTsReply_set_metadata GetNextTsReply_set_ts : messages.

#[export] Instance GetNextTsReply_Spec : MessageSpec GetNextTsReply.
Proof. message_spec (Build_MessageSpec _ GetNextTsReply _ GetNextTsReply_table GetNextTsReply_in_range). Defined.
End GetNextTsReply.

(** ** [TestRequest] *)

(** [src/global_lock_service/brpc/global_lock_service.pb.h:1753-1762 TestRequest] *)
Record TestRequest := mkTestRequest {
  TestRequest_internal_metadata_ : InternalMetadata }.

Definition TestRequest_set_metadata (metadata : InternalMetadata) (m : TestRequest) : TestRequest :=
  let '(mkTestRequest _) := m in mkTestRequest metadata.

(** [src/global_lock_service/brpc/global_lock_service.pb.cc:2658-2659 TestRequest::SharedCtor] *)
Definition TestRequest_SharedCtor : TestRequest := mkTestRequest None.

(** [src/global_lock_service/brpc/global_lock_service.pb.cc:2686-2693 TestRequest::Clear] *)
Definition TestRequest_Clear (m : TestRequest) : TestRequest := mkTestRequest (md_Clear (TestRequest_internal_metadata_ m)).

(** [src/global_lock_service/brpc/global_lock_service.pb.cc:2793-2796 TestRequest::InternalSwap] *)
Definition TestRequest_InternalSwap (m other : TestRequest) : TestRequest * TestRequest :=
  let '(mkTestRequest md) := m in
  let '(mkTestRequest md') := other in
  let '(swapped, swapped') := md_Swap md md' in
  (mkTestRequest swapped, mkTestRequest swapped').

Section TestRequest.
Context `{Protobuf}.

(** [src/global_lock_service/brpc/global_lock_service.pb.cc:2652-2656 TestRequest] *)
Definition TestRequest_copy (from : TestRequest) : TestRequest :=
  let '(mkTestRequest md) := from in mkTestRequest (md_MergeFrom None md).

(** [src/global_lock_service/brpc/global_lock_service.pb.cc:2695-2718 TestRequest::_InternalParse] *)
Definition TestRequest_InternalParse (ctx : ParseContext) (fuel : nat) (p : ptr) (m : TestRequest) : res (option (ptr * ParseContext * TestRequest)) :=
  parse_loop TestRequest_internal_metadata_ TestRequest_set_metadata (fun _ => None) ctx fuel p m.

(** [src/global_lock_service/brpc/global_lock_service.pb.cc:2720-2732 TestRequest::_InternalSerialize] *)
Definition TestRequest_InternalSerialize (m : TestRequest) (s : EpsCopyOutputStream) : res EpsCopyOutputStream :=
  if have_unknown_fields (TestRequest_internal_metadata_ m) then InternalSerializeUnknownFieldsToArray (unknown_fields (TestRequest_internal_metadata_ m)) s else Ret s.

(** [src/global_lock_service/brpc/global_lock_service.pb.cc:2734-2749 TestRequest::ByteSizeLong] *)
Definition TestRequest_ByteSizeLong (m : TestRequest) : Z * Z :=
  let total_size := 0 in
  if have_unknown_fields (TestRequest_internal_metadata_ m) then ComputeUnknownFieldsSize (unknown_fields (TestRequest_internal_metadata_ m)) total_size
  else (total_size, ToCachedSize total_size).

(** [src/global_lock_service/brpc/global_lock_service.pb.cc:2766-2773 TestRequest::MergeFrom] *)
Definition TestRequest_MergeFrom (m from : TestRequest) : TestRequest :=
  let m := TestRequest_set_metadata (md_MergeFrom (TestRequest_internal_metadata_ m) (TestRequest_internal_metadata_ from)) m in
  m.

(** For two objects.  [src/global_lock_service/brpc/global_lock_service.pb.cc:2782-2787 TestRequest::CopyFrom] *)
Definition TestRequest_CopyFrom (m from : TestRequest) : TestRequest := TestRequest_MergeFrom (TestRequest_Clear m) from.

#[export] Instance TestRequest_Message : Message TestRequest := {
  New := TestRequest_SharedCtor;
  metadata := TestRequest_internal_metadata_;
  set_metadata := TestRequest_set_metadata;
  Clear := TestRequest_Clear;
  InternalParse := TestRequest_InternalParse;
  InternalSerialize := TestRequest_InternalSerialize;
  ByteSizeLong := TestRequest_ByteSizeLong;
  copy_ctor := TestRequest_copy;
  MergeFrom := TestRequest_MergeFrom;
  CopyFrom := TestRequest_CopyFrom;
  InternalSwap := TestRequest_InternalSwap }.

Definition TestRequest_table : list (field_spec TestRequest) :=
  [].

Definition TestRequest_in_range (m : TestRequest) : Prop :=
  True.

#[local] Hint Unfold TestRequest_Message TestRequest_table TestRequest_in_range TestRequest_InternalSerialize TestRequest_ByteSizeLong TestRequest_MergeFrom TestRequest_CopyFrom TestRequest_Clear TestRequest_SharedCtor TestRequest_copy TestRequest_InternalSwap TestRequest_set_metadata : messages.

#[export] Instance TestRequest_Spec : MessageSpec TestRequest.
Proof. message_spec (Build_MessageSpec _ TestRequest _ TestRequest_table TestRequest_in_range). Defined.
End TestRequest.

(** ** [TestReply] *)

(** [src/global_lock_service/brpc/global_lock_service.pb.h:1889-1899 TestReply] *)
Record TestReply := mkTestReply {
  TestReply_rc_ : Z;
  TestReply_internal_metadata_ : InternalMetadata }.

(** [src/global_lock_service/brpc/global_lock_service.pb.h:2573-2580 TestReply::_internal_set_rc] *)
Definition TestReply_set_rc (value : Z) (m : TestReply) : TestReply :=
  let '(mkTestReply _ md) := m in mkTestReply value md.

Definition TestReply_set_metadata (metadata : InternalMetadata) (m : TestReply) : TestReply :=
  let '(mkTestReply rc _) := m in mkTestReply rc metadata.

(** [src/global_lock_service/brpc/global_lock_service.pb.cc:2824-2826 TestReply::SharedCtor] *)
Definition TestReply_SharedCtor : TestReply := mkTestReply 0 None.

(** [src/global_lock_service/brpc/global_lock_service.pb.cc:2853-2861 TestReply::Clear] *)
Definition TestReply_Clear (m : TestReply) : TestReply := mkTestReply 0 (md_Clear (TestReply_internal_metadata_ m)).

(** [src/global_lock_service/brpc/global_lock_service.pb.cc:2989-2993 TestReply::InternalSwap] *)
Definition TestReply_InternalSwap (m other : TestReply) : TestReply * TestReply :=
  let '(mkTestReply rc md) := m in
  let '(mkTestReply rc' md') := other in
  let '(swapped, swapped') := md_Swap md md' in
  (mkTestReply rc' swapped, mkTestReply rc swapped').

Section TestReply.
Context `{Protobuf}.

(** [src/global_lock_service/brpc/global_lock_service.pb.cc:2817-2822 TestReply] *)
Definition TestReply_copy (from : TestReply) : TestReply :=
  let '(mkTestReply rc md) := from in mkTestReply rc (md_MergeFrom None md).

(** [src/global_lock_service/brpc/global_lock_service.pb.cc:2863-2898 TestReply::_InternalParse] *)
Definition TestReply_InternalParse (ctx : ParseContext) (fuel : nat) (p : ptr) (m : TestReply) : res (option (ptr * ParseContext * TestReply)) :=
  parse_loop TestReply_internal_metadata_ TestReply_set_metadata (fun tag =>
    match Z.shiftr tag 3 with
    | 1 =>
        if u8 tag =? 8 then Some (fun p m =>
          '(val, p) ←! ReadVarint64 p;
          Ret (Some (TestReply_set_rc (i32 val) m, p))) else None
    | _ => None
    end) ctx fuel p m.

(** [src/global_lock_service/brpc/global_lock_service.pb.cc:2900-2918 TestReply::_InternalSerialize] *)
Definition TestReply_InternalSerialize (m : TestReply) (s : EpsCopyOutputStream) : res EpsCopyOutputStream :=
  s ← (if negb (TestReply_rc_ m =? 0) then s ← EnsureSpace s; WriteInt32ToArray 1 (TestReply_rc_ m) s else Ret s);
  if have_unknown_fields (TestReply_internal_metadata_ m) then InternalSerializeUnknownFieldsToArray (unknown_fields (TestReply_internal_metadata_ m)) s else Ret s.

(** [src/global_lock_service/brpc/global_lock_service.pb.cc:2920-2942 TestReply::ByteSizeLong] *)
Definition TestReply_ByteSizeLong (m : TestReply) : Z * Z :=
  let total_size := 0 in
  let total_size := if negb (TestReply_rc_ m =? 0) then u64 (total_size + u64 (1 + Int32Size (TestReply_rc_ m))) else total_size in
  if have_unknown_fields (TestReply_internal_metadata_ m) then ComputeUnknownFieldsSize (unknown_fields (TestReply_internal_metadata_ m)) total_size
  else (total_size, ToCachedSize total_size).

(** [src/global_lock_service/brpc/global_lock_service.pb.cc:2959-2969 TestReply::MergeFrom] *)
Definition TestReply_MergeFrom (m from : TestReply) : TestReply :=
  let m := TestReply_set_metadata (md_MergeFrom (TestReply_internal_metadata_ m) (TestReply_internal_metadata_ from)) m in
  let m := if negb (TestReply_rc_ from =? 0) then TestReply_set_rc (TestReply_rc_ from) m else m in
  m.

(** For two objects.  [src/global_lock_service/brpc/global_lock_service.pb.cc:2978-2983 TestReply::CopyFrom] *)
Definition TestReply_CopyFrom (m from : TestReply) : TestReply := TestReply_MergeFrom (TestReply_Clear m) from.

#[export] Instance TestReply_Message : Message TestReply := {
  New := TestReply_SharedCtor;
  metadata := TestReply_internal_metadata_;
  set_metadata := TestReply_set_metadata;
  Clear := TestReply_Clear;
  InternalParse := TestReply_InternalParse;
  InternalSerialize := TestReply_InternalSerialize;
  ByteSizeLong := TestReply_ByteSizeLong;
  copy_ctor := TestReply_copy;
  MergeFrom := TestReply_MergeFrom;
  CopyFrom := TestReply_CopyFrom;
  InternalSwap := TestReply_InternalSwap }.

Definition TestReply_table : list (field_spec TestReply) :=
  [VarintField 1 (fun m => u64 (TestReply_rc_ m)) (fun v => TestReply_set_rc (i32 v))].

Definition TestReply_in_range (m : TestReply) : Prop :=
  - 2 ^ 31 <= TestReply_rc_ m < 2 ^ 31.

#[local] Hint Unfold TestReply_Message TestReply_table TestReply_in_range TestReply_InternalSerialize TestReply_ByteSizeLong TestReply_MergeFrom TestReply_CopyFrom TestReply_Clear TestReply_SharedCtor TestReply_copy TestReply_InternalSwap TestReply_set_metadata TestReply_set_rc : messages.

#[export] Instance TestReply_Spec : MessageSpec TestReply.
Proof. message_spec (Build_MessageSpec _ TestReply _ TestReply_table TestReply_in_range). Defined.
End TestReply.

(** ** The service *)

Inductive GlobalLockService_request :=
  | GlobalLockService_LockRemote_request (request : LockRemoteRequest)
  | GlobalLockService_InstanceInitDone_request (request : InstanceInitDoneRequest)
  | GlobalLockService_GlobalLockInitDone_request (request : GlobalLockInitDoneRequest)
  | GlobalLockService_GetNextTs_request (request : GetNextTsRequest)
  | GlobalLockService_Invalid_request (request : InvalidRequest)
  | GlobalLockService_Test_request (request : TestRequest).

Inductive GlobalLockService_response :=
  | GlobalLockService_LockRemote_response (response : LockRemoteReply)
  | GlobalLockService_InstanceInitDone_response (response : InstanceInitDoneReply)
  | GlobalLockService_GlobalLockInitDone_response (response : GlobalLockInitDoneReply)
  | GlobalLockService_GetNextTs_response (response : GetNextTsReply)
  | GlobalLockService_Invalid_response (response : InvalidReply)
  | GlobalLockService_Test_response (response : TestReply).

(** The methods an implementation overrides.  A call returns its response, or it is
    marked as failed. *)
Record GlobalLockService (S : Type) := mkGlobalLockService {
  GlobalLockService_LockRemote : LockRemoteRequest -> S -> res (option LockRemoteReply * S);
  GlobalLockService_InstanceInitDone : InstanceInitDoneRequest -> S -> res (option InstanceInitDoneReply * S);
  GlobalLockService_GlobalLockInitDone : GlobalLockInitDoneRequest -> S -> res (option GlobalLockInitDoneReply * S);
  GlobalLockService_GetNextTs : GetNextTsRequest -> S -> res (option GetNextTsReply * S);
  GlobalLockService_Invalid : InvalidRequest -> S -> res (option InvalidReply * S);
  GlobalLockService_Test : TestRequest -> S -> res (option TestReply * S) }.
Arguments mkGlobalLockService {S}.
Arguments GlobalLockService_LockRemote {S}.
Arguments GlobalLockService_InstanceInitDone {S}.
Arguments GlobalLockService_GlobalLockInitDone {S}.
Arguments GlobalLockService_GetNextTs {S}.
Arguments GlobalLockService_Invalid {S}.
Arguments GlobalLockService_Test {S}.

(** Without an implementation every call fails.
    [src/global_lock_service/brpc/global_lock_service.pb.cc:3013-3059 GlobalLockService] *)
Definition GlobalLockService_not_implemented (S : Type) : GlobalLockService S :=
  mkGlobalLockService (fun _ s => Ret (None, s)) (fun _ s => Ret (None, s)) (fun _ s => Ret (None, s)) (fun _ s => Ret (None, s)) (fun _ s => Ret (None, s)) (fun _ s => Ret (None, s)).

(** A request of another type fails the cast, another index ends the process.
    [src/global_lock_service/brpc/global_lock_service.pb.cc:3061-3120 GlobalLockService::CallMethod] *)
Definition GlobalLockService_CallMethod {S} (service : GlobalLockService S) (index : Z) (request : GlobalLockService_request) (s : S)
    : res (option GlobalLockService_response * S) :=
  match index with
  | 0 =>
      match request with
      | GlobalLockService_LockRemote_request request => respond GlobalLockService_LockRemote_response (GlobalLockService_LockRemote service request s)
      | _ => Fault Assert
      end
  | 1 =>
      match request with
      | GlobalLockService_InstanceInitDone_request request => respond GlobalLockService_InstanceInitDone_response (GlobalLockService_InstanceInitDone service request s)
      | _ => Fault Assert
      end
  | 2 =>
      match request with
      | GlobalLockService_GlobalLockInitDone_request request => respond GlobalLockService_GlobalLockInitDone_response (GlobalLockService_GlobalLockInitDone service request s)
      | _ => Fault Assert
      end
  | 3 =>
      match request with
      | GlobalLockService_GetNextTs_request request => respond GlobalLockService_GetNextTs_response (GlobalLockService_GetNextTs service request s)
      | _ => Fault Assert
      end
  | 4 =>
      match request with
      | GlobalLockService_Invalid_request request => respond GlobalLockService_Invalid_response (GlobalLockService_Invalid service request s)
      | _ => Fault Assert
      end
  | 5 =>
      match request with
      | GlobalLockService_Test_request request => respond GlobalLockService_Test_response (GlobalLockService_Test service request s)
      | _ => Fault Assert
      end
  | _ => Fault Assert
  end.

(** [src/global_lock_service/brpc/global_lock_service.pb.cc:3122-3143 GlobalLockService::GetRequestPrototype] *)
Definition GlobalLockService_GetRequestPrototype (index : Z) : res GlobalLockService_request :=
  match index with
  | 0 => Ret (GlobalLockService_LockRemote_request LockRemoteRequest_SharedCtor)
  | 1 => Ret (GlobalLockService_InstanceInitDone_request InstanceInitDoneRequest_SharedCtor)
  | 2 => Ret (GlobalLockService_GlobalLockInitDone_request GlobalLockInitDoneRequest_SharedCtor)
  | 3 => Ret (GlobalLockService_GetNextTs_request GetNextTsRequest_SharedCtor)
  | 4 => Ret (GlobalLockService_Invalid_request InvalidRequest_SharedCtor)
  | 5 => Ret (GlobalLockService_Test_request TestRequest_SharedCtor)
  | _ => Fault Assert
  end.

(** [src/global_lock_service/brpc/global_lock_service.pb.cc:3145-3166 GlobalLockService::GetResponsePrototype] *)
Definition GlobalLockService_GetResponsePrototype (index : Z) : res GlobalLockService_response :=
  match index with
  | 0 => Ret (GlobalLockService_LockRemote_response LockRemoteReply_SharedCtor)
  | 1 => Ret (GlobalLockService_InstanceInitDone_response InstanceInitDoneReply_SharedCtor)
  | 2 => Ret (GlobalLockService_GlobalLockInitDone_response GlobalLockInitDoneReply_SharedCtor)
  | 3 => Ret (GlobalLockService_GetNextTs_response GetNextTsReply_SharedCtor)
  | 4 => Ret (GlobalLockService_Invalid_response InvalidReply_SharedCtor)
  | 5 => Ret (GlobalLockService_Test_response TestReply_SharedCtor)
  | _ => Fault Assert
  end.

Section GlobalLockService_Stub.
Context {S : Type} (CallMethod : Z -> GlobalLockService_request -> S -> res (option GlobalLockService_response * S)).

(** [src/global_lock_service/brpc/global_lock_service.pb.cc:3179-3185 GlobalLockService_Stub::LockRemote] *)
Definition GlobalLockService_Stub_LockRemote (request : LockRemoteRequest) : S -> res (option GlobalLockService_response * S) :=
  CallMethod 0 (GlobalLockService_LockRemote_request request).

(** [src/global_lock_service/brpc/global_lock_service.pb.cc:3186-3192 GlobalLockService_Stub::InstanceInitDone] *)
Definition GlobalLockService_Stub_InstanceInitDone (request : InstanceInitDoneRequest) : S -> res (option GlobalLockService_response * S) :=
  CallMethod 1 (GlobalLockService_InstanceInitDone_request request).

(** [src/global_lock_service/brpc/global_lock_service.pb.cc:3193-3199 GlobalLockService_Stub::GlobalLockInitDone] *)
Definition GlobalLockService_Stub_GlobalLockInitDone (request : GlobalLockInitDoneRequest) : S -> res (option GlobalLockService_response * S) :=
  CallMethod 2 (GlobalLockService_GlobalLockInitDone_request request).

(** [src/global_lock_service/brpc/global_lock_service.pb.cc:3200-3206 GlobalLockService_Stub::GetNextTs] *)
Definition GlobalLockService_Stub_GetNextTs (request : GetNextTsRequest) : S -> res (option GlobalLockService_response * S) :=
  CallMethod 3 (GlobalLockService_GetNextTs_request request).

(** [src/global_lock_service/brpc/global_lock_service.pb.cc:3207-3213 GlobalLockService_Stub::Invalid] *)
Definition GlobalLockService_Stub_Invalid (request : InvalidRequest) : S -> res (option GlobalLockService_response * S) :=
  CallMethod 4 (GlobalLockService_Invalid_request request).

(** [src/global_lock_service/brpc/global_lock_service.pb.cc:3214-3220 GlobalLockService_Stub::Test] *)
Definition GlobalLockService_Stub_Test (request : TestRequest) : S -> res (option GlobalLockService_response * S) :=
  CallMethod 5 (GlobalLockService_Test_request request).

End GlobalLockService_Stub.

(** ** A call through the wire *)

Section GlobalLockService_rpc.
Context `{ProtobufLaws} {S : Type} (service : GlobalLockService S) (slop : bytes).

Definition GlobalLockService_encode_request (request : GlobalLockService_request) : res bytes :=
  match request with
  | GlobalLockService_LockRemote_request m => encode m
  | GlobalLockService_InstanceInitDone_request m => encode m
  | GlobalLockService_GlobalLockInitDone_request m => encode m
  | GlobalLockService_GetNextTs_request m => encode m
  | GlobalLockService_Invalid_request m => encode m
  | GlobalLockService_Test_request m => encode m
  end.

Definition GlobalLockService_encode_response (response : GlobalLockService_response) : res bytes :=
  match response with
  | GlobalLockService_LockRemote_response m => encode m
  | GlobalLockService_InstanceInitDone_response m => encode m
  | GlobalLockService_GlobalLockInitDone_response m => encode m
  | GlobalLockService_GetNextTs_response m => encode m
  | GlobalLockService_Invalid_response m => encode m
  | GlobalLockService_Test_response m => encode m
  end.

(** The bytes are parsed into a message of the type of the prototype. *)
Definition GlobalLockService_decode_request (prototype : GlobalLockService_request) (data : bytes) : res (option GlobalLockService_request) :=
  match prototype with
  | GlobalLockService_LockRemote_request m => parsed_as GlobalLockService_LockRemote_request (decode slop data m)
  | GlobalLockService_InstanceInitDone_request m => parsed_as GlobalLockService_InstanceInitDone_request (decode slop data m)
  | GlobalLockService_GlobalLockInitDone_request m => parsed_as GlobalLockService_GlobalLockInitDone_request (decode slop data m)
  | GlobalLockService_GetNextTs_request m => parsed_as GlobalLockService_GetNextTs_request (decode slop data m)
  | GlobalLockService_Invalid_request m => parsed_as GlobalLockService_Invalid_request (decode slop data m)
  | GlobalLockService_Test_request m => parsed_as GlobalLockService_Test_request (decode slop data m)
  end.

Definition GlobalLockService_decode_response (prototype : GlobalLockService_response) (data : bytes) : res (option GlobalLockService_response) :=
  match prototype with
  | GlobalLockService_LockRemote_response m => parsed_as GlobalLockService_LockRemote_response (decode slop data m)
  | GlobalLockService_InstanceInitDone_response m => parsed_as GlobalLockService_InstanceInitDone_response (decode slop data m)
  | GlobalLockService_GlobalLockInitDone_response m => parsed_as GlobalLockService_GlobalLockInitDone_response (decode slop data m)
  | GlobalLockService_GetNextTs_response m => parsed_as GlobalLockService_GetNextTs_response (decode slop data m)
  | GlobalLockService_Invalid_response m => parsed_as GlobalLockService_Invalid_response (decode slop data m)
  | GlobalLockService_Test_response m => parsed_as GlobalLockService_Test_response (decode slop data m)
  end.

(** What a channel does with a call: the request goes over the wire, the server
    parses it, calls the method of the index and sends the response back.  A
    message that cannot be parsed fails the call. *)
Definition GlobalLockService_channel (index : Z) (request : GlobalLockService_request) (s : S) : res (option GlobalLockService_response * S) :=
  data ← GlobalLockService_encode_request request;
  prototype ← GlobalLockService_GetRequestPrototype index;
  received ← GlobalLockService_decode_request prototype data;
  match received with
  | None => Ret (None, s)
  | Some request =>
      '(response, s) ← GlobalLockService_CallMethod service index request s;
      match response with
      | None => Ret (None, s)
      | Some response =>
          data ← GlobalLockService_encode_response response;
          prototype ← GlobalLockService_GetResponsePrototype index;
          received ← GlobalLockService_decode_response prototype data;
          Ret (received, s)
      end
  end.

#[local] Hint Unfold GlobalLockService_channel GlobalLockService_encode_request GlobalLockService_encode_response GlobalLockService_decode_request GlobalLockService_decode_response GlobalLockService_CallMethod GlobalLockService_GetRequestPrototype GlobalLockService_GetResponsePrototype parsed_as GlobalLockService_Stub_LockRemote GlobalLockService_Stub_InstanceInitDone GlobalLockService_Stub_GlobalLockInitDone GlobalLockService_Stub_GetNextTs GlobalLockService_Stub_Invalid GlobalLockService_Stub_Test : calls.

Lemma GlobalLockService_LockRemote_channel (request : LockRemoteRequest) (s : S) :
  sendable request -> (16 <= length slop)%nat -> replies (fun r => GlobalLockService_LockRemote service (received request) r) s ->
  GlobalLockService_Stub_LockRemote GlobalLockService_channel request s
  = respond (GlobalLockService_LockRemote_response ∘ received) (GlobalLockService_LockRemote service (received request) s).
Proof using H0. call_through_wire (GlobalLockService_LockRemote service (received request) s). Qed.

Lemma GlobalLockService_InstanceInitDone_channel (request : InstanceInitDoneRequest) (s : S) :
  sendable request -> (16 <= length slop)%nat -> replies (fun r => GlobalLockService_InstanceInitDone service (received request) r) s ->
  GlobalLockService_Stub_InstanceInitDone GlobalLockService_channel request s
  = respond (GlobalLockService_InstanceInitDone_response ∘ received) (GlobalLockService_InstanceInitDone service (received request) s).
Proof using H0. call_through_wire (GlobalLockService_InstanceInitDone service (received request) s). Qed.

Lemma GlobalLockService_GlobalLockInitDone_channel (request : GlobalLockInitDoneRequest) (s : S) :
  sendable request -> (16 <= length slop)%nat -> replies (fun r => GlobalLockService_GlobalLockInitDone service (received request) r) s ->
  GlobalLockService_Stub_GlobalLockInitDone GlobalLockService_channel request s
  = respond (GlobalLockService_GlobalLockInitDone_response ∘ received) (GlobalLockService_GlobalLockInitDone service (received request) s).
Proof using H0. call_through_wire (GlobalLockService_GlobalLockInitDone service (received request) s). Qed.

Lemma GlobalLockService_GetNextTs_channel (request : GetNextTsRequest) (s : S) :
  sendable request -> (16 <= length slop)%nat -> replies (fun r => GlobalLockService_GetNextTs service (received request) r) s ->
  GlobalLockService_Stub_GetNextTs GlobalLockService_channel request s
  = respond (GlobalLockService_GetNextTs_response ∘ received) (GlobalLockService_GetNextTs service (received request) s).
Proof using H0. call_through_wire (GlobalLockService_GetNextTs service (received request) s). Qed.

Lemma GlobalLockService_Invalid_channel (request : InvalidRequest) (s : S) :
  sendable request -> (16 <= length slop)%nat -> replies (fun r => GlobalLockService_Invalid service (received request) r) s ->
  GlobalLockService_Stub_Invalid GlobalLockService_channel request s
  = respond (GlobalLockService_Invalid_response ∘ received) (GlobalLockService_Invalid service (received request) s).
Proof using H0. call_through_wire (GlobalLockService_Invalid service (received request) s). Qed.

Lemma GlobalLockService_Test_channel (request : TestRequest) (s : S) :
  sendable request -> (16 <= length slop)%nat -> replies (fun r => GlobalLockService_Test service (received request) r) s ->
  GlobalLockService_Stub_Test GlobalLockService_channel request s
  = respond (GlobalLockService_Test_response ∘ received) (GlobalLockService_Test service (received request) s).
Proof using H0. call_through_wire (GlobalLockService_Test service (received request) s). Qed.

End GlobalLockService_rpc.
