(* ===== verification/DiskProto.v ===== *)
(** * db2: the messages of the shared disk
    ([shared_disk/brpc/shared_disk_service.pb.cc], [.pb.h])

    As [LockProto], for the messages and the service of the shared disk. *)

From S2P Require Import Prelude ProtoWire ProtoVarint ProtoMsg.

(** ** [OpenRequest] *)

(** [src/shared_disk/brpc/shared_disk_service.pb.h:253-263 OpenRequest] *)
Record OpenRequest := mkOpenRequest {
  OpenRequest_path_ : bytes;
  OpenRequest_internal_metadata_ : InternalMetadata }.

(** [src/shared_disk/brpc/shared_disk_service.pb.h:2285-2288 OpenRequest::_internal_set_path] *)
Definition OpenRequest_set_path (value : bytes) (m : OpenRequest) : OpenRequest :=
  let '(mkOpenRequest _ md) := m in mkOpenRequest value md.

Definition OpenRequest_set_metadata (metadata : InternalMetadata) (m : OpenRequest) : OpenRequest :=
  let '(mkOpenRequest path _) := m in mkOpenRequest path metadata.

(** [src/shared_disk/brpc/shared_disk_service.pb.cc:485-488 OpenRequest::SharedCtor] *)
Definition OpenRequest_SharedCtor : OpenRequest := mkOpenRequest [] None.

(** [src/shared_disk/brpc/shared_disk_service.pb.cc:516-524 OpenRequest::Clear] *)
Definition OpenRequest_Clear (m : OpenRequest) : OpenRequest := mkOpenRequest [] (md_Clear (OpenRequest_internal_metadata_ m)).

(** [src/shared_disk/brpc/shared_disk_service.pb.cc:658-662 OpenRequest::InternalSwap] *)
Definition OpenRequest_InternalSwap (m other : OpenRequest) : OpenRequest * OpenRequest :=
  let '(mkOpenRequest path md) := m in
  let '(mkOpenRequest path' md') := other in
  let '(swapped, swapped') := md_Swap md md' in
  (mkOpenRequest path' swapped, mkOpenRequest path swapped').

Section OpenRequest.
Context `{Protobuf}.

(** [src/shared_disk/brpc/shared_disk_service.pb.cc:474-483 OpenRequest] *)
Definition OpenRequest_copy (from : OpenRequest) : OpenRequest :=
  let '(mkOpenRequest path md) := from in mkOpenRequest (if negb (length path =? 0)%nat then path else []) (md_MergeFrom None md).

(** [src/shared_disk/brpc/shared_disk_service.pb.cc:526-563 OpenRequest::_InternalParse] *)
Definition OpenRequest_InternalParse (ctx : ParseContext) (fuel : nat) (p : ptr) (m : OpenRequest) : res (option (ptr * ParseContext * OpenRequest)) :=
  parse_loop OpenRequest_internal_metadata_ OpenRequest_set_metadata (fun tag =>
    match Z.shiftr tag 3 with
    | 1 =>
        if u8 tag =? 10 then Some (fun p m =>
          '(str, p) ←! InlineGreedyStringParser ctx p;
          if VerifyUTF8 str then Ret (Some (OpenRequest_set_path str m, p)) else Ret None) else None
    | _ => None
    end) ctx fuel p m.

(** [src/shared_disk/brpc/shared_disk_service.pb.cc:565-587 OpenRequest::_InternalSerialize] *)
Definition OpenRequest_InternalSerialize (m : OpenRequest) (s : EpsCopyOutputStream) : res EpsCopyOutputStream :=
  s ← (if 0 <? Z.of_nat (length (OpenRequest_path_ m)) then WriteStringMaybeAliased 1 (OpenRequest_path_ m) s else Ret s);
  if have_unknown_fields (OpenRequest_internal_metadata_ m) then InternalSerializeUnknownFieldsToArray (unknown_fields (OpenRequest_internal_metadata_ m)) s else Ret s.

(** [src/shared_disk/brpc/shared_disk_service.pb.cc:589-611 OpenRequest::ByteSizeLong] *)
Definition OpenRequest_ByteSizeLong (m : OpenRequest) : Z * Z :=
  let total_size := 0 in
  let total_size := if 0 <? Z.of_nat (length (OpenRequest_path_ m)) then u64 (total_size + u64 (1 + StringSize (OpenRequest_path_ m))) else total_size in
  if have_unknown_fields (OpenRequest_internal_metadata_ m) then ComputeUnknownFieldsSize (unknown_fields (OpenRequest_internal_metadata_ m)) total_size
  else (total_size, ToCachedSize total_size).

(** [src/shared_disk/brpc/shared_disk_service.pb.cc:628-638 OpenRequest::MergeFrom] *)
Definition OpenRequest_MergeFrom (m from : OpenRequest) : OpenRequest :=
  let m := OpenRequest_set_metadata (md_MergeFrom (OpenRequest_internal_metadata_ m) (OpenRequest_internal_metadata_ from)) m in
  let m := if 0 <? Z.of_nat (length (OpenRequest_path_ from)) then OpenRequest_set_path (OpenRequest_path_ from) m else m in
  m.

(** For two objects.  [src/shared_disk/brpc/shared_disk_service.pb.cc:647-652 OpenRequest::CopyFrom] *)
Definition OpenRequest_CopyFrom (m from : OpenRequest) : OpenRequest := OpenRequest_MergeFrom (OpenRequest_Clear m) from.

#[export] Instance OpenRequest_Message : Message OpenRequest := {
  New := OpenRequest_SharedCtor;
  metadata := OpenRequest_internal_metadata_;
  set_metadata := OpenRequest_set_metadata;
  Clear := OpenRequest_Clear;
  InternalParse := OpenRequest_InternalParse;
  InternalSerialize := OpenRequest_InternalSerialize;
  ByteSizeLong := OpenRequest_ByteSizeLong;
  copy_ctor := OpenRequest_copy;
  MergeFrom := OpenRequest_MergeFrom;
  CopyFrom := OpenRequest_CopyFrom;
  InternalSwap := OpenRequest_InternalSwap }.

Definition OpenRequest_table : list (field_spec OpenRequest) :=
  [BytesField 1 true OpenRequest_path_ OpenRequest_set_path].

Definition OpenRequest_in_range (m : OpenRequest) : Prop :=
  Z.of_nat (length (OpenRequest_path_ m)) <= max_string /\ VerifyUTF8 (OpenRequest_path_ m) = true.

#[local] Hint Unfold OpenRequest_Message OpenRequest_table OpenRequest_in_range OpenRequest_InternalSerialize OpenRequest_ByteSizeLong OpenRequest_MergeFrom OpenRequest_CopyFrom OpenRequest_Clear OpenRequest_SharedCtor OpenRequest_copy OpenRequest_InternalSwap OpenRequest_set_metadata OpenRequest_set_path : messages.

#[export] Instance OpenRequest_Spec : MessageSpec OpenRequest.
Proof. message_spec (Build_MessageSpec _ OpenRequest _ OpenRequest_table OpenRequest_in_range). Defined.
End OpenRequest.

(** ** [OpenReply] *)

(** [src/shared_disk/brpc/shared_disk_service.pb.h:390-400 OpenReply] *)
Record OpenReply := mkOpenReply {
  OpenReply_fd_ : Z;
  OpenReply_internal_metadata_ : InternalMetadata }.

(** [src/shared_disk/brpc/shared_disk_service.pb.h:2343-2350 OpenReply::_internal_set_fd] *)
Definition OpenReply_set_fd (value : Z) (m : OpenReply) : OpenReply :=
  let '(mkOpenReply _ md) := m in mkOpenReply value md.

Definition OpenReply_set_metadata (metadata : InternalMetadata) (m : OpenReply) : OpenReply :=
  let '(mkOpenReply fd _) := m in mkOpenReply fd metadata.

(** [src/shared_disk/brpc/shared_disk_service.pb.cc:690-692 OpenReply::SharedCtor] *)
Definition OpenReply_SharedCtor : OpenReply := mkOpenReply 0 None.

(** [src/shared_disk/brpc/shared_disk_service.pb.cc:719-727 OpenReply::Clear] *)
Definition OpenReply_Clear (m : OpenReply) : OpenReply := mkOpenReply 0 (md_Clear (OpenReply_internal_metadata_ m)).

(** [src/shared_disk/brpc/shared_disk_service.pb.cc:855-859 OpenReply::InternalSwap] *)
Definition OpenReply_InternalSwap (m other : OpenReply) : OpenReply * OpenReply :=
  let '(mkOpenReply fd md) := m in
  let '(mkOpenReply fd' md') := other in
  let '(swapped, swapped') := md_Swap md md' in
  (mkOpenReply fd' swapped, mkOpenReply fd swapped').

Section OpenReply.
Context `{Protobuf}.

(** [src/shared_disk/brpc/shared_disk_service.pb.cc:683-688 OpenReply] *)
Definition OpenReply_copy (from : OpenReply) : OpenReply :=
  let '(mkOpenReply fd md) := from in mkOpenReply fd (md_MergeFrom None md).

(** [src/shared_disk/brpc/shared_disk_service.pb.cc:729-764 OpenReply::_InternalParse] *)
Definition OpenReply_InternalParse (ctx : ParseContext) (fuel : nat) (p : ptr) (m : OpenReply) : res (option (ptr * ParseContext * OpenReply)) :=
  parse_loop OpenReply_internal_metadata_ OpenReply_set_metadata (fun tag =>
    match Z.shiftr tag 3 with
    | 1 =>
        if u8 tag =? 8 then Some (fun p m =>
          '(val, p) ←! ReadVarint64 p;
          Ret (Some (OpenReply_set_fd (i32 val) m, p))) else None
    | _ => None
    end) ctx fuel p m.

(** [src/shared_disk/brpc/shared_disk_service.pb.cc:766-784 OpenReply::_InternalSerialize] *)
Definition OpenReply_InternalSerialize (m : OpenReply) (s : EpsCopyOutputStream) : res EpsCopyOutputStream :=
  s ← (if negb (OpenReply_fd_ m =? 0) then s ← EnsureSpace s; WriteInt32ToArray 1 (OpenReply_fd_ m) s else Ret s);
  if have_unknown_fields (OpenReply_internal_metadata_ m) then InternalSerializeUnknownFieldsToArray (unknown_fields (OpenReply_internal_metadata_ m)) s else Ret s.

(** [src/shared_disk/brpc/shared_disk_service.pb.cc:786-808 OpenReply::ByteSizeLong] *)
Definition OpenReply_ByteSizeLong (m : OpenReply) : Z * Z :=
  let total_size := 0 in
  let total_size := if negb (OpenReply_fd_ m =? 0) then u64 (total_size + u64 (1 + Int32Size (OpenReply_fd_ m))) else total_size in
  if have_unknown_fields (OpenReply_internal_metadata_ m) then ComputeUnknownFieldsSize (unknown_fields (OpenReply_internal_metadata_ m)) total_size
  else (total_size, ToCachedSize total_size).

(** [src/shared_disk/brpc/shared_disk_service.pb.cc:825-835 OpenReply::MergeFrom] *)
Definition OpenReply_MergeFrom (m from : OpenReply) : OpenReply :=
  let m := OpenReply_set_metadata (md_MergeFrom (OpenReply_internal_metadata_ m) (OpenReply_internal_metadata_ from)) m in
  let m := if negb (OpenReply_fd_ from =? 0) then OpenReply_set_fd (OpenReply_fd_ from) m else m in
  m.

(** For two objects.  [src/shared_disk/brpc/shared_disk_service.pb.cc:844-849 OpenReply::CopyFrom] *)
Definition OpenReply_CopyFrom (m from : OpenReply) : OpenReply := OpenReply_MergeFrom (OpenReply_Clear m) from.

#[export] Instance OpenReply_Message : Message OpenReply := {
  New := OpenReply_SharedCtor;
  metadata := OpenReply_internal_metadata_;
  set_metadata := OpenReply_set_metadata;
  Clear := OpenReply_Clear;
  InternalParse := OpenReply_InternalParse;
  InternalSerialize := OpenReply_InternalSerialize;
  ByteSizeLong := OpenReply_ByteSizeLong;
  copy_ctor := OpenReply_copy;
  MergeFrom := OpenReply_MergeFrom;
  CopyFrom := OpenReply_CopyFrom;
  InternalSwap := OpenReply_InternalSwap }.

Definition OpenReply_table : list (field_spec OpenReply) :=
  [VarintField 1 (fun m => u64 (OpenReply_fd_ m)) (fun v => OpenReply_set_fd (i32 v))].

Definition OpenReply_in_range (m : OpenReply) : Prop :=
  - 2 ^ 31 <= OpenReply_fd_ m < 2 ^ 31.

#[local] Hint Unfold OpenReply_Message OpenReply_table OpenReply_in_range OpenReply_InternalSerialize OpenReply_ByteSizeLong OpenReply_MergeFrom OpenReply_CopyFrom OpenReply_Clear OpenReply_SharedCtor OpenReply_copy OpenReply_InternalSwap OpenReply_set_metadata OpenReply_set_fd : messages.

#[export] Instance OpenReply_Spec : MessageSpec OpenReply.
Proof. message_spec (Build_MessageSpec _ OpenReply _ OpenReply_table OpenReply_in_range). Defined.
End OpenReply.

(** ** [WriteRequest] *)

(** [src/shared_disk/brpc/shared_disk_service.pb.h:564-577 WriteRequest] *)
Record WriteRequest := mkWriteRequest {
  WriteRequest_buf_ : bytes;
  WriteRequest_size_ : Z;
  WriteRequest_offset_ : Z;
  WriteRequest_fd_ : Z;
  WriteRequest_internal_metadata_ : InternalMetadata }.

(** [src/shared_disk/brpc/shared_disk_service.pb.h:2395-2398 WriteRequest::_internal_set_buf] *)
Definition WriteRequest_set_buf (value : bytes) (m : WriteRequest) : WriteRequest :=
  let '(mkWriteRequest _ size offset fd md) := m in mkWriteRequest value size offset fd md.

(** [src/shared_disk/brpc/shared_disk_service.pb.h:2449-2456 WriteRequest::_internal_set_size] *)
Definition WriteRequest_set_size (value : Z) (m : WriteRequest) : WriteRequest :=
  let '(mkWriteRequest buf _ offset fd md) := m in mkWriteRequest buf value offset fd md.

(** [src/shared_disk/brpc/shared_disk_service.pb.h:2469-2476 WriteRequest::_internal_set_offset] *)
Definition WriteRequest_set_offset (value : Z) (m : WriteRequest) : WriteRequest :=
  let '(mkWriteRequest buf size _ fd md) := m in mkWriteRequest buf size value fd md.

(** [src/shared_disk/brpc/shared_disk_service.pb.h:2367-2374 WriteRequest::_internal_set_fd] *)
Definition WriteRequest_set_fd (value : Z) (m : WriteRequest) : WriteRequest :=
  let '(mkWriteRequest buf size offset _ md) := m in mkWriteRequest buf size offset value md.

Definition WriteRequest_set_metadata (metadata : InternalMetadata) (m : WriteRequest) : WriteRequest :=
  let '(mkWriteRequest buf size offset fd _) := m in mkWriteRequest buf size offset fd metadata.

(** [src/shared_disk/brpc/shared_disk_service.pb.cc:894-900 WriteRequest::SharedCtor] *)
Definition WriteRequest_SharedCtor : WriteRequest := mkWriteRequest [] 0 0 0 None.

(** [src/shared_disk/brpc/shared_disk_service.pb.cc:928-939 WriteRequest::Clear] *)
Definition WriteRequest_Clear (m : WriteRequest) : WriteRequest := mkWriteRequest [] 0 0 0 (md_Clear (WriteRequest_internal_metadata_ m)).

(** [src/shared_disk/brpc/shared_disk_service.pb.cc:1137-1147 WriteRequest::InternalSwap] *)
Definition WriteRequest_InternalSwap (m other : WriteRequest) : WriteRequest * WriteRequest :=
  let '(mkWriteRequest buf size offset fd md) := m in
  let '(mkWriteRequest buf' size' offset' fd' md') := other in
  let '(swapped, swapped') := md_Swap md md' in
  (mkWriteRequest buf' size' offset' fd' swapped, mkWriteRequest buf size offset fd swapped').

Section WriteRequest.
Context `{Protobuf}.

(** [src/shared_disk/brpc/shared_disk_service.pb.cc:880-892 WriteRequest] *)
Definition WriteRequest_copy (from : WriteRequest) : WriteRequest :=
  let '(mkWriteRequest buf size offset fd md) := from in mkWriteRequest (if negb (length buf =? 0)%nat then buf else []) size offset fd (md_MergeFrom None md).

(** [src/shared_disk/brpc/shared_disk_service.pb.cc:941-998 WriteRequest::_InternalParse] *)
Definition WriteRequest_InternalParse (ctx : ParseContext) (fuel : nat) (p : ptr) (m : WriteRequest) : res (option (ptr * ParseContext * WriteRequest)) :=
  parse_loop WriteRequest_internal_metadata_ WriteRequest_set_metadata (fun tag =>
    match Z.shiftr tag 3 with
    | 1 =>
        if u8 tag =? 8 then Some (fun p m =>
          '(val, p) ←! ReadVarint64 p;
          Ret (Some (WriteRequest_set_fd (i32 val) m, p))) else None
    | 2 =>
        if u8 tag =? 18 then Some (fun p m =>
          '(str, p) ←! InlineGreedyStringParser ctx p;
          Ret (Some (WriteRequest_set_buf str m, p))) else None
    | 3 =>
        if u8 tag =? 24 then Some (fun p m =>
          '(val, p) ←! ReadVarint64 p;
          Ret (Some (WriteRequest_set_size val m, p))) else None
    | 4 =>
        if u8 tag =? 32 then Some (fun p m =>
          '(val, p) ←! ReadVarint64 p;
          Ret (Some (WriteRequest_set_offset (i64 val) m, p))) else None
    | _ => None
    end) ctx fuel p m.

(** [src/shared_disk/brpc/shared_disk_service.pb.cc:1000-1036 WriteRequest::_InternalSerialize] *)
Definition WriteRequest_InternalSerialize (m : WriteRequest) (s : EpsCopyOutputStream) : res EpsCopyOutputStream :=
  s ← (if negb (WriteRequest_fd_ m =? 0) then s ← EnsureSpace s; WriteInt32ToArray 1 (WriteRequest_fd_ m) s else Ret s);
  s ← (if 0 <? Z.of_nat (length (WriteRequest_buf_ m)) then WriteBytesMaybeAliased 2 (WriteRequest_buf_ m) s else Ret s);
  s ← (if negb (WriteRequest_size_ m =? 0) then s ← EnsureSpace s; WriteUInt64ToArray 3 (WriteRequest_size_ m) s else Ret s);
  s ← (if negb (WriteRequest_offset_ m =? 0) then s ← EnsureSpace s; WriteInt64ToArray 4 (WriteRequest_offset_ m) s else Ret s);
  if have_unknown_fields (WriteRequest_internal_metadata_ m) then InternalSerializeUnknownFieldsToArray (unknown_fields (WriteRequest_internal_metadata_ m)) s else Ret s.

(** [src/shared_disk/brpc/shared_disk_service.pb.cc:1038-1081 WriteRequest::ByteSizeLong] *)
Definition WriteRequest_ByteSizeLong (m : WriteRequest) : Z * Z :=
  let total_size := 0 in
  let total_size := if 0 <? Z.of_nat (length (WriteRequest_buf_ m)) then u64 (total_size + u64 (1 + BytesSize (WriteRequest_buf_ m))) else total_size in
  let total_size := if negb (WriteRequest_size_ m =? 0) then u64 (total_size + u64 (1 + UInt64Size (WriteRequest_size_ m))) else total_size in
  let total_size := if negb (WriteRequest_offset_ m =? 0) then u64 (total_size + u64 (1 + Int64Size (WriteRequest_offset_ m))) else total_size in
  let total_size := if negb (WriteRequest_fd_ m =? 0) then u64 (total_size + u64 (1 + Int32Size (WriteRequest_fd_ m))) else total_size in
  if have_unknown_fields (WriteRequest_internal_metadata_ m) then ComputeUnknownFieldsSize (unknown_fields (WriteRequest_internal_metadata_ m)) total_size
  else (total_size, ToCachedSize total_size).

(** [src/shared_disk/brpc/shared_disk_service.pb.cc:1098-1117 WriteRequest::MergeFrom] *)
Definition WriteRequest_MergeFrom (m from : WriteRequest) : WriteRequest :=
  let m := WriteRequest_set_metadata (md_MergeFrom (WriteRequest_internal_metadata_ m) (WriteRequest_internal_metadata_ from)) m in
  let m := if 0 <? Z.of_nat (length (WriteRequest_buf_ from)) then WriteRequest_set_buf (WriteRequest_buf_ from) m else m in
  let m := if negb (WriteRequest_size_ from =? 0) then WriteRequest_set_size (WriteRequest_size_ from) m else m in
  let m := if negb (WriteRequest_offset_ from =? 0) then WriteRequest_set_offset (WriteRequest_offset_ from) m else m in
  let m := if negb (WriteRequest_fd_ from =? 0) then WriteRequest_set_fd (WriteRequest_fd_ from) m else m in
  m.

(** For two objects.  [src/shared_disk/brpc/shared_disk_service.pb.cc:1126-1131 WriteRequest::CopyFrom] *)
Definition WriteRequest_CopyFrom (m from : WriteRequest) : WriteRequest := WriteRequest_MergeFrom (WriteRequest_Clear m) from.

#[export] Instance WriteRequest_Message : Message WriteRequest := {
  New := WriteRequest_SharedCtor;
  metadata := WriteRequest_internal_metadata_;
  set_metadata := WriteRequest_set_metadata;
  Clear := WriteRequest_Clear;
  InternalParse := WriteRequest_InternalParse;
  InternalSerialize := WriteRequest_InternalSerialize;
  ByteSizeLong := WriteRequest_ByteSizeLong;
  copy_ctor := WriteRequest_copy;
  MergeFrom := WriteRequest_MergeFrom;
  CopyFrom := WriteRequest_CopyFrom;
  InternalSwap := WriteRequest_InternalSwap }.

Definition WriteRequest_table : list (field_spec WriteRequest) :=
  [VarintField 1 (fun m => u64 (WriteRequest_fd_ m)) (fun v => WriteRequest_set_fd (i32 v));
   BytesField 2 false WriteRequest_buf_ WriteRequest_set_buf;
   VarintField 3 WriteRequest_size_ WriteRequest_set_size;
   VarintField 4 (fun m => u64 (WriteRequest_offset_ m)) (fun v => WriteRequest_set_offset (i64 v))].

Definition WriteRequest_in_range (m : WriteRequest) : Prop :=
  - 2 ^ 31 <= WriteRequest_fd_ m < 2 ^ 31
  /\ Z.of_nat (length (WriteRequest_buf_ m)) <= max_string
  /\ is_u64 (WriteRequest_size_ m)
  /\ - 2 ^ 63 <= WriteRequest_offset_ m < 2 ^ 63.

#[local] Hint Unfold WriteRequest_Message WriteRequest_table WriteRequest_in_range WriteRequest_InternalSerialize WriteRequest_ByteSizeLong WriteRequest_MergeFrom WriteRequest_CopyFrom WriteRequest_Clear WriteRequest_SharedCtor WriteRequest_copy WriteRequest_InternalSwap WriteRequest_set_metadata WriteRequest_set_buf WriteRequest_set_size WriteRequest_set_offset WriteRequest_set_fd : messages.

#[export] Instance WriteRequest_Spec : MessageSpec WriteRequest.
Proof. message_spec (Build_MessageSpec _ WriteRequest _ WriteRequest_table WriteRequest_in_range). Defined.
End WriteRequest.

(** ** [WriteReply] *)

(** [src/shared_disk/brpc/shared_disk_service.pb.h:704-714 WriteReply] *)
Record WriteReply := mkWriteReply {
  WriteReply_size_ : Z;
  WriteReply_internal_metadata_ : InternalMetadata }.

(** [src/shared_disk/brpc/shared_disk_service.pb.h:2493-2500 WriteReply::_internal_set_size] *)
Definition WriteReply_set_size (value : Z) (m : WriteReply) : WriteReply :=
  let '(mkWriteReply _ md) := m in mkWriteReply value md.

Definition WriteReply_set_metadata (metadata : InternalMetadata) (m : WriteReply) : WriteReply :=
  let '(mkWriteReply size _) := m in mkWriteReply size metadata.

(** [src/shared_disk/brpc/shared_disk_service.pb.cc:1175-1177 WriteReply::SharedCtor] *)
Definition WriteReply_SharedCtor : WriteReply := mkWriteReply 0 None.

(** [src/shared_disk/brpc/shared_disk_service.pb.cc:1204-1212 WriteReply::Clear] *)
Definition WriteReply_Clear (m : WriteReply) : WriteReply := mkWriteReply 0 (md_Clear (WriteReply_internal_metadata_ m)).

(** [src/shared_disk/brpc/shared_disk_service.pb.cc:1340-1344 WriteReply::InternalSwap] *)
Definition WriteReply_InternalSwap (m other : WriteReply) : WriteReply * WriteReply :=
  let '(mkWriteReply size md) := m in
  let '(mkWriteReply size' md') := other in
  let '(swapped, swapped') := md_Swap md md' in
  (mkWriteReply size' swapped, mkWriteReply size swapped').

Section WriteReply.
Context `{Protobuf}.

(** [src/shared_disk/brpc/shared_disk_service.pb.cc:1168-1173 WriteReply] *)
Definition WriteReply_copy (from : WriteReply) : WriteReply :=
  let '(mkWriteReply size md) := from in mkWriteReply size (md_MergeFrom None md).

(** [src/shared_disk/brpc/shared_disk_service.pb.cc:1214-1249 WriteReply::_InternalParse] *)
Definition WriteReply_InternalParse (ctx : ParseContext) (fuel : nat) (p : ptr) (m : WriteReply) : res (option (ptr * ParseContext * WriteReply)) :=
  parse_loop WriteReply_internal_metadata_ WriteReply_set_metadata (fun tag =>
    match Z.shiftr tag 3 with
    | 1 =>
        if u8 tag =? 8 then Some (fun p m =>
          '(val, p) ←! ReadVarint64 p;
          Ret (Some (WriteReply_set_size val m, p))) else None
    | _ => None
    end) ctx fuel p m.

(** [src/shared_disk/brpc/shared_disk_service.pb.cc:1251-1269 WriteReply::_InternalSerialize] *)
Definition WriteReply_InternalSerialize (m : WriteReply) (s : EpsCopyOutputStream) : res EpsCopyOutputStream :=
  s ← (if negb (WriteReply_size_ m =? 0) then s ← EnsureSpace s; WriteUInt64ToArray 1 (WriteReply_size_ m) s else Ret s);
  if have_unknown_fields (WriteReply_internal_metadata_ m) then InternalSerializeUnknownFieldsToArray (unknown_fields (WriteReply_internal_metadata_ m)) s else Ret s.

(** [src/shared_disk/brpc/shared_disk_service.pb.cc:1271-1293 WriteReply::ByteSizeLong] *)
Definition WriteReply_ByteSizeLong (m : WriteReply) : Z * Z :=
  let total_size := 0 in
  let total_size := if negb (WriteReply_size_ m =? 0) then u64 (total_size + u64 (1 + UInt64Size (WriteReply_size_ m))) else total_size in
  if have_unknown_fields (WriteReply_internal_metadata_ m) then ComputeUnknownFieldsSize (unknown_fields (WriteReply_internal_metadata_ m)) total_size
  else (total_size, ToCachedSize total_size).

(** [src/shared_disk/brpc/shared_disk_service.pb.cc:1310-1320 WriteReply::MergeFrom] *)
Definition WriteReply_MergeFrom (m from : WriteReply) : WriteReply :=
  let m := WriteReply_set_metadata (md_MergeFrom (WriteReply_internal_metadata_ m) (WriteReply_internal_metadata_ from)) m in
  let m := if negb (WriteReply_size_ from =? 0) then WriteReply_set_size (WriteReply_size_ from) m else m in
  m.

(** For two objects.  [src/shared_disk/brpc/shared_disk_service.pb.cc:1329-1334 WriteReply::CopyFrom] *)
Definition WriteReply_CopyFrom (m from : WriteReply) : WriteReply := WriteReply_MergeFrom (WriteReply_Clear m) from.

#[export] Instance WriteReply_Message : Message WriteReply := {
  New := WriteReply_SharedCtor;
  metadata := WriteReply_internal_metadata_;
  set_metadata := WriteReply_set_metadata;
  Clear := WriteReply_Clear;
  InternalParse := WriteReply_InternalParse;
  InternalSerialize := WriteReply_InternalSerialize;
  ByteSizeLong := WriteReply_ByteSizeLong;
  copy_ctor := WriteReply_copy;
  MergeFrom := WriteReply_MergeFrom;
  CopyFrom := WriteReply_CopyFrom;
  InternalSwap := WriteReply_InternalSwap }.

Definition WriteReply_table : list (field_spec WriteReply) :=
  [VarintField 1 WriteReply_size_ WriteReply_set_size].

Definition WriteReply_in_range (m : WriteReply) : Prop :=
  is_u64 (WriteReply_size_ m).

#[local] Hint Unfold WriteReply_Message WriteReply_table WriteReply_in_range WriteReply_InternalSerialize WriteReply_ByteSizeLong WriteReply_MergeFrom WriteReply_CopyFrom WriteReply_Clear WriteReply_SharedCtor WriteReply_copy WriteReply_InternalSwap WriteReply_set_metadata WriteReply_set_size : messages.

#[export] Instance WriteReply_Spec : MessageSpec WriteReply.
Proof. message_spec (Build_MessageSpec _ WriteReply _ WriteReply_table WriteReply_in_range). Defined.
End WriteReply.

(** ** [ReadRequest] *)

(** [src/shared_disk/brpc/shared_disk_service.pb.h:861-873 ReadRequest] *)
Record ReadRequest := mkReadRequest {
  ReadRequest_size_ : Z;
  ReadRequest_offset_ : Z;
  ReadRequest_fd_ : Z;
  ReadRequest_internal_metadata_ : InternalMetadata }.

(** [src/shared_disk/brpc/shared_disk_service.pb.h:2537-2544 ReadRequest::_internal_set_size] *)
Definition ReadRequest_set_size (value : Z) (m : ReadRequest) : ReadRequest :=
  let '(mkReadRequest _ offset fd md) := m in mkReadRequest value offset fd md.

(** [src/shared_disk/brpc/shared_disk_service.pb.h:2557-2564 ReadRequest::_internal_set_offset] *)
Definition ReadRequest_set_offset (value : Z) (m : ReadRequest) : ReadRequest :=
  let '(mkReadRequest size _ fd md) := m in mkReadRequest size value fd md.

(** [src/shared_disk/brpc/shared_disk_service.pb.h:2517-2524 ReadRequest::_internal_set_fd] *)
Definition ReadRequest_set_fd (value : Z) (m : ReadRequest) : ReadRequest :=
  let '(mkReadRequest size offset _ md) := m in mkReadRequest size offset value md.

Definition ReadRequest_set_metadata (metadata : InternalMetadata) (m : ReadRequest) : ReadRequest :=
  let '(mkReadRequest size offset fd _) := m in mkReadRequest size offset fd metadata.

(** [src/shared_disk/brpc/shared_disk_service.pb.cc:1374-1378 ReadRequest::SharedCtor] *)
Definition ReadRequest_SharedCtor : ReadRequest := mkReadRequest 0 0 0 None.

(** [src/shared_disk/brpc/shared_disk_service.pb.cc:1405-1415 ReadRequest::Clear] *)
Definition ReadRequest_Clear (m : ReadRequest) : ReadRequest := mkReadRequest 0 0 0 (md_Clear (ReadRequest_internal_metadata_ m)).

(** [src/shared_disk/brpc/shared_disk_service.pb.cc:1589-1598 ReadRequest::InternalSwap] *)
Definition ReadRequest_InternalSwap (m other : ReadRequest) : ReadRequest * ReadRequest :=
  let '(mkReadRequest size offset fd md) := m in
  let '(mkReadRequest size' offset' fd' md') := other in
  let '(swapped, swapped') := md_Swap md md' in
  (mkReadRequest size' offset' fd' swapped, mkReadRequest size offset fd swapped').

Section ReadRequest.
Context `{Protobuf}.

(** [src/shared_disk/brpc/shared_disk_service.pb.cc:1365-1372 ReadRequest] *)
Definition ReadRequest_copy (from : ReadRequest) : ReadRequest :=
  let '(mkReadRequest size offset fd md) := from in mkReadRequest size offset fd (md_MergeFrom None md).

(** [src/shared_disk/brpc/shared_disk_service.pb.cc:1417-1466 ReadRequest::_InternalParse] *)
Definition ReadRequest_InternalParse (ctx : ParseContext) (fuel : nat) (p : ptr) (m : ReadRequest) : res (option (ptr * ParseContext * ReadRequest)) :=
  parse_loop ReadRequest_internal_metadata_ ReadRequest_set_metadata (fun tag =>
    match Z.shiftr tag 3 with
    | 1 =>
        if u8 tag =? 8 then Some (fun p m =>
          '(val, p) ←! ReadVarint64 p;
          Ret (Some (ReadRequest_set_fd (i32 val) m, p))) else None
    | 2 =>
        if u8 tag =? 16 then Some (fun p m =>
          '(val, p) ←! ReadVarint64 p;
          Ret (Some (ReadRequest_set_size val m, p))) else None
    | 3 =>
        if u8 tag =? 24 then Some (fun p m =>
          '(val, p) ←! ReadVarint64 p;
          Ret (Some (ReadRequest_set_offset (i64 val) m, p))) else None
    | _ => None
    end) ctx fuel p m.

(** [src/shared_disk/brpc/shared_disk_service.pb.cc:1468-1498 ReadRequest::_InternalSerialize] *)
Definition ReadRequest_InternalSerialize (m : ReadRequest) (s : EpsCopyOutputStream) : res EpsCopyOutputStream :=
  s ← (if negb (ReadRequest_fd_ m =? 0) then s ← EnsureSpace s; WriteInt32ToArray 1 (ReadRequest_fd_ m) s else Ret s);
  s ← (if negb (ReadRequest_size_ m =? 0) then s ← EnsureSpace s; WriteUInt64ToArray 2 (ReadRequest_size_ m) s else Ret s);
  s ← (if negb (ReadRequest_offset_ m =? 0) then s ← EnsureSpace s; WriteInt64ToArray 3 (ReadRequest_offset_ m) s else Ret s);
  if have_unknown_fields (ReadRequest_internal_metadata_ m) then InternalSerializeUnknownFieldsToArray (unknown_fields (ReadRequest_internal_metadata_ m)) s else Ret s.

(** [src/shared_disk/brpc/shared_disk_service.pb.cc:1500-1536 ReadRequest::ByteSizeLong] *)
Definition ReadRequest_ByteSizeLong (m : ReadRequest) : Z * Z :=
  let total_size := 0 in
  let total_size := if negb (ReadRequest_size_ m =? 0) then u64 (total_size + u64 (1 + UInt64Size (ReadRequest_size_ m))) else total_size in
  let total_size := if negb (ReadRequest_offset_ m =? 0) then u64 (total_size + u64 (1 + Int64Size (ReadRequest_offset_ m))) else total_size in
  let total_size := if negb (ReadRequest_fd_ m =? 0) then u64 (total_size + u64 (1 + Int32Size (ReadRequest_fd_ m))) else total_size in
  if have_unknown_fields (ReadRequest_internal_metadata_ m) then ComputeUnknownFieldsSize (unknown_fields (ReadRequest_internal_metadata_ m)) total_size
  else (total_size, ToCachedSize total_size).

(** [src/shared_disk/brpc/shared_disk_service.pb.cc:1553-1569 ReadRequest::MergeFrom] *)
Definition ReadRequest_MergeFrom (m from : ReadRequest) : ReadRequest :=
  let m := ReadRequest_set_metadata (md_MergeFrom (ReadRequest_internal_metadata_ m) (ReadRequest_internal_metadata_ from)) m in
  let m := if negb (ReadRequest_size_ from =? 0) then ReadRequest_set_size (ReadRequest_size_ from) m else m in
  let m := if negb (ReadRequest_offset_ from =? 0) then ReadRequest_set_offset (ReadRequest_offset_ from) m else m in
  let m := if negb (ReadRequest_fd_ from =? 0) then ReadRequest_set_fd (ReadRequest_fd_ from) m else m in
  m.

(** For two objects.  [src/shared_disk/brpc/shared_disk_service.pb.cc:1578-1583 ReadRequest::CopyFrom] *)
Definition ReadRequest_CopyFrom (m from : ReadRequest) : ReadRequest := ReadRequest_MergeFrom (ReadRequest_Clear m) from.

#[export] Instance ReadRequest_Message : Message ReadRequest := {
  New := ReadRequest_SharedCtor;
  metadata := ReadRequest_internal_metadata_;
  set_metadata := ReadRequest_set_metadata;
  Clear := ReadRequest_Clear;
  InternalParse := ReadRequest_InternalParse;
  InternalSerialize := ReadRequest_InternalSerialize;
  ByteSizeLong := ReadRequest_ByteSizeLong;
  copy_ctor := ReadRequest_copy;
  MergeFrom := ReadRequest_MergeFrom;
  CopyFrom := ReadRequest_CopyFrom;
  InternalSwap := ReadRequest_InternalSwap }.

Definition ReadRequest_table : list (field_spec ReadRequest) :=
  [VarintField 1 (fun m => u64 (ReadRequest_fd_ m)) (fun v => ReadRequest_set_fd (i32 v));
   VarintField 2 ReadRequest_size_ ReadRequest_set_size;
   VarintField 3 (fun m => u64 (ReadRequest_offset_ m)) (fun v => ReadRequest_set_offset (i64 v))].

Definition ReadRequest_in_range (m : ReadRequest) : Prop :=
  - 2 ^ 31 <= ReadRequest_fd_ m < 2 ^ 31
  /\ is_u64 (ReadRequest_size_ m)
  /\ - 2 ^ 63 <= ReadRequest_offset_ m < 2 ^ 63.

#[local] Hint Unfold ReadRequest_Message ReadRequest_table ReadRequest_in_range ReadRequest_InternalSerialize ReadRequest_ByteSizeLong ReadRequest_MergeFrom ReadRequest_CopyFrom ReadRequest_Clear ReadRequest_SharedCtor ReadRequest_copy ReadRequest_InternalSwap ReadRequest_set_metadata ReadRequest_set_size ReadRequest_set_offset ReadRequest_set_fd : messages.

#[export] Instance ReadRequest_Spec : MessageSpec ReadRequest.
Proof. message_spec (Build_MessageSpec _ ReadRequest _ ReadRequest_table ReadRequest_in_range). Defined.
End ReadRequest.

(** ** [ReadReply] *)

(** [src/shared_disk/brpc/shared_disk_service.pb.h:1017-1028 ReadReply] *)
Record ReadReply := mkReadReply {
  ReadReply_buf_ : bytes;
  ReadReply_size_ : Z;
  ReadReply_internal_metadata_ : InternalMetadata }.

(** [src/shared_disk/brpc/shared_disk_service.pb.h:2589-2592 ReadReply::_internal_set_buf] *)
Definition ReadReply_set_buf (value : bytes) (m : ReadReply) : ReadReply :=
  let '(mkReadReply _ size md) := m in mkReadReply value size md.

(** [src/shared_disk/brpc/shared_disk_service.pb.h:2643-2650 ReadReply::_internal_set_size] *)
Definition ReadReply_set_size (value : Z) (m : ReadReply) : ReadReply :=
  let '(mkReadReply buf _ md) := m in mkReadReply buf value md.

Definition ReadReply_set_metadata (metadata : InternalMetadata) (m : ReadReply) : ReadReply :=
  let '(mkReadReply buf size _) := m in mkReadReply buf size metadata.

(** [src/shared_disk/brpc/shared_disk_service.pb.cc:1631-1635 ReadReply::SharedCtor] *)
Definition ReadReply_SharedCtor : ReadReply := mkReadReply [] 0 None.

(** [src/shared_disk/brpc/shared_disk_service.pb.cc:1663-1672 ReadReply::Clear] *)
Definition ReadReply_Clear (m : ReadReply) : ReadReply := mkReadReply [] 0 (md_Clear (ReadReply_internal_metadata_ m)).

(** [src/shared_disk/brpc/shared_disk_service.pb.cc:1824-1829 ReadReply::InternalSwap] *)
Definition ReadReply_InternalSwap (m other : ReadReply) : ReadReply * ReadReply :=
  let '(mkReadReply buf size md) := m in
  let '(mkReadReply buf' size' md') := other in
  let '(swapped, swapped') := md_Swap md md' in
  (mkReadReply buf' size' swapped, mkReadReply buf size swapped').

Section ReadReply.
Context `{Protobuf}.

(** [src/shared_disk/brpc/shared_disk_service.pb.cc:1619-1629 ReadReply] *)
Definition ReadReply_copy (from : ReadReply) : ReadReply :=
  let '(mkReadReply buf size md) := from in mkReadReply (if negb (length buf =? 0)%nat then buf else []) size (md_MergeFrom None md).

(** [src/shared_disk/brpc/shared_disk_service.pb.cc:1674-1717 ReadReply::_InternalParse] *)
Definition ReadReply_InternalParse (ctx : ParseContext) (fuel : nat) (p : ptr) (m : ReadReply) : res (option (ptr * ParseContext * ReadReply)) :=
  parse_loop ReadReply_internal_metadata_ ReadReply_set_metadata (fun tag =>
    match Z.shiftr tag 3 with
    | 1 =>
        if u8 tag =? 10 then Some (fun p m =>
          '(str, p) ←! InlineGreedyStringParser ctx p;
          Ret (Some (ReadReply_set_buf str m, p))) else None
    | 2 =>
        if u8 tag =? 16 then Some (fun p m =>
          '(val, p) ←! ReadVarint64 p;
          Ret (Some (ReadReply_set_size val m, p))) else None
    | _ => None
    end) ctx fuel p m.

(** [src/shared_disk/brpc/shared_disk_service.pb.cc:1719-1743 ReadReply::_InternalSerialize] *)
Definition ReadReply_InternalSerialize (m : ReadReply) (s : EpsCopyOutputStream) : res EpsCopyOutputStream :=
  s ← (if 0 <? Z.of_nat (length (ReadReply_buf_ m)) then WriteBytesMaybeAliased 1 (ReadReply_buf_ m) s else Ret s);
  s ← (if negb (ReadReply_size_ m =? 0) then s ← EnsureSpace s; WriteUInt64ToArray 2 (ReadReply_size_ m) s else Ret s);
  if have_unknown_fields (ReadReply_internal_metadata_ m) then InternalSerializeUnknownFieldsToArray (unknown_fields (ReadReply_internal_metadata_ m)) s else Ret s.

(** [src/shared_disk/brpc/shared_disk_service.pb.cc:1745-1774 ReadReply::ByteSizeLong] *)
Definition ReadReply_ByteSizeLong (m : ReadReply) : Z * Z :=
  let total_size := 0 in
  let total_size := if 0 <? Z.of_nat (length (ReadReply_buf_ m)) then u64 (total_size + u64 (1 + BytesSize (ReadReply_buf_ m))) else total_size in
  let total_size := if negb (ReadReply_size_ m =? 0) then u64 (total_size + u64 (1 + UInt64Size (ReadReply_size_ m))) else total_size in
  if have_unknown_fields (ReadReply_internal_metadata_ m) then ComputeUnknownFieldsSize (unknown_fields (ReadReply_internal_metadata_ m)) total_size
  else (total_size, ToCachedSize total_size).

(** [src/shared_disk/brpc/shared_disk_service.pb.cc:1791-1804 ReadReply::MergeFrom] *)
Definition ReadReply_MergeFrom (m from : ReadReply) : ReadReply :=
  let m := ReadReply_set_metadata (md_MergeFrom (ReadReply_internal_metadata_ m) (ReadReply_internal_metadata_ from)) m in
  let m := if 0 <? Z.of_nat (length (ReadReply_buf_ from)) then ReadReply_set_buf (ReadReply_buf_ from) m else m in
  let m := if negb (ReadReply_size_ from =? 0) then ReadReply_set_size (ReadReply_size_ from) m else m in
  m.

(** For two objects.  [src/shared_disk/brpc/shared_disk_service.pb.cc:1813-1818 ReadReply::CopyFrom] *)
Definition ReadReply_CopyFrom (m from : ReadReply) : ReadReply := ReadReply_MergeFrom (ReadReply_Clear m) from.

#[export] Instance ReadReply_Message : Message ReadReply := {
  New := ReadReply_SharedCtor;
  metadata := ReadReply_internal_metadata_;
  set_metadata := ReadReply_set_metadata;
  Clear := ReadReply_Clear;
  InternalParse := ReadReply_InternalParse;
  InternalSerialize := ReadReply_InternalSerialize;
  ByteSizeLong := ReadReply_ByteSizeLong;
  copy_ctor := ReadReply_copy;
  MergeFrom := ReadReply_MergeFrom;
  CopyFrom := ReadReply_CopyFrom;
  InternalSwap := ReadReply_InternalSwap }.

Definition ReadReply_table : list (field_spec ReadReply) :=
  [BytesField 1 false ReadReply_buf_ ReadReply_set_buf;
   VarintField 2 ReadReply_size_ ReadReply_set_size].

Definition ReadReply_in_range (m : ReadReply) : Prop :=
  Z.of_nat (length (ReadReply_buf_ m)) <= max_string
  /\ is_u64 (ReadReply_size_ m).

#[local] Hint Unfold ReadReply_Message ReadReply_table ReadReply_in_range ReadReply_InternalSerialize ReadReply_ByteSizeLong ReadReply_MergeFrom ReadReply_CopyFrom ReadReply_Clear ReadReply_SharedCtor ReadReply_copy ReadReply_InternalSwap ReadReply_set_metadata ReadReply_set_buf ReadReply_set_size : messages.

#[export] Instance ReadReply_Spec : MessageSpec ReadReply.
Proof. message_spec (Build_MessageSpec _ ReadReply _ ReadReply_table ReadReply_in_range). Defined.
End ReadReply.

(** ** [WritePageRequest] *)

(** [src/shared_disk/brpc/shared_disk_service.pb.h:1172-1183 WritePageRequest] *)
Record WritePageRequest := mkWritePageRequest {
  WritePageRequest_page_buf_ : bytes;
  WritePageRequest_page_id_ : Z;
  WritePageRequest_internal_metadata_ : InternalMetadata }.

(** [src/shared_disk/brpc/shared_disk_service.pb.h:2695-2698 WritePageRequest::_internal_set_page_buf] *)
Definition WritePageRequest_set_page_buf (value : bytes) (m : WritePageRequest) : WritePageRequest :=
  let '(mkWritePageRequest _ page_id md) := m in mkWritePageRequest value page_id md.

(** [src/shared_disk/brpc/shared_disk_service.pb.h:2667-2674 WritePageRequest::_internal_set_page_id] *)
Definition WritePageRequest_set_page_id (value : Z) (m : WritePageRequest) : WritePageRequest :=
  let '(mkWritePageRequest page_buf _ md) := m in mkWritePageRequest page_buf value md.

Definition WritePageRequest_set_metadata (metadata : InternalMetadata) (m : WritePageRequest) : WritePageRequest :=
  let '(mkWritePageRequest page_buf page_id _) := m in mkWritePageRequest page_buf page_id metadata.

(** [src/shared_disk/brpc/shared_disk_service.pb.cc:1862-1866 WritePageRequest::SharedCtor] *)
Definition WritePageRequest_SharedCtor : WritePageRequest := mkWritePageRequest [] 0 None.

(** [src/shared_disk/brpc/shared_disk_service.pb.cc:1894-1903 WritePageRequest::Clear] *)
Definition WritePageRequest_Clear (m : WritePageRequest) : WritePageRequest := mkWritePageRequest [] 0 (md_Clear (WritePageRequest_internal_metadata_ m)).

(** [src/shared_disk/brpc/shared_disk_service.pb.cc:2055-2060 WritePageRequest::InternalSwap] *)
Definition WritePageRequest_InternalSwap (m other : WritePageRequest) : WritePageRequest * WritePageRequest :=
  let '(mkWritePageRequest page_buf page_id md) := m in
  let '(mkWritePageRequest page_buf' page_id' md') := other in
  let '(swapped, swapped') := md_Swap md md' in
  (mkWritePageRequest page_buf' page_id' swapped, mkWritePageRequest page_buf page_id swapped').

Section WritePageRequest.
Context `{Protobuf}.

(** [src/shared_disk/brpc/shared_disk_service.pb.cc:1850-1860 WritePageRequest] *)
Definition WritePageRequest_copy (from : WritePageRequest) : WritePageRequest :=
  let '(mkWritePageRequest page_buf page_id md) := from in mkWritePageRequest (if negb (length page_buf =? 0)%nat then page_buf else []) page_id (md_MergeFrom None md).

(** [src/shared_disk/brpc/shared_disk_service.pb.cc:1905-1948 WritePageRequest::_InternalParse] *)
Definition WritePageRequest_InternalParse (ctx : ParseContext) (fuel : nat) (p : ptr) (m : WritePageRequest) : res (option (ptr * ParseContext * WritePageRequest)) :=
  parse_loop WritePageRequest_internal_metadata_ WritePageRequest_set_metadata (fun tag =>
    match Z.shiftr tag 3 with
    | 1 =>
        if u8 tag =? 8 then Some (fun p m =>
          '(val, p) ←! ReadVarint64 p;
          Ret (Some (WritePageRequest_set_page_id val m, p))) else None
    | 2 =>
        if u8 tag =? 18 then Some (fun p m =>
          '(str, p) ←! InlineGreedyStringParser ctx p;
          Ret (Some (WritePageRequest_set_page_buf str m, p))) else None
    | _ => None
    end) ctx fuel p m.

(** [src/shared_disk/brpc/shared_disk_service.pb.cc:1950-1974 WritePageRequest::_InternalSerialize] *)
Definition WritePageRequest_InternalSerialize (m : WritePageRequest) (s : EpsCopyOutputStream) : res EpsCopyOutputStream :=
  s ← (if negb (WritePageRequest_page_id_ m =? 0) then s ← EnsureSpace s; WriteUInt64ToArray 1 (WritePageRequest_page_id_ m) s else Ret s);
  s ← (if 0 <? Z.of_nat (length (WritePageRequest_page_buf_ m)) then WriteBytesMaybeAliased 2 (WritePageRequest_page_buf_ m) s else Ret s);
  if have_unknown_fields (WritePageRequest_internal_metadata_ m) then InternalSerializeUnknownFieldsToArray (unknown_fields (WritePageRequest_internal_metadata_ m)) s else Ret s.

(** [src/shared_disk/brpc/shared_disk_service.pb.cc:1976-2005 WritePageRequest::ByteSizeLong] *)
Definition WritePageRequest_ByteSizeLong (m : WritePageRequest) : Z * Z :=
  let total_size := 0 in
  let total_size := if 0 <? Z.of_nat (length (WritePageRequest_page_buf_ m)) then u64 (total_size + u64 (1 + BytesSize (WritePageRequest_page_buf_ m))) else total_size in
  let total_size := if negb (WritePageRequest_page_id_ m =? 0) then u64 (total_size + u64 (1 + UInt64Size (WritePageRequest_page_id_ m))) else total_size in
  if have_unknown_fields (WritePageRequest_internal_metadata_ m) then ComputeUnknownFieldsSize (unknown_fields (WritePageRequest_internal_metadata_ m)) total_size
  else (total_size, ToCachedSize total_size).

(** [src/shared_disk/brpc/shared_disk_service.pb.cc:2022-2035 WritePageRequest::MergeFrom] *)
Definition WritePageRequest_MergeFrom (m from : WritePageRequest) : WritePageRequest :=
  let m := WritePageRequest_set_metadata (md_MergeFrom (WritePageRequest_internal_metadata_ m) (WritePageRequest_internal_metadata_ from)) m in
  let m := if 0 <? Z.of_nat (length (WritePageRequest_page_buf_ from)) then WritePageRequest_set_page_buf (WritePageRequest_page_buf_ from) m else m in
  let m := if negb (WritePageRequest_page_id_ from =? 0) then WritePageRequest_set_page_id (WritePageRequest_page_id_ from) m else m in
  m.

(** For two objects.  [src/shared_disk/brpc/shared_disk_service.pb.cc:2044-2049 WritePageRequest::CopyFrom] *)
Definition WritePageRequest_CopyFrom (m from : WritePageRequest) : WritePageRequest := WritePageRequest_MergeFrom (WritePageRequest_Clear m) from.

#[export] Instance WritePageRequest_Message : Message WritePageRequest := {
  New := WritePageRequest_SharedCtor;
  metadata := WritePageRequest_internal_metadata_;
  set_metadata := WritePageRequest_set_metadata;
  Clear := WritePageRequest_Clear;
  InternalParse := WritePageRequest_InternalParse;
  InternalSerialize := WritePageRequest_InternalSerialize;
  ByteSizeLong := WritePageRequest_ByteSizeLong;
  copy_ctor := WritePageRequest_copy;
  MergeFrom := WritePageRequest_MergeFrom;
  CopyFrom := WritePageRequest_CopyFrom;
  InternalSwap := WritePageRequest_InternalSwap }.

Definition WritePageRequest_table : list (field_spec WritePageRequest) :=
  [VarintField 1 WritePageRequest_page_id_ WritePageRequest_set_page_id;
   BytesField 2 false WritePageRequest_page_buf_ WritePageRequest_set_page_buf].

Definition WritePageRequest_in_range (m : WritePageRequest) : Prop :=
  is_u64 (WritePageRequest_page_id_ m)
  /\ Z.of_nat (length (WritePageRequest_page_buf_ m)) <= max_string.

#[local] Hint Unfold WritePageRequest_Message WritePageRequest_table WritePageRequest_in_range WritePageRequest_InternalSerialize WritePageRequest_ByteSizeLong WritePageRequest_MergeFrom WritePageRequest_CopyFrom WritePageRequest_Clear WritePageRequest_SharedCtor WritePageRequest_copy WritePageRequest_InternalSwap WritePageRequest_set_metadata WritePageRequest_set_page_buf WritePageRequest_set_page_id : messages.

#[export] Instance WritePageRequest_Spec : MessageSpec WritePageRequest.
Proof. message_spec (Build_MessageSpec _ WritePageRequest _ WritePageRequest_table WritePageRequest_in_range). Defined.
End WritePageRequest.

(** ** [WritePageReply] *)

(** [src/shared_disk/brpc/shared_disk_service.pb.h:1310-1320 WritePageReply] *)
Record WritePageReply := mkWritePageReply {
  WritePageReply_size_ : Z;
  WritePageReply_internal_metadata_ : InternalMetadata }.

(** [src/shared_disk/brpc/shared_disk_service.pb.h:2753-2760 WritePageReply::_internal_set_size] *)
Definition WritePageReply_set_size (value : Z) (m : WritePageReply) : WritePageReply :=
  let '(mkWritePageReply _ md) := m in mkWritePageReply value md.

Definition WritePageReply_set_metadata (metadata : InternalMetadata) (m : WritePageReply) : WritePageReply :=
  let '(mkWritePageReply size _) := m in mkWritePageReply size metadata.

(** [src/shared_disk/brpc/shared_disk_service.pb.cc:2088-2090 WritePageReply::SharedCtor] *)
Definition WritePageReply_SharedCtor : WritePageReply := mkWritePageReply 0 None.

(** [src/shared_disk/brpc/shared_disk_service.pb.cc:2117-2125 WritePageReply::Clear] *)
Definition WritePageReply_Clear (m : WritePageReply) : WritePageReply := mkWritePageReply 0 (md_Clear (WritePageReply_internal_metadata_ m)).

(** [src/shared_disk/brpc/shared_disk_service.pb.cc:2253-2257 WritePageReply::InternalSwap] *)
Definition WritePageReply_InternalSwap (m other : WritePageReply) : WritePageReply * WritePageReply :=
  let '(mkWritePageReply size md) := m in
  let '(mkWritePageReply size' md') := other in
  let '(swapped, swapped') := md_Swap md md' in
  (mkWritePageReply size' swapped, mkWritePageReply size swapped').

Section WritePageReply.
Context `{Protobuf}.

(** [src/shared_disk/brpc/shared_disk_service.pb.cc:2081-2086 WritePageReply] *)
Definition WritePageReply_copy (from : WritePageReply) : WritePageReply :=
  let '(mkWritePageReply size md) := from in mkWritePageReply size (md_MergeFrom None md).

(** [src/shared_disk/brpc/shared_disk_service.pb.cc:2127-2162 WritePageReply::_InternalParse] *)
Definition WritePageReply_InternalParse (ctx : ParseContext) (fuel : nat) (p : ptr) (m : WritePageReply) : res (option (ptr * ParseContext * WritePageReply)) :=
  parse_loop WritePageReply_internal_metadata_ WritePageReply_set_metadata (fun tag =>
    match Z.shiftr tag 3 with
    | 1 =>
        if u8 tag =? 8 then Some (fun p m =>
          '(val, p) ←! ReadVarint64 p;
          Ret (Some (WritePageReply_set_size val m, p))) else None
    | _ => None
    end) ctx fuel p m.

(** [src/shared_disk/brpc/shared_disk_service.pb.cc:2164-2182 WritePageReply::_InternalSerialize] *)
Definition WritePageReply_InternalSerialize (m : WritePageReply) (s : EpsCopyOutputStream) : res EpsCopyOutputStream :=
  s ← (if negb (WritePageReply_size_ m =? 0) then s ← EnsureSpace s; WriteUInt64ToArray 1 (WritePageReply_size_ m) s else Ret s);
  if have_unknown_fields (WritePageReply_internal_metadata_ m) then InternalSerializeUnknownFieldsToArray (unknown_fields (WritePageReply_internal_metadata_ m)) s else Ret s.

(** [src/shared_disk/brpc/shared_disk_service.pb.cc:2184-2206 WritePageReply::ByteSizeLong] *)
Definition WritePageReply_ByteSizeLong (m : WritePageReply) : Z * Z :=
  let total_size := 0 in
  let total_size := if negb (WritePageReply_size_ m =? 0) then u64 (total_size + u64 (1 + UInt64Size (WritePageReply_size_ m))) else total_size in
  if have_unknown_fields (WritePageReply_internal_metadata_ m) then ComputeUnknownFieldsSize (unknown_fields (WritePageReply_internal_metadata_ m)) total_size
  else (total_size, ToCachedSize total_size).

(** [src/shared_disk/brpc/shared_disk_service.pb.cc:2223-2233 WritePageReply::MergeFrom] *)
Definition WritePageReply_MergeFrom (m from : WritePageReply) : WritePageReply :=
  let m := WritePageReply_set_metadata (md_MergeFrom (WritePageReply_internal_metadata_ m) (WritePageReply_internal_metadata_ from)) m in
  let m := if negb (WritePageReply_size_ from =? 0) then WritePageReply_set_size (WritePageReply_size_ from) m else m in
  m.

(** For two objects.  [src/shared_disk/brpc/shared_disk_service.pb.cc:2242-2247 WritePageReply::CopyFrom] *)
Definition WritePageReply_CopyFrom (m from : WritePageReply) : WritePageReply := WritePageReply_MergeFrom (WritePageReply_Clear m) from.

#[export] Instance WritePageReply_Message : Message WritePageReply := {
  New := WritePageReply_SharedCtor;
  metadata := WritePageReply_internal_metadata_;
  set_metadata := WritePageReply_set_metadata;
  Clear := WritePageReply_Clear;
  InternalParse := WritePageReply_InternalParse;
  InternalSerialize := WritePageReply_InternalSerialize;
  ByteSizeLong := WritePageReply_ByteSizeLong;
  copy_ctor := WritePageReply_copy;
  MergeFrom := WritePageReply_MergeFrom;
  CopyFrom := WritePageReply_CopyFrom;
  InternalSwap := WritePageReply_InternalSwap }.

Definition WritePageReply_table : list (field_spec WritePageReply) :=
  [VarintField 1 WritePageReply_size_ WritePageReply_set_size].

Definition WritePageReply_in_range (m : WritePageReply) : Prop :=
  is_u64 (WritePageReply_size_ m).

#[local] Hint Unfold WritePageReply_Message WritePageReply_table WritePageReply_in_range WritePageReply_InternalSerialize WritePageReply_ByteSizeLong WritePageReply_MergeFrom WritePageReply_CopyFrom WritePageReply_Clear WritePageReply_SharedCtor WritePageReply_copy WritePageReply_InternalSwap WritePageReply_set_metadata WritePageReply_set_size : messages.

#[export] Instance WritePageReply_Spec : MessageSpec WritePageReply.
Proof. message_spec (Build_MessageSpec _ WritePageReply _ WritePageReply_table WritePageReply_in_range). Defined.
End WritePageReply.

(** ** [ReadPageRequest] *)

(** [src/shared_disk/brpc/shared_disk_service.pb.h:1447-1457 ReadPageRequest] *)
Record ReadPageRequest := mkReadPageRequest {
  ReadPageRequest_page_id_ : Z;
  ReadPageRequest_internal_metadata_ : InternalMetadata }.

(** [src/shared_disk/brpc/shared_disk_service.pb.h:2777-2784 ReadPageRequest::_internal_set_page_id] *)
Definition ReadPageRequest_set_page_id (value : Z) (m : ReadPageRequest) : ReadPageRequest :=
  let '(mkReadPageRequest _ md) := m in mkReadPageRequest value md.

Definition ReadPageRequest_set_metadata (metadata : InternalMetadata) (m : ReadPageRequest) : ReadPageRequest :=
  let '(mkReadPageRequest page_id _) := m in mkReadPageRequest page_id metadata.

(** [src/shared_disk/brpc/shared_disk_service.pb.cc:2285-2287 ReadPageRequest::SharedCtor] *)
Definition ReadPageRequest_SharedCtor : ReadPageRequest := mkReadPageRequest 0 None.

(** [src/shared_disk/brpc/shared_disk_service.pb.cc:2314-2322 ReadPageRequest::Clear] *)
Definition ReadPageRequest_Clear (m : ReadPageRequest) : ReadPageRequest := mkReadPageRequest 0 (md_Clear (ReadPageRequest_internal_metadata_ m)).

(** [src/shared_disk/brpc/shared_disk_service.pb.cc:2450-2454 ReadPageRequest::InternalSwap] *)
Definition ReadPageRequest_InternalSwap (m other : ReadPageRequest) : ReadPageRequest * ReadPageRequest :=
  let '(mkReadPageRequest page_id md) := m in
  let '(mkReadPageRequest page_id' md') := other in
  let '(swapped, swapped') := md_Swap md md' in
  (mkReadPageRequest page_id' swapped, mkReadPageRequest page_id swapped').

Section ReadPageRequest.
Context `{Protobuf}.

(** [src/shared_disk/brpc/shared_disk_service.pb.cc:2278-2283 ReadPageRequest] *)
Definition ReadPageRequest_copy (from : ReadPageRequest) : ReadPageRequest :=
  let '(mkReadPageRequest page_id md) := from in mkReadPageRequest page_id (md_MergeFrom None md).

(** [src/shared_disk/brpc/shared_disk_service.pb.cc:2324-2359 ReadPageRequest::_InternalParse] *)
Definition ReadPageRequest_InternalParse (ctx : ParseContext) (fuel : nat) (p : ptr) (m : ReadPageRequest) : res (option (ptr * ParseContext * ReadPageRequest)) :=
  parse_loop ReadPageRequest_internal_metadata_ ReadPageRequest_set_metadata (fun tag =>
    match Z.shiftr tag 3 with
    | 1 =>
        if u8 tag =? 8 then Some (fun p m =>
          '(val, p) ←! ReadVarint64 p;
          Ret (Some (ReadPageRequest_set_page_id val m, p))) else None
    | _ => None
    end) ctx fuel p m.

(** [src/shared_disk/brpc/shared_disk_service.pb.cc:2361-2379 ReadPageRequest::_InternalSerialize] *)
Definition ReadPageRequest_InternalSerialize (m : ReadPageRequest) (s : EpsCopyOutputStream) : res EpsCopyOutputStream :=
  s ← (if negb (ReadPageRequest_page_id_ m =? 0) then s ← EnsureSpace s; WriteUInt64ToArray 1 (ReadPageRequest_page_id_ m) s else Ret s);
  if have_unknown_fields (ReadPageRequest_internal_metadata_ m) then InternalSerializeUnknownFieldsToArray (unknown_fields (ReadPageRequest_internal_metadata_ m)) s else Ret s.

(** [src/shared_disk/brpc/shared_disk_service.pb.cc:2381-2403 ReadPageRequest::ByteSizeLong] *)
Definition ReadPageRequest_ByteSizeLong (m : ReadPageRequest) : Z * Z :=
  let total_size := 0 in
  let total_size := if negb (ReadPageRequest_page_id_ m =? 0) then u64 (total_size + u64 (1 + UInt64Size (ReadPageRequest_page_id_ m))) else total_size in
  if have_unknown_fields (ReadPageRequest_internal_metadata_ m) then ComputeUnknownFieldsSize (unknown_fields (ReadPageRequest_internal_metadata_ m)) total_size
  else (total_size, ToCachedSize total_size).

(** [src/shared_disk/brpc/shared_disk_service.pb.cc:2420-2430 ReadPageRequest::MergeFrom] *)
Definition ReadPageRequest_MergeFrom (m from : ReadPageRequest) : ReadPageRequest :=
  let m := ReadPageRequest_set_metadata (md_MergeFrom (ReadPageRequest_internal_metadata_ m) (ReadPageRequest_internal_metadata_ from)) m in
  let m := if negb (ReadPageRequest_page_id_ from =? 0) then ReadPageRequest_set_page_id (ReadPageRequest_page_id_ from) m else m in
  m.

(** For two objects.  [src/shared_disk/brpc/shared_disk_service.pb.cc:2439-2444 ReadPageRequest::CopyFrom] *)
Definition ReadPageRequest_CopyFrom (m from : ReadPageRequest) : ReadPageRequest := ReadPageRequest_MergeFrom (ReadPageRequest_Clear m) from.

#[export] Instance ReadPageRequest_Message : Message ReadPageRequest := {
  New := ReadPageRequest_SharedCtor;
  metadata := ReadPageRequest_internal_metadata_;
  set_metadata := ReadPageRequest_set_metadata;
  Clear := ReadPageRequest_Clear;
  InternalParse := ReadPageRequest_InternalParse;
  InternalSerialize := ReadPageRequest_InternalSerialize;
  ByteSizeLong := ReadPageRequest_ByteSizeLong;
  copy_ctor := ReadPageRequest_copy;
  MergeFrom := ReadPageRequest_MergeFrom;
  CopyFrom := ReadPageRequest_CopyFrom;
  InternalSwap := ReadPageRequest_InternalSwap }.

Definition ReadPageRequest_table : list (field_spec ReadPageRequest) :=
  [VarintField 1 ReadPageRequest_page_id_ ReadPageRequest_set_page_id].

Definition ReadPageRequest_in_range (m : ReadPageRequest) : Prop :=
  is_u64 (ReadPageRequest_page_id_ m).

#[local] Hint Unfold ReadPageRequest_Message ReadPageRequest_table ReadPageRequest_in_range ReadPageRequest_InternalSerialize ReadPageRequest_ByteSizeLong ReadPageRequest_MergeFrom ReadPageRequest_CopyFrom ReadPageRequest_Clear ReadPageRequest_SharedCtor ReadPageRequest_copy ReadPageRequest_InternalSwap ReadPageRequest_set_metadata ReadPageRequest_set_page_id : messages.

#[export] Instance ReadPageRequest_Spec : MessageSpec ReadPageRequest.
Proof. message_spec (Build_MessageSpec _ ReadPageRequest _ ReadPageRequest_table ReadPageRequest_in_range). Defined.
End ReadPageRequest.

(** ** [ReadPageReply] *)

(** [src/shared_disk/brpc/shared_disk_service.pb.h:1601-1612 ReadPageReply] *)
Record ReadPageReply := mkReadPageReply {
  ReadPageReply_page_buf_ : bytes;
  ReadPageReply_size_ : Z;
  ReadPageReply_internal_metadata_ : InternalMetadata }.

(** [src/shared_disk/brpc/shared_disk_service.pb.h:2809-2812 ReadPageReply::_internal_set_page_buf] *)
Definition ReadPageReply_set_page_buf (value : bytes) (m : ReadPageReply) : ReadPageReply :=
  let '(mkReadPageReply _ size md) := m in mkReadPageReply value size md.

(** [src/shared_disk/brpc/shared_disk_service.pb.h:2863-2870 ReadPageReply::_internal_set_size] *)
Definition ReadPageReply_set_size (value : Z) (m : ReadPageReply) : ReadPageReply :=
  let '(mkReadPageReply page_buf _ md) := m in mkReadPageReply page_buf value md.

Definition ReadPageReply_set_metadata (metadata : InternalMetadata) (m : ReadPageReply) : ReadPageReply :=
  let '(mkReadPageReply page_buf size _) := m in mkReadPageReply page_buf size metadata.

(** [src/shared_disk/brpc/shared_disk_service.pb.cc:2487-2491 ReadPageReply::SharedCtor] *)
Definition ReadPageReply_SharedCtor : ReadPageReply := mkReadPageReply [] 0 None.

(** [src/shared_disk/brpc/shared_disk_service.pb.cc:2519-2528 ReadPageReply::Clear] *)
Definition ReadPageReply_Clear (m : ReadPageReply) : ReadPageReply := mkReadPageReply [] 0 (md_Clear (ReadPageReply_internal_metadata_ m)).

(** [src/shared_disk/brpc/shared_disk_service.pb.cc:2680-2685 ReadPageReply::InternalSwap] *)
Definition ReadPageReply_InternalSwap (m other : ReadPageReply) : ReadPageReply * ReadPageReply :=
  let '(mkReadPageReply page_buf size md) := m in
  let '(mkReadPageReply page_buf' size' md') := other in
  let '(swapped, swapped') := md_Swap md md' in
  (mkReadPageReply page_buf' size' swapped, mkReadPageReply page_buf size swapped').

Section ReadPageReply.
Context `{Protobuf}.

(** [src/shared_disk/brpc/shared_disk_service.pb.cc:2475-2485 ReadPageReply] *)
Definition ReadPageReply_copy (from : ReadPageReply) : ReadPageReply :=
  let '(mkReadPageReply page_buf size md) := from in mkReadPageReply (if negb (length page_buf =? 0)%nat then page_buf else []) size (md_MergeFrom None md).

(** [src/shared_disk/brpc/shared_disk_service.pb.cc:2530-2573 ReadPageReply::_InternalParse] *)
Definition ReadPageReply_InternalParse (ctx : ParseContext) (fuel : nat) (p : ptr) (m : ReadPageReply) : res (option (ptr * ParseContext * ReadPageReply)) :=
  parse_loop ReadPageReply_internal_metadata_ ReadPageReply_set_metadata (fun tag =>
    match Z.shiftr tag 3 with
    | 1 =>
        if u8 tag =? 10 then Some (fun p m =>
          '(str, p) ←! InlineGreedyStringParser ctx p;
          Ret (Some (ReadPageReply_set_page_buf str m, p))) else None
    | 2 =>
        if u8 tag =? 16 then Some (fun p m =>
          '(val, p) ←! ReadVarint64 p;
          Ret (Some (ReadPageReply_set_size val m, p))) else None
    | _ => None
    end) ctx fuel p m.

(** [src/shared_disk/brpc/shared_disk_service.pb.cc:2575-2599 ReadPageReply::_InternalSerialize] *)
Definition ReadPageReply_InternalSerialize (m : ReadPageReply) (s : EpsCopyOutputStream) : res EpsCopyOutputStream :=
  s ← (if 0 <? Z.of_nat (length (ReadPageReply_page_buf_ m)) then WriteBytesMaybeAliased 1 (ReadPageReply_page_buf_ m) s else Ret s);
  s ← (if negb (ReadPageReply_size_ m =? 0) then s ← EnsureSpace s; WriteUInt64ToArray 2 (ReadPageReply_size_ m) s else Ret s);
  if have_unknown_fields (ReadPageReply_internal_metadata_ m) then InternalSerializeUnknownFieldsToArray (unknown_fields (ReadPageReply_internal_metadata_ m)) s else Ret s.

(** [src/shared_disk/brpc/shared_disk_service.pb.cc:2601-2630 ReadPageReply::ByteSizeLong] *)
Definition ReadPageReply_ByteSizeLong (m : ReadPageReply) : Z * Z :=
  let total_size := 0 in
  let total_size := if 0 <? Z.of_nat (length (ReadPageReply_page_buf_ m)) then u64 (total_size + u64 (1 + BytesSize (ReadPageReply_page_buf_ m))) else total_size in
  let total_size := if negb (ReadPageReply_size_ m =? 0) then u64 (total_size + u64 (1 + UInt64Size (ReadPageReply_size_ m))) else total_size in
  if have_unknown_fields (ReadPageReply_internal_metadata_ m) then ComputeUnknownFieldsSize (unknown_fields (ReadPageReply_internal_metadata_ m)) total_size
  else (total_size, ToCachedSize total_size).

(** [src/shared_disk/brpc/shared_disk_service.pb.cc:2647-2660 ReadPageReply::MergeFrom] *)
Definition ReadPageReply_MergeFrom (m from : ReadPageReply) : ReadPageReply :=
  let m := ReadPageReply_set_metadata (md_MergeFrom (ReadPageReply_internal_metadata_ m) (ReadPageReply_internal_metadata_ from)) m in
  let m := if 0 <? Z.of_nat (length (ReadPageReply_page_buf_ from)) then ReadPageReply_set_page_buf (ReadPageReply_page_buf_ from) m else m in
  let m := if negb (ReadPageReply_size_ from =? 0) then ReadPageReply_set_size (ReadPageReply_size_ from) m else m in
  m.

(** For two objects.  [src/shared_disk/brpc/shared_disk_service.pb.cc:2669-2674 ReadPageReply::CopyFrom] *)
Definition ReadPageReply_CopyFrom (m from : ReadPageReply) : ReadPageReply := ReadPageReply_MergeFrom (ReadPageReply_Clear m) from.

#[export] Instance ReadPageReply_Message : Message ReadPageReply := {
  New := ReadPageReply_SharedCtor;
  metadata := ReadPageReply_internal_metadata_;
  set_metadata := ReadPageReply_set_metadata;
  Clear := ReadPageReply_Clear;
  InternalParse := ReadPageReply_InternalParse;
  InternalSerialize := ReadPageReply_InternalSerialize;
  ByteSizeLong := ReadPageReply_ByteSizeLong;
  copy_ctor := ReadPageReply_copy;
  MergeFrom := ReadPageReply_MergeFrom;
  CopyFrom := ReadPageReply_CopyFrom;
  InternalSwap := ReadPageReply_InternalSwap }.

Definition ReadPageReply_table : list (field_spec ReadPageReply) :=
  [BytesField 1 false ReadPageReply_page_buf_ ReadPageReply_set_page_buf;
   VarintField 2 ReadPageReply_size_ ReadPageReply_set_size].

Definition ReadPageReply_in_range (m : ReadPageReply) : Prop :=
  Z.of_nat (length (ReadPageReply_page_buf_ m)) <= max_string
  /\ is_u64 (ReadPageReply_size_ m).

#[local] Hint Unfold ReadPageReply_Message ReadPageReply_table ReadPageReply_in_range ReadPageReply_InternalSerialize ReadPageReply_ByteSizeLong ReadPageReply_MergeFrom ReadPageReply_CopyFrom ReadPageReply_Clear ReadPageReply_SharedCtor ReadPageReply_copy ReadPageReply_InternalSwap ReadPageReply_set_metadata ReadPageReply_set_page_buf ReadPageReply_set_size : messages.

#[export] Instance ReadPageReply_Spec : MessageSpec ReadPageReply.
Proof. message_spec (Build_MessageSpec _ ReadPageReply _ ReadPageReply_table ReadPageReply_in_range). Defined.
End ReadPageReply.

(** ** [CloseAllRequest] *)

(** [src/shared_disk/brpc/shared_disk_service.pb.h:1727-1736 CloseAllRequest] *)
Record CloseAllRequest := mkCloseAllRequest {
  CloseAllRequest_internal_metadata_ : InternalMetadata }.

Definition CloseAllRequest_set_metadata (metadata : InternalMetadata) (m : CloseAllRequest) : CloseAllRequest :=
  let '(mkCloseAllRequest _) := m in mkCloseAllRequest metadata.

(** [src/shared_disk/brpc/shared_disk_service.pb.cc:2712-2713 CloseAllRequest::SharedCtor] *)
Definition CloseAllRequest_SharedCtor : CloseAllRequest := mkCloseAllRequest None.

(** [src/shared_disk/brpc/shared_disk_service.pb.cc:2740-2747 CloseAllRequest::Clear] *)
Definition CloseAllRequest_Clear (m : CloseAllRequest) : CloseAllRequest := mkCloseAllRequest (md_Clear (CloseAllRequest_internal_metadata_ m)).

(** [src/shared_disk/brpc/shared_disk_service.pb.cc:2847-2850 CloseAllRequest::InternalSwap] *)
Definition CloseAllRequest_InternalSwap (m other : CloseAllRequest) : CloseAllRequest * CloseAllRequest :=
  let '(mkCloseAllRequest md) := m in
  let '(mkCloseAllRequest md') := other in
  let '(swapped, swapped') := md_Swap md md' in
  (mkCloseAllRequest swapped, mkCloseAllRequest swapped').

Section CloseAllRequest.
Context `{Protobuf}.

(** [src/shared_disk/brpc/shared_disk_service.pb.cc:2706-2710 CloseAllRequest] *)
Definition CloseAllRequest_copy (from : CloseAllRequest) : CloseAllRequest :=
  let '(mkCloseAllRequest md) := from in mkCloseAllRequest (md_MergeFrom None md).

(** [src/shared_disk/brpc/shared_disk_service.pb.cc:2749-2772 CloseAllRequest::_InternalParse] *)
Definition CloseAllRequest_InternalParse (ctx : ParseContext) (fuel : nat) (p : ptr) (m : CloseAllRequest) : res (option (ptr * ParseContext * CloseAllRequest)) :=
  parse_loop CloseAllRequest_internal_metadata_ CloseAllRequest_set_metadata (fun _ => None) ctx fuel p m.

(** [src/shared_disk/brpc/shared_disk_service.pb.cc:2774-2786 CloseAllRequest::_InternalSerialize] *)
Definition CloseAllRequest_InternalSerialize (m : CloseAllRequest) (s : EpsCopyOutputStream) : res EpsCopyOutputStream :=
  if have_unknown_fields (CloseAllRequest_internal_metadata_ m) then InternalSerializeUnknownFieldsToArray (unknown_fields (CloseAllRequest_internal_metadata_ m)) s else Ret s.

(** [src/shared_disk/brpc/shared_disk_service.pb.cc:2788-2803 CloseAllRequest::ByteSizeLong] *)
Definition CloseAllRequest_ByteSizeLong (m : CloseAllRequest) : Z * Z :=
  let total_size := 0 in
  if have_unknown_fields (CloseAllRequest_internal_metadata_ m) then ComputeUnknownFieldsSize (unknown_fields (CloseAllRequest_internal_metadata_ m)) total_size
  else (total_size, ToCachedSize total_size).

(** [src/shared_disk/brpc/shared_disk_service.pb.cc:2820-2827 CloseAllRequest::MergeFrom] *)
Definition CloseAllRequest_MergeFrom (m from : CloseAllRequest) : CloseAllRequest :=
  let m := CloseAllRequest_set_metadata (md_MergeFrom (CloseAllRequest_internal_metadata_ m) (CloseAllRequest_internal_metadata_ from)) m in
  m.

(** For two objects.  [src/shared_disk/brpc/shared_disk_service.pb.cc:2836-2841 CloseAllRequest::CopyFrom] *)
Definition CloseAllRequest_CopyFrom (m from : CloseAllRequest) : CloseAllRequest := CloseAllRequest_MergeFrom (CloseAllRequest_Clear m) from.

#[export] Instance CloseAllRequest_Message : Message CloseAllRequest := {
  New := CloseAllRequest_SharedCtor;
  metadata := CloseAllRequest_internal_metadata_;
  set_metadata := CloseAllRequest_set_metadata;
  Clear := CloseAllRequest_Clear;
  InternalParse := CloseAllRequest_InternalParse;
  InternalSerialize := CloseAllRequest_InternalSerialize;
  ByteSizeLong := CloseAllRequest_ByteSizeLong;
  copy_ctor := CloseAllRequest_copy;
  MergeFrom := CloseAllRequest_MergeFrom;
  CopyFrom := CloseAllRequest_CopyFrom;
  InternalSwap := CloseAllRequest_InternalSwap }.

Definition CloseAllRequest_table : list (field_spec CloseAllRequest) :=
  [].

Definition CloseAllRequest_in_range (m : CloseAllRequest) : Prop :=
  True.

#[local] Hint Unfold CloseAllRequest_Message CloseAllRequest_table CloseAllRequest_in_range CloseAllRequest_InternalSerialize CloseAllRequest_ByteSizeLong CloseAllRequest_MergeFrom CloseAllRequest_CopyFrom CloseAllRequest_Clear CloseAllRequest_SharedCtor CloseAllRequest_copy CloseAllRequest_InternalSwap CloseAllRequest_set_metadata : messages.

#[export] Instance CloseAllRequest_Spec : MessageSpec CloseAllRequest.
Proof. message_spec (Build_MessageSpec _ CloseAllRequest _ CloseAllRequest_table CloseAllRequest_in_range). Defined.
End CloseAllRequest.

(** ** [CloseAllReply] *)

(** [src/shared_disk/brpc/shared_disk_service.pb.h:1863-1873 CloseAllReply] *)
Record CloseAllReply := mkCloseAllReply {
  CloseAllReply_rc_ : Z;
  CloseAllReply_internal_metadata_ : InternalMetadata }.

(** [src/shared_disk/brpc/shared_disk_service.pb.h:2891-2898 CloseAllReply::_internal_set_rc] *)
Definition CloseAllReply_set_rc (value : Z) (m : CloseAllReply) : CloseAllReply :=
  let '(mkCloseAllReply _ md) := m in mkCloseAllReply value md.

Definition CloseAllReply_set_metadata (metadata : InternalMetadata) (m : CloseAllReply) : CloseAllReply :=
  let '(mkCloseAllReply rc _) := m in mkCloseAllReply rc metadata.

(** [src/shared_disk/brpc/shared_disk_service.pb.cc:2878-2880 CloseAllReply::SharedCtor] *)
Definition CloseAllReply_SharedCtor : CloseAllReply := mkCloseAllReply 0 None.

(** [src/shared_disk/brpc/shared_disk_service.pb.cc:2907-2915 CloseAllReply::Clear] *)
Definition CloseAllReply_Clear (m : CloseAllReply) : CloseAllReply := mkCloseAllReply 0 (md_Clear (CloseAllReply_internal_metadata_ m)).

(** [src/shared_disk/brpc/shared_disk_service.pb.cc:3043-3047 CloseAllReply::InternalSwap] *)
Definition CloseAllReply_InternalSwap (m other : CloseAllReply) : CloseAllReply * CloseAllReply :=
  let '(mkCloseAllReply rc md) := m in
  let '(mkCloseAllReply rc' md') := other in
  let '(swapped, swapped') := md_Swap md md' in
  (mkCloseAllReply rc' swapped, mkCloseAllReply rc swapped').

Section CloseAllReply.
Context `{Protobuf}.

(** [src/shared_disk/brpc/shared_disk_service.pb.cc:2871-2876 CloseAllReply] *)
Definition CloseAllReply_copy (from : CloseAllReply) : CloseAllReply :=
  let '(mkCloseAllReply rc md) := from in mkCloseAllReply rc (md_MergeFrom None md).

(** [src/shared_disk/brpc/shared_disk_service.pb.cc:2917-2952 CloseAllReply::_InternalParse] *)
Definition CloseAllReply_InternalParse (ctx : ParseContext) (fuel : nat) (p : ptr) (m : CloseAllReply) : res (option (ptr * ParseContext * CloseAllReply)) :=
  parse_loop CloseAllReply_internal_metadata_ CloseAllReply_set_metadata (fun tag =>
    match Z.shiftr tag 3 with
    | 1 =>
        if u8 tag =? 8 then Some (fun p m =>
          '(val, p) ←! ReadVarint64 p;
          Ret (Some (CloseAllReply_set_rc (i32 val) m, p))) else None
    | _ => None
    end) ctx fuel p m.

(** [src/shared_disk/brpc/shared_disk_service.pb.cc:2954-2972 CloseAllReply::_InternalSerialize] *)
Definition CloseAllReply_InternalSerialize (m : CloseAllReply) (s : EpsCopyOutputStream) : res EpsCopyOutputStream :=
  s ← (if negb (CloseAllReply_rc_ m =? 0) then s ← EnsureSpace s; WriteInt32ToArray 1 (CloseAllReply_rc_ m) s else Ret s);
  if have_unknown_fields (CloseAllReply_internal_metadata_ m) then InternalSerializeUnknownFieldsToArray (unknown_fields (CloseAllReply_internal_metadata_ m)) s else Ret s.

(** [src/shared_disk/brpc/shared_disk_service.pb.cc:2974-2996 CloseAllReply::ByteSizeLong] *)
Definition CloseAllReply_ByteSizeLong (m : CloseAllReply) : Z * Z :=
  let total_size := 0 in
  let total_size := if negb (CloseAllReply_rc_ m =? 0) then u64 (total_size + u64 (1 + Int32Size (CloseAllReply_rc_ m))) else total_size in
  if have_unknown_fields (CloseAllReply_internal_metadata_ m) then ComputeUnknownFieldsSize (unknown_fields (CloseAllReply_internal_metadata_ m)) total_size
  else (total_size, ToCachedSize total_size).

(** [src/shared_disk/brpc/shared_disk_service.pb.cc:3013-3023 CloseAllReply::MergeFrom] *)
Definition CloseAllReply_MergeFrom (m from : CloseAllReply) : CloseAllReply :=
  let m := CloseAllReply_set_metadata (md_MergeFrom (CloseAllReply_internal_metadata_ m) (CloseAllReply_internal_metadata_ from)) m in
  let m := if negb (CloseAllReply_rc_ from =? 0) then CloseAllReply_set_rc (CloseAllReply_rc_ from) m else m in
  m.

(** For two objects.  [src/shared_disk/brpc/shared_disk_service.pb.cc:3032-3037 CloseAllReply::CopyFrom] *)
Definition CloseAllReply_CopyFrom (m from : CloseAllReply) : CloseAllReply := CloseAllReply_MergeFrom (CloseAllReply_Clear m) from.

#[export] Instance CloseAllReply_Message : Message CloseAllReply := {
  New := CloseAllReply_SharedCtor;
  metadata := CloseAllReply_internal_metadata_;
  set_metadata := CloseAllReply_set_metadata;
  Clear := CloseAllReply_Clear;
  InternalParse := CloseAllReply_InternalParse;
  InternalSerialize := CloseAllReply_InternalSerialize;
  ByteSizeLong := CloseAllReply_ByteSizeLong;
  copy_ctor := CloseAllReply_copy;
  MergeFrom := CloseAllReply_MergeFrom;
  CopyFrom := CloseAllReply_CopyFrom;
  InternalSwap := CloseAllReply_InternalSwap }.

Definition CloseAllReply_table : list (field_spec CloseAllReply) :=
  [VarintField 1 (fun m => u64 (CloseAllReply_rc_ m)) (fun v => CloseAllReply_set_rc (i32 v))].

Definition CloseAllReply_in_range (m : CloseAllReply) : Prop :=
  - 2 ^ 31 <= CloseAllReply_rc_ m < 2 ^ 31.

#[local] Hint Unfold CloseAllReply_Message CloseAllReply_table CloseAllReply_in_range CloseAllReply_InternalSerialize CloseAllReply_ByteSizeLong CloseAllReply_MergeFrom CloseAllReply_CopyFrom CloseAllReply_Clear CloseAllReply_SharedCtor CloseAllReply_copy CloseAllReply_InternalSwap CloseAllReply_set_metadata CloseAllReply_set_rc : messages.

#[export] Instance CloseAllReply_Spec : MessageSpec CloseAllReply.
Proof. message_spec (Build_MessageSpec _ CloseAllReply _ CloseAllReply_table CloseAllReply_in_range). Defined.
End CloseAllReply.

(** ** [CloseRequest] *)

(** [src/shared_disk/brpc/shared_disk_service.pb.h:2000-2010 CloseRequest] *)
Record CloseRequest := mkCloseRequest {
  CloseRequest_fd_ : Z;
  CloseRequest_internal_metadata_ : InternalMetadata }.

(** [src/shared_disk/brpc/shared_disk_service.pb.h:2915-2922 CloseRequest::_internal_set_fd] *)
Definition CloseRequest_set_fd (value : Z) (m : CloseRequest) : CloseRequest :=
  let '(mkCloseRequest _ md) := m in mkCloseRequest value md.

Definition CloseRequest_set_metadata (metadata : InternalMetadata) (m : CloseRequest) : CloseRequest :=
  let '(mkCloseRequest fd _) := m in mkCloseRequest fd metadata.

(** [src/shared_disk/brpc/shared_disk_service.pb.cc:3075-3077 CloseRequest::SharedCtor] *)
Definition CloseRequest_SharedCtor : CloseRequest := mkCloseRequest 0 None.

(** [src/shared_disk/brpc/shared_disk_service.pb.cc:3104-3112 CloseRequest::Clear] *)
Definition CloseRequest_Clear (m : CloseRequest) : CloseRequest := mkCloseRequest 0 (md_Clear (CloseRequest_internal_metadata_ m)).

(** [src/shared_disk/brpc/shared_disk_service.pb.cc:3240-3244 CloseRequest::InternalSwap] *)
Definition CloseRequest_InternalSwap (m other : CloseRequest) : CloseRequest * CloseRequest :=
  let '(mkCloseRequest fd md) := m in
  let '(mkCloseRequest fd' md') := other in
  let '(swapped, swapped') := md_Swap md md' in
  (mkCloseRequest fd' swapped, mkCloseRequest fd swapped').

Section CloseRequest.
Context `{Protobuf}.

(** [src/shared_disk/brpc/shared_disk_service.pb.cc:3068-3073 CloseRequest] *)
Definition CloseRequest_copy (from : CloseRequest) : CloseRequest :=
  let '(mkCloseRequest fd md) := from in mkCloseRequest fd (md_MergeFrom None md).

(** [src/shared_disk/brpc/shared_disk_service.pb.cc:3114-3149 CloseRequest::_InternalParse] *)
Definition CloseRequest_InternalParse (ctx : ParseContext) (fuel : nat) (p : ptr) (m : CloseRequest) : res (option (ptr * ParseContext * CloseRequest)) :=
  parse_loop CloseRequest_internal_metadata_ CloseRequest_set_metadata (fun tag =>
    match Z.shiftr tag 3 with
    | 1 =>
        if u8 tag =? 8 then Some (fun p m =>
          '(val, p) ←! ReadVarint64 p;
          Ret (Some (CloseRequest_set_fd (i32 val) m, p))) else None
    | _ => None
    end) ctx fuel p m.

(** [src/shared_disk/brpc/shared_disk_service.pb.cc:3151-3169 CloseRequest::_InternalSerialize] *)
Definition CloseRequest_InternalSerialize (m : CloseRequest) (s : EpsCopyOutputStream) : res EpsCopyOutputStream :=
  s ← (if negb (CloseRequest_fd_ m =? 0) then s ← EnsureSpace s; WriteInt32ToArray 1 (CloseRequest_fd_ m) s else Ret s);
  if have_unknown_fields (CloseRequest_internal_metadata_ m) then InternalSerializeUnknownFieldsToArray (unknown_fields (CloseRequest_internal_metadata_ m)) s else Ret s.

(** [src/shared_disk/brpc/shared_disk_service.pb.cc:3171-3193 CloseRequest::ByteSizeLong] *)
Definition CloseRequest_ByteSizeLong (m : CloseRequest) : Z * Z :=
  let total_size := 0 in
  let total_size := if negb (CloseRequest_fd_ m =? 0) then u64 (total_size + u64 (1 + Int32Size (CloseRequest_fd_ m))) else total_size in
  if have_unknown_fields (CloseRequest_internal_metadata_ m) then ComputeUnknownFieldsSize (unknown_fields (CloseRequest_internal_metadata_ m)) total_size
  else (total_size, ToCachedSize total_size).

(** [src/shared_disk/brpc/shared_disk_service.pb.cc:3210-3220 CloseRequest::MergeFrom] *)
Definition CloseRequest_MergeFrom (m from : CloseRequest) : CloseRequest :=
  let m := CloseRequest_set_metadata (md_MergeFrom (CloseRequest_internal_metadata_ m) (CloseRequest_internal_metadata_ from)) m in
  let m := if negb (CloseRequest_fd_ from =? 0) then CloseRequest_set_fd (CloseRequest_fd_ from) m else m in
  m.

(** For two objects.  [src/shared_disk/brpc/shared_disk_service.pb.cc:3229-3234 CloseRequest::CopyFrom] *)
Definition CloseRequest_CopyFrom (m from : CloseRequest) : CloseRequest := CloseRequest_MergeFrom (CloseRequest_Clear m) from.

#[export] Instance CloseRequest_Message : Message CloseRequest := {
  New := CloseRequest_SharedCtor;
  metadata := CloseRequest_internal_metadata_;
  set_metadata := CloseRequest_set_metadata;
  Clear := CloseRequest_Clear;
  InternalParse := CloseRequest_InternalParse;
  InternalSerialize := CloseRequest_InternalSerialize;
  ByteSizeLong := CloseRequest_ByteSizeLong;
  copy_ctor := CloseRequest_copy;
  MergeFrom := CloseRequest_MergeFrom;
  CopyFrom := CloseRequest_CopyFrom;
  InternalSwap := CloseRequest_InternalSwap }.

Definition CloseRequest_table : list (field_spec CloseRequest) :=
  [VarintField 1 (fun m => u64 (CloseRequest_fd_ m)) (fun v => CloseRequest_set_fd (i32 v))].

Definition CloseRequest_in_range (m : CloseRequest) : Prop :=
  - 2 ^ 31 <= CloseRequest_fd_ m < 2 ^ 31.

#[local] Hint Unfold CloseRequest_Message CloseRequest_table CloseRequest_in_range CloseRequest_InternalSerialize CloseRequest_ByteSizeLong CloseRequest_MergeFrom CloseRequest_CopyFrom CloseRequest_Clear CloseRequest_SharedCtor CloseRequest_copy CloseRequest_InternalSwap CloseRequest_set_metadata CloseRequest_set_fd : messages.

#[export] Instance CloseRequest_Spec : MessageSpec CloseRequest.
Proof. message_spec (Build_MessageSpec _ CloseRequest _ CloseRequest_table CloseRequest_in_range). Defined.
End CloseRequest.

(** ** [CloseReply] *)

(** [src/shared_disk/brpc/shared_disk_service.pb.h:2137-2147 CloseReply] *)
Record CloseReply := mkCloseReply {
  CloseReply_rc_ : Z;
  CloseReply_internal_metadata_ : InternalMetadata }.

(** [src/shared_disk/brpc/shared_disk_service.pb.h:2939-2946 CloseReply::_internal_set_rc] *)
Definition CloseReply_set_rc (value : Z) (m : CloseReply) : CloseReply :=
  let '(mkCloseReply _ md) := m in mkCloseReply value md.

Definition CloseReply_set_metadata (metadata : InternalMetadata) (m : CloseReply) : CloseReply :=
  let '(mkCloseReply rc _) := m in mkCloseReply rc metadata.

(** [src/shared_disk/brpc/shared_disk_service.pb.cc:3272-3274 CloseReply::SharedCtor] *)
Definition CloseReply_SharedCtor : CloseReply := mkCloseReply 0 None.

(** [src/shared_disk/brpc/shared_disk_service.pb.cc:3301-3309 CloseReply::Clear] *)
Definition CloseReply_Clear (m : CloseReply) : CloseReply := mkCloseReply 0 (md_Clear (CloseReply_internal_metadata_ m)).

(** [src/shared_disk/brpc/shared_disk_service.pb.cc:3437-3441 CloseReply::InternalSwap] *)
Definition CloseReply_InternalSwap (m other : CloseReply) : CloseReply * CloseReply :=
  let '(mkCloseReply rc md) := m in
  let '(mkCloseReply rc' md') := other in
  let '(swapped, swapped') := md_Swap md md' in
  (mkCloseReply rc' swapped, mkCloseReply rc swapped').

Section CloseReply.
Context `{Protobuf}.

(** [src/shared_disk/brpc/shared_disk_service.pb.cc:3265-3270 CloseReply] *)
Definition CloseReply_copy (from : CloseReply) : CloseReply :=
  let '(mkCloseReply rc md) := from in mkCloseReply rc (md_MergeFrom None md).

(** [src/shared_disk/brpc/shared_disk_service.pb.cc:3311-3346 CloseReply::_InternalParse] *)
Definition CloseReply_InternalParse (ctx : ParseContext) (fuel : nat) (p : ptr) (m : CloseReply) : res (option (ptr * ParseContext * CloseReply)) :=
  parse_loop CloseReply_internal_metadata_ CloseReply_set_metadata (fun tag =>
    match Z.shiftr tag 3 with
    | 1 =>
        if u8 tag =? 8 then Some (fun p m =>
          '(val, p) ←! ReadVarint64 p;
          Ret (Some (CloseReply_set_rc (i32 val) m, p))) else None
    | _ => None
    end) ctx fuel p m.

(** [src/shared_disk/brpc/shared_disk_service.pb.cc:3348-3366 CloseReply::_InternalSerialize] *)
Definition CloseReply_InternalSerialize (m : CloseReply) (s : EpsCopyOutputStream) : res EpsCopyOutputStream :=
  s ← (if negb (CloseReply_rc_ m =? 0) then s ← EnsureSpace s; WriteInt32ToArray 1 (CloseReply_rc_ m) s else Ret s);
  if have_unknown_fields (CloseReply_internal_metadata_ m) then InternalSerializeUnknownFieldsToArray (unknown_fields (CloseReply_internal_metadata_ m)) s else Ret s.

(** [src/shared_disk/brpc/shared_disk_service.pb.cc:3368-3390 CloseReply::ByteSizeLong] *)
Definition CloseReply_ByteSizeLong (m : CloseReply) : Z * Z :=
  let total_size := 0 in
  let total_size := if negb (CloseReply_rc_ m =? 0) then u64 (total_size + u64 (1 + Int32Size (CloseReply_rc_ m))) else total_size in
  if have_unknown_fields (CloseReply_internal_metadata_ m) then ComputeUnknownFieldsSize (unknown_fields (CloseReply_internal_metadata_ m)) total_size
  else (total_size, ToCachedSize total_size).

(** [src/shared_disk/brpc/shared_disk_service.pb.cc:3407-3417 CloseReply::MergeFrom] *)
Definition CloseReply_MergeFrom (m from : CloseReply) : CloseReply :=
  let m := CloseReply_set_metadata (md_MergeFrom (CloseReply_internal_metadata_ m) (CloseReply_internal_metadata_ from)) m in
  let m := if negb (CloseReply_rc_ from =? 0) then CloseReply_set_rc (CloseReply_rc_ from) m else m in
  m.

(** For two objects.  [src/shared_disk/brpc/shared_disk_service.pb.cc:3426-3431 CloseReply::CopyFrom] *)
Definition CloseReply_CopyFrom (m from : CloseReply) : CloseReply := CloseReply_MergeFrom (CloseReply_Clear m) from.

#[export] Instance CloseReply_Message : Message CloseReply := {
  New := CloseReply_SharedCtor;
  metadata := CloseReply_internal_metadata_;
  set_metadata := CloseReply_set_metadata;
  Clear := CloseReply_Clear;
  InternalParse := CloseReply_InternalParse;
  InternalSerialize := CloseReply_InternalSerialize;
  ByteSizeLong := CloseReply_ByteSizeLong;
  copy_ctor := CloseReply_copy;
  MergeFrom := CloseReply_MergeFrom;
  CopyFrom := CloseReply_CopyFrom;
  InternalSwap := CloseReply_InternalSwap }.

Definition CloseReply_table : list (field_spec CloseReply) :=
  [VarintField 1 (fun m => u64 (CloseReply_rc_ m)) (fun v => CloseReply_set_rc (i32 v))].

Definition CloseReply_in_range (m : CloseReply) : Prop :=
  - 2 ^ 31 <= CloseReply_rc_ m < 2 ^ 31.

#[local] Hint Unfold CloseReply_Message CloseReply_table CloseReply_in_range CloseReply_InternalSerialize CloseReply_ByteSizeLong CloseReply_MergeFrom CloseReply_CopyFrom CloseReply_Clear CloseReply_SharedCtor CloseReply_copy CloseReply_InternalSwap CloseReply_set_metadata CloseReply_set_rc : messages.

#[export] Instance CloseReply_Spec : MessageSpec CloseReply.
Proof. message_spec (Build_MessageSpec _ CloseReply _ CloseReply_table CloseReply_in_range). Defined.
End CloseReply.

(** ** The service *)

Inductive SharedDiskService_request :=
  | SharedDiskService_Open_request (request : OpenRequest)
  | SharedDiskService_Write_request (request : WriteRequest)
  | SharedDiskService_Read_request (request : ReadRequest)
  | SharedDiskService_WritePage_request (request : WritePageRequest)
  | SharedDiskService_ReadPage_request (request : ReadPageRequest)
  | SharedDiskService_CloseAll_request (request : CloseAllRequest)
  | SharedDiskService_Close_request (request : CloseRequest).

Inductive SharedDiskService_response :=
  | SharedDiskService_Open_response (response : OpenReply)
  | SharedDiskService_Write_response (response : WriteReply)
  | SharedDiskService_Read_response (response : ReadReply)
  | SharedDiskService_WritePage_response (response : WritePageReply)
  | SharedDiskService_ReadPage_response (response : ReadPageReply)
  | SharedDiskService_CloseAll_response (response : CloseAllReply)
  | SharedDiskService_Close_response (response : CloseReply).

(** The methods an implementation overrides.  A call returns its response, or it is
    marked as failed. *)
Record SharedDiskService (S : Type) := mkSharedDiskService {
  SharedDiskService_Open : OpenRequest -> S -> res (option OpenReply * S);
  SharedDiskService_Write : WriteRequest -> S -> res (option WriteReply * S);
  SharedDiskService_Read : ReadRequest -> S -> res (option ReadReply * S);
  SharedDiskService_WritePage : WritePageRequest -> S -> res (option WritePageReply * S);
  SharedDiskService_ReadPage : ReadPageRequest -> S -> res (option ReadPageReply * S);
  SharedDiskService_CloseAll : CloseAllRequest -> S -> res (option CloseAllReply * S);
  SharedDiskService_Close : CloseRequest -> S -> res (option CloseReply * S) }.
Arguments mkSharedDiskService {S}.
Arguments SharedDiskService_Open {S}.
Arguments SharedDiskService_Write {S}.
Arguments SharedDiskService_Read {S}.
Arguments SharedDiskService_WritePage {S}.
Arguments SharedDiskService_ReadPage {S}.
Arguments SharedDiskService_CloseAll {S}.
Arguments SharedDiskService_Close {S}.

(** Without an implementation every call fails.
    [src/shared_disk/brpc/shared_disk_service.pb.cc:3461-3515 SharedDiskService] *)
Definition SharedDiskService_not_implemented (S : Type) : SharedDiskService S :=
  mkSharedDiskService (fun _ s => Ret (None, s)) (fun _ s => Ret (None, s)) (fun _ s => Ret (None, s)) (fun _ s => Ret (None, s)) (fun _ s => Ret (None, s)) (fun _ s => Ret (None, s)) (fun _ s => Ret (None, s)).

(** A request of another type fails the cast, another index ends the process.
    [src/shared_disk/brpc/shared_disk_service.pb.cc:3517-3584 SharedDiskService::CallMethod] *)
Definition SharedDiskService_CallMethod {S} (service : SharedDiskService S) (index : Z) (request : SharedDiskService_request) (s : S)
    : res (option SharedDiskService_response * S) :=
  match index with
  | 0 =>
      match request with
      | SharedDiskService_Open_request request => respond SharedDiskService_Open_response (SharedDiskService_Open service request s)
      | _ => Fault Assert
      end
  | 1 =>
      match request with
      | SharedDiskService_Write_request request => respond SharedDiskService_Write_response (SharedDiskService_Write service request s)
      | _ => Fault Assert
      end
  | 2 =>
      match request with
      | SharedDiskService_Read_request request => respond SharedDiskService_Read_response (SharedDiskService_Read service request s)
      | _ => Fault Assert
      end
  | 3 =>
      match request with
      | SharedDiskService_WritePage_request request => respond SharedDiskService_WritePage_response (SharedDiskService_WritePage service request s)
      | _ => Fault Assert
      end
  | 4 =>
      match request with
      | SharedDiskService_ReadPage_request request => respond SharedDiskService_ReadPage_response (SharedDiskService_ReadPage service request s)
      | _ => Fault Assert
      end
  | 5 =>
      match request with
      | SharedDiskService_CloseAll_request request => respond SharedDiskService_CloseAll_response (SharedDiskService_CloseAll service request s)
      | _ => Fault Assert
      end
  | 6 =>
      match request with
      | SharedDiskService_Close_request request => respond SharedDiskService_Close_response (SharedDiskService_Close service request s)
      | _ => Fault Assert
      end
  | _ => Fault Assert
  end.

(** [src/shared_disk/brpc/shared_disk_service.pb.cc:3586-3609 SharedDiskService::GetRequestPrototype] *)
Definition SharedDiskService_GetRequestPrototype (index : Z) : res SharedDiskService_request :=
  match index with
  | 0 => Ret (SharedDiskService_Open_request OpenRequest_SharedCtor)
  | 1 => Ret (SharedDiskService_Write_request WriteRequest_SharedCtor)
  | 2 => Ret (SharedDiskService_Read_request ReadRequest_SharedCtor)
  | 3 => Ret (SharedDiskService_WritePage_request WritePageRequest_SharedCtor)
  | 4 => Ret (SharedDiskService_ReadPage_request ReadPageRequest_SharedCtor)
  | 5 => Ret (SharedDiskService_CloseAll_request CloseAllRequest_SharedCtor)
  | 6 => Ret (SharedDiskService_Close_request CloseRequest_SharedCtor)
  | _ => Fault Assert
  end.

(** [src/shared_disk/brpc/shared_disk_service.pb.cc:3611-3634 SharedDiskService::GetResponsePrototype] *)
Definition SharedDiskService_GetResponsePrototype (index : Z) : res SharedDiskService_response :=
  match index with
  | 0 => Ret (SharedDiskService_Open_response OpenReply_SharedCtor)
  | 1 => Ret (SharedDiskService_Write_response WriteReply_SharedCtor)
  | 2 => Ret (SharedDiskService_Read_response ReadReply_SharedCtor)
  | 3 => Ret (SharedDiskService_WritePage_response WritePageReply_SharedCtor)
  | 4 => Ret (SharedDiskService_ReadPage_response ReadPageReply_SharedCtor)
  | 5 => Ret (SharedDiskService_CloseAll_response CloseAllReply_SharedCtor)
  | 6 => Ret (SharedDiskService_Close_response CloseReply_SharedCtor)
  | _ => Fault Assert
  end.

Section SharedDiskService_Stub.
Context {S : Type} (CallMethod : Z -> SharedDiskService_request -> S -> res (option SharedDiskService_response * S)).

(** [src/shared_disk/brpc/shared_disk_service.pb.cc:3647-3653 SharedDiskService_Stub::Open] *)
Definition SharedDiskService_Stub_Open (request : OpenRequest) : S -> res (option SharedDiskService_response * S) :=
  CallMethod 0 (SharedDiskService_Open_request request).

(** [src/shared_disk/brpc/shared_disk_service.pb.cc:3654-3660 SharedDiskService_Stub::Write] *)
Definition SharedDiskService_Stub_Write (request : WriteRequest) : S -> res (option SharedDiskService_response * S) :=
  CallMethod 1 (SharedDiskService_Write_request request).

(** [src/shared_disk/brpc/shared_disk_service.pb.cc:3661-3667 SharedDiskService_Stub::Read] *)
Definition SharedDiskService_Stub_Read (request : ReadRequest) : S -> res (option SharedDiskService_response * S) :=
  CallMethod 2 (SharedDiskService_Read_request request).

(** [src/shared_disk/brpc/shared_disk_service.pb.cc:3668-3674 SharedDiskService_Stub::WritePage] *)
Definition SharedDiskService_Stub_WritePage (request : WritePageRequest) : S -> res (option SharedDiskService_response * S) :=
  CallMethod 3 (SharedDiskService_WritePage_request request).

(** [src/shared_disk/brpc/shared_disk_service.pb.cc:3675-3681 SharedDiskService_Stub::ReadPage] *)
Definition SharedDiskService_Stub_ReadPage (request : ReadPageRequest) : S -> res (option SharedDiskService_response * S) :=
  CallMethod 4 (SharedDiskService_ReadPage_request request).

(** [src/shared_disk/brpc/shared_disk_service.pb.cc:3682-3688 SharedDiskService_Stub::CloseAll] *)
Definition SharedDiskService_Stub_CloseAll (request : CloseAllRequest) : S -> res (option SharedDiskService_response * S) :=
  CallMethod 5 (SharedDiskService_CloseAll_request request).

(** [src/shared_disk/brpc/shared_disk_service.pb.cc:3689-3695 SharedDiskService_Stub::Close] *)
Definition SharedDiskService_Stub_Close (request : CloseRequest) : S -> res (option SharedDiskService_response * S) :=
  CallMethod 6 (SharedDiskService_Close_request request).

End SharedDiskService_Stub.

(** ** A call through the wire *)

Section SharedDiskService_rpc.
Context `{ProtobufLaws} {S : Type} (service : SharedDiskService S) (slop : bytes).

Definition SharedDiskService_encode_request (request : SharedDiskService_request) : res bytes :=
  match request with
  | SharedDiskService_Open_request m => encode m
  | SharedDiskService_Write_request m => encode m
  | SharedDiskService_Read_request m => encode m
  | SharedDiskService_WritePage_request m => encode m
  | SharedDiskService_ReadPage_request m => encode m
  | SharedDiskService_CloseAll_request m => encode m
  | SharedDiskService_Close_request m => encode m
  end.

Definition SharedDiskService_encode_response (response : SharedDiskService_response) : res bytes :=
  match response with
  | SharedDiskService_Open_response m => encode m
  | SharedDiskService_Write_response m => encode m
  | SharedDiskService_Read_response m => encode m
  | SharedDiskService_WritePage_response m => encode m
  | SharedDiskService_ReadPage_response m => encode m
  | SharedDiskService_CloseAll_response m => encode m
  | SharedDiskService_Close_response m => encode m
  end.

(** The bytes are parsed into a message of the type of the prototype. *)
Definition SharedDiskService_decode_request (prototype : SharedDiskService_request) (data : bytes) : res (option SharedDiskService_request) :=
  match prototype with
  | SharedDiskService_Open_request m => parsed_as SharedDiskService_Open_request (decode slop data m)
  | SharedDiskService_Write_request m => parsed_as SharedDiskService_Write_request (decode slop data m)
  | SharedDiskService_Read_request m => parsed_as SharedDiskService_Read_request (decode slop data m)
  | SharedDiskService_WritePage_request m => parsed_as SharedDiskService_WritePage_request (decode slop data m)
  | SharedDiskService_ReadPage_request m => parsed_as SharedDiskService_ReadPage_request (decode slop data m)
  | SharedDiskService_CloseAll_request m => parsed_as SharedDiskService_CloseAll_request (decode slop data m)
  | SharedDiskService_Close_request m => parsed_as SharedDiskService_Close_request (decode slop data m)
  end.

Definition SharedDiskService_decode_response (prototype : SharedDiskService_response) (data : bytes) : res (option SharedDiskService_response) :=
  match prototype with
  | SharedDiskService_Open_response m => parsed_as SharedDiskService_Open_response (decode slop data m)
  | SharedDiskService_Write_response m => parsed_as SharedDiskService_Write_response (decode slop data m)
  | SharedDiskService_Read_response m => parsed_as SharedDiskService_Read_response (decode slop data m)
  | SharedDiskService_WritePage_response m => parsed_as SharedDiskService_WritePage_response (decode slop data m)
  | SharedDiskService_ReadPage_response m => parsed_as SharedDiskService_ReadPage_response (decode slop data m)
  | SharedDiskService_CloseAll_response m => parsed_as SharedDiskService_CloseAll_response (decode slop data m)
  | SharedDiskService_Close_response m => parsed_as SharedDiskService_Close_response (decode slop data m)
  end.

(** What a channel does with a call: the request goes over the wire, the server
    parses it, calls the method of the index and sends the response back.  A
    message that cannot be parsed fails the call. *)
Definition SharedDiskService_channel (index : Z) (request : SharedDiskService_request) (s : S) : res (option SharedDiskService_response * S) :=
  data ← SharedDiskService_encode_request request;
  prototype ← SharedDiskService_GetRequestPrototype index;
  received ← SharedDiskService_decode_request prototype data;
  match received with
  | None => Ret (None, s)
  | Some request =>
      '(response, s) ← SharedDiskService_CallMethod service index request s;
      match response with
      | None => Ret (None, s)
      | Some response =>
          data ← SharedDiskService_encode_response response;
          prototype ← SharedDiskService_GetResponsePrototype index;
          received ← SharedDiskService_decode_response prototype data;
          Ret (received, s)
      end
  end.

#[local] Hint Unfold SharedDiskService_channel SharedDiskService_encode_request SharedDiskService_encode_response SharedDiskService_decode_request SharedDiskService_decode_response SharedDiskService_CallMethod SharedDiskService_GetRequestPrototype SharedDiskService_GetResponsePrototype parsed_as SharedDiskService_Stub_Open SharedDiskService_Stub_Write SharedDiskService_Stub_Read SharedDiskService_Stub_WritePage SharedDiskService_Stub_ReadPage SharedDiskService_Stub_CloseAll SharedDiskService_Stub_Close : calls.

Lemma SharedDiskService_Open_channel (request : OpenRequest) (s : S) :
  sendable request -> (16 <= length slop)%nat -> replies (fun r => SharedDiskService_Open service (received request) r) s ->
  SharedDiskService_Stub_Open SharedDiskService_channel request s
  = respond (SharedDiskService_Open_response ∘ received) (SharedDiskService_Open service (received request) s).
Proof using H0. call_through_wire (SharedDiskService_Open service (received request) s). Qed.

Lemma SharedDiskService_Write_channel (request : WriteRequest) (s : S) :
  sendable request -> (16 <= length slop)%nat -> replies (fun r => SharedDiskService_Write service (received request) r) s ->
  SharedDiskService_Stub_Write SharedDiskService_channel request s
  = respond (SharedDiskService_Write_response ∘ received) (SharedDiskService_Write service (received request) s).
Proof using H0. call_through_wire (SharedDiskService_Write service (received request) s). Qed.

Lemma SharedDiskService_Read_channel (request : ReadRequest) (s : S) :
  sendable request -> (16 <= length slop)%nat -> replies (fun r => SharedDiskService_Read service (received request) r) s ->
  SharedDiskService_Stub_Read SharedDiskService_channel request s
  = respond (SharedDiskService_Read_response ∘ received) (SharedDiskService_Read service (received request) s).
Proof using H0. call_through_wire (SharedDiskService_Read service (received request) s). Qed.

Lemma SharedDiskService_WritePage_channel (request : WritePageRequest) (s : S) :
  sendable request -> (16 <= length slop)%nat -> replies (fun r => SharedDiskService_WritePage service (received request) r) s ->
  SharedDiskService_Stub_WritePage SharedDiskService_channel request s
  = respond (SharedDiskService_WritePage_response ∘ received) (SharedDiskService_WritePage service (received request) s).
Proof using H0. call_through_wire (SharedDiskService_WritePage service (received request) s). Qed.

Lemma SharedDiskService_ReadPage_channel (request : ReadPageRequest) (s : S) :
  sendable request -> (16 <= length slop)%nat -> replies (fun r => SharedDiskService_ReadPage service (received request) r) s ->
  SharedDiskService_Stub_ReadPage SharedDiskService_channel request s
  = respond (SharedDiskService_ReadPage_response ∘ received) (SharedDiskService_ReadPage service (received request) s).
Proof using H0. call_through_wire (SharedDiskService_ReadPage service (received request) s). Qed.

Lemma SharedDiskService_CloseAll_channel (request : CloseAllRequest) (s : S) :
  sendable request -> (16 <= length slop)%nat -> replies (fun r => SharedDiskService_CloseAll service (received request) r) s ->
  SharedDiskService_Stub_CloseAll SharedDiskService_channel request s
  = respond (SharedDiskService_CloseAll_response ∘ received) (SharedDiskService_CloseAll service (received request) s).
Proof using H0. call_through_wire (SharedDiskService_CloseAll service (received request) s). Qed.

Lemma SharedDiskService_Close_channel (request : CloseRequest) (s : S) :
  sendable request -> (16 <= length slop)%nat -> replies (fun r => SharedDiskService_Close service (received request) r) s ->
  SharedDiskService_Stub_Close SharedDiskService_channel request s
  = respond (SharedDiskService_Close_response ∘ received) (SharedDiskService_Close service (received request) s).
Proof using H0. call_through_wire (SharedDiskService_Close service (received request) s). Qed.

End SharedDiskService_rpc.
