(* ===== verification/Messages.v ===== *)
(** * db2: what holds for all messages of the two services

    The twelve messages of the lock service and the fourteen of the shared disk:
    what is sent is received, the size is known beforehand and nothing is written
    outside the memory that is there, any input is parsed without reading where it
    must not, and messages one behind the other are merged. *)

From S2P Require Import Prelude Config ProtoWire ProtoVarint ProtoMsg ProtoSample LockProto DiskProto.

Section Properties.
Context `{Protobuf}.

(** A message in an array of its size is received as it was. *)
Definition round_trips (T : Type) `{!Message T} `{!MessageSpec T} : Prop :=
  forall (slop : bytes) (m : T), sendable m -> (16 <= length slop)%nat ->
  exists data, encode m = Ret data /\ decode slop data New = Ret (Some (received m)).

(** The size is that of the serialized message, in an array of this size and in a
    stream of any buffer. *)
Definition stays_in_bounds (T : Type) `{!Message T} `{!MessageSpec T} : Prop :=
  forall m : T, sendable m ->
  exists n data, ByteSizeLong m = (n, n) /\ Z.of_nat (length data) = n
    /\ (exists s, InternalSerialize m (mkOut [] n n) = Ret s /\ written s = data)
    /\ forall e, 0 <= e -> exists s, InternalSerialize m (mkOut [] e (e + kSlopBytes)) = Ret s /\ written s = data.

(** Any bytes are parsed or rejected, with sixteen readable bytes behind them. *)
Definition parses_anything (T : Type) `{!Message T} : Prop :=
  forall (slop data : bytes) (m : T), (16 <= length slop)%nat -> exists r, decode slop data m = Ret r.

(** Two messages one behind the other are the first merged with the second. *)
Definition merges (T : Type) `{!Message T} `{!MessageSpec T} : Prop :=
  forall (slop : bytes) (a b : T), sendable a -> sendable b -> (16 <= length slop)%nat ->
  exists da db, encode a = Ret da /\ encode b = Ret db /\ decode slop (da ++ db) New = Ret (Some (received (MergeFrom a b))).

Context {Hlaws : ProtobufLaws} {T : Type} {HM : Message T} {HS : MessageSpec T}.

Lemma message_round_trips : round_trips T.
Proof using Hlaws. intros slop m Hm Hs. destruct (decode_encode slop m Hm Hs) as [E D]. by eexists. Qed.

Lemma message_stays_in_bounds : stays_in_bounds T.
Proof using Hlaws.
  intros m (Hm & Hu & Hlen). eexists _, (wire_all (all_fields m)). split_and!; [by apply size_message|done| |].
  - destruct (writes_message m Hm Hu (mkOut [] (Z.of_nat (length (wire_all (all_fields m)))) (Z.of_nat (length (wire_all (all_fields m))))) 0) as (s & E & W & _).
    + lia.
    + right. unfold pos. cbn. lia.
    + by exists s.
  - intros e He. destruct (writes_message m Hm Hu (mkOut [] e (e + kSlopBytes)) 0) as (s & E & W & _).
    + lia.
    + left. unfold pos, kSlopBytes. cbn. lia.
    + by exists s.
Qed.

Lemma message_parses_anything : parses_anything T.
Proof using Hlaws HS.
  intros slop data m Hs. unfold decode. rewrite parse_table.
  destruct (parse_loop_safe (mkParseContext (length slop) 0) (S (length data)) (data ++ slop) m) as [r ->];
    [cbn; lia|lia|rewrite length_app; cbn; lia|]. by eexists.
Qed.

Lemma message_merges : merges T.
Proof using Hlaws.
  intros slop a b Ha Hb Hs. exists (wire_all (all_fields a)), (wire_all (all_fields b)). split_and!; [by apply encode_sendable..|].
  destruct Ha as (Ha & Hua & _), Hb as (Hb & Hub & _). rewrite <- wire_all_app, decode_fields; [|apply list.Forall_app; split; by apply all_readable|done].
  by rewrite received_merge.
Qed.
End Properties.

(** ** Messages of one's own

    A message that a program has filled has no unknown fields; it can be sent if its
    bytes leave room for the tags and numbers. *)

Definition spec_bound {T} (m : T) (e : field_spec T) : Z :=
  match e with VarintField _ _ _ => 11 | BytesField _ _ get _ => 11 + Z.of_nat (length (get m)) end.

Section Own.
Context `{Protobuf} {T : Type} `{!Message T} `{!MessageSpec T}.
Implicit Types m : T.

Lemma table_bound m (tbl : list (field_spec T)) :
  Forall (fun e => 1 <= spec_num e < 16) tbl -> Z.of_nat (length (wire_all (omap (spec_field m) tbl))) <= foldr (fun e n => spec_bound m e + n) 0 tbl.
Proof.
  induction 1 as [|e tbl Hn _ IH]; [done|]. cbn [omap list_omap foldr]. cut (forall f, spec_field m e = Some f -> Z.of_nat (length (wire f)) <= spec_bound m e).
  { intros Hf. destruct (spec_field m e) as [f|]; [|destruct e; cbn [spec_bound]; lia]. rewrite wire_all_cons, length_app. specialize (Hf f eq_refl). lia. }
  intros f Hf. destruct e as [n get set|n utf8 get set]; cbn [spec_field spec_num spec_bound] in *; case_match; simplify_eq;
    unfold wire; rewrite tag_size by done; cbn [payload app length]; rewrite ?length_app;
    match goal with |- context [length (varint ?v)] => pose proof (length_varint_n 10 v); unfold varint in * end; lia.
Qed.

Lemma own_sendable m : in_range m -> metadata m = None -> foldr (fun e n => spec_bound m e + n) 0 table < 2 ^ 31 -> sendable m.
Proof.
  intros Hr Hm Hl. unfold sendable, good_unknown, all_fields, fields. rewrite Hm. cbn [unknown_fields]. split_and!; [done|constructor|].
  rewrite app_nil_r. pose proof (table_bound m table table_num). lia.
Qed.

Lemma received_own m : metadata m = None -> received m = m.
Proof using MessageSpec0. intros Hm. unfold received. transitivity (set_metadata (metadata m) m); [by rewrite Hm|apply set_metadata_get]. Qed.
End Own.

(** A message with fields in range and with at most a page of bytes. *)
Ltac own_message :=
  pose proof MY_PAGE_SIZE_eq; apply own_sendable;
  [first [exact I|split_and!]; cbn; unfold is_u64, max_string, kSlopBytes in *; done || lia|done|cbn; unfold max_string, kSlopBytes in *; lia].

(** A call whose request is a message of the caller's own. *)
Ltac through_channel lemma := rewrite lemma; [|own_message|done|]; rewrite received_own by done.

(** A property of every message class. *)
Definition all_messages `{Protobuf} (P : forall (T : Type) (M : Message T), MessageSpec T -> Prop) : Prop :=
  P LockRemoteRequest _ _ /\ P LockRemoteReply _ _ /\ P InstanceInitDoneRequest _ _ /\ P InstanceInitDoneReply _ _
  /\ P GlobalLockInitDoneRequest _ _ /\ P GlobalLockInitDoneReply _ _ /\ P InvalidRequest _ _ /\ P InvalidReply _ _
  /\ P GetNextTsRequest _ _ /\ P GetNextTsReply _ _ /\ P TestRequest _ _ /\ P TestReply _ _
  /\ P OpenRequest _ _ /\ P OpenReply _ _ /\ P WriteRequest _ _ /\ P WriteReply _ _ /\ P ReadRequest _ _ /\ P ReadReply _ _
  /\ P WritePageRequest _ _ /\ P WritePageReply _ _ /\ P ReadPageRequest _ _ /\ P ReadPageReply _ _
  /\ P CloseAllRequest _ _ /\ P CloseAllReply _ _ /\ P CloseRequest _ _ /\ P CloseReply _ _.

Lemma all_messages_intro `{Protobuf} (P : forall (T : Type) (M : Message T), MessageSpec T -> Prop) : (forall T M S, P T M S) -> all_messages P.
Proof. intros HP. unfold all_messages. split_and!; apply HP. Qed.

(** C23: What is sent is received: every message whose fields are in the ranges of their
    types, with whatever unknown fields, is serialized into an array of its size and
    parsed back, from any memory around it. *)
Theorem messages_round_trip `{ProtobufLaws} : all_messages (fun T _ _ => round_trips T).
Proof. apply all_messages_intro. intros T M S. apply message_round_trips. Qed.

(** C24: The size of a message is exact, also as the [int] that is cached, and the
    serializer writes neither behind an array of this size nor behind the slop bytes
    of a stream. *)
Theorem messages_stay_in_bounds `{ProtobufLaws} : all_messages (fun T _ _ => stays_in_bounds T).
Proof. apply all_messages_intro. intros T M S. apply message_stays_in_bounds. Qed.

(** C25: Whatever bytes arrive, the parser of every message ends, and it reads at most the
    sixteen slop bytes behind its input. *)
Theorem messages_parse_anything `{ProtobufLaws} : all_messages (fun T _ _ => parses_anything T).
Proof. apply all_messages_intro. intros T M S. apply message_parses_anything. Qed.

(** Parsing two messages one behind the other is [MergeFrom]: the later fields win,
    and the unknown fields are kept in order. *)
Theorem messages_merge `{ProtobufLaws} : all_messages (fun T _ _ => merges T).
Proof. apply all_messages_intro. intros T M S. apply message_merges. Qed.

(** ** Examples *)

Definition slop_example : bytes := replicate 16 Byte.xff.

(** A page request with a negative instance and a field from a later version. *)
Definition request_example : LockRemoteRequest :=
  mkLockRemoteRequest [Byte.x01; Byte.x02] 300 (-1) 3 (2 ^ 64 - 1) (Some [TYPE_LENGTH_DELIMITED 9 [Byte.x07]]).

Lemma request_example_sendable : sendable request_example.
Proof.
  split_and!; [|repeat constructor; by vm_compute|by vm_compute]. cbn [in_range LockRemoteRequest_Spec]. unfold LockRemoteRequest_in_range. cbn. unfold is_u64, max_string, kSlopBytes. cbn. lia.
Qed.

Lemma messages_round_trip_witness :
  exists data, encode request_example = Ret data /\ length data = 34%nat /\ decode slop_example data New = Ret (Some request_example).
Proof.
  destruct (proj1 (messages_round_trip (H := sample_protobuf)) slop_example request_example request_example_sendable ltac:(cbn; lia)) as (data & E & D).
  exists data. split; [exact E|]. split; [|exact D]. vm_compute in E. injection E as <-. reflexivity.
Defined.

Lemma messages_stay_in_bounds_witness : exists s, InternalSerialize request_example (mkOut [] 3 19) = Ret s /\ length (written s) = 34%nat.
Proof.
  destruct (proj1 (messages_stay_in_bounds (H := sample_protobuf)) request_example request_example_sendable) as (n & data & En & Hn & _ & Hs).
  destruct (Hs 3 ltac:(lia)) as (s & Es & Ws). exists s. split; [exact Es|]. vm_compute in En. injection En as <-. rewrite Ws. lia.
Defined.

Lemma messages_parse_anything_witness : exists r, decode slop_example [Byte.x08; Byte.xff] (New : LockRemoteRequest) = Ret r /\ r = None.
Proof.
  destruct (proj1 (messages_parse_anything (H := sample_protobuf)) slop_example [Byte.x08; Byte.xff] New ltac:(cbn; lia)) as (r & E).
  exists r. split; [exact E|]. vm_compute in E. by injection E.
Defined.

Lemma messages_merge_witness :
  exists da db m, encode request_example = Ret da /\ encode request_example = Ret db /\ decode slop_example (da ++ db) New = Ret (Some m)
    /\ LockRemoteRequest_internal_metadata_ m = Some [TYPE_LENGTH_DELIMITED 9 [Byte.x07]; TYPE_LENGTH_DELIMITED 9 [Byte.x07]].
Proof.
  destruct (proj1 (messages_merge (H := sample_protobuf)) slop_example request_example request_example request_example_sendable request_example_sendable
    ltac:(cbn; lia)) as (da & db & Ea & Eb & D).
  exists da, db, (received (MergeFrom request_example request_example)). split_and!; [exact Ea|exact Eb|exact D|]. by vm_compute.
Defined.
