(* ===== verification/LockRpc.v ===== *)
(** * db2: the lock service over the wire
    ([global_lock_service/brpc/global_lock_service.cpp])

    The handlers and the clients of the lock service on the messages that the RPC
    library carries: a client fills a request and calls the stub, the channel
    serializes it, the server parses it and calls the handler, and the reply comes
    back in the same way.  Inside the handler of [LockRemote] the lock service calls
    [Invalid] of the owner over the wire again.  All calls are shown to be the direct
    ones of [GlobalLock.v]. *)

From S2P Require Import Prelude Config FileIO Buffer LockTable ProtoWire ProtoVarint ProtoMsg ProtoSample LockProto Messages GlobalLock.

(** ** Numbers of the enumerations *)

(** [src/global_lock_service/brpc/global_lock_service.pb.h:140-147 RpcRC] *)
Definition RpcRC_number (rc : RpcRC) : Z :=
  match rc with
  | Rpc_RCOK => 0
  | Rpc_Commit => 1
  | Rpc_Abort => 2
  | Rpc_WAIT => 3
  | Rpc_ERROR => 4
  | Rpc_FINISH => 5
  | Rpc_TIME_OUT => 6
  end.

(** [src/global_lock_service/brpc/global_lock_service.pb.h:113-117 RpcLockMode] *)
Definition RpcLockMode_number (mode : RpcLockMode) : Z :=
  match mode with
  | Rpc_O => 0
  | Rpc_P => 1
  | Rpc_S => 2
  | Rpc_X => 3
  end.

(** [DeSerializeRC] of the [int] that the message holds, which may be no enumerator.
    [src/global_lock_service/brpc/global_lock_service_helper.cpp:35-43 GlobalLockServiceHelper::DeSerializeRC] *)
Definition DeSerializeRC_number (rc : Z) : res RC :=
  match rc with
  | 0 => DeSerializeRC Rpc_RCOK
  | 1 => DeSerializeRC Rpc_Commit
  | 2 => DeSerializeRC Rpc_Abort
  | 3 => DeSerializeRC Rpc_WAIT
  | 4 => DeSerializeRC Rpc_ERROR
  | 5 => DeSerializeRC Rpc_FINISH
  | 6 => DeSerializeRC Rpc_TIME_OUT
  | _ => Fault NoReturn
  end.

Lemma DeSerializeRC_number_spec (rc : RpcRC) : DeSerializeRC_number (RpcRC_number rc) = DeSerializeRC rc.
Proof. by destruct rc. Qed.

(** The numbers are those that the generated code knows. *)
Lemma enum_numbers (rc : RpcRC) (mode : RpcLockMode) :
  RpcRC_IsValid (RpcRC_number rc) = true /\ RpcLockMode_IsValid (RpcLockMode_number mode) = true.
Proof. by destruct rc, mode. Qed.

Section Wire.
Context `{ProtobufLaws} {D : Type} `{DiskSpec D}.

(** Which instance listens at an address, the bytes of a fresh page, and the bytes
    behind a received message. *)
Context (at_host : string -> Z) (junk : bytes) (slop : bytes).

(** ** The handlers *)

(** Pointers that are not set: an instance has no [global_lock_], the lock service no
    [manager_instance_].
    [src/global_lock_service/brpc/global_lock_service.cpp:180-188 GlobalLockServiceImpl::Invalid] *)
Definition Impl_Invalid (manager_instance_ : option Z) (request : InvalidRequest) (c : Cluster D) : res (option InvalidReply * Cluster D) :=
  ins ← deref manager_instance_;
  '(reply, c) ← srv_Invalid junk ins (InvalidRequest_page_id_ request) (InvalidRequest_count_ request) c;
  let response := InvalidReply_set_page_buf (rep_page_buf reply) InvalidReply_SharedCtor in
  let response := InvalidReply_set_count (rep_count reply) response in
  let response := InvalidReply_set_rc (RpcRC_number (rep_rc reply)) response in
  Ret (Some response, c).

(** The call on the channel to the instance at [addr].
    [src/global_lock_service/brpc/global_lock_service.cpp:106-132 GlobalLockServiceClient::Invalid] *)
Definition rpc_Invalid (service : Z -> GlobalLockService (Cluster D)) (addr : string) (page_id : Z) (page_buf : bytes) (count : Z) (c : Cluster D)
    : res (RC * bytes * Cluster D) :=
  let request := InvalidRequest_set_page_id page_id InvalidRequest_SharedCtor in
  let request := InvalidRequest_set_count count request in
  '(reply, c) ← GlobalLockService_Stub_Invalid (GlobalLockService_channel (service (at_host addr)) slop) request c;
  match reply with
  | Some (GlobalLockService_Invalid_response reply) =>
      rc ← DeSerializeRC_number (InvalidReply_rc_ reply);
      if bool_decide (TIME_OUT = rc) then Ret (TIME_OUT, page_buf, c)
      else
        assert! bool_decide (RCOK = rc);
        if 0 <? count then
          assert! MY_PAGE_SIZE =? count;
          assert! InvalidReply_count_ reply =? count;
          page_buf ← memcpy page_buf 0 (InvalidReply_page_buf_ reply) 0 count;
          Ret (RCOK, page_buf, c)
        else Ret (RCOK, page_buf, c)
  | _ => Fault Assert
  end.

(** [src/global_lock_service/brpc/global_lock_service.cpp:272-278 GlobalLockServiceImpl::Test] *)
Definition Impl_Test (request : TestRequest) (c : Cluster D) : res (option TestReply * Cluster D) := Ret (Some TestReply_SharedCtor, c).

(** The methods that need [global_lock_] fault where it is not set. *)
Definition instance_service (ins : Z) : GlobalLockService (Cluster D) :=
  mkGlobalLockService (fun _ _ => Fault NullDeref) (fun _ _ => Fault NullDeref) (fun _ _ => Fault NullDeref) (fun _ _ => Fault NullDeref)
    (Impl_Invalid (Some ins)) Impl_Test.

(** [src/global_lock_service/brpc/global_lock_service.cpp:199-222 GlobalLockServiceImpl::LockRemote] *)
Definition Impl_LockRemote (request : LockProto.LockRemoteRequest) (c : Cluster D) : res (option LockRemoteReply * Cluster D) :=
  let count := LockRemoteRequest_count_ request in
  assert! if 0 <? count then MY_PAGE_SIZE =? count else 0 =? count;
  let page_buf := if 0 <? count then junk else [] in
  '(rc, page_buf, c) ← LockRemote (rpc_Invalid instance_service) (LockRemoteRequest_instance_id_ request) (LockRemoteRequest_page_id_ request) page_buf count c;
  let response := LockRemoteReply_SharedCtor in
  let response := if bool_decide (TIME_OUT = rc) then LockRemoteReply_set_rc (RpcRC_number Rpc_TIME_OUT) response else response in
  if bool_decide (Abort = rc) then Ret (Some (LockRemoteReply_set_rc (RpcRC_number Rpc_Abort) response), c)
  else
    assert! bool_decide (RCOK = rc);
    let response := LockRemoteReply_set_rc (RpcRC_number Rpc_RCOK) response in
    let response := if 0 <? count then LockRemoteReply_set_page_buf (take (Z.to_nat count) page_buf) response else response in
    let response := LockRemoteReply_set_count count response in
    Ret (Some response, c).

(** [src/global_lock_service/brpc/global_lock_service.cpp:244-252 GlobalLockServiceImpl::InstanceInitDone] *)
Definition Impl_InstanceInitDone (request : InstanceInitDoneRequest) (c : Cluster D) : res (option InstanceInitDoneReply * Cluster D) :=
  c ← srv_InstanceInitDone (InstanceInitDoneRequest_instance_id_ request) c;
  Ret (Some InstanceInitDoneReply_SharedCtor, c).

(** [src/global_lock_service/brpc/global_lock_service.cpp:254-261 GlobalLockServiceImpl::GlobalLockInitDone] *)
Definition Impl_GlobalLockInitDone (request : GlobalLockInitDoneRequest) (c : Cluster D) : res (option GlobalLockInitDoneReply * Cluster D) :=
  let '(b, c) := srv_GlobalLockInitDone c in
  Ret (Some (GlobalLockInitDoneReply_set_init_done b GlobalLockInitDoneReply_SharedCtor), c).

(** [src/global_lock_service/brpc/global_lock_service.cpp:263-270 GlobalLockServiceImpl::GetNextTs] *)
Definition Impl_GetNextTs (request : GetNextTsRequest) (c : Cluster D) : res (option GetNextTsReply * Cluster D) :=
  let '(ts, c) := srv_GetNextTs c in
  Ret (Some (GetNextTsReply_set_ts ts GetNextTsReply_SharedCtor), c).

Definition lock_service : GlobalLockService (Cluster D) :=
  mkGlobalLockService Impl_LockRemote Impl_InstanceInitDone Impl_GlobalLockInitDone Impl_GetNextTs (Impl_Invalid None) Impl_Test.

(** ** The clients of an instance *)

#[local] Abbreviation lock_channel := (GlobalLockService_channel lock_service slop).

(** [src/global_lock_service/brpc/global_lock_service.cpp:29-62 GlobalLockServiceClient::LockRemote] *)
Definition rpc_LockRemote (instance_id page_id : Z) (req_mode : LockMode) (page_buf : bytes) (count : Z) (c : Cluster D)
    : res (RC * bytes * Cluster D) :=
  let request := LockRemoteRequest_set_instance_id instance_id LockRemoteRequest_SharedCtor in
  let request := LockRemoteRequest_set_page_id page_id request in
  mode ← SerializeLockMode req_mode;
  let request := LockRemoteRequest_set_req_mode (RpcLockMode_number mode) request in
  let request := LockRemoteRequest_set_count count request in
  '(reply, c) ← GlobalLockService_Stub_LockRemote lock_channel request c;
  match reply with
  | Some (GlobalLockService_LockRemote_response reply) =>
      rc ← DeSerializeRC_number (LockRemoteReply_rc_ reply);
      if bool_decide (TIME_OUT = rc) then Ret (TIME_OUT, page_buf, c)
      else if bool_decide (Abort = rc) then Ret (Abort, page_buf, c)
      else
        assert! bool_decide (RCOK = rc);
        if 0 <? count then
          assert! MY_PAGE_SIZE =? count;
          assert! LockRemoteReply_count_ reply =? count;
          page_buf ← memcpy page_buf 0 (LockRemoteReply_page_buf_ reply) 0 count;
          Ret (RCOK, page_buf, c)
        else Ret (RCOK, page_buf, c)
  | _ => Fault Assert
  end.

(** [src/global_lock_service/brpc/global_lock_service.cpp:64-76 GlobalLockServiceClient::InstanceInitDone] *)
Definition rpc_InstanceInitDone (instance_id : Z) (c : Cluster D) : res (Cluster D) :=
  let request := InstanceInitDoneRequest_set_instance_id instance_id InstanceInitDoneRequest_SharedCtor in
  '(reply, c) ← GlobalLockService_Stub_InstanceInitDone lock_channel request c;
  match reply with
  | Some (GlobalLockService_InstanceInitDone_response _) => Ret c
  | _ => Fault Assert
  end.

(** [src/global_lock_service/brpc/global_lock_service.cpp:78-90 GlobalLockServiceClient::GlobalLockInitDone] *)
Definition rpc_GlobalLockInitDone (c : Cluster D) : res (bool * Cluster D) :=
  '(reply, c) ← GlobalLockService_Stub_GlobalLockInitDone lock_channel GlobalLockInitDoneRequest_SharedCtor c;
  match reply with
  | Some (GlobalLockService_GlobalLockInitDone_response reply) => Ret (GlobalLockInitDoneReply_init_done_ reply, c)
  | _ => Fault Assert
  end.

(** [src/global_lock_service/brpc/global_lock_service.cpp:92-104 GlobalLockServiceClient::GetNextTs] *)
Definition rpc_GetNextTs (c : Cluster D) : res (Z * Cluster D) :=
  '(reply, c) ← GlobalLockService_Stub_GetNextTs lock_channel GetNextTsRequest_SharedCtor c;
  match reply with
  | Some (GlobalLockService_GetNextTs_response reply) => Ret (GetNextTsReply_ts_ reply, c)
  | _ => Fault Assert
  end.

(** [LOG(FATAL)] only logs where the process is not built to stop at it.
    [src/global_lock_service/brpc/global_lock_service.cpp:134-146 GlobalLockServiceClient::Test] *)
Definition rpc_Test (service : GlobalLockService (Cluster D)) (c : Cluster D) : res (Z * Cluster D) :=
  '(reply, c) ← GlobalLockService_Stub_Test (GlobalLockService_channel service slop) TestRequest_SharedCtor c;
  match reply with
  | Some (GlobalLockService_Test_response _) => Ret (0, c)
  | _ => Ret (-1, c)
  end.

(** ** The calls over the wire are the direct calls *)

(** What a handler of [GlobalLock.v] replies is not longer than a page. *)
Lemma srv_Invalid_reply (ins page_id count : Z) (c c' : Cluster D) (reply : PageReply) :
  srv_Invalid junk ins page_id count c = Ret (reply, c') ->
  0 <= count <= MY_PAGE_SIZE /\ rep_rc reply = Rpc_RCOK /\ rep_count reply = count /\ Z.of_nat (length (rep_page_buf reply)) <= count.
Proof.
  unfold srv_Invalid. intros E. res_inv. cbn [rep_rc rep_count rep_page_buf]. rewrite length_take.
  pose proof MY_PAGE_SIZE_eq. destruct (Z.ltb_spec 0 count); bool_props; destruct count; split_and!; (done || lia).
Qed.

Lemma srv_LockRemote_reply inv (r : GlobalLock.LockRemoteRequest) (c c' : Cluster D) (reply : PageReply) :
  srv_LockRemote junk inv r c = Ret (reply, c') ->
  0 <= rep_count reply <= MY_PAGE_SIZE /\ Z.of_nat (length (rep_page_buf reply)) <= MY_PAGE_SIZE /\ 0 <= RpcRC_number (rep_rc reply) <= 6.
Proof.
  unfold srv_LockRemote. intros E. pose proof MY_PAGE_SIZE_eq.
  destruct (if 0 <? lr_count r then _ else _) eqn:Hcnt; [|done].
  assert (0 <= lr_count r <= MY_PAGE_SIZE) by (destruct (Z.ltb_spec 0 (lr_count r)); bool_props; destruct (lr_count r); done || lia).
  res_inv. destruct (bool_decide (Abort = _)); [|case_bool_decide]; simplify_eq; cbn; [split_and!; lia|].
  case_match; rewrite ?length_take; cbn; split_and!; lia.
Qed.

Context (Hslop : (16 <= length slop)%nat).

Ltac lock_call lemma :=
  through_channel lemma;
  cbn [lock_service instance_service GlobalLockService_LockRemote GlobalLockService_InstanceInitDone GlobalLockService_GlobalLockInitDone
       GlobalLockService_GetNextTs GlobalLockService_Invalid GlobalLockService_Test].

Lemma rpc_Invalid_spec (addr : string) (page_id count : Z) (page_buf : bytes) (c : Cluster D) :
  is_u64 page_id -> is_u64 count ->
  rpc_Invalid instance_service addr page_id page_buf count c = client_Invalid at_host junk addr page_id page_buf count c.
Proof using Hslop H0.
  intros Hp Hc. unfold rpc_Invalid. lock_call (GlobalLockService_Invalid_channel (instance_service (at_host addr)) slop).
  - unfold Impl_Invalid, client_Invalid. cbn [deref mbind res_bind].
    change (InvalidRequest_page_id_ _) with page_id. change (InvalidRequest_count_ _) with count.
    destruct (srv_Invalid _ _ _ _ _) as [[reply c']| |]; [|done..]. unfold respond, compose. cbn [mbind res_bind option_map fst snd].
    rewrite received_own by done. cbn. by rewrite DeSerializeRC_number_spec.
  - intros response s' E. unfold Impl_Invalid in E. res_inv. apply srv_Invalid_reply in H4 as (? & Erc & Ecnt & ?). rewrite Erc, Ecnt. own_message.
Qed.

Lemma LockRemote_ext (inv inv' : string -> Z -> bytes -> Z -> Cluster D -> res (RC * bytes * Cluster D)) (ins page_id count : Z) (page_buf : bytes) (c : Cluster D) :
  (forall addr buf c, inv addr page_id buf count c = inv' addr page_id buf count c) ->
  LockRemote inv ins page_id page_buf count c = LockRemote inv' ins page_id page_buf count c.
Proof.
  intros Hinv. unfold LockRemote. destruct (lock_service_table_ (global c) !! page_id) as [w|]; [|done]. destruct (0 <=? w); [|done].
  apply bind_cong; [done|]. intros info. apply bind_cong; [done|]. intros addr. by rewrite Hinv.
Qed.

(** The reply of a direct call as a message. *)
Definition LockRemoteReply_of (reply : PageReply) : LockRemoteReply :=
  LockRemoteReply_set_count (rep_count reply) (LockRemoteReply_set_page_buf (rep_page_buf reply) (LockRemoteReply_set_rc (RpcRC_number (rep_rc reply)) LockRemoteReply_SharedCtor)).

Lemma Impl_LockRemote_spec (request : LockProto.LockRemoteRequest) (mode : RpcLockMode) (c : Cluster D) :
  in_range request ->
  Impl_LockRemote request c
  = '(reply, c) ← srv_LockRemote junk (client_Invalid at_host junk)
      (mkLockReq (LockRemoteRequest_instance_id_ request) (LockRemoteRequest_page_id_ request) mode (LockRemoteRequest_count_ request)) c;
    Ret (Some (LockRemoteReply_of reply), c).
Proof using Hslop H0.
  intros (_ & Hp & _ & _ & Hc). unfold Impl_LockRemote, srv_LockRemote. cbn [lr_count lr_instance_id lr_page_id].
  rewrite (LockRemote_ext _ (client_Invalid at_host junk)) by (intros; by apply rpc_Invalid_spec).
  destruct (if 0 <? _ then _ else _); [|done]. destruct (LockRemote _ _ _ _ _ _) as [[[rc buf] c']| |]; [|done..]. cbn [mbind res_bind].
  destruct rc; cbn; try done. by destruct (0 <? _).
Qed.

Lemma rpc_LockRemote_spec (ins page_id count : Z) (mode : LockMode) (page_buf : bytes) (c : Cluster D) :
  - 2 ^ 31 <= ins < 2 ^ 31 -> is_u64 page_id -> is_u64 count ->
  rpc_LockRemote ins page_id mode page_buf count c = client_LockRemote at_host junk ins page_id mode page_buf count c.
Proof using Hslop H0.
  intros Hi Hp Hc. unfold rpc_LockRemote, client_LockRemote. destruct (SerializeLockMode mode) as [m| |]; [|done..]. cbn [mbind res_bind].
  assert (0 <= RpcLockMode_number m <= 3) as Hm by (destruct m; cbn; lia).
  lock_call (GlobalLockService_LockRemote_channel lock_service slop).
  - rewrite (Impl_LockRemote_spec _ m) by (split_and!; cbn; unfold max_string, kSlopBytes; done || lia).
    cbn [LockRemoteRequest_set_count LockRemoteRequest_set_req_mode LockRemoteRequest_set_page_id LockRemoteRequest_set_instance_id
         LockRemoteRequest_SharedCtor LockRemoteRequest_instance_id_ LockRemoteRequest_page_id_ LockRemoteRequest_count_].
    destruct (srv_LockRemote _ _ _ _) as [[reply c']| |]; [|done..]. unfold respond, compose. cbn [mbind res_bind option_map fst snd].
    rewrite received_own by done. cbn. by rewrite DeSerializeRC_number_spec.
  - intros response s' E. rewrite (Impl_LockRemote_spec _ m) in E by (split_and!; cbn; unfold max_string, kSlopBytes; done || lia).
    res_inv. apply srv_LockRemote_reply in H3 as (? & ? & ?). own_message.
Qed.

Lemma rpc_InstanceInitDone_spec (ins : Z) (c : Cluster D) :
  - 2 ^ 31 <= ins < 2 ^ 31 -> rpc_InstanceInitDone ins c = srv_InstanceInitDone ins c.
Proof using Hslop H0.
  intros Hi. unfold rpc_InstanceInitDone. lock_call (GlobalLockService_InstanceInitDone_channel lock_service slop).
  - unfold Impl_InstanceInitDone. change (InstanceInitDoneRequest_instance_id_ _) with ins. by destruct (srv_InstanceInitDone ins c).
  - intros response s' E. unfold Impl_InstanceInitDone in E. res_inv. own_message.
Qed.

Lemma rpc_GlobalLockInitDone_spec (c : Cluster D) : rpc_GlobalLockInitDone c = Ret (srv_GlobalLockInitDone c).
Proof using Hslop H0.
  unfold rpc_GlobalLockInitDone. lock_call (GlobalLockService_GlobalLockInitDone_channel lock_service slop).
  - unfold Impl_GlobalLockInitDone. by destruct (srv_GlobalLockInitDone c).
  - intros response s' E. unfold Impl_GlobalLockInitDone in E. destruct (srv_GlobalLockInitDone c). simplify_eq. own_message.
Qed.

Lemma rpc_GetNextTs_spec (c : Cluster D) : is_u64 (timestamp_ (global c)) -> rpc_GetNextTs c = Ret (srv_GetNextTs c).
Proof using Hslop H0.
  intros Hts. unfold rpc_GetNextTs. lock_call (GlobalLockService_GetNextTs_channel lock_service slop); [done|].
  intros response s' E. cbn in E. simplify_eq. own_message.
Qed.

Lemma rpc_Test_spec (c : Cluster D) (ins : Z) : rpc_Test lock_service c = Ret (0, c) /\ rpc_Test (instance_service ins) c = Ret (0, c).
Proof using Hslop H0.
  unfold rpc_Test. split; [lock_call (GlobalLockService_Test_channel lock_service slop)|lock_call (GlobalLockService_Test_channel (instance_service ins) slop)];
    try done; intros response s' E; unfold Impl_Test in E; simplify_eq; own_message.
Qed.

(** C22: Every call of the lock service over the wire, with the calls it makes in turn,
    does what the direct call of [GlobalLock.v] does, faults and waiting included:
    every argument in the range of its type arrives, and so does every reply. *)
Theorem lock_service_over_wire (c : Cluster D) (addr : string) (ins page_id count : Z) (mode : LockMode) (page_buf : bytes) :
  - 2 ^ 31 <= ins < 2 ^ 31 -> is_u64 page_id -> is_u64 count -> is_u64 (timestamp_ (global c)) ->
  rpc_LockRemote ins page_id mode page_buf count c = client_LockRemote at_host junk ins page_id mode page_buf count c
  /\ rpc_Invalid instance_service addr page_id page_buf count c = client_Invalid at_host junk addr page_id page_buf count c
  /\ rpc_InstanceInitDone ins c = srv_InstanceInitDone ins c
  /\ rpc_GlobalLockInitDone c = Ret (srv_GlobalLockInitDone c)
  /\ rpc_GetNextTs c = Ret (srv_GetNextTs c)
  /\ rpc_Test lock_service c = Ret (0, c) /\ rpc_Test (instance_service ins) c = Ret (0, c).
Proof using Hslop H0.
  intros Hi Hp Hc Hts. split_and!; [by apply rpc_LockRemote_spec|by apply rpc_Invalid_spec|by apply rpc_InstanceInitDone_spec
    |apply rpc_GlobalLockInitDone_spec|by apply rpc_GetNextTs_spec|apply (rpc_Test_spec c ins)..].
Qed.
End Wire.

(** ** Two instances *)

(** Page 3 goes from instance 0 to instance 1: a request and a reply with the lock
    service, and inside it another pair with instance 0. *)
Lemma lock_service_over_wire_witness :
  exists b, buffer_ok b
    /\ rpc_LockRemote two_hosts a_page (replicate 16 Byte.x00) 1 3 LM_X a_page MY_PAGE_SIZE (two_instances b)
       = client_LockRemote two_hosts a_page 1 3 LM_X a_page MY_PAGE_SIZE (two_instances b).
Proof.
  destruct (new_Buffer_ok 0 FILE_SIZE) as (b & _ & Hok & _); [vm_compute; split; [discriminate|reflexivity]|].
  exists b. split; [exact Hok|].
  apply (lock_service_over_wire two_hosts a_page (replicate 16 Byte.x00) ltac:(cbn; lia) (two_instances b) "a" 1 3 MY_PAGE_SIZE LM_X a_page).
  - lia.
  - unfold is_u64. lia.
  - rewrite MY_PAGE_SIZE_eq. unfold is_u64. lia.
  - cbn. unfold is_u64. lia.
Defined.
