(* ===== verification/DiskRpc.v ===== *)
(** * db2: the shared disk over the wire ([shared_disk/brpc/shared_disk_service.cpp])

    The handlers of [SharedDiskServer] and the methods of [SharedDiskClient] on the
    messages that the RPC library carries, and that they do what the direct calls of
    [SharedDisk.v] do: the pages that the buffer pools read are the bytes that the
    server found in the files. *)

From S2P Require Import Prelude Config FileIO SharedDisk ProtoWire ProtoVarint ProtoMsg ProtoSample DiskProto Messages.

Section Wire.
Context `{ProtobufLaws} (slop : bytes).

(** ** The handlers *)

(** [src/shared_disk/brpc/shared_disk_service.cpp:11-18 SharedDiskServer::Open] *)
Definition Impl_Open (request : OpenRequest) (s : FileIO) : res (option OpenReply * FileIO) :=
  '(fd, s) ← srv_Open (String.string_of_list_byte (OpenRequest_path_ request)) s;
  Ret (Some (OpenReply_set_fd fd OpenReply_SharedCtor), s).

(** [src/shared_disk/brpc/shared_disk_service.cpp:20-28 SharedDiskServer::Write] *)
Definition Impl_Write (request : DiskProto.WriteRequest) (s : FileIO) : res (option WriteReply * FileIO) :=
  '(size, s) ← srv_Write (SharedDisk.mkWriteRequest (WriteRequest_fd_ request) (WriteRequest_buf_ request) (WriteRequest_size_ request)
                            (WriteRequest_offset_ request)) s;
  Ret (Some (WriteReply_set_size size WriteReply_SharedCtor), s).

(** [src/shared_disk/brpc/shared_disk_service.cpp:30-41 SharedDiskServer::Read] *)
Definition Impl_Read (request : DiskProto.ReadRequest) (s : FileIO) : res (option DiskProto.ReadReply * FileIO) :=
  reply ← srv_Read (SharedDisk.mkReadRequest (ReadRequest_fd_ request) (ReadRequest_size_ request) (ReadRequest_offset_ request)) s;
  Ret (Some (ReadReply_set_size (rep_size reply) (ReadReply_set_buf (rep_buf reply) ReadReply_SharedCtor)), s).

(** [src/shared_disk/brpc/shared_disk_service.cpp:43-51 SharedDiskServer::WritePage] *)
Definition Impl_WritePage (request : WritePageRequest) (s : FileIO) : res (option WritePageReply * FileIO) :=
  '(size, s) ← srv_WritePage (WritePageRequest_page_id_ request) (WritePageRequest_page_buf_ request) s;
  Ret (Some (WritePageReply_set_size size WritePageReply_SharedCtor), s).

(** [src/shared_disk/brpc/shared_disk_service.cpp:53-64 SharedDiskServer::ReadPage] *)
Definition Impl_ReadPage (request : ReadPageRequest) (s : FileIO) : res (option ReadPageReply * FileIO) :=
  '(reply, s) ← srv_ReadPage (ReadPageRequest_page_id_ request) s;
  Ret (Some (ReadPageReply_set_size (rep_size reply) (ReadPageReply_set_page_buf (rep_buf reply) ReadPageReply_SharedCtor)), s).

(** [src/shared_disk/brpc/shared_disk_service.cpp:66-73 SharedDiskServer::CloseAll] *)
Definition Impl_CloseAll (request : CloseAllRequest) (s : FileIO) : res (option CloseAllReply * FileIO) :=
  '(rc, s) ← srv_CloseAll s;
  Ret (Some (CloseAllReply_set_rc rc CloseAllReply_SharedCtor), s).

(** [src/shared_disk/brpc/shared_disk_service.cpp:75-82 SharedDiskServer::Close] *)
Definition Impl_Close (request : DiskProto.CloseRequest) (s : FileIO) : res (option CloseReply * FileIO) :=
  '(rc, s) ← srv_Close (SharedDisk.mkCloseRequest (CloseRequest_fd_ request)) s;
  Ret (Some (CloseReply_set_rc rc CloseReply_SharedCtor), s).

Definition disk_service : SharedDiskService FileIO :=
  mkSharedDiskService Impl_Open Impl_Write Impl_Read Impl_WritePage Impl_ReadPage Impl_CloseAll Impl_Close.

#[local] Abbreviation disk_channel := (SharedDiskService_channel disk_service slop).

(** ** The clients *)

(** [src/shared_disk/brpc/shared_disk_service.cpp:117-130 SharedDiskClient::Open] *)
Definition rpc_Open (path : string) (c : SharedDiskClient) : res (Z * SharedDiskClient) :=
  let request := OpenRequest_set_path (String.list_byte_of_string path) OpenRequest_SharedCtor in
  '(reply, s) ← call c (SharedDiskService_Stub_Open disk_channel request);
  match reply with
  | Some (SharedDiskService_Open_response reply) => Ret (OpenReply_fd_ reply, with_server c s)
  | _ => Fault Assert
  end.

(** [src/shared_disk/brpc/shared_disk_service.cpp:132-150 SharedDiskClient::Write] *)
Definition rpc_Write (fd : Z) (buf : bytes) (size offset : Z) (c : SharedDiskClient) : res (Z * SharedDiskClient) :=
  let request := WriteRequest_set_fd fd WriteRequest_SharedCtor in
  b ← set_bytes buf size;
  let request := WriteRequest_set_buf b request in
  let request := WriteRequest_set_size size request in
  let request := WriteRequest_set_offset (i64 offset) request in
  '(reply, s) ← call c (SharedDiskService_Stub_Write disk_channel request);
  match reply with
  | Some (SharedDiskService_Write_response reply) => assert! WriteReply_size_ reply =? size; Ret (WriteReply_size_ reply, with_server c s)
  | _ => Fault Assert
  end.

(** [src/shared_disk/brpc/shared_disk_service.cpp:152-171 SharedDiskClient::Read] *)
Definition rpc_Read (fd : Z) (buf : bytes) (size offset : Z) (c : SharedDiskClient) : res (Z * bytes) :=
  let request := ReadRequest_set_fd fd ReadRequest_SharedCtor in
  let request := ReadRequest_set_size size request in
  let request := ReadRequest_set_offset (i64 offset) request in
  '(reply, s) ← call c (SharedDiskService_Stub_Read disk_channel request);
  match reply with
  | Some (SharedDiskService_Read_response reply) =>
      assert! size =? Z.of_nat (length (ReadReply_buf_ reply));
      assert! size =? ReadReply_size_ reply;
      buf ← memcpy buf 0 (ReadReply_buf_ reply) 0 (Z.of_nat (length (ReadReply_buf_ reply)));
      Ret (ReadReply_size_ reply, buf)
  | _ => Fault Assert
  end.

(** [src/shared_disk/brpc/shared_disk_service.cpp:173-189 SharedDiskClient::WritePage] *)
Definition rpc_WritePage (page_id : Z) (page_buf : bytes) (c : SharedDiskClient) : res (Z * SharedDiskClient) :=
  let request := WritePageRequest_set_page_id page_id WritePageRequest_SharedCtor in
  b ← set_bytes page_buf MY_PAGE_SIZE;
  let request := WritePageRequest_set_page_buf b request in
  '(reply, s) ← call c (SharedDiskService_Stub_WritePage disk_channel request);
  match reply with
  | Some (SharedDiskService_WritePage_response reply) =>
      assert! WritePageReply_size_ reply =? MY_PAGE_SIZE;
      Ret (WritePageReply_size_ reply, with_server c s)
  | _ => Fault Assert
  end.

(** [src/shared_disk/brpc/shared_disk_service.cpp:191-208 SharedDiskClient::ReadPage] *)
Definition rpc_ReadPage (page_id : Z) (page_buf : bytes) (c : SharedDiskClient) : res (Z * bytes * SharedDiskClient) :=
  let request := ReadPageRequest_set_page_id page_id ReadPageRequest_SharedCtor in
  '(reply, s) ← call c (SharedDiskService_Stub_ReadPage disk_channel request);
  match reply with
  | Some (SharedDiskService_ReadPage_response reply) =>
      assert! MY_PAGE_SIZE =? Z.of_nat (length (ReadPageReply_page_buf_ reply));
      assert! MY_PAGE_SIZE =? ReadPageReply_size_ reply;
      page_buf ← memcpy page_buf 0 (ReadPageReply_page_buf_ reply) 0 (Z.of_nat (length (ReadPageReply_page_buf_ reply)));
      Ret (ReadPageReply_size_ reply, page_buf, with_server c s)
  | _ => Fault Assert
  end.

(** [src/shared_disk/brpc/shared_disk_service.cpp:210-222 SharedDiskClient::CloseAll] *)
Definition rpc_CloseAll (c : SharedDiskClient) : res (Z * SharedDiskClient) :=
  '(reply, s) ← call c (SharedDiskService_Stub_CloseAll disk_channel CloseAllRequest_SharedCtor);
  match reply with
  | Some (SharedDiskService_CloseAll_response reply) => Ret (CloseAllReply_rc_ reply, with_server c s)
  | _ => Fault Assert
  end.

(** The request is sent as it was constructed: [fd] is not stored in it.
    [src/shared_disk/brpc/shared_disk_service.cpp:224-236 SharedDiskClient::Close] *)
Definition rpc_Close (fd : Z) (c : SharedDiskClient) : res (Z * SharedDiskClient) :=
  '(reply, s) ← call c (SharedDiskService_Stub_Close disk_channel CloseRequest_SharedCtor);
  match reply with
  | Some (SharedDiskService_Close_response reply) => Ret (CloseReply_rc_ reply, with_server c s)
  | _ => Fault Assert
  end.

(** ** The calls over the wire are the direct calls *)

(** What the server replies fits into the messages. *)
Lemma srv_Open_reply (path : string) (s s' : FileIO) (fd : Z) :
  srv_Open path s = Ret (fd, s') -> fd_limit (os s) <= 2 ^ 31 -> 0 < fd < 2 ^ 31.
Proof.
  unfold srv_Open, Open, open_. intros E Hl. destruct (Z.leb_spec (fd_limit (os s)) (fresh_fd (descs (os s)))); [done|].
  cbn zeta iota in E. res_inv. bool_props. lia.
Qed.

Lemma srv_Write_reply request (s s' : FileIO) (size : Z) : srv_Write request s = Ret (size, s') -> is_u64 size.
Proof. unfold srv_Write, Write. intros E. res_inv. apply u64_range. Qed.

Lemma srv_Read_reply request (s : FileIO) reply :
  srv_Read request s = Ret reply -> is_u64 (rep_size reply) /\ rep_size reply = r_size request /\ Z.of_nat (length (rep_buf reply)) <= rep_size reply.
Proof.
  unfold srv_Read, Read. intros E. res_inv. bool_props. cbn. rewrite length_take. pose proof (u64_range z). split_and!; [done|done|unfold is_u64 in *; lia].
Qed.

Lemma srv_WritePage_reply (page_id : Z) (b : bytes) (s s' : FileIO) (size : Z) : srv_WritePage page_id b s = Ret (size, s') -> is_u64 size.
Proof. unfold srv_WritePage, WritePage. intros E. res_inv. apply u64_range. Qed.

Lemma srv_ReadPage_reply (page_id : Z) (s s' : FileIO) reply :
  srv_ReadPage page_id s = Ret (reply, s') -> rep_size reply = MY_PAGE_SIZE /\ Z.of_nat (length (rep_buf reply)) <= MY_PAGE_SIZE.
Proof. unfold srv_ReadPage. intros E. res_inv. bool_props. cbn. rewrite length_take, MY_PAGE_SIZE_eq in *. lia. Qed.

Lemma close_reply (fd : Z) (o : OS) : -1 <= (close_ fd o).1 <= 0.
Proof. unfold close_. destruct (descs o !! fd); cbn; lia. Qed.

Lemma srv_CloseAll_reply (s s' : FileIO) (rc : Z) : srv_CloseAll s = Ret (rc, s') -> -1 <= rc <= 0.
Proof.
  unfold srv_CloseAll, Close. intros E. destruct (map_order _) as [|[p fd] l]; [simplify_eq; lia|].
  pose proof (close_reply fd (os s)). destruct (close_ fd (os s)). case_match; simplify_eq. done.
Qed.

Lemma srv_Close_reply request (s s' : FileIO) (rc : Z) : srv_Close request s = Ret (rc, s') -> -1 <= rc <= 0.
Proof.
  unfold srv_Close, Close_fd. intros E. pose proof (close_reply (c_fd request) (os s)). destruct (close_ _ _). case_match; simplify_eq. done.
Qed.

Context (Hslop : (16 <= length slop)%nat).

(** The server's reply to the request of the client's own. *)
Ltac disk_call c lemma :=
  unfold call; destruct (failed c); [done|]; cbn [negb]; through_channel lemma;
  cbn [disk_service SharedDiskService_Open SharedDiskService_Write SharedDiskService_Read SharedDiskService_WritePage
       SharedDiskService_ReadPage SharedDiskService_CloseAll SharedDiskService_Close].

(** The reply arrives: both sides are evaluated on the server's answer. *)
Ltac disk_reply answer :=
  destruct answer as [r| |]; [destruct r|done..]; unfold respond, compose; cbn [mbind res_bind option_map fst snd];
  rewrite received_own by done; done.

Lemma rpc_Open_spec (path : string) (c : SharedDiskClient) :
  VerifyUTF8 (String.list_byte_of_string path) = true -> Z.of_nat (length (String.list_byte_of_string path)) <= max_string ->
  fd_limit (os (server c)) <= 2 ^ 31 -> rpc_Open path c = client_Open path c.
Proof using Hslop H0.
  intros Hu Hp Hl. unfold rpc_Open, client_Open. pose proof (String.string_of_list_byte_of_string path) as Epath.
  set (p := String.list_byte_of_string path) in *. clearbody p. disk_call c (SharedDiskService_Open_channel disk_service slop).
  - unfold Impl_Open. change (OpenRequest_path_ _) with p. rewrite Epath. disk_reply (srv_Open path (server c)).
  - intros response s' E. unfold Impl_Open in E. apply bind_Ret in E as ([r s''] & E & [= <- <-]). apply srv_Open_reply in E; [|done]. own_message.
Qed.

Lemma rpc_Write_spec (fd size offset : Z) (buf : bytes) (c : SharedDiskClient) :
  - 2 ^ 31 <= fd < 2 ^ 31 -> 0 <= size <= 2 ^ 31 - 64 -> rpc_Write fd buf size offset c = client_Write fd buf size offset c.
Proof using Hslop H0.
  intros Hfd Hsz. unfold rpc_Write, client_Write, set_bytes. destruct (size <=? _); [|done]. cbn [mbind res_bind].
  pose proof (i64_range offset) as Hoff. set (b := take (Z.to_nat size) buf). assert (Z.of_nat (length b) <= size) as Hb by (unfold b; rewrite length_take; lia). clearbody b.
  disk_call c (SharedDiskService_Write_channel disk_service slop).
  - unfold Impl_Write. cbn [WriteRequest_set_offset WriteRequest_set_size WriteRequest_set_buf WriteRequest_set_fd WriteRequest_SharedCtor
      WriteRequest_fd_ WriteRequest_buf_ WriteRequest_size_ WriteRequest_offset_]. disk_reply (srv_Write (SharedDisk.mkWriteRequest fd b size (i64 offset)) (server c)).
  - intros response s' E. unfold Impl_Write in E. apply bind_Ret in E as ([r s''] & E & [= <- <-]). apply srv_Write_reply in E. own_message.
Qed.

Lemma rpc_Read_spec (fd size offset : Z) (buf : bytes) (c : SharedDiskClient) :
  - 2 ^ 31 <= fd < 2 ^ 31 -> 0 <= size <= 2 ^ 31 - 64 -> rpc_Read fd buf size offset c = client_Read fd buf size offset c.
Proof using Hslop H0.
  intros Hfd Hsz. unfold rpc_Read, client_Read. pose proof (i64_range offset) as Hoff. disk_call c (SharedDiskService_Read_channel disk_service slop).
  - unfold Impl_Read. cbn [ReadRequest_set_offset ReadRequest_set_size ReadRequest_set_fd ReadRequest_SharedCtor ReadRequest_fd_ ReadRequest_size_ ReadRequest_offset_].
    disk_reply (srv_Read (SharedDisk.mkReadRequest fd size (i64 offset)) (server c)).
  - intros response s' E. unfold Impl_Read in E. apply bind_Ret in E as (r & E & [= <- <-]). apply srv_Read_reply in E as (Hu & Es & Hlen). cbn [r_size] in Es. 
    change (ReadRequest_size_ _) with size in Es. own_message.
Qed.

Lemma rpc_WritePage_spec (page_id : Z) (page_buf : bytes) (c : SharedDiskClient) :
  is_u64 page_id -> rpc_WritePage page_id page_buf c = client_WritePage page_id page_buf c.
Proof using Hslop H0.
  intros Hp. unfold rpc_WritePage, client_WritePage, set_bytes. destruct (MY_PAGE_SIZE <=? _); [|done]. cbn [mbind res_bind]. 
  set (b := take (Z.to_nat MY_PAGE_SIZE) page_buf). assert (Z.of_nat (length b) <= MY_PAGE_SIZE) as Hb by (unfold b; rewrite length_take, MY_PAGE_SIZE_eq; lia). clearbody b.
  disk_call c (SharedDiskService_WritePage_channel disk_service slop).
  - unfold Impl_WritePage. cbn [WritePageRequest_set_page_buf WritePageRequest_set_page_id WritePageRequest_SharedCtor WritePageRequest_page_id_ WritePageRequest_page_buf_].
    disk_reply (srv_WritePage page_id b (server c)).
  - intros response s' E. unfold Impl_WritePage in E. apply bind_Ret in E as ([r s''] & E & [= <- <-]). apply srv_WritePage_reply in E. own_message.
Qed.

Lemma rpc_ReadPage_spec (page_id : Z) (page_buf : bytes) (c : SharedDiskClient) :
  is_u64 page_id -> rpc_ReadPage page_id page_buf c = client_ReadPage page_id page_buf c.
Proof using Hslop H0.
  intros Hp. unfold rpc_ReadPage, client_ReadPage. disk_call c (SharedDiskService_ReadPage_channel disk_service slop).
  - unfold Impl_ReadPage. change (ReadPageRequest_page_id_ _) with page_id. disk_reply (srv_ReadPage page_id (server c)).
  - intros response s' E. unfold Impl_ReadPage in E. apply bind_Ret in E as ([r s''] & E & [= <- <-]). apply srv_ReadPage_reply in E as [Es Hb]. rewrite Es. own_message.
Qed.

Lemma rpc_CloseAll_spec (c : SharedDiskClient) : rpc_CloseAll c = client_CloseAll c.
Proof using Hslop H0.
  unfold rpc_CloseAll, client_CloseAll. disk_call c (SharedDiskService_CloseAll_channel disk_service slop).
  - unfold Impl_CloseAll. disk_reply (srv_CloseAll (server c)).
  - intros response s' E. unfold Impl_CloseAll in E. apply bind_Ret in E as ([r s''] & E & [= <- <-]). apply srv_CloseAll_reply in E. own_message.
Qed.

Lemma rpc_Close_spec (fd : Z) (c : SharedDiskClient) : rpc_Close fd c = client_Close fd c.
Proof using Hslop H0.
  unfold rpc_Close, client_Close. disk_call c (SharedDiskService_Close_channel disk_service slop).
  - unfold Impl_Close. change (SharedDisk.mkCloseRequest _) with CloseRequest_new. disk_reply (srv_Close CloseRequest_new (server c)).
  - intros response s' E. unfold Impl_Close in E. apply bind_Ret in E as ([r s''] & E & [= <- <-]). apply srv_Close_reply in E. own_message.
Qed.

(** C39: Every method of the client does over the wire what the direct call of
    [SharedDisk.v] does, faults included.  The path has to be UTF-8, and the buffers
    of [Read] and [Write] fit into a message; a page always does. *)
Theorem shared_disk_over_wire (c : SharedDiskClient) (path : string) (fd size offset page_id : Z) (buf : bytes) :
  VerifyUTF8 (String.list_byte_of_string path) = true -> Z.of_nat (length (String.list_byte_of_string path)) <= max_string ->
  fd_limit (os (server c)) <= 2 ^ 31 -> - 2 ^ 31 <= fd < 2 ^ 31 -> 0 <= size <= 2 ^ 31 - 64 -> is_u64 page_id ->
  rpc_Open path c = client_Open path c
  /\ rpc_Write fd buf size offset c = client_Write fd buf size offset c
  /\ rpc_Read fd buf size offset c = client_Read fd buf size offset c
  /\ rpc_WritePage page_id buf c = client_WritePage page_id buf c
  /\ rpc_ReadPage page_id buf c = client_ReadPage page_id buf c
  /\ rpc_CloseAll c = client_CloseAll c
  /\ rpc_Close fd c = client_Close fd c.
Proof using Hslop H0.
  intros Hu Hp Hl Hfd Hsz Hid. split_and!; [by apply rpc_Open_spec|by apply rpc_Write_spec|by apply rpc_Read_spec|by apply rpc_WritePage_spec
    |by apply rpc_ReadPage_spec|apply rpc_CloseAll_spec|apply rpc_Close_spec].
Qed.
End Wire.

(** ** A server with one open file *)

Lemma shared_disk_over_wire_witness :
  exists c', rpc_Write (replicate 16 Byte.xff) 3 [Byte.x61; Byte.x62] 2 5 client_example = Ret (2, c')
    /\ rpc_Read (replicate 16 Byte.xff) 3 [Byte.x00; Byte.x00] 2 5 c' = Ret (2, [Byte.x61; Byte.x62]).
Proof.
  destruct (shared_disk_write_read client_example 3 5 "f" [Byte.x61; Byte.x62]
    [Byte.x00; Byte.x00] eq_refl eq_refl ltac:(lia) ltac:(simpl; lia) eq_refl) as (c' & Hw & Hr).
  exists c'.
  pose proof (fun c => shared_disk_over_wire (replicate 16 Byte.xff) ltac:(cbn; lia) c "data" 3 2 5 0) as Hwire.
  split.
  - destruct (Hwire client_example [Byte.x61; Byte.x62]) as (_ & E & _); [by vm_compute|by vm_compute|cbn; lia|lia|lia|done|].
    rewrite E. exact Hw.
  - destruct (Hwire c' [Byte.x00; Byte.x00]) as (_ & _ & E & _); [by vm_compute|by vm_compute| |lia|lia|done|rewrite E; exact Hr].
    vm_compute in Hw. injection Hw as <-. cbn. lia.
Defined.
