(* ===== verification/Startup.v ===== *)
(** * db2: the start of the cluster ([test/main_instance.cpp], [test/main_lock_service.cpp])

    Every instance starts its own server in a thread, sleeps, connects to the lock
    service and registers; the handler connects back.  It then asks until all
    instances have registered.  Instances, servers and handlers interleave at every
    access to the shared table; the barrier is shown to hold and to open. *)

From Stdlib Require Import Ascii.
From stdpp Require Import relations.
From S2P Require Import Prelude Config FileIO Buffer LockTable GlobalLock.
From S2P Require Schema Parser.

(** ** Ports *)

(** [host.substr(host.find(':') + 1)]: the whole text if there is no colon.
    [src/global_lock_service/brpc/global_lock_service.cpp:156-170 GlobalLockServiceImpl::Start] *)
Definition Start_port (host : string) : res Z :=
  Parser.stoi (match Schema.break ":"%char host with (_, Some port) => port | (_, None) => host end).

(** [substr] from the colon on throws if there is none.
    [src/test/main_lock_service.cpp:13-16 RunLockServiceServer] *)
Definition RunLockServiceServer (hosts : gmap Z string) : res Z :=
  match Schema.break ":"%char (default ""%string (hosts !! (-1))) with
  | (_, Some port) => Start_port ("0.0.0.0" +:+ ":" +:+ port)
  | (_, None) => Fault OutOfBounds
  end.

(** [src/test/main_instance.cpp:42-44 RunInstanceServer] *)
Definition RunInstanceServer (hosts : gmap Z string) (instance_id : Z) : res Z :=
  Start_port (default ""%string (hosts !! instance_id)).

(** ** Processes *)

(** Where the handler of [InstanceInitDone] has come to. *)
Inductive registration :=
  | Checking
  | Naming
  | Connecting
  | Marking.

(** Where [main] of an instance has come to: in [Init]; asleep, with the server
    thread running; in [InstanceInitDone]; in [GlobalLockInitDone], whose handler
    looks at an element of [instances_]; at its transactions. *)
Inductive progress :=
  | Initializing
  | Sleeping
  | Calling (h : registration)
  | Polling (i : nat)
  | Started.

#[export] Instance registration_eq_dec : EqDecision registration.
Proof. solve_decision. Defined.

#[export] Instance progress_eq_dec : EqDecision progress.
Proof. solve_decision. Defined.

(** A process and whether its server accepts calls. *)
Record Process := mkProcess {
  pc : progress;
  server_up : bool;
}.

Record System := mkSystem {
  lock_service : GlobalLock;
  lock_service_up : bool;
  processes : list Process;
}.

Definition set_info (id : nat) (info : InstanceInfo) (g : GlobalLock) : GlobalLock :=
  mkGlobal (init_done_ g) (hosts_map_ g) (<[id := info]> (instances_ g)) (lock_service_table_ g) (timestamp_ g) (buffer_ g).

Definition set_hosts (hosts : gmap Z string) (g : GlobalLock) : GlobalLock :=
  mkGlobal (init_done_ g) hosts (instances_ g) (lock_service_table_ g) (timestamp_ g) (buffer_ g).

Definition set_done (g : GlobalLock) : GlobalLock :=
  mkGlobal true (hosts_map_ g) (instances_ g) (lock_service_table_ g) (timestamp_ g) (buffer_ g).

(** The process goes on. *)
Definition go (id : nat) (p : Process) (next : progress) (g : GlobalLock) (s : System) : System :=
  mkSystem g (lock_service_up s) (<[id := mkProcess next (server_up p)]> (processes s)).

Section Steps.
(** Which instance listens at an address. *)
Context (at_host : string -> Z).

(** The constructor of the client calls [Test] of the server it connects to; a call
    that fails ends the process.
    [src/global_lock_service/brpc/global_lock_service.cpp:18-27 GlobalLockServiceClient::GlobalLockServiceClient] *)
Definition connect (up : bool) : res unit := assert! up; Ret tt.

(** The handler, one access to the shared element at a time.
    [src/global_lock/global_lock.cpp:110-120 GlobalLock::set_instance_i] *)
Definition register_step (id : nat) (h : registration) (s : System) : res (progress * GlobalLock) :=
  let g := lock_service s in
  match h with
  | Checking =>
      assert! (0 <=? Z.of_nat id) && (Z.of_nat id <? PROCESS_CNT);
      info ← at_ (instances_ g !! id);
      assert! negb (info_init_done info);
      Ret (Calling Naming, set_info id (mkInfo (Z.of_nat id) (host info) (info_init_done info) (global_lock_service_client info)) g)
  | Naming =>
      info ← at_ (instances_ g !! id);
      let h := default ""%string (hosts_map_ g !! Z.of_nat id) in
      Ret (Calling Connecting, set_info id (mkInfo (info_instance_id info) h (info_init_done info) (global_lock_service_client info))
                                 (set_hosts (<[Z.of_nat id := h]> (hosts_map_ g)) g))
  | Connecting =>
      info ← at_ (instances_ g !! id);
      _ ← connect (default false (server_up <$> processes s !! Z.to_nat (at_host (host info))));
      Ret (Calling Marking, set_info id (mkInfo (info_instance_id info) (host info) (info_init_done info) (Some (host info))) g)
  | Marking =>
      info ← at_ (instances_ g !! id);
      Ret (Polling 0, set_info id (mkInfo (info_instance_id info) (host info) true (global_lock_service_client info)) g)
  end.

(** The loop of the handler, one element at a time; the caller asks again when the
    reply is false.
    [src/global_lock/global_lock.cpp:123-129 GlobalLock::init_done] *)
Definition poll_step (i : nat) (g : GlobalLock) : res (progress * GlobalLock) :=
  info ← at_ (instances_ g !! i);
  if info_init_done info then
    if Z.of_nat (S i) <? PROCESS_CNT then Ret (Polling (S i), g) else Ret (Started, set_done g)
  else Ret (Polling 0, g).

(** [Init] does not touch the lock service.
    [src/test/main_instance.cpp:60-78 managerInstance] *)
Definition instance_step (id : nat) (s : System) : res System :=
  p ← at_ (processes s !! id);
  match pc p with
  | Initializing => Ret (go id p Sleeping (lock_service s) s)
  | Sleeping => _ ← connect (lock_service_up s); Ret (go id p (Calling Checking) (lock_service s) s)
  | Calling h => '(next, g) ← register_step id h s; Ret (go id p next g s)
  | Polling i => '(next, g) ← poll_step i (lock_service s); Ret (go id p next g s)
  | Started => Ret s
  end.

(** What happens next, of an instance or of a server.  With [timely] the two seconds
    are enough for the servers to come up.
    [src/test/main_instance.cpp:63-77 instance_service_server] *)
Inductive start_step (timely : bool) : System -> System -> Prop :=
  | lock_server_starts s : start_step timely s (mkSystem (lock_service s) true (processes s))
  | server_starts s id p :
      processes s !! id = Some p -> pc p <> Initializing ->
      start_step timely s (mkSystem (lock_service s) (lock_service_up s) (<[id := mkProcess (pc p) true]> (processes s)))
  | instance_goes s s' id p :
      processes s !! id = Some p -> (timely = true -> pc p = Sleeping -> server_up p = true /\ lock_service_up s = true) ->
      instance_step id s = Ret s' -> start_step timely s s'.

(** The lock service has been constructed and has read the hosts; it starts its
    server while the instances start.
    [src/test/main_lock_service.cpp:18-27 main] *)
Definition start_state (g : GlobalLock) : System :=
  mkSystem g false (replicate (Z.to_nat PROCESS_CNT) (mkProcess Initializing false)).
End Steps.

(** ** The invariant *)

Section Barrier.
Context (at_host : string -> Z) (hosts : gmap Z string).

(** Every instance has an address of its own. *)
Definition hosts_ok : Prop := forall id : nat, Z.of_nat id < PROCESS_CNT -> exists h, hosts !! Z.of_nat id = Some h /\ at_host h = Z.of_nat id.

Definition host_of (id : nat) : string := default ""%string (hosts !! Z.of_nat id).

(** An instance that has registered. *)
Definition registered (id : nat) : InstanceInfo := mkInfo (Z.of_nat id) (host_of id) true (Some (host_of id)).

Definition all_registered (g : GlobalLock) (n : nat) : Prop := forall i, (i < n)%nat -> instances_ g !! i = Some (registered i).

(** What is in the table when [main] has come to this point. *)
Definition info_at (id : nat) (info : InstanceInfo) (a : progress) : Prop :=
  match a with
  | Initializing | Sleeping | Calling Checking => info = no_instance
  | Calling Naming => info = mkInfo (Z.of_nat id) "" false None
  | Calling Connecting => info = mkInfo (Z.of_nat id) (host_of id) false None
  | Calling Marking => info = mkInfo (Z.of_nat id) (host_of id) false (Some (host_of id))
  | Polling _ | Started => info = registered id
  end.

(** How much of the table the process has seen registered. *)
Definition seen (a : progress) : nat :=
  match a with
  | Polling i => i
  | Started => Z.to_nat PROCESS_CNT
  | _ => 0
  end.

Definition is_up (a : progress) : bool := match a with Initializing | Sleeping => false | _ => true end.

Record start_inv (s : System) : Prop := mk_start_inv {
  si_hosts : hosts_map_ (lock_service s) = hosts;
  si_instances : length (instances_ (lock_service s)) = Z.to_nat PROCESS_CNT;
  si_processes : length (processes s) = Z.to_nat PROCESS_CNT;
  si_info : forall id p info, processes s !! id = Some p -> instances_ (lock_service s) !! id = Some info -> info_at id info (pc p);
  si_seen : forall id p, processes s !! id = Some p -> all_registered (lock_service s) (seen (pc p));
  si_polling : forall id p i, processes s !! id = Some p -> pc p = Polling i -> (i < Z.to_nat PROCESS_CNT)%nat;
  si_up : forall id p, processes s !! id = Some p -> is_up (pc p) = true -> server_up p = true /\ lock_service_up s = true;
}.

Lemma start_inv_start (g : GlobalLock) :
  hosts_map_ g = hosts -> instances_ g = replicate (Z.to_nat PROCESS_CNT) no_instance -> start_inv (start_state g).
Proof.
  intros Hh Hi.
  assert (forall id p, processes (start_state g) !! id = Some p -> p = mkProcess Initializing false) as Hp.
  { intros id p Hp. apply lookup_replicate in Hp as [-> _]. done. }
  split; [done|by rewrite (eq_refl : lock_service (start_state g) = g), Hi, length_replicate|apply length_replicate|..].
  - intros id p info H1 H2. rewrite (Hp _ _ H1). cbn in H2. rewrite Hi in H2. by apply lookup_replicate in H2 as [-> _].
  - intros id p H1. rewrite (Hp _ _ H1). intros i Hlt. cbn in Hlt. lia.
  - intros id p i H1. by rewrite (Hp _ _ H1).
  - intros id p H1. by rewrite (Hp _ _ H1).
Qed.

(** The table of a process changes for itself only, and only forwards. *)
Lemma all_registered_set (id : nat) (info info' : InstanceInfo) (g : GlobalLock) (n : nat) :
  instances_ g !! id = Some info -> (info = registered id -> info' = registered id) ->
  all_registered g n -> all_registered (set_info id info' g) n.
Proof.
  intros Hg Hinfo Hn i Hi. specialize (Hn i Hi). cbn. destruct (decide (i = id)) as [->|Hne].
  - rewrite list_lookup_insert_eq by (by eapply lookup_lt_Some). rewrite Hg in Hn. injection Hn as ->. by rewrite Hinfo.
  - by rewrite list_lookup_insert_ne.
Qed.

(** A step of a process keeps the invariant if its own part does. *)
Lemma start_inv_go (s : System) (id : nat) (p : Process) (info info' : InstanceInfo) (next : progress) :
  start_inv s -> processes s !! id = Some p -> instances_ (lock_service s) !! id = Some info ->
  (info = registered id -> info' = registered id) -> info_at id info' next ->
  all_registered (set_info id info' (lock_service s)) (seen next) -> (forall i, next = Polling i -> (i < Z.to_nat PROCESS_CNT)%nat) ->
  (is_up next = true -> server_up p = true /\ lock_service_up s = true) ->
  start_inv (go id p next (set_info id info' (lock_service s)) s).
Proof.
  intros [Hh Hi Hp Hinfo Hseen Hpoll Hup] Hid Hg Hkeep Hat Hall Hlt Hnext.
  assert (id < length (processes s))%nat as Hidp by (by eapply lookup_lt_Some).
  assert (id < length (instances_ (lock_service s)))%nat as Hidi by (by eapply lookup_lt_Some).
  assert (forall j q, <[id := mkProcess next (server_up p)]> (processes s) !! j = Some q ->
    j = id /\ q = mkProcess next (server_up p) \/ j <> id /\ processes s !! j = Some q) as Hcase.
  { intros j q. rewrite list_lookup_insert. case_decide; intros E; [left|right]; [|split; [|done]; naive_solver]. naive_solver. }
  split; cbn; rewrite ?length_insert; try done.
  - intros j q i' Hq Hi'. destruct (Hcase j q Hq) as [[-> ->]|[Hne Hq']].
    + rewrite list_lookup_insert_eq in Hi' by done. by injection Hi' as <-.
    + rewrite list_lookup_insert_ne in Hi' by done. by apply (Hinfo j).
  - intros j q Hq. destruct (Hcase j q Hq) as [[-> ->]|[Hne Hq']]; [done|]. eapply all_registered_set; eauto.
  - intros j q i Hq. destruct (Hcase j q Hq) as [[-> ->]|[Hne Hq']]; [apply Hlt|by eapply Hpoll].
  - intros j q Hq. destruct (Hcase j q Hq) as [[-> ->]|[Hne Hq']]; [done|by eapply Hup].
Qed.

Lemma start_inv_ext (s s' : System) :
  start_inv s -> hosts_map_ (lock_service s') = hosts_map_ (lock_service s) -> instances_ (lock_service s') = instances_ (lock_service s) ->
  processes s' = processes s -> lock_service_up s' = lock_service_up s -> start_inv s'.
Proof.
  intros [Hh Hi Hp Hinfo Hseen Hpoll Hup] E1 E2 E3 E4. unfold all_registered in *.
  split; unfold all_registered; rewrite ?E1, ?E2, ?E3, ?E4; done.
Qed.

(** The points of [main] in order: how far a process is from its transactions. *)
Definition distance (a : progress) : nat :=
  match a with
  | Started => 0
  | Polling i => Z.to_nat PROCESS_CNT - i
  | Calling Marking => Z.to_nat PROCESS_CNT + 1
  | Calling Connecting => Z.to_nat PROCESS_CNT + 2
  | Calling Naming => Z.to_nat PROCESS_CNT + 3
  | Calling Checking => Z.to_nat PROCESS_CNT + 4
  | Sleeping => Z.to_nat PROCESS_CNT + 5
  | Initializing => Z.to_nat PROCESS_CNT + 6
  end.

(** A process comes nearer, or it has found one that is not registered. *)
Definition forwards (s : System) (a next : progress) : Prop :=
  (distance next < distance a)%nat \/ (a = Started /\ next = Started)
  \/ exists i info, a = Polling i /\ next = Polling 0 /\ instances_ (lock_service s) !! i = Some info /\ info <> registered i.

Lemma own_info (s : System) (id : nat) (p : Process) :
  start_inv s -> processes s !! id = Some p ->
  exists info, instances_ (lock_service s) !! id = Some info /\ info_at id info (pc p).
Proof.
  intros Hinv Hid. assert (is_Some (instances_ (lock_service s) !! id)) as [info Hi].
  { apply lookup_lt_is_Some. rewrite (si_instances s Hinv), <- (si_processes s Hinv). by eapply lookup_lt_Some. }
  exists info. split; [done|]. by apply (si_info s Hinv id p).
Qed.

Lemma registered_iff (s : System) (i : nat) (info : InstanceInfo) :
  start_inv s -> instances_ (lock_service s) !! i = Some info -> info_init_done info = true <-> info = registered i.
Proof.
  intros Hinv Hi. assert (is_Some (processes s !! i)) as [q Hq].
  { apply lookup_lt_is_Some. rewrite (si_processes s Hinv), <- (si_instances s Hinv). by eapply lookup_lt_Some. }
  pose proof (si_info s Hinv i q info Hq Hi) as Hat. split; [|by intros ->]. intros Hd.
  destruct (pc q) as [| |[]| |]; cbn in Hat; subst info; done.
Qed.

(** A step that leaves the table alone. *)
Lemma start_inv_same (s : System) (id : nat) (p : Process) (next : progress) (g : GlobalLock) (info : InstanceInfo) :
  start_inv s -> processes s !! id = Some p -> hosts_map_ g = hosts_map_ (lock_service s) -> instances_ g = instances_ (lock_service s) ->
  instances_ (lock_service s) !! id = Some info -> info_at id info next -> all_registered (lock_service s) (seen next) ->
  (forall j, next = Polling j -> (j < Z.to_nat PROCESS_CNT)%nat) -> (is_up next = true -> server_up p = true /\ lock_service_up s = true) ->
  start_inv (go id p next g s).
Proof.
  intros Hinv Hid E1 E2 Hinfo Hn Hall Hlt Hup.
  assert (set_info id info (lock_service s) = lock_service s) as Eset.
  { unfold set_info. rewrite list_insert_id by done. by destruct (lock_service s). }
  eapply start_inv_ext; [eapply (start_inv_go s id p info info next)|..]; rewrite ?Eset; done.
Qed.

Lemma poll_ok (s : System) (id i : nat) (p : Process) :
  start_inv s -> processes s !! id = Some p -> pc p = Polling i ->
  exists next g, poll_step i (lock_service s) = Ret (next, g) /\ start_inv (go id p next g s) /\ forwards s (Polling i) next.
Proof.
  intros Hinv Hid Hpc. pose proof (si_polling s Hinv id p i Hid Hpc) as Hi. destruct (own_info s id p Hinv Hid) as (own & Hown & Hat).
  rewrite Hpc in Hat. cbn in Hat. subst own.
  assert (is_Some (instances_ (lock_service s) !! i)) as [info Hinfo] by (apply lookup_lt_is_Some; by rewrite (si_instances s Hinv)).
  pose proof (registered_iff s i info Hinv Hinfo) as Hdone. pose proof (si_seen s Hinv id p Hid) as Hseen. rewrite Hpc in Hseen. cbn in Hseen.
  assert (server_up p = true /\ lock_service_up s = true) as Hup by (apply (si_up s Hinv id p Hid); by rewrite Hpc).
  unfold poll_step, forwards. rewrite Hinfo. cbn [at_ mbind res_bind]. destruct (info_init_done info) eqn:Ed.
  - assert (all_registered (lock_service s) (S i)) as HS.
    { intros j Hj. destruct (decide (j = i)) as [->|]; [rewrite Hinfo; by rewrite (proj1 Hdone eq_refl)|apply Hseen; lia]. }
    destruct (Z.ltb_spec (Z.of_nat (S i)) PROCESS_CNT).
    + eexists _, _. split; [done|]. split; [|left; cbn; lia]. apply (start_inv_same s id p _ _ (registered id)); try done. intros j [= <-]. lia.
    + eexists _, _. split; [done|]. split; [|left; cbn; lia]. apply (start_inv_same s id p _ _ (registered id)); try done.
      cbn. by replace (Z.to_nat PROCESS_CNT) with (S i) by lia.
  - eexists _, _. split; [done|]. split.
    + apply (start_inv_same s id p _ _ (registered id)); try done; [intros j Hj; cbn in Hj; lia|intros j [= <-]; lia].
    + right. right. exists i, info. split_and!; try done. intros E. apply Hdone in E. done.
Qed.

Context (Hhosts : hosts_ok).

Lemma host_of_ok (id : nat) : Z.of_nat id < PROCESS_CNT -> hosts !! Z.of_nat id = Some (host_of id) /\ at_host (host_of id) = Z.of_nat id.
Proof using Hhosts. intros Hid. destruct (Hhosts id Hid) as (h & E & Eh). unfold host_of. by rewrite E. Qed.

Lemma register_ok (s : System) (id : nat) (h : registration) (p : Process) :
  start_inv s -> processes s !! id = Some p -> pc p = Calling h ->
  exists next g, register_step at_host id h s = Ret (next, g) /\ start_inv (go id p next g s) /\ (distance next < distance (Calling h))%nat.
Proof using Hhosts.
  intros Hinv Hid Hpc. destruct (own_info s id p Hinv Hid) as (info & Hinfo & Hat). rewrite Hpc in Hat.
  assert (Z.of_nat id < PROCESS_CNT) as Hlt.
  { pose proof (lookup_lt_Some _ _ _ Hid) as Hl. rewrite (si_processes s Hinv) in Hl. lia. }
  destruct (host_of_ok id Hlt) as [Eh Eat]. destruct (si_up s Hinv id p Hid) as [Hup Hls]; [by rewrite Hpc|].
  assert (forall info' next, (info = registered id -> info' = registered id) -> info_at id info' next -> seen next = 0%nat ->
    (forall i, next = Polling i -> i = 0%nat) -> start_inv (go id p next (set_info id info' (lock_service s)) s)) as Hgo.
  { intros info' next Hk Hn Hs Hi. eapply start_inv_go; eauto; [rewrite Hs; intros i Hi'; lia|]. intros i E. apply Hi in E as ->. lia. }
  destruct h; cbn in Hat; subst info; unfold register_step; rewrite ?Hinfo; cbn [at_ mbind res_bind].
  - rewrite (proj2 (Z.leb_le _ _)), (proj2 (Z.ltb_lt _ _)) by lia. cbn. eexists _, _. split; [done|]. split; [by apply Hgo|cbn; lia].
  - rewrite (si_hosts s Hinv). cbn zeta. fold (host_of id). eexists _, _. split; [done|]. split; [|cbn; lia].
    rewrite (insert_id hosts) by done. replace (set_hosts hosts (lock_service s)) with (lock_service s) by (rewrite <- (si_hosts s Hinv); by destruct (lock_service s)).
    by apply Hgo.
  - cbn [host]. rewrite Eat, Nat2Z.id, Hid. cbn [fmap option_fmap option_map default]. rewrite Hup. cbn.
    eexists _, _. split; [done|]. split; [by apply Hgo|cbn; lia].
  - eexists _, _. split; [done|]. split; [apply Hgo; try done; by intros i [= <-]|cbn; lia].
Qed.

Lemma instance_step_ok (s : System) (id : nat) (p : Process) :
  start_inv s -> processes s !! id = Some p -> (pc p = Sleeping -> server_up p = true /\ lock_service_up s = true) ->
  exists next g, instance_step at_host id s = Ret (go id p next g s) /\ start_inv (go id p next g s) /\ forwards s (pc p) next.
Proof using Hhosts.
  intros Hinv Hid Hslp. unfold instance_step. rewrite Hid. cbn [at_ mbind res_bind]. destruct (own_info s id p Hinv Hid) as (info & Hinfo & Hat).
  pose proof (si_up s Hinv id p Hid) as Hup. destruct (pc p) as [| |h|i|] eqn:Hpc.
  - eexists _, _. split; [done|]. split; [|left; cbn; lia]. apply (start_inv_same s id p _ _ info); try done. intros i Hi. cbn in Hi. lia.
  - destruct Hslp as [H1 H2]; [done|]. unfold connect. rewrite H2. cbn. eexists _, _. split; [done|]. split; [|left; cbn; lia].
    apply (start_inv_same s id p _ _ info); try done. intros i Hi. cbn in Hi. lia.
  - destruct (register_ok s id h p Hinv Hid Hpc) as (next & g & -> & Hgo & Hd). eexists _, _. split; [done|]. split; [done|by left].
  - destruct (poll_ok s id i p Hinv Hid Hpc) as (next & g & -> & Hgo & Hd). by eexists _, _.
  - exists Started, (lock_service s). split.
    + unfold go. rewrite <- Hpc. rewrite list_insert_id by (rewrite Hid; by destruct p). by destruct s.
    + split; [|by right; left]. apply (start_inv_same s id p _ _ info); try done. pose proof (si_seen s Hinv id p Hid) as Hs. by rewrite Hpc in Hs.
Qed.

(** ** All executions *)

#[local] Abbreviation step := (start_step at_host true).

Lemma start_inv_lock_server (s : System) : start_inv s -> start_inv (mkSystem (lock_service s) true (processes s)).
Proof. intros [Hh Hi Hp Hinfo Hseen Hpoll Hup]. split; try done. intros id p Hid Hu. by destruct (Hup id p Hid Hu). Qed.

Lemma start_inv_server (s : System) (id : nat) (p : Process) :
  start_inv s -> processes s !! id = Some p ->
  start_inv (mkSystem (lock_service s) (lock_service_up s) (<[id := mkProcess (pc p) true]> (processes s))).
Proof.
  intros [Hh Hi Hp Hinfo Hseen Hpoll Hup] Hid. assert (id < length (processes s))%nat as Hlt by (by eapply lookup_lt_Some).
  assert (forall j q, <[id := mkProcess (pc p) true]> (processes s) !! j = Some q ->
    exists q', processes s !! j = Some q' /\ pc q = pc q' /\ (server_up q = true \/ server_up q = server_up q')) as Hcase.
  { intros j q. rewrite list_lookup_insert. case_decide as Hd; [|naive_solver]. destruct Hd as [-> _]. intros [= <-]. exists p. naive_solver. }
  split; cbn; rewrite ?length_insert; try done.
  - intros j q info Hq Hj. destruct (Hcase j q Hq) as (q' & Hq' & -> & _). by apply (Hinfo j).
  - intros j q Hq. destruct (Hcase j q Hq) as (q' & Hq' & -> & _). by apply (Hseen j).
  - intros j q i Hq. destruct (Hcase j q Hq) as (q' & Hq' & -> & _). by apply (Hpoll j).
  - intros j q Hq. destruct (Hcase j q Hq) as (q' & Hq' & -> & Hs). intros Hu. destruct (Hup j q' Hq' Hu). naive_solver congruence.
Qed.

Lemma start_step_inv (s s' : System) : start_inv s -> step s s' -> start_inv s'.
Proof using Hhosts.
  intros Hinv Hstep. destruct Hstep as [s|s id p Hid _|s s' id p Hid Ht E]; [by apply start_inv_lock_server|by apply start_inv_server|].
  destruct (instance_step_ok s id p Hinv Hid) as (next & g & E' & Hgo & _); [intros; by apply Ht|]. rewrite E in E'. by injection E' as ->.
Qed.

Lemma start_steps_inv (s s' : System) : start_inv s -> rtc step s s' -> start_inv s'.
Proof using Hhosts. intros Hinv Hsteps. induction Hsteps; [done|]. eauto using start_step_inv. Qed.

(** How far all processes are from their transactions. *)
Definition remaining (s : System) : nat := sum_list_with (distance ∘ pc) (processes s).

Lemma remaining_insert (l : list Process) (id : nat) (p q : Process) :
  l !! id = Some p ->
  (sum_list_with (distance ∘ pc) (<[id := q]> l) + distance (pc p) = sum_list_with (distance ∘ pc) l + distance (pc q))%nat.
Proof.
  revert id. induction l as [|x l IH]; intros [|id] Hid; [done..| |].
  - injection Hid as ->. change (<[0%nat := q]> (p :: l)) with (q :: l). cbn [sum_list_with]. unfold compose. lia.
  - specialize (IH id Hid). change (<[S id := q]> (x :: l)) with (x :: <[id := q]> l). cbn [sum_list_with]. lia.
Qed.

(** The servers a sleeping process waits for come up. *)
Lemma servers_up (s : System) (id : nat) (p : Process) :
  start_inv s -> processes s !! id = Some p -> pc p <> Initializing ->
  exists s', rtc step s s' /\ start_inv s' /\ lock_service s' = lock_service s /\ lock_service_up s' = true
    /\ processes s' = <[id := mkProcess (pc p) true]> (processes s).
Proof.
  intros Hinv Hid Hp. set (s1 := mkSystem (lock_service s) true (processes s)). exists (mkSystem (lock_service s1) (lock_service_up s1) (<[id := mkProcess (pc p) true]> (processes s1))).
  split_and!; try done.
  - eapply rtc_l; [apply (lock_server_starts at_host true s)|]. apply rtc_once. by apply server_starts.
  - apply start_inv_server; [by apply start_inv_lock_server|done].
Qed.

(** A process that has not registered, or one when all have, can come nearer. *)
Lemma process_goes (s : System) (id : nat) (p : Process) :
  start_inv s -> processes s !! id = Some p -> pc p <> Started ->
  (forall i, pc p = Polling i -> all_registered (lock_service s) (Z.to_nat PROCESS_CNT)) ->
  exists s', rtc step s s' /\ start_inv s' /\ (remaining s' < remaining s)%nat.
Proof using Hhosts.
  intros Hinv Hid Hns Hall.
  assert (exists s1 p1, rtc step s s1 /\ start_inv s1 /\ lock_service s1 = lock_service s /\ processes s1 !! id = Some p1 /\ pc p1 = pc p
    /\ (pc p1 = Sleeping -> server_up p1 = true /\ lock_service_up s1 = true) /\ remaining s1 = remaining s)
    as (s1 & p1 & Hs1 & Hinv1 & El & Hid1 & Epc & Hslp & Er).
  { destruct (decide (pc p = Initializing)) as [E|Hp]; [exists s, p; split_and!; try done; by rewrite E|].
    destruct (servers_up s id p Hinv Hid Hp) as (s1 & Hs1 & Hinv1 & El & Eu & Ep). exists s1, (mkProcess (pc p) true).
    split_and!; try done; [rewrite Ep; apply list_lookup_insert_eq; by eapply lookup_lt_Some|].
    unfold remaining. rewrite Ep. pose proof (remaining_insert (processes s) id p (mkProcess (pc p) true) Hid) as E. cbn [pc] in E. lia. }
  destruct (instance_step_ok s1 id p1 Hinv1 Hid1 Hslp) as (next & g & E & Hgo & Hf). exists (go id p1 next g s1). split; [|split; [done|]].
  - eapply rtc_r; [done|]. by apply (instance_goes at_host true s1 _ id p1).
  - rewrite <- Er. unfold remaining, go. cbn [processes]. pose proof (remaining_insert (processes s1) id p1 (mkProcess next (server_up p1)) Hid1) as E1. cbn [pc] in E1.
    rewrite Epc in *. destruct Hf as [Hd|[[E2 _]|(i & info & E2 & _ & Hi & Hne)]]; [lia|done|].
    exfalso. apply Hne. pose proof (Hall i E2) as Hreg. pose proof (si_polling s Hinv id p i Hid E2) as Hlt. rewrite El, (Hreg i Hlt) in Hi. by injection Hi.
Qed.

Definition all_started (s : System) : Prop := Forall (fun p => pc p = Started) (processes s).

Lemma processes_go (s : System) : start_inv s -> all_started s \/ exists s', rtc step s s' /\ start_inv s' /\ (remaining s' < remaining s)%nat.
Proof using Hhosts.
  intros Hinv. destruct (decide (Forall (fun p => pc p = Started) (processes s))) as [|Hns]; [by left|right].
  destruct (decide (Exists (fun p => Z.to_nat PROCESS_CNT < distance (pc p))%nat (processes s))) as [He|Hne].
  - apply list.Exists_exists in He as (p & Hp & Hd). apply list_elem_of_lookup in Hp as [id Hid].
    apply (process_goes s id p); try done; [intros E|intros i E]; rewrite E in Hd; cbn in Hd; lia.
  - apply not_Forall_Exists in Hns; [|solve_decision]. apply list.Exists_exists in Hns as (p & Hp & Hd). apply list_elem_of_lookup in Hp as [id Hid].
    apply (process_goes s id p); try done. intros i _ j Hj.
    assert (is_Some (processes s !! j)) as [q Hq] by (apply lookup_lt_is_Some; by rewrite (si_processes s Hinv)).
    destruct (own_info s j q Hinv Hq) as (info & -> & Hat). f_equal.
    assert (distance (pc q) <= Z.to_nat PROCESS_CNT)%nat as Hq'.
    { destruct (decide (distance (pc q) <= Z.to_nat PROCESS_CNT)%nat) as [|Hgt]; [done|]. exfalso. apply Hne. apply list.Exists_exists.
      exists q. split; [by eapply list_elem_of_lookup_2|lia]. }
    destruct (pc q) as [| |[]| |]; cbn in Hq'; try lia; exact Hat.
Qed.

Lemma start_completes (s : System) : start_inv s -> exists s', rtc step s s' /\ all_started s'.
Proof using Hhosts.
  induction s as [s IH] using (induction_ltof1 _ remaining). unfold ltof in IH. intros Hinv.
  destruct (processes_go s Hinv) as [|(s' & Hs & Hinv' & Hlt)]; [by exists s|]. destruct (IH s' Hlt Hinv') as (s2 & Hs2 & Hall).
  exists s2. split; [by etrans|done].
Qed.
Lemma start_never_fails (s : System) (id : nat) (p : Process) :
  start_inv s -> processes s !! id = Some p -> (pc p = Sleeping -> server_up p = true /\ lock_service_up s = true) ->
  exists s', instance_step at_host id s = Ret s'.
Proof using Hhosts. intros Hinv Hid Hslp. destruct (instance_step_ok s id p Hinv Hid Hslp) as (next & g & E & _). by eexists. Qed.

Lemma started_registered (s : System) (id : nat) (p : Process) (j : Z) :
  start_inv s -> processes s !! id = Some p -> pc p = Started -> 0 <= j < PROCESS_CNT ->
  exists info addr q, instances_ (lock_service s) !! Z.to_nat j = Some info /\ global_lock_service_client info = Some addr /\ at_host addr = j
    /\ processes s !! Z.to_nat j = Some q /\ server_up q = true.
Proof using Hhosts.
  intros Hinv Hid Hpc Hj. pose proof (si_seen _ Hinv id p Hid (Z.to_nat j)) as Hreg. rewrite Hpc in Hreg. specialize (Hreg ltac:(cbn; lia)).
  destruct (host_of_ok (Z.to_nat j)) as [_ Eat]; [lia|]. rewrite Z2Nat.id in Eat by lia.
  assert (is_Some (processes s !! Z.to_nat j)) as [q Hq] by (apply lookup_lt_is_Some; rewrite (si_processes _ Hinv); lia).
  exists (registered (Z.to_nat j)), (host_of (Z.to_nat j)), q. split_and!; try done.
  apply (si_up _ Hinv (Z.to_nat j) q Hq). pose proof (si_info _ Hinv _ q _ Hq Hreg) as Hat. by destruct (pc q) as [| |[]| |].
Qed.
End Barrier.

(** ** The handlers on their own

    Without others in between, the steps of a handler are the operations of
    [GlobalLock.v]. *)

Lemma go_pc (id : nat) (p : Process) (next : progress) (g : GlobalLock) (s : System) :
  processes s !! id = Some p -> processes (go id p next g s) !! id = Some (mkProcess next (server_up p)).
Proof. intros Hid. apply list_lookup_insert_eq. by eapply lookup_lt_Some. Qed.

Lemma go_go (id : nat) (p q : Process) (a b : progress) (g h : GlobalLock) (s : System) :
  server_up q = server_up p -> go id q b h (go id p a g s) = go id p b h s.
Proof. intros E. unfold go. cbn. by rewrite list_insert_insert_eq, E. Qed.

Lemma instance_step_calling (at_host : string -> Z) (id : nat) (p : Process) (h : registration) (s : System) :
  processes s !! id = Some p -> pc p = Calling h ->
  instance_step at_host id s = register_step at_host id h s ≫= fun '(next, g) => Ret (go id p next g s).
Proof. intros Hid Hpc. unfold instance_step. rewrite Hid. cbn [at_ mbind res_bind]. by rewrite Hpc. Qed.

Ltac next_stage :=
  erewrite instance_step_calling by (reflexivity || by apply go_pc);
  cbn [register_step lock_service go set_info set_hosts instances_ hosts_map_];
  rewrite list_lookup_insert_eq by (rewrite ?length_insert; done);
  cbn [at_ mbind res_bind host info_instance_id info_init_done global_lock_service_client];
  repeat match goal with E : ?x = Z.of_nat ?id |- context [Z.to_nat ?x] => rewrite E, Nat2Z.id end; rewrite ?go_go by done.

Lemma register_alone (at_host : string -> Z) (id : nat) (p : Process) (s : System) (g : GlobalLock) :
  processes s !! id = Some p -> pc p = Calling Checking -> server_up p = true ->
  at_host (default ""%string (hosts_map_ (lock_service s) !! Z.of_nat id)) = Z.of_nat id ->
  set_instance_i (Z.of_nat id) (lock_service s) = Ret g ->
  iterate 4 (instance_step at_host id) s = Ret (go id p (Polling 0) g s).
Proof.
  intros Hid Hpc Hup Hat Hset. unfold set_instance_i in Hset. rewrite Nat2Z.id in Hset.
  destruct ((0 <=? Z.of_nat id) && _) eqn:Hr; [|done]. destruct (instances_ (lock_service s) !! id) as [info|] eqn:Hinfo; [|done]. cbn [at_ mbind res_bind] in Hset.
  destruct (negb (info_init_done info)) eqn:Hd; [|done]. injection Hset as <-.
  assert (id < length (instances_ (lock_service s)))%nat as Hlt by (by eapply lookup_lt_Some).
  cbn [iterate]. rewrite (instance_step_calling at_host id p Checking s Hid Hpc). unfold register_step. rewrite Hr, Hinfo. cbn [at_ mbind res_bind]. rewrite Hd. cbn [mbind res_bind].
  next_stage. next_stage. rewrite go_pc by done. cbn [fmap option_fmap option_map from_option server_up]. rewrite Hup. unfold connect. cbn [mbind res_bind Datatypes.id]. rewrite ?go_go by done.
  next_stage. do 2 f_equal. unfold set_info, set_hosts. cbn. by rewrite !list_insert_insert_eq.
Qed.

(** The scan from an element on, when nothing changes under it. *)
Lemma poll_alone (at_host : string -> Z) (id i : nat) (p : Process) (s : System) (l : list InstanceInfo) :
  processes s !! id = Some p -> pc p = Polling i -> l <> [] -> instances_ (lock_service s) = take i (instances_ (lock_service s)) ++ l ->
  Z.of_nat (i + length l) = PROCESS_CNT ->
  exists k, (k <= length l)%nat
    /\ iterate k (instance_step at_host id) s
       = Ret (if forallb info_init_done l then go id p Started (set_done (lock_service s)) s else go id p (Polling 0) (lock_service s) s).
Proof.
  revert i p s. induction l as [|info l IH]; intros i p s Hid Hpc Hne Hl Hlen; [done|]. cbn [length] in Hlen.
  assert (length (instances_ (lock_service s)) <= i -> False)%nat as Hlt.
  { intros Hle. apply (f_equal length) in Hl. rewrite length_app, length_take in Hl. cbn in Hl. lia. }
  assert (instances_ (lock_service s) !! i = Some info) as Hi.
  { rewrite Hl, lookup_app_r, length_take by (rewrite length_take; lia). by rewrite Nat.min_l, Nat.sub_diag by lia. }
  assert (instance_step at_host id s = poll_step i (lock_service s) ≫= fun '(next, g) => Ret (go id p next g s)) as Estep.
  { unfold instance_step. rewrite Hid. cbn [at_ mbind res_bind]. by rewrite Hpc. }
  unfold poll_step in Estep. rewrite Hi in Estep. cbn [at_ mbind res_bind] in Estep. cbn [forallb]. destruct (info_init_done info); cbn [andb].
  - destruct (Z.ltb_spec (Z.of_nat (S i)) PROCESS_CNT) as [Hs|Hs]; cbn [mbind res_bind] in Estep.
    + destruct (IH (S i) (mkProcess (Polling (S i)) (server_up p)) (go id p (Polling (S i)) (lock_service s) s)) as (k & Hk & E).
      * by apply go_pc.
      * done.
      * intros ->. cbn in Hlen. lia.
      * cbn [go lock_service]. rewrite (take_S_r _ _ info) by done. by rewrite <- app_assoc.
      * lia.
      * exists (S k). split; [cbn; lia|]. cbn [iterate]. rewrite Estep. cbn [mbind res_bind]. rewrite E. cbn [go lock_service]. case_match; by rewrite go_go.
    + exists 1%nat. destruct l as [|? l]; [|cbn in Hlen; lia]. split; [cbn; lia|]. cbn [iterate]. by rewrite Estep.
  - exists 1%nat. split; [cbn; lia|]. cbn [iterate]. by rewrite Estep.
Qed.

(** The handlers that nobody interrupts are [set_instance_i] and [init_done]. *)
Theorem handlers_alone (at_host : string -> Z) (id : nat) (p : Process) (s : System) :
  processes s !! id = Some p -> length (instances_ (lock_service s)) = Z.to_nat PROCESS_CNT ->
  (forall g, pc p = Calling Checking -> server_up p = true ->
     at_host (default ""%string (hosts_map_ (lock_service s) !! Z.of_nat id)) = Z.of_nat id ->
     set_instance_i (Z.of_nat id) (lock_service s) = Ret g -> iterate 4 (instance_step at_host id) s = Ret (go id p (Polling 0) g s))
  /\ (pc p = Polling 0 -> exists k, iterate k (instance_step at_host id) s
      = Ret (let '(b, g) := init_done (lock_service s) in go id p (if b then Started else Polling 0) g s)).
Proof.
  intros Hid Hlen. split; [intros g Hpc Hup Hat; by apply register_alone|]. intros Hpc.
  destruct (poll_alone at_host id 0 p s (instances_ (lock_service s)) Hid Hpc) as (k & _ & E).
  - intros E. rewrite E in Hlen. discriminate Hlen.
  - done.
  - rewrite Hlen. unfold PROCESS_CNT. lia.
  - exists k. rewrite E. unfold init_done. by destruct (forallb _ _).
Qed.

(** ** The barrier *)

Lemma new_GlobalLock_start `{Disk D} (junk : bytes) (hosts : gmap Z string) (pages : nat) (version0 : Z) (d d' : D) (g : GlobalLock) :
  new_GlobalLock junk hosts pages version0 d = Ret (g, d') ->
  hosts_map_ g = hosts /\ instances_ g = replicate (Z.to_nat PROCESS_CNT) no_instance.
Proof.
  unfold new_GlobalLock. intros E. apply bind_Ret in E as (b & _ & E). apply bind_Ret in E as ([b' d1] & _ & E). by injection E as <- _.
Qed.

Section Start.
Context {D : Type} `{Disk D} (junk : bytes) (at_host : string -> Z) (hosts : gmap Z string) (pages : nat) (version0 : Z) (d d' : D) (g : GlobalLock).
Context (Hhosts : hosts_ok at_host hosts) (Hnew : new_GlobalLock junk hosts pages version0 d = Ret (g, d')).

Lemma reachable_inv (s : System) : rtc (start_step at_host true) (start_state g) s -> start_inv hosts s.
Proof using Hhosts Hnew.
  intros Hs. destruct (new_GlobalLock_start _ _ _ _ _ _ _ Hnew) as [E1 E2].
  eapply (start_steps_inv at_host hosts Hhosts); [|done]. by apply start_inv_start.
Qed.

(** C20: When servers come up in time, no call of the start fails in any interleaving, and
    no instance runs transactions before all instances are registered: the lock
    service then has a client to the server of every one of them, which is up. *)
Theorem startup_barrier (s : System) :
  rtc (start_step at_host true) (start_state g) s ->
  (forall id p, processes s !! id = Some p -> (pc p = Sleeping -> server_up p = true /\ lock_service_up s = true) ->
     exists s', instance_step at_host id s = Ret s')
  /\ (forall id p j, processes s !! id = Some p -> pc p = Started -> 0 <= j < PROCESS_CNT ->
     exists info addr q, instances_ (lock_service s) !! Z.to_nat j = Some info /\ global_lock_service_client info = Some addr /\ at_host addr = j
       /\ processes s !! Z.to_nat j = Some q /\ server_up q = true).
Proof using Hhosts Hnew.
  intros Hs. apply reachable_inv in Hs as Hinv. clear Hnew. split.
  - intros id p. exact (start_never_fails at_host hosts Hhosts s id p Hinv).
  - intros id p j. exact (started_registered at_host hosts Hhosts s id p j Hinv).
Qed.

(** C21: The barrier opens: from every state the start can come to, all instances can come
    to their transactions. *)
Theorem startup_completes (s : System) :
  rtc (start_step at_host true) (start_state g) s ->
  exists s', rtc (start_step at_host true) s s' /\ Forall (fun p => pc p = Started) (processes s').
Proof using Hhosts Hnew. intros Hs. apply (start_completes at_host hosts Hhosts). by apply reachable_inv. Qed.
End Start.

(** ** Two instances *)

Definition start_hosts : gmap Z string := {[0 := "a"%string; 1 := "b"%string; -1 := "s"%string]}.

Lemma start_hosts_ok : hosts_ok two_hosts start_hosts.
Proof. intros id Hid. unfold PROCESS_CNT in Hid. destruct id as [|[|id]]; [by eexists|by eexists|lia]. Qed.

(** The lock service over a table space without pages. *)
Definition start_example (b : Buffer) : GlobalLock := mkGlobal false start_hosts [no_instance; no_instance] ∅ 1 b.

Lemma start_example_new : exists b, new_GlobalLock a_page start_hosts 0 0 {| db_ := ∅ |} = Ret (start_example b, {| db_ := ∅ |}).
Proof.
  destruct (new_Buffer_ok (D := MemoryIO) 0 FILE_SIZE) as (b & E & _); [vm_compute; split; [discriminate|reflexivity]|].
  exists b. unfold new_GlobalLock. rewrite E. reflexivity.
Qed.

Lemma startup_barrier_witness :
  exists b s p, rtc (start_step two_hosts true) (start_state (start_example b)) s /\ processes s !! 0%nat = Some p /\ pc p = Started
    /\ exists info addr, instances_ (lock_service s) !! 1%nat = Some info /\ global_lock_service_client info = Some addr /\ two_hosts addr = 1.
Proof.
  destruct start_example_new as [b Hnew]. exists b.
  destruct (start_completes two_hosts start_hosts start_hosts_ok (start_state (start_example b))) as (s & Hs & Hall); [by apply start_inv_start|].
  assert (start_inv start_hosts s) as Hinv by (eapply (start_steps_inv two_hosts start_hosts start_hosts_ok); [|exact Hs]; by apply start_inv_start).
  destruct (processes s) as [|p l] eqn:Ep; [pose proof (si_processes _ _ Hinv) as E; rewrite Ep in E; discriminate E|].
  assert (pc p = Started) as Hpc by (unfold all_started in Hall; rewrite Ep in Hall; by apply list.Forall_cons in Hall as [? _]).
  exists s, p. split; [exact Hs|]. split; [rewrite Ep; reflexivity|]. split; [exact Hpc|].
  destruct (startup_barrier a_page two_hosts start_hosts 0 0 {| db_ := ∅ |} {| db_ := ∅ |} (start_example b) start_hosts_ok Hnew s Hs) as [_ Hreg].
  destruct (Hreg 0%nat p 1) as (info & addr & q & H1 & H2 & H3 & _); [rewrite Ep; reflexivity|exact Hpc|unfold PROCESS_CNT; split; [discriminate|reflexivity]|].
  exists info, addr. split; [exact H1|]. split; [exact H2|exact H3].
Defined.

Lemma startup_completes_witness :
  exists b s, rtc (start_step two_hosts true) (start_state (start_example b)) s /\ Forall (fun p => pc p = Started) (processes s).
Proof.
  destruct start_example_new as [b Hnew]. exists b.
  exact (startup_completes a_page two_hosts start_hosts 0 0 {| db_ := ∅ |} {| db_ := ∅ |} (start_example b) start_hosts_ok Hnew
    (start_state (start_example b)) (rtc_refl _ _)).
Defined.

(** Two seconds are no synchronization: when the server thread of an instance has not
    come as far, the lock service cannot call it back and stops. *)
Theorem startup_race (b : Buffer) :
  exists s, rtc (start_step two_hosts false) (start_state (start_example b)) s /\ instance_step two_hosts 0 s = Fault Assert.
Proof.
  eexists. split.
  - eapply rtc_l; [apply lock_server_starts|].
    do 4 (eapply rtc_l; [eapply (instance_goes _ _ _ _ 0%nat); [reflexivity|discriminate|reflexivity]|]). apply rtc_refl.
  - reflexivity.
Qed.

(** ** Ports *)

(** The servers listen at the ports of the configuration file, where the clients
    call them. *)
Theorem server_ports (members : list (Z * string * string)) (id port : Z) (ip : string) :
  head (filter (fun e => e.1.1 = id) members) = Some (id, ip, Parser.dec_text port) -> Schema.free_of ":"%char ip -> 0 <= port < 2 ^ 16 ->
  RunInstanceServer (Parser.read_hosts members ∅) id = Ret port /\ (id = -1 -> RunLockServiceServer (Parser.read_hosts members ∅) = Ret port).
Proof.
  intros Hm Hip Hp.
  assert (forall a, Schema.free_of ":"%char a -> Start_port (a +:+ ":" +:+ Parser.dec_text port) = Ret port) as Hport.
  { intros a Ha. unfold Start_port. change (a +:+ ":" +:+ ?t) with (a +:+ String ":" t). rewrite Schema.break_app by done. apply Parser.stoi_dec. lia. }
  unfold RunInstanceServer, RunLockServiceServer. rewrite !Parser.read_hosts_lookup, !lookup_empty. split.
  - rewrite Hm. cbn [fmap option_fmap option_map from_option fst snd]. by apply Hport.
  - intros ->. rewrite Hm. cbn [fmap option_fmap option_map from_option fst snd].
    change (Datatypes.id (ip +:+ ":" +:+ ?t)) with (ip +:+ String ":" t). rewrite Schema.break_app by done. by apply Hport.
Qed.

Lemma server_ports_witness :
  RunLockServiceServer (Parser.read_hosts [(-1, "10.0.0.1", "50051"); (0, "10.0.0.2", "50052")]%string ∅) = Ret 50051
  /\ RunInstanceServer (Parser.read_hosts [(-1, "10.0.0.1", "50051"); (0, "10.0.0.2", "50052")]%string ∅) 0 = Ret 50052.
Proof.
  split.
  - refine (proj2 (server_ports [(-1, "10.0.0.1", "50051"); (0, "10.0.0.2", "50052")]%string (-1) 50051 "10.0.0.1" _ _ _) eq_refl); [reflexivity..|lia].
  - refine (proj1 (server_ports [(-1, "10.0.0.1", "50051"); (0, "10.0.0.2", "50052")]%string 0 50052 "10.0.0.2" _ _ _)); [reflexivity..|lia].
Defined.
