(* ===== verification/Util.v ===== *)
(** * db2: timers and key order ([util/profiler.h], [util/numbercomparator.h])

    The profiler adds up intervals between readings of the clock, which are
    arguments.  The comparator orders keys by length first; decimal keys are ordered
    by value. *)

From S2P Require Import Prelude Config IndexText.

(** ** Profiler *)

(** Times in nanoseconds.  [src/util/profiler.h:73-76 finished_] *)
Record Profiler := mkProfiler {
  start_ : Z;
  end_ : Z;
  finished_ : bool;
  count_ : Z;
}.

(** [src/util/profiler.h:13-15 Profiler] *)
Definition new_Profiler : Profiler := mkProfiler 0 0 false 0.

(** [src/util/profiler.h:22-25 Start] *)
Definition Start (now : Z) (p : Profiler) : Profiler := mkProfiler now (end_ p) false (count_ p).

(** [src/util/profiler.h:32-37 End] *)
Definition End_ (now : Z) (p : Profiler) : Profiler := mkProfiler (start_ p) now true (count_ p + (now - start_ p)).

(** [src/util/profiler.h:42-47 Elapsed] *)
Definition Elapsed (now : Z) (p : Profiler) : Profiler := if negb (finished_ p) then End_ now p else p.

(** [duration_cast] rounds towards zero.
    [src/util/profiler.h:49-51 Nanos] *)
Definition Nanos (p : Profiler) : Z := u64 (count_ p).

(** [src/util/profiler.h:53-55 Micros] *)
Definition Micros (p : Profiler) : Z := u64 (count_ p ÷ 10 ^ 3).

(** [src/util/profiler.h:57-59 Millis] *)
Definition Millis (p : Profiler) : Z := u64 (count_ p ÷ 10 ^ 6).

(** [src/util/profiler.h:61-63 Seconds] *)
Definition Seconds (p : Profiler) : Z := u64 (count_ p ÷ 10 ^ 9).

(** [src/util/profiler.h:65-67 Clear] *)
Definition Clear (p : Profiler) : Profiler := mkProfiler (start_ p) (end_ p) (finished_ p) 0.

(** A timer that is started and stopped again and again. *)
Definition timed (p : Profiler) (l : list (Z * Z)) : Profiler := foldl (fun p '(a, b) => End_ b (Start a p)) p l.

Lemma timed_count (p : Profiler) (l : list (Z * Z)) : count_ (timed p l) = count_ p + foldr Z.add 0 ((fun '(a, b) => b - a) <$> l).
Proof.
  revert p. induction l as [|[a b] l IH]; intros p; [cbn; lia|]. change (timed p ((a, b) :: l)) with (timed (End_ b (Start a p)) l).
  rewrite IH. cbn. lia.
Qed.

Lemma quot_unit (n k : Z) : 0 <= n < 2 ^ 64 -> 0 < k -> u64 (n ÷ k) = n / k.
Proof.
  intros Hn Hk. rewrite Z.quot_div_nonneg by lia. apply u64_id. split; [apply Z.div_pos; lia|]. apply Z.le_lt_trans with n; [|lia].
  apply Z.div_le_upper_bound; nia.
Qed.

(** The profiler shows the sum of the intervals, in every unit rounded down; after
    [Clear] it starts over. *)
Theorem profiler_total (l : list (Z * Z)) (p : Profiler) :
  let total := foldr Z.add 0 ((fun '(a, b) => b - a) <$> l) in
  0 <= total < 2 ^ 63 ->
  Nanos (timed (Clear p) l) = total /\ Micros (timed (Clear p) l) = total / 10 ^ 3
  /\ Millis (timed (Clear p) l) = total / 10 ^ 6 /\ Seconds (timed (Clear p) l) = total / 10 ^ 9.
Proof.
  intros total Ht. unfold Nanos, Micros, Millis, Seconds. rewrite timed_count. change (count_ (Clear p)) with 0. fold total. rewrite Z.add_0_l.
  split_and!; [apply u64_id; unfold is_u64; lia|apply quot_unit; lia..].
Qed.

Lemma profiler_total_witness : Micros (timed (Clear new_Profiler) [(1000, 4500); (10000, 12000)]) = 5.
Proof. exact (proj1 (proj2 (profiler_total [(1000, 4500); (10000, 12000)] new_Profiler ltac:(cbn; lia)))). Defined.

(** [Elapsed] is said to tell how far along the timer is; it also stops it, and the
    time until then is counted again by [End]. *)
Theorem profiler_elapsed_twice (t0 t1 t2 : Z) (p : Profiler) :
  count_ (End_ t2 (Elapsed t1 (Start t0 p))) = count_ p + (t2 - t0) + (t1 - t0)
  /\ count_ (Elapsed t2 (Elapsed t1 (Start t0 p))) = count_ p + (t1 - t0).
Proof. cbn. lia. Qed.

(** ** Keys *)

(** The sign of what [memcmp] returns: bytes are compared as numbers without sign. *)
Fixpoint memcmp (a b : bytes) (n : nat) : Z :=
  match n, a, b with
  | S n, x :: a, y :: b => if Z_of_byte x =? Z_of_byte y then memcmp a b n else Z.sgn (Z_of_byte x - Z_of_byte y)
  | _, _, _ => 0
  end.

(** [src/include/leveldb/slice.h:100-110 Slice::compare] *)
Definition Slice_compare (a b : bytes) : Z :=
  let min_len := if (length a <? length b)%nat then length a else length b in
  let r := memcmp a b min_len in
  if r =? 0 then if (length a <? length b)%nat then -1 else if (length b <? length a)%nat then 1 else r else r.

(** [src/util/numbercomparator.h:19-26 Compare] *)
Definition Compare (a b : bytes) : Z :=
  if (length a =? length b)%nat then Slice_compare a b else if (length b <? length a)%nat then 1 else -1.

Lemma Compare_same_length (a b : bytes) : length a = length b -> Compare a b = memcmp a b (length a).
Proof.
  intros E. unfold Compare, Slice_compare. rewrite E, Nat.eqb_refl, Nat.ltb_irrefl. cbn zeta. by destruct (Z.eqb_spec (memcmp a b (length b)) 0) as [->|].
Qed.

(** The last bytes decide if the ones before do not. *)
Lemma memcmp_app (a b : bytes) (x y : Byte.byte) :
  length a = length b ->
  memcmp (a ++ [x]) (b ++ [y]) (S (length a)) = if memcmp a b (length a) =? 0 then Z.sgn (Z_of_byte x - Z_of_byte y) else memcmp a b (length a).
Proof.
  revert b. induction a as [|c a IH]; intros [|d b] E; [|done|done|].
  - cbn. destruct (Z.eqb_spec (Z_of_byte x) (Z_of_byte y)) as [->|]; [by rewrite Z.sub_diag|done].
  - cbn [app length memcmp] in *. destruct (Z.eqb_spec (Z_of_byte c) (Z_of_byte d)); [apply IH; lia|].
    rewrite (proj2 (Z.eqb_neq _ _)); [done|]. rewrite Z.sgn_null_iff. lia.
Qed.

Lemma Compare_app (a b : bytes) (x y : Byte.byte) :
  Compare (a ++ [x]) (b ++ [y]) = if Compare a b =? 0 then Z.sgn (Z_of_byte x - Z_of_byte y) else Compare a b.
Proof.
  destruct (decide (length a = length b)) as [E|Hne].
  - rewrite (Compare_same_length a b) by done. rewrite Compare_same_length by (rewrite !length_app; cbn; lia).
    rewrite length_app, Nat.add_1_r. by apply memcmp_app.
  - unfold Compare. rewrite !length_app. cbn [length]. rewrite !(proj2 (Nat.eqb_neq _ _)) by lia.
    destruct (Nat.ltb_spec (length b) (length a)); [rewrite (proj2 (Nat.ltb_lt _ _)) by lia|rewrite (proj2 (Nat.ltb_ge _ _)) by lia]; done.
Qed.

(** *** The order *)

Lemma memcmp_opp (a b : bytes) (n : nat) : memcmp b a n = - memcmp a b n.
Proof.
  revert a b. induction n as [|n IH]; intros [|x a] [|y b]; try done. cbn [memcmp]. rewrite (Z.eqb_sym (Z_of_byte y)).
  destruct (Z_of_byte x =? Z_of_byte y); [apply IH|]. rewrite <- Z.sgn_opp. f_equal. lia.
Qed.

Lemma memcmp_eq (a b : bytes) : length a = length b -> memcmp a b (length a) = 0 -> a = b.
Proof.
  revert b. induction a as [|x a IH]; intros [|y b] E Hc; [done..|]. cbn [length memcmp] in *. destruct (Z.eqb_spec (Z_of_byte x) (Z_of_byte y)) as [Exy|Hne].
  - rewrite (IH b) by (done || lia). f_equal. by rewrite <- (byte_of_Z_of_byte x 0), Exy, byte_of_Z_of_byte.
  - rewrite Z.sgn_null_iff in Hc. lia.
Qed.

Lemma memcmp_refl (a : bytes) (n : nat) : memcmp a a n = 0.
Proof. revert a. induction n as [|n IH]; intros [|x a]; try done. cbn [memcmp]. by rewrite Z.eqb_refl. Qed.

Lemma memcmp_trans (a b c : bytes) (n : nat) :
  length a = n -> length b = n -> length c = n -> memcmp a b n < 0 -> memcmp b c n < 0 -> memcmp a c n < 0.
Proof.
  revert a b c. induction n as [|n IH]; intros [|x a] [|y b] [|z c] Ha Hb Hc Hab Hbc; try done. cbn [length memcmp] in *.
  destruct (Z.eqb_spec (Z_of_byte x) (Z_of_byte y)) as [->|], (Z.eqb_spec (Z_of_byte y) (Z_of_byte z)) as [Eyz|].
  - eapply (IH a b c); lia.
  - done.
  - rewrite <- Eyz. by rewrite (proj2 (Z.eqb_neq _ _)).
  - rewrite (proj2 (Z.eqb_neq _ _)) by lia. lia.
Qed.

Lemma Compare_cases (a b : bytes) :
  (length a < length b)%nat /\ Compare a b = -1 \/ (length b < length a)%nat /\ Compare a b = 1
  \/ length a = length b /\ Compare a b = memcmp a b (length a).
Proof.
  destruct (decide (length a = length b)) as [E|Hne]; [right; right; split; [done|by apply Compare_same_length]|]. unfold Compare.
  rewrite (proj2 (Nat.eqb_neq _ _)) by done. destruct (Nat.ltb_spec (length b) (length a)); [right; left|left]; split; done || lia.
Qed.

(** [Compare] is a strict total order on the keys. *)
Theorem Compare_order (a b c : bytes) :
  (Compare a b = 0 <-> a = b) /\ Compare b a = - Compare a b /\ (Compare a b < 0 -> Compare b c < 0 -> Compare a c < 0).
Proof.
  split; [|split].
  - split; [|intros ->; rewrite Compare_same_length by done; apply memcmp_refl].
    destruct (Compare_cases a b) as [[_ ->]|[[_ ->]|[E ->]]]; [done..|]. by apply memcmp_eq.
  - destruct (Compare_cases a b) as [[H1 ->]|[[H1 ->]|[E ->]]], (Compare_cases b a) as [[H2 ->]|[[H2 ->]|[E2 ->]]]; try lia.
    rewrite E2. apply memcmp_opp.
  - intros Hab Hbc. destruct (Compare_cases a b) as [[H1 E1]|[[H1 E1]|[H1 E1]]], (Compare_cases b c) as [[H2 E2]|[[H2 E2]|[H2 E2]]]; try lia;
      destruct (Compare_cases a c) as [[H3 E3]|[[H3 E3]|[H3 E3]]]; try lia.
    rewrite E3. apply (memcmp_trans a b c); rewrite ?H1 in *; congruence || lia.
Qed.

(** *** Decimal keys *)

Lemma dec_S (fuel : nat) (n : Z) (acc : bytes) :
  dec (S fuel) n acc = if n <? 10 then digit_byte (n mod 10) :: acc else dec fuel (n / 10) (digit_byte (n mod 10) :: acc).
Proof. done. Qed.

Lemma dec_acc (fuel : nat) (n : Z) (acc : bytes) : dec fuel n acc = dec fuel n [] ++ acc.
Proof.
  revert n acc. induction fuel as [|fuel IH]; intros n acc; [done|]. cbn [dec]. destruct (n <? 10); [done|].
  rewrite IH, (IH _ [_]), <- app_assoc. done.
Qed.

Lemma dec_fuel (f f' : nat) (n : Z) (acc : bytes) : (0 < f <= f')%nat -> 0 <= n < 10 ^ Z.of_nat f -> dec f n acc = dec f' n acc.
Proof.
  revert f' n acc. induction f as [|f IH]; intros [|f'] n acc Hf Hn; [lia..|]. cbn [dec]. destruct (Z.ltb_spec n 10); [done|].
  rewrite Nat2Z.inj_succ, Z.pow_succ_r in Hn by lia. apply IH; [|split; [apply Z.div_pos; lia|apply Z.div_lt_upper_bound; lia]].
  destruct f; [cbn in Hn; lia|lia].
Qed.

Lemma show_eq (n : Z) : is_u64 n -> show n = if n <? 10 then [digit_byte n] else show (n / 10) ++ [digit_byte (n mod 10)].
Proof.
  intros Hn. unfold is_u64 in Hn. unfold show. rewrite (dec_S 19 n). destruct (Z.ltb_spec n 10); [by rewrite Z.mod_small by lia|].
  rewrite dec_acc. f_equal. apply (dec_fuel 19 20); [lia|]. split; [apply Z.div_pos; lia|]. apply Z.div_lt_upper_bound; [lia|].
  change (10 * 10 ^ Z.of_nat 19) with 100000000000000000000. lia.
Qed.

Lemma digit_byte_Z (d : Z) : 0 <= d < 10 -> Z_of_byte (digit_byte d) = 48 + d.
Proof.
  intros Hd. assert (d = 0 \/ d = 1 \/ d = 2 \/ d = 3 \/ d = 4 \/ d = 5 \/ d = 6 \/ d = 7 \/ d = 8 \/ d = 9) as Hc by lia.
  by destruct_or! Hc; subst d.
Qed.

Lemma show_length_pos (n : Z) : (0 < length (show n))%nat.
Proof. unfold show. rewrite (dec_S 19). destruct (n <? 10); [cbn; lia|]. rewrite dec_acc, length_app. cbn [length]. lia. Qed.

(** Keys that are written as decimal numbers are in the order of the numbers. *)
Theorem Compare_decimal (n m : Z) : is_u64 n -> is_u64 m -> Compare (show n) (show m) = Z.sgn (n - m).
Proof.
  intros Hn. assert (0 <= n) as Hn0 by apply Hn. revert n Hn0 m Hn.
  refine (Zlt_0_ind (fun n => forall m, is_u64 n -> is_u64 m -> _) _). intros n IH Hn0 m Hn Hm. unfold is_u64 in *.
  pose proof (Z.div_mod n 10 ltac:(lia)) as En. pose proof (Z.mod_pos_bound n 10 ltac:(lia)).
  pose proof (Z.div_mod m 10 ltac:(lia)) as Em. pose proof (Z.mod_pos_bound m 10 ltac:(lia)).
  rewrite (show_eq n), (show_eq m) by done. destruct (Z.ltb_spec n 10), (Z.ltb_spec m 10).
  - rewrite Compare_same_length by done. cbn [memcmp length]. rewrite !digit_byte_Z by lia.
    destruct (Z.eqb_spec (48 + n) (48 + m)); [replace (n - m) with 0 by lia; done|f_equal; lia].
  - rewrite Z.sgn_neg by lia. unfold Compare. rewrite length_app. cbn [length]. pose proof (show_length_pos (m / 10)).
    rewrite (proj2 (Nat.eqb_neq _ _)), (proj2 (Nat.ltb_ge _ _)) by lia. done.
  - rewrite Z.sgn_pos by lia. unfold Compare. rewrite length_app. cbn [length]. pose proof (show_length_pos (n / 10)).
    rewrite (proj2 (Nat.eqb_neq _ _)), (proj2 (Nat.ltb_lt _ _)) by lia. done.
  - rewrite Compare_app, IH by lia. rewrite !digit_byte_Z by lia. destruct (Z.eqb_spec (Z.sgn (n / 10 - m / 10)) 0) as [E|E].
    + rewrite Z.sgn_null_iff in E. f_equal. lia.
    + rewrite Z.sgn_null_iff in E. destruct (Z.lt_total (n / 10) (m / 10)) as [|[|]]; [rewrite !Z.sgn_neg by lia; done|lia|rewrite !Z.sgn_pos by lia; done].
Qed.

Lemma Compare_decimal_witness : Compare (show 99) (show 100) = -1 /\ Slice_compare (show 99) (show 100) = 1.
Proof. split; [exact (Compare_decimal 99 100 ltac:(by vm_compute) ltac:(by vm_compute))|reflexivity]. Defined.
