(* ===== verification/Instances.v ===== *)
(** * db2: one table, several instances
    ([instance/concurrency_control/row_mvcc.cpp], [instance/manager_instance.cpp])

    Every instance has its own multi-version rows and its own clock, and all of
    them keep the table in one storage.  Here the storage is shared directly:
    what one instance writes is there for the others at once, which is the most
    the transfer of pages can deliver.  Transactions run one after the other. *)

From S2P Require Import Prelude Config RowStore RowMvcc RowMvccInv RowMvccState RowMvccServe Mvcc MvccCorrect.
From S2P Require Import Txn YcsbTxn Thread.
From S2P Require Catalog.

(** ** Transactions of several instances *)

Section Shared.
Context {S : Type} `{RowStore S}.

(** The instance with the storage in the state [d]. *)
Definition on_store (d : S) (s : inst S) : inst S :=
  mkInst (mvcc_array s) (i_txns s) d (all_ts s) (i_timestamp s).

Record world := mkWorld {
  w_insts : gmap Z (inst S);
  w_store : S;
}.

(** The last eight bytes, which a write stamps, of the row an access was given. *)
Definition seen_by (s : inst S) (a : option Access) : res Z :=
  a ← deref a;
  r ← deref_row (a_data a) s;
  b ← deref (Catalog.row_ r);
  load_u64 b (Catalog.size_ r - 8).

(** The first transaction of thread [thd] of instance [i], with the values in
    its rows: it draws its timestamp, makes its requests and ends. *)
Definition run_at (tuple_size i thd : Z) (reqs : list ycsb_request) (w : world)
    : res (RC * list Z * world) :=
  s ← at_ (w_insts w !! i);
  let '(ts, s) := get_next_ts (on_store (w_store w) s) in
  s ← AddTs thd ts (set_ts thd ts s);
  '(rc, tm, s) ← execute tuple_size reqs (init_txn_man thd) s;
  seen ← foldM (fun l a => x ← seen_by s a; Ret (l ++ [x])) [] (take (length reqs) (accesses tm));
  Ret (rc, seen, mkWorld (<[i := s]> (w_insts w)) (i_db s)).

Definition run_all (tuple_size : Z) (sched : list (Z * Z * list ycsb_request)) (w : world)
    : res (list (RC * list Z) * world) :=
  foldM (fun '(outs, w) '(i, thd, reqs) =>
    '(rc, seen, w) ← run_at tuple_size i thd reqs w;
    Ret (outs ++ [(rc, seen)], w)) ([], w) sched.
End Shared.
Arguments world : clear implicits.

(** ** Rows in memory *)

Section Stale.
Context {S : Type} `{RowStore S}.

(** The outcome of an operation, with the storage in the state [d]. *)
Definition moved {A} (d : S) (x : res (A * inst S)) : res (A * inst S) :=
  '(a, s) ← x; Ret (a, on_store d s).

Lemma moved_bind {A B} (d : S) (m : res (A * inst S)) (k k' : A * inst S -> res (B * inst S)) :
  (forall a s, k' (a, on_store d s) = moved d (k (a, s))) ->
  moved d m ≫= k' = moved d (m ≫= k).
Proof. intros Hk. destruct m as [[a s]| |f]; simpl; [apply Hk|done|done]. Qed.

Lemma deref_row_moved (d : S) (p : option rptr) (s : inst S) :
  deref_row p (on_store d s) = deref_row p s.
Proof.
  unfold deref_row, row_state. destruct p as [[key l]|]; simpl; [|done].
  by destruct (mvcc_array s !! key) as [[m h]|].
Qed.

Lemma access_read_moved (tid key : Z) (d : S) (s : inst S) (row : option rloc) m h :
  mvcc_array s !! key = Some (m, h) -> latest_row m <> None ->
  access_row key tid R_REQ row (on_store d s) = moved d (access_row key tid R_REQ row s).
Proof.
  intros Hm Hl. unfold access_row, row_state. cbn [mvcc_array on_store]. rewrite Hm.
  destruct (latest_row m) as [l|] eqn:El; [|done].
  unfold access, access_read, ensure_latest. simpl. rewrite El.
  destruct (i_txns s !! tid) as [t|]; simpl; [|done].
  destruct (t_ts t <? oldest_wts m); [done|]. destruct (latest_wts m <? t_ts t).
  - destruct (exists_prewrite m && (prewrite_ts m <? t_ts t)); [|done].
    by destruct (buffer_req R_REQ tid (t_ts t) m).
  - destruct (find_version (t_ts t) (write_history m) 0 0 None) as [i|]; simpl; [|by rewrite El].
    destruct (write_history m !! i) as [e|]; simpl; [|done]. by destruct (bool_decide _).
Qed.

Lemma GetRow_moved (tid key : Z) (d : S) (s : inst S) (row : option rptr) m h :
  mvcc_array s !! key = Some (m, h) -> latest_row m <> None ->
  GetRow key RD tid row (on_store d s) = moved d (GetRow key RD tid row s).
Proof.
  intros Hm Hl. unfold GetRow. rewrite bool_decide_true by done.
  rewrite (access_read_moved _ _ _ _ _ m h Hm Hl). apply moved_bind. intros rc s'.
  cbn [i_txns on_store]. destruct (i_txns s' !! tid) as [t|]; simpl; [|done].
  destruct (bool_decide (rc = RCOK)); [done|]. destruct (bool_decide (rc = WAIT)); [|done].
  by destruct (ts_ready t).
Qed.

(** A read of a row whose latest version is in memory, which every transaction
    that touched the row leaves there, gives the same row object, the same
    manager and the same instance whatever the storage holds, and leaves the
    storage alone: what other instances have written is not seen. *)
Theorem cached_row_read (tuple_size key : Z) (tm : txn_man) (s : inst S) m h (d : S) :
  mvcc_array s !! key = Some (m, h) -> latest_row m <> None ->
  get_row tuple_size key RD tm (on_store d s) = moved d (get_row tuple_size key RD tm s).
Proof.
  intros Hm Hl. unfold get_row. destruct (accesses tm !! Z.to_nat (row_cnt tm)) as [slot|]; simpl; [|done].
  destruct (match slot with Some a => _ | None => _ end) as [a tm'].
  rewrite (GetRow_moved _ _ _ _ _ m h Hm Hl). apply moved_bind. intros [rc p] s'.
  destruct (bool_decide (rc = Abort)); [done|]. cbn [i_txns on_store].
  destruct (i_txns s' !! _) as [t|]; simpl; [|done].
  destruct (bool_decide (p = _)); simpl; [|done]. rewrite deref_row_moved.
  destruct (deref_row p s') as [r| |f]; simpl; [|done|done].
  destruct (Catalog.key_ r =? key); simpl; [|done]. by destruct (Catalog.size_ r =? tuple_size).
Qed.
End Stale.

(** ** A run of two instances *)

Module TwoInstances.

Definition row (key x : Z) : bytes := bytes_of_u64 key ++ bytes_of_u64 x.

(** Rows 0 and 1, with the value 0. *)
Definition d0 : MapStore.t := MapStore.mk {[ 0 := row 0 0; 1 := row 1 0 ]}.

Definition w0 : world MapStore.t :=
  mkWorld {[ 1 := new_inst 2 16 d0; 2 := new_inst 2 16 d0 ]} d0.

Definition rd (key : Z) : ycsb_request := mkRequest RD key 0.
Definition wr (key : Z) : ycsb_request := mkRequest WR key 0.

(** A reader of row 0, a writer of both rows, a reader of both rows; the writer
    runs on instance [i]. *)
Definition schedule (i : Z) : list (Z * Z * list ycsb_request) :=
  [(1, 0, [rd 0]); (i, 1, [wr 0; wr 1]); (1, 2, [rd 0; rd 1])].

Definition outcome (sched : list (Z * Z * list ycsb_request)) : res (list (RC * list Z)) :=
  '(outs, _) ← run_all 16 sched w0; Ret outs.

(** A committed transaction that has the same value in both rows. *)
Definition whole (out : RC * list Z) : bool :=
  bool_decide (out.1 = RCOK) && match out.2 with [a; b] => a =? b | _ => true end.

Definition serial (sched : list (Z * Z * list ycsb_request)) : bool :=
  match outcome sched with Ret outs => forallb whole outs | _ => false end.


(** The reader of row 0 leaves the row in memory; the next read of it gives the
    same row object with the storage of before and with that of after the write. *)
Lemma cached_row_read_witness :
  match run_all 16 (take 1 (schedule 2)) w0 with
  | Ret (_, w) => exists s, w_insts w !! 1 = Some s
      /\ get_row 16 0 RD (init_txn_man 0) (on_store (MapStore.mk {[ 0 := row 0 9 ]}) s)
         = moved (MapStore.mk {[ 0 := row 0 9 ]}) (get_row 16 0 RD (init_txn_man 0) s)
  | _ => False
  end.
Proof.
  destruct (run_all 16 (take 1 (schedule 2)) w0) as [[outs w]| |] eqn:E;
    [|vm_compute in E; discriminate|vm_compute in E; discriminate].
  assert (exists s m h, w_insts w !! 1 = Some s /\ mvcc_array s !! 0 = Some (m, h)
    /\ latest_row m <> None) as (s & m & h & Hs & Hm & Hl).
  { vm_compute in E. injection E as <- <-. do 3 eexists. split; [vm_compute; reflexivity|].
    split; [vm_compute; reflexivity|]. vm_compute. discriminate. }
  exists s. split; [exact Hs|]. apply (cached_row_read 16 0 (init_txn_man 0) s m h); assumption.
Defined.
End TwoInstances.
